(* ===== verification/_CoqProject ===== *)
-Q . S2P
Prelude.v
JsString.v
Text.v
Number.v
Url.v
Types.v
Mask.v
Selection.v
PaneState.v
Navigation.v
Preview.v
Operations.v
Store.v
Persistence.v
RuntimePath.v
CommanderApi.v
ViewModel.v
Loader.v
Mutations.v
FileDialog.v
Keyboard.v
Sse.v
Conversation.v
Interaction.v
MessageView.v
AgentContext.v
Providers.v
Effects.v
AgentState.v
Execution.v
Conversations.v
PanelRuntime.v
Approval.v
AgentPanel.v
Streaming.v
TerminalSession.v
TerminalFeed.v
TerminalRecovery.v
TerminalSurface.v
Http.v
ProviderApi.v
AgentApi.v
TerminalApi.v
FilesApi.v
ServicesApi.v
SettingsApi.v
Api.v
Preferences.v
ProviderSettings.v
PreviewTable.v
Dockview.v
Panels.v
Workspaces.v
SharedModel.v
SettingsTexts.v
SettingsForms.v
McpSettings.v
PluginSettings.v
RemoteProfiles.v
Rely.v
WidgetTexts.v
FilesPanel.v
PreviewPanel.v
PathEdit.v
PendingBar.v
DialogView.v
ConversationNavigator.v
TerminalWidget.v
AppSidebar.v
Composer.v
AiPanelView.v
Theme.v
SettingsSections.v
RuntimeSection.v
SettingsShell.v
ProviderView.v
ShellBars.v
MessageBlocks.v
DomId.v
PanelHost.v
