(* ===== verification/Prelude.v ===== *)
(** * Verification of the Rune Terminal frontend

    Rune Terminal is a desktop workspace: a Go core that owns terminals, files
    and agents, a Tauri shell, and a TypeScript frontend
    ([src/frontend/src]) that talks to the core over HTTP.  This development
    models the frontend's own logic: the commander (a dual-pane file manager),
    the agent panel, the terminal sessions, the clients of the backend, the
    settings, and the shell with its workspaces and panels.

    ** How the parts interact

    The commander keeps its widgets in one effector store.  A key press goes
    through the handlers ([Keyboard]) to an action, and so does a control of
    the pending bar or the header ([PendingBar]), of the path editor
    ([PathEdit]) and of the file dialog ([DialogView]).  An action dispatches
    events of the store ([Store]), starts a load of a directory ([Loader]),
    opens or saves a file ([FileDialog]), or runs a mutation ([Mutations]).
    The reducers of the store use the pure modules below them: rows of a pane
    ([PaneState]), cursor and selection ([Selection]), masks ([Mask]), panes
    and history ([Navigation]), pending operations ([Operations]) and their
    previews ([Preview]).  A debounced writer stores the changes
    ([Persistence]); the rendered state is computed from a widget
    ([ViewModel]).

    The agent panel is one state ([AgentState]) with callbacks that await the
    backend: a prompt is classified ([Interaction]) and becomes a message, a
    question, a plan that waits for its approval, or a command ([Approval],
    [Execution]); conversations, providers and contexts have callbacks of
    their own ([Conversations], [PanelRuntime], [Providers], [AgentContext]).
    A prompt for the backend is a submission ([Streaming]): the bytes of its
    stream are cut into events ([Sse]) that change the messages and the audit
    ([Conversation]), which [MessageView] shows.  [AgentPanel] composes all of
    it; [ConversationNavigator] is the menu of its conversations.

    A terminal widget has a session that all its views share
    ([TerminalSession]): a snapshot, a stream and a reconnect timer.
    [TerminalFeed] composes the sessions with their streams, [TerminalRecovery]
    is about their timers and flags, and [TerminalSurface] writes the output of
    a session to the emulator.

    Everything above reaches the backend through clients that share the
    transport and the runtime context ([Http]).  [Api] is the type of all
    calls, one and many at a time.  The settings sections
    ([ProviderSettings], [McpSettings], [PluginSettings], [RemoteProfiles]) and
    the preferences ([Preferences]) are states with calls of these clients.

    The shell keeps workspaces ([Workspaces]), each the layout of a dock of
    panels ([Dockview], [Panels]), and small stores that the widgets share
    ([SharedModel]).  A panel of the dock shows a terminal, files, a preview or
    a commander and registers its terminal for the agent ([PanelHost],
    [FilesPanel], [PreviewPanel], [PreviewTable]); the bar of workspaces and the
    action rail are around the dock ([ShellBars]).

    Widgets are composed with what they show.  A terminal widget
    ([TerminalWidget]) hands the latest command over as a prompt, which waits in
    [SharedModel] until the sidebar ([AppSidebar]) gives it to the agent panel;
    the composer ([Composer]) submits the draft that [AiPanelView] gives it, and
    the blocks of the messages ([MessageBlocks]) answer, approve and cancel.  The
    sections of the settings ([SettingsSections], [RuntimeSection],
    [SettingsShell], [ProviderView]) are controls over [Preferences] and
    [ProviderSettings].

    ** Files and sources (below [src/frontend/src])

    General:
    - [Prelude]: JavaScript arrays as lists, stable sorting, hints, tactics.
    - [JsString]: strings of code units; the host locale as the class [Locale].
    - [Text]: texts in any script in their UTF-8 encoding.
    - [Number]: numbers that people type and backends send.
    - [Url]: [encodeURIComponent] and [URLSearchParams].
    - [Effects]: asynchronous functions as trees of effects and requests, and
      the systems of calls in flight; [Rely]: what a call knows across its
      awaits when the others keep to a relation, and changes that a flag of the
      state keeps apart.

    Commander ([features/commander], [widgets/commander]):
    - [Types]: [model/types.ts], [commander-defaults.ts], and the panes and
      widgets of the witnesses.
    - [Mask], [Selection]: [model/store-selection.ts].  [PaneState]:
      [model/pane-state.ts].  [Navigation]: [model/store-navigation.ts].
      [Preview]: [model/operation-preview.ts].  [Operations]:
      [model/store-operations.ts].
    - [Store]: [model/store.ts], [model/store-widget-state.ts].  [Persistence]:
      [model/persistence.ts], [model/store-persistence.ts].  [ViewModel]:
      [model/view-model.ts].
    - [Loader], [Mutations]: [loadPaneDirectory] with its callers and the life
      of the hook that mounts a widget, and [confirmPendingOperationAsync], [resolvePendingTransferConflictAsync] and
      [performTransferMutation] of [model/hooks.ts].  [FileDialog]:
      [model/file-dialog-controller.ts].
    - [Keyboard]: [model/keyboard-handlers.ts], [model/keyboard.ts] and
      [commanderActions] of [model/hooks.ts].
    - [PathEdit], [PendingBar], [DialogView]: the path editor, the pending bar
      with the header and the rows, and the file dialog as components
      ([commander-widget.tsx], [commander-widget.shared.tsx] and the files of
      the controls).
    - [RuntimePath]: the pure part of [shared/api/runtime.ts].  [CommanderApi]:
      answers and errors of [features/commander/api/client.ts].

    Agent ([features/agent], [widgets/ai]):
    - [Sse]: the stream readers of [features/agent/api/client.ts] and
      [features/terminal/api/client.ts].  [Conversation]:
      [model/panel-state.ts].  [Interaction]: [model/interaction-flow.ts],
      [chat-message-utils.ts].  [MessageView]: [model/chat-message-view.ts].
    - [AgentContext], [Providers], [Execution], [Conversations],
      [PanelRuntime], [Approval], [Streaming]: the files
      [model/agent-panel-*.ts] and the callbacks of [model/use-agent-panel.ts]
      that call them.  [AgentState]: the state of that hook.  [AgentPanel]: all
      callbacks as one machine.
    - [ProviderSettings]: [model/provider-settings-draft.ts],
      [model/use-agent-provider-settings.ts].
    - [ConversationNavigator]: [widgets/ai/ai-panel-header-widget.tsx].
      [Composer]: [ai-composer-widget.tsx] with [searchable-multi-select.tsx].
      [AiPanelView]: [ai-panel-widget.tsx].  [MessageBlocks]: the blocks that a
      message is shown as ([ai-chat-message-widget.tsx],
      [*-message-block.tsx]).

    Terminal ([features/terminal], [widgets/terminal]):
    - [TerminalSession], [TerminalFeed], [TerminalRecovery]:
      [model/use-terminal-session.ts].  [TerminalSurface]:
      [shared/ui/components/terminal-surface.tsx].
    - [TerminalWidget]: [terminal-widget.tsx] with its header
      ([terminal-status-header.tsx]) and its controls in the dock.

    Clients:
    - [Http]: what all clients have copies of, and the context of
      [shared/api/runtime.ts].  [ProviderApi], [AgentApi], [TerminalApi],
      [FilesApi], [ServicesApi], [SettingsApi]: the clients of providers, the
      agent, terminals, files and workspaces, MCP servers, remote profiles and
      plugins, and settings.  [Api]: all calls, one and many at a time.

    Settings, shell and panels:
    - [Preferences]: the preference hooks of terminals, composer, runtime,
      window title and locale.
    - [SettingsForms], [McpSettings], [PluginSettings], [RemoteProfiles]: the
      sections of services of [widgets/settings].  [SettingsSections],
      [RuntimeSection]: the sections of terminals, composer and runtime.
      [SettingsShell]: [settings-shell-widget.tsx], which mounts them.
      [ProviderView]: [agent-provider-settings-widget.tsx].
    - [SettingsTexts], [WidgetTexts]: the tables of texts in the four languages
      of the settings and the shell, and of the panels.  [Theme]:
      [features/theme/model/theme-provider.tsx].
    - [Dockview], [Panels], [Workspaces], [SharedModel]: the panels and their
      ids, what opens and closes them, the workspaces of [app/], and
      [shared/model].
    - [FilesPanel], [PreviewTable], [PreviewPanel]: [widgets/files],
      [widgets/preview].  [PanelHost]: [widgets/panel], what a panel of the dock
      shows, its modals and its tab, and the list of terminal sessions.
    - [ShellBars]: [shell-topbar-widget.tsx], [right-action-rail-widget.tsx].
      [AppSidebar]: [app/app-ai-sidebar.tsx] and the window handlers of
      [App.tsx].  [DomId]: [shared/ui/dom-id.tsx].

    A definition has the name of the function it models.  Where one function is
    split, the parts have names of their own and a comment says which part of
    the function each one is.

    ** Conventions

    - A record is a type of the code; [option] stands for [undefined], [null]
      or an absent property.  Where the code tells an absent property from an
      undefined one ([hasOwnProperty]) the type is a nested [option].
    - Spreads of objects are setters that name every field.
    - What a component shows is a record of texts and buttons; a button has its
      label, whether it is disabled, and the event or call of its click, so that
      what is shown and what the handlers accept can be compared.
    - In the commander a string is a sequence of code units below 256, with the
      case maps of ASCII; comparison and case maps of the host are the class
      [Locale], and the theorems about the order assume only [LocaleLaws] (a
      total preorder).  Elsewhere, where people type prompts and settings, a
      string is a text in UTF-8 ([Text]).
    - Numbers are integers, or rationals with [NaN] and infinities where people
      type them.  Sizes, counters, timestamps and cursors stay below 2^53 in
      the code, where doubles are exact; negative indexes and [%] keep the sign
      rules of JavaScript ([Z.rem]).
    - [Record<string, T>] is a [gmap], or a list of bindings where the order of
      the keys counts.  The aliasing of objects plays no part: the reducers
      never mutate, they return new objects.  The records of terminal sessions
      are the exception: they are shared and mutated, and kept in a heap.
    - An asynchronous function is modelled by what it does between two awaits,
      in one of two ways.  [Loader], [FileDialog] and [Streaming] keep the
      calls in flight in their state, and an event is the start of a call or
      the arrival of an answer.  The others are trees of [Effects]: a tree
      updates the shared state, awaits requests, and returns or throws; a
      system of trees answers the calls in any order, with events in between.
      [Mutations] is a tree too, with a branch for every answer.
    - A React component is a state machine: an event is a handler of a control
      or a rendering with other properties, followed by the effects that the
      change triggers; what a handler calls outside is its output.  The refs of
      a hook ([useRef]) are fields of its state.  A callback reads the state at
      the call, which is the state of the last rendering; where effects run
      between the two it is given the rendering ([Approval.submitDraftOf]).

    ** Parameters

    Code that is not the repository's is a parameter, with what is relied on as
    laws; the theorems hold for every instance and the witnesses name one.
    - [Locale] ([JsString]): comparison and case maps of the host.
    - [StorageCodec] ([Persistence]) and [JsonStore] ([Workspaces]): [JSON] and
      the schema library at the local storage, with the law that what is
      written is read back; [parsePayload] ([Sse]): [JSON.parse] of an event.
    - [Zod] ([TerminalApi]): what a schema of the library accepts.
    - [RuntimeHost] ([Http]): the environment of the build; [DateHost]
      ([MessageView]): [Date.parse] outside of the ISO format.
    - [Dockview] with [DockviewLaws]: the library of the dock; whether it
      refuses to add a panel is an argument where a panel is created
      ([ShellBars]).
    - Case maps on any script and the formats of dates are arguments of the
      definitions that use them ([ConversationNavigator]).

    ** What the theorems show

    - The store: in every reachable store each widget is well formed; the row
      order is the unique stable sort of the directory ([Store], [PaneState]).
    - Selection: ranges, and masks as wildcards through the regular expressions
      that the code emits ([Selection], [Mask]).
    - Names: batch renames that are all ok are safe, clone names are free
      ([Preview]).
    - Races: the last load, the last submission and the last action win
      whatever the order of the answers; mutations but the skipping of a
      conflict are exclusive, and all release their flag; what a cancelled
      submission still receives changes nothing but by one closing snapshot; a
      listing is of the path that is shown ([Loader], [Mutations], [Streaming],
      [FilesPanel], [PreviewPanel]).
    - Safety across parts: no key press and no control of the bar changes files
      unless it confirms the operation that is shown, and what they list and
      read is that of the active pane; a confirmation sends the request of its
      operation and overwrites only what was announced as a conflict; and
      nothing reaches a terminal from the agent that the user did not type or
      approve ([Keyboard], [PendingBar], [Mutations], [AgentPanel]).
    - Progress: an approved execution and every session callback end after a
      bounded number of answers; the execution frees the panel, and the
      callbacks release their flags, but for that of a failed recovery; and the
      wait for output ends ([AgentPanel], [TerminalRecovery], [Execution]).
    - Streams and sessions: a stream cut anywhere delivers its payloads, the
      messages hold their own text, and a session shows a snapshot and what the
      one stream behind it delivers ([Sse], [Conversation], [TerminalFeed]).
    - Clients: every call of the backend sends exactly one authorised request
      that a server reads as it was meant, but for the ids of providers that
      would need an encoding; its errors are those that the client says, and
      one call loads the context for all ([Api], [TerminalApi]).
    - Settings: drafts belong to what is selected, values are in their ranges,
      and an unchanged form saves what it was made from, if its lines can hold
      it; the controls of the sections make one change at a time, of one value
      or of all by the reset, and only act on what they show
      ([Preferences], [ProviderSettings], [McpSettings], [SettingsSections],
      [ProviderView]); the chosen theme is shown ([Theme]).
    - The shell refines a bar of workspaces that keep their layouts, also
      across a restart, and shows a terminal once; the registry of terminals and
      the modals are those of the panels that are mounted, and the menus of the
      bar act on their workspace ([Workspaces], [Panels], [PanelHost],
      [ShellBars]).
    - Controls: the suggested paths are the reference ranking, keys walk the
      lists they show, and a confirmation deletes what was asked for
      ([PathEdit], [ConversationNavigator]); a flow that waits for the user has
      buttons that end the wait, a prompt that is handed over is submitted, and
      a command is run again as it is shown ([MessageBlocks], [AppSidebar],
      [TerminalWidget]).  Elements that are tagged have numbers of their own
      ([DomId]).

    The [Example]s state what is surprising in the code on concrete inputs, for
    instance misaligned ids of a transfer ([Operations.toggle_order_misaligns]),
    errors that are never shown ([Store.load_error_never_shown]), a line end
    torn between chunks ([Sse.split_line_end_breaks_event]), a cancelled prompt
    that is sent ([Streaming.cancelled_prompt_is_sent]), a template that the
    bar blocks and Enter sends ([PendingBar.enter_overwrites_blocked_template]).

    ** Bounds

    The clone name loop has the code's own bound of 999 candidates, and
    [suggestCommanderCloneName_free] says when it suffices.  [takeBlocks] has
    the length of the buffer as fuel; every turn takes two units of it, and
    [blocksOf_unfold] is the loop without fuel.  The wait for output polls as
    often as its clock allows, and [waitForTerminalOutput_ends] bounds it.  The
    delays are the code's own: 120 ms for the writer, 700 ms for the typeahead,
    half a second to four seconds for a reconnect.

    ** Not modelled

    - Rendering: React's scheduling and batching, styles and layout, focus and
      scrolling beyond the flags that handlers read, the icons, and the busy
      overlay with its particles, whose sizes are square roots and decimal
      fractions of pixels.
    - The libraries: [fetch], Tauri, the decoding of bytes, effector's queue (an
      event is one step), the dock's own layout and events, and the terminal
      emulator with its search, links and themes ([terminal-surface.tsx] is
      modelled up to what it writes and reports).
    - The wiring of hooks: dependency arrays and the objects that pass setters
      and callbacks on; the callbacks themselves are modelled where they are
      defined, and read the state of the last rendering.
    - The Go core and the Rust shell, which the frontend sees only through
      answers, and the tests, scripts and documentation. *)
From stdpp Require Export base gmap strings list pretty sorting.
From Stdlib Require Export ZArith Lia.

(** * Scopes, hint databases and tactics *)

Declare Scope js_scope.
Delimit Scope js_scope with js.
Open Scope Z_scope.

Create HintDb commander.
#[export] Hint Constants Transparent : commander.

(** Splits every [if decide], [match] on a boolean or option in the goal and
    closes the branches that are contradictory. *)
Ltac case_all :=
  repeat (case_match; simplify_eq/=).

(** Reduces boolean connectives in hypotheses to propositions. *)
Ltac bool_prop :=
  repeat match goal with
  | H : (_ && _)%bool = true |- _ => apply andb_true_iff in H as [? ?]
  | H : (_ || _)%bool = false |- _ => apply orb_false_iff in H as [? ?]
  | H : negb _ = true |- _ => apply negb_true_iff in H
  | H : negb _ = false |- _ => apply negb_false_iff in H
  | H : bool_decide _ = true |- _ => apply bool_decide_eq_true in H
  | H : bool_decide _ = false |- _ => apply bool_decide_eq_false in H
  end.

(** * JavaScript arrays

    Arrays are lists.  [indexOf]-like searches answer [None] where JavaScript
    answers [-1]; reading outside the array answers [None] where JavaScript
    answers [undefined]. *)

Section Arrays.
Context {A : Type}.
Implicit Types (p : A -> bool) (l : list A).

(** [l.findIndex(p)] *)
Fixpoint findIndex p l : option nat :=
  match l with
  | [] => None
  | x :: l' => if p x then Some 0%nat else S <$> findIndex p l'
  end.

(** [l.find(p)] *)
Fixpoint find p l : option A :=
  match l with
  | [] => None
  | x :: l' => if p x then Some x else find p l'
  end.

(** [l.some(p)] *)
Definition some p l : bool := existsb p l.

(** [l.filter(p)] *)
Definition filterb p l : list A := List.filter p l.

(** [l.filter((_, index) => index !== i)] *)
Fixpoint removeAt (i : nat) l : list A :=
  match l, i with
  | [], _ => []
  | _ :: l', O => l'
  | x :: l', S i' => x :: removeAt i' l'
  end.

(** [l[l.length - 1]], [undefined] on the empty array. *)
Definition lastOf l : option A := last l.

(** [l.slice(0, -1)] *)
Definition dropLast l : list A := take (length l - 1) l.

(** [l.slice(a, b)] for indices that are not negative. *)
Definition slice (a b : nat) l : list A := take (b - a) (drop a l).

(** [l[i]] for an integer index that can be negative. *)
Definition at_ l (i : Z) : option A :=
  if decide (0 <= i) then l !! Z.to_nat i else None.

End Arrays.

Section ArraysEq.
Context {A : Type} `{EqDecision A}.

(** [l.includes(x)] and [new Set(l).has(x)] *)
Definition includes (x : A) (l : list A) : bool := bool_decide (x ∈ l).

(** [Array.from(new Set(l))]: the first occurrence of each value, in order. *)
Fixpoint dedupe_from (seen l : list A) : list A :=
  match l with
  | [] => []
  | x :: l' =>
      if includes x seen then dedupe_from seen l' else x :: dedupe_from (x :: seen) l'
  end.
Definition dedupe (l : list A) : list A := dedupe_from [] l.

End ArraysEq.

(** [a.filter(Boolean)] after a [map] that can answer [null]. *)
Definition mapFilter {A B} (f : A -> option B) (l : list A) : list B := omap f l.

(** [o ?? d] *)
Definition nullish {A} (o : option A) (d : A) : A := default d o.
Notation "o ?? d" := (nullish o d) (at level 60, right associativity) : js_scope.

(** * Stable sorting

    [Array.prototype.sort] with a consistent comparator returns the stable
    sorted permutation of the array (ECMA-262, 23.1.3.30).  The insertion sort
    below computes it, and [stable_sorted_unique] shows that any other stable
    sorting of the same array is the same list. *)

Section Sort.
Context {A : Type} (cmp : A -> A -> Z).

Fixpoint insert_sorted (x : A) (l : list A) : list A :=
  match l with
  | [] => [x]
  | y :: l' => if decide (cmp x y <= 0) then x :: y :: l' else y :: insert_sorted x l'
  end.

Definition sort (l : list A) : list A := foldr insert_sorted [] l.

(** A comparator is consistent: reflexive, antisymmetric in sign, transitive. *)
Class Comparator : Prop := {
  cmp_self : forall x, cmp x x = 0;
  cmp_flip : forall x y, cmp x y <= 0 <-> 0 <= cmp y x;
  cmp_trans : forall x y z, cmp x y <= 0 -> cmp y z <= 0 -> cmp x z <= 0
}.

(** The elements of [l] that the comparator does not distinguish from [x]. *)
Definition same_class (x : A) (l : list A) : list A :=
  filterb (fun y => bool_decide (cmp x y = 0)) l.

(** [l'] lists the elements of [l] in comparator order, ties in their order in [l]. *)
Definition stable_sort_of (l l' : list A) : Prop :=
  StronglySorted (fun x y => cmp x y <= 0) l' /\
  forall x, same_class x l' = same_class x l.

End Sort.

Arguments cmp_self {A cmp _} x.
Arguments cmp_flip {A cmp _} x y.
Arguments cmp_trans {A cmp _} x y z.

(** * Lemmas *)

Section ArrayLemmas.
Context {A : Type}.
Implicit Types (p : A -> bool) (l : list A).

Lemma findIndex_Some p l i :
  findIndex p l = Some i ->
  exists x, l !! i = Some x /\ p x = true /\
    forall j y, (j < i)%nat -> l !! j = Some y -> p y = false.
Proof.
  revert i. induction l as [|x l IH]; intros i; simpl; [done|].
  destruct (p x) eqn:Hp.
  - intros [= <-]. exists x. repeat split; auto. intros j y Hj. lia.
  - destruct (findIndex p l) as [k|] eqn:Hk; simpl; [|done].
    intros [= <-]. destruct (IH k eq_refl) as (y & Hy & Hpy & Hmin).
    exists y. repeat split; auto.
    intros [|j] z Hj Hz; simplify_eq/=; [done|].
    apply (Hmin j); auto with lia.
Qed.

Lemma findIndex_None p l :
  findIndex p l = None <-> forall x, x ∈ l -> p x = false.
Proof.
  induction l as [|x l IH]; simpl.
  - split; [|done]. intros _ y Hy. by apply elem_of_nil in Hy.
  - destruct (p x) eqn:Hp.
    + split; [done|]. intros H. rewrite (H x) in Hp; [done|left].
    + destruct (findIndex p l); simpl.
      * split; [done|]. intros H.
        destruct IH as [_ IH]. discriminate IH. intros y Hy. apply H. by right.
      * split; [|done]. intros _ y [->|Hy]%elem_of_cons; [done|]. by apply IH.
Qed.

Lemma findIndex_lt p l i : findIndex p l = Some i -> (i < length l)%nat.
Proof. intros (x & Hx & _)%findIndex_Some. by eapply lookup_lt_Some. Qed.

Lemma find_Some p l x :
  find p l = Some x -> x ∈ l /\ p x = true.
Proof.
  induction l as [|y l IH]; simpl; [done|].
  destruct (p y) eqn:Hp.
  - intros [= <-]. split; [left|done].
  - intros [? ?]%IH. split; [by right|done].
Qed.

Lemma find_None p l :
  find p l = None <-> forall x, x ∈ l -> p x = false.
Proof.
  induction l as [|x l IH]; simpl.
  - split; [|done]. intros _ y Hy. by apply elem_of_nil in Hy.
  - destruct (p x) eqn:Hp.
    + split; [done|]. intros H. rewrite (H x) in Hp; [done|left].
    + rewrite IH. split.
      * intros H y [->|Hy]%elem_of_cons; auto.
      * intros H y Hy. apply H. by right.
Qed.

Lemma some_true p l : some p l = true <-> exists x, x ∈ l /\ p x = true.
Proof.
  unfold some. rewrite existsb_exists.
  split; intros (x & Hx & Hp); exists x; by rewrite list_elem_of_In in *.
Qed.

Lemma some_false p l : some p l = false <-> forall x, x ∈ l -> p x = false.
Proof.
  rewrite <- not_true_iff_false, some_true. split.
  - intros H x Hx. destruct (p x) eqn:E; [|done]. exfalso. eauto.
  - intros H (x & Hx & Hp). rewrite H in Hp; done.
Qed.

Lemma elem_of_filterb p l x : x ∈ filterb p l <-> x ∈ l /\ p x = true.
Proof. unfold filterb. rewrite !list_elem_of_In. apply filter_In. Qed.

Lemma filterb_all p l : (forall x, x ∈ l -> p x = true) -> filterb p l = l.
Proof.
  unfold filterb. induction l as [|x l IH]; intros H; simpl; [done|].
  rewrite H by left. f_equal. apply IH. intros y Hy. apply H. by right.
Qed.

Lemma filterb_none p l : (forall x, x ∈ l -> p x = false) -> filterb p l = [].
Proof.
  unfold filterb. induction l as [|x l IH]; intros H; simpl; [done|].
  rewrite H by left. apply IH. intros y Hy. apply H. by right.
Qed.

Lemma filterb_ext p1 p2 l :
  (forall x, x ∈ l -> p1 x = p2 x) -> filterb p1 l = filterb p2 l.
Proof.
  unfold filterb. induction l as [|x l IH]; intros H; simpl; [done|].
  rewrite (H x) by left. rewrite IH; [done|]. intros y Hy. apply H. by right.
Qed.

Lemma filterb_filterb p1 p2 l :
  filterb p1 (filterb p2 l) = filterb (fun x => p2 x && p1 x)%bool l.
Proof.
  unfold filterb. induction l as [|x l IH]; simpl; [done|].
  destruct (p2 x) eqn:E; simpl; rewrite IH; done.
Qed.

Lemma filterb_sublist p l : filterb p l `sublist_of` l.
Proof.
  unfold filterb. induction l as [|x l IH]; simpl; [constructor|].
  destruct (p x); by constructor.
Qed.

Lemma filterb_perm p l l' : l ≡ₚ l' -> filterb p l ≡ₚ filterb p l'.
Proof.
  unfold filterb. induction 1 as [|x l l' _ IH|x y l|l1 l2 l3 _ IH1 _ IH2]; simpl.
  - done.
  - destruct (p x); by rewrite IH.
  - destruct (p x), (p y); try done. apply perm_swap.
  - by rewrite IH1.
Qed.

Lemma NoDup_filterb p l : NoDup l -> NoDup (filterb p l).
Proof. unfold filterb. rewrite !NoDup_ListNoDup. apply List.NoDup_filter. Qed.

Lemma filterb_map {B} (f : B -> A) p (l : list B) :
  filterb p (f <$> l) = f <$> filterb (fun x => p (f x)) l.
Proof.
  unfold filterb. induction l as [|x l IH]; [done|].
  rewrite fmap_cons. simpl. destruct (p (f x)); rewrite IH; done.
Qed.

Lemma lastOf_app l x : lastOf (l ++ [x]) = Some x.
Proof. apply last_snoc. Qed.

Lemma dropLast_app l x : dropLast (l ++ [x]) = l.
Proof.
  unfold dropLast. rewrite length_app; simpl.
  replace (length l + 1 - 1)%nat with (length l) by lia. by rewrite take_app_length.
Qed.

Lemma lastOf_dropLast l x : lastOf l = Some x -> l = dropLast l ++ [x].
Proof.
  unfold lastOf. intros (l' & ->)%last_Some. by rewrite dropLast_app.
Qed.

Lemma removeAt_delete i l : removeAt i l = delete i l.
Proof.
  revert i. induction l as [|x l IH]; intros [|i]; simpl; auto. by rewrite IH.
Qed.

(** [find] answers the first element that fits. *)
Lemma find_first p l x :
  find p l = Some x ->
  exists k, l !! k = Some x /\ p x = true /\ forall j y, (j < k)%nat -> l !! j = Some y -> p y = false.
Proof.
  induction l as [|z l IH]; simpl; [done|]. destruct (p z) eqn:E.
  - intros [= ->]. exists 0%nat. split_and!; [done|done|lia].
  - intros (k & Hk & Hp & Hmin)%IH. exists (S k). split_and!; [done|done|].
    intros [|j] y Hj Hy; simplify_eq/=; [done|]. apply (Hmin j); [lia|done].
Qed.

(** A list rotated by [n]. *)
Lemma lookup_rotated n l k :
  (n <= length l)%nat -> (k < length l)%nat ->
  (drop n l ++ take n l) !! k = l !! ((n + k) mod length l)%nat.
Proof.
  intros Hn Hk. destruct (decide (k < length l - n)%nat) as [E|E].
  - rewrite lookup_app_l by (rewrite length_drop; lia). rewrite lookup_drop.
    by rewrite Nat.mod_small by lia.
  - rewrite lookup_app_r by (rewrite length_drop; lia). rewrite length_drop.
    rewrite lookup_take_lt by lia. f_equal.
    apply (Nat.mod_unique _ _ 1); lia.
Qed.

End ArrayLemmas.

Section ArrayEqLemmas.
Context {A : Type} `{EqDecision A}.

Lemma includes_true (x : A) l : includes x l = true <-> x ∈ l.
Proof. apply bool_decide_eq_true. Qed.

Lemma includes_false (x : A) l : includes x l = false <-> x ∉ l.
Proof. apply bool_decide_eq_false. Qed.

Lemma elem_of_dedupe_from (seen l : list A) x :
  x ∈ dedupe_from seen l <-> x ∈ l /\ x ∉ seen.
Proof.
  revert seen. induction l as [|y l IH]; intros seen; simpl.
  - set_solver.
  - destruct (includes y seen) eqn:E.
    + apply includes_true in E. rewrite IH. set_solver.
    + apply includes_false in E. rewrite elem_of_cons, IH.
      destruct (decide (x = y)) as [->|]; set_solver.
Qed.

Lemma elem_of_dedupe (l : list A) x : x ∈ dedupe l <-> x ∈ l.
Proof. unfold dedupe. rewrite elem_of_dedupe_from. set_solver. Qed.

Lemma dedupe_from_NoDup (seen l : list A) : NoDup (dedupe_from seen l).
Proof.
  revert seen. induction l as [|y l IH]; intros seen; simpl; [constructor|].
  destruct (includes y seen); [done|]. constructor; [|done].
  rewrite elem_of_dedupe_from. set_solver.
Qed.

Lemma dedupe_nil (l : list A) : dedupe l = [] <-> l = [].
Proof.
  split; [|by intros ->].
  destruct l as [|x l]; [done|]. intros H.
  assert (x ∈ dedupe (x :: l)) as Hx by (rewrite elem_of_dedupe; left).
  rewrite H in Hx. by apply elem_of_nil in Hx.
Qed.

End ArrayEqLemmas.

Section SortLemmas.
Context {A : Type} (cmp : A -> A -> Z) `{!Comparator cmp}.

Lemma cmp_total x y : cmp x y <= 0 \/ cmp y x <= 0.
Proof.
  destruct (Z.le_ge_cases (cmp x y) 0) as [|H]; [by left|].
  right. by apply (cmp_flip y x).
Qed.

Lemma cmp_eq_sym x y : cmp x y = 0 -> cmp y x = 0.
Proof.
  intros H. destruct (cmp_flip x y) as [H1 _]. destruct (cmp_flip y x) as [_ H2]. lia.
Qed.

Lemma cmp_eq_trans x y z : cmp x y = 0 -> cmp y z = 0 -> cmp x z = 0.
Proof.
  intros H1 H2. pose proof (cmp_eq_sym _ _ H1). pose proof (cmp_eq_sym _ _ H2).
  pose proof (cmp_trans x y z). pose proof (cmp_trans z y x).
  destruct (cmp_flip z x) as [? _]. lia.
Qed.

Lemma insert_sorted_perm x l : insert_sorted cmp x l ≡ₚ x :: l.
Proof.
  induction l as [|y l IH]; simpl; [done|]. case_decide; [done|].
  rewrite IH. constructor.
Qed.

Lemma sort_perm l : sort cmp l ≡ₚ l.
Proof.
  induction l as [|x l IH]; simpl; [done|]. by rewrite insert_sorted_perm, IH.
Qed.

Lemma insert_sorted_sorted x l :
  StronglySorted (fun x y => cmp x y <= 0) l ->
  StronglySorted (fun x y => cmp x y <= 0) (insert_sorted cmp x l).
Proof.
  induction 1 as [|y l Hl IH Hy]; simpl; [repeat constructor|].
  case_decide as Hxy.
  - constructor; [by constructor|]. constructor; [done|].
    eapply Forall_impl; [exact Hy|]. intros z Hz; simpl in Hz. by apply (cmp_trans x y z).
  - constructor; [done|].
    rewrite insert_sorted_perm. constructor; [|done].
    destruct (cmp_total x y); [lia|done].
Qed.

Lemma sort_sorted l : StronglySorted (fun x y => cmp x y <= 0) (sort cmp l).
Proof. induction l; simpl; [constructor|by apply insert_sorted_sorted]. Qed.

Lemma same_class_insert z x l :
  StronglySorted (fun x y => cmp x y <= 0) l ->
  same_class cmp z (insert_sorted cmp x l) = same_class cmp z (x :: l).
Proof.
  induction 1 as [|y l Hl IH Hy]; simpl; [done|].
  case_decide as Hxy; [done|].
  unfold same_class, filterb in *. simpl in *. rewrite IH.
  destruct (bool_decide (cmp z x = 0)) eqn:Ex, (bool_decide (cmp z y = 0)) eqn:Ey; try done.
  bool_prop. exfalso. apply Hxy.
  assert (cmp x y = 0); [|lia]. apply cmp_eq_trans with z; [by apply cmp_eq_sym|done].
Qed.

Lemma sort_stable l : stable_sort_of cmp l (sort cmp l).
Proof.
  split; [apply sort_sorted|]. intros z.
  induction l as [|x l IH]; [done|]. simpl sort.
  rewrite same_class_insert by apply sort_sorted.
  unfold same_class, filterb in *; simpl. by rewrite IH.
Qed.

Lemma stable_head x l y l' :
  StronglySorted (fun x y => cmp x y <= 0) (x :: l) ->
  StronglySorted (fun x y => cmp x y <= 0) (y :: l') ->
  (forall z, same_class cmp z (x :: l) = same_class cmp z (y :: l')) -> x = y.
Proof.
  intros Hl Hl' Hc.
  assert (forall a b m m', StronglySorted (fun x y => cmp x y <= 0) (b :: m') ->
    (forall z, same_class cmp z (a :: m) = same_class cmp z (b :: m')) -> cmp b a <= 0) as Hle.
  { intros a b m m' Hs H. specialize (H a). unfold same_class, filterb in H; simpl in H.
    rewrite (bool_decide_eq_true_2 (cmp a a = 0)) in H by apply cmp_self.
    assert (a ∈ b :: m') as [->|Ha]%elem_of_cons.
    { destruct (bool_decide (cmp a b = 0)); [simplify_eq/=; left|].
      right. assert (a ∈ filterb (fun y => bool_decide (cmp a y = 0)) m') as Hin
        by (unfold filterb; rewrite <- H; left).
      by apply elem_of_filterb in Hin as [? _]. }
    - rewrite cmp_self. lia.
    - apply StronglySorted_inv in Hs as [_ Hb]. rewrite Forall_forall in Hb. auto. }
  assert (cmp x y = 0) as Hxy.
  { pose proof (Hle x y l l' Hl' Hc) as H1.
    pose proof (Hle y x l' l Hl (fun z => eq_sym (Hc z))) as H2.
    destruct (cmp_flip y x) as [? _]. lia. }
  specialize (Hc x). unfold same_class, filterb in Hc; simpl in Hc.
  rewrite (bool_decide_eq_true_2 (cmp x x = 0)) in Hc by apply cmp_self.
  rewrite (bool_decide_eq_true_2 (cmp x y = 0)) in Hc by done. by simplify_eq.
Qed.

(** Any two stable sortings of the same array are the same array. *)
Lemma stable_sorted_unique l l1 l2 :
  stable_sort_of cmp l l1 -> stable_sort_of cmp l l2 -> l1 = l2.
Proof.
  intros [Hs1 H1] [Hs2 H2].
  assert (forall z, same_class cmp z l1 = same_class cmp z l2) as Hc
    by (intros z; by rewrite H1, H2).
  clear H1 H2 l. revert l2 Hs2 Hc.
  assert (forall z (m : list A), same_class cmp z (z :: m) <> []) as Hne.
  { intros z m. unfold same_class, filterb; simpl.
    rewrite bool_decide_eq_true_2 by apply cmp_self. done. }
  induction l1 as [|x l1 IH]; intros [|y l2] Hs2 Hc.
  - done.
  - destruct (Hne y l2). by rewrite <- Hc.
  - destruct (Hne x l1). by rewrite Hc.
  - assert (x = y) as -> by (by eapply stable_head). f_equal.
    inversion Hs1; inversion Hs2; subst. apply IH; auto.
    intros z. specialize (Hc z). unfold same_class, filterb in *; simpl in Hc.
    destruct (bool_decide (cmp z y = 0)); by simplify_eq.
Qed.

End SortLemmas.

(** ** Lists without duplicates under a map *)

Lemma NoDup_fmap_elem {A B} (f : A -> B) (l : list A) x y :
  NoDup (f <$> l) -> x ∈ l -> y ∈ l -> f x = f y -> x = y.
Proof.
  intros Hnd [i Hi]%list_elem_of_lookup_1 [j Hj]%list_elem_of_lookup_1 Hf.
  assert (i = j) as <-; [|by simplify_eq].
  eapply NoDup_lookup; [exact Hnd| |]; rewrite list_lookup_fmap; [by rewrite Hi|].
  rewrite Hj. simpl. by rewrite Hf.
Qed.

(** How many elements of [l] satisfy [p]. *)
Definition occurrences {A} (p : A -> bool) (l : list A) : nat := length (filterb p l).

Lemma filterb_app {A} (f : A -> bool) (l l' : list A) : filterb f (l ++ l') = filterb f l ++ filterb f l'.
Proof. apply List.filter_app. Qed.

Lemma occurrences_cons {A} (p : A -> bool) x l :
  occurrences p (x :: l) = ((if p x then 1 else 0) + occurrences p l)%nat.
Proof. unfold occurrences, filterb. simpl. by destruct (p x). Qed.

Lemma occurrences_pos {A} (p : A -> bool) l :
  (1 <= occurrences p l)%nat <-> exists i x, l !! i = Some x /\ p x = true.
Proof.
  split.
  - intros H. destruct (filterb p l) as [|x f] eqn:E; unfold occurrences in H.
    + rewrite E in H. simpl in H. lia.
    + assert (x ∈ filterb p l) as [[i Hi]%list_elem_of_lookup_1 Hx]%elem_of_filterb
        by (rewrite E; left). eauto.
  - intros (i & x & Hi & Hx). unfold occurrences.
    assert (x ∈ filterb p l) as Hin.
    { apply elem_of_filterb. split; [by eapply list_elem_of_lookup_2|done]. }
    destruct (filterb p l); [by apply elem_of_nil in Hin|simpl; lia].
Qed.

(** Two occurrences are two positions. *)
Lemma occurrences_two {A} (p : A -> bool) l i x :
  l !! i = Some x -> p x = true ->
  (2 <= occurrences p l)%nat <-> exists j y, j <> i /\ l !! j = Some y /\ p y = true.
Proof.
  revert i. induction l as [|z l IH]; intros [|i] Hi Hx; simplify_eq/=.
  - rewrite occurrences_cons, Hx. split.
    + intros H. destruct (proj1 (occurrences_pos p l)) as (j & y & Hj & Hy); [lia|].
      exists (S j), y. done.
    + intros ([|j] & y & Hne & Hj & Hy); [done|]. simpl in Hj.
      assert (1 <= occurrences p l)%nat; [|lia]. apply occurrences_pos. eauto.
  - rewrite occurrences_cons. destruct (p z) eqn:Hz.
    + split; [|intros _].
      * intros _. exists 0%nat, z. done.
      * assert (1 <= occurrences p l)%nat; [|lia]. apply occurrences_pos. eauto.
    + simpl. rewrite (IH i) by done. split.
      * intros (j & y & Hne & Hj & Hy). exists (S j), y. split_and!; [lia|done|done].
      * intros ([|j] & y & Hne & Hj & Hy); simpl in Hj; [congruence|].
        exists j, y. split_and!; [lia|done|done].
Qed.

#[export] Hint Resolve sort_sorted sort_perm NoDup_filterb : commander.
#[export] Hint Rewrite @elem_of_filterb @includes_true @includes_false @elem_of_dedupe : commander.
