(* ===== verification/JsString.v ===== *)
(** * Strings and the host locale

    The fragment of the JavaScript string library that the modelled code uses.
    A string is a sequence of code units below 256 ([string]); the case maps
    act on the ASCII letters and leave every other unit alone, and white space
    is the white space and line terminators of ECMA-262 below 256.  What the
    language leaves to the host ([localeCompare], [toLocaleLowerCase],
    [toLocaleUpperCase]) is the class [Locale]; [LocaleLaws] states what
    ECMA-402 promises of any host, and [ascii_locale] is a host. *)
From Stdlib Require Import Ascii String DecimalString DecimalNat DecimalFacts.
From stdpp Require Import strings.
From S2P Require Import Prelude.
Local Open Scope string_scope.
Local Open Scope nat_scope.

#[global] Arguments String.append !_ _ / : simpl nomatch.

(** ** Code units *)

Definition code (a : ascii) : nat := nat_of_ascii a.

(** White space and line terminators: tab, LF, VT, FF, CR, space, no-break space. *)
Definition is_space (a : ascii) : bool :=
  ((9 <=? code a) && (code a <=? 13)) || (code a =? 32) || (code a =? 160).

(** Line terminators, which the dot of a regular expression does not match. *)
Definition is_line_end (a : ascii) : bool := (code a =? 10) || (code a =? 13).

Definition is_digit (a : ascii) : bool := (48 <=? code a) && (code a <=? 57).
Definition is_upper (a : ascii) : bool := (65 <=? code a) && (code a <=? 90).
Definition is_lower (a : ascii) : bool := (97 <=? code a) && (code a <=? 122).
Definition is_letter (a : ascii) : bool := is_upper a || is_lower a.

Definition lower_unit (a : ascii) : ascii :=
  if is_upper a then ascii_of_nat (code a + 32) else a.
Definition upper_unit (a : ascii) : ascii :=
  if is_lower a then ascii_of_nat (code a - 32) else a.

Definition slash : ascii := "/".
Definition backslash : ascii := "\".
Definition dot : ascii := ".".
Definition dquote : ascii := ascii_of_nat 34.

(** ** Strings *)

Fixpoint str_map (f : ascii -> ascii) (s : string) : string :=
  match s with
  | EmptyString => EmptyString
  | String a s' => String (f a) (str_map f s')
  end.

Fixpoint str_all (p : ascii -> bool) (s : string) : bool :=
  match s with
  | EmptyString => true
  | String a s' => p a && str_all p s'
  end.

(** [s.toLowerCase()] *)
Definition toLowerCase (s : string) : string := str_map lower_unit s.

(** [Boolean(s)]: the empty string is false. *)
Definition truthy (s : string) : bool := negb (bool_decide (s = "")).

(** [o && f(o)]-style tests on a value that can be [null]: the empty string
    counts as absent. *)
Definition truthyOpt (o : option string) : option string :=
  match o with
  | Some s => if truthy s then Some s else None
  | None => None
  end.

(** [s.trimStart()], [s.trimEnd()] and [s.trim()] *)
Fixpoint trimStart (s : string) : string :=
  match s with
  | EmptyString => EmptyString
  | String a s' => if is_space a then trimStart s' else s
  end.

Fixpoint trimEnd (s : string) : string :=
  match s with
  | EmptyString => EmptyString
  | String a s' =>
      match trimEnd s' with
      | EmptyString => if is_space a then EmptyString else String a EmptyString
      | t => String a t
      end
  end.

Definition trim (s : string) : string := trimStart (trimEnd s).

(** [s.startsWith(p)] *)
Fixpoint startsWith (p s : string) : bool :=
  match p, s with
  | EmptyString, _ => true
  | String a p', String b s' => bool_decide (a = b) && startsWith p' s'
  | String _ _, EmptyString => false
  end.

(** [s.endsWith(p)] *)
Fixpoint endsWith (p s : string) : bool :=
  bool_decide (s = p) ||
  match s with
  | EmptyString => false
  | String _ s' => endsWith p s'
  end.

(** [s.includes(p)] *)
Fixpoint strIncludes (p s : string) : bool :=
  startsWith p s ||
  match s with
  | EmptyString => false
  | String _ s' => strIncludes p s'
  end.

(** [s.slice(0, n)] and [s.slice(n)] for [n] not negative. *)
Fixpoint strTake (n : nat) (s : string) : string :=
  match n, s with
  | S n', String a s' => String a (strTake n' s')
  | _, _ => EmptyString
  end.

Fixpoint strDrop (n : nat) (s : string) : string :=
  match n, s with
  | O, _ => s
  | S n', String _ s' => strDrop n' s'
  | S _, EmptyString => EmptyString
  end.

(** [s.lastIndexOf(c)] for one code unit, [None] where JavaScript answers [-1]. *)
Fixpoint lastIndexOf (c : ascii) (s : string) : option nat :=
  match s with
  | EmptyString => None
  | String a s' =>
      match lastIndexOf c s' with
      | Some i => Some (S i)
      | None => if bool_decide (a = c) then Some 0 else None
      end
  end.

(** [s.split(c)]: never empty. *)
Fixpoint splitOn (c : ascii) (s : string) : list string :=
  match s with
  | EmptyString => [EmptyString]
  | String a s' =>
      if bool_decide (a = c) then EmptyString :: splitOn c s'
      else match splitOn c s' with
           | w :: ws => String a w :: ws
           | [] => [String a EmptyString]
           end
  end.

(** [l.join(sep)] *)
Fixpoint join (sep : string) (l : list string) : string :=
  match l with
  | [] => EmptyString
  | [w] => w
  | w :: l' => w +:+ sep +:+ join sep l'
  end.

(** [s.replace(/c+$/g, "")] *)
Fixpoint stripTrailing (c : ascii) (s : string) : string :=
  match s with
  | EmptyString => EmptyString
  | String a s' =>
      match stripTrailing c s' with
      | EmptyString => if bool_decide (a = c) then EmptyString else String a EmptyString
      | t => String a t
      end
  end.

(** [String(n)] for a natural number. *)
Definition showNat (n : nat) : string := NilEmpty.string_of_uint (Nat.to_uint n).

(** [String(n)] for an integer. *)
Definition showZ (n : Z) : string := NilZero.string_of_int (Z.to_int n).

(** [s.padStart(width, "0")] *)
Definition padZeros (width : nat) (s : string) : string :=
  Nat.iter (width - String.length s) (String "0") s.

(** [Number.parseInt(s, 10)] of a string of digits. *)
Fixpoint parseDigits (acc : nat) (s : string) : nat :=
  match s with
  | EmptyString => acc
  | String a s' => parseDigits (acc * 10 + (code a - 48)) s'
  end.

(** ** The host locale *)

Class Locale := {
  localeCompare : string -> string -> Z;
  toLocaleLowerCase : string -> string;
  toLocaleUpperCase : string -> string
}.

Class LocaleLaws `{Locale} : Prop := {
  localeCompare_comparator :: Comparator localeCompare
}.

Section AsciiLocale.

(** Comparison by code unit. *)
Fixpoint compare_units (s t : string) : Z :=
  match s, t with
  | EmptyString, EmptyString => 0
  | EmptyString, _ => -1
  | _, EmptyString => 1
  | String a s', String b t' =>
      if Nat.eqb (code a) (code b) then compare_units s' t'
      else if Nat.ltb (code a) (code b) then -1 else 1
  end%Z.

#[global] Instance ascii_locale : Locale := {
  localeCompare := compare_units;
  toLocaleLowerCase := toLowerCase;
  toLocaleUpperCase := str_map upper_unit
}.

End AsciiLocale.

(** ** Lemmas *)

Lemma compare_units_self s : compare_units s s = 0%Z.
Proof. induction s as [|a s IH]; simpl; [done|]. by rewrite Nat.eqb_refl. Qed.

Lemma compare_units_flip s t : compare_units t s = (- compare_units s t)%Z.
Proof.
  revert t. induction s as [|a s IH]; intros [|b t]; simpl; try done.
  rewrite Nat.eqb_sym. destruct (Nat.eqb_spec (code a) (code b)) as [E|E]; [done|].
  destruct (Nat.ltb_spec (code b) (code a)), (Nat.ltb_spec (code a) (code b)); lia.
Qed.

Lemma compare_units_trans s t u :
  (compare_units s t <= 0 -> compare_units t u <= 0 -> compare_units s u <= 0)%Z.
Proof.
  revert t u. induction s as [|a s IH]; intros [|b t] [|c u]; simpl; try lia.
  repeat match goal with
  | |- context [?x =? ?y] => destruct (Nat.eqb_spec x y)
  | |- context [?x <? ?y] => destruct (Nat.ltb_spec x y)
  end; try lia. apply IH.
Qed.

#[global] Instance ascii_locale_laws : @LocaleLaws ascii_locale.
Proof.
  constructor. constructor; simpl.
  - apply compare_units_self.
  - intros s t. rewrite (compare_units_flip s t). lia.
  - apply compare_units_trans.
Qed.

Lemma truthy_true s : truthy s = true <-> s <> "".
Proof. unfold truthy. rewrite negb_true_iff, bool_decide_eq_false. done. Qed.

Lemma truthy_false s : truthy s = false <-> s = "".
Proof. unfold truthy. rewrite negb_false_iff, bool_decide_eq_true. done. Qed.

Lemma truthyOpt_Some o s : truthyOpt o = Some s <-> o = Some s /\ s <> "".
Proof.
  destruct o as [t|]; simpl; [|naive_solver].
  destruct (truthy t) eqn:E.
  - apply truthy_true in E. naive_solver.
  - apply truthy_false in E. naive_solver.
Qed.

Lemma append_assoc (s t u : string) : (s +:+ t) +:+ u = s +:+ (t +:+ u).
Proof. induction s as [|a s IH]; simpl; [done|]. by rewrite IH. Qed.

Lemma append_nil_r (s : string) : s +:+ "" = s.
Proof. induction s as [|a s IH]; simpl; [done|]. by rewrite IH. Qed.

Lemma length_append (s t : string) :
  String.length (s +:+ t) = String.length s + String.length t.
Proof. induction s as [|a s IH]; simpl; [done|]. by rewrite IH. Qed.

Lemma append_inj_l (s t u : string) : s +:+ t = s +:+ u -> t = u.
Proof. induction s as [|a s IH]; simpl; [done|]. intros [=]. auto. Qed.

Lemma append_inj_r (s t u : string) : s +:+ u = t +:+ u -> s = t.
Proof.
  revert t. induction s as [|a s IH]; intros [|b t] H; simpl in *; [done| | |].
  - apply (f_equal String.length) in H. simpl in H. rewrite length_append in H. lia.
  - apply (f_equal String.length) in H. simpl in H. rewrite length_append in H. lia.
  - injection H as -> H. by rewrite (IH t).
Qed.

Lemma startsWith_spec p s : startsWith p s = true <-> exists t, s = p +:+ t.
Proof.
  revert s. induction p as [|a p IH]; intros s; simpl; [naive_solver|].
  destruct s as [|b s]; [naive_solver|].
  rewrite andb_true_iff, bool_decide_eq_true, IH. naive_solver.
Qed.

Lemma strDrop_append s t : strDrop (String.length s) (s +:+ t) = t.
Proof. induction s as [|a s IH]; simpl; [by destruct t|done]. Qed.

Lemma strTake_append s t : strTake (String.length s) (s +:+ t) = s.
Proof. induction s as [|a s IH]; simpl; [done|]. by rewrite IH. Qed.

Lemma strTake_Drop n s : strTake n s +:+ strDrop n s = s.
Proof. revert n. induction s as [|a s IH]; intros [|n]; simpl; auto. by rewrite IH. Qed.

Lemma str_all_append p s t : str_all p (s +:+ t) = str_all p s && str_all p t.
Proof. induction s as [|a s IH]; simpl; [done|]. by rewrite IH, andb_assoc. Qed.

Lemma str_map_append f s t : str_map f (s +:+ t) = str_map f s +:+ str_map f t.
Proof. induction s as [|a s IH]; simpl; [done|]. by rewrite IH. Qed.

Lemma length_str_map f s : String.length (str_map f s) = String.length s.
Proof. induction s as [|a s IH]; simpl; [done|]. by rewrite IH. Qed.

Lemma lastIndexOf_None c s : lastIndexOf c s = None <-> str_all (fun a => negb (bool_decide (a = c))) s = true.
Proof.
  induction s as [|a s IH]; simpl; [done|].
  rewrite andb_true_iff, <- IH, negb_true_iff.
  destruct (lastIndexOf c s), (bool_decide (a = c)); naive_solver.
Qed.

(** The last index splits the string at the last occurrence. *)
Lemma lastIndexOf_app c s t :
  lastIndexOf c t = None ->
  lastIndexOf c (s +:+ String c t) = Some (String.length s).
Proof.
  intros Ht. induction s as [|a s IH]; simpl.
  - rewrite Ht. by rewrite bool_decide_eq_true_2.
  - by rewrite IH.
Qed.

Lemma lastIndexOf_Some c s i :
  lastIndexOf c s = Some i ->
  exists s1 s2, s = s1 +:+ String c s2 /\ String.length s1 = i /\ lastIndexOf c s2 = None.
Proof.
  revert i. induction s as [|a s IH]; intros i; simpl; [done|].
  destruct (lastIndexOf c s) as [j|] eqn:E.
  - intros [= <-]. destruct (IH j eq_refl) as (s1 & s2 & -> & <- & ?).
    by exists (String a s1), s2.
  - case_bool_decide as Ha; [|done]. intros [= <-]. subst. by exists "", s.
Qed.

(** ** Decimal numerals *)

Lemma showNat_inj n m : showNat n = showNat m -> n = m.
Proof.
  unfold showNat. intros H. apply Unsigned.to_uint_inj.
  assert (Some (Nat.to_uint n) = Some (Nat.to_uint m)) as [=]; [|done].
  rewrite <- !NilEmpty.usu. by rewrite H.
Qed.

Lemma lower_digits d : toLowerCase (NilEmpty.string_of_uint d) = NilEmpty.string_of_uint d.
Proof. unfold toLowerCase. induction d; simpl; rewrite ?IHd; done. Qed.

Lemma lower_showNat n : toLowerCase (showNat n) = showNat n.
Proof. apply lower_digits. Qed.

Lemma last_digit_uint d :
  NilEmpty.string_of_uint d = "" \/
  exists s c, NilEmpty.string_of_uint d = s +:+ String c "" /\ is_space c = false.
Proof.
  induction d as [|d IH|d IH|d IH|d IH|d IH|d IH|d IH|d IH|d IH|d IH]; [by left|..];
    right; simpl; (destruct IH as [->|(s & c & -> & Hc)];
      [exists ""; eexists; split; [reflexivity|done]
      |eexists (String _ s), c; split; [reflexivity|done]]).
Qed.

Lemma showNat_nonempty n : showNat n <> "".
Proof.
  unfold showNat. intros H.
  assert (Some (Nat.to_uint n) = Some Decimal.Nil) as [= Hn].
  { rewrite <- NilEmpty.usu. by rewrite H. }
  apply (f_equal Nat.of_uint) in Hn as Hz. rewrite Unsigned.of_to in Hz.
  simpl in Hz. by subst.
Qed.

(** ** Trimming around a text *)

Lemma trimEnd_append s c t :
  is_space c = false -> trimEnd ((s +:+ String c "") +:+ t) = (s +:+ String c "") +:+ trimEnd t.
Proof.
  intros Hc. induction s as [|a s IH]; simpl.
  - destruct (trimEnd t); [by rewrite Hc|done].
  - rewrite IH. by destruct s.
Qed.

Lemma trimStart_append s c t :
  is_space c = false -> trimStart (s +:+ String c t) = trimStart s +:+ String c t.
Proof.
  intros Hc. induction s as [|a s IH]; simpl; [by rewrite Hc|].
  by destruct (is_space a).
Qed.

(** *** Splitting *)

Local Open Scope list_scope.

(** The code unit [c] does not occur in [s]. *)
Definition no_unit (c : ascii) (s : string) : bool := str_all (fun a => negb (bool_decide (a = c))) s.

Lemma str_all_ext p q s : (forall a, p a = true -> q a = true) -> str_all p s = true -> str_all q s = true.
Proof.
  intros H. induction s as [|a s IH]; simpl; [done|].
  intros [Ha Hs]%andb_true_iff. by rewrite (H a), IH.
Qed.

Lemma no_unit_append c s t : no_unit c (s +:+ t) = no_unit c s && no_unit c t.
Proof. apply str_all_append. Qed.

Lemma str_all_eq p q s : (forall a, p a = q a) -> str_all p s = str_all q s.
Proof. intros H. induction s as [|a s IH]; simpl; [done|]. by rewrite H, IH. Qed.

Lemma splitOn_no_unit c s : no_unit c s = true -> splitOn c s = [s].
Proof.
  unfold no_unit. induction s as [|a s IH]; simpl; [done|].
  intros [Ha Hs]%andb_true_iff. apply negb_true_iff in Ha. by rewrite Ha, IH.
Qed.

Lemma splitOn_nonempty c s : splitOn c s <> [].
Proof.
  induction s as [|a s IH]; simpl; [done|]. case_bool_decide; [done|]. by destruct (splitOn c s).
Qed.

Lemma splitOn_app c s t : splitOn c (s +:+ String c t) = splitOn c s ++ splitOn c t.
Proof.
  induction s as [|a s IH]; simpl.
  - by rewrite bool_decide_eq_true_2.
  - case_bool_decide; [by rewrite IH|]. rewrite IH.
    pose proof (splitOn_nonempty c s). by destruct (splitOn c s).
Qed.

Lemma splitOn_join c l :
  Forall (fun s => no_unit c s = true) l -> l <> [] -> splitOn c (join (String c "") l) = l.
Proof.
  induction 1 as [|s l Hs _ IH]; [done|]. intros _. destruct l as [|s' l].
  - by apply splitOn_no_unit.
  - change (join (String c "") (s :: s' :: l)) with (s +:+ String c (join (String c "") (s' :: l))).
    rewrite splitOn_app, IH by done. by rewrite splitOn_no_unit.
Qed.

Lemma splitOn_all c p s :
  str_all p s = true ->
  Forall (fun w => no_unit c w = true /\ str_all p w = true) (splitOn c s).
Proof.
  induction s as [|a s IH]; simpl; [by repeat constructor|].
  intros [Ha Hs]%andb_true_iff. specialize (IH Hs). case_bool_decide as Hc.
  - by constructor.
  - destruct (splitOn c s) as [|w ws].
    + repeat constructor; unfold no_unit; simpl; [by rewrite bool_decide_eq_false_2|by rewrite Ha].
    + inversion IH as [|? ? [H1 H2] H3]; subst. constructor; [|done].
      unfold no_unit in *. simpl. rewrite bool_decide_eq_false_2 by done. by rewrite H1, Ha, H2.
Qed.
