(* ===== verification/Text.v ===== *)
(** * Texts that people type

    Prompts and answers are texts in any script, and the keyword tables of
    [frontend/src/features/agent/model/interaction-flow.ts] hold Russian words.
    A text is a [string] with the UTF-8 encoding of the code points.  A keyword
    is a part of a text exactly when its encoding is a part of the encoding,
    because no character's encoding starts inside of another one, so
    [strIncludes] is [includes].  [trimText] removes the white space of
    ECMA-262, and [lowerText] is [toLowerCase] on every letter whose lower case
    holds a letter of the ASCII or the Russian alphabet; other letters stay as
    they are, which no keyword can notice. *)
From Stdlib Require Import Ascii String.
From stdpp Require Import strings.
From S2P Require Import Prelude JsString.
Local Open Scope string_scope.
Local Open Scope list_scope.
Local Open Scope nat_scope.

(** ** Units of an encoding *)

Definition bytes (l : list nat) : string := foldr (fun n s => String (ascii_of_nat n) s) EmptyString l.

Definition is_ascii (a : ascii) : bool := code a <? 128.

(** ** White space *)

(** The white space and line terminators of ECMA-262: tab, LF, VT, FF, CR,
    space, U+00A0, U+1680, U+2000 to U+200A, U+2028, U+2029, U+202F, U+205F,
    U+3000 and U+FEFF. *)
Definition ascii_spaces : list string :=
  bytes <$> [[9]; [10]; [11]; [12]; [13]; [32]].
Definition wide_spaces : list string :=
  bytes <$> [[194; 160]; [225; 154; 128];
    [226; 128; 128]; [226; 128; 129]; [226; 128; 130]; [226; 128; 131]; [226; 128; 132]; [226; 128; 133];
    [226; 128; 134]; [226; 128; 135]; [226; 128; 136]; [226; 128; 137]; [226; 128; 138];
    [226; 128; 168]; [226; 128; 169]; [226; 128; 175]; [226; 129; 159]; [227; 128; 128]; [239; 187; 191]].
Definition spaces : list string := ascii_spaces ++ wide_spaces.

(** The first white space character of a text, and the last one. *)
Definition leadingSpace (s : string) : option string := find (fun w => startsWith w s) spaces.
Definition trailingSpace (s : string) : option string := find (fun w => endsWith w s) spaces.

(** [s.trimStart()], [s.trimEnd()], [s.trim()]; every turn removes a unit, so
    the length is enough fuel. *)
Fixpoint trimStartFuel (fuel : nat) (s : string) : string :=
  match fuel with
  | O => s
  | S n =>
      match leadingSpace s with
      | Some w => trimStartFuel n (strDrop (String.length w) s)
      | None => s
      end
  end.
Fixpoint trimEndFuel (fuel : nat) (s : string) : string :=
  match fuel with
  | O => s
  | S n =>
      match trailingSpace s with
      | Some w => trimEndFuel n (strTake (String.length s - String.length w) s)
      | None => s
      end
  end.
Definition trimStartText (s : string) : string := trimStartFuel (String.length s) s.
Definition trimEndText (s : string) : string := trimEndFuel (String.length s) s.
Definition trimText (s : string) : string := trimStartText (trimEndText s).

(** ** Lower case *)

(** [s.toLowerCase()]: the ASCII letters, U+0410 to U+042F, U+0400 to U+040F,
    and the two other letters whose lower case holds an ASCII letter: U+0130
    and the sign U+212A. *)
Fixpoint lowerText (s : string) : string :=
  match s with
  | EmptyString => EmptyString
  | String a s1 =>
      match s1 with
      | EmptyString => String (lower_unit a) EmptyString
      | String b s2 =>
          let two x y := String (ascii_of_nat x) (String (ascii_of_nat y) (lowerText s2)) in
          if code a =? 208 then
            if (128 <=? code b) && (code b <=? 143) then two 209 (code b + 16)
            else if (144 <=? code b) && (code b <=? 159) then two 208 (code b + 32)
            else if (160 <=? code b) && (code b <=? 175) then two 209 (code b - 32)
            else String a (lowerText s1)
          else if (code a =? 196) && (code b =? 176) then
            String "i" (two 204 135)
          else
            match s2 with
            | String c s3 =>
                if (code a =? 226) && (code b =? 132) && (code c =? 170)
                then String "k" (lowerText s3)
                else String (lower_unit a) (lowerText s1)
            | EmptyString => String (lower_unit a) (lowerText s1)
            end
      end
  end.

(** * Lemmas *)

Example lower_russian : lowerText "ПРОВЕРЬ Ёлку и Disk" = "проверь ёлку и disk".
Proof. reflexivity. Qed.
Example lower_kelvin : lowerText (bytes [226; 132; 170]) = "k".
Proof. reflexivity. Qed.
Example trim_wide : trimText (" " +:+ bytes [194; 160] +:+ "Р run " +:+ bytes [227; 128; 128]) = "Р run".
Proof. reflexivity. Qed.

Lemma ascii_not_lead a : is_ascii a = true -> code a =? 208 = false /\ code a =? 196 = false /\ code a =? 226 = false.
Proof. unfold is_ascii. intros H%Nat.ltb_lt. repeat split; apply Nat.eqb_neq; lia. Qed.

(** On ASCII texts it is the case map of [JsString]. *)
Lemma lowerText_ascii s : str_all is_ascii s = true -> lowerText s = toLowerCase s.
Proof.
  induction s as [|a s IH]; [done|]. cbn [str_all]. intros [Ha Hs]%andb_true_iff.
  destruct (ascii_not_lead a Ha) as (H1 & H2 & H3).
  unfold toLowerCase in *. cbn [lowerText str_map]. rewrite <- IH by done.
  destruct s as [|b [|c s]]; [done| |]; rewrite H1, H2, ?H3; done.
Qed.

(** A part of a text. *)
Lemma strIncludes_spec p s : strIncludes p s = true <-> exists u v, s = u +:+ p +:+ v.
Proof.
  split.
  - induction s as [|a s IH]; cbn [strIncludes]; intros H.
    + apply orb_true_iff in H as [H|H]; [|done]. apply startsWith_spec in H as [t ->]. by exists "", t.
    + apply orb_true_iff in H as [H|H].
      * apply startsWith_spec in H as [t ->]. by exists "", t.
      * destruct (IH H) as (u & v & ->). by exists (String a u), v.
  - intros (u & v & ->). induction u as [|a u IH].
    + assert (startsWith p ("" +:+ p +:+ v) = true) as H by (apply startsWith_spec; by exists v).
      destruct ("" +:+ p +:+ v); cbn [strIncludes]; by rewrite H.
    + cbn [String.append strIncludes]. rewrite IH. apply orb_true_r.
Qed.

Lemma strIncludes_trans p q s : strIncludes p q = true -> strIncludes q s = true -> strIncludes p s = true.
Proof.
  rewrite !strIncludes_spec. intros (u & v & ->) (u' & v' & ->).
  exists (u' +:+ u), (v +:+ v'). by rewrite !append_assoc.
Qed.

Lemma startsWith_sep p c s t :
  no_unit c p = true -> startsWith p (s +:+ String c t) = startsWith p s.
Proof.
  revert s. induction p as [|a p IH]; intros s Hp; [by destruct s|].
  cbn [no_unit str_all] in Hp. unfold no_unit in Hp. cbn [str_all] in Hp. apply andb_true_iff in Hp as [Ha Hp].
  destruct s as [|b s]; cbn [String.append startsWith].
  - apply negb_true_iff, bool_decide_eq_false in Ha. by rewrite bool_decide_eq_false_2.
  - by rewrite IH.
Qed.

(** A keyword without [c] is not a part of what [c] joins together unless it is
    a part of one side. *)
Lemma strIncludes_sep p c s t :
  no_unit c p = true -> p <> "" ->
  strIncludes p (s +:+ String c t) = strIncludes p s || strIncludes p t.
Proof.
  intros Hp Hne. induction s as [|b s IH].
  - cbn [String.append strIncludes]. destruct p as [|a p]; [done|].
    unfold no_unit in Hp. cbn [str_all] in Hp. apply andb_true_iff in Hp as [Ha _].
    apply negb_true_iff, bool_decide_eq_false in Ha. cbn [startsWith].
    by rewrite bool_decide_eq_false_2.
  - cbn [String.append strIncludes]. rewrite IH.
    change (String b (s +:+ String c t)) with (String b s +:+ String c t).
    rewrite startsWith_sep by done. by rewrite orb_assoc.
Qed.

(** ** Trimmed texts *)

(** A text without white space at its ends. *)
Definition trimmedText (s : string) : Prop := leadingSpace s = None /\ trailingSpace s = None.

Lemma spaces_nonempty w : w ∈ spaces -> 1 <= String.length w.
Proof.
  intros H. assert (Forall (fun w => 1 <= String.length w) spaces) as Hall by (repeat constructor).
  by apply (proj1 (Forall_forall _ _) Hall).
Qed.
Lemma leading_space_spec s w : leadingSpace s = Some w -> w ∈ spaces /\ startsWith w s = true.
Proof. unfold leadingSpace. by intros H%find_Some. Qed.
Lemma trailing_space_spec s w : trailingSpace s = Some w -> w ∈ spaces /\ endsWith w s = true.
Proof. unfold trailingSpace. by intros H%find_Some. Qed.
Lemma trailing_space_none s : trailingSpace s = None <-> forall w, w ∈ spaces -> endsWith w s = false.
Proof.
  unfold trailingSpace. split.
  - intros H. by apply find_None.
  - intros H. by apply find_None.
Qed.

Lemma endsWith_spec p s : endsWith p s = true <-> exists t, s = t +:+ p.
Proof.
  split.
  - induction s as [|a s IH]; cbn [endsWith]; intros [H|H]%orb_true_iff; try (by exists ""; apply bool_decide_eq_true in H).
    + done.
    + destruct (IH H) as [t ->]. by exists (String a t).
  - intros [t ->]. induction t as [|a t IH].
    + destruct p; cbn [String.append endsWith]; by rewrite bool_decide_eq_true_2.
    + cbn [String.append endsWith]. by rewrite IH, orb_true_r.
Qed.

Lemma trim_start_none fuel s : String.length s <= fuel -> leadingSpace (trimStartFuel fuel s) = None.
Proof.
  revert s. induction fuel as [|n IH]; intros s Hs; cbn [trimStartFuel].
  - destruct s; [done|cbn in Hs; lia].
  - destruct (leadingSpace s) as [w|] eqn:Hw; [|done]. apply IH.
    apply leading_space_spec in Hw as [Hw [t ->]%startsWith_spec]. apply spaces_nonempty in Hw.
    rewrite strDrop_append. rewrite length_append in Hs. lia.
Qed.
Lemma trim_end_none fuel s : String.length s <= fuel -> trailingSpace (trimEndFuel fuel s) = None.
Proof.
  revert s. induction fuel as [|n IH]; intros s Hs; cbn [trimEndFuel].
  - destruct s; [done|cbn in Hs; lia].
  - destruct (trailingSpace s) as [w|] eqn:Hw; [|done]. apply IH.
    apply trailing_space_spec in Hw as [Hw [t ->]%endsWith_spec]. apply spaces_nonempty in Hw.
    rewrite length_append in *. replace (String.length t + String.length w - String.length w) with (String.length t) by lia.
    rewrite strTake_append. lia.
Qed.
Lemma trim_start_suffix fuel s : exists t, s = t +:+ trimStartFuel fuel s.
Proof.
  revert s. induction fuel as [|n IH]; intros s; cbn [trimStartFuel]; [by exists ""|].
  destruct (leadingSpace s) as [w|] eqn:Hw; [|by exists ""].
  apply leading_space_spec in Hw as [_ [t ->]%startsWith_spec]. rewrite strDrop_append.
  destruct (IH t) as [u Hu]. exists (w +:+ u). by rewrite append_assoc, <- Hu.
Qed.

Lemma trim_trimmed s : trimmedText (trimText s).
Proof.
  unfold trimText, trimStartText. split; [by apply trim_start_none|].
  pose proof (trim_end_none (String.length s) s (le_n _)) as H. fold (trimEndText s) in H.
  destruct (trim_start_suffix (String.length (trimEndText s)) (trimEndText s)) as [t Ht].
  apply trailing_space_none. intros w Hw. destruct (endsWith w _) eqn:E; [|done].
  apply endsWith_spec in E as [u E]. rewrite trailing_space_none in H. specialize (H w Hw).
  rewrite E in Ht. rewrite Ht, <- append_assoc in H.
  assert (endsWith w ((t +:+ u) +:+ w) = true) as H' by (apply endsWith_spec; by eexists). congruence.
Qed.

Lemma trimText_id s : trimmedText s -> trimText s = s.
Proof.
  intros [H1 H2]. unfold trimText, trimEndText, trimStartText.
  assert (trimEndFuel (String.length s) s = s) as -> by (destruct (String.length s); cbn [trimEndFuel]; by rewrite ?H2).
  destruct (String.length s); cbn [trimStartFuel]; by rewrite ?H1.
Qed.
Lemma trim_idempotent s : trimText (trimText s) = trimText s.
Proof. apply trimText_id, trim_trimmed. Qed.

(** A space before a trimmed text goes away. *)
Lemma trim_space s : trimmedText s -> s <> "" -> trimText (String " " s) = s.
Proof.
  intros [H1 H2] Hne. unfold trimText.
  assert (trimEndText (String " " s) = String " " s) as ->.
  { unfold trimEndText. cbn [String.length trimEndFuel].
    assert (trailingSpace (String " " s) = None) as ->; [|done].
    apply trailing_space_none. intros w Hw. cbn [endsWith]. rewrite (proj1 (trailing_space_none s) H2 w Hw), orb_false_r.
    apply bool_decide_eq_false. intros <-.
    assert (Forall (fun w => forall s, w = String " " s -> s = "") spaces) as Hall
      by (repeat constructor; intros ? [=]; congruence).
    apply Hne. by apply (proj1 (Forall_forall _ _) Hall _ Hw). }
  unfold trimStartText. cbn [String.length trimStartFuel].
  assert (leadingSpace (String " " s) = Some " ") as ->.
  { unfold leadingSpace, spaces, ascii_spaces. cbn. destruct s; reflexivity. }
  destruct s as [|a s]; [done|]. cbn [String.length strDrop trimStartFuel]. by rewrite H1.
Qed.
