(* ===== verification/Number.v ===== *)
(** * Numbers that people type and backends send

    A number of JavaScript: a rational, an infinity or [NaN].  The rounding of
    doubles is left out: the code's arithmetic here is [+], [Math.round] and
    comparisons on numbers of a few digits. *)
From Stdlib Require Import QArith Qround Qminmax.
From stdpp Require Import base.
From S2P Require Import Prelude.
Local Open Scope Z_scope.

Inductive Number : Set :=
  | Finite (q : Q)
  | Infinite (positive : bool)
  | NotANumber.

Definition ofZ (n : Z) : Number := Finite (inject_Z n).

(** [Number.isFinite(n)], as its value. *)
Definition finite (n : Number) : option Q := match n with Finite q => Some q | _ => None end.

(** [Math.trunc], and [Math.round]: halves go up. *)
Definition truncQ (q : Q) : Z := Z.quot (Qnum q) (Zpos (Qden q)).
Definition roundQ (q : Q) : Z := Qfloor (q + (1 # 2))%Q.

Definition add (n : Number) (q : Q) : Number := match n with Finite p => Finite (p + q)%Q | _ => n end.

(** [Math.max(0, Math.trunc(n || 0))] *)
Definition truncNatural (n : Number) : Number :=
  match n with
  | Finite q => ofZ (Z.max 0 (truncQ q))
  | Infinite true => Infinite true
  | Infinite false | NotANumber => ofZ 0
  end.

(** * Lemmas *)

Lemma truncQ_inject n : truncQ (inject_Z n) = n.
Proof. unfold truncQ, inject_Z. cbn. apply Z.quot_1_r. Qed.

Lemma roundQ_inject n : roundQ (inject_Z n) = n.
Proof.
  unfold roundQ. pose proof (Qfloor_le (inject_Z n + (1 # 2))) as H1.
  pose proof (Qlt_floor (inject_Z n + (1 # 2))) as H2. set (k := Qfloor _) in *.
  unfold Qle, Qlt, Qplus, inject_Z in *. cbn in *. lia.
Qed.
