(* ===== verification/Url.v ===== *)
(** * Parts of URLs

    How the API clients put texts into URLs: [encodeURIComponent] for a segment
    of a path and [URLSearchParams] for a query, with the decoding that a server
    does.  A text is its UTF-8 encoding, whose units are what both percent-encode. *)
From Stdlib Require Import Ascii String DecimalString.
From stdpp Require Import strings.
From S2P Require Import Prelude JsString.
Local Open Scope string_scope.
Local Open Scope list_scope.
Local Open Scope nat_scope.

Definition is_alnum (a : ascii) : bool := is_letter a || is_digit a.

(** The units that [encodeURIComponent] keeps, and those of a form. *)
Definition uri_unreserved (a : ascii) : bool :=
  is_alnum a || bool_decide (a ∈ ["-"; "_"; "."; "!"; "~"; "*"; "'"; "("; ")"]%char).
Definition form_unreserved (a : ascii) : bool :=
  is_alnum a || bool_decide (a ∈ ["-"; "_"; "."; "*"]%char).

Definition hexDigit (n : nat) : ascii := ascii_of_nat (if n <? 10 then 48 + n else 55 + n).
Definition percentEncode (a : ascii) (s : string) : string :=
  String "%" (String (hexDigit (code a / 16)) (String (hexDigit (code a mod 16)) s)).

Fixpoint encodeURIComponent (s : string) : string :=
  match s with
  | EmptyString => EmptyString
  | String a s =>
      if uri_unreserved a then String a (encodeURIComponent s) else percentEncode a (encodeURIComponent s)
  end.

(** A name or a value of a query. *)
Fixpoint encodeForm (s : string) : string :=
  match s with
  | EmptyString => EmptyString
  | String a s =>
      if bool_decide (a = " "%char) then String "+" (encodeForm s)
      else if form_unreserved a then String a (encodeForm s) else percentEncode a (encodeForm s)
  end.

(** [URLSearchParams] is a list of names and values. *)
Definition SearchParams : Type := list (string * string).

Fixpoint setParam (name value : string) (params : SearchParams) : SearchParams :=
  match params with
  | [] => [(name, value)]
  | (n, v) :: params =>
      if bool_decide (n = name) then (n, value) :: filterb (fun p => negb (bool_decide (p.1 = name))) params
      else (n, v) :: setParam name value params
  end.

(** [params.toString()] *)
Definition showParams (params : SearchParams) : string :=
  join "&" ((fun p => encodeForm p.1 +:+ "=" +:+ encodeForm p.2) <$> params).

(** * Decoding *)

Definition hexValue (a : ascii) : option nat :=
  if is_digit a then Some (code a - 48)
  else if (65 <=? code a) && (code a <=? 70) then Some (code a - 55)
  else if (97 <=? code a) && (code a <=? 102) then Some (code a - 87)
  else None.

(** Percent-decoding; in a form, a plus is a space. *)
Fixpoint percentDecode (form : bool) (s : string) : string :=
  match s with
  | EmptyString => EmptyString
  | String a s1 =>
      let plain := String (if form && bool_decide (a = "+"%char) then " "%char else a) (percentDecode form s1) in
      if bool_decide (a = "%"%char) then
        match s1 with
        | String h (String l s2) =>
            match hexValue h, hexValue l with
            | Some x, Some y => String (ascii_of_nat (16 * x + y)) (percentDecode form s2)
            | _, _ => plain
            end
        | _ => plain
        end
      else plain
  end.

(** The segments of a path, as a server reads them. *)
Definition decodePath (path : string) : list string := percentDecode false <$> splitOn slash path.

(** A pair of a query: what is before and behind the first [=]. *)
Fixpoint cutAt (c : ascii) (s : string) : string * string :=
  match s with
  | EmptyString => ("", "")
  | String a s => if bool_decide (a = c) then ("", s) else let '(u, v) := cutAt c s in (String a u, v)
  end.
Definition decodeParam (s : string) : string * string :=
  let '(n, v) := cutAt "=" s in (percentDecode true n, percentDecode true v).
Definition decodeQuery (query : string) : SearchParams :=
  decodeParam <$> filterb truthy (splitOn "&" query).

(** The path and the query of a target. *)
Definition decodeTarget (target : string) : list string * SearchParams :=
  let '(path, query) := cutAt "?" target in (decodePath path, decodeQuery query).

(** * Lemmas *)

Lemma hexValue_hexDigit n : n < 16 -> hexValue (hexDigit n) = Some n.
Proof. intros H. do 16 (destruct n as [|n]; [reflexivity|]). lia. Qed.

Lemma percent_unit a : ascii_of_nat (16 * (code a / 16) + code a mod 16) = a.
Proof. rewrite <- Nat.div_mod by done. apply ascii_nat_embedding. Qed.

Lemma decode_percent form a s : percentDecode form (percentEncode a s) = String a (percentDecode form s).
Proof.
  pose proof (nat_ascii_bounded a) as Hb. unfold percentEncode. cbn [percentDecode].
  rewrite bool_decide_eq_true_2 by done. rewrite !hexValue_hexDigit.
  - by rewrite percent_unit.
  - apply Nat.mod_upper_bound. done.
  - apply Nat.Div0.div_lt_upper_bound. unfold code. lia.
Qed.

Lemma decode_plain form a s :
  a <> "%"%char -> (form = true -> a <> "+"%char) -> percentDecode form (String a s) = String a (percentDecode form s).
Proof.
  intros H1 H2. cbn [percentDecode]. rewrite bool_decide_eq_false_2 by done.
  destruct form; cbn [andb]; [|done]. by rewrite bool_decide_eq_false_2 by auto.
Qed.

Lemma kept_units a :
  (uri_unreserved a = true -> a <> "%"%char) /\ (form_unreserved a = true -> a <> "%"%char /\ a <> "+"%char).
Proof.
  split; [intros H ->; by vm_compute in H|]. intros H. split; intros ->; by vm_compute in H.
Qed.

(** Encoded texts decode to themselves. *)
Lemma decode_component s : percentDecode false (encodeURIComponent s) = s.
Proof.
  induction s as [|a s IH]; [done|]. cbn [encodeURIComponent].
  destruct (uri_unreserved a) eqn:Ha.
  - rewrite decode_plain by (try done; by apply (proj1 (kept_units a))). by rewrite IH.
  - by rewrite decode_percent, IH.
Qed.

Lemma decode_form s : percentDecode true (encodeForm s) = s.
Proof.
  induction s as [|a s IH]; [done|]. cbn [encodeForm].
  case_bool_decide as Hs; [subst; cbn; by rewrite IH|]. destruct (form_unreserved a) eqn:Ha.
  - apply kept_units in Ha as [H1 H2]. rewrite decode_plain by done. by rewrite IH.
  - by rewrite decode_percent, IH.
Qed.

(** A unit that neither the encoding keeps nor the percent-encoding makes does
    not occur in an encoded text. *)
Definition is_delimiter (c : ascii) : bool :=
  negb (uri_unreserved c) && negb (form_unreserved c) && negb (bool_decide (c = "%"%char)) &&
  negb (bool_decide (c = "+"%char)).

Lemma hex_alnum n : n < 16 -> is_alnum (hexDigit n) = true.
Proof. intros H. do 16 (destruct n as [|n]; [reflexivity|]). lia. Qed.

Lemma delimiter_not_alnum c a : is_delimiter c = true -> is_alnum a = true -> a <> c.
Proof.
  unfold is_delimiter, uri_unreserved. intros Hc Ha ->. by rewrite Ha in Hc.
Qed.

Lemma no_unit_percent c a s : is_delimiter c = true -> no_unit c s = true -> no_unit c (percentEncode a s) = true.
Proof.
  intros Hc Hs. pose proof (nat_ascii_bounded a) as Hb. unfold percentEncode, no_unit in *. cbn [str_all].
  rewrite Hs, !andb_true_r. rewrite !andb_true_iff, !negb_true_iff, !bool_decide_eq_false. split; [|split].
  - intros <-. by cbn in Hc.
  - apply delimiter_not_alnum; [done|]. apply hex_alnum, Nat.Div0.div_lt_upper_bound. unfold code. lia.
  - apply delimiter_not_alnum; [done|]. apply hex_alnum, Nat.mod_upper_bound. done.
Qed.

Lemma component_no_unit c s : is_delimiter c = true -> no_unit c (encodeURIComponent s) = true.
Proof.
  intros Hc. induction s as [|a s IH]; [done|]. cbn [encodeURIComponent].
  destruct (uri_unreserved a) eqn:Ha; [|by apply no_unit_percent].
  unfold no_unit in *. cbn [str_all]. rewrite IH, andb_true_r, negb_true_iff, bool_decide_eq_false.
  intros ->. unfold is_delimiter in Hc. by rewrite Ha in Hc.
Qed.

Lemma form_no_unit c s : is_delimiter c = true -> no_unit c (encodeForm s) = true.
Proof.
  intros Hc. induction s as [|a s IH]; [done|]. cbn [encodeForm]. case_bool_decide as Hs.
  - unfold no_unit in *. cbn [str_all]. rewrite IH, andb_true_r, negb_true_iff, bool_decide_eq_false.
    by intros <-.
  - destruct (form_unreserved a) eqn:Ha; [|by apply no_unit_percent].
    unfold no_unit in *. cbn [str_all]. rewrite IH, andb_true_r, negb_true_iff, bool_decide_eq_false.
    intros ->. unfold is_delimiter in Hc. rewrite Ha in Hc. by destruct (uri_unreserved c).
Qed.

Lemma cutAt_app c s t : no_unit c s = true -> cutAt c (s +:+ String c t) = (s, t).
Proof.
  unfold no_unit. induction s as [|a s IH]; cbn [str_all]; intros Hs.
  - cbn. by rewrite bool_decide_eq_true_2.
  - apply andb_true_iff in Hs as [Ha Hs]. apply negb_true_iff in Ha.
    cbn [String.append cutAt]. by rewrite Ha, IH.
Qed.

Lemma cutAt_none c s : no_unit c s = true -> cutAt c s = (s, "").
Proof.
  unfold no_unit. induction s as [|a s IH]; cbn [str_all]; [done|]. intros [Ha Hs]%andb_true_iff.
  apply negb_true_iff in Ha. cbn [cutAt]. by rewrite Ha, IH.
Qed.

(** A query decodes to what was set. *)
Lemma decode_params params : decodeQuery (showParams params) = params.
Proof.
  unfold decodeQuery, showParams. destruct params as [|p params]; [done|].
  rewrite (splitOn_join "&").
  - rewrite filterb_all; [|].
    + rewrite <- list_fmap_compose. rewrite (list_fmap_ext _ id); [by rewrite list_fmap_id|].
      intros i [n v] _. cbn. unfold decodeParam.
      change ("=" +:+ encodeForm v) with (String "=" (encodeForm v)).
      rewrite cutAt_app by (by apply form_no_unit). by rewrite !decode_form.
    + intros x [q [-> _]]%list_elem_of_fmap. unfold truthy.
      rewrite bool_decide_eq_false_2; [done|]. by destruct (encodeForm q.1).
  - apply Forall_forall. intros x [q [-> _]]%list_elem_of_fmap.
    rewrite !no_unit_append, !form_no_unit by done. reflexivity.
  - done.
Qed.

(** A query can hold a component too. *)
Lemma decode_form_component s : percentDecode true (encodeURIComponent s) = s.
Proof.
  induction s as [|a s IH]; [done|]. cbn [encodeURIComponent].
  destruct (uri_unreserved a) eqn:Ha; [|by rewrite decode_percent, IH].
  rewrite decode_plain, IH; [done|by apply (proj1 (kept_units a))|]. intros _ ->. by vm_compute in Ha.
Qed.

(** A text that is its own component. *)
Lemma component_id s : str_all uri_unreserved s = true -> encodeURIComponent s = s.
Proof.
  induction s as [|a s IH]; [done|]. cbn [str_all encodeURIComponent]. intros [Ha Hs]%andb_true_iff.
  by rewrite Ha, IH.
Qed.

Lemma component_showZ n : encodeURIComponent (showZ n) = showZ n.
Proof.
  apply component_id. unfold showZ.
  assert (forall u, str_all uri_unreserved (NilEmpty.string_of_uint u) = true) as Hu.
  { intros u. induction u; cbn [NilEmpty.string_of_uint str_all]; [done|..]; by rewrite IHu. }
  destruct (Z.to_int n) as [u|u]; destruct u; cbn [NilZero.string_of_int NilZero.string_of_uint str_all];
    try done; by rewrite Hu.
Qed.

Lemma decode_param_component name s :
  no_unit "=" name = true -> percentDecode true name = name ->
  decodeParam (name +:+ "=" +:+ encodeURIComponent s) = (name, s).
Proof.
  intros Hn Hd. unfold decodeParam. change ("=" +:+ encodeURIComponent s) with (String "=" (encodeURIComponent s)).
  rewrite cutAt_app by done. by rewrite Hd, decode_form_component.
Qed.

(** A query of one parameter, and of two, with components as values. *)
Lemma decode_query_one name s :
  no_unit "=" name = true -> no_unit "&" name = true -> percentDecode true name = name ->
  decodeQuery (name +:+ "=" +:+ encodeURIComponent s) = [(name, s)].
Proof.
  intros H1 H2 H3. unfold decodeQuery. rewrite splitOn_no_unit.
  - rewrite filterb_all; [|].
    + change (decodeParam <$> [?p]) with [decodeParam p]. by rewrite decode_param_component.
    + intros x ->%list_elem_of_singleton. unfold truthy. rewrite bool_decide_eq_false_2; [done|]. by destruct name.
  - rewrite !no_unit_append, H2, component_no_unit by done. done.
Qed.

Lemma decode_query_app p q :
  no_unit "&" p = true -> p <> "" -> decodeQuery (p +:+ String "&" q) = decodeParam p :: decodeQuery q.
Proof.
  intros Hp Hne. unfold decodeQuery. rewrite splitOn_app, splitOn_no_unit by done.
  unfold filterb. cbn [app List.filter]. unfold truthy at 1. by rewrite bool_decide_eq_false_2.
Qed.
