(* ===== verification/Types.v ===== *)
(** * Commander data model

    [frontend/src/features/commander/model/types.ts] and
    [commander-defaults.ts]: the enums, directory entries, pending operations,
    pane and widget states of the dual-pane file manager, with the field
    setters that stand for the object spreads of the reducers.  A field
    [x?: T] and a field [x: T | null] are both [option T]. *)
From stdpp Require Import strings.
From S2P Require Import Prelude JsString.
Local Open Scope string_scope.
Local Open Scope list_scope.

(** ** Enumerations *)

Inductive CommanderPaneId := PaneLeft | PaneRight.
Inductive CommanderViewMode := ViewCommander | ViewSplit | ViewTerminal.
Inductive CommanderSortMode := SortName | SortExt | SortSize | SortModified.
Inductive CommanderSortDirection := SortAsc | SortDesc.
Inductive CommanderRowKind := KindFile | KindFolder | KindSymlink.
Inductive CommanderPendingOperationKind :=
  | KCopy | KMove | KDelete | KMkdir | KRename | KSelect | KUnselect | KFilter | KSearch.
Inductive CommanderRenameMode := RenameSingle | RenameBatch.
Inductive CommanderCloneMode := CloneSingle | CloneBatch.
Inductive CommanderRenamePreviewStatus := StOk | StDuplicate | StConflict | StInvalid.
Inductive CommanderFileDialogMode := DialogView | DialogEdit | DialogBlocked.
Inductive CommanderFilePreviewKind := PreviewText | PreviewHex.

#[global] Instance pane_id_eq : EqDecision CommanderPaneId.
Proof. solve_decision. Defined.
#[global] Instance view_mode_eq : EqDecision CommanderViewMode.
Proof. solve_decision. Defined.
#[global] Instance sort_mode_eq : EqDecision CommanderSortMode.
Proof. solve_decision. Defined.
#[global] Instance sort_direction_eq : EqDecision CommanderSortDirection.
Proof. solve_decision. Defined.
#[global] Instance row_kind_eq : EqDecision CommanderRowKind.
Proof. solve_decision. Defined.
#[global] Instance op_kind_eq : EqDecision CommanderPendingOperationKind.
Proof. solve_decision. Defined.
#[global] Instance preview_status_eq : EqDecision CommanderRenamePreviewStatus.
Proof. solve_decision. Defined.
#[global] Instance preview_kind_eq : EqDecision CommanderFilePreviewKind.
Proof. solve_decision. Defined.
#[global] Instance dialog_mode_eq : EqDecision CommanderFileDialogMode.
Proof. solve_decision. Defined.

(** ** Directory entries *)

Record CommanderDirectoryEntry := mkEntry {
  e_id : string;
  e_name : string;
  e_ext : string;
  e_kind : CommanderRowKind;
  e_sizeLabel : string;
  e_sizeBytes : option Z;
  e_modified : string;
  e_hidden : bool;
  e_gitStatus : option string;
  e_executable : option bool;
  e_symlinkTarget : option string
}.

#[global] Instance entry_eq : EqDecision CommanderDirectoryEntry.
Proof. solve_decision. Defined.

(** ** Pending operations *)

Record CommanderRenamePreviewItem := mkPreviewItem {
  rp_entryId : string;
  rp_currentName : string;
  rp_nextName : string;
  rp_status : CommanderRenamePreviewStatus;
  rp_conflict : bool
}.

(** The fields every pending operation carries. *)
Record CommanderPendingOperationBase := mkOpBase {
  o_sourcePaneId : CommanderPaneId;
  o_sourcePath : string;
  o_entryIds : list string;
  o_entryNames : list string
}.

Record CommanderClonePendingOperation := mkClone {
  cl_base : CommanderPendingOperationBase;
  cl_inputValue : string;
  cl_targetPaneId : CommanderPaneId;
  cl_targetPath : string;
  cl_cloneMode : CommanderCloneMode;
  cl_conflictEntryNames : list string;
  cl_duplicateTargetNames : list string;
  cl_renamePreview : list CommanderRenamePreviewItem
}.

Inductive CommanderTransferKind := TransferCopy | TransferMove.

Record CommanderPaneTransferPendingOperation := mkTransfer {
  tr_kind : CommanderTransferKind;
  tr_base : CommanderPendingOperationBase;
  tr_targetPaneId : CommanderPaneId;
  tr_targetPath : string;
  tr_conflictEntryNames : list string
}.

Record CommanderMkdirPendingOperation := mkMkdir {
  mk_base : CommanderPendingOperationBase;
  mk_inputValue : string
}.

Record CommanderRenamePendingOperation := mkRename {
  rn_base : CommanderPendingOperationBase;
  rn_inputValue : string;
  rn_conflictEntryNames : list string;
  rn_duplicateTargetNames : list string;
  rn_renameMode : CommanderRenameMode;
  rn_renamePreview : list CommanderRenamePreviewItem
}.

Inductive CommanderMaskKind := MaskSelect | MaskUnselect | MaskFilter.

Record CommanderMaskPendingOperation := mkMask {
  ma_kind : CommanderMaskKind;
  ma_base : CommanderPendingOperationBase;
  ma_inputValue : string;
  ma_matchCount : nat;
  ma_matchPreview : list string
}.

Record CommanderSearchPendingOperation := mkSearch {
  se_base : CommanderPendingOperationBase;
  se_inputValue : string;
  se_matchCount : nat;
  se_matchPreview : list string;
  se_matchIndex : Z
}.

(** The transfers: [transferMode] is ['clone'] or ['pane']. *)
Inductive CommanderTransferPendingOperation :=
  | TransferClone (c : CommanderClonePendingOperation)
  | TransferPane (t : CommanderPaneTransferPendingOperation).

Inductive CommanderPendingOperation :=
  | OpTransfer (t : CommanderTransferPendingOperation)
  | OpDelete (b : CommanderPendingOperationBase)
  | OpMkdir (m : CommanderMkdirPendingOperation)
  | OpRename (r : CommanderRenamePendingOperation)
  | OpMask (m : CommanderMaskPendingOperation)
  | OpSearch (s : CommanderSearchPendingOperation).

(** ** Panes *)

Record CommanderPaneRuntimeState := mkPane {
  p_id : CommanderPaneId;
  p_path : string;
  p_filterQuery : string;
  p_directoryEntries : list CommanderDirectoryEntry;
  p_entries : list CommanderDirectoryEntry;
  p_cursorEntryId : option string;
  p_selectionAnchorEntryId : option string;
  p_selectedIds : list string;
  p_historyBack : list string;
  p_historyForward : list string;
  p_isLoading : bool;
  p_errorMessage : option string
}.

Record CommanderPanePersistedState := mkPersistedPane {
  pp_path : string;
  pp_filterQuery : string;
  pp_directoryEntries : option (list CommanderDirectoryEntry);
  pp_entries : option (list CommanderDirectoryEntry);
  pp_cursorEntryId : option string;
  pp_selectionAnchorEntryId : option string;
  pp_selectedIds : list string;
  pp_historyBack : list string;
  pp_historyForward : list string
}.

(** ** File dialog *)

Record CommanderFileDialogState := mkDialog {
  fd_paneId : CommanderPaneId;
  fd_path : string;
  fd_entryId : string;
  fd_entryName : string;
  fd_mode : CommanderFileDialogMode;
  fd_content : string;
  fd_draftValue : string;
  fd_previewKind : option CommanderFilePreviewKind;
  fd_previewBytes : option Z;
  fd_sizeBytes : option Z;
  fd_truncated : option bool;
  fd_blockedReason : option string;
  fd_blockedTitle : option string;
  fd_blockedHint : option string
}.

(** ** Widgets *)

Record CommanderFooterHint := mkHint { h_key : string; h_label : string }.

Record CommanderWidgetRuntimeState := mkWidget {
  w_widgetId : string;
  w_viewMode : CommanderViewMode;
  w_activePane : CommanderPaneId;
  w_showHidden : bool;
  w_sortMode : CommanderSortMode;
  w_sortDirection : CommanderSortDirection;
  w_dirsFirst : bool;
  w_footerHints : list CommanderFooterHint;
  w_pendingOperation : option CommanderPendingOperation;
  w_fileDialog : option CommanderFileDialogState;
  w_leftPane : CommanderPaneRuntimeState;
  w_rightPane : CommanderPaneRuntimeState
}.

Record CommanderWidgetPersistedState := mkPersistedWidget {
  pw_activePane : CommanderPaneId;
  pw_viewMode : CommanderViewMode;
  pw_showHidden : bool;
  pw_sortMode : CommanderSortMode;
  pw_sortDirection : CommanderSortDirection;
  pw_dirsFirst : bool;
  pw_leftPane : CommanderPanePersistedState;
  pw_rightPane : CommanderPanePersistedState
}.

(** ** Snapshots of the backend *)

Record CommanderDirectorySnapshot := mkDirSnapshot {
  ds_path : string;
  ds_entries : list CommanderDirectoryEntry
}.

Record CommanderFileSnapshot := mkFileSnapshot {
  fs_entryId : string;
  fs_entryName : string;
  fs_path : string;
  fs_content : string;
  fs_previewAvailable : bool;
  fs_previewKind : CommanderFilePreviewKind;
  fs_previewBytes : option Z;
  fs_sizeBytes : option Z;
  fs_truncated : option bool
}.

(** ** View states *)

Record CommanderPaneCounters := mkCounters {
  ct_items : nat;
  ct_selectedItems : nat;
  ct_selectedSize : string
}.

Record CommanderFileRow := mkRow {
  r_id : string;
  r_name : string;
  r_ext : string;
  r_kind : CommanderRowKind;
  r_size : string;
  r_modified : string;
  r_hidden : bool;
  r_selected : bool;
  r_focused : bool;
  r_gitStatus : option string;
  r_executable : option bool;
  r_symlinkTarget : option string
}.

Record CommanderPaneViewState := mkPaneView {
  pv_id : CommanderPaneId;
  pv_path : string;
  pv_displayPath : string;
  pv_filterQuery : string;
  pv_canGoBack : bool;
  pv_canGoForward : bool;
  pv_isLoading : bool;
  pv_errorMessage : option string;
  pv_counters : CommanderPaneCounters;
  pv_rows : list CommanderFileRow
}.

Record CommanderWidgetViewState := mkWidgetView {
  wv_viewMode : CommanderViewMode;
  wv_activePane : CommanderPaneId;
  wv_showHidden : bool;
  wv_sortMode : CommanderSortMode;
  wv_sortDirection : CommanderSortDirection;
  wv_dirsFirst : bool;
  wv_footerHints : list CommanderFooterHint;
  wv_pendingOperation : option CommanderPendingOperation;
  wv_fileDialog : option CommanderFileDialogState;
  wv_leftPane : CommanderPaneViewState;
  wv_rightPane : CommanderPaneViewState
}.

(** ** Defaults ([commander-defaults.ts]) *)

Definition defaultCommanderViewMode := ViewCommander.
Definition defaultCommanderActivePane := PaneLeft.
Definition defaultCommanderShowHidden := true.
Definition defaultCommanderSortMode := SortName.
Definition defaultCommanderSortDirection := SortAsc.
Definition defaultCommanderDirsFirst := true.
Definition defaultCommanderFooterHints : list CommanderFooterHint :=
  [ mkHint "F2" "Rename"; mkHint "F3" "View"; mkHint "F4" "Edit"; mkHint "F5" "Copy";
    mkHint "F6" "Move"; mkHint "F7" "Mkdir"; mkHint "F8" "Delete"; mkHint "CTRL+L" "Path";
    mkHint "CTRL+S" "Search"; mkHint "CTRL+F" "Filter"; mkHint "CTRL+BS" "Clear filter" ].

(** ** Object spreads *)

(** [{ ...pane, cursorEntryId, selectionAnchorEntryId, selectedIds }] *)
Definition set_marks (c a : option string) (sel : list string)
    (p : CommanderPaneRuntimeState) : CommanderPaneRuntimeState :=
  mkPane (p_id p) (p_path p) (p_filterQuery p) (p_directoryEntries p) (p_entries p)
    c a sel (p_historyBack p) (p_historyForward p) (p_isLoading p) (p_errorMessage p).

(** [{ ...pane, historyBack, historyForward }] *)
Definition set_history (back forward : list string)
    (p : CommanderPaneRuntimeState) : CommanderPaneRuntimeState :=
  mkPane (p_id p) (p_path p) (p_filterQuery p) (p_directoryEntries p) (p_entries p)
    (p_cursorEntryId p) (p_selectionAnchorEntryId p) (p_selectedIds p) back forward
    (p_isLoading p) (p_errorMessage p).

(** [{ ...pane, isLoading, errorMessage }] *)
Definition set_status (loading : bool) (err : option string)
    (p : CommanderPaneRuntimeState) : CommanderPaneRuntimeState :=
  mkPane (p_id p) (p_path p) (p_filterQuery p) (p_directoryEntries p) (p_entries p)
    (p_cursorEntryId p) (p_selectionAnchorEntryId p) (p_selectedIds p) (p_historyBack p)
    (p_historyForward p) loading err.

(** [{ ...pane, filterQuery }] *)
Definition set_filterQuery (q : string)
    (p : CommanderPaneRuntimeState) : CommanderPaneRuntimeState :=
  mkPane (p_id p) (p_path p) q (p_directoryEntries p) (p_entries p)
    (p_cursorEntryId p) (p_selectionAnchorEntryId p) (p_selectedIds p) (p_historyBack p)
    (p_historyForward p) (p_isLoading p) (p_errorMessage p).

(** [{ ...widget, leftPane, rightPane }] *)
Definition set_panes (l r : CommanderPaneRuntimeState)
    (w : CommanderWidgetRuntimeState) : CommanderWidgetRuntimeState :=
  mkWidget (w_widgetId w) (w_viewMode w) (w_activePane w) (w_showHidden w) (w_sortMode w)
    (w_sortDirection w) (w_dirsFirst w) (w_footerHints w) (w_pendingOperation w)
    (w_fileDialog w) l r.

(** [{ ...widget, activePane }] *)
Definition set_activePane (pane : CommanderPaneId)
    (w : CommanderWidgetRuntimeState) : CommanderWidgetRuntimeState :=
  mkWidget (w_widgetId w) (w_viewMode w) pane (w_showHidden w) (w_sortMode w)
    (w_sortDirection w) (w_dirsFirst w) (w_footerHints w) (w_pendingOperation w)
    (w_fileDialog w) (w_leftPane w) (w_rightPane w).

(** [{ ...widget, viewMode }] *)
Definition set_viewMode (m : CommanderViewMode)
    (w : CommanderWidgetRuntimeState) : CommanderWidgetRuntimeState :=
  mkWidget (w_widgetId w) m (w_activePane w) (w_showHidden w) (w_sortMode w)
    (w_sortDirection w) (w_dirsFirst w) (w_footerHints w) (w_pendingOperation w)
    (w_fileDialog w) (w_leftPane w) (w_rightPane w).

(** [{ ...widget, showHidden, sortMode, sortDirection, dirsFirst }] *)
Definition set_projection (hidden : bool) (m : CommanderSortMode) (d : CommanderSortDirection)
    (dirs : bool) (w : CommanderWidgetRuntimeState) : CommanderWidgetRuntimeState :=
  mkWidget (w_widgetId w) (w_viewMode w) (w_activePane w) hidden m d dirs (w_footerHints w)
    (w_pendingOperation w) (w_fileDialog w) (w_leftPane w) (w_rightPane w).

(** [{ ...widget, pendingOperation }] *)
Definition set_pendingOperation (op : option CommanderPendingOperation)
    (w : CommanderWidgetRuntimeState) : CommanderWidgetRuntimeState :=
  mkWidget (w_widgetId w) (w_viewMode w) (w_activePane w) (w_showHidden w) (w_sortMode w)
    (w_sortDirection w) (w_dirsFirst w) (w_footerHints w) op
    (w_fileDialog w) (w_leftPane w) (w_rightPane w).

(** [{ ...widget, fileDialog }] *)
Definition set_fileDialog (d : option CommanderFileDialogState)
    (w : CommanderWidgetRuntimeState) : CommanderWidgetRuntimeState :=
  mkWidget (w_widgetId w) (w_viewMode w) (w_activePane w) (w_showHidden w) (w_sortMode w)
    (w_sortDirection w) (w_dirsFirst w) (w_footerHints w) (w_pendingOperation w)
    d (w_leftPane w) (w_rightPane w).

(** The ids of a list of entries. *)
Definition entry_ids (l : list CommanderDirectoryEntry) : list string := e_id <$> l.

(** The names of a list of entries. *)
Definition entry_names (l : list CommanderDirectoryEntry) : list string := e_name <$> l.

(** [paneId === 'left' ? 'right' : 'left'] *)
Definition other_pane (pane : CommanderPaneId) : CommanderPaneId :=
  match pane with PaneLeft => PaneRight | PaneRight => PaneLeft end.

Lemma other_pane_involutive pane : other_pane (other_pane pane) = pane.
Proof. by destruct pane. Qed.

Lemma elem_of_entry_ids x l : x ∈ entry_ids l <-> exists e, e ∈ l /\ e_id e = x.
Proof. unfold entry_ids. rewrite list_elem_of_fmap. naive_solver. Qed.

(** * Sample data

    Small concrete entries, panes and widgets on which the theorems of the
    other files are instantiated. *)
Local Open Scope string_scope.
Local Open Scope list_scope.

Definition sample_file (name ext : string) : CommanderDirectoryEntry :=
  mkEntry ("/d::" +:+ name) name ext KindFile "" (Some 0%Z) "" false None None None.

Definition sample_folder (name : string) : CommanderDirectoryEntry :=
  mkEntry ("/d::" +:+ name) name "" KindFolder "" None "" false None None None.

Definition sample_pane_at (id : CommanderPaneId) (path : string)
    (dir : list CommanderDirectoryEntry) (sel : list string) : CommanderPaneRuntimeState :=
  mkPane id path "" dir dir (e_id <$> head dir) (e_id <$> head dir) sel [] [] false None.

(** A left pane at [/d] with the cursor on its first row. *)
Definition sample_pane (dir : list CommanderDirectoryEntry) (sel : list string)
    : CommanderPaneRuntimeState := sample_pane_at PaneLeft "/d" dir sel.

(** A widget with the given panes and pending operation, left pane active. *)
Definition sample_widget (op : option CommanderPendingOperation)
    (l r : CommanderPaneRuntimeState) : CommanderWidgetRuntimeState :=
  mkWidget "w1" ViewCommander PaneLeft true SortName SortAsc true [] op None l r.

Definition file_a : CommanderDirectoryEntry := sample_file "a.txt" "txt".
Definition file_b : CommanderDirectoryEntry := sample_file "b.txt" "txt".
Definition folder_c : CommanderDirectoryEntry := sample_folder "c".

(** Three rows on the left, an empty pane on the right. *)
Definition two_panes (op : option CommanderPendingOperation) (sel : list string)
    : CommanderWidgetRuntimeState :=
  sample_widget op (sample_pane [folder_c; file_a; file_b] sel)
    (sample_pane_at PaneRight "/e" [] []).
