(* ===== verification/Mask.v ===== *)
(** * Wildcard masks

    The mask grammar of [store-selection.ts]: a mask is split into patterns,
    every pattern is turned into the source of a case-insensitive regular
    expression, and the entries whose names some expression accepts are kept.
    The regular expressions are the fragment the code emits: literals, escaped
    syntax characters, the dot and the star, between the two anchors. *)
From Stdlib Require Import Ascii String.
From stdpp Require Import strings.
From S2P Require Import Prelude JsString Types.
Local Open Scope string_scope.
Local Open Scope list_scope.

(** ** The regular expression fragment of the language *)

Inductive re_atom := ReDot | ReChar (a : ascii).

(** An atom, with or without a star behind it. *)
Record re_item := mkItem { re_of : re_atom; re_star : bool }.

(** ECMA-262 SyntaxCharacter. *)
Definition is_syntax_char (a : ascii) : bool :=
  includes a ["^"; "$"; "\"; "."; "*"; "+"; "?"; "("; ")"; "["; "]"; "{"; "}"; "|"]%char.

(** The units that [\c] stands for literally: the syntax characters and [/]. *)
Definition is_identity_escape (a : ascii) : bool := is_syntax_char a || bool_decide (a = slash).

Definition star_char : ascii := "*".
Definition query_char : ascii := "?".
Definition caret : ascii := "^".
Definition dollar : ascii := "$".

(** The body of a pattern, up to the closing anchor. *)
Fixpoint parse_items (s : string) : option (list re_item) :=
  match s with
  | EmptyString => None
  | String a s1 =>
      if bool_decide (a = dollar) then
        match s1 with EmptyString => Some [] | _ => None end
      else if bool_decide (a = backslash) then
        match s1 with
        | String b s2 =>
            if is_identity_escape b then
              match s2 with
              | String c s3 =>
                  if bool_decide (c = star_char) then cons (mkItem (ReChar b) true) <$> parse_items s3
                  else cons (mkItem (ReChar b) false) <$> parse_items s2
              | EmptyString => None
              end
            else None
        | EmptyString => None
        end
      else
        match (if bool_decide (a = dot) then Some ReDot
               else if is_syntax_char a then None else Some (ReChar a)) with
        | Some x =>
            match s1 with
            | String c s3 =>
                if bool_decide (c = star_char) then cons (mkItem x true) <$> parse_items s3
                else cons (mkItem x false) <$> parse_items s1
            | EmptyString => None
            end
        | None => None
        end
  end.

(** [new RegExp(source, 'i')] for a source of the fragment; [None] is outside of it. *)
Definition parse_regexp (source : string) : option (list re_item) :=
  match source with
  | String a s => if bool_decide (a = caret) then parse_items s else None
  | EmptyString => None
  end.

(** Case-insensitive comparison of the units below 256 that a [string] has.
    Canonicalize of ECMA-262 is restricted to the letters of ASCII: the flag
    [i] folds other letters too, such as the accented ones of Latin-1. *)
Definition same_unit (a c : ascii) : bool := bool_decide (upper_unit a = upper_unit c).

Definition atom_accepts (x : re_atom) (c : ascii) : bool :=
  match x with
  | ReDot => negb (is_line_end c)
  | ReChar a => same_unit a c
  end.

(** The anchored, backtracking matcher. *)
Fixpoint match_items (l : list re_item) : string -> bool :=
  match l with
  | [] => fun s => bool_decide (s = "")
  | mkItem x false :: l' => fun s =>
      match s with
      | String c s' => atom_accepts x c && match_items l' s'
      | EmptyString => false
      end
  | mkItem x true :: l' =>
      fix star (s : string) : bool :=
        match_items l' s ||
        match s with
        | String c s' => atom_accepts x c && star s'
        | EmptyString => false
        end
  end.

(** [expression.test(s)] *)
Definition regexp_test (source s : string) : bool :=
  match parse_regexp source with
  | Some items => match_items items s
  | None => false
  end.

(** ** Masks *)

(** [value.replace(/[.*+?^${}()|[\]\\]/g, '\\$&')] on one character. *)
Definition escapeCommanderMaskRegExp (a : ascii) : string :=
  if is_syntax_char a then String backslash (String a "") else String a "".

Inductive mask_separator := SepPunct | SepSpace.
#[global] Instance mask_separator_eq : EqDecision mask_separator.
Proof. solve_decision. Defined.

Definition mask_separator_of (a : ascii) : option mask_separator :=
  if bool_decide (a = ";"%char) || bool_decide (a = ","%char) then Some SepPunct
  else if is_space a then Some SepSpace else None.

(** [s.split(/[;,]+|\s+/)]; [prev] is the separator run the position is in. *)
Fixpoint split_runs (prev : option mask_separator) (s : string) : list string :=
  match s with
  | EmptyString => [EmptyString]
  | String a s' =>
      match mask_separator_of a with
      | Some k =>
          if bool_decide (prev = Some k) then split_runs (Some k) s'
          else EmptyString :: split_runs (Some k) s'
      | None =>
          match split_runs None s' with
          | w :: ws => String a w :: ws
          | [] => [String a EmptyString]
          end
      end
  end.

Definition splitCommanderMaskPatterns (mask : string) : list string :=
  filterb truthy (trim <$> split_runs None mask).

Definition mask_char_expression (a : ascii) : string :=
  if bool_decide (a = star_char) then ".*"
  else if bool_decide (a = query_char) then "."
  else escapeCommanderMaskRegExp a.

Fixpoint mask_expression (s : string) : string :=
  match s with
  | EmptyString => EmptyString
  | String a s' => mask_char_expression a +:+ mask_expression s'
  end.

Definition commanderMaskPatternToRegExp (pattern : string) : option string :=
  let normalizedPattern := trim pattern in
  if truthy normalizedPattern then
    Some ("^" +:+ mask_expression normalizedPattern +:+ "$")
  else None.

Definition getCommanderMatchedEntries (entries : list CommanderDirectoryEntry)
    (mask : string) (emptyMeansAll : bool) : list CommanderDirectoryEntry :=
  let expressions :=
    mapFilter commanderMaskPatternToRegExp (splitCommanderMaskPatterns mask) in
  match expressions with
  | [] => if emptyMeansAll then entries else []
  | _ => filterb (fun e => some (fun x => regexp_test x (e_name e)) expressions) entries
  end.

Definition filterEntriesByMask (entries : list CommanderDirectoryEntry)
    (mask : string) (emptyMeansAll : bool) : list CommanderDirectoryEntry :=
  getCommanderMatchedEntries entries mask emptyMeansAll.

(** ** Specification: wildcard matching *)

(** [wildcard p s]: the pattern [p] accepts the whole of [s]; [*] stands for any
    text and [?] for any character of one line, other characters for themselves
    in either case. *)
Inductive wildcard : string -> string -> Prop :=
  | wc_nil : wildcard "" ""
  | wc_star_done p s : wildcard p s -> wildcard (String star_char p) s
  | wc_star_more p c s :
      is_line_end c = false -> wildcard (String star_char p) s ->
      wildcard (String star_char p) (String c s)
  | wc_query p c s :
      is_line_end c = false -> wildcard p s -> wildcard (String query_char p) (String c s)
  | wc_char a p c s :
      a <> star_char -> a <> query_char -> same_unit a c = true ->
      wildcard p s -> wildcard (String a p) (String c s).

(** ** Lemmas *)

Definition mask_char_item (a : ascii) : re_item :=
  if bool_decide (a = star_char) then mkItem ReDot true
  else if bool_decide (a = query_char) then mkItem ReDot false
  else mkItem (ReChar a) false.

Fixpoint mask_items (s : string) : list re_item :=
  match s with
  | EmptyString => []
  | String a s' => mask_char_item a :: mask_items s'
  end.

(** What follows an emitted atom never starts with a star. *)
Lemma mask_expression_head s :
  exists a t, mask_expression s +:+ "$" = String a t /\ a <> star_char.
Proof.
  destruct s as [|a s]; simpl; [by exists dollar, ""|].
  unfold mask_char_expression, escapeCommanderMaskRegExp.
  case_bool_decide; [by eexists dot, _|].
  case_bool_decide; [by eexists dot, _|].
  destruct (is_syntax_char a); [by eexists backslash, _|]. by eexists a, _.
Qed.

Lemma parse_mask_expression s :
  parse_items (mask_expression s +:+ "$") = Some (mask_items s).
Proof.
  induction s as [|a s IH]; [done|]. simpl mask_expression. simpl mask_items.
  rewrite append_assoc.
  destruct (mask_expression_head s) as (b & t & Hb & Hstar).
  unfold mask_char_expression, mask_char_item, escapeCommanderMaskRegExp.
  case_bool_decide as H1; [by simpl; rewrite IH|].
  case_bool_decide as H2.
  - simpl. rewrite Hb in *. rewrite bool_decide_eq_false_2 by done. by rewrite IH.
  - destruct (is_syntax_char a) eqn:Hs.
    + simpl. unfold is_identity_escape. rewrite Hs. simpl.
      rewrite Hb in *. rewrite bool_decide_eq_false_2 by done. by rewrite IH.
    + assert (forall x, is_syntax_char x = true -> a <> x) as Hx by (intros x Hx ->; congruence).
      simpl. rewrite Hs.
      rewrite !bool_decide_eq_false_2 by (apply Hx; reflexivity).
      rewrite Hb in *. rewrite bool_decide_eq_false_2 by done. by rewrite IH.
Qed.

Lemma match_star x l s :
  match_items (mkItem x true :: l) s =
  match_items l s ||
  match s with
  | String c s' => atom_accepts x c && match_items (mkItem x true :: l) s'
  | EmptyString => false
  end.
Proof. by destruct s. Qed.

Lemma match_mask_items p s : match_items (mask_items p) s = true <-> wildcard p s.
Proof.
  split.
  - revert s. induction p as [|a p IH]; intros s.
    + simpl. intros ->%bool_decide_eq_true. constructor.
    + simpl mask_items. unfold mask_char_item.
      case_bool_decide as H1; [subst a|case_bool_decide as H2; [subst a|]].
      * induction s as [|c s IHs]; rewrite match_star; simpl.
        -- rewrite orb_false_r. intros. apply wc_star_done. auto.
        -- intros [?|[Hc ?]%andb_true_iff]%orb_true_iff; [apply wc_star_done; auto|].
           apply negb_true_iff in Hc. apply wc_star_more; auto.
      * destruct s as [|c s]; simpl; [done|].
        intros [Hc ?]%andb_true_iff. apply negb_true_iff in Hc. apply wc_query; auto.
      * destruct s as [|c s]; simpl; [done|].
        intros [Hc ?]%andb_true_iff. apply wc_char; auto.
  - induction 1 as [|p s _ IH|p c s Hc _ IH|p c s Hc _ IH|a p c s Ha1 Ha2 Hc _ IH].
    + done.
    + simpl mask_items. change (mask_char_item star_char) with (mkItem ReDot true).
      by rewrite match_star, IH.
    + simpl mask_items in *. change (mask_char_item star_char) with (mkItem ReDot true) in *.
      rewrite match_star. simpl atom_accepts. rewrite Hc, IH. by rewrite orb_true_r.
    + simpl. by rewrite Hc, IH.
    + simpl mask_items. unfold mask_char_item.
      rewrite !bool_decide_eq_false_2 by done. simpl. by rewrite Hc, IH.
Qed.

Lemma commanderMaskPatternToRegExp_test p x s :
  commanderMaskPatternToRegExp p = Some x ->
  regexp_test x s = true <-> wildcard (trim p) s.
Proof.
  unfold commanderMaskPatternToRegExp. destruct (truthy (trim p)); [|done].
  intros [= <-]. unfold regexp_test, parse_regexp. simpl.
  rewrite parse_mask_expression. apply match_mask_items.
Qed.

Lemma commanderMaskPatternToRegExp_None p :
  commanderMaskPatternToRegExp p = None <-> trim p = "".
Proof.
  unfold commanderMaskPatternToRegExp. destruct (truthy (trim p)) eqn:E.
  - apply truthy_true in E. naive_solver.
  - apply truthy_false in E. naive_solver.
Qed.

Lemma matchedEntries_sublist entries mask b :
  getCommanderMatchedEntries entries mask b `sublist_of` entries.
Proof.
  unfold getCommanderMatchedEntries. case_match.
  - destruct b; [done|]. apply sublist_nil_l.
  - apply filterb_sublist.
Qed.

Lemma matchedEntries_subseteq entries mask b e :
  e ∈ getCommanderMatchedEntries entries mask b -> e ∈ entries.
Proof.
  unfold getCommanderMatchedEntries. case_match.
  - destruct b; [done|]. by intros ?%elem_of_nil.
  - by intros [? _]%elem_of_filterb.
Qed.

(** *** The patterns of a mask *)

Lemma trimEnd_id s : str_all (fun a => negb (is_space a)) s = true -> trimEnd s = s.
Proof.
  induction s as [|a s IH]; simpl; [done|]. intros [Ha Hs]%andb_true_iff.
  rewrite IH by done. apply negb_true_iff in Ha. rewrite Ha. by destruct s.
Qed.

Lemma trim_id s : str_all (fun a => negb (is_space a)) s = true -> trim s = s.
Proof.
  intros H. unfold trim. rewrite trimEnd_id by done.
  destruct s as [|a s]; simpl in *; [done|].
  apply andb_true_iff in H as [Ha _]. apply negb_true_iff in Ha. by rewrite Ha.
Qed.

Definition no_separator (s : string) : bool :=
  str_all (fun a => bool_decide (mask_separator_of a = None)) s.

Lemma split_runs_no_separator prev s :
  Forall (fun w => no_separator w = true) (split_runs prev s).
Proof.
  revert prev. induction s as [|a s IH]; intros prev; simpl; [by repeat constructor|].
  destruct (mask_separator_of a) as [k|] eqn:E.
  - case_bool_decide; [done|]. by constructor.
  - specialize (IH None). destruct (split_runs None s) as [|w ws].
    + repeat constructor. unfold no_separator; simpl. by rewrite E.
    + inversion IH; subst. constructor; [|done].
      unfold no_separator in *; simpl. rewrite E. done.
Qed.

Lemma no_separator_no_space s :
  no_separator s = true -> str_all (fun a => negb (is_space a)) s = true.
Proof.
  unfold no_separator. induction s as [|a s IH]; simpl; [done|].
  intros [Ha Hs]%andb_true_iff. rewrite IH by done. rewrite andb_true_r.
  apply bool_decide_eq_true in Ha. unfold mask_separator_of in Ha.
  destruct (_ || _)%bool; [done|]. by destruct (is_space a).
Qed.

(** Every pattern of a mask is a non-empty text without separators. *)
Lemma maskPatterns_words mask p :
  p ∈ splitCommanderMaskPatterns mask -> p <> "" /\ no_separator p = true /\ trim p = p.
Proof.
  unfold splitCommanderMaskPatterns.
  intros [(w & -> & Hw)%list_elem_of_fmap Ht]%elem_of_filterb. apply truthy_true in Ht.
  pose proof (split_runs_no_separator None mask) as Hall.
  rewrite Forall_forall in Hall. specialize (Hall w Hw).
  pose proof (trim_id w (no_separator_no_space w Hall)) as Hw'.
  rewrite Hw' in *. done.
Qed.

Lemma maskPattern_expression mask p :
  p ∈ splitCommanderMaskPatterns mask ->
  exists x, commanderMaskPatternToRegExp p = Some x /\ forall s, regexp_test x s = true <-> wildcard p s.
Proof.
  intros (Hne & _ & Htrim)%maskPatterns_words.
  destruct (commanderMaskPatternToRegExp p) as [x|] eqn:E.
  - exists x. split; [done|]. intros s. rewrite <- Htrim.
    by apply commanderMaskPatternToRegExp_test.
  - apply commanderMaskPatternToRegExp_None in E. congruence.
Qed.

Lemma mask_expressions_nil mask :
  mapFilter commanderMaskPatternToRegExp (splitCommanderMaskPatterns mask) = [] <->
  splitCommanderMaskPatterns mask = [].
Proof.
  split; [|by intros ->]. intros H.
  destruct (splitCommanderMaskPatterns mask) as [|p l] eqn:E; [done|].
  destruct (maskPattern_expression mask p) as (x & Hx & _); [rewrite E; left|].
  unfold mapFilter in H. simpl in H. by rewrite Hx in H.
Qed.

Lemma some_mask_expression mask s :
  some (fun x => regexp_test x s)
    (mapFilter commanderMaskPatternToRegExp (splitCommanderMaskPatterns mask)) = true <->
  exists p, p ∈ splitCommanderMaskPatterns mask /\ wildcard p s.
Proof.
  rewrite some_true. unfold mapFilter. setoid_rewrite list_elem_of_omap. split.
  - intros (x & (p & Hp & Hx) & Ht). exists p. split; [done|].
    destruct (maskPattern_expression mask p Hp) as (y & Hy & Hspec).
    apply Hspec. by simplify_eq.
  - intros (p & Hp & Hw). destruct (maskPattern_expression mask p Hp) as (y & Hy & Hspec).
    exists y. split; [by exists p|]. by apply Hspec.
Qed.

Lemma getCommanderMatchedEntries_iff entries mask emptyMeansAll e :
  e ∈ getCommanderMatchedEntries entries mask emptyMeansAll <->
  e ∈ entries /\
  match splitCommanderMaskPatterns mask with
  | [] => emptyMeansAll = true
  | patterns => exists p, p ∈ patterns /\ wildcard p (e_name e)
  end.
Proof.
  unfold getCommanderMatchedEntries.
  pose proof (mask_expressions_nil mask) as Hnil.
  pose proof (some_mask_expression mask (e_name e)) as Hsome.
  destruct (mapFilter _ (splitCommanderMaskPatterns mask)) as [|x l] eqn:E.
  - destruct Hnil as [Hnil _]. rewrite (Hnil eq_refl).
    destruct emptyMeansAll; [naive_solver|]. rewrite elem_of_nil. naive_solver.
  - destruct (splitCommanderMaskPatterns mask) as [|p ps] eqn:Ep.
    + destruct Hnil as [_ Hnil]. by specialize (Hnil eq_refl).
    + rewrite elem_of_filterb. by rewrite Hsome.
Qed.

(** *** Trimming a mask *)

Lemma split_runs_nonempty prev s : split_runs prev s <> [].
Proof.
  revert prev. induction s as [|a s IH]; intros prev; simpl; [done|].
  destruct (mask_separator_of a); [case_bool_decide; [apply IH|done]|].
  by destruct (split_runs None s).
Qed.

(** The separator run before a mask does not change its patterns. *)
Definition patterns_from (prev : option mask_separator) (s : string) : list string :=
  filterb truthy (trim <$> split_runs prev s).

Lemma patterns_empty_word ws :
  filterb truthy (trim <$> ("" :: ws)) = filterb truthy (trim <$> ws).
Proof. done. Qed.

Lemma patterns_from_prev prev prev' s : patterns_from prev s = patterns_from prev' s.
Proof.
  destruct s as [|a s]; [done|]. unfold patterns_from. simpl.
  destruct (mask_separator_of a); [|done].
  repeat case_bool_decide; by rewrite ?patterns_empty_word.
Qed.

Lemma patterns_trimStart s : patterns_from None (trimStart s) = patterns_from None s.
Proof.
  induction s as [|a s IH]; [done|]. simpl trimStart.
  destruct (is_space a) eqn:Ha; [|done]. rewrite IH. unfold patterns_from at 2. simpl.
  unfold mask_separator_of. rewrite Ha.
  destruct (_ || _)%bool; apply (patterns_from_prev None _ s).
Qed.

(** Dropping trailing space only drops empty words. *)
Lemma split_runs_trimEnd prev s :
  exists k, split_runs prev s = split_runs prev (trimEnd s) ++ replicate k "".
Proof.
  revert prev. induction s as [|a s IH]; intros prev; [by exists 0%nat|].
  simpl trimEnd. destruct (trimEnd s) as [|b t] eqn:Et.
  - destruct (is_space a) eqn:Ha.
    + assert (exists k, mask_separator_of a = Some k) as [k Hk].
      { unfold mask_separator_of. rewrite Ha. destruct (_ || _)%bool; eauto. }
      destruct (IH (Some k)) as [n Hn]. simpl. rewrite Hk, Hn.
      case_bool_decide; [by exists n|]. by exists (S n).
    + simpl. destruct (mask_separator_of a) as [k|].
      * destruct (IH (Some k)) as [n Hn]. rewrite Hn. case_bool_decide; by exists n.
      * destruct (IH None) as [n Hn]. rewrite Hn. by exists n.
  - change (split_runs prev (String a s)) with (match mask_separator_of a with
      | Some k => if bool_decide (prev = Some k) then split_runs (Some k) s
                  else EmptyString :: split_runs (Some k) s
      | None => match split_runs None s with
                | w :: ws => String a w :: ws | [] => [String a EmptyString] end end).
    change (split_runs prev (String a (String b t))) with (match mask_separator_of a with
      | Some k => if bool_decide (prev = Some k) then split_runs (Some k) (String b t)
                  else EmptyString :: split_runs (Some k) (String b t)
      | None => match split_runs None (String b t) with
                | w :: ws => String a w :: ws | [] => [String a EmptyString] end end).
    destruct (mask_separator_of a) as [k|].
    + destruct (IH (Some k)) as [n Hn]. rewrite Hn. case_bool_decide; by exists n.
    + destruct (IH None) as [n Hn]. rewrite Hn.
      destruct (split_runs None (String b t)) as [|w ws] eqn:E; [|by exists n].
      exfalso. pose proof (split_runs_nonempty None (String b t)). congruence.
Qed.

Lemma patterns_replicate ws k :
  filterb truthy (trim <$> (ws ++ replicate k "")) = filterb truthy (trim <$> ws).
Proof.
  rewrite fmap_app. unfold filterb. rewrite List.filter_app, fmap_replicate.
  fold (filterb truthy (replicate k (trim ""))).
  rewrite (filterb_none truthy (replicate k (trim ""))), app_nil_r; [done|].
  by intros x [-> _]%elem_of_replicate.
Qed.

Lemma splitCommanderMaskPatterns_trim s :
  splitCommanderMaskPatterns (trim s) = splitCommanderMaskPatterns s.
Proof.
  change (patterns_from None (trim s) = patterns_from None s).
  unfold trim. rewrite patterns_trimStart. unfold patterns_from.
  destruct (split_runs_trimEnd None s) as [k Hk]. by rewrite Hk, patterns_replicate.
Qed.

Lemma matchedEntries_trim entries mask b :
  getCommanderMatchedEntries entries (trim mask) b = getCommanderMatchedEntries entries mask b.
Proof. unfold getCommanderMatchedEntries. by rewrite splitCommanderMaskPatterns_trim. Qed.

Lemma matchedEntries_perm l l' mask b :
  l ≡ₚ l' -> getCommanderMatchedEntries l mask b ≡ₚ getCommanderMatchedEntries l' mask b.
Proof.
  intros Hp. unfold getCommanderMatchedEntries. case_match; [by destruct b|].
  by apply filterb_perm.
Qed.

#[export] Hint Resolve matchedEntries_subseteq matchedEntries_sublist : commander.

(** ** Properties *)

(** C4: the entries a mask selects are exactly the entries whose name one of its
    patterns accepts as a wildcard; the regular expression that the code emits
    for a pattern, escapes included, is inside the grammar and means that
    wildcard.  A mask without patterns selects every entry for the filter and
    none for a selection. *)
Theorem getCommanderMatchedEntries_spec entries mask emptyMeansAll e :
  e ∈ getCommanderMatchedEntries entries mask emptyMeansAll <->
  e ∈ entries /\
  match splitCommanderMaskPatterns mask with
  | [] => emptyMeansAll = true
  | patterns => exists p, p ∈ patterns /\ wildcard p (e_name e)
  end.
Proof. apply getCommanderMatchedEntries_iff. Qed.
