(* ===== verification/Selection.v ===== *)
(** * Cursor and selection of a pane

    [frontend/src/features/commander/model/store-selection.ts]: cursor moves,
    range and toggle selection, mask selection, inversion, and the matches of
    the mask, filter and quick-search prompts. *)
From stdpp Require Import strings.
From S2P Require Import Prelude JsString Types Mask.
Local Open Scope string_scope.
Local Open Scope list_scope.
Local Open Scope Z_scope.

(** ** Operations *)

Definition has_id (x : string) (e : CommanderDirectoryEntry) : bool :=
  bool_decide (e_id e = x).

(** [entries.findIndex((entry) => entry.id === x)] *)
Definition index_of (x : string) (p : CommanderPaneRuntimeState) : option nat :=
  findIndex (has_id x) (p_entries p).

(** The row a cursor move ends on: the start row is the cursor row, or the
    first one, and the result is clamped to the visible rows. *)
Definition next_cursor_index (p : CommanderPaneRuntimeState) (delta : Z) : Z :=
  let currentCursorIndex :=
    match truthyOpt (p_cursorEntryId p) with
    | Some c => index_of c p
    | None => None
    end in
  let startIndex := Z.of_nat (default 0%nat currentCursorIndex) in
  Z.min (Z.of_nat (length (p_entries p)) - 1) (Z.max 0 (startIndex + delta)).

Definition movePaneCursor (p : CommanderPaneRuntimeState) (delta : Z)
    : CommanderPaneRuntimeState :=
  match p_entries p with
  | [] => p
  | _ =>
      let next := e_id <$> at_ (p_entries p) (next_cursor_index p delta) in
      set_marks next next (p_selectedIds p) p
  end.

Inductive CommanderBoundary := BoundaryStart | BoundaryEnd.
#[global] Instance boundary_eq : EqDecision CommanderBoundary.
Proof. solve_decision. Defined.

(** [entries[0]?.id] or [entries[entries.length - 1]?.id] *)
Definition boundary_id (p : CommanderPaneRuntimeState) (b : CommanderBoundary) : option string :=
  match b with
  | BoundaryStart => e_id <$> head (p_entries p)
  | BoundaryEnd => e_id <$> lastOf (p_entries p)
  end.

Definition setCursorToBoundary (p : CommanderPaneRuntimeState) (b : CommanderBoundary)
    : CommanderPaneRuntimeState :=
  match p_entries p with
  | [] => p
  | _ => set_marks (boundary_id p b) (boundary_id p b) (p_selectedIds p) p
  end.

(** [paneState.selectionAnchorEntryId ?? paneState.cursorEntryId ?? target] *)
Definition range_anchor (p : CommanderPaneRuntimeState) (target : string) : string :=
  nullish (p_selectionAnchorEntryId p) (nullish (p_cursorEntryId p) target).

Definition setSelectionRangeAtCursor (p : CommanderPaneRuntimeState) (targetEntryId : string)
    : CommanderPaneRuntimeState :=
  match index_of targetEntryId p with
  | None => p
  | Some targetIndex =>
      let resolvedAnchorIndex := default targetIndex (index_of (range_anchor p targetEntryId) p) in
      let '(rangeStartIndex, rangeEndIndex) :=
        if (resolvedAnchorIndex <=? targetIndex)%nat then (resolvedAnchorIndex, targetIndex)
        else (targetIndex, resolvedAnchorIndex) in
      set_marks (Some targetEntryId) (Some (range_anchor p targetEntryId))
        (entry_ids (slice rangeStartIndex (rangeEndIndex + 1) (p_entries p))) p
  end.

Definition movePaneCursorWithSelection (p : CommanderPaneRuntimeState) (delta : Z)
    : CommanderPaneRuntimeState :=
  match p_entries p with
  | [] => p
  | _ =>
      match truthyOpt (e_id <$> at_ (p_entries p) (next_cursor_index p delta)) with
      | None => p
      | Some next => setSelectionRangeAtCursor p next
      end
  end.

Definition setCursorToBoundaryWithSelection (p : CommanderPaneRuntimeState)
    (b : CommanderBoundary) : CommanderPaneRuntimeState :=
  match p_entries p with
  | [] => p
  | _ =>
      match truthyOpt (boundary_id p b) with
      | None => p
      | Some target => setSelectionRangeAtCursor p target
      end
  end.

Definition toggleEntrySelection (p : CommanderPaneRuntimeState) (entryId : string)
    : CommanderPaneRuntimeState :=
  if some (has_id entryId) (p_entries p) then
    let selectedIds :=
      if includes entryId (p_selectedIds p)
      then filterb (fun s => negb (bool_decide (s = entryId))) (p_selectedIds p)
      else p_selectedIds p ++ [entryId] in
    set_marks (p_cursorEntryId p) (Some entryId) selectedIds p
  else p.

(** [{ entryIds, entryNames }] *)
Record CommanderMatches := mkMatches { m_entryIds : list string; m_entryNames : list string }.

Definition matches_of (l : list CommanderDirectoryEntry) : CommanderMatches :=
  mkMatches (entry_ids l) (entry_names l).

Definition getCommanderMaskMatches (p : CommanderPaneRuntimeState) (mask : string)
    : CommanderMatches :=
  matches_of (getCommanderMatchedEntries (p_entries p) mask false).

Definition getPaneStateOf (w : CommanderWidgetRuntimeState) (pane : CommanderPaneId)
    : CommanderPaneRuntimeState :=
  match pane with PaneLeft => w_leftPane w | PaneRight => w_rightPane w end.

Definition getCommanderFilterMatches (w : CommanderWidgetRuntimeState)
    (pane : CommanderPaneId) (mask : string) : CommanderMatches :=
  let visibleEntries :=
    filterb (fun e => w_showHidden w || negb (e_hidden e))%bool
      (p_directoryEntries (getPaneStateOf w pane)) in
  matches_of (getCommanderMatchedEntries visibleEntries mask true).

Definition applySelectionMaskToPane (p : CommanderPaneRuntimeState) (mask : string)
    (select : bool) : CommanderPaneRuntimeState :=
  let matchedIds := m_entryIds (getCommanderMaskMatches p mask) in
  let nextSelectedIds :=
    if select then
      entry_ids (filterb (fun e => includes (e_id e) (p_selectedIds p)
                                   || includes (e_id e) matchedIds)%bool (p_entries p))
    else filterb (fun x => negb (includes x matchedIds)) (p_selectedIds p) in
  let anchor :=
    match p_selectionAnchorEntryId p with
    | Some a => Some a
    | None => match p_cursorEntryId p with Some c => Some c | None => head nextSelectedIds end
    end in
  set_marks (p_cursorEntryId p) anchor nextSelectedIds p.

Definition invertPaneSelection (p : CommanderPaneRuntimeState) : CommanderPaneRuntimeState :=
  let nextSelectedIds :=
    entry_ids (filterb (fun e => negb (includes (e_id e) (p_selectedIds p))) (p_entries p)) in
  let anchor :=
    match p_cursorEntryId p with Some c => Some c | None => head nextSelectedIds end in
  set_marks (p_cursorEntryId p) anchor nextSelectedIds p.

Section Search.
Context `{Locale}.

Definition getCommanderSearchMatches (p : CommanderPaneRuntimeState) (query : string)
    : CommanderMatches :=
  let normalizedQuery := toLocaleLowerCase (trim query) in
  if truthy normalizedQuery then
    matches_of (filterb (fun e => strIncludes normalizedQuery (toLocaleLowerCase (e_name e)))
                  (p_entries p))
  else mkMatches [] [].

End Search.

Definition getCommanderResolvedSearchMatchIndex (entryIds : list string)
    (cursorEntryId : option string) (fallbackIndex : Z) : Z :=
  match entryIds with
  | [] => -1
  | _ =>
      let fallback := Z.max 0 (Z.min fallbackIndex (Z.of_nat (length entryIds) - 1)) in
      match truthyOpt cursorEntryId with
      | Some c =>
          match findIndex (fun x => bool_decide (x = c)) entryIds with
          | Some i => Z.of_nat i
          | None => fallback
          end
      | None => fallback
      end
  end.

(** ** The marks of a pane

    In a pane with visible rows the cursor and the range anchor are visible
    rows and every selected id is a visible row. *)

Definition marks_ok (p : CommanderPaneRuntimeState) : Prop :=
  p_entries p <> [] ->
  (forall x, x ∈ p_selectedIds p -> x ∈ entry_ids (p_entries p)) /\
  (exists c, p_cursorEntryId p = Some c /\ c ∈ entry_ids (p_entries p)) /\
  (exists a, p_selectionAnchorEntryId p = Some a /\ a ∈ entry_ids (p_entries p)).

(** ** Lemmas *)

Lemma has_id_true x e : has_id x e = true <-> e_id e = x.
Proof. apply bool_decide_eq_true. Qed.

Lemma index_of_Some x p i :
  index_of x p = Some i -> entry_ids (p_entries p) !! i = Some x.
Proof.
  intros (e & He & Hx & _)%findIndex_Some. apply has_id_true in Hx.
  unfold entry_ids. rewrite list_lookup_fmap, He. simpl. by rewrite Hx.
Qed.

Lemma index_of_lt x p i : index_of x p = Some i -> (i < length (p_entries p))%nat.
Proof. apply findIndex_lt. Qed.

Lemma index_of_elem x p : x ∈ entry_ids (p_entries p) -> exists i, index_of x p = Some i.
Proof.
  intros (e & He & Hx)%elem_of_entry_ids. unfold index_of.
  destruct (findIndex (has_id x) (p_entries p)) as [i|] eqn:E; [by eexists|].
  rewrite findIndex_None in E. specialize (E e He).
  assert (has_id x e = true) by (by apply has_id_true). congruence.
Qed.

Lemma index_of_NoDup x p i :
  NoDup (entry_ids (p_entries p)) ->
  entry_ids (p_entries p) !! i = Some x -> index_of x p = Some i.
Proof.
  intros Hnd Hi. destruct (index_of_elem x p) as [j Hj].
  { by eapply list_elem_of_lookup_2. }
  rewrite Hj. f_equal. apply index_of_Some in Hj. by eapply NoDup_lookup.
Qed.

Lemma at_elem {A} (l : list A) i x : at_ l i = Some x -> x ∈ l.
Proof. unfold at_. case_decide; [|done]. apply list_elem_of_lookup_2. Qed.

Lemma at_Some {A} (l : list A) i :
  0 <= i < Z.of_nat (length l) -> exists x, at_ l i = Some x.
Proof.
  intros Hi. unfold at_. rewrite decide_True by lia. apply lookup_lt_is_Some. lia.
Qed.

Lemma next_cursor_index_range p d :
  p_entries p <> [] -> 0 <= next_cursor_index p d < Z.of_nat (length (p_entries p)).
Proof.
  intros Hne. unfold next_cursor_index. destruct (p_entries p) as [|e l]; [done|].
  simpl length. lia.
Qed.

Lemma set_marks_ok p c a sel :
  c ∈ entry_ids (p_entries p) -> a ∈ entry_ids (p_entries p) ->
  (forall x, x ∈ sel -> x ∈ entry_ids (p_entries p)) ->
  marks_ok (set_marks (Some c) (Some a) sel p).
Proof. intros Hc Ha Hs _. simpl. split_and!; eauto. Qed.

Lemma marks_ok_empty p : p_entries p = [] -> marks_ok p.
Proof. by intros H Hne. Qed.

#[export] Hint Resolve set_marks_ok marks_ok_empty : commander.

Lemma entries_case (p : CommanderPaneRuntimeState) :
  p_entries p = [] \/ p_entries p <> [].
Proof. destruct (p_entries p); auto. Qed.

Lemma boundary_id_Some p b :
  p_entries p <> [] ->
  exists x, boundary_id p b = Some x /\ x ∈ entry_ids (p_entries p).
Proof.
  intros Hne. destruct b; simpl.
  - destruct (p_entries p) as [|e l]; [done|]. exists (e_id e). split; [done|left].
  - unfold lastOf. destruct (last (p_entries p)) as [e|] eqn:E.
    + exists (e_id e). split; [done|]. apply elem_of_entry_ids.
      apply last_Some_elem_of in E. eauto.
    + by apply last_None in E.
Qed.

Lemma next_cursor_Some p d :
  p_entries p <> [] ->
  exists x, e_id <$> at_ (p_entries p) (next_cursor_index p d) = Some x /\
    x ∈ entry_ids (p_entries p).
Proof.
  intros Hne. destruct (at_Some (p_entries p) (next_cursor_index p d)) as [e He].
  { by apply next_cursor_index_range. }
  rewrite He. exists (e_id e). split; [done|]. apply elem_of_entry_ids.
  apply at_elem in He. eauto.
Qed.

Lemma movePaneCursor_ok p d : marks_ok p -> marks_ok (movePaneCursor p d).
Proof.
  intros Hok. unfold movePaneCursor. destruct (entries_case p) as [E|E].
  - by rewrite E.
  - destruct (next_cursor_Some p d E) as (x & -> & Hx).
    destruct (p_entries p) eqn:Ep; [done|]. rewrite <- Ep in *.
    apply set_marks_ok; auto. by apply Hok.
Qed.

Lemma setCursorToBoundary_ok p b : marks_ok p -> marks_ok (setCursorToBoundary p b).
Proof.
  intros Hok. unfold setCursorToBoundary. destruct (entries_case p) as [E|E].
  - by rewrite E.
  - destruct (boundary_id_Some p b E) as (x & -> & Hx).
    destruct (p_entries p) eqn:Ep; [done|]. rewrite <- Ep in *.
    apply set_marks_ok; auto. by apply Hok.
Qed.

Lemma elem_of_slice {A} a b (l : list A) x : x ∈ slice a b l -> x ∈ l.
Proof.
  unfold slice. intros (i & Hi)%list_elem_of_lookup_1.
  apply lookup_take_Some in Hi as [Hi _]. rewrite lookup_drop in Hi.
  by eapply list_elem_of_lookup_2.
Qed.

Lemma elem_of_entry_ids_slice a b l x : x ∈ entry_ids (slice a b l) -> x ∈ entry_ids l.
Proof.
  intros (e & He & Hx)%elem_of_entry_ids. apply elem_of_entry_ids.
  apply elem_of_slice in He. eauto.
Qed.

Lemma setSelectionRange_ok p t : marks_ok p -> marks_ok (setSelectionRangeAtCursor p t).
Proof.
  intros Hok. unfold setSelectionRangeAtCursor.
  destruct (index_of t p) as [j|] eqn:Ej; [|done].
  case_match. intros Hne. destruct (Hok Hne) as (Hsel & Hc & a & Ha & Hain).
  simpl. split_and!.
  - by intros x ?%elem_of_entry_ids_slice.
  - exists t. split; [done|]. apply index_of_Some in Ej.
    by eapply list_elem_of_lookup_2.
  - unfold range_anchor. rewrite Ha. simpl. eauto.
Qed.

Lemma movePaneCursorWithSelection_ok p d :
  marks_ok p -> marks_ok (movePaneCursorWithSelection p d).
Proof.
  intros Hok. unfold movePaneCursorWithSelection.
  destruct (p_entries p); [done|]. case_match; [|done]. by apply setSelectionRange_ok.
Qed.

Lemma setCursorToBoundaryWithSelection_ok p b :
  marks_ok p -> marks_ok (setCursorToBoundaryWithSelection p b).
Proof.
  intros Hok. unfold setCursorToBoundaryWithSelection.
  destruct (p_entries p); [done|]. case_match; [|done]. by apply setSelectionRange_ok.
Qed.

Lemma some_has_id x l : some (has_id x) l = true <-> x ∈ entry_ids l.
Proof.
  rewrite some_true, elem_of_entry_ids. by setoid_rewrite has_id_true.
Qed.

Lemma toggleEntrySelection_ok p x : marks_ok p -> marks_ok (toggleEntrySelection p x).
Proof.
  intros Hok. unfold toggleEntrySelection.
  destruct (some (has_id x) (p_entries p)) eqn:E; [|done].
  apply some_has_id in E. intros Hne. destruct (Hok Hne) as (Hsel & Hc & _).
  simpl. split_and!; eauto.
  intros y. destruct (includes x (p_selectedIds p)).
  - intros [? _]%elem_of_filterb. auto.
  - intros [?| ->%list_elem_of_singleton]%elem_of_app; auto.
Qed.

Lemma elem_of_entry_ids_filterb f l x : x ∈ entry_ids (filterb f l) -> x ∈ entry_ids l.
Proof.
  intros (e & He & Hx)%elem_of_entry_ids. apply elem_of_entry_ids.
  apply elem_of_filterb in He as [? _]. eauto.
Qed.

Lemma applySelectionMask_ok p mask b :
  marks_ok p -> marks_ok (applySelectionMaskToPane p mask b).
Proof.
  intros Hok Hne. destruct (Hok Hne) as (Hsel & Hc & a & Ha & Hain).
  simpl. rewrite Ha. split_and!; eauto.
  intros x. destruct b.
  - apply elem_of_entry_ids_filterb.
  - intros [? _]%elem_of_filterb. auto.
Qed.

Lemma invertPaneSelection_ok p : marks_ok p -> marks_ok (invertPaneSelection p).
Proof.
  intros Hok Hne. destruct (Hok Hne) as (Hsel & (c & Hc & Hcin) & _).
  simpl. rewrite Hc. split_and!; eauto.
  intros x. apply elem_of_entry_ids_filterb.
Qed.

#[export] Hint Resolve movePaneCursor_ok setCursorToBoundary_ok setSelectionRange_ok
  movePaneCursorWithSelection_ok setCursorToBoundaryWithSelection_ok
  toggleEntrySelection_ok applySelectionMask_ok invertPaneSelection_ok : commander.

(** *** Functional lemmas *)

Lemma index_of_set_marks x c a sel p : index_of x (set_marks c a sel p) = index_of x p.
Proof. done. Qed.

Lemma lookup_slice {A} a b (l : list A) k :
  slice a b l !! k = if decide (k < b - a)%nat then l !! (a + k)%nat else None.
Proof.
  unfold slice. case_decide.
  - rewrite lookup_take_lt by done. by rewrite lookup_drop.
  - apply lookup_take_ge. lia.
Qed.

Lemma elem_of_slice_iff {A} a b (l : list A) x :
  x ∈ slice a b l <-> exists k, (a <= k < b)%nat /\ l !! k = Some x.
Proof.
  rewrite list_elem_of_lookup. setoid_rewrite lookup_slice. split.
  - intros [k Hk]. case_decide; [|done]. exists (a + k)%nat. split; [lia|done].
  - intros (k & Hk & Hx). exists (k - a)%nat. rewrite decide_True by lia.
    by replace (a + (k - a))%nat with k by lia.
Qed.

Lemma entry_ids_slice a b l : entry_ids (slice a b l) = slice a b (entry_ids l).
Proof. unfold entry_ids, slice. by rewrite fmap_take, fmap_drop. Qed.

Lemma setSelectionRange_marks p a c sel t j :
  p_selectionAnchorEntryId p = Some a -> index_of t p = Some j ->
  setSelectionRangeAtCursor (set_marks c (Some a) sel p) t = setSelectionRangeAtCursor p t.
Proof.
  intros Ha Hj. unfold setSelectionRangeAtCursor. rewrite index_of_set_marks, Hj.
  unfold range_anchor; simpl. rewrite Ha; simpl. rewrite index_of_set_marks.
  by destruct (_ <=? _)%nat.
Qed.

Lemma range_of_indices p t i j :
  index_of t p = Some j -> index_of (range_anchor p t) p = Some i ->
  setSelectionRangeAtCursor p t =
  set_marks (Some t) (Some (range_anchor p t))
    (entry_ids (slice (i `min` j) (i `max` j + 1) (p_entries p))) p.
Proof.
  intros Hj Hi. unfold setSelectionRangeAtCursor. rewrite Hj, Hi. simpl.
  destruct (Nat.leb_spec i j).
  - by rewrite Nat.min_l, Nat.max_r by lia.
  - by rewrite Nat.min_r, Nat.max_l by lia.
Qed.

Lemma toggle_visible p x :
  x ∈ entry_ids (p_entries p) ->
  toggleEntrySelection p x =
  set_marks (p_cursorEntryId p) (Some x)
    (if includes x (p_selectedIds p)
     then filterb (fun s => negb (bool_decide (s = x))) (p_selectedIds p)
     else p_selectedIds p ++ [x]) p.
Proof.
  intros Hx. unfold toggleEntrySelection. by rewrite (proj2 (some_has_id _ _) Hx).
Qed.

Lemma elem_of_maskMatches p mask x :
  NoDup (entry_ids (p_entries p)) ->
  x ∈ m_entryIds (getCommanderMaskMatches p mask) <->
  exists e q, e ∈ p_entries p /\ e_id e = x /\
    q ∈ splitCommanderMaskPatterns mask /\ wildcard q (e_name e).
Proof.
  intros Hnd. unfold getCommanderMaskMatches, matches_of. simpl.
  rewrite elem_of_entry_ids. setoid_rewrite getCommanderMatchedEntries_iff. split.
  - intros (e & (He & Hp) & Hx). destruct (splitCommanderMaskPatterns mask); [done|].
    destruct Hp as (q & Hq & Hw). eauto 8.
  - intros (e & q & He & Hx & Hq & Hw). exists e. split_and!; auto.
    destruct (splitCommanderMaskPatterns mask); [by apply elem_of_nil in Hq|]. eauto.
Qed.

(** ** Properties *)

(** A range selection selects exactly the visible rows between the anchor row
    and the target row, both included, in row order, and puts the cursor on the
    target; the anchor stays where it was. *)
Theorem setSelectionRange_spec p a t i j :
  NoDup (entry_ids (p_entries p)) ->
  p_selectionAnchorEntryId p = Some a ->
  entry_ids (p_entries p) !! i = Some a ->
  entry_ids (p_entries p) !! j = Some t ->
  let q := setSelectionRangeAtCursor p t in
  p_cursorEntryId q = Some t /\ p_selectionAnchorEntryId q = Some a /\
  p_selectedIds q = slice (i `min` j) (i `max` j + 1) (entry_ids (p_entries p)) /\
  (forall x, x ∈ p_selectedIds q <->
     exists k, (i `min` j <= k <= i `max` j)%nat /\ entry_ids (p_entries p) !! k = Some x).
Proof.
  intros Hnd Ha Hi Hj q. subst q.
  assert (range_anchor p t = a) as Hra by (unfold range_anchor; by rewrite Ha).
  rewrite (range_of_indices p t i j).
  - rewrite Hra. simpl. rewrite entry_ids_slice. split_and!; auto.
    intros x. rewrite elem_of_slice_iff.
    split; intros (k & ? & ?); exists k; (split; [lia|done]).
  - by apply index_of_NoDup.
  - rewrite Hra. by apply index_of_NoDup.
Qed.

(** Extending a selection is path independent: shift-moving to one row and
    then to another leaves the pane exactly as shift-moving to the second row
    directly, so a range can grow and shrink again without a trace. *)
Theorem setSelectionRange_path_independent p a t1 t2 :
  p_selectionAnchorEntryId p = Some a ->
  t2 ∈ entry_ids (p_entries p) ->
  setSelectionRangeAtCursor (setSelectionRangeAtCursor p t1) t2 =
  setSelectionRangeAtCursor p t2.
Proof.
  intros Ha Ht2. destruct (index_of_elem t2 p Ht2) as [j2 E2].
  unfold setSelectionRangeAtCursor at 2.
  destruct (index_of t1 p) as [j1|]; [|done]. case_match.
  replace (range_anchor p t1) with a by (unfold range_anchor; by rewrite Ha).
  by eapply setSelectionRange_marks.
Qed.

(** Toggling a visible row changes the membership of that row and of no
    other, and toggling a row that is not selected twice gives back the
    selection list, order included. *)
Theorem toggleEntrySelection_spec p x :
  x ∈ entry_ids (p_entries p) ->
  (forall y, y ∈ p_selectedIds (toggleEntrySelection p x) <->
     if decide (y = x) then x ∉ p_selectedIds p else y ∈ p_selectedIds p) /\
  (x ∉ p_selectedIds p ->
   p_selectedIds (toggleEntrySelection (toggleEntrySelection p x) x) = p_selectedIds p).
Proof.
  intros Hx. split.
  - intros y. rewrite toggle_visible by done. simpl.
    destruct (includes x (p_selectedIds p)) eqn:E.
    + apply includes_true in E. rewrite elem_of_filterb, negb_true_iff, bool_decide_eq_false.
      case_decide; naive_solver.
    + apply includes_false in E. rewrite elem_of_app, list_elem_of_singleton.
      case_decide; naive_solver.
  - intros Hn. rewrite toggle_visible by (by rewrite toggle_visible).
    rewrite (toggle_visible p) by done. simpl.
    rewrite (proj2 (includes_false x _) Hn).
    rewrite (proj2 (includes_true x _)) by (rewrite elem_of_app; right; left).
    unfold filterb. rewrite List.filter_app. simpl.
    rewrite bool_decide_eq_true_2 by done. simpl. rewrite app_nil_r.
    apply filterb_all. intros y Hy. apply negb_true_iff, bool_decide_eq_false. set_solver.
Qed.

(** Inverting selects exactly the visible rows that were not selected, and
    inverting twice gives back the same selected rows. *)
Theorem invertPaneSelection_spec p :
  marks_ok p ->
  (forall x, x ∈ p_selectedIds (invertPaneSelection p) <->
     x ∈ entry_ids (p_entries p) /\ x ∉ p_selectedIds p) /\
  (p_entries p <> [] ->
   forall x, x ∈ p_selectedIds (invertPaneSelection (invertPaneSelection p)) <->
     x ∈ p_selectedIds p).
Proof.
  assert (forall q x, x ∈ p_selectedIds (invertPaneSelection q) <->
     x ∈ entry_ids (p_entries q) /\ x ∉ p_selectedIds q) as Hinv.
  { intros q x. simpl. rewrite !elem_of_entry_ids. setoid_rewrite elem_of_filterb.
    setoid_rewrite negb_true_iff. setoid_rewrite includes_false. naive_solver. }
  intros Hok. split; [apply Hinv|].
  intros Hne x. rewrite Hinv. rewrite Hinv. simpl.
  destruct (Hok Hne) as (Hsel & _).
  destruct (decide (x ∈ p_selectedIds p)); naive_solver.
Qed.

(** Selecting by mask adds exactly the visible rows whose name a pattern of
    the mask accepts, unselecting removes exactly those, and unselecting after
    selecting with the same mask leaves the rows that were selected and that
    the mask does not accept. *)
Theorem applySelectionMask_spec p mask x :
  NoDup (entry_ids (p_entries p)) -> marks_ok p -> p_entries p <> [] ->
  let accepted := exists e q, e ∈ p_entries p /\ e_id e = x /\
    q ∈ splitCommanderMaskPatterns mask /\ wildcard q (e_name e) in
  (x ∈ p_selectedIds (applySelectionMaskToPane p mask true) <->
     x ∈ p_selectedIds p \/ accepted) /\
  (x ∈ p_selectedIds (applySelectionMaskToPane p mask false) <->
     x ∈ p_selectedIds p /\ ~ accepted) /\
  (x ∈ p_selectedIds
     (applySelectionMaskToPane (applySelectionMaskToPane p mask true) mask false) <->
     x ∈ p_selectedIds p /\ ~ accepted).
Proof.
  intros Hnd Hok Hne accepted. destruct (Hok Hne) as (Hsel & _).
  assert (forall q, p_entries q = p_entries p ->
     x ∈ m_entryIds (getCommanderMaskMatches q mask) <-> accepted) as Hacc.
  { intros q Hq. rewrite elem_of_maskMatches by (by rewrite Hq). by rewrite Hq. }
  assert (x ∈ p_selectedIds (applySelectionMaskToPane p mask true) <->
     x ∈ p_selectedIds p \/ accepted) as Hselect.
  { rewrite <- (Hacc p) by done. simpl. rewrite elem_of_entry_ids.
    setoid_rewrite elem_of_filterb. setoid_rewrite orb_true_iff.
    setoid_rewrite includes_true. split; [naive_solver|].
    intros [Hx|Hx].
    - apply Hsel in Hx as Hx'. apply elem_of_entry_ids in Hx'. naive_solver.
    - apply elem_of_entry_ids in Hx as Hx'. destruct Hx' as (e & He & <-).
      apply matchedEntries_subseteq in He. eauto 6. }
  assert (forall q, p_entries q = p_entries p ->
     x ∈ p_selectedIds (applySelectionMaskToPane q mask false) <->
     x ∈ p_selectedIds q /\ ~ accepted) as Hunselect.
  { intros q Hq. rewrite <- (Hacc q Hq). simpl.
    by rewrite elem_of_filterb, negb_true_iff, includes_false. }
  split_and!; [done|by apply Hunselect|].
  rewrite Hunselect by done. rewrite Hselect. naive_solver.
Qed.

(** A cursor move lands on the row at the clamped distance from the cursor
    row: never outside of the visible rows, and a move by [d] that does not hit
    a border is undone by the move by [-d]. *)
Theorem movePaneCursor_spec p c i d :
  NoDup (entry_ids (p_entries p)) ->
  p_cursorEntryId p = Some c -> c <> "" ->
  entry_ids (p_entries p) !! i = Some c ->
  let n := Z.of_nat (length (p_entries p)) in
  let q := movePaneCursor p d in
  p_cursorEntryId q =
    entry_ids (p_entries p) !! Z.to_nat (Z.min (n - 1) (Z.max 0 (Z.of_nat i + d))) /\
  p_selectionAnchorEntryId q = p_cursorEntryId q /\ p_selectedIds q = p_selectedIds p /\
  (0 <= Z.of_nat i + d < n -> (forall c', p_cursorEntryId q = Some c' -> c' <> "") ->
   p_cursorEntryId (movePaneCursor q (- d)) = Some c).
Proof.
  intros Hnd Hc Hcne Hi n q.
  assert (forall r k x e, p_entries r = p_entries p -> p_cursorEntryId r = Some x -> x <> "" ->
     entry_ids (p_entries p) !! k = Some x ->
     movePaneCursor r e = set_marks
       (entry_ids (p_entries p) !! Z.to_nat (Z.min (n - 1) (Z.max 0 (Z.of_nat k + e))))
       (entry_ids (p_entries p) !! Z.to_nat (Z.min (n - 1) (Z.max 0 (Z.of_nat k + e))))
       (p_selectedIds r) r) as Hmove.
  { intros r k x e Hr Hx Hxne Hk. unfold movePaneCursor, next_cursor_index.
    rewrite Hx. rewrite (proj2 (truthyOpt_Some (Some x) x)) by done.
    rewrite (index_of_NoDup x r k) by (by rewrite Hr). rewrite Hr.
    unfold n in *. destruct (p_entries p) as [|e0 l] eqn:Ep; [done|]. rewrite <- Ep in *.
    assert (0 < length (p_entries p))%nat by (rewrite Ep; simpl; lia).
    unfold at_. rewrite decide_True by lia.
    unfold entry_ids. by rewrite list_lookup_fmap. }
  subst q. rewrite (Hmove p i c d) by done. simpl. split_and!; try done.
  intros Hrange Hne'. replace (Z.min (n - 1) (Z.max 0 (Z.of_nat i + d))) with (Z.of_nat i + d) in * by lia.
  destruct (lookup_lt_is_Some_2 (entry_ids (p_entries p)) (Z.to_nat (Z.of_nat i + d))) as [x Hx].
  { unfold entry_ids. rewrite length_fmap. unfold n in *. lia. }
  rewrite (Hmove _ (Z.to_nat (Z.of_nat i + d)) x (- d)); simpl; auto.
  apply lookup_lt_Some in Hi as Hlt. unfold entry_ids in Hlt. rewrite length_fmap in Hlt.
  replace (Z.to_nat (Z.min _ _)) with i by (unfold n in *; lia). done.
Qed.

(** ** Witnesses *)

Lemma marks_sample sel :
  Forall (fun x => x ∈ ["/d::c"; "/d::a.txt"; "/d::b.txt"]) sel ->
  marks_ok (sample_pane [folder_c; file_a; file_b] sel).
Proof.
  rewrite Forall_forall. intros Hsel _. split_and!; [exact Hsel| |];
    (exists "/d::c"; split; [done|left]).
Qed.

Lemma setSelectionRange_spec_witness :
  let p := sample_pane [folder_c; file_a; file_b] [] in
  p_selectedIds (setSelectionRangeAtCursor p "/d::a.txt") =
    slice (0 `min` 1) (0 `max` 1 + 1) ["/d::c"; "/d::a.txt"; "/d::b.txt"].
Proof.
  apply (setSelectionRange_spec (sample_pane [folder_c; file_a; file_b] []) "/d::c" "/d::a.txt" 0 1);
    [by apply (bool_decide_unpack _); vm_compute|reflexivity..].
Defined.

Lemma setSelectionRange_path_independent_witness :
  let p := sample_pane [folder_c; file_a; file_b] [] in
  p_selectedIds (setSelectionRangeAtCursor (setSelectionRangeAtCursor p "/d::b.txt") "/d::a.txt") =
    ["/d::c"; "/d::a.txt"].
Proof.
  intros p. subst p.
  rewrite (setSelectionRange_path_independent (sample_pane [folder_c; file_a; file_b] []) "/d::c").
  - vm_compute. reflexivity.
  - reflexivity.
  - by apply (bool_decide_unpack _); vm_compute.
Defined.

Lemma toggleEntrySelection_spec_witness :
  let p := sample_pane [folder_c; file_a; file_b] ["/d::c"] in
  p_selectedIds (toggleEntrySelection (toggleEntrySelection p "/d::b.txt") "/d::b.txt") = ["/d::c"].
Proof.
  apply (toggleEntrySelection_spec (sample_pane [folder_c; file_a; file_b] ["/d::c"]) "/d::b.txt");
    by apply (bool_decide_unpack _); vm_compute.
Defined.

Lemma invertPaneSelection_spec_witness :
  let p := sample_pane [folder_c; file_a; file_b] ["/d::c"] in
  "/d::b.txt" ∈ p_selectedIds (invertPaneSelection p).
Proof.
  apply (invertPaneSelection_spec (sample_pane [folder_c; file_a; file_b] ["/d::c"]));
    [apply marks_sample|split]; by apply (bool_decide_unpack _); vm_compute.
Defined.

Lemma applySelectionMask_spec_witness :
  let p := sample_pane [folder_c; file_a; file_b] ["/d::c"] in
  "/d::c" ∈ p_selectedIds (applySelectionMaskToPane p "*.txt" true).
Proof.
  apply (applySelectionMask_spec (sample_pane [folder_c; file_a; file_b] ["/d::c"]) "*.txt" "/d::c");
    [by apply (bool_decide_unpack _); vm_compute|apply marks_sample| |left];
    try by apply (bool_decide_unpack _); vm_compute.
Defined.

Lemma movePaneCursor_spec_witness :
  let p := sample_pane [folder_c; file_a; file_b] [] in
  p_cursorEntryId (movePaneCursor (movePaneCursor p 2) (-2)) = Some "/d::c".
Proof.
  apply (movePaneCursor_spec (sample_pane [folder_c; file_a; file_b] []) "/d::c" 0 2);
    [by apply (bool_decide_unpack _); vm_compute|reflexivity|done|reflexivity|simpl; lia|].
  intros c'. vm_compute. by intros [= <-].
Defined.
