(* ===== verification/PaneState.v ===== *)
(** * Projection of a directory to the rows of a pane

    [frontend/src/features/commander/model/pane-state.ts]: the entry
    comparator, the hidden / sort / filter projection, the rebuild of a pane
    from its directory snapshot, the runtime states created at mount time. *)
From Stdlib Require Import Ascii String.
From stdpp Require Import strings.
From S2P Require Import Prelude JsString Types Mask Selection.
Local Open Scope string_scope.
Local Open Scope list_scope.
Local Open Scope Z_scope.

(** ** Definitions *)

(** The options of a projection, read from the widget. *)
Record ProjectionOptions := mkOptions {
  po_showHidden : bool;
  po_sortMode : CommanderSortMode;
  po_sortDirection : CommanderSortDirection;
  po_dirsFirst : bool
}.

Definition options_of (w : CommanderWidgetRuntimeState) : ProjectionOptions :=
  mkOptions (w_showHidden w) (w_sortMode w) (w_sortDirection w) (w_dirsFirst w).

Definition is_folder (e : CommanderDirectoryEntry) : bool := bool_decide (e_kind e = KindFolder).

(** [entry.ext || entry.name] *)
Definition ext_or_name (e : CommanderDirectoryEntry) : string :=
  if truthy (e_ext e) then e_ext e else e_name e.

Section Projection.
Context `{Locale}.

(** The comparator that [sortCommanderEntries] passes to [sort]. *)
Definition compareCommanderEntries (o : ProjectionOptions)
    (leftEntry rightEntry : CommanderDirectoryEntry) : Z :=
  if (po_dirsFirst o && (is_folder leftEntry && negb (is_folder rightEntry)))%bool then -1
  else if (po_dirsFirst o && (negb (is_folder leftEntry) && is_folder rightEntry))%bool then 1
  else
    let c0 := if decide (po_sortMode o = SortExt)
              then localeCompare (ext_or_name leftEntry) (ext_or_name rightEntry) else 0 in
    let c1 := if decide (po_sortMode o = SortModified /\ c0 = 0)
              then localeCompare (e_modified rightEntry) (e_modified leftEntry) else c0 in
    let c2 := if decide (po_sortMode o = SortSize /\ c1 = 0)
              then nullish (e_sizeBytes rightEntry) (-1) - nullish (e_sizeBytes leftEntry) (-1)
              else c1 in
    let c3 := if decide (c2 = 0) then localeCompare (e_name leftEntry) (e_name rightEntry)
              else c2 in
    match po_sortDirection o with SortDesc => c3 * -1 | SortAsc => c3 end.

Definition sortCommanderEntries (entries : list CommanderDirectoryEntry)
    (o : ProjectionOptions) : list CommanderDirectoryEntry :=
  sort (compareCommanderEntries o) entries.

Definition projectCommanderEntries (directoryEntries : list CommanderDirectoryEntry)
    (o : ProjectionOptions) (filterQuery : string) : list CommanderDirectoryEntry :=
  let visibleEntries := filterb (fun e => po_showHidden o || negb (e_hidden e))%bool directoryEntries in
  filterEntriesByMask (sortCommanderEntries visibleEntries o) filterQuery true.

(** [id && visibleIds.has(id)] *)
Definition keep_visible (visibleIds : list string) (x : option string) : option string :=
  match truthyOpt x with
  | Some i => if includes i visibleIds then Some i else None
  | None => None
  end.

Definition buildCommanderPaneState (paneId : CommanderPaneId) (path : string)
    (directoryEntries : list CommanderDirectoryEntry) (filterQuery : string)
    (selectedIds : list string) (cursorEntryId selectionAnchorEntryId : option string)
    (back forward : list string) (o : ProjectionOptions) : CommanderPaneRuntimeState :=
  let entries := projectCommanderEntries directoryEntries o filterQuery in
  let visibleIds := entry_ids entries in
  let nextSelectedIds := filterb (fun x => includes x visibleIds) selectedIds in
  let nextCursorEntryId :=
    match keep_visible visibleIds cursorEntryId with
    | Some c => Some c
    | None => e_id <$> head entries
    end in
  let nextSelectionAnchorEntryId :=
    match keep_visible visibleIds selectionAnchorEntryId with
    | Some a => Some a
    | None => nextCursorEntryId
    end in
  mkPane paneId path filterQuery directoryEntries entries nextCursorEntryId
    nextSelectionAnchorEntryId nextSelectedIds back forward false None.

(** [Partial<CommanderPaneRuntimeState>]: a field that is [None] is absent. *)
Record PaneOverrides := mkOverrides {
  ov_path : option string;
  ov_filterQuery : option string;
  ov_directoryEntries : option (list CommanderDirectoryEntry);
  ov_selectedIds : option (list string);
  ov_cursorEntryId : option (option string);
  ov_selectionAnchorEntryId : option (option string);
  ov_historyBack : option (list string);
  ov_historyForward : option (list string);
  ov_isLoading : option bool;
  ov_errorMessage : option (option string)
}.

Definition no_overrides : PaneOverrides :=
  mkOverrides None None None None None None None None None None.

(** [{ ...paneState, ...overrides }] *)
Definition apply_overrides (o : PaneOverrides) (p : CommanderPaneRuntimeState)
    : CommanderPaneRuntimeState :=
  mkPane (p_id p) (nullish (ov_path o) (p_path p))
    (nullish (ov_filterQuery o) (p_filterQuery p))
    (nullish (ov_directoryEntries o) (p_directoryEntries p)) (p_entries p)
    (nullish (ov_cursorEntryId o) (p_cursorEntryId p))
    (nullish (ov_selectionAnchorEntryId o) (p_selectionAnchorEntryId p))
    (nullish (ov_selectedIds o) (p_selectedIds p))
    (nullish (ov_historyBack o) (p_historyBack p))
    (nullish (ov_historyForward o) (p_historyForward p))
    (nullish (ov_isLoading o) (p_isLoading p))
    (nullish (ov_errorMessage o) (p_errorMessage p)).

Definition rebuildCommanderPaneState (w : CommanderWidgetRuntimeState)
    (p : CommanderPaneRuntimeState) (overrides : PaneOverrides) : CommanderPaneRuntimeState :=
  let next := apply_overrides overrides p in
  buildCommanderPaneState (p_id next) (p_path next) (p_directoryEntries next)
    (p_filterQuery next) (p_selectedIds next) (p_cursorEntryId next)
    (p_selectionAnchorEntryId next) (p_historyBack next) (p_historyForward next) (options_of w).

End Projection.

Definition createPaneStateFromPersisted (paneId : CommanderPaneId)
    (p : CommanderPanePersistedState) : CommanderPaneRuntimeState :=
  mkPane paneId (pp_path p) (pp_filterQuery p) [] [] (pp_cursorEntryId p)
    (pp_selectionAnchorEntryId p) (pp_selectedIds p) (pp_historyBack p)
    (pp_historyForward p) true None.

Definition createEmptyPaneState (paneId : CommanderPaneId) : CommanderPaneRuntimeState :=
  mkPane paneId "" "" [] [] None None [] [] [] true None.

Definition createCommanderWidgetRuntimeState (widgetId : string)
    (persisted : option CommanderWidgetPersistedState) : CommanderWidgetRuntimeState :=
  mkWidget widgetId
    (nullish (pw_viewMode <$> persisted) defaultCommanderViewMode)
    (nullish (pw_activePane <$> persisted) defaultCommanderActivePane)
    (nullish (pw_showHidden <$> persisted) defaultCommanderShowHidden)
    (nullish (pw_sortMode <$> persisted) defaultCommanderSortMode)
    (nullish (pw_sortDirection <$> persisted) defaultCommanderSortDirection)
    (nullish (pw_dirsFirst <$> persisted) defaultCommanderDirsFirst)
    defaultCommanderFooterHints None None
    (match persisted with
     | Some s => createPaneStateFromPersisted PaneLeft (pw_leftPane s)
     | None => createEmptyPaneState PaneLeft
     end)
    (match persisted with
     | Some s => createPaneStateFromPersisted PaneRight (pw_rightPane s)
     | None => createEmptyPaneState PaneRight
     end).

(** [path.replace(/\\/g, '/')] *)
Definition slashes (path : string) : string :=
  str_map (fun a => if bool_decide (a = backslash) then slash else a) path.

Definition getCommanderParentPath (path : string) : option string :=
  if truthy path then
    let trimmedPath := stripTrailing slash (slashes path) in
    if truthy trimmedPath && negb (bool_decide (trimmedPath = "/")) then
      match lastIndexOf slash trimmedPath with
      | None => None
      | Some 0%nat => Some "/"
      | Some i => Some (strTake i trimmedPath)
      end
    else None
  else None.

(** ** Comparators *)

Section Comparators.
Context {A : Type}.

(** First by [c1], ties by [c2]. *)
Definition lex (c1 c2 : A -> A -> Z) (x y : A) : Z :=
  if decide (c1 x y = 0) then c2 x y else c1 x y.

Lemma Comparator_ext (c1 c2 : A -> A -> Z) :
  (forall x y, c1 x y = c2 x y) -> Comparator c2 -> Comparator c1.
Proof.
  intros Heq [H1 H2 H3]. constructor; intros *; rewrite !Heq; auto. apply H3.
Qed.

Lemma Comparator_lex (c1 c2 : A -> A -> Z) :
  Comparator c1 -> Comparator c2 -> Comparator (lex c1 c2).
Proof.
  intros C1 C2. unfold lex. constructor.
  - intros x. rewrite (cmp_self (cmp := c1)). simpl. apply cmp_self.
  - intros x y. pose proof (cmp_flip (cmp := c1) x y). pose proof (cmp_flip (cmp := c1) y x).
    pose proof (cmp_flip (cmp := c2) x y). repeat case_decide; lia.
  - intros x y z. pose proof (cmp_trans (cmp := c1) x y z). pose proof (cmp_trans (cmp := c2) x y z).
    pose proof (cmp_flip (cmp := c1) x y). pose proof (cmp_flip (cmp := c1) y x).
    pose proof (cmp_flip (cmp := c1) y z). pose proof (cmp_flip (cmp := c1) z y).
    pose proof (cmp_flip (cmp := c1) x z). pose proof (cmp_flip (cmp := c1) z x).
    pose proof (cmp_trans (cmp := c1) z x y). pose proof (cmp_trans (cmp := c1) y z x).
    repeat case_decide; lia.
Qed.

Lemma Comparator_flip (c : A -> A -> Z) : Comparator c -> Comparator (fun x y => c y x).
Proof.
  intros C. constructor.
  - intros x. apply cmp_self.
  - intros x y. apply cmp_flip.
  - intros x y z ? ?. by apply (cmp_trans z y x).
Qed.

Lemma Comparator_opp (c : A -> A -> Z) : Comparator c -> Comparator (fun x y => c x y * -1).
Proof.
  intros C. constructor.
  - intros x. by rewrite cmp_self.
  - intros x y. pose proof (cmp_flip (cmp := c) x y). pose proof (cmp_flip (cmp := c) y x). lia.
  - intros x y z. pose proof (cmp_flip (cmp := c) x y). pose proof (cmp_flip (cmp := c) y x).
    pose proof (cmp_flip (cmp := c) y z). pose proof (cmp_flip (cmp := c) z y).
    pose proof (cmp_flip (cmp := c) x z). pose proof (cmp_flip (cmp := c) z x).
    pose proof (cmp_trans (cmp := c) z y x). lia.
Qed.

Lemma Comparator_diff (f : A -> Z) : Comparator (fun x y => f x - f y).
Proof. constructor; intros *; lia. Qed.

Lemma Comparator_map {B} (f : A -> B) (c : B -> B -> Z) :
  Comparator c -> Comparator (fun x y => c (f x) (f y)).
Proof.
  intros C. constructor; intros *.
  - apply cmp_self.
  - apply cmp_flip.
  - apply cmp_trans.
Qed.

Lemma Comparator_zero : Comparator (fun _ _ : A => 0).
Proof. constructor; intros *; lia. Qed.

End Comparators.

Section ComparatorProofs.
Context `{Locale, !LocaleLaws}.

(** The comparator as a lexicographic combination. *)
Definition mode_comparator (m : CommanderSortMode) : CommanderDirectoryEntry -> CommanderDirectoryEntry -> Z :=
  match m with
  | SortName => fun _ _ => 0
  | SortExt => fun x y => localeCompare (ext_or_name x) (ext_or_name y)
  | SortModified => fun x y => localeCompare (e_modified y) (e_modified x)
  | SortSize => fun x y => nullish (e_sizeBytes y) (-1) - nullish (e_sizeBytes x) (-1)
  end.

Definition folder_rank (dirsFirst : bool) (e : CommanderDirectoryEntry) : Z :=
  if (dirsFirst && is_folder e)%bool then 0 else 1.

Definition name_comparator (x y : CommanderDirectoryEntry) : Z :=
  localeCompare (e_name x) (e_name y).

Definition direction_comparator (o : ProjectionOptions) (x y : CommanderDirectoryEntry) : Z :=
  match po_sortDirection o with
  | SortDesc => lex (mode_comparator (po_sortMode o)) name_comparator x y * -1
  | SortAsc => lex (mode_comparator (po_sortMode o)) name_comparator x y
  end.

Lemma compareCommanderEntries_lex o x y :
  compareCommanderEntries o x y =
  lex (fun x y => folder_rank (po_dirsFirst o) x - folder_rank (po_dirsFirst o) y)
    (direction_comparator o) x y.
Proof.
  unfold compareCommanderEntries, lex, folder_rank, direction_comparator, lex, name_comparator.
  destruct (po_dirsFirst o), (is_folder x), (is_folder y); simpl; try done;
    destruct (po_sortMode o), (po_sortDirection o); simpl; repeat case_decide; naive_solver.
Qed.

#[global] Instance mode_comparator_ok m : Comparator (mode_comparator m).
Proof.
  destruct m; simpl.
  - apply Comparator_zero.
  - apply Comparator_map, localeCompare_comparator.
  - apply Comparator_ext with (c2 := fun x y => nullish (e_sizeBytes y) (-1) - nullish (e_sizeBytes x) (-1)); [done|].
    apply (Comparator_flip (fun x y => nullish (e_sizeBytes x) (-1) - nullish (e_sizeBytes y) (-1))).
    apply Comparator_diff.
  - apply (Comparator_flip (fun x y => localeCompare (e_modified x) (e_modified y))).
    apply Comparator_map, localeCompare_comparator.
Qed.

Lemma lex_comparator m : Comparator (lex (mode_comparator m) name_comparator).
Proof. apply Comparator_lex; [apply _|]. apply (Comparator_map e_name), localeCompare_comparator. Qed.

#[global] Instance compareCommanderEntries_ok o : Comparator (compareCommanderEntries o).
Proof.
  eapply Comparator_ext; [apply compareCommanderEntries_lex|].
  pose proof (lex_comparator (po_sortMode o)).
  apply Comparator_lex; [apply Comparator_diff|].
  unfold direction_comparator. destruct (po_sortDirection o); [done|by apply Comparator_opp].
Qed.

End ComparatorProofs.

(** ** Rebuilt panes *)

Section Rebuild.
Context `{Locale}.

(** The rows of a pane are the projection of its directory snapshot. *)
Definition rows_ok (o : ProjectionOptions) (p : CommanderPaneRuntimeState) : Prop :=
  p_entries p = projectCommanderEntries (p_directoryEntries p) o (p_filterQuery p).

(** The invariant of a pane of the widget [w]. *)
Definition pane_ok (w : CommanderWidgetRuntimeState) (p : CommanderPaneRuntimeState) : Prop :=
  rows_ok (options_of w) p /\ marks_ok p.

Lemma keep_visible_elem l x y : keep_visible l x = Some y -> y ∈ l.
Proof.
  unfold keep_visible. destruct (truthyOpt x); [|done].
  destruct (includes s l) eqn:E; [|done]. intros [= <-]. by apply includes_true.
Qed.

Lemma build_marks_ok id path dir q sel c a back fwd o :
  marks_ok (buildCommanderPaneState id path dir q sel c a back fwd o).
Proof.
  intros Hne. simpl in *. set (rows := projectCommanderEntries dir o q) in *.
  assert (exists x, e_id <$> head rows = Some x /\ x ∈ entry_ids rows) as (x & Hx & Hin).
  { destruct rows as [|e l]; [done|]. exists (e_id e). split; [done|left]. }
  assert (exists y, match keep_visible (entry_ids rows) c with
      | Some c => Some c | None => e_id <$> head rows end = Some y /\ y ∈ entry_ids rows)
    as (y & Hy & Hyin).
  { destruct (keep_visible (entry_ids rows) c) as [y|] eqn:E; [|by eauto].
    exists y. split; [done|]. by eapply keep_visible_elem. }
  split_and!.
  - intros z [_ Hz]%elem_of_filterb. by apply includes_true.
  - eauto.
  - rewrite Hy. destruct (keep_visible (entry_ids rows) a) as [z|] eqn:E; [|by eauto].
    exists z. split; [done|]. by eapply keep_visible_elem.
Qed.

Lemma rebuild_ok w w' p ov :
  options_of w' = options_of w -> pane_ok w' (rebuildCommanderPaneState w p ov).
Proof. intros Ho. split; [|apply build_marks_ok]. unfold rows_ok. by rewrite Ho. Qed.

Lemma rebuild_id w p ov : p_id (rebuildCommanderPaneState w p ov) = p_id p.
Proof. done. Qed.

(** A rebuilt pane never keeps an error message or a loading flag. *)
Lemma rebuild_clears_status w p ov :
  p_errorMessage (rebuildCommanderPaneState w p ov) = None /\
  p_isLoading (rebuildCommanderPaneState w p ov) = false.
Proof. done. Qed.

Lemma pane_ok_marks w p c a sel :
  pane_ok w p -> marks_ok (set_marks c a sel p) -> pane_ok w (set_marks c a sel p).
Proof. intros [Hr _] ?. by split. Qed.

Lemma project_nil o q : projectCommanderEntries [] o q = [].
Proof.
  unfold projectCommanderEntries, filterEntriesByMask, getCommanderMatchedEntries.
  simpl. by case_match.
Qed.

Lemma pane_ok_no_entries w p :
  p_directoryEntries p = [] -> p_entries p = [] -> pane_ok w p.
Proof.
  intros Hd He. split; [|by apply marks_ok_empty]. unfold rows_ok. by rewrite Hd, He, project_nil.
Qed.

Lemma project_sublist dir o q :
  projectCommanderEntries dir o q `sublist_of`
  sortCommanderEntries (filterb (fun e => po_showHidden o || negb (e_hidden e))%bool dir) o.
Proof. apply matchedEntries_sublist. Qed.

End Rebuild.

#[export] Hint Resolve rebuild_ok build_marks_ok : commander.

(** ** Properties *)

(** What the row order means, read off the options of a pane: folders first when
    they are asked for; then names from A to Z, extensions from A to Z, sizes
    from the largest (an entry without a size counts as -1), dates from the
    latest, and names among equal ones; all but the folders reversed when the
    direction is. *)
Section RowOrder.
Context `{Locale}.

Definition key_before (m : CommanderSortMode) (x y : CommanderDirectoryEntry) : Prop :=
  match m with
  | SortName => False
  | SortExt => localeCompare (ext_or_name x) (ext_or_name y) < 0
  | SortSize => nullish (e_sizeBytes y) (-1) < nullish (e_sizeBytes x) (-1)
  | SortModified => localeCompare (e_modified y) (e_modified x) < 0
  end.
Definition key_equal (m : CommanderSortMode) (x y : CommanderDirectoryEntry) : Prop :=
  match m with
  | SortName => True
  | SortExt => localeCompare (ext_or_name x) (ext_or_name y) = 0
  | SortSize => nullish (e_sizeBytes x) (-1) = nullish (e_sizeBytes y) (-1)
  | SortModified => localeCompare (e_modified y) (e_modified x) = 0
  end.
Definition rows_in_order (m : CommanderSortMode) (x y : CommanderDirectoryEntry) : Prop :=
  key_before m x y \/ key_equal m x y /\ localeCompare (e_name x) (e_name y) <= 0.

(** [x] may stand above [y]. *)
Definition row_above (o : ProjectionOptions) (x y : CommanderDirectoryEntry) : Prop :=
  if po_dirsFirst o && negb (Bool.eqb (is_folder x) (is_folder y)) then is_folder x = true
  else match po_sortDirection o with
       | SortAsc => rows_in_order (po_sortMode o) x y
       | SortDesc => rows_in_order (po_sortMode o) y x
       end.

#[global] Instance key_before_dec m x y : Decision (key_before m x y).
Proof. destruct m; cbn; apply _. Defined.
#[global] Instance key_equal_dec m x y : Decision (key_equal m x y).
Proof. destruct m; cbn; apply _. Defined.
#[global] Instance rows_in_order_dec m x y : Decision (rows_in_order m x y).
Proof. unfold rows_in_order. apply _. Defined.
#[global] Instance row_above_dec o x y : Decision (row_above o x y).
Proof. unfold row_above. destruct (_ && _); [apply _|]. destruct (po_sortDirection o); apply _. Defined.

(** The entries of [l] that may stand above and below [x]. *)
Definition row_ties (o : ProjectionOptions) (x : CommanderDirectoryEntry) (l : list CommanderDirectoryEntry) :
    list CommanderDirectoryEntry :=
  filterb (fun y => bool_decide (row_above o x y /\ row_above o y x)) l.

(** [l] lists the entries in the row order, ties in the order of the directory. *)
Definition row_order (o : ProjectionOptions) (entries l : list CommanderDirectoryEntry) : Prop :=
  l ≡ₚ entries /\ StronglySorted (row_above o) l /\ forall x, row_ties o x l = row_ties o x entries.

Context `{!LocaleLaws}.

Lemma rows_in_order_spec m x y :
  rows_in_order m x y <-> lex (mode_comparator m) name_comparator x y <= 0.
Proof.
  unfold rows_in_order, lex, name_comparator. destruct m; cbn [key_before key_equal mode_comparator];
    case_decide; intuition (try lia); left; lia.
Qed.
Lemma row_above_spec o x y : row_above o x y <-> compareCommanderEntries o x y <= 0.
Proof.
  rewrite compareCommanderEntries_lex. unfold row_above, lex at 1, folder_rank, direction_comparator.
  pose proof (lex_comparator (po_sortMode o)) as Hlex.
  destruct (po_dirsFirst o), (is_folder x), (is_folder y); cbn [andb negb Bool.eqb];
    first [by (split; intros; (done || lia)) |
      destruct (po_sortDirection o); rewrite rows_in_order_spec; [done|]].
  all: pose proof (cmp_flip x y) as H1; pose proof (cmp_flip y x) as H2;
    change (decide (1 - 1 = 0)) with (decide (0 = 0)); case_decide; try done; lia.
Qed.
Lemma row_ties_spec o x l : row_ties o x l = same_class (compareCommanderEntries o) x l.
Proof.
  unfold row_ties, same_class, filterb. apply List.filter_ext. intros y. apply bool_decide_ext.
  rewrite (row_above_spec o x y), (row_above_spec o y x).
  destruct (@cmp_flip _ (compareCommanderEntries o) _ x y), (@cmp_flip _ (compareCommanderEntries o) _ y x). lia.
Qed.
Lemma row_order_spec o entries l :
  l ≡ₚ entries -> row_order o entries l <-> stable_sort_of (compareCommanderEntries o) entries l.
Proof.
  intros Hp. unfold row_order, stable_sort_of.
  assert (StronglySorted (row_above o) l <-> StronglySorted (fun x y => compareCommanderEntries o x y <= 0) l) as ->.
  { clear Hp. induction l as [|x l IH]; split; intros Hs; constructor; apply StronglySorted_inv in Hs as [H1 H2];
      [by apply IH| |by apply IH|]; (eapply Forall_impl; [exact H2|]); intros y; apply row_above_spec. }
  setoid_rewrite row_ties_spec. naive_solver.
Qed.

End RowOrder.

(** C37: the rows are the entries of the directory in the order that the options
    of the pane ask for ([row_above]: folders first, the key of the sort mode,
    the name, the direction), ties in the order of the directory; there is no
    other such list, so every stable sort of the language returns it. *)
Theorem sortCommanderEntries_stable `{Locale, !LocaleLaws} entries o :
  row_order o entries (sortCommanderEntries entries o) /\
  (forall l, row_order o entries l -> l = sortCommanderEntries entries o) /\
  (forall x y, row_above o x y \/ row_above o y x) /\
  (forall x y z, row_above o x y -> row_above o y z -> row_above o x z).
Proof.
  assert (sortCommanderEntries entries o ≡ₚ entries) as Hp by apply sort_perm.
  split_and!.
  - apply row_order_spec; [done|]. apply sort_stable, _.
  - intros l Hl. eapply stable_sorted_unique; [apply _| |apply sort_stable, _].
    apply row_order_spec; [apply Hl|done].
  - intros x y. rewrite (row_above_spec o x y), (row_above_spec o y x). apply (cmp_total (compareCommanderEntries o)).
  - intros x y z. rewrite (row_above_spec o x y), (row_above_spec o y z), (row_above_spec o x z). apply cmp_trans.
Qed.

(** With "directories first" the folders come before every other entry in
    both sort directions. *)
Theorem sortCommanderEntries_dirs_first `{Locale, !LocaleLaws} entries o i j x y :
  po_dirsFirst o = true ->
  sortCommanderEntries entries o !! i = Some x ->
  sortCommanderEntries entries o !! j = Some y ->
  (i < j)%nat -> is_folder y = true -> is_folder x = true.
Proof.
  intros Hd Hi Hj Hlt Hy.
  pose proof (sort_sorted (compareCommanderEntries o) entries) as Hs.
  assert (compareCommanderEntries o x y <= 0) as Hc.
  { clear Hy. unfold sortCommanderEntries in *.
    revert i j Hi Hj Hlt. induction Hs as [|z l Hs IH Hz]; intros [|i] [|j] Hi Hj Hlt;
      simplify_eq/=; try lia.
    - rewrite Forall_forall in Hz. apply Hz. by eapply list_elem_of_lookup_2.
    - eapply IH; eauto. lia. }
  rewrite compareCommanderEntries_lex in Hc. unfold lex, folder_rank in Hc.
  rewrite Hd, Hy in Hc. destruct (is_folder x); simpl in Hc; [done|lia].
Qed.

(** The rows of a pane are the entries of its directory snapshot that are
    not hidden (or that the widget shows anyway) and that a pattern of the
    filter accepts, each once per occurrence in the snapshot; an empty filter
    keeps all of them. *)
Theorem projectCommanderEntries_spec `{Locale, !LocaleLaws} dir o q e :
  (e ∈ projectCommanderEntries dir o q <->
   e ∈ dir /\ (po_showHidden o = true \/ e_hidden e = false) /\
   (splitCommanderMaskPatterns q = [] \/
    exists p, p ∈ splitCommanderMaskPatterns q /\ wildcard p (e_name e))) /\
  (NoDup (entry_ids dir) -> NoDup (entry_ids (projectCommanderEntries dir o q))).
Proof.
  split.
  - unfold projectCommanderEntries, filterEntriesByMask, sortCommanderEntries.
    rewrite getCommanderMatchedEntries_iff, sort_perm, elem_of_filterb, orb_true_iff, negb_true_iff.
    destruct (splitCommanderMaskPatterns q) as [|p0 ps]; [naive_solver|].
    split; [naive_solver|]. intros (He & Hh & [?|Hp]); [done|]. naive_solver.
  - intros Hnd. unfold entry_ids in *.
    eapply sublist_NoDup; [|apply fmap_sublist, project_sublist].
    unfold sortCommanderEntries. rewrite sort_perm.
    eapply sublist_NoDup; [exact Hnd|]. apply fmap_sublist, filterb_sublist.
Qed.

(** ** Witnesses *)

(** Folders first, the others from the smallest file. *)
Lemma sortCommanderEntries_stable_witness :
  let o := mkOptions true SortSize SortDesc true in
  sortCommanderEntries [file_b; folder_c; file_a] o = [folder_c; file_b; file_a] /\
  row_order o [file_b; folder_c; file_a] (sortCommanderEntries [file_b; folder_c; file_a] o).
Proof.
  intros o. split; [vm_compute; reflexivity|].
  apply (sortCommanderEntries_stable [file_b; folder_c; file_a] o).
Defined.

Lemma sortCommanderEntries_dirs_first_witness :
  let o := mkOptions true SortName SortDesc true in
  sortCommanderEntries [file_b; file_a; folder_c; sample_folder "d"] o !! 0%nat = Some (sample_folder "d") /\
  is_folder (sample_folder "d") = true.
Proof.
  split; [vm_compute; reflexivity|].
  apply (sortCommanderEntries_dirs_first [file_b; file_a; folder_c; sample_folder "d"]
    (mkOptions true SortName SortDesc true) 0 1 (sample_folder "d") folder_c);
    first [reflexivity|lia|vm_compute; reflexivity].
Defined.

Lemma projectCommanderEntries_spec_witness :
  let o := mkOptions false SortName SortAsc true in
  NoDup (entry_ids (projectCommanderEntries [folder_c; file_a; file_b] o "*.txt")).
Proof.
  apply (projectCommanderEntries_spec [folder_c; file_a; file_b]
    (mkOptions false SortName SortAsc true) "*.txt" file_a).
  by apply (bool_decide_unpack _); vm_compute.
Defined.
