(* ===== verification/Navigation.v ===== *)
(** * Panes of a widget and their history

    [frontend/src/features/commander/model/store-navigation.ts]: reading and
    replacing one pane of a widget, rebuilding it, and the local back and
    forward stacks. *)
From stdpp Require Import strings.
From S2P Require Import Prelude JsString Types Mask Selection PaneState.
Local Open Scope string_scope.
Local Open Scope list_scope.

(** ** Operations *)

Definition getPaneState (w : CommanderWidgetRuntimeState) (pane : CommanderPaneId)
    : CommanderPaneRuntimeState :=
  match pane with PaneLeft => w_leftPane w | PaneRight => w_rightPane w end.

Definition setPaneState (w : CommanderWidgetRuntimeState) (pane : CommanderPaneId)
    (p : CommanderPaneRuntimeState) : CommanderWidgetRuntimeState :=
  match pane with
  | PaneLeft => set_panes p (w_rightPane w) w
  | PaneRight => set_panes (w_leftPane w) p w
  end.

Definition updatePaneState (w : CommanderWidgetRuntimeState) (pane : CommanderPaneId)
    (updater : CommanderPaneRuntimeState -> CommanderPaneRuntimeState)
    : CommanderWidgetRuntimeState :=
  setPaneState w pane (updater (getPaneState w pane)).

Inductive HistoryDirection := HistoryBack | HistoryForward.

Section Navigation.
Context `{Locale}.

(** [rebuildPaneState(widgetState, paneState, nextPath)] *)
Definition rebuildPaneStateAt (w : CommanderWidgetRuntimeState)
    (p : CommanderPaneRuntimeState) (nextPath : string) : CommanderPaneRuntimeState :=
  rebuildCommanderPaneState w p
    (if decide (nextPath = p_path p) then no_overrides
     else mkOverrides (Some nextPath) None (Some []) (Some []) (Some None) (Some None)
            None None (Some true) (Some None)).

(** [rebuildPaneState(widgetState, paneState)]: [nextPath] defaults to the path. *)
Definition rebuildPaneState (w : CommanderWidgetRuntimeState)
    (p : CommanderPaneRuntimeState) : CommanderPaneRuntimeState :=
  rebuildPaneStateAt w p (p_path p).

Definition navigatePaneState (w : CommanderWidgetRuntimeState) (pane : CommanderPaneId)
    (nextPath : string) : CommanderWidgetRuntimeState :=
  updatePaneState w pane (fun p =>
    if decide (p_path p = nextPath) then rebuildPaneState w p
    else set_history (p_historyBack p ++ [p_path p]) [] (rebuildPaneStateAt w p nextPath)).

Definition navigatePaneHistory (w : CommanderWidgetRuntimeState) (pane : CommanderPaneId)
    (direction : HistoryDirection) : CommanderWidgetRuntimeState :=
  updatePaneState w pane (fun p =>
    let historyStack :=
      match direction with HistoryBack => p_historyBack p | HistoryForward => p_historyForward p end in
    match truthyOpt (lastOf historyStack) with
    | None => p
    | Some targetPath =>
        let rebuilt := rebuildPaneStateAt w p targetPath in
        match direction with
        | HistoryBack =>
            set_history (dropLast (p_historyBack p)) (p_historyForward p ++ [p_path p]) rebuilt
        | HistoryForward =>
            set_history (p_historyBack p ++ [p_path p]) (dropLast (p_historyForward p)) rebuilt
        end
    end).

(** [CommanderWidgetRefreshOverrides]; an outer [None] is an absent property. *)
Record RefreshOverrides := mkRefresh {
  rf_pendingOperation : option (option CommanderPendingOperation);
  rf_fileDialog : option (option CommanderFileDialogState);
  rf_leftPane : PaneOverrides;
  rf_rightPane : PaneOverrides
}.

Definition refreshWidgetPanes (w : CommanderWidgetRuntimeState) (o : RefreshOverrides)
    : CommanderWidgetRuntimeState :=
  let next :=
    set_pendingOperation (nullish (rf_pendingOperation o) (w_pendingOperation w))
      (set_fileDialog (nullish (rf_fileDialog o) (w_fileDialog w))
        (set_panes (apply_overrides (rf_leftPane o) (w_leftPane w))
           (apply_overrides (rf_rightPane o) (w_rightPane w)) w)) in
  set_panes (rebuildPaneState next (w_leftPane next)) (rebuildPaneState next (w_rightPane next)) next.

End Navigation.

(** ** The widget invariant *)

Section Invariant.
Context `{Locale}.

(** Both panes satisfy the pane invariant and carry their own id. *)
Definition widget_ok (w : CommanderWidgetRuntimeState) : Prop :=
  forall pane, pane_ok w (getPaneState w pane) /\ p_id (getPaneState w pane) = pane.

End Invariant.

(** The visited paths in order: the back stack, the current path, and the
    forward stack from its most recent entry on. *)
Definition timeline (p : CommanderPaneRuntimeState) : list string :=
  p_historyBack p ++ [p_path p] ++ rev (p_historyForward p).

(** ** Lemmas *)

(** Reads the history and the path of a pane without unfolding its rebuild. *)
Ltac hist_simpl := cbn [p_historyBack p_historyForward p_path set_history].

Section NavigationLemmas.
Context `{Locale}.

Lemma getPaneState_of w pane : getPaneStateOf w pane = getPaneState w pane.
Proof. done. Qed.

Lemma get_set_pane w pane p : getPaneState (setPaneState w pane p) pane = p.
Proof. by destruct pane. Qed.

Lemma get_set_other w pane pane' p :
  pane <> pane' -> getPaneState (setPaneState w pane p) pane' = getPaneState w pane'.
Proof. by destruct pane, pane'. Qed.

Lemma set_get_pane w pane : setPaneState w pane (getPaneState w pane) = w.
Proof. by destruct pane, w. Qed.

Lemma options_setPane w pane p : options_of (setPaneState w pane p) = options_of w.
Proof. by destruct pane. Qed.

(** The invariant of a widget depends on its panes and projection options only. *)
Lemma widget_ok_ext w w' :
  options_of w' = options_of w -> (forall pane, getPaneState w' pane = getPaneState w pane) ->
  widget_ok w -> widget_ok w'.
Proof.
  intros Ho Hp Hok pane. rewrite Hp. destruct (Hok pane) as [[Hr Hm] Hid].
  split; [|done]. split; [|done]. unfold rows_ok in *. by rewrite Ho.
Qed.

Lemma widget_ok_set w pane p :
  widget_ok w -> pane_ok w p -> p_id p = pane -> widget_ok (setPaneState w pane p).
Proof.
  intros Hok Hp Hid pane'. destruct (decide (pane = pane')) as [->|Hne].
  - rewrite get_set_pane. split; [|done]. destruct Hp as [Hr Hm]. split; [|done].
    unfold rows_ok. by rewrite options_setPane.
  - rewrite get_set_other by done. destruct (Hok pane') as [[Hr Hm] Hid'].
    split; [|done]. split; [|done]. unfold rows_ok. by rewrite options_setPane.
Qed.

Lemma widget_ok_update w pane f :
  widget_ok w ->
  (forall p, pane_ok w p -> pane_ok w (f p)) -> (forall p, p_id (f p) = p_id p) ->
  widget_ok (updatePaneState w pane f).
Proof.
  intros Hok Hf Hid. apply widget_ok_set; [done| |].
  - apply Hf, Hok.
  - rewrite Hid. apply Hok.
Qed.

(** Changing the cursor, anchor or selection of a pane. *)
Lemma widget_ok_update_marks w pane f :
  widget_ok w ->
  (forall p, marks_ok p -> marks_ok (f p)) ->
  (forall p, p_id (f p) = p_id p /\ p_entries (f p) = p_entries p /\
     p_directoryEntries (f p) = p_directoryEntries p /\ p_filterQuery (f p) = p_filterQuery p) ->
  widget_ok (updatePaneState w pane f).
Proof.
  intros Hok Hf Hsame. apply widget_ok_update; [done| |intros p; apply Hsame].
  intros p [Hr Hm]. destruct (Hsame p) as (_ & He & Hd & Hq).
  split; [|auto]. unfold rows_ok. by rewrite He, Hd, Hq.
Qed.

Lemma widget_ok_activePane w pane : widget_ok w -> widget_ok (set_activePane pane w).
Proof. intros Hok. apply (widget_ok_ext w); [done|by intros []|done]. Qed.

Lemma widget_ok_viewMode w m : widget_ok w -> widget_ok (set_viewMode m w).
Proof. intros Hok. apply (widget_ok_ext w); [done|by intros []|done]. Qed.

Lemma widget_ok_pending w op : widget_ok w -> widget_ok (set_pendingOperation op w).
Proof. intros Hok. apply (widget_ok_ext w); [done|by intros []|done]. Qed.

Lemma widget_ok_dialog w d : widget_ok w -> widget_ok (set_fileDialog d w).
Proof. intros Hok. apply (widget_ok_ext w); [done|by intros []|done]. Qed.

(** Rebuilding both panes establishes the invariant for any projection options. *)
Lemma widget_ok_rebuild w l r :
  p_id l = PaneLeft -> p_id r = PaneRight ->
  widget_ok (set_panes (rebuildPaneState w l) (rebuildPaneState w r) w).
Proof. intros Hl Hr []; (split; [by apply rebuild_ok|done]). Qed.

Lemma set_history_ok w p b f : pane_ok w p -> pane_ok w (set_history b f p).
Proof. intros [Hr Hm]. by split. Qed.

Lemma set_status_ok w p l e : pane_ok w p -> pane_ok w (set_status l e p).
Proof. intros [Hr Hm]. by split. Qed.

Lemma navigatePaneState_ok w pane path : widget_ok w -> widget_ok (navigatePaneState w pane path).
Proof.
  intros Hok. apply widget_ok_update; [done| |].
  - intros p _. case_decide; [|apply set_history_ok]; by apply rebuild_ok.
  - intros p. by case_decide.
Qed.

Lemma navigatePaneHistory_ok w pane d : widget_ok w -> widget_ok (navigatePaneHistory w pane d).
Proof.
  intros Hok. apply widget_ok_update; [done| |].
  - intros p Hp. cbv zeta. destruct (truthyOpt _); [|done].
    destruct d; apply set_history_ok; by apply rebuild_ok.
  - intros p. cbv zeta. destruct (truthyOpt _); [|done]. by destruct d.
Qed.

Lemma rebuildAt_path w p path : p_path (rebuildPaneStateAt w p path) = path.
Proof. unfold rebuildPaneStateAt. by case_decide. Qed.

Lemma rebuildAt_history w p path :
  p_historyBack (rebuildPaneStateAt w p path) = p_historyBack p /\
  p_historyForward (rebuildPaneStateAt w p path) = p_historyForward p.
Proof. unfold rebuildPaneStateAt. by case_decide. Qed.

Lemma timeline_back p x :
  lastOf (p_historyBack p) = Some x ->
  dropLast (p_historyBack p) ++ [x] ++ rev (p_historyForward p ++ [p_path p]) = timeline p.
Proof.
  intros E%lastOf_dropLast. unfold timeline. rewrite rev_app_distr. simpl.
  rewrite E at 2. by rewrite <- app_assoc.
Qed.

Lemma timeline_forward p x :
  lastOf (p_historyForward p) = Some x ->
  (p_historyBack p ++ [p_path p]) ++ [x] ++ rev (dropLast (p_historyForward p)) = timeline p.
Proof.
  intros E%lastOf_dropLast. unfold timeline. rewrite E at 2.
  rewrite rev_app_distr. simpl. by rewrite <- app_assoc.
Qed.

End NavigationLemmas.

#[export] Hint Resolve widget_ok_activePane widget_ok_viewMode widget_ok_pending
  widget_ok_dialog set_history_ok set_status_ok : commander.

(** ** Properties *)

(** Going back or forward only moves along the visited paths: the timeline of
    the pane (back stack, path, forward stack) is unchanged, and when the stack
    is not empty the move lands on the neighbouring path. *)
Theorem navigatePaneHistory_timeline `{Locale} w pane d :
  let p := getPaneState w pane in
  let q := getPaneState (navigatePaneHistory w pane d) pane in
  let stack := match d with HistoryBack => p_historyBack p | HistoryForward => p_historyForward p end in
  timeline q = timeline p /\
  (forall x, lastOf stack = Some x -> x <> "" ->
     p_path q = x /\
     length (p_historyBack q) =
       match d with
       | HistoryBack => (length (p_historyBack p) - 1)%nat
       | HistoryForward => S (length (p_historyBack p))
       end).
Proof.
  intros p q stack. subst q. unfold navigatePaneHistory, updatePaneState.
  rewrite get_set_pane. fold p.
  destruct (truthyOpt (lastOf stack)) as [x|] eqn:E; subst stack.
  - apply truthyOpt_Some in E as [E Hx].
    destruct d; rewrite E; simpl truthyOpt; rewrite (proj2 (truthy_true x) Hx).
    + split.
      * unfold timeline at 1. cbv beta zeta. hist_simpl. rewrite rebuildAt_path. by apply timeline_back.
      * intros y [= <-] _. hist_simpl. rewrite rebuildAt_path. split; [done|].
        unfold dropLast. rewrite length_take. lia.
    + split.
      * unfold timeline at 1. cbv beta zeta. hist_simpl. rewrite rebuildAt_path. by apply timeline_forward.
      * intros y [= <-] _. hist_simpl. rewrite rebuildAt_path, length_app. simpl. split; [done|lia].
  - assert (forall x, match d with HistoryBack => lastOf (p_historyBack p)
        | HistoryForward => lastOf (p_historyForward p) end = Some x -> x <> "" -> False) as Hno.
    { intros x Hx Hne. destruct d; rewrite Hx in E; simpl in E;
        by rewrite (proj2 (truthy_true x) Hne) in E. }
    destruct d; rewrite E; (split; [done|]); intros x Hx Hne; by destruct (Hno x).
Qed.

(** Visiting another path and going back returns to the old path with the
    old back stack, and the visited path is next in the forward direction;
    going forward again restores the state after the visit. *)
Theorem navigate_back_forward `{Locale} w pane path :
  let p := getPaneState w pane in
  p_path p <> "" -> path <> "" -> path <> p_path p ->
  let w1 := navigatePaneState w pane path in
  let w2 := navigatePaneHistory w1 pane HistoryBack in
  let w3 := navigatePaneHistory w2 pane HistoryForward in
  let q2 := getPaneState w2 pane in
  let q3 := getPaneState w3 pane in
  p_path q2 = p_path p /\ p_historyBack q2 = p_historyBack p /\ p_historyForward q2 = [path] /\
  p_path q3 = path /\ p_historyBack q3 = p_historyBack p ++ [p_path p] /\ p_historyForward q3 = [] /\
  getPaneState w3 (other_pane pane) = getPaneState w (other_pane pane).
Proof.
  intros p Hp Hpath Hne w1 w2 w3 q2 q3. subst q2 q3.
  assert (exists r, getPaneState w1 pane = set_history (p_historyBack p ++ [p_path p]) [] r /\
    p_path r = path) as (r & Hr & Hrp).
  { unfold w1, navigatePaneState, updatePaneState. rewrite get_set_pane. fold p.
    rewrite decide_False by done. eexists. split; [done|apply rebuildAt_path]. }
  assert (exists r2, getPaneState w2 pane = set_history (p_historyBack p) [path] r2 /\
    p_path r2 = p_path p) as (r2 & Hr2 & Hr2p).
  { unfold w2, navigatePaneHistory, updatePaneState. rewrite get_set_pane, Hr.
    hist_simpl.
    rewrite lastOf_app. rewrite (proj2 (truthyOpt_Some (Some (p_path p)) _)) by done.
    eexists. rewrite dropLast_app, Hrp. split; [done|apply rebuildAt_path]. }
  assert (getPaneState w3 pane = set_history (p_historyBack p ++ [p_path p]) []
    (rebuildPaneStateAt w2 (getPaneState w2 pane) path)) as Hr3.
  { unfold w3, navigatePaneHistory, updatePaneState. rewrite get_set_pane, Hr2.
    hist_simpl.
    change (lastOf [path]) with (Some path). rewrite (proj2 (truthyOpt_Some (Some path) _)) by done.
    by rewrite Hr2p. }
  rewrite Hr2, Hr3. hist_simpl. rewrite rebuildAt_path. split_and!; auto.
  unfold w3, navigatePaneHistory, w2, navigatePaneHistory, w1, navigatePaneState.
  unfold updatePaneState. rewrite !get_set_other by (by destruct pane). done.
Qed.

(** ** Witnesses *)

Lemma navigate_back_forward_witness :
  let w := two_panes None [] in
  p_path (getPaneState (navigatePaneHistory (navigatePaneState w PaneLeft "/d/c") PaneLeft
    HistoryBack) PaneLeft) = "/d".
Proof.
  cbv zeta. eapply proj1, (navigate_back_forward (two_panes None []) PaneLeft "/d/c");
    vm_compute; discriminate.
Defined.
