(* ===== verification/Preview.v ===== *)
(** * Names of renamed and cloned entries

    [frontend/src/features/commander/model/operation-preview.ts]: the rename
    template language, the preview of a batch rename or clone with its
    duplicate and conflict report, the conflict checks of a transfer and the
    suggested name of a clone.  Counters are natural numbers without an upper
    bound; the code computes them as doubles, exact below 2^53. *)
From Stdlib Require Import Ascii String.
From stdpp Require Import strings gmap.
From S2P Require Import Prelude JsString Types.
Local Open Scope string_scope.
Local Open Scope list_scope.
Local Open Scope nat_scope.

(** ** The template scanner *)

(** [s.replace(/re/g, f)]: [token] answers the replacement and the length of a
    match at the head of a text; matches do not overlap and the text of a
    replacement is not scanned again.  [skip] counts the units of the current
    match that are still to be dropped. *)
Fixpoint replaceTokens (token : string -> option (string * nat)) (skip : nat) (s : string) : string :=
  match s with
  | EmptyString => EmptyString
  | String a s' =>
      match skip with
      | S k => replaceTokens token k s'
      | O =>
          match token s with
          | Some (r, len) => r +:+ replaceTokens token (len - 1) s'
          | None => String a (replaceTokens token 0 s')
          end
      end
  end.

(** [/re/.test(s)] *)
Fixpoint anyToken (token : string -> option (string * nat)) (s : string) : bool :=
  (if token s then true else false) ||
  match s with
  | EmptyString => false
  | String _ s' => anyToken token s'
  end.

(** The longest prefix of digits and what follows it. *)
Fixpoint takeDigits (s : string) : string * string :=
  match s with
  | EmptyString => (EmptyString, EmptyString)
  | String a s' =>
      if is_digit a then let '(d, r) := takeDigits s' in (String a d, r)
      else (EmptyString, s)
  end.

(** [(?::(\d+))?] *)
Definition counterGroup (s : string) : option string * string :=
  match s with
  | String c s' =>
      if bool_decide (c = ":"%char) then
        let '(d, r) := takeDigits s' in
        if truthy d then (Some d, r) else (None, s)
      else (None, s)
  | EmptyString => (None, s)
  end.

Definition bracket_open : ascii := "[".
Definition bracket_close : ascii := "]".

(** [/\[C(?::(\d+))?(?::(\d+))?(?::(\d+))?\]/i] at the head: the groups and the length. *)
Definition counterToken (s : string)
    : option (option string * option string * option string * nat) :=
  match s with
  | String o (String c s1) =>
      if bool_decide (o = bracket_open) && bool_decide (lower_unit c = "c"%char) then
        let '(first, s2) := counterGroup s1 in
        let '(second, s3) := counterGroup s2 in
        let '(third, s4) := counterGroup s3 in
        match s4 with
        | String e s5 =>
            if bool_decide (e = bracket_close)
            then Some (first, second, third, String.length s - String.length s5)
            else None
        | EmptyString => None
        end
      else None
  | _ => None
  end.

(** [/\[(N|E|F)(?::([a-z]))?\]/i] at the head: the token, its modifier, the length. *)
Definition nameToken (letters : list ascii) (s : string) : option (ascii * option ascii * nat) :=
  match s with
  | String o (String t s1) =>
      if bool_decide (o = bracket_open) && includes (upper_unit t) letters then
        match s1 with
        | String e s2 =>
            if bool_decide (e = bracket_close) then Some (t, None, 3)
            else if bool_decide (e = ":"%char) then
              match s2 with
              | String m (String e' s3) =>
                  if is_letter m && bool_decide (e' = bracket_close) then Some (t, Some m, 5)
                  else None
              | _ => None
              end
            else None
        | EmptyString => None
        end
      else None
  | _ => None
  end.

(** ** Definitions *)

Definition formatRenameCounter (counter : nat) (width : option nat) : string :=
  let counterValue := showNat counter in
  match width with
  | Some w => if (w =? 0) || (w <=? String.length counterValue) then counterValue
              else padZeros w counterValue
  | None => counterValue
  end.

(** The counter of the entry at [index] for the three groups of a [[C]] token. *)
Definition counterReplacement (index : nat) (groups : option string * option string * option string)
    : string :=
  let '(firstValue, secondValue, thirdValue) := groups in
  let first : option nat := parseDigits 0 <$> firstValue in
  let second : option nat := parseDigits 0 <$> secondValue in
  let third : option nat := parseDigits 0 <$> thirdValue in
  let start := if second then nullish first 1 else 1 in
  let width := if second then second else first in
  let step := nullish third 1 in
  formatRenameCounter (start + index * step) width.

Definition normalizeEntryName (name : string) : string := toLowerCase (trim name).

Definition resolveEntriesInOrder (p : CommanderPaneRuntimeState) (entryIds : list string)
    : list CommanderDirectoryEntry :=
  mapFilter (fun x => find (fun e => bool_decide (e_id e = x)) (p_directoryEntries p)) entryIds.

Definition getCommanderConflictingEntryNames (w : CommanderWidgetRuntimeState)
    (sourcePaneId : CommanderPaneId) (entryIds : list string) : list string :=
  let pane := fun i => match i with PaneLeft => w_leftPane w | PaneRight => w_rightPane w end in
  let sourcePane := pane sourcePaneId in
  let targetPane := pane (other_pane sourcePaneId) in
  if decide (p_path sourcePane = p_path targetPane) then []
  else
    let targetNames := (fun e => normalizeEntryName (e_name e)) <$> p_directoryEntries targetPane in
    filterb (fun n => includes (normalizeEntryName n) targetNames)
      (entry_names (resolveEntriesInOrder sourcePane entryIds)).

Definition getCommanderEntryNameConflict (p : CommanderPaneRuntimeState) (name : string)
    (ignoreEntryId : option string) : bool :=
  some (fun e =>
      match truthyOpt ignoreEntryId with
      | Some i => if bool_decide (e_id e = i) then false
                  else bool_decide (normalizeEntryName (e_name e) = normalizeEntryName name)
      | None => bool_decide (normalizeEntryName (e_name e) = normalizeEntryName name)
      end) (p_directoryEntries p).

Section Names.
Context `{Locale}.

Definition splitEntryBaseNameAndExt (e : CommanderDirectoryEntry) : string * string :=
  if negb (bool_decide (e_kind e = KindFile)) || negb (truthy (e_ext e)) then (e_name e, "")
  else
    let expectedSuffix := "." +:+ e_ext e in
    if endsWith (toLocaleLowerCase expectedSuffix) (toLocaleLowerCase (e_name e))
    then (strTake (String.length (e_name e) - String.length expectedSuffix) (e_name e), e_ext e)
    else (e_name e, e_ext e).

Definition buildCommanderCloneName (e : CommanderDirectoryEntry) (suffixIndex : nat) : string :=
  let '(baseName, ext) := splitEntryBaseNameAndExt e in
  let suffix := if suffixIndex <=? 1 then "-copy" else "-copy-" +:+ showNat suffixIndex in
  if bool_decide (e_kind e = KindFile) && truthy ext then baseName +:+ suffix +:+ "." +:+ ext
  else e_name e +:+ suffix.

Definition applyRenameTextTransform (value : string) (modifier : option ascii) : string :=
  match modifier with
  | Some m =>
      if bool_decide (lower_unit m = "l"%char) then toLocaleLowerCase value
      else if bool_decide (lower_unit m = "u"%char) then toLocaleUpperCase value
      else value
  | None => value
  end.

(** The replacement of a [[N]], [[E]] or [[F]] token. *)
Definition nameReplacement (e : CommanderDirectoryEntry) (token : ascii) (modifier : option ascii)
    : string :=
  let '(baseName, ext) := splitEntryBaseNameAndExt e in
  let rawValue :=
    if bool_decide (token = "N"%char) then baseName
    else if bool_decide (token = "E"%char) then ext else e_name e in
  applyRenameTextTransform rawValue modifier.

Definition applyCommanderRenameTemplate (e : CommanderDirectoryEntry) (template : string)
    (index : nat) : string :=
  let normalizedTemplate := trim template in
  if truthy normalizedTemplate then
    let '(baseName, ext) := splitEntryBaseNameAndExt e in
    let usesToken := fun c => anyToken (fun s => '(_, _, n) ← nameToken [c] s; Some ("", n)) normalizedTemplate in
    let usesFullNameToken := usesToken "F"%char in
    let usesExtensionToken := usesToken "E"%char in
    let counted :=
      replaceTokens (fun s => '(f1, f2, f3, n) ← counterToken s;
                       Some (counterReplacement index (f1, f2, f3), n)) 0 normalizedTemplate in
    let named :=
      replaceTokens (fun s => '(t, m, n) ← nameToken ["N"; "E"; "F"]%char s;
                       Some (nameReplacement e t m, n)) 0 counted in
    let nextName := trim named in
    if truthy nextName then
      if bool_decide (e_kind e = KindFile) && truthy ext && negb usesFullNameToken &&
         negb usesExtensionToken && negb (strIncludes "." nextName)
      then nextName +:+ "." +:+ ext
      else nextName
    else ""
  else "".

(** The loop of [suggestCommanderCloneName] from [suffixIndex] on, with [n]
    iterations left before the bound of 1000. *)
Fixpoint cloneNameLoop (p : CommanderPaneRuntimeState) (e : CommanderDirectoryEntry)
    (n suffixIndex : nat) : string :=
  match n with
  | O => buildCommanderCloneName e suffixIndex
  | S n' =>
      let candidateName := buildCommanderCloneName e suffixIndex in
      if getCommanderEntryNameConflict p candidateName (Some (e_id e))
      then cloneNameLoop p e n' (suffixIndex + 1)
      else candidateName
  end.

Definition suggestCommanderCloneName (p : CommanderPaneRuntimeState) (entryId : string)
    : option string :=
  match find (fun e => bool_decide (e_id e = entryId)) (p_directoryEntries p) with
  | None => None
  | Some e => Some (cloneNameLoop p e 999 1)
  end.

(** The counts that [generatedNameCounts] holds after the first pass. *)
Definition countName (counts : gmap string nat) (name : string) : gmap string nat :=
  let n := normalizeEntryName name in
  if truthy n then <[n := S (nullish (counts !! n) 0)]> counts else counts.

Record RenamePreview := mkRenamePreview {
  rv_preview : list CommanderRenamePreviewItem;
  rv_conflictEntryNames : list string;
  rv_duplicateTargetNames : list string
}.

(** The status that the second pass gives an item. *)
Definition previewStatus (p : CommanderPaneRuntimeState) (renameEntryIds : list string)
    (counts : gmap string nat) (nextName : string) : CommanderRenamePreviewStatus :=
  let n := normalizeEntryName nextName in
  if negb (truthy n) then StInvalid
  else if 1 <? nullish (counts !! n) 0 then StDuplicate
  else if some (fun e => if includes (e_id e) renameEntryIds then false
                         else bool_decide (normalizeEntryName (e_name e) = n))
            (p_directoryEntries p)
  then StConflict else StOk.

Definition previewCommanderRenameEntries (p : CommanderPaneRuntimeState) (entryIds : list string)
    (template : string) : RenamePreview :=
  let renameEntries := resolveEntriesInOrder p entryIds in
  let renameEntryIds := entry_ids renameEntries in
  let generated := imap (fun i e => (e, applyCommanderRenameTemplate e template i)) renameEntries in
  let counts := foldl countName ∅ (snd <$> generated) in
  let preview :=
    (fun '(e, nextName) =>
       let st := previewStatus p renameEntryIds counts nextName in
       mkPreviewItem (e_id e) (e_name e) nextName st (negb (bool_decide (st = StOk)))) <$> generated in
  mkRenamePreview preview
    (dedupe (mapFilter (fun item =>
       if decide (rp_status item = StConflict) then Some (rp_nextName item) else None) preview))
    (dedupe (mapFilter (fun item =>
       match rp_status item with
       | StInvalid => Some (rp_currentName item)
       | StDuplicate => Some (rp_nextName item)
       | _ => None
       end) preview)).

Definition previewCommanderCloneEntries (p : CommanderPaneRuntimeState) (entryIds : list string)
    (template : string) : RenamePreview :=
  previewCommanderRenameEntries p entryIds template.

End Names.

(** ** Lemmas *)

(** *** Counting generated names *)

Definition sameName (k n : string) : bool := bool_decide (normalizeEntryName n = k).

Lemma foldl_countName names m k :
  k <> "" ->
  nullish (foldl countName m names !! k) 0 = nullish (m !! k) 0 + occurrences (sameName k) names.
Proof.
  intros Hk. revert m. induction names as [|n names IH]; intros m.
  - unfold occurrences, filterb. simpl. lia.
  - rewrite occurrences_cons. cbn [foldl]. rewrite IH. unfold countName, sameName.
    destruct (truthy (normalizeEntryName n)) eqn:Ht.
    + destruct (decide (normalizeEntryName n = k)) as [E|E].
      * rewrite E, lookup_insert_eq, bool_decide_eq_true_2 by done. simpl. lia.
      * rewrite lookup_insert_ne, bool_decide_eq_false_2 by done. simpl. lia.
    + apply truthy_false in Ht. rewrite bool_decide_eq_false_2 by congruence. simpl. lia.
Qed.

Section PreviewLemmas.
Context `{Locale}.
Implicit Types (p : CommanderPaneRuntimeState).

(** The names generated for the resolved entries, in their order. *)
Definition generatedNames p entryIds template : list (CommanderDirectoryEntry * string) :=
  imap (fun i e => (e, applyCommanderRenameTemplate e template i)) (resolveEntriesInOrder p entryIds).

Definition generatedCounts p entryIds template : gmap string nat :=
  foldl countName ∅ (snd <$> generatedNames p entryIds template).

Definition statusOf p entryIds template (nextName : string) : CommanderRenamePreviewStatus :=
  previewStatus p (entry_ids (resolveEntriesInOrder p entryIds))
    (generatedCounts p entryIds template) nextName.

Lemma preview_lookup p entryIds template i e n :
  generatedNames p entryIds template !! i = Some (e, n) <->
  exists it, rv_preview (previewCommanderRenameEntries p entryIds template) !! i = Some it /\
    it = mkPreviewItem (e_id e) (e_name e) n (statusOf p entryIds template n)
           (negb (bool_decide (statusOf p entryIds template n = StOk))) /\
    resolveEntriesInOrder p entryIds !! i = Some e.
Proof.
  simpl. rewrite list_lookup_fmap. fold (generatedNames p entryIds template).
  fold (generatedCounts p entryIds template). unfold generatedNames.
  rewrite list_lookup_imap.
  destruct (resolveEntriesInOrder p entryIds !! i) as [e'|] eqn:E; simpl.
  - split.
    + intros [= -> ->]. eexists. split_and!; done.
    + intros (it & [= <-] & Hit & [= ->]). apply (f_equal rp_nextName) in Hit. simpl in Hit. by rewrite Hit.
  - split; [done|]. by intros (it & ? & _).
Qed.

Lemma resolve_elem p entryIds e :
  e ∈ resolveEntriesInOrder p entryIds -> e ∈ p_directoryEntries p /\ e_id e ∈ entryIds.
Proof.
  unfold resolveEntriesInOrder, mapFilter.
  intros (x & Hx & [He Hid]%find_Some)%list_elem_of_omap.
  apply bool_decide_eq_true in Hid. by subst.
Qed.

Lemma preview_ok p entryIds template :
  rv_conflictEntryNames (previewCommanderRenameEntries p entryIds template) = [] ->
  rv_duplicateTargetNames (previewCommanderRenameEntries p entryIds template) = [] ->
  forall i e n, generatedNames p entryIds template !! i = Some (e, n) ->
    statusOf p entryIds template n = StOk.
Proof.
  intros Hc Hd i e n Hi.
  assert (forall {B} (f : CommanderRenamePreviewItem -> option B) l it,
    mapFilter f l = [] -> it ∈ l -> f it = None) as Hnil.
  { intros B f l it Hl Hit. destruct (f it) as [b|] eqn:E; [|done].
    assert (b ∈ mapFilter f l) as Hb by (apply list_elem_of_omap; eauto).
    rewrite Hl in Hb. by apply elem_of_nil in Hb. }
  apply preview_lookup in Hi as (it & Hi & -> & _).
  apply list_elem_of_lookup_2 in Hi.
  unfold previewCommanderRenameEntries in Hc, Hd.
  cbn [rv_conflictEntryNames rv_duplicateTargetNames rv_preview] in Hc, Hd.
  apply (proj1 (dedupe_nil _)) in Hc. apply (proj1 (dedupe_nil _)) in Hd.
  eapply Hnil in Hc; [|exact Hi]. eapply Hnil in Hd; [|exact Hi].
  cbn [rp_status rp_currentName rp_nextName] in Hc, Hd.
  by destruct (statusOf p entryIds template n).
Qed.

Lemma status_cases p entryIds template i e n :
  generatedNames p entryIds template !! i = Some (e, n) ->
  let names := snd <$> generatedNames p entryIds template in
  let k := normalizeEntryName n in
  let duplicated := exists j m, j <> i /\ names !! j = Some m /\ normalizeEntryName m = k in
  let occupied := exists d, d ∈ p_directoryEntries p /\
    e_id d ∉ entry_ids (resolveEntriesInOrder p entryIds) /\ normalizeEntryName (e_name d) = k in
  match statusOf p entryIds template n with
  | StInvalid => k = ""
  | StDuplicate => k <> "" /\ duplicated
  | StConflict => k <> "" /\ ~ duplicated /\ occupied
  | StOk => k <> "" /\ ~ duplicated /\ ~ occupied
  end.
Proof.
  intros Hi names k duplicated occupied. unfold statusOf, previewStatus. fold k.
  destruct (truthy k) eqn:Ht; simpl negb; cbv iota; [|by apply truthy_false].
  apply truthy_true in Ht.
  assert (names !! i = Some n) as Hn by (unfold names; by rewrite list_lookup_fmap, Hi).
  assert (nullish (generatedCounts p entryIds template !! k) 0 = occurrences (sameName k) names) as Hcnt.
  { unfold generatedCounts. rewrite foldl_countName by done. done. }
  assert (2 <= occurrences (sameName k) names <-> duplicated) as Hdup.
  { rewrite (occurrences_two _ _ i n); [|done|by apply bool_decide_eq_true].
    unfold duplicated, sameName. by setoid_rewrite bool_decide_eq_true. }
  rewrite Hcnt. destruct (Nat.ltb_spec 1 (occurrences (sameName k) names)) as [Hlt|Hge].
  - split; [done|]. apply Hdup. lia.
  - assert (~ duplicated) as Hnd by (rewrite <- Hdup; lia).
    destruct (some _ (p_directoryEntries p)) eqn:E.
    + split_and!; try done. apply some_true in E as (d & Hd & Hcond). exists d.
      destruct (includes (e_id d) _) eqn:Ein; [done|]. apply includes_false in Ein.
      by apply bool_decide_eq_true in Hcond.
    + split_and!; try done. intros (d & Hd & Hnin & Hk).
      rewrite some_false in E. specialize (E d Hd). simpl in E.
      rewrite (proj2 (includes_false _ _) Hnin) in E. by apply bool_decide_eq_false in E.
Qed.

(** The name of an entry after the previewed rename. *)
Definition renamedName (preview : list CommanderRenamePreviewItem) (e : CommanderDirectoryEntry) : string :=
  match find (fun it => bool_decide (rp_entryId it = e_id e)) preview with
  | Some it => rp_nextName it
  | None => e_name e
  end.

Lemma renamedName_cases p entryIds template e :
  NoDup (entry_ids (p_directoryEntries p)) -> e ∈ p_directoryEntries p ->
  let preview := rv_preview (previewCommanderRenameEntries p entryIds template) in
  (exists i n, generatedNames p entryIds template !! i = Some (e, n) /\ renamedName preview e = n) \/
  (e_id e ∉ entry_ids (resolveEntriesInOrder p entryIds) /\ renamedName preview e = e_name e).
Proof.
  intros Hnd He preview. unfold renamedName.
  destruct (find _ preview) as [it|] eqn:E.
  - left. apply find_Some in E as [Hit Hid]. apply bool_decide_eq_true in Hid.
    apply list_elem_of_lookup_1 in Hit as [i Hi].
    destruct (generatedNames p entryIds template !! i) as [[d n]|] eqn:Hg.
    + apply preview_lookup in Hg as Hg'. destruct Hg' as (it' & Hi' & -> & Hd).
      unfold preview in Hi. rewrite Hi' in Hi. injection Hi as <-. simpl in *.
      apply list_elem_of_lookup_2 in Hd. apply resolve_elem in Hd as [Hd _].
      assert (d = e) as -> by (by eapply NoDup_fmap_elem). eauto.
    + exfalso. apply lookup_ge_None in Hg. apply lookup_lt_Some in Hi.
      unfold preview in Hi. simpl in Hi. rewrite length_fmap in Hi.
      unfold generatedNames in Hg. lia.
  - right. split; [|done]. rewrite find_None in E.
    intros (d & [i Hi]%list_elem_of_lookup_1 & Hid)%elem_of_entry_ids.
    destruct (generatedNames p entryIds template !! i) as [[d' n]|] eqn:Hg.
    + apply preview_lookup in Hg as (it & Hit & -> & Hd'). simplify_eq.
      apply list_elem_of_lookup_2 in Hit. apply E in Hit. simpl in Hit.
      by apply bool_decide_eq_false in Hit.
    + unfold generatedNames in Hg. rewrite list_lookup_imap, Hi in Hg. done.
Qed.

(** *** Clone names *)

(** What distinguishes the candidates of one entry. *)
Definition cloneMark (k : nat) : string := if k <=? 1 then "" else "-" +:+ showNat k.

Lemma cloneMark_inj j k : 1 <= j -> 1 <= k -> cloneMark j = cloneMark k -> j = k.
Proof.
  unfold cloneMark. destruct (Nat.leb_spec j 1), (Nat.leb_spec k 1); simpl; try lia; try done.
  intros _ _ [=]. by apply showNat_inj.
Qed.

Lemma cloneMark_end k :
  exists s c, "-copy" +:+ cloneMark k = s +:+ String c "" /\ is_space c = false.
Proof.
  unfold cloneMark. destruct (k <=? 1); [exists "-cop", "y"%char; by split|].
  destruct (last_digit_uint (Nat.to_uint k)) as [H0|(s & c & Hs & Hc)].
  - by destruct (showNat_nonempty k).
  - exists ("-copy-" +:+ s), c. split; [|done]. unfold showNat. rewrite Hs. done.
Qed.

Lemma buildCloneName_shape e k :
  exists base tail, buildCommanderCloneName e k = base +:+ "-copy" +:+ cloneMark k +:+ tail /\
    forall j, buildCommanderCloneName e j = base +:+ "-copy" +:+ cloneMark j +:+ tail.
Proof.
  assert (exists base tail, forall j,
    buildCommanderCloneName e j = base +:+ "-copy" +:+ cloneMark j +:+ tail) as (b & t & Hbt).
  { unfold buildCommanderCloneName, cloneMark.
    destruct (splitEntryBaseNameAndExt e) as [baseName ext].
    destruct (bool_decide (e_kind e = KindFile) && truthy ext).
    - exists baseName, ("." +:+ ext). intros j. by destruct (j <=? 1).
    - exists (e_name e), "". intros j. destruct (j <=? 1); [done|].
      simpl. by rewrite append_nil_r. }
  exists b, t. split; [apply Hbt|done].
Qed.

Lemma normalize_clone base k tail :
  normalizeEntryName (base +:+ "-copy" +:+ cloneMark k +:+ tail) =
  toLowerCase (trimStart base +:+ "-copy") +:+ cloneMark k +:+ toLowerCase (trimEnd tail).
Proof.
  destruct (cloneMark_end k) as (s & c & Hs & Hc). unfold normalizeEntryName, trim.
  replace (base +:+ "-copy" +:+ cloneMark k +:+ tail)
    with (((base +:+ s) +:+ String c "") +:+ tail)
    by (rewrite (append_assoc base s), <- Hs, !append_assoc; done).
  rewrite trimEnd_append, (append_assoc base s), <- Hs by done.
  rewrite !append_assoc. simpl (_ +:+ _).
  change ("-copy" +:+ cloneMark k +:+ trimEnd tail)
    with (String "-" ("copy" +:+ cloneMark k +:+ trimEnd tail)).
  rewrite trimStart_append by done. unfold toLowerCase.
  rewrite !str_map_append. simpl. rewrite append_assoc. simpl.
  do 6 f_equal. rewrite str_map_append. f_equal.
  unfold cloneMark. destruct (k <=? 1); [done|]. simpl. f_equal. apply lower_showNat.
Qed.

Lemma buildCloneName_inj e j k :
  1 <= j -> 1 <= k ->
  normalizeEntryName (buildCommanderCloneName e j) = normalizeEntryName (buildCommanderCloneName e k) ->
  j = k.
Proof.
  intros Hj Hk. destruct (buildCloneName_shape e j) as (b & t & _ & Hbt).
  rewrite !Hbt, !normalize_clone. intros Heq%append_inj_l%append_inj_r.
  by apply cloneMark_inj.
Qed.

Lemma nameConflict_elem p n i :
  getCommanderEntryNameConflict p n i = true ->
  normalizeEntryName n ∈ ((fun e => normalizeEntryName (e_name e)) <$> p_directoryEntries p).
Proof.
  intros (e & He & Hc)%some_true. apply list_elem_of_fmap. exists e. split; [|done].
  destruct (truthyOpt i); [destruct (bool_decide (e_id e = s)); [done|]|];
    by apply bool_decide_eq_true in Hc.
Qed.

(** The loop stops at a free name, or all its candidates are taken. *)
Lemma cloneNameLoop_cases p e n k :
  getCommanderEntryNameConflict p (cloneNameLoop p e n k) (Some (e_id e)) = false \/
  forall j, k <= j < k + n ->
    getCommanderEntryNameConflict p (buildCommanderCloneName e j) (Some (e_id e)) = true.
Proof.
  revert k. induction n as [|n IH]; intros k; simpl.
  - right. lia.
  - destruct (getCommanderEntryNameConflict p (buildCommanderCloneName e k) (Some (e_id e))) eqn:E; [|by left].
    destruct (IH (k + 1)) as [?|Hall]; [by left|]. right. intros j Hj.
    destruct (decide (j = k)) as [->|]; [done|]. apply Hall. lia.
Qed.

(** Pigeonhole: the candidates have pairwise different normalized names. *)
Lemma clone_candidates_bound p e n :
  (forall j, 1 <= j < 1 + n ->
    getCommanderEntryNameConflict p (buildCommanderCloneName e j) (Some (e_id e)) = true) ->
  n <= length (p_directoryEntries p).
Proof.
  intros Hall.
  rewrite <- (length_fmap (fun e => normalizeEntryName (e_name e)) (p_directoryEntries p)).
  rewrite <- (length_seq n 1) at 1.
  rewrite <- (length_fmap (fun j => normalizeEntryName (buildCommanderCloneName e j)) (seq 1 n)).
  apply submseteq_length, NoDup_submseteq.
  - apply NoDup_fmap_2_strong; [|apply NoDup_seq].
    intros i j Hi%elem_of_seq Hj%elem_of_seq. apply buildCloneName_inj; lia.
  - intros x (j & -> & Hj%elem_of_seq)%list_elem_of_fmap.
    eapply nameConflict_elem, Hall. lia.
Qed.

End PreviewLemmas.

(** ** Properties *)

(** C3: a preview without conflicts and without duplicates is safe to apply: in a
    directory whose entries have different ids, two of them have the same name
    (up to case and surrounding white space) after the previewed rename only if
    neither was renamed and they had the same name before; so if the names were
    pairwise different, they still are. *)
Theorem previewRename_safe `{Locale} p entryIds template :
  let dir := p_directoryEntries p in
  let r := previewCommanderRenameEntries p entryIds template in
  let renamed e := renamedName (rv_preview r) e in
  NoDup (entry_ids dir) ->
  rv_conflictEntryNames r = [] -> rv_duplicateTargetNames r = [] ->
  (forall e1 e2, e1 ∈ dir -> e2 ∈ dir -> e1 <> e2 ->
     normalizeEntryName (renamed e1) = normalizeEntryName (renamed e2) ->
     e_id e1 ∉ entry_ids (resolveEntriesInOrder p entryIds) /\ e_id e2 ∉ entry_ids (resolveEntriesInOrder p entryIds) /\
     renamed e1 = e_name e1 /\ renamed e2 = e_name e2 /\
     normalizeEntryName (e_name e1) = normalizeEntryName (e_name e2)) /\
  (NoDup ((fun e => normalizeEntryName (e_name e)) <$> dir) ->
   NoDup ((fun e => normalizeEntryName (renamed e)) <$> dir)).
Proof.
  intros dir r renamed Hids Hc Hd.
  pose proof (preview_ok p entryIds template Hc Hd) as Hok.
  assert (forall e1 e2 i n, e2 ∈ dir -> generatedNames p entryIds template !! i = Some (e1, n) ->
    e_id e2 ∉ entry_ids (resolveEntriesInOrder p entryIds) ->
    normalizeEntryName n = normalizeEntryName (e_name e2) -> False) as Hcross.
  { intros e1 e2 i n He2 Hi Hnin Heq. pose proof (status_cases p entryIds template i e1 n Hi) as Hst.
    rewrite (Hok i e1 n Hi) in Hst. destruct Hst as (_ & _ & Hno). apply Hno. by exists e2. }
  assert (forall e1 e2, e1 ∈ dir -> e2 ∈ dir -> e1 <> e2 ->
    normalizeEntryName (renamed e1) = normalizeEntryName (renamed e2) ->
    e_id e1 ∉ entry_ids (resolveEntriesInOrder p entryIds) /\ e_id e2 ∉ entry_ids (resolveEntriesInOrder p entryIds) /\
    renamed e1 = e_name e1 /\ renamed e2 = e_name e2 /\
    normalizeEntryName (e_name e1) = normalizeEntryName (e_name e2)) as Hclash.
  { intros e1 e2 He1 He2 Hne Heq. unfold renamed, r in Heq |- *.
    destruct (renamedName_cases p entryIds template e1 Hids He1) as [(i & n & Hi & H1)|[Hn1 H1]];
    destruct (renamedName_cases p entryIds template e2 Hids He2) as [(j & m & Hj & H2)|[Hn2 H2]];
    rewrite H1, H2 in Heq |- *.
    - destruct (decide (j = i)) as [->|Hij]; [congruence|]. exfalso.
      pose proof (status_cases p entryIds template i e1 n Hi) as Hst.
      rewrite (Hok i e1 n Hi) in Hst. destruct Hst as (_ & Hno & _). apply Hno.
      exists j, m. by rewrite list_lookup_fmap, Hj.
    - by destruct (Hcross e1 e2 i n).
    - by destruct (Hcross e2 e1 j m).
    - done. }
  split; [exact Hclash|]. intros Hnames.
  apply NoDup_fmap_2_strong; [|by eapply NoDup_fmap_1].
  intros e1 e2 He1 He2 Heq. destruct (decide (e1 = e2)) as [|Hne]; [done|].
  destruct (Hclash e1 e2 He1 He2 Hne Heq) as (_ & _ & _ & _ & Hn). eapply (NoDup_fmap_elem _ dir); eauto.
Qed.

(** The status of a previewed item is exact: [invalid] means an empty name,
    [duplicate] that another item of the batch gets the same name, [conflict]
    that an entry outside of the batch has it, and [ok] that none of these
    holds; the item's conflict flag is set exactly when it is not [ok]. *)
Theorem previewRename_status_exact `{Locale} p entryIds template i it :
  let r := previewCommanderRenameEntries p entryIds template in
  rv_preview r !! i = Some it ->
  let k := normalizeEntryName (rp_nextName it) in
  let duplicated := exists j it', j <> i /\ rv_preview r !! j = Some it' /\
    normalizeEntryName (rp_nextName it') = k in
  let occupied := exists d, d ∈ p_directoryEntries p /\
    e_id d ∉ entry_ids (resolveEntriesInOrder p entryIds) /\ normalizeEntryName (e_name d) = k in
  (rp_conflict it = true <-> rp_status it <> StOk) /\
  match rp_status it with
  | StInvalid => k = ""
  | StDuplicate => k <> "" /\ duplicated
  | StConflict => k <> "" /\ ~ duplicated /\ occupied
  | StOk => k <> "" /\ ~ duplicated /\ ~ occupied
  end.
Proof.
  intros r Hi k duplicated occupied.
  destruct (generatedNames p entryIds template !! i) as [[e n]|] eqn:Hg.
  2: { exfalso. apply lookup_ge_None in Hg. apply lookup_lt_Some in Hi.
       unfold r in Hi. simpl in Hi. rewrite length_fmap in Hi. unfold generatedNames in Hg. lia. }
  apply preview_lookup in Hg as Hg'. destruct Hg' as (it' & Hi' & -> & _).
  unfold r in Hi. rewrite Hi' in Hi. injection Hi as <-. simpl.
  split; [by rewrite negb_true_iff, bool_decide_eq_false|].
  assert (duplicated <-> exists j m, j <> i /\ (snd <$> generatedNames p entryIds template) !! j = Some m /\
    normalizeEntryName m = k) as Hdup.
  { unfold duplicated. split.
    - intros (j & it & Hne & Hj & Hk).
      destruct (generatedNames p entryIds template !! j) as [[d m]|] eqn:E.
      + apply preview_lookup in E as E'. destruct E' as (it' & Hj' & -> & _).
        unfold r in Hj. rewrite Hj' in Hj. injection Hj as <-. exists j, m.
        by rewrite list_lookup_fmap, E.
      + exfalso. apply lookup_ge_None in E. apply lookup_lt_Some in Hj.
        unfold r in Hj. simpl in Hj. rewrite length_fmap in Hj. unfold generatedNames in E. lia.
    - intros (j & m & Hne & Hj & Hk). rewrite list_lookup_fmap in Hj.
      destruct (generatedNames p entryIds template !! j) as [[d m']|] eqn:E; [|done].
      simplify_eq/=. apply preview_lookup in E as (it & Hj & -> & _). by eexists j, _. }
  pose proof (status_cases p entryIds template i e n Hg) as Hst. cbv zeta in Hst.
  fold k in Hst. destruct (statusOf p entryIds template n); tauto.
Qed.

(** C40: the suggested name of a clone is free: in a directory of fewer than 999
    entries the search always ends at a name that no other entry has, up to case
    and surrounding white space. *)
Theorem suggestCommanderCloneName_free `{Locale} p e :
  find (fun d => bool_decide (e_id d = e_id e)) (p_directoryEntries p) = Some e ->
  length (p_directoryEntries p) < 999 ->
  exists name, suggestCommanderCloneName p (e_id e) = Some name /\
    getCommanderEntryNameConflict p name (Some (e_id e)) = false /\
    forall d, d ∈ p_directoryEntries p -> e_id d <> e_id e ->
      normalizeEntryName (e_name d) <> normalizeEntryName name.
Proof.
  intros Hfind Hlen. unfold suggestCommanderCloneName. rewrite Hfind.
  generalize (clone_candidates_bound p e 999) (cloneNameLoop_cases p e 999 1).
  generalize (cloneNameLoop p e 999 1). intros name Hbound Hcases.
  exists name. split; [done|].
  destruct Hcases as [Hok|Hall].
  - split; [done|]. intros d Hd Hne Heq.
    unfold getCommanderEntryNameConflict in Hok. rewrite some_false in Hok.
    specialize (Hok d Hd). cbv beta in Hok.
    destruct (truthyOpt (Some (e_id e))) as [s|] eqn:E.
    + apply truthyOpt_Some in E as [[= <-] _].
      rewrite bool_decide_eq_false_2 in Hok by done. by apply bool_decide_eq_false in Hok.
    + by apply bool_decide_eq_false in Hok.
  - exfalso. specialize (Hbound Hall). lia.
Qed.

(** ** Divergences *)

(** The scanner accepts [[n]] and [[e]] in either case, the replacement does
    not: in lower case both stand for the full name. *)
Lemma lowercase_token_is_full_name `{Locale} e m :
  nameReplacement e "n"%char m = applyRenameTextTransform (e_name e) m /\
  nameReplacement e "e"%char m = applyRenameTextTransform (e_name e) m.
Proof. unfold nameReplacement. by destruct (splitEntryBaseNameAndExt e). Qed.

(** The default batch template drops the extension of a file whose base name
    has a dot, which the single clone keeps. *)
Example template_drops_extension :
  applyCommanderRenameTemplate (sample_file "archive.v1.txt" "txt") "[N]-[C:2]" 0 = "archive.v1-01" /\
  buildCommanderCloneName (sample_file "archive.v1.txt" "txt") 1 = "archive.v1-copy.txt".
Proof. split; vm_compute; reflexivity. Qed.

(** A clone whose target is the source itself is reported as free. *)
Example clone_onto_itself_is_ok :
  let p := sample_pane [sample_file "a.txt" "txt"; sample_file "b.txt" "txt"] [] in
  rp_status <$> rv_preview (previewCommanderCloneEntries p ["/d::a.txt"; "/d::b.txt"] "[F]") =
    [StOk; StOk].
Proof. vm_compute. reflexivity. Qed.

(** ** Witnesses *)

(** One file of three is renamed; the two others clash already. *)
Lemma previewRename_safe_witness :
  let p := sample_pane [sample_file "a.txt" "txt"; sample_file "b.txt" "txt"; sample_file "B.txt" "txt"] [] in
  let renamed := renamedName (rv_preview (previewCommanderRenameEntries p ["/d::a.txt"] "[N]-[C:2]")) in
  (renamed <$> p_directoryEntries p) = ["a-01.txt"; "b.txt"; "B.txt"] /\
  forall e1 e2, e1 ∈ p_directoryEntries p -> e2 ∈ p_directoryEntries p -> e1 <> e2 ->
    normalizeEntryName (renamed e1) = normalizeEntryName (renamed e2) ->
    renamed e1 = e_name e1 /\ renamed e2 = e_name e2.
Proof.
  intros p renamed. split; [vm_compute; reflexivity|]. intros e1 e2 H1 H2 Hne Heq.
  destruct (previewRename_safe p ["/d::a.txt"] "[N]-[C:2]") as [Hclash _];
    [by apply (bool_decide_unpack _); vm_compute|reflexivity|reflexivity|].
  destruct (Hclash e1 e2 H1 H2 Hne Heq) as (_ & _ & E1 & E2 & _). exact (conj E1 E2).
Defined.

Lemma previewRename_status_exact_witness :
  let p := sample_pane [sample_file "a.txt" "txt"; sample_file "b.txt" "txt"] [] in
  let it := mkPreviewItem "/d::a.txt" "a.txt" "b.txt" StConflict true in
  rv_preview (previewCommanderRenameEntries p ["/d::a.txt"] "b") !! 0 = Some it /\
  (rp_conflict it = true <-> rp_status it <> StOk).
Proof.
  split; [vm_compute; reflexivity|].
  apply (previewRename_status_exact
    (sample_pane [sample_file "a.txt" "txt"; sample_file "b.txt" "txt"] [])
    ["/d::a.txt"] "b" 0 (mkPreviewItem "/d::a.txt" "a.txt" "b.txt" StConflict true)).
  vm_compute. reflexivity.
Defined.

Lemma suggestCommanderCloneName_free_witness :
  let p := sample_pane [sample_file "a.txt" "txt"; sample_file "A-copy.txt" "txt"] [] in
  suggestCommanderCloneName p "/d::a.txt" = Some "a-copy-2.txt" /\
  exists name, suggestCommanderCloneName p "/d::a.txt" = Some name /\
    getCommanderEntryNameConflict p name (Some "/d::a.txt") = false.
Proof.
  split; [vm_compute; reflexivity|].
  destruct (suggestCommanderCloneName_free
    (sample_pane [sample_file "a.txt" "txt"; sample_file "A-copy.txt" "txt"] [])
    (sample_file "a.txt" "txt")) as (n & Hn & Hc & _);
    [reflexivity|simpl; lia|exists n; split; [exact Hn|exact Hc]].
Defined.
