(* ===== verification/Operations.v ===== *)
(** * Pending operations

    [frontend/src/features/commander/model/store-operations.ts]: opening a
    pending operation for the active pane, recomputing it while its input is
    edited, stepping through quick-search matches, confirming the local kinds
    and resolving transfer conflicts one by one. *)
From stdpp Require Import strings.
From S2P Require Import Prelude JsString Types Mask Selection PaneState Navigation Preview.
Local Open Scope string_scope.
Local Open Scope list_scope.
Local Open Scope Z_scope.

(** ** Operations *)

Definition getOperationEntryIds (p : CommanderPaneRuntimeState) : list string :=
  match p_selectedIds p with
  | _ :: _ => p_selectedIds p
  | [] => match truthyOpt (p_cursorEntryId p) with Some c => [c] | None => [] end
  end.

(** The fields that both kinds of transfer have. *)
Definition transfer_base (t : CommanderTransferPendingOperation) : CommanderPendingOperationBase :=
  match t with TransferClone c => cl_base c | TransferPane t => tr_base t end.
Definition transfer_conflicts (t : CommanderTransferPendingOperation) : list string :=
  match t with
  | TransferClone c => cl_conflictEntryNames c
  | TransferPane t => tr_conflictEntryNames t
  end.

(** [{ ...op, entryIds, entryNames, conflictEntryNames }] *)
Definition with_transfer_entries (ids names conflicts : list string)
    (t : CommanderTransferPendingOperation) : CommanderTransferPendingOperation :=
  let base b := mkOpBase (o_sourcePaneId b) (o_sourcePath b) ids names in
  match t with
  | TransferClone c =>
      TransferClone (mkClone (base (cl_base c)) (cl_inputValue c) (cl_targetPaneId c)
        (cl_targetPath c) (cl_cloneMode c) conflicts (cl_duplicateTargetNames c)
        (cl_renamePreview c))
  | TransferPane t =>
      TransferPane (mkTransfer (tr_kind t) (base (tr_base t)) (tr_targetPaneId t)
        (tr_targetPath t) conflicts)
  end.

Definition getCurrentPendingConflictName (t : CommanderTransferPendingOperation) : option string :=
  head (transfer_conflicts t).

Definition removePendingTransferEntry (t : CommanderTransferPendingOperation) (entryName : string)
    : CommanderTransferPendingOperation :=
  let b := transfer_base t in
  match findIndex (fun n => bool_decide (n = entryName)) (o_entryNames b) with
  | None => t
  | Some entryIndex =>
      with_transfer_entries (removeAt entryIndex (o_entryIds b))
        (removeAt entryIndex (o_entryNames b))
        (filterb (fun n => negb (bool_decide (n = entryName))) (transfer_conflicts t)) t
  end.

(** [names.slice(0, 6)] *)
Definition matchPreviewOf (m : CommanderMatches) : list string := take 6 (m_entryNames m).

Section Operations.
Context `{Locale}.

(** [getCommanderResolvedSearchMatchIndex(ids, cursor)]: the fallback defaults to 0. *)
Definition searchPending (b : CommanderPendingOperationBase) (input : string)
    (m : CommanderMatches) (cursor : option string) : CommanderSearchPendingOperation :=
  mkSearch b input (length (m_entryIds m)) (matchPreviewOf m)
    (getCommanderResolvedSearchMatchIndex (m_entryIds m) cursor 0).

Definition updateCommanderPendingOperationInput (w : CommanderWidgetRuntimeState)
    (inputValue : string) : option CommanderWidgetRuntimeState :=
  match w_pendingOperation w with
  | None => None
  | Some (OpTransfer (TransferPane _)) => None
  | Some (OpTransfer (TransferClone c)) =>
      let b := cl_base c in
      let sourcePane := getPaneState w (o_sourcePaneId b) in
      let with_report conflicts duplicates preview :=
        Some (set_pendingOperation (Some (OpTransfer (TransferClone
          (mkClone b inputValue (cl_targetPaneId c) (cl_targetPath c) (cl_cloneMode c)
             conflicts duplicates preview)))) w) in
      match cl_cloneMode c with
      | CloneBatch =>
          let r := previewCommanderCloneEntries sourcePane (o_entryIds b) inputValue in
          with_report (rv_conflictEntryNames r) (rv_duplicateTargetNames r) (rv_preview r)
      | CloneSingle =>
          let nextName := trim inputValue in
          let hasConflict :=
            truthy nextName && negb (bool_decide (Some nextName = head (o_entryNames b))) &&
            getCommanderEntryNameConflict sourcePane nextName (head (o_entryIds b)) in
          with_report (if hasConflict then [nextName] else []) [] []
      end
  | Some (OpMkdir m) =>
      Some (set_pendingOperation (Some (OpMkdir (mkMkdir (mk_base m) inputValue))) w)
  | Some (OpMask m) =>
      let b := ma_base m in
      let matches :=
        match ma_kind m with
        | MaskFilter => getCommanderFilterMatches w (o_sourcePaneId b) inputValue
        | _ => getCommanderMaskMatches (getPaneState w (o_sourcePaneId b)) inputValue
        end in
      Some (set_pendingOperation (Some (OpMask (mkMask (ma_kind m) b inputValue
        (length (m_entryIds matches)) (matchPreviewOf matches)))) w)
  | Some (OpSearch s) =>
      let b := se_base s in
      let sourcePane := getPaneState w (o_sourcePaneId b) in
      let matches := getCommanderSearchMatches sourcePane inputValue in
      Some (set_pendingOperation (Some (OpSearch
        (searchPending b inputValue matches (p_cursorEntryId sourcePane)))) w)
  | Some (OpRename r) =>
      let b := rn_base r in
      let v := previewCommanderRenameEntries (getPaneState w (o_sourcePaneId b))
                 (o_entryIds b) inputValue in
      Some (set_pendingOperation (Some (OpRename (mkRename b inputValue
        (rv_conflictEntryNames v) (rv_duplicateTargetNames v) (rn_renameMode r)
        (rv_preview v)))) w)
  | Some (OpDelete _) => None
  end.

Definition createRenameOperation (w : CommanderWidgetRuntimeState)
    (sourcePane : CommanderPaneRuntimeState) (entryIds : list string)
    : option CommanderPendingOperation :=
  let base ids names := mkOpBase (w_activePane w) (p_path sourcePane) ids names in
  let renameEntries := filterb (fun e => includes (e_id e) entryIds) (p_entries sourcePane) in
  match renameEntries with
  | [] => None
  | [currentEntry] =>
      Some (OpRename (mkRename (base [e_id currentEntry] [e_name currentEntry])
        (e_name currentEntry) [] [] RenameSingle
        [mkPreviewItem (e_id currentEntry) (e_name currentEntry) (e_name currentEntry) StOk false]))
  | _ =>
      let v := previewCommanderRenameEntries sourcePane (entry_ids renameEntries) "[N]-[C:2]" in
      Some (OpRename (mkRename (base (entry_ids renameEntries) (entry_names renameEntries))
        "[N]-[C:2]" (rv_conflictEntryNames v) (rv_duplicateTargetNames v) RenameBatch
        (rv_preview v)))
  end.

(** The copy and move kinds: a clone inside of one directory, or a transfer to
    the other pane. *)
Definition createTransferOperation (w : CommanderWidgetRuntimeState)
    (kind : CommanderTransferKind) (sourcePane : CommanderPaneRuntimeState)
    (entryIds : list string) : option CommanderPendingOperation :=
  let activePane := w_activePane w in
  let targetPaneId := other_pane activePane in
  let targetPane := getPaneState w targetPaneId in
  let entryNames := entry_names (filterb (fun e => includes (e_id e) entryIds) (p_entries sourcePane)) in
  let base := mkOpBase activePane (p_path sourcePane) entryIds entryNames in
  let clone input mode conflicts duplicates preview :=
    Some (OpTransfer (TransferClone (mkClone base input activePane (p_path sourcePane) mode
      conflicts duplicates preview))) in
  match decide (p_path sourcePane = p_path targetPane), kind with
  | left _, TransferCopy =>
      match entryIds with
      | [entryId] =>
          match truthyOpt (suggestCommanderCloneName sourcePane entryId) with
          | None => None
          | Some cloneName => clone cloneName CloneSingle [] [] []
          end
      | _ =>
          let v := previewCommanderCloneEntries sourcePane entryIds "[N]-copy" in
          clone "[N]-copy" CloneBatch (rv_conflictEntryNames v) (rv_duplicateTargetNames v)
            (rv_preview v)
      end
  | left _, TransferMove => None
  | right _, _ =>
      let conflictEntryNames := getCommanderConflictingEntryNames w activePane entryIds in
      Some (OpTransfer (TransferPane (mkTransfer kind base targetPaneId (p_path targetPane)
        conflictEntryNames)))
  end.

(** The kinds that need no entry to work on. *)
Definition needs_entries (kind : CommanderPendingOperationKind) : bool :=
  match kind with
  | KMkdir | KSelect | KUnselect | KFilter | KSearch => false
  | _ => true
  end.

Definition createPendingOperation (w : CommanderWidgetRuntimeState)
    (kind : CommanderPendingOperationKind) : option CommanderPendingOperation :=
  let sourcePane := getPaneState w (w_activePane w) in
  let entryIds := getOperationEntryIds sourcePane in
  let base ids names := mkOpBase (w_activePane w) (p_path sourcePane) ids names in
  if (needs_entries kind && bool_decide (entryIds = []))%bool then None
  else
    match kind with
    | KMkdir => Some (OpMkdir (mkMkdir (base [] []) "New folder"))
    | KSelect | KUnselect =>
        let matches := getCommanderMaskMatches sourcePane "*" in
        Some (OpMask (mkMask (if decide (kind = KSelect) then MaskSelect else MaskUnselect)
          (base [] []) "*" (length (m_entryIds matches)) (matchPreviewOf matches)))
    | KFilter =>
        let filterQuery := p_filterQuery sourcePane in
        let matches := getCommanderFilterMatches w (w_activePane w) filterQuery in
        Some (OpMask (mkMask MaskFilter (base [] []) filterQuery (length (m_entryIds matches))
          (matchPreviewOf matches)))
    | KSearch =>
        let matches := getCommanderSearchMatches sourcePane "" in
        Some (OpSearch (searchPending (base [] []) "" matches (p_cursorEntryId sourcePane)))
    | KRename => createRenameOperation w sourcePane entryIds
    | KDelete =>
        let entryNames :=
          entry_names (filterb (fun e => includes (e_id e) entryIds) (p_entries sourcePane)) in
        Some (OpDelete (base entryIds entryNames))
    | KCopy => createTransferOperation w TransferCopy sourcePane entryIds
    | KMove => createTransferOperation w TransferMove sourcePane entryIds
    end.

Definition requestCommanderWidgetPendingOperation (w : CommanderWidgetRuntimeState)
    (kind : CommanderPendingOperationKind) : option CommanderWidgetRuntimeState :=
  match createPendingOperation w kind with
  | None => None
  | Some op => Some (set_pendingOperation (Some op) w)
  end.

(** Puts the cursor and the anchor of a pane on one row. *)
Definition focus_row (x : string) (p : CommanderPaneRuntimeState) : CommanderPaneRuntimeState :=
  set_marks (Some x) (Some x) (p_selectedIds p) p.

(** [delta] is [1] or [-1]. *)
Definition stepCommanderWidgetPendingSearchMatch (w : CommanderWidgetRuntimeState) (delta : Z)
    : option CommanderWidgetRuntimeState :=
  match w_pendingOperation w with
  | Some (OpSearch s) =>
      let b := se_base s in
      let sourcePane := getPaneState w (o_sourcePaneId b) in
      let matches := getCommanderSearchMatches sourcePane (se_inputValue s) in
      let count := Z.of_nat (length (m_entryIds matches)) in
      if decide (count = 0) then None
      else
        let currentIndex :=
          getCommanderResolvedSearchMatchIndex (m_entryIds matches) (p_cursorEntryId sourcePane)
            (se_matchIndex s) in
        let nextIndex := Z.rem (currentIndex + delta + count) count in
        match truthyOpt (at_ (m_entryIds matches) nextIndex) with
        | None => None
        | Some nextCursorEntryId =>
            Some (set_pendingOperation
              (Some (OpSearch (mkSearch b (se_inputValue s) (length (m_entryIds matches))
                 (matchPreviewOf matches) nextIndex)))
              (updatePaneState w (o_sourcePaneId b) (focus_row nextCursorEntryId)))
        end
  | _ => None
  end.

Definition confirmCommanderWidgetPendingOperation (w : CommanderWidgetRuntimeState)
    : option CommanderWidgetRuntimeState :=
  match w_pendingOperation w with
  | None => None
  | Some (OpTransfer _) | Some (OpDelete _) | Some (OpMkdir _) | Some (OpRename _) => None
  | Some (OpMask m) =>
      let b := ma_base m in
      let closed := set_pendingOperation None w in
      match ma_kind m with
      | MaskFilter =>
          let filterQuery := trim (ma_inputValue m) in
          Some (updatePaneState closed (o_sourcePaneId b)
            (fun p => rebuildPaneState w (set_filterQuery filterQuery p)))
      | k =>
          let mask := trim (ma_inputValue m) in
          Some (updatePaneState closed (o_sourcePaneId b)
            (fun p => applySelectionMaskToPane p mask
               (match k with MaskSelect => true | _ => false end)))
      end
  | Some (OpSearch s) =>
      let b := se_base s in
      let sourcePane := getPaneState w (o_sourcePaneId b) in
      let matches := getCommanderSearchMatches sourcePane (se_inputValue s) in
      let resolvedMatchIndex :=
        getCommanderResolvedSearchMatchIndex (m_entryIds matches) (p_cursorEntryId sourcePane)
          (se_matchIndex s) in
      let nextCursorEntryId :=
        if decide (resolvedMatchIndex = -1) then None
        else at_ (m_entryIds matches) resolvedMatchIndex in
      Some (updatePaneState (set_pendingOperation None w) (o_sourcePaneId b)
        (fun p =>
           match truthyOpt nextCursorEntryId with
           | Some x => focus_row x p
           | None => p
           end))
  end.

End Operations.

(** ** The search prompt *)

(** The matches of a pending search. *)
Definition search_ids `{Locale} (w : CommanderWidgetRuntimeState)
    (s : CommanderSearchPendingOperation) : list string :=
  m_entryIds (getCommanderSearchMatches (getPaneState w (o_sourcePaneId (se_base s))) (se_inputValue s)).

(** The match a pending search stands on. *)
Definition search_index `{Locale} (w : CommanderWidgetRuntimeState)
    (s : CommanderSearchPendingOperation) : Z :=
  getCommanderResolvedSearchMatchIndex (search_ids w s)
    (p_cursorEntryId (getPaneState w (o_sourcePaneId (se_base s)))) (se_matchIndex s).

(** A sequence of steps, each forward ([1]) or backward ([-1]). *)
Fixpoint searchSteps `{Locale} (w : CommanderWidgetRuntimeState) (ds : list Z)
    : option CommanderWidgetRuntimeState :=
  match ds with
  | [] => Some w
  | d :: ds' => w' ← stepCommanderWidgetPendingSearchMatch w d; searchSteps w' ds'
  end.

(** ** Entries of an operation *)

(** The fields every pending operation carries. *)
Definition op_base (op : CommanderPendingOperation) : CommanderPendingOperationBase :=
  match op with
  | OpTransfer t => transfer_base t
  | OpDelete b => b
  | OpMkdir m => mk_base m
  | OpRename r => rn_base r
  | OpMask m => ma_base m
  | OpSearch s => se_base s
  end.

(** The ids and the names of an operation list the same entries in one order. *)
Definition aligned (b : CommanderPendingOperationBase) (es : list CommanderDirectoryEntry) : Prop :=
  o_entryIds b = entry_ids es /\ o_entryNames b = entry_names es.

(** ** Lemmas *)

Section OperationLemmas.
Context `{Locale}.

Lemma resolved_index_range ids c i :
  ids <> [] -> 0 <= getCommanderResolvedSearchMatchIndex ids c i < Z.of_nat (length ids).
Proof.
  intros Hne. unfold getCommanderResolvedSearchMatchIndex.
  destruct ids as [|x l] eqn:E; [done|]. rewrite <- E.
  assert (0 < length ids)%nat by (rewrite E; simpl; lia).
  destruct (truthyOpt c); [|lia].
  destruct (findIndex _ ids) as [k|] eqn:Ek; [|lia]. apply findIndex_lt in Ek. lia.
Qed.

Lemma resolved_index_at ids k x i :
  NoDup ids -> x <> "" -> ids !! k = Some x ->
  getCommanderResolvedSearchMatchIndex ids (Some x) i = Z.of_nat k.
Proof.
  intros Hnd Hx Hk. unfold getCommanderResolvedSearchMatchIndex.
  destruct ids as [|y l] eqn:E; [done|]. rewrite <- E in *. clear E.
  rewrite (proj2 (truthyOpt_Some (Some x) x)) by done.
  destruct (findIndex _ ids) as [j|] eqn:Ej.
  - apply findIndex_Some in Ej as (z & Hz & ->%bool_decide_eq_true & _).
    f_equal. by eapply NoDup_lookup.
  - rewrite findIndex_None in Ej. specialize (Ej x (list_elem_of_lookup_2 _ _ _ Hk)).
    by rewrite bool_decide_eq_true_2 in Ej.
Qed.

(** Matches depend on the rows only. *)
Lemma searchMatches_ext p q query :
  p_entries q = p_entries p -> getCommanderSearchMatches q query = getCommanderSearchMatches p query.
Proof. unfold getCommanderSearchMatches. by intros ->. Qed.

Lemma searchMatches_entry p query x :
  x ∈ m_entryIds (getCommanderSearchMatches p query) -> x ∈ entry_ids (p_entries p).
Proof.
  unfold getCommanderSearchMatches. case_match; [|by intros ?%elem_of_nil].
  apply elem_of_entry_ids_filterb.
Qed.

Lemma focus_row_ok x p : x ∈ entry_ids (p_entries p) -> marks_ok p -> marks_ok (focus_row x p).
Proof.
  intros Hx Hp Hne. destruct (Hp Hne) as (Hs & _). by apply set_marks_ok.
Qed.

(** One step of the search, when some row matches. *)
Lemma step_search w s d :
  w_pendingOperation w = Some (OpSearch s) -> search_ids w s <> [] ->
  NoDup (search_ids w s) -> "" ∉ search_ids w s -> d = 1 \/ d = -1 ->
  exists w' x s',
    stepCommanderWidgetPendingSearchMatch w d = Some w' /\
    w_pendingOperation w' = Some (OpSearch s') /\
    se_base s' = se_base s /\
    search_ids w' s' = search_ids w s /\
    search_index w' s' = (search_index w s + d) mod Z.of_nat (length (search_ids w s)) /\
    se_matchIndex s' = search_index w' s' /\
    se_matchCount s' = length (search_ids w s) /\
    search_ids w s !! Z.to_nat (search_index w' s') = Some x /\
    getPaneState w' (o_sourcePaneId (se_base s)) =
      focus_row x (getPaneState w (o_sourcePaneId (se_base s))) /\
    getPaneState w' (other_pane (o_sourcePaneId (se_base s))) =
      getPaneState w (other_pane (o_sourcePaneId (se_base s))).
Proof.
  intros Hop Hne Hnd Hemp Hd. unfold stepCommanderWidgetPendingSearchMatch. rewrite Hop.
  cbv zeta. fold (search_ids w s). fold (search_index w s).
  set (pane := o_sourcePaneId (se_base s)) in *. set (ids := search_ids w s) in *.
  pose proof (resolved_index_range ids (p_cursorEntryId (getPaneState w pane)) (se_matchIndex s) Hne) as Hr.
  fold (search_index w s) in Hr. fold ids in Hr. change (getCommanderResolvedSearchMatchIndex ids _ _) with (search_index w s) in Hr.
  set (n := Z.of_nat (length ids)) in *. rewrite decide_False by lia.
  rewrite Z.rem_mod_nonneg by lia.
  assert ((search_index w s + d + n) mod n = (search_index w s + d) mod n) as ->.
  { rewrite <- (Z.mul_1_l n) at 1. by rewrite Z_mod_plus_full. }
  set (k := (search_index w s + d) mod n).
  assert (0 <= k < n) as Hk by (apply Z.mod_pos_bound; lia).
  destruct (at_Some ids k Hk) as [x Hx]. rewrite Hx.
  assert (x <> "") as Hxe by (intros ->; by apply Hemp, (at_elem ids k)).
  rewrite (proj2 (truthyOpt_Some (Some x) x)) by done.
  unfold at_ in Hx. rewrite decide_True in Hx by lia.
  eexists _, x, _. split; [reflexivity|].
  set (s' := mkSearch _ _ _ _ _). set (w' := set_pendingOperation _ _).
  assert (getPaneState w' pane = focus_row x (getPaneState w pane)) as Hpane
    by (unfold w'; by destruct pane).
  assert (search_ids w' s' = ids) as Hids.
  { unfold search_ids. change (o_sourcePaneId (se_base s')) with pane. rewrite Hpane. done. }
  assert (search_index w' s' = k) as Hidx.
  { unfold search_index. rewrite Hids. change (o_sourcePaneId (se_base s')) with pane.
    rewrite Hpane. cbn [p_cursorEntryId focus_row set_marks].
    rewrite (resolved_index_at _ (Z.to_nat k)) by done. lia. }
  rewrite Hidx. split_and!; try done. unfold w'; by destruct pane.
Qed.

Lemma elem_of_resolveEntries p ids e :
  NoDup (entry_ids (p_directoryEntries p)) ->
  e ∈ resolveEntriesInOrder p ids <-> e ∈ p_directoryEntries p /\ e_id e ∈ ids.
Proof.
  intros Hnd. unfold resolveEntriesInOrder, mapFilter. rewrite list_elem_of_omap. split.
  - intros (x & Hx & [He ->%bool_decide_eq_true]%find_Some). done.
  - intros [He Hx]. exists (e_id e). split; [done|].
    destruct (find _ _) as [e'|] eqn:E.
    + apply find_Some in E as [He' Hid%bool_decide_eq_true]. f_equal.
      by apply (NoDup_fmap_elem e_id (p_directoryEntries p)).
    + rewrite find_None in E. specialize (E e He). by rewrite bool_decide_eq_true_2 in E.
Qed.

(** Filtering the rows by ids that are listed in row order gives those ids back. *)
Lemma filter_rows_sublist (es rows : list CommanderDirectoryEntry) :
  NoDup (entry_ids rows) -> es `sublist_of` rows ->
  filterb (fun e => includes (e_id e) (entry_ids es)) rows = es.
Proof.
  intros Hnd Hs. revert Hnd.
  induction Hs as [|x l1 l2 Hs IH|x l1 l2 Hs IH]; intros Hnd; [done| |];
    apply NoDup_cons in Hnd as [Hx Hnd].
  - unfold filterb in *. simpl. rewrite (proj2 (includes_true _ _)) by left. f_equal.
    etransitivity; [|apply (IH Hnd)]. apply filterb_ext. intros e He.
    apply eq_true_iff_eq. rewrite !includes_true. rewrite elem_of_cons.
    split; [|by right]. intros [Heq|]; [|done]. exfalso. apply Hx. rewrite <- Heq.
    apply elem_of_entry_ids. eauto.
  - unfold filterb in *. simpl. rewrite (proj2 (includes_false _ _)); [by apply IH|].
    intros Hin. apply Hx. apply elem_of_entry_ids in Hin as (e & He & Heq).
    apply elem_of_entry_ids. exists e. split; [|done]. by eapply elem_of_sublist.
Qed.

Lemma rebuildPaneState_pending op w p :
  rebuildPaneState (set_pendingOperation op w) p = rebuildPaneState w p.
Proof. done. Qed.

Lemma getPaneState_pending op w pane :
  getPaneState (set_pendingOperation op w) pane = getPaneState w pane.
Proof. by destruct pane. Qed.

Lemma setPane_pending w pane p : w_pendingOperation (setPaneState w pane p) = w_pendingOperation w.
Proof. by destruct pane. Qed.

Lemma rebuildPaneState_same_filter w p : p_filterQuery (rebuildPaneState w p) = p_filterQuery p.
Proof. unfold rebuildPaneState, rebuildPaneStateAt. by rewrite decide_True by done. Qed.

(** Every way to open, edit, step or confirm an operation keeps the invariant. *)
Lemma request_ok w kind w' :
  widget_ok w -> requestCommanderWidgetPendingOperation w kind = Some w' -> widget_ok w'.
Proof.
  intros Hok. unfold requestCommanderWidgetPendingOperation.
  destruct (createPendingOperation w kind); [|done]. intros [= <-]. by apply widget_ok_pending.
Qed.

Lemma updateInput_ok w i w' :
  widget_ok w -> updateCommanderPendingOperationInput w i = Some w' -> widget_ok w'.
Proof.
  intros Hok Hw.
  assert (exists op, w' = set_pendingOperation op w) as [op ->]; [|by apply widget_ok_pending].
  revert Hw. unfold updateCommanderPendingOperationInput.
  destruct (w_pendingOperation w) as [[[c|t]|b|m|r|m|s]|]; cbv zeta; try done;
    [destruct (cl_cloneMode c)|..]; intros [= <-]; eauto.
Qed.

Lemma step_search_ok w d w' :
  widget_ok w -> stepCommanderWidgetPendingSearchMatch w d = Some w' -> widget_ok w'.
Proof.
  intros Hok. unfold stepCommanderWidgetPendingSearchMatch.
  destruct (w_pendingOperation w) as [[| | | | |s]|]; try done. cbv zeta.
  case_decide; [done|]. destruct (truthyOpt _) as [x|] eqn:E; [|done]. intros [= <-].
  apply truthyOpt_Some in E as [E%at_elem%searchMatches_entry _].
  apply widget_ok_pending, widget_ok_set; [done| |apply Hok].
  destruct (Hok (o_sourcePaneId (se_base s))) as [[Hr Hm] _]. split; [done|]. by apply focus_row_ok.
Qed.

Lemma confirm_ok w w' :
  widget_ok w -> confirmCommanderWidgetPendingOperation w = Some w' -> widget_ok w'.
Proof.
  intros Hok. unfold confirmCommanderWidgetPendingOperation.
  destruct (w_pendingOperation w) as [[| | | |m|s]|]; try done; cbv zeta.
  - assert (forall b, widget_ok (updatePaneState (set_pendingOperation None w) (o_sourcePaneId (ma_base m))
      (fun p => applySelectionMaskToPane p (trim (ma_inputValue m)) b))) as Hmask.
    { intros b. apply widget_ok_update_marks; [by apply widget_ok_pending| |done].
      intros p. apply applySelectionMask_ok. }
    destruct (ma_kind m); intros [= <-]; [apply Hmask..|].
    apply widget_ok_update; [by apply widget_ok_pending| |done].
    intros p _. by apply rebuild_ok.
  - intros [= <-]. apply widget_ok_set; [by apply widget_ok_pending| |].
    + rewrite getPaneState_pending. destruct (Hok (o_sourcePaneId (se_base s))) as [[Hr Hm] _].
      destruct (truthyOpt _) as [x|] eqn:E; [|by split].
      apply truthyOpt_Some in E as [E _]. case_decide; [done|].
      apply at_elem, searchMatches_entry in E. split; [done|]. by apply focus_row_ok.
    + rewrite getPaneState_pending. destruct (truthyOpt _); apply Hok.
Qed.

Lemma delete_by_name (es : list CommanderDirectoryEntry) name i :
  NoDup (entry_names es) -> entry_names es !! i = Some name ->
  delete i es = filterb (fun e => negb (bool_decide (e_name e = name))) es.
Proof.
  revert i. induction es as [|e es IH]; intros i Hnd Hi; [done|].
  apply NoDup_cons in Hnd as [He Hnd]. unfold filterb in *. simpl. destruct i as [|i].
  - injection Hi as <-. rewrite bool_decide_eq_true_2 by done. simpl. symmetry.
    apply (filterb_all _ es). intros e' He'. apply negb_true_iff, bool_decide_eq_false_2.
    intros Heq. apply He. rewrite <- Heq. apply list_elem_of_fmap. eauto.
  - rewrite bool_decide_eq_false_2.
    + simpl. f_equal. by apply IH.
    + intros <-. apply He. by apply (list_elem_of_lookup_2 (entry_names es) i).
Qed.

End OperationLemmas.

(** ** Properties *)

(** Stepping through the matches of a search any number of times, forward
    and backward, stays on the matches and counts modulo their number: the
    cursor of the searched pane ends on the match at the start index plus the
    sum of the steps, the shown index and count agree with it, and the other
    pane is untouched. *)
Theorem searchSteps_index `{Locale} w s ds :
  w_pendingOperation w = Some (OpSearch s) -> search_ids w s <> [] ->
  NoDup (search_ids w s) -> "" ∉ search_ids w s ->
  Forall (fun d => d = 1 \/ d = -1) ds -> ds <> [] ->
  let pane := o_sourcePaneId (se_base s) in
  let index := (search_index w s + foldr Z.add 0 ds) mod Z.of_nat (length (search_ids w s)) in
  exists w' s' x,
    searchSteps w ds = Some w' /\ w_pendingOperation w' = Some (OpSearch s') /\
    search_ids w s !! Z.to_nat index = Some x /\
    p_cursorEntryId (getPaneState w' pane) = Some x /\
    p_selectedIds (getPaneState w' pane) = p_selectedIds (getPaneState w pane) /\
    se_matchIndex s' = index /\ se_matchCount s' = length (search_ids w s) /\
    getPaneState w' (other_pane pane) = getPaneState w (other_pane pane).
Proof.
  intros Hop Hne Hnd Hemp Hall Hds. cbv zeta.
  revert w s Hop Hne Hnd Hemp Hds. induction Hall as [|d ds Hd Hall IH]; [done|].
  intros w s Hop Hne Hnd Hemp _. simpl searchSteps.
  destruct (step_search w s d Hop Hne Hnd Hemp Hd)
    as (w1 & x & s1 & Hstep & Hop1 & Hb & Hids & Hidx & Hmi & Hmc & Hx & Hp & Ho).
  rewrite Hstep. change (mbind (M:=option) ?f (Some w1)) with (f w1). cbv beta.
  destruct ds as [|d' ds].
  - exists w1, s1, x. simpl foldr. rewrite Z.add_0_r, <- Hidx, Hp. by split_and!.
  - destruct (IH w1 s1 Hop1) as (w2 & s2 & y & H1 & H2 & H3 & H4 & H5 & H6 & H7 & H8);
      rewrite ?Hids; try done.
    exists w2, s2, y. rewrite Hids, Hidx, Hb in *. rewrite Hp in H5. rewrite Ho in H8.
    change (foldr Z.add 0 (d :: d' :: ds)) with (d + foldr Z.add 0 (d' :: ds)).
    rewrite Zplus_mod_idemp_l in *. rewrite Z.add_assoc. by split_and!.
Qed.

(** Copying or moving from the active pane opens a transfer that is safe to
    run: to the other pane only when it shows another directory, with exactly
    the conflicts that a case-insensitive comparison of names finds there;
    inside of one directory a copy becomes a clone and a move is refused. *)
Theorem createTransfer_safe `{Locale} w kind op :
  let pane := w_activePane w in
  let p := getPaneState w pane in
  let q := getPaneState w (other_pane pane) in
  NoDup (entry_ids (p_directoryEntries p)) ->
  createPendingOperation w (match kind with TransferCopy => KCopy | TransferMove => KMove end)
    = Some op ->
  exists t, op = OpTransfer t /\
    o_sourcePath (transfer_base t) = p_path p /\
    o_entryIds (transfer_base t) = getOperationEntryIds p /\ getOperationEntryIds p <> [] /\
    match t with
    | TransferClone c =>
        kind = TransferCopy /\ p_path q = p_path p /\ cl_targetPath c = p_path p /\
        (cl_cloneMode c = CloneSingle <-> length (getOperationEntryIds p) = 1%nat)
    | TransferPane t =>
        tr_kind t = kind /\ tr_targetPaneId t = other_pane pane /\ tr_targetPath t = p_path q /\
        p_path q <> p_path p /\
        forall name, name ∈ tr_conflictEntryNames t <->
          exists e e', e ∈ p_directoryEntries p /\ e_id e ∈ getOperationEntryIds p /\
            e_name e = name /\ e' ∈ p_directoryEntries q /\
            normalizeEntryName (e_name e') = normalizeEntryName name
    end.
Proof.
  intros pane p q Hnd. unfold createPendingOperation. fold pane. fold p.
  destruct (decide (getOperationEntryIds p = [])) as [Hids|Hids].
  { rewrite Hids. destruct kind; done. }
  rewrite bool_decide_eq_false_2 by done. rewrite andb_false_r. intros Hop.
  assert (createTransferOperation w kind p (getOperationEntryIds p) = Some op) as Hop'
    by (by destruct kind).
  clear Hop. rename Hop' into Hop.
  unfold createTransferOperation in Hop. fold pane in Hop. fold q in Hop.
  set (ids := getOperationEntryIds p) in *.
  destruct (decide (p_path p = p_path q)) as [Hpath|Hpath].
  - destruct kind; [|done].
    destruct ids as [|x [|y l]] eqn:E; [done| |].
    + destruct (truthyOpt _); [|done]. injection Hop as <-. eexists. split; [done|].
      simpl. by split_and!.
    + injection Hop as <-. eexists. split; [done|]. simpl. by split_and!.
  - injection Hop as <-. eexists. split; [done|]. simpl. split_and!; try done.
    intros name. unfold getCommanderConflictingEntryNames. cbv zeta.
    fold (getPaneState w pane). fold (getPaneState w (other_pane pane)). fold p. fold q.
    rewrite decide_False by done. rewrite elem_of_filterb, includes_true.
    unfold entry_names. rewrite !list_elem_of_fmap.
    setoid_rewrite (elem_of_resolveEntries p ids _ Hnd). naive_solver.
Qed.

(** When the selection lists rows in row order, every operation on entries
    that is opened for the active pane names exactly the selected rows, and its
    ids and names correspond position by position. *)
Theorem createPendingOperation_aligned `{Locale} w kind op es :
  let p := getPaneState w (w_activePane w) in
  NoDup (entry_ids (p_entries p)) -> es `sublist_of` p_entries p -> es <> [] ->
  p_selectedIds p = entry_ids es ->
  createPendingOperation w kind = Some op -> needs_entries kind = true ->
  aligned (op_base op) es.
Proof.
  intros p Hnd Hes Hne Hsel. unfold createPendingOperation. fold p.
  assert (getOperationEntryIds p = entry_ids es) as Hids.
  { unfold getOperationEntryIds. rewrite Hsel. by destruct es. }
  rewrite Hids. intros Hop Hk. rewrite Hk in Hop.
  rewrite bool_decide_eq_false_2 in Hop by (by destruct es). simpl in Hop.
  pose proof (filter_rows_sublist es (p_entries p) Hnd Hes) as Hrows.
  destruct kind; try done.
  - unfold createTransferOperation in Hop. rewrite Hrows in Hop. cbv zeta in Hop.
    destruct (decide _); [|by injection Hop as <-].
    destruct (entry_ids es) as [|x [|y l]] eqn:E; [by destruct es| |by injection Hop as <-].
    destruct (truthyOpt _); [|done]. by injection Hop as <-.
  - unfold createTransferOperation in Hop. rewrite Hrows in Hop. cbv zeta in Hop.
    destruct (decide _); [done|]. by injection Hop as <-.
  - rewrite Hrows in Hop. by injection Hop as <-.
  - unfold createRenameOperation in Hop. rewrite Hrows in Hop. cbv zeta in Hop.
    destruct es as [|e [|e' l]]; [done|by injection Hop as <-|by injection Hop as <-].
Qed.

(** Resolving one conflict of a transfer whose ids and names correspond takes
    exactly that entry off the operation, keeps the correspondence, drops the
    name from the conflicts and makes the queue of conflicts shorter; a name
    that the transfer does not carry changes nothing. *)
Theorem removePendingTransferEntry_spec t es name :
  aligned (transfer_base t) es -> NoDup (entry_names es) ->
  let t' := removePendingTransferEntry t name in
  let es' := filterb (fun e => negb (bool_decide (e_name e = name))) es in
  aligned (transfer_base t') es' /\
  o_sourcePath (transfer_base t') = o_sourcePath (transfer_base t) /\
  (name ∈ entry_names es ->
    transfer_conflicts t' = filterb (fun n => negb (bool_decide (n = name))) (transfer_conflicts t) /\
    (getCurrentPendingConflictName t = Some name ->
      (length (transfer_conflicts t') < length (transfer_conflicts t))%nat)) /\
  (name ∉ entry_names es -> t' = t).
Proof.
  intros [Hids Hnames] Hnd. cbv zeta. unfold removePendingTransferEntry. rewrite Hids, Hnames.
  destruct (findIndex _ (entry_names es)) as [i|] eqn:Ei.
  - apply findIndex_Some in Ei as (n & Hi & ->%bool_decide_eq_true & _).
    assert (name ∈ entry_names es) as Hin by (by eapply list_elem_of_lookup_2).
    pose proof (delete_by_name es name i Hnd Hi) as Hdel.
    rewrite !removeAt_delete. unfold entry_ids, entry_names.
    rewrite <- !list_fmap_delete, Hdel.
    fold (entry_ids (filterb (fun e => negb (bool_decide (e_name e = name))) es)).
    set (ids := entry_ids _). set (names := e_name <$> _).
    assert (transfer_base (with_transfer_entries ids names
        (filterb (fun n => negb (bool_decide (n = name))) (transfer_conflicts t)) t) =
      mkOpBase (o_sourcePaneId (transfer_base t)) (o_sourcePath (transfer_base t)) ids names) as Hb
      by (by destruct t).
    assert (transfer_conflicts (with_transfer_entries ids names
        (filterb (fun n => negb (bool_decide (n = name))) (transfer_conflicts t)) t) =
      filterb (fun n => negb (bool_decide (n = name))) (transfer_conflicts t)) as Hc by (by destruct t).
    rewrite Hb, Hc. split_and!; [by split|done| |done].
    intros _. split; [done|]. unfold getCurrentPendingConflictName. intros Hhead.
    destruct (transfer_conflicts t) as [|c l]; [done|]. injection Hhead as ->.
    unfold filterb. simpl. rewrite bool_decide_eq_true_2 by done. simpl.
    pose proof (List.filter_length_le (fun n => negb (bool_decide (n = name))) l). lia.
  - assert (name ∉ entry_names es) as Hout.
    { rewrite findIndex_None in Ei. intros Hin. specialize (Ei name Hin).
      by rewrite bool_decide_eq_true_2 in Ei. }
    split_and!; try done. rewrite filterb_all; [by split|].
    intros e He. apply negb_true_iff, bool_decide_eq_false_2. intros <-. apply Hout.
    apply list_elem_of_fmap. eauto.
Qed.

(** What the filter prompt previews is what confirming it shows: the number
    of matches and the visible rows agree, the filter is stored trimmed, the
    prompt closes and the other pane is unchanged. *)
Theorem confirm_filter_preview `{Locale} w inputValue m w' :
  w_pendingOperation w = Some (OpMask m) -> ma_kind m = MaskFilter ->
  let pane := o_sourcePaneId (ma_base m) in
  (w1 ← updateCommanderPendingOperationInput w inputValue;
   confirmCommanderWidgetPendingOperation w1) = Some w' ->
  exists m1 w1,
    updateCommanderPendingOperationInput w inputValue = Some w1 /\
    w_pendingOperation w1 = Some (OpMask m1) /\
    length (p_entries (getPaneState w' pane)) = ma_matchCount m1 /\
    entry_ids (p_entries (getPaneState w' pane)) ≡ₚ
      m_entryIds (getCommanderFilterMatches w pane inputValue) /\
    p_filterQuery (getPaneState w' pane) = trim inputValue /\
    w_pendingOperation w' = None /\
    getPaneState w' (other_pane pane) = getPaneState w (other_pane pane).
Proof.
  intros Hop Hk pane. unfold updateCommanderPendingOperationInput. rewrite Hop, Hk.
  change (mbind (M:=option) ?f (Some ?x)) with (f x). cbv beta zeta.
  fold pane. intros Hc. eexists _, _. split; [done|]. split; [done|].
  unfold confirmCommanderWidgetPendingOperation in Hc. cbn [w_pendingOperation set_pendingOperation
    ma_base ma_kind ma_inputValue] in Hc. cbv zeta in Hc. injection Hc as <-.
  fold pane. unfold updatePaneState. rewrite get_set_pane, get_set_other by (by destruct pane).
  assert (entry_ids (p_entries (rebuildPaneState w (set_filterQuery (trim inputValue) (getPaneState w pane))))
    ≡ₚ m_entryIds (getCommanderFilterMatches w pane inputValue)) as Hperm.
  { unfold rebuildPaneState, rebuildPaneStateAt. rewrite decide_True by done.
    unfold rebuildCommanderPaneState, apply_overrides. cbn -[entry_ids projectCommanderEntries].
    unfold entry_ids, projectCommanderEntries, filterEntriesByMask.
    rewrite matchedEntries_trim. rewrite (getPaneState_of w pane). cbn [po_showHidden options_of].
    apply fmap_Permutation, matchedEntries_perm, sort_perm. }
  rewrite rebuildPaneState_pending, !getPaneState_pending. split_and!; try done.
  - apply Permutation_length in Hperm. cbn [ma_matchCount]. rewrite <- Hperm.
    unfold entry_ids. by rewrite length_fmap.
  - by rewrite rebuildPaneState_same_filter.
  - by rewrite setPane_pending.
Qed.


(** ** Divergences *)

(** Toggling rows lists their ids in the order of the clicks, while the names
    are listed in row order: skipping the conflict on [a.txt] then takes
    [b.txt]'s id off the operation, and [a.txt] is the file that is copied. *)
Example toggle_order_misaligns :
  let p := toggleEntrySelection
    (toggleEntrySelection (sample_pane [folder_c; file_a; file_b] []) "/d::b.txt") "/d::a.txt" in
  let q := sample_pane_at PaneRight "/e" [mkEntry "/e::a.txt" "a.txt" "txt" KindFile "" None "" false None None None] [] in
  match createPendingOperation (sample_widget None p q) KCopy with
  | Some (OpTransfer t) =>
      getCurrentPendingConflictName t = Some "a.txt" /\
      o_entryIds (transfer_base t) = ["/d::b.txt"; "/d::a.txt"] /\
      o_entryNames (transfer_base t) = ["a.txt"; "b.txt"] /\
      o_entryIds (transfer_base (removePendingTransferEntry t "a.txt")) = ["/d::a.txt"]
  | _ => False
  end.
Proof. vm_compute. by split_and!. Qed.

(** ** Witnesses *)

(** A search prompt of the left pane with the given input. *)
Definition sample_search (input : string) : CommanderSearchPendingOperation :=
  mkSearch (mkOpBase PaneLeft "/d" [] []) input 0 [] 0.

Lemma searchSteps_index_witness :
  let w := two_panes (Some (OpSearch (sample_search "txt"))) [] in
  exists w', searchSteps w [1; -1; -1] = Some w' /\
    p_cursorEntryId (getPaneState w' PaneLeft) = Some "/d::b.txt".
Proof.
  intros w.
  destruct (searchSteps_index w (sample_search "txt") [1; -1; -1])
    as (w' & s' & x & H1 & _ & H3 & H4 & _);
    [reflexivity|vm_compute; discriminate|by apply (bool_decide_unpack _); vm_compute..
    |repeat (constructor; [lia|]); constructor|discriminate|].
  exists w'. split; [exact H1|]. refine (eq_trans H4 _). rewrite <- H3. vm_compute. reflexivity.
Defined.

Lemma createTransfer_safe_witness :
  let w := two_panes None ["/d::a.txt"] in
  exists t, createPendingOperation w KCopy = Some (OpTransfer t) /\
    o_entryIds (transfer_base t) = ["/d::a.txt"].
Proof.
  intros w.
  destruct (createTransfer_safe w TransferCopy
    (OpTransfer (TransferPane (mkTransfer TransferCopy
      (mkOpBase PaneLeft "/d" ["/d::a.txt"] ["a.txt"]) PaneRight "/e" []))))
    as (t & E & _ & H & _);
    [by apply (bool_decide_unpack _); vm_compute|vm_compute; reflexivity|].
  exists t. split; [rewrite <- E; vm_compute; reflexivity|exact H].
Defined.

Lemma createPendingOperation_aligned_witness :
  let w := two_panes None ["/d::c"; "/d::b.txt"] in
  aligned (mkOpBase PaneLeft "/d" ["/d::c"; "/d::b.txt"] ["c"; "b.txt"]) [folder_c; file_b].
Proof.
  apply (createPendingOperation_aligned (two_panes None ["/d::c"; "/d::b.txt"]) KDelete
    (OpDelete (mkOpBase PaneLeft "/d" ["/d::c"; "/d::b.txt"] ["c"; "b.txt"])));
    first [by apply (bool_decide_unpack _); vm_compute|vm_compute; reflexivity|idtac].
  repeat constructor.
Defined.

Lemma removePendingTransferEntry_spec_witness :
  let t := TransferPane (mkTransfer TransferCopy
    (mkOpBase PaneLeft "/d" ["/d::a.txt"; "/d::b.txt"] ["a.txt"; "b.txt"]) PaneRight "/e" ["a.txt"]) in
  aligned (transfer_base (removePendingTransferEntry t "a.txt")) [file_b].
Proof.
  intros t. apply (removePendingTransferEntry_spec t [file_a; file_b] "a.txt").
  - split; reflexivity.
  - by apply (bool_decide_unpack _); vm_compute.
Defined.

Lemma confirm_filter_preview_witness :
  let m := mkMask MaskFilter (mkOpBase PaneLeft "/d" [] []) "" 0 [] in
  let w := two_panes (Some (OpMask m)) [] in
  exists w', (w1 ← updateCommanderPendingOperationInput w " *.txt ";
    confirmCommanderWidgetPendingOperation w1) = Some w' /\
    p_filterQuery (getPaneState w' PaneLeft) = "*.txt".
Proof.
  intros m w.
  destruct (w1 ← updateCommanderPendingOperationInput w " *.txt ";
    confirmCommanderWidgetPendingOperation w1) as [w'|] eqn:E;
    [|exfalso; vm_compute in E; discriminate].
  exists w'. split; [reflexivity|].
  destruct (confirm_filter_preview w " *.txt " m w' eq_refl eq_refl E)
    as (m1 & w1 & _ & _ & _ & _ & Hq & _).
  refine (eq_trans Hq _). vm_compute. reflexivity.
Defined.
