(* ===== verification/Store.v ===== *)
(** * The commander store

    [frontend/src/features/commander/model/store.ts] and
    [store-widget-state.ts]: the widgets by id and the reducer of each event.
    An event of the code is a constructor with the payload that the code
    declares; a reducer that answers [null] leaves the store as it is. *)
From stdpp Require Import strings.
From S2P Require Import Prelude JsString Types Mask Selection PaneState Navigation Preview Operations.
Local Open Scope string_scope.
Local Open Scope list_scope.
Local Open Scope Z_scope.

(** [Record<string, CommanderWidgetRuntimeState>] *)
Notation CommanderWidgets := (gmap string CommanderWidgetRuntimeState).

(** ** Payloads *)

Inductive HistoryMode := ModeBack | ModeForward | ModePush | ModeReplace.
#[global] Instance history_mode_eq : EqDecision HistoryMode.
Proof. solve_decision. Defined.

(** [CommanderHydratePanePayload] without the widget id.  For the three
    overrides an outer [None] is a property that the payload does not have. *)
Record HydratePayload := mkHydrate {
  hy_paneId : CommanderPaneId;
  hy_directoryEntries : list CommanderDirectoryEntry;
  hy_cursorEntryId : option (option string);
  hy_filterQuery : option string;
  hy_historyMode : option HistoryMode;
  hy_path : string;
  hy_selectedIds : option (option (list string));
  hy_selectionAnchorEntryId : option (option string)
}.

(** The events that have a reducer, by the widget they are addressed to. *)
Inductive CommanderEvent :=
  | MountWidget (persisted : option CommanderWidgetPersistedState)
  | SetActivePane (pane : CommanderPaneId)
  | SetPaneLoading (pane : CommanderPaneId)
  | SetPaneLoadError (pane : CommanderPaneId) (path errorMessage : option string)
  | HydratePaneDirectory (payload : HydratePayload)
  | ToggleShowHidden
  | ToggleDirsFirst
  | SetViewMode (m : CommanderViewMode)
  | SetSortMode (m : CommanderSortMode)
  | SetPaneCursor (pane : CommanderPaneId) (entryId : string) (rangeSelect : bool)
  | MovePaneCursor (pane : CommanderPaneId) (delta : Z) (extendSelection : bool)
  | MoveActivePaneCursor (delta : Z) (extendSelection : bool)
  | TogglePaneSelection (pane : CommanderPaneId) (entryId : string)
  | ToggleActivePaneSelection (advance : bool)
  | SetFileDialog (d : option CommanderFileDialogState)
  | SetFileDialogDraft (inputValue : string)
  | CloseFileDialog
  | SwitchActivePane
  | SetPaneBoundaryCursor (pane : CommanderPaneId) (b : CommanderBoundary) (extendSelection : bool)
  | RequestActivePane (kind : CommanderPendingOperationKind)
  | StepPendingSearchMatch (forward : bool)
  | ClearActivePaneFilter
  | SetPaneFilterQuery (pane : CommanderPaneId) (filterQuery : string)
  | InvertActivePaneSelection
  | SetPendingOperationInput (inputValue : string)
  | SetPendingOperation (op : option CommanderPendingOperation)
  | ConfirmPendingOperation
  | CancelPendingOperation.

(** ** Reducers *)

Definition withCommanderWidgetState (widgets : CommanderWidgets) (widgetId : string)
    (updateWidgetState : CommanderWidgetRuntimeState -> option CommanderWidgetRuntimeState)
    : CommanderWidgets :=
  match widgets !! widgetId with
  | None => widgets
  | Some widgetState =>
      match updateWidgetState widgetState with
      | None => widgets
      | Some next => <[widgetId := next]> widgets
      end
  end.

(** [{ ...fileDialog, draftValue }] *)
Definition set_draftValue (v : string) (d : CommanderFileDialogState) : CommanderFileDialogState :=
  mkDialog (fd_paneId d) (fd_path d) (fd_entryId d) (fd_entryName d) (fd_mode d) (fd_content d) v
    (fd_previewKind d) (fd_previewBytes d) (fd_sizeBytes d) (fd_truncated d) (fd_blockedReason d)
    (fd_blockedTitle d) (fd_blockedHint d).

Section Reducers.
Context `{Locale}.
Implicit Types w : CommanderWidgetRuntimeState.

(** The reducers that change the projection rebuild both panes. *)
Definition reproject w (next : CommanderWidgetRuntimeState) : CommanderWidgetRuntimeState :=
  set_panes (rebuildPaneState next (w_leftPane w)) (rebuildPaneState next (w_rightPane w)) next.

Definition paneLoading w (pane : CommanderPaneId) : CommanderWidgetRuntimeState :=
  updatePaneState w pane (set_status true None).

Definition paneLoadError w (pane : CommanderPaneId) (path errorMessage : option string)
    : CommanderWidgetRuntimeState :=
  updatePaneState w pane (fun p =>
    let nextPath := nullish path (p_path p) in
    let pathChanged := negb (bool_decide (nextPath = p_path p)) in
    rebuildCommanderPaneState w p
      (mkOverrides (Some nextPath) None
         (Some (if pathChanged then [] else p_directoryEntries p))
         (Some (if pathChanged then [] else p_selectedIds p))
         (Some (if pathChanged then None else p_cursorEntryId p))
         (Some (if pathChanged then None else p_selectionAnchorEntryId p))
         None None (Some false)
         (Some (Some (nullish errorMessage "Unable to load directory"))))).

Definition hydrateBack (mode : option HistoryMode) (p : CommanderPaneRuntimeState) : list string :=
  if (bool_decide (mode = Some ModePush) && truthy (p_path p))%bool
  then p_historyBack p ++ [p_path p]
  else if (bool_decide (mode = Some ModeForward) && truthy (p_path p))%bool
  then p_historyBack p ++ [p_path p]
  else if bool_decide (mode = Some ModeBack) then dropLast (p_historyBack p)
  else p_historyBack p.

Definition hydrateForward (mode : option HistoryMode) (p : CommanderPaneRuntimeState) : list string :=
  if bool_decide (mode = Some ModePush) then []
  else if (bool_decide (mode = Some ModeBack) && truthy (p_path p))%bool
  then p_historyForward p ++ [p_path p]
  else if bool_decide (mode = Some ModeForward) then dropLast (p_historyForward p)
  else p_historyForward p.

(** The overrides that a loaded directory rebuilds the pane [p] with, when the
    pane was [current] as the event arrived. *)
Definition hydrateOverrides (payload : HydratePayload) (current p : CommanderPaneRuntimeState)
    : PaneOverrides :=
  let pathChanged := negb (bool_decide (p_path current = hy_path payload)) in
  mkOverrides (Some (hy_path payload))
    (Some (nullish (hy_filterQuery payload) (if pathChanged then "" else p_filterQuery p)))
    (Some (hy_directoryEntries payload))
    (Some (match hy_selectedIds payload with
           | Some ids => nullish ids []
           | None => if pathChanged then [] else p_selectedIds p
           end))
    (Some (match hy_cursorEntryId payload with
           | Some c => c
           | None => if pathChanged then None else p_cursorEntryId p
           end))
    (Some (match hy_selectionAnchorEntryId payload with
           | Some a => a
           | None => if pathChanged then None else p_selectionAnchorEntryId p
           end))
    (Some (hydrateBack (hy_historyMode payload) current))
    (Some (hydrateForward (hy_historyMode payload) current)) (Some false) (Some None).

Definition hydratePane w (payload : HydratePayload) : CommanderWidgetRuntimeState :=
  let currentPaneState := getPaneState w (hy_paneId payload) in
  let next := set_activePane (hy_paneId payload) w in
  updatePaneState next (hy_paneId payload) (fun p =>
    rebuildCommanderPaneState next p (hydrateOverrides payload currentPaneState p)).

Definition toggleShowHidden w : CommanderWidgetRuntimeState :=
  reproject w (set_projection (negb (w_showHidden w)) (w_sortMode w) (w_sortDirection w)
                 (w_dirsFirst w) w).

Definition toggleDirsFirst w : CommanderWidgetRuntimeState :=
  reproject w (set_projection (w_showHidden w) (w_sortMode w) (w_sortDirection w)
                 (negb (w_dirsFirst w)) w).

Definition setSortMode w (m : CommanderSortMode) : CommanderWidgetRuntimeState :=
  let nextSortDirection :=
    if decide (w_sortMode w = m)
    then match w_sortDirection w with SortAsc => SortDesc | SortDesc => SortAsc end
    else SortAsc in
  reproject w (set_projection (w_showHidden w) m nextSortDirection (w_dirsFirst w) w).

Definition setPaneCursor w (pane : CommanderPaneId) (entryId : string) (rangeSelect : bool)
    : CommanderWidgetRuntimeState :=
  updatePaneState (set_activePane pane w) pane (fun p =>
    if negb (some (has_id entryId) (p_entries p)) then p
    else if rangeSelect then setSelectionRangeAtCursor p entryId
    else set_marks (Some entryId) (Some entryId) (p_selectedIds p) p).

Definition moveCursor (extendSelection : bool) (delta : Z) (p : CommanderPaneRuntimeState)
    : CommanderPaneRuntimeState :=
  if extendSelection then movePaneCursorWithSelection p delta else movePaneCursor p delta.

Definition toggleActivePaneSelection w (advance : bool) : option CommanderWidgetRuntimeState :=
  match truthyOpt (p_cursorEntryId (getPaneState w (w_activePane w))) with
  | None => None
  | Some entryId =>
      let next := updatePaneState w (w_activePane w) (fun p => toggleEntrySelection p entryId) in
      Some (if advance then updatePaneState next (w_activePane w) (fun p => movePaneCursor p 1)
            else next)
  end.

(** The reducer of every event but the mount, on the widget it is for. *)
Definition reduce (e : CommanderEvent) (widgetState : CommanderWidgetRuntimeState)
    : option CommanderWidgetRuntimeState :=
  let w := widgetState in
  match e with
  | MountWidget _ => None
  | SetActivePane pane => Some (set_activePane pane w)
  | SetPaneLoading pane => Some (paneLoading w pane)
  | SetPaneLoadError pane path err => Some (paneLoadError w pane path err)
  | HydratePaneDirectory payload => Some (hydratePane w payload)
  | ToggleShowHidden => Some (toggleShowHidden w)
  | ToggleDirsFirst => Some (toggleDirsFirst w)
  | SetViewMode m => if decide (w_viewMode w = m) then None else Some (set_viewMode m w)
  | SetSortMode m => Some (setSortMode w m)
  | SetPaneCursor pane x range => Some (setPaneCursor w pane x range)
  | MovePaneCursor pane d ext =>
      Some (updatePaneState (set_activePane pane w) pane (moveCursor ext d))
  | MoveActivePaneCursor d ext => Some (updatePaneState w (w_activePane w) (moveCursor ext d))
  | TogglePaneSelection pane x =>
      Some (updatePaneState (set_activePane pane w) pane (fun p => toggleEntrySelection p x))
  | ToggleActivePaneSelection advance => toggleActivePaneSelection w advance
  | SetFileDialog d => Some (set_fileDialog d w)
  | SetFileDialogDraft v =>
      match w_fileDialog w with
      | None => None
      | Some d => Some (set_fileDialog (Some (set_draftValue v d)) w)
      end
  | CloseFileDialog => if w_fileDialog w then Some (set_fileDialog None w) else None
  | SwitchActivePane => Some (set_activePane (other_pane (w_activePane w)) w)
  | SetPaneBoundaryCursor pane b ext =>
      Some (updatePaneState (set_activePane pane w) pane
        (fun p => if ext then setCursorToBoundaryWithSelection p b else setCursorToBoundary p b))
  | RequestActivePane kind => requestCommanderWidgetPendingOperation w kind
  | StepPendingSearchMatch forward =>
      stepCommanderWidgetPendingSearchMatch w (if forward then 1 else -1)
  | ClearActivePaneFilter =>
      Some (updatePaneState w (w_activePane w) (fun p => rebuildPaneState w (set_filterQuery "" p)))
  | SetPaneFilterQuery pane q =>
      Some (updatePaneState w pane (fun p => rebuildPaneState w (set_filterQuery q p)))
  | InvertActivePaneSelection => Some (updatePaneState w (w_activePane w) invertPaneSelection)
  | SetPendingOperationInput v => updateCommanderPendingOperationInput w v
  | SetPendingOperation op => Some (set_pendingOperation op w)
  | ConfirmPendingOperation => confirmCommanderWidgetPendingOperation w
  | CancelPendingOperation =>
      if w_pendingOperation w then Some (set_pendingOperation None w) else None
  end.

(** One event delivered to the store. *)
Definition step (widgets : CommanderWidgets) (widgetId : string) (e : CommanderEvent)
    : CommanderWidgets :=
  match e with
  | MountWidget persisted =>
      match widgets !! widgetId with
      | Some _ => widgets
      | None => <[widgetId := createCommanderWidgetRuntimeState widgetId persisted]> widgets
      end
  | _ => withCommanderWidgetState widgets widgetId (reduce e)
  end.

(** The stores that some sequence of events produces. *)
Inductive reachable : CommanderWidgets -> Prop :=
  | reachable_init : reachable ∅
  | reachable_step widgets widgetId e :
      reachable widgets -> reachable (step widgets widgetId e).

End Reducers.

(** ** Invariant *)

(** Every widget is stored under its id, both panes satisfy the pane invariant,
    and no pane shows an error. *)
Definition no_error (w : CommanderWidgetRuntimeState) : Prop :=
  forall pane, p_errorMessage (getPaneState w pane) = None.

Definition store_ok `{Locale} (widgets : CommanderWidgets) : Prop :=
  forall id w, widgets !! id = Some w -> w_widgetId w = id /\ widget_ok w.

(** ** Lemmas *)

Section StoreLemmas.
Context `{Locale}.

Lemma widgetId_setPane w pane p : w_widgetId (setPaneState w pane p) = w_widgetId w.
Proof. by destruct pane. Qed.

Lemma getPane_activePane w pane pane' :
  getPaneState (set_activePane pane w) pane' = getPaneState w pane'.
Proof. by destruct pane'. Qed.

Lemma reproject_ok w hidden m d dirs :
  widget_ok w -> widget_ok (reproject w (set_projection hidden m d dirs w)).
Proof.
  intros Hok. apply widget_ok_rebuild; [exact (proj2 (Hok PaneLeft))|exact (proj2 (Hok PaneRight))].
Qed.

Lemma moveCursor_ok ext d p : marks_ok p -> marks_ok (moveCursor ext d p).
Proof. destruct ext; [apply movePaneCursorWithSelection_ok|apply movePaneCursor_ok]. Qed.

(** The operations on marks change nothing else. *)
Definition same_rows (f : CommanderPaneRuntimeState -> CommanderPaneRuntimeState) : Prop :=
  forall p, exists c a sel, f p = set_marks c a sel p.

Lemma set_marks_self p :
  p = set_marks (p_cursorEntryId p) (p_selectionAnchorEntryId p) (p_selectedIds p) p.
Proof. by destruct p. Qed.

Lemma same_rows_self : same_rows (fun p => p).
Proof. intros p. eexists _, _, _. apply set_marks_self. Qed.

Lemma same_rows_range x : same_rows (fun p => setSelectionRangeAtCursor p x).
Proof.
  intros p. unfold setSelectionRangeAtCursor. destruct (index_of x p); [|apply same_rows_self].
  case_match; eauto.
Qed.

Lemma same_rows_move ext d : same_rows (moveCursor ext d).
Proof.
  intros p. unfold moveCursor, movePaneCursorWithSelection, movePaneCursor.
  destruct ext; (destruct (p_entries p); [apply same_rows_self|]); [|eauto].
  destruct (truthyOpt _); [apply same_rows_range|apply same_rows_self].
Qed.

Lemma same_rows_boundary ext b :
  same_rows (fun p => if ext : bool then setCursorToBoundaryWithSelection p b else setCursorToBoundary p b).
Proof.
  intros p. unfold setCursorToBoundaryWithSelection, setCursorToBoundary.
  destruct ext; (destruct (p_entries p); [apply same_rows_self|]); [|eauto].
  destruct (truthyOpt _); [apply same_rows_range|apply same_rows_self].
Qed.

Lemma same_rows_toggle x : same_rows (fun p => toggleEntrySelection p x).
Proof.
  intros p. unfold toggleEntrySelection. destruct (some _ _); [eauto|apply same_rows_self].
Qed.

Lemma same_rows_cursor x (range : bool) :
  same_rows (fun p => if negb (some (has_id x) (p_entries p)) then p
    else if range then setSelectionRangeAtCursor p x
    else set_marks (Some x) (Some x) (p_selectedIds p) p).
Proof.
  intros p. destruct (negb _); [apply same_rows_self|]. destruct range; [apply same_rows_range|eauto].
Qed.

Lemma same_rows_focus x : same_rows (focus_row x).
Proof. intros p. unfold focus_row. eauto. Qed.

Lemma same_rows_mask mask b : same_rows (fun p => applySelectionMaskToPane p mask b).
Proof. intros p. unfold applySelectionMaskToPane. eauto. Qed.

Lemma same_rows_invert : same_rows invertPaneSelection.
Proof. intros p. unfold invertPaneSelection. eauto. Qed.

Lemma widget_ok_same_rows w pane f :
  widget_ok w -> same_rows f -> (forall p, marks_ok p -> marks_ok (f p)) ->
  widget_ok (updatePaneState w pane f).
Proof.
  intros Hok Hf Hm. apply widget_ok_update_marks; [done|done|].
  intros p. by destruct (Hf p) as (c & a & sel & ->).
Qed.

Lemma setPaneCursor_marks p x (range : bool) :
  marks_ok p ->
  marks_ok (if negb (some (has_id x) (p_entries p)) then p
    else if range then setSelectionRangeAtCursor p x
    else set_marks (Some x) (Some x) (p_selectedIds p) p).
Proof.
  intros Hp. destruct (some _ _) eqn:E; [|done]. apply some_has_id in E. simpl.
  destruct range; [by apply setSelectionRange_ok|]. by apply focus_row_ok.
Qed.

Lemma moveCursor_update_ok w pane ext d :
  widget_ok w -> widget_ok (updatePaneState w pane (moveCursor ext d)).
Proof.
  intros Hok. apply widget_ok_same_rows; [done|apply same_rows_move|].
  intros p. apply moveCursor_ok.
Qed.

Lemma toggle_update_ok w pane x :
  widget_ok w -> widget_ok (updatePaneState w pane (fun p => toggleEntrySelection p x)).
Proof.
  intros Hok. apply widget_ok_same_rows; [done|apply same_rows_toggle|].
  intros p. apply toggleEntrySelection_ok.
Qed.

Lemma rebuild_update_ok w pane (w1 : CommanderWidgetRuntimeState) f ov :
  widget_ok w -> options_of w = options_of w1 -> (forall p, p_id (f p) = p_id p) ->
  widget_ok (updatePaneState w pane (fun p => rebuildCommanderPaneState w1 (f p) (ov p))).
Proof.
  intros Hok Ho Hid. apply widget_ok_update; [done| |done].
  intros p _. by apply rebuild_ok.
Qed.

Lemma filter_update_ok w pane q :
  widget_ok w ->
  widget_ok (updatePaneState w pane (fun p => rebuildPaneState w (set_filterQuery q p))).
Proof. intros Hok. by apply rebuild_update_ok. Qed.

Lemma boundary_update_ok w pane b (ext : bool) :
  widget_ok w ->
  widget_ok (updatePaneState w pane
    (fun p => if ext then setCursorToBoundaryWithSelection p b else setCursorToBoundary p b)).
Proof.
  intros Hok. apply widget_ok_same_rows; [done|apply same_rows_boundary|].
  intros p. destruct ext; [apply setCursorToBoundaryWithSelection_ok|apply setCursorToBoundary_ok].
Qed.

Lemma setPaneCursor_ok w pane x range : widget_ok w -> widget_ok (setPaneCursor w pane x range).
Proof.
  intros Hok. apply widget_ok_same_rows; [by apply widget_ok_activePane|apply same_rows_cursor|].
  intros p. apply setPaneCursor_marks.
Qed.

Lemma paneLoading_ok w pane : widget_ok w -> widget_ok (paneLoading w pane).
Proof.
  intros Hok. apply widget_ok_update; [done| |done]. intros p. apply set_status_ok.
Qed.

Lemma toggleActive_ok w b w' :
  widget_ok w -> toggleActivePaneSelection w b = Some w' -> widget_ok w'.
Proof.
  intros Hok. unfold toggleActivePaneSelection. destruct (truthyOpt _) as [x|]; [|done].
  cbv zeta. intros [= <-]. destruct b; [apply (moveCursor_update_ok _ _ false)|];
    by apply toggle_update_ok.
Qed.

Lemma invert_update_ok w pane : widget_ok w -> widget_ok (updatePaneState w pane invertPaneSelection).
Proof.
  intros Hok. apply widget_ok_same_rows; [done|apply same_rows_invert|].
  intros p. apply invertPaneSelection_ok.
Qed.

Lemma toggleProjection_ok w :
  widget_ok w ->
  widget_ok (toggleShowHidden w) /\ widget_ok (toggleDirsFirst w) /\
  forall m, widget_ok (setSortMode w m).
Proof. intros Hok. split_and!; [..|intros m]; by apply reproject_ok. Qed.

Lemma loadError_ok w pane path err : widget_ok w -> widget_ok (paneLoadError w pane path err).
Proof. intros Hok. by apply rebuild_update_ok. Qed.

Lemma hydrate_ok w payload : widget_ok w -> widget_ok (hydratePane w payload).
Proof. intros Hok. apply rebuild_update_ok; [by apply widget_ok_activePane|done|done]. Qed.

Lemma reduce_widget_ok e w w' : widget_ok w -> reduce e w = Some w' -> widget_ok w'.
Proof.
  intros Hok. destruct (toggleProjection_ok w Hok) as (Hh & Hd & Hs).
  destruct e; unfold reduce; cbv zeta.
  - done.
  - intros [= <-]. by apply widget_ok_activePane.
  - intros [= <-]. by apply paneLoading_ok.
  - intros [= <-]. by apply loadError_ok.
  - intros [= <-]. by apply hydrate_ok.
  - by intros [= <-].
  - by intros [= <-].
  - case_decide; [done|]. intros [= <-]. by apply widget_ok_viewMode.
  - intros [= <-]. apply Hs.
  - intros [= <-]. by apply setPaneCursor_ok.
  - intros [= <-]. by apply moveCursor_update_ok, widget_ok_activePane.
  - intros [= <-]. by apply moveCursor_update_ok.
  - intros [= <-]. by apply toggle_update_ok, widget_ok_activePane.
  - by apply toggleActive_ok.
  - intros [= <-]. by apply widget_ok_dialog.
  - case_match; [|done]. intros [= <-]. by apply widget_ok_dialog.
  - case_match; [|done]. intros [= <-]. by apply widget_ok_dialog.
  - intros [= <-]. by apply widget_ok_activePane.
  - intros [= <-]. by apply boundary_update_ok, widget_ok_activePane.
  - by apply request_ok.
  - by apply step_search_ok.
  - intros [= <-]. by apply filter_update_ok.
  - intros [= <-]. by apply filter_update_ok.
  - intros [= <-]. by apply invert_update_ok.
  - by apply updateInput_ok.
  - intros [= <-]. by apply widget_ok_pending.
  - by apply confirm_ok.
  - case_match; [|done]. intros [= <-]. by apply widget_ok_pending.
Qed.

(** *** What an event can do to one pane *)

Inductive pane_change (p : CommanderPaneRuntimeState) : CommanderPaneRuntimeState -> Prop :=
  | pc_marks c a sel : pane_change p (set_marks c a sel p)
  | pc_loading : pane_change p (set_status true None p)
  | pc_rebuilt w p0 ov : p_id p0 = p_id p -> pane_change p (rebuildCommanderPaneState w p0 ov).

Definition panes_change w w' : Prop :=
  w_widgetId w' = w_widgetId w /\
  forall pane, pane_change (getPaneState w pane) (getPaneState w' pane).

Lemma pc_same p : pane_change p p.
Proof. rewrite (set_marks_self p) at 2. constructor. Qed.

Lemma pc_rebuildPane w p p0 : p_id p0 = p_id p -> pane_change p (rebuildPaneState w p0).
Proof. intros Hid. by apply (pc_rebuilt p w p0). Qed.

Lemma pc_same_rows p f : same_rows f -> pane_change p (f p).
Proof. intros Hf. destruct (Hf p) as (c & a & sel & ->). constructor. Qed.

Lemma panes_change_refl w w' :
  w_widgetId w' = w_widgetId w -> (forall pane, getPaneState w' pane = getPaneState w pane) ->
  panes_change w w'.
Proof. intros Hid Hp. split; [done|]. intros pane. rewrite Hp. apply pc_same. Qed.

(** Updating a pane of a widget that has the panes of [w]. *)
Lemma panes_change_update w w1 pane f :
  w_widgetId w1 = w_widgetId w -> (forall pane, getPaneState w1 pane = getPaneState w pane) ->
  pane_change (getPaneState w pane) (f (getPaneState w pane)) ->
  panes_change w (updatePaneState w1 pane f).
Proof.
  intros Hid Hp Hf. split; [unfold updatePaneState; by rewrite widgetId_setPane|].
  intros pane'. unfold updatePaneState. destruct (decide (pane = pane')) as [<-|Hne].
  - by rewrite get_set_pane, Hp.
  - rewrite get_set_other, Hp by done. apply pc_same.
Qed.

Lemma panes_change_active w pane pane' f :
  pane_change (getPaneState w pane) (f (getPaneState w pane)) ->
  panes_change w (updatePaneState (set_activePane pane' w) pane f).
Proof. apply panes_change_update; [done|]. intros. apply getPane_activePane. Qed.

Lemma panes_change_reproject w hidden m d dirs :
  panes_change w (reproject w (set_projection hidden m d dirs w)).
Proof. split; [done|]. intros []; by constructor. Qed.

Lemma updatePane_get w pane f :
  getPaneState (updatePaneState w pane f) pane = f (getPaneState w pane).
Proof. apply get_set_pane. Qed.

Lemma pc_move_move p f g :
  same_rows f -> same_rows g -> pane_change p (g (f p)).
Proof.
  intros Hf Hg. destruct (Hf p) as (c & a & sel & ->).
  destruct (Hg (set_marks c a sel p)) as (c' & a' & sel' & ->).
  exact (pc_marks p c' a' sel').
Qed.

Lemma panes_change_pending w op : panes_change w (set_pendingOperation op w).
Proof. apply panes_change_refl; [done|by intros []]. Qed.

Lemma panes_change_dialog w d : panes_change w (set_fileDialog d w).
Proof. apply panes_change_refl; [done|by intros []]. Qed.

Lemma request_panes w kind w' :
  requestCommanderWidgetPendingOperation w kind = Some w' -> panes_change w w'.
Proof.
  unfold requestCommanderWidgetPendingOperation.
  destruct (createPendingOperation w kind); [|done]. intros [= <-]. apply panes_change_pending.
Qed.

Lemma updateInput_panes w i w' :
  updateCommanderPendingOperationInput w i = Some w' -> panes_change w w'.
Proof.
  unfold updateCommanderPendingOperationInput.
  destruct (w_pendingOperation w) as [[[c|t]|b|m|r|m|s]|]; cbv zeta; try done;
    [destruct (cl_cloneMode c)|..]; intros [= <-]; apply panes_change_pending.
Qed.

Lemma step_panes w d w' : stepCommanderWidgetPendingSearchMatch w d = Some w' -> panes_change w w'.
Proof.
  unfold stepCommanderWidgetPendingSearchMatch.
  destruct (w_pendingOperation w) as [[| | | | |s]|]; try done. cbv zeta.
  case_decide; [done|]. destruct (truthyOpt _) as [x|]; [|done]. intros [= <-].
  destruct (panes_change_update w w (o_sourcePaneId (se_base s)) (focus_row x)) as [Hid Hp];
    [done|done|apply (pc_same_rows _ _ (same_rows_focus x))|].
  split; [exact Hid|]. intros pane. rewrite getPaneState_pending. apply Hp.
Qed.

Lemma confirm_panes w w' : confirmCommanderWidgetPendingOperation w = Some w' -> panes_change w w'.
Proof.
  unfold confirmCommanderWidgetPendingOperation.
  destruct (w_pendingOperation w) as [[| | | |m|s]|]; try done; cbv zeta.
  - destruct (ma_kind m); intros [= <-]; (apply panes_change_update; [done|apply getPaneState_pending|]).
    + apply (pc_same_rows _ _ (same_rows_mask _ _)).
    + apply (pc_same_rows _ _ (same_rows_mask _ _)).
    + by apply pc_rebuildPane.
  - intros [= <-]. apply panes_change_update; [done|apply getPaneState_pending|].
    destruct (truthyOpt _); [apply (pc_same_rows _ _ (same_rows_focus _))|apply pc_same].
Qed.

Lemma toggleActive_panes w b w' : toggleActivePaneSelection w b = Some w' -> panes_change w w'.
Proof.
  unfold toggleActivePaneSelection. destruct (truthyOpt _) as [x|]; [|done]. cbv zeta.
  intros [= <-]. set (pane := w_activePane w).
  assert (panes_change w (updatePaneState w pane (fun p => toggleEntrySelection p x))) as Ht.
  { apply panes_change_update; [done..|apply (pc_same_rows _ _ (same_rows_toggle x))]. }
  destruct b; [|done]. unfold updatePaneState at 1. rewrite (updatePane_get w).
  split; [unfold updatePaneState; by rewrite !widgetId_setPane|].
  intros pane'. destruct (decide (pane = pane')) as [<-|Hne].
  - rewrite get_set_pane.
    apply (pc_move_move _ _ _ (same_rows_toggle x) (same_rows_move false 1)).
  - rewrite get_set_other by done. apply Ht.
Qed.

(** Every reducer changes the marks of a pane, flags it as loading, or rebuilds it. *)
Lemma reduce_panes e w w' : reduce e w = Some w' -> panes_change w w'.
Proof.
  destruct e; unfold reduce; cbv zeta; try (case_match; [|done]); try (case_decide; [done|]);
    try done; try (intros [= <-]);
    eauto using request_panes, updateInput_panes, step_panes, confirm_panes, toggleActive_panes,
      panes_change_pending, panes_change_dialog, panes_change_reproject;
    try (apply panes_change_active); try (apply panes_change_update; [done..|]);
    try (apply panes_change_refl; [done|apply getPane_activePane]);
    try (by apply pc_rebuildPane); try (by apply pc_loading); try (by apply pc_rebuilt);
    try (apply pc_same_rows; eauto using same_rows_move, same_rows_invert).
  - by apply panes_change_refl; [|intros []].
  - apply (pc_same_rows _ _ (same_rows_cursor entryId rangeSelect)).
  - apply (pc_same_rows _ _ (same_rows_toggle entryId)).
  - apply (pc_same_rows _ _ (same_rows_boundary extendSelection b)).
Qed.

(** *** The store *)

Lemma with_widget_lookup widgets id f id' :
  withCommanderWidgetState widgets id f !! id' =
  if decide (id' = id)
  then match widgets !! id with Some w => Some (default w (f w)) | None => None end
  else widgets !! id'.
Proof.
  unfold withCommanderWidgetState. case_decide as Hid.
  - subst id'. destruct (widgets !! id) as [w|] eqn:E; [|done].
    destruct (f w) as [w'|] eqn:Ef; simpl; [|done]. by rewrite lookup_insert_eq.
  - destruct (widgets !! id) as [w|]; [|done].
    destruct (f w) as [w'|]; [|done]. by rewrite lookup_insert_ne.
Qed.

Lemma step_lookup_other widgets id e id' :
  id' <> id -> step widgets id e !! id' = widgets !! id'.
Proof.
  intros Hne. destruct e; unfold step;
    try (rewrite with_widget_lookup; by rewrite decide_False by done).
  destruct (widgets !! id); [done|]. by rewrite lookup_insert_ne.
Qed.

(** The widget that a step leaves under an id: unchanged, freshly mounted, or reduced. *)
Lemma step_lookup widgets id e id' w' :
  step widgets id e !! id' = Some w' ->
  widgets !! id' = Some w' \/
  (exists persisted, w' = createCommanderWidgetRuntimeState id' persisted) \/
  (exists w, widgets !! id' = Some w /\ reduce e w = Some w').
Proof.
  destruct (decide (id' = id)) as [->|Hne];
    [|rewrite step_lookup_other by done; by left].
  assert (withCommanderWidgetState widgets id (reduce e) !! id = Some w' ->
    widgets !! id = Some w' \/ exists w, widgets !! id = Some w /\ reduce e w = Some w') as Hw.
  { rewrite with_widget_lookup, decide_True by done.
    destruct (widgets !! id) as [w|]; [|done]. intros [= E].
    destruct (reduce e w) as [w1|] eqn:Er; simpl in E; subst; eauto. }
  destruct e; unfold step; try (intros H1; destruct (Hw H1) as [|]; by auto).
  destruct (widgets !! id) as [w|] eqn:E; [intros H1; left; congruence|].
  rewrite lookup_insert_eq. intros [= <-]. right. left. eauto.
Qed.

Lemma created_ok id persisted :
  widget_ok (createCommanderWidgetRuntimeState id persisted) /\
  no_error (createCommanderWidgetRuntimeState id persisted).
Proof.
  split; [intros pane|intros []; by destruct persisted].
  destruct persisted as [p|], pane; (split; [by apply pane_ok_no_entries|done]).
Qed.

(** *** Changing the projection *)

Lemma reproject_pane w next pane :
  getPaneState (reproject w next) pane = rebuildPaneState next (getPaneState w pane).
Proof. by destruct pane. Qed.

Lemma rebuildPaneState_rows w p :
  p_entries (rebuildPaneState w p) =
    projectCommanderEntries (p_directoryEntries p) (options_of w) (p_filterQuery p) /\
  p_directoryEntries (rebuildPaneState w p) = p_directoryEntries p /\
  p_filterQuery (rebuildPaneState w p) = p_filterQuery p /\ p_path (rebuildPaneState w p) = p_path p.
Proof. unfold rebuildPaneState, rebuildPaneStateAt. by rewrite decide_True by done. Qed.

Lemma options_reproject w next : options_of (reproject w next) = options_of next.
Proof. done. Qed.

Lemma project_perm dir o o' q :
  po_showHidden o = po_showHidden o' ->
  projectCommanderEntries dir o q ≡ₚ projectCommanderEntries dir o' q.
Proof.
  intros Ho. apply matchedEntries_perm. unfold sortCommanderEntries. by rewrite !sort_perm, Ho.
Qed.

Lemma keep_visible_Some l x : x <> "" -> x ∈ l -> keep_visible l (Some x) = Some x.
Proof.
  intros Hx Hin. unfold keep_visible. rewrite (proj2 (truthyOpt_Some (Some x) x)) by done.
  by rewrite (proj2 (includes_true x l) Hin).
Qed.

(** Rebuilding a well-formed pane whose rows are only permuted keeps its marks. *)
Lemma rebuild_keeps_marks w p :
  marks_ok p -> p_entries p <> [] -> "" ∉ entry_ids (p_entries p) ->
  p_entries (rebuildPaneState w p) ≡ₚ p_entries p ->
  let q := rebuildPaneState w p in
  p_cursorEntryId q = p_cursorEntryId p /\
  p_selectionAnchorEntryId q = p_selectionAnchorEntryId p /\ p_selectedIds q = p_selectedIds p.
Proof.
  intros Hm Hne Hemp Hperm q. destruct (Hm Hne) as (Hsel & (c & Hc & Hcin) & (a & Ha & Hain)).
  assert (forall x, x ∈ entry_ids (p_entries q) <-> x ∈ entry_ids (p_entries p)) as Hids.
  { intros x. unfold entry_ids. unfold q. by rewrite Hperm. }
  destruct (rebuildPaneState_rows w p) as (Hr & _).
  subst q. unfold rebuildPaneState, rebuildPaneStateAt in *. rewrite decide_True in * by done.
  unfold rebuildCommanderPaneState, apply_overrides, no_overrides in *.
  cbn [ov_path ov_filterQuery ov_directoryEntries ov_selectedIds ov_cursorEntryId
    ov_selectionAnchorEntryId ov_historyBack ov_historyForward ov_isLoading ov_errorMessage
    nullish default from_option p_id p_path p_directoryEntries p_filterQuery p_selectedIds
    p_cursorEntryId p_selectionAnchorEntryId p_historyBack p_historyForward] in *.
  unfold buildCommanderPaneState in *. cbv zeta in *.
  cbn [p_entries p_cursorEntryId p_selectionAnchorEntryId p_selectedIds] in *.
  rewrite Hc, Ha. rewrite !keep_visible_Some; try (by apply Hids); try (by intros ->; apply Hemp).
  split_and!; try done.
  apply filterb_all. intros x Hx. apply includes_true, Hids, Hsel, Hx.
Qed.

End StoreLemmas.

(** ** Properties *)

(** C1: whatever the events, every widget of the store is well formed: it is
    stored under its own id, both panes carry their ids, their rows are the
    projection of their directory listing under the widget's options and their
    filter, and in a pane with rows the cursor, the range anchor and every
    selected id are visible rows. *)
Theorem reachable_store_ok `{Locale} widgets :
  reachable widgets -> store_ok widgets.
Proof.
  induction 1 as [|widgets id e _ IH]; [by intros id w Hw|].
  intros id' w' [Hw|[(p & ->)|(w & Hw & Hr)]]%step_lookup.
  - by apply IH.
  - split; [done|apply created_ok].
  - destruct (IH _ _ Hw) as [Hid Hok]. split; [|by eapply reduce_widget_ok].
    rewrite <- Hid. apply (reduce_panes _ _ _ Hr).
Qed.

(** An error message never reaches a pane: [setCommanderPaneLoadError] passes
    one to [rebuildCommanderPaneState], which drops it, so in every store that
    events can produce no pane has an error message. *)
Theorem load_error_never_shown `{Locale} widgets id w pane :
  reachable widgets -> widgets !! id = Some w ->
  p_errorMessage (getPaneState w pane) = None.
Proof.
  intros Hr. revert id w pane. induction Hr as [|widgets id e _ IH]; [done|].
  intros id' w' pane [Hw|[(p & ->)|(w & Hw & Hred)]]%step_lookup.
  - by eapply IH.
  - apply created_ok.
  - specialize (IH _ _ pane Hw). destruct (reduce_panes _ _ _ Hred) as [_ Hp].
    by destruct (Hp pane).
Qed.

(** Widgets are isolated: an event leaves every other widget alone, an event
    for a widget that is not mounted does nothing, and mounting a widget again
    keeps the running one. *)
Theorem step_isolated `{Locale} widgets id e :
  (forall id', id' <> id -> step widgets id e !! id' = widgets !! id') /\
  (widgets !! id = None -> (forall p, e <> MountWidget p) -> step widgets id e = widgets) /\
  (forall p, is_Some (widgets !! id) -> step widgets id (MountWidget p) = widgets) /\
  (forall p, step (step widgets id (MountWidget p)) id e !! id <> None).
Proof.
  split_and!.
  - intros id' Hne. by apply step_lookup_other.
  - intros Hno Hmount. destruct e; unfold step, withCommanderWidgetState; rewrite ?Hno; try done.
    by destruct (Hmount persisted).
  - intros p [w Hw]. unfold step. by rewrite Hw.
  - intros p. assert (exists w, step widgets id (MountWidget p) !! id = Some w) as [w Hw].
    { unfold step. destruct (widgets !! id) as [w|] eqn:E; [by exists w|].
      eexists. by rewrite lookup_insert_eq. }
    set (s := step widgets id (MountWidget p)) in *. clearbody s.
    destruct e; unfold step at 1; try (rewrite with_widget_lookup, decide_True, Hw by done; done).
    by rewrite Hw, Hw.
Qed.

(** A loaded directory is what the pane shows, and the history follows the
    way it was reached: a push extends the visited paths after the path that
    was left and forgets the paths ahead, going back or forward keeps the
    visited paths, and a reload or a replacement changes neither stack.  The
    loaded pane becomes the active one and the other pane is unchanged. *)
Theorem hydratePane_spec `{Locale} w payload :
  let pane := hy_paneId payload in
  let p := getPaneState w pane in
  let w' := hydratePane w payload in
  let q := getPaneState w' pane in
  p_path q = hy_path payload /\ p_directoryEntries q = hy_directoryEntries payload /\
  p_isLoading q = false /\ pane_ok w' q /\ w_activePane w' = pane /\
  getPaneState w' (other_pane pane) = getPaneState w (other_pane pane) /\
  (p_path p <> "" ->
    match hy_historyMode payload with
    | Some ModePush => timeline q = p_historyBack p ++ [p_path p; hy_path payload]
    | Some ModeBack => lastOf (p_historyBack p) = Some (hy_path payload) -> timeline q = timeline p
    | Some ModeForward => lastOf (p_historyForward p) = Some (hy_path payload) -> timeline q = timeline p
    | _ => p_historyBack q = p_historyBack p /\ p_historyForward q = p_historyForward p
    end).
Proof.
  intros pane p w' q. unfold w', hydratePane in q. cbv zeta in q. fold pane in q. fold p in q.
  assert (q = rebuildCommanderPaneState (set_activePane pane w) p (hydrateOverrides payload p p)) as Hq.
  { unfold q, updatePaneState. rewrite get_set_pane, getPane_activePane. reflexivity. }
  split_and!; try (rewrite Hq; done).
  - rewrite Hq. apply rebuild_ok. unfold w', hydratePane, updatePaneState. cbv zeta.
    by rewrite options_setPane.
  - unfold w', hydratePane, updatePaneState. cbv zeta. by destruct (hy_paneId payload).
  - unfold w', hydratePane, updatePaneState. cbv zeta. fold pane.
    rewrite get_set_other by (by destruct pane). apply getPane_activePane.
  - intros Hne. apply truthy_true in Hne.
    assert (p_historyBack q = hydrateBack (hy_historyMode payload) p) as Hb by (by rewrite Hq).
    assert (p_historyForward q = hydrateForward (hy_historyMode payload) p) as Hf by (by rewrite Hq).
    assert (p_path q = hy_path payload) as Hp by (by rewrite Hq).
    assert (timeline q = hydrateBack (hy_historyMode payload) p ++ [hy_path payload] ++
      rev (hydrateForward (hy_historyMode payload) p)) as -> by (unfold timeline; congruence).
    rewrite Hb, Hf. unfold hydrateBack, hydrateForward. rewrite Hne.
    destruct (hy_historyMode payload) as [[]|]; simpl.
    + intros E. rewrite <- (timeline_back p _ E). reflexivity.
    + intros E. rewrite <- (timeline_forward p _ E). reflexivity.
    + by rewrite <- app_assoc.
    + done.
    + done.
Qed.

(** Choosing a sort column only reorders the rows: cursor, range anchor,
    selection, path and history stay, the direction flips when the column was
    already chosen and starts ascending otherwise, and choosing the current
    column twice gives back the rows in their old order. *)
Theorem setSortMode_keeps_marks `{Locale} w m pane :
  let p := getPaneState w pane in
  let q := getPaneState (setSortMode w m) pane in
  widget_ok w -> p_entries p <> [] -> "" ∉ entry_ids (p_entries p) ->
  p_entries q ≡ₚ p_entries p /\ p_cursorEntryId q = p_cursorEntryId p /\
  p_selectionAnchorEntryId q = p_selectionAnchorEntryId p /\ p_selectedIds q = p_selectedIds p /\
  p_path q = p_path p /\
  w_sortDirection (setSortMode w m) =
    (if decide (w_sortMode w = m /\ w_sortDirection w = SortAsc) then SortDesc else SortAsc) /\
  (w_sortMode w = m ->
   p_entries (getPaneState (setSortMode (setSortMode w m) m) pane) = p_entries p).
Proof.
  intros p q Hok Hne Hemp. destruct (Hok pane) as [[Hrows Hmarks] _]. fold p in Hrows, Hmarks.
  unfold setSortMode in q. cbv zeta in q. set (next := set_projection _ _ _ _ w) in q.
  assert (q = rebuildPaneState next p) as Hq by apply reproject_pane.
  destruct (rebuildPaneState_rows next p) as (Hr & Hd & Hf & Hpath).
  assert (p_entries q ≡ₚ p_entries p) as Hperm.
  { rewrite Hq, Hr, Hrows. by apply project_perm. }
  destruct (rebuild_keeps_marks next p) as (Hc & Ha & Hs); try done; [by rewrite <- Hq|].
  rewrite <- Hq in Hc, Ha, Hs, Hpath. split_and!; try done.
  - unfold setSortMode. cbn. repeat case_decide; destruct (w_sortDirection w); naive_solver.
  - intros Hm. unfold setSortMode at 1. cbv zeta. rewrite reproject_pane.
    destruct (rebuildPaneState_rows (set_projection (w_showHidden (setSortMode w m)) m
      (if decide (w_sortMode (setSortMode w m) = m)
       then match w_sortDirection (setSortMode w m) with SortAsc => SortDesc | SortDesc => SortAsc end
       else SortAsc) (w_dirsFirst (setSortMode w m)) (setSortMode w m))
      (getPaneState (setSortMode w m) pane)) as (-> & _).
    unfold setSortMode. cbv zeta. rewrite reproject_pane. fold next. fold p. rewrite Hd, Hf, Hrows.
    f_equal. unfold options_of. cbn. rewrite decide_True by done. rewrite decide_True by done.
    rewrite Hm. by destruct (w_sortDirection w).
Qed.

(** ** Witnesses *)

(** A store after mounting a widget, loading its left pane and failing to reload it. *)
Definition sample_store : CommanderWidgets :=
  step (step (step ∅ "w1" (MountWidget None)) "w1"
    (HydratePaneDirectory (mkHydrate PaneLeft [file_b; folder_c; file_a] None None None "/d" None None)))
    "w1" (SetPaneLoadError PaneLeft None (Some "gone")).

Lemma sample_store_reachable : reachable sample_store.
Proof. repeat constructor. Qed.

Lemma reachable_store_ok_witness :
  exists w, sample_store !! "w1" = Some w /\ w_widgetId w = "w1" /\ widget_ok w.
Proof.
  destruct (sample_store !! "w1") as [w|] eqn:E; [|exfalso; vm_compute in E; discriminate].
  exists w. split; [reflexivity|]. exact (reachable_store_ok sample_store sample_store_reachable "w1" w E).
Defined.

Lemma load_error_never_shown_witness :
  exists w, sample_store !! "w1" = Some w /\ p_path (getPaneState w PaneLeft) = "/d" /\
    p_errorMessage (getPaneState w PaneLeft) = None.
Proof.
  destruct (sample_store !! "w1") as [w|] eqn:E; [|exfalso; vm_compute in E; discriminate].
  exists w. split; [reflexivity|]. split.
  - vm_compute in E. injection E as <-. reflexivity.
  - exact (load_error_never_shown sample_store "w1" w PaneLeft sample_store_reachable E).
Defined.

Lemma widget_ok_sample sel :
  Forall (fun x => x ∈ ["/d::c"; "/d::a.txt"; "/d::b.txt"]) sel -> widget_ok (two_panes None sel).
Proof.
  intros Hsel []; (split; [split|reflexivity]).
  - vm_compute. reflexivity.
  - by apply marks_sample.
  - vm_compute. reflexivity.
  - by apply marks_ok_empty.
Qed.

Lemma setSortMode_keeps_marks_witness :
  let w := two_panes None ["/d::b.txt"] in
  p_entries (getPaneState (setSortMode (setSortMode w SortName) SortName) PaneLeft) =
    [folder_c; file_a; file_b].
Proof.
  intros w. apply (setSortMode_keeps_marks w SortName PaneLeft).
  - apply widget_ok_sample. by apply (bool_decide_unpack _); vm_compute.
  - discriminate.
  - by apply (bool_decide_unpack _); vm_compute.
  - reflexivity.
Defined.
