(* ===== verification/Persistence.v ===== *)
(** * Persistence of the commander widgets

    [frontend/src/features/commander/model/persistence.ts] and
    [store-persistence.ts]: what is written to local storage, what is read back
    from it, and the debounced writer that follows the store.  The JSON text and
    the schema library are parameters of the model ([StorageCodec]). *)
From stdpp Require Import strings.
From S2P Require Import Prelude JsString Types Mask Selection PaneState Navigation Preview Operations Store.
Local Open Scope string_scope.
Local Open Scope list_scope.
Local Open Scope Z_scope.

(** ** The stored values *)

(** The result of parsing one stored widget, before the [.transform] of its panes. *)
Notation StoredWidgets := (gmap string CommanderWidgetPersistedState).

(** What the code relies on of [JSON] and of the schema library: the value that
    [localStorage] keeps, its test for emptiness, writing a map of widgets, and
    reading a map in which every widget parses or not. *)
Class StorageCodec := {
  Raw : Type;
  raw_truthy : Raw -> bool;
  stringifyWidgets : StoredWidgets -> Raw;
  parseStored : Raw -> option (gmap string (option CommanderWidgetPersistedState))
}.

(** Parsing a written map gives the map back, and written text is not empty. *)
Class StorageCodecLaws (C : StorageCodec) : Prop := {
  stringify_truthy : forall m, raw_truthy (stringifyWidgets m) = true;
  parse_stringify : forall m, parseStored (stringifyWidgets m) = Some (Some <$> m)
}.

(** ** Reading and writing *)

(** The [.transform] of [commanderPanePersistedStateSchema]. *)
Definition transformPane (p : CommanderPanePersistedState) : CommanderPanePersistedState :=
  mkPersistedPane (pp_path p) (pp_filterQuery p)
    (Some (match pp_directoryEntries p with
           | Some d => d
           | None => nullish (pp_entries p) []
           end))
    (Some (match pp_entries p with
           | Some d => d
           | None => nullish (pp_directoryEntries p) []
           end))
    (pp_cursorEntryId p)
    (match pp_selectionAnchorEntryId p with
     | Some a => Some a
     | None => pp_cursorEntryId p
     end)
    (pp_selectedIds p) (pp_historyBack p) (pp_historyForward p).

Definition transformWidget (w : CommanderWidgetPersistedState) : CommanderWidgetPersistedState :=
  mkPersistedWidget (pw_activePane w) (pw_viewMode w) (pw_showHidden w) (pw_sortMode w)
    (pw_sortDirection w) (pw_dirsFirst w) (transformPane (pw_leftPane w))
    (transformPane (pw_rightPane w)).

Section Storage.
Context `{StorageCodec}.

(** A widget of the stored map that does not parse is dropped. *)
Definition normalizeWidgetState (value : option CommanderWidgetPersistedState)
    : option CommanderWidgetPersistedState := transformWidget <$> value.

(** [item] is what [localStorage.getItem] answers. *)
Definition readPersistenceState (item : option Raw) : StoredWidgets :=
  match item with
  | None => ∅
  | Some rawValue =>
      if raw_truthy rawValue then
        match parseStored rawValue with
        | None => ∅
        | Some widgets => omap normalizeWidgetState widgets
        end
      else ∅
  end.

Definition readPersistedCommanderWidget (item : option Raw) (widgetId : string)
    : option CommanderWidgetPersistedState := readPersistenceState item !! widgetId.

Definition writePersistedCommanderWidgets (widgets : StoredWidgets) : Raw :=
  stringifyWidgets widgets.

End Storage.

Definition serializePaneState (p : CommanderPaneRuntimeState) : CommanderPanePersistedState :=
  mkPersistedPane (p_path p) (p_filterQuery p) None None (p_cursorEntryId p)
    (p_selectionAnchorEntryId p) (p_selectedIds p) (p_historyBack p) (p_historyForward p).

Definition serializeCommanderWidgetRuntimeState (w : CommanderWidgetRuntimeState)
    : CommanderWidgetPersistedState :=
  mkPersistedWidget (w_activePane w) (w_viewMode w) (w_showHidden w) (w_sortMode w)
    (w_sortDirection w) (w_dirsFirst w) (serializePaneState (w_leftPane w))
    (serializePaneState (w_rightPane w)).

(** ** The debounced writer *)

Definition COMMANDER_PERSIST_DEBOUNCE_MS : Z := 120.

(** The variables of [attachCommanderWidgetsPersistence]: the timer holds its
    deadline and the widgets that its callback captured.  [wr_stored] is what
    was written last and [wr_subscribed] the state of the store subscription. *)
Record Writer := mkWriter {
  wr_initialized : bool;
  wr_timeout : option (Z * CommanderWidgets);
  wr_subscribed : bool;
  wr_stored : option (Z * StoredWidgets)
}.

Definition attachedWriter : Writer := mkWriter false None true None.

Inductive WriterEvent :=
  | StoreChanged (now : Z) (widgets : CommanderWidgets)
  | TimerFired (now : Z)
  | Disposed.

(** The watcher of the store. *)
Definition onStoreChanged (s : Writer) (now : Z) (widgets : CommanderWidgets) : Writer :=
  if wr_subscribed s then
    if wr_initialized s then
      mkWriter true (Some (now + COMMANDER_PERSIST_DEBOUNCE_MS, widgets)) true (wr_stored s)
    else mkWriter true (wr_timeout s) true (wr_stored s)
  else s.

(** The timer callback, which the host runs no earlier than the deadline. *)
Definition onTimer (s : Writer) (now : Z) : Writer :=
  match wr_timeout s with
  | Some (deadline, widgets) =>
      if decide (deadline <= now) then
        mkWriter (wr_initialized s) None (wr_subscribed s)
          (Some (now, serializeCommanderWidgetRuntimeState <$> widgets))
      else s
  | None => s
  end.

(** The function that attaching returns. *)
Definition disposeWriter (s : Writer) : Writer :=
  mkWriter (wr_initialized s) None false (wr_stored s).

Definition writerStep (s : Writer) (e : WriterEvent) : Writer :=
  match e with
  | StoreChanged now widgets => onStoreChanged s now widgets
  | TimerFired now => onTimer s now
  | Disposed => disposeWriter s
  end.

Definition runWriter (s : Writer) (es : list WriterEvent) : Writer := foldl writerStep s es.

(** ** Specification of the writer *)

(** The last change that the writer saw after the first one, while attached. *)
Fixpoint last_change (initialized : bool) (acc : option (Z * CommanderWidgets))
    (es : list WriterEvent) : option (Z * CommanderWidgets) :=
  match es with
  | [] => acc
  | StoreChanged now widgets :: es' =>
      last_change true (if initialized then Some (now, widgets) else acc) es'
  | TimerFired _ :: es' => last_change initialized acc es'
  | Disposed :: _ => acc
  end.

(** ** Lemmas *)

Section PersistenceLemmas.

Lemma transform_serialize p :
  let q := createPaneStateFromPersisted (p_id p) (transformPane (serializePaneState p)) in
  p_path q = p_path p /\ p_filterQuery q = p_filterQuery p /\
  p_cursorEntryId q = p_cursorEntryId p /\
  p_selectionAnchorEntryId q =
    match p_selectionAnchorEntryId p with Some a => Some a | None => p_cursorEntryId p end /\
  p_selectedIds q = p_selectedIds p /\ p_historyBack q = p_historyBack p /\
  p_historyForward q = p_historyForward p.
Proof. done. Qed.

Lemma read_written `{C : StorageCodec, !StorageCodecLaws C} (m : StoredWidgets) id :
  readPersistedCommanderWidget (Some (writePersistedCommanderWidgets m)) id =
    transformWidget <$> m !! id.
Proof.
  unfold readPersistedCommanderWidget, readPersistenceState, writePersistedCommanderWidgets.
  rewrite stringify_truthy, parse_stringify, lookup_omap, lookup_fmap.
  by destruct (m !! id).
Qed.

Lemma run_disposed s es :
  wr_subscribed s = false -> wr_timeout s = None -> runWriter s es = s.
Proof.
  revert s. induction es as [|e es IH]; intros s Hs Ht; [done|]. unfold runWriter in *. simpl.
  assert (writerStep s e = s) as ->; [|by apply IH].
  destruct e; simpl; unfold onStoreChanged, onTimer, disposeWriter; rewrite ?Hs, ?Ht; try done.
  destruct s; simpl in *. by subst.
Qed.

(** What holds of an attached writer that saw [last] as its last change: either
    the change waits for its deadline, or it was written no earlier than that. *)
Definition writer_ok (s : Writer) (last : option (Z * CommanderWidgets)) : Prop :=
  wr_subscribed s = true /\
  (wr_initialized s = false -> last = None) /\
  match last with
  | None => wr_timeout s = None /\ wr_stored s = None
  | Some (t, ws) =>
      wr_timeout s = Some (t + COMMANDER_PERSIST_DEBOUNCE_MS, ws) \/
      (wr_timeout s = None /\
       exists now, t + COMMANDER_PERSIST_DEBOUNCE_MS <= now /\
         wr_stored s = Some (now, serializeCommanderWidgetRuntimeState <$> ws))
  end.

Lemma writer_ok_change s last now ws :
  writer_ok s last ->
  writer_ok (onStoreChanged s now ws) (if wr_initialized s then Some (now, ws) else last).
Proof.
  intros (Hs & Hi & Hl). unfold onStoreChanged. rewrite Hs.
  destruct (wr_initialized s) eqn:Ei.
  - split; [done|]. split; [done|]. by left.
  - specialize (Hi eq_refl). subst last. split; [done|]. by split.
Qed.

Lemma writer_ok_timer s last now : writer_ok s last -> writer_ok (onTimer s now) last.
Proof.
  intros Hok. unfold onTimer.
  destruct (wr_timeout s) as [[d ws]|] eqn:Et; [|done].
  case_decide as Hd; [|done]. destruct Hok as (Hs & Hi & Hl).
  split; [done|]. split; [done|]. destruct last as [[t ws']|].
  - destruct Hl as [Hl|[Hl _]]; [|congruence]. rewrite Et in Hl. injection Hl as -> ->.
    right. simpl. eauto.
  - destruct Hl. congruence.
Qed.

Lemma run_attached es s last :
  writer_ok s last -> Disposed ∉ es ->
  writer_ok (runWriter s es) (last_change (wr_initialized s) last es).
Proof.
  revert s last. induction es as [|e es IH]; intros s last Hok Hnd; [done|].
  apply not_elem_of_cons in Hnd as [Hne Hnd]. unfold runWriter in *. simpl.
  destruct e as [now ws|now|]; [| |done]; simpl.
  - replace true with (wr_initialized (onStoreChanged s now ws)) at 1.
    + apply IH; [by apply writer_ok_change|done].
    + destruct Hok as (Hs & _). unfold onStoreChanged. rewrite Hs. by destruct (wr_initialized s).
  - replace (wr_initialized s) with (wr_initialized (onTimer s now)).
    + apply IH; [by apply writer_ok_timer|done].
    + unfold onTimer. destruct (wr_timeout s) as [[d ws]|]; [|done]. by case_decide.
Qed.

End PersistenceLemmas.

(** ** Properties *)

(** What is written for a widget is what mounting it reads back: options,
    view mode, active pane, and of each pane the path, filter, cursor, range
    anchor, selection and both history stacks; the directory listing is not
    stored and the footer is the default one. *)
Theorem persistence_roundtrip `{C : StorageCodec, !StorageCodecLaws C} (ws : CommanderWidgets) id w :
  ws !! id = Some w ->
  let item := Some (writePersistedCommanderWidgets (serializeCommanderWidgetRuntimeState <$> ws)) in
  let w' := createCommanderWidgetRuntimeState id (readPersistedCommanderWidget item id) in
  serializeCommanderWidgetRuntimeState w' =
    mkPersistedWidget (w_activePane w) (w_viewMode w) (w_showHidden w) (w_sortMode w)
      (w_sortDirection w) (w_dirsFirst w)
      (serializePaneState (set_marks (p_cursorEntryId (w_leftPane w))
         (match p_selectionAnchorEntryId (w_leftPane w) with
          | Some a => Some a | None => p_cursorEntryId (w_leftPane w) end)
         (p_selectedIds (w_leftPane w)) (w_leftPane w)))
      (serializePaneState (set_marks (p_cursorEntryId (w_rightPane w))
         (match p_selectionAnchorEntryId (w_rightPane w) with
          | Some a => Some a | None => p_cursorEntryId (w_rightPane w) end)
         (p_selectedIds (w_rightPane w)) (w_rightPane w))) /\
  (forall pane, p_directoryEntries (getPaneState w' pane) = [] /\
     p_entries (getPaneState w' pane) = [] /\ p_isLoading (getPaneState w' pane) = true) /\
  w_pendingOperation w' = None /\ w_fileDialog w' = None.
Proof.
  intros Hw item w'. subst item w'.
  rewrite read_written, lookup_fmap, Hw. by split_and!; [| intros []| |].
Qed.

(** The writer stores the latest state and nothing else: once attached, what
    it stored is nothing before the first change it follows, and otherwise the
    last change either still waits for its deadline or is exactly what is
    stored, written no earlier than 120 ms after it; after it was disposed
    nothing is written whatever happens. *)
Theorem writer_stores_last_change es es' :
  Disposed ∉ es ->
  let s := runWriter attachedWriter es in
  match last_change false None es with
  | None => wr_timeout s = None /\ wr_stored s = None
  | Some (t, ws) =>
      wr_timeout s = Some (t + COMMANDER_PERSIST_DEBOUNCE_MS, ws) \/
      (wr_timeout s = None /\
       exists now, t + COMMANDER_PERSIST_DEBOUNCE_MS <= now /\
         wr_stored s = Some (now, serializeCommanderWidgetRuntimeState <$> ws))
  end /\
  wr_stored (runWriter (writerStep s Disposed) es') = wr_stored s.
Proof.
  intros Hnd s. split.
  - apply (run_attached es attachedWriter None); [by split_and!|done].
  - by rewrite run_disposed.
Qed.

(** ** Witnesses *)

(** A codec that keeps the map itself. *)
#[global] Instance plain_codec : StorageCodec := {
  Raw := StoredWidgets;
  raw_truthy := fun _ => true;
  stringifyWidgets := fun m => m;
  parseStored := fun m => Some (Some <$> m)
}.

#[global] Instance plain_codec_laws : StorageCodecLaws plain_codec.
Proof. by constructor. Qed.

Lemma persistence_roundtrip_witness :
  w_fileDialog (createCommanderWidgetRuntimeState "w1" (readPersistedCommanderWidget
    (Some (writePersistedCommanderWidgets
      (serializeCommanderWidgetRuntimeState <$> {[ "w1" := two_panes None [] ]}))) "w1")) = None.
Proof.
  apply (persistence_roundtrip {[ "w1" := two_panes None [] ]} "w1" (two_panes None [])).
  vm_compute. reflexivity.
Defined.

Lemma writer_stores_last_change_witness :
  let s := runWriter attachedWriter [StoreChanged 0 ∅; StoreChanged 5 ∅; TimerFired 200] in
  wr_stored s = Some (200, ∅) /\
  wr_stored (runWriter (writerStep s Disposed) [StoreChanged 300 ∅; TimerFired 900]) = wr_stored s.
Proof.
  split; [vm_compute; reflexivity|].
  apply (writer_stores_last_change [StoreChanged 0 ∅; StoreChanged 5 ∅; TimerFired 200]
    [StoreChanged 300 ∅; TimerFired 900]).
  rewrite !not_elem_of_cons. repeat split; try discriminate. apply not_elem_of_nil.
Defined.
