(* ===== verification/RuntimePath.v ===== *)
(** * Runtime paths and settings

    [frontend/src/shared/api/runtime.ts]: normalising, joining and displaying
    the paths of the backend, and normalising the settings that it answers.
    The transport (environment, Tauri and HTTP) is not modelled. *)
From Stdlib Require Import Ascii String.
From stdpp Require Import strings.
From S2P Require Import Prelude JsString.
Local Open Scope string_scope.
Local Open Scope list_scope.
Local Open Scope nat_scope.

(** ** Paths *)

(** [path.replace(/\\/g, '/')] *)
Definition normalizePathSeparators (path : string) : string :=
  str_map (fun a => if bool_decide (a = backslash) then slash else a) path.

Definition colon : ascii := ":".

(** The match of [/^[A-Za-z]:/] *)
Definition drivePrefixMatch (path : string) : option string :=
  match path with
  | String a (String b _) =>
      if is_letter a && bool_decide (b = colon) then Some (String a (String b "")) else None
  | _ => None
  end.

(** [/^[A-Za-z]:\/$/.test(path)] *)
Definition isDriveRoot (path : string) : bool :=
  match path with
  | String a (String b (String c EmptyString)) =>
      is_letter a && bool_decide (b = colon) && bool_decide (c = slash)
  | _ => false
  end.

Definition trimTrailingSeparators (path : string) : string :=
  let normalizedPath := normalizePathSeparators path in
  if isDriveRoot normalizedPath || bool_decide (normalizedPath = "/") then normalizedPath
  else stripTrailing slash normalizedPath.

Definition isAbsolutePath (path : string) : bool :=
  startsWith "/" path ||
  match path with
  | String a (String b (String c _)) =>
      is_letter a && bool_decide (b = colon) && (bool_decide (c = backslash) || bool_decide (c = slash))
  | _ => false
  end ||
  startsWith (String backslash (String backslash "")) path.

(** [segment.length > 0 && segment !== '.'] *)
Definition keepSegment (segment : string) : bool :=
  truthy segment && negb (bool_decide (segment = ".")).

(** One step of the [reduce] over the segments. *)
Definition pushSegment (segments : list string) (segment : string) : list string :=
  if bool_decide (segment = "..") then
    match lastOf segments with
    | Some l => if bool_decide (l = "..") then segments else dropLast segments
    | None => segments
    end
  else segments ++ [segment].

(** [joinedPath.replace(new RegExp(`^${drivePrefix}/?`), '')] *)
Definition dropDrivePrefix (drivePrefix joinedPath : string) : string :=
  if startsWith drivePrefix joinedPath then
    let rest := strDrop (String.length drivePrefix) joinedPath in
    if startsWith "/" rest then strDrop 1 rest else rest
  else joinedPath.

Definition normalizeJoinedPath (basePath nextPath : string) : string :=
  let normalizedBasePath := trimTrailingSeparators basePath in
  let normalizedNextPath := normalizePathSeparators nextPath in
  let hasLeadingSlash := startsWith "/" normalizedBasePath in
  let pathSegments :=
    foldl pushSegment []
      (filterb keepSegment (splitOn slash (normalizedBasePath +:+ "/" +:+ normalizedNextPath))) in
  let joinedPath := join "/" pathSegments in
  match drivePrefixMatch normalizedBasePath with
  | Some drivePrefix =>
      let withoutDrivePrefix := dropDrivePrefix drivePrefix joinedPath in
      if truthy withoutDrivePrefix then drivePrefix +:+ "/" +:+ withoutDrivePrefix
      else drivePrefix +:+ "/"
  | None =>
      if hasLeadingSlash then if truthy joinedPath then "/" +:+ joinedPath else "/"
      else joinedPath
  end.

Definition formatRuntimePathForDisplay (path homeDir : string) : string :=
  let normalizedPath := trimTrailingSeparators path in
  let normalizedHomeDir := trimTrailingSeparators homeDir in
  if negb (truthy normalizedPath) || negb (truthy normalizedHomeDir) then normalizedPath
  else if bool_decide (normalizedPath = normalizedHomeDir) then "~"
  else if startsWith (normalizedHomeDir +:+ "/") normalizedPath
  then "~" +:+ strDrop (String.length normalizedHomeDir) normalizedPath
  else normalizedPath.

Definition joinRuntimePath (path name : string) : string := normalizeJoinedPath path name.

Definition getRuntimePathParent (path : string) : option string :=
  let normalizedPath := trimTrailingSeparators path in
  if negb (truthy normalizedPath) || bool_decide (normalizedPath = "/") || isDriveRoot normalizedPath
  then None
  else
    match lastIndexOf slash normalizedPath with
    | None => None
    | Some 0 => Some "/"
    | Some i => Some (strTake i normalizedPath)
    end.

Definition resolveRuntimePathInput (inputValue homeDir currentPath : string) : string :=
  let trimmedInputValue := trim inputValue in
  if truthy trimmedInputValue then
    let normalizedInputValue := normalizePathSeparators trimmedInputValue in
    if bool_decide (normalizedInputValue = "~") && truthy homeDir
    then trimTrailingSeparators homeDir
    else if startsWith "~/" normalizedInputValue && truthy homeDir
    then normalizeJoinedPath homeDir (strDrop 2 normalizedInputValue)
    else if isAbsolutePath normalizedInputValue
    then trimTrailingSeparators normalizedInputValue
    else normalizeJoinedPath currentPath normalizedInputValue
  else currentPath.

(** ** Settings *)

Inductive WindowTitleMode := TitleAuto | TitleCustom.
Inductive AppLocale := LocaleEn | LocaleRu | LocaleZhCN | LocaleEs.
#[global] Instance app_locale_eq : EqDecision AppLocale.
Proof. solve_decision. Defined.

(** A value that is not a string is [None]. *)
Definition normalizeWindowTitleMode (mode : option string) : WindowTitleMode :=
  if bool_decide (mode = Some "custom") then TitleCustom else TitleAuto.

Record WindowTitleSettings : Set := mkWindowTitle {
  wt_auto_title : string;
  wt_custom_title : string;
  wt_mode : WindowTitleMode
}.

Definition normalizeWindowTitleSettings (auto_title custom_title mode : option string)
    : WindowTitleSettings :=
  mkWindowTitle (nullish (trim <$> auto_title) "") (nullish (trim <$> custom_title) "")
    (normalizeWindowTitleMode mode).

Definition defaultSupportedLocales : list AppLocale := [LocaleRu; LocaleEn; LocaleZhCN; LocaleEs].

Definition normalizeAppLocale (locale : option string) : AppLocale :=
  match locale with
  | None => LocaleRu
  | Some l =>
      let k := toLowerCase (trim l) in
      if bool_decide (k = "en") then LocaleEn
      else if bool_decide (k = "ru") then LocaleRu
      else if bool_decide (k = "zh") || bool_decide (k = "zh-cn") || bool_decide (k = "cn") then LocaleZhCN
      else if bool_decide (k = "es") then LocaleEs
      else LocaleRu
  end.

(** [l.filter((locale, index) => l.indexOf(locale) === index)] *)
Definition uniqueLocales (l : list AppLocale) : list AppLocale :=
  mapFilter (fun '(index, x) =>
    if decide (findIndex (fun y => bool_decide (y = x)) l = Some index) then Some x else None)
    (imap pair l).

(** [supported_locales] is [None] when it is not an array. *)
Definition normalizeLocaleSettings (locale : option string)
    (supported_locales : option (list (option string))) : AppLocale * list AppLocale :=
  let supportedLocales :=
    match supported_locales with
    | Some l => normalizeAppLocale <$> l
    | None => defaultSupportedLocales
    end in
  let uniqueSupportedLocales := uniqueLocales supportedLocales in
  (normalizeAppLocale locale,
   match uniqueSupportedLocales with [] => defaultSupportedLocales | l => l end).

(** ** Specification: absolute paths as lists of segments *)

(** A name of one entry: not empty, not [.] or [..], no separator. *)
Definition clean_segment (s : string) : bool :=
  truthy s && negb (bool_decide (s = ".")) && negb (bool_decide (s = "..")) &&
  str_all (fun a => negb (bool_decide (a = slash)) && negb (bool_decide (a = backslash))) s.

(** The absolute path with the given segments. *)
Definition abs_path (segments : list string) : string := "/" +:+ join "/" segments.

(** [n] times the parent of a path. *)
Definition ancestor (n : nat) (path : string) : option string :=
  Nat.iter n (fun p => p ≫= getRuntimePathParent) (Some path).

(** ** Lemmas *)

Lemma clean_segment_spec s :
  clean_segment s = true ->
  s <> "" /\ s <> "." /\ s <> ".." /\ no_unit slash s = true /\ no_unit backslash s = true.
Proof.
  unfold clean_segment. intros H. bool_prop.
  repeat match goal with H : (_ && _)%bool = true |- _ => apply andb_true_iff in H as [? ?] end.
  bool_prop. split_and!; try done.
  - by apply truthy_true.
  - eapply str_all_ext; [|done]. simpl. intros a [? _]%andb_true_iff. done.
  - eapply str_all_ext; [|done]. simpl. intros a [_ ?]%andb_true_iff. done.
Qed.

Lemma normalize_id s : no_unit backslash s = true -> normalizePathSeparators s = s.
Proof.
  unfold normalizePathSeparators, no_unit. induction s as [|a s IH]; simpl; [done|].
  intros [Ha Hs]%andb_true_iff. apply negb_true_iff in Ha. by rewrite Ha, IH.
Qed.

Lemma normalize_no_backslash s : no_unit backslash (normalizePathSeparators s) = true.
Proof.
  unfold normalizePathSeparators, no_unit. induction s as [|a s IH]; simpl; [done|].
  rewrite IH, andb_true_r. destruct (decide (a = backslash)) as [->|Ha]; [reflexivity|].
  by rewrite !(bool_decide_eq_false_2 _ Ha).
Qed.

(** *** Trailing separators *)

Lemma stripTrailing_keep c s a : a <> c -> stripTrailing c (s +:+ String a "") = s +:+ String a "".
Proof.
  intros Ha. induction s as [|b s IH]; simpl; [by rewrite bool_decide_eq_false_2|].
  rewrite IH. by destruct s.
Qed.

Lemma last_unit s : s <> "" -> exists t a, s = t +:+ String a "".
Proof.
  induction s as [|a s IH]; [done|]. intros _. destruct s as [|b s]; [by exists "", a|].
  destruct IH as (t & c & ->); [done|]. by exists (String a t), c.
Qed.

Lemma clean_last s : clean_segment s = true -> exists t a, s = t +:+ String a "" /\ a <> slash.
Proof.
  intros (Hne & _ & _ & Hs & _)%clean_segment_spec. destruct (last_unit s Hne) as (t & a & ->).
  exists t, a. split; [done|]. rewrite no_unit_append in Hs. apply andb_true_iff in Hs as [_ Hs].
  unfold no_unit in Hs. simpl in Hs. rewrite andb_true_r in Hs. by bool_prop.
Qed.

Lemma join_snoc sep l s : l <> [] -> join sep (l ++ [s]) = join sep l +:+ sep +:+ s.
Proof.
  induction l as [|x l IH]; [done|]. intros _. destruct l as [|y l]; [done|].
  change (join sep (x :: y :: l)) with (x +:+ sep +:+ join sep (y :: l)).
  change ((x :: y :: l) ++ [s]) with (x :: ((y :: l) ++ [s])).
  rewrite !append_assoc, <- IH by done. simpl app. destruct (l ++ [s]) eqn:E; [by destruct l|done].
Qed.

Lemma abs_snoc segs s : segs <> [] -> abs_path (segs ++ [s]) = abs_path segs +:+ "/" +:+ s.
Proof. intros Hne. unfold abs_path. by rewrite join_snoc, append_assoc. Qed.

Lemma abs_last segs : Forall (fun s => clean_segment s = true) segs -> segs <> [] ->
  exists t a, abs_path segs = t +:+ String a "" /\ a <> slash.
Proof.
  intros Hall Hne. destruct (exists_last Hne) as (l & s & ->).
  apply Forall_app in Hall as [_ Hs]. inversion Hs as [|? ? Hc _]; subst.
  destruct (clean_last s Hc) as (t & a & -> & Ha). exists (match l with [] => "/" +:+ t
    | _ => abs_path l +:+ "/" +:+ t end), a. split; [|done].
  destruct l as [|x l]; [done|]. rewrite abs_snoc by done. by rewrite !append_assoc.
Qed.

Lemma abs_no_backslash segs :
  Forall (fun s => clean_segment s = true) segs -> no_unit backslash (abs_path segs) = true.
Proof.
  intros Hall. unfold abs_path. rewrite no_unit_append. simpl.
  induction Hall as [|s l (_ & _ & _ & _ & Hs)%clean_segment_spec _ IH]; [done|].
  destruct l as [|s' l]; [done|].
  change (join "/" (s :: s' :: l)) with (s +:+ "/" +:+ join "/" (s' :: l)).
  by rewrite !no_unit_append, Hs, IH.
Qed.

Lemma abs_trim segs :
  Forall (fun s => clean_segment s = true) segs -> trimTrailingSeparators (abs_path segs) = abs_path segs.
Proof.
  intros Hall. unfold trimTrailingSeparators. rewrite normalize_id by (by apply abs_no_backslash).
  destruct (isDriveRoot (abs_path segs) || bool_decide (abs_path segs = "/"))%bool eqn:E; [done|].
  destruct segs as [|x l]; [done|].
  destruct (abs_last (x :: l)) as (t & a & -> & Ha); [done|done|]. by apply stripTrailing_keep.
Qed.

Lemma isDriveRoot_abs segs : isDriveRoot (abs_path segs) = false.
Proof. unfold abs_path. simpl. by destruct (join "/" segs) as [|b [|c [|d t]]]. Qed.

Lemma drivePrefix_abs segs : drivePrefixMatch (abs_path segs) = None.
Proof. unfold abs_path. simpl. by destruct (join "/" segs). Qed.

Lemma abs_root segs :
  Forall (fun s => clean_segment s = true) segs -> abs_path segs = "/" <-> segs = [].
Proof.
  intros Hall. split; [|by intros ->]. destruct segs as [|s l]; [done|].
  inversion Hall as [|? ? (Hne & _)%clean_segment_spec _]; subst.
  unfold abs_path. simpl. destruct l; intros [=]; destruct s; done.
Qed.

(** *** Segments *)

Lemma keep_clean s : clean_segment s = true -> keepSegment s = true.
Proof.
  intros (H1 & H2 & _)%clean_segment_spec. unfold keepSegment.
  by rewrite (proj2 (truthy_true s) H1), bool_decide_eq_false_2.
Qed.

Lemma filter_keep_clean segs :
  Forall (fun s => clean_segment s = true) segs -> filterb keepSegment segs = segs.
Proof. intros Hall. apply filterb_all. intros s Hs. rewrite Forall_forall in Hall. by apply keep_clean, Hall. Qed.

Lemma segments_of_abs segs :
  Forall (fun s => clean_segment s = true) segs ->
  filterb keepSegment (splitOn slash (abs_path segs)) = segs.
Proof.
  intros Hall. destruct segs as [|x l]; [done|].
  unfold abs_path. change ("/" +:+ join "/" (x :: l)) with ("" +:+ String slash (join "/" (x :: l))).
  rewrite splitOn_app. change "/" with (String slash "").
  rewrite splitOn_join; [|eapply Forall_impl; [exact Hall|]; by intros s (_ & _ & _ & H & _)%clean_segment_spec|done].
  by apply (filter_keep_clean (x :: l)).
Qed.

Lemma push_clean segs acc :
  Forall (fun s => clean_segment s = true) segs -> foldl pushSegment acc segs = acc ++ segs.
Proof.
  intros Hall. revert acc. induction Hall as [|s l (_ & _ & H & _)%clean_segment_spec _ IH]; intros acc.
  - by rewrite app_nil_r.
  - simpl. unfold pushSegment at 2. rewrite bool_decide_eq_false_2 by done. rewrite IH.
    by rewrite <- app_assoc.
Qed.

(** A reduced list of segments is clean whatever was pushed. *)
Lemma push_stays_clean segs acc :
  Forall (fun s => clean_segment s = true) acc ->
  Forall (fun s => s = ".." \/ clean_segment s = true) segs ->
  Forall (fun s => clean_segment s = true) (foldl pushSegment acc segs).
Proof.
  intros Hacc Hall. revert acc Hacc. induction Hall as [|s l Hs _ IH]; intros acc Hacc; [done|].
  simpl. apply IH. unfold pushSegment. case_bool_decide as E.
  - destruct (lastOf acc); [|done]. case_bool_decide; [done|].
    unfold dropLast. by apply Forall_take.
  - apply Forall_app. split; [done|]. constructor; [|done]. by destruct Hs.
Qed.

Lemma split_segments s :
  no_unit backslash s = true ->
  Forall (fun w => w = ".." \/ clean_segment w = true) (filterb keepSegment (splitOn slash s)).
Proof.
  intros Hs. apply Forall_forall. intros w [Hw Hk]%elem_of_filterb.
  pose proof (splitOn_all slash _ s Hs) as Hall. rewrite Forall_forall in Hall.
  destruct (Hall w Hw) as [H1 H2]. destruct (decide (w = "..")) as [|Hdd]; [by left|right].
  unfold keepSegment in Hk. apply andb_true_iff in Hk as [Hk1 Hk2]. bool_prop.
  unfold clean_segment. rewrite Hk1, !bool_decide_eq_false_2 by done. simpl.
  unfold no_unit in *. clear -H1 H2. induction w as [|a w IH]; simpl in *; [done|].
  apply andb_true_iff in H1 as [Ha1 H1]. apply andb_true_iff in H2 as [Ha2 H2].
  by rewrite Ha1, Ha2, IH.
Qed.

(** Joining below an absolute base reduces the segments of both. *)
Lemma normalizeJoined_abs segs next :
  Forall (fun s => clean_segment s = true) segs ->
  normalizeJoinedPath (abs_path segs) next =
    abs_path (foldl pushSegment segs (filterb keepSegment (splitOn slash (normalizePathSeparators next)))).
Proof.
  intros Hall. unfold normalizeJoinedPath. rewrite abs_trim, drivePrefix_abs by done. cbv zeta.
  change ("/" +:+ normalizePathSeparators next) with (String slash (normalizePathSeparators next)).
  rewrite splitOn_app. unfold filterb at 1 2. rewrite List.filter_app, foldl_app.
  fold (filterb keepSegment (splitOn slash (abs_path segs))).
  rewrite segments_of_abs, (push_clean segs []) by done. simpl app.
  fold (filterb keepSegment (splitOn slash (normalizePathSeparators next))).
  set (r := foldl pushSegment segs _). change (startsWith "/" (abs_path segs)) with true.
  unfold abs_path. cbn [startsWith]. destruct (truthy (join "/" r)) eqn:E; [done|].
  apply truthy_false in E. by rewrite E.
Qed.

(** Joining an entry name to a directory. *)
Lemma join_clean segs name :
  Forall (fun s => clean_segment s = true) segs -> clean_segment name = true ->
  joinRuntimePath (abs_path segs) name = abs_path (segs ++ [name]).
Proof.
  intros Hall Hname. unfold joinRuntimePath. rewrite normalizeJoined_abs by done.
  destruct (clean_segment_spec name Hname) as (_ & _ & _ & H1 & H2).
  rewrite normalize_id, splitOn_no_unit by done.
  by rewrite (filter_keep_clean [name]), push_clean by (by repeat constructor).
Qed.

(** The parent of a path below a directory. *)
Lemma parent_snoc segs s :
  Forall (fun s => clean_segment s = true) segs -> clean_segment s = true ->
  getRuntimePathParent (abs_path (segs ++ [s])) = Some (abs_path segs).
Proof.
  intros Hall Hs. assert (Forall (fun s => clean_segment s = true) (segs ++ [s])) as Hall'
    by (apply Forall_app; auto).
  unfold getRuntimePathParent. rewrite abs_trim by done.
  assert (abs_path (segs ++ [s]) <> "/") as Hroot by (rewrite abs_root by done; by destruct segs).
  rewrite isDriveRoot_abs, (bool_decide_eq_false_2 _ Hroot). simpl negb.
  change (truthy (abs_path (segs ++ [s]))) with true. simpl orb.
  apply clean_segment_spec in Hs as (_ & _ & _ & Hs & _). apply lastIndexOf_None in Hs.
  destruct segs as [|x l].
  - change (abs_path ([] ++ [s])) with ("" +:+ String slash s). by rewrite lastIndexOf_app.
  - rewrite abs_snoc by done. change ("/" +:+ s) with (String slash s).
    rewrite lastIndexOf_app by done. by rewrite strTake_append.
Qed.

Lemma root_has_no_parent : getRuntimePathParent "/" = None.
Proof. reflexivity. Qed.

Lemma ancestor_app segs n :
  Forall (fun s => clean_segment s = true) segs -> n <= length segs ->
  ancestor n (abs_path segs) = Some (abs_path (take (length segs - n) segs)).
Proof.
  intros Hall. induction n as [|n IH]; intros Hn.
  - unfold ancestor. simpl. by rewrite Nat.sub_0_r, firstn_all.
  - unfold ancestor in *. simpl. rewrite IH by lia.
    change (mbind (M:=option) ?f (Some ?x)) with (f x).
    assert (length segs - n = S (length segs - S n)) as -> by lia.
    destruct (lookup_lt_is_Some_2 segs (length segs - S n)) as [s Hs]; [lia|].
    rewrite (take_S_r _ _ s Hs). apply parent_snoc; [by apply Forall_take|].
    rewrite Forall_forall in Hall. apply Hall. by eapply list_elem_of_lookup_2.
Qed.

(** A text that starts with a visible unit is trimmed at its end only. *)
Lemma trim_visible a t : is_space a = false -> trim (String a t) = String a (trimEnd t).
Proof.
  intros Ha. unfold trim. change (String a t) with (("" +:+ String a "") +:+ t) at 1.
  rewrite trimEnd_append by done. simpl. by rewrite Ha.
Qed.

Lemma trimEnd_below s rest :
  trimEnd (s +:+ "/" +:+ rest) = s +:+ "/" +:+ rest -> trimEnd rest = rest.
Proof.
  intros H. pose proof (trimEnd_append s slash rest eq_refl) as E. rewrite !append_assoc in E.
  change (String slash "" +:+ ?x) with ("/" +:+ x) in E. rewrite H in E.
  apply append_inj_l in E. simpl in E. by injection E.
Qed.

Lemma findIndex_self_dedupe (l : list AppLocale) i x :
  l !! i = Some x -> exists j, j <= i /\ l !! j = Some x /\ findIndex (fun y => bool_decide (y = x)) l = Some j.
Proof.
  intros Hi. destruct (findIndex _ l) as [j|] eqn:E.
  - apply findIndex_Some in E as (y & Hy & ->%bool_decide_eq_true & Hmin). exists j.
    split_and!; try done. destruct (decide (j <= i)); [done|].
    specialize (Hmin i x ltac:(lia) Hi). by rewrite bool_decide_eq_true_2 in Hmin.
  - rewrite findIndex_None in E. specialize (E x (list_elem_of_lookup_2 _ _ _ Hi)).
    by rewrite bool_decide_eq_true_2 in E.
Qed.

Lemma elem_of_uniqueLocales (l : list AppLocale) x :
  x ∈ uniqueLocales l <-> exists i, l !! i = Some x /\ findIndex (fun y => bool_decide (y = x)) l = Some i.
Proof.
  unfold uniqueLocales, mapFilter. rewrite list_elem_of_omap. split.
  - intros ([i y] & Hin & Hy). case_decide as Hd; [|done]. injection Hy as ->.
    apply elem_of_lookup_imap in Hin as (j & y & [= -> ->] & Hj). by exists j.
  - intros (i & Hi & Hf). exists (i, x). rewrite decide_True by done. split; [|done].
    apply elem_of_lookup_imap. by exists i, x.
Qed.

Lemma uniqueLocales_elem l x : x ∈ uniqueLocales l <-> x ∈ l.
Proof.
  rewrite elem_of_uniqueLocales. split.
  - intros (i & Hi & _). by eapply list_elem_of_lookup_2.
  - intros [i Hi]%list_elem_of_lookup_1. destruct (findIndex_self_dedupe l i x Hi) as (j & _ & Hj & Hf).
    by exists j.
Qed.

Lemma uniqueLocales_NoDup l : NoDup (uniqueLocales l).
Proof.
  unfold uniqueLocales, mapFilter.
  assert (forall k (l' : list AppLocale), NoDup (omap (fun '(index, x) =>
    if decide (findIndex (fun y => bool_decide (y = x)) l = Some index) then Some x else None)
    (imap (fun i x => (k + i, x)) l'))) as H; [|exact (H 0 l)].
  intros k l'. revert k. induction l' as [|x l' IH]; intros k; [constructor|].
  rewrite imap_cons. simpl. rewrite Nat.add_0_r.
  assert (imap ((fun i x0 => (k + i, x0)) ∘ S) l' = imap (fun i x0 => (S k + i, x0)) l') as ->.
  { apply imap_ext. intros i y _. simpl. f_equal. lia. }
  case_decide as Hd; [|apply IH]. constructor; [|apply IH].
  rewrite list_elem_of_omap. intros ([i y] & Hin & Hy). case_decide as Hd'; [|done].
  injection Hy as ->. apply elem_of_lookup_imap in Hin as (j & y & [= -> ->] & _).
  rewrite Hd in Hd'. injection Hd'. lia.
Qed.

(** ** Properties *)

(** Entering a directory and leaving it again comes back: joining an entry
    name to an absolute path gives the path with that name added, its parent is
    the old path, and going up as often as there are segments ends at the root,
    which has no parent, so walking up terminates. *)
Theorem join_parent_roundtrip segs name n :
  Forall (fun s => clean_segment s = true) segs -> clean_segment name = true ->
  n <= length segs ->
  joinRuntimePath (abs_path segs) name = abs_path (segs ++ [name]) /\
  getRuntimePathParent (joinRuntimePath (abs_path segs) name) = Some (abs_path segs) /\
  ancestor n (abs_path segs) = Some (abs_path (take (length segs - n) segs)) /\
  ancestor (length segs) (abs_path segs) = Some "/" /\
  ancestor (S (length segs)) (abs_path segs) = None.
Proof.
  intros Hall Hname Hn.
  pose proof (join_clean segs name Hall Hname) as Hjoin.
  split; [done|]. rewrite Hjoin.
  assert (ancestor (length segs) (abs_path segs) = Some "/") as Hroot.
  { rewrite ancestor_app by done. by rewrite Nat.sub_diag. }
  split_and!; [by apply parent_snoc|by apply ancestor_app|done|].
  unfold ancestor in *. simpl. by rewrite Hroot.
Qed.

(** Whatever is typed below an absolute directory, the joined path is
    absolute and normalised: its segments are entry names, so no [.], [..] or
    empty segment and no backslash survives, and [..] never climbs above the
    root. *)
Theorem join_is_normalised segs next :
  Forall (fun s => clean_segment s = true) segs ->
  exists segs', joinRuntimePath (abs_path segs) next = abs_path segs' /\
    Forall (fun s => clean_segment s = true) segs' /\
    trimTrailingSeparators (joinRuntimePath (abs_path segs) next) = joinRuntimePath (abs_path segs) next /\
    joinRuntimePath (joinRuntimePath (abs_path segs) next) "." = joinRuntimePath (abs_path segs) next.
Proof.
  intros Hall. unfold joinRuntimePath. rewrite normalizeJoined_abs by done.
  set (segs' := foldl pushSegment _ _).
  assert (Forall (fun s => clean_segment s = true) segs') as Hall'.
  { apply push_stays_clean; [done|]. apply split_segments, normalize_no_backslash. }
  exists segs'. split_and!; [done|done|by apply abs_trim|].
  by rewrite normalizeJoined_abs.
Qed.

(** The path that a pane shows can be typed back: resolving the displayed
    form of an absolute path, with [~] for the home directory, gives the path
    again, whatever the current directory. *)
Theorem display_resolve_roundtrip segs home cur :
  Forall (fun s => clean_segment s = true) segs -> Forall (fun s => clean_segment s = true) home ->
  trim (abs_path segs) = abs_path segs ->
  resolveRuntimePathInput (formatRuntimePathForDisplay (abs_path segs) (abs_path home))
    (abs_path home) cur = abs_path segs.
Proof.
  intros Hall Hhome Htrim. unfold formatRuntimePathForDisplay.
  rewrite !abs_trim by done. change (truthy (abs_path ?x)) with true. simpl (negb true || negb true).
  cbv iota. case_bool_decide as Heq.
  { unfold resolveRuntimePathInput. simpl. rewrite abs_trim by done. done. }
  destruct (startsWith (abs_path home +:+ "/") (abs_path segs)) eqn:E.
  - apply startsWith_spec in E as (rest & Hrest). rewrite append_assoc in Hrest.
    rewrite Hrest, strDrop_append.
    assert (trim ("~/" +:+ rest) = "~/" +:+ rest) as Ht.
    { change ("~/" +:+ rest) with (String "~" ("/" +:+ rest)). rewrite trim_visible by done. f_equal.
      assert (trimEnd ("/" +:+ rest) = "/" +:+ trimEnd rest) as ->
        by exact (trimEnd_append "" slash rest eq_refl). f_equal.
      apply (trimEnd_below (join "/" home)). unfold abs_path in Htrim, Hrest.
      change ("/" +:+ join "/" segs) with (String slash (join "/" segs)) in Htrim.
      rewrite trim_visible in Htrim by done. injection Htrim as Htrim.
      assert (join "/" segs = join "/" home +:+ "/" +:+ rest) as Hj by (by injection Hrest).
      by rewrite <- Hj. }
    unfold resolveRuntimePathInput. change ("~" +:+ "/" +:+ rest) with ("~/" +:+ rest). rewrite Ht.
    change (truthy ("~/" +:+ rest)) with true. cbv zeta iota.
    assert (no_unit backslash rest = true) as Hnb.
    { pose proof (abs_no_backslash segs Hall) as H. rewrite Hrest, !no_unit_append in H. by bool_prop. }
    rewrite normalize_id by (simpl; done).
    change (truthy (abs_path home)) with true. rewrite (proj2 (startsWith_spec "~/" _)) by (by exists rest).
    rewrite bool_decide_eq_false_2 by (by destruct rest). simpl strDrop. simpl andb.
    rewrite normalizeJoined_abs, normalize_id by done.
    assert (segs = home ++ filterb keepSegment (splitOn slash rest)) as Hsegs.
    { rewrite <- (segments_of_abs segs Hall), Hrest.
      change ("/" +:+ rest) with (String slash rest). rewrite splitOn_app.
      unfold filterb. rewrite List.filter_app. fold (filterb keepSegment (splitOn slash (abs_path home))).
      by rewrite segments_of_abs. }
    rewrite <- Hrest. rewrite Hsegs in Hall |- *. apply Forall_app in Hall as [_ Hall].
    by rewrite push_clean.
  - unfold resolveRuntimePathInput. rewrite Htrim. change (truthy (abs_path segs)) with true.
    cbv zeta iota. rewrite normalize_id by (by apply abs_no_backslash).
    rewrite bool_decide_eq_false_2 by done. simpl andb.
    change (startsWith "~/" (abs_path segs)) with false.
    change (isAbsolutePath (abs_path segs)) with true. simpl. by apply abs_trim.
Qed.

(** Whatever the backend answers, the supported locales are not empty, list
    no locale twice, and are the answered ones in some order when there is at
    least one. *)
Theorem normalizeLocaleSettings_spec locale supported :
  let '(l, ls) := normalizeLocaleSettings locale supported in
  ls <> [] /\ NoDup ls /\ l = normalizeAppLocale locale /\
  (forall s ss, supported = Some (s :: ss) -> forall x, x ∈ ls <-> x ∈ normalizeAppLocale <$> s :: ss).
Proof.
  unfold normalizeLocaleSettings.
  set (l := match supported with Some l => normalizeAppLocale <$> l | None => defaultSupportedLocales end).
  assert (NoDup defaultSupportedLocales) as Hdef by (by apply (bool_decide_unpack _); vm_compute).
  destruct (uniqueLocales l) as [|x u] eqn:E.
  - split_and!; try done. intros s ss -> y. exfalso.
    assert (normalizeAppLocale s ∈ uniqueLocales l) as H; [|rewrite E in H; by apply elem_of_nil in H].
    apply uniqueLocales_elem. left.
  - split_and!; [done|rewrite <- E; apply uniqueLocales_NoDup|done|].
    intros s ss -> y. rewrite <- E. apply uniqueLocales_elem.
Qed.

(** ** Divergences *)

(** The parent of an entry of a drive root is the bare drive, not the root
    directory of the drive. *)
Example parent_of_drive_entry :
  getRuntimePathParent (joinRuntimePath "C:/" "foo") = Some "C:" /\ joinRuntimePath "C:/" "." = "C:/".
Proof. split; vm_compute; reflexivity. Qed.

(** ** Witnesses *)

Lemma join_parent_roundtrip_witness :
  getRuntimePathParent (joinRuntimePath (abs_path ["home"; "me"]) "notes.txt") = Some "/home/me".
Proof.
  apply (join_parent_roundtrip ["home"; "me"] "notes.txt" 1).
  - repeat constructor.
  - reflexivity.
  - simpl. lia.
Defined.

Lemma join_is_normalised_witness :
  exists segs', joinRuntimePath "/home/me" "..\../../x//./y" = abs_path segs'.
Proof.
  destruct (join_is_normalised ["home"; "me"] "..\../../x//./y") as (segs' & H & _).
  - repeat constructor.
  - exists segs'. exact H.
Defined.

Lemma display_resolve_roundtrip_witness :
  resolveRuntimePathInput (formatRuntimePathForDisplay "/home/me/src" "/home/me") "/home/me" "/tmp" =
    "/home/me/src" /\ formatRuntimePathForDisplay "/home/me/src" "/home/me" = "~/src".
Proof.
  split; [|reflexivity].
  apply (display_resolve_roundtrip ["home"; "me"; "src"] ["home"; "me"] "/tmp").
  - repeat constructor.
  - repeat constructor.
  - vm_compute. reflexivity.
Defined.
