(* ===== verification/CommanderApi.v ===== *)
(** * The commander's backend client

    [frontend/src/features/commander/api/client.ts]: how answers of the
    file-system API become directory entries and file snapshots, the request
    bodies of the mutations, and the errors.  [fetch] itself is not modelled:
    a request is the value of [FSRequest] that the code would send. *)
From Stdlib Require Import Ascii String.
From stdpp Require Import strings.
From S2P Require Import Prelude JsString Types RuntimePath.
Local Open Scope string_scope.
Local Open Scope list_scope.
Local Open Scope Z_scope.

(** ** Payloads *)

Inductive FSNodeType := NodeDirectory | NodeFile.

Record FSNode := mkFSNode {
  n_modified_time : option Z;
  n_name : string;
  n_size : option Z;
  n_type : FSNodeType
}.

Record FSListPayload := mkFSList {
  fl_directories : option (list FSNode);
  fl_files : option (list FSNode);
  fl_path : string
}.

Record FSReadPayload := mkFSRead {
  fr_path : string;
  fr_preview : string;
  fr_preview_available : bool;
  fr_preview_bytes : option Z;
  fr_preview_kind : option CommanderFilePreviewKind;
  fr_size_bytes : option Z;
  fr_truncated : bool
}.

Record FSFilePayload := mkFSFile { ff_content : string; ff_path : string }.

Record CopyEntry := mkCopyEntry { ce_source_path : string; ce_target_path : string }.
Record RenameEntry := mkRenameEntry { re_next_name : string; re_path : string }.

(** The mutations, by the route and the body that they send. *)
Inductive FSRequest :=
  | ReqMkdir (path : string)
  | ReqCopy (sourcePaths : list string) (targetPath : string) (overwrite : bool)
  | ReqCopyToPaths (entries : list CopyEntry) (overwrite : bool)
  | ReqMove (sourcePaths : list string) (targetPath : string) (overwrite : bool)
  | ReqDelete (paths : list string)
  | ReqRename (entries : list RenameEntry) (overwrite : bool)
  | ReqWriteFile (path content : string)
  | ReqOpen (path : string).

(** What a request can throw: a [CommanderAPIError], another [Error], or a
    value that is no error. *)
Inductive CommanderError :=
  | CommanderAPIError (status : Z) (code message : string)
  | OtherError (message : string)
  | NotAnError.

(** The error of an answer that is not ok; [None] is a missing property. *)
Definition apiError (status : Z) (code message : option string) : CommanderError :=
  CommanderAPIError status (nullish code "commander_request_failed")
    (nullish message ("Commander request failed (" +:+ showZ status +:+ ")")).

(** ** Mapping of answers *)

Definition toCommanderEntryId (path name : string) : string := path +:+ "::" +:+ name.

Definition getParentPath (path : string) : string :=
  match lastIndexOf slash path with
  | None | Some 0%nat => "/"
  | Some i => strTake i path
  end.

(** [(size / unit).toFixed(1)] for an integer [size] that is not negative: the
    tenths nearest to the quotient, ties up. *)
Definition toFixed1 (size unit : Z) : string :=
  let n := (20 * size + unit) / (2 * unit) in
  showZ (n / 10) +:+ "." +:+ showZ (n mod 10).

Definition formatBytes (size : Z) : string :=
  if size <? 1024 then showZ size +:+ " B"
  else if size <? 1024 * 1024 then toFixed1 size 1024 +:+ " KB"
  else if size <? 1024 * 1024 * 1024 then toFixed1 size (1024 * 1024) +:+ " MB"
  else toFixed1 size (1024 * 1024 * 1024) +:+ " GB".

(** The UTC calendar date of a day number (days since 1970-01-01), in the
    proleptic Gregorian calendar of [Date]. *)
Definition civilFromDays (days : Z) : Z * Z * Z :=
  let z := days + 719468 in
  let era := z / 146097 in
  let doe := z - era * 146097 in
  let yoe := (doe - doe / 1460 + doe / 36524 - doe / 146096) / 365 in
  let doy := doe - (365 * yoe + yoe / 4 - yoe / 100) in
  let mp := (5 * doy + 2) / 153 in
  let d := doy - (153 * mp + 2) / 5 + 1 in
  let m := if mp <? 10 then mp + 3 else mp - 9 in
  let y := yoe + era * 400 + (if m <=? 2 then 1 else 0) in
  (y, m, d).

(** [String(n).padStart(2, '0')] *)
Definition pad2 (n : Z) : string := padZeros 2 (showZ n).

(** A timestamp in whole seconds; [Date] has no time beyond 8.64e15 ms. *)
Definition formatModifiedTime (timestamp : option Z) : string :=
  match timestamp with
  | None => ""
  | Some t =>
      if t =? 0 then ""
      else if 8640000000000000 <? Z.abs (t * 1000) then ""
      else
        let '(year, month, day) := civilFromDays (t / 86400) in
        let secs := t mod 86400 in
        showZ year +:+ "-" +:+ pad2 month +:+ "-" +:+ pad2 day +:+ " " +:+
          pad2 (secs / 3600) +:+ ":" +:+ pad2 (secs / 60 mod 60)
  end.

Definition getEntryExtension (name : string) (kind : CommanderRowKind) : string :=
  if decide (kind = KindFile) then
    match lastIndexOf dot name with
    | None | Some 0%nat => ""
    | Some i =>
        if (i =? String.length name - 1)%nat then "" else toLowerCase (strDrop (i + 1) name)
    end
  else "".

Definition mapFSNode (path : string) (node : FSNode) : CommanderDirectoryEntry :=
  let kind := match n_type node with NodeDirectory => KindFolder | NodeFile => KindFile end in
  let size := nullish (n_size node) 0 in
  mkEntry (toCommanderEntryId path (n_name node)) (n_name node)
    (getEntryExtension (n_name node) kind) kind
    (if decide (kind = KindFile) then formatBytes size else "")
    (if decide (kind = KindFile) then Some size else None)
    (formatModifiedTime (n_modified_time node)) (startsWith "." (n_name node)) None None None.

(** The query parameter of a listing, when one is set. *)
Definition listQuery (query : option string) : option string :=
  truthyOpt (trim <$> query).

Definition directorySnapshot (payload : FSListPayload) : CommanderDirectorySnapshot :=
  mkDirSnapshot (fl_path payload)
    (mapFSNode (fl_path payload) <$>
       nullish (fl_directories payload) [] ++ nullish (fl_files payload) []).

(** [path.slice(0, path.lastIndexOf('/')) || '/'], where the index can be [-1]. *)
Definition snapshotDirectory (path : string) : string :=
  let dir :=
    match lastIndexOf slash path with
    | Some i => strTake i path
    | None => strTake (String.length path - 1) path
    end in
  if truthy dir then dir else "/".

(** [path.split('/').pop() ?? path] *)
Definition pathEntryName (path : string) : string := nullish (lastOf (splitOn slash path)) path.

Definition newline : string := String (ascii_of_nat 10) "".

Definition previewSnapshot (payload : FSReadPayload) : CommanderFileSnapshot :=
  let path := fr_path payload in
  let content := if fr_preview_available payload then fr_preview payload else "" in
  mkFileSnapshot (toCommanderEntryId (snapshotDirectory path) (pathEntryName path))
    (pathEntryName path) (snapshotDirectory path)
    (if fr_truncated payload then content +:+ newline +:+ newline +:+ "[Preview truncated.]"
     else content)
    (fr_preview_available payload)
    (if decide (fr_preview_kind payload = Some PreviewHex) then PreviewHex else PreviewText)
    (fr_preview_bytes payload) (fr_size_bytes payload) (Some (fr_truncated payload)).

(** The snapshot of a whole file, after reading or writing it. *)
Definition fileSnapshot (payload : FSFilePayload) : CommanderFileSnapshot :=
  let path := ff_path payload in
  mkFileSnapshot (toCommanderEntryId (snapshotDirectory path) (pathEntryName path))
    (pathEntryName path) (snapshotDirectory path) (ff_content payload) true PreviewText None None None.

Record CreatedDirectory := mkCreated {
  cd_entryId : string;
  cd_entryName : string;
  cd_parentPath : string;
  cd_path : string
}.

Definition createdDirectory (path : string) : CreatedDirectory :=
  mkCreated (toCommanderEntryId (getParentPath path) (pathEntryName path)) (pathEntryName path)
    (getParentPath path) path.

Definition toCommanderEntryPath (directoryPath entryName : string) : string :=
  joinRuntimePath directoryPath entryName.
