(* ===== verification/ViewModel.v ===== *)
(** * View state of the commander

    [frontend/src/features/commander/model/view-model.ts]: the state that the
    widget renders, the messages of load errors, and the helpers of the
    asynchronous flows that need no request. *)
From Stdlib Require Import Ascii String.
From stdpp Require Import strings.
From S2P Require Import Prelude JsString Types RuntimePath CommanderApi Mask Selection PaneState Navigation.
Local Open Scope string_scope.
Local Open Scope list_scope.
Local Open Scope Z_scope.

(** ** Definitions *)

Definition formatSelectedSize (totalBytes : Z) : string :=
  if totalBytes <=? 0 then "0 B"
  else if totalBytes <? 1024 then showZ totalBytes +:+ " B"
  else if totalBytes <? 1024 * 1024 then toFixed1 totalBytes 1024 +:+ " KB"
  else toFixed1 totalBytes (1024 * 1024) +:+ " MB".

(** The [reduce] of [getCommanderSelectedSize]. *)
Definition selectedBytes (entries : list CommanderDirectoryEntry) (selectedIds : list string) : Z :=
  foldl (fun total e => total + nullish (e_sizeBytes e) 0) 0
    (filterb (fun e => includes (e_id e) selectedIds) entries).

Definition getCommanderSelectedSize (entries : list CommanderDirectoryEntry)
    (selectedIds : list string) : string := formatSelectedSize (selectedBytes entries selectedIds).

(** [homeDir] is [None] while there is no runtime context. *)
Definition toPaneViewState (w : CommanderWidgetRuntimeState) (p : CommanderPaneRuntimeState)
    (homeDir : option string) : CommanderPaneViewState :=
  mkPaneView (p_id p) (p_path p)
    (match homeDir with
     | Some home => formatRuntimePathForDisplay (p_path p) home
     | None => p_path p
     end)
    (p_filterQuery p) (0 <? length (p_historyBack p))%nat (0 <? length (p_historyForward p))%nat
    (p_isLoading p) (p_errorMessage p)
    (mkCounters (length (p_entries p)) (length (p_selectedIds p))
       (getCommanderSelectedSize (p_entries p) (p_selectedIds p)))
    ((fun e => mkRow (e_id e) (e_name e) (e_ext e) (e_kind e) (e_sizeLabel e) (e_modified e)
        (e_hidden e) (includes (e_id e) (p_selectedIds p))
        (bool_decide (w_activePane w = p_id p) && bool_decide (p_cursorEntryId p = Some (e_id e)))
        (e_gitStatus e) (e_executable e) (e_symlinkTarget e)) <$> p_entries p).

Definition toWidgetViewState (w : CommanderWidgetRuntimeState) (homeDir : option string)
    : CommanderWidgetViewState :=
  mkWidgetView (w_viewMode w) (w_activePane w) (w_showHidden w) (w_sortMode w) (w_sortDirection w)
    (w_dirsFirst w) (w_footerHints w) (w_pendingOperation w) (w_fileDialog w)
    (toPaneViewState w (w_leftPane w) homeDir) (toPaneViewState w (w_rightPane w) homeDir).

(** The message of a known error code. *)
Definition errorCodeMessage (code : string) : option string :=
  if bool_decide (code = "fs_path_exists") then Some "Path already exists"
  else if bool_decide (code = "fs_path_outside_workspace") then Some "Path is outside the workspace root"
  else if bool_decide (code = "fs_path_not_found") then Some "Path not found"
  else if bool_decide (code = "invalid_fs_path") then Some "Invalid path"
  else if bool_decide (code = "invalid_fs_name") then Some "Invalid entry name"
  else if bool_decide (code = "invalid_fs_target") then Some "Invalid target path"
  else if bool_decide (code = "invalid_fs_directory") then Some "Target path is not a directory"
  else if bool_decide (code = "invalid_fs_text") then Some "File is not UTF-8 text"
  else if bool_decide (code = "fs_file_too_large") then Some "File is too large for inline editing"
  else None.

Definition toLoadErrorMessage (error : CommanderError) : string :=
  let fallback message :=
    if truthy (trim message) then message else "Unable to load commander data" in
  match error with
  | CommanderAPIError _ code message =>
      match errorCodeMessage code with
      | Some m => m
      | None => fallback message
      end
  | OtherError message => fallback message
  | NotAnError => "Unable to load commander data"
  end.

(** [!/[\\/]/.test(trimmedValue)] behind the three early returns *)
Definition hasSinglePathSegment (inputValue : string) : bool :=
  let trimmedValue := trim inputValue in
  if negb (truthy trimmedValue) || bool_decide (trimmedValue = ".") || bool_decide (trimmedValue = "..")
  then false
  else str_all (fun a => negb (bool_decide (a = backslash) || bool_decide (a = slash))) trimmedValue.

(** [path || repoRoot] for both panes. *)
Definition resolveDefaultPanePaths (repoRoot : string) (w : CommanderWidgetRuntimeState)
    : string * string :=
  let orRoot p := if truthy p then p else repoRoot in
  (orRoot (p_path (w_leftPane w)), orRoot (p_path (w_rightPane w))).

Definition getRuntimePaneState (w : CommanderWidgetRuntimeState) (pane : CommanderPaneId)
    : CommanderPaneRuntimeState :=
  match pane with PaneLeft => w_leftPane w | PaneRight => w_rightPane w end.

Definition isCloneCopyOperation (t : CommanderTransferPendingOperation) : bool :=
  match t with TransferClone _ => true | TransferPane _ => false end.

Definition toEntryIdFromPath (path : string) : string :=
  let stripped := stripTrailing slash (normalizePathSeparators path) in
  let normalizedPath := if truthy stripped then stripped else "/" in
  let parentPath := nullish (getRuntimePathParent normalizedPath) "/" in
  parentPath +:+ "::" +:+ pathEntryName normalizedPath.

Definition toEntryIdsFromPaths (directoryPath : string) (paths : list string) : list string :=
  toEntryIdFromPath <$>
    filterb (fun path => bool_decide (nullish (getRuntimePathParent path) "/" = directoryPath)) paths.

(** ** Lemmas *)

Lemma pathEntryName_snoc segs s :
  Forall (fun s => clean_segment s = true) segs -> clean_segment s = true ->
  pathEntryName (abs_path (segs ++ [s])) = s.
Proof.
  intros Hall Hs. unfold pathEntryName.
  assert (exists l, splitOn slash (abs_path (segs ++ [s])) = l ++ [s]) as [l ->].
  { apply clean_segment_spec in Hs as (_ & _ & _ & Hs & _).
    destruct segs as [|x l].
    - exists [""]. change (abs_path ([] ++ [s])) with ("" +:+ String slash s).
      rewrite splitOn_app. by rewrite (splitOn_no_unit slash s).
    - exists (splitOn slash (abs_path (x :: l))). rewrite abs_snoc by done.
      change ("/" +:+ s) with (String slash s). rewrite splitOn_app.
      by rewrite (splitOn_no_unit slash s). }
  by rewrite lastOf_app.
Qed.

Lemma getParentPath_snoc segs s :
  Forall (fun s => clean_segment s = true) segs -> clean_segment s = true ->
  getParentPath (abs_path (segs ++ [s])) = abs_path segs.
Proof.
  intros Hall Hs. unfold getParentPath.
  apply clean_segment_spec in Hs as (_ & _ & _ & Hs & _). apply lastIndexOf_None in Hs.
  destruct segs as [|x l].
  - change (abs_path ([] ++ [s])) with ("" +:+ String slash s). by rewrite lastIndexOf_app.
  - rewrite abs_snoc by done. change ("/" +:+ s) with (String slash s).
    rewrite lastIndexOf_app by done. by rewrite strTake_append.
Qed.

Lemma toEntryId_snoc segs s :
  Forall (fun s => clean_segment s = true) segs -> clean_segment s = true ->
  toEntryIdFromPath (abs_path (segs ++ [s])) = toCommanderEntryId (abs_path segs) s.
Proof.
  intros Hall Hs. assert (Forall (fun s => clean_segment s = true) (segs ++ [s])) as Hall'
    by (apply Forall_app; auto).
  unfold toEntryIdFromPath. rewrite normalize_id by (by apply abs_no_backslash).
  destruct (abs_last (segs ++ [s])) as (t & a & E & Ha); [done|by destruct segs|].
  rewrite E, stripTrailing_keep, <- E by done.
  change (truthy (abs_path (segs ++ [s]))) with true. cbv iota zeta.
  by rewrite parent_snoc, pathEntryName_snoc.
Qed.

(** One row has a given id when ids are distinct. *)
Lemma one_row_with_id (l : list CommanderDirectoryEntry) x :
  NoDup (entry_ids l) -> x ∈ entry_ids l ->
  length (filterb (fun e => bool_decide (Some x = Some (e_id e))) l) = 1%nat.
Proof.
  induction l as [|e l IH]; intros Hnd Hx; [by apply elem_of_nil in Hx|].
  apply NoDup_cons in Hnd as [He Hnd]. apply elem_of_cons in Hx.
  unfold filterb in *. simpl. destruct (decide (e_id e = x)) as [<-|Hne].
  - rewrite bool_decide_eq_true_2 by done. simpl. f_equal.
    fold (filterb (fun e0 => bool_decide (Some (e_id e) = Some (e_id e0))) l).
    rewrite filterb_none; [done|]. intros e' He'. apply bool_decide_eq_false_2. intros [= Heq].
    apply He. apply elem_of_entry_ids. eauto.
  - rewrite bool_decide_eq_false_2 by congruence. apply IH; [done|]. destruct Hx; [done|done].
Qed.

Lemma selected_rows_count (l : list CommanderDirectoryEntry) sel :
  NoDup (entry_ids l) -> NoDup sel -> (forall x, x ∈ sel -> x ∈ entry_ids l) ->
  length (filterb (fun e => includes (e_id e) sel) l) = length sel.
Proof.
  intros Hl Hs Hsub. rewrite <- (length_fmap e_id). apply Permutation_length, NoDup_Permutation; [|done|].
  - eapply sublist_NoDup; [exact Hl|]. apply fmap_sublist, filterb_sublist.
  - intros x. rewrite list_elem_of_fmap. setoid_rewrite elem_of_filterb.
    setoid_rewrite includes_true. split; [naive_solver|].
    intros Hx. apply Hsub in Hx as Hin. apply elem_of_entry_ids in Hin as (e & He & <-). eauto.
Qed.

(** ** Properties *)

(** The ids of a pane's entries and the ids computed from the paths that a
    mutation answers agree: for an absolute directory and an entry name in it,
    the path of the entry gives back the id that the listing assigned, a path
    in another directory is left out, and a created directory is found under
    the same id with the directory as its parent. *)
Theorem entry_ids_from_paths segs other node :
  Forall (fun s => clean_segment s = true) segs -> Forall (fun s => clean_segment s = true) other ->
  clean_segment (n_name node) = true -> other <> segs ->
  let dir := abs_path segs in
  let path := toCommanderEntryPath dir (n_name node) in
  toEntryIdsFromPaths dir [toCommanderEntryPath (abs_path other) (n_name node); path] =
    [e_id (mapFSNode dir node)] /\
  cd_entryId (createdDirectory path) = e_id (mapFSNode dir node) /\
  cd_parentPath (createdDirectory path) = dir /\ cd_entryName (createdDirectory path) = n_name node.
Proof.
  intros Hall Hother Hname Hne dir path. unfold path, toCommanderEntryPath, dir.
  rewrite !join_clean by done. unfold createdDirectory. simpl cd_entryId. simpl cd_parentPath.
  simpl cd_entryName. rewrite getParentPath_snoc, pathEntryName_snoc by done.
  split_and!; try done. unfold toEntryIdsFromPaths, filterb. simpl List.filter.
  rewrite !parent_snoc by done. simpl nullish.
  rewrite bool_decide_eq_false_2, bool_decide_eq_true_2; [|done|].
  - simpl. by rewrite toEntryId_snoc.
  - intros E. apply Hne. rewrite <- (segments_of_abs segs Hall), <- (segments_of_abs other Hother).
    by rewrite E.
Qed.

(** A directory name is accepted exactly when, trimmed, it names one entry,
    and then the path sent to the backend is directly below the directory. *)
Theorem hasSinglePathSegment_spec segs inputValue :
  hasSinglePathSegment inputValue = clean_segment (trim inputValue) /\
  (Forall (fun s => clean_segment s = true) segs -> hasSinglePathSegment inputValue = true ->
   getRuntimePathParent (toCommanderEntryPath (abs_path segs) (trim inputValue)) =
     Some (abs_path segs)).
Proof.
  assert (hasSinglePathSegment inputValue = clean_segment (trim inputValue)) as Heq.
  { unfold hasSinglePathSegment, clean_segment. set (t := trim inputValue). cbv zeta.
    destruct (truthy t); [|done]. repeat case_bool_decide; try done. simpl.
    apply str_all_eq. intros a. by rewrite negb_orb, andb_comm. }
  split; [done|]. intros Hall H. rewrite Heq in H. unfold toCommanderEntryPath.
  rewrite join_clean by done. by apply parent_snoc.
Qed.

(** The rendered widget shows one cursor: in a well-formed widget whose
    active pane has rows exactly one of its rows is focused and no row of the
    other pane is; each pane shows one row per visible entry, and when the
    selection lists no id twice the counter of selected items is the number of
    rows drawn as selected. *)
Theorem one_focused_row `{Locale} w home :
  let pane := w_activePane w in
  let p := getPaneState w pane in
  widget_ok w -> NoDup (entry_ids (p_entries p)) -> p_entries p <> [] -> NoDup (p_selectedIds p) ->
  let view := toPaneViewState w p home in
  let other := toPaneViewState w (getPaneState w (other_pane pane)) home in
  length (filterb r_focused (pv_rows view)) = 1%nat /\ filterb r_focused (pv_rows other) = [] /\
  r_id <$> pv_rows view = entry_ids (p_entries p) /\ ct_items (pv_counters view) = length (pv_rows view) /\
  ct_selectedItems (pv_counters view) = length (filterb r_selected (pv_rows view)).
Proof.
  intros pane p Hok Hnd Hne Hsel view other.
  destruct (Hok pane) as [[_ Hm] Hid]. destruct (Hok (other_pane pane)) as [_ Hid'].
  fold p in Hm, Hid. destruct (Hm Hne) as (Hsub & (c & Hc & Hcin) & _).
  split_and!.
  - unfold view, toPaneViewState. cbn [pv_rows]. rewrite filterb_map, length_fmap.
    cbn [r_focused]. fold pane. rewrite Hid, bool_decide_eq_true_2, Hc by done. simpl andb.
    by apply one_row_with_id.
  - unfold other, toPaneViewState. cbn [pv_rows]. rewrite filterb_map. cbn [r_focused]. fold pane.
    rewrite Hid', bool_decide_eq_false_2 by (by destruct pane). simpl andb.
    by rewrite filterb_none.
  - unfold view, toPaneViewState. cbn [pv_rows]. by rewrite <- list_fmap_compose.
  - unfold view, toPaneViewState. cbn [pv_rows pv_counters ct_items]. by rewrite length_fmap.
  - unfold view, toPaneViewState. cbn [pv_rows pv_counters ct_selectedItems].
    rewrite filterb_map, length_fmap. cbn [r_selected]. symmetry. by apply selected_rows_count.
Qed.

(** ** Witnesses *)

Lemma entry_ids_from_paths_witness :
  let node := mkFSNode None "a.txt" (Some 5) NodeFile in
  toEntryIdsFromPaths "/d" ["/e/a.txt"; "/d/a.txt"] = [e_id (mapFSNode "/d" node)].
Proof.
  intros node. apply (entry_ids_from_paths ["d"] ["e"] node).
  - repeat constructor.
  - repeat constructor.
  - reflexivity.
  - discriminate.
Defined.

Lemma hasSinglePathSegment_spec_witness :
  getRuntimePathParent (toCommanderEntryPath "/home/me" (trim " New folder ")) = Some "/home/me".
Proof.
  apply (hasSinglePathSegment_spec ["home"; "me"] " New folder ").
  - repeat constructor.
  - reflexivity.
Defined.

Lemma one_focused_row_witness :
  let w := two_panes None ["/d::b.txt"] in
  length (filterb r_focused (pv_rows (toPaneViewState w (getPaneState w PaneLeft) None))) = 1%nat.
Proof.
  intros w. apply (one_focused_row w None).
  - intros []; (split; [split|reflexivity]); try (vm_compute; reflexivity).
    + apply marks_sample. by apply (bool_decide_unpack _); vm_compute.
    + by apply marks_ok_empty.
  - by apply (bool_decide_unpack _); vm_compute.
  - discriminate.
  - by apply (bool_decide_unpack _); vm_compute.
Defined.
