(* ===== verification/Loader.v ===== *)
(** * Loading directories

    [loadPaneDirectory] and its callers in
    [frontend/src/features/commander/model/hooks.ts]: a load takes a fresh
    request number for its pane, flags the pane and awaits the backend; the
    answers arrive in any order, and an answer whose number is no longer the
    pane's is dropped.  The awaiting calls are the in-flight list of the state,
    and an event is the start of a call or the arrival of an answer.  The last
    section adds the life of the hook: its mount, the context, the first loads. *)
From stdpp Require Import strings.
From S2P Require Import Prelude JsString Types RuntimePath CommanderApi Mask Selection PaneState Navigation Preview Operations Store ViewModel.
Local Open Scope string_scope.
Local Open Scope list_scope.
Local Open Scope nat_scope.

(** ** State *)

(** The optional overrides of a load; [None] is an absent or undefined property. *)
Record LoadOptions := mkLoadOptions {
  lo_cursorEntryId : option string;
  lo_filterQuery : option string;
  lo_selectedIds : option (list string);
  lo_selectionAnchorEntryId : option string
}.
#[global] Instance load_options_eq : EqDecision LoadOptions.
Proof. solve_decision. Defined.

Definition no_options : LoadOptions := mkLoadOptions None None None None.

(** A call of [loadPaneDirectory] that awaits its answer, with what it closed over. *)
Record LoadRequest := mkRequest {
  rq_pane : CommanderPaneId;
  rq_id : nat;
  rq_path : string;
  rq_filterQuery : string;
  rq_historyMode : HistoryMode;
  rq_options : LoadOptions
}.
#[global] Instance load_request_eq : EqDecision LoadRequest.
Proof. solve_decision. Defined.

Record Loader := mkLoader {
  ld_ids : CommanderPaneId -> nat;
  ld_flight : list LoadRequest;
  ld_widgets : CommanderWidgets
}.

Inductive LoaderEvent :=
  | LoadStart (pane : CommanderPaneId) (path : string) (mode : HistoryMode) (options : LoadOptions)
  | LoadOk (r : LoadRequest) (snapshot : CommanderDirectorySnapshot)
  | LoadFail (r : LoadRequest) (error : CommanderError).

Section Loader.
Context `{Locale}.
Variables (widgetId : string) (persisted : option CommanderWidgetPersistedState).

(** ** Operations *)

(** [commanderWidgets[widgetId] ?? bootstrapRuntimeState] *)
Definition runtimeState (widgets : CommanderWidgets) : CommanderWidgetRuntimeState :=
  nullish (widgets !! widgetId) (createCommanderWidgetRuntimeState widgetId persisted).

Definition bumpId (ids : CommanderPaneId -> nat) (pane : CommanderPaneId) : CommanderPaneId -> nat :=
  fun q => if decide (q = pane) then S (ids q) else ids q.

(** The call up to its [await]. *)
Definition startLoad (s : Loader) (pane : CommanderPaneId) (path : string) (mode : HistoryMode)
    (options : LoadOptions) : Loader :=
  let ids := bumpId (ld_ids s) pane in
  let widgets := step (ld_widgets s) widgetId (SetPaneLoading pane) in
  let paneState := getRuntimePaneState (runtimeState (ld_widgets s)) pane in
  let filterQuery := nullish (lo_filterQuery options) (p_filterQuery paneState) in
  mkLoader ids (ld_flight s ++ [mkRequest pane (ids pane) path filterQuery mode options]) widgets.

(** The payload of a load: the three overrides are properties of it in any case. *)
Definition hydratePayload (r : LoadRequest) (snapshot : CommanderDirectorySnapshot) : HydratePayload :=
  mkHydrate (rq_pane r) (ds_entries snapshot) (Some (lo_cursorEntryId (rq_options r)))
    (Some (rq_filterQuery r)) (Some (rq_historyMode r)) (ds_path snapshot)
    (Some (lo_selectedIds (rq_options r))) (Some (lo_selectionAnchorEntryId (rq_options r))).

Definition dropRequest (r : LoadRequest) (l : list LoadRequest) : list LoadRequest :=
  filterb (fun x => negb (bool_decide (x = r))) l.

Definition isCurrent (s : Loader) (r : LoadRequest) : bool := rq_id r =? ld_ids s (rq_pane r).

(** The continuation after the [await], when the listing arrived. *)
Definition loadSucceeded (s : Loader) (r : LoadRequest) (snapshot : CommanderDirectorySnapshot) : Loader :=
  let flight := dropRequest r (ld_flight s) in
  if isCurrent s r then
    mkLoader (ld_ids s) flight
      (step (ld_widgets s) widgetId (HydratePaneDirectory (hydratePayload r snapshot)))
  else mkLoader (ld_ids s) flight (ld_widgets s).

(** The [catch] branch. *)
Definition loadFailed (s : Loader) (r : LoadRequest) (error : CommanderError) : Loader :=
  let flight := dropRequest r (ld_flight s) in
  if isCurrent s r then
    mkLoader (ld_ids s) flight
      (step (ld_widgets s) widgetId
        (SetPaneLoadError (rq_pane r) (Some (rq_path r)) (Some (toLoadErrorMessage error))))
  else mkLoader (ld_ids s) flight (ld_widgets s).

Definition loaderStep (s : Loader) (e : LoaderEvent) : Loader :=
  match e with
  | LoadStart pane path mode options => startLoad s pane path mode options
  | LoadOk r snapshot => if includes r (ld_flight s) then loadSucceeded s r snapshot else s
  | LoadFail r error => if includes r (ld_flight s) then loadFailed s r error else s
  end.

Definition runLoader (s : Loader) (es : list LoaderEvent) : Loader := foldl loaderStep s es.

(** A fresh hook on a store. *)
Definition initLoader (widgets : CommanderWidgets) : Loader := mkLoader (fun _ => 0) [] widgets.

(** ** Callers *)

(** What a caller asks [loadPaneDirectory] for. *)
Definition LoadCall : Type := CommanderPaneId * string * HistoryMode * LoadOptions.

Definition initialLoads (repoRoot : string) (w : CommanderWidgetRuntimeState) : list LoadCall :=
  let '(leftPath, rightPath) := resolveDefaultPanePaths repoRoot w in
  [(PaneLeft, leftPath, ModeReplace, no_options); (PaneRight, rightPath, ModeReplace, no_options)].

Inductive OpenedEntry := OpenNothing | OpenDirectory (call : LoadCall) | OpenPreview (pane : CommanderPaneId) (entryId : string).

Definition openPaneEntry (w : CommanderWidgetRuntimeState) (pane : CommanderPaneId) (entryId : string)
    : OpenedEntry :=
  let p := getRuntimePaneState w pane in
  match find (has_id entryId) (p_entries p) with
  | None => OpenNothing
  | Some e =>
      match e_kind e with
      | KindFolder => OpenDirectory (pane, toCommanderEntryPath (p_path p) (e_name e), ModePush, no_options)
      | KindFile => OpenPreview pane entryId
      | KindSymlink => OpenNothing
      end
  end.

Definition setPanePath (w : CommanderWidgetRuntimeState) (homeDir : option string)
    (pane : CommanderPaneId) (pathInput : string) : option LoadCall :=
  match homeDir with
  | None => None
  | Some home =>
      let p := getRuntimePaneState w pane in
      let nextPath := resolveRuntimePathInput pathInput home (p_path p) in
      if negb (truthy nextPath) || bool_decide (nextPath = p_path p) then None
      else Some (pane, nextPath, ModePush, no_options)
  end.

Definition goPaneParent (w : CommanderWidgetRuntimeState) (pane : CommanderPaneId) : option LoadCall :=
  match truthyOpt (getRuntimePathParent (p_path (getRuntimePaneState w pane))) with
  | None => None
  | Some parentPath => Some (pane, parentPath, ModePush, no_options)
  end.

Definition goPaneBack (w : CommanderWidgetRuntimeState) (pane : CommanderPaneId) : option LoadCall :=
  match truthyOpt (lastOf (p_historyBack (getRuntimePaneState w pane))) with
  | None => None
  | Some targetPath => Some (pane, targetPath, ModeBack, no_options)
  end.

Definition goPaneForward (w : CommanderWidgetRuntimeState) (pane : CommanderPaneId) : option LoadCall :=
  match truthyOpt (lastOf (p_historyForward (getRuntimePaneState w pane))) with
  | None => None
  | Some targetPath => Some (pane, targetPath, ModeForward, no_options)
  end.

Definition reloadPaneSelection (pane : CommanderPaneId) (path : string) (entryPaths : list string)
    : LoadCall :=
  let selectedIds := toEntryIdsFromPaths path entryPaths in
  (pane, path, ModeReplace,
   mkLoadOptions (head selectedIds) None (Some selectedIds) (head selectedIds)).

(** ** Invariant *)

(** Request numbers in flight are at most the current one of their pane, and
    no two requests of a pane share one. *)
Definition loader_ok (s : Loader) : Prop :=
  (forall r, r ∈ ld_flight s -> rq_id r <= ld_ids s (rq_pane r)) /\
  (forall r r', r ∈ ld_flight s -> r' ∈ ld_flight s ->
     rq_pane r = rq_pane r' -> rq_id r = rq_id r' -> r = r').

(** An event that does not start a load of the pane. *)
Definition no_start (pane : CommanderPaneId) (e : LoaderEvent) : Prop :=
  match e with LoadStart q _ _ _ => q <> pane | _ => True end.

(** ** Lemmas *)

Lemma elem_of_dropRequest r l x : x ∈ dropRequest r l <-> x ∈ l /\ x <> r.
Proof. unfold dropRequest. by rewrite elem_of_filterb, negb_true_iff, bool_decide_eq_false. Qed.

Lemma loader_ok_drop s r widgets :
  loader_ok s -> loader_ok (mkLoader (ld_ids s) (dropRequest r (ld_flight s)) widgets).
Proof.
  intros [H1 H2]. split; simpl.
  - intros x [Hx _]%elem_of_dropRequest. by apply H1.
  - intros x y [Hx _]%elem_of_dropRequest [Hy _]%elem_of_dropRequest. by apply H2.
Qed.

Lemma loader_ok_start s pane path mode options : loader_ok s -> loader_ok (startLoad s pane path mode options).
Proof.
  intros [H1 H2]. unfold startLoad. split; simpl.
  - intros x [Hx| ->%list_elem_of_singleton]%elem_of_app; [|done].
    specialize (H1 x Hx). unfold bumpId. case_decide; lia.
  - intros x y [Hx| ->%list_elem_of_singleton]%elem_of_app [Hy| ->%list_elem_of_singleton]%elem_of_app Hp Hi.
    + by apply H2.
    + simpl in *. specialize (H1 x Hx). unfold bumpId in Hi. rewrite decide_True in Hi by done.
      rewrite Hp in H1. lia.
    + simpl in *. specialize (H1 y Hy). unfold bumpId in Hi. rewrite decide_True in Hi by done.
      rewrite <- Hp in H1. lia.
    + done.
Qed.

Lemma loaderStep_ok s e : loader_ok s -> loader_ok (loaderStep s e).
Proof.
  intros Hok. destruct e as [pane path mode options|r snap|r err]; simpl.
  - by apply loader_ok_start.
  - case_match; [|done]. unfold loadSucceeded. case_match; by apply loader_ok_drop.
  - case_match; [|done]. unfold loadFailed. case_match; by apply loader_ok_drop.
Qed.

Lemma runLoader_ok es s : loader_ok s -> loader_ok (runLoader s es).
Proof.
  revert s. induction es as [|e es IH]; intros s Hok; [done|]. by apply IH, loaderStep_ok.
Qed.

Lemma init_ok widgets : loader_ok (initLoader widgets).
Proof. split; [intros r Hr|intros r r' Hr]; by apply elem_of_nil in Hr. Qed.

(** The widget after a reducer that touches one pane. *)
Lemma step_widget widgets w e w' :
  (forall m, e <> MountWidget m) -> widgets !! widgetId = Some w -> reduce e w = Some w' ->
  step widgets widgetId e !! widgetId = Some w'.
Proof.
  intros Hm Hw Hr.
  assert (step widgets widgetId e = withCommanderWidgetState widgets widgetId (reduce e)) as ->
    by (destruct e as [m| | | | | | | | | | | | | | | | | | | | | | | | | | |]; try done; by destruct (Hm m)).
  by rewrite with_widget_lookup, decide_True, Hw, Hr by done.
Qed.

(** What the pane shows of its directory. *)
Definition shows (s : Loader) (pane : CommanderPaneId) (path : string)
    (entries : list CommanderDirectoryEntry) : Prop :=
  exists w, ld_widgets s !! widgetId = Some w /\ p_path (getPaneState w pane) = path /\
    p_directoryEntries (getPaneState w pane) = entries /\
    p_isLoading (getPaneState w pane) = false.

Lemma shows_other s pane pane' path entries widgets' ids flight w e w' :
  pane' <> pane -> shows s pane path entries -> ld_widgets s !! widgetId = Some w ->
  (forall p, e <> MountWidget p) -> reduce e w = Some w' ->
  getPaneState w' pane = getPaneState w pane ->
  widgets' = step (ld_widgets s) widgetId e ->
  shows (mkLoader ids flight widgets') pane path entries.
Proof.
  intros Hne (w0 & Hw0 & Hp & Hd & Hl) Hw Hm Hr Hsame ->. exists w'. simpl.
  split; [by apply (step_widget _ w)|]. rewrite Hsame. by simplify_eq.
Qed.

Lemma loading_keeps w pane : forall q,
  p_path (getPaneState (paneLoading w pane) q) = p_path (getPaneState w q) /\
  p_directoryEntries (getPaneState (paneLoading w pane) q) = p_directoryEntries (getPaneState w q) /\
  (q <> pane -> getPaneState (paneLoading w pane) q = getPaneState w q).
Proof. intros q. destruct pane, q; by split_and!. Qed.

Lemma loadError_other w pane path err q :
  q <> pane -> getPaneState (paneLoadError w pane path err) q = getPaneState w q.
Proof. intros Hq. by apply get_set_other. Qed.

Lemma hydrate_other w payload q :
  q <> hy_paneId payload -> getPaneState (hydratePane w payload) q = getPaneState w q.
Proof.
  intros Hq. unfold hydratePane, updatePaneState. rewrite get_set_other by done.
  apply getPane_activePane.
Qed.

(** Once the newest request of a pane was answered, the pane keeps that listing
    until another load of it starts. *)
Lemma shows_step s pane path entries e :
  loader_ok s -> (forall r, r ∈ ld_flight s -> rq_pane r = pane -> rq_id r <> ld_ids s pane) ->
  no_start pane e -> shows s pane path entries ->
  shows (loaderStep s e) pane path entries /\
  (forall r, r ∈ ld_flight (loaderStep s e) -> rq_pane r = pane ->
     rq_id r <> ld_ids (loaderStep s e) pane).
Proof.
  intros Hok Hno Hs Hshow. pose proof Hshow as (w & Hw & _).
  assert (forall r widgets', shows (mkLoader (ld_ids s) (dropRequest r (ld_flight s)) widgets') pane path entries ->
    shows (mkLoader (ld_ids s) (dropRequest r (ld_flight s)) widgets') pane path entries /\
    forall x, x ∈ dropRequest r (ld_flight s) -> rq_pane x = pane -> rq_id x <> ld_ids s pane) as Hdrop.
  { intros r widgets' H1. split; [done|]. intros x [Hx _]%elem_of_dropRequest. by apply Hno. }
  destruct e as [q path' mode options|r snap|r err]; simpl in *.
  - split.
    + apply (shows_other s pane q path entries _ _ _ w (SetPaneLoading q) (paneLoading w q));
        try done. by apply loading_keeps.
    + intros x [Hx| ->%list_elem_of_singleton]%elem_of_app Hp; [|done].
      unfold bumpId. rewrite decide_False by done. by apply Hno.
  - destruct (includes r (ld_flight s)) eqn:Er; [|done]. apply includes_true in Er.
    unfold loadSucceeded. destruct (isCurrent s r) eqn:Ec; [|by apply Hdrop].
    apply Nat.eqb_eq in Ec. assert (rq_pane r <> pane) as Hne by (intros <-; by apply (Hno r)).
    apply Hdrop. apply (shows_other s pane (rq_pane r) path entries _ _ _ w
      (HydratePaneDirectory (hydratePayload r snap)) (hydratePane w (hydratePayload r snap)));
      try done. by apply hydrate_other.
  - destruct (includes r (ld_flight s)) eqn:Er; [|done]. apply includes_true in Er.
    unfold loadFailed. destruct (isCurrent s r) eqn:Ec; [|by apply Hdrop].
    apply Nat.eqb_eq in Ec. assert (rq_pane r <> pane) as Hne by (intros <-; by apply (Hno r)).
    set (e := SetPaneLoadError (rq_pane r) (Some (rq_path r)) (Some (toLoadErrorMessage err))).
    apply Hdrop. apply (shows_other s pane (rq_pane r) path entries _ _ _ w e
      (paneLoadError w (rq_pane r) (Some (rq_path r)) (Some (toLoadErrorMessage err))));
      try done. by apply loadError_other.
Qed.

Lemma shows_run es s pane path entries :
  loader_ok s -> (forall r, r ∈ ld_flight s -> rq_pane r = pane -> rq_id r <> ld_ids s pane) ->
  Forall (no_start pane) es -> shows s pane path entries -> shows (runLoader s es) pane path entries.
Proof.
  intros Hok Hno Hall. revert s Hok Hno. induction Hall as [|e es He _ IH]; intros s Hok Hno Hs; [done|].
  destruct (shows_step s pane path entries e) as [H1 H2]; try done.
  apply IH; [by apply loaderStep_ok|done|done].
Qed.

End Loader.

(** ** Properties *)

(** C5: the last request of a pane wins whatever the order of the answers: when
    the newest load of a pane succeeds, the pane shows that listing, and no
    answer to an older load of it, and no load of the other pane, changes it
    afterwards. *)
Theorem latest_request_wins `{Locale} widgetId persisted widgets es es' r snapshot w :
  let s := runLoader widgetId persisted (initLoader widgets) es in
  let pane := rq_pane r in
  r ∈ ld_flight s -> rq_id r = ld_ids s pane -> ld_widgets s !! widgetId = Some w ->
  Forall (no_start pane) es' ->
  shows widgetId (runLoader widgetId persisted s (LoadOk r snapshot :: es')) pane
    (ds_path snapshot) (ds_entries snapshot).
Proof.
  intros s pane Hr Hid Hw Hall.
  assert (loader_ok s) as Hok by apply runLoader_ok, init_ok. clearbody s.
  unfold runLoader. cbn [foldl]. change (foldl (loaderStep widgetId persisted)) with (runLoader widgetId persisted).
  assert (loaderStep widgetId persisted s (LoadOk r snapshot) = loadSucceeded widgetId s r snapshot) as ->.
  { simpl. by rewrite (proj2 (includes_true r _)). }
  unfold loadSucceeded, isCurrent. fold pane. rewrite (proj2 (Nat.eqb_eq _ _) Hid).
  apply shows_run.
  - by apply loader_ok_drop.
  - simpl. intros x [Hx Hne]%elem_of_dropRequest Hp Heq. apply Hne. destruct Hok as [_ Hu].
    apply Hu; try done. congruence.
  - done.
  - exists (hydratePane w (hydratePayload r snapshot)). split.
    + by apply (step_widget widgetId _ w (HydratePaneDirectory (hydratePayload r snapshot))).
    + unfold hydratePane, updatePaneState. cbv zeta.
      change (hy_paneId (hydratePayload r snapshot)) with pane. by rewrite get_set_pane.
Qed.

(** Answers to superseded loads are dropped, success or failure: they leave
    the store as it is. *)
Theorem stale_answer_ignored `{Locale} widgetId persisted s r snapshot error :
  rq_id r <> ld_ids s (rq_pane r) ->
  ld_widgets (loaderStep widgetId persisted s (LoadOk r snapshot)) = ld_widgets s /\
  ld_widgets (loaderStep widgetId persisted s (LoadFail r error)) = ld_widgets s.
Proof.
  intros Hne. simpl. unfold loadSucceeded, loadFailed, isCurrent.
  rewrite (proj2 (Nat.eqb_neq _ _) Hne). by destruct (includes r (ld_flight s)).
Qed.

(** A load without overrides, such as the initial one, resets the marks: the
    cursor and the range anchor go to the first row and nothing is selected,
    so a cursor and a selection that were read back from local storage do not
    survive the initial load. *)
Theorem plain_load_resets_marks `{Locale} widgetId s r snapshot w :
  rq_options r = no_options -> isCurrent s r = true -> ld_widgets s !! widgetId = Some w ->
  exists w', ld_widgets (loadSucceeded widgetId s r snapshot) !! widgetId = Some w' /\
    let q := getPaneState w' (rq_pane r) in
    p_selectedIds q = [] /\ p_cursorEntryId q = e_id <$> head (p_entries q) /\
    p_selectionAnchorEntryId q = p_cursorEntryId q.
Proof.
  intros Ho Hc Hw. unfold loadSucceeded. rewrite Hc. cbn [ld_widgets].
  exists (hydratePane w (hydratePayload r snapshot)). split; [by apply (step_widget widgetId _ w)|].
  unfold hydratePane, updatePaneState. cbv zeta. change (hy_paneId (hydratePayload r snapshot)) with (rq_pane r).
  rewrite get_set_pane. unfold hydratePayload. by rewrite Ho.
Qed.

(** ** Witnesses *)

Definition sample_request (k : nat) : LoadRequest :=
  mkRequest PaneLeft k "/d" "" ModeReplace no_options.

(** Two loads of the left pane in flight. *)
Definition two_loads : list LoaderEvent :=
  [LoadStart PaneLeft "/d" ModeReplace no_options; LoadStart PaneLeft "/d" ModeReplace no_options].

Definition sample_snapshot : CommanderDirectorySnapshot := mkDirSnapshot "/d" [folder_c; file_a].

Lemma latest_request_wins_witness :
  shows "w1" (runLoader "w1" None (runLoader "w1" None (initLoader sample_store) two_loads)
    [LoadOk (sample_request 2) sample_snapshot; LoadOk (sample_request 1) (mkDirSnapshot "/x" [])])
    PaneLeft "/d" [folder_c; file_a].
Proof.
  destruct (ld_widgets (runLoader "w1" None (initLoader sample_store) two_loads) !! "w1") as [w|] eqn:E;
    [|exfalso; vm_compute in E; discriminate].
  apply (latest_request_wins "w1" None sample_store two_loads
    [LoadOk (sample_request 1) (mkDirSnapshot "/x" [])] (sample_request 2) sample_snapshot w).
  - by apply (bool_decide_unpack _); vm_compute.
  - vm_compute. reflexivity.
  - exact E.
  - by repeat constructor.
Defined.

Lemma stale_answer_ignored_witness :
  let s := runLoader "w1" None (initLoader sample_store) two_loads in
  sample_request 1 ∈ ld_flight s /\
  ld_widgets (loaderStep "w1" None s (LoadFail (sample_request 1) NotAnError)) = ld_widgets s.
Proof.
  split; [by apply (bool_decide_unpack _); vm_compute|].
  apply (stale_answer_ignored "w1" None _ (sample_request 1) sample_snapshot NotAnError).
  vm_compute. discriminate.
Defined.

(** A widget whose persisted cursor and selection are on [b.txt]. *)
Definition marked_store : CommanderWidgets :=
  {[ "w1" := createCommanderWidgetRuntimeState "w1" (Some (mkPersistedWidget PaneLeft ViewCommander true
      SortName SortAsc true
      (mkPersistedPane "/d" "" None None (Some "/d::b.txt") (Some "/d::b.txt") ["/d::b.txt"] [] [])
      (mkPersistedPane "/d" "" None None None None [] [] []))) ]}.

Lemma plain_load_resets_marks_witness :
  let s := runLoader "w1" None (initLoader marked_store) [LoadStart PaneLeft "/d" ModeReplace no_options] in
  exists w', ld_widgets (loadSucceeded "w1" s (sample_request 1)
      (mkDirSnapshot "/d" [folder_c; file_a; file_b])) !! "w1" = Some w' /\
    p_selectedIds (getPaneState w' PaneLeft) = [].
Proof.
  intros s. destruct (ld_widgets s !! "w1") as [w|] eqn:E; [|exfalso; vm_compute in E; discriminate].
  destruct (plain_load_resets_marks "w1" s (sample_request 1)
    (mkDirSnapshot "/d" [folder_c; file_a; file_b]) w) as (w' & H1 & H2 & _).
  - reflexivity.
  - vm_compute. reflexivity.
  - exact E.
  - exists w'. split; [exact H1|exact H2].
Defined.

(** ** The life of the hook

    [useCommanderWidget] mounts its widget in the store, asks once for the
    runtime context, and loads both panes when the context is there; a load
    before that does nothing.  An answer after the unmount is ignored. *)

Record CommanderHook := mkHook {
  ho_loader : Loader;
  ho_repoRoot : option string;          (* [runtimeContext] *)
  ho_hasLoaded : bool;                  (* [hasLoadedInitialBackendStateRef] *)
  ho_isCancelled : bool
}.

Inductive HookEvent :=
  | HookMounted
  | HookContext (repoRoot : string)
  | HookContextFailed (error : CommanderError)
  | HookUnmounted
  | HookLoader (e : LoaderEvent).

Section Hook.
Context `{Locale}.
Variables (widgetId : string) (persisted : option CommanderWidgetPersistedState).

Definition onLoader (f : Loader -> Loader) (s : CommanderHook) : CommanderHook :=
  mkHook (f (ho_loader s)) (ho_repoRoot s) (ho_hasLoaded s) (ho_isCancelled s).
Definition onWidgets (f : CommanderWidgets -> CommanderWidgets) (s : Loader) : Loader :=
  mkLoader (ld_ids s) (ld_flight s) (f (ld_widgets s)).

Definition startCall (s : Loader) (call : LoadCall) : Loader :=
  let '(pane, path, mode, options) := call in startLoad widgetId persisted s pane path mode options.

(** The effect of the initial loads. *)
Definition initialLoadsEffect (s : CommanderHook) : CommanderHook :=
  match ho_repoRoot s with
  | Some repoRoot =>
      if ho_hasLoaded s || ho_isCancelled s then s
      else mkHook (foldl startCall (ho_loader s)
                    (initialLoads repoRoot (runtimeState widgetId persisted (ld_widgets (ho_loader s)))))
             (Some repoRoot) true false
  | None => s
  end.

Definition contextFailed (error : CommanderError) (widgets : CommanderWidgets) : CommanderWidgets :=
  let message := Some (toLoadErrorMessage error) in
  step (step widgets widgetId (SetPaneLoadError PaneLeft None message)) widgetId (SetPaneLoadError PaneRight None message).

Definition hookEvent (s : CommanderHook) (e : HookEvent) : CommanderHook :=
  match e with
  | HookMounted => onLoader (onWidgets (fun widgets => step widgets widgetId (MountWidget persisted))) s
  | HookContext repoRoot =>
      if ho_isCancelled s then s else mkHook (ho_loader s) (Some repoRoot) (ho_hasLoaded s) false
  | HookContextFailed error => if ho_isCancelled s then s else onLoader (onWidgets (contextFailed error)) s
  | HookUnmounted => mkHook (ho_loader s) (ho_repoRoot s) (ho_hasLoaded s) true
  | HookLoader (LoadStart _ _ _ _ as e) =>
      match ho_repoRoot s with Some _ => onLoader (fun l => loaderStep widgetId persisted l e) s | None => s end
  | HookLoader e => onLoader (fun l => loaderStep widgetId persisted l e) s
  end.
Definition hookStep (s : CommanderHook) (e : HookEvent) : CommanderHook := initialLoadsEffect (hookEvent s e).
Definition initHook (widgets : CommanderWidgets) : CommanderHook := mkHook (initLoader widgets) None false false.
Definition runHook (s : CommanderHook) (es : list HookEvent) : CommanderHook := foldl hookStep s es.

(** The requests stay numbered as [loader_ok] says; none is sent before the
    context is there, and a mounted hook with a context has sent its first two. *)
Definition hook_ok (s : CommanderHook) : Prop :=
  loader_ok (ho_loader s) /\
  (ho_repoRoot s = None -> ho_hasLoaded s = false /\ ld_flight (ho_loader s) = []) /\
  (is_Some (ho_repoRoot s) -> ho_isCancelled s = false -> ho_hasLoaded s = true).

Lemma startCall_ok l call : loader_ok l -> loader_ok (startCall l call).
Proof. destruct call as [[[pane path] mode] options]. apply loader_ok_start. Qed.

Lemma initialLoadsEffect_ok s :
  loader_ok (ho_loader s) ->
  (ho_repoRoot s = None -> ho_hasLoaded s = false /\ ld_flight (ho_loader s) = []) ->
  hook_ok (initialLoadsEffect s).
Proof.
  intros Hl Hn. unfold initialLoadsEffect. destruct (ho_repoRoot s) as [repoRoot|] eqn:Er.
  - destruct (ho_hasLoaded s || ho_isCancelled s) eqn:E.
    + split; [done|]. split; [by rewrite Er|]. intros _ Hc. by rewrite Hc, orb_false_r in E.
    + split; [|done]. cbn [ho_loader]. by do 2 apply startCall_ok.
  - split; [done|]. split; [by intros _; apply Hn|]. rewrite Er. by intros [? ?].
Qed.

Lemma quiet_flight l e : ld_flight l = [] -> (forall p x m o, e <> LoadStart p x m o) ->
  ld_flight (loaderStep widgetId persisted l e) = [].
Proof. intros Hl He. destruct e; [by destruct (He pane path mode options)|..]; cbn; by rewrite Hl. Qed.

Lemma hookStep_ok s e : hook_ok s -> hook_ok (hookStep s e).
Proof.
  intros (Hl & Hn & _). apply initialLoadsEffect_ok.
  - destruct e as [|repoRoot|error| |[pane path mode options|r snapshot|r error]]; cbn [hookEvent];
      repeat case_match; try done; by apply loaderStep_ok.
  - assert (forall l e, ho_repoRoot s = None -> (forall p x m o, e <> LoadStart p x m o) -> l = ho_loader s ->
      ho_hasLoaded s = false /\ ld_flight (loaderStep widgetId persisted l e) = []) as Hq.
    { intros l e' Hr He ->. destruct (Hn Hr). split; [done|]. by apply quiet_flight. }
    destruct e as [|repoRoot|error| |[pane path mode options|r snapshot|r error]]; cbn [hookEvent];
      repeat case_match; try done; cbn [onLoader ho_repoRoot ho_loader ho_hasLoaded]; intros Hr;
      first [congruence | by apply Hn | by apply Hq].
Qed.
Lemma runHook_ok es widgets : hook_ok (runHook (initHook widgets) es).
Proof.
  assert (hook_ok (initHook widgets)) as H0. { split; [apply init_ok|]. split; [done|]. by intros [? ?]. }
  revert H0. generalize (initHook widgets) as s. induction es as [|e es IH]; intros s Hs; [done|]. by apply IH, hookStep_ok.
Qed.

(** The context that arrives asks for the directories of the two panes, once. *)
Lemma context_loads_both s repoRoot :
  ho_repoRoot s = None -> ho_hasLoaded s = false -> ho_isCancelled s = false -> ld_flight (ho_loader s) = [] ->
  let w := runtimeState widgetId persisted (ld_widgets (ho_loader s)) in
  let '(leftPath, rightPath) := resolveDefaultPanePaths repoRoot w in
  let s' := hookStep s (HookContext repoRoot) in
  ((fun r => (rq_pane r, rq_path r)) <$> ld_flight (ho_loader s')) = [(PaneLeft, leftPath); (PaneRight, rightPath)] /\
  forall repoRoot', ho_loader (hookStep s' (HookContext repoRoot')) = ho_loader s'.
Proof.
  intros Hr Hh Hc Hf. unfold hookStep. cbn [hookEvent]. rewrite Hc. unfold initialLoadsEffect at 1 2 3.
  cbn [ho_repoRoot ho_hasLoaded ho_isCancelled ho_loader]. rewrite Hh. cbn [orb]. unfold initialLoads.
  cbn. rewrite Hf. split; done.
Qed.

End Hook.

(** Without a context nothing is asked for, and the panes are empty with neither
    an error nor the sign of a load: the message of the error is lost in
    [rebuildCommanderPaneState]. *)
Example no_context_shows_nothing :
  let s := runHook "w1" None (initHook ∅)
    [HookMounted; HookLoader (LoadStart PaneLeft "/d" ModePush no_options); HookContextFailed NotAnError] in
  ld_flight (ho_loader s) = [] /\
  ((fun w => let p := w_leftPane w in (p_isLoading p, p_errorMessage p, p_entries p)) <$> ld_widgets (ho_loader s) !! "w1") =
  Some (false, None, []).
Proof. vm_compute. split; reflexivity. Qed.
