(* ===== verification/Mutations.v ===== *)
(** * Confirming operations and resolving conflicts

    The mutation flows of
    [frontend/src/features/commander/model/hooks.ts]:
    [confirmPendingOperationAsync], [resolvePendingTransferConflictAsync] and
    [performTransferMutation].  A flow is the tree of what one call of the
    handler does: its effects in order, and a branch for each answer of each
    request it awaits.  It reads the widget that the hook closed over. *)
From stdpp Require Import strings.
From S2P Require Import Prelude JsString Types RuntimePath CommanderApi Mask Selection PaneState Navigation Preview Operations Store ViewModel Loader.
Local Open Scope string_scope.
Local Open Scope list_scope.
Local Open Scope nat_scope.

(** ** Flows *)

Inductive Effect :=
  | SetInFlight (b : bool)                      (* mutationRequestInFlightRef.current = b *)
  | Dispatch (e : CommanderEvent)               (* an event of the store for this widget *)
  | Load (call : LoadCall)                      (* await loadPaneDirectory(...) *)
  | ResolveConflictEvent.                       (* resolveCommanderPendingConflict, no reducer *)

Inductive Flow :=
  | Ret
  | Act (e : Effect) (k : Flow)
  | Call (request : FSRequest) (ok : list string -> Flow) (fail : CommanderError -> Flow).

Fixpoint acts (es : list Effect) (k : Flow) : Flow :=
  match es with [] => k | e :: es' => Act e (acts es' k) end.

Inductive ConflictResolution := OverwriteCurrent | SkipCurrent | OverwriteAll | SkipAll.
#[global] Instance resolution_eq : EqDecision ConflictResolution.
Proof. solve_decision. Defined.

(** ** Requests *)

Definition getEntryPaths (w : CommanderWidgetRuntimeState) (pane : CommanderPaneId)
    (entryIds : list string) : list string :=
  let p := getRuntimePaneState w pane in
  (fun e => toCommanderEntryPath (p_path p) (e_name e)) <$>
    mapFilter (fun x => find (has_id x) (p_directoryEntries p)) entryIds.

(** The entries of a clone request. *)
Definition cloneEntries (c : CommanderClonePendingOperation) (sourcePaths : list string)
    : list CopyEntry :=
  let b := cl_base c in
  match cl_cloneMode c with
  | CloneBatch =>
      mapFilter (fun previewItem =>
        let sourcePath :=
          match findIndex (fun x => bool_decide (x = rp_entryId previewItem)) (o_entryIds b) with
          | Some sourceIndex => sourcePaths !! sourceIndex
          | None => None
          end in
        let nextName := trim (rp_nextName previewItem) in
        match truthyOpt sourcePath with
        | None => None
        | Some source =>
            if truthy nextName
            then Some (mkCopyEntry source (toCommanderEntryPath (o_sourcePath b) nextName))
            else None
        end) (cl_renamePreview c)
  | CloneSingle =>
      [mkCopyEntry (nullish (head sourcePaths) "")
         (toCommanderEntryPath (o_sourcePath b) (trim (cl_inputValue c)))]
  end.

Definition transferRequest (t : CommanderTransferPendingOperation) (sourcePaths : list string)
    (overwrite : bool) : FSRequest :=
  match t with
  | TransferClone c => ReqCopyToPaths (cloneEntries c sourcePaths) overwrite
  | TransferPane t =>
      match tr_kind t with
      | TransferCopy => ReqCopy sourcePaths (tr_targetPath t) overwrite
      | TransferMove => ReqMove sourcePaths (tr_targetPath t) overwrite
      end
  end.

(** The reloads after a transfer that answered [paths]. *)
Definition transferReloads (t : CommanderTransferPendingOperation) (paths : list string)
    : list Effect :=
  match t with
  | TransferClone c =>
      [Load (reloadPaneSelection (o_sourcePaneId (cl_base c)) (o_sourcePath (cl_base c)) paths)]
  | TransferPane t =>
      let target := Load (reloadPaneSelection (tr_targetPaneId t) (tr_targetPath t) paths) in
      match tr_kind t with
      | TransferMove =>
          [Load (o_sourcePaneId (tr_base t), o_sourcePath (tr_base t), ModeReplace, no_options); target]
      | TransferCopy => [target]
      end
  end.

(** [await performTransferMutation(...)] followed by [k]; [fail] is the [catch]. *)
Definition performTransferMutation (w : CommanderWidgetRuntimeState)
    (t : CommanderTransferPendingOperation) (entryIds : list string) (overwrite : bool)
    (k : Flow) (fail : CommanderError -> Flow) : Flow :=
  let sourcePaths := getEntryPaths w (o_sourcePaneId (transfer_base t)) entryIds in
  match sourcePaths with
  | [] => k
  | first :: _ =>
      if (isCloneCopyOperation t && negb (truthy first))%bool then k
      else Call (transferRequest t sourcePaths overwrite)
             (fun paths => acts (transferReloads t paths) k) fail
  end.

Definition transferTarget (t : CommanderTransferPendingOperation) : CommanderPaneId * string :=
  match t with
  | TransferClone c => (cl_targetPaneId c, cl_targetPath c)
  | TransferPane t => (tr_targetPaneId t, tr_targetPath t)
  end.

Definition handleTransferMutationError (t : CommanderTransferPendingOperation)
    (error : CommanderError) : Effect :=
  Dispatch (SetPaneLoadError (fst (transferTarget t)) (Some (snd (transferTarget t)))
    (Some (toLoadErrorMessage error))).

(** ** Handlers *)

Definition cancelPending : Effect := Dispatch CancelPendingOperation.

(** [try { flag; perform; cancel } catch { report } finally { unflag }] *)
Definition transferAndClose (w : CommanderWidgetRuntimeState) (t : CommanderTransferPendingOperation)
    (entryIds : list string) (overwrite : bool) : Flow :=
  performTransferMutation w t entryIds overwrite
    (acts [cancelPending; SetInFlight false] Ret)
    (fun error => acts [handleTransferMutationError t error; SetInFlight false] Ret).

(** What follows the resolution of the current conflict. *)
Definition afterCurrentConflict (w : CommanderWidgetRuntimeState)
    (next : CommanderTransferPendingOperation) : Flow :=
  match o_entryIds (transfer_base next) with
  | [] => acts [cancelPending; SetInFlight false] Ret
  | _ =>
      match transfer_conflicts next with
      | _ :: _ => acts [Dispatch (SetPendingOperation (Some (OpTransfer next))); SetInFlight false] Ret
      | [] =>
          Act (Dispatch (SetPendingOperation (Some (OpTransfer next))))
            (transferAndClose w next (o_entryIds (transfer_base next)) false)
      end
  end.

Definition resolvePendingTransferConflictAsync (inFlight : bool) (w : CommanderWidgetRuntimeState)
    (resolution : ConflictResolution) : Flow :=
  match w_pendingOperation w with
  | Some (OpTransfer t) =>
      let b := transfer_base t in
      if inFlight then Ret
      else
        match t, resolution with
        | TransferClone _, SkipCurrent | TransferClone _, SkipAll => Act cancelPending Ret
        | TransferClone _, _ | TransferPane _, OverwriteAll =>
            Act (SetInFlight true) (transferAndClose w t (o_entryIds b) true)
        | TransferPane _, SkipAll =>
            let nonConflictingEntryIds :=
              mapFilter (fun '(index, x) =>
                if includes (nullish (o_entryNames b !! index) "") (transfer_conflicts t)
                then None else Some x) (imap pair (o_entryIds b)) in
            Act (SetInFlight true)
              (match nonConflictingEntryIds with
               | [] => acts [cancelPending; SetInFlight false] Ret
               | _ => transferAndClose w t nonConflictingEntryIds false
               end)
        | TransferPane _, _ =>
            match truthyOpt (getCurrentPendingConflictName t) with
            | None => Ret
            | Some currentConflictName =>
                let next := removePendingTransferEntry t currentConflictName in
                if decide (resolution = OverwriteCurrent) then
                  let currentConflictEntryId :=
                    match findIndex (fun n => bool_decide (n = currentConflictName)) (o_entryNames b) with
                    | Some i => o_entryIds b !! i
                    | None => None
                    end in
                  match truthyOpt currentConflictEntryId with
                  | None => Ret
                  | Some x =>
                      Act (SetInFlight true)
                        (performTransferMutation w t [x] true (afterCurrentConflict w next)
                           (fun error =>
                              acts [handleTransferMutationError t error; SetInFlight false] Ret))
                  end
                else afterCurrentConflict w next
            end
        end
  | _ => Act ResolveConflictEvent Ret
  end.

(** The entries of a rename request. *)
Definition renameEntriesOf (w : CommanderWidgetRuntimeState) (r : CommanderRenamePendingOperation)
    : list RenameEntry :=
  let b := rn_base r in
  let p := getRuntimePaneState w (o_sourcePaneId b) in
  let renameTo := fun (entry : option CommanderDirectoryEntry) (nextName : string) =>
    match entry with
    | None => None
    | Some e =>
        if truthy nextName
        then Some (mkRenameEntry nextName (toCommanderEntryPath (o_sourcePath b) (e_name e)))
        else None
    end in
  match rn_renameMode r with
  | RenameSingle =>
      match renameTo (match head (o_entryIds b) with
                      | Some x => find (has_id x) (p_directoryEntries p)
                      | None => None
                      end) (trim (rn_inputValue r)) with
      | Some entry => [entry]
      | None => []
      end
  | RenameBatch =>
      mapFilter (fun item => renameTo (find (has_id (rp_entryId item)) (p_directoryEntries p))
                               (trim (rp_nextName item))) (rn_renamePreview r)
  end.

(** The [catch] of the kinds that are not transfers. *)
Definition reportSourceError (b : CommanderPendingOperationBase) (message : string) : Effect :=
  Dispatch (SetPaneLoadError (o_sourcePaneId b) (Some (o_sourcePath b)) (Some message)).

(** A clone is refused when it has no name or a single clone keeps its name. *)
Definition cloneNameRejected (c : CommanderClonePendingOperation) : bool :=
  let name := trim (cl_inputValue c) in
  negb (truthy name) ||
  match cl_cloneMode c with
  | CloneSingle => bool_decide (Some name = head (o_entryNames (cl_base c)))
  | CloneBatch => false
  end.

(** The body of the [try] for a mutation kind, with its [catch] and [finally]. *)
Definition confirmMutation (w : CommanderWidgetRuntimeState) (op : CommanderPendingOperation) : Flow :=
  let done := SetInFlight false in
  match op with
  | OpTransfer t =>
      let send :=
        match transfer_conflicts t with
        | _ :: _ => Act done Ret
        | [] => transferAndClose w t (o_entryIds (transfer_base t)) false
        end in
      match t with
      | TransferClone c =>
          if cloneNameRejected c then
            acts [reportSourceError (cl_base c) "Copy target name must differ from the source entry"; done] Ret
          else send
      | TransferPane _ => send
      end
  | OpDelete b =>
      match getEntryPaths w (o_sourcePaneId b) (o_entryIds b) with
      | [] => Act done Ret
      | paths =>
          Call (ReqDelete paths)
            (fun _ => acts [cancelPending; Load (o_sourcePaneId b, o_sourcePath b, ModeReplace, no_options); done] Ret)
            (fun error => acts [reportSourceError b (toLoadErrorMessage error); done] Ret)
      end
  | OpMkdir m =>
      let b := mk_base m in
      let nextDirectoryName := trim (mk_inputValue m) in
      if hasSinglePathSegment nextDirectoryName then
        Call (ReqMkdir (toCommanderEntryPath (o_sourcePath b) nextDirectoryName))
          (fun paths =>
             let created := createdDirectory (nullish (head paths) "") in
             acts [cancelPending;
                   Load (o_sourcePaneId b, cd_parentPath created, ModeReplace,
                     mkLoadOptions (Some (cd_entryId created)) None (Some []) (Some (cd_entryId created)));
                   done] Ret)
          (fun error => acts [reportSourceError b (toLoadErrorMessage error); done] Ret)
      else acts [reportSourceError b "Directory name must be a single path segment"; done] Ret
  | OpRename r =>
      let b := rn_base r in
      let renameEntries := renameEntriesOf w r in
      if (bool_decide (renameEntries = []) || negb (bool_decide (rn_duplicateTargetNames r = [])))%bool
      then Act done Ret
      else
        Call (ReqRename renameEntries (negb (bool_decide (rn_conflictEntryNames r = []))))
          (fun paths =>
             acts [cancelPending; Load (reloadPaneSelection (o_sourcePaneId b) (o_sourcePath b) paths); done] Ret)
          (fun error => acts [reportSourceError b (toLoadErrorMessage error); done] Ret)
  | OpMask _ | OpSearch _ => Act done Ret
  end.

Definition confirmPendingOperationAsync (inFlight : bool) (w : CommanderWidgetRuntimeState) : Flow :=
  match w_pendingOperation w with
  | None => Ret
  | Some (OpMask m) =>
      match ma_kind m with
      | MaskFilter =>
          let b := ma_base m in
          let p := getRuntimePaneState w (o_sourcePaneId b) in
          let filterQuery := trim (ma_inputValue m) in
          acts [Load (o_sourcePaneId b, o_sourcePath b, ModeReplace,
                  mkLoadOptions (p_cursorEntryId p) (Some filterQuery) (Some (p_selectedIds p))
                    (p_selectionAnchorEntryId p));
                Dispatch (SetPaneFilterQuery (o_sourcePaneId b) filterQuery);
                Dispatch (SetPendingOperation None)] Ret
      | _ => Act (Dispatch ConfirmPendingOperation) Ret
      end
  | Some (OpSearch _) => Act (Dispatch ConfirmPendingOperation) Ret
  | Some op => if inFlight then Ret else Act (SetInFlight true) (confirmMutation w op)
  end.

(** ** Specification *)

(** [guarded b f]: run with the in-flight flag at [b], the flow sends every
    request with the flag set and leaves the flag unset, whatever the answers. *)
Inductive guarded : bool -> Flow -> Prop :=
  | g_ret : guarded false Ret
  | g_flag b b' k : guarded b' k -> guarded b (Act (SetInFlight b') k)
  | g_dispatch b e k : guarded b k -> guarded b (Act (Dispatch e) k)
  | g_load b call k : guarded b k -> guarded b (Act (Load call) k)
  | g_event b k : guarded b k -> guarded b (Act ResolveConflictEvent k)
  | g_call request ok fail :
      (forall paths, guarded true (ok paths)) -> (forall error, guarded true (fail error)) ->
      guarded true (Call request ok fail).

(** [settles b f]: run with the in-flight flag at [b], the flow leaves the flag
    unset, whatever the answers. *)
Inductive settles : bool -> Flow -> Prop :=
  | t_ret : settles false Ret
  | t_flag b b' k : settles b' k -> settles b (Act (SetInFlight b') k)
  | t_dispatch b e k : settles b k -> settles b (Act (Dispatch e) k)
  | t_load b call k : settles b k -> settles b (Act (Load call) k)
  | t_event b k : settles b k -> settles b (Act ResolveConflictEvent k)
  | t_call b request ok fail :
      (forall paths, settles b (ok paths)) -> (forall error, settles b (fail error)) ->
      settles b (Call request ok fail).

(** The requests that a flow can send, on some answers. *)
Inductive sends : Flow -> FSRequest -> Prop :=
  | s_act e k q : sends k q -> sends (Act e k) q
  | s_call q ok fail : sends (Call q ok fail) q
  | s_ok q ok fail paths q' : sends (ok paths) q' -> sends (Call q ok fail) q'
  | s_fail q ok fail error q' : sends (fail error) q' -> sends (Call q ok fail) q'.

(** A request that replaces existing entries. *)
Definition overwrites (q : FSRequest) : bool :=
  match q with
  | ReqCopy _ _ o | ReqCopyToPaths _ o | ReqMove _ _ o | ReqRename _ o => o
  | _ => false
  end.

(** ** Lemmas *)

(** Walks through the effects of a concrete flow. *)
Ltac run_flow :=
  repeat (cbn [acts];
    first [apply g_ret | apply g_flag | apply g_load | apply g_dispatch | apply g_event
          | apply g_call; [intros ?|intros ?]]).

Lemma guarded_report b es error_k :
  Forall (fun e => match e with SetInFlight _ => False | _ => True end) es ->
  guarded b error_k -> guarded b (acts es error_k).
Proof. intros Hall Hk. induction Hall as [|[] es He _ IH]; simpl; try done; by constructor. Qed.

Lemma reloads_no_flag t paths :
  Forall (fun e => match e with SetInFlight _ => False | _ => True end) (transferReloads t paths).
Proof. destruct t as [c|t]; simpl; [by repeat constructor|]. destruct (tr_kind t); by repeat constructor. Qed.

Lemma guarded_perform w t ids o k fail :
  guarded true k -> (forall error, guarded true (fail error)) ->
  guarded true (performTransferMutation w t ids o k fail).
Proof.
  intros Hk Hf. unfold performTransferMutation. destruct (getEntryPaths _ _ _); [done|].
  case_match; [done|]. constructor; [|done]. intros paths.
  apply guarded_report; [apply reloads_no_flag|done].
Qed.

Lemma guarded_close w t ids o : guarded true (transferAndClose w t ids o).
Proof. apply guarded_perform; [|intros error]; run_flow. Qed.

Lemma guarded_after w next : guarded true (afterCurrentConflict w next).
Proof.
  unfold afterCurrentConflict. destruct (o_entryIds _); [run_flow|].
  destruct (transfer_conflicts next); [|run_flow]. apply g_dispatch, guarded_close.
Qed.

Lemma guarded_confirmMutation w op : guarded true (confirmMutation w op).
Proof.
  destruct op as [[c|t]|b|m|r|m|s]; unfold confirmMutation; cbv zeta.
  - destruct (cloneNameRejected c); [run_flow|].
    destruct (transfer_conflicts _); [apply guarded_close|run_flow].
  - destruct (transfer_conflicts _); [apply guarded_close|run_flow].
  - destruct (getEntryPaths _ _ _); run_flow.
  - destruct (hasSinglePathSegment _); run_flow.
  - destruct (_ || _)%bool; run_flow.
  - run_flow.
  - run_flow.
Qed.

(** A guarded flow settles; so does the step behind the current conflict, which
    starts with any flag. *)
Lemma guarded_settles b f : guarded b f -> settles b f.
Proof. induction 1; by constructor. Qed.
Lemma settles_reloads b t paths k : settles b k -> settles b (acts (transferReloads t paths) k).
Proof.
  intros Hk. destruct t as [c|t]; cbn; [by constructor|]. destruct (tr_kind t); by repeat constructor.
Qed.
Lemma settles_close b w t ids o : settles b (transferAndClose w t ids o).
Proof.
  unfold transferAndClose, performTransferMutation. destruct (getEntryPaths _ _ _); [by repeat constructor|].
  case_match; [by repeat constructor|]. constructor; intros ?; [apply settles_reloads|]; by repeat constructor.
Qed.
Lemma settles_after b w next : settles b (afterCurrentConflict w next).
Proof.
  unfold afterCurrentConflict. destruct (o_entryIds _); [by repeat constructor|].
  destruct (transfer_conflicts next); [apply t_dispatch, settles_close|by repeat constructor].
Qed.

Lemma sends_acts es k q : sends (acts es k) q -> sends k q.
Proof. induction es as [|e es IH]; simpl; [done|]. inversion 1; subst. auto. Qed.

Lemma sends_ret es q : ~ sends (acts es Ret) q.
Proof. intros H%sends_acts. inversion H. Qed.

(** Closes a goal with a flow that ends without a request. *)
Ltac no_sends :=
  exfalso; simpl in *;
  repeat match goal with
  | H : sends Ret _ |- _ => inversion H
  | H : sends (acts _ Ret) _ |- _ => by apply sends_ret in H
  | H : sends (Act _ _) _ |- _ => inversion H; clear H; subst
  end.

Lemma sends_perform w t ids o k fail q :
  sends (performTransferMutation w t ids o k fail) q ->
  (q = transferRequest t (getEntryPaths w (o_sourcePaneId (transfer_base t)) ids) o /\
   getEntryPaths w (o_sourcePaneId (transfer_base t)) ids <> []) \/
  sends k q \/ exists error, sends (fail error) q.
Proof.
  unfold performTransferMutation. destruct (getEntryPaths _ _ _) as [|x l]; [auto|].
  case_match; [auto|]. inversion 1; subst; eauto using sends_acts.
Qed.

Lemma sends_close w t ids o q :
  sends (transferAndClose w t ids o) q ->
  q = transferRequest t (getEntryPaths w (o_sourcePaneId (transfer_base t)) ids) o /\
  getEntryPaths w (o_sourcePaneId (transfer_base t)) ids <> [].
Proof.
  intros [H|[H|[error H]]]%sends_perform; [done|by apply sends_ret in H..].
Qed.

Lemma overwrites_transfer t paths o : overwrites (transferRequest t paths o) = o.
Proof. destruct t as [c|t]; [done|]. simpl. by destruct (tr_kind t). Qed.

(** The path of an entry of a pane. *)
Definition entry_path (p : CommanderPaneRuntimeState) (e : CommanderDirectoryEntry) : string :=
  toCommanderEntryPath (p_path p) (e_name e).

Lemma find_by_id (l : list CommanderDirectoryEntry) e :
  NoDup (entry_ids l) -> e ∈ l -> find (has_id (e_id e)) l = Some e.
Proof.
  intros Hnd He. destruct (find _ l) as [e'|] eqn:E.
  - apply find_Some in E as [He' Hid%has_id_true]. f_equal. by apply (NoDup_fmap_elem e_id l).
  - rewrite find_None in E. specialize (E e He). by rewrite (proj2 (has_id_true _ _)) in E.
Qed.

Lemma getEntryPaths_entries w pane es :
  let p := getPaneState w pane in
  NoDup (entry_ids (p_directoryEntries p)) -> es ⊆ p_directoryEntries p ->
  getEntryPaths w pane (entry_ids es) = entry_path p <$> es.
Proof.
  intros p Hnd Hes. unfold getEntryPaths. change (getRuntimePaneState w pane) with p.
  unfold mapFilter, entry_ids. induction es as [|e es IH]; [done|].
  rewrite fmap_cons. cbn [omap list_omap]. rewrite find_by_id; [|done|apply Hes; left].
  cbn [fmap list_fmap]. f_equal. apply IH. intros x Hx. apply Hes. by right.
Qed.

Lemma entry_ids_filter_names (es : list CommanderDirectoryEntry) (names : list string) l :
  es = l ->
  mapFilter (fun '(index, x) => if includes (nullish (entry_names es !! index) "") names then None else Some x)
    (imap pair (entry_ids l)) = entry_ids (filterb (fun e => negb (includes (e_name e) names)) l).
Proof.
  intros Hl. assert (forall k, drop k es = l ->
    omap (fun '(index, x) => if includes (nullish (entry_names es !! index) "") names then None else Some x)
      (imap (fun i x => (k + i, x)) (entry_ids l)) =
    entry_ids (filterb (fun e => negb (includes (e_name e) names)) l)) as H; [|by apply (H 0)].
  clear Hl. induction l as [|e l IH]; intros k Hk; [done|].
  assert (es !! k = Some e) as Hlk.
  { rewrite <- (Nat.add_0_r k), <- lookup_drop, Hk. done. }
  unfold entry_ids. rewrite fmap_cons, imap_cons. cbn [omap list_omap]. rewrite Nat.add_0_r.
  assert (imap ((fun i x => (k + i, x)) ∘ S) (e_id <$> l) = imap (fun i x => (S k + i, x)) (entry_ids l)) as ->.
  { apply imap_ext. intros i y _. simpl. f_equal. lia. }
  unfold entry_names. rewrite list_lookup_fmap, Hlk. cbn [fmap option_fmap option_map nullish default from_option].
  assert (drop (S k) es = l) as Hk'.
  { rewrite <- Nat.add_1_r, <- drop_drop, Hk. done. }
  specialize (IH (S k) Hk'). unfold entry_ids, entry_names in IH. unfold filterb in *. cbn [List.filter].
  change (id (e_name e)) with (e_name e).
  destruct (includes (e_name e) names); cbn [negb]; [exact IH|]. rewrite fmap_cons. by f_equal.
Qed.

Lemma sends_after w next q :
  sends (afterCurrentConflict w next) q ->
  transfer_conflicts next = [] /\
  q = transferRequest next (getEntryPaths w (o_sourcePaneId (transfer_base next))
        (o_entryIds (transfer_base next))) false.
Proof.
  unfold afterCurrentConflict. destruct (o_entryIds (transfer_base next)) eqn:E.
  - by intros H%sends_ret.
  - destruct (transfer_conflicts next); [|by intros H%sends_ret].
    inversion 1; subst. split; [done|]. by apply (sends_close w next).
Qed.

(** Nothing is sent while the flag is held. *)
Lemma confirm_in_flight w q : ~ sends (confirmPendingOperationAsync true w) q.
Proof.
  unfold confirmPendingOperationAsync. cbv zeta.
  destruct (w_pendingOperation w) as [[t|b|m|r|m|s]|]; try (intros H; inversion H; fail).
  - destruct (ma_kind m); apply (sends_ret [_]) || apply sends_ret.
  - apply (sends_ret [_]).
Qed.

Lemma resolve_in_flight w resolution q : ~ sends (resolvePendingTransferConflictAsync true w resolution) q.
Proof.
  unfold resolvePendingTransferConflictAsync.
  destruct (w_pendingOperation w) as [[t|b|m|r|m|s]|]; cbv zeta;
    try (intros H; inversion H; fail); apply (sends_ret [_]).
Qed.

(** ** Properties *)

(** C6: one mutation at a time: a confirmation or a resolution other than skipping
    the current conflict, started while no mutation is in flight, sends every
    request with the in-flight flag set; each of them, that one included, leaves
    the flag unset whatever the answers, and sends nothing while a mutation is in
    flight.  Skipping the current conflict sends without the flag
    ([skip_current_unguarded]), at most one request: the rest of its transfer,
    without overwriting and once no conflict is left. *)
Theorem mutations_are_exclusive w q resolution :
  guarded false (confirmPendingOperationAsync false w) /\
  ~ sends (confirmPendingOperationAsync true w) q /\
  ~ sends (resolvePendingTransferConflictAsync true w resolution) q /\
  (resolution <> SkipCurrent -> guarded false (resolvePendingTransferConflictAsync false w resolution)) /\
  settles false (resolvePendingTransferConflictAsync false w resolution) /\
  (sends (resolvePendingTransferConflictAsync false w SkipCurrent) q ->
   exists t name, let next := removePendingTransferEntry (TransferPane t) name in
     w_pendingOperation w = Some (OpTransfer (TransferPane t)) /\
     getCurrentPendingConflictName (TransferPane t) = Some name /\ transfer_conflicts next = [] /\
     q = transferRequest next
           (getEntryPaths w (o_sourcePaneId (transfer_base next)) (o_entryIds (transfer_base next))) false).
Proof.
  assert (resolution <> SkipCurrent -> guarded false (resolvePendingTransferConflictAsync false w resolution)) as Hg.
  { intros Hne. unfold resolvePendingTransferConflictAsync.
    destruct (w_pendingOperation w) as [[t|b|m|r|m|s]|]; try run_flow. cbv zeta.
    destruct t as [c|t], resolution; try done; try run_flow; try apply guarded_close.
    - destruct (truthyOpt _); [|run_flow]. rewrite decide_True by done.
      destruct (truthyOpt _); [|run_flow]. apply g_flag, guarded_perform; [apply guarded_after|].
      intros error. run_flow.
    - destruct (mapFilter _ _); [run_flow|apply guarded_close]. }
  split_and!; [|apply confirm_in_flight|apply resolve_in_flight|exact Hg| |].
  - unfold confirmPendingOperationAsync.
    destruct (w_pendingOperation w) as [[t|b|m|r|m|s]|]; try run_flow; try apply guarded_confirmMutation.
    destruct (ma_kind m); run_flow.
  - destruct (decide (resolution = SkipCurrent)) as [->|Hne]; [|by apply guarded_settles, Hg].
    unfold resolvePendingTransferConflictAsync.
    destruct (w_pendingOperation w) as [[[c|t]|b|m|r|m|s]|]; try by repeat constructor. cbv zeta.
    destruct (truthyOpt _); [|constructor]. rewrite decide_False by done. apply settles_after.
  - unfold resolvePendingTransferConflictAsync.
    destruct (w_pendingOperation w) as [[[c|t]|b|m|r|m|s]|]; cbv zeta; try (intros Hs; no_sends; fail).
    destruct (truthyOpt _) as [name|] eqn:En; [|intros Hs; no_sends]. rewrite decide_False by done.
    intros [Hc ->]%sends_after. exists t, name. apply truthyOpt_Some in En as [En _]. done.
Qed.

(** C38: a confirmation sends no other request than that of the operation shown,
    and never replaces an existing entry unasked: a transfer is the one of the
    operation's entries to its target, sent only without unresolved conflicts and
    without overwriting; a rename is that of the previewed names, only without
    two equal targets, and overwrites only when its preview showed conflicts; a
    deletion is that of the operation's entries, and a new directory has a name
    of one segment below the pane's path. *)
Theorem confirm_never_overwrites_silently inFlight w q :
  sends (confirmPendingOperationAsync inFlight w) q ->
  inFlight = false /\
  match w_pendingOperation w with
  | Some (OpTransfer t) =>
      transfer_conflicts t = [] /\ overwrites q = false /\
      q = transferRequest t (getEntryPaths w (o_sourcePaneId (transfer_base t)) (o_entryIds (transfer_base t))) false
  | Some (OpRename r) =>
      rn_duplicateTargetNames r = [] /\ q = ReqRename (renameEntriesOf w r) (overwrites q) /\
      (overwrites q = true <-> rn_conflictEntryNames r <> [])
  | Some (OpDelete b) => q = ReqDelete (getEntryPaths w (o_sourcePaneId b) (o_entryIds b))
  | Some (OpMkdir m) =>
      q = ReqMkdir (toCommanderEntryPath (o_sourcePath (mk_base m)) (trim (mk_inputValue m))) /\
      hasSinglePathSegment (trim (mk_inputValue m)) = true
  | _ => False
  end.
Proof.
  unfold confirmPendingOperationAsync.
  destruct (w_pendingOperation w) as [[t|b|m|r|m|s]|]; cbv zeta.
  - destruct inFlight; [intros H; inversion H|]. intros H. split; [done|].
    inversion H as [? ? ? Hs| | |]; subst. unfold confirmMutation in Hs. cbv zeta in Hs.
    assert (sends (match transfer_conflicts t with _ :: _ => Act (SetInFlight false) Ret
      | [] => transferAndClose w t (o_entryIds (transfer_base t)) false end) q) as Hs'.
    { destruct t as [c|t]; [|done]. destruct (cloneNameRejected c); [|done]. no_sends. }
    destruct (transfer_conflicts t); [|no_sends].
    apply sends_close in Hs' as [-> _]. by rewrite overwrites_transfer.
  - destruct inFlight; [intros H; inversion H|]. intros H. split; [done|].
    inversion H as [? ? ? Hs| | |]; subst. simpl in Hs.
    destruct (getEntryPaths _ _ _) eqn:E; [no_sends|].
    inversion Hs; subst; [done|no_sends
      |no_sends].
  - destruct inFlight; [intros H; inversion H|]. intros H. split; [done|].
    inversion H as [? ? ? Hs| | |]; subst. unfold confirmMutation in Hs. cbv zeta in Hs.
    destruct (hasSinglePathSegment _) eqn:E; [|no_sends].
    inversion Hs; subst; [done|no_sends..].
  - destruct inFlight; [intros H; inversion H|]. intros H. split; [done|].
    inversion H as [? ? ? Hs| | |]; subst. unfold confirmMutation in Hs. cbv zeta in Hs.
    destruct (bool_decide (renameEntriesOf w r = []) || _)%bool eqn:E; [no_sends|].
    bool_prop.
    inversion Hs; subst; [|no_sends..].
    split; [done|]. simpl. split; [done|]. by rewrite negb_true_iff, bool_decide_eq_false.
  - destruct (ma_kind m); intros H; no_sends.
  - intros H. no_sends.
  - intros H. inversion H.
Qed.

(** Deleting removes exactly the entries of the operation: for ids of rows of
    the directory the only request is the deletion of their paths, in order. *)
Theorem confirm_delete_exact w b es q :
  let p := getPaneState w (o_sourcePaneId b) in
  w_pendingOperation w = Some (OpDelete b) -> aligned b es ->
  NoDup (entry_ids (p_directoryEntries p)) -> es ⊆ p_directoryEntries p ->
  sends (confirmPendingOperationAsync false w) q ->
  q = ReqDelete (entry_path p <$> es).
Proof.
  intros p Hop [Hids _] Hnd Hes Hs. unfold confirmPendingOperationAsync in Hs. rewrite Hop in Hs.
  inversion Hs as [? ? ? Hs'| | |]; subst. simpl in Hs'. rewrite Hids in Hs'.
  rewrite getEntryPaths_entries in Hs' by done.
  destruct (entry_path _ <$> es) eqn:E; [no_sends|].
  inversion Hs'; subst; [done|no_sends
    |no_sends].
Qed.

(** Overwriting the current conflict of a transfer whose ids and names
    correspond overwrites that entry and no other: the request that overwrites
    has its path alone, and a second request, for the remaining entries, is sent
    without overwriting and only when no conflict remains. *)
Theorem overwrite_current_exact w t es e q :
  let p := getPaneState w (o_sourcePaneId (tr_base t)) in
  w_pendingOperation w = Some (OpTransfer (TransferPane t)) ->
  aligned (tr_base t) es -> NoDup (entry_names es) -> e ∈ es -> e_name e <> "" -> e_id e <> "" ->
  head (tr_conflictEntryNames t) = Some (e_name e) ->
  NoDup (entry_ids (p_directoryEntries p)) -> es ⊆ p_directoryEntries p ->
  sends (resolvePendingTransferConflictAsync false w OverwriteCurrent) q ->
  q = transferRequest (TransferPane t) [entry_path p e] true \/
  (q = transferRequest (TransferPane t)
         (entry_path p <$> filterb (fun e' => negb (bool_decide (e_name e' = e_name e))) es) false /\
   forall n, n ∈ tr_conflictEntryNames t -> n = e_name e).
Proof.
  intros p Hop [Hids Hnames] Hnd He Hne Hide Hhead Hdir Hes.
  unfold resolvePendingTransferConflictAsync. rewrite Hop. cbv zeta.
  unfold getCurrentPendingConflictName. simpl transfer_conflicts. rewrite Hhead.
  rewrite (proj2 (truthyOpt_Some (Some (e_name e)) _)) by done. rewrite decide_True by done.
  simpl transfer_base. rewrite Hnames, Hids.
  destruct (list_elem_of_lookup_1 _ _ He) as [i Hi].
  assert (entry_names es !! i = Some (e_name e)) as Hn by (unfold entry_names; by rewrite list_lookup_fmap, Hi).
  destruct (findIndex _ (entry_names es)) as [j|] eqn:Ej; [|intros H; inversion H].
  pose proof Ej as (n & Hj & ->%bool_decide_eq_true & _)%findIndex_Some.
  assert (j = i) as -> by (by eapply (NoDup_lookup (entry_names es))).
  assert (entry_ids es !! i = Some (e_id e)) as -> by (unfold entry_ids; by rewrite list_lookup_fmap, Hi).
  rewrite (proj2 (truthyOpt_Some (Some (e_id e)) _)) by done.
  intros Hs. inversion Hs as [? ? ? Hs'| | |]; subst.
  apply sends_perform in Hs' as [[-> _]|[Hs'|[err Hs']]]; [| |no_sends].
  - left. f_equal. simpl transfer_base. change [e_id e] with (entry_ids [e]).
    rewrite getEntryPaths_entries; [done|done|]. intros x ->%list_elem_of_singleton. by apply Hes.
  - right. apply sends_after in Hs' as [Hc ->].
    set (next := removePendingTransferEntry (TransferPane t) (e_name e)) in *.
    assert (next = with_transfer_entries (removeAt i (entry_ids es)) (removeAt i (entry_names es))
      (filterb (fun n => negb (bool_decide (n = e_name e))) (tr_conflictEntryNames t)) (TransferPane t)) as Hnext.
    { unfold next, removePendingTransferEntry. simpl transfer_base. by rewrite Hnames, Hids, Ej. }
    rewrite Hnext in *. simpl in Hc. split.
    + simpl. rewrite removeAt_delete. unfold entry_ids. rewrite <- list_fmap_delete.
      rewrite (delete_by_name es (e_name e) i) by done. fold (entry_ids (filterb
        (fun e' => negb (bool_decide (e_name e' = e_name e))) es)).
      rewrite getEntryPaths_entries; [done|done|]. intros x [Hx _]%elem_of_filterb. by apply Hes.
    + intros n Hin. destruct (decide (n = e_name e)) as [|Hneq]; [done|].
      assert (n ∈ filterb (fun n => negb (bool_decide (n = e_name e))) (tr_conflictEntryNames t)) as H.
      { apply elem_of_filterb. split; [done|]. by rewrite bool_decide_eq_false_2. }
      rewrite Hc in H. by apply elem_of_nil in H.
Qed.

(** Skipping all conflicts transfers exactly the entries without a conflict,
    and never overwrites. *)
Theorem skip_all_exact w t es q :
  let p := getPaneState w (o_sourcePaneId (tr_base t)) in
  w_pendingOperation w = Some (OpTransfer (TransferPane t)) ->
  aligned (tr_base t) es -> NoDup (entry_ids (p_directoryEntries p)) -> es ⊆ p_directoryEntries p ->
  sends (resolvePendingTransferConflictAsync false w SkipAll) q ->
  q = transferRequest (TransferPane t)
    (entry_path p <$> filterb (fun e => negb (includes (e_name e) (tr_conflictEntryNames t))) es) false.
Proof.
  intros p Hop [Hids Hnames] Hdir Hes. unfold resolvePendingTransferConflictAsync. rewrite Hop. cbv zeta.
  simpl transfer_base. simpl transfer_conflicts. rewrite Hnames, Hids.
  rewrite (entry_ids_filter_names es (tr_conflictEntryNames t) es eq_refl).
  intros Hs. inversion Hs as [? ? ? Hs'| | |]; subst.
  assert (sends (transferAndClose w (TransferPane t) (entry_ids (filterb
    (fun e => negb (includes (e_name e) (tr_conflictEntryNames t))) es)) false) q) as H.
  { destruct (entry_ids (filterb _ es)); [no_sends|done]. }
  apply sends_close in H as [-> _]. simpl transfer_base. f_equal.
  rewrite getEntryPaths_entries; [done|done|]. intros x [Hx _]%elem_of_filterb. by apply Hes.
Qed.

(** ** Samples and divergences *)

Lemma sends_call q q' ok fail : q' = q -> sends (Call q' ok fail) q.
Proof. intros ->. apply s_call. Qed.

(** Exposes the first node of the flow of the goal. *)
Ltac flow_head :=
  match goal with
  | |- sends ?f ?q => let f' := eval lazy head in f in change (sends f' q)
  end.

(** The first request of a concrete flow. *)
Ltac sends_first :=
  flow_head; repeat (apply s_act; flow_head); apply sends_call; vm_compute; reflexivity.

(** A copy of [a.txt] and [b.txt] to the right pane, where [a.txt] exists. *)
Definition sample_transfer (ids names : list string) : CommanderPaneTransferPendingOperation :=
  mkTransfer TransferCopy (mkOpBase PaneLeft "/d" ids names) PaneRight "/e" ["a.txt"].

Definition conflict_widget (ids names : list string) : CommanderWidgetRuntimeState :=
  two_panes (Some (OpTransfer (TransferPane (sample_transfer ids names)))) ids.

(** Skipping the last conflict sends the remaining transfer without taking
    the in-flight flag, so a second confirmation would run beside it. *)
Example skip_current_unguarded :
  let w := conflict_widget ["/d::a.txt"; "/d::b.txt"] ["a.txt"; "b.txt"] in
  sends (resolvePendingTransferConflictAsync false w SkipCurrent) (ReqCopy ["/d/b.txt"] "/e" false) /\
  ~ guarded false (resolvePendingTransferConflictAsync false w SkipCurrent).
Proof.
  intros w. split.
  - sends_first.
  - intros H.
    match type of H with guarded false ?f => let f' := eval lazy head in f in change (guarded false f') in H end.
    inversion H as [| |? ? ? H1| | |]; subst. clear H.
    match type of H1 with guarded false ?f => let f' := eval lazy head in f in change (guarded false f') in H1 end.
    inversion H1.
Qed.

(** With ids in click order and names in row order, overwriting the conflict on
    [a.txt] sends the path of [b.txt]. *)
Example misaligned_overwrite :
  sends (resolvePendingTransferConflictAsync false
    (conflict_widget ["/d::b.txt"; "/d::a.txt"] ["a.txt"; "b.txt"]) OverwriteCurrent)
    (ReqCopy ["/d/b.txt"] "/e" true).
Proof. sends_first. Qed.

(** ** Witnesses *)

Lemma mutations_are_exclusive_witness :
  let w := conflict_widget ["/d::a.txt"; "/d::b.txt"] ["a.txt"; "b.txt"] in
  guarded false (resolvePendingTransferConflictAsync false w SkipAll) /\
  exists t name, let next := removePendingTransferEntry (TransferPane t) name in
    w_pendingOperation w = Some (OpTransfer (TransferPane t)) /\
    getCurrentPendingConflictName (TransferPane t) = Some name /\ transfer_conflicts next = [] /\
    ReqCopy ["/d/b.txt"] "/e" false = transferRequest next
      (getEntryPaths w (o_sourcePaneId (transfer_base next)) (o_entryIds (transfer_base next))) false.
Proof.
  intros w. split.
  - apply (mutations_are_exclusive w (ReqOpen "") SkipAll). discriminate.
  - apply (mutations_are_exclusive w (ReqCopy ["/d/b.txt"] "/e" false) SkipCurrent). sends_first.
Defined.

(** A copy of [a.txt] to the right pane, where it does not exist, and a deletion. *)
Lemma confirm_never_overwrites_silently_witness :
  let t := mkTransfer TransferCopy (mkOpBase PaneLeft "/d" ["/d::a.txt"] ["a.txt"]) PaneRight "/e" [] in
  let w := two_panes (Some (OpTransfer (TransferPane t))) ["/d::a.txt"] in
  let b := mkOpBase PaneLeft "/d" ["/d::a.txt"] ["a.txt"] in
  let w' := two_panes (Some (OpDelete b)) ["/d::a.txt"] in
  ReqCopy ["/d/a.txt"] "/e" false = transferRequest (TransferPane t) (getEntryPaths w PaneLeft ["/d::a.txt"]) false /\
  ReqDelete ["/d/a.txt"] = ReqDelete (getEntryPaths w' PaneLeft ["/d::a.txt"]).
Proof.
  intros t w b w'. split.
  - apply (confirm_never_overwrites_silently false w (ReqCopy ["/d/a.txt"] "/e" false)). sends_first.
  - apply (confirm_never_overwrites_silently false w' (ReqDelete ["/d/a.txt"])). sends_first.
Defined.

Lemma confirm_delete_exact_witness :
  let b := mkOpBase PaneLeft "/d" ["/d::a.txt"] ["a.txt"] in
  let w := two_panes (Some (OpDelete b)) ["/d::a.txt"] in
  ReqDelete ["/d/a.txt"] = ReqDelete (entry_path (getPaneState w PaneLeft) <$> [file_a]).
Proof.
  intros b w.
  apply (confirm_delete_exact w b [file_a] (ReqDelete ["/d/a.txt"])).
  - reflexivity.
  - split; reflexivity.
  - by apply (bool_decide_unpack _); vm_compute.
  - by apply (bool_decide_unpack _); vm_compute.
  - sends_first.
Defined.

Lemma overwrite_current_exact_witness :
  let t := sample_transfer ["/d::a.txt"; "/d::b.txt"] ["a.txt"; "b.txt"] in
  let w := conflict_widget ["/d::a.txt"; "/d::b.txt"] ["a.txt"; "b.txt"] in
  ReqCopy ["/d/a.txt"] "/e" true = transferRequest (TransferPane t) ["/d/a.txt"] true.
Proof.
  intros t w.
  destruct (overwrite_current_exact w t [file_a; file_b] file_a (ReqCopy ["/d/a.txt"] "/e" true)) as [H|[H _]].
  - reflexivity.
  - split; reflexivity.
  - by apply (bool_decide_unpack _); vm_compute.
  - left.
  - discriminate.
  - discriminate.
  - reflexivity.
  - by apply (bool_decide_unpack _); vm_compute.
  - by apply (bool_decide_unpack _); vm_compute.
  - sends_first.
  - exact H.
  - discriminate H.
Defined.

Lemma skip_all_exact_witness :
  let t := sample_transfer ["/d::a.txt"; "/d::b.txt"] ["a.txt"; "b.txt"] in
  let w := conflict_widget ["/d::a.txt"; "/d::b.txt"] ["a.txt"; "b.txt"] in
  ReqCopy ["/d/b.txt"] "/e" false = transferRequest (TransferPane t) ["/d/b.txt"] false.
Proof.
  intros t w.
  apply (skip_all_exact w t [file_a; file_b] (ReqCopy ["/d/b.txt"] "/e" false)).
  - reflexivity.
  - split; reflexivity.
  - by apply (bool_decide_unpack _); vm_compute.
  - by apply (bool_decide_unpack _); vm_compute.
  - sends_first.
Defined.
