(* ===== verification/FileDialog.v ===== *)
(** * The file dialog

    [frontend/src/features/commander/model/file-dialog-controller.ts]: opening
    a file for viewing or editing, saving the edited text and opening it
    outside.  As for the loader, the awaiting calls are lists in the state and
    an event is the start of a call or the arrival of an answer, so that the
    answers arrive in any order. *)
From stdpp Require Import strings.
From S2P Require Import Prelude JsString Types RuntimePath CommanderApi Mask Selection PaneState Navigation Preview Operations Store ViewModel Loader.
Local Open Scope string_scope.
Local Open Scope list_scope.
Local Open Scope nat_scope.

(** ** State *)

Inductive OpenMode := OpenView | OpenEdit.
#[global] Instance open_mode_eq : EqDecision OpenMode.
Proof. solve_decision. Defined.

(** A call of [openFileDialogForEntry] that awaits a read; [rd_retry] is the
    second read, of the preview, after the text of the file was refused. *)
Record ReadCall := mkRead {
  rd_id : nat;
  rd_pane : CommanderPaneId;
  rd_panePath : string;
  rd_entryId : string;
  rd_entryName : string;
  rd_mode : OpenMode;
  rd_retry : bool
}.
#[global] Instance read_call_eq : EqDecision ReadCall.
Proof. solve_decision. Defined.

#[global] Instance file_dialog_eq : EqDecision CommanderFileDialogState.
Proof. solve_decision. Defined.

(** A call of [saveFileDialogAsync]: it awaits the answer of the write, then
    the reload of the pane. *)
Inductive SaveCall :=
  | SaveWriting (d : CommanderFileDialogState)
  | SaveReloading (d : CommanderFileDialogState) (r : LoadRequest).
#[global] Instance save_call_eq : EqDecision SaveCall.
Proof. solve_decision. Defined.

(** The refs of the hook and the calls in flight.  [fx_others] counts the
    confirmations and resolutions in flight, which share the mutation flag. *)
Record Files := mkFiles {
  fx_requestId : nat;
  fx_reads : list ReadCall;
  fx_saves : list SaveCall;
  fx_others : nat;
  fx_inFlight : bool;
  fx_loader : Loader
}.

Inductive FilesEvent :=
  | FxOpen (pane : CommanderPaneId) (entryId : string) (mode : OpenMode)
  | FxReadOk (r : ReadCall) (snapshot : CommanderFileSnapshot)
  | FxReadFail (r : ReadCall) (error : CommanderError)
  | FxSave
  | FxSaveOk (d : CommanderFileDialogState) (snapshot : CommanderFileSnapshot)
  | FxSaveFail (d : CommanderFileDialogState) (error : CommanderError)
  | FxSaveReloaded (d : CommanderFileDialogState) (r : LoadRequest)
  | FxOpenFailed (d : CommanderFileDialogState) (error : CommanderError)
  | FxOtherStart
  | FxOtherEnd
  | FxLoader (e : LoaderEvent)
  | FxStore (e : CommanderEvent).

(** ** Dialogs *)

Definition openModeDialog (mode : OpenMode) : CommanderFileDialogMode :=
  match mode with OpenView => DialogView | OpenEdit => DialogEdit end.

(** The dialog of a file that can be shown. *)
Definition snapshotDialog (r : ReadCall) (s : CommanderFileSnapshot) : CommanderFileDialogState :=
  mkDialog (rd_pane r) (fs_path s) (fs_entryId s) (fs_entryName s) (openModeDialog (rd_mode r))
    (fs_content s) (fs_content s) (Some (fs_previewKind s)) (fs_previewBytes s) (fs_sizeBytes s)
    (fs_truncated s) None None None.

(** The dialog of a file that the backend cannot preview. *)
Definition noPreviewDialog (r : ReadCall) : CommanderFileDialogState :=
  mkDialog (rd_pane r) (rd_panePath r) (rd_entryId r) (rd_entryName r) DialogBlocked "" ""
    None None None None
    (Some "File is binary or not UTF-8 text. Open it with an external tool.")
    (Some "Preview unavailable for this file") (Some "Binary preview unavailable").

(** The dialog of a file that cannot be edited, with what the preview tells of it. *)
Definition notTextDialog (r : ReadCall) (s : option CommanderFileSnapshot) : CommanderFileDialogState :=
  mkDialog (rd_pane r) (rd_panePath r) (rd_entryId r) (rd_entryName r) DialogBlocked "" ""
    (fs_previewKind <$> s) (s ≫= fs_previewBytes) (s ≫= fs_sizeBytes) (s ≫= fs_truncated)
    (Some "File is not UTF-8 text. Use F3 for preview or open it with an external tool.") None None.

(** What a first read that succeeded shows. *)
Definition readDialog (r : ReadCall) (s : CommanderFileSnapshot) : CommanderFileDialogState :=
  if (bool_decide (rd_mode r = OpenView) && negb (fs_previewAvailable s))%bool then noPreviewDialog r
  else snapshotDialog r s.

(** [{ ...fileDialog, content, draftValue, entryId, entryName, path }] *)
Definition savedDialog (d : CommanderFileDialogState) (s : CommanderFileSnapshot)
    : CommanderFileDialogState :=
  mkDialog (fd_paneId d) (fs_path s) (fs_entryId s) (fs_entryName s) (fd_mode d) (fs_content s)
    (fs_content s) (fd_previewKind d) (fd_previewBytes d) (fd_sizeBytes d) (fd_truncated d)
    (fd_blockedReason d) (fd_blockedTitle d) (fd_blockedHint d).

(** The requests of the dialog. *)
Definition saveRequest (d : CommanderFileDialogState) : FSRequest :=
  ReqWriteFile (toCommanderEntryPath (fd_path d) (fd_entryName d)) (fd_draftValue d).
Definition openEntryRequest (d : CommanderFileDialogState) : FSRequest :=
  ReqOpen (toCommanderEntryPath (fd_path d) (fd_entryName d)).
Definition openFolderRequest (d : CommanderFileDialogState) : FSRequest := ReqOpen (fd_path d).

Section Files.
Context `{Locale}.
Variables (widgetId : string) (persisted : option CommanderWidgetPersistedState).

(** ** Operations *)

Definition files_widgets (s : Files) : CommanderWidgets := ld_widgets (fx_loader s).

(** One event of the store. *)
Definition dispatch (e : CommanderEvent) (s : Files) : Files :=
  let l := fx_loader s in
  mkFiles (fx_requestId s) (fx_reads s) (fx_saves s) (fx_others s) (fx_inFlight s)
    (mkLoader (ld_ids l) (ld_flight l) (step (ld_widgets l) widgetId e)).

Definition set_reads (l : list ReadCall) (s : Files) : Files :=
  mkFiles (fx_requestId s) l (fx_saves s) (fx_others s) (fx_inFlight s) (fx_loader s).
Definition set_saves (l : list SaveCall) (b : bool) (s : Files) : Files :=
  mkFiles (fx_requestId s) (fx_reads s) l (fx_others s) b (fx_loader s).
Definition set_others (n : nat) (b : bool) (s : Files) : Files :=
  mkFiles (fx_requestId s) (fx_reads s) (fx_saves s) n b (fx_loader s).
Definition set_loader (l : Loader) (s : Files) : Files :=
  mkFiles (fx_requestId s) (fx_reads s) (fx_saves s) (fx_others s) (fx_inFlight s) l.

(** [openFileDialogForEntry] up to its first [await]. *)
Definition openFileDialogForEntry (s : Files) (pane : CommanderPaneId) (entryId : string)
    (mode : OpenMode) : Files :=
  let p := getRuntimePaneState (runtimeState widgetId persisted (files_widgets s)) pane in
  match find (has_id entryId) (p_entries p) with
  | None => s
  | Some e =>
      if negb (bool_decide (e_kind e = KindFile)) ||
         negb (truthy (toCommanderEntryPath (p_path p) (e_name e))) then s
      else
        let requestId := S (fx_requestId s) in
        mkFiles requestId
          (fx_reads s ++ [mkRead requestId pane (p_path p) entryId (e_name e) mode false])
          (fx_saves s) (fx_others s) (fx_inFlight s) (fx_loader s)
  end.

(** [openFilePreview] and [openFileEditor] *)
Definition openFile (s : Files) (pane : CommanderPaneId) (mode : OpenMode) : Files :=
  let p := getRuntimePaneState (runtimeState widgetId persisted (files_widgets s)) pane in
  match truthyOpt (p_cursorEntryId p) with
  | None => s
  | Some entryId => openFileDialogForEntry s pane entryId mode
  end.

Definition dropRead (r : ReadCall) (s : Files) : Files :=
  set_reads (filterb (fun x => negb (bool_decide (x = r))) (fx_reads s)) s.

Definition isCurrentRead (s : Files) (r : ReadCall) : bool := rd_id r =? fx_requestId s.

Definition showDialog (d : CommanderFileDialogState) : Files -> Files := dispatch (SetFileDialog (Some d)).

(** The continuation of a read that succeeded. *)
Definition readSucceeded (s : Files) (r : ReadCall) (snapshot : CommanderFileSnapshot) : Files :=
  let s' := dropRead r s in
  if isCurrentRead s r then
    showDialog (if rd_retry r then notTextDialog r (Some snapshot) else readDialog r snapshot) s'
  else s'.

Definition isNotText (error : CommanderError) : bool :=
  match error with
  | CommanderAPIError _ code _ => bool_decide (code = "invalid_fs_text")
  | _ => false
  end.

(** The [catch] of a read. *)
Definition readFailed (s : Files) (r : ReadCall) (error : CommanderError) : Files :=
  let s' := dropRead r s in
  if rd_retry r then
    if isCurrentRead s r then showDialog (notTextDialog r None) s' else s'
  else if (bool_decide (rd_mode r = OpenEdit) && isNotText error)%bool then
    set_reads (fx_reads s' ++
      [mkRead (rd_id r) (rd_pane r) (rd_panePath r) (rd_entryId r) (rd_entryName r) (rd_mode r) true]) s'
  else dispatch (SetPaneLoadError (rd_pane r) None (Some (toLoadErrorMessage error))) s'.

(** [saveFileDialogAsync] up to its first [await]. *)
Definition saveFileDialogAsync (s : Files) : Files :=
  match w_fileDialog (runtimeState widgetId persisted (files_widgets s)) with
  | None => s
  | Some d =>
      if negb (bool_decide (fd_mode d = DialogEdit)) || fx_inFlight s then s
      else set_saves (fx_saves s ++ [SaveWriting d]) true s
  end.

Definition dropSave (c : SaveCall) (b : bool) (s : Files) : Files :=
  set_saves (filterb (fun x => negb (bool_decide (x = c))) (fx_saves s)) b s.

(** The continuation of a write that succeeded, up to the reload. *)
Definition saveSucceeded (s : Files) (d : CommanderFileDialogState) (snapshot : CommanderFileSnapshot)
    : Files :=
  let shown := showDialog (savedDialog d snapshot) (dropSave (SaveWriting d) (fx_inFlight s) s) in
  let loader := startLoad widgetId persisted (fx_loader shown) (fd_paneId d) (fs_path snapshot) ModeReplace
    (mkLoadOptions (Some (fs_entryId snapshot)) None (Some [fs_entryId snapshot])
       (Some (fs_entryId snapshot))) in
  match last (ld_flight loader) with
  | None => set_loader loader shown
  | Some r => set_saves (fx_saves shown ++ [SaveReloading d r]) (fx_inFlight s) (set_loader loader shown)
  end.

Definition reportDialogError (d : CommanderFileDialogState) (error : CommanderError) : Files -> Files :=
  dispatch (SetPaneLoadError (fd_paneId d) (Some (fd_path d)) (Some (toLoadErrorMessage error))).

(** The [catch] and the [finally] of a write that failed. *)
Definition saveFailed (s : Files) (d : CommanderFileDialogState) (error : CommanderError) : Files :=
  reportDialogError d error (dropSave (SaveWriting d) false s).

Definition filesStep (s : Files) (e : FilesEvent) : Files :=
  match e with
  | FxOpen pane entryId mode => openFileDialogForEntry s pane entryId mode
  | FxReadOk r snapshot => if includes r (fx_reads s) then readSucceeded s r snapshot else s
  | FxReadFail r error => if includes r (fx_reads s) then readFailed s r error else s
  | FxSave => saveFileDialogAsync s
  | FxSaveOk d snapshot =>
      if includes (SaveWriting d) (fx_saves s) then saveSucceeded s d snapshot else s
  | FxSaveFail d error => if includes (SaveWriting d) (fx_saves s) then saveFailed s d error else s
  | FxSaveReloaded d r =>
      if (includes (SaveReloading d r) (fx_saves s) && negb (includes r (ld_flight (fx_loader s))))%bool
      then dropSave (SaveReloading d r) false s else s
  | FxOpenFailed d error => reportDialogError d error s
  | FxOtherStart => if fx_inFlight s then s else set_others (S (fx_others s)) true s
  | FxOtherEnd => match fx_others s with O => s | S n => set_others n false s end
  | FxLoader e => set_loader (loaderStep widgetId persisted (fx_loader s) e) s
  | FxStore e => dispatch e s
  end.

Definition runFiles (s : Files) (es : list FilesEvent) : Files := foldl filesStep s es.

Definition initFiles (widgets : CommanderWidgets) : Files :=
  mkFiles 0 [] [] 0 false (initLoader widgets).

(** ** Invariant *)

(** Read numbers in flight are at most the current one and pairwise different;
    the mutation flag is set exactly while one save or one other mutation is
    in flight. *)
Definition files_ok (s : Files) : Prop :=
  (forall r, r ∈ fx_reads s -> rd_id r <= fx_requestId s) /\
  (forall r r', r ∈ fx_reads s -> r' ∈ fx_reads s -> rd_id r = rd_id r' -> r = r') /\
  length (fx_saves s) + fx_others s = (if fx_inFlight s then 1 else 0).

End Files.

(** The dialog that the widget shows. *)
Definition dialogOf (widgetId : string) (s : Files) : option CommanderFileDialogState :=
  files_widgets s !! widgetId ≫= w_fileDialog.

(** The events of the store that change a dialog. *)
Definition dialog_event (e : CommanderEvent) : bool :=
  match e with
  | MountWidget _ | SetFileDialog _ | SetFileDialogDraft _ | CloseFileDialog => true
  | _ => false
  end.

(** The events that neither open nor save nor close a file: answers of reads,
    loads and other requests among them. *)
Definition quiet (e : FilesEvent) : bool :=
  match e with
  | FxOpen _ _ _ | FxSaveOk _ _ => false
  | FxStore e => negb (dialog_event e)
  | _ => true
  end.

(** ** Lemmas *)

Section FilesLemmas.
Context `{Locale}.
Variables (widgetId : string) (persisted : option CommanderWidgetPersistedState).

Lemma pane_keeps_dialog w pane p : w_fileDialog (setPaneState w pane p) = w_fileDialog w.
Proof. by destruct pane. Qed.

Lemma update_keeps_dialog w pane f : w_fileDialog (updatePaneState w pane f) = w_fileDialog w.
Proof. apply pane_keeps_dialog. Qed.

Lemma pending_keeps_dialog op w : w_fileDialog (set_pendingOperation op w) = w_fileDialog w.
Proof. done. Qed.

Ltac keeps_dialog :=
  repeat case_match; simplify_eq; unfold reproject, paneLoading, paneLoadError, hydratePane,
    setPaneCursor, moveCursor;
  rewrite ?pending_keeps_dialog, ?update_keeps_dialog, ?pending_keeps_dialog; try done.

Lemma reduce_keeps_dialog e w w' :
  dialog_event e = false -> reduce e w = Some w' -> w_fileDialog w' = w_fileDialog w.
Proof.
  destruct e; intros Hd Hr; try discriminate Hd; unfold reduce in Hr;
    unfold toggleActivePaneSelection, requestCommanderWidgetPendingOperation,
      stepCommanderWidgetPendingSearchMatch, updateCommanderPendingOperationInput,
      confirmCommanderWidgetPendingOperation in Hr; cbv zeta in Hr; keeps_dialog.
Qed.

Lemma step_keeps_dialog widgets e :
  dialog_event e = false ->
  step widgets widgetId e !! widgetId ≫= w_fileDialog = widgets !! widgetId ≫= w_fileDialog.
Proof.
  intros Hd. assert (step widgets widgetId e = withCommanderWidgetState widgets widgetId (reduce e)) as ->
    by (by destruct e).
  rewrite with_widget_lookup, decide_True by done. destruct (widgets !! widgetId) as [w|]; [|done]. simpl.
  destruct (reduce e w) as [w'|] eqn:E; [|done]. simpl. by apply (reduce_keeps_dialog e).
Qed.

Lemma dispatch_dialog e s :
  dialog_event e = false -> dialogOf widgetId (dispatch widgetId e s) = dialogOf widgetId s.
Proof. apply step_keeps_dialog. Qed.

Lemma loader_dialog e l :
  ld_widgets (loaderStep widgetId persisted l e) !! widgetId ≫= w_fileDialog =
  ld_widgets l !! widgetId ≫= w_fileDialog.
Proof.
  destruct e as [pane path mode options|r snap|r err]; unfold loaderStep.
  - by apply (step_keeps_dialog _ (SetPaneLoading pane)).
  - case_match; [|done]. unfold loadSucceeded. case_match; [|done].
    by apply (step_keeps_dialog _ (HydratePaneDirectory _)).
  - case_match; [|done]. unfold loadFailed. case_match; [|done].
    by apply (step_keeps_dialog _ (SetPaneLoadError _ _ _)).
Qed.

Lemma elem_of_drop {A} `{EqDecision A} (r x : A) l :
  x ∈ filterb (fun y => negb (bool_decide (y = r))) l <-> x ∈ l /\ x <> r.
Proof. by rewrite elem_of_filterb, negb_true_iff, bool_decide_eq_false. Qed.

Lemma elem_of_reads_drop r x s : x ∈ fx_reads (dropRead r s) <-> x ∈ fx_reads s /\ x <> r.
Proof. apply elem_of_drop. Qed.

(** The only call of a list of calls is dropped. *)
Lemma length_drop_only {A} `{EqDecision A} (c : A) l n :
  c ∈ l -> length l + n = 1 -> filterb (fun y => negb (bool_decide (y = c))) l = [] /\ n = 0.
Proof.
  intros Hc Hl. destruct l as [|x [|y l]]; simpl in *; [by apply elem_of_nil in Hc| |lia].
  apply list_elem_of_singleton in Hc as ->. rewrite bool_decide_true by done. split; [done|lia].
Qed.

Lemma files_ok_flag s : files_ok s -> length (fx_saves s) + fx_others s <> 0 ->
  fx_inFlight s = true /\ length (fx_saves s) + fx_others s = 1.
Proof. intros (_ & _ & H3). destruct (fx_inFlight s); lia. Qed.

Lemma files_ok_dispatch e s : files_ok s -> files_ok (dispatch widgetId e s).
Proof. done. Qed.

Lemma files_ok_open s pane x mode :
  files_ok s -> files_ok (openFileDialogForEntry widgetId persisted s pane x mode).
Proof.
  intros Hok. unfold openFileDialogForEntry. cbv zeta.
  destruct (find _ _) as [e|]; [|done]. destruct (_ || _); [done|]. destruct Hok as (H1 & H2 & H3).
  split_and!; simpl; [| |done].
  - intros r [Hr| ->%list_elem_of_singleton]%elem_of_app; simpl; [|lia]. specialize (H1 r Hr). lia.
  - intros r r' [Hr| ->%list_elem_of_singleton]%elem_of_app [Hr'| ->%list_elem_of_singleton]%elem_of_app;
      simpl; intros E; [by apply H2| | |done].
    + specialize (H1 r Hr). lia.
    + specialize (H1 r' Hr'). lia.
Qed.

Lemma files_ok_dropRead r s : files_ok s -> files_ok (dropRead r s).
Proof.
  intros (H1 & H2 & H3). split_and!; [| |done].
  - intros x [Hx _]%elem_of_reads_drop. by apply H1.
  - intros x y [Hx _]%elem_of_reads_drop [Hy _]%elem_of_reads_drop. by apply H2.
Qed.

Lemma files_ok_retry r s :
  files_ok s -> r ∈ fx_reads s ->
  files_ok (set_reads (fx_reads (dropRead r s) ++
    [mkRead (rd_id r) (rd_pane r) (rd_panePath r) (rd_entryId r) (rd_entryName r) (rd_mode r) true])
    (dropRead r s)).
Proof.
  intros (H1 & H2 & H3) Hr. split_and!; cbn [fx_reads fx_requestId set_reads dropRead]; [| |done].
  - intros x [[Hx _]%elem_of_drop| ->%list_elem_of_singleton]%elem_of_app; [by apply H1|by apply (H1 r)].
  - intros x y [[Hx Hnx]%elem_of_drop| ->%list_elem_of_singleton]%elem_of_app
      [[Hy Hny]%elem_of_drop| ->%list_elem_of_singleton]%elem_of_app; simpl; intros E;
      [by apply H2| | |done].
    + by destruct Hnx; apply H2.
    + by destruct Hny; apply H2.
Qed.

Lemma files_ok_saves s l (b : bool) :
  files_ok s -> length l + fx_others s = (if b then 1 else 0) -> files_ok (set_saves l b s).
Proof. intros (H1 & H2 & _) Hl. by split_and!. Qed.

Lemma files_ok_dropSave s c :
  files_ok s -> c ∈ fx_saves s ->
  files_ok (dropSave c false s) /\ fx_saves (dropSave c false s) = [] /\ fx_others s = 0 /\
  fx_inFlight s = true.
Proof.
  intros Hok Hc. destruct (files_ok_flag s Hok) as [Hf Hl].
  { destruct (fx_saves s); [by apply elem_of_nil in Hc|simpl; lia]. }
  destruct (length_drop_only c _ _ Hc Hl) as [Hd Ho]. unfold dropSave. rewrite Hd.
  split_and!; [|done|done|done]. apply files_ok_saves; [done|]. simpl. lia.
Qed.

Lemma filesStep_ok s e : files_ok s -> files_ok (filesStep widgetId persisted s e).
Proof.
  intros Hok. destruct e as [pane x mode|r snap|r err| |d snap|d err|d r|d err| | |e|e]; unfold filesStep.
  - by apply files_ok_open.
  - destruct (includes r (fx_reads s)) eqn:Er; [|done]. unfold readSucceeded.
    destruct (isCurrentRead s r); [|by apply files_ok_dropRead].
    by apply files_ok_dispatch, files_ok_dropRead.
  - destruct (includes r (fx_reads s)) eqn:Er; [|done]. apply includes_true in Er. unfold readFailed.
    destruct (rd_retry r); [destruct (isCurrentRead s r)|destruct (_ && _)%bool];
      by (apply files_ok_retry || by apply files_ok_dispatch, files_ok_dropRead || apply files_ok_dropRead).
  - unfold saveFileDialogAsync. destruct (w_fileDialog _) as [d|]; [|done].
    destruct (_ || _) eqn:E; [done|]. apply orb_false_iff in E as [_ E].
    apply files_ok_saves; [done|]. destruct Hok as (_ & _ & H3). rewrite E in H3.
    rewrite length_app. simpl. lia.
  - destruct (includes _ (fx_saves s)) eqn:E; [|done]. apply includes_true in E.
    destruct (files_ok_dropSave s _ Hok E) as (Hd & Hs & Ho & Hf).
    unfold saveSucceeded. cbv zeta. set (l := startLoad _ _ _ _ _ _ _).
    assert (exists r, last (ld_flight l) = Some r) as [r ->].
    { eexists. unfold l, startLoad. cbv zeta. cbn [ld_flight]. apply last_snoc. }
    destruct Hd as (H1 & H2 & _). split_and!; [done|done|]. simpl.
    unfold dropSave in Hs. cbn [fx_saves set_saves] in Hs. rewrite Hs, Hf, Ho. done.
  - destruct (includes _ (fx_saves s)) eqn:E; [|done]. apply includes_true in E.
    by apply files_ok_dispatch, files_ok_dropSave.
  - destruct (_ && _)%bool eqn:E; [|done]. apply andb_true_iff in E as [E _]. apply includes_true in E.
    by apply files_ok_dropSave.
  - by apply files_ok_dispatch.
  - destruct (fx_inFlight s) eqn:E; [done|]. destruct Hok as (H1 & H2 & H3). rewrite E in H3.
    split_and!; [done|done|]. simpl. lia.
  - destruct (fx_others s) as [|n] eqn:E; [done|]. destruct (files_ok_flag s Hok) as [_ Hl]; [lia|].
    destruct Hok as (H1 & H2 & _). split_and!; [done|done|]. simpl. lia.
  - done.
  - by apply files_ok_dispatch.
Qed.

Lemma runFiles_ok es s : files_ok s -> files_ok (runFiles widgetId persisted s es).
Proof. revert s. induction es as [|e es IH]; intros s Hok; [done|]. by apply IH, filesStep_ok. Qed.

Lemma initFiles_ok widgets : files_ok (initFiles widgets).
Proof. split_and!; [intros r Hr|intros r r' Hr|done]; by apply elem_of_nil in Hr. Qed.

(** Without a current read in flight the quiet events leave the dialog alone. *)
Lemma quiet_step s e :
  quiet e = true -> (forall r, r ∈ fx_reads s -> rd_id r <> fx_requestId s) ->
  let s' := filesStep widgetId persisted s e in
  dialogOf widgetId s' = dialogOf widgetId s /\ forall r, r ∈ fx_reads s' -> rd_id r <> fx_requestId s'.
Proof.
  intros Hq Hno.
  destruct e as [pane x mode|r snap|r err| |d snap|d err|d r|d err| | |e|e]; try discriminate Hq; cbv zeta;
    unfold filesStep.
  - destruct (includes r (fx_reads s)) eqn:Er; [|done]. apply includes_true in Er. unfold readSucceeded.
    rewrite (proj2 (Nat.eqb_neq _ _) (Hno r Er) : isCurrentRead s r = false).
    split; [done|]. intros y [Hy _]%elem_of_reads_drop. by apply Hno.
  - destruct (includes r (fx_reads s)) eqn:Er; [|done]. apply includes_true in Er. unfold readFailed.
    rewrite (proj2 (Nat.eqb_neq _ _) (Hno r Er) : isCurrentRead s r = false).
    assert (forall y, y ∈ fx_reads (dropRead r s) -> rd_id y <> fx_requestId s) as Hd.
    { intros y [Hy _]%elem_of_reads_drop. by apply Hno. }
    destruct (rd_retry r); [done|]. destruct (_ && _)%bool.
    + split; [done|]. cbn [fx_reads set_reads fx_requestId].
      intros y [Hy| ->%list_elem_of_singleton]%elem_of_app; [by apply Hd|by apply (Hno r)].
    + split; [|done]. by apply (dispatch_dialog (SetPaneLoadError _ _ _) (dropRead r s)).
  - unfold saveFileDialogAsync. repeat case_match; done.
  - destruct (includes _ (fx_saves s)); [|done]. split; [|done].
    by apply (dispatch_dialog (SetPaneLoadError _ _ _) (dropSave _ _ s)).
  - by destruct (_ && _)%bool.
  - split; [|done]. by apply (dispatch_dialog (SetPaneLoadError _ _ _)).
  - by destruct (fx_inFlight s).
  - by destruct (fx_others s).
  - split; [|done]. apply loader_dialog.
  - split; [|done]. apply dispatch_dialog. by apply negb_true_iff in Hq.
Qed.

Lemma quiet_run es s :
  Forall (fun e => quiet e = true) es -> (forall r, r ∈ fx_reads s -> rd_id r <> fx_requestId s) ->
  dialogOf widgetId (runFiles widgetId persisted s es) = dialogOf widgetId s.
Proof.
  intros Hall. revert s. induction Hall as [|e es He _ IH]; intros s Hno; [done|].
  destruct (quiet_step s e He Hno) as [Hd Hno']. rewrite <- Hd. by apply IH.
Qed.

(** The write was answered: the dialog shows the answer and the reload is in flight. *)
Lemma saveSucceeded_spec s d snapshot w :
  files_ok s -> SaveWriting d ∈ fx_saves s -> files_widgets s !! widgetId = Some w ->
  exists r, let s2 := saveSucceeded widgetId persisted s d snapshot in
    dialogOf widgetId s2 = Some (savedDialog d snapshot) /\
    fx_saves s2 = [SaveReloading d r] /\ fx_inFlight s2 = true /\
    r ∈ ld_flight (fx_loader s2) /\ isCurrent (fx_loader s2) r = true /\
    rq_pane r = fd_paneId d /\ rq_path r = fs_path snapshot /\
    lo_cursorEntryId (rq_options r) = Some (fs_entryId snapshot).
Proof.
  intros Hok Hin Hw. destruct (files_ok_dropSave s _ Hok Hin) as (_ & Hs & _ & Hf).
  unfold saveSucceeded. cbv zeta. set (shown := showDialog _ _ _). set (l := startLoad _ _ _ _ _ _ _).
  assert (dialogOf widgetId (set_loader l shown) = Some (savedDialog d snapshot)) as Hd.
  { etrans; [apply (step_keeps_dialog _ (SetPaneLoading (fd_paneId d))); done|].
    set (e := SetFileDialog (Some (savedDialog d snapshot))).
    assert (ld_widgets (fx_loader shown) !! widgetId =
      Some (set_fileDialog (Some (savedDialog d snapshot)) w)) as ->; [|done].
    by apply (step_widget widgetId _ w e). }
  assert (exists r, last (ld_flight l) = Some r /\ r ∈ ld_flight l /\ isCurrent l r = true /\
    rq_pane r = fd_paneId d /\ rq_path r = fs_path snapshot /\
    lo_cursorEntryId (rq_options r) = Some (fs_entryId snapshot)) as (r & -> & Hr & Hc & Hrest).
  { eexists. unfold l, startLoad. cbv zeta. unfold isCurrent. cbn [ld_flight ld_ids].
    split_and!; [apply last_snoc|apply elem_of_app; right; by apply list_elem_of_singleton
      |apply Nat.eqb_refl|done..]. }
  exists r. split_and!; [exact Hd| |by rewrite <- Hf|done|done|apply Hrest..].
  change (fx_saves shown) with (fx_saves (dropSave (SaveWriting d) false s)). by rewrite Hs.
Qed.

End FilesLemmas.

Section SaveLemmas.

Lemma snapshotDirectory_snoc segs name :
  Forall (fun s => clean_segment s = true) segs -> clean_segment name = true ->
  snapshotDirectory (abs_path (segs ++ [name])) = abs_path segs.
Proof.
  intros Hall Hn. unfold snapshotDirectory.
  apply clean_segment_spec in Hn as (_ & _ & _ & Hs & _). apply lastIndexOf_None in Hs.
  destruct segs as [|x l].
  - change (abs_path ([] ++ [name])) with ("" +:+ String slash name). by rewrite lastIndexOf_app.
  - rewrite abs_snoc by done. change ("/" +:+ name) with (String slash name).
    rewrite lastIndexOf_app by done. by rewrite strTake_append.
Qed.

(** The snapshot of the file [name] in an absolute directory. *)
Lemma fileSnapshot_abs segs name content :
  Forall (fun s => clean_segment s = true) segs -> clean_segment name = true ->
  let s := fileSnapshot (mkFSFile content (toCommanderEntryPath (abs_path segs) name)) in
  fs_path s = abs_path segs /\ fs_entryName s = name /\
  fs_entryId s = toCommanderEntryId (abs_path segs) name /\ fs_content s = content.
Proof.
  intros Hall Hn. unfold fileSnapshot, toCommanderEntryPath.
  cbn [ff_path ff_content fs_path fs_entryName fs_entryId fs_content].
  by rewrite join_clean, snapshotDirectory_snoc, pathEntryName_snoc by done.
Qed.

End SaveLemmas.

(** ** Properties *)

(** The file opened last is the one that is shown: when the read of the
    newest call succeeds, its file is in the dialog, or the notice that it has
    no preview, and no answer to an older call, of whatever kind and order,
    replaces it, nor does any load or event of the store that is not about the
    dialog. *)
Theorem latest_open_shown `{Locale} widgetId persisted widgets es es' r snapshot w :
  let s := runFiles widgetId persisted (initFiles widgets) es in
  r ∈ fx_reads s -> rd_id r = fx_requestId s -> rd_retry r = false ->
  files_widgets s !! widgetId = Some w -> Forall (fun e => quiet e = true) es' ->
  dialogOf widgetId (runFiles widgetId persisted s (FxReadOk r snapshot :: es')) =
    Some (readDialog r snapshot).
Proof.
  intros s Hr Hid Hretry Hw Hall.
  assert (files_ok s) as Hok by apply runFiles_ok, initFiles_ok. clearbody s.
  unfold runFiles. cbn [foldl]. change (foldl (filesStep widgetId persisted)) with (runFiles widgetId persisted).
  assert (filesStep widgetId persisted s (FxReadOk r snapshot) =
    showDialog widgetId (readDialog r snapshot) (dropRead r s)) as ->.
  { unfold filesStep. rewrite (proj2 (includes_true r _) Hr). unfold readSucceeded.
    by rewrite (proj2 (Nat.eqb_eq _ _) Hid : isCurrentRead s r = true), Hretry. }
  rewrite quiet_run; [|done|].
  - unfold dialogOf, showDialog. set (e := SetFileDialog _).
    assert (files_widgets (dispatch widgetId e (dropRead r s)) !! widgetId =
      Some (set_fileDialog (Some (readDialog r snapshot)) w)) as ->; [|done].
    by apply (step_widget widgetId _ w e).
  - intros x [Hx Hne]%elem_of_reads_drop E. apply Hne. destruct Hok as (_ & Hu & _).
    apply Hu; [done|done|]. by rewrite Hid.
Qed.

(** Saving is exclusive and faithful.  A save of an edited file with the
    mutation flag free is the only mutation in flight and keeps the flag until
    its reload was answered, a second save in between does nothing, and the
    answer shows the saved text and reloads the pane with the file under the
    cursor.  When the backend answers with the path and the text it was sent,
    the dialog stays on its file with the draft as its content. *)
Theorem save_exclusive_faithful `{Locale} widgetId persisted widgets es w d segs :
  let s := runFiles widgetId persisted (initFiles widgets) es in
  let stepf := filesStep widgetId persisted in
  files_widgets s !! widgetId = Some w -> w_fileDialog w = Some d -> fd_mode d = DialogEdit ->
  fx_inFlight s = false ->
  Forall (fun x => clean_segment x = true) segs -> clean_segment (fd_entryName d) = true ->
  fd_path d = abs_path segs ->
  let s1 := stepf s FxSave in
  fx_saves s1 = [SaveWriting d] /\ fx_inFlight s1 = true /\ fx_others s1 = 0 /\ stepf s1 FxSave = s1 /\
  (forall snapshot, exists r,
     let s2 := stepf s1 (FxSaveOk d snapshot) in
     let s3 := stepf s2 (FxSaveReloaded d r) in
     dialogOf widgetId s2 = Some (savedDialog d snapshot) /\
     fx_saves s2 = [SaveReloading d r] /\ fx_inFlight s2 = true /\ s3 = s2 /\
     r ∈ ld_flight (fx_loader s2) /\ isCurrent (fx_loader s2) r = true /\
     rq_pane r = fd_paneId d /\ rq_path r = fs_path snapshot /\
     lo_cursorEntryId (rq_options r) = Some (fs_entryId snapshot)) /\
  (forall path content, saveRequest d = ReqWriteFile path content ->
     let d' := savedDialog d (fileSnapshot (mkFSFile content path)) in
     fd_path d' = fd_path d /\ fd_entryName d' = fd_entryName d /\
     fd_content d' = fd_draftValue d /\ fd_draftValue d' = fd_draftValue d /\ fd_mode d' = DialogEdit).
Proof.
  intros s stepf Hw Hd Hmode Hflag Hall Hname Hpath s1.
  assert (files_ok s) as Hok by apply runFiles_ok, initFiles_ok. clearbody s.
  assert (s1 = set_saves (fx_saves s ++ [SaveWriting d]) true s) as E1.
  { unfold s1, stepf, filesStep, saveFileDialogAsync.
    assert (runtimeState widgetId persisted (files_widgets s) = w) as -> by (unfold runtimeState; by rewrite Hw).
    rewrite Hd, Hmode, Hflag. by rewrite bool_decide_eq_true_2. }
  assert (files_ok s1) as Hok1 by apply filesStep_ok, Hok.
  assert (fx_saves s1 = [SaveWriting d]) as Hsv.
  { destruct Hok as (_ & _ & H3). rewrite Hflag in H3. rewrite E1. simpl.
    by destruct (fx_saves s); [|simpl in H3; lia]. }
  assert (SaveWriting d ∈ fx_saves s1) as Hin by (rewrite Hsv; by left).
  destruct (files_ok_dropSave s1 _ Hok1 Hin) as (_ & _ & Ho & Hf).
  assert (files_widgets s1 !! widgetId = Some w) as Hw1 by by rewrite E1.
  clearbody s1. split_and!; [done..| | |].
  - unfold stepf, filesStep, saveFileDialogAsync. case_match; [|done]. by rewrite Hf, orb_true_r.
  - intros snapshot.
    destruct (saveSucceeded_spec widgetId persisted s1 d snapshot w) as (r & H2); [done..|].
    exists r. cbv zeta.
    assert (stepf s1 (FxSaveOk d snapshot) = saveSucceeded widgetId persisted s1 d snapshot) as ->
      by (unfold stepf, filesStep; by rewrite (proj2 (includes_true _ _) Hin)).
    destruct H2 as (Hdl & Hsv2 & Hf2 & Hr & Hrest). split_and!; [done|done|done| |done|apply Hrest..].
    unfold stepf, filesStep. by rewrite (proj2 (includes_true r _) Hr), andb_false_r.
  - intros path content [= <- <-]. rewrite Hpath.
    destruct (fileSnapshot_abs segs (fd_entryName d) (fd_draftValue d)) as (Hp & Hn & _ & Hc); [done..|].
    unfold savedDialog. cbn [fd_path fd_entryName fd_content fd_draftValue fd_mode]. by rewrite Hp, Hn, Hc.
Qed.

(** An answer that arrives after the dialog was closed opens it again, for a
    read as for a save. *)
Example close_does_not_cancel :
  let r := mkRead 1 PaneLeft "/d" "/d::a.txt" "a.txt" OpenView false in
  let snapshot := fileSnapshot (mkFSFile "text" "/d/a.txt") in
  let s := runFiles (H := ascii_locale) "w1" None (initFiles {[ "w1" := two_panes None [] ]})
    [FxOpen PaneLeft "/d::a.txt" OpenView; FxStore CloseFileDialog; FxReadOk r snapshot] in
  fd_content <$> dialogOf "w1" s = Some "text".
Proof. vm_compute. reflexivity. Qed.

(** The dialog of an edited file. *)
Definition edit_dialog (draft : string) : CommanderFileDialogState :=
  mkDialog PaneLeft "/d" "/d::a.txt" "a.txt" DialogEdit "text" draft (Some PreviewText)
    None None None None None None.

(** What is typed while a save is in flight is lost: the answer puts the saved
    text into the draft. *)
Example typing_while_saving_is_lost :
  let snapshot := fileSnapshot (mkFSFile "one" "/d/a.txt") in
  let s := runFiles (H := ascii_locale) "w1" None
    (initFiles {[ "w1" := set_fileDialog (Some (edit_dialog "one")) (two_panes None []) ]})
    [FxSave; FxStore (SetFileDialogDraft "one two"); FxSaveOk (edit_dialog "one") snapshot] in
  fd_draftValue <$> dialogOf "w1" s = Some "one".
Proof. vm_compute. reflexivity. Qed.

(** ** Witnesses *)

(** Two files opened one after the other, and a listing in flight. *)
Definition two_opens : list FilesEvent :=
  [FxLoader (LoadStart PaneLeft "/d" ModeReplace no_options); FxOpen PaneLeft "/d::a.txt" OpenView;
   FxOpen PaneLeft "/d::b.txt" OpenEdit].

Definition sample_read (k : nat) (name : string) (mode : OpenMode) : ReadCall :=
  mkRead k PaneLeft "/d" ("/d::" +:+ name) name mode false.

Definition dialog_store (d : option CommanderFileDialogState) : CommanderWidgets :=
  {[ "w1" := set_fileDialog d (two_panes None []) ]}.

Lemma latest_open_shown_witness :
  let b := fileSnapshot (mkFSFile "bb" "/d/b.txt") in
  dialogOf "w1" (runFiles "w1" None (runFiles "w1" None (initFiles (dialog_store None)) two_opens)
    [FxReadOk (sample_read 2 "b.txt" OpenEdit) b; FxStore (MoveActivePaneCursor 1 false);
     FxReadOk (sample_read 1 "a.txt" OpenView) (fileSnapshot (mkFSFile "aa" "/d/a.txt"))])
    = Some (readDialog (sample_read 2 "b.txt" OpenEdit) b).
Proof.
  intros b.
  destruct (files_widgets (runFiles "w1" None (initFiles (dialog_store None)) two_opens) !! "w1") as [w|] eqn:E;
    [|exfalso; vm_compute in E; discriminate].
  apply (latest_open_shown "w1" None (dialog_store None) two_opens
    [FxStore (MoveActivePaneCursor 1 false);
     FxReadOk (sample_read 1 "a.txt" OpenView) (fileSnapshot (mkFSFile "aa" "/d/a.txt"))]
    (sample_read 2 "b.txt" OpenEdit) b w).
  - by apply (bool_decide_unpack _); vm_compute.
  - vm_compute. reflexivity.
  - reflexivity.
  - exact E.
  - by repeat constructor.
Defined.

Lemma save_exclusive_faithful_witness :
  let s := initFiles (dialog_store (Some (edit_dialog "new"))) in
  fx_saves (filesStep "w1" None s FxSave) = [SaveWriting (edit_dialog "new")].
Proof.
  intros s.
  destruct (save_exclusive_faithful "w1" None (dialog_store (Some (edit_dialog "new"))) []
    (set_fileDialog (Some (edit_dialog "new")) (two_panes None [])) (edit_dialog "new") ["d"]) as [Hsv _].
  - reflexivity.
  - reflexivity.
  - reflexivity.
  - reflexivity.
  - repeat constructor.
  - reflexivity.
  - reflexivity.
  - exact Hsv.
Defined.
