(* ===== verification/Keyboard.v ===== *)
(** * The keyboard of the commander

    [frontend/src/features/commander/model/keyboard-handlers.ts] and
    [keyboard.ts]: the handlers of a key press in their order of priority, the
    incremental typeahead, and [commanderActions] of [hooks.ts], which says what
    each action does to the widget. *)
From Stdlib Require Import Ascii String.
From stdpp Require Import strings.
From S2P Require Import Prelude JsString Types RuntimePath CommanderApi Mask Selection PaneState Navigation Preview Operations Store ViewModel Loader Mutations FileDialog.
Local Open Scope string_scope.
Local Open Scope list_scope.
Local Open Scope Z_scope.

(** ** Key presses *)

Record KeyEvent := mkKey {
  k_altKey : bool;
  k_ctrlKey : bool;
  k_metaKey : bool;
  k_shiftKey : bool;
  k_key : string;
  k_code : string
}.

(** The part of an [HTMLElement] that the code looks at. *)
Record KeyTarget := mkTarget { tg_isContentEditable : bool; tg_tagName : string }.

(** The actions that the handlers call, with their arguments. *)
Inductive KeyAction :=
  | CancelPendingOperationKey | ConfirmPendingOperationKey
  | OverwriteAllPendingConflicts | OverwritePendingConflict
  | SkipAllPendingConflicts | SkipPendingConflict
  | StepSearchMatch (forward : bool)
  | CloseFileDialogKey
  | GoBack | GoForward | GoParent
  | FilterActivePane | SearchActivePane | ClearActivePaneFilterKey | RequestPathEdit
  | OpenActiveEntry | ViewActiveFile | EditActiveFile
  | SelectByMask | UnselectByMask | InvertSelection
  | MoveCursorKey (delta : Z) (extendSelection : bool)
  | SetBoundaryCursor (pane : CommanderPaneId) (b : CommanderBoundary) (extendSelection : bool)
  | SetCursorKey (pane : CommanderPaneId) (entryId : string)
  | ToggleSelectionAtCursor (advance : bool)
  | SwitchActivePaneKey
  | RenameSelection | CopySelection | MoveSelection | MkdirKey | DeleteSelection.
#[global] Instance key_action_eq : EqDecision KeyAction.
Proof. solve_decision. Defined.

(** What a handler did: whether it took the press, whether it called
    [preventDefault], and the action it called. *)
Record KeyResult := mkResult {
  kr_handled : bool;
  kr_prevented : bool;
  kr_action : option KeyAction
}.

Definition declined : KeyResult := mkResult false false None.
Definition swallowed : KeyResult := mkResult true false None.
Definition acted (a : KeyAction) : KeyResult := mkResult true true (Some a).

(** [switch (key) { case k: ...; return true }], the first case that fits. *)
Fixpoint switchKey (key : string) (cases : list (string * KeyAction)) : option KeyAction :=
  match cases with
  | [] => None
  | (k, a) :: cases' => if bool_decide (key = k) then Some a else switchKey key cases'
  end.

Definition actOr (other : KeyResult) (a : option KeyAction) : KeyResult :=
  match a with Some a => acted a | None => other end.

(** ** Handlers *)

Definition isInteractiveTextTarget (target : option KeyTarget) : bool :=
  match target with
  | None => false
  | Some t =>
      tg_isContentEditable t ||
      includes (toLowerCase (tg_tagName t)) ["input"; "textarea"; "select"]
  end.

Definition hasCommanderPendingConflictResolution (op : CommanderPendingOperation) : bool :=
  match op with
  | OpTransfer t => negb (bool_decide (transfer_conflicts t = []))
  | _ => false
  end.

Definition handleCommanderFileDialogKeys (e : KeyEvent) (isFileDialogOpen : bool) : KeyResult :=
  if negb isFileDialogOpen then declined
  else if bool_decide (k_key e = "Escape") then acted CloseFileDialogKey
  else swallowed.

Definition handleCommanderAltNavigationKeys (e : KeyEvent) : KeyResult :=
  if negb (k_altKey e) || k_metaKey e || k_ctrlKey e then declined
  else actOr swallowed (switchKey (k_key e) [("ArrowLeft", GoBack); ("ArrowRight", GoForward)]).

(** With [onRequestPathEdit] absent, Ctrl+L is prevented and does nothing. *)
Definition handleCommanderModifierKeys (e : KeyEvent) (hasPathEdit : bool) : KeyResult :=
  if negb (k_metaKey e) && negb (k_ctrlKey e) then declined
  else if negb (k_metaKey e) && k_ctrlKey e then
    match switchKey (k_key e)
      [("f", FilterActivePane); ("F", FilterActivePane); ("s", SearchActivePane);
       ("S", SearchActivePane); ("Backspace", ClearActivePaneFilterKey); ("l", RequestPathEdit);
       ("L", RequestPathEdit); ("PageUp", GoParent); ("PageDown", OpenActiveEntry)] with
    | Some RequestPathEdit =>
        if hasPathEdit then acted RequestPathEdit else mkResult true true None
    | a => actOr swallowed a
    end
  else swallowed.

Definition handleCommanderPendingOperationKeys (e : KeyEvent)
    (pendingOperation : option CommanderPendingOperation) : KeyResult :=
  match pendingOperation with
  | None => declined
  | Some op =>
      let key := k_key e in
      if hasCommanderPendingConflictResolution op then
        if bool_decide (key = "Enter") then
          acted (if k_shiftKey e then OverwriteAllPendingConflicts else OverwritePendingConflict)
        else if bool_decide (key = " ") then
          acted (if k_shiftKey e then SkipAllPendingConflicts else SkipPendingConflict)
        else if bool_decide (key = "Escape") then acted CancelPendingOperationKey
        else swallowed
      else
        let search :=
          match op with
          | OpSearch _ =>
              switchKey key [("ArrowDown", StepSearchMatch true); ("ArrowUp", StepSearchMatch false)]
          | _ => None
          end in
        match search with
        | Some a => acted a
        | None =>
            actOr swallowed (switchKey key
              [("Enter", ConfirmPendingOperationKey); ("Escape", CancelPendingOperationKey)])
        end
  end.

Definition handleCommanderSelectionShortcutKeys (e : KeyEvent) : KeyResult :=
  if k_altKey e || k_ctrlKey e || k_metaKey e then declined
  else actOr declined (switchKey (k_code e)
    [("NumpadAdd", SelectByMask); ("NumpadSubtract", UnselectByMask); ("NumpadMultiply", InvertSelection)]).

Definition handleCommanderShiftNavigationKeys (e : KeyEvent) (activePane : CommanderPaneId) : KeyResult :=
  if negb (k_shiftKey e) then declined
  else actOr declined (switchKey (k_key e)
    [("ArrowUp", MoveCursorKey (-1) true); ("ArrowDown", MoveCursorKey 1 true);
     ("PageUp", MoveCursorKey (-10) true); ("PageDown", MoveCursorKey 10 true);
     ("Home", SetBoundaryCursor activePane BoundaryStart true);
     ("End", SetBoundaryCursor activePane BoundaryEnd true); ("F6", RenameSelection)]).

Definition handleCommanderNavigationKeys (e : KeyEvent) (activePane : CommanderPaneId) : KeyResult :=
  actOr declined (switchKey (k_key e)
    [("ArrowUp", MoveCursorKey (-1) false); ("ArrowDown", MoveCursorKey 1 false);
     ("PageUp", MoveCursorKey (-10) false); ("PageDown", MoveCursorKey 10 false);
     ("Home", SetBoundaryCursor activePane BoundaryStart false);
     ("End", SetBoundaryCursor activePane BoundaryEnd false); ("Tab", SwitchActivePaneKey);
     ("Backspace", GoParent); ("Enter", OpenActiveEntry); ("Insert", ToggleSelectionAtCursor true);
     (" ", ToggleSelectionAtCursor false); ("Spacebar", ToggleSelectionAtCursor false);
     ("F5", CopySelection); ("F6", MoveSelection); ("F7", MkdirKey); ("F8", DeleteSelection);
     ("F2", RenameSelection); ("F3", ViewActiveFile); ("F4", EditActiveFile)]).

(** ** Typeahead *)

Definition COMMANDER_TYPEAHEAD_RESET_MS : Z := 700.

Record CommanderTypeaheadState := mkTypeahead { ta_prefix : string; ta_timestamp : Z }.

Definition isTypeaheadCharacter (e : KeyEvent) : bool :=
  negb (k_altKey e || k_ctrlKey e || k_metaKey e) &&
  (String.length (k_key e) =? 1)%nat && (0 <? String.length (trim (k_key e)))%nat.

Section Typeahead.
Context `{Locale}.

Definition matchesPrefix (prefix : string) (row : CommanderFileRow) : bool :=
  startsWith (toLocaleLowerCase prefix) (toLocaleLowerCase (r_name row)).

Definition findNextTypeaheadMatch (rows : list CommanderFileRow) (prefix : string)
    : option CommanderFileRow :=
  if bool_decide (rows = []) || negb (truthy prefix) then None
  else
    let searchRows :=
      match findIndex r_focused rows with
      | None => rows
      | Some focusedIndex => drop (focusedIndex + 1) rows ++ take (focusedIndex + 1) rows
      end in
    find (matchesPrefix prefix) searchRows.

(** The pane's answer to a typed character at time [now]. *)
Definition handleCommanderTypeaheadKey (e : KeyEvent) (activePane : CommanderPaneId)
    (rows : list CommanderFileRow) (state : CommanderTypeaheadState) (now : Z)
    : KeyResult * CommanderTypeaheadState :=
  if negb (isTypeaheadCharacter e) then (declined, state)
  else
    let normalizedCharacter := toLocaleLowerCase (k_key e) in
    let nextPrefix :=
      if now - ta_timestamp state <=? COMMANDER_TYPEAHEAD_RESET_MS
      then ta_prefix state +:+ normalizedCharacter else normalizedCharacter in
    let found prefix row := (acted (SetCursorKey activePane (r_id row)), mkTypeahead prefix now) in
    match findNextTypeaheadMatch rows nextPrefix with
    | Some row => found nextPrefix row
    | None =>
        match (if (1 <? String.length nextPrefix)%nat
               then findNextTypeaheadMatch rows normalizedCharacter else None) with
        | Some row => found normalizedCharacter row
        | None => (swallowed, mkTypeahead "" 0)
        end
    end.

(** ** The key handler of a widget *)

(** The first handler that takes the press; the typeahead state changes only
    when the press reaches the typeahead. *)
Definition onKeyDown (target : option KeyTarget) (e : KeyEvent) (activePane : CommanderPaneId)
    (rows : list CommanderFileRow) (pendingOperation : option CommanderPendingOperation)
    (fileDialog : option CommanderFileDialogState) (hasPathEdit : bool)
    (typeahead : CommanderTypeaheadState) (now : Z) : KeyResult * CommanderTypeaheadState :=
  if isInteractiveTextTarget target then (declined, typeahead)
  else
    let before :=
      [handleCommanderFileDialogKeys e (if fileDialog then true else false);
       handleCommanderAltNavigationKeys e;
       handleCommanderModifierKeys e hasPathEdit;
       handleCommanderPendingOperationKeys e pendingOperation;
       handleCommanderSelectionShortcutKeys e;
       handleCommanderShiftNavigationKeys e activePane] in
    match find kr_handled before with
    | Some r => (r, typeahead)
    | None =>
        let '(r, next) := handleCommanderTypeaheadKey e activePane rows typeahead now in
        if kr_handled r then (r, next) else (handleCommanderNavigationKeys e activePane, next)
    end.

End Typeahead.

(** ** What the actions do *)

(** [commanderActions] of [hooks.ts] without the path editor: a flow of effects,
    or the opening of a file.  [inFlight] is the mutation flag. *)
Inductive ActionRun :=
  | RunFlow (f : Flow)
  | RunOpenFile (pane : CommanderPaneId) (entryId : string) (mode : OpenMode)
  | RunPathEdit.

Section Actions.
Context `{Locale}.

Definition loadIf (call : option LoadCall) : ActionRun :=
  RunFlow (match call with Some c => Act (Load c) Ret | None => Ret end).

Definition dispatchOnly (e : CommanderEvent) : ActionRun := RunFlow (Act (Dispatch e) Ret).

Definition clearActivePaneFilter (w : CommanderWidgetRuntimeState) : ActionRun :=
  let p := getRuntimePaneState w (w_activePane w) in
  RunFlow (acts [Load (w_activePane w, p_path p, ModeReplace,
                   mkLoadOptions (p_cursorEntryId p) (Some "") (Some (p_selectedIds p))
                     (p_selectionAnchorEntryId p));
                 Dispatch (SetPaneFilterQuery (w_activePane w) "");
                 Dispatch ClearActivePaneFilter] Ret).

Definition openCursorFile (w : CommanderWidgetRuntimeState) (mode : OpenMode) : ActionRun :=
  match truthyOpt (p_cursorEntryId (getRuntimePaneState w (w_activePane w))) with
  | None => RunFlow Ret
  | Some entryId => RunOpenFile (w_activePane w) entryId mode
  end.

Definition openActiveEntry (w : CommanderWidgetRuntimeState) : ActionRun :=
  match truthyOpt (p_cursorEntryId (getRuntimePaneState w (w_activePane w))) with
  | None => RunFlow Ret
  | Some entryId =>
      match openPaneEntry w (w_activePane w) entryId with
      | OpenNothing => RunFlow Ret
      | OpenDirectory call => loadIf (Some call)
      | OpenPreview pane x => RunOpenFile pane x OpenView
      end
  end.

Definition commanderAction (inFlight : bool) (w : CommanderWidgetRuntimeState) (a : KeyAction)
    : ActionRun :=
  match a with
  | CancelPendingOperationKey => dispatchOnly CancelPendingOperation
  | ConfirmPendingOperationKey => RunFlow (confirmPendingOperationAsync inFlight w)
  | OverwriteAllPendingConflicts => RunFlow (resolvePendingTransferConflictAsync inFlight w OverwriteAll)
  | OverwritePendingConflict => RunFlow (resolvePendingTransferConflictAsync inFlight w OverwriteCurrent)
  | SkipAllPendingConflicts => RunFlow (resolvePendingTransferConflictAsync inFlight w SkipAll)
  | SkipPendingConflict => RunFlow (resolvePendingTransferConflictAsync inFlight w SkipCurrent)
  | StepSearchMatch forward => dispatchOnly (StepPendingSearchMatch forward)
  | CloseFileDialogKey => dispatchOnly CloseFileDialog
  | GoBack => loadIf (goPaneBack w (w_activePane w))
  | GoForward => loadIf (goPaneForward w (w_activePane w))
  | GoParent => loadIf (goPaneParent w (w_activePane w))
  | FilterActivePane => dispatchOnly (RequestActivePane KFilter)
  | SearchActivePane => dispatchOnly (RequestActivePane KSearch)
  | ClearActivePaneFilterKey => clearActivePaneFilter w
  | RequestPathEdit => RunPathEdit
  | OpenActiveEntry => openActiveEntry w
  | ViewActiveFile => openCursorFile w OpenView
  | EditActiveFile => openCursorFile w OpenEdit
  | SelectByMask => dispatchOnly (RequestActivePane KSelect)
  | UnselectByMask => dispatchOnly (RequestActivePane KUnselect)
  | InvertSelection => dispatchOnly InvertActivePaneSelection
  | MoveCursorKey delta ext => dispatchOnly (MoveActivePaneCursor delta ext)
  | SetBoundaryCursor pane b ext => dispatchOnly (SetPaneBoundaryCursor pane b ext)
  | SetCursorKey pane x => dispatchOnly (SetPaneCursor pane x false)
  | ToggleSelectionAtCursor advance => dispatchOnly (ToggleActivePaneSelection advance)
  | SwitchActivePaneKey => dispatchOnly SwitchActivePane
  | RenameSelection => dispatchOnly (RequestActivePane KRename)
  | CopySelection => dispatchOnly (RequestActivePane KCopy)
  | MoveSelection => dispatchOnly (RequestActivePane KMove)
  | MkdirKey => dispatchOnly (RequestActivePane KMkdir)
  | DeleteSelection => dispatchOnly (RequestActivePane KDelete)
  end.

End Actions.

(** ** Specification *)

(** The actions that answer a pending operation. *)
Definition answers_pending (a : KeyAction) : bool :=
  match a with
  | CancelPendingOperationKey | ConfirmPendingOperationKey | OverwriteAllPendingConflicts
  | OverwritePendingConflict | SkipAllPendingConflicts | SkipPendingConflict | StepSearchMatch _ => true
  | _ => false
  end.

(** A press with Alt, Ctrl or Meta. *)
Definition is_chord (e : KeyEvent) : bool := k_altKey e || k_ctrlKey e || k_metaKey e.

(** What an action can ask the backend for: a request that changes files, the
    listing of a directory ([loadPaneDirectory]), or the reading of an entry for
    the file dialog. *)
Inductive ActionRequest :=
  | Changes (q : FSRequest)
  | Lists (call : LoadCall)
  | Reads (pane : CommanderPaneId) (entryId : string) (mode : OpenMode).

Inductive asks : Flow -> ActionRequest -> Prop :=
  | a_act e k q : asks k q -> asks (Act e k) q
  | a_load call k : asks (Act (Load call) k) (Lists call)
  | a_call q ok fail : asks (Call q ok fail) (Changes q)
  | a_ok q ok fail paths q' : asks (ok paths) q' -> asks (Call q ok fail) q'
  | a_fail q ok fail error q' : asks (fail error) q' -> asks (Call q ok fail) q'.

Definition run_asks (r : ActionRun) (q : ActionRequest) : Prop :=
  match r with
  | RunFlow f => asks f q
  | RunOpenFile pane entryId mode => q = Reads pane entryId mode
  | RunPathEdit => False
  end.

(** The requests of an action that change files. *)
Definition run_sends (r : ActionRun) (q : FSRequest) : Prop :=
  match r with RunFlow f => sends f q | _ => False end.

(** The rows in the order in which the typeahead looks at them: those behind
    the focused row, then from the first row to the focused one. *)
Definition typeahead_offset (rows : list CommanderFileRow) (k : nat) : option CommanderFileRow :=
  let start := match findIndex r_focused rows with Some i => (i + 1)%nat | None => 0%nat end in
  rows !! ((start + k) mod length rows)%nat.

(** ** Lemmas *)

Lemma switchKey_in key cases a : switchKey key cases = Some a -> (key, a) ∈ cases.
Proof.
  induction cases as [|[k b] cases IH]; simpl; [done|]. case_bool_decide as E.
  - intros [= ->]. subst. by left.
  - intros Ha. right. by apply IH.
Qed.

Lemma actOr_action other o a :
  kr_action other = None -> kr_action (actOr other o) = Some a -> o = Some a.
Proof. destruct o; simpl; congruence. Qed.

(** The case that an action comes from. *)
Ltac switch_cases H :=
  apply switchKey_in in H;
  repeat match type of H with
  | _ ∈ [] => by apply elem_of_nil in H
  | _ ∈ _ :: _ => apply elem_of_cons in H as [H|H]
  end; injection H as ? ->.

Section KeyLemmas.
Context `{Locale}.

(** Only the handler of pending operations answers them. *)
Lemma file_dialog_action e b a :
  kr_action (handleCommanderFileDialogKeys e b) = Some a ->
  a = CloseFileDialogKey /\ b = true /\ k_key e = "Escape".
Proof.
  unfold handleCommanderFileDialogKeys. destruct b; [|done]. simpl. case_bool_decide; [|done].
  by intros [= <-].
Qed.

Lemma alt_action e a : kr_action (handleCommanderAltNavigationKeys e) = Some a -> answers_pending a = false.
Proof.
  unfold handleCommanderAltNavigationKeys. destruct (_ || _ || _); [done|].
  intros Ha%actOr_action; [|done]. by switch_cases Ha.
Qed.

Lemma modifier_action e b a : kr_action (handleCommanderModifierKeys e b) = Some a -> answers_pending a = false.
Proof.
  unfold handleCommanderModifierKeys. destruct (negb _ && negb _); [done|].
  destruct (negb _ && _); [|done]. destruct (switchKey _ _) as [c|] eqn:E; [|done].
  assert (answers_pending c = false) as Hc by (by switch_cases E).
  destruct c; try (by intros [= <-]). by destruct b; [intros [= <-]|].
Qed.

Lemma selection_action e a : kr_action (handleCommanderSelectionShortcutKeys e) = Some a -> answers_pending a = false.
Proof.
  unfold handleCommanderSelectionShortcutKeys. destruct (_ || _ || _); [done|].
  intros Ha%actOr_action; [|done]. by switch_cases Ha.
Qed.

Lemma shift_action e pane a : kr_action (handleCommanderShiftNavigationKeys e pane) = Some a -> answers_pending a = false.
Proof.
  unfold handleCommanderShiftNavigationKeys. destruct (negb _); [done|].
  intros Ha%actOr_action; [|done]. by switch_cases Ha.
Qed.

Lemma navigation_action e pane a : kr_action (handleCommanderNavigationKeys e pane) = Some a -> answers_pending a = false.
Proof. intros Ha%actOr_action; [|done]. by switch_cases Ha. Qed.

Lemma typeahead_action e pane rows ts now a :
  kr_action (fst (handleCommanderTypeaheadKey e pane rows ts now)) = Some a -> answers_pending a = false.
Proof.
  unfold handleCommanderTypeaheadKey. destruct (negb _); [done|]. cbv zeta.
  repeat case_match; simpl; try done; by intros [= <-].
Qed.

Lemma pending_handled e op : kr_handled (handleCommanderPendingOperationKeys e (Some op)) = true.
Proof.
  unfold handleCommanderPendingOperationKeys. cbv zeta. destruct (hasCommanderPendingConflictResolution op).
  - by repeat case_bool_decide.
  - destruct (match op with OpSearch _ => _ | _ => _ end); [done|]. by destruct (switchKey _ _).
Qed.

(** The key decides what a pending operation does with a press. *)
Lemma pending_action e op a :
  kr_action (handleCommanderPendingOperationKeys e (Some op)) = Some a ->
  answers_pending a = true /\
  (a = CancelPendingOperationKey \/ (exists forward, a = StepSearchMatch forward) \/
   k_key e ∈ ["Enter"; " "]).
Proof.
  unfold handleCommanderPendingOperationKeys. cbv zeta. destruct (hasCommanderPendingConflictResolution op).
  - case_bool_decide as E1; [|case_bool_decide as E2; [|case_bool_decide; [|done]]].
    + rewrite E1. destruct (k_shiftKey e); intros [= <-]; (split; [done|]; right; right; by left).
    + rewrite E2. destruct (k_shiftKey e); intros [= <-]; (split; [done|]; right; right; right; by left).
    + intros [= <-]. by split; [|left].
  - destruct (match op with OpSearch _ => _ | _ => _ end) as [b|] eqn:E.
    + intros [= <-]. destruct op; try done. switch_cases E; split; eauto.
    + intros Ha%actOr_action; [|done]. switch_cases Ha; (split; [done|]); [|by left].
      right; right. match goal with H : k_key e = _ |- _ => rewrite H end. by left.
Qed.

(** The handlers of chords take every chord. *)
Lemma alt_handled e :
  k_altKey e = true -> k_metaKey e = false -> k_ctrlKey e = false ->
  kr_handled (handleCommanderAltNavigationKeys e) = true.
Proof.
  intros Ha Hm Hc. unfold handleCommanderAltNavigationKeys. rewrite Ha, Hm, Hc. cbn [negb orb].
  by destruct (switchKey _ _).
Qed.

Lemma modifier_declined e b :
  kr_handled (handleCommanderModifierKeys e b) = false -> k_metaKey e = false /\ k_ctrlKey e = false.
Proof.
  unfold handleCommanderModifierKeys. destruct (k_metaKey e), (k_ctrlKey e); cbn [negb andb orb]; try done.
  destruct (switchKey _ _) as [[]|]; try done. by destruct b.
Qed.

(** The handlers before the typeahead, other than the pending operation's. *)
Lemma onKeyDown_other target e pane rows op d hasPathEdit ts now a :
  (d <> None \/ is_chord e = true \/ op = None) ->
  kr_action (fst (onKeyDown target e pane rows op d hasPathEdit ts now)) = Some a ->
  answers_pending a = false.
Proof.
  intros Hc. unfold onKeyDown. destruct (isInteractiveTextTarget target); [done|]. cbv zeta. cbn [find].
  destruct (kr_handled (handleCommanderFileDialogKeys e _)) eqn:E1.
  { intros Ha. apply file_dialog_action in Ha as (-> & _). done. }
  assert (d = None) as ->.
  { destruct d; [|done]. unfold handleCommanderFileDialogKeys in E1. simpl in E1. by case_bool_decide. }
  destruct (kr_handled (handleCommanderAltNavigationKeys e)) eqn:E2; [apply alt_action|].
  destruct (kr_handled (handleCommanderModifierKeys e hasPathEdit)) eqn:E3; [apply modifier_action|].
  assert (op = None) as ->.
  { destruct Hc as [Hd|[Hc|Hop]]; [done| |done]. exfalso.
    unfold is_chord in Hc.
    apply modifier_declined in E3 as [Hm Hct]. rewrite Hm, Hct, !orb_false_r in Hc.
    by rewrite (alt_handled e Hc Hm Hct) in E2. }
  change (kr_handled (handleCommanderPendingOperationKeys e None)) with false. cbv iota.
  destruct (kr_handled (handleCommanderSelectionShortcutKeys e)) eqn:E5; [apply selection_action|].
  destruct (kr_handled (handleCommanderShiftNavigationKeys e pane)) eqn:E6; [apply shift_action|].
  destruct (handleCommanderTypeaheadKey e pane rows ts now) as [r next] eqn:Et.
  destruct (kr_handled r); [|apply navigation_action].
  intros Ha. apply (typeahead_action e pane rows ts now). by rewrite Et.
Qed.

(** A press that no chord and no dialog takes goes to the pending operation. *)
Lemma onKeyDown_pending target e pane rows op hasPathEdit ts now :
  isInteractiveTextTarget target = false -> is_chord e = false ->
  onKeyDown target e pane rows (Some op) None hasPathEdit ts now =
    (handleCommanderPendingOperationKeys e (Some op), ts).
Proof.
  intros Ht Hc. unfold onKeyDown. rewrite Ht. cbv zeta. cbn [find].
  unfold is_chord in Hc. apply orb_false_iff in Hc as [[Ha Hct]%orb_false_iff Hm].
  assert (kr_handled (handleCommanderAltNavigationKeys e) = false) as ->
    by (unfold handleCommanderAltNavigationKeys; by rewrite Ha).
  assert (kr_handled (handleCommanderModifierKeys e hasPathEdit) = false) as ->
    by (unfold handleCommanderModifierKeys; by rewrite Hct, Hm).
  by rewrite pending_handled.
Qed.

Lemma asks_sends f q : asks f (Changes q) <-> sends f q.
Proof.
  split.
  - intros Hs. remember (Changes q) as r eqn:Er. induction Hs; simplify_eq;
      [apply s_act|apply s_call|eapply s_ok|eapply s_fail]; eauto.
  - induction 1; [apply a_act|apply a_call|eapply a_ok|eapply a_fail]; eassumption.
Qed.
Lemma run_asks_sends r q : run_asks r (Changes q) <-> run_sends r q.
Proof. destruct r; [apply asks_sends|done|done]. Qed.

Lemma asks_ret q : ~ asks Ret q.
Proof. inversion 1. Qed.
Lemma asks_dispatch e q : ~ asks (Act (Dispatch e) Ret) q.
Proof. inversion 1; subst. by eapply asks_ret. Qed.
Lemma asks_load call q : asks (Act (Load call) Ret) q -> q = Lists call.
Proof. inversion 1; subst; [by exfalso; eapply asks_ret|done]. Qed.

Lemma loadIf_asks call pane q :
  (forall c, call = Some c -> c.1.1.1 = pane) -> run_asks (loadIf call) q ->
  exists c, q = Lists c /\ c.1.1.1 = pane.
Proof.
  intros Hc. destruct call as [c|]; [|by intros ?%asks_ret]. intros ->%asks_load. exists c. auto.
Qed.

Lemma cursorFile_asks w mode q :
  run_asks (openCursorFile w mode) q ->
  exists x, q = Reads (w_activePane w) x mode /\
    truthyOpt (p_cursorEntryId (getRuntimePaneState w (w_activePane w))) = Some x.
Proof.
  unfold openCursorFile. destruct (truthyOpt _) as [x|]; [|by intros ?%asks_ret]. intros ->. by exists x.
Qed.

(** What the actions ask for that answer no pending operation: listings in the
    active pane, and the file under its cursor. *)
Definition asks_in_active_pane (w : CommanderWidgetRuntimeState) (q : ActionRequest) : Prop :=
  match q with
  | Changes _ => False
  | Lists (pane, _, _, _) => pane = w_activePane w
  | Reads pane x _ =>
      pane = w_activePane w /\ truthyOpt (p_cursorEntryId (getRuntimePaneState w (w_activePane w))) = Some x
  end.
Lemma other_actions_ask inFlight w a q :
  answers_pending a = false -> run_asks (commanderAction inFlight w a) q -> asks_in_active_pane w q.
Proof.
  intros Ha. assert (forall c, q = Lists c /\ c.1.1.1 = w_activePane w -> asks_in_active_pane w q) as Hlist.
  { intros [[[pane path] mode] options] [-> Hp]. exact Hp. }
  assert (forall mode, run_asks (openCursorFile w mode) q -> asks_in_active_pane w q) as Hcur.
  { intros mode (x & -> & Hx)%cursorFile_asks. done. }
  destruct a; try discriminate Ha; cbn [commanderAction]; try (by intros ?%asks_dispatch); try apply Hcur;
    try (by intros []).
  - intros (c & Hc)%(loadIf_asks _ (w_activePane w)); [by eapply Hlist|].
    unfold goPaneBack. intros c. destruct (truthyOpt _); [|done]. by intros [= <-].
  - intros (c & Hc)%(loadIf_asks _ (w_activePane w)); [by eapply Hlist|].
    unfold goPaneForward. intros c. destruct (truthyOpt _); [|done]. by intros [= <-].
  - intros (c & Hc)%(loadIf_asks _ (w_activePane w)); [by eapply Hlist|].
    unfold goPaneParent. intros c. destruct (truthyOpt _); [|done]. by intros [= <-].
  - unfold clearActivePaneFilter. cbn. intros Hs. inversion Hs as [? ? ? Hs'| | | |]; subst; [|done].
    inversion Hs' as [? ? ? Hs''| | | |]; subst. by apply asks_dispatch in Hs''.
  - unfold openActiveEntry. destruct (truthyOpt _) as [x|] eqn:Ex; [|by intros ?%asks_ret].
    unfold openPaneEntry. destruct (find _ _) as [e|]; [|by intros ?%asks_ret].
    destruct (e_kind e); first [by intros ?%asks_ret | by intros ->%asks_load | by intros ->].
Qed.
Lemma other_actions_send_nothing inFlight w a q :
  answers_pending a = false -> ~ run_sends (commanderAction inFlight w a) q.
Proof. intros Ha Hs%run_asks_sends. exact (other_actions_ask inFlight w a _ Ha Hs). Qed.

Lemma answers_in_flight w a q :
  answers_pending a = true -> ~ run_sends (commanderAction true w a) q.
Proof.
  destruct a; intros Ha; try discriminate Ha; try (apply (sends_ret [_]));
    first [apply confirm_in_flight | apply resolve_in_flight].
Qed.

Lemma answers_without_pending inFlight w a q :
  answers_pending a = true -> w_pendingOperation w = None -> ~ run_asks (commanderAction inFlight w a) q.
Proof.
  intros Ha Hp. destruct a; try discriminate Ha; try apply asks_dispatch; cbn [commanderAction run_asks];
    unfold confirmPendingOperationAsync, resolvePendingTransferConflictAsync; rewrite Hp; try apply asks_ret;
    intros Hs; inversion Hs; subst; by eapply asks_ret.
Qed.

Lemma offset_rotated rows k :
  (k < length rows)%nat ->
  (match findIndex r_focused rows with
   | None => rows
   | Some focusedIndex => drop (focusedIndex + 1) rows ++ take (focusedIndex + 1) rows
   end) !! k = typeahead_offset rows k.
Proof.
  intros Hk. unfold typeahead_offset. destruct (findIndex r_focused rows) as [i|] eqn:E.
  - apply findIndex_lt in E. apply lookup_rotated; lia.
  - by rewrite Nat.add_0_l, Nat.mod_small by lia.
Qed.

(** The next row that has a prefix, going around from the focused row. *)
Definition next_match (rows : list CommanderFileRow) (prefix : string) (row : CommanderFileRow) : Prop :=
  exists k, (k < length rows)%nat /\ typeahead_offset rows k = Some row /\ matchesPrefix prefix row = true /\
    forall j y, (j < k)%nat -> typeahead_offset rows j = Some y -> matchesPrefix prefix y = false.

Lemma findNext_spec rows prefix :
  prefix <> "" ->
  match findNextTypeaheadMatch rows prefix with
  | Some row => next_match rows prefix row
  | None => forall row, row ∈ rows -> matchesPrefix prefix row = false
  end.
Proof.
  intros Hp. unfold findNextTypeaheadMatch. rewrite (proj2 (truthy_true prefix) Hp), orb_false_r.
  case_bool_decide as Hr; [intros row; rewrite Hr; intros Hx; by apply elem_of_nil in Hx|]. cbv zeta.
  set (l := match findIndex r_focused rows with None => rows | Some _ => _ end).
  assert (l ≡ₚ rows) as Hperm.
  { unfold l. destruct (findIndex _ _); [|done]. by rewrite (comm (++)), take_drop. }
  assert (length l = length rows) as Hlen by by rewrite Hperm.
  destruct (find (matchesPrefix prefix) l) as [row|] eqn:E.
  - apply find_first in E as (k & Hk & Hm & Hmin). pose proof (lookup_lt_Some _ _ _ Hk) as Hlt.
    exists k. split_and!; [lia| |done|].
    + rewrite <- offset_rotated by lia. exact Hk.
    + intros j y Hj Hy. apply (Hmin j y Hj). rewrite <- offset_rotated in Hy by lia. exact Hy.
  - intros row Hrow. by apply (proj1 (find_None _ _) E); rewrite Hperm.
Qed.

Lemma short_suffix prefix c : c <> "" -> (String.length (prefix +:+ c) <= 1)%nat -> prefix +:+ c = c.
Proof. intros Hc. destruct prefix as [|a p]; [done|]. rewrite length_append. by destruct c; [|simpl; lia]. Qed.

End KeyLemmas.

(** ** Properties *)


(** Key presses are modal: in a text input the commander ignores a press, an
    open file dialog lets only Escape through, to close it, and a pending
    operation gets every press without Alt, Ctrl and Meta, which then answers
    it or does nothing. *)
Theorem keys_are_modal `{Locale} target e pane rows op d hasPathEdit ts now :
  let r := fst (onKeyDown target e pane rows op d hasPathEdit ts now) in
  (isInteractiveTextTarget target = true -> r = declined) /\
  (isInteractiveTextTarget target = false -> d <> None ->
     r = if bool_decide (k_key e = "Escape") then acted CloseFileDialogKey else swallowed) /\
  (isInteractiveTextTarget target = false -> d = None -> op <> None -> is_chord e = false ->
     kr_handled r = true /\ forall a, kr_action r = Some a -> answers_pending a = true) /\
  (forall a, kr_action r = Some a -> answers_pending a = true -> op <> None /\ d = None).
Proof.
  intros r. split_and!.
  - intros Ht. unfold r, onKeyDown. by rewrite Ht.
  - intros Ht Hd. unfold r, onKeyDown. rewrite Ht. destruct d; [|done]. cbn [find].
    unfold handleCommanderFileDialogKeys. cbn [negb]. by case_bool_decide.
  - intros Ht -> Hop Hc. destruct op as [op|]; [|done]. unfold r. rewrite onKeyDown_pending by done.
    split; [apply pending_handled|]. by intros a [Ha _]%pending_action.
  - intros a Ha Hans.
    split.
    + intros ->. by rewrite (onKeyDown_other _ _ _ _ _ _ _ _ _ a (or_intror (or_intror eq_refl)) Ha) in Hans.
    + destruct (decide (d = None)) as [|Hd]; [done|].
      by rewrite (onKeyDown_other _ _ _ _ _ _ _ _ _ a (or_introl Hd) Ha) in Hans.
Qed.

(** The typeahead puts the cursor on the next row, going around from the
    focused one, whose name starts with what was typed: with the prefix typed
    so far and the new character when the last match is at most 700 ms old and
    such a row exists, else with the character alone; when no name starts with
    either the prefix is forgotten and the cursor stays. *)
Theorem typeahead_spec `{Locale} e pane rows ts now :
  isTypeaheadCharacter e = true -> toLocaleLowerCase (k_key e) <> "" ->
  let c := toLocaleLowerCase (k_key e) in
  let p := if now - ta_timestamp ts <=? 700 then ta_prefix ts +:+ c else c in
  let no_match prefix := forall row, row ∈ rows -> matchesPrefix prefix row = false in
  let '(r, ts') := handleCommanderTypeaheadKey e pane rows ts now in
  (exists row, next_match rows p row /\ r = acted (SetCursorKey pane (r_id row)) /\ ts' = mkTypeahead p now) \/
  (no_match p /\ exists row, next_match rows c row /\ r = acted (SetCursorKey pane (r_id row)) /\
     ts' = mkTypeahead c now) \/
  (no_match p /\ no_match c /\ r = swallowed /\ ts' = mkTypeahead "" 0).
Proof.
  intros Hch Hc c p no_match. unfold handleCommanderTypeaheadKey. rewrite Hch. cbn [negb]. cbv zeta.
  change (if now - ta_timestamp ts <=? COMMANDER_TYPEAHEAD_RESET_MS then _ else _) with p. fold c.
  assert (p <> "") as Hp.
  { unfold p. destruct (now - _ <=? _); [|done]. destruct (ta_prefix ts); [done|discriminate]. }
  pose proof (findNext_spec rows p Hp) as H1. pose proof (findNext_spec rows c Hc) as H2.
  destruct (findNextTypeaheadMatch rows p) as [row|] eqn:E1; [left; eauto|].
  destruct (Nat.ltb_spec 1 (String.length p)) as [Hl|Hl].
  - destruct (findNextTypeaheadMatch rows c) as [row|]; right; [left|right]; eauto.
  - right; right. assert (p = c) as Hpc.
    { unfold p in *. destruct (now - _ <=? _); [|done]. by apply short_suffix. }
    split_and!; try done. by rewrite <- Hpc.
Qed.

(** Typing on while the name of the focused row still fits moves on to the next
    row that fits, not keeping the focused one. *)
Example typing_on_leaves_the_row :
  let row name focused := mkRow name name "" KindFile "" "" false false focused None None None in
  let rows := [row "abc" true; row "abd" false] in
  let key := mkKey false false false false "b" "KeyB" in
  fst (handleCommanderTypeaheadKey (H := ascii_locale) key PaneLeft rows (mkTypeahead "a" 0) 100) =
    acted (SetCursorKey PaneLeft "abd").
Proof. vm_compute. reflexivity. Qed.

(** ** Witnesses *)

Definition plain_key (key : string) : KeyEvent := mkKey false false false false key "".

(** A widget that is asked to delete [a.txt]. *)
Definition deleting : CommanderWidgetRuntimeState :=
  two_panes (Some (OpDelete (mkOpBase PaneLeft "/d" ["/d::a.txt"] ["a.txt"]))) [].


Lemma keys_are_modal_witness :
  fst (onKeyDown None (plain_key "F8") PaneLeft [] None (Some (edit_dialog "x")) false (mkTypeahead "" 0) 0)
    = swallowed.
Proof.
  apply (keys_are_modal None (plain_key "F8") PaneLeft [] None (Some (edit_dialog "x")) false (mkTypeahead "" 0) 0).
  - reflexivity.
  - discriminate.
Defined.

Lemma typeahead_spec_witness :
  let rows := [mkRow "1" "Alpha" "" KindFile "" "" false false true None None None;
               mkRow "2" "beta" "" KindFile "" "" false false false None None None] in
  let out := handleCommanderTypeaheadKey (plain_key "B") PaneLeft rows (mkTypeahead "" 0) 5000 in
  snd out = mkTypeahead "b" 5000 \/ snd out = mkTypeahead "" 0.
Proof.
  intros rows out.
  pose proof (typeahead_spec (plain_key "B") PaneLeft rows (mkTypeahead "" 0) 5000 eq_refl) as Hs.
  destruct Hs as [(row & _ & _ & Hr)|[(_ & row & _ & _ & Hr)|(_ & _ & _ & Hr)]].
  - discriminate.
  - left. exact Hr.
  - left. exact Hr.
  - right. exact Hr.
Defined.
