(* ===== verification/Sse.v ===== *)
(** * Server-sent event streams

    [consumeAgentConversationStream] of
    [frontend/src/features/agent/api/client.ts] and [consumeTerminalStream] of
    [frontend/src/features/terminal/api/client.ts], which share the framing:
    chunks of text go into a buffer, complete blocks are cut off at empty lines
    and parsed into events.  The decoding of bytes is not modelled, a chunk is
    the text that the decoder gives; [JSON.parse] and the schema of the terminal
    are parameters. *)
From Stdlib Require Import Ascii String.
From stdpp Require Import strings.
From S2P Require Import Prelude JsString.
Local Open Scope string_scope.
Local Open Scope list_scope.
Local Open Scope nat_scope.

Definition CR : ascii := ascii_of_nat 13.
Definition LF : ascii := ascii_of_nat 10.

(** ** Framing *)

(** [buffer.replace(/\r\n?/g, '\n')] *)
Fixpoint normalizeNewlines (s : string) : string :=
  match s with
  | EmptyString => EmptyString
  | String a s' =>
      if bool_decide (a = CR) then
        match s' with
        | String b s'' => if bool_decide (b = LF) then String LF (normalizeNewlines s'')
                          else String LF (normalizeNewlines s')
        | EmptyString => String LF EmptyString
        end
      else String a (normalizeNewlines s')
  end.

(** The text before the first ["\n\n"] and the text behind it. *)
Fixpoint cutBlock (s : string) : option (string * string) :=
  match s with
  | String a s' =>
      match s' with
      | String b s'' =>
          if (bool_decide (a = LF) && bool_decide (b = LF))%bool then Some ("", s'')
          else match cutBlock s' with
               | Some (block, rest) => Some (String a block, rest)
               | None => None
               end
      | EmptyString => None
      end
  | EmptyString => None
  end.

(** The [while] loop of [flushBuffer]: the complete blocks and the rest. *)
Fixpoint takeBlocks (fuel : nat) (buffer : string) : list string * string :=
  match fuel with
  | O => ([], buffer)
  | S fuel' =>
      match cutBlock buffer with
      | None => ([], buffer)
      | Some (block, rest) =>
          let '(blocks, rest') := takeBlocks fuel' rest in (block :: blocks, rest')
      end
  end.

(** Every block takes two units of the buffer at least. *)
Definition blocksOf (buffer : string) : list string * string := takeBlocks (String.length buffer) buffer.

(** ** Events *)

Record SseEvent := mkSse { sse_event : string; sse_data : string }.

(** [line.indexOf(':')] splits the field from its value; one space in front of
    the value is dropped. *)
Fixpoint splitField (line : string) : string * string :=
  match line with
  | EmptyString => ("", "")
  | String a line' =>
      if bool_decide (a = ":"%char) then ("", line')
      else let '(field, value) := splitField line' in (String a field, value)
  end.

Definition dropSpace (s : string) : string :=
  match s with
  | String a s' => if bool_decide (a = " "%char) then s' else s
  | EmptyString => s
  end.

(** The state of the loop over the lines: the event name and the data lines. *)
Definition parseLine (state : string * list string) (line : string) : string * list string :=
  let '(eventName, dataLines) := state in
  if (negb (truthy line) || startsWith ":" line)%bool then state
  else
    let '(field, rawValue) := splitField line in
    let value := dropSpace rawValue in
    if bool_decide (field = "event") then (value, dataLines)
    else if bool_decide (field = "data") then (eventName, dataLines ++ [value])
    else state.

Definition parseEventBlock (block : string) : option SseEvent :=
  let '(eventName, dataLines) := foldl parseLine ("message", []) (splitOn LF block) in
  match dataLines with
  | [] => None
  | _ => Some (mkSse eventName (join (String LF "") dataLines))
  end.

(** ** Consumption *)

Section Consume.
Context {E X : Type}.
(** What a parsed block does: nothing, an event for the callback, or an error. *)
Variable onEvent : SseEvent -> option (E + X).

Definition handleBlock (block : string) : option (E + X) := parseEventBlock block ≫= onEvent.

(** The events delivered, in order, and the error that ends the stream. *)
Definition Outcome : Type := list E * option X.

Fixpoint deliver (blocks : list string) : Outcome :=
  match blocks with
  | [] => ([], None)
  | block :: blocks' =>
      match handleBlock block with
      | None => deliver blocks'
      | Some (inr x) => ([], Some x)
      | Some (inl e) => let '(es, x) := deliver blocks' in (e :: es, x)
      end
  end.

(** What comes after an outcome that did not throw. *)
Definition andThen (o : Outcome) (next : Outcome) : Outcome :=
  match o with
  | (es, Some x) => (es, Some x)
  | (es, None) => (es ++ fst next, snd next)
  end.

(** [flushBuffer(flushRemainder)] *)
Definition flushBuffer (flushRemainder : bool) (buffer : string) : Outcome * string :=
  let '(blocks, normalizedBuffer) := blocksOf (normalizeNewlines buffer) in
  let remainder :=
    if (flushRemainder && truthy (trim normalizedBuffer))%bool then [normalizedBuffer] else [] in
  (andThen (deliver blocks) (deliver remainder), if flushRemainder then "" else normalizedBuffer).

(** The loop over the reads: the text of every chunk, then the text that the
    decoder holds back until the end. *)
Fixpoint consumeStream (buffer : string) (chunks : list string) (final : string) : Outcome :=
  match chunks with
  | [] => fst (flushBuffer true (buffer +:+ final))
  | chunk :: chunks' =>
      let '(outcome, buffer') := flushBuffer false (buffer +:+ chunk) in
      andThen outcome (consumeStream buffer' chunks' final)
  end.

End Consume.

(** ** The two clients *)

Definition isSupportedAgentConversationStreamEventType (value : string) : bool :=
  includes value
    ["message-start"; "text-delta"; "reasoning-delta"; "tool-call"; "message-complete"; "error"].

Inductive StreamError :=
  | UnsupportedEventType (event : string)
  | EventTypeMismatch (event payloadType : string)
  | InvalidPayload.

Section Clients.
Context {Payload : Type}.
(** [JSON.parse], with the schema where the code has one; [None] throws. *)
Variable parsePayload : string -> option Payload.

Section Agent.
(** [payload.type] *)
Variable payloadType : Payload -> string.

Definition onAgentEvent (e : SseEvent) : option (Payload + StreamError) :=
  if negb (isSupportedAgentConversationStreamEventType (sse_event e))
  then Some (inr (UnsupportedEventType (sse_event e)))
  else
    match parsePayload (sse_data e) with
    | None => Some (inr InvalidPayload)
    | Some payload =>
        if negb (bool_decide (payloadType payload = sse_event e))
        then Some (inr (EventTypeMismatch (sse_event e) (payloadType payload)))
        else Some (inl payload)
    end.

Definition consumeAgentConversationStream (chunks : list string) (final : string)
    : list Payload * option StreamError := consumeStream onAgentEvent "" chunks final.
End Agent.

Definition onTerminalEvent (e : SseEvent) : option (Payload + StreamError) :=
  if bool_decide (sse_event e = "output") then
    match parsePayload (sse_data e) with
    | None => Some (inr InvalidPayload)
    | Some chunk => Some (inl chunk)
    end
  else None.

Definition consumeTerminalStream (chunks : list string) (final : string)
    : list Payload * option StreamError := consumeStream onTerminalEvent "" chunks final.

End Clients.

(** ** Specification *)

(** A frame as the backend writes it ([core/transport/httpapi/response.go]). *)
Definition frame (event data : string) : string :=
  "event: " +:+ event +:+ String LF ("data: " +:+ data +:+ String LF (String LF "")).

(** A text without line breaks. *)
Definition one_line (s : string) : bool := no_unit LF s && no_unit CR s.

Definition concat (chunks : list string) : string := foldr String.append "" chunks.

(** ** Lemmas *)

Lemma no_unit_cons c a s : no_unit c (String a s) = true <-> a <> c /\ no_unit c s = true.
Proof. unfold no_unit. simpl. by rewrite andb_true_iff, negb_true_iff, bool_decide_eq_false. Qed.

Lemma normalizeNewlines_id s : no_unit CR s = true -> normalizeNewlines s = s.
Proof.
  induction s as [|a s IH]; [done|]. intros [Ha Hs]%no_unit_cons. simpl.
  rewrite bool_decide_eq_false_2 by done. by rewrite IH.
Qed.

Lemma cutBlock_cons a b s :
  cutBlock (String a (String b s)) =
  if (bool_decide (a = LF) && bool_decide (b = LF))%bool then Some ("", s)
  else match cutBlock (String b s) with
       | Some (block, rest) => Some (String a block, rest)
       | None => None
       end.
Proof. reflexivity. Qed.

Lemma cutBlock_app b c x y : cutBlock b = Some (x, y) -> cutBlock (b +:+ c) = Some (x, y +:+ c).
Proof.
  revert x y. induction b as [|a b IH]; [done|]. intros x y. destruct b as [|a' b]; [done|].
  change (String a (String a' b) +:+ c) with (String a (String a' (b +:+ c))). rewrite !cutBlock_cons.
  destruct (_ && _)%bool; [by intros [= <- <-]|].
  change (String a' (b +:+ c)) with (String a' b +:+ c).
  destruct (cutBlock (String a' b)) as [[x' y']|]; [|done].
  intros [= <- <-]. by rewrite (IH x' y' eq_refl).
Qed.

Lemma cutBlock_length s x y : cutBlock s = Some (x, y) -> String.length y < String.length s.
Proof.
  revert x y. induction s as [|a s IH]; [done|]. intros x y. destruct s as [|b s]; [done|].
  rewrite cutBlock_cons. destruct (_ && _)%bool; [intros [= _ <-]; simpl; lia|].
  destruct (cutBlock (String b s)) as [[x' y']|]; [|done]. intros [= _ <-].
  specialize (IH x' y' eq_refl). simpl in *. lia.
Qed.

Lemma cutBlock_units c s x y :
  no_unit c s = true -> cutBlock s = Some (x, y) -> no_unit c y = true.
Proof.
  revert x y. induction s as [|a s IH]; [done|]. intros x y [_ Hs]%no_unit_cons.
  destruct s as [|b s]; [done|]. rewrite cutBlock_cons. destruct (_ && _)%bool.
  - intros [= _ <-]. by apply no_unit_cons in Hs as [_ Hs].
  - destruct (cutBlock (String b s)) as [[x' y']|]; [|done]. intros [= _ <-]. by apply (IH x' y').
Qed.

Lemma takeBlocks_fuel n m s : String.length s <= n -> String.length s <= m -> takeBlocks n s = takeBlocks m s.
Proof.
  revert m s. induction n as [|n IH]; intros m s Hn Hm.
  - destruct s; [|simpl in Hn; lia]. by destruct m.
  - destruct m as [|m]; [destruct s; [done|simpl in Hm; lia]|]. simpl.
    destruct (cutBlock s) as [[x y]|] eqn:E; [|done]. apply cutBlock_length in E.
    by rewrite (IH m y) by lia.
Qed.

(** Cutting is a function of the whole text: the loop unfolded once. *)
Lemma blocksOf_unfold s :
  blocksOf s = match cutBlock s with
               | None => ([], s)
               | Some (block, rest) => (block :: fst (blocksOf rest), snd (blocksOf rest))
               end.
Proof.
  unfold blocksOf. destruct s as [|a s]; [done|]. cbn [String.length takeBlocks].
  destruct (cutBlock (String a s)) as [[x y]|] eqn:E; [|done]. apply cutBlock_length in E. simpl in E.
  rewrite (takeBlocks_fuel _ (String.length y) y) by lia. by destruct (takeBlocks _ y).
Qed.

(** Blocks that are complete stay so when text is added. *)
Lemma blocksOf_app b c :
  blocksOf (b +:+ c) =
  (fst (blocksOf b) ++ fst (blocksOf (snd (blocksOf b) +:+ c)), snd (blocksOf (snd (blocksOf b) +:+ c))).
Proof.
  remember (String.length b) as n eqn:Hn. revert b Hn.
  induction n as [n IH] using lt_wf_ind. intros b Hn. rewrite (blocksOf_unfold b).
  destruct (cutBlock b) as [[x y]|] eqn:E.
  - rewrite (blocksOf_unfold (b +:+ c)), (cutBlock_app _ _ _ _ E). cbn [fst snd].
    pose proof (cutBlock_length _ _ _ E). rewrite (IH (String.length y)) by lia. done.
  - cbn [fst snd app]. by rewrite <- surjective_pairing.
Qed.

Lemma blocksOf_rest_units c s : no_unit c s = true -> no_unit c (snd (blocksOf s)) = true.
Proof.
  remember (String.length s) as n eqn:Hn. revert s Hn.
  induction n as [n IH] using lt_wf_ind. intros s Hn Hs. rewrite blocksOf_unfold.
  destruct (cutBlock s) as [[x y]|] eqn:E; [|done]. cbn [snd].
  pose proof (cutBlock_length _ _ _ E). apply (IH (String.length y)); [lia|done|].
  by apply (cutBlock_units c s x y).
Qed.

Section DeliverLemmas.
Context {E X : Type} (onEvent : SseEvent -> option (E + X)).

Lemma andThen_assoc (a b c : Outcome (E := E) (X := X)) : andThen (andThen a b) c = andThen a (andThen b c).
Proof. destruct a as [es [x|]], b as [es' [x'|]], c as [es'' x'']; simpl; by rewrite <- ?app_assoc. Qed.

Lemma andThen_nil (a : Outcome (E := E) (X := X)) : andThen a ([], None) = a.
Proof. destruct a as [es [x|]]; simpl; [done|]. by rewrite app_nil_r. Qed.

Lemma deliver_app bs bs' : deliver onEvent (bs ++ bs') = andThen (deliver onEvent bs) (deliver onEvent bs').
Proof.
  induction bs as [|b bs IH]; simpl; [by destruct (deliver _ bs')|].
  destruct (handleBlock onEvent b) as [[e|x]|]; [|done|done]. rewrite IH.
  by destruct (deliver onEvent bs) as [es [x|]].
Qed.

(** Without carriage returns the outcome depends on the text alone. *)
Lemma consumeStream_text buffer chunks final :
  no_unit CR (buffer +:+ concat chunks +:+ final) = true ->
  consumeStream onEvent buffer chunks final = fst (flushBuffer onEvent true (buffer +:+ concat chunks +:+ final)).
Proof.
  revert buffer. induction chunks as [|c chunks IH]; intros buffer Hcr; [done|].
  cbn [concat foldr] in Hcr |- *. change (foldr String.append "" chunks) with (concat chunks) in *.
  rewrite append_assoc in Hcr |- *. set (rest := concat chunks +:+ final) in *.
  rewrite <- (append_assoc buffer c rest) in Hcr |- *. set (b := buffer +:+ c) in *.
  cbn [consumeStream]. fold b. unfold flushBuffer at 1.
  rewrite no_unit_append in Hcr. apply andb_true_iff in Hcr as [Hb Hrest].
  rewrite (normalizeNewlines_id b) by done. pose proof (blocksOf_rest_units CR b Hb) as Hr.
  destruct (blocksOf b) as [bs r] eqn:Eb. cbn [snd andb] in Hr |- *. cbn [deliver]. rewrite andThen_nil.
  rewrite IH by (rewrite no_unit_append; by rewrite Hr). unfold flushBuffer.
  rewrite !normalizeNewlines_id by (rewrite no_unit_append; by rewrite ?Hr, ?Hb).
  fold rest. rewrite (blocksOf_app b rest), Eb. cbn [fst snd].
  destruct (blocksOf (r +:+ rest)) as [bs' r']. cbn [fst snd]. by rewrite deliver_app, andThen_assoc.
Qed.

End DeliverLemmas.

Lemma concat_app l l' : concat (l ++ l') = concat l +:+ concat l'.
Proof.
  induction l as [|s l IH]; [done|]. cbn [app concat foldr]. unfold concat in IH.
  by rewrite IH, append_assoc.
Qed.

Lemma cutBlock_skip a s :
  a <> LF ->
  cutBlock (String a s) = match cutBlock s with Some (x, y) => Some (String a x, y) | None => None end.
Proof. intros Ha. destruct s as [|b s]; [done|]. rewrite cutBlock_cons. by rewrite bool_decide_eq_false_2. Qed.

Lemma cutBlock_end s rest : no_unit LF s = true -> cutBlock (s +:+ String LF (String LF rest)) = Some (s, rest).
Proof.
  induction s as [|a s IH]; [done|]. intros [Ha Hs]%no_unit_cons.
  change (String a s +:+ ?t) with (String a (s +:+ t)). by rewrite cutBlock_skip, IH.
Qed.

Lemma cutBlock_line s b t :
  no_unit LF s = true -> b <> LF ->
  cutBlock (s +:+ String LF (String b t)) =
  match cutBlock (String b t) with Some (x, y) => Some (s +:+ String LF x, y) | None => None end.
Proof.
  intros Hs Hb. induction s as [|a s IH].
  - change ("" +:+ String LF (String b t)) with (String LF (String b t)).
    rewrite cutBlock_cons, (bool_decide_eq_false_2 (b = LF)), andb_false_r by done. done.
  - apply no_unit_cons in Hs as [Ha Hs]. change (String a s +:+ ?u) with (String a (s +:+ u)).
    rewrite cutBlock_skip, IH by done. by destruct (cutBlock (String b t)) as [[x y]|].
Qed.

(** The block of a frame. *)
Definition frame_block (event data : string) : string :=
  ("event: " +:+ event) +:+ String LF ("data: " +:+ data).

Lemma one_line_spec s : one_line s = true <-> no_unit LF s = true /\ no_unit CR s = true.
Proof. apply andb_true_iff. Qed.

Lemma cutBlock_frame event data rest :
  one_line event = true -> one_line data = true ->
  cutBlock (frame event data +:+ rest) = Some (frame_block event data, rest).
Proof.
  intros [He _]%one_line_spec [Hd _]%one_line_spec. unfold frame, frame_block.
  assert (("event: " +:+ event +:+ String LF ("data: " +:+ data +:+ String LF (String LF ""))) +:+ rest =
    ("event: " +:+ event) +:+ String LF (String "d" (("ata: " +:+ data) +:+ String LF (String LF rest)))) as ->.
  { rewrite !append_assoc. simpl. by rewrite append_assoc. }
  rewrite cutBlock_line; [|by rewrite no_unit_append, He|discriminate].
  change (String "d" ((?x +:+ data) +:+ ?t)) with ((String "d" x +:+ data) +:+ t).
  rewrite cutBlock_end by (by rewrite no_unit_append, Hd). done.
Qed.

Lemma parse_frame event data :
  one_line event = true -> one_line data = true ->
  parseEventBlock (frame_block event data) = Some (mkSse event data).
Proof.
  intros [He _]%one_line_spec [Hd _]%one_line_spec. unfold parseEventBlock, frame_block.
  rewrite splitOn_app, !splitOn_no_unit by (by rewrite no_unit_append, ?He, ?Hd). done.
Qed.

Lemma frames_no_cr (evs : list (string * string)) :
  Forall (fun e => one_line (fst e) = true /\ one_line (snd e) = true) evs ->
  no_unit CR (concat ((fun e => frame (fst e) (snd e)) <$> evs)) = true.
Proof.
  induction 1 as [|[event data] evs [He Hd] _ IH]; [done|]. cbn [fst snd] in He, Hd.
  cbn [fmap list_fmap concat foldr fst snd].
  apply one_line_spec in He as [_ He], Hd as [_ Hd]. rewrite no_unit_append. unfold concat in IH. rewrite IH.
  unfold frame. rewrite !no_unit_append. cbn [no_unit].
  change (no_unit CR (String LF ?t)) with (no_unit CR t).
  rewrite !no_unit_append. rewrite He, Hd. done.
Qed.

Lemma blocksOf_frames (evs : list (string * string)) :
  Forall (fun e => one_line (fst e) = true /\ one_line (snd e) = true) evs ->
  blocksOf (concat ((fun e => frame (fst e) (snd e)) <$> evs)) =
    ((fun e => frame_block (fst e) (snd e)) <$> evs, "").
Proof.
  induction 1 as [|[event data] evs [He Hd] _ IH]; [done|]. cbn [fst snd] in He, Hd.
  rewrite blocksOf_unfold.
  cbn [fmap list_fmap concat foldr fst snd]. rewrite cutBlock_frame by done.
  unfold concat in IH. by rewrite IH.
Qed.

(** A chunked sequence of frames is delivered event by event. *)
Lemma consumeStream_frames {E X : Type} (onEvent : SseEvent -> option (E + X)) chunks final
    (evs : list (string * string)) :
  Forall (fun e => one_line (fst e) = true /\ one_line (snd e) = true) evs ->
  concat chunks +:+ final = concat ((fun e => frame (fst e) (snd e)) <$> evs) ->
  consumeStream onEvent "" chunks final =
    deliver onEvent ((fun e => frame_block (fst e) (snd e)) <$> evs).
Proof.
  intros Hall Htext. pose proof (frames_no_cr evs Hall) as Hcr.
  rewrite consumeStream_text by (change ("" +:+ ?t) with t; by rewrite Htext).
  change ("" +:+ ?t) with t. rewrite Htext. unfold flushBuffer.
  rewrite normalizeNewlines_id by done. rewrite blocksOf_frames by done. apply andThen_nil.
Qed.

(** ** Properties *)

(** How the network cuts a stream without carriage returns into chunks does
    not matter: any two ways to cut the same text deliver the same events in
    the same order and end with the same error or none, whatever the blocks
    are, and the loop always ends. *)
Theorem stream_chunking_irrelevant {Payload} parsePayload payloadType chunks final chunks' final' :
  concat chunks +:+ final = concat chunks' +:+ final' ->
  no_unit CR (concat chunks +:+ final) = true ->
  consumeAgentConversationStream (Payload := Payload) parsePayload payloadType chunks final =
    consumeAgentConversationStream parsePayload payloadType chunks' final' /\
  consumeTerminalStream (Payload := Payload) parsePayload chunks final =
    consumeTerminalStream parsePayload chunks' final'.
Proof.
  intros Heq Hcr. unfold consumeAgentConversationStream, consumeTerminalStream.
  rewrite !consumeStream_text; change ("" +:+ ?t) with t; rewrite <- ?Heq; done.
Qed.

(** C12: the agent's stream survives the transport: frames that the backend writes
    for events of the supported types, cut into chunks anywhere, deliver
    exactly their payloads in order and without an error; an event type that is
    not supported ends the stream after the events before it. *)
Theorem agent_stream_roundtrip {Payload} (parsePayload : string -> option Payload) payloadType
    (evs : list (string * Payload)) (bad : string) rest chunks final :
  Forall (fun e => one_line (fst e) = true /\ parsePayload (fst e) = Some (snd e) /\
    isSupportedAgentConversationStreamEventType (payloadType (snd e)) = true) evs ->
  let frames := concat ((fun e => frame (payloadType (snd e)) (fst e)) <$> evs) in
  (concat chunks +:+ final = frames ->
   consumeAgentConversationStream parsePayload payloadType chunks final = (snd <$> evs, None)) /\
  (isSupportedAgentConversationStreamEventType bad = false -> one_line bad = true -> one_line rest = true ->
   concat chunks +:+ final = frames +:+ frame bad rest ->
   consumeAgentConversationStream parsePayload payloadType chunks final =
     (snd <$> evs, Some (UnsupportedEventType bad))).
Proof.
  intros Hall frames.
  set (raw := (fun e : string * Payload => (payloadType (snd e), fst e)) <$> evs).
  assert (Forall (fun e => one_line (fst e) = true /\ one_line (snd e) = true) raw) as Hraw.
  { apply Forall_fmap. apply (Forall_impl _ _ _ Hall). intros [data p] (Hd & _ & Hs). split; [|done].
    simpl in *. apply includes_true in Hs. by repeat (apply elem_of_cons in Hs as [->|Hs]; [done|]);
      apply elem_of_nil in Hs. }
  assert (forall more, deliver (onAgentEvent parsePayload payloadType)
      (((fun e => frame_block (fst e) (snd e)) <$> raw) ++ more) =
    andThen (snd <$> evs, None) (deliver (onAgentEvent parsePayload payloadType) more)) as Hdel.
  { intros more. rewrite deliver_app. f_equal. unfold raw in Hraw |- *. clear frames raw.
    induction Hall as [|[data p] evs (_ & Hp & Hs) _ IH]; [done|].
    rewrite !fmap_cons in Hraw |- *. apply Forall_cons in Hraw as [[He Hd] Hraw].
    cbn [fst snd] in He, Hd, Hp, Hs. cbn [fmap list_fmap fst snd app deliver].
    unfold handleBlock at 1. rewrite parse_frame by done. cbn [mbind option_bind].
    unfold onAgentEvent at 1. cbn [sse_event sse_data]. rewrite Hs, Hp. cbn [negb].
    rewrite bool_decide_eq_true_2 by done. cbn [negb]. by rewrite IH. }
  assert (frames = concat ((fun e => frame (fst e) (snd e)) <$> raw)) as Hfr
    by (unfold frames, raw; by rewrite <- list_fmap_compose).
  split.
  - intros Ht. unfold consumeAgentConversationStream.
    rewrite (consumeStream_frames _ _ _ raw) by (done || by rewrite Ht).
    rewrite <- (app_nil_r (_ <$> raw)), Hdel. apply andThen_nil.
  - intros Hb Hl Hr Ht. unfold consumeAgentConversationStream.
    rewrite (consumeStream_frames _ _ _ (raw ++ [(bad, rest)])).
    + rewrite fmap_app, Hdel. cbn [fmap list_fmap deliver fst snd]. unfold handleBlock.
      rewrite parse_frame by done. simpl. unfold onAgentEvent. cbn [sse_event]. rewrite Hb. simpl.
      by rewrite app_nil_r.
    + apply Forall_app. split; [done|]. by repeat constructor.
    + rewrite Ht, Hfr, fmap_app, concat_app. cbn [fmap list_fmap concat foldr fst snd].
      by rewrite append_nil_r.
Qed.

(** A chunk that ends between the two units of a line end tears an event in
    two: the return is turned into a line feed at once and the line feed that
    follows is taken for an empty line. *)
Example split_line_end_breaks_event :
  let parsePayload s := Some s in
  let payloadType (_ : string) := "text-delta" in
  let line_end := String CR (String LF "") in
  let run := consumeAgentConversationStream parsePayload payloadType in
  run ["event: text-delta" +:+ line_end +:+ "data: x" +:+ line_end +:+ line_end] "" = (["x"], None) /\
  run ["event: text-delta" +:+ String CR ""; String LF "data: x" +:+ line_end +:+ line_end] "" =
    ([], Some (UnsupportedEventType "message")).
Proof. split; vm_compute; reflexivity. Qed.

(** ** Witnesses *)

Lemma stream_chunking_irrelevant_witness :
  let text := frame "output" "a" +:+ frame "output" "b" in
  let halves := [strTake 9 text; strDrop 9 text] in
  consumeTerminalStream (fun s => Some s) [text] "" = consumeTerminalStream (fun s => Some s) halves "".
Proof.
  intros text halves.
  apply (stream_chunking_irrelevant (fun s => Some s) (fun _ => "output") [text] "" halves "").
  - reflexivity.
  - reflexivity.
Defined.

(** Payloads that are the name of their type. *)
Lemma agent_stream_roundtrip_witness :
  let text := frame "text-delta" "text-delta" +:+ frame "error" "error" in
  consumeAgentConversationStream (fun s => Some s) id [strTake 20 text] (strDrop 20 text) =
    (["text-delta"; "error"], None).
Proof.
  intros text.
  apply (agent_stream_roundtrip (fun s => Some s) id
    [("text-delta", "text-delta"); ("error", "error")] "ping" "" [strTake 20 text] (strDrop 20 text)).
  - repeat constructor.
  - vm_compute. reflexivity.
Defined.
