(* ===== verification/Conversation.v ===== *)
(** * The conversation of the agent panel

    [frontend/src/features/agent/model/panel-state.ts]: the messages of a
    conversation under the events of a stream; and the audit entries of
    [interaction-flow.ts], which follow a run.  [Date.now()] is the argument
    [now]. *)
From Stdlib Require Import Ascii String.
From stdpp Require Import strings.
From S2P Require Import Prelude JsString Sse.
Local Open Scope string_scope.
Local Open Scope list_scope.
Local Open Scope nat_scope.
Local Open Scope js_scope.

(** ** Data *)

Inductive ConversationRole := RoleSystem | RoleUser | RoleAssistant.
Inductive ConversationStatus := StatusStreaming | StatusComplete | StatusError.
#[global] Instance conversation_role_eq : EqDecision ConversationRole.
Proof. solve_decision. Defined.
#[global] Instance conversation_status_eq : EqDecision ConversationStatus.
Proof. solve_decision. Defined.

Record AgentAttachmentReference := mkAttachment {
  at_id : string;
  at_name : string;
  at_path : string;
  at_mime_type : string;
  at_size : Z;
  at_modified_time : Z
}.
#[global] Instance attachment_eq : EqDecision AgentAttachmentReference.
Proof. solve_decision. Defined.

Record AgentConversationMessage := mkMessage {
  cm_id : string;
  cm_role : ConversationRole;
  cm_content : string;
  cm_attachments : option (list AgentAttachmentReference);
  cm_status : ConversationStatus;
  cm_provider : option string;
  cm_model : option string;
  cm_reasoning : option string;
  cm_created_at : string
}.
#[global] Instance message_eq : EqDecision AgentConversationMessage.
Proof. solve_decision. Defined.

(** [{ ...message, content, status }] and [{ ...message, reasoning, status }] *)
Definition set_content (content : string) (status : ConversationStatus) (m : AgentConversationMessage) :=
  mkMessage (cm_id m) (cm_role m) content (cm_attachments m) status (cm_provider m) (cm_model m)
    (cm_reasoning m) (cm_created_at m).
Definition set_reasoning (reasoning : string) (status : ConversationStatus) (m : AgentConversationMessage) :=
  mkMessage (cm_id m) (cm_role m) (cm_content m) (cm_attachments m) status (cm_provider m) (cm_model m)
    (Some reasoning) (cm_created_at m).

Record AgentConversationToolCall := mkToolCall {
  tc_kind : option string;
  tc_name : option string;
  tc_status : option string;
  tc_summary : option string;
  tc_input : option string;
  tc_output : option string;
  tc_exit_code : option Z
}.

Inductive AgentConversationStreamEvent :=
  | MessageStart (message : AgentConversationMessage)
  | TextDelta (message_id delta : string)
  | ReasoningDelta (message_id delta : string)
  | ToolCall (message_id : string) (tool_call : AgentConversationToolCall)
  | MessageComplete (message : AgentConversationMessage)
  | StreamErrorEvent (message : option AgentConversationMessage) (error : option string).

Notation Messages := (list AgentConversationMessage).

(** ** Operations *)

Definition has_cm_id (x : string) (m : AgentConversationMessage) : bool := bool_decide (cm_id m = x).

Definition upsertConversationMessage (messages : Messages) (message : AgentConversationMessage) : Messages :=
  match findIndex (has_cm_id (cm_id message)) messages with
  | None => messages ++ [message]
  | Some index => <[index := message]> messages
  end.

Definition updateConversationMessage (messages : Messages) (messageID : string)
    (update : AgentConversationMessage -> AgentConversationMessage) : Messages :=
  match findIndex (has_cm_id messageID) messages with
  | None => messages
  | Some index => alter update index messages
  end.

Definition blank_line : string := String LF (String LF "").

Definition appendConversationReasoning (message : AgentConversationMessage) (delta : string)
    : AgentConversationMessage :=
  let trimmedDelta := trim delta in
  if truthy trimmedDelta then
    let currentReasoning := (trim <$> cm_reasoning message) ?? "" in
    set_reasoning (if truthy currentReasoning then currentReasoning +:+ blank_line +:+ trimmedDelta
                   else trimmedDelta) StatusStreaming message
  else message.

(** [o?.trim() || d] *)
Definition trimmedOr (o : option string) (d : string) : string := truthyOpt (trim <$> o) ?? d.

Definition formatToolCallReasoningLine (toolCall : AgentConversationToolCall) : string :=
  let status := trimmedOr (tc_status toolCall) "updated" in
  let name := trimmedOr (tc_summary toolCall) (trimmedOr (tc_name toolCall) (trimmedOr (tc_kind toolCall) "tool")) in
  join (String LF "")
    (("Tool " +:+ status +:+ ": " +:+ name) ::
     match truthyOpt (trim <$> tc_output toolCall) with
     | Some output => ["Output: " +:+ output]
     | None =>
         match truthyOpt (trim <$> tc_input toolCall) with
         | Some input => ["Input: " +:+ input]
         | None => []
         end
     end ++
     match tc_exit_code toolCall with Some code => ["Exit code: " +:+ showZ code] | None => [] end).

Definition appendAgentConversationMessage (messages : Messages) (message : AgentConversationMessage)
    : Messages := messages ++ [message].

Definition removeAgentConversationMessage (messages : Messages) (messageID : string) : Messages :=
  filterb (fun m => negb (has_cm_id messageID m)) messages.

Definition finalizeAgentConversationStreamingMessages (messages : Messages) (errorMessage : string)
    : Messages :=
  (fun m =>
     if decide (cm_status m = StatusStreaming) then
       let content := trim (cm_content m) in
       set_content (if truthy content then content else errorMessage) StatusError m
     else m) <$> messages.

Definition applyAgentConversationStreamEvent (messages : Messages) (event : AgentConversationStreamEvent)
    : Messages :=
  match event with
  | MessageStart message | MessageComplete message => upsertConversationMessage messages message
  | TextDelta x delta =>
      updateConversationMessage messages x
        (fun m => set_content (cm_content m +:+ delta) StatusStreaming m)
  | ReasoningDelta x delta =>
      updateConversationMessage messages x (fun m => appendConversationReasoning m delta)
  | ToolCall x toolCall =>
      updateConversationMessage messages x
        (fun m => appendConversationReasoning m (formatToolCallReasoningLine toolCall))
  | StreamErrorEvent (Some message) _ => upsertConversationMessage messages message
  | StreamErrorEvent None error =>
      finalizeAgentConversationStreamingMessages messages (trimmedOr error "Agent stream failed.")
  end.

(** ** Audit entries *)

Inductive AuditEntryStatus := AuditPending | AuditRunning | AuditDone | AuditError.
#[global] Instance audit_status_eq : EqDecision AuditEntryStatus.
Proof. solve_decision. Defined.

Record AuditEntry := mkAudit {
  ae_tool : string;
  ae_status : AuditEntryStatus;
  ae_timestamp : option Z
}.
#[global] Instance audit_entry_eq : EqDecision AuditEntry.
Proof. solve_decision. Defined.

Definition set_audit (status : AuditEntryStatus) (now : Z) (e : AuditEntry) : AuditEntry :=
  mkAudit (ae_tool e) status (Some now).

Definition has_status (s : AuditEntryStatus) (e : AuditEntry) : bool := bool_decide (ae_status e = s).

(** The entries of [createAuditMessage]. *)
Definition createAuditEntries (tools : list string) (now : Z) : list AuditEntry :=
  imap (fun index tool =>
    if (index =? 0)%nat then mkAudit tool AuditRunning (Some now) else mkAudit tool AuditPending None) tools.

(** [entries.findIndex((entry, index) => index > after && entry.status === 'pending')] *)
Definition nextPendingIndex (entries : list AuditEntry) (after : nat) : option nat :=
  (fun i => S after + i) <$> findIndex (has_status AuditPending) (drop (S after) entries).

Definition advanceAuditEntries (now : Z) (entries : list AuditEntry) : list AuditEntry :=
  match findIndex (has_status AuditRunning) entries with
  | None => entries
  | Some runningIndex =>
      match nextPendingIndex entries runningIndex with
      | None => entries
      | Some pendingIndex =>
          imap (fun index entry =>
            if (index =? runningIndex)%nat then set_audit AuditDone now entry
            else if (index =? pendingIndex)%nat then set_audit AuditRunning now entry
            else entry) entries
      end
  end.

Definition completeAuditEntries (now : Z) (entries : list AuditEntry) : list AuditEntry :=
  set_audit AuditDone now <$> entries.

Definition failAuditEntries (now : Z) (entries : list AuditEntry) : list AuditEntry :=
  let targetIndex :=
    match findIndex (has_status AuditRunning) entries with
    | Some i => Some i
    | None => findIndex (has_status AuditPending) entries
    end in
  match targetIndex with
  | None => entries
  | Some i =>
      imap (fun index entry => if (index =? i)%nat then set_audit AuditError now entry else entry) entries
  end.

(** ** Specification *)

Definition message_ids (messages : Messages) : list string := cm_id <$> messages.

(** The events that a stream sends between the start and the end of messages. *)
Definition is_delta (e : AgentConversationStreamEvent) : bool :=
  match e with TextDelta _ _ | ReasoningDelta _ _ | ToolCall _ _ => true | _ => false end.

(** The text that a list of events adds to a message. *)
Fixpoint deltas_of (x : string) (es : list AgentConversationStreamEvent) : string :=
  match es with
  | [] => ""
  | TextDelta y delta :: es' => if bool_decide (y = x) then delta +:+ deltas_of x es' else deltas_of x es'
  | _ :: es' => deltas_of x es'
  end.

Definition applyStream (messages : Messages) (es : list AgentConversationStreamEvent) : Messages :=
  foldl applyAgentConversationStreamEvent messages es.

(** The tools of a list of entries, and their progress: those before the
    current one are done, those behind it are pending. *)
Definition audit_progress (k : nat) (entries : list AuditEntry) : Prop :=
  k < length entries /\
  forall i e, entries !! i = Some e ->
    ae_status e = (if i <? k then AuditDone else if i =? k then AuditRunning else AuditPending)%nat.

(** ** Lemmas *)

Lemma has_cm_id_true x m : has_cm_id x m = true <-> cm_id m = x.
Proof. apply bool_decide_eq_true. Qed.

Lemma has_cm_id_false x m : has_cm_id x m = false <-> cm_id m <> x.
Proof. apply bool_decide_eq_false. Qed.

Lemma update_cons m l x f :
  updateConversationMessage (m :: l) x f =
  if has_cm_id x m then f m :: l else m :: updateConversationMessage l x f.
Proof.
  unfold updateConversationMessage. simpl. destruct (has_cm_id x m); [done|].
  by destruct (findIndex (has_cm_id x) l).
Qed.

Lemma upsert_cons m l message :
  upsertConversationMessage (m :: l) message =
  if has_cm_id (cm_id message) m then message :: l else m :: upsertConversationMessage l message.
Proof.
  unfold upsertConversationMessage. simpl. destruct (has_cm_id (cm_id message) m); [done|].
  by destruct (findIndex (has_cm_id (cm_id message)) l).
Qed.

Lemma update_ids l x f : (forall m, cm_id (f m) = cm_id m) -> message_ids (updateConversationMessage l x f) = message_ids l.
Proof.
  intros Hf. induction l as [|m l IH]; [done|]. rewrite update_cons. destruct (has_cm_id x m).
  - unfold message_ids. rewrite !fmap_cons. by rewrite Hf.
  - unfold message_ids in *. rewrite !fmap_cons. by rewrite IH.
Qed.

Lemma update_find l x f y :
  (forall m, cm_id (f m) = cm_id m) ->
  find (has_cm_id y) (updateConversationMessage l x f) =
  if decide (x = y) then f <$> find (has_cm_id y) l else find (has_cm_id y) l.
Proof.
  intros Hf. induction l as [|m l IH]; [by case_decide|]. rewrite update_cons.
  destruct (has_cm_id x m) eqn:Ex.
  - apply has_cm_id_true in Ex. simpl. unfold has_cm_id at 1. rewrite Hf, Ex. case_decide as Hxy.
    + rewrite bool_decide_eq_true_2 by done. by rewrite (proj2 (has_cm_id_true y m)) by congruence.
    + rewrite bool_decide_eq_false_2 by done. by rewrite (proj2 (has_cm_id_false y m)) by congruence.
  - apply has_cm_id_false in Ex. simpl. rewrite IH. destruct (has_cm_id y m) eqn:Ey; [|done].
    apply has_cm_id_true in Ey. by rewrite decide_False by congruence.
Qed.

Lemma upsert_ids l message :
  message_ids (upsertConversationMessage l message) = message_ids l /\ cm_id message ∈ message_ids l \/
  message_ids (upsertConversationMessage l message) = message_ids l ++ [cm_id message] /\
    cm_id message ∉ message_ids l.
Proof.
  induction l as [|m l IH].
  - right. split; [done|]. intros Hx. by apply elem_of_nil in Hx.
  - rewrite upsert_cons. unfold message_ids in *. rewrite !fmap_cons.
    destruct (has_cm_id _ m) eqn:E; rewrite ?fmap_cons.
    + apply has_cm_id_true in E. left. split; [by rewrite E|]. rewrite E. left.
    + apply has_cm_id_false in E. destruct IH as [[-> Hin]|[-> Hout]]; [left|right]; (split; [done|]).
      * by right.
      * intros [Hx|Hx]%elem_of_cons; [by destruct E|done].
Qed.

Lemma upsert_find l message y :
  find (has_cm_id y) (upsertConversationMessage l message) =
  if decide (cm_id message = y) then Some message else find (has_cm_id y) l.
Proof.
  induction l as [|m l IH].
  - simpl. case_decide as E; [by rewrite (proj2 (has_cm_id_true _ _) E)|by rewrite (proj2 (has_cm_id_false _ _) E)].
  - rewrite upsert_cons. destruct (has_cm_id (cm_id message) m) eqn:E.
    + apply has_cm_id_true in E. simpl. case_decide as Hy.
      * by rewrite (proj2 (has_cm_id_true _ _) Hy).
      * rewrite (proj2 (has_cm_id_false _ _) Hy). by rewrite (proj2 (has_cm_id_false y m)) by congruence.
    + apply has_cm_id_false in E. simpl. rewrite IH. destruct (has_cm_id y m) eqn:Ey; [|done].
      apply has_cm_id_true in Ey. by rewrite decide_False by congruence.
Qed.

Lemma reasoning_id m delta : cm_id (appendConversationReasoning m delta) = cm_id m.
Proof. unfold appendConversationReasoning. by destruct (truthy _). Qed.

Lemma reasoning_content m delta : cm_content (appendConversationReasoning m delta) = cm_content m.
Proof. unfold appendConversationReasoning. by destruct (truthy _). Qed.

Lemma finalize_ids l error : message_ids (finalizeAgentConversationStreamingMessages l error) = message_ids l.
Proof.
  unfold message_ids, finalizeAgentConversationStreamingMessages. rewrite <- list_fmap_compose.
  apply list_fmap_ext. intros i m _. simpl. by case_decide.
Qed.

(** The ids of a conversation never change place. *)
Lemma apply_ids l e :
  message_ids (applyAgentConversationStreamEvent l e) = message_ids l \/
  exists x, message_ids (applyAgentConversationStreamEvent l e) = message_ids l ++ [x] /\ x ∉ message_ids l.
Proof.
  destruct e as [m|x d|x d|x t|m|[m|] err]; simpl.
  1,5,6: destruct (upsert_ids l m) as [[H _]|H]; [by left|right; eauto].
  - left. by apply update_ids.
  - left. apply update_ids. intros m. apply reasoning_id.
  - left. apply update_ids. intros m. apply reasoning_id.
  - left. apply finalize_ids.
Qed.

(** What one delta does to the message [x]. *)
Lemma apply_delta l e x :
  is_delta e = true ->
  (fun m => (cm_id m, cm_role m, cm_content m)) <$> find (has_cm_id x) (applyAgentConversationStreamEvent l e) =
  (fun m => (cm_id m, cm_role m, cm_content m +:+ deltas_of x [e])) <$> find (has_cm_id x) l.
Proof.
  destruct e as [m|y d|y d|y t|m|m err]; intros He; try discriminate He; unfold applyAgentConversationStreamEvent.
  - rewrite update_find by done. simpl. case_decide as E; destruct (find _ l) as [m|]; try done; simpl.
    + rewrite bool_decide_eq_true_2 by done. by rewrite append_nil_r.
    + rewrite bool_decide_eq_false_2 by done. by rewrite append_nil_r.
  - rewrite update_find by (intros; apply reasoning_id). simpl.
    case_decide; destruct (find _ l) as [m|]; try done; simpl; rewrite ?append_nil_r; [|done].
    rewrite reasoning_id, reasoning_content. unfold appendConversationReasoning. by destruct (truthy _).
  - rewrite update_find by (intros; apply reasoning_id). simpl.
    case_decide; destruct (find _ l) as [m|]; try done; simpl; rewrite ?append_nil_r; [|done].
    rewrite reasoning_id, reasoning_content. unfold appendConversationReasoning. by destruct (truthy _).
Qed.

Lemma deltas_cons x e es : is_delta e = true -> deltas_of x (e :: es) = deltas_of x [e] +:+ deltas_of x es.
Proof.
  destruct e; intros He; try discriminate He; simpl; [|done..].
  case_bool_decide; [|done]. by rewrite append_nil_r.
Qed.

Lemma deltas_ids l es :
  Forall (fun e => is_delta e = true) es -> message_ids (applyStream l es) = message_ids l.
Proof.
  intros Hall. revert l. induction Hall as [|e es He _ IH]; intros l; [done|].
  change (applyStream l (e :: es)) with (applyStream (applyAgentConversationStreamEvent l e) es).
  rewrite IH. destruct e; try discriminate He; simpl; apply update_ids; try done; intros m; apply reasoning_id.
Qed.

Lemma deltas_find l es x m :
  Forall (fun e => is_delta e = true) es -> find (has_cm_id x) l = Some m ->
  exists m', find (has_cm_id x) (applyStream l es) = Some m' /\ cm_role m' = cm_role m /\
    cm_content m' = cm_content m +:+ deltas_of x es.
Proof.
  intros Hall. revert l m. induction Hall as [|e es He _ IH]; intros l m Hm.
  - exists m. simpl. by rewrite append_nil_r.
  - change (applyStream l (e :: es)) with (applyStream (applyAgentConversationStreamEvent l e) es).
    pose proof (apply_delta l e x He) as Hd. rewrite Hm in Hd.
    destruct (find (has_cm_id x) (applyAgentConversationStreamEvent l e)) as [m1|] eqn:E; [|done].
    injection Hd as Hid Hrole Hc. destruct (IH _ m1 E) as (m' & H1 & H2 & H3). exists m'. split; [done|].
    split; [congruence|]. by rewrite H3, Hc, (deltas_cons x e es He), append_assoc.
Qed.

Lemma audit_running_index k entries :
  audit_progress k entries -> findIndex (has_status AuditRunning) entries = Some k.
Proof.
  intros [Hk Hall]. destruct (lookup_lt_is_Some_2 entries k Hk) as [e He].
  destruct (findIndex (has_status AuditRunning) entries) as [i|] eqn:E.
  - apply findIndex_Some in E as (e' & He' & Hr & _). apply bool_decide_eq_true in Hr.
    specialize (Hall i e' He'). rewrite Hr in Hall.
    destruct (Nat.ltb_spec i k), (Nat.eqb_spec i k); try done. by subst.
  - rewrite findIndex_None in E. specialize (E e (list_elem_of_lookup_2 _ _ _ He)).
    apply bool_decide_eq_false in E. destruct E. rewrite (Hall k e He).
    by rewrite Nat.ltb_irrefl, Nat.eqb_refl.
Qed.

Lemma audit_pending_index k entries :
  audit_progress k entries ->
  nextPendingIndex entries k = if (S k <? length entries)%nat then Some (S k) else None.
Proof.
  intros [Hk Hall]. unfold nextPendingIndex. destruct (Nat.ltb_spec (S k) (length entries)) as [H|H].
  - destruct (drop (S k) entries) as [|e l] eqn:E.
    { apply (f_equal length) in E. rewrite length_drop in E. simpl in E. lia. }
    assert (entries !! S k = Some e) as He by (rewrite <- (Nat.add_0_r (S k)), <- lookup_drop, E; done).
    simpl. unfold has_status at 1. rewrite bool_decide_eq_true_2; [simpl; f_equal; lia|].
    rewrite (Hall _ _ He). destruct (Nat.ltb_spec (S k) k), (Nat.eqb_spec (S k) k); try lia; done.
  - by rewrite drop_ge by lia.
Qed.

Lemma create_progress tools now :
  tools <> [] ->
  ae_tool <$> createAuditEntries tools now = tools /\ audit_progress 0 (createAuditEntries tools now).
Proof.
  intros Hne. unfold createAuditEntries. split.
  - apply list_eq. intros i. rewrite list_lookup_fmap, list_lookup_imap.
    destruct (tools !! i); simpl; [|done]. by destruct (i =? 0).
  - split; [rewrite length_imap; by destruct tools; [|simpl; lia]|].
    intros i e. rewrite list_lookup_imap. destruct (tools !! i); simpl; [|done].
    destruct (Nat.eqb_spec i 0), (Nat.ltb_spec i 0); intros [= <-]; try lia; done.
Qed.

Lemma advance_progress now k l :
  audit_progress k l ->
  ae_tool <$> advanceAuditEntries now l = ae_tool <$> l /\
  audit_progress (min (S k) (length l - 1)) (advanceAuditEntries now l).
Proof.
  intros Hp. pose proof Hp as [Hk Hall]. unfold advanceAuditEntries.
  rewrite (audit_running_index _ _ Hp), (audit_pending_index _ _ Hp).
  destruct (Nat.ltb_spec (S k) (length l)) as [H|H].
  - replace (min (S k) (length l - 1)) with (S k) by lia. split.
    + apply list_eq. intros i. rewrite !list_lookup_fmap, list_lookup_imap.
      destruct (l !! i); simpl; [|done]. by destruct (i =? k), (i =? S k).
    + split; [rewrite length_imap; lia|]. intros i e. rewrite list_lookup_imap.
      destruct (l !! i) as [e0|] eqn:E; simpl; [|done]. specialize (Hall i e0 E).
      destruct (Nat.eqb_spec i k), (Nat.eqb_spec i (S k)), (Nat.ltb_spec i (S k)), (Nat.ltb_spec i k);
        intros [= <-]; try lia; done.
  - by replace (min (S k) (length l - 1)) with k by lia.
Qed.

(** ** Properties *)

(** C11: a stream assembles its messages whatever the interleaving: after the start
    of a message and any deltas for any messages, the message holds its initial
    content and its own text deltas in order, messages without events are as
    they were, no message moves, and its completion replaces it by the final
    message in place. *)
Theorem stream_assembles messages m es final :
  Forall (fun e => is_delta e = true) es -> cm_id final = cm_id m ->
  let l := applyStream messages (MessageStart m :: es) in
  (exists m', find (has_cm_id (cm_id m)) l = Some m' /\ cm_role m' = cm_role m /\
     cm_content m' = cm_content m +:+ deltas_of (cm_id m) es) /\
  (forall y m0, y <> cm_id m -> find (has_cm_id y) messages = Some m0 ->
     exists m', find (has_cm_id y) l = Some m' /\ cm_content m' = cm_content m0 +:+ deltas_of y es) /\
  message_ids l = message_ids (upsertConversationMessage messages m) /\
  let done_ := applyStream l [MessageComplete final] in
  find (has_cm_id (cm_id m)) done_ = Some final /\ message_ids done_ = message_ids l /\
  (forall y, y <> cm_id m -> find (has_cm_id y) done_ = find (has_cm_id y) l).
Proof.
  intros Hall Hid l. unfold l.
  change (applyStream messages (MessageStart m :: es)) with (applyStream (upsertConversationMessage messages m) es).
  pose proof (upsert_find messages m (cm_id m)) as Hm. rewrite decide_True in Hm by done. split_and!.
  - by apply deltas_find.
  - intros y m0 Hy Hm0. pose proof (upsert_find messages m y) as Hu. rewrite decide_False in Hu by congruence.
    destruct (deltas_find (upsertConversationMessage messages m) es y m0 Hall) as (m' & H1 & _ & H3);
      [congruence|]. by exists m'.
  - by apply deltas_ids.
  - simpl. rewrite upsert_find. by rewrite decide_True.
  - simpl. rewrite deltas_ids by done.
    destruct (upsert_ids (applyStream (upsertConversationMessage messages m) es) final) as [[-> _]|[_ Hout]];
      [by apply deltas_ids|].
    destruct Hout. rewrite deltas_ids, Hid by done. apply find_Some in Hm as [Hm _].
    apply list_elem_of_fmap. by exists m.
  - intros y Hy. simpl. rewrite upsert_find. by rewrite decide_False by congruence.
Qed.

(** No event of a stream reorders or removes messages, and none makes two
    messages share an id: new messages are added at the end. *)
Theorem stream_keeps_messages messages es :
  NoDup (message_ids messages) ->
  NoDup (message_ids (applyStream messages es)) /\
  message_ids messages `prefix_of` message_ids (applyStream messages es).
Proof.
  revert messages. induction es as [|e es IH]; intros messages Hnd; [done|].
  change (applyStream messages (e :: es)) with (applyStream (applyAgentConversationStreamEvent messages e) es).
  destruct (apply_ids messages e) as [Heq|(x & Heq & Hx)].
  - rewrite <- Heq in Hnd |- *. by apply IH.
  - assert (NoDup (message_ids (applyAgentConversationStreamEvent messages e))) as Hnd'.
    { rewrite Heq. apply NoDup_app. split_and!; [done| |apply NoDup_singleton].
      intros y Hy ->%list_elem_of_singleton. done. }
    destruct (IH _ Hnd') as [H1 H2]. split; [done|]. etrans; [|exact H2]. rewrite Heq. by apply prefix_app_r.
Qed.

(** A stream that fails leaves nothing streaming: every message that was
    streaming keeps its trimmed text, or shows the error when it had none, with
    the error status, every other message is untouched, and failing again
    changes nothing. *)
Theorem stream_error_closes messages error :
  let l := applyAgentConversationStreamEvent messages (StreamErrorEvent None error) in
  let text := trimmedOr error "Agent stream failed." in
  Forall (fun m => cm_status m <> StatusStreaming) l /\ text <> "" /\
  message_ids l = message_ids messages /\
  (forall i m, messages !! i = Some m ->
     l !! i = Some (if decide (cm_status m = StatusStreaming)
                    then set_content (if truthy (trim (cm_content m)) then trim (cm_content m) else text) StatusError m
                    else m)) /\
  applyAgentConversationStreamEvent l (StreamErrorEvent None error) = l.
Proof.
  intros l text. unfold l. simpl. fold text.
  assert (Forall (fun m => cm_status m <> StatusStreaming)
    (finalizeAgentConversationStreamingMessages messages text)) as Hall.
  { unfold finalizeAgentConversationStreamingMessages. apply Forall_fmap, Forall_forall. intros m _. simpl.
    case_decide; [discriminate|done]. }
  split_and!.
  - done.
  - unfold text, trimmedOr. destruct (truthyOpt _) as [s|] eqn:E; [|discriminate].
    by apply truthyOpt_Some in E as [_ E].
  - apply finalize_ids.
  - intros i m Hm. unfold finalizeAgentConversationStreamingMessages. rewrite list_lookup_fmap, Hm. done.
  - revert Hall. generalize (finalizeAgentConversationStreamingMessages messages text). intros l' Hall.
    unfold finalizeAgentConversationStreamingMessages. induction Hall as [|m l' Hm _ IH]; [done|].
    rewrite fmap_cons, decide_False by done. by f_equal.
Qed.

(** The audit of a run goes through its tools in order: it starts with the
    first tool running, an advance finishes the running tool and starts the
    next one, and does nothing at the last; a failure marks the running tool
    only and completion finishes all. *)
Theorem audit_progresses tools now k :
  tools <> [] ->
  let entries := Nat.iter k (advanceAuditEntries now) (createAuditEntries tools now) in
  ae_tool <$> entries = tools /\
  audit_progress (min k (length tools - 1)) entries /\
  Forall (fun e => ae_status e = AuditDone) (completeAuditEntries now entries) /\
  (forall i e, failAuditEntries now entries !! i = Some e ->
     ae_status e = AuditError <-> i = min k (length tools - 1)).
Proof.
  intros Hne entries.
  assert (ae_tool <$> entries = tools /\ audit_progress (min k (length tools - 1)) entries) as [Ht Hp].
  { unfold entries. clear entries. induction k as [|k [IHt IHp]]; [by apply create_progress|].
    set (l := Nat.iter k (advanceAuditEntries now) (createAuditEntries tools now)) in *.
    change (Nat.iter (S k) (advanceAuditEntries now) (createAuditEntries tools now)) with (advanceAuditEntries now l).
    assert (length l = length tools) as Hlen by (rewrite <- IHt; by rewrite length_fmap).
    assert (length tools <> 0) as Hz by by destruct tools.
    destruct (advance_progress now _ l IHp) as [Ht' Hp']. split; [congruence|].
    rewrite Hlen in Hp'. by replace (min (S k) (length tools - 1)) with
      (min (S (min k (length tools - 1))) (length tools - 1)) by lia. }
  split_and!; [done|done| |].
  - unfold completeAuditEntries. by apply Forall_fmap, Forall_forall.
  - intros i e. unfold failAuditEntries. rewrite (audit_running_index _ _ Hp). rewrite list_lookup_imap.
    destruct (entries !! i) as [e0|] eqn:E; simpl; [|done]. destruct Hp as [_ Hall]. specialize (Hall i e0 E).
    destruct (Nat.eqb_spec i (min k (length tools - 1))); intros [= <-]; [done|]. rewrite Hall.
    by destruct (i <? _).
Qed.

(** ** Witnesses *)

Definition streaming_message (x content : string) : AgentConversationMessage :=
  mkMessage x RoleAssistant content None StatusStreaming None None None "".
Definition complete_message (x content : string) : AgentConversationMessage :=
  mkMessage x RoleAssistant content None StatusComplete None None None "".

Lemma stream_assembles_witness :
  let es := [TextDelta "b" "Hel"; TextDelta "a" "!"; ReasoningDelta "b" "why"; TextDelta "b" "lo"] in
  let l := applyStream [complete_message "a" "Hi"] (MessageStart (streaming_message "b" "") :: es) in
  exists m', find (has_cm_id "b") l = Some m' /\ cm_content m' = "Hello".
Proof.
  intros es l.
  destruct (stream_assembles [complete_message "a" "Hi"] (streaming_message "b" "") es
    (complete_message "b" "Hello")) as [(m' & H1 & _ & H3) _].
  - repeat constructor.
  - reflexivity.
  - exists m'. split; [exact H1|exact H3].
Defined.

Lemma stream_keeps_messages_witness :
  NoDup (message_ids (applyStream [complete_message "a" "Hi"]
    [MessageStart (streaming_message "b" ""); MessageComplete (complete_message "a" "Ho")])).
Proof. apply stream_keeps_messages. apply NoDup_singleton. Defined.

Lemma audit_progresses_witness :
  audit_progress 1 (Nat.iter 5 (advanceAuditEntries 3) (createAuditEntries ["read_file"; "save_result"] 3)).
Proof. apply (audit_progresses ["read_file"; "save_result"] 3 5). discriminate. Defined.
