(* ===== verification/Interaction.v ===== *)
(** * Plans, approvals and questionnaires of the agent panel

    [frontend/src/features/agent/model/interaction-flow.ts] (the audit entries
    are in [Conversation]), [chat-message-utils.ts] and the messages of
    [types.ts]: what a prompt is classified as, the messages that are shown
    before something runs, and the order of the messages.  Prompts and answers
    are texts of [Text].  A sort key generator is a counter and the clock at
    each of its calls. *)
From Stdlib Require Import Ascii String.
From stdpp Require Import strings.
From S2P Require Import Prelude JsString Text Sse Conversation.
Local Open Scope string_scope.
Local Open Scope list_scope.
Local Open Scope nat_scope.
Local Open Scope js_scope.

(** ** Messages *)

Inductive MessageIntent := IntentChat | IntentExecution | IntentQuestion.
#[global] Instance intent_eq : EqDecision MessageIntent.
Proof. solve_decision. Defined.

Record MessageMeta := mkMeta {
  mm_provider : option string;
  mm_model : option string;
  mm_status : option string;
  mm_reasoning : option string;
  mm_prompt : option string;
  mm_summary : option string
}.
#[global] Instance meta_eq : EqDecision MessageMeta.
Proof. solve_decision. Defined.

Inductive ChatRole := ChatUser | ChatAssistant.
#[global] Instance chat_role_eq : EqDecision ChatRole.
Proof. solve_decision. Defined.

Record ChatTextMessage := mkChatText {
  ct_id : string;
  ct_role : ChatRole;
  ct_content : string;
  ct_attachments : option (list AgentAttachmentReference);
  ct_meta : option MessageMeta;
  ct_sortKey : option Z
}.
#[global] Instance chat_text_eq : EqDecision ChatTextMessage.
Proof. solve_decision. Defined.

Record PlanTool := mkTool { pt_name : string; pt_description : option string }.
#[global] Instance plan_tool_eq : EqDecision PlanTool.
Proof. solve_decision. Defined.

Record PlanMessage := mkPlan {
  pm_id : string;
  pm_planId : string;
  pm_steps : list string;
  pm_tools : list PlanTool;
  pm_sortKey : option Z
}.
#[global] Instance plan_message_eq : EqDecision PlanMessage.
Proof. solve_decision. Defined.

Inductive ApprovalState := ApprovalPending | ApprovalApproved | ApprovalCancelled.
#[global] Instance approval_state_eq : EqDecision ApprovalState.
Proof. solve_decision. Defined.

Record ApprovalMessage := mkApproval {
  am_id : string;
  am_planId : string;
  am_status : ApprovalState;
  am_sortKey : option Z
}.
#[global] Instance approval_message_eq : EqDecision ApprovalMessage.
Proof. solve_decision. Defined.

Record AuditMessage := mkAuditMessage {
  au_id : string;
  au_entries : list AuditEntry;
  au_sortKey : option Z
}.
#[global] Instance audit_message_eq : EqDecision AuditMessage.
Proof. solve_decision. Defined.

Inductive QuestionnaireStatus := QuestionPending | QuestionAnswered.
#[global] Instance questionnaire_status_eq : EqDecision QuestionnaireStatus.
Proof. solve_decision. Defined.

Record QuestionnaireMessage := mkQuestionnaire {
  qm_id : string;
  qm_question : string;
  qm_options : list (string * string);          (* label and value *)
  qm_allowCustom : bool;
  qm_answer : option string;
  qm_status : QuestionnaireStatus;
  qm_sortKey : option Z
}.
#[global] Instance questionnaire_message_eq : EqDecision QuestionnaireMessage.
Proof. solve_decision. Defined.

Inductive ChatMessageView :=
  | ViewChat (m : ChatTextMessage)
  | ViewPlan (m : PlanMessage)
  | ViewApproval (m : ApprovalMessage)
  | ViewAudit (m : AuditMessage)
  | ViewQuestionnaire (m : QuestionnaireMessage).
#[global] Instance chat_message_view_eq : EqDecision ChatMessageView.
Proof. solve_decision. Defined.

(** [message.id] and [message.sortKey] of any message *)
Definition view_id (m : ChatMessageView) : string :=
  match m with
  | ViewChat m => ct_id m
  | ViewPlan m => pm_id m
  | ViewApproval m => am_id m
  | ViewAudit m => au_id m
  | ViewQuestionnaire m => qm_id m
  end.
Definition view_sortKey (m : ChatMessageView) : option Z :=
  match m with
  | ViewChat m => ct_sortKey m
  | ViewPlan m => pm_sortKey m
  | ViewApproval m => am_sortKey m
  | ViewAudit m => au_sortKey m
  | ViewQuestionnaire m => qm_sortKey m
  end.
Definition has_view_id (x : string) (m : ChatMessageView) : bool := bool_decide (view_id m = x).

(** ** Flows *)

Record PendingRunApproval := mkRunApproval {
  ra_approvalID : string;
  ra_baselineNextSeq : Z;
  ra_command : string;
  ra_prompt : string;
  ra_repoRoot : string;
  ra_targetConnectionID : string;
  ra_targetSession : string;
  ra_targetWidgetID : string
}.
#[global] Instance run_approval_eq : EqDecision PendingRunApproval.
Proof. solve_decision. Defined.

Record PendingInteractionFlow := mkFlow {
  pf_approvalMessageID : option string;
  pf_attachments : option (list AgentAttachmentReference);
  pf_auditMessageID : option string;
  pf_auditProgressed : bool;
  pf_flowID : string;
  pf_prompt : string;
  pf_questionnaireMessageID : option string;
  pf_runApproval : option PendingRunApproval;
  pf_tools : list PlanTool
}.
#[global] Instance flow_eq : EqDecision PendingInteractionFlow.
Proof. solve_decision. Defined.

(** ** Keywords *)

Definition READ_KEYWORDS : list string :=
  ["config"; "file"; "read"; "open file"; "inspect file"; "файл"; "прочитай"; "прочесть"; "читать"; "конфиг"].
Definition API_KEYWORDS : list string :=
  ["api"; "http"; "request"; "fetch"; "webhook"; "запрос"; "апи"; "вебхук"].
Definition SAVE_KEYWORDS : list string :=
  ["save"; "write"; "update"; "persist"; "edit"; "change"; "сохрани"; "запиши"; "обнови"; "измени"].
Definition EXECUTION_KEYWORDS : list string :=
  ["deploy"; "run"; "execute"; "release"; "apply"; "migrate";
   "запусти"; "выполни"; "деплой"; "релиз"; "примени"; "миграц"].
Definition TERMINAL_EXECUTION_KEYWORDS : list string :=
  ["check"; "show"; "inspect"; "status"; "logs"; "disk"; "space"; "memory"; "cpu"; "process"; "service"; "port";
   "console"; "terminal"; "ssh"; "проверь"; "посмотри"; "покажи"; "статус"; "логи"; "диск"; "место"; "память";
   "процесс"; "сервис"; "порт"; "консоль"; "терминал"; "ssh"].
Definition ENVIRONMENT_HINT_KEYWORDS : list string :=
  ["environment"; "production"; "staging"; "development"; "prod"; "stage"; "deploy"; "release";
   "окружен"; "прод"; "стейдж"; "разработк"; "деплой"; "релиз"].
(** The list inside of [needsEnvironmentQuestionnaire]. *)
Definition EXPLICIT_ENVIRONMENT_KEYWORDS : list string :=
  ["production"; "staging"; "development"; "dev"; "prod"; "stage"; "прод"; "стейдж"; "разработк"].

Definition ENVIRONMENT_OPTIONS : list (string * string) :=
  [("Production", "production"); ("Staging", "staging"); ("Development", "development")].

Definition containsAnyKeyword (value : string) (keywords : list string) : bool :=
  some (fun keyword => strIncludes keyword value) keywords.

(** ** Classification *)

(** [tools.filter(...)] with the set of names that were seen. *)
Fixpoint dedupeToolsFrom (seen : list string) (tools : list PlanTool) : list PlanTool :=
  match tools with
  | [] => []
  | tool :: tools' =>
      if includes (pt_name tool) seen then dedupeToolsFrom seen tools'
      else tool :: dedupeToolsFrom (pt_name tool :: seen) tools'
  end.
Definition dedupeTools (tools : list PlanTool) : list PlanTool := dedupeToolsFrom [] tools.

Definition pushIf {A} (b : bool) (l : list A) : list A := if b then l else [].

Definition read_file : PlanTool :=
  mkTool "read_file" (Some "Inspect the relevant project files before execution.").
Definition http_request : PlanTool :=
  mkTool "http_request" (Some "Call the required backend or external API.").
Definition save_result : PlanTool :=
  mkTool "save_result" (Some "Persist the resulting change after the checks pass.").
Definition execute_plan : PlanTool := mkTool "execute_plan" (Some "Run the approved execution step.").
Definition execute_terminal : PlanTool :=
  mkTool "execute_terminal" (Some "Plan and run the approved terminal command in the selected shell context.").

Definition buildPlanTools (prompt : string) (hasTerminalContext : bool) : list PlanTool :=
  let normalizedPrompt := lowerText prompt in
  dedupeTools
    (pushIf (containsAnyKeyword normalizedPrompt READ_KEYWORDS) [read_file] ++
     pushIf (containsAnyKeyword normalizedPrompt API_KEYWORDS) [http_request] ++
     pushIf (containsAnyKeyword normalizedPrompt SAVE_KEYWORDS) [save_result] ++
     pushIf (containsAnyKeyword normalizedPrompt EXECUTION_KEYWORDS) [execute_plan] ++
     pushIf (hasTerminalContext && containsAnyKeyword normalizedPrompt TERMINAL_EXECUTION_KEYWORDS)
       [execute_terminal]).

Definition buildPlanSteps (prompt : string) (needsQuestionnaire : bool) (answer : option string) : list string :=
  let normalizedPrompt := lowerText prompt in
  let has keywords := some (fun keyword => strIncludes keyword normalizedPrompt) keywords in
  let steps :=
    pushIf (needsQuestionnaire && bool_decide (truthyOpt answer = None)) ["Confirm the target environment"] ++
    pushIf (has ["config"; "file"; "read"]) ["Read config"] ++
    pushIf (has ["api"; "http"; "request"; "fetch"]) ["Call API"] ++
    pushIf (has ["save"; "write"; "update"; "persist"]) ["Save result"] in
  let steps1 :=
    match steps with
    | [] => ["Inspect the request"; "Run the approved execution"; "Summarize the result"]
    | _ => steps
    end in
  dedupe
    match truthyOpt answer with
    | Some a => ("Target environment: " +:+ a) :: steps1
    | None => steps1
    end.

Definition normalizedAnswer (answer : option string) : string :=
  match answer with Some a => lowerText (trimText a) | None => "" end.

Definition needsEnvironmentQuestionnaire (prompt : string) (answer : option string) : bool :=
  let normalizedPrompt := lowerText prompt in
  containsAnyKeyword normalizedPrompt ENVIRONMENT_HINT_KEYWORDS &&
  negb (containsAnyKeyword (normalizedPrompt +:+ String LF (normalizedAnswer answer))
          EXPLICIT_ENVIRONMENT_KEYWORDS).

Definition classifyMessageIntent (prompt : string) (answer : option string) (hasTerminalContext : bool)
    : MessageIntent * list PlanTool :=
  let tools := buildPlanTools prompt hasTerminalContext in
  match tools with
  | [] => (IntentChat, [])
  | _ => if needsEnvironmentQuestionnaire prompt answer then (IntentQuestion, tools) else (IntentExecution, tools)
  end.

(** ** Sort keys *)

Section SortKeys.
(** [Date.now()] at the [n]-th call of [nextLocalSortKey]. *)
Variable clock : nat -> Z.

Definition nextLocalSortKey (counter : nat) : Z * nat :=
  ((clock counter * 1000 + Z.of_nat counter)%Z, S counter).

(** ** Messages of a flow *)

Definition createPlanMessage (flowID prompt : string) (tools : list PlanTool) (counter : nat)
    (answer : option string) : PlanMessage * nat :=
  let needsQuestionnaire := needsEnvironmentQuestionnaire prompt answer in
  let '(key, counter1) := nextLocalSortKey counter in
  (mkPlan (flowID +:+ "-plan") flowID (buildPlanSteps prompt needsQuestionnaire answer) tools (Some key), counter1).

Definition createApprovalMessage (flowID : string) (counter : nat) (status : ApprovalState)
    : ApprovalMessage * nat :=
  let '(key, counter1) := nextLocalSortKey counter in
  (mkApproval (flowID +:+ "-approval") flowID status (Some key), counter1).

Definition createQuestionnaireMessage (flowID : string) (counter : nat) : QuestionnaireMessage * nat :=
  let '(key, counter1) := nextLocalSortKey counter in
  (mkQuestionnaire (flowID +:+ "-questionnaire") "Choose environment:" ENVIRONMENT_OPTIONS true None
     QuestionPending (Some key), counter1).

Definition createAuditMessage (flowID : string) (tools : list PlanTool) (counter : nat) (now : Z)
    : AuditMessage * nat :=
  let '(key, counter1) := nextLocalSortKey counter in
  (mkAuditMessage (flowID +:+ "-audit") (createAuditEntries (pt_name <$> tools) now) (Some key), counter1).

Definition createPendingInteractionFlow (hostID prompt : string) (sequence : nat) (counter : nat)
    (answer : option string) (hasTerminalContext : bool)
    : (MessageIntent * list PlanTool) * option PendingInteractionFlow * list ChatMessageView * nat :=
  let flowID := "agent-flow-" +:+ hostID +:+ "-" +:+ showNat sequence in
  let classification := classifyMessageIntent prompt answer hasTerminalContext in
  match fst classification with
  | IntentChat => (classification, None, [], counter)
  | IntentQuestion =>
      let '(questionnaire, counter1) := createQuestionnaireMessage flowID counter in
      (classification,
       Some (mkFlow None None None false flowID prompt (Some (qm_id questionnaire)) None (snd classification)),
       [ViewQuestionnaire questionnaire], counter1)
  | IntentExecution =>
      let '(plan, counter1) := createPlanMessage flowID prompt (snd classification) counter answer in
      let '(approval, counter2) := createApprovalMessage flowID counter1 ApprovalPending in
      (classification,
       Some (mkFlow (Some (am_id approval)) None None false flowID prompt None None (snd classification)),
       [ViewPlan plan; ViewApproval approval], counter2)
  end.

Definition updateApprovalMessageStatus (message : ApprovalMessage) (status : ApprovalState) (counter : nat)
    : ApprovalMessage * nat :=
  let '(key, counter1) := nextLocalSortKey counter in
  (mkApproval (am_id message) (am_planId message) status (Some key), counter1).

Definition updateQuestionnaireMessageAnswer (message : QuestionnaireMessage) (answer : string) (counter : nat)
    : QuestionnaireMessage * nat :=
  let '(key, counter1) := nextLocalSortKey counter in
  (mkQuestionnaire (qm_id message) (qm_question message) (qm_options message) (qm_allowCustom message)
     (Some answer) QuestionAnswered (Some key), counter1).

End SortKeys.

(** ** The list of messages *)

Definition compareSortKeys (left right : ChatMessageView) : Z :=
  ((view_sortKey left ?? 0) - (view_sortKey right ?? 0))%Z.

Definition sortMessagesBySortKey (messages : list ChatMessageView) : list ChatMessageView :=
  sort compareSortKeys messages.

Definition upsertInteractionMessage (currentMessages : list ChatMessageView) (nextMessage : ChatMessageView)
    : list ChatMessageView :=
  match findIndex (has_view_id (view_id nextMessage)) currentMessages with
  | None => sortMessagesBySortKey (currentMessages ++ [nextMessage])
  | Some messageIndex => sortMessagesBySortKey (<[messageIndex := nextMessage]> currentMessages)
  end.

Definition updateInteractionMessage (currentMessages : list ChatMessageView) (messageID : string)
    (update : ChatMessageView -> ChatMessageView) : list ChatMessageView :=
  match findIndex (has_view_id messageID) currentMessages with
  | None => currentMessages
  | Some messageIndex => sortMessagesBySortKey (alter update messageIndex currentMessages)
  end.

Definition createOptimisticUserConversationMessage (hostId : string) (sequence : nat) (prompt : string)
    (attachments : list AgentAttachmentReference) (created_at : string) : AgentConversationMessage :=
  mkMessage ("agent-local-user-" +:+ hostId +:+ "-" +:+ showNat sequence) RoleUser prompt (Some attachments)
    StatusComplete None None None created_at.

(** * Lemmas *)

(** ** Keywords *)

Lemma containsAnyKeyword_true value keywords :
  containsAnyKeyword value keywords = true <-> exists k, k ∈ keywords /\ strIncludes k value = true.
Proof. apply some_true. Qed.

Lemma containsAnyKeyword_false value keywords :
  containsAnyKeyword value keywords = false <-> forall k, k ∈ keywords -> strIncludes k value = false.
Proof. apply some_false. Qed.

(** A table can be replaced by its minimal words. *)
Definition covers (small large : list string) : bool :=
  forallb (fun k => some (fun s => strIncludes s k) small) large && forallb (fun s => includes s large) small.

Lemma containsAnyKeyword_covers small large value :
  covers small large = true -> containsAnyKeyword value large = containsAnyKeyword value small.
Proof.
  unfold covers. rewrite andb_true_iff, !forallb_forall. intros [H1 H2].
  apply eq_true_iff_eq. rewrite !containsAnyKeyword_true. split; intros (k & Hk & Hi).
  - apply list_elem_of_In, H1, some_true in Hk as (s & Hs & Hsk). exists s. split; [done|].
    by eapply strIncludes_trans.
  - exists k. split; [|done]. apply list_elem_of_In in Hk. by apply H2, includes_true in Hk.
Qed.

Lemma containsAnyKeyword_sep s t keywords :
  forallb (fun k => no_unit LF k && truthy k) keywords = true ->
  containsAnyKeyword (s +:+ String LF t) keywords = containsAnyKeyword s keywords || containsAnyKeyword t keywords.
Proof.
  intros H. apply eq_true_iff_eq. rewrite orb_true_iff, !containsAnyKeyword_true.
  rewrite forallb_forall in H.
  assert (forall k, k ∈ keywords ->
    strIncludes k (s +:+ String LF t) = strIncludes k s || strIncludes k t) as Hk.
  { intros k Hk%list_elem_of_In. apply H, andb_true_iff in Hk as [H1 H2%truthy_true]. by apply strIncludes_sep. }
  split.
  - intros (k & Hin & Hi). rewrite Hk in Hi by done. apply orb_true_iff in Hi as [Hi|Hi]; [left|right]; eauto.
  - intros [(k & Hin & Hi)|(k & Hin & Hi)]; exists k; rewrite Hk, Hi by done; auto using orb_true_r.
Qed.

Lemma containsAnyKeyword_app value l1 l2 :
  containsAnyKeyword value (l1 ++ l2) = containsAnyKeyword value l1 || containsAnyKeyword value l2.
Proof. apply existsb_app. Qed.

(** ** Tools *)

(** The table of each tool; the last one counts with a terminal only. *)
Definition toolTables (hasTerminalContext : bool) : list (PlanTool * list string) :=
  [(read_file, READ_KEYWORDS); (http_request, API_KEYWORDS); (save_result, SAVE_KEYWORDS);
   (execute_plan, EXECUTION_KEYWORDS)] ++
  (if hasTerminalContext then [(execute_terminal, TERMINAL_EXECUTION_KEYWORDS)] else []).

(** The tools are those of the tables that match, in order: no name occurs twice. *)
Lemma buildPlanTools_tables prompt terminal :
  buildPlanTools prompt terminal =
    fst <$> filterb (fun p => containsAnyKeyword (lowerText prompt) (snd p)) (toolTables terminal).
Proof.
  unfold buildPlanTools, toolTables, filterb.
  destruct terminal; cbn [app List.filter snd fst fmap list_fmap andb];
    destruct (containsAnyKeyword _ READ_KEYWORDS), (containsAnyKeyword _ API_KEYWORDS),
      (containsAnyKeyword _ SAVE_KEYWORDS), (containsAnyKeyword _ EXECUTION_KEYWORDS);
    try destruct (containsAnyKeyword _ TERMINAL_EXECUTION_KEYWORDS); reflexivity.
Qed.

Lemma tool_names_NoDup terminal : NoDup ((pt_name ∘ fst) <$> toolTables terminal).
Proof. destruct terminal; apply NoDup_ListNoDup; cbn; repeat constructor; cbn; intuition congruence. Qed.

Lemma buildPlanTools_NoDup prompt terminal : NoDup (pt_name <$> buildPlanTools prompt terminal).
Proof.
  rewrite buildPlanTools_tables, <- list_fmap_compose.
  eapply sublist_NoDup; [apply (tool_names_NoDup terminal)|]. apply fmap_sublist, filterb_sublist.
Qed.

(** ** Sorting by key *)

#[global] Instance compareSortKeys_comparator : Comparator compareSortKeys.
Proof. split; unfold compareSortKeys; lia. Qed.

Lemma sortMessages_perm l : sortMessagesBySortKey l ≡ₚ l.
Proof. apply sort_perm. Qed.

Lemma sortMessages_sorted l :
  StronglySorted (fun x y => (view_sortKey x ?? 0) <= (view_sortKey y ?? 0))%Z (sortMessagesBySortKey l).
Proof.
  pose proof (sort_sorted compareSortKeys l) as H. unfold sortMessagesBySortKey.
  induction H as [|x m Hm IH Hx]; constructor; [done|].
  eapply Forall_impl; [exact Hx|]. unfold compareSortKeys. intros y. cbn. lia.
Qed.

(** ** Sort keys *)

(** The clock does not go back. *)
Definition clock_monotone (clock : nat -> Z) : Prop := forall i j, i <= j -> (clock i <= clock j)%Z.

(** Integers that doubles hold exactly. *)
Definition safe_integer (z : Z) : Prop := (0 <= z <= 9007199254740991)%Z.

Lemma nextLocalSortKey_increases clock n m :
  clock_monotone clock -> n < m ->
  (fst (nextLocalSortKey clock n) < fst (nextLocalSortKey clock m))%Z.
Proof. intros Hc Hnm. cbn. pose proof (Hc n m). lia. Qed.

(** Sorting leaves a list whose keys do not decrease as it is. *)
Lemma sortMessages_id l :
  StronglySorted (fun x y => (view_sortKey x ?? 0) <= (view_sortKey y ?? 0))%Z l ->
  sortMessagesBySortKey l = l.
Proof.
  intros H. refine (stable_sorted_unique compareSortKeys l _ _ (sort_stable _ _) _).
  split; [|intros z; reflexivity]. induction H as [|x k Hk IH Hx]; constructor; [exact IH|].
  eapply Forall_impl; [exact Hx|]. unfold compareSortKeys. intros y. cbn. lia.
Qed.

(** A message with a larger key than every other one goes to the end, and one
    with a smaller key to the front. *)
Lemma insert_sorted_end x l :
  Forall (fun y => (view_sortKey y ?? 0) < (view_sortKey x ?? 0))%Z l ->
  insert_sorted compareSortKeys x l = l ++ [x].
Proof.
  induction 1 as [|y l Hy Hl IH]; [done|]. cbn [insert_sorted app]. unfold compareSortKeys at 1.
  destruct (decide _); [lia|]. by rewrite IH.
Qed.

Lemma sortMessages_smallest_first x l :
  Forall (fun y => (view_sortKey x ?? 0) < (view_sortKey y ?? 0))%Z l ->
  sortMessagesBySortKey (l ++ [x]) = x :: sortMessagesBySortKey l.
Proof.
  unfold sortMessagesBySortKey.
  induction 1 as [|y l Hy Hl IH]; [done|]. cbn [app sort foldr] in *. unfold sort in IH. rewrite IH.
  cbn [insert_sorted]. unfold compareSortKeys at 1. destruct (decide _); [lia|done].
Qed.

(** Keys that strictly decrease are reversed. *)
Lemma sortMessages_decreasing l :
  StronglySorted (fun x y => (view_sortKey y ?? 0) < (view_sortKey x ?? 0))%Z l ->
  sortMessagesBySortKey l = reverse l.
Proof.
  unfold sortMessagesBySortKey.
  induction 1 as [|x l Hl IH Hx]; [done|]. cbn [sort foldr]. unfold sort in IH. rewrite IH, reverse_cons.
  apply insert_sorted_end. by rewrite Forall_reverse.
Qed.

(** ** Flows *)

(** A message at which the user can answer the flow. *)
Definition offers (f : PendingInteractionFlow) (m : ChatMessageView) : Prop :=
  match m with
  | ViewApproval a =>
      am_planId a = pf_flowID f /\ am_status a = ApprovalPending /\
      pf_approvalMessageID f = Some (am_id a) /\ pf_questionnaireMessageID f = None
  | ViewQuestionnaire q =>
      pf_questionnaireMessageID f = Some (qm_id q) /\ qm_status q = QuestionPending /\ qm_allowCustom q = true
  | _ => False
  end.

(** The flow can be answered at one of [messages]. *)
Definition answerable (f : PendingInteractionFlow) (messages : list ChatMessageView) : Prop :=
  exists m, m ∈ messages /\ offers f m.

#[global] Instance answerable_proper f : Proper ((≡ₚ) ==> iff) (answerable f).
Proof. intros l l' Hl. unfold answerable. split; intros (m & Hm & Ho); exists m; split; auto; by rewrite Hl in *. Qed.

Lemma answerable_app f l l' : answerable f l' -> answerable f (l ++ l').
Proof. intros (m & Hm & Ho). exists m. split; [|done]. apply elem_of_app. by right. Qed.

(** * Properties *)

(** The words that make a prompt ask for an environment, and those that name one. *)
Definition environment_words : list string := ["environment"; "deploy"; "release"; "окружен"; "деплой"; "релиз"].
Definition environment_names : list string := ["dev"; "prod"; "staging"; "stage"; "прод"; "стейдж"; "разработк"].

Lemma needsEnvironmentQuestionnaire_words prompt answer :
  needsEnvironmentQuestionnaire prompt answer =
    containsAnyKeyword (lowerText prompt) environment_words &&
    negb (containsAnyKeyword (lowerText prompt) environment_names) &&
    negb (containsAnyKeyword (normalizedAnswer answer) environment_names).
Proof.
  unfold needsEnvironmentQuestionnaire.
  rewrite containsAnyKeyword_sep by reflexivity.
  rewrite !(containsAnyKeyword_covers environment_names EXPLICIT_ENVIRONMENT_KEYWORDS) by reflexivity.
  rewrite (containsAnyKeyword_covers
    (environment_words ++ ["development"; "prod"; "staging"; "stage"; "прод"; "стейдж"; "разработк"])
    ENVIRONMENT_HINT_KEYWORDS) by reflexivity.
  rewrite containsAnyKeyword_app.
  assert (containsAnyKeyword (lowerText prompt)
    ["development"; "prod"; "staging"; "stage"; "прод"; "стейдж"; "разработк"] = true ->
    containsAnyKeyword (lowerText prompt) environment_names = true) as H.
  { rewrite !containsAnyKeyword_true. intros (k & Hk & Hi).
    apply list_elem_of_In in Hk. repeat destruct Hk as [<-|Hk]; try done.
    - exists "dev". split; [by left|]. by eapply (strIncludes_trans _ "development").
    - exists "prod". split; [|done]. by apply includes_true.
    - exists "staging". split; [|done]. by apply includes_true.
    - exists "stage". split; [|done]. by apply includes_true.
    - exists "прод". split; [|done]. by apply includes_true.
    - exists "стейдж". split; [|done]. by apply includes_true.
    - exists "разработк". split; [|done]. by apply includes_true. }
  destruct (containsAnyKeyword _ ["development"; _; _; _; _; _; _]) eqn:E.
  - rewrite H by done. by rewrite !andb_false_r.
  - rewrite orb_false_r. by rewrite negb_orb, andb_assoc.
Qed.

Lemma classifyMessageIntent_tools prompt answer terminal :
  fst (classifyMessageIntent prompt answer terminal) <> IntentChat ->
  snd (classifyMessageIntent prompt answer terminal) <> [].
Proof.
  unfold classifyMessageIntent. destruct (buildPlanTools prompt terminal); [done|].
  by destruct (needsEnvironmentQuestionnaire prompt answer).
Qed.

(** The two messages of a plan. *)
Lemma plan_ids_differ flowID : flowID +:+ "-plan" <> flowID +:+ "-approval".
Proof. by intros H%append_inj_l. Qed.

Lemma sortMessages_pair m m' :
  (view_sortKey m ?? 0 <= view_sortKey m' ?? 0)%Z -> sortMessagesBySortKey [m; m'] = [m; m'].
Proof. intros H. apply sortMessages_id. repeat constructor. exact H. Qed.

(** The classification of a prompt.  Its tools are those whose keyword table
    has a word that is a part of the prompt in lower case (the terminal tool
    only with a terminal), in the order of the tables and without duplicates.
    The prompt is chat exactly when there is no tool; it is a question exactly
    when there is one, the prompt has one of six words for an environment, and
    neither the prompt nor the answer names one (of the seven names that the
    longer keyword lists reduce to). *)
Theorem classifyMessageIntent_spec prompt answer terminal :
  let '(intent, tools) := classifyMessageIntent prompt answer terminal in
  tools = fst <$> filterb (fun p => containsAnyKeyword (lowerText prompt) (snd p)) (toolTables terminal) /\
  NoDup (pt_name <$> tools) /\
  (intent = IntentChat <-> tools = []) /\
  (intent = IntentQuestion <->
     tools <> [] /\
     (exists k, k ∈ environment_words /\ strIncludes k (lowerText prompt) = true) /\
     (forall k, k ∈ environment_names ->
        strIncludes k (lowerText prompt) = false /\ strIncludes k (normalizedAnswer answer) = false)).
Proof.
  unfold classifyMessageIntent.
  pose proof (buildPlanTools_NoDup prompt terminal) as Hnd.
  pose proof (buildPlanTools_tables prompt terminal) as Ht.
  assert (needsEnvironmentQuestionnaire prompt answer = true <->
    (exists k, k ∈ environment_words /\ strIncludes k (lowerText prompt) = true) /\
    (forall k, k ∈ environment_names ->
        strIncludes k (lowerText prompt) = false /\ strIncludes k (normalizedAnswer answer) = false)) as Hq.
  { rewrite needsEnvironmentQuestionnaire_words, !andb_true_iff, !negb_true_iff, containsAnyKeyword_true,
      !containsAnyKeyword_false. naive_solver. }
  destruct (buildPlanTools prompt terminal) as [|t l]; cbv zeta.
  - split_and!; [exact Ht|constructor|done|]. split; [done|]. by intros [? _].
  - destruct (needsEnvironmentQuestionnaire prompt answer); (split_and!; [exact Ht|exact Hnd|done|]).
    + split; [|done]. intros _. split; [done|]. by apply Hq.
    + split; [done|]. intros [_ H]. by apply Hq in H.
Qed.

(** The keys of local messages.  While the clock does not go back and stays
    before the year 2255, the first 7 * 10^12 keys are integers that doubles
    hold exactly, and a later key is larger, even within one millisecond. *)
Theorem local_sort_keys_safe clock n m
    (Hclock : clock_monotone clock) (Htime : forall i, (0 <= clock i <= 9000000000000)%Z)
    (Hn : n < m) (Hm : (Z.of_nat m <= 7000000000000)%Z) :
  safe_integer (fst (nextLocalSortKey clock n)) /\ safe_integer (fst (nextLocalSortKey clock m)) /\
  (fst (nextLocalSortKey clock n) < fst (nextLocalSortKey clock m))%Z.
Proof.
  pose proof (nextLocalSortKey_increases clock n m Hclock Hn).
  pose proof (Htime n). pose proof (Htime m). unfold safe_integer. cbn [nextLocalSortKey fst] in *. lia.
Qed.

(** The flow of a prompt can be answered at one of its messages. *)
Lemma createPendingInteractionFlow_answerable clock hostID prompt sequence counter answer terminal f :
  snd (fst (fst (createPendingInteractionFlow clock hostID prompt sequence counter answer terminal))) = Some f ->
  answerable f (snd (fst (createPendingInteractionFlow clock hostID prompt sequence counter answer terminal))) /\
  pf_prompt f = prompt /\ pf_runApproval f = None.
Proof.
  unfold createPendingInteractionFlow.
  destruct (fst (classifyMessageIntent prompt answer terminal));
    cbn [createPlanMessage createApprovalMessage createQuestionnaireMessage nextLocalSortKey fst snd];
    intros H; simplify_eq; (split; [|done]).
  - eexists. split; [right; left|]. done.
  - eexists. split; [left|]. done.
Qed.

(** The flow counts with its ids only. *)
Lemma answerable_ext f f' messages :
  pf_flowID f' = pf_flowID f -> pf_approvalMessageID f' = pf_approvalMessageID f ->
  pf_questionnaireMessageID f' = pf_questionnaireMessageID f -> answerable f messages -> answerable f' messages.
Proof.
  intros E1 E2 E3 (m & Hm & Ho). exists m. split; [done|]. unfold offers in *. by rewrite E1, E2, E3.
Qed.

(** An update that changes audit messages only. *)
Lemma answerable_update f messages x update :
  (forall m, update m <> m -> exists a, m = ViewAudit a) ->
  answerable f messages -> answerable f (updateInteractionMessage messages x update).
Proof.
  intros Hu (m & Hm & Ho). unfold updateInteractionMessage.
  destruct (findIndex (has_view_id x) messages) as [i|]; [|by exists m].
  exists m. split; [|done]. rewrite sortMessages_perm. apply list_elem_of_lookup_1 in Hm as [j Hj].
  apply list_elem_of_lookup_2 with j.
  destruct (decide (i = j)) as [->|]; [|by rewrite list_lookup_alter_ne].
  rewrite list_lookup_alter_eq, Hj. cbn. f_equal.
  destruct (decide (update m = m)) as [|Hne]; [done|]. destruct (Hu m Hne) as [a ->]. done.
Qed.

(** What a prompt that is not sent at once leaves.  There is a flow exactly
    when the prompt is not chat; it holds the prompt and the tools of the
    classification, nothing of it was approved, the messages have different
    ids and increasing keys, and one of them is where the user can answer: a
    pending questionnaire, or the pending approval of a plan that lists the
    same tools. *)
Theorem createPendingInteractionFlow_typed clock hostID prompt sequence counter answer terminal
    (Hclock : clock_monotone clock) :
  let '(classification, flow, messages, counter') :=
    createPendingInteractionFlow clock hostID prompt sequence counter answer terminal in
  NoDup (view_id <$> messages) /\ counter' = counter + length messages /\
  match flow with
  | None => fst classification = IntentChat /\ messages = []
  | Some f =>
      fst classification <> IntentChat /\ pf_prompt f = prompt /\ pf_tools f = snd classification /\
      pf_tools f <> [] /\ pf_runApproval f = None /\ pf_auditMessageID f = None /\
      answerable f messages /\ sortMessagesBySortKey messages = messages /\
      (forall p, ViewPlan p ∈ messages -> pm_planId p = pf_flowID f /\ pm_tools p = pf_tools f)
  end.
Proof.
  unfold createPendingInteractionFlow.
  pose proof (classifyMessageIntent_tools prompt answer terminal) as Htools.
  destruct (classifyMessageIntent prompt answer terminal) as [intent tools]. cbn [fst snd] in *.
  set (flowID := "agent-flow-" +:+ _).
  destruct intent; cbn [createPlanMessage createApprovalMessage createQuestionnaireMessage nextLocalSortKey].
  - split_and!; [constructor|cbn; lia|done|done].
  - split_and!; [|cbn; lia|by intros [=]|done|done|by apply Htools|done|done| |..].
    + apply NoDup_cons. split; [|apply NoDup_singleton].
      intros H%list_elem_of_singleton. by apply (plan_ids_differ flowID).
    + eexists. split; [right; left|]. done.
    + apply sortMessages_pair. cbn. pose proof (Hclock counter (S counter)). lia.
    + intros p [[= ->]|[[=]|[]%elem_of_nil]%elem_of_cons]%elem_of_cons. done.
  - split_and!; [apply NoDup_singleton|cbn; lia|by intros [=]|done|done|by apply Htools|done|done| |..].
    + eexists. split; [left|]. done.
    + done.
    + intros p [[=]|[]%elem_of_nil]%elem_of_cons.
Qed.

(** * Witnesses *)

Lemma local_sort_keys_safe_witness :
  safe_integer (fst (nextLocalSortKey (fun _ => 1000%Z) 3)) /\
  safe_integer (fst (nextLocalSortKey (fun _ => 1000%Z) 4)) /\
  (fst (nextLocalSortKey (fun _ => 1000%Z) 3) < fst (nextLocalSortKey (fun _ => 1000%Z) 4))%Z.
Proof. apply (local_sort_keys_safe (fun _ => 1000%Z) 3 4); [intros i j _; done|intros i; lia|lia|lia]. Defined.

Lemma createPendingInteractionFlow_typed_witness :
  let '(classification, flow, messages, counter') :=
    createPendingInteractionFlow (fun _ => 7%Z) "ai" "Check the disk" 0 0 None true in
  match flow with Some f => answerable f messages | None => False end.
Proof.
  assert (clock_monotone (fun _ => 7%Z)) as Hc by (intros i j _; done).
  pose proof (createPendingInteractionFlow_typed (fun _ => 7%Z) "ai" "Check the disk" 0 0 None true Hc) as H.
  exact (proj1 (proj2 (proj2 (proj2 (proj2 (proj2 (proj2 (proj2 (proj2 H))))))))).
Defined.

(** Russian prompts have tools, but the steps of their plans look for English
    words only. *)
Example russian_plan :
  let prompt := "Прочитай файл и сохрани ответ" in
  (pt_name <$> snd (classifyMessageIntent prompt None false)) = ["read_file"; "save_result"] /\
  buildPlanSteps prompt false None =
    ["Inspect the request"; "Run the approved execution"; "Summarize the result"].
Proof. split; reflexivity. Qed.

(** A keyword counts inside of a longer word: a question about a profile is a
    plan to read a file. *)
Example keyword_inside_a_word :
  (pt_name <$> snd (classifyMessageIntent "Describe my profile" None false)) = ["read_file"].
Proof. reflexivity. Qed.
