(* ===== verification/MessageView.v ===== *)
(** * The messages that the agent panel shows

    [frontend/src/features/agent/model/chat-message-view.ts], the states of the
    panel in [panel-state.ts], and the memo [panelState] of
    [use-agent-panel.ts].  [Date.parse] is left to the host ([DateHost]): what
    it answers for a text that is not in the ISO format is its own business.
    The fields of a date are those of ECMA-262. *)
From Stdlib Require Import Ascii String.
From stdpp Require Import strings.
From S2P Require Import Prelude JsString Text Sse Conversation Interaction.
Local Open Scope string_scope.
Local Open Scope list_scope.
Local Open Scope nat_scope.
Local Open Scope js_scope.

(** ** Dates *)

(** [Date.parse(s)]: milliseconds since 1970, [None] for [NaN]. *)
Class DateHost := { dateParse : string -> option Z }.

(** ECMA-262: the number of the first day of a year, and the year of a day. *)
Definition dayFromYear (y : Z) : Z :=
  (365 * (y - 1970) + (y - 1969) / 4 - (y - 1901) / 100 + (y - 1601) / 400)%Z.
Definition yearFromDay (d : Z) : Z :=
  let y := (d * 400 / 146097 + 1970)%Z in
  if (d <? dayFromYear y)%Z then (y - 1)%Z
  else if (dayFromYear (y + 1) <=? d)%Z then (y + 1)%Z else y.

(** The first days of the months, in a year that is not a leap year. *)
Definition monthStarts (leap : bool) : list Z :=
  let l := if leap then 1%Z else 0%Z in
  [0; 31; 59 + l; 90 + l; 120 + l; 151 + l; 181 + l; 212 + l; 243 + l; 273 + l; 304 + l; 334 + l]%Z.
Definition leapYear (y : Z) : bool := (dayFromYear (y + 1) - dayFromYear y =? 366)%Z.

(** [getUTCMonth() + 1] and [getUTCDate()] of a day *)
Definition monthAndDate (d : Z) : Z * Z :=
  let y := yearFromDay d in
  let n := (d - dayFromYear y)%Z in
  let starts := filterb (fun s => (s <=? n)%Z) (monthStarts (leapYear y)) in
  (Z.of_nat (length starts), (n - (lastOf starts ?? 0) + 1)%Z).

Section MessageView.
Context `{DateHost}.

(** ** [chat-message-view.ts] *)

Definition capitalizeLabel (value : string) : string :=
  match value with
  | EmptyString => ""
  | String a s => String (upper_unit a) s
  end.

Definition formatConversationTimestamp (timestamp : string) : string :=
  match dateParse timestamp with
  | None => ""
  | Some t =>
      let day := (t / 86400000)%Z in
      let minutes := (t mod 86400000 / 60000)%Z in
      let two z := padZeros 2 (showZ z) in
      let '(month, date) := monthAndDate day in
      showZ (yearFromDay day) +:+ "-" +:+ two month +:+ "-" +:+ two date +:+ " " +:+
        two (minutes / 60)%Z +:+ ":" +:+ two (minutes mod 60)%Z
  end.

Definition createConversationMessageSortKey (timestamp : string) (fallbackIndex : Z) : Z :=
  match dateParse timestamp with
  | None => fallbackIndex
  | Some value => (value * 1000 + fallbackIndex)%Z
  end.

Definition role_text (r : ConversationRole) : string :=
  match r with RoleSystem => "system" | RoleUser => "user" | RoleAssistant => "assistant" end.
Definition status_text (s : ConversationStatus) : string :=
  match s with StatusStreaming => "streaming" | StatusComplete => "complete" | StatusError => "error" end.

Definition middle_dot : string := bytes [32; 194; 183; 32].

Definition buildFallbackAssistantReasoning (message : AgentConversationMessage) : string :=
  let createdAt := formatConversationTimestamp (cm_created_at message) in
  let optional label o := match truthyOpt o with Some v => [label +:+ v] | None => [] end in
  join (String LF "")
    (["Status: " +:+ status_text (cm_status message)] ++
     optional "Created: " (Some createdAt) ++
     optional "Provider: " (cm_provider message) ++
     optional "Model: " (cm_model message) ++
     ((fun a => "Attachment: " +:+ at_name a +:+ " (" +:+ at_path a +:+ ")") <$>
        (cm_attachments message ?? []))).

Definition buildAssistantReasoning (message : AgentConversationMessage) : string :=
  let explicitReasoning := trimText (cm_reasoning message ?? "") in
  if truthy explicitReasoning then explicitReasoning else buildFallbackAssistantReasoning message.

Definition buildAssistantSummary (message : AgentConversationMessage) : string :=
  let createdAt := formatConversationTimestamp (cm_created_at message) in
  let optional o := match truthyOpt o with Some v => [v] | None => [] end in
  join middle_dot
    ([capitalizeLabel (role_text (cm_role message)); status_text (cm_status message)] ++
     optional (cm_provider message) ++
     optional (cm_model message) ++
     match cm_attachments message ?? [] with
     | [] => []
     | l => [showNat (length l) +:+ " attachment" +:+ (if length l =? 1 then "" else "s")]
     end ++
     optional (Some createdAt)).

(** Some value of the record is always true: the status is never empty. *)
Definition buildAssistantMeta (message : AgentConversationMessage) (prompt : option string)
    : option MessageMeta :=
  let meta := mkMeta (cm_provider message) (cm_model message) (Some (status_text (cm_status message)))
    (Some (buildAssistantReasoning message)) prompt (Some (buildAssistantSummary message)) in
  if some (fun o => bool_decide (truthyOpt o <> None))
       [mm_status meta; mm_provider meta; mm_model meta; mm_reasoning meta; mm_prompt meta; mm_summary meta]
  then Some meta else None.

Definition getMessageContent (message : AgentConversationMessage) : string :=
  let trimmedContent := trimText (cm_content message) in
  if truthy trimmedContent then trimmedContent else cm_content message.

Definition mapConversationMessageToChatMessageView (message : AgentConversationMessage)
    (prompt : option string) (fallbackIndex : Z) : ChatMessageView :=
  let sortKey := Some (createConversationMessageSortKey (cm_created_at message) fallbackIndex) in
  match cm_role message with
  | RoleUser =>
      ViewChat (mkChatText (cm_id message) ChatUser (getMessageContent message) (cm_attachments message)
        None sortKey)
  | _ =>
      ViewChat (mkChatText (cm_id message) ChatAssistant (getMessageContent message) (cm_attachments message)
        (buildAssistantMeta message prompt) sortKey)
  end.

(** The loop over the reversed messages; the map holds values that can be
    [undefined], and [None] outside of it. *)
Definition collectPrompt (acc : gmap string (option string) * option string) (message : AgentConversationMessage)
    : gmap string (option string) * option string :=
  let '(assistantPrompts, lastUserPrompt) := acc in
  if decide (cm_role message = RoleUser)
  then (assistantPrompts, truthyOpt (Some (getMessageContent message)))
  else (<[cm_id message := lastUserPrompt]> assistantPrompts, lastUserPrompt).
Definition collectPrompts (messages : Messages) : gmap string (option string) :=
  fst (foldl collectPrompt (∅, None) (reverse messages)).

Definition mapConversationMessagesToChatMessageViews (messages : Messages) : list ChatMessageView :=
  let assistantPrompts := collectPrompts messages in
  imap (fun index message =>
    mapConversationMessageToChatMessageView message
      (if decide (cm_role message = RoleAssistant) then mjoin (assistantPrompts !! cm_id message) else None)
      (Z.of_nat (length messages) - Z.of_nat index)%Z) messages.

(** ** States of the panel *)

Record AiPanelWidgetState := mkPanelState {
  ps_title : string;
  ps_toolbarLabel : string;
  ps_activeTool : string;
  ps_messages : list ChatMessageView;
  ps_composerPlaceholder : string
}.

Record AgentConversationProvider := mkProvider {
  cp_kind : string;
  cp_base_url : string;
  cp_model : option string;
  cp_streaming : bool
}.

Definition createPanelState (messages : list ChatMessageView) : AiPanelWidgetState :=
  mkPanelState "AI RUNE" "TOOL BAR" "Chat" messages "Text Area".

Definition createStatusMessage (id content : string) (meta : option MessageMeta) : ChatMessageView :=
  ViewChat (mkChatText id ChatAssistant content None meta (Some 0%Z)).

Definition statusMeta (reasoning summary : string) : option MessageMeta :=
  Some (mkMeta None None None (Some reasoning) None (Some summary)).

Definition createAgentPanelLoadingState : AiPanelWidgetState :=
  createPanelState [createStatusMessage "agent-loading" "Loading backend conversation."
    (statusMeta "Route: GET /api/v1/agent/conversation" "Loading")].

Definition createAgentPanelErrorState (message : string) : AiPanelWidgetState :=
  createPanelState [createStatusMessage "agent-error" message
    (statusMeta "Route: GET /api/v1/agent/conversation" "Backend error")].

Definition createAgentPanelStateFromMessages (messages : Messages) (provider : option AgentConversationProvider)
    : AiPanelWidgetState :=
  match messages with
  | [] =>
      let providerLabel :=
        match provider with
        | Some p =>
            match truthyOpt (cp_model p) with
            | Some model => cp_kind p +:+ middle_dot +:+ model
            | None => cp_kind p
            end
        | None => "backend"
        end in
      let streaming := match provider with Some p => cp_streaming p | None => false end in
      createPanelState [createStatusMessage "agent-empty" "Backend conversation is empty."
        (statusMeta
          (join (String LF "")
            ["Provider: " +:+ providerLabel; "Streaming: " +:+ (if streaming then "enabled" else "disabled")])
          "Waiting for the first backend message.")]
  | _ => createPanelState (mapConversationMessagesToChatMessageViews messages)
  end.

Definition with_ps_messages (messages : list ChatMessageView) (s : AiPanelWidgetState) : AiPanelWidgetState :=
  mkPanelState (ps_title s) (ps_toolbarLabel s) (ps_activeTool s) messages (ps_composerPlaceholder s).

Definition appendAgentPanelStatusMessage (s : AiPanelWidgetState) (id content : string)
    (meta : option MessageMeta) : AiPanelWidgetState :=
  with_ps_messages (ps_messages s ++ [createStatusMessage id content meta]) s.

(** The memo [panelState] of the hook. *)
Definition panelState (interactionMessages : list ChatMessageView) (loadError : option string)
    (messages : option Messages) (provider : option AgentConversationProvider) (submitError : option string)
    : AiPanelWidgetState :=
  let baseState :=
    match messages with
    | None =>
        match truthyOpt loadError with
        | Some e => createAgentPanelErrorState e
        | None => createAgentPanelLoadingState
        end
    | Some l => createAgentPanelStateFromMessages l provider
    end in
  let baseState1 :=
    match truthyOpt submitError with
    | Some e =>
        appendAgentPanelStatusMessage baseState "agent-submit-error" e
          (statusMeta "Route: POST /api/v1/agent/conversation/messages/stream" "Backend error")
    | None => baseState
    end in
  with_ps_messages (sortMessagesBySortKey (interactionMessages ++ ps_messages baseState1)) baseState1.

End MessageView.

(** * Lemmas *)

Section MessageViewLemmas.
Context `{DateHost}.

(** The content of the first user message of a list. *)
Definition nextUserPrompt (messages : Messages) : option string :=
  match find (fun m => bool_decide (cm_role m = RoleUser)) messages with
  | Some u => truthyOpt (Some (getMessageContent u))
  | None => None
  end.

Lemma foldl_reverse {A B} (f : B -> A -> B) (b : B) (l : list A) :
  foldl f b (reverse l) = foldr (fun x acc => f acc x) b l.
Proof.
  induction l as [|x l IH]; [done|]. by rewrite reverse_cons, foldl_app, IH.
Qed.

Lemma collect_next messages :
  snd (foldr (fun m acc => collectPrompt acc m) (∅, None) messages) = nextUserPrompt messages.
Proof.
  unfold nextUserPrompt. induction messages as [|m l IH]; [done|]. cbn [foldr find].
  destruct (foldr _ _ l) as [prompts lastPrompt]. cbn [collectPrompt snd] in *.
  destruct (decide (cm_role m = RoleUser)) as [E|E].
  - by rewrite bool_decide_eq_true_2.
  - by rewrite bool_decide_eq_false_2.
Qed.

Lemma collect_lookup messages i m :
  NoDup (message_ids messages) -> messages !! i = Some m -> cm_role m <> RoleUser ->
  collectPrompts messages !! cm_id m = Some (nextUserPrompt (drop (S i) messages)).
Proof.
  unfold collectPrompts. rewrite foldl_reverse.
  revert i. induction messages as [|x l IH]; intros i Hnd Hi Hrole; [done|].
  apply NoDup_cons in Hnd as [Hx Hnd]. cbn [foldr].
  pose proof (collect_next l) as Hn.
  destruct (foldr _ _ l) as [prompts lastPrompt]. cbn [collectPrompt snd fst] in *.
  destruct i as [|i]; cbn [lookup list_lookup drop] in *.
  - injection Hi as ->. rewrite decide_False by done. cbn [fst]. by rewrite lookup_insert_eq, Hn.
  - assert (cm_id x <> cm_id m) as Hne.
    { intros E. apply Hx. rewrite E. apply list_elem_of_fmap. exists m. split; [done|].
      by eapply list_elem_of_lookup_2. }
    destruct (decide (cm_role x = RoleUser)); cbn [fst]; [by apply IH|].
    rewrite lookup_insert_ne by done. by apply IH.
Qed.

Lemma view_lookup messages i m :
  messages !! i = Some m ->
  mapConversationMessagesToChatMessageViews messages !! i =
    Some (mapConversationMessageToChatMessageView m
      (if decide (cm_role m = RoleAssistant) then mjoin (collectPrompts messages !! cm_id m) else None)
      (Z.of_nat (length messages) - Z.of_nat i)%Z).
Proof. intros Hi. unfold mapConversationMessagesToChatMessageViews. by rewrite list_lookup_imap, Hi. Qed.

Lemma view_key messages i m v t :
  messages !! i = Some m -> dateParse (cm_created_at m) = Some t ->
  mapConversationMessagesToChatMessageViews messages !! i = Some v ->
  (view_sortKey v ?? 0)%Z = (t * 1000 + (Z.of_nat (length messages) - Z.of_nat i))%Z.
Proof.
  intros Hi Ht Hv. rewrite (view_lookup _ _ _ Hi) in Hv. injection Hv as <-.
  unfold mapConversationMessageToChatMessageView, createConversationMessageSortKey. rewrite Ht.
  by destruct (cm_role m).
Qed.

(** A list is sorted when its positions are. *)
Lemma StronglySorted_lookup {A} (R : A -> A -> Prop) (l : list A) :
  (forall i j x y, i < j -> l !! i = Some x -> l !! j = Some y -> R x y) -> StronglySorted R l.
Proof.
  induction l as [|a l IH]; intros HR; constructor.
  - apply IH. intros i j x y Hij Hi Hj. apply (HR (S i) (S j)); [lia|done..].
  - apply Forall_forall. intros x [i Hi]%list_elem_of_lookup_1. by apply (HR 0 (S i)); [lia|..].
Qed.

(** The key of a view comes from its message. *)
Lemma views_sorted (R : Z -> Z -> Prop) messages (time : nat -> Z) :
  (forall i m, messages !! i = Some m -> dateParse (cm_created_at m) = Some (time i)) ->
  (forall i j, i < j -> j < length messages ->
     R (time i * 1000 + (Z.of_nat (length messages) - Z.of_nat i))%Z
       (time j * 1000 + (Z.of_nat (length messages) - Z.of_nat j))%Z) ->
  StronglySorted (fun x y => R (view_sortKey x ?? 0)%Z (view_sortKey y ?? 0)%Z)
    (mapConversationMessagesToChatMessageViews messages).
Proof.
  intros Ht HR. apply StronglySorted_lookup. intros i j x y Hij Hx Hy.
  assert (forall k v, mapConversationMessagesToChatMessageViews messages !! k = Some v ->
    exists m, messages !! k = Some m) as Hm.
  { intros k v Hk. unfold mapConversationMessagesToChatMessageViews in Hk. rewrite list_lookup_imap in Hk.
    destruct (messages !! k); [eauto|done]. }
  destruct (Hm i x Hx) as [mi Hi], (Hm j y Hy) as [mj Hj].
  rewrite (view_key _ _ _ _ _ Hi (Ht i mi Hi) Hx), (view_key _ _ _ _ _ Hj (Ht j mj Hj) Hy).
  apply HR; [done|]. by eapply lookup_lt_Some.
Qed.

Lemma buildAssistantMeta_Some m prompt :
  buildAssistantMeta m prompt =
    Some (mkMeta (cm_provider m) (cm_model m) (Some (status_text (cm_status m)))
      (Some (buildAssistantReasoning m)) prompt (Some (buildAssistantSummary m))).
Proof.
  unfold buildAssistantMeta. cbn [mm_status some existsb].
  by rewrite bool_decide_eq_true_2 by (by destruct (cm_status m)).
Qed.

End MessageViewLemmas.

(** * Properties *)

(** The prompt that is shown with a message of the assistant.  In a
    conversation whose ids are different it is the content of the first user
    message after it in the list, which is in the order of time: the prompt of
    the next answer, and nothing for the last one. *)
Theorem assistant_prompt_is_next `{DateHost} messages i m
    (Hids : NoDup (message_ids messages)) (Hi : messages !! i = Some m) (Hrole : cm_role m = RoleAssistant) :
  exists v meta,
    mapConversationMessagesToChatMessageViews messages !! i = Some (ViewChat v) /\
    ct_id v = cm_id m /\ ct_role v = ChatAssistant /\ ct_content v = getMessageContent m /\
    ct_meta v = Some meta /\ mm_prompt meta = nextUserPrompt (drop (S i) messages).
Proof.
  rewrite (view_lookup _ _ _ Hi), decide_True by done.
  rewrite (collect_lookup messages i m Hids Hi) by (by rewrite Hrole).
  unfold mapConversationMessageToChatMessageView. rewrite Hrole.
  do 2 eexists. split; [done|]. cbn [ct_id ct_role ct_content ct_meta].
  split; [done|]. split; [done|]. split; [done|]. split; [apply buildAssistantMeta_Some|done].
Qed.

(** The order in which a conversation of at most 1000 messages is shown.
    When the times of the messages increase it is the order of the list; when
    they are equal it is the reverse order. *)
Theorem conversation_order `{DateHost} messages (time : nat -> Z)
    (Htime : forall i m, messages !! i = Some m -> dateParse (cm_created_at m) = Some (time i))
    (Hlen : length messages <= 1000) :
  ((forall i j, i < j -> j < length messages -> (time i < time j)%Z) ->
     sortMessagesBySortKey (mapConversationMessagesToChatMessageViews messages) =
       mapConversationMessagesToChatMessageViews messages) /\
  ((forall i, i < length messages -> time i = time 0) ->
     sortMessagesBySortKey (mapConversationMessagesToChatMessageViews messages) =
       reverse (mapConversationMessagesToChatMessageViews messages)).
Proof.
  split; intros Ht.
  - apply sortMessages_id, (views_sorted Z.le messages time Htime).
    intros i j Hij Hj. pose proof (Ht i j Hij Hj). lia.
  - apply sortMessages_decreasing, (views_sorted (fun a b => (b < a)%Z) messages time Htime).
    intros i j Hij Hj. rewrite (Ht i), (Ht j) by lia. lia.
Qed.

(** Where an error of a submission is shown.  The panel appends the error to
    the messages and then sorts them; the error has key 0, so with messages
    from after 1970 it is the first of all, and the others follow in the order
    without it. *)
Theorem submit_error_is_first `{DateHost} interaction messages provider error loadError
    (Herror : error <> "") (Hne : messages <> [])
    (Hinteraction : Forall (fun v => 0 < view_sortKey v ?? 0)%Z interaction)
    (Htime : forall m, m ∈ messages -> exists t, dateParse (cm_created_at m) = Some t /\ (0 <= t)%Z) :
  ps_messages (panelState interaction loadError (Some messages) provider (Some error)) =
    createStatusMessage "agent-submit-error" error
      (statusMeta "Route: POST /api/v1/agent/conversation/messages/stream" "Backend error") ::
    ps_messages (panelState interaction loadError (Some messages) provider None).
Proof.
  unfold panelState, createAgentPanelStateFromMessages.
  destruct messages as [|m0 l0]; [done|]. set (l := m0 :: l0) in *.
  unfold truthyOpt. rewrite (proj2 (truthy_true error) Herror).
  cbn [ps_messages with_ps_messages appendAgentPanelStatusMessage createPanelState].
  rewrite app_assoc. apply sortMessages_smallest_first, Forall_app. split; [exact Hinteraction|].
  apply Forall_forall. intros v [i Hv]%list_elem_of_lookup_1.
  assert (exists m, l !! i = Some m) as [m Hm].
  { unfold mapConversationMessagesToChatMessageViews in Hv. rewrite list_lookup_imap in Hv.
    destruct (l !! i); [eauto|done]. }
  destruct (Htime m) as (t & Ht & Hpos); [by eapply list_elem_of_lookup_2|].
  rewrite (view_key _ _ _ _ _ Hm Ht Hv). apply lookup_lt_Some in Hm. unfold nullish. cbn [view_sortKey createStatusMessage ct_sortKey default from_option id]. lia.
Qed.

(** * Witnesses *)

(** A host for texts of digits: their number, in seconds. *)
#[local] Instance digit_dates : DateHost :=
  {| dateParse s := if truthy s && str_all is_digit s then Some (Z.of_nat (parseDigits 0 s) * 1000)%Z else None |}.

Definition turn (x : string) (role : ConversationRole) (content seconds : string) : AgentConversationMessage :=
  mkMessage x role content None StatusComplete None None None seconds.

Definition two_turns (s1 s2 s3 s4 : string) : Messages :=
  [turn "u1" RoleUser "first" s1; turn "a1" RoleAssistant "answer one" s2;
   turn "u2" RoleUser "second" s3; turn "a2" RoleAssistant "answer two" s4].

Lemma assistant_prompt_is_next_witness :
  exists v meta,
    mapConversationMessagesToChatMessageViews (two_turns "1" "2" "3" "4") !! 1 = Some (ViewChat v) /\
    ct_meta v = Some meta /\ mm_prompt meta = Some "second".
Proof.
  destruct (assistant_prompt_is_next (two_turns "1" "2" "3" "4") 1 (turn "a1" RoleAssistant "answer one" "2"))
    as (v & meta & Hv & _ & _ & _ & Hm & Hp).
  - apply (bool_decide_unpack _). reflexivity.
  - reflexivity.
  - reflexivity.
  - exists v, meta. split; [exact Hv|]. split; [exact Hm|exact Hp].
Defined.

Lemma conversation_order_witness :
  view_id <$> sortMessagesBySortKey (mapConversationMessagesToChatMessageViews (two_turns "5" "5" "5" "5")) =
    ["a2"; "u2"; "a1"; "u1"].
Proof.
  rewrite (proj2 (conversation_order (two_turns "5" "5" "5" "5") (fun _ => 5000%Z)
    ltac:(by intros [|[|[|[|[]]]]] m [= <-]) ltac:(cbn; lia))) by done.
  reflexivity.
Defined.

Lemma submit_error_is_first_witness :
  view_id <$> ps_messages (panelState [] None (Some (two_turns "1" "2" "3" "4")) None (Some "no route")) =
    ["agent-submit-error"; "u1"; "a1"; "u2"; "a2"].
Proof.
  rewrite (submit_error_is_first [] (two_turns "1" "2" "3" "4") None "no route" None); [reflexivity|done|done|constructor|].
  intros m Hm. apply list_elem_of_In in Hm.
  destruct Hm as [<-|[<-|[<-|[<-|[]]]]]; eexists; (split; [reflexivity|cbn; lia]).
Defined.

(** The fields of a date: the last day of February of a leap year. *)
Example leap_day : monthAndDate 11016 = (2, 29)%Z /\ yearFromDay 11016 = 2000%Z.
Proof. split; reflexivity. Qed.
