(* ===== verification/AgentContext.v ===== *)
(** * The widgets that a prompt refers to

    [frontend/src/features/agent/model/agent-panel-context.ts], the pure part of
    [use-agent-panel-context-selection.ts], and the registry of terminal panels
    in [features/terminal/model/panel-registry.ts].  The bindings of the
    registry are a record whose order of keys counts ([Object.values]), so they
    are a list of bindings; the ids of panels are no array indexes. *)
From Stdlib Require Import Ascii String.
From stdpp Require Import strings.
From S2P Require Import Prelude JsString Text Sse Conversation Interaction MessageView.
Local Open Scope string_scope.
Local Open Scope list_scope.
Local Open Scope nat_scope.
Local Open Scope js_scope.

(** ** Terminal panels *)

Inductive TerminalPanelPreset := PresetMain | PresetWorkspace.
#[global] Instance preset_eq : EqDecision TerminalPanelPreset.
Proof. solve_decision. Defined.

Record TerminalPanelBinding := mkBinding {
  tb_hostId : string;
  tb_preset : TerminalPanelPreset;
  tb_runtimeTabId : option string;
  tb_runtimeWidgetId : string
}.
#[global] Instance binding_eq : EqDecision TerminalPanelBinding.
Proof. solve_decision. Defined.

Notation TerminalPanelBindings := (list TerminalPanelBinding).

Definition has_host (x : string) (b : TerminalPanelBinding) : bool := bool_decide (tb_hostId b = x).

(** [bindings[hostId]] *)
Definition bindingAt (bindings : TerminalPanelBindings) (hostId : string) : option TerminalPanelBinding :=
  find (has_host hostId) bindings.

(** [{ ...bindings, [binding.hostId]: binding }]: a key keeps its place. *)
Definition registerTerminalPanelBinding (bindings : TerminalPanelBindings) (binding : TerminalPanelBinding)
    : TerminalPanelBindings :=
  match findIndex (has_host (tb_hostId binding)) bindings with
  | Some i => <[i := binding]> bindings
  | None => bindings ++ [binding]
  end.

Definition unregisterTerminalPanelBinding (bindings : TerminalPanelBindings) (hostId : string)
    : TerminalPanelBindings :=
  filterb (fun b => negb (has_host hostId b)) bindings.

(** [a ?? b] on values that can be absent *)
Definition orElse {A} (a b : option A) : option A := match a with Some _ => a | None => b end.

Definition resolveTerminalPanelBinding (bindings : TerminalPanelBindings) (activeHostId : option string)
    : option TerminalPanelBinding :=
  match mbind (bindingAt bindings) (truthyOpt activeHostId) with
  | Some b => Some b
  | None => orElse (bindingAt bindings "terminal") (orElse (bindingAt bindings "terminal-header") (head bindings))
  end.

(** ** Selections of widgets *)

Record WorkspaceWidgetSnapshot := mkWidget {
  ww_id : string;
  ww_kind : string;
  ww_title : option string;
  ww_connection_id : option string;
  ww_path : option string
}.
#[global] Instance workspace_widget_eq : EqDecision WorkspaceWidgetSnapshot.
Proof. solve_decision. Defined.

Record AiContextWidgetOption := mkOption {
  co_value : string;
  co_label : string;
  co_title : option string;
  co_meta : option string;
  co_group : option string
}.
#[global] Instance context_option_eq : EqDecision AiContextWidgetOption.
Proof. solve_decision. Defined.

(** The step of the [reduce]. *)
Definition addWidgetID (accumulator : list string) (widgetID : string) : list string :=
  let trimmedWidgetID := trimText widgetID in
  if negb (truthy trimmedWidgetID) || includes trimmedWidgetID accumulator then accumulator
  else accumulator ++ [trimmedWidgetID].
Definition deduplicateWidgetIDs (widgetIDs : list string) : list string := foldl addWidgetID [] widgetIDs.

(** [o?.trim() || d] *)
Definition trimmedTextOr (o : option string) (d : string) : string := truthyOpt (trimText <$> o) ?? d.

(** [if (o?.trim()) parts.push(o.trim())] *)
Definition trimmedPart (o : option string) : list string :=
  match truthyOpt (trimText <$> o) with Some s => [s] | None => [] end.

Definition formatContextWidgetLabel (widget : WorkspaceWidgetSnapshot) : string :=
  let title := trimmedTextOr (ww_title widget) (ww_id widget) in
  let meta := [ww_kind widget] ++ trimmedPart (ww_connection_id widget) ++ trimmedPart (ww_path widget) in
  if decide (title = ww_id widget) then title +:+ middle_dot +:+ join middle_dot meta
  else title +:+ " (" +:+ ww_id widget +:+ ")" +:+ middle_dot +:+ join middle_dot meta.

(** [charAt(0).toUpperCase()] of a kind that starts with an ASCII letter. *)
Definition formatContextWidgetGroup (widgetKind : string) : string :=
  let kind := lowerText (trimText widgetKind) in
  if decide (kind = "terminal") then "Terminal widgets"
  else if decide (kind = "commander") then "Commander widgets"
  else if decide (kind = "ai") then "AI widgets"
  else
    let normalizedKind := trimText widgetKind in
    if decide (normalizedKind = "") then "Other widgets" else capitalizeLabel normalizedKind +:+ " widgets".

Definition mapContextWidgetOptions (widgets : list WorkspaceWidgetSnapshot) : list AiContextWidgetOption :=
  (fun widget =>
     let title := trimmedTextOr (ww_title widget) (ww_id widget) in
     let metaParts :=
       (if decide (ww_id widget = title) then [] else [ww_id widget]) ++ [ww_kind widget] ++
       trimmedPart (ww_connection_id widget) ++ trimmedPart (ww_path widget) in
     mkOption (ww_id widget) (formatContextWidgetLabel widget) (Some title) (Some (join middle_dot metaParts))
       (Some (formatContextWidgetGroup (ww_kind widget)))) <$> widgets.

Definition filterContextWidgetSelection (selectedWidgetIDs : list string)
    (widgetOptions : list AiContextWidgetOption) : list string :=
  let availableWidgetIDs := co_value <$> widgetOptions in
  filterb (fun widgetID => includes widgetID availableWidgetIDs) (deduplicateWidgetIDs selectedWidgetIDs).

Definition isTerminalWorkspaceWidget (widget : WorkspaceWidgetSnapshot) : bool :=
  bool_decide (lowerText (trimText (ww_kind widget)) = "terminal").

(** [new Map(widgets.map((widget) => [widget.id, widget])).get(id)]: the last one. *)
Definition widgetByID (widgets : list WorkspaceWidgetSnapshot) (x : string) : option WorkspaceWidgetSnapshot :=
  find (fun w => bool_decide (ww_id w = x)) (reverse widgets).

Definition resolveContextTerminalWidget (widgets : list WorkspaceWidgetSnapshot)
    (candidateWidgetIDs : list string) : option WorkspaceWidgetSnapshot :=
  find isTerminalWorkspaceWidget (mapFilter (widgetByID widgets) (deduplicateWidgetIDs candidateWidgetIDs)).

Record AgentConversationContextPreferences := mkPreferences {
  cx_widget_context_enabled : bool;
  cx_widget_ids : option (list string)
}.
#[global] Instance preferences_eq : EqDecision AgentConversationContextPreferences.
Proof. solve_decision. Defined.

Definition isCustomizedContextPreference (p : AgentConversationContextPreferences) : bool :=
  negb (cx_widget_context_enabled p) || (0 <? length (cx_widget_ids p ?? [])).

(** ** The selection of the panel *)

(** What [useAgentPanelContextSelection] reads. *)
Record ContextSelection := mkSelection {
  cs_activeWidgetHostId : string;
  cs_contextWidgetOptions : list AiContextWidgetOption;
  cs_isWidgetContextEnabled : bool;
  cs_missingContextWidgetCount : Z;
  cs_storedContextWidgetIDs : list string;
  cs_terminalPanelBindings : TerminalPanelBindings;
  cs_workspaceActiveWidgetID : string
}.

Section Selection.
Variable input : ContextSelection.

Definition deriveFallbackContextWidgetIDs (nextWorkspaceActiveWidgetID : option string) : list string :=
  let terminalBinding :=
    resolveTerminalPanelBinding (cs_terminalPanelBindings input) (Some (cs_activeWidgetHostId input)) in
  deduplicateWidgetIDs
    [(tb_runtimeWidgetId <$> terminalBinding) ?? "";
     nextWorkspaceActiveWidgetID ?? cs_workspaceActiveWidgetID input].

Definition resolveCurrentContextWidgetID (options : list AiContextWidgetOption)
    (nextWorkspaceActiveWidgetID : option string) : string :=
  let availableWidgetIDs := co_value <$> options in
  find (fun widgetID => includes widgetID availableWidgetIDs)
    (deriveFallbackContextWidgetIDs nextWorkspaceActiveWidgetID) ?? "".

(** The stored selection, without what is not in the options once they are loaded. *)
Definition filteredSelection (options : list AiContextWidgetOption) (stored : list string) : list string :=
  match options with
  | [] => deduplicateWidgetIDs stored
  | _ => filterContextWidgetSelection stored options
  end.

Definition effectiveContextWidgetIDs : list string :=
  match filteredSelection (cs_contextWidgetOptions input) (cs_storedContextWidgetIDs input) with
  | [] => deriveFallbackContextWidgetIDs None
  | l => l
  end.

Definition resolvedMissingContextWidgetCount : Z :=
  match cs_contextWidgetOptions input with
  | [] => cs_missingContextWidgetCount input
  | options =>
      let normalizedSelection := deduplicateWidgetIDs (cs_storedContextWidgetIDs input) in
      Z.max 0 (Z.of_nat (length normalizedSelection) -
               Z.of_nat (length (filterContextWidgetSelection normalizedSelection options)))
  end.

Record ConversationContext := mkContext {
  cc_action_source : string;
  cc_active_widget_id : string;
  cc_repo_root : string;
  cc_target_connection_id : option string;
  cc_target_session : option string;
  cc_widget_context_enabled : bool;
  cc_widget_ids : option (list string)
}.

Record ContextInput := mkContextInput {
  ci_actionSource : string;
  ci_activeWidgetID : option string;
  ci_includeActiveWidgetInSelection : bool;
  ci_repoRoot : string;
  ci_targetConnectionID : option string;
  ci_targetSession : option string
}.

Definition createConversationContext (c : ContextInput) : ConversationContext :=
  let selectedWidgetIDs := if cs_isWidgetContextEnabled input then effectiveContextWidgetIDs else [] in
  let activeWidgetID :=
    orElse (truthyOpt (trimText <$> ci_activeWidgetID c))
      (orElse (truthyOpt (head selectedWidgetIDs)) (truthyOpt (head (deriveFallbackContextWidgetIDs None)))) ?? "" in
  let contextWidgetIDs :=
    if cs_isWidgetContextEnabled input then
      deduplicateWidgetIDs
        (if ci_includeActiveWidgetInSelection c && truthy activeWidgetID
         then activeWidgetID :: selectedWidgetIDs else selectedWidgetIDs)
    else [] in
  mkContext (ci_actionSource c) activeWidgetID (ci_repoRoot c) (ci_targetConnectionID c) (ci_targetSession c)
    (cs_isWidgetContextEnabled input)
    (match contextWidgetIDs with [] => None | l => Some l end).

(** The context of a tool: the fields without the selection. *)
Record ToolContext := mkToolContext {
  tx_action_source : string;
  tx_active_widget_id : string;
  tx_repo_root : string;
  tx_target_connection_id : option string;
  tx_target_session : option string
}.

Definition createToolExecutionContext (c : ContextInput) : ToolContext :=
  let context := createConversationContext c in
  mkToolContext (cc_action_source context) (cc_active_widget_id context) (cc_repo_root context)
    (cc_target_connection_id context) (cc_target_session context).

End Selection.
