(* ===== verification/Providers.v ===== *)
(** * Providers of the agent panel

    [frontend/src/features/agent/model/agent-panel-provider.ts] and the pure
    part of [agent-panel-provider-runtime.ts]: the models of a provider, its
    label, and the model that the panel selects. *)
From Stdlib Require Import Ascii String.
From stdpp Require Import strings.
From S2P Require Import Prelude JsString Text Sse Conversation Interaction MessageView AgentContext.
Local Open Scope string_scope.
Local Open Scope list_scope.
Local Open Scope nat_scope.
Local Open Scope js_scope.

(** ** Data *)

Record AgentProviderActor := mkActor { ac_username : string; ac_home_dir : option string }.

Record AgentProviderAccessPolicy := mkAccess {
  ap_owner_username : string;
  ap_visibility : option string;
  ap_allowed_users : option (list string)
}.

Inductive AgentProviderPrewarmPolicy := PrewarmManual | PrewarmOnActivate | PrewarmOnStartup.

Record AgentProviderRoutePolicy := mkRoutePolicy {
  rp_prewarm_policy : option AgentProviderPrewarmPolicy;
  rp_warm_ttl_seconds : option Z
}.

(** The settings of one kind of provider; [pk_endpoint] is the command of a
    CLI or the base URL of an HTTP provider. *)
Record ProviderKindSettings := mkKindSettings {
  pk_endpoint : option string;
  pk_model : option string;
  pk_chat_models : option (list string)
}.

Record AgentProviderView := mkProviderView {
  pv_id : string;
  pv_kind : string;
  pv_display_name : string;
  pv_enabled : bool;
  pv_active : bool;
  pv_access : AgentProviderAccessPolicy;
  pv_created_by : AgentProviderActor;
  pv_updated_by : AgentProviderActor;
  pv_route_policy : AgentProviderRoutePolicy;
  pv_codex : option ProviderKindSettings;
  pv_claude : option ProviderKindSettings;
  pv_openai_compatible : option ProviderKindSettings;
  pv_created_at : string;
  pv_updated_at : string
}.

Record AgentProviderCatalog := mkProviderCatalog {
  pc_current_actor : AgentProviderActor;
  pc_providers : list AgentProviderView;
  pc_active_provider_id : string;
  pc_supported_kinds : list string
}.

Record AgentProviderGatewayProvider := mkGatewayProvider {
  gp_provider_id : string;
  gp_provider_kind : string;
  gp_display_name : string;
  gp_enabled : bool;
  gp_active : bool;
  gp_route_ready : bool;
  gp_route_status_state : option string;
  gp_route_status_message : option string;
  gp_resolved_binary : option string;
  gp_base_url : option string;
  gp_model : option string;
  gp_route_checked_at : option string;
  gp_route_latency_ms : Z;
  gp_route_prepared : bool;
  gp_route_prepare_state : option string;
  gp_route_prepare_message : option string;
  gp_route_prepared_at : option string;
  gp_route_prepare_latency_ms : Z;
  gp_route_prepare_expires_at : option string;
  gp_route_prepare_stale : bool;
  gp_route_prewarm_policy : option string;
  gp_route_warm_ttl_seconds : Z;
  gp_total_runs : Z;
  gp_succeeded_runs : Z;
  gp_failed_runs : Z;
  gp_cancelled_runs : Z;
  gp_average_duration_ms : Z;
  gp_average_first_response_latency_ms : Z;
  gp_last_duration_ms : Z;
  gp_last_first_response_latency_ms : Z;
  gp_last_status : option string;
  gp_last_error_code : option string;
  gp_last_error_message : option string;
  gp_last_started_at : option string;
  gp_last_completed_at : option string
}.

Record AgentProviderGatewayRun := mkGatewayRun {
  gr_id : string;
  gr_provider_id : string;
  gr_provider_kind : string;
  gr_provider_display_name : string;
  gr_actor_username : option string;
  gr_actor_home_dir : option string;
  gr_request_mode : string;
  gr_model : option string;
  gr_conversation_id : option string;
  gr_status : string;
  gr_error_code : option string;
  gr_error_message : option string;
  gr_route_ready : bool;
  gr_route_status_state : option string;
  gr_route_status_message : option string;
  gr_route_prepared : bool;
  gr_route_prepare_state : option string;
  gr_route_prepare_message : option string;
  gr_resolved_binary : option string;
  gr_base_url : option string;
  gr_duration_ms : Z;
  gr_first_response_latency_ms : Z;
  gr_started_at : string;
  gr_completed_at : string
}.

Record AgentProviderGatewaySnapshot := mkGateway {
  gw_generated_at : string;
  gw_providers : list AgentProviderGatewayProvider;
  gw_recent_runs : list AgentProviderGatewayRun;
  gw_recent_runs_total : Z;
  gw_recent_runs_offset : Z;
  gw_recent_runs_limit : Z;
  gw_recent_runs_has_more : bool
}.

Record AgentSelectionItem := mkSelectionItem { si_id : string; si_name : string; si_description : string }.

(** [AgentCatalog]; [ac_removals] is the overlay of the effective profile. *)
Record AgentCatalog := mkAgentCatalog {
  ac_profiles : list AgentSelectionItem;
  ac_roles : list AgentSelectionItem;
  ac_modes : list AgentSelectionItem;
  ac_profileID : string;
  ac_roleID : string;
  ac_modeID : string;
  ac_removals : option (list string)
}.

(** ** [agent-panel-provider.ts] *)

(** The settings of the provider's own kind. *)
Definition settingsOfKind (provider : AgentProviderView) : option ProviderKindSettings :=
  if decide (pv_kind provider = "codex") then pv_codex provider
  else if decide (pv_kind provider = "claude") then pv_claude provider
  else if decide (pv_kind provider = "openai-compatible") then pv_openai_compatible provider
  else None.

Definition directProviderChatModels (provider : option AgentProviderView) : list string :=
  mbind pk_chat_models (mbind settingsOfKind provider) ?? [].

Definition directProviderDefaultModel (provider : option AgentProviderView) : string :=
  (trimText <$> mbind pk_model (mbind settingsOfKind provider)) ?? "".

Definition providerOptionLabel (provider : AgentProviderView) : string :=
  if truthy (trimText (pv_display_name provider)) then trimText (pv_display_name provider)
  else if decide (pv_kind provider = "codex") then "Codex CLI"
  else if decide (pv_kind provider = "claude") then "Claude Code CLI"
  else if decide (pv_kind provider = "openai-compatible") then "OpenAI-Compatible HTTP"
  else pv_id provider.

Definition providerOptionsFromCatalog (catalog : option AgentProviderCatalog) : list (string * string) :=
  match catalog with
  | None => []
  | Some c => (fun p => (pv_id p, providerOptionLabel p)) <$> filterb pv_enabled (pc_providers c)
  end.

Definition knownKind (kind : string) : bool := includes kind ["codex"; "claude"; "openai-compatible"].

Definition providerViewToConversationProvider (provider : option AgentProviderView)
    (currentProvider : option AgentConversationProvider) : option AgentConversationProvider :=
  match provider with
  | None => currentProvider
  | Some p =>
      if knownKind (pv_kind p) then
        let settings := settingsOfKind p in
        Some (mkProvider (pv_kind p)
          (orElse (mbind pk_endpoint settings) (cp_base_url <$> currentProvider) ?? "")
          (orElse (mbind pk_model settings) (mbind cp_model currentProvider)) false)
      else currentProvider
  end.

Definition selectPreferredChatModel (currentModel : string) (providerModel : option string)
    (availableModels : list string) : string :=
  let selectedModel := trimText currentModel in
  if truthy selectedModel && includes selectedModel availableModels then selectedModel
  else
    let activeProviderModel := (trimText <$> providerModel) ?? "" in
    if truthy activeProviderModel && includes activeProviderModel availableModels then activeProviderModel
    else head availableModels ?? "".

(** ** Active providers *)

(** [findCatalogActiveProvider] and [findActiveProviderView] *)
Definition findCatalogActiveProvider (catalog : option AgentProviderCatalog) : option AgentProviderView :=
  match catalog with
  | None => None
  | Some c => find (fun p => bool_decide (pv_id p = pc_active_provider_id c)) (pc_providers c)
  end.

Definition resolveActiveProviderGateway (gateway : option AgentProviderGatewaySnapshot) (activeProviderID : string)
    : option AgentProviderGatewayProvider :=
  match gateway with
  | None => None
  | Some g =>
      if negb (truthy activeProviderID) then find gp_active (gw_providers g)
      else find (fun p => bool_decide (gp_provider_id p = activeProviderID)) (gw_providers g)
  end.

Definition agentSelectionOptionsFromItems (items : list AgentSelectionItem) : list (string * string * string) :=
  (fun i => (si_id i, si_name i, si_description i)) <$> items.

(** ** Recovery of a route ([provider-gateway-actions.ts]) *)

Inductive RecoveryKind := RecoverProbe | RecoverPrepare.
Record AgentProviderGatewayRecoveryAction := mkRecovery { rv_kind : RecoveryKind; rv_label : string }.

(** The cases on [route_status_state] and on [last_error_code]; a missing code
    is in no case. *)
Definition recoveryOfStatus (state : string) : option AgentProviderGatewayRecoveryAction :=
  if decide (state = "") then Some (mkRecovery RecoverProbe "Probe route")
  else if decide (state = "unchecked") then Some (mkRecovery RecoverProbe "Probe route")
  else if decide (state = "missing") then Some (mkRecovery RecoverProbe "Re-check binary")
  else if decide (state = "auth-required") then Some (mkRecovery RecoverProbe "Re-check auth")
  else if decide (state = "unreachable") then Some (mkRecovery RecoverProbe "Retry route probe")
  else if decide (state = "model-unavailable") then Some (mkRecovery RecoverProbe "Re-check models")
  else None.
Definition recoveryOfError (code : string) : option AgentProviderGatewayRecoveryAction :=
  if decide (code = "timeout") then Some (mkRecovery RecoverPrepare "Retry route prepare")
  else if decide (code = "unreachable") then Some (mkRecovery RecoverPrepare "Retry route prepare")
  else if decide (code = "upstream_rejected") then Some (mkRecovery RecoverPrepare "Retry route prepare")
  else if decide (code = "missing_binary") then Some (mkRecovery RecoverProbe "Re-check binary")
  else if decide (code = "auth_required") then Some (mkRecovery RecoverProbe "Re-check auth")
  else if decide (code = "model_unavailable") then Some (mkRecovery RecoverProbe "Re-check models")
  else if decide (code = "invalid_config") then Some (mkRecovery RecoverProbe "Re-check route")
  else None.

Definition getProviderGatewayRecoveryAction (provider : option AgentProviderGatewayProvider)
    : option AgentProviderGatewayRecoveryAction :=
  match provider with
  | None => None
  | Some p =>
      if negb (gp_enabled p) then None
      else
        match (trimText <$> gp_route_status_state p) ≫= recoveryOfStatus with
        | Some action => Some action
        | None =>
            match (trimText <$> gp_last_error_code p) ≫= recoveryOfError with
            | Some action => Some action
            | None =>
                if negb (gp_route_prepared p) ||
                   negb (bool_decide (trimText <$> gp_route_prepare_state p = Some "prepared"))
                then Some (mkRecovery RecoverPrepare "Prepare route")
                else Some (mkRecovery RecoverPrepare "Refresh route")
            end
        end
  end.

Definition formatProviderGatewayErrorCode (errorCode : option string) : string :=
  let code := trimText (errorCode ?? "") in
  if decide (code = "missing_binary") then "Binary missing"
  else if decide (code = "auth_required") then "Auth required"
  else if decide (code = "timeout") then "Timed out"
  else if decide (code = "unreachable") then "Route unreachable"
  else if decide (code = "model_unavailable") then "Model unavailable"
  else if decide (code = "invalid_config") then "Invalid config"
  else if decide (code = "upstream_rejected") then "Upstream rejected request"
  else if decide (code = "stream_cancelled") then "Cancelled"
  else if decide (code = "provider_error") then "Provider error"
  else "".

(** * Lemmas *)

(** The selected model is available, unless there is none. *)
Lemma selectPreferredChatModel_available current providerModel models :
  models <> [] -> selectPreferredChatModel current providerModel models ∈ models.
Proof.
  intros Hne. unfold selectPreferredChatModel.
  destruct (_ && includes (trimText current) models) eqn:E; [bool_prop; by apply includes_true|].
  destruct (truthy ((trimText <$> providerModel) ?? "") && _) eqn:E'; [bool_prop; by apply includes_true|].
  destruct models; [done|left].
Qed.

(** Its choice is stable: selecting again keeps a trimmed model. *)
Lemma selectPreferredChatModel_keeps current providerModel models :
  current ∈ models -> trimText current = current -> current <> "" ->
  selectPreferredChatModel current providerModel models = current.
Proof.
  intros Hin Ht Hne. unfold selectPreferredChatModel.
  rewrite Ht, (proj2 (truthy_true current) Hne), (proj2 (includes_true current models) Hin). done.
Qed.
