(* ===== verification/Effects.v ===== *)
(** * Asynchronous functions

    A call of an asynchronous function as the tree of what it does: it reads
    and updates the state it shares with the other calls, awaits a request, and
    returns or throws.  The answer of a request comes later; in between any
    other call may have changed the state.  [E A] is the type of the requests
    that answer an [A], [X] the type of what is thrown.  Trees are finite: a
    call that gets its answers ends. *)
From stdpp Require Import strings.
From S2P Require Import Prelude JsString.
Local Open Scope string_scope.
Local Open Scope list_scope.
Local Open Scope nat_scope.

(** What is thrown: the message of an [Error], [None] for any other value. *)
Notation JsError := (option string).

Section Prog.
Context {X : Type} {S : Type} {E : Set -> Type}.

Inductive ProgX (R : Type) : Type :=
  | Ret (r : R)
  | Throw (e : X)
  | Update (f : S -> S) (k : ProgX R)
  | Get (k : S -> ProgX R)
  | Await (A : Set) (request : E A) (k : A + X -> ProgX R).
Arguments Ret {R} r.
Arguments Throw {R} e.
Arguments Update {R} f k.
Arguments Get {R} k.
Arguments Await {R A} request k.

Fixpoint bind {R R'} (p : ProgX R) (k : R -> ProgX R') : ProgX R' :=
  match p with
  | Ret r => k r
  | Throw e => Throw e
  | Update f p => Update f (bind p k)
  | Get p => Get (fun s => bind (p s) k)
  | Await request p => Await request (fun a => bind (p a) k)
  end.

(** [await request] *)
Definition await {A : Set} (request : E A) : ProgX A :=
  Await request (fun a => match a with inl x => Ret x | inr e => Throw e end).

Definition update (f : S -> S) : ProgX unit := Update f (Ret tt).
Definition get : ProgX S := Get (fun s => Ret s).

(** [try { p } catch (error) { h(error) }] *)
Fixpoint tryCatch {R} (p : ProgX R) (h : X -> ProgX R) : ProgX R :=
  match p with
  | Ret r => Ret r
  | Throw e => h e
  | Update f p => Update f (tryCatch p h)
  | Get p => Get (fun s => tryCatch (p s) h)
  | Await request p => Await request (fun a => tryCatch (p a) h)
  end.

(** [try { p } finally { q }] *)
Fixpoint finally {R} (p : ProgX R) (q : ProgX unit) : ProgX R :=
  match p with
  | Ret r => bind q (fun _ => Ret r)
  | Throw e => bind q (fun _ => Throw e)
  | Update f p => Update f (finally p q)
  | Get p => Get (fun s => finally (p s) q)
  | Await request p => Await request (fun a => finally (p a) q)
  end.

(** ** Every branch of a call *)

(** What a call does on every branch.  A stretch of the call goes from its
    start or an answer to the next await or the end.  It has an origin, [o],
    and takes the state to [s]: it satisfies [T o s r] when the call awaits the
    request [r] then, and [Q] when it ends.  While the call awaits, the state
    can become any other one; [org r a s'] is the origin of the stretch after
    the answer [a] to [r] in [s']. *)
Fixpoint wp {O : Type} (org : forall A : Set, E A -> A + X -> S -> O)
    (T : O -> S -> forall A : Set, E A -> Prop) {R} (p : ProgX R) (o : O) (s : S)
    (Q : R + X -> O -> S -> Prop) : Prop :=
  match p with
  | Ret r => Q (inl r) o s
  | Throw e => Q (inr e) o s
  | Update f k => wp org T k o (f s) Q
  | Get k => wp org T (k s) o s Q
  | Await request k => T o s _ request /\ forall a s', wp org T (k a) (org _ request a s') s' Q
  end.

(** The call ends after at most [n] answers. *)
Fixpoint within (n : nat) {R} (p : ProgX R) : Prop :=
  match p with
  | Ret _ | Throw _ => True
  | Update _ k => within n k
  | Get k => forall s, within n (k s)
  | Await _ k => match n with O => False | Datatypes.S m => forall a, within m (k a) end
  end.

(** ** What a call does until it awaits *)

Inductive OutcomeX (R : Type) : Type :=
  | Ended (r : R + X)
  | Waiting (A : Set) (request : E A) (k : A + X -> ProgX R).
Arguments Ended {R} r.
Arguments Waiting {R A} request k.

Fixpoint run {R} (p : ProgX R) (s : S) : S * OutcomeX R :=
  match p with
  | Ret r => (s, Ended (inl r))
  | Throw e => (s, Ended (inr e))
  | Update f k => run k (f s)
  | Get k => run (k s) s
  | Await request k => (s, Waiting request k)
  end.

End Prog.

Arguments ProgX : clear implicits.
Arguments Ret {X S E R} r.
Arguments Throw {X S E R} e.
Arguments Update {X S E R} f k.
Arguments Get {X S E R} k.
Arguments Await {X S E R A} request k.
Arguments OutcomeX : clear implicits.
Arguments Ended {X S E R} r.
Arguments Waiting {X S E R A} request k.

(** Calls that throw the values of JavaScript. *)
Notation Prog := (ProgX JsError).
Notation Outcome := (OutcomeX JsError).

Declare Scope prog_scope.
Delimit Scope prog_scope with prog.
Notation "x <- p ;; q" := (bind p (fun x => q)) (at level 100, p at next level, right associativity) : prog_scope.
Notation "p ;;; q" := (bind p (fun _ => q)) (at level 100, right associativity) : prog_scope.

(** ** Systems of calls *)

(** The shared state, and the calls in flight, each with what it awaits. *)
Record SystemX (X S : Type) (E : Set -> Type) := mkSystem {
  sys_state : S;
  sys_calls : list (OutcomeX X S E unit)
}.
Arguments mkSystem {X S E} sys_state sys_calls.
Arguments sys_state {X S E} s.
Arguments sys_calls {X S E} s.
Notation System := (SystemX JsError).

(** A call goes on to its next request or its end. *)
Definition proceed {X S E} (p : ProgX X S E unit) (m : SystemX X S E) : SystemX X S E :=
  match run p (sys_state m) with
  | (s, Ended _) => mkSystem s (sys_calls m)
  | (s, Waiting r k) => mkSystem s (sys_calls m ++ [Waiting r k])
  end.

(** Calls start and are answered in any order, and the host does the rest. *)
Inductive sys_step {X S E} (start : ProgX X S E unit -> Prop) (answer : S -> forall A : Set, E A -> A + X -> Prop)
    (event : S -> S -> Prop) (m : SystemX X S E) : SystemX X S E -> Prop :=
  | sys_start p (Hp : start p) : sys_step start answer event m (proceed p m)
  | sys_answer i (A : Set) (r : E A) k a (Hi : sys_calls m !! i = Some (Waiting r k)) (Ha : answer (sys_state m) A r a) :
      sys_step start answer event m (proceed (k a) (mkSystem (sys_state m) (delete i (sys_calls m))))
  | sys_event s (Hs : event (sys_state m) s) :
      sys_step start answer event m (mkSystem s (sys_calls m)).

(** * Lemmas *)

Section ProgLemmas.
Context {X : Type} {S : Type} {E : Set -> Type} {O : Type}.
Implicit Types org : forall A : Set, E A -> A + X -> S -> O.
Implicit Types T : O -> S -> forall A : Set, E A -> Prop.

(** What holds of the stretches can be weakened. *)
Lemma wp_mono org T T' {R} (p : ProgX X S E R) o s (Q Q' : R + X -> O -> S -> Prop) :
  (forall a b (A : Set) (r : E A), T a b A r -> T' a b A r) -> (forall r a b, Q r a b -> Q' r a b) ->
  wp org T p o s Q -> wp org T' p o s Q'.
Proof.
  intros HT HQ. revert o s. induction p as [r|e|f k IH|k IH|A r k IH]; intros o s; cbn [wp]; auto.
  intros (H1 & H2). split; auto.
Qed.

Lemma wp_weaken org T {R} (p : ProgX X S E R) o s (Q Q' : R + X -> O -> S -> Prop) :
  (forall r a b, Q r a b -> Q' r a b) -> wp org T p o s Q -> wp org T p o s Q'.
Proof. intros HQ. by apply wp_mono. Qed.

Lemma wp_bind org T {R R'} (p : ProgX X S E R) (k : R -> ProgX X S E R') o s Q :
  wp org T p o s (fun r a b => match r with inl x => wp org T (k x) a b Q | inr e => Q (inr e) a b end) ->
  wp org T (bind p k) o s Q.
Proof.
  revert o s. induction p as [r|e|f k' IH|k' IH|A r k' IH]; intros o s; cbn [bind wp]; auto.
  intros (H1 & H2). split; auto.
Qed.

Lemma wp_try org T {R} (p : ProgX X S E R) h o s Q :
  wp org T p o s (fun r a b => match r with inl x => Q (inl x) a b | inr e => wp org T (h e) a b Q end) ->
  wp org T (tryCatch p h) o s Q.
Proof.
  revert o s. induction p as [r|e|f k' IH|k' IH|A r k' IH]; intros o s; cbn [tryCatch wp]; auto.
  intros (H1 & H2). split; auto.
Qed.

Lemma wp_finally org T {R} (p : ProgX X S E R) q o s Q :
  wp org T p o s (fun r a b =>
    wp org T q a b (fun r' a' b' => match r' with inl _ => Q r a' b' | inr e => Q (inr e) a' b' end)) ->
  wp org T (finally p q) o s Q.
Proof.
  revert o s. induction p as [r|e|f k' IH|k' IH|A r k' IH]; intros o s; cbn [finally wp]; auto.
  - intros H. apply wp_bind. eapply wp_weaken; [|exact H]. by intros [[]|e].
  - intros H. apply wp_bind. eapply wp_weaken; [|exact H]. by intros [[]|e'].
  - intros (H1 & H2). split; auto.
Qed.

Lemma wp_await org T {A : Set} (r : E A) o s Q :
  T o s A r ->
  (forall x s', Q (inl x) (org A r (inl x) s') s') -> (forall e s', Q (inr e) (org A r (inr e) s') s') ->
  wp org T (await r : ProgX X S E A) o s Q.
Proof. intros H1 H3 H4. cbn. split; [done|]. intros [x|e] s'; cbn; auto. Qed.

(** What the run to the next await satisfies. *)
Lemma wp_run org T {R} (p : ProgX X S E R) o s Q :
  wp org T p o s Q ->
  match snd (run p s) with
  | Ended r => Q r o (fst (run p s))
  | @Waiting _ _ _ _ A r k =>
      T o (fst (run p s)) A r /\ forall a s', wp org T (k a) (org A r a s') s' Q
  end.
Proof. revert o s. induction p as [r|e|f k IH|k IH|A r k IH]; intros o s; cbn [run wp fst snd]; auto; apply IH. Qed.

(** Nothing to prove holds. *)
Lemma wp_any org {R} (p : ProgX X S E R) o s : wp org (fun _ _ _ _ => True) p o s (fun _ _ _ => True).
Proof. revert o s. induction p; cbn; auto. Qed.

End ProgLemmas.

(** ** Guarantees *)

(** Every stretch, from the state where it starts, satisfies [G], and every
    request satisfies [P]. *)
Notation wpg G P := (wp (fun _ _ _ s => s) (fun a b A r => G a b /\ P A r)).

(** Every end of a call that starts in [s] leaves a state of [Q]. *)
Definition ends_with {X S E R} (p : ProgX X S E R) (s : S) (Q : S -> Prop) : Prop :=
  wp (fun _ _ _ s => s) (fun _ _ _ _ => True) p s s (fun _ _ b => Q b).

(** Every end of a call that starts in [s] and sends a request leaves a state of [Q]. *)
Definition served_with {X S E R} (p : ProgX X S E R) (s : S) (Q : S -> Prop) : Prop :=
  wp (fun _ _ _ _ => true) (fun _ _ _ _ => True) p false s (fun _ sent b => sent = true -> Q b).

(** All stretches satisfy the guarantee, the last one too. *)
Definition stable {X S E} (G : S -> S -> Prop) (P : forall A : Set, E A -> Prop) {R} (p : ProgX X S E R) : Prop :=
  forall s0 s, G s0 s -> wpg G P p s0 s (fun _ a b => G a b).

Section Stable.
Context {X : Type} {S : Type} {E : Set -> Type} {G : S -> S -> Prop} `{!PreOrder G} {P : forall A : Set, E A -> Prop}.
Notation stable := (stable (X := X) G P).

Lemma stable_ret {R} (r : R) : stable (Ret r).
Proof. by intros s0 s. Qed.
Lemma stable_throw {R} e : stable (Throw e : ProgX X S E R).
Proof. by intros s0 s. Qed.
Lemma stable_get : stable get.
Proof. by intros s0 s. Qed.
Lemma stable_update f : (forall s, G s (f s)) -> stable (update f).
Proof. intros Hf s0 s Hs. cbn. by transitivity s. Qed.
Lemma stable_await {A : Set} (r : E A) : P A r -> stable (await r).
Proof. intros Hr s0 s Hs. apply wp_await; [done|intros; reflexivity..]. Qed.

Lemma stable_bind {R R'} (p : ProgX X S E R) (k : R -> ProgX X S E R') :
  stable p -> (forall r, stable (k r)) -> stable (bind p k).
Proof.
  intros Hp Hk s0 s Hs. apply wp_bind. eapply wp_weaken; [|by apply Hp].
  intros [x|e] a b Hab; [by apply Hk|done].
Qed.
Lemma stable_try {R} (p : ProgX X S E R) h : stable p -> (forall e, stable (h e)) -> stable (tryCatch p h).
Proof.
  intros Hp Hk s0 s Hs. apply wp_try. eapply wp_weaken; [|by apply Hp].
  intros [x|e] a b Hab; [done|by apply Hk].
Qed.
Lemma stable_finally {R} (p : ProgX X S E R) q : stable p -> stable q -> stable (finally p q).
Proof.
  intros Hp Hq s0 s Hs. apply wp_finally. eapply wp_weaken; [|by apply Hp].
  intros r a b Hab. eapply wp_weaken; [|by apply Hq]. by intros [[]|e].
Qed.

End Stable.

(** ** Invariants of systems *)

(** [I] survives the stretch. *)
Definition keeps {S} (I : S -> Prop) (a b : S) : Prop := I a -> I b.

#[export] Instance keeps_preorder {S} (I : S -> Prop) : PreOrder (keeps I).
Proof. split; [by intros s Hs|intros a b c Hab Hbc Ha; by apply Hbc, Hab]. Qed.

Section Invariant.
Context {X S : Type} {E : Set -> Type}.
Variable I : S -> Prop.
Variable start : ProgX X S E unit -> Prop.
Variable answer : S -> forall A : Set, E A -> A + X -> Prop.
Variable event : S -> S -> Prop.
Notation anything := (fun (A : Set) (r : E A) => True).
Hypothesis start_keeps : forall p, start p -> stable (keeps I) anything p.
Hypothesis event_keeps : forall s s', event s s' -> I s -> I s'.

Definition resumes (o : OutcomeX X S E unit) : Prop :=
  match o with
  | Ended _ => False
  | Waiting r k => forall a s, wpg (keeps I) anything (k a) s s (fun _ a b => keeps I a b)
  end.

Lemma proceed_keeps p s (calls : list (OutcomeX X S E unit)) :
  I s -> wpg (keeps I) anything p s s (fun _ a b => keeps I a b) -> (forall o, o ∈ calls -> resumes o) ->
  I (sys_state (proceed p (mkSystem s calls))) /\
  forall o, o ∈ sys_calls (proceed p (mkSystem s calls)) -> resumes o.
Proof.
  intros Hs Hwp Hc. apply wp_run in Hwp. unfold proceed. cbn [sys_state sys_calls].
  destruct (run p s) as [s' [r|A r k]]; cbn [fst snd] in Hwp; cbn [sys_state sys_calls]; [by split; [apply Hwp|]|].
  destruct Hwp as [[Hk _] Hr]. split; [by apply Hk|].
  intros o [Ho| ->%list_elem_of_singleton]%elem_of_app; [by apply Hc|exact Hr].
Qed.

(** What every stretch and every event keeps holds in every reachable state. *)
Lemma system_invariant s0 m :
  I s0 -> rtc (sys_step start answer event) (mkSystem s0 []) m -> I (sys_state m).
Proof.
  intros H0 Hr.
  assert (forall m1, I (sys_state m1) /\ (forall o, o ∈ sys_calls m1 -> resumes o) ->
    rtc (sys_step start answer event) m1 m -> I (sys_state m)) as Hgo.
  { clear Hr. intros m1 Hm1 Hr. induction Hr as [m1|[s calls] m2 m3 Hs Hr IH]; [apply Hm1|]. apply IH.
    destruct Hm1 as [Hs1 Hc1]. cbn [sys_state sys_calls] in *.
    destruct Hs as [p Hp|i A r k a Hi Ha|s' Hev]; cbn [sys_state sys_calls] in *.
    - apply proceed_keeps; [done| |done]. apply start_keeps; [done|reflexivity].
    - apply proceed_keeps; [done| |].
      + apply (Hc1 (Waiting r k)). by apply list_elem_of_lookup_2 in Hi.
      + intros o Ho. apply Hc1. apply list_elem_of_lookup in Ho as [j Hj].
        rewrite list_lookup_delete in Hj. case_decide; by eapply list_elem_of_lookup_2.
    - split; [by eapply event_keeps|done]. }
  apply (Hgo (mkSystem s0 [])); [|done]. split; [done|]. by intros o ?%not_elem_of_nil.
Qed.

End Invariant.

(** ** Bounds *)

Section Bounds.
Context {X : Type} {S : Type} {E : Set -> Type}.

Lemma within_le n m {R} (p : ProgX X S E R) : n <= m -> within n p -> within m p.
Proof.
  revert n m. induction p as [r|e|f k IH|k IH|A r k IH]; intros n m Hnm; cbn [within]; eauto.
  destruct n as [|n]; [done|]. destruct m as [|m]; [lia|]. intros H a. apply (IH a n m); [lia|done].
Qed.

Lemma within_bind n m {R R'} (p : ProgX X S E R) (k : R -> ProgX X S E R') :
  within n p -> (forall r, within m (k r)) -> within (n + m) (bind p k).
Proof.
  intros Hp Hk. revert n Hp. induction p as [r|e|f k' IH|k' IH|A r k' IH]; intros n Hp; cbn [bind within] in *; auto.
  - apply (within_le m); [lia|done].
  - destruct n; [done|]. cbn. auto.
Qed.

Lemma within_try n m {R} (p : ProgX X S E R) h :
  within n p -> (forall e, within m (h e)) -> within (n + m) (tryCatch p h).
Proof.
  intros Hp Hk. revert n Hp.
  induction p as [r|e|f k' IH|k' IH|A r k' IH]; intros n Hp; cbn [tryCatch within] in *; auto.
  - apply (within_le m); [lia|done].
  - destruct n; [done|]. cbn. auto.
Qed.

Lemma within_finally n m {R} (p : ProgX X S E R) q :
  within n p -> within m q -> within (n + m) (finally p q).
Proof.
  intros Hp Hq. revert n Hp.
  induction p as [r|e|f k' IH|k' IH|A r k' IH]; intros n Hp; cbn [finally within] in *; auto.
  - apply (within_le (m + 0)); [lia|]. by apply within_bind.
  - apply (within_le (m + 0)); [lia|]. by apply within_bind.
  - destruct n; [done|]. cbn. auto.
Qed.

Lemma within_await {A : Set} (r : E A) : within 1 (await r : ProgX X S E A).
Proof. by intros [x|e]. Qed.

End Bounds.

#[export] Hint Resolve within_await : commander.

(** Proves a bound: one answer for each [await] that the program shows. *)
Ltac within_step :=
  lazymatch goal with
  | |- within _ (bind (await _) _) => apply (within_bind 1); [apply within_await|intros ?]
  | |- within _ (bind (update _) _) => apply (within_bind 0); [exact I|intros _]
  | |- within _ (bind get _) => apply (within_bind 0); [by intros ?|intros ?]
  | |- within _ (let _ := _ in _) => cbv zeta
  | |- within _ (if ?b then _ else _) => destruct b
  | |- within _ (match ?x with _ => _ end) => destruct x
  | |- within _ (Ret _) => exact I
  | |- within _ (Throw _) => exact I
  | |- within _ (update _) => exact I
  | |- within _ (await _) => apply (within_le 1); [lia|apply within_await]
  end.
Ltac within_tac := repeat within_step.
