(* ===== verification/AgentState.v ===== *)
(** * State and requests of the agent panel

    What the handlers of [frontend/src/features/agent/model/use-agent-panel.ts]
    share: the state of the hook and its refs, the requests that they await,
    and [applyConversationSnapshot].  A value that the hook keeps both as a
    state and as a ref is one field, and a handler reads it when it runs.  A
    handler is a tree of [Effects]. *)
From Stdlib Require Import Ascii String.
From stdpp Require Import strings.
From S2P Require Import Prelude JsString Text Sse Conversation Interaction MessageView AgentContext Providers Effects.
Local Open Scope string_scope.
Local Open Scope list_scope.
Local Open Scope nat_scope.
Local Open Scope js_scope.

(** ** Conversations *)

Record AgentConversationSummary := mkSummary {
  sm_archived_at : option string;
  sm_id : string;
  sm_title : string;
  sm_created_at : string;
  sm_updated_at : string;
  sm_message_count : nat
}.
#[global] Instance summary_eq : EqDecision AgentConversationSummary.
Proof. solve_decision. Defined.

Record AgentConversationSnapshot := mkSnapshot {
  sn_id : string;
  sn_title : string;
  sn_messages : Messages;
  sn_provider : AgentConversationProvider;
  sn_context_preferences : AgentConversationContextPreferences;
  sn_created_at : string;
  sn_updated_at : string;
  sn_archived_at : option string
}.

Inductive AgentConversationListScope := ScopeRecent | ScopeArchived | ScopeAll.

Record AgentConversationListCounts := mkCounts { cn_recent : Z; cn_archived : Z; cn_all : Z }.

Record AgentConversationList := mkConversationList {
  ls_active_conversation_id : string;
  ls_counts : AgentConversationListCounts;
  ls_conversations : list AgentConversationSummary
}.

Definition summaryFromConversationSnapshot (snapshot : AgentConversationSnapshot) : AgentConversationSummary :=
  mkSummary (sn_archived_at snapshot) (sn_id snapshot) (sn_title snapshot) (sn_created_at snapshot)
    (sn_updated_at snapshot) (length (sn_messages snapshot)).

Section Summaries.
Context `{DateHost} `{Locale}.

(** The comparator of [sortConversationSummaries]; [NaN] counts as 0. *)
Definition compareSummaries (left right : AgentConversationSummary) : Z :=
  let leftArchivedAt := (trimText <$> sm_archived_at left) ?? "" in
  let rightArchivedAt := (trimText <$> sm_archived_at right) ?? "" in
  if (negb (truthy leftArchivedAt) && truthy rightArchivedAt)%bool then (-1)%Z
  else if (truthy leftArchivedAt && negb (truthy rightArchivedAt))%bool then 1%Z
  else
    let leftSortKey := truthyOpt (Some leftArchivedAt) ?? sm_updated_at left in
    let rightSortKey := truthyOpt (Some rightArchivedAt) ?? sm_updated_at right in
    match dateParse rightSortKey, dateParse leftSortKey with
    | Some r, Some l => if (r - l =? 0)%Z then localeCompare (sm_id right) (sm_id left) else (r - l)%Z
    | _, _ => 0%Z
    end.

Definition sortConversationSummaries (conversations : list AgentConversationSummary) :=
  sort compareSummaries conversations.

Definition upsertConversationSummary (conversations : list AgentConversationSummary)
    (nextConversation : AgentConversationSummary) : list AgentConversationSummary :=
  sortConversationSummaries
    (filterb (fun c => negb (bool_decide (sm_id c = sm_id nextConversation))) conversations ++ [nextConversation]).

End Summaries.

(** ** State *)

(** The pending flow and the messages that are not of the conversation. *)
Record FlowState := mkFlowState {
  fl_pending : option PendingInteractionFlow;
  fl_interaction : list ChatMessageView;
  fl_keys : nat;                                (* localSortCounterRef *)
  fl_flows : nat                                (* flowCounterRef *)
}.

Record SubmitState := mkSubmitState {
  sb_isSubmitting : bool;
  sb_isResponseCancellable : bool;
  sb_blocked : bool;                            (* blockAiWidget(hostId) *)
  sb_loadError : option string;
  sb_submitError : option string;
  sb_nonce : nat;
  sb_activeStream : bool;
  sb_activeAbort : bool;
  sb_activeAudit : option string;
  sb_messages : option Messages;
  sb_optimistic : nat;
  sb_draft : string;
  sb_attachments : list AgentAttachmentReference
}.

Record ConversationState := mkConversationState {
  cv_active : string;
  cv_conversations : list AgentConversationSummary;
  cv_counts : AgentConversationListCounts;
  cv_provider : option AgentConversationProvider;
  cv_isConversationPending : bool;
  cv_isListPending : bool;
  cv_epoch : nat;
  cv_listNonce : nat;
  cv_query : string;
  cv_scope : AgentConversationListScope
}.

Record ContextState := mkContextState {
  cw_options : list AiContextWidgetOption;
  cw_stored : list string;
  cw_enabled : bool;
  cw_customized : bool;
  cw_missing : Z;
  cw_workspaceActive : string;
  cw_hasLoaded : bool;
  cw_widgets : list WorkspaceWidgetSnapshot;
  cw_loadError : option string
}.

Record ProviderState := mkProviderState {
  pr_catalog : option AgentProviderCatalog;
  pr_selectedProviderID : string;
  pr_availableModels : list string;
  pr_selectedModel : string;
  pr_gateway : option AgentProviderGatewaySnapshot;
  pr_gatewayError : option string;
  pr_isGatewayPending : bool;
  pr_isRoutePreparing : bool;
  pr_isRouteProbing : bool;
  pr_history : list AgentProviderGatewayRun;
  pr_historyTotal : Z;
  pr_historyError : option string;
  pr_isHistoryPending : bool;
  pr_agentCatalog : option AgentCatalog;
  pr_recentAttachments : list AgentAttachmentReference
}.

Record AgentState := mkAgentState {
  as_flow : FlowState;
  as_submit : SubmitState;
  as_conversation : ConversationState;
  as_context : ContextState;
  as_provider : ProviderState
}.

(** What a handler closes over and does not change. *)
Record PanelEnv := mkEnv {
  en_hostId : string;
  en_enabled : bool;
  en_activeWidgetHostId : string;
  en_terminalPanelBindings : TerminalPanelBindings;
  en_ensuresTerminal : bool                     (* options.ensureVisibleTerminalTarget is given *)
}.

(** ** Requests *)

Inductive ToolStatus := ToolError | ToolOk | ToolRequiresConfirmation | ToolOther (status : string).
#[global] Instance tool_status_eq : EqDecision ToolStatus.
Proof. solve_decision. Defined.

(** The output of a tool: an object with or without the field
    [approval_token], which can be any value, or something else. *)
Inductive ToolOutput :=
  | OutputObject (approval_token : option (option string))
  | OutputOther.

Record AgentToolExecuteResponse := mkResponse {
  tr_status : ToolStatus;
  tr_error : option string;
  tr_error_code : option string;
  tr_required_capabilities : option (list string);   (* operation?.required_capabilities *)
  tr_tool_capabilities : option (list string);       (* tool?.metadata.capabilities *)
  tr_output : option ToolOutput;
  tr_pending_approval : option (option string * option string)    (* its id and summary *)
}.

(** The tool and its input. *)
Inductive ToolInput :=
  | SendInput (append_newline : bool) (text widget_id : string)     (* 'term.send_input' *)
  | SafetyConfirm (approval_id : string).                            (* 'safety.confirm' *)

Record TerminalBaseline := mkBaseline {
  bl_connection_kind : option string;
  bl_connection_id : option string;
  bl_next_seq : Z
}.

Record BackendPromptOptions := mkPromptOptions {
  bo_attachments : option (list AgentAttachmentReference);
  bo_auditMessageID : option string;
  bo_cancellable : option bool;
  bo_model : option string
}.

(** The routes that change a conversation and answer a snapshot. *)
Inductive ConversationChange := ActivateConversation | CreateConversation | RenameConversation (title : string)
  | DeleteConversation | ArchiveConversation | RestoreConversation.

(** The actions on the route of a provider, and the lists of an agent's catalog. *)
Inductive RouteAction := RoutePrewarm | RouteProbe | RouteClear.
Inductive AgentSelection := SelectionProfile | SelectionRole | SelectionMode.

(** The five requests of the bootstrap, each answered or failed. *)
Record BootstrapResults := mkBootstrap {
  br_conversation : AgentConversationSnapshot + JsError;
  br_providerCatalog : AgentProviderCatalog + JsError;
  br_gateway : AgentProviderGatewaySnapshot + JsError;
  br_agentCatalog : AgentCatalog + JsError;
  br_attachments : list AgentAttachmentReference + JsError
}.

Inductive AgentRequest : Set -> Type :=
  | ExecuteTool (approval_token : option string) (context : ToolContext) (input : ToolInput)
      : AgentRequest AgentToolExecuteResponse
  | FetchTerminalSnapshot (widgetId : string) : AgentRequest TerminalBaseline
  | EnsureVisibleTerminal (requestedWidgetId : option string) (requestedWidgetTitle : string)
      : AgentRequest (option string)
  | FetchWorkspaceSnapshot : AgentRequest (option string * list WorkspaceWidgetSnapshot)
  | PlanTerminalCommand (context : ConversationContext) (model : option string) (prompt widget_id : string)
      : AgentRequest string
  | WaitForTerminalOutput (widgetId : string) (fromSeq : Z) : AgentRequest unit
  | ExplainTerminalCommand (command : string) (context : ConversationContext) (from_seq : Z)
      (prompt widget_id : string) : AgentRequest (AgentConversationSnapshot * option string)
  | ResolveRuntimeContext : AgentRequest string
  | RunBackendPrompt (prompt : string) (options : BackendPromptOptions) : AgentRequest unit
  | FetchConversation : AgentRequest AgentConversationSnapshot
  | FetchConversations (query : string) (scope : AgentConversationListScope) : AgentRequest AgentConversationList
  | ChangeConversation (change : ConversationChange) (conversationID : string) : AgentRequest AgentConversationSnapshot
  | UpdateConversationContext (conversationID : string) (preferences : AgentConversationContextPreferences)
      : AgentRequest AgentConversationSnapshot
  | ActivateProvider (providerID : string) : AgentRequest AgentProviderCatalog
  | FetchGateway (query : option (string * nat)) : AgentRequest AgentProviderGatewaySnapshot
  | ProviderRoute (action : RouteAction) (providerID : string) : AgentRequest unit
  | SelectAgent (selection : AgentSelection) (itemID : string) : AgentRequest AgentCatalog
  | FetchBootstrap : AgentRequest BootstrapResults.

Notation Agent := (Prog AgentState AgentRequest).

(** ** Setters *)

Definition on_flow (f : FlowState -> FlowState) (s : AgentState) : AgentState :=
  mkAgentState (f (as_flow s)) (as_submit s) (as_conversation s) (as_context s) (as_provider s).
Definition on_submit (f : SubmitState -> SubmitState) (s : AgentState) : AgentState :=
  mkAgentState (as_flow s) (f (as_submit s)) (as_conversation s) (as_context s) (as_provider s).
Definition on_conversation (f : ConversationState -> ConversationState) (s : AgentState) : AgentState :=
  mkAgentState (as_flow s) (as_submit s) (f (as_conversation s)) (as_context s) (as_provider s).
Definition on_context (f : ContextState -> ContextState) (s : AgentState) : AgentState :=
  mkAgentState (as_flow s) (as_submit s) (as_conversation s) (f (as_context s)) (as_provider s).
Definition on_provider (f : ProviderState -> ProviderState) (s : AgentState) : AgentState :=
  mkAgentState (as_flow s) (as_submit s) (as_conversation s) (as_context s) (f (as_provider s)).

(** [setPendingInteractionFlow], [clearPendingInteractionFlow] *)
Definition setPendingFlow (flow : option PendingInteractionFlow) : AgentState -> AgentState :=
  on_flow (fun s => mkFlowState flow (fl_interaction s) (fl_keys s) (fl_flows s)).
Definition setInteractionMessages (f : list ChatMessageView -> list ChatMessageView) : AgentState -> AgentState :=
  on_flow (fun s => mkFlowState (fl_pending s) (f (fl_interaction s)) (fl_keys s) (fl_flows s)).
Definition setKeys (keys : nat) : AgentState -> AgentState :=
  on_flow (fun s => mkFlowState (fl_pending s) (fl_interaction s) keys (fl_flows s)).
Definition bumpFlows : AgentState -> AgentState :=
  on_flow (fun s => mkFlowState (fl_pending s) (fl_interaction s) (fl_keys s) (S (fl_flows s))).

Definition setFlags (submitting cancellable blocked : bool) : AgentState -> AgentState :=
  on_submit (fun s => mkSubmitState submitting cancellable blocked (sb_loadError s) (sb_submitError s) (sb_nonce s)
    (sb_activeStream s) (sb_activeAbort s) (sb_activeAudit s) (sb_messages s) (sb_optimistic s) (sb_draft s)
    (sb_attachments s)).
Definition setSubmitError (error : option string) : AgentState -> AgentState :=
  on_submit (fun s => mkSubmitState (sb_isSubmitting s) (sb_isResponseCancellable s) (sb_blocked s) (sb_loadError s)
    error (sb_nonce s) (sb_activeStream s) (sb_activeAbort s) (sb_activeAudit s) (sb_messages s) (sb_optimistic s)
    (sb_draft s) (sb_attachments s)).
Definition setLoadError (error : option string) : AgentState -> AgentState :=
  on_submit (fun s => mkSubmitState (sb_isSubmitting s) (sb_isResponseCancellable s) (sb_blocked s) error
    (sb_submitError s) (sb_nonce s) (sb_activeStream s) (sb_activeAbort s) (sb_activeAudit s) (sb_messages s)
    (sb_optimistic s) (sb_draft s) (sb_attachments s)).
Definition setMessages (f : option Messages -> option Messages) : AgentState -> AgentState :=
  on_submit (fun s => mkSubmitState (sb_isSubmitting s) (sb_isResponseCancellable s) (sb_blocked s) (sb_loadError s)
    (sb_submitError s) (sb_nonce s) (sb_activeStream s) (sb_activeAbort s) (sb_activeAudit s) (f (sb_messages s))
    (sb_optimistic s) (sb_draft s) (sb_attachments s)).
Definition setDraft (draft : string) : AgentState -> AgentState :=
  on_submit (fun s => mkSubmitState (sb_isSubmitting s) (sb_isResponseCancellable s) (sb_blocked s) (sb_loadError s)
    (sb_submitError s) (sb_nonce s) (sb_activeStream s) (sb_activeAbort s) (sb_activeAudit s) (sb_messages s)
    (sb_optimistic s) draft (sb_attachments s)).
Definition setAttachments (attachments : list AgentAttachmentReference) : AgentState -> AgentState :=
  on_submit (fun s => mkSubmitState (sb_isSubmitting s) (sb_isResponseCancellable s) (sb_blocked s) (sb_loadError s)
    (sb_submitError s) (sb_nonce s) (sb_activeStream s) (sb_activeAbort s) (sb_activeAudit s) (sb_messages s)
    (sb_optimistic s) (sb_draft s) attachments).
Definition bumpOptimistic : AgentState -> AgentState :=
  on_submit (fun s => mkSubmitState (sb_isSubmitting s) (sb_isResponseCancellable s) (sb_blocked s) (sb_loadError s)
    (sb_submitError s) (sb_nonce s) (sb_activeStream s) (sb_activeAbort s) (sb_activeAudit s) (sb_messages s)
    (S (sb_optimistic s)) (sb_draft s) (sb_attachments s)).
(** [resetConversationSubmissionState]: a new nonce; the stream, the abort
    controller and the audit message are let go. *)
Definition resetSubmissionRuntime : AgentState -> AgentState :=
  on_submit (fun s => mkSubmitState (sb_isSubmitting s) (sb_isResponseCancellable s) (sb_blocked s) (sb_loadError s)
    (sb_submitError s) (S (sb_nonce s)) false false None (sb_messages s) (sb_optimistic s) (sb_draft s)
    (sb_attachments s)).

Definition setConversationPending (pending : bool) : AgentState -> AgentState :=
  on_conversation (fun s => mkConversationState (cv_active s) (cv_conversations s) (cv_counts s) (cv_provider s)
    pending (cv_isListPending s) (cv_epoch s) (cv_listNonce s) (cv_query s) (cv_scope s)).
Definition setListPending (pending : bool) : AgentState -> AgentState :=
  on_conversation (fun s => mkConversationState (cv_active s) (cv_conversations s) (cv_counts s) (cv_provider s)
    (cv_isConversationPending s) pending (cv_epoch s) (cv_listNonce s) (cv_query s) (cv_scope s)).
Definition setConversations (f : list AgentConversationSummary -> list AgentConversationSummary)
    : AgentState -> AgentState :=
  on_conversation (fun s => mkConversationState (cv_active s) (f (cv_conversations s)) (cv_counts s) (cv_provider s)
    (cv_isConversationPending s) (cv_isListPending s) (cv_epoch s) (cv_listNonce s) (cv_query s) (cv_scope s)).
Definition setCounts (counts : AgentConversationListCounts) : AgentState -> AgentState :=
  on_conversation (fun s => mkConversationState (cv_active s) (cv_conversations s) counts (cv_provider s)
    (cv_isConversationPending s) (cv_isListPending s) (cv_epoch s) (cv_listNonce s) (cv_query s) (cv_scope s)).
Definition setActiveConversation (f : string -> string) : AgentState -> AgentState :=
  on_conversation (fun s => mkConversationState (f (cv_active s)) (cv_conversations s) (cv_counts s) (cv_provider s)
    (cv_isConversationPending s) (cv_isListPending s) (cv_epoch s) (cv_listNonce s) (cv_query s) (cv_scope s)).
Definition setProvider (provider : option AgentConversationProvider) : AgentState -> AgentState :=
  on_conversation (fun s => mkConversationState (cv_active s) (cv_conversations s) (cv_counts s) provider
    (cv_isConversationPending s) (cv_isListPending s) (cv_epoch s) (cv_listNonce s) (cv_query s) (cv_scope s)).
Definition bumpEpoch : AgentState -> AgentState :=
  on_conversation (fun s => mkConversationState (cv_active s) (cv_conversations s) (cv_counts s) (cv_provider s)
    (cv_isConversationPending s) (cv_isListPending s) (S (cv_epoch s)) (cv_listNonce s) (cv_query s) (cv_scope s)).
Definition bumpListNonce : AgentState -> AgentState :=
  on_conversation (fun s => mkConversationState (cv_active s) (cv_conversations s) (cv_counts s) (cv_provider s)
    (cv_isConversationPending s) (cv_isListPending s) (cv_epoch s) (S (cv_listNonce s)) (cv_query s) (cv_scope s)).

(** ** Snapshots *)

Section Snapshots.
Context `{DateHost} `{Locale}.

(** [applyConversationContextPreferences] after [?? true] and [?? []] *)
Definition applyConversationContextPreferences (preferences : AgentConversationContextPreferences)
    : AgentState -> AgentState :=
  on_context (fun s =>
    let normalizedWidgetIDs := deduplicateWidgetIDs (cx_widget_ids preferences ?? []) in
    let normalizedPreferences :=
      mkPreferences (cx_widget_context_enabled preferences) (Some normalizedWidgetIDs) in
    mkContextState (cw_options s) normalizedWidgetIDs (cx_widget_context_enabled preferences)
      (isCustomizedContextPreference normalizedPreferences)
      (match cw_options s with
       | [] => 0%Z
       | options =>
           Z.max 0 (Z.of_nat (length normalizedWidgetIDs) -
                    Z.of_nat (length (filterContextWidgetSelection normalizedWidgetIDs options)))
       end)
      (cw_workspaceActive s) (cw_hasLoaded s) (cw_widgets s) (cw_loadError s)).

Definition applyConversationSnapshot (snapshot : AgentConversationSnapshot) (s : AgentState) : AgentState :=
  let nextConversationSummary := summaryFromConversationSnapshot snapshot in
  setConversations (fun current => upsertConversationSummary current nextConversationSummary)
    (applyConversationContextPreferences (sn_context_preferences snapshot)
      (setActiveConversation (fun _ => sn_id snapshot)
        (setProvider (Some (sn_provider snapshot))
          (setMessages (fun _ => Some (sn_messages snapshot)) s)))).

(** The selection that [useAgentPanelContextSelection] computes. *)
Definition selectionOf (env : PanelEnv) (s : AgentState) : ContextSelection :=
  let c := as_context s in
  mkSelection (en_activeWidgetHostId env) (cw_options c) (cw_enabled c) (cw_missing c) (cw_stored c)
    (en_terminalPanelBindings env) (cw_workspaceActive c).

End Snapshots.

(** [error instanceof Error && error.message.trim() ? error.message : fallback] *)
Definition getErrorMessage (error : JsError) (fallback : string) : string :=
  match error with
  | Some message => if truthy (trimText message) then message else fallback
  | None => fallback
  end.

Definition hasTerminalExecutionContext (env : PanelEnv) (s : AgentState) : bool :=
  (0 <? length (en_terminalPanelBindings env)) || (0 <? length (cw_stored (as_context s))).
