(* ===== verification/Execution.v ===== *)
(** * Terminal commands of the agent panel

    [frontend/src/features/agent/model/agent-panel-execution.ts],
    [agent-panel-terminal.ts] and [loadContextWidgetsForPanel] of
    [agent-panel-context-runtime.ts]: what a [/run] prompt, an approved command
    and an approved plan send to the backend.  The wait for output is one
    request of the calls; its loop is [waitForTerminalOutput]. *)
From Stdlib Require Import Ascii String.
From stdpp Require Import strings.
From S2P Require Import Prelude JsString Text Sse Conversation Interaction MessageView AgentContext Providers Effects AgentState.
Local Open Scope string_scope.
Local Open Scope list_scope.
Local Open Scope nat_scope.
Local Open Scope js_scope.
Local Open Scope prog_scope.

(** ** [agent-panel-terminal.ts] *)

(** The regular expression accepts ["/run"], and ["/run"] with white space and
    anything after it; its group is what follows the white space. *)
Definition getRunCommand (prompt : string) : option string :=
  if startsWith "/run" prompt then
    match strDrop 4 prompt with
    | EmptyString => Some ""
    | rest => if leadingSpace rest then Some (trimText (trimStartText rest)) else None
    end
  else None.

Definition targetSessionForConnectionKind (connectionKind : option string) : string :=
  if decide (connectionKind = Some "ssh") then "remote" else "local".

Definition runOutputInitialPollIntervalMs : Z := 100.
Definition runOutputMaxPollIntervalMs : Z := 500.
Definition runOutputWaitTimeoutMs : Z := 1500.

(** [Math.min(500, Math.round(nextDelayMs * 1.6))]: a half is rounded up, and
    1.6 is 16 / 10. *)
Definition nextPollDelay (nextDelayMs : Z) : Z :=
  Z.min runOutputMaxPollIntervalMs ((nextDelayMs * 16 + 5) / 10)%Z.

(** What the loop sees of a snapshot: its next sequence number and whether it
    has chunks. *)
Record PolledSnapshot := mkPolled { po_next_seq : Z; po_chunks : bool }.

Definition hasOutput (fromSeq : Z) (s : PolledSnapshot) : bool :=
  negb ((po_next_seq s <=? fromSeq)%Z && negb (po_chunks s)).

(** The loop after the [k]-th fetch: [snapshot k] is its answer and [now k] is
    [Date.now()] when the loop tests it.  The result is the snapshot, the
    number of fetches and the sum of the delays; [None] means that the fuel is
    used up. *)
Fixpoint pollLoop (snapshot : nat -> PolledSnapshot) (now : nat -> Z) (fromSeq deadline : Z)
    (fuel k : nat) (delay waited : Z) : option (PolledSnapshot * nat * Z) :=
  if hasOutput fromSeq (snapshot k) || (deadline <=? now k)%Z then Some (snapshot k, S k, waited)
  else
    match fuel with
    | O => None
    | S fuel' =>
        pollLoop snapshot now fromSeq deadline fuel' (S k) (nextPollDelay delay) (waited + delay)%Z
    end.

(** [started] is [Date.now()] before the first fetch. *)
Definition waitForTerminalOutput (snapshot : nat -> PolledSnapshot) (now : nat -> Z) (fromSeq started : Z)
    (fuel : nat) : option (PolledSnapshot * nat * Z) :=
  pollLoop snapshot now fromSeq (started + runOutputWaitTimeoutMs)%Z fuel 0 runOutputInitialPollIntervalMs 0%Z.

(** The token of a confirmation, [None] when the code throws. *)
Definition approvalTokenOf (response : AgentToolExecuteResponse) : option string :=
  match tr_output response with
  | Some (OutputObject (Some (Some token))) => if truthy (trimText token) then Some token else None
  | _ => None
  end.

Definition getApprovalToken (response : AgentToolExecuteResponse) : Agent string :=
  match approvalTokenOf response with
  | Some token => Ret token
  | None => Throw (Some "Approval confirmation did not return an approval token.")
  end.

(** ** Policy *)

Definition terminalInputPolicyBlockedMessage : string :=
  "Команда заблокирована политикой: выбранная комбинация AI profile/role/mode отключает terminal:input. Для запуска выберите режим Implement, Debug, Ops или Incident и роль без read-only ограничения, затем повторите approve.".

(** [removals] is the list of the profile's overlay, when there is one. *)
Definition isTerminalInputBlockedByPolicy (removals : option (list string)) : bool :=
  match removals with Some l => includes "terminal:input" l | None => false end.

Definition isTerminalInputPolicyDenied (response : AgentToolExecuteResponse) : bool :=
  if negb (bool_decide (tr_status response = ToolError)) ||
     negb (bool_decide (tr_error_code response = Some "policy_denied")) then false
  else
    bool_decide (trimText <$> tr_error response = Some "capability_denied") &&
    (includes "terminal:input" (tr_required_capabilities response ?? []) ||
     includes "terminal:input" (tr_tool_capabilities response ?? [])).

Definition getTerminalExecutionResponseError (response : AgentToolExecuteResponse) (fallback : string) : string :=
  if isTerminalInputPolicyDenied response then terminalInputPolicyBlockedMessage
  else if bool_decide (tr_error_code response = Some "policy_denied") then
    "Команда заблокирована политикой: " +:+ trimmedTextOr (tr_error response) "policy_denied" +:+ "."
  else trimmedTextOr (tr_error response) fallback.

(** ** The target *)

Record TerminalExecutionTarget := mkTarget {
  et_baselineNextSeq : Z;
  et_targetConnectionID : string;
  et_targetSession : string;
  et_targetWidgetID : string
}.

Record ContextSnapshot := mkContextSnapshot {
  xs_activeWidgetID : string;
  xs_options : list AiContextWidgetOption;
  xs_widgets : list WorkspaceWidgetSnapshot
}.

Definition withLoadedWidgets (options : list AiContextWidgetOption) (missing : Z) (active : string)
    : AgentState -> AgentState :=
  on_context (fun c => mkContextState options (cw_stored c) (cw_enabled c) (cw_customized c) missing active
    (cw_hasLoaded c) (cw_widgets c) None).
Definition markLoaded (widgets : list WorkspaceWidgetSnapshot) : AgentState -> AgentState :=
  on_context (fun c => mkContextState (cw_options c) (cw_stored c) (cw_enabled c) (cw_customized c) (cw_missing c)
    (cw_workspaceActive c) true widgets (cw_loadError c)).

(** [loadContextWidgetsForPanel]; [c0] is what the call was given. *)
Definition loadContextWidgetsForPanel (env : PanelEnv) (c0 : ContextState) : Agent ContextSnapshot :=
  if negb (en_enabled env) then Ret (mkContextSnapshot "" [] [])
  else if cw_hasLoaded c0 then Ret (mkContextSnapshot (cw_workspaceActive c0) (cw_options c0) (cw_widgets c0))
  else
    workspaceSnapshot <- await FetchWorkspaceSnapshot ;;
    let options := mapContextWidgetOptions (snd workspaceSnapshot) in
    let activeWidgetID : option string := fst workspaceSnapshot in
    let active := (trimText <$> activeWidgetID) ?? "" in
    update (fun s =>
      let current := cw_missing (as_context s) in
      let missing :=
        if cw_customized c0 then
          let normalizedSelection := deduplicateWidgetIDs (cw_stored c0) in
          Z.max 0 (Z.of_nat (length normalizedSelection) -
                   Z.of_nat (length (filterContextWidgetSelection normalizedSelection options)))
        else if (0 <? current)%Z then 0%Z else current in
      withLoadedWidgets options missing active s) ;;;
    Ret (mkContextSnapshot active options (snd workspaceSnapshot)).

(** [loadContextWidgets] of the hook *)
Definition loadContextWidgets (env : PanelEnv) : Agent ContextSnapshot :=
  s <- get ;;
  snapshot <- loadContextWidgetsForPanel env (as_context s) ;;
  update (markLoaded (xs_widgets snapshot)) ;;;
  Ret snapshot.

(** The candidates for the terminal of the context. *)
Definition contextTerminalOf (selection : ContextSelection) (stored : list string) (snapshot : ContextSnapshot)
    : option WorkspaceWidgetSnapshot :=
  let activeContextTerminalID :=
    resolveCurrentContextWidgetID selection (xs_options snapshot) (Some (xs_activeWidgetID snapshot)) in
  let selectedContextWidgetIDs := filteredSelection (xs_options snapshot) stored in
  let candidates :=
    match selectedContextWidgetIDs with
    | [] => [activeContextTerminalID]
    | _ =>
        deduplicateWidgetIDs
          (selectedContextWidgetIDs ++
           (if includes activeContextTerminalID selectedContextWidgetIDs then [activeContextTerminalID] else []))
    end in
  resolveContextTerminalWidget (xs_widgets snapshot) candidates.

(** [ensuredTarget?.widgetId?.trim() ?? ''] when it is not empty *)
Definition ensuredOr (ensured : option string) (targetWidgetID : string) : string :=
  truthyOpt (trimText <$> ensured) ?? targetWidgetID.

Definition resolveTerminalExecutionTarget (env : PanelEnv) : Agent TerminalExecutionTarget :=
  s <- get ;;
  let c := as_context s in
  let shouldResolveFromContext := cw_enabled c && ((0 <? length (cw_stored c)) || cw_hasLoaded c) in
  contextTerminal <-
    (if shouldResolveFromContext then
       contextSnapshot <-
         (if cw_hasLoaded c
          then Ret (mkContextSnapshot (cw_workspaceActive c) (cw_options c) (cw_widgets c))
          else loadContextWidgets env) ;;
       Ret (contextTerminalOf (selectionOf env s) (cw_stored c) contextSnapshot)
     else Ret None) ;;
  let bindings := en_terminalPanelBindings env in
  let fallbackTerminal := resolveTerminalPanelBinding bindings (Some (en_activeWidgetHostId env)) in
  let hasVisibleContextTerminal :=
    match contextTerminal with
    | Some w => some (fun b => bool_decide (tb_runtimeWidgetId b = ww_id w)) bindings
    | None => false
    end in
  let fallbackTitle :=
    if decide (tb_preset <$> fallbackTerminal = Some PresetMain) then "Main terminal" else "Workspace shell" in
  let requestedWidgetTitle := trimmedTextOr (mbind ww_title contextTerminal) fallbackTitle in
  let targetWidgetID := orElse (ww_id <$> contextTerminal) (tb_runtimeWidgetId <$> fallbackTerminal) ?? "" in
  let needsVisibleTerminalTarget :=
    negb (truthy targetWidgetID) ||
    (negb (bool_decide (contextTerminal = None)) && negb hasVisibleContextTerminal) in
  targetWidgetID <-
    (if en_ensuresTerminal env && needsVisibleTerminalTarget then
       ensured <- await (EnsureVisibleTerminal (truthyOpt (Some targetWidgetID)) requestedWidgetTitle) ;;
       Ret (ensuredOr ensured targetWidgetID)
     else Ret targetWidgetID) ;;
  if negb (truthy targetWidgetID) then Throw (Some "No terminal widget is available for execution.")
  else
    baseline <- await (FetchTerminalSnapshot targetWidgetID) ;;
    let targetSession := targetSessionForConnectionKind (bl_connection_kind baseline) in
    let targetConnectionID :=
      trimmedTextOr (bl_connection_id baseline) (if decide (targetSession = "local") then "local" else "") in
    if negb (truthy targetConnectionID)
    then Throw (Some ("Terminal " +:+ targetWidgetID +:+ " has no active connection id."))
    else Ret (mkTarget (bl_next_seq baseline) targetConnectionID targetSession targetWidgetID).

(** ** Commands *)

Section Commands.
Context `{DateHost} `{Locale}.
Variable clock : nat -> Z.
Variable env : PanelEnv.

(** A function that takes sort keys. *)
Definition withKeys {A} (f : nat -> A * nat) : Agent A :=
  s <- get ;;
  let '(a, keys) := f (fl_keys (as_flow s)) in
  update (setKeys keys) ;;; Ret a.

(** The list of conversations is fetched again; [Conversations] has the call. *)
Variable refreshConversationList : Agent unit.

Definition contextInput (actionSource repoRoot : string) (target : TerminalExecutionTarget) : ContextInput :=
  mkContextInput actionSource (Some (et_targetWidgetID target)) true repoRoot
    (Some (et_targetConnectionID target)) (Some (et_targetSession target)).

(** What follows a command that was sent: wait for its output and explain it. *)
Definition explainCommand (command prompt : string) (target : TerminalExecutionTarget)
    (context : ConversationContext) : Agent unit :=
  _ <- await (WaitForTerminalOutput (et_targetWidgetID target) (et_baselineNextSeq target)) ;;
  explained <- await (ExplainTerminalCommand command context (et_baselineNextSeq target) prompt
                        (et_targetWidgetID target)) ;;
  update (applyConversationSnapshot (fst explained)) ;;;
  refreshConversationList ;;;
  let providerError : option string := snd explained in
  match truthyOpt (trimText <$> providerError) with
  | Some error => update (setSubmitError (Some error))
  | None => Ret tt
  end.

Definition runContext (source repoRoot : string) (target : TerminalExecutionTarget) : ToolContext :=
  mkToolContext source (et_targetWidgetID target) repoRoot (Some (et_targetConnectionID target))
    (Some (et_targetSession target)).

(** The flow that a [/run] command leaves when it needs a confirmation. *)
Definition pendingRun (prompt command repoRoot : string) (target : TerminalExecutionTarget)
    (approvalID summary : string) : Agent unit :=
  s <- get ;;
  let flowID := "agent-run-" +:+ en_hostId env +:+ "-" +:+ showNat (fl_flows (as_flow s)) in
  update bumpFlows ;;;
  let tools := [mkTool "term.send_input" (Some summary)] in
  planMessage <- withKeys (fun keys => createPlanMessage clock flowID prompt tools keys None) ;;
  approvalMessage <- withKeys (fun keys => createApprovalMessage clock flowID keys ApprovalPending) ;;
  let runApproval := mkRunApproval approvalID (et_baselineNextSeq target) command prompt repoRoot
    (et_targetConnectionID target) (et_targetSession target) (et_targetWidgetID target) in
  update (setPendingFlow
    (Some (mkFlow (Some (am_id approvalMessage)) None None false flowID prompt None (Some runApproval) tools))) ;;;
  update (setInteractionMessages (fun current =>
    sortMessagesBySortKey (current ++ [ViewPlan planMessage; ViewApproval approvalMessage]))).

(** [runTerminalPromptForPanel]: whether it took the prompt. *)
Definition runTerminalPrompt (prompt repoRoot : string) : Agent bool :=
  match getRunCommand prompt with
  | None => Ret false
  | Some EmptyString => Throw (Some "Usage: /run <command>")
  | Some command =>
      s <- get ;;
      target <- resolveTerminalExecutionTarget env ;;
      response <- await (ExecuteTool None (runContext "frontend.ai.sidebar.run" repoRoot target)
                           (SendInput true command (et_targetWidgetID target))) ;;
      match tr_status response with
      | ToolRequiresConfirmation =>
          match mbind (fun p => truthyOpt (fst p)) (tr_pending_approval response) with
          | None =>
              Throw (Some "Confirmation required before /run can continue, but no approval id was returned.")
          | Some approvalID =>
              let summary := trimmedTextOr (mbind snd (tr_pending_approval response)) ("Run " +:+ command) in
              pendingRun prompt command repoRoot target approvalID summary ;;; Ret true
          end
      | ToolOk =>
          explainCommand command prompt target
            (createConversationContext (selectionOf env s)
               (contextInput "frontend.ai.sidebar.run" repoRoot target)) ;;;
          Ret true
      | _ => Throw (Some (getTerminalExecutionResponseError response "Unable to execute /run command."))
      end
  end.

(** The target that a run approval recorded. *)
Definition targetOf (r : PendingRunApproval) : TerminalExecutionTarget :=
  mkTarget (ra_baselineNextSeq r) (ra_targetConnectionID r) (ra_targetSession r) (ra_targetWidgetID r).

(** [runApprovedTerminalPromptForPanel] *)
Definition runApprovedTerminalPrompt (runApproval : PendingRunApproval) (approvalToken : string) : Agent unit :=
  s <- get ;;
  let target := targetOf runApproval in
  response <- await (ExecuteTool (Some approvalToken)
                       (runContext "frontend.ai.sidebar.run" (ra_repoRoot runApproval) target)
                       (SendInput true (ra_command runApproval) (ra_targetWidgetID runApproval))) ;;
  match tr_status response with
  | ToolRequiresConfirmation => Throw (Some "Confirmed /run execution still requires approval.")
  | ToolOk =>
      explainCommand (ra_command runApproval) (ra_prompt runApproval) target
        (createConversationContext (selectionOf env s)
           (contextInput "frontend.ai.sidebar.run" (ra_repoRoot runApproval) target))
  | _ =>
      Throw (Some (getTerminalExecutionResponseError response "Unable to execute approved /run command."))
  end.

(** The confirmation of a planned command, and the command again with its token. *)
Definition confirmAndSend (context : ToolContext) (command widget_id : string)
    (pendingApproval : option (option string * option string)) : Agent AgentToolExecuteResponse :=
  match mbind (fun p => truthyOpt (fst p)) pendingApproval with
  | None => Throw (Some "Approval confirmation did not return a terminal execution approval id.")
  | Some approvalID =>
      confirmation <- await (ExecuteTool None
          (mkToolContext "frontend.ai.sidebar.execute.confirm" (tx_active_widget_id context)
             (tx_repo_root context) (tx_target_connection_id context) (tx_target_session context))
          (SafetyConfirm approvalID)) ;;
      match tr_status confirmation with
      | ToolOk =>
          token <- getApprovalToken confirmation ;;
          await (ExecuteTool (Some token) context (SendInput true command widget_id))
      | _ =>
          Throw (Some (trimmedTextOr (tr_error confirmation) "Unable to confirm the planned terminal execution."))
      end
  end.

(** [runApprovedExecutionPlanForPanel] *)
Definition runApprovedExecutionPlan (prompt repoRoot : string) (model : option string) : Agent unit :=
  s <- get ;;
  let selection := selectionOf env s in
  target <- resolveTerminalExecutionTarget env ;;
  let input := contextInput "frontend.ai.sidebar.execute" repoRoot target in
  let planningContext := createConversationContext selection input in
  let executionContext := createToolExecutionContext selection input in
  plannedCommand <- await (PlanTerminalCommand planningContext model prompt (et_targetWidgetID target)) ;;
  let command := trimText plannedCommand in
  if negb (truthy command) then Throw (Some "Terminal command planning did not return a runnable command.")
  else
    firstResponse <- await (ExecuteTool None executionContext (SendInput true command (et_targetWidgetID target))) ;;
    response <-
      (match tr_status firstResponse with
       | ToolRequiresConfirmation =>
           confirmAndSend executionContext command (et_targetWidgetID target) (tr_pending_approval firstResponse)
       | _ => Ret firstResponse
       end) ;;
    match tr_status response with
    | ToolOk => explainCommand command prompt target planningContext
    | _ =>
        Throw (Some (getTerminalExecutionResponseError response "Unable to execute the approved terminal plan."))
    end.

End Commands.

(** * Lemmas *)

(** ** Polling *)

(** The [k]-th delay, and the sum of the first [k]. *)
Definition pollDelay (k : nat) : Z := Nat.iter k nextPollDelay runOutputInitialPollIntervalMs.
Fixpoint pollDelays (k : nat) : Z :=
  match k with O => 0%Z | S k' => (pollDelays k' + pollDelay k')%Z end.

Lemma pollDelay_S k : pollDelay (S k) = nextPollDelay (pollDelay k).
Proof. reflexivity. Qed.

Lemma pollDelay_bounds k : (100 <= pollDelay k <= 500)%Z.
Proof.
  induction k as [|k IH]; [done|]. rewrite pollDelay_S. unfold nextPollDelay, runOutputMaxPollIntervalMs.
  pose proof (Z.div_le_mono (100 * 16 + 5) (pollDelay k * 16 + 5) 10). 
  assert ((100 * 16 + 5) / 10 = 160)%Z as E by reflexivity. lia.
Qed.

Section Polling.
Variable snapshot : nat -> PolledSnapshot.
Variable now : nat -> Z.
Variables fromSeq deadline : Z.

(** The loop stops after the fetch [k]. *)
Definition stops (k : nat) : bool := hasOutput fromSeq (snapshot k) || (deadline <=? now k)%Z.

Lemma pollLoop_spec fuel k r n w :
  pollLoop snapshot now fromSeq deadline fuel k (pollDelay k) (pollDelays k) = Some (r, n, w) ->
  exists m, n = S m /\ k <= m <= k + fuel /\ r = snapshot m /\ stops m = true /\ w = pollDelays m /\
    forall i, k <= i < m -> stops i = false.
Proof.
  revert k. induction fuel as [|fuel IH]; intros k; cbn [pollLoop]; fold (stops k);
    destruct (stops k) eqn:E; intros H.
  - injection H as <- <- <-. exists k. split_and!; try done; try lia.
  - done.
  - injection H as <- <- <-. exists k. split_and!; try done; try lia.
  - rewrite <- pollDelay_S in H. change (pollDelays k + pollDelay k)%Z with (pollDelays (S k)) in H.
    apply IH in H as (m & -> & Hm & -> & Hs & -> & Hi). exists m. split_and!; try done; try lia.
    intros i Hik. destruct (decide (i = k)) as [->|]; [done|]. apply Hi. lia.
Qed.

Lemma pollLoop_total fuel k d w :
  stops (k + fuel) = true -> exists r, pollLoop snapshot now fromSeq deadline fuel k d w = Some r.
Proof.
  revert k d w. induction fuel as [|fuel IH]; intros k d w Hs; cbn [pollLoop]; fold (stops k).
  - rewrite Nat.add_0_r in Hs. rewrite Hs. eauto.
  - destruct (stops k); [eauto|]. apply IH. by replace (S k + fuel) with (k + S fuel) by lia.
Qed.

End Polling.

(** A [/run] prompt.  The command is what follows the word and white space,
    trimmed; it is empty for the bare word and white space, and absent when the
    text starts otherwise, also when the word goes on with another character. *)
Lemma getRunCommand_spec prompt :
  match getRunCommand prompt with
  | Some command =>
      prompt = "/run" /\ command = "" \/
      exists w rest, w ∈ spaces /\ prompt = "/run" +:+ w +:+ rest /\
        command = trimText (trimStartText (w +:+ rest))
  | None => forall rest, prompt = "/run" +:+ rest -> rest <> "" /\ forall w, w ∈ spaces -> startsWith w rest = false
  end.
Proof.
  unfold getRunCommand. destruct (startsWith "/run" prompt) eqn:E.
  - apply startsWith_spec in E as [t ->]. change (strDrop 4 ("/run" +:+ t)) with t.
    destruct t as [|a t]; [by left|]. unfold leadingSpace.
    destruct (find _ spaces) as [w|] eqn:Ew.
    + apply find_Some in Ew as [Hw1 [rest Hrest]%startsWith_spec].
      right. exists w, rest. rewrite <- Hrest. done.
    + intros rest Hrest. apply append_inj_l in Hrest as <-. split; [done|].
      intros w Hw. by apply (proj1 (find_None _ _) Ew).
  - intros rest ->. assert (startsWith "/run" ("/run" +:+ rest) = true) as H; [|by rewrite H in E].
    apply startsWith_spec. by exists rest.
Qed.

(** * Properties *)

(** C39: the wait for the output of a command ends.  When each delay takes at
    least its time on the clock, the loop fetches at most seven snapshots and
    sleeps at most 1926 ms, every delay between 100 and 500 ms.  It returns the
    last snapshot fetched: the first one with output, or one fetched when at
    least 1500 ms had passed, after others without output. *)
Theorem waitForTerminalOutput_ends (snapshot : nat -> PolledSnapshot) (now : nat -> Z) fromSeq started
    (Hstart : (started <= now O)%Z) (Hclock : forall k : nat, (now k + pollDelay k <= now (S k))%Z) :
  exists r m w,
    waitForTerminalOutput snapshot now fromSeq started 6 = Some (r, S m, w) /\
    m <= 6 /\ (w <= 1926)%Z /\ r = snapshot m /\
    (hasOutput fromSeq r = true \/ (started + 1500 <= now m)%Z) /\
    (forall i, i < m -> hasOutput fromSeq (snapshot i) = false).
Proof.
  assert (forall k, (started + pollDelays k <= now k)%Z) as Hnow.
  { induction k as [|k IH]; cbn [pollDelays]; [lia|]. specialize (Hclock k). lia. }
  assert (stops snapshot now fromSeq (started + 1500) 6 = true) as Hs.
  { unfold stops. apply orb_true_iff. right. apply Z.leb_le. specialize (Hnow 6).
    change (pollDelays 6) with 1926%Z in Hnow. lia. }
  unfold waitForTerminalOutput, runOutputWaitTimeoutMs.
  destruct (pollLoop_total snapshot now fromSeq (started + 1500) 6 0 runOutputInitialPollIntervalMs 0 Hs)
    as [[[r n] w] Hr].
  rewrite Hr. apply pollLoop_spec in Hr as (m & -> & Hm & -> & Hsm & -> & Hi).
  exists (snapshot m), m, (pollDelays m). split; [done|]. split; [lia|]. split.
  { destruct Hm as [_ Hm]. do 7 (destruct m as [|m]; [vm_compute; discriminate|]). lia. }
  split; [done|]. unfold stops in *. split.
  - apply orb_true_iff in Hsm as [Hsm|Hsm]; [by left|right; by apply Z.leb_le].
  - intros i Him. specialize (Hi i ltac:(lia)). by apply orb_false_iff in Hi as [? _].
Qed.

(** * Witnesses *)

(** Snapshots without output until the fourth one, on a clock that takes 10 ms
    longer than every delay. *)
Lemma waitForTerminalOutput_ends_witness :
  waitForTerminalOutput (fun k => mkPolled (if k <? 3 then 5 else 6) false)
    (fun k => pollDelays k + 10 * Z.of_nat k)%Z 5 0 6 = Some (mkPolled 6 false, 4, 516%Z) /\
  exists r m w,
    waitForTerminalOutput (fun _ => mkPolled 5 false) (fun k => pollDelays k + 10 * Z.of_nat k)%Z 5 0 6 =
      Some (r, S m, w) /\ m <= 6.
Proof.
  split; [reflexivity|].
  destruct (waitForTerminalOutput_ends (fun _ => mkPolled 5 false) (fun k => pollDelays k + 10 * Z.of_nat k)%Z 5 0)
    as (r & m & w & Hr & Hm & _).
  - done.
  - intros k. cbn [pollDelays]. lia.
  - by exists r, m, w.
Defined.
