(* ===== verification/Conversations.v ===== *)
(** * The conversations of the agent panel

    [frontend/src/features/agent/model/agent-panel-conversations.ts], the
    persistence of the context in [agent-panel-context-runtime.ts] and
    [use-agent-panel-context-selection.ts], and the callbacks of
    [use-agent-panel.ts] that use them.  A call that is not awaited
    ([void f().catch(...)]) is the last thing that its handler does; where the
    handler goes on, its synchronous rest stands before the first await. *)
From Stdlib Require Import Ascii String.
From stdpp Require Import strings.
From S2P Require Import Prelude JsString Text Sse Conversation Interaction MessageView AgentContext Providers Effects AgentState Execution.
Local Open Scope string_scope.
Local Open Scope list_scope.
Local Open Scope nat_scope.
Local Open Scope js_scope.
Local Open Scope prog_scope.

Section Conversations.
Context `{DateHost} `{Locale}.

(** ** The list *)

(** [refreshConversationListForPanel] up to its [await]: the nonce of the request. *)
Definition beginListRefresh : Agent nat :=
  s <- get ;;
  update bumpListNonce ;;;
  update (setListPending true) ;;;
  Ret (S (cv_listNonce (as_conversation s))).

(** The [await] and the rest. *)
Definition finishListRefresh (query : string) (scope : AgentConversationListScope) (nonce : nat)
    : Agent (option AgentConversationList) :=
  finally
    (conversationList <- await (FetchConversations query scope) ;;
     s <- get ;;
     if negb (cv_listNonce (as_conversation s) =? nonce) then Ret None
     else
       update (setConversations (fun _ => sortConversationSummaries (ls_conversations conversationList))) ;;;
       update (setCounts (ls_counts conversationList)) ;;;
       update (setActiveConversation (fun current =>
         truthyOpt (Some (ls_active_conversation_id conversationList)) ?? current)) ;;;
       Ret (Some conversationList))
    (s <- get ;;
     if cv_listNonce (as_conversation s) =? nonce then update (setListPending false) else Ret tt).

Definition refreshConversationListForPanel (query : string) (scope : AgentConversationListScope)
    : Agent (option AgentConversationList) :=
  nonce <- beginListRefresh ;; finishListRefresh query scope nonce.

(** [refreshConversationList()] of the hook: the query and the scope of the panel. *)
Definition refreshConversationList : Agent unit :=
  s <- get ;;
  _ <- refreshConversationListForPanel (cv_query (as_conversation s)) (cv_scope (as_conversation s)) ;;
  Ret tt.

(** ** Transitions *)

(** [resetConversationInteractionState] *)
Definition resetConversationInteractionState : Agent unit :=
  update (setPendingFlow None) ;;; update (setInteractionMessages (fun _ => [])) ;;; update (setSubmitError None).

Definition reportError (fallback : string) (error : JsError) : Agent unit :=
  update (setSubmitError (Some (getErrorMessage error fallback))).

(** The guards that all transitions share. *)
Definition isBusy (s : AgentState) : bool :=
  sb_isSubmitting (as_submit s) || cv_isConversationPending (as_conversation s).

(** The first part of a transition: the epoch of its answer. *)
Definition beginTransition : Agent nat :=
  s <- get ;;
  update resetSubmissionRuntime ;;;
  update bumpEpoch ;;;
  update (setConversationPending true) ;;;
  Ret (S (cv_epoch (as_conversation s))).

(** [try { ... } catch { report } finally { unflag }] *)
Definition pendingTransition (errorMessage : string) (body : Agent unit) : Agent unit :=
  finally (tryCatch body (reportError errorMessage)) (update (setConversationPending false)).

(** The bodies of [switchConversationForPanel] and [createConversationForPanel]. *)
Definition openConversation (change : ConversationChange) (conversationID errorMessage : string) : Agent unit :=
  epoch <- beginTransition ;;
  pendingTransition errorMessage
    (snapshot <- await (ChangeConversation change conversationID) ;;
     s <- get ;;
     if negb (cv_epoch (as_conversation s) =? epoch) then Ret tt
     else
       update (applyConversationSnapshot snapshot) ;;;
       resetConversationInteractionState ;;;
       refreshConversationList).

Definition switchConversation (conversationID : string) : Agent unit :=
  s <- get ;;
  let nextConversationID := trimText conversationID in
  if negb (truthy nextConversationID) || bool_decide (nextConversationID = cv_active (as_conversation s)) ||
     isBusy s then Ret tt
  else openConversation ActivateConversation nextConversationID "Unable to switch the active conversation.".

Definition createConversation : Agent unit :=
  s <- get ;;
  if isBusy s then Ret tt
  else openConversation CreateConversation "" "Unable to create a new conversation.".

(** The refresh is not awaited: it starts before the flag is dropped, and its
    answer comes after. *)
Definition renameConversation (conversationID title : string) : Agent unit :=
  s <- get ;;
  let nextConversationID := trimText conversationID in
  if negb (truthy nextConversationID) || isBusy s then Ret tt
  else
    update (setConversationPending true) ;;;
    refresh <- finally
      (tryCatch
         (snapshot <- await (ChangeConversation (RenameConversation title) nextConversationID) ;;
          update (applyConversationSnapshot snapshot) ;;;
          s <- get ;;
          nonce <- beginListRefresh ;;
          Ret (Some (cv_query (as_conversation s), cv_scope (as_conversation s), nonce)))
         (fun error => reportError "Unable to rename the conversation." error ;;; Ret None))
      (update (setConversationPending false)) ;;
    match refresh with
    | Some (query, scope, nonce) =>
        tryCatch (_ <- finishListRefresh query scope nonce ;; Ret tt) (reportError "Unable to refresh the conversation list.")
    | None => Ret tt
    end.

(** [mutateConversationCollectionForPanel] *)
Definition mutateConversationCollection (change : ConversationChange) (errorMessage conversationID : string)
    : Agent unit :=
  s0 <- get ;;
  let c0 := as_conversation s0 in
  let nextConversationID := trimText conversationID in
  if negb (truthy nextConversationID) || isBusy s0 then Ret tt
  else
    epoch <- beginTransition ;;
    pendingTransition errorMessage
      (snapshot <- await (ChangeConversation change nextConversationID) ;;
       conversationList <- await (FetchConversations (cv_query c0) (cv_scope c0)) ;;
       s <- get ;;
       if negb (cv_epoch (as_conversation s) =? epoch) then Ret tt
       else
         (if decide (cv_active c0 = nextConversationID)
          then update (applyConversationSnapshot snapshot) ;;; resetConversationInteractionState
          else Ret tt) ;;;
         update (setConversations (fun _ => sortConversationSummaries (ls_conversations conversationList))) ;;;
         update (setCounts (ls_counts conversationList)) ;;;
         update (setActiveConversation (fun _ =>
           truthyOpt (Some (ls_active_conversation_id conversationList)) ?? sn_id snapshot))).

Definition deleteConversation := mutateConversationCollection DeleteConversation "Unable to delete the conversation.".
Definition archiveConversation := mutateConversationCollection ArchiveConversation "Unable to archive the conversation.".
Definition restoreConversation := mutateConversationCollection RestoreConversation "Unable to restore the conversation.".

(** ** The context *)

Definition ensureCurrentConversationSnapshotLoaded : Agent unit :=
  s <- get ;;
  if truthy (trimText (cv_active (as_conversation s))) && negb (bool_decide (sb_messages (as_submit s) = None))
  then Ret tt
  else
    snapshot <- await FetchConversation ;;
    update (applyConversationSnapshot snapshot) ;;;
    refreshConversationList.

Definition persistConversationContextPreferences (preferences : AgentConversationContextPreferences) : Agent unit :=
  s <- get ;;
  conversationID <-
    (let current := trimText (cv_active (as_conversation s)) in
     if truthy current then Ret current
     else
       currentSnapshot <- await FetchConversation ;;
       update (applyConversationSnapshot currentSnapshot) ;;;
       Ret (trimText (sn_id currentSnapshot))) ;;
  if negb (truthy conversationID) then Ret tt
  else
    snapshot <- await (UpdateConversationContext conversationID preferences) ;;
    update (applyConversationSnapshot snapshot) ;;;
    refreshConversationList.

Definition withSelection (stored : list string) (enabled customized : bool) (missing : Z) : AgentState -> AgentState :=
  on_context (fun c => mkContextState (cw_options c) stored enabled customized missing (cw_workspaceActive c)
    (cw_hasLoaded c) (cw_widgets c) (cw_loadError c)).
Definition setContextLoadError (error : option string) : AgentState -> AgentState :=
  on_context (fun c => mkContextState (cw_options c) (cw_stored c) (cw_enabled c) (cw_customized c) (cw_missing c)
    (cw_workspaceActive c) (cw_hasLoaded c) (cw_widgets c) error).

Definition persistCleanedContextWidgetSelection (options : list AiContextWidgetOption) : Agent bool :=
  s <- get ;;
  let c := as_context s in
  let normalizedSelection := deduplicateWidgetIDs (cw_stored c) in
  let cleanedWidgetIDs := filterContextWidgetSelection normalizedSelection options in
  if negb (cw_customized c) || (length normalizedSelection =? 0) ||
     (length cleanedWidgetIDs =? length normalizedSelection) then Ret false
  else
    update (withSelection cleanedWidgetIDs (cw_enabled c) (cw_customized c) 0) ;;;
    persistConversationContextPreferences (mkPreferences (cw_enabled c) (Some cleanedWidgetIDs)) ;;;
    Ret true.

Definition contextErrorMessage (error : JsError) : string := getErrorMessage error "Unable to load workspace widgets.".

Definition handleContextOptionsOpen (env : PanelEnv) : Agent unit :=
  tryCatch
    (ensureCurrentConversationSnapshotLoaded ;;;
     snapshot <- loadContextWidgets env ;;
     _ <- persistCleanedContextWidgetSelection (xs_options snapshot) ;;
     Ret tt)
    (fun error => update (setContextLoadError (Some (contextErrorMessage error)))).

(** [void persistConversationContextPreferences(...).catch(...)] *)
Definition persistInBackground (preferences : AgentConversationContextPreferences) (errorMessage : string)
    : Agent unit :=
  tryCatch (persistConversationContextPreferences preferences) (reportError errorMessage).

Definition contextUpdateError : string := "Unable to update the conversation context.".

(** The callbacks that choose widgets after loading them: [choose] answers the
    next ids and whether they are a choice of the user. *)
Definition chooseContextWidgets (env : PanelEnv) (choose : AgentState -> ContextSnapshot -> option (list string * bool))
    : Agent unit :=
  s <- get ;;
  next <- tryCatch
    (snapshot <- loadContextWidgets env ;;
     match choose s snapshot with
     | None => Ret None
     | Some (ids, customized) =>
         update (withSelection ids true customized 0) ;;;
         update (setContextLoadError None) ;;;
         Ret (Some ids)
     end)
    (fun error => update (setContextLoadError (Some (contextErrorMessage error))) ;;; Ret None) ;;
  match next with
  | Some ids => persistInBackground (mkPreferences true (Some ids)) contextUpdateError
  | None => Ret tt
  end.

(** [useCurrentContextWidget(mode)] *)
Definition useCurrentContextWidget (env : PanelEnv) (append : bool) : Agent unit :=
  chooseContextWidgets env (fun s snapshot =>
    let selection := selectionOf env s in
    let activeWidgetID :=
      resolveCurrentContextWidgetID selection (xs_options snapshot) (Some (xs_activeWidgetID snapshot)) in
    if negb (truthy activeWidgetID) then None
    else Some (if append then deduplicateWidgetIDs (effectiveContextWidgetIDs selection ++ [activeWidgetID])
               else [activeWidgetID], true)).

Definition useAllContextWidgets (env : PanelEnv) : Agent unit :=
  chooseContextWidgets env (fun _ snapshot => Some (deduplicateWidgetIDs (co_value <$> xs_options snapshot), true)).

Definition resetContextWidgetSelection (env : PanelEnv) : Agent unit :=
  chooseContextWidgets env (fun _ _ => Some ([], false)).

Definition updateSelectedContextWidgetIDs (widgetIDs : list string) : Agent unit :=
  let normalizedWidgetIDs := deduplicateWidgetIDs widgetIDs in
  update (withSelection normalizedWidgetIDs true true 0) ;;;
  persistInBackground (mkPreferences true (Some normalizedWidgetIDs)) contextUpdateError.

(** The stored ids stay; the effective ones are sent. *)
Definition updateWidgetContextEnabled (env : PanelEnv) (nextValue : bool) : Agent unit :=
  s <- get ;;
  let effective := deduplicateWidgetIDs (effectiveContextWidgetIDs (selectionOf env s)) in
  update (fun s' => withSelection (cw_stored (as_context s')) nextValue
                      (negb nextValue || (0 <? length effective)) 0 s') ;;;
  persistInBackground (mkPreferences nextValue (Some effective)) contextUpdateError.

Definition repairMissingContextWidgets (env : PanelEnv) : Agent unit :=
  s <- get ;;
  let c := as_context s in
  let nextWidgetIDs := deduplicateWidgetIDs (effectiveContextWidgetIDs (selectionOf env s)) in
  update (withSelection nextWidgetIDs (cw_enabled c) ((0 <? length nextWidgetIDs) || negb (cw_enabled c)) 0) ;;;
  persistInBackground (mkPreferences (cw_enabled c) (Some nextWidgetIDs))
    "Unable to save the cleaned conversation context.".

End Conversations.
