(* ===== verification/PanelRuntime.v ===== *)
(** * Providers at run time and the start of the agent panel

    [frontend/src/features/agent/model/agent-panel-provider-runtime.ts],
    [agent-panel-bootstrap.ts], and the callbacks of [use-agent-panel.ts] for
    profiles, roles, modes and stored attachments. *)
From Stdlib Require Import Ascii String.
From stdpp Require Import strings.
From S2P Require Import Prelude JsString Text Sse Conversation Interaction MessageView AgentContext Providers Effects AgentState Execution Conversations.
Local Open Scope string_scope.
Local Open Scope list_scope.
Local Open Scope nat_scope.
Local Open Scope js_scope.
Local Open Scope prog_scope.

(** ** Setters *)

Definition setGateway (f : ProviderState -> option AgentProviderGatewaySnapshot * option string * bool)
    : AgentState -> AgentState :=
  on_provider (fun p =>
    let '(gateway, error, pending) := f p in
    mkProviderState (pr_catalog p) (pr_selectedProviderID p) (pr_availableModels p) (pr_selectedModel p)
      gateway error pending (pr_isRoutePreparing p) (pr_isRouteProbing p) (pr_history p) (pr_historyTotal p)
      (pr_historyError p) (pr_isHistoryPending p) (pr_agentCatalog p) (pr_recentAttachments p)).
Definition setGatewayPending (pending : bool) : AgentState -> AgentState :=
  setGateway (fun p => (pr_gateway p, pr_gatewayError p, pending)).
Definition setGatewayError (error : option string) : AgentState -> AgentState :=
  setGateway (fun p => (pr_gateway p, error, pr_isGatewayPending p)).
Definition setRoute (preparing probing : ProviderState -> bool) : AgentState -> AgentState :=
  on_provider (fun p => mkProviderState (pr_catalog p) (pr_selectedProviderID p) (pr_availableModels p)
    (pr_selectedModel p) (pr_gateway p) (pr_gatewayError p) (pr_isGatewayPending p) (preparing p) (probing p)
    (pr_history p) (pr_historyTotal p) (pr_historyError p) (pr_isHistoryPending p) (pr_agentCatalog p)
    (pr_recentAttachments p)).
Definition setHistory (runs : list AgentProviderGatewayRun) (total : Z) (error : ProviderState -> option string)
    : AgentState -> AgentState :=
  on_provider (fun p => mkProviderState (pr_catalog p) (pr_selectedProviderID p) (pr_availableModels p)
    (pr_selectedModel p) (pr_gateway p) (pr_gatewayError p) (pr_isGatewayPending p) (pr_isRoutePreparing p)
    (pr_isRouteProbing p) runs total (error p) (pr_isHistoryPending p) (pr_agentCatalog p) (pr_recentAttachments p)).
Definition setHistoryPending (pending : bool) : AgentState -> AgentState :=
  on_provider (fun p => mkProviderState (pr_catalog p) (pr_selectedProviderID p) (pr_availableModels p)
    (pr_selectedModel p) (pr_gateway p) (pr_gatewayError p) (pr_isGatewayPending p) (pr_isRoutePreparing p)
    (pr_isRouteProbing p) (pr_history p) (pr_historyTotal p) (pr_historyError p) pending (pr_agentCatalog p)
    (pr_recentAttachments p)).
Definition setSelection (catalog : option AgentProviderCatalog) (providerID : string) (models : list string)
    (model : string -> string) : AgentState -> AgentState :=
  on_provider (fun p => mkProviderState catalog providerID models (model (pr_selectedModel p)) (pr_gateway p)
    (pr_gatewayError p) (pr_isGatewayPending p) (pr_isRoutePreparing p) (pr_isRouteProbing p) (pr_history p)
    (pr_historyTotal p) (pr_historyError p) (pr_isHistoryPending p) (pr_agentCatalog p) (pr_recentAttachments p)).
Definition setAgentCatalog (catalog : option AgentCatalog) : AgentState -> AgentState :=
  on_provider (fun p => mkProviderState (pr_catalog p) (pr_selectedProviderID p) (pr_availableModels p)
    (pr_selectedModel p) (pr_gateway p) (pr_gatewayError p) (pr_isGatewayPending p) (pr_isRoutePreparing p)
    (pr_isRouteProbing p) (pr_history p) (pr_historyTotal p) (pr_historyError p) (pr_isHistoryPending p) catalog
    (pr_recentAttachments p)).
Definition setRecentAttachments (attachments : list AgentAttachmentReference) : AgentState -> AgentState :=
  on_provider (fun p => mkProviderState (pr_catalog p) (pr_selectedProviderID p) (pr_availableModels p)
    (pr_selectedModel p) (pr_gateway p) (pr_gatewayError p) (pr_isGatewayPending p) (pr_isRoutePreparing p)
    (pr_isRouteProbing p) (pr_history p) (pr_historyTotal p) (pr_historyError p) (pr_isHistoryPending p)
    (pr_agentCatalog p) attachments).

Section PanelRuntime.
Context `{DateHost} `{Locale}.

(** ** The gateway and its history *)

(** [refreshProviderGatewaySnapshotForPanel]; the callers pass
    [suppressError: true], except the button of the panel. *)
Definition refreshProviderGatewaySnapshot (suppressError : bool) : Agent unit :=
  update (setGatewayPending true) ;;;
  finally
    (tryCatch
       (snapshot <- await (FetchGateway None) ;;
        update (setGateway (fun p => (Some snapshot, None, pr_isGatewayPending p))))
       (fun error =>
          if suppressError then Ret tt
          else update (setGatewayError
                 (Some (getErrorMessage error "Unable to load provider gateway telemetry.")))))
    (update (setGatewayPending false)).

(** [activeProviderID] of the hook *)
Definition activeProviderID (s : AgentState) : string :=
  let p := as_provider s in
  trimText (truthyOpt (Some (pr_selectedProviderID p)) ??
            ((pc_active_provider_id <$> pr_catalog p) ?? "")).

Definition refreshActiveProviderHistory (requested : option string) (suppressError : bool) : Agent unit :=
  s <- get ;;
  let providerID := trimText (requested ?? activeProviderID s) in
  if negb (truthy providerID) then
    update (setHistory [] 0 (fun _ => None)) ;;; update (setHistoryPending false)
  else
    update (setHistoryPending true) ;;;
    finally
      (tryCatch
         (snapshot <- await (FetchGateway (Some (providerID, 3))) ;;
          update (setHistory (gw_recent_runs snapshot) (gw_recent_runs_total snapshot) (fun _ => None)))
         (fun error =>
            update (setHistory [] 0 (fun p =>
              if suppressError then pr_historyError p
              else Some (getErrorMessage error
                     "Unable to load the recent route activity for the active provider.")))))
      (update (setHistoryPending false)).

(** ** Providers *)

Definition selectProvider (providerID : string) : Agent unit :=
  s0 <- get ;;
  let nextProviderID := trimText providerID in
  if negb (truthy nextProviderID) ||
     bool_decide (nextProviderID = pr_selectedProviderID (as_provider s0)) then Ret tt
  else
    update bumpEpoch ;;;
    let epoch := S (cv_epoch (as_conversation s0)) in
    tryCatch
      (update (setLoadError None) ;;;
       update (setSubmitError None) ;;;
       nextCatalog <- await (ActivateProvider nextProviderID) ;;
       s <- get ;;
       if negb (cv_epoch (as_conversation s) =? epoch) then Ret tt
       else
         let nextProvider := findCatalogActiveProvider (Some nextCatalog) in
         let nextModels := directProviderChatModels nextProvider in
         update (setSelection (Some nextCatalog) ((pv_id <$> nextProvider) ?? nextProviderID) nextModels
           (fun _ => selectPreferredChatModel "" (Some (directProviderDefaultModel nextProvider)) nextModels)) ;;;
         update (setProvider
           (providerViewToConversationProvider nextProvider (cv_provider (as_conversation s0)))) ;;;
         refreshProviderGatewaySnapshot true)
      (reportError "Unable to switch the active AI provider.").

Definition reportGatewayError (fallback : string) (error : JsError) : Agent unit :=
  update (setGatewayError (Some (getErrorMessage error fallback))).

Definition prewarmActiveProviderRoute : Agent unit :=
  s <- get ;;
  let providerID := activeProviderID s in
  if negb (truthy providerID) || pr_isRoutePreparing (as_provider s) then Ret tt
  else
    update (setGatewayError None) ;;;
    update (setRoute (fun _ => true) pr_isRouteProbing) ;;;
    finally
      (tryCatch
         (_ <- await (ProviderRoute RoutePrewarm providerID) ;; refreshProviderGatewaySnapshot true)
         (reportGatewayError "Unable to prepare the active provider route."))
      (update (setRoute (fun _ => false) pr_isRouteProbing)).

Definition probeActiveProviderRoute : Agent unit :=
  s <- get ;;
  let providerID := activeProviderID s in
  if negb (truthy providerID) || pr_isRouteProbing (as_provider s) then Ret tt
  else
    update (setGatewayError None) ;;;
    update (setRoute pr_isRoutePreparing (fun _ => true)) ;;;
    finally
      (tryCatch
         (_ <- await (ProviderRoute RouteProbe providerID) ;; refreshProviderGatewaySnapshot true)
         (reportGatewayError "Unable to probe the active provider route."))
      (update (setRoute pr_isRoutePreparing (fun _ => false))).

Definition clearActiveProviderRouteState : Agent unit :=
  s <- get ;;
  let p := as_provider s in
  let providerID := activeProviderID s in
  if negb (truthy providerID) || pr_isGatewayPending p || pr_isRoutePreparing p || pr_isRouteProbing p then Ret tt
  else
    update (setGatewayError None) ;;;
    tryCatch
      (_ <- await (ProviderRoute RouteClear providerID) ;; refreshProviderGatewaySnapshot true)
      (reportGatewayError "Unable to clear the active provider route state.").

(** ** Profiles, roles and modes *)

Definition activeSelectionID (selection : AgentSelection) (c : AgentCatalog) : string :=
  match selection with
  | SelectionProfile => ac_profileID c
  | SelectionRole => ac_roleID c
  | SelectionMode => ac_modeID c
  end.
Definition selectionError (selection : AgentSelection) : string :=
  match selection with
  | SelectionProfile => "Unable to switch the active AI prompt profile."
  | SelectionRole => "Unable to switch the active AI role."
  | SelectionMode => "Unable to switch the active AI mode."
  end.

(** [selectProfile], [selectRole] and [selectMode] *)
Definition selectAgent (selection : AgentSelection) (itemID : string) : Agent unit :=
  s <- get ;;
  let nextID := trimText itemID in
  if negb (truthy nextID) ||
     bool_decide (activeSelectionID selection <$> pr_agentCatalog (as_provider s) = Some nextID) then Ret tt
  else
    tryCatch
      (update (setSubmitError None) ;;;
       catalog <- await (SelectAgent selection nextID) ;;
       update (setAgentCatalog (Some catalog)))
      (reportError (selectionError selection)).

Definition isTerminalInputBlocked (s : AgentState) : bool :=
  match pr_agentCatalog (as_provider s) with
  | Some c => isTerminalInputBlockedByPolicy (ac_removals c)
  | None => false
  end.

(** ** The start *)

(** [resetAgentPanelRuntime] of the effect, with the nonce and the abort before it. *)
Definition resetAgentPanelRuntime : Agent unit :=
  update resetSubmissionRuntime ;;;
  update (setPendingFlow None) ;;;
  update (on_context (fun c => mkContextState (cw_options c) (cw_stored c) (cw_enabled c) false (cw_missing c)
    (cw_workspaceActive c) false [] (cw_loadError c))) ;;;
  update (fun s => setFlags (sb_isSubmitting (as_submit s)) false false s).

Definition defaultConversationListCounts : AgentConversationListCounts := mkCounts 0 0 0.

(** [resetAgentPanelBootstrapState], with the search query of the effect. *)
Definition resetAgentPanelBootstrapState (s : AgentState) : AgentState :=
  let b := as_submit s in
  let c := as_conversation s in
  let x := as_context s in
  mkAgentState
    (mkFlowState None [] (fl_keys (as_flow s)) (fl_flows (as_flow s)))
    (mkSubmitState false (sb_isResponseCancellable b) (sb_blocked b) None None (sb_nonce b) (sb_activeStream b)
       (sb_activeAbort b) (sb_activeAudit b) None (sb_optimistic b) "" (sb_attachments b))
    (mkConversationState "" [] defaultConversationListCounts None false true (cv_epoch c) (cv_listNonce c) ""
       ScopeRecent)
    (mkContextState [] [] true (cw_customized x) 0 "" (cw_hasLoaded x) (cw_widgets x) None)
    (mkProviderState None "" [] "" None None true false false [] 0 None false None []).

Definition orNone {A} (r : A + JsError) : option A := match r with inl a => Some a | inr _ => None end.

(** [bootstrapAgentPanel] *)
Definition bootstrapAgentPanel (hostId : string) (epoch : nat) : Agent bool :=
  results <- await FetchBootstrap ;;
  s <- get ;;
  if negb (cv_epoch (as_conversation s) =? epoch) then Ret false
  else
    match br_conversation results with
    | inr error =>
        update (setLoadError (Some (getErrorMessage error
          ("Unable to load backend conversation for " +:+ hostId +:+ "."))))
    | inl snapshot => update (applyConversationSnapshot snapshot)
    end ;;;
    match br_providerCatalog results with
    | inl catalog =>
        let activeProvider := findCatalogActiveProvider (Some catalog) in
        let chatModels := directProviderChatModels activeProvider in
        let providerModel :=
          orElse (truthyOpt (Some (directProviderDefaultModel activeProvider)))
            (mbind (fun snapshot => cp_model (sn_provider snapshot)) (orNone (br_conversation results))) in
        update (setSelection (Some catalog) ((pv_id <$> activeProvider) ?? "") chatModels
          (fun current => selectPreferredChatModel current providerModel chatModels))
    | inr _ => Ret tt
    end ;;;
    match br_gateway results with
    | inl snapshot => update (setGateway (fun p => (Some snapshot, None, pr_isGatewayPending p)))
    | inr error =>
        update (setGatewayError (Some (getErrorMessage error "Unable to load provider gateway telemetry.")))
    end ;;;
    match br_agentCatalog results with
    | inl catalog => update (setAgentCatalog (Some catalog))
    | inr _ => Ret tt
    end ;;;
    match br_attachments results with
    | inl attachments => update (setRecentAttachments attachments)
    | inr _ => Ret tt
    end ;;;
    Ret true.

(** The effect that starts an enabled panel, up to the end of the bootstrap. *)
Definition startPanel (env : PanelEnv) : Agent unit :=
  if negb (en_enabled env) then Ret tt
  else
    s <- get ;;
    let epoch := S (cv_epoch (as_conversation s)) in
    update bumpEpoch ;;;
    resetAgentPanelRuntime ;;;
    update resetAgentPanelBootstrapState ;;;
    update (setMessages (fun _ => None)) ;;;
    applied <- bootstrapAgentPanel (en_hostId env) epoch ;;
    s' <- get ;;
    if applied && (cv_epoch (as_conversation s') =? epoch) then update (setGatewayPending false) else Ret tt.

End PanelRuntime.

(** * Lemmas *)

Section Epochs.
Context `{DateHost} `{Locale}.

(** Provider activations and conversation transitions count one epoch: when
    the user changes the conversation while an activation is in flight, its
    answer is dropped and the panel goes on with the provider that was active
    before, although the backend has activated the other one. *)
Theorem activation_superseded pid s s' catalog
    (Hpid : truthy (trimText pid) = true) (Hne : trimText pid <> pr_selectedProviderID (as_provider s))
    (Hepoch : cv_epoch (as_conversation s') <> S (cv_epoch (as_conversation s))) :
  exists s1 k, run (selectProvider pid) s = (s1, Waiting (ActivateProvider (trimText pid)) k) /\
    cv_epoch (as_conversation s1) = S (cv_epoch (as_conversation s)) /\
    run (k (inl catalog)) s' = (s', Ended (inl tt)).
Proof.
  unfold selectProvider. cbn [bind get run]. rewrite Hpid, bool_decide_eq_false_2 by done.
  cbn [negb orb bind update tryCatch run await]. do 2 eexists. split_and!; [reflexivity|reflexivity|].
  cbn [bind tryCatch get run]. apply Nat.eqb_neq in Hepoch. by rewrite Hepoch.
Qed.

(** A transition that starts meanwhile is such a change. *)
Lemma switch_bumps_epoch x s :
  truthy (trimText x) = true -> trimText x <> cv_active (as_conversation s) -> isBusy s = false ->
  cv_epoch (as_conversation (fst (run (switchConversation x) s))) = S (cv_epoch (as_conversation s)).
Proof.
  intros Hx Hne Hb. unfold switchConversation. cbn [bind get run].
  by rewrite Hx, bool_decide_eq_false_2, Hb by done.
Qed.

End Epochs.
