(* ===== verification/Approval.v ===== *)
(** * Submissions and approvals of the agent panel

    [frontend/src/features/agent/model/agent-panel-approval.ts], and
    [submitDraft] and [cancelPendingPlan] of [use-agent-panel.ts]: how a prompt
    becomes a message, a question, a plan that waits for its approval, or a
    command.  [RunBackendPrompt] is the call that [Streaming] models. *)
From Stdlib Require Import Ascii String.
From stdpp Require Import strings.
From S2P Require Import Prelude JsString Text Sse Conversation Interaction MessageView AgentContext Providers Effects AgentState Execution Conversations PanelRuntime.
Local Open Scope string_scope.
Local Open Scope list_scope.
Local Open Scope nat_scope.
Local Open Scope js_scope.
Local Open Scope prog_scope.

Section Approval.
Context `{DateHost} `{Locale}.
(** [Date.now()] for the [n]-th sort key, and for the audit entries that are
    written when [n] keys were given. *)
Variable clock : nat -> Z.
Variable auditNow : nat -> Z.
(** The text of [new Date().toISOString()] for the [n]-th optimistic message. *)
Variable isoNow : nat -> string.
Variable env : PanelEnv.

Definition backendPrompt (prompt : string) (attachments : option (list AgentAttachmentReference))
    (auditMessageID : option string) (cancellable : option bool) (model : option string) : Agent unit :=
  await (RunBackendPrompt prompt (mkPromptOptions attachments auditMessageID cancellable model)).

(** [selectedModel || undefined] *)
Definition modelOption (s : AgentState) : option string := truthyOpt (Some (pr_selectedModel (as_provider s))).

(** ** Questionnaires *)

Definition withoutMessage (x : string) (messages : list ChatMessageView) : list ChatMessageView :=
  filterb (fun m => negb (has_view_id x m)) messages.

Definition answerQuestionnaire (message : QuestionnaireMessage) (answer : string) : Agent unit :=
  s <- get ;;
  match fl_pending (as_flow s) with
  | None => Ret tt
  | Some activeFlow =>
      if negb (bool_decide (pf_questionnaireMessageID activeFlow = Some (qm_id message))) then Ret tt
      else
        answeredMessage <- withKeys (updateQuestionnaireMessageAnswer clock message answer) ;;
        let '(intent, tools) :=
          classifyMessageIntent (pf_prompt activeFlow) (Some answer) (hasTerminalExecutionContext env s) in
        if decide (intent = IntentChat) then
          update (setInteractionMessages (fun current =>
            sortMessagesBySortKey (withoutMessage (qm_id message) current ++ [ViewQuestionnaire answeredMessage]))) ;;;
          update (setPendingFlow None) ;;;
          backendPrompt (pf_prompt activeFlow) (pf_attachments activeFlow) None None (modelOption s)
        else
          planMessage <- withKeys (fun keys =>
            createPlanMessage clock (pf_flowID activeFlow) (pf_prompt activeFlow) tools keys (Some answer)) ;;
          approvalMessage <- withKeys (fun keys =>
            createApprovalMessage clock (pf_flowID activeFlow) keys ApprovalPending) ;;
          update (setInteractionMessages (fun current =>
            sortMessagesBySortKey (withoutMessage (qm_id message) current ++
              [ViewQuestionnaire answeredMessage; ViewPlan planMessage; ViewApproval approvalMessage]))) ;;;
          update (setPendingFlow (Some
            (mkFlow (Some (am_id approvalMessage)) (pf_attachments activeFlow) (pf_auditMessageID activeFlow)
               (pf_auditProgressed activeFlow) (pf_flowID activeFlow) (pf_prompt activeFlow) None
               (pf_runApproval activeFlow) tools)))
  end.

(** ** Approvals *)

Definition createApprovedAuditFlow (activeFlow : PendingInteractionFlow) (message : ApprovalMessage)
    (auditMessageID : string) : PendingInteractionFlow :=
  mkFlow (Some (am_id message)) (pf_attachments activeFlow) (Some auditMessageID) false (pf_flowID activeFlow)
    (pf_prompt activeFlow) (pf_questionnaireMessageID activeFlow) (pf_runApproval activeFlow) (pf_tools activeFlow).

(** [updateAuditMessageEntries] with the update of [applyAuditResult] *)
Definition applyAuditResult (auditMessageID : string) (updateEntries : Z -> list AuditEntry -> list AuditEntry)
    (s : AgentState) : AgentState :=
  setInteractionMessages (fun current =>
    updateInteractionMessage current auditMessageID (fun m =>
      match m with
      | ViewAudit a =>
          ViewAudit (mkAuditMessage (au_id a) (updateEntries (auditNow (fl_keys (as_flow s))) (au_entries a))
                       (au_sortKey a))
      | _ => m
      end)) s.

(** The approved message and the audit message take the place of the approval. *)
Definition showApproved (message : ApprovalMessage) (approved : ApprovalMessage) (audit : AuditMessage)
    (activeFlow : PendingInteractionFlow) : Agent unit :=
  update (setPendingFlow (Some (createApprovedAuditFlow activeFlow message (au_id audit)))) ;;;
  update (setInteractionMessages (fun current =>
    sortMessagesBySortKey (withoutMessage (am_id message) current ++ [ViewApproval approved; ViewAudit audit]))).

(** [setIsSubmitting(true)] to [blockAiWidget()], and the [finally] block *)
Definition lockPanel : Agent unit :=
  update (setFlags true false true) ;;; update (setSubmitError None).
Definition unlockPanel : Agent unit :=
  update (setPendingFlow None) ;;; update (setFlags false false false).

(** The frame of the two branches that run something: try, fail the audit and
    report, finally release. *)
Definition runApproved (audit : AuditMessage) (errorMessage : string) (body : Agent unit) : Agent unit :=
  lockPanel ;;;
  finally
    (tryCatch
       (body ;;; update (applyAuditResult (au_id audit) completeAuditEntries))
       (fun error =>
          update (applyAuditResult (au_id audit) failAuditEntries) ;;;
          reportError errorMessage error))
    unlockPanel.

(** [safety.confirm] for a [/run] command *)
Definition confirmRun (runApproval : PendingRunApproval) : Agent string :=
  confirmation <- await (ExecuteTool None
      (runContext "frontend.ai.sidebar.run.confirm" (ra_repoRoot runApproval) (targetOf runApproval))
      (SafetyConfirm (ra_approvalID runApproval))) ;;
  match tr_status confirmation with
  | ToolOk => getApprovalToken confirmation
  | _ => Throw (Some (trimmedTextOr (tr_error confirmation) "Unable to confirm /run approval."))
  end.

Definition executesInTerminal (flow : PendingInteractionFlow) : bool :=
  some (fun tool => bool_decide (pt_name tool = "execute_terminal")) (pf_tools flow).

Definition approvePendingPlan (message : ApprovalMessage) : Agent unit :=
  s <- get ;;
  match fl_pending (as_flow s) with
  | None => Ret tt
  | Some activeFlow =>
      if negb (bool_decide (pf_flowID activeFlow = am_planId message)) then Ret tt
      else
        approved <- withKeys (updateApprovalMessageStatus clock message ApprovalApproved) ;;
        audit <- withKeys (fun keys =>
          createAuditMessage clock (pf_flowID activeFlow) (pf_tools activeFlow) keys (auditNow keys)) ;;
        showApproved message approved audit activeFlow ;;;
        match pf_runApproval activeFlow with
        | Some runApproval =>
            runApproved audit "Unable to run the approved terminal command."
              (token <- confirmRun runApproval ;;
               runApprovedTerminalPrompt env refreshConversationList runApproval token)
        | None =>
            if executesInTerminal activeFlow then
              runApproved audit "Unable to run the approved terminal plan."
                (repoRoot <- await ResolveRuntimeContext ;;
                 runApprovedExecutionPlan env refreshConversationList (pf_prompt activeFlow) repoRoot
                   (modelOption s))
            else
              update (setPendingFlow None) ;;;
              backendPrompt (pf_prompt activeFlow) (pf_attachments activeFlow) (Some (au_id audit)) None
                (modelOption s)
        end
  end.

(** [cancelPendingPlan] *)
Definition cancelPendingPlan (message : ApprovalMessage) : Agent unit :=
  s <- get ;;
  match fl_pending (as_flow s) with
  | None => Ret tt
  | Some activeFlow =>
      if negb (bool_decide (pf_flowID activeFlow = am_planId message)) then Ret tt
      else
        match find (has_view_id (am_id message)) (fl_interaction (as_flow s)) with
        | Some (ViewApproval current) =>
            cancelled <- withKeys (updateApprovalMessageStatus clock current ApprovalCancelled) ;;
            update (setInteractionMessages (fun messages =>
              updateInteractionMessage messages (am_id message) (fun _ => ViewApproval cancelled)))
        | _ => update (setInteractionMessages (fun messages =>
                 updateInteractionMessage messages (am_id message) (fun m => m)))
        end ;;;
        update (setPendingFlow None)
  end.

(** ** Submissions *)

(** [submitDraft] of the rendering [s]: the closure has the values of [s], and
    reads the pending flow and the counters, which are refs, when it runs. *)
Definition submitDraftOf (s : AgentState) : Agent unit :=
  now <- get ;;
  let prompt := trimText (sb_draft (as_submit s)) in
  if negb (en_enabled env) || sb_isSubmitting (as_submit s) ||
     cv_isConversationPending (as_conversation s) || negb (bool_decide (fl_pending (as_flow now) = None)) ||
     negb (truthy prompt) then Ret tt
  else
    let isRunPrompt := negb (bool_decide (getRunCommand prompt = None)) in
    let attachmentsForPrompt := if isRunPrompt then [] else sb_attachments (as_submit s) in
    let promptAttachments := match attachmentsForPrompt with [] => None | l => Some l end in
    let sequence := sb_optimistic (as_submit now) in
    let optimisticUserMessage := createOptimisticUserConversationMessage (en_hostId env) sequence prompt
      attachmentsForPrompt (isoNow sequence) in
    update bumpOptimistic ;;;
    let flowSequence := fl_flows (as_flow now) in
    update bumpFlows ;;;
    interactionFlow <- withKeys (fun keys =>
      createPendingInteractionFlow clock (en_hostId env) prompt flowSequence keys None
        (hasTerminalExecutionContext env s)) ;;
    let '((intent, tools), flow, messages) := interactionFlow in
    update (setLoadError None) ;;;
    update (setSubmitError None) ;;;
    update (setMessages (fun current =>
      Some (appendAgentConversationMessage (current ?? []) optimisticUserMessage))) ;;;
    update (setDraft "") ;;;
    (if isRunPrompt then Ret tt else update (setAttachments [])) ;;;
    if isRunPrompt then
      if isTerminalInputBlocked s then update (setSubmitError (Some terminalInputPolicyBlockedMessage))
      else backendPrompt prompt None None (Some false) None
    else if isTerminalInputBlocked s &&
            some (fun tool => bool_decide (pt_name tool = "execute_terminal")) tools then
      update (setSubmitError (Some terminalInputPolicyBlockedMessage))
    else
      match flow with
      | None => backendPrompt prompt promptAttachments None None (modelOption s)
      | Some f =>
          update (setInteractionMessages (fun current => sortMessagesBySortKey (current ++ messages))) ;;;
          update (setPendingFlow (Some
            (mkFlow (pf_approvalMessageID f) promptAttachments (pf_auditMessageID f) (pf_auditProgressed f)
               (pf_flowID f) (pf_prompt f) (pf_questionnaireMessageID f) (pf_runApproval f) (pf_tools f))))
      end.
(** The one of the rendering that is shown. *)
Definition submitDraft : Agent unit := s <- get ;; submitDraftOf s.

End Approval.
