(* ===== verification/AgentPanel.v ===== *)
(** * The agent panel

    The callbacks of [frontend/src/features/agent/model/use-agent-panel.ts] as
    one machine: any callback can be called at any time, the calls in flight
    are answered in any order, and the submissions of [Streaming] change the
    parts of the state that are theirs in between.  The theorems say what
    reaches a terminal, and that the panel does not get stuck on a flow that
    nobody can answer. *)
From Stdlib Require Import Ascii String.
From stdpp Require Import strings.
From S2P Require Import Prelude JsString Text Sse Conversation Interaction MessageView AgentContext Providers Effects AgentState Execution Conversations PanelRuntime Approval.
Local Open Scope string_scope.
Local Open Scope list_scope.
Local Open Scope nat_scope.
Local Open Scope js_scope.
Local Open Scope prog_scope.

(** ** Callbacks *)

Inductive Handler :=
  | HSetDraft (draft : string)
  | HQueueAttachment (attachment : AgentAttachmentReference)
  | HSubmit
  | HAnswer (message : QuestionnaireMessage) (answer : string)
  | HApprove (message : ApprovalMessage)
  | HCancelPlan (message : ApprovalMessage)
  | HTerminal (prompt repoRoot : string)          (* [runTerminalPrompt] of a submission in flight *)
  | HSwitch (conversationID : string)
  | HCreate
  | HRename (conversationID title : string)
  | HDelete (conversationID : string)
  | HArchive (conversationID : string)
  | HRestore (conversationID : string)
  | HRefreshList
  | HContextOpen
  | HUseCurrentWidget (append : bool)
  | HUseAllWidgets
  | HResetWidgets
  | HSelectWidgets (widgetIDs : list string)
  | HEnableWidgets (value : bool)
  | HRepairWidgets
  | HSelectProvider (providerID : string)
  | HPrewarm
  | HProbe
  | HClearRoute
  | HRefreshGateway
  | HRefreshHistory
  | HSelectAgent (selection : AgentSelection) (itemID : string)
  | HStart.

(** What the submissions do to the state of the panel. *)
Inductive BackendEffect :=
  | BackendFlags (submitting cancellable blocked : bool)
  | BackendErrors (load submit : option string)
  | BackendMessages (messages : option Messages)
  | BackendRefs (nonce : nat) (stream abort : bool) (audit : option string)
  | BackendAudit (auditMessageID : string) (f : list AuditEntry -> list AuditEntry)
  | BackendSnapshot (snapshot : AgentConversationSnapshot).

Section AgentPanel.
Context `{DateHost} `{Locale}.
Variable clock : nat -> Z.
Variable auditNow : nat -> Z.
Variable isoNow : nat -> string.

Definition queueAttachment (attachment : AgentAttachmentReference) (s : AgentState) : AgentState :=
  setAttachments
    (filterb (fun a => negb (bool_decide (at_id a = at_id attachment))) (sb_attachments (as_submit s)) ++ [attachment]) s.

Definition handlerProg (env : PanelEnv) (h : Handler) : Agent unit :=
  match h with
  | HSetDraft draft => update (setDraft draft)
  | HQueueAttachment attachment => update (queueAttachment attachment)
  | HSubmit => submitDraft clock isoNow env
  | HAnswer message answer => answerQuestionnaire clock env message answer
  | HApprove message => approvePendingPlan clock auditNow env message
  | HCancelPlan message => cancelPendingPlan clock message
  | HTerminal prompt repoRoot =>
      _ <- runTerminalPrompt clock env refreshConversationList prompt repoRoot ;; Ret tt
  | HSwitch x => switchConversation x
  | HCreate => createConversation
  | HRename x title => renameConversation x title
  | HDelete x => deleteConversation x
  | HArchive x => archiveConversation x
  | HRestore x => restoreConversation x
  | HRefreshList => refreshConversationList
  | HContextOpen => handleContextOptionsOpen env
  | HUseCurrentWidget append => useCurrentContextWidget env append
  | HUseAllWidgets => useAllContextWidgets env
  | HResetWidgets => resetContextWidgetSelection env
  | HSelectWidgets ids => updateSelectedContextWidgetIDs ids
  | HEnableWidgets value => updateWidgetContextEnabled env value
  | HRepairWidgets => repairMissingContextWidgets env
  | HSelectProvider x => selectProvider x
  | HPrewarm => prewarmActiveProviderRoute
  | HProbe => probeActiveProviderRoute
  | HClearRoute => clearActiveProviderRouteState
  | HRefreshGateway => refreshProviderGatewaySnapshot false
  | HRefreshHistory => refreshActiveProviderHistory None true
  | HSelectAgent selection x => selectAgent selection x
  | HStart => startPanel env
  end.

Definition backendEffect (e : BackendEffect) (s : AgentState) : AgentState :=
  match e with
  | BackendFlags a b c => setFlags a b c s
  | BackendErrors load submit => setLoadError load (setSubmitError submit s)
  | BackendMessages m => setMessages (fun _ => m) s
  | BackendRefs nonce stream abort audit =>
      on_submit (fun b => mkSubmitState (sb_isSubmitting b) (sb_isResponseCancellable b) (sb_blocked b)
        (sb_loadError b) (sb_submitError b) nonce stream abort audit (sb_messages b) (sb_optimistic b)
        (sb_draft b) (sb_attachments b)) s
  | BackendAudit x f =>
      setInteractionMessages (fun current => updateInteractionMessage current x (fun m =>
        match m with
        | ViewAudit a => ViewAudit (mkAuditMessage (au_id a) (f (au_entries a)) (au_sortKey a))
        | _ => m
        end)) s
  | BackendSnapshot snapshot => applyConversationSnapshot snapshot s
  end.

(** ** The machine *)

(** A call in flight: its number, its callback, the state at its start, and
    what it awaits. *)
Record Call := mkCall {
  ca_id : nat;
  ca_handler : Handler;
  ca_before : AgentState;
  ca_rest : Outcome AgentState AgentRequest unit
}.

Inductive LogEntry :=
  | LogStart (c : nat) (h : Handler) (before : AgentState)
  | LogSend (c : nat) (A : Set) (request : AgentRequest A).

Record Machine := mkMachine {
  mc_state : AgentState;
  mc_calls : list Call;
  mc_next : nat;
  mc_log : list LogEntry
}.

(** The call runs [p] up to its next request or its end. *)
Definition advance (c : nat) (h : Handler) (before : AgentState) (p : Agent unit) (m : Machine) : Machine :=
  match run p (mc_state m) with
  | (s, Ended _) => mkMachine s (mc_calls m) (mc_next m) (mc_log m)
  | (s, @Waiting _ _ _ _ A r k) =>
      mkMachine s (mc_calls m ++ [mkCall c h before (Waiting r k)]) (mc_next m)
        (mc_log m ++ [LogSend c A r])
  end.

(** The submission that a callback belongs to is in flight. *)
Definition allowed (m : Machine) (h : Handler) : Prop :=
  match h with
  | HTerminal prompt _ =>
      exists c options k, c ∈ mc_calls m /\ ca_rest c = Waiting (RunBackendPrompt prompt options) k
  | _ => True
  end.

Inductive step (m : Machine) : Machine -> Prop :=
  | step_start env h (Hh : allowed m h) :
      step m (advance (mc_next m) h (mc_state m) (handlerProg env h)
                (mkMachine (mc_state m) (mc_calls m) (S (mc_next m))
                   (mc_log m ++ [LogStart (mc_next m) h (mc_state m)])))
  | step_answer i c (A : Set) (r : AgentRequest A) k a
      (Hc : mc_calls m !! i = Some c) (Hr : ca_rest c = Waiting r k) :
      step m (advance (ca_id c) (ca_handler c) (ca_before c) (k a)
                (mkMachine (mc_state m) (delete i (mc_calls m)) (mc_next m) (mc_log m)))
  | step_backend e :
      step m (mkMachine (backendEffect e (mc_state m)) (mc_calls m) (mc_next m) (mc_log m)).

(** A panel that was mounted, before its first effect. *)
Definition mounted : AgentState :=
  mkAgentState (mkFlowState None [] 0 0)
    (mkSubmitState false false false None None 0 false false None None 0 "" [])
    (mkConversationState "" [] defaultConversationListCounts None false false 0 0 "" ScopeRecent)
    (mkContextState [] [] true false 0 "" false [] None)
    (mkProviderState None "" [] "" None None false false false [] 0 None false None []).

Definition initial : Machine := mkMachine mounted [] 0 [].

Definition reachable (m : Machine) : Prop := rtc step initial m.

(** ** What a request may do *)

(** The pending flow of the state that the approval was given for. *)
Definition approved_flow (m : ApprovalMessage) (before : AgentState) (f : PendingInteractionFlow) : Prop :=
  fl_pending (as_flow before) = Some f /\ pf_flowID f = am_planId m.

Definition permits (h : Handler) (before : AgentState) (A : Set) (r : AgentRequest A) : Prop :=
  match r with
  | ExecuteTool token _ (SendInput _ text _) =>
      match h with
      | HTerminal prompt _ => token = None /\ getRunCommand prompt = Some text /\ text <> ""
      | HApprove m =>
          exists f, approved_flow m before f /\
            match pf_runApproval f with
            | Some ra => text = ra_command ra /\ token <> None
            | None => executesInTerminal f = true
            end
      | _ => False
      end
  | ExecuteTool _ _ (SafetyConfirm x) =>
      match h with
      | HApprove m =>
          exists f, approved_flow m before f /\
            match pf_runApproval f with
            | Some ra => x = ra_approvalID ra
            | None => executesInTerminal f = true
            end
      | _ => False
      end
  | PlanTerminalCommand _ _ prompt _ =>
      match h with
      | HApprove m =>
          exists f, approved_flow m before f /\ pf_runApproval f = None /\ executesInTerminal f = true /\
            prompt = pf_prompt f
      | _ => False
      end
  | RunBackendPrompt prompt _ =>
      getRunCommand prompt = None \/
      h = HSubmit /\ prompt = trimText (sb_draft (as_submit before)) /\ fl_pending (as_flow before) = None
  | _ => True
  end.

(** Requests that are neither for a tool nor for the agent. *)
Definition harmless (A : Set) (r : AgentRequest A) : Prop :=
  match r with
  | ExecuteTool _ _ _ | PlanTerminalCommand _ _ _ _ | RunBackendPrompt _ _ => False
  | _ => True
  end.

(** ** Invariants of the state *)

(** The prompt of a flow is no [/run] command, unless the flow is its
    confirmation; a question is no confirmation. *)
Definition prompts_ok (s : AgentState) : Prop :=
  forall f, fl_pending (as_flow s) = Some f ->
    (pf_runApproval f = None -> getRunCommand (pf_prompt f) = None) /\
    (pf_questionnaireMessageID f <> None -> pf_runApproval f = None).

(** The pending flow has a message where it can be answered. *)
Definition shown (s : AgentState) : Prop :=
  forall f, fl_pending (as_flow s) = Some f -> answerable f (fl_interaction (as_flow s)).

(** The call executes something that was approved. *)
Definition executes (h : Handler) (before : AgentState) : Prop :=
  match h with
  | HApprove m =>
      exists f, approved_flow m before f /\ (pf_runApproval f <> None \/ executesInTerminal f = true)
  | _ => False
  end.

Definition keeps_prompts (a b : AgentState) : Prop := prompts_ok a -> prompts_ok b.

End AgentPanel.

(** * Lemmas *)

(** ** Stretches that keep the invariants *)

(** A stretch keeps the prompts, and what is shown unless [X]. *)
Definition keeps_flow (X : Prop) (a b : AgentState) : Prop := keeps_prompts a b /\ (X \/ (shown a -> shown b)).

Section KeepsFlow.
Variable X : Prop.
Notation K := (keeps_flow X).

Lemma keeps_flow_refl a : K a a.
Proof. split; [intros Hp; exact Hp|auto]. Qed.

Lemma keeps_flow_trans a b c : K a b -> K b c -> K a c.
Proof. intros [H1 H2] [H3 H4]. split; [intros H5; by apply H3, H1|tauto]. Qed.

Lemma keeps_flow_same a b :
  fl_pending (as_flow b) = fl_pending (as_flow a) -> fl_interaction (as_flow b) = fl_interaction (as_flow a) ->
  K a b.
Proof. intros E1 E2. unfold keeps_flow, keeps_prompts, prompts_ok, shown. rewrite E1, E2. auto. Qed.

Lemma keeps_flow_none a b : fl_pending (as_flow b) = None -> K a b.
Proof. intros E. unfold keeps_flow, keeps_prompts, prompts_ok, shown. rewrite E. split; [done|by right]. Qed.

End KeepsFlow.

#[export] Instance keeps_flow_preorder X : PreOrder (keeps_flow X).
Proof. split; [exact (keeps_flow_refl X)|exact (keeps_flow_trans X)]. Qed.

Notation stable X P := (stable (keeps_flow X) P).

Lemma stable_reset X (P : forall A : Set, AgentRequest A -> Prop) : stable X P resetConversationInteractionState.
Proof. intros s0 s Hs. cbn. by apply keeps_flow_none. Qed.

(** Proves [stable] of a program whose updates leave the flow alone. *)
Ltac stable_step :=
  lazymatch goal with
  | |- stable _ _ (bind _ _) => apply stable_bind; [|intros ?]
  | |- stable _ _ (tryCatch _ _) => apply stable_try; [|intros ?]
  | |- stable _ _ (finally _ _) => apply stable_finally
  | |- stable _ _ (Ret _) => apply stable_ret
  | |- stable _ _ (Throw _) => apply stable_throw
  | |- stable _ _ get => apply stable_get
  | |- stable _ _ (await _) => apply stable_await; auto with commander
  | |- stable _ _ resetConversationInteractionState => apply stable_reset
  | |- stable _ _ (update _) =>
      apply stable_update; intros ?; first [apply keeps_flow_same; reflexivity | apply keeps_flow_none; reflexivity]
  | |- stable _ _ (let _ := _ in _) => cbv zeta
  | |- stable _ _ (if ?b then _ else _) => destruct b
  | |- stable _ _ (match ?x with _ => _ end) => destruct x
  | |- stable _ _ _ => solve [auto with commander]
  end.
Ltac stable_tac := repeat stable_step.

Section StableHandlers.
Context `{DateHost} `{Locale}.
Variable X : Prop.
Variable P : forall A : Set, AgentRequest A -> Prop.
Hypothesis HP : forall (A : Set) (r : AgentRequest A), harmless A r -> P A r.
#[local] Hint Extern 0 (P _ _) => (apply HP; exact I) : commander.

Lemma stable_refreshList : stable X P refreshConversationList.
Proof. unfold refreshConversationList, refreshConversationListForPanel, beginListRefresh, finishListRefresh. stable_tac. Qed.
#[local] Hint Resolve stable_refreshList : commander.

Lemma stable_reportError m e : stable X P (reportError m e).
Proof. unfold reportError. stable_tac. Qed.
#[local] Hint Resolve stable_reportError : commander.

Lemma stable_openConversation change x m : stable X P (openConversation change x m).
Proof. unfold openConversation, beginTransition, pendingTransition. stable_tac. Qed.
#[local] Hint Resolve stable_openConversation : commander.

Lemma stable_mutate change m x : stable X P (mutateConversationCollection change m x).
Proof. unfold mutateConversationCollection, beginTransition, pendingTransition. stable_tac. Qed.

Lemma stable_rename x title : stable X P (renameConversation x title).
Proof. unfold renameConversation, beginListRefresh, finishListRefresh. stable_tac. Qed.

Lemma stable_persist preferences : stable X P (persistConversationContextPreferences preferences).
Proof. unfold persistConversationContextPreferences. stable_tac. Qed.
#[local] Hint Resolve stable_persist : commander.

Lemma stable_loadWidgets env : stable X P (loadContextWidgets env).
Proof. unfold loadContextWidgets, loadContextWidgetsForPanel. stable_tac. Qed.
#[local] Hint Resolve stable_loadWidgets : commander.

Lemma stable_choose env f : stable X P (chooseContextWidgets env f).
Proof. unfold chooseContextWidgets, persistInBackground. stable_tac. Qed.

Lemma stable_contextOpen env : stable X P (handleContextOptionsOpen env).
Proof.
  unfold handleContextOptionsOpen, ensureCurrentConversationSnapshotLoaded, persistCleanedContextWidgetSelection.
  stable_tac.
Qed.

Lemma stable_gateway b : stable X P (refreshProviderGatewaySnapshot b).
Proof. unfold refreshProviderGatewaySnapshot. stable_tac. Qed.
#[local] Hint Resolve stable_gateway : commander.

Lemma stable_gatewayError m e : stable X P (reportGatewayError m e).
Proof. unfold reportGatewayError. stable_tac. Qed.
#[local] Hint Resolve stable_gatewayError : commander.

Lemma stable_bootstrap hostId epoch : stable X P (bootstrapAgentPanel hostId epoch).
Proof. unfold bootstrapAgentPanel. stable_tac. Qed.
#[local] Hint Resolve stable_bootstrap : commander.

Lemma stable_resetRuntime : stable X P resetAgentPanelRuntime.
Proof. unfold resetAgentPanelRuntime. stable_tac. Qed.
#[local] Hint Resolve stable_resetRuntime : commander.

Lemma stable_start env : stable X P (startPanel env).
Proof. unfold startPanel. stable_tac. Qed.

Lemma stable_selectProvider x : stable X P (selectProvider x).
Proof. unfold selectProvider. stable_tac. Qed.

Lemma stable_target env : stable X P (resolveTerminalExecutionTarget env).
Proof. unfold resolveTerminalExecutionTarget. stable_tac. Qed.

Lemma stable_explain command prompt target context :
  stable X P (explainCommand refreshConversationList command prompt target context).
Proof. unfold explainCommand. stable_tac. Qed.

Lemma stable_token response : stable X P (getApprovalToken response).
Proof. unfold getApprovalToken. stable_tac. Qed.

Lemma stable_withKeys {A} (f : nat -> A * nat) : stable X P (withKeys f).
Proof. unfold withKeys. stable_tac. Qed.

Variable env : PanelEnv.

Lemma stable_runApproved ra token :
  (forall ctx w, P _ (ExecuteTool (Some token) ctx (SendInput true (ra_command ra) w))) ->
  stable X P (runApprovedTerminalPrompt env refreshConversationList ra token).
Proof.
  intros Hsend. unfold runApprovedTerminalPrompt. pose proof stable_explain. stable_tac.
Qed.

Lemma stable_confirmRun ra :
  (forall ctx, P _ (ExecuteTool None ctx (SafetyConfirm (ra_approvalID ra)))) -> stable X P (confirmRun ra).
Proof. intros Hc. unfold confirmRun. pose proof stable_token. stable_tac. Qed.

Lemma stable_plan prompt repoRoot model :
  (forall ctx w, P _ (PlanTerminalCommand ctx model prompt w)) ->
  (forall token ctx text w, P _ (ExecuteTool token ctx (SendInput true text w))) ->
  (forall ctx x, P _ (ExecuteTool None ctx (SafetyConfirm x))) ->
  stable X P (runApprovedExecutionPlan env refreshConversationList prompt repoRoot model).
Proof.
  intros Hplan Hsend Hc. unfold runApprovedExecutionPlan, confirmAndSend.
  pose proof stable_explain. pose proof stable_token. pose proof stable_target. stable_tac.
Qed.

End StableHandlers.

(** ** Calls that change the flow *)

Section FlowHandlers.
Context `{DateHost} `{Locale}.
Variable clock : nat -> Z.
Variable auditNow : nat -> Z.
Variable isoNow : nat -> string.
Variable env : PanelEnv.

Lemma wp_withKeys {O} org T {A} (f : nat -> A * nat) (o : O) s Q :
  (forall a keys, f (fl_keys (as_flow s)) = (a, keys) -> Q (inl a) o (setKeys keys s)) ->
  wp org T (withKeys f) o s Q.
Proof. intros HQ. cbn. destruct (f _) as [a keys] eqn:E. cbn. by apply HQ. Qed.

(** A flow that can be answered replaces another one. *)
Lemma keeps_flow_set X a b f :
  fl_pending (as_flow b) = Some f -> answerable f (fl_interaction (as_flow b)) ->
  (pf_runApproval f = None -> getRunCommand (pf_prompt f) = None) ->
  (pf_questionnaireMessageID f <> None -> pf_runApproval f = None) -> keeps_flow X a b.
Proof.
  intros Ef Ha H1 H2. split; [|right].
  - intros _ f' E. by simplify_eq.
  - intros _ f' E. by simplify_eq.
Qed.

Lemma answerable_approval flowID keys key f messages :
  createApprovalMessage clock flowID keys ApprovalPending = key ->
  pf_flowID f = flowID -> pf_approvalMessageID f = Some (am_id (fst key)) -> pf_questionnaireMessageID f = None ->
  ViewApproval (fst key) ∈ messages -> answerable f messages.
Proof. intros <- E1 E2 E3 Hin. eexists. split; [exact Hin|]. cbn in *. by rewrite E1. Qed.

Lemma stable_pendingRun X P prompt command repoRoot target x summary :
  stable X P (pendingRun clock env prompt command repoRoot target x summary).
Proof.
  intros s0 s _. unfold pendingRun. apply wp_bind. cbn [wp get]. apply wp_bind. cbn [wp update].
  apply wp_bind, wp_withKeys. intros plan keys _. apply wp_bind, wp_withKeys. intros approval keys' E.
  cbn [bind wp update].
  eapply keeps_flow_set; [reflexivity| |done|done].
  eapply answerable_approval; [exact E|done|done|done|].
  cbn. rewrite sortMessages_perm. set_solver.
Qed.

Lemma wp_runApproved (X : Prop) P audit m body s0 s :
  X -> stable X P body -> keeps_flow X s0 s ->
  wpg (keeps_flow X) P (runApproved auditNow audit m body) s0 s
    (fun _ a b => keeps_flow X a b /\ fl_pending (as_flow b) = None).
Proof.
  intros HX Hbody Hs. unfold runApproved. apply wp_bind. cbn [wp lockPanel bind update].
  apply wp_finally, wp_try, wp_bind. eapply wp_weaken; [|apply Hbody].
  - intros [[]|e] a b Hab; cbn; (split; [|done]); by apply keeps_flow_none.
  - eapply keeps_flow_trans; [exact Hs|]. by apply keeps_flow_same.
Qed.

Lemma approve_wp m s :
  prompts_ok s ->
  wpg (keeps_flow (executes (HApprove m) s)) (permits (HApprove m) s)
    (approvePendingPlan clock auditNow env m) s s
    (fun _ a b => keeps_flow (executes (HApprove m) s) a b /\
       (executes (HApprove m) s -> fl_pending (as_flow b) = None)).
Proof.
  intros Hs. unfold approvePendingPlan. apply wp_bind. cbn [wp get].
  destruct (fl_pending (as_flow s)) as [f|] eqn:Ef.
  2: { split; [apply keeps_flow_refl|done]. }
  destruct (bool_decide (pf_flowID f = am_planId m)) eqn:Eid; cbn [negb]; bool_prop.
  2: { split; [apply keeps_flow_refl|]. intros (f' & [E1 E2] & _). by simplify_eq. }
  assert (approved_flow m s f) as Hf by done.
  apply wp_bind, wp_withKeys. intros approved keys _. apply wp_bind, wp_withKeys. intros audit keys' _.
  apply wp_bind. cbn [wp showApproved bind update]. destruct (Hs f Ef) as [Hp1 Hp2].
  destruct (pf_runApproval f) as [ra|] eqn:Era.
  - assert (executes (HApprove m) s) as HX by (exists f; split; [done|left; by rewrite Era]).
    eapply wp_weaken; [|apply (wp_runApproved (executes (HApprove m) s)); [done| |]].
    + intros r a b [H1 H2]. done.
    + apply stable_bind; [apply stable_confirmRun|intros token; apply stable_runApproved; [by destruct r|]].
      * intros ctx. exists f. by rewrite Era.
      * intros ctx w. exists f. by rewrite Era.
    + split; [|by left]. intros _ f' E. cbn in E. simplify_eq. cbn. by rewrite Era.
  - destruct (executesInTerminal f) eqn:Eterm.
    + assert (executes (HApprove m) s) as HX by (exists f; split; [done|by right]).
      eapply wp_weaken; [|apply (wp_runApproved (executes (HApprove m) s)); [done| |]].
      * intros r a b [H1 H2]. done.
      * apply stable_bind; [apply stable_await; exact I|intros repoRoot; apply stable_plan; [by destruct r|..]].
        -- intros ctx w. exists f. done.
        -- intros token ctx text w. exists f. rewrite Era. done.
        -- intros ctx x. exists f. rewrite Era. done.
      * split; [|by left]. intros _ f' E. cbn in E. simplify_eq. cbn. rewrite Era. auto.
    + cbn [wp bind update]. unfold backendPrompt. apply wp_await.
      * split; [by apply keeps_flow_none|left; auto].
      * intros x s'. split; [apply keeps_flow_refl|].
        intros (f' & [E1 E2] & [E3|E3]); simplify_eq; congruence.
      * intros x s'. split; [apply keeps_flow_refl|].
        intros (f' & [E1 E2] & [E3|E3]); simplify_eq; congruence.
Qed.

(** A call that leaves everything as it was, or ends with no flow. *)
Lemma wp_backendPrompt X (P : forall A : Set, AgentRequest A -> Prop) prompt attachments audit cancellable model s0 s :
  keeps_flow X s0 s -> P _ (RunBackendPrompt prompt (mkPromptOptions attachments audit cancellable model)) ->
  wpg (keeps_flow X) P (backendPrompt prompt attachments audit cancellable model) s0 s
    (fun _ a b => keeps_flow X a b).
Proof. intros Hs HP. unfold backendPrompt. by apply stable_await. Qed.

Lemma answer_wp X message answer s :
  prompts_ok s ->
  wpg (keeps_flow X) (permits (HAnswer message answer) s) (answerQuestionnaire clock env message answer) s s
    (fun _ a b => keeps_flow X a b).
Proof.
  intros Hs. unfold answerQuestionnaire. apply wp_bind. cbn [wp get].
  destruct (fl_pending (as_flow s)) as [f|] eqn:Ef; [|apply keeps_flow_refl].
  destruct (bool_decide _) eqn:Eq; cbn [negb]; bool_prop; [|apply keeps_flow_refl].
  destruct (Hs f Ef) as [Hp1 Hp2].
  assert (pf_runApproval f = None) as Era by (apply Hp2; by rewrite Eq).
  apply wp_bind, wp_withKeys. intros answered keys _.
  destruct (classifyMessageIntent _ _ _) as [intent tools].
  destruct (decide (intent = IntentChat)).
  - cbn [wp bind update]. apply wp_backendPrompt; [by apply keeps_flow_none|]. left. auto.
  - apply wp_bind, wp_withKeys. intros plan keys1 _. apply wp_bind, wp_withKeys. intros approval keys2 E.
    cbn [wp bind update]. eapply keeps_flow_set; [reflexivity| |auto..|done].
    eapply answerable_approval; [exact E|done|done|done|].
    cbn. rewrite sortMessages_perm. set_solver.
Qed.

Lemma cancel_wp X P message s :
  wpg (keeps_flow X) P (cancelPendingPlan clock message) s s (fun _ a b => keeps_flow X a b).
Proof.
  unfold cancelPendingPlan. apply wp_bind. cbn [wp get].
  destruct (fl_pending (as_flow s)) as [f|] eqn:Ef; [|apply keeps_flow_refl].
  destruct (negb _); [apply keeps_flow_refl|].
  apply wp_bind. destruct (find _ _) as [[]|];
    first [apply wp_bind, wp_withKeys; intros cancelled keys _; cbn; by apply keeps_flow_none
          |cbn; by apply keeps_flow_none].
Qed.

Lemma submit_wp X s :
  prompts_ok s ->
  wpg (keeps_flow X) (permits HSubmit s) (submitDraft clock isoNow env) s s (fun _ a b => keeps_flow X a b).
Proof.
  intros Hs. unfold submitDraft, submitDraftOf. apply wp_bind. cbn [wp get]. apply wp_bind. cbn [wp get].
  set (prompt := trimText _). destruct (_ || negb (truthy prompt)) eqn:Eguard; [apply keeps_flow_refl|]. bool_prop.
  rename select (fl_pending (as_flow s) = None) into Hnone.
  cbn [bind update wp]. apply wp_bind, wp_withKeys. intros [[[intent tools] flow] messages] keys E.
  assert (forall f, flow = Some f -> answerable f messages /\ pf_prompt f = prompt /\ pf_runApproval f = None) as Hf.
  { intros f ->. pose proof (createPendingInteractionFlow_answerable clock (en_hostId env) prompt
      (fl_flows (as_flow s)) (fl_keys (as_flow s)) None (hasTerminalExecutionContext env s) f) as Ha.
    cbn [fl_keys as_flow on_flow on_submit bumpOptimistic bumpFlows] in E. rewrite E in Ha. by apply Ha. }
  clear E. destruct (getRunCommand prompt) as [command|] eqn:Erun.
  - rewrite bool_decide_eq_false_2 by done. cbn [negb bind update wp].
    destruct (isTerminalInputBlocked s); cbn [wp]; [by apply keeps_flow_none|].
    apply wp_backendPrompt; [by apply keeps_flow_none|]. right. done.
  - rewrite bool_decide_eq_true_2 by done. cbn [negb bind update wp].
    destruct (isTerminalInputBlocked s && _); cbn [wp]; [by apply keeps_flow_none|].
    destruct flow as [f|].
    + destruct (Hf f eq_refl) as (Ha & Ep & Era). cbn [bind update wp].
      eapply keeps_flow_set; [reflexivity| |cbn; by rewrite Ep|done].
      apply (answerable_ext f); [done..|]. cbn. rewrite sortMessages_perm. by apply answerable_app.
    + apply wp_backendPrompt; [by apply keeps_flow_none|]. by left.
Qed.

Lemma terminal_stable X s prompt repoRoot :
  stable X (permits (HTerminal prompt repoRoot) s)
    (runTerminalPrompt clock env refreshConversationList prompt repoRoot).
Proof.
  unfold runTerminalPrompt. destruct (getRunCommand prompt) as [command|] eqn:E; [|stable_tac].
  destruct command as [|c command]; [stable_tac|].
  assert (forall (A : Set) (r : AgentRequest A), harmless A r -> permits (HTerminal prompt repoRoot) s A r) as HP
    by (by destruct r).
  apply stable_bind; [stable_tac|intros s1]. apply stable_bind; [by apply stable_target|intros target].
  apply stable_bind; [by apply stable_await; cbn; rewrite E|intros response].
  destruct (tr_status response); try (stable_tac; fail).
  - apply stable_bind; [by apply stable_explain|intros _; stable_tac].
  - destruct (mbind _ _); [|stable_tac]. apply stable_bind; [apply stable_pendingRun|intros _; stable_tac].
Qed.

(** ** Every callback *)

Definition quiet (p : Agent unit) : Prop :=
  forall X (P : forall A : Set, AgentRequest A -> Prop),
    (forall (A : Set) (r : AgentRequest A), harmless A r -> P A r) -> stable X P p.

Lemma quiet_wp h X (p : Agent unit) s :
  quiet p -> wpg (keeps_flow X) (permits h s) p s s (fun _ a b => keeps_flow X a b).
Proof. intros Hp. apply Hp; [by destruct r|apply keeps_flow_refl]. Qed.

(** The callbacks that have nothing to do with flows. *)
Definition plain (h : Handler) : bool :=
  match h with
  | HSubmit | HAnswer _ _ | HApprove _ | HCancelPlan _ | HTerminal _ _ => false
  | _ => true
  end.

Lemma plain_quiet h : plain h = true -> quiet (handlerProg clock auditNow isoNow env h).
Proof.
  intros Hh X P HP. pose proof (stable_refreshList X P HP). pose proof (stable_openConversation X P HP).
  pose proof (stable_persist X P HP). pose proof (stable_gateway X P HP). pose proof (stable_gatewayError X P).
  pose proof (stable_reportError X P).
  destruct h; try discriminate Hh; cbn [handlerProg];
    first [by apply stable_mutate | by apply stable_rename | by apply stable_choose | by apply stable_contextOpen
          |by apply stable_selectProvider | by apply stable_start | idtac];
    unfold switchConversation, createConversation, updateSelectedContextWidgetIDs, updateWidgetContextEnabled,
      repairMissingContextWidgets, persistInBackground, prewarmActiveProviderRoute, probeActiveProviderRoute,
      clearActiveProviderRouteState, refreshActiveProviderHistory, selectAgent, reportError; stable_tac; apply HP; exact I.
Qed.

Lemma handler_wp h s :
  prompts_ok s ->
  wpg (keeps_flow (executes h s)) (permits h s) (handlerProg clock auditNow isoNow env h) s s
    (fun _ a b => keeps_flow (executes h s) a b /\ (executes h s -> fl_pending (as_flow b) = None)).
Proof.
  intros Hs.
  assert (forall p : Agent unit, wpg (keeps_flow (executes h s)) (permits h s) p s s
      (fun _ a b => keeps_flow (executes h s) a b) -> (executes h s -> False) ->
    wpg (keeps_flow (executes h s)) (permits h s) p s s
      (fun _ a b => keeps_flow (executes h s) a b /\ (executes h s -> fl_pending (as_flow b) = None))) as Hnot.
  { intros p Hp Hx. eapply wp_weaken; [|exact Hp]. intros r a b Hab. split; [done|]. by intros ?%Hx. }
  destruct (plain h) eqn:E.
  - apply Hnot; [by apply quiet_wp, plain_quiet|]. by destruct h.
  - destruct h; try discriminate E.
    + apply Hnot; [by apply submit_wp|done].
    + apply Hnot; [by apply answer_wp|done].
    + by apply approve_wp.
    + apply Hnot; [apply cancel_wp|done].
    + apply Hnot; [|done]. cbn [handlerProg].
      apply stable_bind; [apply terminal_stable|intros _; apply stable_ret|apply keeps_flow_refl].
Qed.

Lemma backend_keeps e s : keeps_flow False s (backendEffect e s).
Proof.
  destruct e; try (apply keeps_flow_same; reflexivity).
  split.
  - intros Hs f0 E. by apply Hs.
  - right. intros Hs f0 E. cbn. apply answerable_update; [|by apply Hs].
    intros [] Hne; try done. by eexists.
Qed.

(** ** The machine *)

Notation step := (step clock auditNow isoNow).

(** What is known of a call in flight. *)
Definition call_ok (c : Call) : Prop :=
  match ca_rest c with
  | Ended _ => False
  | @Waiting _ _ _ _ A r k =>
      forall a s, wpg (keeps_flow (executes (ca_handler c) (ca_before c))) (permits (ca_handler c) (ca_before c))
        (k a) s s
        (fun _ a b => keeps_flow (executes (ca_handler c) (ca_before c)) a b /\
           (executes (ca_handler c) (ca_before c) -> fl_pending (as_flow b) = None))
  end.

(** A request is in the log, after the start of its call. *)
Definition sent_ok (log : list LogEntry) : Prop :=
  forall i c (A : Set) (r : AgentRequest A), log !! i = Some (LogSend c A r) ->
    exists j h before, j < i /\ log !! j = Some (LogStart c h before) /\ permits h before A r.

Definition started (log : list LogEntry) (c : Call) : Prop :=
  exists j, log !! j = Some (LogStart (ca_id c) (ca_handler c) (ca_before c)).

(** The request that a call awaits is in the log. *)
Definition awaits_logged (log : list LogEntry) (c : Call) : Prop :=
  match ca_rest c with
  | Ended _ => True
  | @Waiting _ _ _ _ A r k => exists i, log !! i = Some (LogSend (ca_id c) A r)
  end.

(** A terminal callback belongs to a prompt that was sent before. *)
Definition terminals_ok (log : list LogEntry) : Prop :=
  forall i c prompt root before, log !! i = Some (LogStart c (HTerminal prompt root) before) ->
    exists j c' options, j < i /\ log !! j = Some (LogSend c' unit (RunBackendPrompt prompt options)).

Definition executing (c : Call) : Prop := executes (ca_handler c) (ca_before c).

Record machine_ok (m : Machine) : Prop := {
  mo_prompts : prompts_ok (mc_state m);
  mo_calls : forall c, c ∈ mc_calls m -> call_ok c /\ started (mc_log m) c /\ awaits_logged (mc_log m) c;
  mo_shown : shown (mc_state m) \/ exists c, c ∈ mc_calls m /\ executing c;
  mo_sent : sent_ok (mc_log m);
  mo_terminals : terminals_ok (mc_log m)
}.

Lemma started_app log log' c : started log c -> started (log ++ log') c.
Proof. intros [j Hj]. exists j. by apply lookup_app_l_Some. Qed.

Lemma awaits_logged_app log log' c : awaits_logged log c -> awaits_logged (log ++ log') c.
Proof.
  unfold awaits_logged. destruct (ca_rest c); [done|]. intros [i Hi]. exists i. by apply lookup_app_l_Some.
Qed.

Lemma terminals_ok_app log e :
  terminals_ok log ->
  (forall c prompt root before, e = LogStart c (HTerminal prompt root) before ->
    exists j c' options, log !! j = Some (LogSend c' unit (RunBackendPrompt prompt options))) ->
  terminals_ok (log ++ [e]).
Proof.
  intros Hlog He i c prompt root before Hi. apply lookup_app_Some in Hi as [Hi|[Hlen Hi]].
  - destruct (Hlog _ _ _ _ _ Hi) as (j & c' & o & Hj & Hl). exists j, c', o. split; [done|].
    by apply lookup_app_l_Some.
  - apply list_lookup_singleton_Some in Hi as [Hz ->].
    destruct (He c prompt root before eq_refl) as (j & c' & o & Hj). exists j, c', o.
    split; [apply lookup_lt_Some in Hj; lia|]. by apply lookup_app_l_Some.
Qed.

Lemma sent_ok_app log e :
  sent_ok log ->
  match e with
  | LogSend c A r => exists j h before, log !! j = Some (LogStart c h before) /\ permits h before A r
  | _ => True
  end ->
  sent_ok (log ++ [e]).
Proof.
  intros Hlog He i c A r Hi. apply lookup_app_Some in Hi as [Hi|[Hlen Hi]].
  - destruct (Hlog _ _ _ _ Hi) as (j & h & b & Hj & Hl & Hp). exists j, h, b. split; [done|]. split; [|done].
    by apply lookup_app_l_Some.
  - apply list_lookup_singleton_Some in Hi as [Hz ->].
    destruct He as (j & h & b & Hj & Hp). exists j, h, b.
    split; [apply lookup_lt_Some in Hj; lia|]. split; [by apply lookup_app_l_Some|done].
Qed.

(** A call goes on: what it keeps carries over to the machine. *)
Lemma advance_ok c h before p m :
  prompts_ok (mc_state m) ->
  (forall x, x ∈ mc_calls m -> call_ok x /\ started (mc_log m) x /\ awaits_logged (mc_log m) x) ->
  shown (mc_state m) \/ (exists x, x ∈ mc_calls m /\ executing x) \/ executes h before ->
  sent_ok (mc_log m) -> terminals_ok (mc_log m) ->
  (exists j, mc_log m !! j = Some (LogStart c h before)) ->
  wpg (keeps_flow (executes h before)) (permits h before) p (mc_state m) (mc_state m)
    (fun _ a b => keeps_flow (executes h before) a b /\ (executes h before -> fl_pending (as_flow b) = None)) ->
  machine_ok (advance c h before p m).
Proof.
  intros Hp Hc Hsh Hsent Hterm [j Hj] Hwp. unfold advance. apply wp_run in Hwp.
  destruct (run p (mc_state m)) as [s o]. cbn [fst snd] in Hwp. destruct o as [r|A r k].
  - destruct Hwp as [[Hk Hs] Hend]. constructor; cbn [mc_state mc_calls mc_log]; [by apply Hk|done| |done|done].
    destruct Hsh as [Hsh|[Hsh|Hx]]; [|by right|].
    + destruct Hs as [Hs|Hs]; [|left; by apply Hs].
      left. intros f E. by rewrite Hend in E.
    + left. intros f E. by rewrite Hend in E.
  - destruct Hwp as (([Hk Hs] & Hperm) & Hrest).
    constructor; cbn [mc_state mc_calls mc_log]; [by apply Hk| | | |].
    + intros x [Hx| ->%list_elem_of_singleton]%elem_of_app.
      * destruct (Hc x Hx) as (H1 & H2 & H3).
        split_and!; [done|by apply started_app|by apply awaits_logged_app].
      * split_and!; [done| |].
        -- exists j. by apply lookup_app_l_Some.
        -- exists (length (mc_log m)). by rewrite lookup_app_r, Nat.sub_diag.
    + destruct Hsh as [Hsh|[(x & Hx & He)|Hx]].
      * destruct Hs as [Hs|Hs]; [|left; by apply Hs].
        right. eexists. split; [apply elem_of_app; right; by left|exact Hs].
      * right. exists x. split; [apply elem_of_app; by left|done].
      * right. eexists. split; [apply elem_of_app; right; by left|exact Hx].
    + apply sent_ok_app; [done|]. by exists j, h, before.
    + by apply terminals_ok_app.
Qed.

End FlowHandlers.

(** ** Runs of the machine *)

Section Runs.
Context `{DateHost} `{Locale}.
Variable clock : nat -> Z.
Variable auditNow : nat -> Z.
Variable isoNow : nat -> string.

Lemma initial_ok : machine_ok initial.
Proof.
  constructor; cbn; [by intros f [=]|by intros c ?%not_elem_of_nil|left; by intros f [=]|..];
    intros i c; intros; by destruct i.
Qed.

(** The calls in flight when a call starts or goes on. *)
Lemma logged_calls m (calls : list Call) log :
  machine_ok m -> calls ⊆ mc_calls m ->
  forall x, x ∈ calls -> call_ok x /\ started (mc_log m ++ log) x /\ awaits_logged (mc_log m ++ log) x.
Proof.
  intros Hm Hsub x Hx. destruct (mo_calls m Hm x (Hsub x Hx)) as (H1 & H2 & H3).
  split_and!; [done|by apply started_app|by apply awaits_logged_app].
Qed.

Lemma start_ok m env h :
  machine_ok m -> allowed m h ->
  machine_ok (advance (mc_next m) h (mc_state m) (handlerProg clock auditNow isoNow env h)
    (mkMachine (mc_state m) (mc_calls m) (S (mc_next m))
       (mc_log m ++ [LogStart (mc_next m) h (mc_state m)]))).
Proof.
  intros Hm Ha. apply advance_ok; cbn [mc_state mc_calls mc_log].
  - apply (mo_prompts m Hm).
  - by apply logged_calls.
  - destruct (mo_shown m Hm) as [Hsh|Hex]; auto.
  - apply sent_ok_app; [apply (mo_sent m Hm)|done].
  - apply terminals_ok_app; [apply (mo_terminals m Hm)|]. intros c prompt root before [= _ -> _].
    destruct Ha as (call & options & k & Hin & E).
    destruct (mo_calls m Hm call Hin) as (_ & _ & Hl). unfold awaits_logged in Hl. rewrite E in Hl.
    destruct Hl as [j Hj]. by exists j, (ca_id call), options.
  - exists (length (mc_log m)). by rewrite lookup_app_r, Nat.sub_diag.
  - apply handler_wp, (mo_prompts m Hm).
Qed.

Lemma answer_ok m i c (A : Set) (r : AgentRequest A) k a :
  machine_ok m -> mc_calls m !! i = Some c -> ca_rest c = Waiting r k ->
  machine_ok (advance (ca_id c) (ca_handler c) (ca_before c) (k a)
    (mkMachine (mc_state m) (delete i (mc_calls m)) (mc_next m) (mc_log m))).
Proof.
  intros Hm Hi E. assert (c ∈ mc_calls m) as Hin by by apply list_elem_of_lookup_2 in Hi.
  destruct (mo_calls m Hm c Hin) as (Hok & Hst & _). unfold call_ok in Hok. rewrite E in Hok.
  apply advance_ok; cbn [mc_state mc_calls mc_log];
    [apply (mo_prompts m Hm)| | |apply (mo_sent m Hm)|apply (mo_terminals m Hm)|exact Hst|apply Hok].
  - intros x Hx. apply (mo_calls m Hm). rewrite list_elem_of_lookup in Hx. destruct Hx as [j Hj].
    rewrite list_lookup_delete in Hj. by case_decide; apply list_elem_of_lookup_2 in Hj.
  - destruct (mo_shown m Hm) as [Hsh|(x & Hx & He)]; [by left|right].
    rewrite (delete_Permutation _ _ _ Hi) in Hx. apply elem_of_cons in Hx as [->|Hx]; [by right|left; eauto].
Qed.

Lemma backend_ok m e :
  machine_ok m -> machine_ok (mkMachine (backendEffect e (mc_state m)) (mc_calls m) (mc_next m) (mc_log m)).
Proof.
  intros Hm. destruct (backend_keeps e (mc_state m)) as [H1 H2].
  constructor; cbn [mc_state mc_calls mc_log];
    [by apply H1, (mo_prompts m Hm)|apply (mo_calls m Hm)| |apply (mo_sent m Hm)|apply (mo_terminals m Hm)].
  destruct (mo_shown m Hm) as [Hsh|Hex]; [|by right]. destruct H2 as [[]|H2]. left. by apply H2.
Qed.

Lemma step_ok m m' : step clock auditNow isoNow m m' -> machine_ok m -> machine_ok m'.
Proof.
  intros [env h Hh|i c A r k a Hi E|e] Hm; [by apply start_ok|by eapply answer_ok|by apply backend_ok].
Qed.

Lemma reachable_ok m : reachable clock auditNow isoNow m -> machine_ok m.
Proof.
  intros Hr. pose proof initial_ok as Hi. unfold reachable in Hr.
  induction Hr as [m|m1 m2 m3 Hs Hr IH]; [done|]. apply IH. by eapply step_ok.
Qed.

(** ** What the user did *)

(** The user submitted [/run text] when nothing waited for an answer. *)
Definition ran (log : list LogEntry) (i : nat) (text : string) : Prop :=
  exists j c before, j < i /\ log !! j = Some (LogStart c HSubmit before) /\
    getRunCommand (trimText (sb_draft (as_submit before))) = Some text /\ fl_pending (as_flow before) = None.

(** The user approved the flow that was pending then. *)
Definition approved (log : list LogEntry) (i : nat) (f : PendingInteractionFlow) : Prop :=
  exists j c m before, j < i /\ log !! j = Some (LogStart c (HApprove m) before) /\ approved_flow m before f.

Definition authorised (log : list LogEntry) (i : nat) (A : Set) (r : AgentRequest A) : Prop :=
  match r with
  | ExecuteTool token _ (SendInput _ text _) =>
      token = None /\ ran log i text \/
      exists f, approved log i f /\
        match pf_runApproval f with
        | Some ra => text = ra_command ra /\ token <> None
        | None => executesInTerminal f = true
        end
  | ExecuteTool _ _ (SafetyConfirm x) =>
      exists f, approved log i f /\
        match pf_runApproval f with
        | Some ra => x = ra_approvalID ra
        | None => executesInTerminal f = true
        end
  | PlanTerminalCommand _ _ prompt _ =>
      exists f, approved log i f /\ pf_runApproval f = None /\ executesInTerminal f = true /\ prompt = pf_prompt f
  | _ => True
  end.

(** A terminal callback for a [/run] prompt goes back to its submission. *)
Lemma terminal_was_submitted log j c prompt root before text :
  sent_ok log -> terminals_ok log -> log !! j = Some (LogStart c (HTerminal prompt root) before) ->
  getRunCommand prompt = Some text -> ran log j text.
Proof.
  intros Hsent Hterm Hj Etext. destruct (Hterm _ _ _ _ _ Hj) as (i1 & c1 & options & Hi1 & El1).
  destruct (Hsent _ _ _ _ El1) as (i2 & h & b & Hi2 & El2 & Hp). cbn in Hp.
  destruct Hp as [Hp|(-> & -> & Hnone)]; [congruence|].
  exists i2, c1, b. split; [lia|]. by rewrite Etext.
Qed.

(** C2: nothing reaches a terminal that the user did not authorise.  Whatever
    the order of the callbacks and of the answers, a command that the panel
    sends was typed by the user as [/run] command while no flow was pending, and
    then it carries no approval token, or the user approved the flow that was
    pending: the confirmed [/run] command itself, with its token, or the plan
    of a flow that executes in the terminal.  A safety confirmation and a
    planned command are only requested for a flow that the user approved. *)
Theorem terminal_input_is_authorised m i c (A : Set) (r : AgentRequest A)
    (Hr : reachable clock auditNow isoNow m) (Hi : mc_log m !! i = Some (LogSend c A r)) :
  authorised (mc_log m) i A r.
Proof.
  apply reachable_ok in Hr as Hm. destruct (mo_sent m Hm _ _ _ _ Hi) as (j & h & before & Hj & El & Hp).
  assert (forall f message, approved_flow message before f -> h = HApprove message -> approved (mc_log m) i f) as Happ
    by (intros f message Hf ->; by exists j, c, message, before).
  destruct r; try done; [destruct input; try done|]; destruct h; try done; cbn in *.
  - destruct Hp as (f & Hf & Hp). right. exists f. by split; [eapply Happ|].
  - destruct Hp as (-> & Etext & _). left. split; [done|].
    destruct (terminal_was_submitted _ _ _ _ _ _ _ (mo_sent m Hm) (mo_terminals m Hm) El Etext)
      as (j' & c' & b & Hj' & H'').
    exists j', c', b. split; [lia|done].
  - destruct Hp as (f & Hf & Hp). exists f. by split; [eapply Happ|].
  - destruct Hp as (f & Hf & Hp). exists f. by split; [eapply Happ|].
Qed.

(** The panel does not get stuck on a flow.  In every reachable state of the
    panel the pending flow has an open questionnaire or an approval message of
    its own among the messages, so that the user can answer or cancel it, or
    an approval is being executed, whose end clears the flow. *)
Theorem pending_flow_answerable m f
    (Hr : reachable clock auditNow isoNow m) (Hf : fl_pending (as_flow (mc_state m)) = Some f) :
  answerable f (fl_interaction (as_flow (mc_state m))) \/ exists c, c ∈ mc_calls m /\ executing c.
Proof. apply reachable_ok in Hr as Hm. destruct (mo_shown m Hm) as [Hs|He]; [left; by apply Hs|by right]. Qed.

End Runs.

(** ** Approved executions end *)

(** Nothing is blocked and no flow is pending. *)
Definition released (s : AgentState) : Prop :=
  fl_pending (as_flow s) = None /\ sb_isSubmitting (as_submit s) = false /\
  sb_isResponseCancellable (as_submit s) = false /\ sb_blocked (as_submit s) = false.

Section Bounds.
Context `{DateHost} `{Locale}.
Variable clock : nat -> Z.
Variable auditNow : nat -> Z.
Variable env : PanelEnv.

Lemma within_refreshList : within 1 refreshConversationList.
Proof.
  unfold refreshConversationList, refreshConversationListForPanel, beginListRefresh, finishListRefresh.
  apply (within_bind 0); [by intros ?|intros s]. apply (within_bind 1 0); [|by intros ?].
  apply (within_bind 0 1); [cbn; auto|intros nonce]. apply (within_finally 1 0); [within_tac|].
  apply (within_bind 0 0); [by intros ?|intros s']. within_tac.
Qed.

Lemma within_explain command prompt target context :
  within 3 (explainCommand refreshConversationList command prompt target context).
Proof.
  unfold explainCommand. do 3 within_step.
  apply (within_bind 1 0); [apply within_refreshList|intros _]. within_tac.
Qed.

Lemma within_token response : within 0 (getApprovalToken response).
Proof. unfold getApprovalToken. within_tac. Qed.

Lemma within_target : within 3 (resolveTerminalExecutionTarget env).
Proof.
  unfold resolveTerminalExecutionTarget. within_step. cbv zeta. apply (within_bind 1 2).
  - destruct (_ && _); [|exact I]. apply (within_bind 1 0); [|by intros ?].
    destruct (cw_hasLoaded _); [exact I|]. unfold loadContextWidgets, loadContextWidgetsForPanel.
    within_step. apply (within_bind 1 0); [within_tac|intros ?; within_tac].
  - intros terminal. apply (within_bind 1 1); [within_tac|intros widget; within_tac].
Qed.

Lemma within_confirmRun ra : within 1 (confirmRun ra).
Proof. unfold confirmRun. within_step. destruct (tr_status _); try exact I. apply within_token. Qed.

Lemma within_runApproved ra token : within 4 (runApprovedTerminalPrompt env refreshConversationList ra token).
Proof.
  unfold runApprovedTerminalPrompt. within_step. cbv zeta. within_step. destruct (tr_status _); try exact I. apply within_explain.
Qed.

Lemma within_confirmAndSend context command w p : within 2 (confirmAndSend context command w p).
Proof.
  unfold confirmAndSend. destruct (mbind _ _); [|exact I]. within_step. destruct (tr_status _); try exact I.
  apply (within_bind 0 1); [apply within_token|intros token; within_tac].
Qed.

Lemma within_plan prompt repoRoot model :
  within 10 (runApprovedExecutionPlan env refreshConversationList prompt repoRoot model).
Proof.
  unfold runApprovedExecutionPlan. within_step. cbv zeta. apply (within_bind 3 7); [apply within_target|intros target].
  within_step. cbv zeta. destruct (negb _); [exact I|]. within_step. apply (within_bind 2 3).
  - destruct (tr_status _); try exact I. apply within_confirmAndSend.
  - intros response. destruct (tr_status response); try exact I. apply within_explain.
Qed.

Lemma within_approved n audit m body : within n body -> within n (runApproved auditNow audit m body).
Proof.
  intros Hb. unfold runApproved. apply (within_bind 0); [exact I|intros _].
  apply (within_le (n + 0 + 0 + 0)); [lia|]. apply within_finally; [|exact I].
  apply within_try; [|intros e; exact I]. by apply within_bind; [|intros ?].
Qed.

Lemma approved_releases org audit m body s0 s :
  wp org (fun _ _ _ _ => True) (runApproved auditNow audit m body) s0 s (fun _ (_ : AgentState) b => released b).
Proof.
  unfold runApproved. cbn [bind lockPanel update wp]. apply wp_finally. eapply wp_weaken; [|apply wp_any].
  intros r a b _. cbn. done.
Qed.

Lemma within_approve message : within 11 (approvePendingPlan clock auditNow env message).
Proof.
  unfold approvePendingPlan. within_step. destruct (fl_pending _) as [f|]; [|exact I].
  destruct (negb _); [exact I|]. apply (within_bind 0); [by intros ?|intros approved].
  apply (within_bind 0); [by intros ?|intros audit]. apply (within_bind 0); [exact I|intros _].
  destruct (pf_runApproval f) as [ra|]; [|destruct (executesInTerminal f)].
  - apply (within_le 5); [lia|]. apply within_approved, (within_bind 1); [apply within_confirmRun|intros token].
    apply within_runApproved.
  - apply within_approved. within_step. apply within_plan.
  - within_step. unfold backendPrompt. within_tac.
Qed.

(** C9: an approved execution never leaves the panel blocked.  The call of
    [approvePendingPlan] for a flow that runs something in the terminal ends
    after at most 11 answers, whatever they are and whatever the other calls do
    in between; when it ends, no flow is pending, nothing is submitting and the
    widget is not blocked, errors included. *)
Theorem approval_releases message s f
    (Hf : fl_pending (as_flow s) = Some f) (Hid : pf_flowID f = am_planId message)
    (Hruns : pf_runApproval f <> None \/ executesInTerminal f = true) :
  within 11 (approvePendingPlan clock auditNow env message) /\
  ends_with (approvePendingPlan clock auditNow env message) s released.
Proof.
  split; [apply within_approve|]. unfold ends_with, approvePendingPlan. apply wp_bind. cbn [wp get].
  rewrite Hf, (bool_decide_eq_true_2 _ Hid). cbn [negb].
  apply wp_bind, wp_withKeys. intros approved keys _. apply wp_bind, wp_withKeys. intros audit keys' _.
  apply wp_bind. cbn [wp showApproved bind update].
  destruct (pf_runApproval f); [apply approved_releases|].
  destruct Hruns as [[]| ->]; [done|]. apply approved_releases.
Qed.

End Bounds.

(** * Witnesses *)

#[local] Instance no_dates : DateHost := {| dateParse _ := None |}.

Definition one_terminal : PanelEnv :=
  mkEnv "panel" true "terminal" [mkBinding "terminal" PresetMain None "term-1"] false.
Definition ticks : nat -> Z := Z.of_nat.
Definition undated : nat -> string := fun _ => "".

(** The callback [h] is called in [m]. *)
Definition begins (h : Handler) (m : Machine) : Machine :=
  advance (mc_next m) h (mc_state m) (handlerProg ticks ticks undated one_terminal h)
    (mkMachine (mc_state m) (mc_calls m) (S (mc_next m)) (mc_log m ++ [LogStart (mc_next m) h (mc_state m)])).

(** The terminal's baseline answers a request for it, the other requests fail. *)
Definition answerOf {A : Set} (r : AgentRequest A) : (A + JsError -> Agent unit) -> Agent unit :=
  match r in AgentRequest A return (A + JsError -> Agent unit) -> Agent unit with
  | FetchTerminalSnapshot _ => fun k => k (inl (mkBaseline (Some "local") None 7))
  | _ => fun k => k (inr None)
  end.

(** The call at [i] is answered. *)
Definition answers (i : nat) (m : Machine) : Machine :=
  match mc_calls m !! i with
  | Some c =>
      match ca_rest c with
      | Ended _ => m
      | Waiting r k =>
          advance (ca_id c) (ca_handler c) (ca_before c) (answerOf r k)
            (mkMachine (mc_state m) (delete i (mc_calls m)) (mc_next m) (mc_log m))
      end
  | None => m
  end.

Notation run_reachable := (reachable ticks ticks undated).

Lemma begins_reachable m h : run_reachable m -> allowed m h -> run_reachable (begins h m).
Proof. intros Hm Hh. eapply rtc_r; [exact Hm|]. by apply step_start. Qed.

Lemma answers_reachable m i : run_reachable m -> run_reachable (answers i m).
Proof.
  intros Hm. unfold answers. destruct (mc_calls m !! i) as [c|] eqn:Hc; [|done].
  destruct (ca_rest c) as [|A r k] eqn:Hr; [done|].
  assert (exists a, answerOf r k = k a) as [a ->] by (destruct r; by eexists).
  eapply rtc_r; [exact Hm|]. by eapply step_answer.
Qed.

(** The user submits [/run ls], and the submission gets to its terminal. *)
Definition submitted (draft : string) : Machine := begins HSubmit (begins (HSetDraft draft) initial).
Definition sent : Machine := answers 1 (begins (HTerminal "/run ls" "/repo") (submitted "/run ls")).

Lemma submitted_reachable draft : run_reachable (submitted draft).
Proof. apply begins_reachable; [|exact I]. apply begins_reachable; [|exact I]. apply rtc_refl. Qed.

Definition awaited_prompt (c : Call) : option string :=
  match ca_rest c with Waiting (RunBackendPrompt prompt _) _ => Some prompt | _ => None end.

Lemma prompt_allowed m i prompt repoRoot :
  (c ← mc_calls m !! i; awaited_prompt c) = Some prompt -> allowed m (HTerminal prompt repoRoot).
Proof.
  destruct (mc_calls m !! i) as [c|] eqn:Hc; cbn; [|done]. unfold awaited_prompt.
  destruct (ca_rest c) as [|A r k] eqn:Hr; [done|]. destruct r; try done. intros [= ->].
  exists c, options, k. split; [by apply list_elem_of_lookup_2 in Hc|done].
Qed.

Lemma terminal_input_is_authorised_witness :
  exists c ctx,
    mc_log sent !! 5 = Some (LogSend c AgentToolExecuteResponse
      (ExecuteTool None ctx (SendInput true "ls" "term-1"))) /\
    authorised (mc_log sent) 5 AgentToolExecuteResponse (ExecuteTool None ctx (SendInput true "ls" "term-1")).
Proof.
  do 2 eexists. split; [vm_compute; reflexivity|].
  eapply (terminal_input_is_authorised ticks ticks undated sent 5); [|vm_compute; reflexivity].
  apply answers_reachable, begins_reachable; [apply submitted_reachable|].
  apply (prompt_allowed _ 0). vm_compute. reflexivity.
Defined.

Lemma pending_flow_answerable_witness :
  exists f, fl_pending (as_flow (mc_state (submitted "create a file"))) = Some f /\
    answerable f (fl_interaction (as_flow (mc_state (submitted "create a file")))).
Proof.
  eexists. split; [vm_compute; reflexivity|].
  destruct (pending_flow_answerable ticks ticks undated (submitted "create a file") _
    (submitted_reachable _) ltac:(vm_compute; reflexivity)) as [Ha|(c & Hc & _)]; [exact Ha|].
  exfalso. vm_compute in Hc. by inversion Hc.
Defined.

(** A flow that executes in the terminal, and its approval. *)
Definition terminal_flow : PendingInteractionFlow :=
  mkFlow (Some "f-approval") None None false "f" "start it" None None [mkTool "execute_terminal" None].
Definition terminal_approval : ApprovalMessage := mkApproval "f-approval" "f" ApprovalPending None.

Lemma approval_releases_witness :
  within 11 (approvePendingPlan ticks ticks one_terminal terminal_approval) /\
  forall s, fl_pending (as_flow s) = Some terminal_flow ->
    ends_with (approvePendingPlan ticks ticks one_terminal terminal_approval) s released.
Proof.
  split.
  - apply (approval_releases ticks ticks one_terminal terminal_approval
      (setPendingFlow (Some terminal_flow) mounted) terminal_flow); [reflexivity|reflexivity|right; reflexivity].
  - intros s Hs. apply (approval_releases ticks ticks one_terminal terminal_approval s terminal_flow Hs);
      [reflexivity|right; reflexivity].
Defined.
