(* ===== verification/Streaming.v ===== *)
(** * Submissions of the agent panel

    [frontend/src/features/agent/model/agent-panel-streaming.ts]:
    [runBackendPromptForPanel] and [cancelActiveSubmissionForPanel].  A
    submission takes a fresh nonce and awaits the runtime context, a terminal
    command, the connection, the end of the stream and a snapshot; the runs in
    flight are a list of the state, and an event is a call or the answer that
    one of them awaits.  A nonce is the number of the run. *)
From stdpp Require Import strings.
From S2P Require Import Prelude JsString Sse Conversation.
Local Open Scope string_scope.
Local Open Scope list_scope.
Local Open Scope nat_scope.
Local Open Scope js_scope.

(** ** State *)

(** What a run awaits. *)
Inductive RunStage := AwaitContext | AwaitTerminal | AwaitConnect | AwaitDone | AwaitSnapshot.
#[global] Instance run_stage_eq : EqDecision RunStage.
Proof. solve_decision. Defined.

(** A call of [runBackendPromptForPanel], with its local variables. *)
Record Run := mkRun {
  ru_nonce : nat;
  ru_stage : RunStage;
  ru_prompt : string;
  ru_auditMessageID : option string;
  ru_auditProgressed : bool;
  ru_streamErrored : bool
}.

(** The state of the panel that the calls read and write; [ap_audits] holds the
    entries of the audit messages by the id of the message, and [ap_sent] the
    prompts whose stream was requested. *)
Record Panel := mkPanel {
  ap_nonce : nat;
  ap_isSubmitting : bool;
  ap_isResponseCancellable : bool;
  ap_blocked : bool;
  ap_loadError : option string;
  ap_submitError : option string;
  ap_activeStream : option nat;
  ap_activeAbort : option nat;
  ap_activeAudit : option string;
  ap_messages : option Messages;
  ap_audits : gmap string (list AuditEntry);
  ap_runs : list Run;
  ap_sent : list string
}.

Inductive PanelEvent :=
  | Submit (prompt : string) (auditMessageID : option string) (cancellable : bool)
  | ContextResolved (n : nat)
  | TerminalAnswered (n : nat) (handled : bool)
  | Connected (n : nat)
  | StreamEvent (n : nat) (event : AgentConversationStreamEvent) (now : Z)
  | StreamEnded (n : nat)
  | SnapshotLoaded (n : nat) (messages : Messages)
  | RunFailed (n : nat) (message : option string) (now : Z)
  | CancelSubmission (created_at : string) (now : Z).

(** ** Setters *)

Section Setters.
Implicit Types s : Panel.

Definition set_flags (submitting cancellable blocked : bool) s : Panel :=
  mkPanel (ap_nonce s) submitting cancellable blocked (ap_loadError s) (ap_submitError s) (ap_activeStream s)
    (ap_activeAbort s) (ap_activeAudit s) (ap_messages s) (ap_audits s) (ap_runs s) (ap_sent s).
Definition set_nonce (n : nat) s : Panel :=
  mkPanel n (ap_isSubmitting s) (ap_isResponseCancellable s) (ap_blocked s) (ap_loadError s) (ap_submitError s)
    (ap_activeStream s) (ap_activeAbort s) (ap_activeAudit s) (ap_messages s) (ap_audits s) (ap_runs s) (ap_sent s).
Definition set_errors (load submit : option string) s : Panel :=
  mkPanel (ap_nonce s) (ap_isSubmitting s) (ap_isResponseCancellable s) (ap_blocked s) load submit
    (ap_activeStream s) (ap_activeAbort s) (ap_activeAudit s) (ap_messages s) (ap_audits s) (ap_runs s) (ap_sent s).
Definition set_refs (stream abort : option nat) (audit : option string) s : Panel :=
  mkPanel (ap_nonce s) (ap_isSubmitting s) (ap_isResponseCancellable s) (ap_blocked s) (ap_loadError s)
    (ap_submitError s) stream abort audit (ap_messages s) (ap_audits s) (ap_runs s) (ap_sent s).
Definition set_messages (m : option Messages) s : Panel :=
  mkPanel (ap_nonce s) (ap_isSubmitting s) (ap_isResponseCancellable s) (ap_blocked s) (ap_loadError s)
    (ap_submitError s) (ap_activeStream s) (ap_activeAbort s) (ap_activeAudit s) m (ap_audits s) (ap_runs s) (ap_sent s).
Definition set_audits (a : gmap string (list AuditEntry)) s : Panel :=
  mkPanel (ap_nonce s) (ap_isSubmitting s) (ap_isResponseCancellable s) (ap_blocked s) (ap_loadError s)
    (ap_submitError s) (ap_activeStream s) (ap_activeAbort s) (ap_activeAudit s) (ap_messages s) a (ap_runs s) (ap_sent s).
Definition set_runs (l : list Run) s : Panel :=
  mkPanel (ap_nonce s) (ap_isSubmitting s) (ap_isResponseCancellable s) (ap_blocked s) (ap_loadError s)
    (ap_submitError s) (ap_activeStream s) (ap_activeAbort s) (ap_activeAudit s) (ap_messages s) (ap_audits s) l (ap_sent s).
Definition set_sent (l : list string) s : Panel :=
  mkPanel (ap_nonce s) (ap_isSubmitting s) (ap_isResponseCancellable s) (ap_blocked s) (ap_loadError s)
    (ap_submitError s) (ap_activeStream s) (ap_activeAbort s) (ap_activeAudit s) (ap_messages s) (ap_audits s) (ap_runs s) l.

End Setters.

(** ** Operations *)

Section Streaming.
Variable hostId : string.
Implicit Types s : Panel.

(** [isActiveSubmission()] *)
Definition isActive s (r : Run) : bool := ap_nonce s =? ru_nonce r.

Definition withStage (st : RunStage) (r : Run) : Run :=
  mkRun (ru_nonce r) st (ru_prompt r) (ru_auditMessageID r) (ru_auditProgressed r) (ru_streamErrored r).
Definition withLocals (progressed errored : bool) (r : Run) : Run :=
  mkRun (ru_nonce r) (ru_stage r) (ru_prompt r) (ru_auditMessageID r) progressed errored.

Definition has_nonce (n : nat) (r : Run) : bool := ru_nonce r =? n.
Definition replaceRun (r : Run) s : Panel :=
  set_runs ((fun x => if has_nonce (ru_nonce r) x then r else x) <$> ap_runs s) s.
Definition dropRun (r : Run) s : Panel :=
  set_runs (filterb (fun x => negb (has_nonce (ru_nonce r) x)) (ap_runs s)) s.

(** [updateAuditMessageEntries] on the entries of the message, when there is one. *)
Definition updateAudit (auditMessageID : option string) (f : list AuditEntry -> list AuditEntry) s : Panel :=
  match truthyOpt auditMessageID with
  | None => s
  | Some x => set_audits (alter f x (ap_audits s)) s
  end.

(** [runBackendPromptForPanel] up to its first [await]. *)
Definition startRun s (prompt : string) (auditMessageID : option string) (cancellable : bool) : Panel :=
  let n := S (ap_nonce s) in
  let s1 := set_errors None None (set_flags true cancellable true (set_nonce n s)) in
  set_runs (ap_runs s ++ [mkRun n AwaitContext prompt auditMessageID false false])
    (set_refs (ap_activeStream s) (Some n) auditMessageID s1).

(** The [finally] block; [connected] says whether a connection was assigned. *)
Definition finishRun s (r : Run) : Panel :=
  let s1 := dropRun r s in
  if isActive s r then
    let connected := match ru_stage r with AwaitDone | AwaitSnapshot => true | _ => false end in
    set_flags false false false
      (set_refs (if connected then None else ap_activeStream s) None
         (if decide (ap_activeAudit s = ru_auditMessageID r) then None else ap_activeAudit s) s1)
  else s1.

(** [await input.runTerminalPrompt(...)]; when it does not take the prompt the
    stream is requested, whether or not the submission is still active. *)
Definition terminalAnswered s (r : Run) (handled : bool) : Panel :=
  if handled then finishRun s r
  else set_sent (ap_sent s ++ [ru_prompt r]) (replaceRun (withStage AwaitConnect r) s).

Definition connected s (r : Run) : Panel :=
  if isActive s r then
    set_refs (Some (ru_nonce r)) (ap_activeAbort s) (ap_activeAudit s)
      (replaceRun (withStage AwaitDone r) s)
  else finishRun s r.

(** [onEvent] *)
Definition onStreamEvent s (r : Run) (event : AgentConversationStreamEvent) (now : Z) : Panel :=
  if negb (isActive s r) then s
  else
    let s1 := set_messages (Some (applyAgentConversationStreamEvent (ap_messages s ?? []) event)) s in
    let audit := ru_auditMessageID r in
    match event with
    | TextDelta _ _ =>
        if truthyOpt audit then
          if ru_auditProgressed r then s1
          else replaceRun (withLocals true (ru_streamErrored r) r) (updateAudit audit (advanceAuditEntries now) s1)
        else s1
    | MessageComplete _ => updateAudit audit (completeAuditEntries now) s1
    | StreamErrorEvent message error =>
        let s2 := replaceRun (withLocals (ru_auditProgressed r) true r)
                    (updateAudit audit (failAuditEntries now) s1) in
        match message, truthyOpt (trim <$> error) with
        | None, Some e => set_errors (ap_loadError s) (Some e) s2
        | _, _ => s2
        end
    | _ => s1
    end.

(** [await connection.done] *)
Definition streamEnded s (r : Run) : Panel :=
  if (isActive s r && negb (ru_streamErrored r))%bool
  then replaceRun (withStage AwaitSnapshot r) s
  else finishRun s r.

(** [await Promise.all(...)]; the snapshot is applied without another test. *)
Definition snapshotLoaded s (r : Run) (messages : Messages) : Panel :=
  finishRun (set_messages (Some messages) s) r.

Definition sendErrorMessage (message : option string) : string :=
  match message with
  | Some m => if truthy (trim m) then m
              else "Unable to send backend conversation message for " +:+ hostId +:+ "."
  | None => "Unable to send backend conversation message for " +:+ hostId +:+ "."
  end.

(** The [catch] block, then the [finally] block. *)
Definition runFailed s (r : Run) (message : option string) (now : Z) : Panel :=
  if isActive s r then
    let errorMessage := sendErrorMessage message in
    finishRun
      (set_errors (ap_loadError s) (Some errorMessage)
        (updateAudit (ru_auditMessageID r) (failAuditEntries now)
          (set_messages (Some (finalizeAgentConversationStreamingMessages (ap_messages s ?? []) errorMessage))
             s))) r
  else finishRun s r.

Definition cancellationMessage : string := "Response cancelled by operator.".

(** What [cancelActiveSubmissionForPanel] does to the messages. *)
Definition cancelMessages (n : nat) (created_at : string) (messages : Messages) : Messages :=
  let finalized := finalizeAgentConversationStreamingMessages messages cancellationMessage in
  if some (fun m => bool_decide (cm_status m = StatusStreaming)) messages then finalized
  else appendAgentConversationMessage finalized
    (mkMessage ("agent-local-cancelled-" +:+ hostId +:+ "-" +:+ showNat n) RoleAssistant cancellationMessage
       None StatusError None None None created_at).

Definition cancelActiveSubmission s (created_at : string) (now : Z) : Panel :=
  if (negb (ap_isSubmitting s) && bool_decide (ap_activeStream s = None) &&
      bool_decide (ap_activeAbort s = None))%bool then s
  else
    let n := S (ap_nonce s) in
    let s1 := set_refs None None None (set_nonce n s) in
    let s2 := updateAudit (ap_activeAudit s) (failAuditEntries now) s1 in
    set_flags false false false
      (set_errors (ap_loadError s) None
        (set_messages (Some (cancelMessages n created_at (ap_messages s ?? []))) s2)).

(** An answer for the run [n] when it awaits one of [stages]. *)
Definition onRun s (n : nat) (stages : list RunStage) (k : Run -> Panel) : Panel :=
  match find (has_nonce n) (ap_runs s) with
  | Some r => if bool_decide (ru_stage r ∈ stages) then k r else s
  | None => s
  end.

Definition panelStep s (e : PanelEvent) : Panel :=
  match e with
  | Submit prompt audit cancellable => startRun s prompt audit cancellable
  | ContextResolved n => onRun s n [AwaitContext] (fun r => replaceRun (withStage AwaitTerminal r) s)
  | TerminalAnswered n handled => onRun s n [AwaitTerminal] (fun r => terminalAnswered s r handled)
  | Connected n => onRun s n [AwaitConnect] (connected s)
  | StreamEvent n event now => onRun s n [AwaitConnect; AwaitDone] (fun r => onStreamEvent s r event now)
  | StreamEnded n => onRun s n [AwaitDone] (streamEnded s)
  | SnapshotLoaded n messages => onRun s n [AwaitSnapshot] (fun r => snapshotLoaded s r messages)
  | RunFailed n message now =>
      onRun s n [AwaitContext; AwaitTerminal; AwaitConnect; AwaitDone; AwaitSnapshot]
        (fun r => runFailed s r message now)
  | CancelSubmission created_at now => cancelActiveSubmission s created_at now
  end.

Definition runPanel s (es : list PanelEvent) : Panel := foldl panelStep s es.

End Streaming.

(** A panel without submissions, showing [messages]. *)
Definition idlePanel (messages : option Messages) (audits : gmap string (list AuditEntry)) : Panel :=
  mkPanel 0 false false false None None None None None messages audits [] [].

(** ** Invariant *)

(** The nonces of the runs are different and at most the current one; the panel
    is submitting, blocked and abortable exactly while the run with the current
    nonce is in flight. *)
Definition panel_ok (s : Panel) : Prop :=
  NoDup (ru_nonce <$> ap_runs s) /\
  (forall r, r ∈ ap_runs s -> ru_nonce r <= ap_nonce s) /\
  (ap_isSubmitting s = true <-> ap_nonce s ∈ ru_nonce <$> ap_runs s) /\
  ap_blocked s = ap_isSubmitting s /\
  ap_activeAbort s = (if ap_isSubmitting s then Some (ap_nonce s) else None).

(** What the user and the other components see of a panel. *)
Definition visible (s : Panel) : Panel := set_runs [] (set_sent [] s).

(** The run that an event is for. *)
Definition run_of (e : PanelEvent) : option nat :=
  match e with
  | Submit _ _ _ | CancelSubmission _ _ => None
  | ContextResolved n | TerminalAnswered n _ | Connected n | StreamEvent n _ _ | StreamEnded n
  | SnapshotLoaded n _ | RunFailed n _ _ => Some n
  end.

(** The run [n] has seen its stream end and awaits the closing snapshot. *)
Definition awaits_snapshot (s : Panel) (n : nat) : Prop :=
  exists r, r ∈ ap_runs s /\ ru_nonce r = n /\ ru_stage r = AwaitSnapshot.

(** ** Lemmas *)

Section StreamingLemmas.
Variable hostId : string.

Lemma find_run s n r : find (has_nonce n) (ap_runs s) = Some r -> r ∈ ap_runs s /\ ru_nonce r = n.
Proof. intros [Hr Hn]%find_Some. split; [done|]. by apply Nat.eqb_eq in Hn. Qed.

Lemma replace_nonces r s : ru_nonce <$> ap_runs (replaceRun r s) = ru_nonce <$> ap_runs s.
Proof.
  simpl. rewrite <- list_fmap_compose. apply list_fmap_ext. intros i x _. simpl.
  unfold has_nonce. by destruct (Nat.eqb_spec (ru_nonce x) (ru_nonce r)).
Qed.

Lemma drop_nonces r s x : x ∈ ap_runs (dropRun r s) <-> x ∈ ap_runs s /\ ru_nonce x <> ru_nonce r.
Proof.
  simpl. rewrite elem_of_filterb, negb_true_iff. unfold has_nonce. by rewrite Nat.eqb_neq.
Qed.

Lemma drop_nonces_sublist r s :
  sublist (ru_nonce <$> ap_runs (dropRun r s)) (ru_nonce <$> ap_runs s).
Proof.
  simpl. unfold filterb. induction (ap_runs s) as [|x l IH]; [constructor|]. simpl.
  destruct (has_nonce (ru_nonce r) x); simpl; by constructor.
Qed.

(** Only the runs and the flags matter for the invariant. *)
Lemma panel_ok_same s s' :
  panel_ok s -> ru_nonce <$> ap_runs s' = ru_nonce <$> ap_runs s -> ap_nonce s' = ap_nonce s ->
  ap_isSubmitting s' = ap_isSubmitting s -> ap_blocked s' = ap_blocked s ->
  ap_activeAbort s' = ap_activeAbort s -> panel_ok s'.
Proof.
  intros (H1 & H2 & H3 & H4 & H5) Hr Hn Hs Hb Ha. unfold panel_ok. rewrite Hr, Hn, Hs, Hb, Ha.
  split_and!; try done. intros r Hin. apply (list_elem_of_fmap_2 ru_nonce) in Hin. rewrite Hr in Hin.
  apply list_elem_of_fmap in Hin as (x & -> & Hx). by apply H2.
Qed.

Lemma updateAudit_same a f s :
  ap_runs (updateAudit a f s) = ap_runs s /\ ap_nonce (updateAudit a f s) = ap_nonce s /\
  ap_isSubmitting (updateAudit a f s) = ap_isSubmitting s /\ ap_blocked (updateAudit a f s) = ap_blocked s /\
  ap_activeAbort (updateAudit a f s) = ap_activeAbort s.
Proof. unfold updateAudit. by destruct (truthyOpt a). Qed.

Lemma panel_ok_audit a f s : panel_ok s -> panel_ok (updateAudit a f s).
Proof.
  intros Hok. destruct (updateAudit_same a f s) as (H1 & H2 & H3 & H4 & H5).
  apply (panel_ok_same s); try done. by rewrite H1.
Qed.

Lemma panel_ok_replace r s : panel_ok s -> panel_ok (replaceRun r s).
Proof. intros Hok. apply (panel_ok_same s); try done. apply replace_nonces. Qed.

Lemma panel_ok_messages m s : panel_ok s -> panel_ok (set_messages m s).
Proof. done. Qed.

Lemma panel_ok_errors a b s : panel_ok s -> panel_ok (set_errors a b s).
Proof. done. Qed.

Lemma panel_ok_finish s r : panel_ok s -> panel_ok (finishRun s r).
Proof.
  intros (H1 & H2 & H3 & H4 & H5). unfold finishRun, isActive.
  assert (NoDup (ru_nonce <$> ap_runs (dropRun r s))) as Hnd
    by (eapply sublist_NoDup; [exact H1|apply drop_nonces_sublist]).
  assert (forall x, x ∈ ap_runs (dropRun r s) -> ru_nonce x <= ap_nonce s) as Hle
    by (intros x [Hx _]%drop_nonces; by apply H2).
  destruct (Nat.eqb_spec (ap_nonce s) (ru_nonce r)) as [E|E].
  - split_and!; [done|done| |done|done]. cbn [ap_isSubmitting ap_nonce set_flags set_refs ap_runs].
    split; [done|]. intros (x & Hxn & Hx)%list_elem_of_fmap. apply drop_nonces in Hx as [_ Hne].
    exfalso. apply Hne. rewrite <- Hxn. exact E.
  - split_and!; [done|done| |done|done]. change (ap_isSubmitting (dropRun r s)) with (ap_isSubmitting s).
    change (ap_nonce (dropRun r s)) with (ap_nonce s). rewrite H3. split.
    + intros (x & Hxn & Hx)%list_elem_of_fmap. apply list_elem_of_fmap. exists x. split; [done|].
      apply drop_nonces. split; [done|]. by rewrite <- Hxn.
    + intros (x & Hxn & Hx)%list_elem_of_fmap. apply drop_nonces in Hx as [Hx _].
      apply list_elem_of_fmap. by exists x.
Qed.

Lemma panel_ok_start s prompt audit c : panel_ok s -> panel_ok (startRun s prompt audit c).
Proof.
  intros (H1 & H2 & H3 & H4 & H5). unfold startRun. cbv zeta. split_and!; cbn; [| |split|..]; try done.
  - rewrite fmap_app. apply NoDup_app. split_and!; [done| |apply NoDup_singleton].
    intros n (x & -> & Hx)%list_elem_of_fmap Hn%list_elem_of_singleton. specialize (H2 x Hx). simpl in Hn. lia.
  - intros r [Hr| ->%list_elem_of_singleton]%elem_of_app; simpl; [|lia]. specialize (H2 r Hr). lia.
  - intros _. rewrite fmap_app. apply elem_of_app. right. by apply list_elem_of_singleton.
Qed.

Lemma panel_ok_cancel s created_at now : panel_ok s -> panel_ok (cancelActiveSubmission hostId s created_at now).
Proof.
  intros Hok. unfold cancelActiveSubmission. destruct (_ && _)%bool; [done|]. cbv zeta.
  destruct Hok as (H1 & H2 & _).
  set (s2 := updateAudit _ _ _).
  destruct (updateAudit_same (ap_activeAudit s) (failAuditEntries now)
    (set_refs None None None (set_nonce (S (ap_nonce s)) s))) as (E1 & E2 & _ & _ & E5). fold s2 in E1, E2, E5.
  split_and!; cbn [ap_runs ap_nonce ap_isSubmitting ap_blocked ap_activeAbort set_flags set_errors set_messages];
    rewrite ?E1, ?E2, ?E5; cbn [ap_runs ap_nonce ap_activeAbort set_refs set_nonce]; try done.
  - intros r Hr. specialize (H2 r Hr). lia.
  - split; [done|]. intros (x & Hxn & Hx)%list_elem_of_fmap. specialize (H2 x Hx). lia.
Qed.

Lemma panel_ok_event s r event now : panel_ok s -> panel_ok (onStreamEvent s r event now).
Proof.
  intros Hok. unfold onStreamEvent. destruct (negb _); [done|]. cbv zeta. set (s1 := set_messages _ s).
  assert (panel_ok s1) as Hok1 by done. clearbody s1. destruct event as [m|x d|x d|x t|m|m err]; try done.
  - destruct (truthyOpt _), (ru_auditProgressed r); auto using panel_ok_replace, panel_ok_audit.
  - by apply panel_ok_audit.
  - destruct m; [|destruct (truthyOpt (trim <$> err))]; auto using panel_ok_errors, panel_ok_replace, panel_ok_audit.
Qed.

Lemma panelStep_ok s e : panel_ok s -> panel_ok (panelStep hostId s e).
Proof.
  intros Hok.
  assert (forall n stages k, (forall r, panel_ok (k r)) -> panel_ok (onRun s n stages k)) as Hon.
  { intros n stages k Hk. unfold onRun. destruct (find _ _); [|done]. by case_bool_decide. }
  destruct e as [p a c|n|n h|n|n ev now|n|n m|n m now|t now]; unfold panelStep; try (apply Hon; intros r).
  - by apply panel_ok_start.
  - by apply panel_ok_replace.
  - unfold terminalAnswered. destruct h; [by apply panel_ok_finish|]. by apply (panel_ok_replace _ s).
  - unfold connected. destruct (isActive s r); [|by apply panel_ok_finish]. by apply (panel_ok_replace _ s).
  - by apply panel_ok_event.
  - unfold streamEnded. destruct (_ && _)%bool; [by apply panel_ok_replace|by apply panel_ok_finish].
  - by apply (panel_ok_finish (set_messages (Some m) s)).
  - unfold runFailed. destruct (isActive s r); [|by apply panel_ok_finish]. cbv zeta.
    by apply panel_ok_finish, panel_ok_errors, panel_ok_audit.
  - by apply panel_ok_cancel.
Qed.

Lemma runPanel_ok es s : panel_ok s -> panel_ok (runPanel hostId s es).
Proof. revert s. induction es as [|e es IH]; intros s Hok; [done|]. by apply IH, panelStep_ok. Qed.

Lemma idle_ok messages audits : panel_ok (idlePanel messages audits).
Proof. split_and!; try done; [apply NoDup_nil_2|intros r Hr; by apply elem_of_nil in Hr|].
  split; [done|]. intros Hr. by apply elem_of_nil in Hr. Qed.

(** A run that is not active any more changes nothing that can be seen. *)
Lemma stale_finish s r : isActive s r = false -> visible (finishRun s r) = visible s.
Proof. intros Ha. unfold finishRun. by rewrite Ha. Qed.

Lemma stale_event s e n :
  run_of e = Some n -> n <> ap_nonce s ->
  visible (panelStep hostId s e) = visible s \/
  exists m, e = SnapshotLoaded n m /\ awaits_snapshot s n /\
    visible (panelStep hostId s e) = visible (set_messages (Some m) s).
Proof.
  intros Hn Hne.
  assert (forall stages k, (forall r, isActive s r = false -> visible (k r) = visible s) ->
    visible (onRun s n stages k) = visible s) as Hon.
  { intros stages k Hk. unfold onRun. destruct (find _ _) as [r|] eqn:E; [|done].
    case_bool_decide; [|done]. apply find_run in E as [_ Er]. apply Hk. apply Nat.eqb_neq. congruence. }
  destruct e as [p a c|m|m h|m|m ev now|m|m l|m err now|t now]; try discriminate Hn;
    injection Hn as ->; unfold panelStep;
    lazymatch goal with |- _ \/ (exists _, SnapshotLoaded _ _ = _ /\ _) => idtac | _ => left; apply Hon; intros r Ha end.
  - done.
  - unfold terminalAnswered. destruct h; [by apply stale_finish|done].
  - unfold connected. rewrite Ha. by apply stale_finish.
  - unfold onStreamEvent. by rewrite Ha.
  - unfold streamEnded. rewrite Ha. by apply stale_finish.
  - unfold onRun. destruct (find _ _) as [r|] eqn:E; [|by left]. case_bool_decide as Hst; [|by left].
    apply find_run in E as [Hr Er]. apply list_elem_of_singleton in Hst. right. exists l.
    split_and!; [done|by exists r|]. apply (stale_finish (set_messages (Some l) s)).
    apply Nat.eqb_neq. cbn [ap_nonce set_messages]. congruence.
  - unfold runFailed. rewrite Ha. by apply stale_finish.
Qed.

Lemma awaits_replace s r n :
  ru_stage r <> AwaitSnapshot -> awaits_snapshot (replaceRun r s) n -> awaits_snapshot s n.
Proof.
  intros Hst (x & Hx & Hn & Hs). cbn [replaceRun set_runs ap_runs] in Hx.
  apply list_elem_of_fmap in Hx as (y & -> & Hy). destruct (has_nonce _ y); [done|by exists y].
Qed.

Lemma awaits_finish s r n : awaits_snapshot (finishRun s r) n -> awaits_snapshot s n.
Proof.
  intros (x & Hx & Hn). assert (x ∈ ap_runs (dropRun r s)) as [Hx' _]%elem_of_filterb.
  { revert Hx. unfold finishRun. by destruct (isActive s r). }
  by exists x.
Qed.

(** A run that is not active any more does not come to await a snapshot. *)
Lemma stale_event_awaits s e n n' :
  run_of e = Some n -> n <> ap_nonce s ->
  awaits_snapshot (panelStep hostId s e) n' -> awaits_snapshot s n'.
Proof.
  intros Hn Hne.
  assert (forall stages k, (forall r, isActive s r = false -> awaits_snapshot (k r) n' -> awaits_snapshot s n') ->
    awaits_snapshot (onRun s n stages k) n' -> awaits_snapshot s n') as Hon.
  { intros stages k Hk. unfold onRun. destruct (find _ _) as [r|] eqn:E; [|done].
    case_bool_decide; [|done]. apply find_run in E as [_ Er]. apply Hk. apply Nat.eqb_neq. congruence. }
  destruct e as [p a c|m|m h|m|m ev now|m|m l|m err now|t now]; try discriminate Hn;
    injection Hn as ->; unfold panelStep; apply Hon; intros r Ha.
  - by apply awaits_replace.
  - unfold terminalAnswered. destruct h; [apply awaits_finish|].
    intros Hs. by apply (awaits_replace s (withStage AwaitConnect r)).
  - unfold connected. rewrite Ha. apply awaits_finish.
  - unfold onStreamEvent. by rewrite Ha.
  - unfold streamEnded. rewrite Ha. apply awaits_finish.
  - unfold snapshotLoaded. intros Hs%awaits_finish. exact Hs.
  - unfold runFailed. rewrite Ha. apply awaits_finish.
Qed.

(** Whatever the stale runs still receive, the messages at most are replaced, by
    a snapshot that one of them awaited already. *)
Lemma stale_run es s :
  Forall (fun e => exists n, run_of e = Some n /\ n <> ap_nonce s) es ->
  visible (runPanel hostId s es) = visible s \/
  exists n m, SnapshotLoaded n m ∈ es /\ awaits_snapshot s n /\
    visible (runPanel hostId s es) = visible (set_messages (Some m) s).
Proof.
  revert s. induction es as [|e es IH]; intros s Hall; [by left|].
  apply Forall_cons in Hall as [(n & Hn & Hne) Hall].
  assert (exists m0, visible (panelStep hostId s e) = visible (set_messages m0 s)) as [m0 Hv0].
  { destruct (stale_event s e n Hn Hne) as [Hv|(m & _ & _ & Hv)]; rewrite Hv; [|by eexists].
    exists (ap_messages s). by destruct s. }
  assert (ap_nonce (panelStep hostId s e) = ap_nonce s) as En
    by (change (ap_nonce (visible (panelStep hostId s e)) = ap_nonce s); by rewrite Hv0).
  destruct (IH (panelStep hostId s e)) as [Hv|(n' & m & Hin & Haw & Hv)].
  - by rewrite En.
  - change (runPanel hostId s (e :: es)) with (runPanel hostId (panelStep hostId s e) es). rewrite Hv.
    destruct (stale_event s e n Hn Hne) as [Hv1|(m & -> & Haw & Hv1)]; [by left|].
    right. exists n, m. split_and!; [left|done|done].
  - right. exists n', m. split_and!; [by right|by eapply stale_event_awaits|].
    change (runPanel hostId s (e :: es)) with (runPanel hostId (panelStep hostId s e) es). rewrite Hv.
    change (visible (set_messages (Some m) (panelStep hostId s e)))
      with (set_messages (Some m) (visible (panelStep hostId s e))). by rewrite Hv0.
Qed.

(** After the [finally] block of the active run the panel is free. *)
Lemma finish_frees s r :
  isActive s r = true ->
  ap_isSubmitting (finishRun s r) = false /\ ap_blocked (finishRun s r) = false /\
  ap_isResponseCancellable (finishRun s r) = false /\ ap_activeAbort (finishRun s r) = None /\
  ap_messages (finishRun s r) = ap_messages s /\ ap_submitError (finishRun s r) = ap_submitError s.
Proof. intros Ha. unfold finishRun. by rewrite Ha. Qed.

Lemma finalize_closes messages error :
  Forall (fun m => cm_status m <> StatusStreaming) (finalizeAgentConversationStreamingMessages messages error).
Proof.
  apply Forall_fmap, Forall_forall. intros m _. simpl. case_decide; [discriminate|done].
Qed.

Lemma find_by_nonce s r :
  panel_ok s -> r ∈ ap_runs s -> find (has_nonce (ru_nonce r)) (ap_runs s) = Some r.
Proof.
  intros (Hnd & _) Hr. destruct (find _ _) as [x|] eqn:E.
  - apply find_run in E as [Hx Hn]. f_equal. by apply (NoDup_fmap_elem ru_nonce (ap_runs s)).
  - rewrite find_None in E. specialize (E r Hr). unfold has_nonce in E. by rewrite Nat.eqb_refl in E.
Qed.

End StreamingLemmas.

(** ** Properties *)

(** The panel is busy exactly while its newest submission runs: it shows
    itself as submitting, blocks its widget and holds an abort controller if
    and only if the run with the current nonce is in flight, and whenever that
    run fails, at whatever point, the panel is free again, shows the error and
    no message is left streaming. *)
Theorem panel_busy_while_running hostId messages audits es :
  let s := runPanel hostId (idlePanel messages audits) es in
  (ap_isSubmitting s = true <-> exists r, r ∈ ap_runs s /\ isActive s r = true) /\
  ap_blocked s = ap_isSubmitting s /\
  ap_activeAbort s = (if ap_isSubmitting s then Some (ap_nonce s) else None) /\
  (forall r message now, r ∈ ap_runs s -> isActive s r = true ->
     let s' := panelStep hostId s (RunFailed (ru_nonce r) message now) in
     ap_isSubmitting s' = false /\ ap_blocked s' = false /\ ap_activeAbort s' = None /\
     ap_submitError s' = Some (sendErrorMessage hostId message) /\
     Forall (fun m => cm_status m <> StatusStreaming) (ap_messages s' ?? [])).
Proof.
  intros s. assert (panel_ok s) as Hok by apply runPanel_ok, idle_ok. clearbody s.
  pose proof Hok as (_ & _ & H3 & H4 & H5). split_and!; [|done|done|].
  - rewrite H3. split.
    + intros (r & Hn & Hr)%list_elem_of_fmap. exists r. split; [done|]. by apply Nat.eqb_eq.
    + intros (r & Hr & Ha). apply Nat.eqb_eq in Ha. apply list_elem_of_fmap. by exists r.
  - intros r message now Hr Ha. cbv zeta.
    assert (panelStep hostId s (RunFailed (ru_nonce r) message now) = runFailed hostId s r message now) as ->.
    { unfold panelStep, onRun. rewrite find_by_nonce by done.
      destruct (ru_stage r) eqn:E; rewrite bool_decide_eq_true_2 by (rewrite ?E; set_solver); done. }
    unfold runFailed. rewrite Ha. cbv zeta. set (s1 := set_errors _ _ _).
    assert (isActive s1 r = true) as Ha1.
    { unfold s1, isActive. cbn [ap_nonce set_errors].
      destruct (updateAudit_same (ru_auditMessageID r) (failAuditEntries now)
        (set_messages (Some (finalizeAgentConversationStreamingMessages (ap_messages s ?? [])
          (sendErrorMessage hostId message))) s)) as (_ & -> & _). exact Ha. }
    destruct (finish_frees s1 r Ha1) as (E1 & E2 & _ & E4 & E5 & E6).
    rewrite E1, E2, E4, E5, E6. split_and!; try done. unfold s1. cbn [ap_messages set_errors].
    unfold updateAudit. destruct (truthyOpt _); apply finalize_closes.
Qed.

(** C10: cancelling is final: a busy panel is free at once, with no message left
    streaming, and whatever the runs that were in flight still receive, in any
    order, the panel shows the same as after the cancellation, but for one
    thing: the closing snapshot of a run whose stream had ended before the
    cancellation still replaces the messages by those of the backend. *)
Theorem cancel_is_final hostId messages audits es created_at now es' :
  let s := runPanel hostId (idlePanel messages audits) es in
  ap_isSubmitting s = true ->
  Forall (fun e => exists n, run_of e = Some n /\ n <= ap_nonce s) es' ->
  let s' := panelStep hostId s (CancelSubmission created_at now) in
  ap_isSubmitting s' = false /\ ap_blocked s' = false /\ ap_activeStream s' = None /\
  ap_submitError s' = None /\
  Forall (fun m => cm_status m <> StatusStreaming) (ap_messages s' ?? []) /\
  (visible (runPanel hostId s' es') = visible s' \/
   exists n m, SnapshotLoaded n m ∈ es' /\ awaits_snapshot s n /\
     visible (runPanel hostId s' es') = visible (set_messages (Some m) s')).
Proof.
  intros s Hs Hall. assert (panel_ok s) as Hok by apply runPanel_ok, idle_ok. clearbody s. cbv zeta.
  set (s' := panelStep hostId s (CancelSubmission created_at now)).
  assert (s' = set_flags false false false
      (set_errors (ap_loadError s) None
        (set_messages (Some (cancelMessages hostId (S (ap_nonce s)) created_at (ap_messages s ?? [])))
          (updateAudit (ap_activeAudit s) (failAuditEntries now)
            (set_refs None None None (set_nonce (S (ap_nonce s)) s)))))) as E.
  { unfold s', panelStep, cancelActiveSubmission. by rewrite Hs. }
  assert (ap_nonce s' = S (ap_nonce s)) as En.
  { rewrite E. cbn [ap_nonce set_flags set_errors set_messages].
    by destruct (updateAudit_same (ap_activeAudit s) (failAuditEntries now)
      (set_refs None None None (set_nonce (S (ap_nonce s)) s))) as (_ & -> & _). }
  split_and!; try by rewrite E.
  - rewrite E. cbn [ap_activeStream set_flags set_errors set_messages]. unfold updateAudit. by destruct (truthyOpt _).
  - rewrite E. cbn [ap_messages set_flags set_errors set_messages nullish default from_option].
    unfold cancelMessages. destruct (some _ _); [apply finalize_closes|].
    apply Forall_app. split; [apply finalize_closes|]. by repeat constructor.
  - assert (ap_runs s' = ap_runs s) as Er by (rewrite E; cbn [ap_runs set_flags set_errors set_messages];
      unfold updateAudit; by destruct (truthyOpt _)).
    destruct (stale_run hostId es' s') as [Hv|(n & m & Hin & Haw & Hv)]; [|by left|].
    + apply (Forall_impl _ _ _ Hall). intros e (n & Hn & Hle). exists n. split; [done|]. rewrite En. lia.
    + right. exists n, m. split_and!; [done| |done]. unfold awaits_snapshot in Haw. by rewrite Er in Haw.
Qed.

(** A prompt that is cancelled before the connection is sent all the same. *)
Example cancelled_prompt_is_sent :
  let s := runPanel "h" (idlePanel None ∅)
    [Submit "rm -rf build" None true; CancelSubmission "" 0; ContextResolved 1; TerminalAnswered 1 false] in
  ap_isSubmitting s = false /\ ap_sent s = ["rm -rf build"].
Proof. by vm_compute. Qed.

(** A snapshot that a finished run asked for replaces the messages of the
    submission that was started in the meantime. *)
Example late_snapshot_overwrites :
  let s := runPanel "h" (idlePanel None ∅)
    [Submit "one" None true; ContextResolved 1; TerminalAnswered 1 false; Connected 1; StreamEnded 1;
     CancelSubmission "" 0; Submit "two" None true; ContextResolved 3; TerminalAnswered 3 false; Connected 3;
     StreamEvent 3 (MessageStart (streaming_message "m2" "")) 0; StreamEvent 3 (TextDelta "m2" "answer") 0;
     SnapshotLoaded 1 [complete_message "m1" "old"]] in
  ap_isSubmitting s = true /\ ap_messages s = Some [complete_message "m1" "old"].
Proof. by vm_compute. Qed.

(** ** Witnesses *)

Definition one_run : list PanelEvent :=
  [Submit "hello" None true; ContextResolved 1; TerminalAnswered 1 false; Connected 1;
   StreamEvent 1 (MessageStart (streaming_message "m1" "")) 0].

Lemma panel_busy_while_running_witness :
  let s := runPanel "h" (idlePanel None ∅) one_run in
  ap_isSubmitting (panelStep "h" s (RunFailed 1 None 0)) = false.
Proof.
  intros s.
  destruct (panel_busy_while_running "h" None ∅ one_run) as (_ & _ & _ & Hf).
  apply (Hf (mkRun 1 AwaitDone "hello" None false false) None 0%Z).
  - by left.
  - reflexivity.
Defined.

(** A run whose stream is open: nothing late is seen of it. *)
Lemma cancel_is_final_witness :
  let s := runPanel "h" (idlePanel None ∅) one_run in
  let s' := panelStep "h" s (CancelSubmission "" 0) in
  visible (runPanel "h" s' [StreamEvent 1 (TextDelta "m1" "late") 0; StreamEnded 1; SnapshotLoaded 1 []]) = visible s'.
Proof.
  intros s s'.
  destruct (cancel_is_final "h" None ∅ one_run "" 0
    [StreamEvent 1 (TextDelta "m1" "late") 0; StreamEnded 1; SnapshotLoaded 1 []])
    as (_ & _ & _ & _ & _ & [Hv|(n & m & _ & (r & Hr & _ & Hs) & _)]).
  - reflexivity.
  - repeat constructor; exists 1; (split; [reflexivity|vm_compute; lia]).
  - exact Hv.
  - exfalso. vm_compute in Hr. apply list_elem_of_singleton in Hr. rewrite Hr in Hs. discriminate Hs.
Defined.
