(* ===== verification/TerminalSession.v ===== *)
(** * Terminal sessions

    [frontend/src/features/terminal/model/use-terminal-session.ts]: the records
    that all views of one terminal widget share, with their snapshot, stream and
    reconnect timer, and the callbacks of the hook.  A record is an object with
    an identity: the map [terminalSessionRecords] holds its index in the heap,
    and a call goes on with its record after the map has forgotten it; it
    carries the [widgetId] of the record, which never changes.  Streams
    and timers are what the host keeps of them.  The subscribers of a record
    are left out: they render the state, which is in the record. *)
From Stdlib Require Import Ascii String.
From stdpp Require Import gmap strings.
From S2P Require Import Prelude JsString Text Effects.
Local Open Scope string_scope.
Local Open Scope list_scope.
Local Open Scope nat_scope.
Local Open Scope js_scope.
Local Open Scope prog_scope.

(** ** Data of the terminal API *)

Record TerminalRuntimeState := mkRuntime {
  rt_widget_id : string;
  rt_session_id : string;
  rt_shell : string;
  rt_restored : option bool;
  rt_status_detail : option string;
  rt_connection_id : option string;
  rt_connection_name : option string;
  rt_connection_kind : option string;
  rt_remote_launch_mode : option string;
  rt_remote_session_name : option string;
  rt_pid : Z;
  rt_status : string;
  rt_started_at : string;
  rt_last_output_at : option string;
  rt_exit_code : option Z;
  rt_can_send_input : bool;
  rt_can_interrupt : bool;
  rt_working_dir : option string
}.

Record TerminalOutputChunk := mkChunk { ck_seq : Z; ck_data : string; ck_timestamp : string }.

(** [chunks] can be [null] in an answer of the backend. *)
Record TerminalSnapshot := mkTermSnapshot {
  ts_state : TerminalRuntimeState;
  ts_chunks : option (list TerminalOutputChunk);
  ts_next_seq : Z;
  ts_active_session_id : option string;
  ts_sessions : option (list TerminalRuntimeState)
}.

Record TerminalShellOption := mkShell { sh_path : string; sh_name : string; sh_default : option bool }.

(** ** Records *)

Record TerminalSessionRecordState := mkSessionState {
  ss_commandInputVersion : nat;
  ss_error : option string;
  ss_isCreatingSession : bool;
  ss_isRecoveringStream : bool;
  ss_isInterrupting : bool;
  ss_isLoading : bool;
  ss_isLoadingShells : bool;
  ss_isRestarting : bool;
  ss_isSwitchingShell : bool;
  ss_snapshot : option TerminalSnapshot;
  ss_shellOptions : list TerminalShellOption;
  ss_shellOptionsLoaded : bool;
  ss_streamRetryCount : nat
}.

Record TerminalSessionRecord := mkSession {
  rc_loading : bool;                  (* loadPromise is not null *)
  rc_retainers : nat;
  rc_state : TerminalSessionRecordState;
  rc_streamClose : option nat;        (* the stream that it closes *)
  rc_streamReconnectTimer : option nat
}.

Definition initialSessionState : TerminalSessionRecordState :=
  mkSessionState 0 None false false false false false false false None [] false 0.

Definition createTerminalSessionRecord : TerminalSessionRecord :=
  mkSession false 0 initialSessionState None None.

(** A stream: where it starts, whether it can still deliver, and how many
    chunks it delivered. *)
Record Stream := mkStream { sr_widget : string; sr_from : Z; sr_open : bool; sr_sent : nat }.

(** The module's map, the objects, and the host's streams and timers; a timer
    belongs to a record and has a delay in milliseconds. *)
Record Store := mkStore {
  st_heap : list TerminalSessionRecord;
  st_records : gmap string nat;       (* terminalSessionRecords *)
  st_streams : list Stream;
  st_timers : gmap nat (nat * string * Z);
  st_nextTimer : nat
}.

Inductive TerminalRequest : Set -> Type :=
  | FetchSnapshot (widgetId : string) : TerminalRequest TerminalSnapshot
  | ConnectStream (widgetId : string) (from : Z) : TerminalRequest unit
  | RestartTerminal (widgetId : string) (shell : option string) : TerminalRequest unit
  | CreateTerminalSession (widgetId : string) : TerminalRequest unit
  | SetActiveTerminalSession (widgetId sessionID : string) : TerminalRequest unit
  | CloseTerminalSession (widgetId sessionID : string) : TerminalRequest unit
  | InterruptTerminal (widgetId : string) : TerminalRequest TerminalRuntimeState
  | FetchTerminalShells : TerminalRequest (list TerminalShellOption)
  | SendTerminalInput (widgetId text : string) : TerminalRequest unit.

Notation Term := (Prog Store TerminalRequest).

(** ** The view *)

Inductive TerminalDisplayConnectionKind := DisplayLocal | DisplaySsh.
Inductive TerminalDisplaySessionState :=
  SessionRunning | SessionIdle | SessionStarting | SessionExited | SessionFailed | SessionDisconnected.

Record TerminalSessionSeed := mkSeed { sd_runtimeWidgetId : string; sd_title : string }.

Record TerminalSessionListEntry := mkEntry {
  en_sessionId : string;
  en_shellLabel : string;
  en_connectionKind : TerminalDisplayConnectionKind;
  en_connectionName : option string;
  en_remoteLaunchMode : option string;
  en_remoteSessionName : option string;
  en_sessionState : TerminalDisplaySessionState;
  en_statusDetail : option string;
  en_cwd : string;
  en_isActive : bool;
  en_runtimeState : TerminalRuntimeState
}.

Record TerminalSessionView := mkView {
  vw_runtimeWidgetId : string;
  vw_sessionKey : string;
  vw_commandInputVersion : nat;
  vw_activeSessionId : option string;
  vw_cwd : string;
  vw_shellLabel : string;
  vw_connectionKind : TerminalDisplayConnectionKind;
  vw_sessionState : TerminalDisplaySessionState;
  vw_sessions : list TerminalSessionListEntry;
  vw_canSendInput : bool;
  vw_canInterrupt : bool;
  vw_isCreatingSession : bool;
  vw_isRecoveringStream : bool;
  vw_isLoading : bool;
  vw_isInterrupting : bool;
  vw_isLoadingShells : bool;
  vw_isRestarting : bool;
  vw_isSwitchingShell : bool;
  vw_error : option string;
  vw_statusDetail : option string;
  vw_outputChunks : list TerminalOutputChunk;
  vw_runtimeState : option TerminalRuntimeState;
  vw_shellOptions : list TerminalShellOption
}.

Definition toTerminalErrorMessage (error : JsError) (fallback : string) : string :=
  match error with
  | Some message => if truthy (trimText message) then message else fallback
  | None => fallback
  end.

Definition shouldAutoRecoverStream (snapshot : option TerminalSnapshot) : bool :=
  match snapshot with
  | Some sn => bool_decide (rt_status (ts_state sn) = "running") || bool_decide (rt_status (ts_state sn) = "starting")
  | None => false
  end.

Definition mapConnectionKind (connectionKind : option string) : TerminalDisplayConnectionKind :=
  if decide (connectionKind = Some "ssh") then DisplaySsh else DisplayLocal.

(** The last segment between slashes and backslashes that is not empty. *)
Definition lastShellSegment (shell : string) : option string :=
  last (filterb truthy (splitOn "/" (str_map (fun c => if decide (c = "\"%char) then "/"%char else c) shell))).

Definition formatShellLabel (shell connectionKind : option string) : string :=
  let trimmedShell := (trimText <$> shell) ?? "" in
  if negb (truthy trimmedShell) then (if decide (connectionKind = Some "ssh") then "ssh" else "shell")
  else lastShellSegment trimmedShell ?? trimmedShell.

Definition mapSessionState (status : option string) (isLoading hasSnapshot : bool) : TerminalDisplaySessionState :=
  if negb hasSnapshot then (if isLoading then SessionStarting else SessionFailed)
  else if decide (status = Some "starting") then SessionStarting
  else if decide (status = Some "exited") then SessionExited
  else if decide (status = Some "failed") then SessionFailed
  else if decide (status = Some "disconnected") then SessionDisconnected
  else SessionRunning.

Definition getTerminalWorkingLabel (seed : TerminalSessionSeed) (state : option TerminalRuntimeState) : string :=
  match state with
  | None => sd_title seed
  | Some st =>
      match truthyOpt (trimText <$> rt_working_dir st) with
      | Some workingDir => workingDir
      | None =>
          if decide (rt_connection_kind st = Some "ssh")
          then truthyOpt (trimText <$> rt_connection_name st) ?? sd_title seed
          else sd_title seed
      end
  end.

Definition buildTerminalSessionList (seed : TerminalSessionSeed) (snapshot : option TerminalSnapshot)
    : list TerminalSessionListEntry :=
  match snapshot with
  | None => []
  | Some sn =>
      let activeSessionID := ts_active_session_id sn ?? rt_session_id (ts_state sn) in
      (fun runtimeState =>
         mkEntry (rt_session_id runtimeState)
           (formatShellLabel (Some (rt_shell runtimeState)) (rt_connection_kind runtimeState))
           (mapConnectionKind (rt_connection_kind runtimeState))
           (truthyOpt (trimText <$> rt_connection_name runtimeState))
           (truthyOpt (trimText <$> rt_remote_launch_mode runtimeState))
           (truthyOpt (trimText <$> rt_remote_session_name runtimeState))
           (mapSessionState (Some (rt_status runtimeState)) false true)
           (trimText <$> rt_status_detail runtimeState)
           (getTerminalWorkingLabel seed (Some runtimeState))
           (bool_decide (rt_session_id runtimeState = activeSessionID)) runtimeState)
      <$> (ts_sessions sn ?? [])
  end.

Definition buildTerminalSessionView (seed : TerminalSessionSeed) (state : TerminalSessionRecordState)
    : TerminalSessionView :=
  let runtimeState := ts_state <$> ss_snapshot state in
  let error := ss_error state in
  let hasSnapshot := negb (bool_decide (runtimeState = None)) in
  let sessionState :=
    if (match error with Some e => truthy e | None => false end) && negb hasSnapshot then SessionFailed
    else mapSessionState (rt_status <$> runtimeState) (ss_isLoading state) hasSnapshot in
  mkView (sd_runtimeWidgetId seed)
    (match runtimeState with
     | Some st => rt_session_id st +:+ ":" +:+ rt_started_at st
     | None => sd_runtimeWidgetId seed +:+ ":pending"
     end)
    (ss_commandInputVersion state)
    (match mbind ts_active_session_id (ss_snapshot state) with
     | Some x => Some x
     | None => rt_session_id <$> runtimeState
     end)
    (getTerminalWorkingLabel seed runtimeState)
    (formatShellLabel (rt_shell <$> runtimeState) (mbind rt_connection_kind runtimeState))
    (mapConnectionKind (mbind rt_connection_kind runtimeState))
    sessionState
    (buildTerminalSessionList seed (ss_snapshot state))
    ((rt_can_send_input <$> runtimeState) ?? false)
    ((rt_can_interrupt <$> runtimeState) ?? false)
    (ss_isCreatingSession state) (ss_isRecoveringStream state) (ss_isLoading state)
    (ss_isInterrupting state) (ss_isLoadingShells state) (ss_isRestarting state) (ss_isSwitchingShell state)
    error
    (if ss_isRecoveringStream state then Some "Reconnecting live terminal stream…"
     else match error with
          | Some e => Some e
          | None => trimText <$> mbind rt_status_detail runtimeState
          end)
    (mbind ts_chunks (ss_snapshot state) ?? [])
    runtimeState (ss_shellOptions state).

(** ** The store *)

Definition recordAt (i : nat) (s : Store) : option TerminalSessionRecord := st_heap s !! i.
Definition activeRecord (widgetId : string) (s : Store) : option nat := st_records s !! widgetId.

Definition on_record (i : nat) (f : TerminalSessionRecord -> TerminalSessionRecord) (s : Store) : Store :=
  mkStore (alter f i (st_heap s)) (st_records s) (st_streams s) (st_timers s) (st_nextTimer s).
Definition on_state (i : nat) (f : TerminalSessionRecordState -> TerminalSessionRecordState) : Store -> Store :=
  on_record i (fun r => mkSession (rc_loading r) (rc_retainers r) (f (rc_state r)) (rc_streamClose r)
    (rc_streamReconnectTimer r)).
Definition set_loadPromise (b : bool) (r : TerminalSessionRecord) : TerminalSessionRecord :=
  mkSession b (rc_retainers r) (rc_state r) (rc_streamClose r) (rc_streamReconnectTimer r).
Definition set_retainers (n : nat) (r : TerminalSessionRecord) : TerminalSessionRecord :=
  mkSession (rc_loading r) n (rc_state r) (rc_streamClose r) (rc_streamReconnectTimer r).
Definition set_streamClose (c : option nat) (r : TerminalSessionRecord) : TerminalSessionRecord :=
  mkSession (rc_loading r) (rc_retainers r) (rc_state r) c (rc_streamReconnectTimer r).
Definition set_timer (t : option nat) (r : TerminalSessionRecord) : TerminalSessionRecord :=
  mkSession (rc_loading r) (rc_retainers r) (rc_state r) (rc_streamClose r) t.

(** The record of a widget, created when there is none. *)
Definition getTerminalSessionRecord (widgetId : string) : Term nat :=
  s <- get ;;
  match activeRecord widgetId s with
  | Some i => Ret i
  | None =>
      update (fun s => mkStore (st_heap s ++ [createTerminalSessionRecord])
        (<[widgetId := length (st_heap s)]> (st_records s)) (st_streams s) (st_timers s) (st_nextTimer s)) ;;;
      Ret (length (st_heap s))
  end.

Definition isActiveTerminalSessionRecord (i : nat) (widgetId : string) (s : Store) : bool :=
  bool_decide (activeRecord widgetId s = Some i).

(** The state of a record; every index of the code is one of the heap. *)
Definition stateOf (i : nat) (s : Store) : TerminalSessionRecordState :=
  (rc_state <$> recordAt i s) ?? initialSessionState.

Definition clearTerminalStreamReconnectTimer (i : nat) (s : Store) : Store :=
  match mbind rc_streamReconnectTimer (recordAt i s) with
  | Some t =>
      let s := on_record i (set_timer None) s in
      mkStore (st_heap s) (st_records s) (st_streams s) (delete t (st_timers s)) (st_nextTimer s)
  | None => s
  end.

Definition closeStream (c : nat) (s : Store) : Store :=
  mkStore (st_heap s) (st_records s)
    (alter (fun x => mkStream (sr_widget x) (sr_from x) false (sr_sent x)) c (st_streams s))
    (st_timers s) (st_nextTimer s).

Definition clearTerminalStreamConnection (i : nat) (s : Store) : Store :=
  match mbind rc_streamClose (recordAt i s) with
  | Some c => on_record i (set_streamClose None) (closeStream c s)
  | None => s
  end.

Definition set_snapshot (sn : option TerminalSnapshot) (x : TerminalSessionRecordState)
    : TerminalSessionRecordState :=
  mkSessionState (ss_commandInputVersion x) (ss_error x) (ss_isCreatingSession x) (ss_isRecoveringStream x)
    (ss_isInterrupting x) (ss_isLoading x) (ss_isLoadingShells x) (ss_isRestarting x) (ss_isSwitchingShell x)
    sn (ss_shellOptions x) (ss_shellOptionsLoaded x) (ss_streamRetryCount x).
Definition set_error (error : option string) (x : TerminalSessionRecordState) : TerminalSessionRecordState :=
  mkSessionState (ss_commandInputVersion x) error (ss_isCreatingSession x) (ss_isRecoveringStream x)
    (ss_isInterrupting x) (ss_isLoading x) (ss_isLoadingShells x) (ss_isRestarting x) (ss_isSwitchingShell x)
    (ss_snapshot x) (ss_shellOptions x) (ss_shellOptionsLoaded x) (ss_streamRetryCount x).
Definition set_loading (b : bool) (x : TerminalSessionRecordState) : TerminalSessionRecordState :=
  mkSessionState (ss_commandInputVersion x) (ss_error x) (ss_isCreatingSession x) (ss_isRecoveringStream x)
    (ss_isInterrupting x) b (ss_isLoadingShells x) (ss_isRestarting x) (ss_isSwitchingShell x)
    (ss_snapshot x) (ss_shellOptions x) (ss_shellOptionsLoaded x) (ss_streamRetryCount x).
Definition set_recovery (recovering : bool) (retries : nat) (x : TerminalSessionRecordState)
    : TerminalSessionRecordState :=
  mkSessionState (ss_commandInputVersion x) (ss_error x) (ss_isCreatingSession x) recovering
    (ss_isInterrupting x) (ss_isLoading x) (ss_isLoadingShells x) (ss_isRestarting x) (ss_isSwitchingShell x)
    (ss_snapshot x) (ss_shellOptions x) (ss_shellOptionsLoaded x) retries.
(** The flags [isCreatingSession], [isInterrupting] and [isRestarting]. *)
Definition set_flags (creating interrupting restarting : bool) (x : TerminalSessionRecordState)
    : TerminalSessionRecordState :=
  mkSessionState (ss_commandInputVersion x) (ss_error x) creating (ss_isRecoveringStream x)
    interrupting (ss_isLoading x) (ss_isLoadingShells x) restarting (ss_isSwitchingShell x)
    (ss_snapshot x) (ss_shellOptions x) (ss_shellOptionsLoaded x) (ss_streamRetryCount x).
Definition set_switching (b : bool) (x : TerminalSessionRecordState) : TerminalSessionRecordState :=
  mkSessionState (ss_commandInputVersion x) (ss_error x) (ss_isCreatingSession x) (ss_isRecoveringStream x)
    (ss_isInterrupting x) (ss_isLoading x) (ss_isLoadingShells x) (ss_isRestarting x) b
    (ss_snapshot x) (ss_shellOptions x) (ss_shellOptionsLoaded x) (ss_streamRetryCount x).
Definition set_shells (loading : bool) (options : list TerminalShellOption) (loaded : bool)
    (x : TerminalSessionRecordState) : TerminalSessionRecordState :=
  mkSessionState (ss_commandInputVersion x) (ss_error x) (ss_isCreatingSession x) (ss_isRecoveringStream x)
    (ss_isInterrupting x) (ss_isLoading x) loading (ss_isRestarting x) (ss_isSwitchingShell x)
    (ss_snapshot x) options loaded (ss_streamRetryCount x).
Definition set_inputVersion (n : nat) (x : TerminalSessionRecordState) : TerminalSessionRecordState :=
  mkSessionState n (ss_error x) (ss_isCreatingSession x) (ss_isRecoveringStream x)
    (ss_isInterrupting x) (ss_isLoading x) (ss_isLoadingShells x) (ss_isRestarting x) (ss_isSwitchingShell x)
    (ss_snapshot x) (ss_shellOptions x) (ss_shellOptionsLoaded x) (ss_streamRetryCount x).

(** ** Output *)

Definition appendChunk (chunk : TerminalOutputChunk) (sn : TerminalSnapshot) : TerminalSnapshot :=
  let st := ts_state sn in
  mkTermSnapshot
    (mkRuntime (rt_widget_id st) (rt_session_id st) (rt_shell st) (rt_restored st) (rt_status_detail st)
       (rt_connection_id st) (rt_connection_name st) (rt_connection_kind st) (rt_remote_launch_mode st)
       (rt_remote_session_name st) (rt_pid st) (rt_status st) (rt_started_at st) (Some (ck_timestamp chunk))
       (rt_exit_code st) (rt_can_send_input st) (rt_can_interrupt st) (rt_working_dir st))
    (Some ((ts_chunks sn ?? []) ++ [chunk])) (Z.max (ts_next_seq sn) (ck_seq chunk + 1))
    (ts_active_session_id sn) (ts_sessions sn).

Definition appendTerminalChunk (i : nat) (chunk : TerminalOutputChunk) : Store -> Store :=
  on_state i (fun x =>
    match ss_snapshot x with
    | None => x
    | Some sn => set_snapshot (Some (appendChunk chunk sn)) x
    end).

(** [onOutput] of the stream of a widget: the record that is active then gets it. *)
Definition onOutput (widgetId : string) (chunk : TerminalOutputChunk) (s : Store) : Store :=
  match activeRecord widgetId s with
  | None => s
  | Some i =>
      on_state i (fun x =>
        if ss_isRecoveringStream x || (0 <? ss_streamRetryCount x)
        then set_error None (set_recovery false 0 x) else x)
        (appendTerminalChunk i chunk s)
  end.

(** ** Reconnecting *)

Definition reconnectDelay (nextRetryCount : nat) : Z := Z.min 4000 (500 * Z.of_nat nextRetryCount).

Definition scheduleTerminalStreamReconnect (i : nat) (widgetId : string) (error : JsError) (s : Store) : Store :=
  match recordAt i s with
  | None => s
  | Some r =>
      if negb (isActiveTerminalSessionRecord i widgetId s) || (rc_retainers r =? 0) then s
      else if negb (shouldAutoRecoverStream (ss_snapshot (rc_state r))) then
        on_state i (fun x =>
          set_error (Some (toTerminalErrorMessage error
            ("Unable to follow terminal stream for " +:+ widgetId +:+ ".")))
            (set_recovery false (ss_streamRetryCount x) x)) s
      else
        let s := clearTerminalStreamReconnectTimer i s in
        let nextRetryCount := S (ss_streamRetryCount (rc_state r)) in
        let s := on_state i (fun x => set_error None (set_recovery true nextRetryCount x)) s in
        let t := st_nextTimer s in
        let s := on_record i (set_timer (Some t)) s in
        mkStore (st_heap s) (st_records s) (st_streams s)
          (<[t := (i, widgetId, reconnectDelay nextRetryCount)]> (st_timers s)) (S t)
  end.

(** [streamConnection.done]: the stream [c] ended or failed by itself. *)
Definition streamDone (c : nat) (error : JsError) (s : Store) : Store :=
  match st_streams s !! c with
  | None => s
  | Some x =>
      if negb (sr_open x) then s
      else
        let s := closeStream c s in
        match activeRecord (sr_widget x) s with
        | Some i => scheduleTerminalStreamReconnect i (sr_widget x) error s
        | None => s
        end
  end.

(** The new stream of [attachTerminalStream], and how to close it. *)
Definition openStream (i : nat) (widgetId : string) (from : Z) (s : Store) : Store :=
  let s := on_record i (set_streamClose (Some (length (st_streams s)))) s in
  mkStore (st_heap s) (st_records s) (st_streams s ++ [mkStream widgetId from true 0]) (st_timers s)
    (st_nextTimer s).

(** A stream that connects for a record which was dropped is closed at once. *)
Definition attachTerminalStream (i : nat) (widgetId : string) (nextSeq : Z) : Term unit :=
  _ <- await (ConnectStream widgetId nextSeq) ;;
  update (fun s => if isActiveTerminalSessionRecord i widgetId s then openStream i widgetId nextSeq s else s).

Definition loadError (widgetId : string) : string := "Unable to load terminal snapshot for " +:+ widgetId +:+ ".".

(** What [reloadTerminalSessionRecord] does with an error. *)
Definition reloadFailed (i : nat) (widgetId : string) (preserve : bool) (error : JsError) (s : Store) : Store :=
  if negb (isActiveTerminalSessionRecord i widgetId s) then s
  else if preserve && shouldAutoRecoverStream (ss_snapshot (stateOf i s))
  then scheduleTerminalStreamReconnect i widgetId error s
  else on_state i (fun x =>
         set_error (Some (toTerminalErrorMessage error (loadError widgetId))) (set_loading false x)) s.

Definition reloadTerminalSessionRecord (i : nat) (widgetId : string) (preserve silent : bool) : Term unit :=
  update (clearTerminalStreamReconnectTimer i) ;;;
  update (clearTerminalStreamConnection i) ;;;
  (if silent then Ret tt
   else update (on_state i (fun x => set_error None (set_loading true x)))) ;;;
  tryCatch
    (snapshot <- await (FetchSnapshot widgetId) ;;
     s <- get ;;
     if negb (isActiveTerminalSessionRecord i widgetId s) then Ret tt
     else
       update (on_state i (fun x =>
         set_error None (set_loading false (set_snapshot (Some snapshot)
           (if preserve then x else set_recovery false 0 x))))) ;;;
       attachTerminalStream i widgetId (ts_next_seq snapshot) ;;;
       update (fun s =>
         if negb (isActiveTerminalSessionRecord i widgetId s) then s
         else on_state i (fun x =>
                if ss_isRecoveringStream x || (0 <? ss_streamRetryCount x) then set_recovery false 0 x else x) s))
    (fun error => update (reloadFailed i widgetId preserve error)).

(** The callback of a reconnect timer. *)
Definition timerFired (t : nat) : Term unit :=
  s <- get ;;
  match st_timers s !! t with
  | None => Ret tt
  | Some (i, widgetId, _) =>
      update (fun s => let s := on_record i (set_timer None) s in
        mkStore (st_heap s) (st_records s) (st_streams s) (delete t (st_timers s)) (st_nextTimer s)) ;;;
      match recordAt i s with
      | None => Ret tt
      | Some r =>
          if negb (isActiveTerminalSessionRecord i widgetId s) || (rc_retainers r =? 0) then Ret tt
          else reloadTerminalSessionRecord i widgetId true true
      end
  end.

(** ** Mounting *)

(** [ensureTerminalSession] *)
Definition ensureTerminalSession (i : nat) (widgetId : string) : Term unit :=
  s <- get ;;
  if (rc_loading <$> recordAt i s) ?? false then Ret tt
  else
    update (on_state i (fun x => set_error None (set_loading true (set_flags false false false x)))) ;;;
    update (on_record i (set_loadPromise true)) ;;;
    finally
      (tryCatch
         (snapshot <- await (FetchSnapshot widgetId) ;;
          s <- get ;;
          if negb (isActiveTerminalSessionRecord i widgetId s) then Ret tt
          else
            update (on_state i (fun x =>
              mkSessionState (ss_commandInputVersion x) None false false false false (ss_isLoadingShells x) false
                false (Some snapshot) (ss_shellOptions x) (ss_shellOptionsLoaded x) 0)) ;;;
            attachTerminalStream i widgetId (ts_next_seq snapshot))
         (fun error =>
            update (fun s =>
              if negb (isActiveTerminalSessionRecord i widgetId s) then s
              else on_state i (fun x =>
                set_error (Some (toTerminalErrorMessage error (loadError widgetId)))
                  (set_recovery false (ss_streamRetryCount x) (set_loading false (set_flags false false false x)))) s)))
      (update (on_record i (set_loadPromise false))).

(** [retainTerminalSession] and the load, the effect of the hook. *)
Definition mountSession (widgetId : string) : Term unit :=
  i <- getTerminalSessionRecord widgetId ;;
  update (on_record i (fun r => set_retainers (S (rc_retainers r)) r)) ;;;
  ensureTerminalSession i widgetId.

(** [releaseTerminalSession], the clean-up of the effect. *)
Definition releaseTerminalSession (widgetId : string) (s : Store) : Store :=
  match activeRecord widgetId s with
  | None => s
  | Some i =>
      let s := on_record i (fun r => set_retainers (rc_retainers r - 1) r) s in
      if 0 <? (rc_retainers <$> recordAt i s) ?? 0 then s
      else
        let s := clearTerminalStreamConnection i (clearTerminalStreamReconnectTimer i s) in
        mkStore (st_heap s) (delete widgetId (st_records s)) (st_streams s) (st_timers s) (st_nextTimer s)
  end.

(** ** Callbacks *)

(** [if (!isActive(record)) return; record.state = f(record.state)] *)
Definition whenActive (i : nat) (widgetId : string) (f : TerminalSessionRecordState -> TerminalSessionRecordState) : Term unit :=
  update (fun s => if isActiveTerminalSessionRecord i widgetId s then on_state i f s else s).

Definition failed (error : JsError) (fallback : string) : TerminalSessionRecordState -> TerminalSessionRecordState :=
  set_error (Some (toTerminalErrorMessage error fallback)).

Definition has_line_break (text : string) : bool :=
  strIncludes (bytes [13]) text || strIncludes (bytes [10]) text.

Definition sendInputChunk (widgetId text : string) : Term unit :=
  if negb (truthy text) then Ret tt
  else
    tryCatch
      (_ <- await (SendTerminalInput widgetId text) ;;
       s <- get ;;
       match activeRecord widgetId s with
       | None => Ret tt
       | Some i =>
           let shouldRefreshCommand := has_line_break text in
           let x := stateOf i s in
           let nextCommandInputVersion :=
             if shouldRefreshCommand then S (ss_commandInputVersion x) else ss_commandInputVersion x in
           if bool_decide (ss_snapshot x = None) || bool_decide (ss_error x = None) then
             (if shouldRefreshCommand then update (on_state i (set_inputVersion nextCommandInputVersion)) else Ret tt)
           else update (on_state i (fun x => set_error None (set_inputVersion nextCommandInputVersion x)))
       end)
      (fun error =>
         i <- getTerminalSessionRecord widgetId ;;
         update (on_state i (failed error ("Unable to send terminal input for " +:+ widgetId +:+ ".")))).

(** The frame of the calls that change the session and load it again. *)
Definition changeSession (i : nat) (begin : TerminalSessionRecordState -> TerminalSessionRecordState)
    (request : TerminalRequest unit) (widgetId : string)
    (finish : TerminalSessionRecordState -> TerminalSessionRecordState)
    (abandon : TerminalSessionRecordState -> TerminalSessionRecordState) (fallback : string) : Term unit :=
  update (on_state i (fun x => set_error None (begin x))) ;;;
  tryCatch
    (_ <- await request ;;
     reloadTerminalSessionRecord i widgetId false false ;;;
     whenActive i widgetId finish)
    (fun error => whenActive i widgetId (fun x => failed error fallback (abandon x))).

Definition restartSession (widgetId : string) : Term unit :=
  i <- getTerminalSessionRecord widgetId ;;
  s <- get ;;
  let x := stateOf i s in
  if ss_isInterrupting x || ss_isRestarting x then Ret tt
  else
    changeSession i (set_flags false false true) (RestartTerminal widgetId None) widgetId
      (fun x => set_flags (ss_isCreatingSession x) false false x) (set_flags false false false)
      ("Unable to restart terminal session for " +:+ widgetId +:+ ".").

Definition connectionKindOf (x : TerminalSessionRecordState) : TerminalDisplayConnectionKind :=
  mapConnectionKind (mbind (fun sn => rt_connection_kind (ts_state sn)) (ss_snapshot x)).

Definition isLocal (k : TerminalDisplayConnectionKind) : bool :=
  match k with DisplayLocal => true | DisplaySsh => false end.

Definition loadShellOptions (widgetId : string) : Term unit :=
  i <- getTerminalSessionRecord widgetId ;;
  s <- get ;;
  let x := stateOf i s in
  if negb (isLocal (connectionKindOf x)) || ss_shellOptionsLoaded x || ss_isLoadingShells x then Ret tt
  else
    update (on_state i (fun x => set_error None (set_shells true (ss_shellOptions x) (ss_shellOptionsLoaded x) x))) ;;;
    tryCatch
      (shellOptions <- await FetchTerminalShells ;;
       whenActive i widgetId (fun x => set_error None (set_shells false shellOptions true x)))
      (fun error => whenActive i widgetId (fun x =>
         failed error "Unable to load local shells." (set_shells false (ss_shellOptions x) (ss_shellOptionsLoaded x) x))).

Definition switchShell (widgetId shellPath : string) : Term unit :=
  i <- getTerminalSessionRecord widgetId ;;
  s <- get ;;
  let x := stateOf i s in
  let requestedShell := trimText shellPath in
  let currentShell := ((fun sn => trimText (rt_shell (ts_state sn))) <$> ss_snapshot x) ?? "" in
  if negb (truthy requestedShell) || bool_decide (requestedShell = currentShell) ||
     negb (isLocal (connectionKindOf x)) || ss_isCreatingSession x || ss_isInterrupting x ||
     ss_isRestarting x || ss_isSwitchingShell x then Ret tt
  else
    changeSession i (fun x => set_switching true (set_flags false false true x))
      (RestartTerminal widgetId (Some requestedShell)) widgetId
      (fun x => set_switching false (set_flags (ss_isCreatingSession x) false false x))
      (fun x => set_switching false (set_flags false false false x))
      ("Unable to switch terminal shell for " +:+ widgetId +:+ ".").

Definition recoverSession (widgetId : string) : Term unit :=
  i <- getTerminalSessionRecord widgetId ;;
  s <- get ;;
  let x := stateOf i s in
  if ss_isCreatingSession x || ss_isInterrupting x || ss_isLoading x || ss_isRestarting x then Ret tt
  else
    let runtimeStatus := (fun sn => rt_status (ts_state sn)) <$> ss_snapshot x in
    if bool_decide (runtimeStatus = Some "exited") || bool_decide (runtimeStatus = Some "failed") ||
       bool_decide (runtimeStatus = Some "disconnected") then restartSession widgetId
    else
      update (on_state i (fun x => set_error None (set_recovery true 0 x))) ;;;
      reloadTerminalSessionRecord i widgetId true true.

(** The record that is active when an answer comes. *)
Definition onActiveRecord (widgetId : string)
    (f : TerminalSessionRecordState -> TerminalSessionRecordState) (s : Store) : Store :=
  match activeRecord widgetId s with Some i => on_state i f s | None => s end.

Definition interruptSession (widgetId : string) : Term unit :=
  i <- getTerminalSessionRecord widgetId ;;
  s <- get ;;
  let x := stateOf i s in
  if ss_isInterrupting x || ss_isRestarting x ||
     negb (((fun sn => rt_can_interrupt (ts_state sn)) <$> ss_snapshot x) ?? false) then Ret tt
  else
    update (on_state i (fun x => set_error None (set_flags false true (ss_isRestarting x) x))) ;;;
    tryCatch
      (nextState <- await (InterruptTerminal widgetId) ;;
       update (onActiveRecord widgetId (fun x =>
         set_error None (set_flags false false (ss_isRestarting x)
           (set_snapshot ((fun sn => mkTermSnapshot nextState (ts_chunks sn) (ts_next_seq sn)
              (ts_active_session_id sn) (ts_sessions sn)) <$> ss_snapshot x) x)))))
      (fun error =>
         update (onActiveRecord widgetId (fun x =>
           failed error ("Unable to interrupt terminal session for " +:+ widgetId +:+ ".")
             (set_flags false false (ss_isRestarting x) x)))).

Definition createSession (widgetId : string) : Term unit :=
  i <- getTerminalSessionRecord widgetId ;;
  s <- get ;;
  let x := stateOf i s in
  if ss_isCreatingSession x || ss_isInterrupting x || ss_isRestarting x then Ret tt
  else
    let created (x : TerminalSessionRecordState) := set_flags false (ss_isInterrupting x) (ss_isRestarting x) x in
    changeSession i (fun x => set_flags true (ss_isInterrupting x) (ss_isRestarting x) x)
      (CreateTerminalSession widgetId) widgetId created created
      ("Unable to create a terminal session for " +:+ widgetId +:+ ".").

Definition focusSession (widgetId sessionID : string) : Term unit :=
  i <- getTerminalSessionRecord widgetId ;;
  s <- get ;;
  let x := stateOf i s in
  let activeSessionID :=
    (fun sn => ts_active_session_id sn ?? rt_session_id (ts_state sn)) <$> ss_snapshot x in
  if negb (truthy (trimText sessionID)) || bool_decide (Some sessionID = activeSessionID) ||
     ss_isCreatingSession x || ss_isInterrupting x || ss_isRestarting x then Ret tt
  else
    changeSession i (set_loading true) (SetActiveTerminalSession widgetId sessionID) widgetId
      (fun x => x) (set_loading false) ("Unable to focus terminal session " +:+ sessionID +:+ ".").

Definition closeSession (widgetId sessionID : string) : Term unit :=
  i <- getTerminalSessionRecord widgetId ;;
  s <- get ;;
  let x := stateOf i s in
  let sessionCount := length (mbind ts_sessions (ss_snapshot x) ?? []) in
  if negb (truthy (trimText sessionID)) || (sessionCount <=? 1) ||
     ss_isCreatingSession x || ss_isInterrupting x || ss_isRestarting x then Ret tt
  else
    changeSession i (set_loading true) (CloseTerminalSession widgetId sessionID) widgetId
      (fun x => x) (set_loading false) ("Unable to close terminal session " +:+ sessionID +:+ ".").
