(* ===== verification/TerminalFeed.v ===== *)
(** * Terminal sessions as a system

    The callbacks of [TerminalSession] as calls in flight, with the streams
    that deliver output, end and fail, and the timers that fire.  Nothing is
    assumed of the host: snapshots and chunks are arbitrary, as the sessions of
    a widget restart and are switched behind it.  The refinement: as long as
    every widget has one source at a time, it shows the snapshot that it loaded
    last, followed by what the stream opened at its end has delivered.  The
    second mount of a widget is a second source, and shows chunks twice. *)
From Stdlib Require Import Ascii String.
From stdpp Require Import gmap strings.
From S2P Require Import Prelude JsString Text Effects TerminalSession.
Local Open Scope string_scope.
Local Open Scope list_scope.
Local Open Scope nat_scope.
Local Open Scope js_scope.
Local Open Scope prog_scope.

(** ** Calls and events *)

Inductive TermCall :=
  | CRender (widgetId : string)
  | CMount (widgetId : string)
  | CUnmount (widgetId : string)
  | CSendInput (widgetId text : string)
  | CRestart (widgetId : string)
  | CLoadShells (widgetId : string)
  | CSwitchShell (widgetId shellPath : string)
  | CRecover (widgetId : string)
  | CInterrupt (widgetId : string)
  | CCreate (widgetId : string)
  | CFocus (widgetId sessionID : string)
  | CClose (widgetId sessionID : string)
  | CTimer (timer : nat).

Definition termProg (c : TermCall) : Term unit :=
  match c with
  | CRender w => _ <- getTerminalSessionRecord w ;; Ret tt
  | CMount w => mountSession w
  | CUnmount w => update (releaseTerminalSession w)
  | CSendInput w text => sendInputChunk w text
  | CRestart w => restartSession w
  | CLoadShells w => loadShellOptions w
  | CSwitchShell w path => switchShell w path
  | CRecover w => recoverSession w
  | CInterrupt w => interruptSession w
  | CCreate w => createSession w
  | CFocus w x => focusSession w x
  | CClose w x => closeSession w x
  | CTimer t => timerFired t
  end.

(** The stream [c] delivers a chunk. *)
Definition deliver (c : nat) (x : Stream) (chunk : TerminalOutputChunk) (s : Store) : Store :=
  onOutput (sr_widget x) chunk
    (mkStore (st_heap s) (st_records s)
       (alter (fun y => mkStream (sr_widget y) (sr_from y) (sr_open y) (S (sr_sent y))) c (st_streams s))
       (st_timers s) (st_nextTimer s)).

Definition emptyStore : Store := mkStore [] ∅ [] ∅ 0.

Notation TermSystem := (System Store TerminalRequest).

(** What happens: a callback, an answered snapshot, a stream that connects for a
    widget from a number, another answer, a chunk of the stream [c] that was
    opened for a widget, the end of a stream. *)
Inductive TermLabel :=
  | LCall (c : TermCall)
  | LSnapshot (widgetId : string) (snapshot : TerminalSnapshot)
  | LStream (widgetId : string) (from : Z)
  | LAnswer
  | LChunk (widgetId : string) (c : nat) (chunk : TerminalOutputChunk)
  | LDone (c : nat).

Definition answer_label (A : Set) (r : TerminalRequest A) : A + JsError -> TermLabel :=
  match r in TerminalRequest A return A + JsError -> TermLabel with
  | FetchSnapshot w => fun a => match a with inl sn => LSnapshot w sn | inr _ => LAnswer end
  | ConnectStream w n => fun a => match a with inl _ => LStream w n | inr _ => LAnswer end
  | _ => fun _ => LAnswer
  end.

Inductive term_does : TermLabel -> TermSystem -> TermSystem -> Prop :=
  | does_call m c : term_does (LCall c) m (proceed (termProg c) m)
  | does_answer m i (A : Set) (r : TerminalRequest A) k a (Hi : sys_calls m !! i = Some (Waiting r k)) :
      term_does (answer_label A r a) m (proceed (k a) (mkSystem (sys_state m) (delete i (sys_calls m))))
  | does_chunk m c x chunk (Hc : st_streams (sys_state m) !! c = Some x) (Hopen : sr_open x = true) :
      term_does (LChunk (sr_widget x) c chunk) m (mkSystem (deliver c x chunk (sys_state m)) (sys_calls m))
  | does_done m c error :
      term_does (LDone c) m (mkSystem (streamDone c error (sys_state m)) (sys_calls m)).

(** ** One source at a time *)

(** The widget that a request loads. *)
Definition loads {A : Set} (r : TerminalRequest A) : option string :=
  match r with FetchSnapshot w | ConnectStream w _ => Some w | _ => None end.

Definition is_load (w : string) (o : Outcome Store TerminalRequest unit) : bool :=
  match o with Waiting r _ => bool_decide (loads r = Some w) | Ended _ => false end.
Definition is_source (w : string) (x : Stream) : bool := sr_open x && bool_decide (sr_widget x = w).

Definition one_source (m : TermSystem) : Prop :=
  forall w, length (filterb (is_load w) (sys_calls m)) +
            length (filterb (is_source w) (st_streams (sys_state m))) <= 1.

(** The runs with one source for each widget, by what happened in them. *)
Inductive single_run : list TermLabel -> TermSystem -> Prop :=
  | single_start : single_run [] (mkSystem emptyStore [])
  | single_snoc tr l m m' (Hrun : single_run tr m) (Hdoes : term_does l m m') (Hone : one_source m') :
      single_run (tr ++ [l]) m'.

(** ** The specification: a snapshot and the stream that follows it *)

Record Feed := mkFeed {
  fd_snapshot : TerminalSnapshot;
  fd_stream : option nat;
  fd_chunks : list TerminalOutputChunk
}.

(** A snapshot starts a feed, unless the session that asked for it is gone; a
    stream that connects at the end of the snapshot is the stream of the feed;
    a chunk of that stream is added to it; the feed goes with the last view of
    the widget.  Nothing else changes a feed. *)
Definition feed_step (l : TermLabel) (σ σ' : gmap string Feed) : Prop :=
  match l with
  | LCall (CUnmount w) => σ' = σ \/ σ' = delete w σ
  | LSnapshot w sn => σ' = σ \/ σ' = <[w := mkFeed sn None []]> σ
  | LStream w n =>
      σ' = σ \/ exists sn c, σ !! w = Some (mkFeed sn None []) /\ n = ts_next_seq sn /\
        σ' = <[w := mkFeed sn (Some c) []]> σ
  | LChunk w c chunk =>
      match σ !! w with
      | None => σ' = σ
      | Some f => fd_stream f = Some c /\
          σ' = <[w := mkFeed (fd_snapshot f) (fd_stream f) (fd_chunks f ++ [chunk])]> σ
      end
  | _ => σ' = σ
  end.

Inductive feed_run : list TermLabel -> gmap string Feed -> Prop :=
  | feed_start : feed_run [] ∅
  | feed_snoc tr l σ σ' (Hrun : feed_run tr σ) (Hstep : feed_step l σ σ') : feed_run (tr ++ [l]) σ'.

(** The chunks of a feed, and the number behind them. *)
Definition feedView (f : Feed) : list TerminalOutputChunk * Z :=
  ((ts_chunks (fd_snapshot f) ?? []) ++ fd_chunks f,
   foldl (fun n chunk => Z.max n (ck_seq chunk + 1)) (ts_next_seq (fd_snapshot f)) (fd_chunks f)).

(** What a widget shows: the chunks and the next sequence number. *)
Definition viewOf (r : TerminalSessionRecord) : option (list TerminalOutputChunk * Z) :=
  (fun sn => (ts_chunks sn ?? [], ts_next_seq sn)) <$> ss_snapshot (rc_state r).
Definition viewAt (i : nat) (s : Store) : option (list TerminalOutputChunk * Z) := recordAt i s ≫= viewOf.
Definition shownBy (w : string) (s : Store) : option (list TerminalOutputChunk * Z) :=
  activeRecord w s ≫= fun i => viewAt i s.

Definition shows (s : Store) (σ : gmap string Feed) : Prop := forall w, shownBy w s = feedView <$> σ !! w.

(** An open stream of a widget that shows a feed is the stream of the feed: it
    was opened where the snapshot ends, and the feed has all that it delivered. *)
Definition follows (s : Store) (σ : gmap string Feed) : Prop :=
  forall c x f, st_streams s !! c = Some x -> sr_open x = true -> σ !! sr_widget x = Some f ->
    fd_stream f = Some c /\ sr_from x = ts_next_seq (fd_snapshot f) /\ sr_sent x = length (fd_chunks f).

(** The output of one terminal, numbered. *)
Definition slice (output : string -> Z -> TerminalOutputChunk) (w : string) (b n : Z) : list TerminalOutputChunk :=
  output w <$> seqZ b (n - b).

(** * Lemmas *)

(** ** What a stretch leaves alone *)

(** Every active record is in the heap, and belongs to one widget. *)
Definition store_wf (s : Store) : Prop :=
  (forall w i, activeRecord w s = Some i -> i < length (st_heap s)) /\
  (forall w w' i, activeRecord w s = Some i -> activeRecord w' s = Some i -> w = w').

Definition same_stream (x x' : Stream) : Prop :=
  sr_widget x' = sr_widget x /\ sr_from x' = sr_from x /\ sr_sent x' = sr_sent x /\
  (sr_open x' = true -> sr_open x = true).

(** No chunk is shown, no stream is opened, no record goes; those that come have
    nothing to show. *)
Record quiet (s s' : Store) : Prop := {
  qu_heap : length (st_heap s) <= length (st_heap s');
  qu_views : forall j, j < length (st_heap s) -> viewAt j s' = viewAt j s;
  qu_records : forall w, activeRecord w s' = activeRecord w s \/ activeRecord w s = None /\
    exists j, activeRecord w s' = Some j /\ length (st_heap s) <= j < length (st_heap s') /\ viewAt j s' = None;
  qu_streams : forall c x', st_streams s' !! c = Some x' ->
    exists x, st_streams s !! c = Some x /\ same_stream x x';
  qu_wf : store_wf s -> store_wf s'
}.

Lemma same_stream_trans x y z : same_stream x y -> same_stream y z -> same_stream x z.
Proof. intros (A1 & A2 & A3 & A4) (B1 & B2 & B3 & B4). split_and!; [congruence..|auto]. Qed.

#[export] Instance quiet_preorder : PreOrder quiet.
Proof.
  split.
  - intros s. constructor; auto. intros c x Hx. exists x. by repeat split.
  - intros a b c Hab Hbc. destruct Hab as [H1 V1 R1 S1 W1], Hbc as [H2 V2 R2 S2 W2]. constructor; [lia| | | |auto].
    + intros j Hj. rewrite V2 by lia. by apply V1.
    + intros w. destruct (R2 w) as [E|(E0 & j & E & Hj & Hv)].
      * destruct (R1 w) as [E'|(E0' & j & E' & Hj & Hv)]; [left; congruence|].
        right. split; [done|]. exists j. split; [congruence|]. split; [lia|]. rewrite V2 by lia. done.
      * right. destruct (R1 w) as [E'|(E0' & j' & E' & _)]; [|congruence].
        split; [congruence|]. exists j. split; [done|]. split; [lia|done].
    + intros k x' Hx'. destruct (S2 k x' Hx') as (x & Hx & Hs). destruct (S1 k x Hx) as (y & Hy & Hs').
      exists y. split; [done|]. by eapply same_stream_trans.
Qed.

(** An update of the records that keeps what each shows. *)
Lemma quiet_same s s' :
  st_records s' = st_records s -> st_streams s' = st_streams s -> length (st_heap s') = length (st_heap s) ->
  (forall j, viewAt j s' = viewAt j s) -> quiet s s'.
Proof.
  intros Er Es Eh Ev. constructor.
  - lia.
  - auto.
  - intros w. left. unfold activeRecord. by rewrite Er.
  - intros c x. rewrite Es. intros Hx. exists x. by repeat split.
  - unfold store_wf, activeRecord. by rewrite Er, Eh.
Qed.

Lemma viewAt_on_record i f s j :
  viewAt j (on_record i f s) = (if decide (i = j) then recordAt j s ≫= (fun r => viewOf (f r)) else viewAt j s).
Proof.
  unfold viewAt, recordAt. cbn. case_decide as E; [subst|by rewrite list_lookup_alter_ne].
  rewrite list_lookup_alter_eq. by destruct (st_heap s !! j).
Qed.

Lemma quiet_on_record i f s : (forall r, viewOf (f r) = viewOf r) -> quiet s (on_record i f s).
Proof.
  intros Hf. apply quiet_same; [done|done|apply length_alter|]. intros j. rewrite viewAt_on_record.
  case_decide; [|done]. unfold viewAt. by destruct (recordAt j s); cbn.
Qed.

(** An update of the state that keeps the chunks and the next number. *)
Definition keeps_view (f : TerminalSessionRecordState -> TerminalSessionRecordState) : Prop :=
  forall x, (fun sn => (ts_chunks sn ?? [], ts_next_seq sn)) <$> ss_snapshot (f x) =
            (fun sn => (ts_chunks sn ?? [], ts_next_seq sn)) <$> ss_snapshot x.

Lemma quiet_on_state i f s : keeps_view f -> quiet s (on_state i f s).
Proof. intros Hf. apply quiet_on_record. intros r. apply Hf. Qed.

(** Proves [quiet] of an update of flags. *)
Ltac quiet_state := apply quiet_on_state; intros ?; repeat case_match; reflexivity.

Lemma quiet_timers s timers next : quiet s (mkStore (st_heap s) (st_records s) (st_streams s) timers next).
Proof. by apply quiet_same. Qed.

Lemma quiet_clearTimer i s : quiet s (clearTerminalStreamReconnectTimer i s).
Proof.
  unfold clearTerminalStreamReconnectTimer. destruct (mbind _ _); [|reflexivity].
  etransitivity; [|apply quiet_timers]. by apply quiet_on_record.
Qed.

Lemma quiet_closeStream c s : quiet s (closeStream c s).
Proof.
  constructor; cbn; auto.
  intros k x' Hx'. destruct (decide (c = k)) as [->|Hne].
  - rewrite list_lookup_alter_eq in Hx'. destruct (st_streams s !! k) as [x|]; [|done]. cbn in Hx'. simplify_eq.
    exists x. by repeat split.
  - rewrite list_lookup_alter_ne in Hx' by done. exists x'. by repeat split.
Qed.

Lemma quiet_clearConnection i s : quiet s (clearTerminalStreamConnection i s).
Proof.
  unfold clearTerminalStreamConnection. destruct (mbind _ _); [|reflexivity].
  etransitivity; [apply quiet_closeStream|by apply quiet_on_record].
Qed.

Lemma quiet_schedule i w error s : quiet s (scheduleTerminalStreamReconnect i w error s).
Proof.
  unfold scheduleTerminalStreamReconnect. destruct (recordAt i s); [|reflexivity].
  destruct (_ || _); [reflexivity|]. destruct (negb _); [quiet_state|].
  etransitivity; [|apply quiet_timers]. etransitivity; [|by apply quiet_on_record].
  etransitivity; [apply quiet_clearTimer|quiet_state].
Qed.

Lemma quiet_streamDone c error s : quiet s (streamDone c error s).
Proof.
  unfold streamDone. destruct (st_streams s !! c) as [x|]; [|reflexivity]. destruct (negb _); [reflexivity|].
  etransitivity; [apply quiet_closeStream|]. destruct (activeRecord _ _); [apply quiet_schedule|reflexivity].
Qed.

Lemma quiet_reloadFailed i w p error s : quiet s (reloadFailed i w p error s).
Proof.
  unfold reloadFailed. destruct (negb _); [reflexivity|]. destruct (_ && _); [apply quiet_schedule|].
  quiet_state.
Qed.

(** Dropping the record of a widget. *)
Definition dropRecord (w : string) (s : Store) : Store :=
  mkStore (st_heap s) (delete w (st_records s)) (st_streams s) (st_timers s) (st_nextTimer s).

Lemma drop_wf w s : store_wf s -> store_wf (dropRecord w s).
Proof.
  unfold store_wf, activeRecord. cbn. intros [H1 H2]. split.
  - intros w' i [_ Hi]%lookup_delete_Some. by eapply H1.
  - intros w1 w2 i [_ Hi]%lookup_delete_Some [_ Hi']%lookup_delete_Some. by eapply H2.
Qed.

Lemma drop_shown w s w' : shownBy w' (dropRecord w s) = if decide (w = w') then None else shownBy w' s.
Proof.
  unfold shownBy, activeRecord. cbn. case_decide as E; [subst; by rewrite lookup_delete_eq|].
  by rewrite lookup_delete_ne.
Qed.

(** A release keeps the record, or drops it. *)
Lemma release_drops w s :
  exists s1, quiet s s1 /\ (releaseTerminalSession w s = s1 \/ releaseTerminalSession w s = dropRecord w s1).
Proof.
  unfold releaseTerminalSession. destruct (activeRecord w s) as [i|]; [|by exists s; split; [|left]].
  pose proof (quiet_on_record i (fun r => set_retainers (rc_retainers r - 1) r) s (fun _ => eq_refl)) as Hq.
  destruct (_ <? _); [by eexists; split; [exact Hq|left]|].
  eexists. split; [etransitivity; [exact Hq|etransitivity; [apply quiet_clearTimer|apply quiet_clearConnection]]|].
  by right.
Qed.

Lemma quiet_create w s :
  activeRecord w s = None ->
  quiet s (mkStore (st_heap s ++ [createTerminalSessionRecord]) (<[w := length (st_heap s)]> (st_records s))
    (st_streams s) (st_timers s) (st_nextTimer s)).
Proof.
  intros Hw. constructor; unfold store_wf, activeRecord, viewAt, recordAt in *; cbn.
  - rewrite length_app. lia.
  - intros j Hj. by rewrite lookup_app_l.
  - intros w'. destruct (decide (w = w')) as [->|Hne]; [|left; by rewrite lookup_insert_ne].
    right. split; [done|]. exists (length (st_heap s)). rewrite lookup_insert_eq, length_app. split; [done|]. split; [cbn; lia|].
    by rewrite lookup_app_r, Nat.sub_diag.
  - intros c x Hx. exists x. by repeat split.
  - intros [H1 H2]. split.
    + intros w' i. rewrite length_app. cbn. intros [[-> <-]|[Hne Hi]]%lookup_insert_Some; [lia|].
      apply H1 in Hi. lia.
    + intros w1 w2 i [[<- <-]|[Hne Hi]]%lookup_insert_Some [[<- Hj]|[Hne' Hi']]%lookup_insert_Some; try done.
      * apply H1 in Hi'. lia.
      * subst. apply H1 in Hi. lia.
      * by eapply H2.
Qed.

(** ** What a stretch does *)

(** The answer that a stretch starts with, and the store then. *)
Definition Origin : Type := option { A : Set & (TerminalRequest A * (A + JsError))%type } * Store.
Definition origin (A : Set) (r : TerminalRequest A) (a : A + JsError) (s : Store) : Origin :=
  (Some (existT A (r, a)), s).

Definition answered_snapshot (o : Origin) : option (string * TerminalSnapshot) :=
  match fst o with
  | Some (existT A (r, a)) =>
      match r in TerminalRequest A return A + JsError -> option (string * TerminalSnapshot) with
      | FetchSnapshot w => fun a => match a with inl sn => Some (w, sn) | inr _ => None end
      | _ => fun _ => None
      end a
  | None => None
  end.

(** A stream of [w] from [n] is opened. *)
Definition opens (w : string) (n : Z) (s0 s : Store) : Prop :=
  exists i s1, quiet s0 s1 /\ activeRecord w s1 = Some i /\ quiet (openStream i w n s1) s.

(** A stretch that does not go on with a load. *)
Definition settled (o : Origin) (s : Store) : Prop :=
  match fst o with
  | Some (existT A (ConnectStream w n, inl _)) => quiet (snd o) s \/ opens w n (snd o) s
  | _ => quiet (snd o) s
  end.

Definition sets_view (i : nat) (sn : TerminalSnapshot) (s1 s : Store) : Prop :=
  st_records s = st_records s1 /\ st_streams s = st_streams s1 /\ length (st_heap s) = length (st_heap s1) /\
  viewAt i s = Some (ts_chunks sn ?? [], ts_next_seq sn) /\ forall j, j <> i -> viewAt j s = viewAt j s1.

(** Only a stretch that starts with a snapshot asks for a stream: it shows the
    snapshot, and the stream goes on where the snapshot ends. *)
Definition stretch (o : Origin) (s : Store) (A : Set) (r : TerminalRequest A) : Prop :=
  match r with
  | ConnectStream w n =>
      exists sn i s1, answered_snapshot o = Some (w, sn) /\ n = ts_next_seq sn /\ quiet (snd o) s1 /\
        activeRecord w s1 = Some i /\ (i < length (st_heap s1) -> sets_view i sn s1 s)
  | _ => settled o s
  end.

Definition calm {R} (p : Term R) : Prop :=
  forall o s, settled o s -> wp origin stretch p o s (fun _ o s => settled o s).

Lemma settled_quiet o s s' : settled o s -> quiet s s' -> settled o s'.
Proof.
  unfold settled. destruct (fst o) as [[A [r a]]|]; [|by intros; etransitivity].
  destruct r; try (by intros; etransitivity). destruct a; [|by intros; etransitivity].
  intros [Hq|(i & s1 & H1 & H2 & H3)] Hs.
  - left. by etransitivity.
  - right. exists i, s1. split_and!; [done..|by etransitivity].
Qed.

Lemma settled_origin A (r : TerminalRequest A) a s : settled (origin A r a s) s.
Proof. unfold settled. cbn. destruct r; try reflexivity. destruct a; [left|]; reflexivity. Qed.

Lemma calm_ret {R} (r : R) : calm (Ret r).
Proof. by intros o s. Qed.
Lemma calm_throw {R} e : calm (Throw e : Term R).
Proof. by intros o s. Qed.
Lemma calm_get : calm get.
Proof. by intros o s. Qed.
Lemma calm_update f : (forall s, quiet s (f s)) -> calm (update f).
Proof. intros Hf o s Hs. cbn. by eapply settled_quiet. Qed.
Lemma calm_await {A : Set} (r : TerminalRequest A) :
  match r with ConnectStream _ _ => False | _ => True end -> calm (await r).
Proof.
  intros Hr o s Hs. apply wp_await; [by destruct r|intros; apply settled_origin..].
Qed.
Lemma calm_bind {R R'} (p : Term R) (k : R -> Term R') : calm p -> (forall r, calm (k r)) -> calm (bind p k).
Proof.
  intros Hp Hk o s Hs. apply wp_bind. eapply wp_weaken; [|by apply Hp].
  intros [x|e] a b Hab; [by apply Hk|done].
Qed.
Lemma calm_try {R} (p : Term R) h : calm p -> (forall e, calm (h e)) -> calm (tryCatch p h).
Proof.
  intros Hp Hk o s Hs. apply wp_try. eapply wp_weaken; [|by apply Hp].
  intros [x|e] a b Hab; [done|by apply Hk].
Qed.
Lemma calm_finally {R} (p : Term R) q : calm p -> calm q -> calm (finally p q).
Proof.
  intros Hp Hq o s Hs. apply wp_finally. eapply wp_weaken; [|by apply Hp].
  intros r a b Hab. eapply wp_weaken; [|by apply Hq]. by intros [[]|e].
Qed.

(** The load: a snapshot, then the stream that follows it. *)
Lemma attach_settles i w n o s :
  stretch o s unit (ConnectStream w n) ->
  wp origin stretch (attachTerminalStream i w n) o s (fun _ o s => settled o s).
Proof.
  intros Hs. unfold attachTerminalStream. apply wp_bind, wp_await; [done| |by intros; apply settled_origin].
  intros [] s2. cbn [wp update]. destruct (isActiveTerminalSessionRecord i w s2) eqn:E2.
  - unfold isActiveTerminalSessionRecord in E2. bool_prop. right. exists i, s2.
    split_and!; [reflexivity|done|reflexivity].
  - left. reflexivity.
Qed.

Lemma calm_load i w f (last : Z -> Term unit) :
  (forall sn x, ss_snapshot (f sn x) = Some sn) ->
  (forall n o s, stretch o s unit (ConnectStream w n) ->
     wp origin stretch (last n) o s (fun _ o s => settled o s)) ->
  calm (snapshot <- await (FetchSnapshot w) ;;
        s <- get ;;
        if negb (isActiveTerminalSessionRecord i w s) then Ret tt
        else update (on_state i (f snapshot)) ;;; last (ts_next_seq snapshot)).
Proof.
  intros Hf Hlast o s Hs. apply wp_bind, wp_await; [done| |by intros; apply settled_origin].
  intros sn s'. apply wp_bind. cbn [wp get]. destruct (isActiveTerminalSessionRecord i w s') eqn:E; cbn [negb].
  2: { cbn. reflexivity. }
  unfold isActiveTerminalSessionRecord in E. bool_prop.
  cbn [bind update wp]. apply Hlast. exists sn, i, s'. split_and!; [done|done|reflexivity|done|]. intros Hi.
  unfold sets_view, on_state. split_and!; [done|done|apply length_alter| |].
  - rewrite viewAt_on_record, decide_True by done. unfold recordAt.
    apply lookup_lt_is_Some in Hi as [r Hr]. rewrite Hr. cbn. unfold viewOf. cbn. by rewrite Hf.
  - intros j Hj. by rewrite viewAt_on_record, decide_False.
Qed.

(** ** Every call *)

Lemma calm_get_record w : calm (getTerminalSessionRecord w).
Proof.
  intros o s Hs. unfold getTerminalSessionRecord. apply wp_bind. cbn [wp get].
  destruct (activeRecord w s) as [i|] eqn:E; cbn [wp bind update]; [done|].
  eapply settled_quiet; [exact Hs|by apply quiet_create].
Qed.

Lemma calm_reload i w preserve silent : calm (reloadTerminalSessionRecord i w preserve silent).
Proof.
  unfold reloadTerminalSessionRecord.
  apply calm_bind; [apply calm_update, quiet_clearTimer|intros _].
  apply calm_bind; [apply calm_update, quiet_clearConnection|intros _].
  apply calm_bind; [destruct silent; [apply calm_ret|]; apply calm_update; intros s; quiet_state|intros _].
  apply calm_try; [|intros e; apply calm_update, quiet_reloadFailed].
  apply (calm_load i w _ (fun n => attachTerminalStream i w n ;;; update _)); [by destruct preserve|].
  intros n o s Hs. apply wp_bind. eapply wp_weaken; [|by apply attach_settles].
  intros [x|e] a b Hab; [|done]. cbn [wp update]. eapply settled_quiet; [exact Hab|].
  destruct (negb _); [reflexivity|quiet_state].
Qed.

Lemma calm_ensure i w : calm (ensureTerminalSession i w).
Proof.
  unfold ensureTerminalSession. apply calm_bind; [apply calm_get|intros s1].
  destruct (_ ?? _); [apply calm_ret|].
  apply calm_bind; [apply calm_update; intros s; quiet_state|intros _].
  apply calm_bind; [apply calm_update; intros s; by apply quiet_on_record|intros _].
  apply calm_finally; [|apply calm_update; intros s; by apply quiet_on_record].
  apply calm_try.
  - by apply (calm_load i w _ (fun n => attachTerminalStream i w n)); [|intros; apply attach_settles].
  - intros e. apply calm_update. intros s. destruct (negb _); [reflexivity|quiet_state].
Qed.

Lemma calm_whenActive i w f : keeps_view f -> calm (whenActive i w f).
Proof. intros Hf. apply calm_update. intros s. destruct (isActiveTerminalSessionRecord i w s); [by apply quiet_on_state|done]. Qed.

Lemma calm_change i begin request w finish abandon fallback :
  keeps_view begin -> keeps_view finish -> keeps_view abandon ->
  match request with ConnectStream _ _ => False | _ => True end ->
  calm (changeSession i begin request w finish abandon fallback).
Proof.
  intros H1 H2 H3 Hr. unfold changeSession.
  apply calm_bind; [apply calm_update; intros s; apply quiet_on_state; intros x; apply H1|intros _].
  apply calm_try; [|intros e; apply calm_whenActive; intros x; apply H3].
  apply calm_bind; [by apply calm_await|intros _]. apply calm_bind; [apply calm_reload|intros _].
  by apply calm_whenActive.
Qed.

Lemma keeps_view_on_active w f : keeps_view f -> forall s, quiet s (onActiveRecord w f s).
Proof. intros Hf s. unfold onActiveRecord. destruct (activeRecord w s); [by apply quiet_on_state|done]. Qed.

Lemma keeps_view_interrupted nextState (g : TerminalSessionRecordState -> TerminalSessionRecordState) :
  (forall x, ss_snapshot (g x) = (fun sn => mkTermSnapshot nextState (ts_chunks sn) (ts_next_seq sn)
     (ts_active_session_id sn) (ts_sessions sn)) <$> ss_snapshot x) -> keeps_view g.
Proof. intros Hg x. rewrite Hg. by destruct (ss_snapshot x). Qed.

Ltac calm_step :=
  lazymatch goal with
  | |- calm (bind (getTerminalSessionRecord _) _) => apply calm_bind; [apply calm_get_record|intros ?]
  | |- calm (bind _ _) => apply calm_bind; [|intros ?]
  | |- calm (tryCatch _ _) => apply calm_try; [|intros ?]
  | |- calm (Ret _) => apply calm_ret
  | |- calm get => apply calm_get
  | |- calm (await _) => apply calm_await; exact I
  | |- calm (reloadTerminalSessionRecord _ _ _ _) => apply calm_reload
  | |- calm (getTerminalSessionRecord _) => apply calm_get_record
  | |- calm (ensureTerminalSession _ _) => apply calm_ensure
  | |- calm (whenActive _ _ _) => apply calm_whenActive; intros ?; reflexivity
  | |- calm (changeSession _ _ _ _ _ _ _) => apply calm_change; try exact I; intros ?; reflexivity
  | |- calm (update (on_state _ _)) => apply calm_update; intros ?; quiet_state
  | |- calm (update (on_record _ _)) => apply calm_update; intros ?; apply quiet_on_record; reflexivity
  | |- calm (update (onActiveRecord _ _)) =>
      apply calm_update, keeps_view_on_active; first [intros ?; reflexivity | by eapply keeps_view_interrupted]
  | |- calm (let _ := _ in _) => cbv zeta
  | |- calm (if ?b then _ else _) => destruct b
  | |- calm (match ?x with _ => _ end) => destruct x
  end.
Ltac calm_tac := repeat calm_step.

Lemma calm_restart w : calm (restartSession w).
Proof. unfold restartSession. calm_tac. Qed.

Lemma calm_timer t : calm (timerFired t).
Proof.
  unfold timerFired. apply calm_bind; [calm_tac|intros s]. destruct (st_timers s !! t) as [[[i w] d]|]; [|calm_tac].
  apply calm_bind; [|intros _; calm_tac]. apply calm_update. intros s'.
  etransitivity; [|apply quiet_timers]. by apply quiet_on_record.
Qed.

(** Every call but an unmount is calm: only loads show chunks and open streams. *)
Lemma calm_term c : match c with CUnmount _ => False | _ => True end -> calm (termProg c).
Proof.
  intros Hc. destruct c; try done; cbn [termProg];
    unfold mountSession, sendInputChunk, loadShellOptions, switchShell, recoverSession, interruptSession,
      createSession, focusSession, closeSession; try (calm_tac; fail).
  - apply calm_restart.
  - calm_tac; first [apply calm_restart | idtac].
  - apply calm_timer.
Qed.

(** ** One source: the feed *)

Definition feed_ok (s : Store) (σ : gmap string Feed) : Prop := store_wf s /\ follows s σ /\ shows s σ.

Definition no_source (w : string) (s : Store) : Prop :=
  forall c x, st_streams s !! c = Some x -> is_source w x = false.

(** A feed that waits for its stream from [n]. *)
Definition awaits_stream (n : Z) (f : Feed) : Prop :=
  fd_stream f = None /\ fd_chunks f = [] /\ ts_next_seq (fd_snapshot f) = n.

(** A stream that a call asks for continues what its widget shows. *)
Definition continues (σ : gmap string Feed) (o : Outcome Store TerminalRequest unit) : Prop :=
  match o with
  | Waiting (ConnectStream w n) _ => forall f, σ !! w = Some f -> awaits_stream n f
  | _ => True
  end.

(** What is known of a call in flight. *)
Definition call_calm (o : Outcome Store TerminalRequest unit) : Prop :=
  match o with
  | Ended _ => False
  | @Waiting _ _ _ _ A r k =>
      forall a s, wp origin stretch (k a) (origin A r a s) s (fun _ o s => settled o s)
  end.

Definition calls_ok (σ : gmap string Feed) (calls : list (Outcome Store TerminalRequest unit)) : Prop :=
  forall o, o ∈ calls -> call_calm o /\ continues σ o.

Definition system_ok (m : TermSystem) (σ : gmap string Feed) : Prop :=
  feed_ok (sys_state m) σ /\ one_source m /\ calls_ok σ (sys_calls m).

Lemma quiet_shown s s' w : store_wf s -> quiet s s' -> shownBy w s' = shownBy w s.
Proof.
  intros [Hwf _] Hq. unfold shownBy. destruct (qu_records _ _ Hq w) as [E|(E0 & j & E & Hj & Hv)]; rewrite E.
  - destruct (activeRecord w s) as [i|] eqn:Ei; [|done]. cbn. apply (qu_views _ _ Hq). by eapply Hwf.
  - by rewrite E0.
Qed.

Lemma quiet_feed s s' σ : feed_ok s σ -> quiet s s' -> feed_ok s' σ.
Proof.
  intros (Hwf & Hst & Hsh) Hq. split; [by apply (qu_wf _ _ Hq)|]. split.
  - intros c x' f Hx' Ho Hf. destruct (qu_streams _ _ Hq _ _ Hx') as (x & Hx & E1 & E2 & E3 & E4).
    rewrite E2, E3. rewrite E1 in Hf. by apply (Hst c x f Hx (E4 Ho)).
  - intros w. by rewrite (quiet_shown _ _ _ Hwf Hq).
Qed.

Lemma quiet_no_source w s s' : quiet s s' -> no_source w s -> no_source w s'.
Proof.
  intros Hq Hn c x' Hx'. destruct (qu_streams _ _ Hq _ _ Hx') as (x & Hx & E1 & _ & _ & E4).
  specialize (Hn c x Hx). unfold is_source in *. rewrite E1. destruct (sr_open x'); [|done]. by rewrite (E4 eq_refl) in Hn.
Qed.

(** A change of the feed of one widget is nothing to the streams and the calls
    of the others. *)
Lemma calls_others w f σ calls :
  calls_ok σ calls -> (forall o, o ∈ calls -> is_load w o = false) -> calls_ok (<[w := f]> σ) calls.
Proof.
  intros Hc Hl o Ho. destruct (Hc o Ho) as [Ha Hb]. split; [done|]. specialize (Hl o Ho).
  destruct o as [|A r k]; [done|]. destruct r; try done. cbn in *. bool_prop.
  rewrite lookup_insert_ne by congruence. exact Hb.
Qed.

Lemma follows_others w f s σ : follows s σ -> no_source w s -> follows s (<[w := f]> σ).
Proof.
  intros Hst Hn c x f' Hx Ho. specialize (Hn c x Hx). unfold is_source in Hn. rewrite Ho in Hn. cbn in Hn.
  bool_prop. rewrite lookup_insert_ne by congruence. by apply Hst.
Qed.

Lemma follows_less s σ σ' : σ' ⊆ σ -> follows s σ -> follows s σ'.
Proof. intros Hsub Hst c x f Hx Ho Hf. apply (Hst c x f Hx Ho). by eapply lookup_weaken. Qed.

Lemma calls_less σ σ' calls : σ' ⊆ σ -> calls_ok σ calls -> calls_ok σ' calls.
Proof.
  intros Hsub Hc o Ho. destruct (Hc o Ho) as [Ha Hb]. split; [done|].
  destruct o as [|A r k]; [done|]. destruct r; try done. intros f Hf. apply Hb. by eapply lookup_weaken.
Qed.

Lemma in_filterb {A} (f : A -> bool) (l : list A) x : x ∈ l -> f x = true -> 1 <= length (filterb f l).
Proof.
  induction l as [|y l IH]; cbn; intros Hx Hf; [by apply not_elem_of_nil in Hx|].
  apply elem_of_cons in Hx as [->|Hx]; [rewrite Hf; cbn; lia|]. destruct (f y); cbn; [lia|by apply IH].
Qed.

(** While a load of a widget is in flight, it is its only source. *)
Lemma only_load s calls1 calls2 w o :
  is_load w o = true -> one_source (mkSystem s (calls1 ++ o :: calls2)) ->
  (forall o', o' ∈ calls1 ++ calls2 -> is_load w o' = false) /\ no_source w s.
Proof.
  intros Ho H. specialize (H w). cbn [sys_calls sys_state] in H. rewrite filterb_app, length_app in H.
  unfold filterb at 2 in H. cbn in H. rewrite Ho in H. cbn in H.
  change (List.filter (is_load w) calls2) with (filterb (is_load w) calls2) in H. split.
  - intros o' Ho'. destruct (is_load w o') eqn:E; [|done].
    pose proof (in_filterb _ _ _ Ho' E) as Hf. rewrite filterb_app, length_app in Hf. lia.
  - intros c x Hx. destruct (is_source w x) eqn:E; [|done]. apply list_elem_of_lookup_2 in Hx.
    pose proof (in_filterb _ _ _ Hx E). lia.
Qed.

Lemma sets_view_shown i sn s1 s w :
  store_wf s1 -> activeRecord w s1 = Some i -> sets_view i sn s1 s ->
  shownBy w s = Some (ts_chunks sn ?? [], ts_next_seq sn) /\
  forall w', w' <> w -> shownBy w' s = shownBy w' s1.
Proof.
  intros [Hlt Hinj] Hw (Er & _ & _ & Hv & Ho). unfold shownBy, activeRecord in *. rewrite Er. split.
  - by rewrite Hw.
  - intros w' Hne. destruct (st_records s1 !! w') as [j|] eqn:Ej; [|done]. cbn. apply Ho. intros ->.
    by apply Hne, (Hinj w' w i).
Qed.

Lemma sets_view_feed i sn s1 s w σ :
  feed_ok s1 σ -> activeRecord w s1 = Some i -> sets_view i sn s1 s -> no_source w s ->
  feed_ok s (<[w := mkFeed sn None []]> σ).
Proof.
  intros (Hwf & Hst & Hsh) Hw Hset Hno.
  destruct (sets_view_shown _ _ _ _ _ Hwf Hw Hset) as [Hnew Hold].
  destruct Hset as (Er & Es & El & _). split; [|split].
  - unfold store_wf, activeRecord. by rewrite Er, El.
  - apply follows_others; [|done]. unfold follows. by rewrite Es.
  - intros w'. destruct (decide (w = w')) as [->|Hne].
    + rewrite lookup_insert_eq, Hnew. unfold feedView. cbn. by rewrite app_nil_r.
    + by rewrite lookup_insert_ne, Hold by done.
Qed.

Lemma open_shown i w n s w' : shownBy w' (openStream i w n s) = shownBy w' s.
Proof.
  unfold shownBy. change (activeRecord w' (openStream i w n s)) with (activeRecord w' s).
  destruct (activeRecord w' s) as [j|]; [|done]. cbn [mbind option_bind].
  change (viewAt j (openStream i w n s)) with (viewAt j (on_record i (set_streamClose (Some (length (st_streams s)))) s)).
  rewrite viewAt_on_record. case_decide; [|done]. unfold viewAt. by destruct (recordAt j s).
Qed.

(** A stream that is opened for a widget which waits for it, if it shows anything. *)
Lemma open_feed i w n s σ :
  feed_ok s σ -> no_source w s -> (forall f, σ !! w = Some f -> awaits_stream n f) ->
  exists σ', feed_step (LStream w n) σ σ' /\ feed_ok (openStream i w n s) σ' /\ (σ' = σ \/ exists f, σ' = <[w := f]> σ).
Proof.
  intros (Hwf & Hst & Hsh) Hno Hn.
  assert (store_wf (openStream i w n s)) as Hwf' by (unfold store_wf in *; cbn; by rewrite length_alter).
  assert (forall σ', (forall w', feedView <$> σ' !! w' = feedView <$> σ !! w') -> shows (openStream i w n s) σ') as Hsh'.
  { intros σ' Hv w'. rewrite open_shown, Hv. apply Hsh. }
  destruct (σ !! w) as [f|] eqn:Ef.
  - destruct (Hn f eq_refl) as (E1 & E2 & E3). destruct f as [sn d ck]. cbn in E1, E2, E3. subst d ck.
    exists (<[w := mkFeed sn (Some (length (st_streams s))) []]> σ).
    split; [right; by exists sn, (length (st_streams s))|]. split; [|right; by eexists]. split; [done|]. split.
    + intros c x f'. cbn. intros [Hx|[Hlen Hx]]%lookup_app_Some Ho.
      * by apply (follows_others w _ _ _ Hst Hno c x f').
      * apply list_lookup_singleton_Some in Hx as [Hc <-]. cbn. rewrite lookup_insert_eq. intros [= <-]. cbn.
        split_and!; [f_equal; lia|done|done].
    + apply Hsh'. intros w'. destruct (decide (w = w')) as [<-|Hne]; [by rewrite lookup_insert_eq, Ef|by rewrite lookup_insert_ne].
  - exists σ. split; [by left|]. split; [|by left]. split; [done|]. split; [|by apply Hsh'].
    intros c x f'. cbn. intros [Hx|[Hlen Hx]]%lookup_app_Some Ho; [by apply Hst|].
    apply list_lookup_singleton_Some in Hx as [Hc <-]. cbn. congruence.
Qed.

(** ** Stretches *)

(** The label of what a stretch starts with; a stretch of a call changes no feed. *)
Definition labelled (o : Origin) (l : TermLabel) : Prop :=
  match fst o with
  | Some (existT A (r, a)) => l = answer_label A r a
  | None => forall σ, feed_step l σ σ
  end.

(** What is known of the request that was answered. *)
Definition origin_ok (σ : gmap string Feed) (calls : list (Outcome Store TerminalRequest unit)) (o : Origin) : Prop :=
  match fst o with
  | Some (existT A (ConnectStream w n, _)) =>
      (forall f, σ !! w = Some f -> awaits_stream n f) /\ no_source w (snd o) /\
      forall o', o' ∈ calls -> is_load w o' = false
  | _ => True
  end.

Lemma labelled_stays o l σ : labelled o l -> feed_step l σ σ.
Proof.
  unfold labelled. destruct (fst o) as [[A [r a]]|]; [|by intros H]. intros ->.
  destruct r; try done; destruct a; try done; by left.
Qed.

(** A stretch that does not go on with a load. *)
Lemma settled_ok o s σ l calls :
  feed_ok (snd o) σ -> origin_ok σ calls o -> labelled o l -> calls_ok σ calls -> settled o s ->
  exists σ', feed_step l σ σ' /\ feed_ok s σ' /\ calls_ok σ' calls.
Proof.
  intros Hf Ho Hl Hc Hs.
  assert (quiet (snd o) s -> exists σ', feed_step l σ σ' /\ feed_ok s σ' /\ calls_ok σ' calls) as Hquiet.
  { intros Hq. exists σ. split_and!; [by eapply labelled_stays|by eapply quiet_feed|done]. }
  unfold settled in Hs. destruct o as [[[A [r a]]|] s0]; cbn [fst snd] in *; [|by apply Hquiet].
  destruct r; try (by apply Hquiet). destruct a; [|by apply Hquiet].
  destruct Hs as [Hq|(i & s1 & Hq & Hi & Hq')]; [by apply Hquiet|].
  unfold origin_ok, labelled in *. cbn [fst snd answer_label] in *. subst l. destruct Ho as (Hn & Hno & Hl).
  destruct (open_feed i widgetId from s1 σ) as (σ' & Hstep & Hf' & Hσ);
    [by eapply quiet_feed|by eapply quiet_no_source|done|].
  exists σ'. split; [done|]. split; [by eapply quiet_feed|].
  destruct Hσ as [->|[f ->]]; [done|]. by apply calls_others.
Qed.

(** A stretch that shows a snapshot and asks for its stream. *)
Lemma loaded_ok o s σ l calls w n k :
  feed_ok (snd o) σ -> labelled o l -> calls_ok σ calls -> stretch o s unit (ConnectStream w n) ->
  one_source (mkSystem s (calls ++ [Waiting (ConnectStream w n) k])) ->
  exists σ', feed_step l σ σ' /\ feed_ok s σ' /\ calls_ok σ' calls /\
    forall f, σ' !! w = Some f -> awaits_stream n f.
Proof.
  intros Hf Hlab Hc (sn & i & s1 & Hsn & -> & Hq & Hi & Hset) H1.
  destruct (only_load s calls [] w (Waiting (ConnectStream w (ts_next_seq sn)) k)) as [Hl Hs];
    [by apply bool_decide_eq_true_2|exact H1|]. rewrite app_nil_r in Hl.
  pose proof (quiet_feed _ _ _ Hf Hq) as Hf1. assert (store_wf s1) as Hwf by apply Hf1.
  assert (l = LSnapshot w sn) as ->.
  { unfold answered_snapshot, labelled in *. destruct (fst o) as [[A [r a]]|]; [|done].
    destruct r; try done. destruct a; [|done]. by simplify_eq. }
  exists (<[w := mkFeed sn None []]> σ). split; [by right|]. split.
  - eapply sets_view_feed; [done..| |done]. apply Hset. by eapply Hwf.
  - split; [by apply calls_others|]. intros f. rewrite lookup_insert_eq. by intros [= <-].
Qed.

Lemma proceed_ok p o calls s σ l :
  s = snd o -> wp origin stretch p o s (fun _ o s => settled o s) ->
  feed_ok s σ -> origin_ok σ calls o -> labelled o l -> calls_ok σ calls ->
  one_source (proceed p (mkSystem s calls)) ->
  exists σ', feed_step l σ σ' /\ system_ok (proceed p (mkSystem s calls)) σ'.
Proof.
  intros -> Hwp Hf Ho Hlab Hc H1. apply wp_run in Hwp. unfold proceed in *. cbn [sys_state sys_calls] in *.
  destruct (run p (snd o)) as [s [r|A r k]]; cbn [fst snd] in Hwp.
  - destruct (settled_ok _ _ _ _ _ Hf Ho Hlab Hc Hwp) as (σ' & Hs & Hf' & Hc'). exists σ'. by split_and!.
  - destruct Hwp as [Hst Hk].
    assert (exists σ', feed_step l σ σ' /\ feed_ok s σ' /\ calls_ok σ' calls /\ continues σ' (Waiting r k))
      as (σ' & Hs & Hf' & Hc' & Hw).
    { destruct r;
        first [ destruct (settled_ok _ _ _ _ _ Hf Ho Hlab Hc Hst) as (σ' & Hs & Hf' & Hc'); by exists σ'
              | destruct (loaded_ok _ _ _ _ _ _ _ _ Hf Hlab Hc Hst H1) as (σ' & Hs & Hf' & Hc' & Hw); by exists σ' ]. }
    exists σ'. split; [done|]. split_and!; [done|done|].
    intros x [Hx| ->%list_elem_of_singleton]%elem_of_app; [by apply Hc'|done].
Qed.

(** ** Output *)

Lemma viewOf_append chunk r :
  viewOf (mkSession (rc_loading r) (rc_retainers r)
    (let x := rc_state r in
     match ss_snapshot x with None => x | Some sn => set_snapshot (Some (appendChunk chunk sn)) x end)
    (rc_streamClose r) (rc_streamReconnectTimer r)) =
  (fun '(ck, n) => (ck ++ [chunk], Z.max n (ck_seq chunk + 1))) <$> viewOf r.
Proof. unfold viewOf. cbn [rc_state]. destruct (ss_snapshot (rc_state r)) as [sn|] eqn:E; cbn; by rewrite ?E. Qed.

Lemma append_view i chunk s j :
  viewAt j (appendTerminalChunk i chunk s) =
    if decide (i = j) then (fun '(ck, n) => (ck ++ [chunk], Z.max n (ck_seq chunk + 1))) <$> viewAt j s
    else viewAt j s.
Proof.
  unfold appendTerminalChunk, on_state. rewrite viewAt_on_record. case_decide; [|done]. unfold viewAt.
  destruct (recordAt j s) as [r|]; [|done]. apply (viewOf_append chunk r).
Qed.

Lemma deliver_shown c x chunk s w :
  store_wf s ->
  shownBy w (deliver c x chunk s) =
    if decide (w = sr_widget x)
    then (fun '(ck, n) => (ck ++ [chunk], Z.max n (ck_seq chunk + 1))) <$> shownBy w s
    else shownBy w s.
Proof.
  intros [_ Hinj]. unfold deliver, onOutput, shownBy. cbn [activeRecord st_records].
  change (activeRecord (sr_widget x) _) with (activeRecord (sr_widget x) s).
  destruct (activeRecord (sr_widget x) s) as [i|] eqn:Ei.
  - set (s1 := mkStore _ _ _ _ _). set (s2 := appendTerminalChunk i chunk s1).
    change (activeRecord w (on_state i _ s2)) with (activeRecord w s).
    destruct (activeRecord w s) as [j|] eqn:Ej; [|by case_decide]. cbn [mbind option_bind].
    transitivity (viewAt j s2).
    { unfold on_state. rewrite viewAt_on_record. case_decide; [|done]. unfold viewAt.
      destruct (recordAt j s2) as [r|]; [|done]. cbn. unfold viewOf. cbn. by destruct (_ || _). }
    unfold s2. rewrite append_view. change (viewAt j s1) with (viewAt j s).
    destruct (decide (w = sr_widget x)) as [->|Hne].
    + rewrite decide_True; [done|]. congruence.
    + rewrite decide_False; [done|]. intros ->. by apply Hne, (Hinj w (sr_widget x) j).
  - change (activeRecord w (mkStore _ _ _ _ _)) with (activeRecord w s).
    case_decide as E; [subst; by rewrite Ei|done].
Qed.

Lemma deliver_streams c x chunk s :
  st_streams (deliver c x chunk s) =
    alter (fun y => mkStream (sr_widget y) (sr_from y) (sr_open y) (S (sr_sent y))) c (st_streams s).
Proof. unfold deliver, onOutput. by destruct (activeRecord _ _). Qed.

Lemma deliver_wf c x chunk s : store_wf s -> store_wf (deliver c x chunk s).
Proof.
  unfold deliver, onOutput, store_wf, activeRecord. destruct (st_records _ !! _) as [i|]; [|done]. cbn.
  by rewrite !length_alter.
Qed.

Lemma two_in_filterb {A} (f : A -> bool) (l : list A) i j x y :
  l !! i = Some x -> l !! j = Some y -> i <> j -> f x = true -> f y = true -> 2 <= length (filterb f l).
Proof.
  revert i j. induction l as [|z l IH]; intros i j Hi Hj Hne Hx Hy; [by destruct i|].
  destruct i as [|i], j as [|j]; cbn in Hi, Hj |- *; [done| | |].
  - simplify_eq. rewrite Hx. apply list_elem_of_lookup_2 in Hj. pose proof (in_filterb _ _ _ Hj Hy). unfold filterb in *. cbn. lia.
  - simplify_eq. rewrite Hy. apply list_elem_of_lookup_2 in Hi. pose proof (in_filterb _ _ _ Hi Hx). unfold filterb in *. cbn. lia.
  - assert (2 <= length (filterb f l)) by (apply (IH i j); auto). unfold filterb in *. destruct (f z); cbn; lia.
Qed.

(** An open stream is the only source of its widget. *)
Lemma only_stream m c x :
  one_source m -> st_streams (sys_state m) !! c = Some x -> sr_open x = true ->
  (forall o, o ∈ sys_calls m -> is_load (sr_widget x) o = false) /\
  forall c' y, st_streams (sys_state m) !! c' = Some y -> sr_open y = true -> c' <> c -> sr_widget y <> sr_widget x.
Proof.
  intros H1 Hx Ho. specialize (H1 (sr_widget x)).
  assert (is_source (sr_widget x) x = true) as Hsrc by (unfold is_source; by rewrite Ho, bool_decide_eq_true_2).
  split.
  - intros o Hin. destruct (is_load (sr_widget x) o) eqn:E; [|done].
    pose proof (in_filterb _ _ _ Hin E). pose proof (in_filterb _ _ _ (list_elem_of_lookup_2 _ _ _ Hx) Hsrc). lia.
  - intros c' y Hy Hoy Hne Ew.
    assert (is_source (sr_widget x) y = true) as Hsy by (unfold is_source; by rewrite Hoy, bool_decide_eq_true_2).
    pose proof (two_in_filterb _ _ _ _ _ _ Hy Hx Hne Hsy Hsrc). lia.
Qed.

(** What is shown of a feed, with a chunk more. *)
Lemma feedView_more f chunk :
  feedView (mkFeed (fd_snapshot f) (fd_stream f) (fd_chunks f ++ [chunk])) =
  (fun '(ck, n) => (ck ++ [chunk], Z.max n (ck_seq chunk + 1))) (feedView f).
Proof. unfold feedView. cbn. by rewrite foldl_app, app_assoc. Qed.

Lemma output_ok m σ c x chunk :
  system_ok m σ -> st_streams (sys_state m) !! c = Some x -> sr_open x = true ->
  one_source (mkSystem (deliver c x chunk (sys_state m)) (sys_calls m)) ->
  exists σ', feed_step (LChunk (sr_widget x) c chunk) σ σ' /\
    system_ok (mkSystem (deliver c x chunk (sys_state m)) (sys_calls m)) σ'.
Proof.
  intros ((Hwf & Hst & Hsh) & H1 & Hc) Hx Ho H1'. destruct (only_stream _ _ _ H1 Hx Ho) as [Hl Hs].
  set (s := sys_state m) in *. set (s' := deliver c x chunk s). set (w := sr_widget x) in *.
  assert (forall w', shownBy w' s' = _) as Hnew by (intros w'; apply (deliver_shown c x chunk s w' Hwf)).
  fold w in Hnew. cbn [feed_step]. destruct (σ !! w) as [f|] eqn:Ef.
  - destruct (Hst c x f Hx Ho Ef) as (Hc1 & Hfrom & Hsent).
    set (f' := mkFeed (fd_snapshot f) (fd_stream f) (fd_chunks f ++ [chunk])).
    exists (<[w := f']> σ). split; [done|]. split; [|split; [done|by apply calls_others]].
    split; [by apply deliver_wf|]. split; cbn [sys_state].
    + intros c' y f0. unfold s'. rewrite deliver_streams. destruct (decide (c = c')) as [<-|Hne].
      * rewrite list_lookup_alter_eq, Hx. intros [= <-] _. cbn. fold w. rewrite lookup_insert_eq. intros [= <-].
        cbn. rewrite length_app, Hsent. cbn. split_and!; [done|done|lia].
      * rewrite list_lookup_alter_ne by done. intros Hy Hoy.
        rewrite lookup_insert_ne by (intros E; by apply (Hs c' y Hy Hoy (not_eq_sym Hne))). by apply Hst.
    + intros w'. rewrite Hnew, Hsh. destruct (decide (w' = w)) as [->|Hne].
      * rewrite lookup_insert_eq, Ef. cbn [fmap option_fmap option_map]. unfold f'. by rewrite feedView_more.
      * by rewrite lookup_insert_ne by done.
  - exists σ. split; [done|]. split; [|by split]. split; [by apply deliver_wf|]. split; cbn [sys_state].
    + intros c' y f0. unfold s'. rewrite deliver_streams. destruct (decide (c = c')) as [<-|Hne].
      * rewrite list_lookup_alter_eq, Hx. intros [= <-] _. cbn. fold w. congruence.
      * rewrite list_lookup_alter_ne by done. by apply Hst.
    + intros w'. rewrite Hnew, Hsh. case_decide as E; [subst; by rewrite Ef|done].
Qed.

(** ** The simulation *)

Lemma unmount_ok m σ w :
  system_ok m σ -> one_source (proceed (termProg (CUnmount w)) m) ->
  exists σ', feed_step (LCall (CUnmount w)) σ σ' /\ system_ok (proceed (termProg (CUnmount w)) m) σ'.
Proof.
  intros (Hf & _ & Hc) H1.
  assert (proceed (termProg (CUnmount w)) m = mkSystem (releaseTerminalSession w (sys_state m)) (sys_calls m)) as Ep
    by (by destruct m).
  rewrite Ep in *. destruct (release_drops w (sys_state m)) as (s1 & Hq & [Es|Es]); rewrite Es in *.
  - exists σ. split; [by left|]. split; [by eapply quiet_feed|by split].
  - destruct (quiet_feed _ _ _ Hf Hq) as (Hwf & Hst & Hsh). assert (delete w σ ⊆ σ) as Hsub by apply delete_subseteq.
    exists (delete w σ). split; [by right|]. split; [|split; [done|by eapply calls_less]].
    split; [by apply drop_wf|]. split; [by apply (follows_less _ _ _ Hsub)|].
    intros w'. cbn [sys_state]. rewrite drop_shown. case_decide as E; [subst; by rewrite lookup_delete_eq|].
    by rewrite lookup_delete_ne.
Qed.

(** The answer of a call in flight. *)
Lemma answered_ok m σ i (A : Set) (r : TerminalRequest A) k a :
  system_ok m σ -> sys_calls m !! i = Some (Waiting r k) ->
  one_source (proceed (k a) (mkSystem (sys_state m) (delete i (sys_calls m)))) ->
  exists σ', feed_step (answer_label A r a) σ σ' /\
    system_ok (proceed (k a) (mkSystem (sys_state m) (delete i (sys_calls m)))) σ'.
Proof.
  intros (Hf & H0 & Hc) Hi H1. destruct (Hc _ (list_elem_of_lookup_2 _ _ _ Hi)) as [Hcalm Hcont].
  assert (forall o, o ∈ delete i (sys_calls m) -> o ∈ sys_calls m) as Hsub.
  { intros o Hin. apply list_elem_of_lookup in Hin as [j Hj]. rewrite list_lookup_delete in Hj.
    case_decide; by eapply list_elem_of_lookup_2. }
  apply (proceed_ok _ (origin A r a (sys_state m))); try done; [|intros o Hin; by apply Hc, Hsub].
  destruct r; try exact I. unfold origin_ok. cbn [fst snd origin]. split; [exact Hcont|].
  pose proof (list_elem_of_split_length _ _ _ Hi) as (l1 & l2 & El & Hlen). destruct m as [s calls]. cbn in *. subst calls.
  destruct (only_load s l1 l2 widgetId (Waiting (ConnectStream widgetId from) k)) as [Hl Hs];
    [by apply bool_decide_eq_true_2|exact H0|]. split; [done|].
  intros o' Ho'. apply Hl. subst i. by rewrite delete_middle in Ho'.
Qed.

Lemma step_simulated l m m' σ :
  system_ok m σ -> term_does l m m' -> one_source m' -> exists σ', feed_step l σ σ' /\ system_ok m' σ'.
Proof.
  intros Hm Hdoes H1. pose proof Hm as (Hf & H0 & Hc). destruct Hdoes as [m c|m i A r k a Hi|m c x chunk Hx Ho|m c error].
  - assert ((exists w, c = CUnmount w) \/ match c with CUnmount _ => False | _ => True end) as [[w ->]|Hne]
      by (destruct c; eauto); [by apply unmount_ok|].
    destruct m as [s calls]. apply (proceed_ok _ (None, s)); try done.
    + apply calm_term; [done|]. unfold settled. cbn. reflexivity.
    + intros σ0. by destruct c.
  - by apply answered_ok.
  - by apply output_ok.
  - exists σ. split; [done|]. split; [|by split]. eapply quiet_feed; [exact Hf|apply quiet_streamDone].
Qed.

Lemma empty_system_ok : system_ok (mkSystem emptyStore []) ∅.
Proof.
  split; [|split; [intros w; cbn; lia|by intros o ?%not_elem_of_nil]]. split; [|split].
  - split; intros w; intros; by unfold activeRecord in *; simplify_map_eq.
  - by intros c x f.
  - intros w. unfold shownBy, activeRecord. cbn. by rewrite !lookup_empty.
Qed.


(** When the snapshot and its stream number the output of one terminal without
    a gap, what is shown is a window on that output. *)
Lemma numbered_feed output w b f :
  (forall n, ck_seq (output w n) = n) -> (b <= ts_next_seq (fd_snapshot f))%Z ->
  ts_chunks (fd_snapshot f) ?? [] = slice output w b (ts_next_seq (fd_snapshot f)) ->
  fd_chunks f = output w <$> seqZ (ts_next_seq (fd_snapshot f)) (Z.of_nat (length (fd_chunks f))) ->
  let n := (ts_next_seq (fd_snapshot f) + Z.of_nat (length (fd_chunks f)))%Z in
  feedView f = (slice output w b n, n).
Proof.
  intros Hseq Hb Hsn Hck n. unfold feedView. rewrite Hsn.
  set (n0 := ts_next_seq (fd_snapshot f)) in *. set (k := length (fd_chunks f)) in *. f_equal.
  - rewrite Hck. unfold slice. rewrite <- fmap_app. f_equal. replace (n - b)%Z with ((n0 - b) + Z.of_nat k)%Z by lia.
    rewrite seqZ_app by lia. by replace (b + (n0 - b))%Z with n0 by lia.
  - rewrite Hck. unfold n. clearbody n0 k. clear Hb Hsn Hck n. revert n0. induction k as [|k IH]; intros n0.
    + change (Z.of_nat 0) with 0%Z. cbn [seqZ]. change (seqZ n0 0) with (@nil Z). cbn [fmap list_fmap foldl]. lia.
    + rewrite seqZ_cons by lia. cbn [fmap list_fmap foldl]. rewrite Hseq, Z.max_r by lia.
      replace (Z.pred (Z.of_nat (S k))) with (Z.of_nat k) by lia. rewrite <- Z.add_1_r, IH. lia.
Qed.

(** * Runs *)

(** The host's answers, by request, and the call at [i] that gets its answer. *)
Definition Answers : Type := forall A : Set, TerminalRequest A -> A + JsError.

Definition resumed (f : Answers) (i : nat) (m : TermSystem) : TermSystem :=
  match sys_calls m !! i with
  | Some (@Waiting _ _ _ _ A r k) => proceed (k (f A r)) (mkSystem (sys_state m) (delete i (sys_calls m)))
  | _ => m
  end.

(** The stream [c] delivers its next chunk. *)
Definition delivered (output : string -> Z -> TerminalOutputChunk) (c : nat) (m : TermSystem) : TermSystem :=
  match st_streams (sys_state m) !! c with
  | Some x =>
      mkSystem (deliver c x (output (sr_widget x) (sr_from x + Z.of_nat (sr_sent x))%Z) (sys_state m)) (sys_calls m)
  | None => m
  end.

(** At most one call in flight and open stream altogether. *)
Lemma one_source_small m :
  length (sys_calls m) + length (filterb sr_open (st_streams (sys_state m))) <= 1 -> one_source m.
Proof.
  intros H w.
  assert (length (filterb (is_load w) (sys_calls m)) <= length (sys_calls m)) as H1 by apply List.filter_length_le.
  assert (length (filterb (is_source w) (st_streams (sys_state m))) <=
          length (filterb sr_open (st_streams (sys_state m)))) as H2.
  { clear. unfold filterb. induction (st_streams (sys_state m)) as [|x l IH]; cbn; [lia|]. unfold is_source at 1.
    destruct (sr_open x); cbn; [destruct (bool_decide _); cbn; lia|lia]. }
  lia.
Qed.

(** A terminal that writes its sequence numbers. *)
Definition counting (w : string) (n : Z) : TerminalOutputChunk := mkChunk n (showZ n) "".
Definition running (w : string) : TerminalRuntimeState :=
  mkRuntime w "s" "/bin/sh" None None None None None None None 1 "running" "t0" None None true true None.
(** The snapshots hold the output up to [n], the other requests succeed or fail. *)
Definition countingSnapshot (w : string) (n : Z) : TerminalSnapshot :=
  mkTermSnapshot (running w) (Some (counting w <$> seqZ 1 (n - 1))) n None None.
Definition host (n : Z) : Answers := fun A r =>
  match r in TerminalRequest A return A + JsError with
  | FetchSnapshot w => inl (countingSnapshot w n)
  | ConnectStream _ _ => inl tt
  | RestartTerminal _ _ => inl tt
  | _ => inr None
  end.

Definition started : TermSystem := proceed (termProg (CMount "t")) (mkSystem emptyStore []).
Definition following : TermSystem := delivered counting 0 (resumed (host 3) 0 (resumed (host 3) 0 started)).


(** A second view of a widget that is mounted after the first one has loaded
    loads the widget again and follows it with a second stream; the first one
    stays open, and every chunk is shown twice. *)
Example second_mount_shows_twice :
  let second := resumed (host 1) 0 (resumed (host 1) 0 (proceed (termProg (CMount "t"))
    (resumed (host 1) 0 (resumed (host 1) 0 started)))) in
  shownBy "t" (sys_state (delivered counting 1 (delivered counting 0 second))) =
    Some ([counting "t" 1; counting "t" 1], 2%Z).
Proof. reflexivity. Qed.
