(* ===== verification/TerminalRecovery.v ===== *)
(** * Recovery of terminal sessions

    The reconnect timers of [use-terminal-session.ts] in every run of the
    callbacks of [TerminalFeed], with any answers and any output: they belong
    to live sessions, one for each, and fire between half a second and four
    seconds.  The callbacks that change a session end, and free it. *)
From Stdlib Require Import Ascii String.
From stdpp Require Import gmap strings.
From S2P Require Import Prelude JsString Text Effects TerminalSession TerminalFeed.
Local Open Scope string_scope.
Local Open Scope list_scope.
Local Open Scope nat_scope.
Local Open Scope js_scope.
Local Open Scope prog_scope.

(** Streams deliver any chunk, end and fail. *)
Inductive host_event (s : Store) : Store -> Prop :=
  | host_output c x chunk (Hc : st_streams s !! c = Some x) (Hopen : sr_open x = true) :
      host_event s (deliver c x chunk s)
  | host_done c error : host_event s (streamDone c error s).

Definition session_step : TermSystem -> TermSystem -> Prop :=
  sys_step (fun p => exists c, p = termProg c) (fun s A r a => True) host_event.

(** ** Timers *)

Definition timer_of (i : nat) (s : Store) : option nat := recordAt i s ≫= rc_streamReconnectTimer.
Definition retained (i : nat) (s : Store) : Prop := exists r, recordAt i s = Some r /\ 0 < rc_retainers r.

Record timers_ok (s : Store) : Prop := {
  tm_live : forall t i w d, st_timers s !! t = Some (i, w, d) ->
    activeRecord w s = Some i /\ timer_of i s = Some t /\ retained i s /\
    exists n, d = reconnectDelay (S n);
  tm_pending : forall i t, timer_of i s = Some t -> exists w d, st_timers s !! t = Some (i, w, d);
  tm_next : forall t p, st_timers s !! t = Some p -> t < st_nextTimer s;
  tm_wf : store_wf s
}.

(** * Lemmas *)

Lemma reconnectDelay_bounds n : (500 <= reconnectDelay (S n) <= 4000)%Z.
Proof. unfold reconnectDelay. lia. Qed.

Lemma recordAt_on_record i f s j :
  recordAt j (on_record i f s) = if decide (i = j) then f <$> recordAt j s else recordAt j s.
Proof.
  unfold recordAt. cbn. case_decide as E; [subst; apply list_lookup_alter_eq|by apply list_lookup_alter_ne].
Qed.

(** Updates that leave the timer of every record alone, and keep it retained. *)
Lemma timers_ok_same s s' :
  st_records s' = st_records s -> st_timers s' = st_timers s -> st_nextTimer s' = st_nextTimer s ->
  length (st_heap s') = length (st_heap s) ->
  (forall i, timer_of i s' = timer_of i s) -> (forall i, retained i s -> retained i s') ->
  timers_ok s -> timers_ok s'.
Proof.
  intros Er Et En El Hti Hre [H1 H2 H3 H4]. constructor.
  - intros t i w d. rewrite Et, Hti. unfold activeRecord. rewrite Er. intros Ht.
    destruct (H1 _ _ _ _ Ht) as (A1 & A2 & A3 & A4). auto.
  - intros i t. rewrite Hti, Et. apply H2.
  - intros t p. rewrite Et, En. apply H3.
  - unfold store_wf, activeRecord. by rewrite Er, El.
Qed.

Lemma timers_on_record i f s :
  (forall r, rc_streamReconnectTimer (f r) = rc_streamReconnectTimer r) ->
  (forall r, 0 < rc_retainers r -> 0 < rc_retainers (f r)) ->
  timers_ok s -> timers_ok (on_record i f s).
Proof.
  intros Ht Hr. apply timers_ok_same; [done..|apply length_alter| |].
  - intros j. unfold timer_of. rewrite recordAt_on_record. case_decide; [|done].
    destruct (recordAt j s); [apply Ht|done].
  - intros j (r & Hj & Hpos). unfold retained. rewrite recordAt_on_record, Hj. case_decide; cbn; eauto.
Qed.

Lemma timers_on_state i f s : timers_ok s -> timers_ok (on_state i f s).
Proof. by apply timers_on_record. Qed.

Lemma timers_streams s streams :
  timers_ok s -> timers_ok (mkStore (st_heap s) (st_records s) streams (st_timers s) (st_nextTimer s)).
Proof. by apply timers_ok_same. Qed.

(** The timer [t] of the record [i] is forgotten by both. *)
Lemma timers_forget i t s :
  timers_ok s -> timer_of i s = Some t ->
  timers_ok (mkStore (st_heap (on_record i (set_timer None) s)) (st_records s) (st_streams s)
    (delete t (st_timers s)) (st_nextTimer s)).
Proof.
  intros [H1 H2 H3 H4] Hi.
  assert (forall j, timer_of j (on_record i (set_timer None) s) = if decide (i = j) then None else timer_of j s) as Hti.
  { intros j. unfold timer_of. rewrite recordAt_on_record. case_decide; [|done]. by destruct (recordAt j s). }
  constructor.
  - intros t' j w d. cbn. intros [Hne Ht]%lookup_delete_Some. destruct (H1 _ _ _ _ Ht) as (A1 & A2 & A3 & A4).
    change (timer_of j _) with (timer_of j (on_record i (set_timer None) s)).
    change (retained j _) with (retained j (on_record i (set_timer None) s)).
    rewrite Hti, decide_False by congruence. split_and!; [done|done| |done].
    destruct A3 as (r & Hr & Hpos). unfold retained. rewrite recordAt_on_record, Hr, decide_False by congruence. eauto.
  - intros j t'. change (timer_of j _) with (timer_of j (on_record i (set_timer None) s)). rewrite Hti.
    case_decide as E; [done|]. intros Hj. destruct (H2 _ _ Hj) as (w & d & Ht). exists w, d. cbn.
    rewrite lookup_delete_ne; [done|]. intros ->. destruct (H2 _ _ Hi) as (w' & d' & Ht'). congruence.
  - intros t' p. cbn. intros [_ Ht]%lookup_delete_Some. by eapply H3.
  - unfold store_wf in *. cbn. by rewrite length_alter.
Qed.

Lemma timers_clear i s : timers_ok s -> timers_ok (clearTerminalStreamReconnectTimer i s).
Proof.
  intros Hs. unfold clearTerminalStreamReconnectTimer. destruct (mbind _ _) as [t|] eqn:E; [|done].
  exact (timers_forget i t s Hs E).
Qed.

Lemma timer_cleared i s : timer_of i (clearTerminalStreamReconnectTimer i s) = None.
Proof.
  unfold clearTerminalStreamReconnectTimer. destruct (mbind _ _) as [t|] eqn:E; [|done].
  change (timer_of i (on_record i (set_timer None) s) = None). unfold timer_of.
  rewrite recordAt_on_record, decide_True by done. by destruct (recordAt i s).
Qed.

Lemma timers_clearConnection i s : timers_ok s -> timers_ok (clearTerminalStreamConnection i s).
Proof.
  intros Hs. unfold clearTerminalStreamConnection. destruct (mbind _ _); [|done].
  by apply timers_on_record; [..|apply timers_streams].
Qed.

(** A new timer for a live record that has none. *)
Lemma timers_set i w n s :
  timers_ok s -> timer_of i s = None -> activeRecord w s = Some i -> retained i s ->
  timers_ok (let s := on_record i (set_timer (Some (st_nextTimer s))) s in
    mkStore (st_heap s) (st_records s) (st_streams s)
      (<[st_nextTimer s := (i, w, reconnectDelay (S n))]> (st_timers s)) (S (st_nextTimer s))).
Proof.
  intros [H1 H2 H3 H4] Hi Hw Hr. set (t := st_nextTimer s).
  assert (forall j, timer_of j (on_record i (set_timer (Some t)) s) = if decide (i = j) then Some t else timer_of j s)
    as Hti.
  { intros j. unfold timer_of. rewrite recordAt_on_record. case_decide as E; [subst|done].
    destruct Hr as (r & Hr & _). by rewrite Hr. }
  assert (forall j, retained j s -> retained j (on_record i (set_timer (Some t)) s)) as Hre.
  { intros j (r & Hj & Hpos). unfold retained. rewrite recordAt_on_record, Hj. case_decide; cbn; eauto. }
  constructor.
  - intros t' j w' d. change (timer_of j _) with (timer_of j (on_record i (set_timer (Some t)) s)).
    change (retained j _) with (retained j (on_record i (set_timer (Some t)) s)). rewrite Hti. cbn.
    intros [[<- [= <- <- <-]]|[Hne Ht]]%lookup_insert_Some.
    + rewrite decide_True by done. split_and!; [done|done|by apply Hre|by exists n].
    + destruct (H1 _ _ _ _ Ht) as (A1 & A2 & A3 & A4). split_and!; [done| |by apply Hre|done].
      rewrite decide_False; [done|]. intros <-. congruence.
  - intros j t'. change (timer_of j _) with (timer_of j (on_record i (set_timer (Some t)) s)). rewrite Hti. cbn.
    case_decide as E; [intros [= <-]; subst; eexists _, _; apply lookup_insert_eq|].
    intros Hj. destruct (H2 _ _ Hj) as (w' & d & Ht). exists w', d. rewrite lookup_insert_ne; [done|].
    intros <-. apply H3 in Ht. cbn in Ht. lia.
  - intros t' p. cbn. intros [[<- _]|[Hne Ht]]%lookup_insert_Some; [lia|]. apply H3 in Ht. lia.
  - unfold store_wf in *. cbn. by rewrite length_alter.
Qed.

Lemma clear_keeps i s j :
  activeRecord j (clearTerminalStreamReconnectTimer i s) = activeRecord j s.
Proof. unfold clearTerminalStreamReconnectTimer. by destruct (mbind _ _). Qed.

Lemma timers_schedule i w error s : timers_ok s -> timers_ok (scheduleTerminalStreamReconnect i w error s).
Proof.
  intros Hs. unfold scheduleTerminalStreamReconnect. destruct (recordAt i s) as [r|] eqn:Er; [|done].
  destruct (negb (isActiveTerminalSessionRecord i w s) || (rc_retainers r =? 0)) eqn:E; [done|]. bool_prop.
  unfold isActiveTerminalSessionRecord in *. bool_prop.
  assert (0 < rc_retainers r) as Hpos by (destruct (rc_retainers r); [done|lia]).
  destruct (negb _); [by apply timers_on_state|]. cbv zeta.
  apply (timers_set i w (ss_streamRetryCount (rc_state r))
    (on_state i _ (clearTerminalStreamReconnectTimer i s))).
  - by apply timers_on_state, timers_clear.
  - pose proof (timer_cleared i s) as Hc. unfold timer_of, on_state in *. rewrite recordAt_on_record, decide_True by done.
    by destruct (recordAt i (clearTerminalStreamReconnectTimer i s)).
  - change (activeRecord w (clearTerminalStreamReconnectTimer i s) = Some i). by rewrite clear_keeps.
  - unfold retained, on_state. rewrite recordAt_on_record, decide_True by done.
    unfold clearTerminalStreamReconnectTimer. rewrite Er. cbn [mbind option_bind].
    destruct (rc_streamReconnectTimer r).
    + change (recordAt i _) with (recordAt i (on_record i (set_timer None) s)).
      rewrite recordAt_on_record, decide_True, Er by done. cbn. by eexists.
    + rewrite Er. cbn. by eexists.
Qed.

Lemma timers_streamDone c error s : timers_ok s -> timers_ok (streamDone c error s).
Proof.
  intros Hs. unfold streamDone. destruct (st_streams s !! c); [|done]. destruct (negb _); [done|].
  pose proof (timers_streams s (alter (fun x => mkStream (sr_widget x) (sr_from x) false (sr_sent x)) c (st_streams s)) Hs).
  destruct (activeRecord _ _); [by apply timers_schedule|done].
Qed.

Lemma timers_reloadFailed i w p error s : timers_ok s -> timers_ok (reloadFailed i w p error s).
Proof.
  intros Hs. unfold reloadFailed. destruct (negb _); [done|].
  destruct (_ && _); [by apply timers_schedule|by apply timers_on_state].
Qed.

Lemma timers_create w s :
  activeRecord w s = None -> timers_ok s ->
  timers_ok (mkStore (st_heap s ++ [createTerminalSessionRecord]) (<[w := length (st_heap s)]> (st_records s))
    (st_streams s) (st_timers s) (st_nextTimer s)).
Proof.
  intros Hw [H1 H2 H3 H4]. constructor.
  - intros t i w' d Ht. destruct (H1 _ _ _ _ Ht) as (A1 & A2 & (r & A3 & Hpos) & A4).
    unfold timer_of, retained, recordAt, activeRecord in *. cbn.
    assert (st_heap s !! i = Some r -> (st_heap s ++ [createTerminalSessionRecord]) !! i = Some r) as Hl
      by apply lookup_app_l_Some.
    rewrite lookup_insert_ne by congruence. rewrite (Hl A3). rewrite A3 in A2.
    split_and!; [done|done|by exists r|done].
  - intros i t. unfold timer_of, recordAt. cbn. intros Hi.
    destruct ((st_heap s ++ [createTerminalSessionRecord]) !! i) as [r|] eqn:E; [|done].
    apply lookup_app_Some in E as [E|[_ E]]; [|by apply list_lookup_singleton_Some in E as [_ <-]].
    apply H2. unfold timer_of, recordAt. by rewrite E.
  - exact H3.
  - by apply (qu_wf _ _ (quiet_create w s Hw)).
Qed.

(** A record without a timer can go. *)
Lemma timers_drop w i s :
  timers_ok s -> activeRecord w s = Some i -> timer_of i s = None ->
  timers_ok (mkStore (st_heap s) (delete w (st_records s)) (st_streams s) (st_timers s) (st_nextTimer s)).
Proof.
  intros [H1 H2 H3 H4] Hw Hi. constructor; [|exact H2|exact H3|by apply (drop_wf w s)].
  intros t j w' d Ht. destruct (H1 _ _ _ _ Ht) as (A1 & A2 & A3 & A4). split_and!; [|done..].
  unfold activeRecord. cbn. rewrite lookup_delete_ne; [done|]. intros <-. congruence.
Qed.

Lemma timer_clearConnection i j s : timer_of j (clearTerminalStreamConnection i s) = timer_of j s.
Proof.
  unfold clearTerminalStreamConnection. destruct (mbind _ _) as [c|]; [|done].
  unfold timer_of. rewrite recordAt_on_record. case_decide; [|done]. change (recordAt j (closeStream c s)) with (recordAt j s).
  by destruct (recordAt j s).
Qed.

Lemma active_clearConnection i w s : activeRecord w (clearTerminalStreamConnection i s) = activeRecord w s.
Proof. unfold clearTerminalStreamConnection. by destruct (mbind _ _). Qed.

Lemma timer_on_record i f s j :
  (forall r, rc_streamReconnectTimer (f r) = rc_streamReconnectTimer r) -> timer_of j (on_record i f s) = timer_of j s.
Proof.
  intros Hf. unfold timer_of. rewrite recordAt_on_record. case_decide; [|done].
  destruct (recordAt j s); [apply Hf|done].
Qed.

(** A record without a timer can be retained or not. *)
Lemma timers_on_idle i f s :
  (forall r, rc_streamReconnectTimer (f r) = rc_streamReconnectTimer r) ->
  timer_of i s = None -> timers_ok s -> timers_ok (on_record i f s).
Proof.
  intros Hf Hi [H1 H2 H3 H4]. constructor.
  - intros t j w d Ht. destruct (H1 _ _ _ _ Ht) as (A1 & A2 & (r & Hr & Hpos) & A4).
    split_and!; [done|by rewrite timer_on_record| |done].
    exists r. rewrite recordAt_on_record, decide_False by congruence. done.
  - intros j t. rewrite timer_on_record by done. apply H2.
  - exact H3.
  - unfold store_wf in *. cbn. by rewrite length_alter.
Qed.

Lemma clear_on_record i f s :
  (forall r, rc_streamReconnectTimer (f r) = rc_streamReconnectTimer r) ->
  (forall r, set_timer None (f r) = f (set_timer None r)) ->
  clearTerminalStreamReconnectTimer i (on_record i f s) = on_record i f (clearTerminalStreamReconnectTimer i s).
Proof.
  intros Hf Hc. unfold clearTerminalStreamReconnectTimer.
  change (mbind _ (recordAt i (on_record i f s))) with (timer_of i (on_record i f s)).
  change (mbind _ (recordAt i s)) with (timer_of i s).
  rewrite timer_on_record by done. destruct (timer_of i s) as [t|]; [|done].
  unfold on_record. cbn. f_equal. rewrite !list_alter_alter_eq. apply list_alter_ext; [|done].
  intros r _. cbn. apply Hc.
Qed.

(** Releasing keeps the timer of a record that others retain, and clears it
    before the last one goes. *)
Lemma timers_release w s : timers_ok s -> timers_ok (releaseTerminalSession w s).
Proof.
  intros Hs. unfold releaseTerminalSession. destruct (activeRecord w s) as [i|] eqn:Ei; [|done].
  set (f := fun r => set_retainers (rc_retainers r - 1) r). cbv zeta.
  destruct (0 <? (rc_retainers <$> recordAt i (on_record i f s)) ?? 0) eqn:Epos.
  - revert Hs. apply timers_ok_same; [done..|apply length_alter|by intros j; apply timer_on_record|].
    rewrite recordAt_on_record, decide_True in Epos by done.
    intros j (r & Hj & Hpos). unfold retained. rewrite recordAt_on_record, Hj.
    case_decide as E; [subst|by exists r]. rewrite Hj in Epos. apply Nat.ltb_lt in Epos. by exists (f r).
  - rewrite clear_on_record by done. set (s1 := clearTerminalStreamReconnectTimer i s).
    assert (timer_of i s1 = None) as Hi by apply timer_cleared.
    apply (timers_drop w i (clearTerminalStreamConnection i (on_record i f s1))).
    + apply timers_clearConnection, timers_on_idle; [done..|by apply timers_clear].
    + rewrite active_clearConnection. change (activeRecord w s1 = Some i). unfold s1. by rewrite clear_keeps.
    + by rewrite timer_clearConnection, timer_on_record.
Qed.

(** ** Every call keeps the timers *)

Notation any := (fun (A : Set) (r : TerminalRequest A) => True).

Lemma timers_update f : (forall s, timers_ok s -> timers_ok (f s)) -> stable (X := JsError) (keeps timers_ok) any (update f).
Proof. intros Hf. apply stable_update. exact Hf. Qed.

Lemma timers_when (b : Store -> bool) f s :
  timers_ok s -> (timers_ok s -> timers_ok (f s)) -> timers_ok (if b s then f s else s).
Proof. destruct (b s); auto. Qed.

Lemma timers_open i w n s : timers_ok s -> timers_ok (openStream i w n s).
Proof.
  intros Hs. unfold openStream. cbv zeta.
  exact (timers_streams _ _ (timers_on_record i (set_streamClose (Some (length (st_streams s)))) s
    (fun _ => eq_refl) (fun _ H => H) Hs)).
Qed.

Lemma timers_on_active w f s : timers_ok s -> timers_ok (onActiveRecord w f s).
Proof. intros Hs. unfold onActiveRecord. destruct (activeRecord w s); [by apply timers_on_state|done]. Qed.

#[local] Hint Resolve timers_on_state timers_clear timers_clearConnection timers_schedule timers_reloadFailed
  timers_release timers_open timers_on_active : commander.

Lemma timers_get_record w : stable (X := JsError) (keeps timers_ok) any (getTerminalSessionRecord w).
Proof.
  intros s0 s Hs. unfold getTerminalSessionRecord. apply wp_bind. cbn [wp get].
  destruct (activeRecord w s) as [i|] eqn:E; cbn [wp bind update]; [done|].
  intros H0. by apply timers_create, Hs.
Qed.

Ltac timer_step :=
  lazymatch goal with
  | |- stable _ _ (bind (getTerminalSessionRecord _) _) => apply stable_bind; [apply timers_get_record|intros ?]
  | |- stable _ _ (bind _ _) => apply stable_bind; [|intros ?]
  | |- stable _ _ (tryCatch _ _) => apply stable_try; [|intros ?]
  | |- stable _ _ (finally _ _) => apply stable_finally
  | |- stable _ _ (Ret _) => apply stable_ret
  | |- stable _ _ get => apply stable_get
  | |- stable _ _ (await _) => apply stable_await; exact I
  | |- stable _ _ (getTerminalSessionRecord _) => apply timers_get_record
  | |- stable _ _ (update _) =>
      apply timers_update; intros ? ?; cbv beta;
      first [ by auto with commander
            | apply timers_on_record; [done|cbn; lia|assumption]
            | repeat case_match; by auto with commander ]
  | |- stable _ _ (whenActive _ _ _) => unfold whenActive
  | |- stable _ _ (changeSession _ _ _ _ _ _ _) => unfold changeSession
  | |- stable _ _ (reloadTerminalSessionRecord _ _ _ _) => unfold reloadTerminalSessionRecord
  | |- stable _ _ (attachTerminalStream _ _ _) => unfold attachTerminalStream
  | |- stable _ _ (ensureTerminalSession _ _) => unfold ensureTerminalSession
  | |- stable _ _ (restartSession _) => unfold restartSession
  | |- stable _ _ (let _ := _ in _) => cbv zeta
  | |- stable _ _ (if ?b then _ else _) => destruct b
  | |- stable _ _ (match ?x with _ => _ end) => destruct x
  end.

Lemma timers_fired t : stable (X := JsError) (keeps timers_ok) any (timerFired t).
Proof.
  intros s0 s Hs. unfold timerFired. apply wp_bind. cbn [wp get].
  destruct (st_timers s !! t) as [[[i w] d]|] eqn:Et; [|exact Hs].
  apply wp_bind. cbn [wp update].
  assert (stable (X := JsError) (keeps timers_ok) any
    (match recordAt i s with
     | None => Ret tt
     | Some r =>
         if negb (isActiveTerminalSessionRecord i w s) || (rc_retainers r =? 0) then Ret tt
         else reloadTerminalSessionRecord i w true true
     end)) as Hrest by repeat timer_step.
  apply Hrest. intros H0. pose proof (Hs H0) as Hok.
  destruct (tm_live _ Hok _ _ _ _ Et) as (_ & Hi & _). exact (timers_forget i t s Hok Hi).
Qed.

Lemma timers_term c : stable (X := JsError) (keeps timers_ok) any (termProg c).
Proof.
  destruct c; cbn [termProg];
    unfold mountSession, sendInputChunk, loadShellOptions, switchShell, recoverSession, interruptSession,
      createSession, focusSession, closeSession; try (repeat timer_step; fail).
  apply timers_fired.
Qed.

Lemma timers_deliver c x chunk s : timers_ok s -> timers_ok (deliver c x chunk s).
Proof.
  intros Hs. unfold deliver, onOutput. cbv zeta. set (s1 := mkStore _ _ _ _ _).
  assert (timers_ok s1) as H1 by by apply timers_streams.
  destruct (activeRecord _ _) as [i|]; [|done]. unfold appendTerminalChunk. by apply timers_on_state, timers_on_state.
Qed.

Lemma session_timers_ok m : rtc session_step (mkSystem emptyStore []) m -> timers_ok (sys_state m).
Proof.
  apply system_invariant.
  - intros p [c ->]. apply timers_term.
  - intros s s' [c x chunk Hc Ho|c error]; [by apply timers_deliver|by apply timers_streamDone].
  - constructor; cbn.
    + intros t i w d. by rewrite lookup_empty.
    + intros i t. unfold timer_of, recordAt. cbn. done.
    + intros t p. by rewrite lookup_empty.
    + split; intros w; intros; by unfold activeRecord in *; simplify_map_eq.
Qed.

(** Reconnects are bounded and belong to live sessions.  In every run of the
    callbacks, with any answers, errors and output, a pending reconnect timer
    waits between 500 and 4000 milliseconds, is the only one of its widget, and
    belongs to the widget's present session, which is mounted: releasing the
    last view of a widget clears its timer. *)
Theorem reconnect_timers_bounded m t i w d
    (Hrun : rtc session_step (mkSystem emptyStore []) m) (Ht : st_timers (sys_state m) !! t = Some (i, w, d)) :
  (500 <= d <= 4000)%Z /\ activeRecord w (sys_state m) = Some i /\
  (exists r, recordAt i (sys_state m) = Some r /\ 0 < rc_retainers r) /\
  forall t' i' d', st_timers (sys_state m) !! t' = Some (i', w, d') -> t' = t.
Proof.
  apply session_timers_ok in Hrun as [H1 H2 H3 H4]. destruct (H1 _ _ _ _ Ht) as (A1 & A2 & A3 & n & ->).
  split; [apply reconnectDelay_bounds|]. split; [done|]. split; [done|].
  intros t' i' d' Ht'. destruct (H1 _ _ _ _ Ht') as (B1 & B2 & _). congruence.
Qed.

(** ** The callbacks end and free the session *)

Definition widgetOf (c : TermCall) : option string :=
  match c with
  | CRender w | CMount w | CUnmount w | CSendInput w _ | CRestart w | CLoadShells w | CSwitchShell w _
  | CRecover w | CInterrupt w | CCreate w | CFocus w _ | CClose w _ => Some w
  | CTimer _ => None
  end.

(** The flags that the call sets at its start, released. *)
Definition frees (c : TermCall) (x : TerminalSessionRecordState) : Prop :=
  match c with
  | CRestart _ => ss_isRestarting x = false /\ ss_isInterrupting x = false
  | CSwitchShell _ _ =>
      ss_isRestarting x = false /\ ss_isInterrupting x = false /\ ss_isSwitchingShell x = false
  | CCreate _ => ss_isCreatingSession x = false
  | CInterrupt _ => ss_isInterrupting x = false /\ ss_isCreatingSession x = false
  | CLoadShells _ => ss_isLoadingShells x = false
  | _ => True
  end.

Lemma stateOf_on_record i f s :
  (forall r, rc_state (f r) = rc_state r) -> stateOf i (on_record i f s) = stateOf i s.
Proof.
  intros Hf. unfold stateOf. rewrite recordAt_on_record, decide_True by done.
  destruct (recordAt i s); cbn; [by rewrite Hf|done].
Qed.

(** The calls that load the session again, and show that they do. *)
Definition shows_loading (c : TermCall) : bool :=
  match c with
  | CMount _ | CRestart _ | CSwitchShell _ _ | CCreate _ | CFocus _ _ | CClose _ _ => true
  | _ => false
  end.

(** The answers that end the loading: that of the snapshot, and the failure of
    the request that precedes it in [focusSession] and [closeSession]. *)
Definition ends_loading (A : Set) (r : TerminalRequest A) (a : A + JsError) (s : Store) : bool :=
  match r with
  | FetchSnapshot _ => true
  | SetActiveTerminalSession _ _ | CloseTerminalSession _ _ => match a with inl _ => false | inr _ => true end
  | _ => false
  end.

(** Every stretch of [p] that starts with such an answer leaves [K]. *)
Definition after_loading {R} (p : Term R) (s : Store) (K : Store -> Prop) : Prop :=
  wp ends_loading (fun answered b _ _ => answered = true -> K b) p false s (fun _ answered b => answered = true -> K b).

Definition not_loading (w : string) (i : nat) (b : Store) : Prop :=
  activeRecord w b = Some i -> ss_isLoading (stateOf i b) = false.

Lemma stateOf_on_state (K : TerminalSessionRecordState -> Prop) i f s :
  K initialSessionState -> (forall x, K (f x)) -> K (stateOf i (on_state i f s)).
Proof.
  intros H0 Hf. unfold stateOf, on_state. rewrite recordAt_on_record, decide_True by done.
  destruct (recordAt i s); [apply Hf|exact H0].
Qed.

Section Freed.
Variable K : TerminalSessionRecordState -> Prop.
Hypothesis K_initial : K initialSessionState.
Variable w : string.
Variable i : nat.
Notation freed b := (activeRecord w b = Some i -> K (stateOf i b)).

Lemma whenActive_frees {O} org (o : O) f s Q :
  (forall x, K (f x)) -> (forall b : Store, freed b -> Q (inl tt) o b) ->
  wp org (fun _ _ _ _ => True) (whenActive i w f) o s Q.
Proof.
  intros Hf HQ. cbn. apply HQ. unfold isActiveTerminalSessionRecord. destruct (decide (activeRecord w s = Some i)) as [E|E].
  - rewrite bool_decide_eq_true_2 by done. intros _. by apply stateOf_on_state.
  - rewrite bool_decide_eq_false_2 by done. done.
Qed.

Lemma change_frees {O} org (o : O) begin request finish abandon fallback s :
  (forall x, K (finish x)) -> (forall m x, K (set_error m (abandon x))) ->
  wp org (fun _ _ _ _ => True) (changeSession i begin request w finish abandon fallback) o s
    (fun _ _ b => freed b).
Proof.
  intros Hf Ha. unfold changeSession. apply wp_bind. cbn [wp update]. apply wp_try, wp_bind.
  eapply wp_weaken; [|apply wp_any]. intros [[]|e] o1 s1 _; [|by apply whenActive_frees; [intros x; apply Ha|]].
  apply wp_bind. eapply wp_weaken; [|apply wp_any].
  intros [[]|e] o2 s2 _; [by apply whenActive_frees|by apply whenActive_frees; [intros x; apply Ha|]].
Qed.

End Freed.

Lemma within_reload i w p q : within 2 (reloadTerminalSessionRecord i w p q).
Proof.
  unfold reloadTerminalSessionRecord, attachTerminalStream. do 2 within_step.
  apply (within_bind 0); [by destruct q|intros _]. apply (within_try 2 0); [|intros e; exact I].
  within_step. within_step. destruct (negb _); [exact I|]. within_step.
  apply (within_bind 1 0); [within_tac|intros _; exact I].
Qed.

Lemma within_change i begin request w finish abandon fallback :
  within 3 (changeSession i begin request w finish abandon fallback).
Proof.
  unfold changeSession. within_step. apply (within_try 3 0); [|intros e; exact I].
  within_step. apply (within_bind 2 0); [apply within_reload|intros _; exact I].
Qed.

Lemma within_record w : within 0 (getTerminalSessionRecord w).
Proof. intros s. cbn. by destruct (activeRecord w s). Qed.

Lemma within_ensure i w : within 2 (ensureTerminalSession i w).
Proof.
  unfold ensureTerminalSession, attachTerminalStream. within_step. destruct (_ ?? _); [exact I|].
  do 2 within_step. apply (within_finally 2 0); [|exact I]. apply (within_try 2 0); [|intros e; exact I]. within_tac.
Qed.

Lemma within_restart w : within 3 (restartSession w).
Proof.
  unfold restartSession. apply (within_bind 0); [apply within_record|intros i]. within_step. cbv zeta.
  destruct (_ || _); [exact I|apply within_change].
Qed.

Lemma within_timer t : within 2 (timerFired t).
Proof.
  unfold timerFired. within_step. destruct (st_timers _ !! t) as [[[i w] d]|]; [|exact I]. within_step.
  destruct (recordAt i _); [|exact I]. destruct (_ || _); [exact I|apply within_reload].
Qed.

(** The record, the state and the guard of a callback. *)
Ltac within_guard :=
  apply (within_bind 0); [apply within_record|intros ?]; within_step; cbv zeta; destruct (_ || _); [exact I|].

Lemma within_term c : within 3 (termProg c).
Proof.
  destruct c; cbn [termProg];
    unfold sendInputChunk, loadShellOptions, switchShell, recoverSession, interruptSession,
      createSession, focusSession, closeSession, mountSession.
  - apply (within_bind 0 3); [apply within_record|intros i; exact I].
  - apply (within_bind 0 3); [apply within_record|intros i]. within_step.
    apply (within_le 2); [lia|apply within_ensure].
  - exact I.
  - destruct (negb _); [exact I|]. apply (within_try 3 0); [within_tac|].
    intros e. apply (within_bind 0 0); [apply within_record|intros i; exact I].
  - apply within_restart.
  - within_guard.
    within_step. apply (within_try 3 0); [within_tac; exact I|intros e; exact I].
  - within_guard.
    apply within_change.
  - within_guard.
    destruct (_ || _); [apply within_restart|]. within_step. apply (within_le 2); [lia|apply within_reload].
  - within_guard.
    within_step. apply (within_try 3 0); [within_tac|intros e; exact I].
  - within_guard.
    apply within_change.
  - within_guard.
    apply within_change.
  - within_guard.
    apply within_change.
  - apply (within_le 2); [lia|apply within_timer].
Qed.

(** The record of a mounted widget is there. *)
Lemma wp_record {O} org T (o : O) w i s Q :
  activeRecord w s = Some i -> Q (inl i) o s -> wp org T (getTerminalSessionRecord w) o s Q.
Proof. intros Hi HQ. unfold getTerminalSessionRecord. apply wp_bind. cbn [wp get]. by rewrite Hi. Qed.

(** A call that is done before it sends anything owes nothing. *)
Lemma wp_not_sent {R} (p : Term R) s (Q : Store -> Prop) :
  wp (fun _ _ _ _ => true) (fun _ _ _ _ => True) p false s (fun _ _ b => Q b) -> served_with p s Q.
Proof. apply wp_weaken. auto. Qed.

Ltac served_guard i :=
  apply wp_bind, (wp_record _ _ _ _ i); [done|]; apply wp_bind; cbn [wp get]; cbv zeta; destruct (_ || _); [by cbn|].

(** ** The loading is taken back *)

Section Loading.
Variable w : string.
Variable i : nat.
Notation Owed := (fun (answered : bool) (b : Store) (_ : Set) (_ : _) => answered = true -> not_loading w i b).

Lemma not_loading_state f s :
  (forall x, ss_isLoading x = false -> ss_isLoading (f x) = false) -> not_loading w i s ->
  not_loading w i (on_state i f s).
Proof.
  unfold not_loading. intros Hf Hs Ha. specialize (Hs Ha). revert Hs. unfold stateOf, on_state.
  rewrite recordAt_on_record, decide_True by done. destruct (recordAt i s); [apply Hf|done].
Qed.

Lemma not_loading_set f s : (forall x, ss_isLoading (f x) = false) -> not_loading w i (on_state i f s).
Proof. intros Hf _. by apply (stateOf_on_state (fun x => ss_isLoading x = false)). Qed.

Lemma not_active s : isActiveTerminalSessionRecord i w s = false -> not_loading w i s.
Proof. unfold isActiveTerminalSessionRecord. intros H Ha. by bool_prop. Qed.

Lemma reload_unloads s :
  wp ends_loading Owed (reloadTerminalSessionRecord i w false false) false s
    (fun r answered b => exists x, r = inl x /\ (answered = true -> not_loading w i b)).
Proof.
  unfold reloadTerminalSessionRecord. cbn [bind update wp]. apply wp_try, wp_bind, wp_await; [done|..].
  - intros sn s1. apply wp_bind. cbn [wp get]. destruct (isActiveTerminalSessionRecord i w s1) eqn:E; cbn [negb].
    2: { cbn. exists tt. split; [done|]. intros _. by apply not_active. }
    cbn [bind update wp]. unfold attachTerminalStream. apply wp_bind, wp_bind, wp_await.
    + intros _. by apply not_loading_set.
    + intros [] s2. cbn. by exists tt.
    + intros e s2. cbn. by exists tt.
  - intros e s1. cbn [wp update]. exists tt. split; [done|]. intros _. unfold reloadFailed.
    destruct (isActiveTerminalSessionRecord i w s1) eqn:E; cbn [negb andb]; [by apply not_loading_set|by apply not_active].
Qed.

Lemma change_unloads begin request finish abandon fallback s :
  (forall x, ss_isLoading (finish x) = ss_isLoading x) ->
  (forall x, ss_isLoading x = false -> ss_isLoading (abandon x) = false) ->
  (forall e, ends_loading unit request (inr e) s = true -> forall x, ss_isLoading (abandon x) = false) ->
  (forall a, ends_loading unit request (inl a) s = false) ->
  wp ends_loading Owed (changeSession i begin request w finish abandon fallback) false s
    (fun _ answered b => answered = true -> not_loading w i b).
Proof.
  intros Hf Ha Hfail Hok. unfold changeSession. apply wp_bind. cbn [wp update]. apply wp_try, wp_bind, wp_await; [done|..].
  - intros [] s1. assert (ends_loading unit request (inl tt) s1 = false) as -> by exact (Hok tt).
    apply wp_bind. eapply wp_weaken; [|apply reload_unloads].
    intros r answered b (x & -> & Hb). cbn. intros Hans. destruct (isActiveTerminalSessionRecord i w b); [|by apply Hb].
    apply not_loading_state; [intros y; by rewrite Hf|by apply Hb].
  - intros e s1. cbn. intros Hans. destruct (isActiveTerminalSessionRecord i w s1) eqn:E; [|by apply not_active].
    apply not_loading_set. intros x. by apply (Hfail e).
Qed.

Lemma ensure_unloads s :
  wp ends_loading Owed (ensureTerminalSession i w) false s (fun _ answered b => answered = true -> not_loading w i b).
Proof.
  unfold ensureTerminalSession. cbn [bind get wp]. destruct (_ ?? _); [done|]. cbn [bind update wp].
  assert (forall b, not_loading w i b -> not_loading w i (on_record i (set_loadPromise false) b)) as Hend.
  { intros b Hb Ha. rewrite stateOf_on_record by done. by apply Hb. }
  apply wp_finally, wp_try, wp_bind, wp_await; [done|..].
  - intros sn s1. cbn [wp]. destruct (isActiveTerminalSessionRecord i w s1) eqn:E; cbn [negb].
    2: { cbn. intros _. by apply Hend, not_active. }
    cbn [bind update wp]. unfold attachTerminalStream. apply wp_bind, wp_await; [|done..].
    intros _. by apply not_loading_set.
  - intros e s1. cbn. intros _. apply Hend.
    destruct (isActiveTerminalSessionRecord i w s1) eqn:E; cbn [negb]; [by apply not_loading_set|by apply not_active].
Qed.

End Loading.

Lemma call_frees c w i s :
  widgetOf c = Some w -> activeRecord w s = Some i ->
  served_with (termProg c) s (fun b => activeRecord w b = Some i -> frees c (stateOf i b)).
Proof.
  intros Hc Hi. destruct c; cbn in Hc; simplify_eq;
    try (apply wp_not_sent; eapply wp_weaken; [|apply wp_any]; done); cbn [termProg].
  - unfold served_with, restartSession. served_guard i.
    eapply wp_weaken; [|apply (change_frees (frees (CRestart w)))]; [auto|done..].
  - unfold served_with, loadShellOptions. served_guard i. cbn [bind update wp]. apply wp_try, wp_bind.
    eapply wp_weaken; [|apply wp_any].
    intros [x|e] o s1 _; apply (whenActive_frees (frees (CLoadShells w))); try done; auto.
  - unfold served_with, switchShell. served_guard i.
    eapply wp_weaken; [|apply (change_frees (frees (CSwitchShell w shellPath)))]; [auto|done..].
  - unfold served_with, interruptSession. served_guard i. cbn [bind update wp]. apply wp_try, wp_bind.
    eapply wp_weaken; [|apply wp_any]. intros [x|e] o s1 _; cbn [wp update]; intros _; unfold onActiveRecord.
    + intros Hb. destruct (activeRecord w s1) as [j|] eqn:Ej; [|congruence].
      change (activeRecord w s1 = Some i) in Hb. simplify_eq. by apply stateOf_on_state.
    + intros Hb. destruct (activeRecord w s1) as [j|] eqn:Ej; [|congruence].
      change (activeRecord w s1 = Some i) in Hb. simplify_eq. by apply stateOf_on_state.
  - unfold served_with, createSession. served_guard i.
    eapply wp_weaken; [|apply (change_frees (frees (CCreate w)))]; [auto|done..].
Qed.

Ltac loading_guard i :=
  apply wp_bind, (wp_record _ _ _ _ i); [done|]; apply wp_bind; cbn [wp get]; cbv zeta; destruct (_ || _); [done|].

Lemma call_unloads c w i s :
  widgetOf c = Some w -> activeRecord w s = Some i -> shows_loading c = true ->
  after_loading (termProg c) s (not_loading w i).
Proof.
  intros Hc Hi Hs. destruct c; cbn in Hc; simplify_eq; try discriminate Hs; unfold after_loading; cbn [termProg].
  - unfold mountSession. apply wp_bind, (wp_record _ _ _ _ i); [done|]. apply wp_bind. cbn [wp update]. apply ensure_unloads.
  - unfold restartSession. loading_guard i. by apply change_unloads.
  - unfold switchShell. loading_guard i. by apply change_unloads.
  - unfold createSession. loading_guard i. by apply change_unloads.
  - unfold focusSession. loading_guard i. by apply change_unloads.
  - unfold closeSession. loading_guard i. by apply change_unloads.
Qed.


(** ** A recovery that is never taken back *)

Lemma stateOf_clearTimer i s : stateOf i (clearTerminalStreamReconnectTimer i s) = stateOf i s.
Proof.
  unfold clearTerminalStreamReconnectTimer. destruct (mbind _ _); [|done].
  change (stateOf i (on_record i (set_timer None) s) = stateOf i s). by apply stateOf_on_record.
Qed.

Lemma stateOf_clearConnection i s : stateOf i (clearTerminalStreamConnection i s) = stateOf i s.
Proof.
  unfold clearTerminalStreamConnection. destruct (mbind _ _) as [c|]; [|done]. by rewrite stateOf_on_record.
Qed.

Lemma stateOf_on_state_eq i f s : is_Some (recordAt i s) -> stateOf i (on_state i f s) = f (stateOf i s).
Proof.
  intros [r Hr]. unfold stateOf, on_state. by rewrite recordAt_on_record, decide_True, Hr by done.
Qed.

Lemma record_kept i f s : is_Some (recordAt i s) -> is_Some (recordAt i (on_record i f s)).
Proof. intros [r Hr]. rewrite recordAt_on_record, decide_True, Hr by done. by eexists. Qed.

Lemma record_clearTimer i s : is_Some (recordAt i s) -> is_Some (recordAt i (clearTerminalStreamReconnectTimer i s)).
Proof. unfold clearTerminalStreamReconnectTimer. destruct (mbind _ _); [apply record_kept|done]. Qed.

Lemma record_clearConnection i s : is_Some (recordAt i s) -> is_Some (recordAt i (clearTerminalStreamConnection i s)).
Proof.
  unfold clearTerminalStreamConnection. destruct (mbind _ _); [|done]. intros Hs. apply record_kept, Hs.
Qed.

(** A recovery of a session that has no snapshot yet, and whose load fails:
    the session keeps saying that it reconnects, without the error and without
    a timer or call that would reconnect. *)
Theorem failed_recovery_sticks w i s seed error
    (Hi : activeRecord w s = Some i) (Hr : is_Some (recordAt i s)) (Hno : ss_snapshot (stateOf i s) = None)
    (Hidle : ss_isCreatingSession (stateOf i s) || ss_isInterrupting (stateOf i s) ||
             ss_isLoading (stateOf i s) || ss_isRestarting (stateOf i s) = false) :
  exists s1 k s2, run (recoverSession w) s = (s1, Waiting (FetchSnapshot w) k) /\
    run (k (inr error)) s1 = (s2, Ended (inl tt)) /\
    ss_isRecoveringStream (stateOf i s2) = true /\ ss_error (stateOf i s2) <> None /\ timer_of i s2 = None /\
    vw_statusDetail (buildTerminalSessionView seed (stateOf i s2)) = Some "Reconnecting live terminal stream…".
Proof.
  unfold recoverSession, getTerminalSessionRecord. cbn [bind get run]. rewrite Hi. cbn [bind run].
  rewrite Hidle, Hno. cbn [fmap option_fmap option_map]. rewrite !bool_decide_eq_false_2 by done.
  cbn [orb bind update run reloadTerminalSessionRecord tryCatch await].
  set (s0 := on_state i _ s). set (s1 := clearTerminalStreamConnection i (clearTerminalStreamReconnectTimer i s0)).
  assert (stateOf i s1 = set_error None (set_recovery true 0 (stateOf i s))) as Est.
  { unfold s1. rewrite stateOf_clearConnection, stateOf_clearTimer. by apply stateOf_on_state_eq. }
  assert (is_Some (recordAt i s1)) as Hr1 by by apply record_clearConnection, record_clearTimer, record_kept.
  assert (timer_of i s1 = None) as Ht by (unfold s1; by rewrite timer_clearConnection, timer_cleared).
  assert (activeRecord w s1 = Some i) as Hi1.
  { unfold s1. rewrite active_clearConnection, clear_keeps. exact Hi. }
  do 3 eexists. split_and!; [reflexivity|cbn [bind tryCatch run update]; reflexivity|..].
  all: unfold reloadFailed, isActiveTerminalSessionRecord; rewrite bool_decide_eq_true_2 by done;
    rewrite Est; cbn [ss_snapshot set_error set_recovery]; rewrite Hno; cbn [negb andb shouldAutoRecoverStream].
  all: rewrite ?stateOf_on_state_eq, ?Est by done; try done.
  unfold on_state. by rewrite timer_on_record.
Qed.

(** * Witnesses *)

Definition reconnecting : TermSystem :=
  let m := resumed (host 3) 0 (resumed (host 3) 0 started) in
  mkSystem (streamDone 0 None (sys_state m)) (sys_calls m).

Lemma resumed_any f i m :
  i < length (sys_calls m) -> (forall o, o ∈ sys_calls m -> match o with Ended _ => False | _ => True end) ->
  session_step m (resumed f i m).
Proof.
  intros Hi Hw. apply lookup_lt_is_Some in Hi as [o Ho]. unfold resumed. rewrite Ho.
  pose proof (Hw o (list_elem_of_lookup_2 _ _ _ Ho)) as Hwo. destruct o as [r|A r k]; [done|].
  by eapply sys_answer.
Qed.

Lemma reconnect_timers_bounded_witness :
  st_timers (sys_state reconnecting) !! 0 = Some (0, "t", 500%Z) /\
  activeRecord "t" (sys_state reconnecting) = Some 0.
Proof.
  split; [reflexivity|].
  apply (reconnect_timers_bounded reconnecting 0 0 "t" 500%Z); [|reflexivity].
  eapply rtc_l; [apply sys_start; by exists (CMount "t")|].
  eapply rtc_l; [apply (resumed_any (host 3) 0); [vm_compute; lia|]|].
  { intros o Ho. vm_compute in Ho. by apply list_elem_of_singleton in Ho as ->. }
  eapply rtc_l; [apply (resumed_any (host 3) 0); [vm_compute; lia|]|].
  { intros o Ho. vm_compute in Ho. by apply list_elem_of_singleton in Ho as ->. }
  apply rtc_once, sys_event, host_done.
Defined.


(** The first load of the session failed. *)
Definition unloaded : TermSystem := resumed (fun A r => inr (Some "no backend")) 0 started.

Lemma failed_recovery_sticks_witness :
  exists s1 k s2, run (recoverSession "t") (sys_state unloaded) = (s1, Waiting (FetchSnapshot "t") k) /\
    run (k (inr None)) s1 = (s2, Ended (inl tt)) /\ ss_isRecoveringStream (stateOf 0 s2) = true.
Proof.
  destruct (failed_recovery_sticks "t" 0 (sys_state unloaded) (mkSeed "t" "Shell") None)
    as (s1 & k & s2 & H1 & H2 & H3 & _); [reflexivity|vm_compute; eauto|reflexivity|reflexivity|].
  exists s1, k, s2. split; [exact H1|]. split; [exact H2|exact H3].
Defined.
