(* ===== verification/TerminalSurface.v ===== *)
(** * The surface of a terminal

    The effect of [frontend/src/shared/ui/components/terminal-surface.tsx] that
    writes the chunks of a session to the terminal emulator, and the clearing of
    its viewport.  Of a session whose chunks are numbered in order, any windows
    of consecutive chunks that leave no gap are written in order, each chunk
    once ([TerminalFeed.slice]).  Then the emulator's life, its keys, and what it
    lets through to the session. *)
From Stdlib Require Import Ascii String.
From stdpp Require Import gmap strings.
From S2P Require Import Prelude JsString Text Effects TerminalSession TerminalFeed.
Local Open Scope string_scope.
Local Open Scope list_scope.
Local Open Scope js_scope.

(** What the emulator is told: [clear], [write] and [writeln]. *)
Inductive Write := Clear | WriteData (data : string) | WriteLine (line : string).

Record Surface := mkSurface {
  su_lastSessionKey : option string;
  su_lastWrittenChunkSeq : Z;
  su_lastRenderedStatusMessage : option string;
  su_terminal : list Write
}.

(** The loop over [nextChunks]. *)
Definition writeChunk (s : Surface) (chunk : TerminalOutputChunk) : Surface :=
  mkSurface (su_lastSessionKey s) (Z.max (su_lastWrittenChunkSeq s) (ck_seq chunk))
    (su_lastRenderedStatusMessage s) (su_terminal s ++ [WriteData (ck_data chunk)]).

Definition writeOutput (outputChunks : list TerminalOutputChunk) (sessionKey : string)
    (statusMessage : option string) (s : Surface) : Surface :=
  let shouldResetTerminal := negb (bool_decide (su_lastSessionKey s = Some sessionKey)) in
  let s :=
    if shouldResetTerminal then mkSurface (Some sessionKey) 0 None (su_terminal s ++ [Clear]) else s in
  let nextChunks :=
    if shouldResetTerminal then outputChunks
    else filterb (fun chunk => su_lastWrittenChunkSeq s <? ck_seq chunk)%Z outputChunks in
  let s := foldl writeChunk s nextChunks in
  let nextStatusMessage := (trimText <$> statusMessage) ?? "" in
  match outputChunks with
  | _ :: _ => mkSurface (su_lastSessionKey s) (su_lastWrittenChunkSeq s) None (su_terminal s)
  | [] =>
      if truthy nextStatusMessage && negb (bool_decide (su_lastRenderedStatusMessage s = Some nextStatusMessage))
      then mkSurface (su_lastSessionKey s) (su_lastWrittenChunkSeq s) (Some nextStatusMessage)
             (su_terminal s ++ [Clear; WriteLine nextStatusMessage])
      else s
  end.

(** [clearViewport] *)
Definition clearViewport (outputChunks : list TerminalOutputChunk) (statusMessage : option string)
    (s : Surface) : Surface :=
  mkSurface (su_lastSessionKey s) ((ck_seq <$> last outputChunks) ?? 0)%Z
    (truthyOpt (trimText <$> statusMessage)) (su_terminal s ++ [Clear]).

(** The effect that makes the emulator runs again when the line height, the
    label of the input or the target of the theme changes: the emulator is
    disposed and a new, empty one takes its place; the refs stay. *)
Definition remakeTerminal (s : Surface) : Surface :=
  mkSurface (su_lastSessionKey s) (su_lastWrittenChunkSeq s) (su_lastRenderedStatusMessage s) [].

Definition shouldBlinkCursor (sessionState : TerminalDisplaySessionState) (cursorBlink : bool) : bool :=
  cursorBlink && match sessionState with SessionRunning => true | _ => false end.
Definition disableStdin (hasInput : bool) (sessionState : TerminalDisplaySessionState) : bool :=
  negb hasInput || match sessionState with SessionExited | SessionFailed => true | _ => false end.

(** The keys that the emulator leaves to the surface. *)
Inductive SurfaceKey := RequestSearch | CopyTerminalSelection | PasteClipboard.
Definition onTerminalKey (key : string) (ctrl meta shift : bool) : option SurfaceKey :=
  let isModifierPressed := ctrl || meta in
  if isModifierPressed && bool_decide (toLowerCase key = "f") then Some RequestSearch
  else if isModifierPressed && shift && bool_decide (toLowerCase key = "c") then Some CopyTerminalSelection
  else if isModifierPressed && shift && bool_decide (toLowerCase key = "v") then Some PasteClipboard
  else None.

(** What is written to the clipboard, and what is pasted from it; [clipboard]
    says whether the host has one. *)
Definition copyTerminalSelection (clipboard : bool) (selection : string) : option string :=
  if negb clipboard then None else truthyOpt (Some selection).
Definition pasteClipboardIntoTerminal (clipboard : option string) : option string := truthyOpt clipboard.

(** [findNext] and [findPrevious]; [addon] is the answer of the search addon. *)
Definition findInTerminal (addon : option (string -> bool)) (query : string) : bool :=
  match addon with
  | Some find => if truthy (trimText query) then find query else false
  | None => false
  end.

(** * Lemmas *)

Section Surface.
Variable output : string -> Z -> TerminalOutputChunk.
Hypothesis output_seq : forall w n, ck_seq (output w n) = n.
Notation slice := (slice output).

Definition data (l : list TerminalOutputChunk) : list Write := (fun c => WriteData (ck_data c)) <$> l.

Lemma slice_nil w b n : (n <= b)%Z -> slice w b n = [].
Proof. intros H. unfold TerminalFeed.slice. by rewrite seqZ_nil by lia. Qed.

Lemma slice_cons w b n : (b < n)%Z -> slice w b n = output w b :: slice w (b + 1) n.
Proof.
  intros H. unfold TerminalFeed.slice. rewrite seqZ_cons by lia. cbn. do 3 f_equal; lia.
Qed.

(** The chunks of a window behind a number are a window. *)
Lemma slice_after w b n k :
  filterb (fun c => k <? ck_seq c)%Z (slice w b n) = slice w (Z.max b (k + 1)) n.
Proof.
  remember (Z.to_nat (n - b)) as m eqn:Em. revert b Em. induction m as [|m IH]; intros b Em.
  - rewrite !slice_nil by lia. done.
  - rewrite slice_cons by lia. cbn. rewrite output_seq. unfold filterb in IH. rewrite IH by lia.
    destruct (Z.ltb_spec k b).
    + rewrite (Z.max_l b) by lia. rewrite (slice_cons w b n) by lia. by rewrite Z.max_l by lia.
    + by rewrite !Z.max_r by lia.
Qed.

Lemma slice_join w a b c : (a <= b <= c)%Z -> slice w a b ++ slice w b c = slice w a c.
Proof.
  intros H. unfold TerminalFeed.slice. rewrite <- fmap_app. f_equal.
  replace (c - a)%Z with ((b - a) + (c - b))%Z by lia. rewrite seqZ_app by lia. do 2 f_equal. lia.
Qed.

Lemma write_slice w b n s :
  foldl writeChunk s (slice w b n) =
  mkSurface (su_lastSessionKey s)
    (if decide (b < n)%Z then Z.max (su_lastWrittenChunkSeq s) (n - 1) else su_lastWrittenChunkSeq s)
    (su_lastRenderedStatusMessage s) (su_terminal s ++ data (slice w b n)).
Proof.
  remember (Z.to_nat (n - b)) as m eqn:Em. revert b s Em. induction m as [|m IH]; intros b s Em.
  - rewrite slice_nil, decide_False by lia. cbn. rewrite app_nil_r. by destruct s.
  - rewrite slice_cons, decide_True by lia. cbn. rewrite IH by lia. cbn. rewrite output_seq, <- app_assoc. cbn.
    f_equal. case_decide; lia.
Qed.

(** The effects of one session after another. *)
Definition renders (w key : string) (status : option string) (s : Surface) (views : list (Z * Z)) : Surface :=
  foldl (fun s '(b, n) => writeOutput (slice w b n) key status s) s views.

(** The windows are not empty and leave no gap behind what was written up to [n]. *)
Fixpoint no_gap (n : Z) (views : list (Z * Z)) : Prop :=
  match views with
  | [] => True
  | (b, n') :: views => (b < n')%Z /\ (b <= n)%Z /\ no_gap (Z.max n n') views
  end.
Fixpoint reach (n : Z) (views : list (Z * Z)) : Z :=
  match views with [] => n | (_, n') :: views => reach (Z.max n n') views end.

Lemma reach_le n views : (n <= reach n views)%Z.
Proof. revert n. induction views as [|[b n'] views IH]; intros n; cbn; [lia|]. specialize (IH (Z.max n n')). lia. Qed.

Lemma render_more w key status s b n :
  su_lastSessionKey s = Some key -> (b < n)%Z ->
  writeOutput (slice w b n) key status s =
  mkSurface (Some key) (Z.max (su_lastWrittenChunkSeq s) (n - 1)) None
    (su_terminal s ++ data (slice w (Z.max b (su_lastWrittenChunkSeq s + 1)) n)).
Proof.
  intros Hk Hb. unfold writeOutput. rewrite (bool_decide_eq_true_2 (su_lastSessionKey s = Some key)) by done. cbn [negb].
  rewrite slice_after, write_slice. rewrite (slice_cons w b n) by done. cbn. rewrite Hk. f_equal.
  case_decide; lia.
Qed.

(** Each chunk reaches the terminal once and in order.  A surface that starts
    to show a session, and is rendered with any windows of its output that leave
    no gap, also with windows that a reload has set back, writes exactly the
    output from the first window's start to the farthest end, each chunk once. *)
Theorem surface_writes_once w key status s b n views
    (Hkey : su_lastSessionKey s <> Some key) (Hb : (1 <= b < n)%Z) (Hgap : no_gap n views) :
  su_terminal (renders w key status s ((b, n) :: views)) =
    su_terminal s ++ Clear :: data (slice w b (reach n views)).
Proof.
  assert (forall views n s', no_gap n views -> su_lastSessionKey s' = Some key ->
    su_lastWrittenChunkSeq s' = (n - 1)%Z ->
    su_terminal (renders w key status s' views) = su_terminal s' ++ data (slice w n (reach n views))) as Hgo.
  { clear views n b s Hkey Hb Hgap. intros views.
    induction views as [|[b' n'] views IH]; intros n s Hgap Hk Hl; cbn.
    - rewrite slice_nil by lia. by rewrite app_nil_r.
    - destruct Hgap as (H1 & H2 & H3). rewrite render_more by done. unfold renders in IH.
      pose proof (reach_le (Z.max n n') views).
      rewrite (IH (Z.max n n')); cbn; [|done|done|lia]. rewrite Hl, <- app_assoc. f_equal.
      unfold data. rewrite <- fmap_app. f_equal. replace (Z.max b' (n - 1 + 1))%Z with n by lia.
      destruct (decide (n <= n')%Z).
      + replace (Z.max n n') with n' in * by lia. apply slice_join. lia.
      + replace (Z.max n n') with n in * by lia. by rewrite (slice_nil w n n') by lia. }
  cbn. unfold renders in Hgo. pose proof (reach_le n views).
  rewrite (Hgo views n).
  - unfold writeOutput. rewrite (bool_decide_eq_false_2 (su_lastSessionKey s = Some key)) by done. cbn [negb]. rewrite write_slice.
    assert (forall r k s', su_terminal match slice w b n with [] => r | _ :: _ => mkSurface k s' None (su_terminal s ++ Clear :: data (slice w b n)) end = su_terminal s ++ Clear :: data (slice w b n)) as Hm.
    { intros r k s'. by rewrite (slice_cons w b n) by lia. }
    cbn. rewrite <- !app_assoc. cbn. rewrite Hm, <- app_assoc. cbn. do 2 f_equal.
    unfold data. rewrite <- fmap_app. f_equal. apply slice_join. lia.
  - done.
  - unfold writeOutput. rewrite (bool_decide_eq_false_2 (su_lastSessionKey s = Some key)) by done. cbn [negb]. rewrite write_slice.
    by rewrite (slice_cons w b n) by lia.
  - unfold writeOutput. rewrite (bool_decide_eq_false_2 (su_lastSessionKey s = Some key)) by done. cbn [negb]. rewrite write_slice.
    rewrite (slice_cons w b n) by lia. cbn. rewrite decide_True by lia. lia.
Qed.

End Surface.

(** * Witnesses *)

Lemma surface_writes_once_witness :
  su_terminal (renders counting "t" "s:t0" None (mkSurface None 0 None []) [(1, 3); (2, 5); (1, 4); (3, 6)]%Z) =
    [Clear; WriteData "1"; WriteData "2"; WriteData "3"; WriteData "4"; WriteData "5"].
Proof.
  rewrite (surface_writes_once counting (fun _ _ => eq_refl) "t" "s:t0" None _ 1 3 [(2, 5); (1, 4); (3, 6)]%Z);
    [reflexivity|done|lia|cbn; lia].
Defined.

(** Two copies of a chunk that are rendered together are both written. *)
Example copies_in_one_render :
  su_terminal (writeOutput [counting "t" 1; counting "t" 1] "s:t0" None (mkSurface (Some "s:t0") 0 None [])) =
    [WriteData "1"; WriteData "1"].
Proof. reflexivity. Qed.

(** Changing the line height or the language empties a terminal: the new
    emulator gets nothing of what was written before, only the chunks that
    come later. *)
Example new_emulator_stays_empty :
  let shown := writeOutput [counting "t" 1; counting "t" 2] "s:t0" None (mkSurface None 0 None []) in
  let later := writeOutput [counting "t" 1; counting "t" 2; counting "t" 3] "s:t0" None (remakeTerminal shown) in
  su_terminal shown = [Clear; WriteData "1"; WriteData "2"] /\
  su_terminal (remakeTerminal shown) = [] /\ su_terminal later = [WriteData "3"].
Proof. by repeat split. Qed.
