(* ===== verification/Http.v ===== *)
(** * Requests to the backend

    What the API clients share: values of JSON, requests and answers of [fetch],
    the commands of the desktop shell, the errors, and the runtime context of
    [frontend/src/shared/api/runtime.ts] that every client waits for.  [fetch]
    and [invoke] are requests of the effect trees of [Effects].  The payload of
    an answer has the type that the code casts it to.  The text that
    [JSON.stringify] writes is left as the value. *)
From Stdlib Require Import Ascii String.
From stdpp Require Import strings.
From S2P Require Import Prelude JsString Text Number RuntimePath Url Effects.
Local Open Scope string_scope.
Local Open Scope list_scope.
Local Open Scope Z_scope.
Local Open Scope js_scope.
Local Open Scope prog_scope.

(** ** Values *)

Inductive Json : Set :=
  | JNull
  | JBool (b : bool)
  | JNumber (n : Number)
  | JString (s : string)
  | JArray (l : list Json)
  | JObject (fields : list (string * Json)).

(** An object literal: properties that are [undefined] are not written. *)
Definition jobject (fields : list (string * option Json)) : Json :=
  JObject (omap (fun p => pair p.1 <$> p.2) fields).
Definition jtext (s : string) : option Json := Some (JString s).
Definition jtextOpt (s : option string) : option Json := JString <$> s.
Definition jbool (b : bool) : option Json := Some (JBool b).
Definition jnumber (n : Z) : option Json := Some (JNumber (ofZ n)).
(** [JSON.stringify] writes [null] for a number that is not finite. *)
Definition jvalue (n : Number) : option Json := Some (match finite n with Some _ => JNumber n | None => JNull end).
Definition jtexts (l : list string) : option Json := Some (JArray (JString <$> l)).

(** ** Errors *)

(** An error of an API class, another [Error], or a value that is no error. *)
Inductive ApiError : Set :=
  | APIError (name : string) (status : Z) (code message : string)
  | PlainError (message : string)
  | OtherThrow.

(** What the other modules see of it. *)
Definition errorMessage (e : ApiError) : JsError :=
  match e with
  | APIError _ _ _ message | PlainError message => Some message
  | OtherThrow => None
  end.

(** [APIErrorEnvelope], without the level [error]. *)
Record APIErrorEnvelope : Set := mkEnvelope { ee_code : option string; ee_message : option string }.

(** ** Requests *)

Record HttpRequest : Set := mkRequest {
  hq_method : string;
  hq_url : string;
  hq_headers : list (string * string);
  hq_body : option Json
}.

(** An answer; reading its body as JSON gives a value, [hr_error] when the body
    is an envelope of an error, or throws the message of a [SyntaxError]. *)
Record HttpResponse (T : Set) : Set := mkHttpResponse {
  hr_status : Z;
  hr_payload : T + string;
  hr_error : option APIErrorEnvelope
}.
Arguments mkHttpResponse {T} hr_status hr_payload hr_error.
Arguments hr_status {T} h.
Arguments hr_payload {T} h.
Arguments hr_error {T} h.

Definition hr_ok {T} (response : HttpResponse T) : bool := (200 <=? hr_status response) && (hr_status response <=? 299).

Record RuntimeContext : Set := mkRuntimeContext {
  cx_authToken : string;
  cx_baseUrl : string;
  cx_colorTerm : string;
  cx_defaultShell : string;
  cx_homeDir : string;
  cx_repoRoot : string;
  cx_term : string
}.

Inductive WebRequest : Set -> Type :=
  | Fetch (T : Set) (request : HttpRequest) : WebRequest (HttpResponse T)
  | Invoke (T : Set) (command : string) (args : option Json) : WebRequest T
  | PendingContext : WebRequest RuntimeContext.      (* the promise that another call made *)

(** [runtimeContextPromise] *)
Inductive ContextPromise :=
  | NotRequested
  | Requested
  | Settled (r : RuntimeContext + ApiError).

Notation Web := (ProgX ApiError ContextPromise WebRequest).

(** [RequestInit]; the clients set the method and the body. *)
Record RequestInit := mkInit { ri_method : option string; ri_body : option Json }.
Definition noInit : RequestInit := mkInit None None.

Definition authorization (token : string) : string * string := ("Authorization", "Bearer " +:+ token).
Definition jsonContent : string * string := ("Content-Type", "application/json").

Definition toRequest (context : RuntimeContext) (path : string) (init : RequestInit) : HttpRequest :=
  mkRequest (ri_method init ?? "GET") (cx_baseUrl context +:+ path)
    (authorization (cx_authToken context) :: (if ri_body init then [jsonContent] else [])) (ri_body init).

(** [(await response.json()) as T] *)
Definition readJson {T : Set} (response : HttpResponse T) : Web T :=
  match hr_payload response with
  | inl payload => Ret payload
  | inr message => Throw (PlainError message)
  end.

(** A client: the name of its error class, or a plain [Error], and its texts. *)
Record ApiClient := mkClient { ac_errorClass : option string; ac_code : string; ac_text : string }.

Definition responseError {T} (client : ApiClient) (response : HttpResponse T) : ApiError :=
  let code := (hr_error response ≫= ee_code) ?? ac_code client in
  let message :=
    (hr_error response ≫= ee_message) ?? (ac_text client +:+ " (" +:+ showZ (hr_status response) +:+ ")") in
  match ac_errorClass client with
  | Some name => APIError name (hr_status response) code message
  | None => PlainError message
  end.

(** [fetchRuntimeJSON], which every client has a copy of. *)
Definition fetchJSON (client : ApiClient) (T : Set) (context : RuntimeContext) (path : string) (init : RequestInit)
    : Web T :=
  response <- await (Fetch T (toRequest context path init)) ;;
  if negb (hr_ok response) then Throw (responseError client response) else readJson response.

(** ** The runtime context ([shared/api/runtime.ts]) *)

(** The build's environment, and whether the page runs in the desktop shell. *)
Class RuntimeHost := {
  VITE_RTERM_API_BASE : option string;
  VITE_RTERM_AUTH_TOKEN : option string;
  isTauri : bool
}.

Record RuntimeTransport := mkTransport { tp_authToken : string; tp_baseUrl : string }.
Record RuntimeInfoPayload : Set := mkRuntimeInfo { ri_auth_token : option string; ri_base_url : option string }.
Record BootstrapPayload : Set := mkBootstrapPayload {
  bp_color_term : option string;
  bp_default_shell : option string;
  bp_home_dir : option string;
  bp_repo_root : option string;
  bp_term : option string
}.

(** [text?.trim()], without the empty text. *)
Definition trimmed (text : option string) : option string := truthyOpt (trimText <$> text).

Section Runtime.
Context `{!RuntimeHost}.

Definition readRuntimeTransportFromEnv : option RuntimeTransport :=
  match trimmed VITE_RTERM_API_BASE, trimmed VITE_RTERM_AUTH_TOKEN with
  | Some baseUrl, Some authToken => Some (mkTransport authToken baseUrl)
  | _, _ => None
  end.

Definition readRuntimeTransportFromTauri : Web (option RuntimeTransport) :=
  if negb isTauri then Ret None
  else
    payload <- await (Invoke RuntimeInfoPayload "runtime_info" None) ;;
    match trimmed (ri_base_url payload), trimmed (ri_auth_token payload) with
    | Some baseUrl, Some authToken => Ret (Some (mkTransport authToken baseUrl))
    | _, _ => Throw (PlainError "Tauri runtime_info did not provide base_url/auth_token")
    end.

Definition canUpdateRuntimeSettings : bool := isTauri.

Definition resolveRuntimeTransport : Web RuntimeTransport :=
  match readRuntimeTransportFromEnv with
  | Some envTransport => Ret envTransport
  | None =>
      tauriTransport <- readRuntimeTransportFromTauri ;;
      match tauriTransport with
      | Some transport => Ret transport
      | None => Throw (PlainError "Unable to resolve runtime transport")
      end
  end.

Definition bootstrapRequest (transport : RuntimeTransport) : HttpRequest :=
  mkRequest "GET" (tp_baseUrl transport +:+ "/api/v1/bootstrap") [authorization (tp_authToken transport)] None.

Definition contextOf (transport : RuntimeTransport) (payload : BootstrapPayload) (repoRoot : string) : RuntimeContext :=
  mkRuntimeContext (tp_authToken transport) (tp_baseUrl transport)
    ((trimText <$> bp_color_term payload) ?? "") ((trimText <$> bp_default_shell payload) ?? "")
    (trimTrailingSeparators ((trimText <$> bp_home_dir payload) ?? "")) (trimTrailingSeparators repoRoot)
    ((trimText <$> bp_term payload) ?? "").

Definition loadRuntimeContext : Web RuntimeContext :=
  transport <- resolveRuntimeTransport ;;
  response <- await (Fetch BootstrapPayload (bootstrapRequest transport)) ;;
  if negb (hr_ok response)
  then Throw (PlainError ("Unable to load runtime bootstrap (" +:+ showZ (hr_status response) +:+ ")"))
  else
    payload <- readJson response ;;
    match trimmed (bp_repo_root payload) with
    | None => Throw (PlainError "Runtime bootstrap did not provide repo_root")
    | Some repoRoot => Ret (contextOf transport payload repoRoot)
    end.

(** The promise is settled when the load ends, and it is kept. *)
Definition settle (load : Web RuntimeContext) : Web RuntimeContext :=
  tryCatch
    (context <- load ;; update (fun _ => Settled (inl context)) ;;; Ret context)
    (fun error => update (fun _ => Settled (inr error)) ;;; Throw error).

Definition resolveRuntimeContext : Web RuntimeContext :=
  promise <- get ;;
  match promise with
  | NotRequested => update (fun _ => Requested) ;;; settle loadRuntimeContext
  | Requested => await PendingContext
  | Settled (inl context) => Ret context
  | Settled (inr error) => Throw error
  end.

(** [requestRuntimeJSON] of the clients. *)
Definition requestJSON (client : ApiClient) (T : Set) (path : string) (init : RequestInit) : Web T :=
  runtimeContext <- resolveRuntimeContext ;;
  fetchJSON client T runtimeContext path init.

End Runtime.
