(* ===== verification/ProviderApi.v ===== *)
(** * The client of the provider API

    [frontend/src/features/agent/api/provider-client.ts]: the requests, and how
    their answers are normalised.  A payload has an [option] where the code
    defends itself against a property that is missing. *)
From Stdlib Require Import Ascii String.
From stdpp Require Import strings.
From S2P Require Import Prelude JsString Text Number Url Effects Providers Http.
Local Open Scope string_scope.
Local Open Scope list_scope.
Local Open Scope Z_scope.
Local Open Scope js_scope.
Local Open Scope prog_scope.

(** ** Payloads *)

Record ActorPayload := mkActorPayload { al_username : option string; al_home_dir : option string }.
Record AccessPayload := mkAccessPayload {
  sl_owner_username : option string;
  sl_visibility : option string;
  sl_allowed_users : option (list string)      (* [None] when it is no array *)
}.
Record RoutePolicyPayload := mkPolicyPayload {
  ol_prewarm_policy : option string;
  ol_warm_ttl_seconds : option Number          (* [None] when it is no number *)
}.

(** An element of [chat_models] that is no text is [None]. *)
Record KindPayload := mkKindPayload {
  kl_endpoint : option string;
  kl_model : option string;
  kl_chat_models : option (list (option string))
}.

Record ProviderPayload := mkProviderPayload {
  vl_id : string;
  vl_kind : string;
  vl_display_name : string;
  vl_enabled : bool;
  vl_active : bool;
  vl_access : option AccessPayload;
  vl_created_by : option ActorPayload;
  vl_updated_by : option ActorPayload;
  vl_route_policy : option RoutePolicyPayload;
  vl_codex : option KindPayload;
  vl_claude : option KindPayload;
  vl_openai_compatible : option KindPayload;
  vl_created_at : string;
  vl_updated_at : string
}.

Record CatalogPayload := mkCatalogPayload {
  cl_current_actor : option ActorPayload;
  cl_providers : option (list ProviderPayload);
  cl_active_provider_id : string;
  cl_supported_kinds : option (list string)
}.

Record GatewayPayload := mkGatewayPayload {
  gl_generated_at : string;
  gl_providers : option (list AgentProviderGatewayProvider);
  gl_recent_runs : option (list AgentProviderGatewayRun);
  gl_recent_runs_total : option Z;
  gl_recent_runs_offset : option Z;
  gl_recent_runs_limit : option Z;
  gl_recent_runs_has_more : option bool
}.

Record ProviderMutationResponse := mkMutationPayload { mp_provider : ProviderPayload; mp_providers : CatalogPayload }.
Record ProviderMutation := mkProviderMutation { pm_provider : AgentProviderView; pm_providers : AgentProviderCatalog }.

Record AgentProviderProbeResult := mkProbeResult {
  pb_provider_id : string;
  pb_provider_kind : string;
  pb_display_name : string;
  pb_ready : bool;
  pb_status_state : string;
  pb_status_message : string;
  pb_resolved_binary : option string;
  pb_base_url : option string;
  pb_model : option string;
  pb_discovered_models : option (list string);
  pb_latency_ms : Z;
  pb_checked_at : string
}.

Record AgentProviderPrewarmResult := mkPrewarmResult {
  pw_provider_id : string;
  pw_provider_kind : string;
  pw_display_name : string;
  pw_prepared : bool;
  pw_prepare_state : string;
  pw_prepare_message : string;
  pw_resolved_binary : option string;
  pw_base_url : option string;
  pw_model : option string;
  pw_latency_ms : Z;
  pw_prepared_at : string;
  pw_route_ready : bool;
  pw_route_status_state : string;
  pw_route_status_message : string
}.

Record ModelCatalogPayload := mkModelCatalog { ml_models : option (list (option string)) }.

(** ** What the client sends *)

(** The settings of a kind; the endpoint is its [command] or [base_url]. *)
Record KindSettingsInput := mkKindInput {
  kn_endpoint : option string;
  kn_model : option string;
  kn_chat_models : option (list string)
}.
Record AccessInput := mkAccessInput {
  an_owner_username : option string;
  an_visibility : option string;
  an_allowed_users : option (list string)
}.
Record RoutePolicyInput := mkPolicyInput { on_prewarm_policy : AgentProviderPrewarmPolicy; on_warm_ttl_seconds : Number }.

Record UpdateAgentProviderPayload := mkUpdateProvider {
  un_display_name : option string;
  un_enabled : option bool;
  un_access : option AccessInput;
  un_route_policy : option RoutePolicyInput;
  un_codex : option KindSettingsInput;
  un_claude : option KindSettingsInput;
  un_openai_compatible : option KindSettingsInput
}.
(** The same with a kind. *)
Record CreateAgentProviderPayload := mkCreateProvider { en_kind : string; en_settings : UpdateAgentProviderPayload }.

Record DiscoverAgentProviderModelsPayload := mkDiscover {
  dn_provider_id : option string;
  dn_kind : option string;
  dn_codex : option KindSettingsInput;
  dn_claude : option KindSettingsInput;
  dn_openai_compatible : option KindSettingsInput
}.

Record AgentProviderGatewaySnapshotQuery := mkGatewayQuery {
  qn_providerID : option string;
  qn_status : option string;
  qn_query : option string;
  qn_offset : option Z;
  qn_limit : option Z
}.

Definition showPrewarmPolicy (policy : AgentProviderPrewarmPolicy) : string :=
  match policy with
  | PrewarmManual => "manual"
  | PrewarmOnActivate => "on_activate"
  | PrewarmOnStartup => "on_startup"
  end.

(** [JSON.stringify] of the payloads. *)
Definition kindJson (endpoint : string) (settings : KindSettingsInput) : Json :=
  jobject [(endpoint, jtextOpt (kn_endpoint settings)); ("model", jtextOpt (kn_model settings));
           ("chat_models", kn_chat_models settings ≫= jtexts)].
Definition accessJson (access : AccessInput) : Json :=
  jobject [("owner_username", jtextOpt (an_owner_username access)); ("visibility", jtextOpt (an_visibility access));
           ("allowed_users", an_allowed_users access ≫= jtexts)].
Definition policyJson (policy : RoutePolicyInput) : Json :=
  jobject [("prewarm_policy", jtext (showPrewarmPolicy (on_prewarm_policy policy)));
           ("warm_ttl_seconds", jvalue (on_warm_ttl_seconds policy))].
Definition updateFields (payload : UpdateAgentProviderPayload) : list (string * option Json) :=
  [("display_name", jtextOpt (un_display_name payload)); ("enabled", JBool <$> un_enabled payload);
   ("access", accessJson <$> un_access payload); ("route_policy", policyJson <$> un_route_policy payload);
   ("codex", kindJson "command" <$> un_codex payload); ("claude", kindJson "command" <$> un_claude payload);
   ("openai_compatible", kindJson "base_url" <$> un_openai_compatible payload)].
Definition updateJson (payload : UpdateAgentProviderPayload) : Json := jobject (updateFields payload).
Definition createJson (payload : CreateAgentProviderPayload) : Json :=
  jobject (("kind", jtext (en_kind payload)) :: updateFields (en_settings payload)).
Definition discoverJson (payload : DiscoverAgentProviderModelsPayload) : Json :=
  jobject [("provider_id", jtextOpt (dn_provider_id payload)); ("kind", jtextOpt (dn_kind payload));
           ("codex", kindJson "command" <$> dn_codex payload); ("claude", kindJson "command" <$> dn_claude payload);
           ("openai_compatible", kindJson "base_url" <$> dn_openai_compatible payload)].

(** ** Normalising answers *)

(** The elements that are texts. *)
Definition texts (l : list (option string)) : list string := omap id l.
Definition normalizeChatModels (models : option (list (option string))) : list string := texts (models ?? []).

Definition normalizeActor (actor : option ActorPayload) : AgentProviderActor :=
  mkActor (trimmed (mbind al_username actor) ?? "unknown") (trimmed (mbind al_home_dir actor)).

Definition normalizeAccessPolicy (access : option AccessPayload) (owner : AgentProviderActor)
    : AgentProviderAccessPolicy :=
  mkAccess (trimmed (mbind sl_owner_username access) ?? ac_username owner) (trimmed (mbind sl_visibility access))
    (Some (filterb truthy (trimText <$> (mbind sl_allowed_users access ?? [])))).

Definition parsePrewarmPolicy (policy : option string) : AgentProviderPrewarmPolicy :=
  if decide (policy = Some "on_activate") then PrewarmOnActivate
  else if decide (policy = Some "on_startup") then PrewarmOnStartup
  else PrewarmManual.

Definition normalizeRoutePolicy (policy : option RoutePolicyPayload) : AgentProviderRoutePolicy :=
  let prewarmPolicy := trimText <$> mbind ol_prewarm_policy policy in
  mkRoutePolicy (Some (parsePrewarmPolicy prewarmPolicy))
    (Some (match mbind ol_warm_ttl_seconds policy ≫= finite with
           | Some n => Z.max 0 (truncQ n)
           | None => 900
           end)).

(** The settings of the provider's own kind get a list of texts. *)
Definition normalizeKind (own : bool) (settings : KindPayload) : ProviderKindSettings :=
  mkKindSettings (kl_endpoint settings) (kl_model settings)
    (if own then Some (normalizeChatModels (kl_chat_models settings)) else texts <$> kl_chat_models settings).

Definition normalizeProviderView (provider : ProviderPayload) : AgentProviderView :=
  let createdBy := normalizeActor (vl_created_by provider) in
  let updatedBy := normalizeActor (vl_updated_by provider) in
  let own kind := bool_decide (vl_kind provider = kind) in
  mkProviderView (vl_id provider) (vl_kind provider) (vl_display_name provider) (vl_enabled provider)
    (vl_active provider) (normalizeAccessPolicy (vl_access provider) createdBy) createdBy updatedBy
    (normalizeRoutePolicy (vl_route_policy provider))
    (normalizeKind (own "codex") <$> vl_codex provider) (normalizeKind (own "claude") <$> vl_claude provider)
    (normalizeKind (own "openai-compatible") <$> vl_openai_compatible provider)
    (vl_created_at provider) (vl_updated_at provider).

Definition normalizeProviderCatalog (catalog : CatalogPayload) : AgentProviderCatalog :=
  mkProviderCatalog (normalizeActor (cl_current_actor catalog))
    (normalizeProviderView <$> (cl_providers catalog ?? [])) (cl_active_provider_id catalog)
    (filterb knownKind (cl_supported_kinds catalog ?? [])).

Definition normalizeProviderGatewaySnapshot (snapshot : GatewayPayload) : AgentProviderGatewaySnapshot :=
  mkGateway (gl_generated_at snapshot) (gl_providers snapshot ?? []) (gl_recent_runs snapshot ?? [])
    (gl_recent_runs_total snapshot ?? 0) (gl_recent_runs_offset snapshot ?? 0) (gl_recent_runs_limit snapshot ?? 0)
    (gl_recent_runs_has_more snapshot ?? false).

Definition normalizeProviderMutationResponse (response : ProviderMutationResponse) : ProviderMutation :=
  mkProviderMutation (normalizeProviderView (mp_provider response)) (normalizeProviderCatalog (mp_providers response)).

Definition normalizeModelCatalog (catalog : ModelCatalogPayload) : list string := normalizeChatModels (ml_models catalog).

(** ** Requests *)

Definition providerClient : ApiClient := mkClient (Some "AgentAPIError") "agent_provider_request_failed" "Agent provider request failed".
Definition fetchProviderRuntimeJSON (T : Set) := fetchJSON providerClient T.

Definition post : RequestInit := mkInit (Some "POST") None.
Definition withBody (method : string) (body : Json) : RequestInit := mkInit (Some method) (Some body).

(** [if (value?.trim()) searchParams.set(name, value.trim())] *)
Definition setTrimmed (name : string) (value : option string) (params : SearchParams) : SearchParams :=
  match trimmed value with Some v => setParam name v params | None => params end.
Definition setPositive (name : string) (value : option Z) (params : SearchParams) : SearchParams :=
  match value with Some n => if 0 <? n then setParam name (showZ n) params else params | None => params end.

Definition gatewayParams (query : AgentProviderGatewaySnapshotQuery) : SearchParams :=
  setPositive "limit" (qn_limit query)
    (setPositive "offset" (qn_offset query)
      (setTrimmed "query" (qn_query query)
        (setTrimmed "status" (qn_status query) (setTrimmed "provider_id" (qn_providerID query) [])))).

(** [params.size > 0 ? `?${params}` : ''] *)
Definition querySuffix (params : SearchParams) : string :=
  match params with [] => "" | _ => "?" +:+ showParams params end.

Section Client.
Context `{!RuntimeHost}.

Definition requestProviderRuntimeJSON (T : Set) (path : string) (init : RequestInit) : Web T :=
  runtimeContext <- resolveRuntimeContext ;;
  fetchProviderRuntimeJSON T runtimeContext path init.

Definition fetchAgentProviderCatalog : Web AgentProviderCatalog :=
  catalog <- requestProviderRuntimeJSON CatalogPayload "/api/v1/agent/providers" noInit ;;
  Ret (normalizeProviderCatalog catalog).

Definition fetchAgentProviderGatewaySnapshot (query : AgentProviderGatewaySnapshotQuery)
    : Web AgentProviderGatewaySnapshot :=
  snapshot <- requestProviderRuntimeJSON GatewayPayload
    ("/api/v1/agent/providers/gateway" +:+ querySuffix (gatewayParams query)) noInit ;;
  Ret (normalizeProviderGatewaySnapshot snapshot).

Definition probeAgentProvider (providerID : string) : Web AgentProviderProbeResult :=
  requestProviderRuntimeJSON AgentProviderProbeResult
    ("/api/v1/agent/providers/" +:+ encodeURIComponent providerID +:+ "/probe") post.

Definition prewarmAgentProvider (providerID : string) : Web AgentProviderPrewarmResult :=
  requestProviderRuntimeJSON AgentProviderPrewarmResult
    ("/api/v1/agent/providers/" +:+ encodeURIComponent providerID +:+ "/prewarm") post.

Definition clearAgentProviderRouteState (providerID : string) : Web (string * bool) :=
  requestProviderRuntimeJSON (string * bool)
    ("/api/v1/agent/providers/" +:+ encodeURIComponent providerID +:+ "/route-state/clear") post.

Definition createAgentProvider (payload : CreateAgentProviderPayload) : Web ProviderMutation :=
  response <- requestProviderRuntimeJSON ProviderMutationResponse "/api/v1/agent/providers"
    (withBody "POST" (createJson payload)) ;;
  Ret (normalizeProviderMutationResponse response).

Definition discoverAgentProviderModels (payload : DiscoverAgentProviderModelsPayload) : Web (list string) :=
  catalog <- requestProviderRuntimeJSON ModelCatalogPayload "/api/v1/agent/providers/models"
    (withBody "POST" (discoverJson payload)) ;;
  Ret (normalizeModelCatalog catalog).

(** The path holds the id as it is, here and in the deletion. *)
Definition updateAgentProvider (providerID : string) (payload : UpdateAgentProviderPayload) : Web ProviderMutation :=
  response <- requestProviderRuntimeJSON ProviderMutationResponse ("/api/v1/agent/providers/" +:+ providerID)
    (withBody "PATCH" (updateJson payload)) ;;
  Ret (normalizeProviderMutationResponse response).

Definition setActiveAgentProvider (providerID : string) : Web AgentProviderCatalog :=
  catalog <- requestProviderRuntimeJSON CatalogPayload "/api/v1/agent/providers/active"
    (withBody "PUT" (jobject [("id", jtext providerID)])) ;;
  Ret (normalizeProviderCatalog catalog).

Definition deleteAgentProvider (providerID : string) : Web AgentProviderCatalog :=
  catalog <- requestProviderRuntimeJSON CatalogPayload ("/api/v1/agent/providers/" +:+ providerID)
    (mkInit (Some "DELETE") None) ;;
  Ret (normalizeProviderCatalog catalog).

End Client.
