(* ===== verification/AgentApi.v ===== *)
(** * The client of the agent API

    [frontend/src/features/agent/api/client.ts] without the framing of streams,
    which is in [Sse]: the requests of conversations, attachments, tools,
    terminal commands and selections, how their answers are normalised, and the
    connection of a stream with its cancellation.  The level of an answer that
    only wraps it ([conversation], [attachment]) is left out. *)
From Stdlib Require Import Ascii String.
From stdpp Require Import strings.
From S2P Require Import Prelude JsString Text Number Url Effects Conversation MessageView AgentContext Providers AgentState Http ProviderApi.
Local Open Scope string_scope.
Local Open Scope list_scope.
Local Open Scope Z_scope.
Local Open Scope js_scope.
Local Open Scope prog_scope.

(** ** Payloads *)

Record PreferencesPayload := mkPreferencesPayload {
  fl_widget_context_enabled : option bool;
  fl_widget_ids : option (list string)
}.
Record SnapshotPayload := mkSnapshotPayload {
  nl_id : string;
  nl_title : string;
  nl_messages : option (list AgentConversationMessage);
  nl_provider : AgentConversationProvider;
  nl_context_preferences : option PreferencesPayload;
  nl_created_at : string;
  nl_updated_at : string;
  nl_archived_at : option string
}.
Record CountsPayload := mkCountsPayload { tl_recent : option Z; tl_archived : option Z; tl_all : option Z }.
Record ListPayload := mkListPayload {
  ll_active_conversation_id : string;
  ll_counts : option CountsPayload;
  ll_conversations : option (list AgentConversationSummary)
}.
Record AgentConversationResponse := mkConversationResponse {
  rs_conversation : AgentConversationSnapshot;
  rs_provider_error : string
}.
Record ExplainTerminalCommandResponse := mkExplainResponse {
  xr_command_audit_event_id : option string;
  xr_conversation : AgentConversationSnapshot;
  xr_execution_block_id : option string;
  xr_explain_audit_event_id : option string;
  xr_output_excerpt : option string;
  xr_provider_error : option string
}.
Record PlanTerminalCommandResponse := mkPlanResponse { nr_command : string; nr_summary : option string }.

(** ** Normalising answers *)

Definition normalizeConversationSnapshot (conversation : SnapshotPayload) : AgentConversationSnapshot :=
  let preferences := nl_context_preferences conversation in
  mkSnapshot (nl_id conversation) (nl_title conversation) (nl_messages conversation ?? []) (nl_provider conversation)
    (mkPreferences (mbind fl_widget_context_enabled preferences ?? true) (Some (mbind fl_widget_ids preferences ?? [])))
    (nl_created_at conversation) (nl_updated_at conversation) (nl_archived_at conversation).

Definition normalizeConversationSummary (conversation : AgentConversationSummary) : AgentConversationSummary :=
  mkSummary (trimmed (sm_archived_at conversation)) (sm_id conversation) (sm_title conversation)
    (sm_created_at conversation) (sm_updated_at conversation) (sm_message_count conversation).

Definition normalizeConversationList (payload : ListPayload) : AgentConversationList :=
  mkConversationList (ll_active_conversation_id payload)
    (mkCounts (mbind tl_recent (ll_counts payload) ?? 0) (mbind tl_archived (ll_counts payload) ?? 0)
       (mbind tl_all (ll_counts payload) ?? 0))
    (normalizeConversationSummary <$> (ll_conversations payload ?? [])).

(** ** Bodies *)

Definition attachmentJson (a : AgentAttachmentReference) : Json :=
  jobject [("id", jtext (at_id a)); ("name", jtext (at_name a)); ("path", jtext (at_path a));
           ("mime_type", jtext (at_mime_type a)); ("size", jnumber (at_size a));
           ("modified_time", jnumber (at_modified_time a))].
Definition contextJson (c : ConversationContext) : Json :=
  jobject [("action_source", jtext (cc_action_source c)); ("active_widget_id", jtext (cc_active_widget_id c));
           ("repo_root", jtext (cc_repo_root c)); ("target_connection_id", jtextOpt (cc_target_connection_id c));
           ("target_session", jtextOpt (cc_target_session c));
           ("widget_context_enabled", jbool (cc_widget_context_enabled c));
           ("widget_ids", cc_widget_ids c ≫= jtexts)].
Definition toolContextJson (c : ToolContext) : Json :=
  jobject [("action_source", jtext (tx_action_source c)); ("active_widget_id", jtext (tx_active_widget_id c));
           ("repo_root", jtext (tx_repo_root c)); ("target_connection_id", jtextOpt (tx_target_connection_id c));
           ("target_session", jtextOpt (tx_target_session c))].
Definition preferencesJson (p : AgentConversationContextPreferences) : Json :=
  jobject [("widget_context_enabled", jbool (cx_widget_context_enabled p)); ("widget_ids", cx_widget_ids p ≫= jtexts)].

(** A prompt, as it is sent and as it is streamed. *)
Record PromptInput := mkPromptInput {
  ip_prompt : string;
  ip_model : option string;
  ip_attachments : option (list AgentAttachmentReference);
  ip_context : ConversationContext
}.
Definition attachmentsJson (l : list AgentAttachmentReference) : Json := JArray (attachmentJson <$> l).
Definition messageJson (input : PromptInput) : Json :=
  jobject [("attachments", attachmentsJson <$> ip_attachments input); ("context", Some (contextJson (ip_context input)));
           ("model", jtextOpt (ip_model input)); ("prompt", jtext (ip_prompt input))].
Definition streamJson (input : PromptInput) : Json :=
  jobject [("prompt", jtext (ip_prompt input)); ("model", jtextOpt (ip_model input));
           ("attachments", attachmentsJson <$> ip_attachments input); ("context", Some (contextJson (ip_context input)))].

Definition toolName (input : ToolInput) : string :=
  match input with SendInput _ _ _ => "term.send_input" | SafetyConfirm _ => "safety.confirm" end.
Definition toolInputJson (input : ToolInput) : Json :=
  match input with
  | SendInput append_newline text widget_id =>
      jobject [("append_newline", jbool append_newline); ("text", jtext text); ("widget_id", jtext widget_id)]
  | SafetyConfirm approval_id => jobject [("approval_id", jtext approval_id)]
  end.

Record ExplainInput := mkExplainInput {
  ix_command : string;
  ix_command_audit_event_id : option string;
  ix_context : ConversationContext;
  ix_execution_block_id : option string;
  ix_from_seq : Z;
  ix_prompt : string;
  ix_widget_id : string
}.
Record PlanInput := mkPlanInput {
  il_context : ConversationContext;
  il_model : option string;
  il_prompt : string;
  il_widget_id : string
}.
Record AttachmentInput := mkAttachmentInput {
  ia_path : string;
  ia_workspace_id : option string;
  ia_action_source : option string
}.

(** ** Requests *)

Definition agentClient : ApiClient := mkClient (Some "AgentAPIError") "agent_request_failed" "Agent request failed".
Definition fetchRuntimeJSON (T : Set) := fetchJSON agentClient T.

Definition showScope (scope : AgentConversationListScope) : string :=
  match scope with ScopeRecent => "recent" | ScopeArchived => "archived" | ScopeAll => "all" end.

Definition toolClient : ApiClient := mkClient (Some "AgentAPIError") "tool_execute_failed" "Tool execution failed".

Definition conversationsPath (conversationID suffix : string) : string :=
  "/api/v1/agent/conversations/" +:+ encodeURIComponent conversationID +:+ suffix.

Section Client.
Context `{!RuntimeHost}.

Definition requestRuntimeJSON (T : Set) (path : string) (init : RequestInit) : Web T :=
  runtimeContext <- resolveRuntimeContext ;;
  fetchRuntimeJSON T runtimeContext path init.
Definition postRuntimeJSON (T : Set) (path : string) (body : Json) : Web T :=
  requestRuntimeJSON T path (withBody "POST" body).
Definition putRuntimeJSON (T : Set) (path : string) (body : Json) : Web T :=
  requestRuntimeJSON T path (withBody "PUT" body).

(** The payload of the answer is its body if that is an object whose [status]
    is a text, whatever the status of the answer. *)
Definition postToolExecution (body : Json) : Web AgentToolExecuteResponse :=
  runtimeContext <- resolveRuntimeContext ;;
  response <- await (Fetch AgentToolExecuteResponse
    (toRequest runtimeContext "/api/v1/tools/execute" (withBody "POST" body))) ;;
  match hr_payload response with
  | inl payload => Ret payload
  | inr _ => Throw (responseError toolClient response)
  end.

Definition fetchAgentCatalog : Web AgentCatalog := requestRuntimeJSON AgentCatalog "/api/v1/agent" noInit.

(** The answers that hold a conversation. *)
Definition conversationOf (request : Web SnapshotPayload) : Web AgentConversationSnapshot :=
  conversation <- request ;; Ret (normalizeConversationSnapshot conversation).

Definition fetchAgentConversation : Web AgentConversationSnapshot :=
  conversationOf (requestRuntimeJSON SnapshotPayload "/api/v1/agent/conversation" noInit).

Definition conversationsParams (query : option string) (scope : option AgentConversationListScope) : SearchParams :=
  setTrimmed "scope" (showScope <$> scope) (setTrimmed "query" query []).

Definition fetchAgentConversations (query : option string) (scope : option AgentConversationListScope)
    : Web AgentConversationList :=
  payload <- requestRuntimeJSON ListPayload
    ("/api/v1/agent/conversations" +:+ querySuffix (conversationsParams query scope)) noInit ;;
  Ret (normalizeConversationList payload).

Definition createAgentConversation : Web AgentConversationSnapshot :=
  conversationOf (postRuntimeJSON SnapshotPayload "/api/v1/agent/conversations" (jobject [])).

Definition renameAgentConversation (conversationID title : string) : Web AgentConversationSnapshot :=
  conversationOf (requestRuntimeJSON SnapshotPayload (conversationsPath conversationID "")
    (withBody "PATCH" (jobject [("title", jtext title)]))).

Definition deleteAgentConversation (conversationID : string) : Web AgentConversationSnapshot :=
  conversationOf (requestRuntimeJSON SnapshotPayload (conversationsPath conversationID "")
    (mkInit (Some "DELETE") None)).

Definition archiveAgentConversation (conversationID : string) : Web AgentConversationSnapshot :=
  conversationOf (requestRuntimeJSON SnapshotPayload (conversationsPath conversationID "/archive")
    (mkInit (Some "PUT") None)).

Definition restoreAgentConversation (conversationID : string) : Web AgentConversationSnapshot :=
  conversationOf (requestRuntimeJSON SnapshotPayload (conversationsPath conversationID "/restore")
    (mkInit (Some "PUT") None)).

Definition activateAgentConversation (conversationID : string) : Web AgentConversationSnapshot :=
  conversationOf (requestRuntimeJSON SnapshotPayload (conversationsPath conversationID "/activate")
    (mkInit (Some "PUT") None)).

Definition updateAgentConversationContext (conversationID : string) (preferences : AgentConversationContextPreferences)
    : Web AgentConversationSnapshot :=
  conversationOf (putRuntimeJSON SnapshotPayload (conversationsPath conversationID "/context")
    (preferencesJson preferences)).

Definition sendAgentConversationMessage (input : PromptInput) : Web AgentConversationResponse :=
  postRuntimeJSON AgentConversationResponse "/api/v1/agent/conversation/messages" (messageJson input).

Definition attachmentsPath : string := "/api/v1/agent/conversation/attachments/references".

Definition createAgentAttachmentReference (input : AttachmentInput) : Web AgentAttachmentReference :=
  postRuntimeJSON AgentAttachmentReference attachmentsPath
    (jobject [("path", jtext (ia_path input)); ("workspace_id", jtextOpt (ia_workspace_id input));
              ("action_source", jtextOpt (ia_action_source input))]).

Definition fetchAgentAttachmentReferences : Web (list AgentAttachmentReference) :=
  attachments <- requestRuntimeJSON (option (list AgentAttachmentReference)) attachmentsPath noInit ;;
  Ret (attachments ?? []).

Definition deleteAgentAttachmentReference (attachmentID : string) : Web unit :=
  runtimeContext <- resolveRuntimeContext ;;
  fetchRuntimeJSON unit runtimeContext (attachmentsPath +:+ "/" +:+ encodeURIComponent attachmentID)
    (mkInit (Some "DELETE") None).

Definition executeAgentTool (approval_token : option string) (context : ToolContext) (input : ToolInput)
    : Web AgentToolExecuteResponse :=
  postToolExecution
    (jobject [("approval_token", jtextOpt approval_token); ("context", Some (toolContextJson context));
              ("input", Some (toolInputJson input)); ("tool_name", jtext (toolName input))]).

Definition explainTerminalCommand (input : ExplainInput) : Web ExplainTerminalCommandResponse :=
  postRuntimeJSON ExplainTerminalCommandResponse "/api/v1/agent/terminal-commands/explain"
    (jobject [("command", jtext (ix_command input));
              ("command_audit_event_id", jtextOpt (ix_command_audit_event_id input));
              ("context", Some (contextJson (ix_context input)));
              ("execution_block_id", jtextOpt (ix_execution_block_id input));
              ("from_seq", jnumber (ix_from_seq input)); ("prompt", jtext (ix_prompt input));
              ("widget_id", jtext (ix_widget_id input))]).

Definition planTerminalCommand (input : PlanInput) : Web PlanTerminalCommandResponse :=
  postRuntimeJSON PlanTerminalCommandResponse "/api/v1/agent/terminal-commands/plan"
    (jobject [("context", Some (contextJson (il_context input))); ("model", jtextOpt (il_model input));
              ("prompt", jtext (il_prompt input)); ("widget_id", jtext (il_widget_id input))]).

Definition setAgentProfile (id : string) : Web AgentCatalog :=
  putRuntimeJSON AgentCatalog "/api/v1/agent/selection/profile" (jobject [("id", jtext id)]).
Definition setAgentRole (id : string) : Web AgentCatalog :=
  putRuntimeJSON AgentCatalog "/api/v1/agent/selection/role" (jobject [("id", jtext id)]).
Definition setAgentMode (id : string) : Web AgentCatalog :=
  putRuntimeJSON AgentCatalog "/api/v1/agent/selection/mode" (jobject [("id", jtext id)]).

End Client.

(** ** The connection of a stream *)

(** What the connection keeps; [sk_aborted] is the abort of the [fetch]. *)
Record StreamConnection := mkStreamConnection {
  sk_activeStreamID : string;
  sk_streamId : option string;
  sk_cancelRequested : bool;
  sk_aborted : bool
}.
Definition newConnection : StreamConnection := mkStreamConnection "" None false false.

Definition streamClient : ApiClient := mkClient (Some "AgentAPIError") "agent_stream_failed" "Agent stream failed".

Definition streamRequest (context : RuntimeContext) (input : PromptInput) : HttpRequest :=
  toRequest context "/api/v1/agent/conversation/messages/stream" (withBody "POST" (streamJson input)).

(** The answer, with whether it has a body and the header of the stream's id. *)
Definition onStreamResponse (response : HttpResponse unit) (hasBody : bool) (header : option string)
    (c : StreamConnection) : StreamConnection + ApiError :=
  if negb (hr_ok response) then inr (responseError streamClient response)
  else if negb hasBody then inr (PlainError "Agent stream response did not provide a readable body")
  else
    let activeStreamID := (trimText <$> header) ?? "" in
    inl (mkStreamConnection activeStreamID (truthyOpt (Some activeStreamID)) (sk_cancelRequested c) (sk_aborted c)).

(** The [stream_id] of an event. *)
Definition onStreamId (stream_id : option string) (c : StreamConnection) : StreamConnection :=
  match trimmed stream_id with
  | Some eventStreamID => mkStreamConnection eventStreamID (Some eventStreamID) (sk_cancelRequested c) (sk_aborted c)
  | None => c
  end.

Definition abortStream (c : StreamConnection) : StreamConnection :=
  mkStreamConnection (sk_activeStreamID c) (sk_streamId c) (sk_cancelRequested c) true.

(** [cancel] up to its request: the path of the request that it awaits. *)
Definition cancelStream (c : StreamConnection) : StreamConnection * option string :=
  if sk_cancelRequested c then (c, None)
  else
    let c := mkStreamConnection (sk_activeStreamID c) (sk_streamId c) true (sk_aborted c) in
    let streamID := trimText (sk_activeStreamID c) in
    if truthy streamID
    then (c, Some ("/api/v1/agent/conversation/streams/" +:+ encodeURIComponent streamID +:+ "/cancel"))
    else (abortStream c, None).

(** What the stream's promise throws; an abort is no error. *)
Definition streamError (isAbortError : bool) (error : ApiError) : option ApiError :=
  if isAbortError then None else Some error.
