(* ===== verification/TerminalApi.v ===== *)
(** * The client of the terminal API

    [frontend/src/features/terminal/api/client.ts] without the framing of
    streams, which is in [Sse].  Its answers are checked by schemas of the zod
    library, which is the class [Zod]: what a schema accepts, for the parts that
    the client uses.  Numbers of this API are integers. *)
From Stdlib Require Import Ascii String QArith Qround.
From stdpp Require Import strings.
From S2P Require Import Prelude JsString Text Number Url Effects TerminalSession Http ProviderApi.
Local Open Scope string_scope.
Local Open Scope list_scope.
Local Open Scope Z_scope.
Local Open Scope js_scope.
Local Open Scope prog_scope.

(** ** Schemas *)

(** [z.string()], [z.number()], [z.boolean()], [z.array(s)], [s.optional()],
    [s.nullable()] and [z.object(shape).passthrough()]. *)
Inductive Schema :=
  | ZString
  | ZNumber
  | ZBoolean
  | ZArray (s : Schema)
  | ZOptional (s : Schema)
  | ZNullable (s : Schema)
  | ZObject (shape : list (string * Schema)).

Definition property (fields : list (string * Json)) (name : string) : option Json :=
  snd <$> find (fun p => bool_decide (p.1 = name)) fields.

(** [schema.safeParse(value).success]; [None] is [undefined].  These schemas
    transform nothing, so the data of a success is the value. *)
Class Zod := {
  safeParse : Schema -> option Json -> bool;
  zod_string v : safeParse ZString v = true <-> exists s, v = Some (JString s);
  zod_number v : safeParse ZNumber v = true -> exists n, v = Some (JNumber n);
  zod_finite q : safeParse ZNumber (Some (JNumber (Finite q))) = true;
  zod_boolean v : safeParse ZBoolean v = true <-> exists b, v = Some (JBool b);
  zod_array s v : safeParse (ZArray s) v = true <->
    exists l, v = Some (JArray l) /\ Forall (fun x => safeParse s (Some x) = true) l;
  zod_optional s v : safeParse (ZOptional s) v = true <-> v = None \/ safeParse s v = true;
  zod_nullable s v : safeParse (ZNullable s) v = true <-> v = Some JNull \/ safeParse s v = true;
  zod_object shape v : safeParse (ZObject shape) v = true <->
    exists fields, v = Some (JObject fields) /\
      Forall (fun p => safeParse p.2 (property fields p.1) = true) shape
}.

Definition terminalRuntimeStateSchema : Schema := ZObject
  [("widget_id", ZString); ("session_id", ZString); ("shell", ZString); ("restored", ZOptional ZBoolean);
   ("status_detail", ZOptional ZString); ("connection_id", ZOptional ZString);
   ("connection_name", ZOptional ZString); ("connection_kind", ZOptional ZString);
   ("remote_launch_mode", ZOptional ZString); ("remote_session_name", ZOptional ZString); ("pid", ZNumber);
   ("status", ZString); ("started_at", ZString); ("last_output_at", ZOptional ZString);
   ("exit_code", ZOptional ZNumber); ("can_send_input", ZBoolean); ("can_interrupt", ZBoolean);
   ("working_dir", ZOptional ZString)].

Definition terminalOutputChunkSchema : Schema := ZObject
  [("seq", ZNumber); ("data", ZString); ("timestamp", ZString)].

Definition terminalSnapshotSchema : Schema := ZObject
  [("state", terminalRuntimeStateSchema); ("chunks", ZOptional (ZNullable (ZArray terminalOutputChunkSchema)));
   ("next_seq", ZNumber); ("active_session_id", ZOptional ZString);
   ("sessions", ZOptional (ZArray terminalRuntimeStateSchema))].

Definition terminalDiagnosticsSchema : Schema := ZObject
  [("widget_id", ZString); ("session_state", ZString); ("status_detail", ZOptional ZString);
   ("issue_summary", ZOptional ZString); ("output_excerpt", ZOptional ZString)].

Definition terminalLatestCommandSchema : Schema := ZObject
  [("widget_id", ZString); ("session_id", ZString); ("command", ZString); ("from_seq", ZNumber);
   ("submitted_at", ZString); ("output_excerpt", ZOptional ZString); ("status", ZString);
   ("status_detail", ZOptional ZString); ("exit_code", ZOptional ZNumber);
   ("command_audit_event_id", ZOptional ZString); ("execution_block_id", ZOptional ZString);
   ("explain_state", ZOptional ZString); ("explain_summary", ZOptional ZString)].

Definition terminalSessionCatalogEntrySchema : Schema := ZObject
  [("workspace_id", ZString); ("workspace_name", ZString); ("tab_id", ZOptional ZString);
   ("tab_title", ZOptional ZString); ("widget_id", ZString); ("widget_title", ZString); ("session_id", ZString);
   ("connection_id", ZOptional ZString); ("connection_kind", ZOptional ZString);
   ("connection_name", ZOptional ZString); ("remote_launch_mode", ZOptional ZString);
   ("remote_session_name", ZOptional ZString); ("shell", ZString); ("status", ZString);
   ("status_detail", ZOptional ZString); ("working_dir", ZOptional ZString); ("is_active_workspace", ZBoolean);
   ("is_active_tab", ZBoolean); ("is_active_widget", ZBoolean); ("is_active_session", ZBoolean)].

Definition terminalSessionCatalogSchema : Schema := ZObject
  [("active_workspace_id", ZOptional ZString); ("sessions", ZOptional (ZArray terminalSessionCatalogEntrySchema))].

Definition terminalShellOptionSchema : Schema := ZObject
  [("path", ZString); ("name", ZString); ("default", ZOptional ZBoolean)].

Definition terminalShellsResponseSchema : Schema := ZObject
  [("shells", ZOptional (ZArray terminalShellOptionSchema))].

Definition terminalInputResultSchema : Schema := ZObject
  [("widget_id", ZString); ("bytes_sent", ZNumber); ("append_newline", ZBoolean)].

Definition terminalStateEnvelopeSchema : Schema := ZObject [("state", terminalRuntimeStateSchema)].

(** ** Reading values as the types of the client *)

Record TerminalDiagnostics := mkDiagnostics {
  dg_widget_id : string;
  dg_session_state : string;
  dg_status_detail : option string;
  dg_issue_summary : option string;
  dg_output_excerpt : option string
}.

Record TerminalLatestCommand := mkLatestCommand {
  lc_widget_id : string;
  lc_session_id : string;
  lc_command : string;
  lc_from_seq : Z;
  lc_submitted_at : string;
  lc_output_excerpt : option string;
  lc_status : string;
  lc_status_detail : option string;
  lc_exit_code : option Z;
  lc_command_audit_event_id : option string;
  lc_execution_block_id : option string;
  lc_explain_state : option string;
  lc_explain_summary : option string
}.

Record TerminalSessionCatalogEntry := mkCatalogEntry {
  te_workspace_id : string;
  te_workspace_name : string;
  te_tab_id : option string;
  te_tab_title : option string;
  te_widget_id : string;
  te_widget_title : string;
  te_session_id : string;
  te_connection_id : option string;
  te_connection_kind : option string;
  te_connection_name : option string;
  te_remote_launch_mode : option string;
  te_remote_session_name : option string;
  te_shell : string;
  te_status : string;
  te_status_detail : option string;
  te_working_dir : option string;
  te_is_active_workspace : bool;
  te_is_active_tab : bool;
  te_is_active_widget : bool;
  te_is_active_session : bool
}.

Record TerminalSessionCatalog := mkSessionCatalog {
  tg_active_workspace_id : option string;
  tg_sessions : list TerminalSessionCatalogEntry
}.

Record TerminalInputResult := mkInputResult { ir_widget_id : string; ir_bytes_sent : Z; ir_append_newline : bool }.

Definition readText (v : option Json) : option string := match v with Some (JString s) => Some s | _ => None end.
Definition readBool (v : option Json) : option bool := match v with Some (JBool b) => Some b | _ => None end.
Definition readInteger (v : option Json) : option Z :=
  match v with
  | Some (JNumber n) => Some (match finite n with Some q => Qfloor q | None => 0 end)
  | _ => None
  end.
Definition readOptional {A} (read : option Json -> option A) (v : option Json) : option (option A) :=
  match v with None => Some None | Some _ => Some <$> read v end.
Definition readList {A} (read : Json -> option A) (v : option Json) : option (list A) :=
  match v with Some (JArray l) => mapM read l | _ => None end.
Definition fieldsOf (v : Json) : option (list (string * Json)) := match v with JObject fields => Some fields | _ => None end.

Definition readChunk (v : Json) : option TerminalOutputChunk :=
  o ← fieldsOf v;
  seq ← readInteger (property o "seq");
  data ← readText (property o "data");
  timestamp ← readText (property o "timestamp");
  Some (mkChunk seq data timestamp).

Definition readRuntimeState (v : Json) : option TerminalRuntimeState :=
  o ← fieldsOf v;
  widget_id ← readText (property o "widget_id");
  session_id ← readText (property o "session_id");
  shell ← readText (property o "shell");
  restored ← readOptional readBool (property o "restored");
  status_detail ← readOptional readText (property o "status_detail");
  connection_id ← readOptional readText (property o "connection_id");
  connection_name ← readOptional readText (property o "connection_name");
  connection_kind ← readOptional readText (property o "connection_kind");
  remote_launch_mode ← readOptional readText (property o "remote_launch_mode");
  remote_session_name ← readOptional readText (property o "remote_session_name");
  pid ← readInteger (property o "pid");
  status ← readText (property o "status");
  started_at ← readText (property o "started_at");
  last_output_at ← readOptional readText (property o "last_output_at");
  exit_code ← readOptional readInteger (property o "exit_code");
  can_send_input ← readBool (property o "can_send_input");
  can_interrupt ← readBool (property o "can_interrupt");
  working_dir ← readOptional readText (property o "working_dir");
  Some (mkRuntime widget_id session_id shell restored status_detail connection_id connection_name connection_kind
    remote_launch_mode remote_session_name pid status started_at last_output_at exit_code can_send_input
    can_interrupt working_dir).

(** The fields of a snapshot that are not normalised. *)
Definition readSnapshot (v : Json) : option (TerminalRuntimeState * Z * option string) :=
  o ← fieldsOf v;
  state ← property o "state" ≫= readRuntimeState;
  next_seq ← readInteger (property o "next_seq");
  active_session_id ← readOptional readText (property o "active_session_id");
  Some (state, next_seq, active_session_id).

Definition readDiagnostics (v : Json) : option TerminalDiagnostics :=
  o ← fieldsOf v;
  widget_id ← readText (property o "widget_id");
  session_state ← readText (property o "session_state");
  status_detail ← readOptional readText (property o "status_detail");
  issue_summary ← readOptional readText (property o "issue_summary");
  output_excerpt ← readOptional readText (property o "output_excerpt");
  Some (mkDiagnostics widget_id session_state status_detail issue_summary output_excerpt).

Definition readLatestCommand (v : Json) : option TerminalLatestCommand :=
  o ← fieldsOf v;
  widget_id ← readText (property o "widget_id");
  session_id ← readText (property o "session_id");
  command ← readText (property o "command");
  from_seq ← readInteger (property o "from_seq");
  submitted_at ← readText (property o "submitted_at");
  output_excerpt ← readOptional readText (property o "output_excerpt");
  status ← readText (property o "status");
  status_detail ← readOptional readText (property o "status_detail");
  exit_code ← readOptional readInteger (property o "exit_code");
  command_audit_event_id ← readOptional readText (property o "command_audit_event_id");
  execution_block_id ← readOptional readText (property o "execution_block_id");
  explain_state ← readOptional readText (property o "explain_state");
  explain_summary ← readOptional readText (property o "explain_summary");
  Some (mkLatestCommand widget_id session_id command from_seq submitted_at output_excerpt status status_detail
    exit_code command_audit_event_id execution_block_id explain_state explain_summary).

Definition readCatalogEntry (v : Json) : option TerminalSessionCatalogEntry :=
  o ← fieldsOf v;
  workspace_id ← readText (property o "workspace_id");
  workspace_name ← readText (property o "workspace_name");
  tab_id ← readOptional readText (property o "tab_id");
  tab_title ← readOptional readText (property o "tab_title");
  widget_id ← readText (property o "widget_id");
  widget_title ← readText (property o "widget_title");
  session_id ← readText (property o "session_id");
  connection_id ← readOptional readText (property o "connection_id");
  connection_kind ← readOptional readText (property o "connection_kind");
  connection_name ← readOptional readText (property o "connection_name");
  remote_launch_mode ← readOptional readText (property o "remote_launch_mode");
  remote_session_name ← readOptional readText (property o "remote_session_name");
  shell ← readText (property o "shell");
  status ← readText (property o "status");
  status_detail ← readOptional readText (property o "status_detail");
  working_dir ← readOptional readText (property o "working_dir");
  is_active_workspace ← readBool (property o "is_active_workspace");
  is_active_tab ← readBool (property o "is_active_tab");
  is_active_widget ← readBool (property o "is_active_widget");
  is_active_session ← readBool (property o "is_active_session");
  Some (mkCatalogEntry workspace_id workspace_name tab_id tab_title widget_id widget_title session_id connection_id
    connection_kind connection_name remote_launch_mode remote_session_name shell status status_detail working_dir
    is_active_workspace is_active_tab is_active_widget is_active_session).

Definition readCatalog (v : Json) : option TerminalSessionCatalog :=
  o ← fieldsOf v;
  active_workspace_id ← readOptional readText (property o "active_workspace_id");
  sessions ← readOptional (readList readCatalogEntry) (property o "sessions");
  Some (mkSessionCatalog active_workspace_id (sessions ?? [])).

Definition readShell (v : Json) : option TerminalShellOption :=
  o ← fieldsOf v;
  path ← readText (property o "path");
  name ← readText (property o "name");
  isDefault ← readOptional readBool (property o "default");
  Some (mkShell path name isDefault).

Definition readShells (v : Json) : option (list TerminalShellOption) :=
  o ← fieldsOf v;
  shells ← readOptional (readList readShell) (property o "shells");
  Some (shells ?? []).

Definition readInputResult (v : Json) : option TerminalInputResult :=
  o ← fieldsOf v;
  widget_id ← readText (property o "widget_id");
  bytes_sent ← readInteger (property o "bytes_sent");
  append_newline ← readBool (property o "append_newline");
  Some (mkInputResult widget_id bytes_sent append_newline).

Definition readEnvelope (v : Json) : option TerminalRuntimeState :=
  o ← fieldsOf v; property o "state" ≫= readRuntimeState.

(** ** Requests *)

Definition terminalClient : ApiClient := mkClient (Some "TerminalAPIError") "terminal_request_failed" "Terminal request failed".
Definition fetchRuntimeJSON (T : Set) := fetchJSON terminalClient T.

Definition buildTerminalPath (widgetID suffix : string) (from : option Z) : string :=
  let basePath := "/api/v1/terminal/" +:+ encodeURIComponent widgetID +:+ suffix in
  match from with
  | None => basePath
  | Some n => basePath +:+ "?from=" +:+ encodeURIComponent (showZ n)
  end.

Section Client.
Context `{!RuntimeHost} `{!Zod}.

(** A value that the schema accepts is returned as the type that it is read as. *)
Definition parseWithSchema {T} (schema : Schema) (read : Json -> option T) (payload : Json) (message : string) : Web T :=
  if safeParse schema (Some payload) then
    match read payload with Some data => Ret data | None => Throw OtherThrow end
  else Throw (PlainError message).

(** The elements of an array one after the other, with their index. *)
Fixpoint parseElements {T} (schema : Schema) (read : Json -> option T) (what : string) (index : nat) (l : list Json)
    : Web (list T) :=
  match l with
  | [] => Ret []
  | x :: l =>
      y <- parseWithSchema schema read x ("Invalid " +:+ what +:+ " at index " +:+ showNat index +:+ ".") ;;
      ys <- parseElements schema read what (S index) l ;;
      Ret (y :: ys)
  end.

(** [Array.isArray(value) ? ... : []] *)
Definition arrayOf (v : option Json) : list Json := match v with Some (JArray l) => l | _ => [] end.

Definition normalizeTerminalChunks (chunks : option Json) : Web (list TerminalOutputChunk) :=
  parseElements terminalOutputChunkSchema readChunk "terminal output chunk" 0 (arrayOf chunks).

Definition normalizeTerminalSessions (sessions : option Json) : Web (list TerminalRuntimeState) :=
  parseElements terminalRuntimeStateSchema readRuntimeState "terminal session state" 0 (arrayOf sessions).

Definition normalizeTerminalSnapshot (snapshot : Json) : Web TerminalSnapshot :=
  parsedSnapshot <- parseWithSchema terminalSnapshotSchema readSnapshot snapshot "Invalid terminal snapshot payload." ;;
  let '(state, next_seq, active_session_id) := parsedSnapshot in
  let fields := fieldsOf snapshot ?? [] in
  sessions <- normalizeTerminalSessions (property fields "sessions") ;;
  chunks <- normalizeTerminalChunks (property fields "chunks") ;;
  Ret (mkTermSnapshot state (Some chunks) next_seq active_session_id (Some sessions)).

Definition requestRuntimeJSON (T : Set) (path : string) (init : RequestInit) : Web T :=
  runtimeContext <- resolveRuntimeContext ;;
  fetchRuntimeJSON T runtimeContext path init.

Definition fetchTerminalSnapshot (widgetID : string) (from : option Z) : Web TerminalSnapshot :=
  snapshot <- requestRuntimeJSON Json (buildTerminalPath widgetID "" from) noInit ;;
  normalizeTerminalSnapshot snapshot.

Definition createTerminalSession (widgetID : string) : Web TerminalSnapshot :=
  snapshot <- requestRuntimeJSON Json (buildTerminalPath widgetID "/sessions" None) post ;;
  normalizeTerminalSnapshot snapshot.

Definition setActiveTerminalSession (widgetID sessionID : string) : Web TerminalSnapshot :=
  snapshot <- requestRuntimeJSON Json (buildTerminalPath widgetID "/sessions/active" None)
    (withBody "PUT" (jobject [("session_id", jtext sessionID)])) ;;
  normalizeTerminalSnapshot snapshot.

Definition closeTerminalSession (widgetID sessionID : string) : Web TerminalSnapshot :=
  snapshot <- requestRuntimeJSON Json
    (buildTerminalPath widgetID ("/sessions/" +:+ encodeURIComponent sessionID) None) (mkInit (Some "DELETE") None) ;;
  normalizeTerminalSnapshot snapshot.

Definition fetchTerminalDiagnostics (widgetID : string) : Web TerminalDiagnostics :=
  payload <- requestRuntimeJSON Json (buildTerminalPath widgetID "/diagnostics" None) noInit ;;
  parseWithSchema terminalDiagnosticsSchema readDiagnostics payload "Invalid terminal diagnostics payload.".

Definition fetchTerminalLatestCommand (widgetID : string) : Web TerminalLatestCommand :=
  payload <- requestRuntimeJSON Json (buildTerminalPath widgetID "/commands/latest" None) noInit ;;
  parseWithSchema terminalLatestCommandSchema readLatestCommand payload "Invalid terminal latest-command payload.".

Definition fetchTerminalSessionCatalog : Web TerminalSessionCatalog :=
  payload <- requestRuntimeJSON Json "/api/v1/terminal/sessions" noInit ;;
  parseWithSchema terminalSessionCatalogSchema readCatalog payload "Invalid terminal session catalog payload.".

Definition fetchTerminalShells : Web (list TerminalShellOption) :=
  payload <- requestRuntimeJSON Json "/api/v1/terminal/shells" noInit ;;
  parseWithSchema terminalShellsResponseSchema readShells payload "Invalid terminal shells payload.".

(** [CreateTerminalTabResult]: a tab and a widget; the result of closing a tab
    is its id. *)
Definition createTerminalTab (title : option string) : Web (string * string) :=
  requestRuntimeJSON (string * string) "/api/v1/workspace/tabs"
    (withBody "POST" (if trimmed title then jobject [("title", jtextOpt title)] else jobject [])).

Record CreateSplitTerminalWidgetInput := mkSplitInput {
  it_connectionId : option string;
  it_direction : option string;
  it_tabId : option string;
  it_targetWidgetId : string;
  it_title : option string;
  it_workingDir : option string
}.

Definition createSplitTerminalWidget (input : CreateSplitTerminalWidgetInput) : Web (string * string) :=
  requestRuntimeJSON (string * string) "/api/v1/workspace/widgets/split"
    (withBody "POST"
      (jobject [("connection_id", jtextOpt (it_connectionId input)); ("direction", jtext (it_direction input ?? "right"));
                ("tab_id", jtextOpt (it_tabId input)); ("target_widget_id", jtext (it_targetWidgetId input));
                ("title", jtextOpt (it_title input)); ("working_dir", jtextOpt (it_workingDir input))])).

Definition closeTerminalTab (tabID : string) : Web string :=
  requestRuntimeJSON string ("/api/v1/workspace/tabs/" +:+ encodeURIComponent tabID) (mkInit (Some "DELETE") None).

Definition sendTerminalInput (widgetID text : string) (appendNewline : bool) : Web TerminalInputResult :=
  payload <- requestRuntimeJSON Json (buildTerminalPath widgetID "/input" None)
    (withBody "POST" (jobject [("text", jtext text); ("append_newline", jbool appendNewline)])) ;;
  parseWithSchema terminalInputResultSchema readInputResult payload "Invalid terminal input result payload.".

Definition restartTerminal (widgetID : string) (shell : option string) : Web TerminalRuntimeState :=
  payload <- requestRuntimeJSON Json (buildTerminalPath widgetID "/restart" None)
    (if trimmed shell then withBody "POST" (jobject [("shell", jtextOpt shell)]) else post) ;;
  parseWithSchema terminalStateEnvelopeSchema readEnvelope payload "Invalid terminal restart payload.".

Definition interruptTerminal (widgetID : string) : Web TerminalRuntimeState :=
  payload <- requestRuntimeJSON Json (buildTerminalPath widgetID "/interrupt" None) post ;;
  parseWithSchema terminalStateEnvelopeSchema readEnvelope payload "Invalid terminal interrupt payload.".

(** The request of a stream, which is sent when the stream is already there. *)
Definition streamRequest (context : RuntimeContext) (widgetID : string) (from : option Z) : HttpRequest :=
  mkRequest "GET" (cx_baseUrl context +:+ buildTerminalPath widgetID "/stream" from)
    [authorization (cx_authToken context)] None.

Definition streamClient : ApiClient := mkClient (Some "TerminalAPIError") "terminal_stream_failed" "Terminal stream failed".

(** What its answer makes the stream fail with. *)
Definition onStreamResponse (response : HttpResponse unit) (hasBody : bool) : option ApiError :=
  if negb (hr_ok response) then Some (responseError streamClient response)
  else if negb hasBody then Some (PlainError "Terminal stream response did not provide a readable body")
  else None.

End Client.

(** ** The requests of a terminal session *)

(** The call behind a request of [TerminalSession]; [connectTerminalStream]
    waits for the runtime context only. *)
Definition serveTerminal `{!RuntimeHost} `{!Zod} {A : Set} (r : TerminalRequest A) : Web A :=
  match r in TerminalRequest A return Web A with
  | FetchSnapshot w => fetchTerminalSnapshot w None
  | ConnectStream _ _ => _ <- resolveRuntimeContext ;; Ret tt
  | RestartTerminal w shell => _ <- restartTerminal w shell ;; Ret tt
  | CreateTerminalSession w => _ <- createTerminalSession w ;; Ret tt
  | SetActiveTerminalSession w id => _ <- setActiveTerminalSession w id ;; Ret tt
  | CloseTerminalSession w id => _ <- closeTerminalSession w id ;; Ret tt
  | InterruptTerminal w => interruptTerminal w
  | FetchTerminalShells => fetchTerminalShells
  | SendTerminalInput w text => _ <- sendTerminalInput w text false ;; Ret tt
  end.

(** The schemas, each with the reading of the values that it accepts. *)
Inductive reader : Schema -> forall A : Type, (Json -> option A) -> Prop :=
  | reads_state : reader terminalRuntimeStateSchema _ readRuntimeState
  | reads_chunk : reader terminalOutputChunkSchema _ readChunk
  | reads_snapshot : reader terminalSnapshotSchema _ readSnapshot
  | reads_diagnostics : reader terminalDiagnosticsSchema _ readDiagnostics
  | reads_latest_command : reader terminalLatestCommandSchema _ readLatestCommand
  | reads_catalog_entry : reader terminalSessionCatalogEntrySchema _ readCatalogEntry
  | reads_catalog : reader terminalSessionCatalogSchema _ readCatalog
  | reads_shell : reader terminalShellOptionSchema _ readShell
  | reads_shells : reader terminalShellsResponseSchema _ readShells
  | reads_input_result : reader terminalInputResultSchema _ readInputResult
  | reads_envelope : reader terminalStateEnvelopeSchema _ readEnvelope.

(** A validator, for the examples: the meaning that the laws of [Zod] describe. *)
Fixpoint accepts (s : Schema) (v : option Json) : bool :=
  match s with
  | ZString => if readText v then true else false
  | ZNumber => match v with Some (JNumber (Finite _)) => true | _ => false end
  | ZBoolean => if readBool v then true else false
  | ZArray s => match v with Some (JArray l) => forallb (fun x => accepts s (Some x)) l | _ => false end
  | ZOptional s => if v then accepts s v else true
  | ZNullable s => match v with Some JNull => true | _ => accepts s v end
  | ZObject shape =>
      match v with
      | Some (JObject fields) => forallb (fun p => accepts p.2 (property fields p.1)) shape
      | _ => false
      end
  end.

(** * Lemmas *)

Lemma forallb_Forall_true {A} (f : A -> bool) l : forallb f l = true <-> Forall (fun x => f x = true) l.
Proof. rewrite forallb_forall, List.Forall_forall. done. Qed.

Lemma accepts_zod : Zod.
Proof.
  refine {| safeParse := accepts |}.
  - intros [[]|]; cbn; split; try done; try (by intros [? [=]]). intros _. by eexists.
  - intros [[]|]; cbn; try done. intros _. by eexists.
  - done.
  - intros [[]|]; cbn; split; try done; try (by intros [? [=]]). intros _. by eexists.
  - intros s v. cbn. destruct v as [[]|]; split; try done; try (by intros (? & [=] & _)).
    + intros Hl. eexists. split; [reflexivity|]. by apply forallb_Forall_true in Hl.
    + intros (? & [= <-] & Hl). by apply forallb_Forall_true.
  - intros s [v|]; cbn; split; try tauto. by intros [[=]|?].
  - intros s v. cbn. destruct v as [[]|]; split; try tauto; by intros [[=]|?].
  - intros shape v. cbn. destruct v as [[]|]; split; try done; try (by intros (? & [=] & _)).
    + intros Hl. eexists. split; [reflexivity|]. by apply forallb_Forall_true in Hl.
    + intros (? & [= <-] & Hl). by apply forallb_Forall_true.
Defined.

Section Readers.
Context `{!Zod}.

Lemma read_text v : safeParse ZString v = true -> is_Some (readText v).
Proof. intros [s ->]%zod_string. by eexists. Qed.
Lemma read_number v : safeParse ZNumber v = true -> is_Some (readInteger v).
Proof. intros [n ->]%zod_number. by eexists. Qed.
Lemma read_bool v : safeParse ZBoolean v = true -> is_Some (readBool v).
Proof. intros [b ->]%zod_boolean. by eexists. Qed.
Lemma read_optional {A} s (read : option Json -> option A) v :
  (forall v, safeParse s v = true -> is_Some (read v)) ->
  safeParse (ZOptional s) v = true -> is_Some (readOptional read v).
Proof.
  intros Hr [->|Hs]%zod_optional; [by eexists|]. destruct v as [v|]; [|by eexists].
  cbn. destruct (Hr _ Hs) as [x ->]. by eexists.
Qed.
Lemma read_list {A} s (read : Json -> option A) v :
  (forall v, safeParse s (Some v) = true -> is_Some (read v)) ->
  safeParse (ZArray s) v = true -> is_Some (readList read v).
Proof.
  intros Hr (l & -> & Hl)%zod_array. cbn. apply mapM_is_Some. eapply Forall_impl; [exact Hl|]. auto.
Qed.

(** A read of the properties of an object, one after the other. *)
Lemma read_object {A} shape v (read : list (string * Json) -> option A) :
  (forall fields, Forall (fun p => safeParse p.2 (property fields p.1) = true) shape -> is_Some (read fields)) ->
  safeParse (ZObject shape) (Some v) = true -> is_Some (fieldsOf v ≫= read).
Proof. intros Hr (fields & [= ->] & Hf)%zod_object. by apply Hr. Qed.

Lemma read_field {A B} (r : option A) (k : A -> option B) :
  is_Some r -> (forall x, is_Some (k x)) -> is_Some (r ≫= k).
Proof. intros [x ->] Hk. apply Hk. Qed.

End Readers.

Create HintDb reading.
#[export] Hint Resolve read_text read_number read_bool read_optional : reading.

Ltac reading :=
  apply read_object; intros fields Hf; repeat (apply Forall_cons in Hf as [? Hf]; cbn [fst snd] in *);
  repeat (apply read_field; [solve [eauto with reading]|intros ?]); try (by eexists).

Section Typed.
Context `{!Zod}.

Lemma read_value {A} shape (read : Json -> option A) v :
  (forall v, safeParse (ZObject shape) (Some v) = true -> is_Some (read v)) ->
  safeParse (ZObject shape) v = true -> is_Some (v ≫= read).
Proof.
  intros Hr Hv. pose proof Hv as (fields & -> & _)%zod_object. by apply Hr.
Qed.

Lemma state_reads v : safeParse terminalRuntimeStateSchema (Some v) = true -> is_Some (readRuntimeState v).
Proof. reading. Qed.
Lemma chunk_reads v : safeParse terminalOutputChunkSchema (Some v) = true -> is_Some (readChunk v).
Proof. reading. Qed.
Lemma state_field_reads v : safeParse terminalRuntimeStateSchema v = true -> is_Some (v ≫= readRuntimeState).
Proof. apply read_value, state_reads. Qed.
Lemma entries_read v :
  safeParse (ZArray terminalSessionCatalogEntrySchema) v = true -> is_Some (readList readCatalogEntry v).
Proof. apply read_list. intros w. reading. Qed.
Lemma shells_read v : safeParse (ZArray terminalShellOptionSchema) v = true -> is_Some (readList readShell v).
Proof. apply read_list. intros w. reading. Qed.

Local Hint Resolve state_field_reads entries_read shells_read : reading.

Lemma reader_reads s A (read : Json -> option A) v :
  reader s A read -> safeParse s (Some v) = true -> is_Some (read v).
Proof. intros Hr. destruct Hr; [by apply state_reads|reading..|by apply read_object; intros fields [Hs _]%Forall_cons; apply state_field_reads]. Qed.

Lemma elements_read {A} schema (read : Json -> option A) what i l :
  (forall v, safeParse schema (Some v) = true -> is_Some (read v)) ->
  Forall (fun v => safeParse schema (Some v) = true) l ->
  exists xs, mapM read l = Some xs /\ parseElements schema read what i l = (Ret xs : Web (list A)).
Proof.
  intros Hr Hl. revert i. induction Hl as [|v l Hv Hl IH]; intros i; [by exists []|].
  destruct (Hr v Hv) as [x Hx], (IH (S i)) as (xs & Hm & Hp). exists (x :: xs).
  cbn [mapM parseElements]. rewrite Hx. cbn. rewrite Hm. unfold parseWithSchema at 1. rewrite Hv, Hx. cbn [bind]. by rewrite Hp.
Qed.

(** The snapshot's own schema has checked its arrays. *)
Lemma snapshot_arrays fields :
  safeParse terminalSnapshotSchema (Some (JObject fields)) = true ->
  Forall (fun v => safeParse terminalRuntimeStateSchema (Some v) = true) (arrayOf (property fields "sessions")) /\
  Forall (fun v => safeParse terminalOutputChunkSchema (Some v) = true) (arrayOf (property fields "chunks")).
Proof.
  intros (? & [= <-] & Hf)%zod_object. do 5 (apply Forall_cons in Hf as [? Hf]; cbn [fst snd] in * ).
  repeat match goal with
    | H : safeParse (ZOptional _) _ = true |- _ => apply zod_optional in H as [H|H]
    | H : safeParse (ZNullable _) _ = true |- _ => apply zod_nullable in H as [H|H]
    | H : safeParse (ZArray _) _ = true |- _ => apply zod_array in H as (? & H & ?)
    end; split;
  match goal with H : property fields ?n = _ |- Forall _ (arrayOf (property fields ?n)) => rewrite H end; done.
Qed.

(** C17: What a schema of the terminal client accepts is a value of the client's
    type, field by field, and what it does not accept makes the call fail with
    the call's own text: no answer of the server is used unchecked.  A snapshot
    that its schema accepts is normalised to the chunks and sessions that it
    has, all of them and in order, so the errors about a single chunk or
    session never occur. *)
Theorem terminal_answers_typed s A (read : Json -> option A) v message :
  reader s A read ->
  ((exists x, safeParse s (Some v) = true /\ read v = Some x /\ parseWithSchema s read v message = (Ret x : Web A)) \/
   (safeParse s (Some v) = false /\ parseWithSchema s read v message = (Throw (PlainError message) : Web A))) /\
  forall fields, safeParse terminalSnapshotSchema (Some (JObject fields)) = true ->
    exists state next_seq active sessions chunks,
      normalizeTerminalSnapshot (JObject fields) =
        (Ret (mkTermSnapshot state (Some chunks) next_seq active (Some sessions)) : Web TerminalSnapshot) /\
      mapM readRuntimeState (arrayOf (property fields "sessions")) = Some sessions /\
      mapM readChunk (arrayOf (property fields "chunks")) = Some chunks.
Proof.
  intros Hr. split.
  - unfold parseWithSchema. destruct (safeParse s (Some v)) eqn:Hs; [left|by right].
    destruct (reader_reads s A read v Hr Hs) as [x Hx]. exists x. by rewrite Hx.
  - intros fields Hs. destruct (snapshot_arrays fields Hs) as [H1 H2].
    destruct (reader_reads _ _ _ (JObject fields) reads_snapshot Hs) as [[[state next_seq] active] Hx].
    destruct (elements_read _ readRuntimeState "terminal session state" 0 _ state_reads H1) as (sessions & H3 & H4).
    destruct (elements_read _ readChunk "terminal output chunk" 0 _ chunk_reads H2) as (chunks & H5 & H6).
    exists state, next_seq, active, sessions, chunks. split; [|done].
    unfold normalizeTerminalSnapshot, parseWithSchema. rewrite Hs, Hx. cbn [bind fieldsOf].
    unfold normalizeTerminalSessions, normalizeTerminalChunks. change (Some fields ?? []) with fields. by rewrite H4, H6.
Qed.

End Typed.

Lemma terminal_answers_typed_witness :
  let chunk := JObject [("seq", JNumber (ofZ 3)); ("data", JString "ls"); ("timestamp", JString "t")] in
  let bare := JObject [("seq", JString "3")] in
  accepts terminalOutputChunkSchema (Some chunk) = true /\ accepts terminalOutputChunkSchema (Some bare) = false /\
  exists (zod : Zod),
    parseWithSchema terminalOutputChunkSchema readChunk chunk "m" = (Ret (mkChunk 3 "ls" "t") : Web TerminalOutputChunk) /\
    parseWithSchema terminalOutputChunkSchema readChunk bare "m" = (Throw (PlainError "m") : Web TerminalOutputChunk).
Proof.
  intros chunk bare. split; [reflexivity|]. split; [reflexivity|].
  exists accepts_zod.
  split.
  - destruct (@terminal_answers_typed accepts_zod  _ _ _ chunk "m" reads_chunk) as [[(x & _ & Hx & ->)|[[=] _]] _]. by injection Hx as <-.
  - destruct (@terminal_answers_typed accepts_zod  _ _ _ bare "m" reads_chunk) as [[(x & [=] & _)|[_ ->]] _]. reflexivity.
Defined.
