(* ===== verification/FilesApi.v ===== *)
(** * The clients of files and workspaces

    The requests of [frontend/src/features/commander/api/client.ts], whose
    answers are in [CommanderApi], and the clients
    [features/files/api/client.ts], [features/preview/api/client.ts] and
    [shared/api/workspace.ts]. *)
From Stdlib Require Import Ascii String.
From stdpp Require Import strings.
From S2P Require Import Prelude JsString Text Types CommanderApi Url Effects AgentContext Http ProviderApi.
Local Open Scope string_scope.
Local Open Scope list_scope.
Local Open Scope Z_scope.
Local Open Scope js_scope.
Local Open Scope prog_scope.

Definition fsPath (route : string) (params : SearchParams) : string := "/api/v1/fs/" +:+ route +:+ "?" +:+ showParams params.

(** ** The commander *)

Definition commanderClient : ApiClient := mkClient (Some "CommanderAPIError") "commander_request_failed" "Commander request failed".
Definition commander_fetchRuntimeJSON (T : Set) := fetchJSON commanderClient T.

(** [params] of a listing. *)
Definition listParams (path : string) (query : option string) : SearchParams :=
  setTrimmed "query" query [("path", path)].

Section Commander.
Context `{!RuntimeHost}.

Definition commander_postRuntimeJSON (T : Set) (path : string) (body : Json) : Web T :=
  runtimeContext <- resolveRuntimeContext ;;
  commander_fetchRuntimeJSON T runtimeContext path (withBody "POST" body).
Definition commander_putRuntimeJSON (T : Set) (path : string) (body : Json) : Web T :=
  runtimeContext <- resolveRuntimeContext ;;
  commander_fetchRuntimeJSON T runtimeContext path (withBody "PUT" body).

Definition listCommanderDirectory (path : string) (query : option string) : Web CommanderDirectorySnapshot :=
  runtimeContext <- resolveRuntimeContext ;;
  payload <- commander_fetchRuntimeJSON FSListPayload runtimeContext (fsPath "list" (listParams path query)) noInit ;;
  Ret (directorySnapshot payload).

Definition readCommanderFilePreview (path : string) (maxBytes : option Z) : Web CommanderFileSnapshot :=
  runtimeContext <- resolveRuntimeContext ;;
  let maxBytesQuery :=
    match maxBytes with
    | Some n => if n =? 0 then "" else "&max_bytes=" +:+ showZ n
    | None => ""
    end in
  payload <- commander_fetchRuntimeJSON FSReadPayload runtimeContext
    ("/api/v1/fs/read?path=" +:+ encodeURIComponent path +:+ maxBytesQuery) noInit ;;
  Ret (previewSnapshot payload).

Definition readCommanderFile (path : string) : Web CommanderFileSnapshot :=
  runtimeContext <- resolveRuntimeContext ;;
  payload <- commander_fetchRuntimeJSON FSFilePayload runtimeContext
    ("/api/v1/fs/file?path=" +:+ encodeURIComponent path) noInit ;;
  Ret (fileSnapshot payload).

Definition writeCommanderFile (path content : string) : Web CommanderFileSnapshot :=
  payload <- commander_putRuntimeJSON FSFilePayload "/api/v1/fs/file"
    (jobject [("content", jtext content); ("path", jtext path)]) ;;
  Ret (fileSnapshot payload).

Definition openCommanderFileExternally (path : string) : Web string :=
  commander_postRuntimeJSON string "/api/v1/fs/open" (jobject [("path", jtext path)]).

Definition mkdirCommanderDirectory (path : string) : Web CreatedDirectory :=
  payload <- commander_postRuntimeJSON string "/api/v1/fs/mkdir" (jobject [("path", jtext path)]) ;;
  Ret (createdDirectory payload).

Definition copyCommanderEntries (sourcePaths : list string) (targetPath : string) (overwrite : option bool)
    : Web (list string) :=
  commander_postRuntimeJSON (list string) "/api/v1/fs/copy"
    (jobject [("overwrite", jbool (overwrite ?? false)); ("source_paths", jtexts sourcePaths);
              ("target_path", jtext targetPath)]).

Definition copyCommanderEntriesToPaths (entries : list CopyEntry) (overwrite : option bool) : Web (list string) :=
  commander_postRuntimeJSON (list string) "/api/v1/fs/copy"
    (jobject [("entries", Some (JArray ((fun e => jobject [("source_path", jtext (ce_source_path e));
                ("target_path", jtext (ce_target_path e))]) <$> entries)));
              ("overwrite", jbool (overwrite ?? false))]).

Definition moveCommanderEntries (sourcePaths : list string) (targetPath : string) (overwrite : option bool)
    : Web (list string) :=
  commander_postRuntimeJSON (list string) "/api/v1/fs/move"
    (jobject [("overwrite", jbool (overwrite ?? false)); ("source_paths", jtexts sourcePaths);
              ("target_path", jtext targetPath)]).

Definition deleteCommanderEntries (paths : list string) : Web (list string) :=
  commander_postRuntimeJSON (list string) "/api/v1/fs/delete" (jobject [("paths", jtexts paths)]).

Definition renameCommanderEntries (entries : list RenameEntry) (overwrite : option bool) : Web (list string) :=
  commander_postRuntimeJSON (list string) "/api/v1/fs/rename"
    (jobject [("entries", Some (JArray ((fun e => jobject [("next_name", jtext (re_next_name e));
                ("path", jtext (re_path e))]) <$> entries)));
              ("overwrite", jbool (overwrite ?? false))]).

(** The call behind a mutation of the commander, for what it sends. *)
Definition serveFSRequest (r : FSRequest) : Web unit :=
  match r with
  | ReqMkdir path => _ <- mkdirCommanderDirectory path ;; Ret tt
  | ReqCopy sourcePaths targetPath overwrite => _ <- copyCommanderEntries sourcePaths targetPath (Some overwrite) ;; Ret tt
  | ReqCopyToPaths entries overwrite => _ <- copyCommanderEntriesToPaths entries (Some overwrite) ;; Ret tt
  | ReqMove sourcePaths targetPath overwrite => _ <- moveCommanderEntries sourcePaths targetPath (Some overwrite) ;; Ret tt
  | ReqDelete paths => _ <- deleteCommanderEntries paths ;; Ret tt
  | ReqRename entries overwrite => _ <- renameCommanderEntries entries (Some overwrite) ;; Ret tt
  | ReqWriteFile path content => _ <- writeCommanderFile path content ;; Ret tt
  | ReqOpen path => _ <- openCommanderFileExternally path ;; Ret tt
  end.

End Commander.

(** ** The files panel *)

Record FilesDirectoryEntry := mkFilesEntry {
  fe_hidden : bool;
  fe_id : string;
  fe_isDirectory : bool;             (* kind *)
  fe_modified : string;
  fe_modifiedTime : Z;
  fe_name : string;
  fe_sizeBytes : Z;
  fe_sizeLabel : string
}.
Record FilesDirectorySnapshot := mkFilesSnapshot { fs_entries : list FilesDirectoryEntry; fs_path : string }.
Record FilesRequestOptions := mkFilesOptions { fo_connectionId : option string; fo_widgetId : option string }.

Definition formatFileBytes (size : Z) : string :=
  if size <? 1024 then showZ size +:+ " B"
  else if size <? 1024 * 1024 then toFixed1 size 1024 +:+ " KB"
  else toFixed1 size (1024 * 1024) +:+ " MB".

(** The year of [toISOString]. *)
Definition isoYear (year : Z) : string :=
  if (0 <=? year) && (year <=? 9999) then padZeros 4 (showZ year)
  else (if 0 <=? year then "+" else "-") +:+ padZeros 6 (showZ (Z.abs year)).
Definition toISOString (seconds : Z) : string :=
  let '(year, month, day) := civilFromDays (seconds / 86400) in
  let secs := seconds mod 86400 in
  isoYear year +:+ "-" +:+ pad2 month +:+ "-" +:+ pad2 day +:+ "T" +:+ pad2 (secs / 3600) +:+ ":" +:+
    pad2 (secs / 60 mod 60) +:+ ":" +:+ pad2 (secs mod 60) +:+ ".000Z".

Definition formatFileTime (timestamp : option Z) : string :=
  match timestamp with
  | None => ""
  | Some t =>
      if t =? 0 then ""
      else if 8640000000000000 <? Z.abs (t * 1000) then ""
      else str_map (fun a => if bool_decide (a = "T"%char) then " "%char else a) (strTake 16 (toISOString t))
  end.

Definition toFilesEntry (path : string) (node : FSNode) : FilesDirectoryEntry :=
  let isDirectory := match n_type node with NodeDirectory => true | NodeFile => false end in
  mkFilesEntry (startsWith "." (n_name node)) (path +:+ "::" +:+ n_name node) isDirectory
    (formatFileTime (n_modified_time node)) (n_modified_time node ?? 0) (n_name node)
    (if isDirectory then 0 else n_size node ?? 0) (if isDirectory then "" else formatFileBytes (n_size node ?? 0)).

Definition filesClient : ApiClient := mkClient (Some "FilesAPIError") "files_request_failed" "Files request failed".
Definition files_fetchRuntimeJSON (T : Set) := fetchJSON filesClient T.

(** The connection and the widget of a request. *)
Definition filesParams (path : string) (options : FilesRequestOptions) : SearchParams :=
  setTrimmed "widget_id" (fo_widgetId options) (setTrimmed "connection_id" (fo_connectionId options) [("path", path)]).
Definition openBody (path : string) (options : FilesRequestOptions) : Json :=
  jobject [("connection_id", jtextOpt (trimmed (fo_connectionId options))); ("path", jtext path);
           ("widget_id", jtextOpt (trimmed (fo_widgetId options)))].

Section Files.
Context `{!RuntimeHost}.

Definition files_postRuntimeJSON (T : Set) (path : string) (body : Json) : Web T :=
  runtimeContext <- resolveRuntimeContext ;;
  files_fetchRuntimeJSON T runtimeContext path (withBody "POST" body).

Definition listFilesDirectory (path : string) (options : FilesRequestOptions) : Web FilesDirectorySnapshot :=
  runtimeContext <- resolveRuntimeContext ;;
  payload <- files_fetchRuntimeJSON FSListPayload runtimeContext (fsPath "list" (filesParams path options)) noInit ;;
  Ret (mkFilesSnapshot
    (toFilesEntry (fl_path payload) <$> (fl_directories payload ?? []) ++ (fl_files payload ?? [])) (fl_path payload)).

Definition openFilesPathExternally (path : string) (options : FilesRequestOptions) : Web string :=
  files_postRuntimeJSON string "/api/v1/fs/open" (openBody path options).

End Files.

(** ** The preview panel *)

Record PreviewFileSnapshot := mkPreviewFile {
  pf_content : string;
  pf_path : string;
  pf_previewBytes : option Z;
  pf_previewKind : CommanderFilePreviewKind;
  pf_sizeBytes : option Z;
  pf_truncated : bool
}.

Definition previewClient : ApiClient := mkClient (Some "PreviewAPIError") "preview_request_failed" "Preview request failed".
Definition preview_fetchRuntimeJSON (T : Set) := fetchJSON previewClient T.

Definition previewParams (path : string) (maxBytes : option Z) (options : FilesRequestOptions) : SearchParams :=
  let params :=
    match maxBytes with
    | Some n => if n =? 0 then [("path", path)] else setParam "max_bytes" (showZ n) [("path", path)]
    | None => [("path", path)]
    end in
  setTrimmed "widget_id" (fo_widgetId options) (setTrimmed "connection_id" (fo_connectionId options) params).

Section Preview.
Context `{!RuntimeHost}.

Definition preview_postRuntimeJSON (T : Set) (path : string) (body : Json) : Web T :=
  runtimeContext <- resolveRuntimeContext ;;
  preview_fetchRuntimeJSON T runtimeContext path (withBody "POST" body).

Definition readPreviewFile (path : string) (maxBytes : option Z) (options : FilesRequestOptions)
    : Web PreviewFileSnapshot :=
  runtimeContext <- resolveRuntimeContext ;;
  payload <- preview_fetchRuntimeJSON FSReadPayload runtimeContext
    (fsPath "read" (previewParams path maxBytes options)) noInit ;;
  Ret (mkPreviewFile (if fr_preview_available payload then fr_preview payload else "") (fr_path payload)
    (fr_preview_bytes payload)
    (if decide (fr_preview_kind payload = Some PreviewHex) then PreviewHex else PreviewText)
    (fr_size_bytes payload) (fr_truncated payload)).

Definition openPreviewPathExternally (path : string) (options : FilesRequestOptions) : Web string :=
  preview_postRuntimeJSON string "/api/v1/fs/open" (openBody path options).

End Preview.

(** ** Workspaces *)

Inductive WorkspaceWidgetKindStatus := KindAvailable | KindFrontendLocal | KindPlanned.

Record WorkspaceWidgetKindCatalogEntry := mkKindEntry {
  wk_kind : string;
  wk_label : string;
  wk_description : string;
  wk_status : WorkspaceWidgetKindStatus;
  wk_runtime_owned : bool;
  wk_can_create : bool;
  wk_supports_connections : bool;
  wk_supports_path : bool;
  wk_default_title : string;
  wk_create_route : option string;
  wk_notes : option string
}.

Record OpenWorkspaceWidgetInput := mkOpenInput {
  ow_connectionId : option string;
  ow_path : string;
  ow_targetWidgetId : string
}.
Record CreateWorkspaceWidgetResult := mkCreatedWidget { cw_tab_id : string; cw_widget_id : string }.

Record WorkspaceSnapshot := mkWorkspace {
  ws_id : string;
  ws_name : string;
  ws_active_widget_id : option string;
  ws_widgets : list WorkspaceWidgetSnapshot
}.

(** The error of a call of the workspace client. *)
Definition workspaceClient (code text : string) : ApiClient := mkClient (Some "WorkspaceAPIError") code text.

Section Workspace.
Context `{!RuntimeHost}.

Definition fetchWorkspaceSnapshot : Web WorkspaceSnapshot :=
  runtimeContext <- resolveRuntimeContext ;;
  fetchJSON (workspaceClient "workspace_request_failed" "Workspace request failed") WorkspaceSnapshot runtimeContext
    "/api/v1/workspace" noInit.

Definition focusWorkspaceWidget (widgetId : string) : Web WorkspaceSnapshot :=
  runtimeContext <- resolveRuntimeContext ;;
  fetchJSON (workspaceClient "workspace_focus_widget_request_failed" "Workspace focus-widget request failed")
    WorkspaceSnapshot runtimeContext "/api/v1/workspace/focus-widget"
    (withBody "POST" (jobject [("widget_id", jtext widgetId)])).

Definition fetchWorkspaceWidgetKindCatalog : Web (list WorkspaceWidgetKindCatalogEntry) :=
  runtimeContext <- resolveRuntimeContext ;;
  widget_kinds <- fetchJSON (workspaceClient "workspace_widget_catalog_request_failed" "Workspace widget catalog request failed")
    (option (list WorkspaceWidgetKindCatalogEntry)) runtimeContext "/api/v1/workspace/widget-kinds" noInit ;;
  Ret (widget_kinds ?? []).

Definition openInputBody (input : OpenWorkspaceWidgetInput) : Json :=
  jobject [("connection_id", jtextOpt (ow_connectionId input)); ("path", jtext (ow_path input));
           ("target_widget_id", jtext (ow_targetWidgetId input))].

Definition openDirectoryWorkspaceWidget (input : OpenWorkspaceWidgetInput) : Web CreateWorkspaceWidgetResult :=
  runtimeContext <- resolveRuntimeContext ;;
  fetchJSON (workspaceClient "workspace_open_directory_request_failed" "Workspace open-directory request failed")
    CreateWorkspaceWidgetResult runtimeContext "/api/v1/workspace/widgets/open-directory"
    (withBody "POST" (openInputBody input)).

Definition openPreviewWorkspaceWidget (input : OpenWorkspaceWidgetInput) : Web CreateWorkspaceWidgetResult :=
  runtimeContext <- resolveRuntimeContext ;;
  fetchJSON (workspaceClient "workspace_open_preview_request_failed" "Workspace open-preview request failed")
    CreateWorkspaceWidgetResult runtimeContext "/api/v1/workspace/widgets/open-preview"
    (withBody "POST" (openInputBody input)).

Definition closeWorkspaceWidget (widgetId : string) : Web string :=
  runtimeContext <- resolveRuntimeContext ;;
  fetchJSON (workspaceClient "workspace_close_widget_request_failed" "Workspace close-widget request failed")
    string runtimeContext ("/api/v1/workspace/widgets/" +:+ encodeURIComponent widgetId) (mkInit (Some "DELETE") None).

End Workspace.
