(* ===== verification/ServicesApi.v ===== *)
(** * The clients of MCP servers, remote profiles and plugins

    [frontend/src/features/mcp/api/client.ts], [features/remote/api/client.ts]
    and [features/plugins/api/client.ts]: the requests and how their answers are
    normalised.  A view and its payload are one type where the code only trims. *)
From Stdlib Require Import Ascii String.
From stdpp Require Import strings.
From S2P Require Import Prelude JsString Text Number Url Effects Http ProviderApi.
Local Open Scope string_scope.
Local Open Scope list_scope.
Local Open Scope Z_scope.
Local Open Scope js_scope.
Local Open Scope prog_scope.

(** [Array.isArray(l) ? l.map(e => e.trim()).filter(Boolean) : []] *)
Definition trimmedTexts (l : option (list string)) : list string := filterb truthy (trimText <$> (l ?? [])).

(** ** MCP servers *)

Inductive MCPServerType := ServerProcess | ServerRemote.
Inductive MCPServerControlAction := ControlStart | ControlStop | ControlRestart | ControlEnable | ControlDisable.
Inductive MCPTemplateAuthKind := AuthNone | AuthBearerToken | AuthHeaderValue.
Inductive MCPProbeStatus := ProbeReady | ProbeAuthRequired | ProbeUnreachable | ProbeInvalidResponse | ProbeError.

Definition showControl (action : MCPServerControlAction) : string :=
  match action with
  | ControlStart => "start"
  | ControlStop => "stop"
  | ControlRestart => "restart"
  | ControlEnable => "enable"
  | ControlDisable => "disable"
  end.

(** The flags of a payload can be missing; in a view both are set. *)
Record MCPServerView := mkServer {
  ms_id : string;
  ms_type : MCPServerType;
  ms_endpoint : option string;
  ms_state : string;
  ms_last_used : option string;
  ms_active : option bool;
  ms_enabled : option bool
}.
Record MCPServerDetails := mkServerDetails { md_server : MCPServerView; md_headers : option (list (string * string)) }.

Record MCPTemplateAuth := mkTemplateAuth {
  ta_kind : option string;
  ta_header_name : option string;
  ta_value_prefix : option string;
  ta_secret_label : option string;
  ta_secret_placeholder : option string
}.
Record MCPTemplatePayload := mkTemplatePayload {
  tp_id : string;
  tp_display_name : string;
  tp_description : string;
  tp_suggested_server_id : option string;
  tp_endpoint : option string;
  tp_auth : option MCPTemplateAuth
}.
Record MCPServerTemplate := mkTemplate {
  mt_id : string;
  mt_display_name : string;
  mt_description : string;
  mt_suggested_server_id : option string;
  mt_endpoint : option string;
  mt_auth_kind : MCPTemplateAuthKind;
  mt_auth_header_name : option string;
  mt_auth_value_prefix : option string;
  mt_auth_secret_label : option string;
  mt_auth_secret_placeholder : option string
}.

(** [S] is the type of the status: a text in a payload. *)
Record MCPProbe (S : Set) := mkProbe {
  pr_status : S;
  pr_reachable : bool;
  pr_message : string;
  pr_http_status : option Z;
  pr_protocol_version : option string;
  pr_server_name : option string;
  pr_server_version : option string;
  pr_tool_count : option Z
}.
Arguments mkProbe {S} _ _ _ _ _ _ _ _.
Arguments pr_status {S} m.
Arguments pr_reachable {S} m.
Arguments pr_message {S} m.
Arguments pr_http_status {S} m.
Arguments pr_protocol_version {S} m.
Arguments pr_server_name {S} m.
Arguments pr_server_version {S} m.
Arguments pr_tool_count {S} m.
Definition MCPProbeResult : Set := MCPProbe MCPProbeStatus.

Definition normalizeMCPServer (server : MCPServerView) : MCPServerView :=
  mkServer (trimText (ms_id server)) (ms_type server) (trimmed (ms_endpoint server)) (ms_state server)
    (trimmed (ms_last_used server)) (Some (ms_active server ?? false)) (Some (ms_enabled server ?? true)).

(** Assigning a property of an object: a name that is there keeps its place.
    Names of headers are no numerals, which an object would list first. *)
Fixpoint setHeader (name value : string) (headers : list (string * string)) : list (string * string) :=
  match headers with
  | [] => [(name, value)]
  | (n, v) :: headers =>
      if bool_decide (n = name) then (n, value) :: headers else (n, v) :: setHeader name value headers
  end.
Definition normalizeMCPHeaders (headers : option (list (string * string))) : list (string * string) :=
  foldl (fun normalized h =>
    let headerName := trimText h.1 in
    if truthy headerName then setHeader headerName h.2 normalized else normalized) [] (headers ?? []).

Definition normalizeMCPServerDetails (server : MCPServerDetails) : MCPServerDetails :=
  mkServerDetails (normalizeMCPServer (md_server server)) (Some (normalizeMCPHeaders (md_headers server))).

Definition normalizeMCPTemplateAuthKind (kind : option string) : MCPTemplateAuthKind :=
  if decide (kind = Some "bearer_token") then AuthBearerToken
  else if decide (kind = Some "header_value") then AuthHeaderValue
  else AuthNone.

Definition normalizeMCPServerTemplate (template : MCPTemplatePayload) : MCPServerTemplate :=
  let auth := tp_auth template in
  mkTemplate (trimText (tp_id template)) (trimText (tp_display_name template)) (trimText (tp_description template))
    (trimmed (tp_suggested_server_id template)) (trimmed (tp_endpoint template))
    (normalizeMCPTemplateAuthKind (mbind ta_kind auth)) (trimmed (mbind ta_header_name auth))
    (mbind ta_value_prefix auth) (trimmed (mbind ta_secret_label auth)) (trimmed (mbind ta_secret_placeholder auth)).

Definition normalizeMCPProbeResult (probe : MCPProbe string) : MCPProbeResult :=
  mkProbe
    (if decide (pr_status probe = "ready") then ProbeReady
     else if decide (pr_status probe = "auth-required") then ProbeAuthRequired
     else if decide (pr_status probe = "unreachable") then ProbeUnreachable
     else if decide (pr_status probe = "invalid-response") then ProbeInvalidResponse
     else ProbeError)
    (pr_reachable probe) (trimText (pr_message probe)) (pr_http_status probe) (trimmed (pr_protocol_version probe))
    (trimmed (pr_server_name probe)) (trimmed (pr_server_version probe)) (pr_tool_count probe).

Record RegisterRemoteMCPServerPayload := mkRegister {
  rr_id : string;
  rr_endpoint : string;
  rr_headers : option (list (string * string))
}.

Definition mcpClient : ApiClient := mkClient (Some "MCPAPIError") "mcp_request_failed" "MCP request failed".
Definition requestMCPJSON (T : Set) := fetchJSON mcpClient T.

Definition headersJson (headers : option (list (string * string))) : Json :=
  jobject ((fun h => (h.1, jtext h.2)) <$> (headers ?? [])).
Definition registerJson (payload : RegisterRemoteMCPServerPayload) : Json :=
  jobject [("endpoint", jtext (trimText (rr_endpoint payload))); ("headers", Some (headersJson (rr_headers payload)));
           ("id", jtext (trimText (rr_id payload))); ("type", jtext "remote")].
Definition mcpPath (serverID suffix : string) : string := "/api/v1/mcp/servers/" +:+ encodeURIComponent serverID +:+ suffix.

Section MCP.
Context `{!RuntimeHost}.

Definition fetchMCPServers : Web (list MCPServerView) :=
  runtimeContext <- resolveRuntimeContext ;;
  servers <- requestMCPJSON (option (list MCPServerView)) runtimeContext "/api/v1/mcp/servers" noInit ;;
  Ret (normalizeMCPServer <$> (servers ?? [])).

Definition fetchMCPTemplateCatalog : Web (list MCPServerTemplate) :=
  runtimeContext <- resolveRuntimeContext ;;
  templates <- requestMCPJSON (option (list MCPTemplatePayload)) runtimeContext "/api/v1/mcp/catalog" noInit ;;
  Ret (normalizeMCPServerTemplate <$> (templates ?? [])).

Definition registerRemoteMCPServer (payload : RegisterRemoteMCPServerPayload) : Web MCPServerView :=
  runtimeContext <- resolveRuntimeContext ;;
  server <- requestMCPJSON MCPServerView runtimeContext "/api/v1/mcp/servers" (withBody "POST" (registerJson payload)) ;;
  Ret (normalizeMCPServer server).

Definition probeMCPServer (payload : RegisterRemoteMCPServerPayload) : Web MCPProbeResult :=
  runtimeContext <- resolveRuntimeContext ;;
  probe <- requestMCPJSON (MCPProbe string) runtimeContext "/api/v1/mcp/probe"
    (withBody "POST" (jobject [("endpoint", jtext (trimText (rr_endpoint payload)));
                               ("headers", Some (headersJson (rr_headers payload)))])) ;;
  Ret (normalizeMCPProbeResult probe).

Definition fetchMCPServerDetails (serverID : string) : Web MCPServerDetails :=
  runtimeContext <- resolveRuntimeContext ;;
  server <- requestMCPJSON MCPServerDetails runtimeContext (mcpPath serverID "") noInit ;;
  Ret (normalizeMCPServerDetails server).

Definition updateRemoteMCPServer (serverID : string) (payload : RegisterRemoteMCPServerPayload) : Web MCPServerView :=
  runtimeContext <- resolveRuntimeContext ;;
  server <- requestMCPJSON MCPServerView runtimeContext (mcpPath serverID "") (withBody "PUT" (registerJson payload)) ;;
  Ret (normalizeMCPServer server).

Definition deleteMCPServer (serverID : string) : Web string :=
  runtimeContext <- resolveRuntimeContext ;;
  server_id <- requestMCPJSON (option string) runtimeContext (mcpPath serverID "") (mkInit (Some "DELETE") None) ;;
  Ret (trimmed server_id ?? trimText serverID).

Definition controlMCPServer (serverID : string) (action : MCPServerControlAction) : Web MCPServerView :=
  runtimeContext <- resolveRuntimeContext ;;
  server <- requestMCPJSON MCPServerView runtimeContext (mcpPath serverID ("/" +:+ showControl action)) post ;;
  Ret (normalizeMCPServer server).

End MCP.

(** ** Remote profiles *)

Record RemoteProfile := mkRemoteProfile {
  rf_description : option string;
  rf_host : string;
  rf_id : string;
  rf_identity_file : option string;
  rf_launch_mode : option string;
  rf_name : string;
  rf_port : option Z;
  rf_tmux_session : option string;
  rf_user : option string
}.
Record SSHConfigImportResult := mkImportResult {
  ih_imported : list RemoteProfile;
  ih_profiles : list RemoteProfile;
  ih_skipped : option (list (option string * string))     (* host and reason *)
}.
Record RemoteTmuxSession := mkTmuxSession { tm_attached : bool; tm_name : string; tm_window_count : option Z }.
Record CreateRemoteProfileSessionResult := mkRemoteSession {
  rm_connection_id : string;
  rm_profile_id : string;
  rm_remote_session_name : option string;
  rm_reused : bool;
  rm_session_id : string;
  rm_tab_id : string;
  rm_widget_id : string
}.
Record SaveRemoteProfilePayload := mkSaveProfile {
  sp_host : string;
  sp_id : option string;
  sp_identity_file : option string;
  sp_launch_mode : option string;
  sp_name : option string;
  sp_port : option Number;
  sp_tmux_session : option string;
  sp_user : option string
}.
Record RemoteConnectionView := mkConnection {
  rn_active : bool;
  rn_id : string;
  rn_kind : string;
  rn_name : string;
  rn_check_status : string;
  rn_check_error : option string;
  rn_launch_status : string;
  rn_launch_error : option string;
  rn_usability : string
}.
Record RemoteConnectionsSnapshot := mkConnections {
  rc_active_connection_id : string;
  rc_connections : list RemoteConnectionView
}.

Definition remoteClient : ApiClient := mkClient (Some "RemoteAPIError") "remote_request_failed" "Remote request failed".
Definition requestRemoteJSON (T : Set) := fetchJSON remoteClient T.

Definition profilePath (profileID suffix : string) : string :=
  "/api/v1/remote/profiles/" +:+ encodeURIComponent profileID +:+ suffix.

Section Remote.
Context `{!RuntimeHost}.

Definition fetchRemoteProfiles : Web (list RemoteProfile) :=
  runtimeContext <- resolveRuntimeContext ;;
  profiles <- requestRemoteJSON (option (list RemoteProfile)) runtimeContext "/api/v1/remote/profiles" noInit ;;
  Ret (profiles ?? []).

Definition saveRemoteProfile (payload : SaveRemoteProfilePayload) : Web (RemoteProfile * list RemoteProfile) :=
  runtimeContext <- resolveRuntimeContext ;;
  requestRemoteJSON (RemoteProfile * list RemoteProfile) runtimeContext "/api/v1/remote/profiles"
    (withBody "POST"
      (jobject [("host", jtext (trimText (sp_host payload))); ("id", jtextOpt (trimmed (sp_id payload)));
                ("identity_file", jtextOpt (trimmed (sp_identity_file payload)));
                ("launch_mode", jtextOpt (trimmed (sp_launch_mode payload)));
                ("name", jtextOpt (trimmed (sp_name payload))); ("port", sp_port payload ≫= jvalue);
                ("tmux_session", jtextOpt (trimmed (sp_tmux_session payload)));
                ("user", jtextOpt (trimmed (sp_user payload)))])).

Definition deleteRemoteProfile (profileID : string) : Web (option (list RemoteProfile)) :=
  runtimeContext <- resolveRuntimeContext ;;
  requestRemoteJSON (option (list RemoteProfile)) runtimeContext (profilePath profileID "") (mkInit (Some "DELETE") None).

Definition fetchRemoteConnectionsSnapshot : Web RemoteConnectionsSnapshot :=
  runtimeContext <- resolveRuntimeContext ;;
  requestRemoteJSON RemoteConnectionsSnapshot runtimeContext "/api/v1/connections" noInit.

Definition checkRemoteProfileConnection (profileID : string) : Web (RemoteConnectionView * RemoteConnectionsSnapshot) :=
  runtimeContext <- resolveRuntimeContext ;;
  requestRemoteJSON (RemoteConnectionView * RemoteConnectionsSnapshot) runtimeContext
    ("/api/v1/connections/" +:+ encodeURIComponent profileID +:+ "/check") post.

Definition selectRemoteProfileConnection (profileID : string) : Web RemoteConnectionsSnapshot :=
  runtimeContext <- resolveRuntimeContext ;;
  requestRemoteJSON RemoteConnectionsSnapshot runtimeContext "/api/v1/connections/active"
    (withBody "PUT" (jobject [("connection_id", jtext (trimText profileID))])).

Definition importSSHConfigProfiles (path : option string) : Web SSHConfigImportResult :=
  runtimeContext <- resolveRuntimeContext ;;
  requestRemoteJSON SSHConfigImportResult runtimeContext "/api/v1/remote/profiles/import-ssh-config"
    (withBody "POST" (jobject [("path", jtextOpt (trimmed path))])).

Definition fetchRemoteProfileTmuxSessions (profileID : string) : Web (list RemoteTmuxSession) :=
  runtimeContext <- resolveRuntimeContext ;;
  sessions <- requestRemoteJSON (option (list RemoteTmuxSession)) runtimeContext
    (profilePath profileID "/tmux-sessions") noInit ;;
  Ret (sessions ?? []).

Definition createRemoteProfileSession (profileID : string) (title tmux_session : option string)
    : Web CreateRemoteProfileSessionResult :=
  runtimeContext <- resolveRuntimeContext ;;
  requestRemoteJSON CreateRemoteProfileSessionResult runtimeContext (profilePath profileID "/session")
    (withBody "POST" (jobject [("title", jtextOpt (trimmed title)); ("tmux_session", jtextOpt (trimmed tmux_session))])).

End Remote.

(** ** Plugins *)

Inductive PluginInstallSourceKind := SourceGit | SourceZip.
Inductive PluginRuntimeStatus := PluginDisabled | PluginReady | PluginValidationError.

Record PluginActor := mkPluginActor { pa_home_dir : option string; pa_username : string }.
Record PluginAccessPolicy := mkPluginAccess {
  px_allowed_users : option (list string);
  px_owner_username : string;
  px_visibility : option string
}.
(** The schemas of a tool are values that the client passes on. *)
Record InstalledPluginToolView := mkPluginTool {
  pt_approval_tier : string;
  pt_capabilities : option (list string);
  pt_description : option string;
  pt_input_schema : option Json;
  pt_mutating : option bool;
  pt_name : string;
  pt_output_schema : option Json;
  pt_target_kind : string
}.
Record PluginSource := mkPluginSource { ps_kind : PluginInstallSourceKind; ps_ref : option string; ps_url : string }.

Record InstalledPluginView := mkPlugin {
  pg_access : PluginAccessPolicy;
  pg_capabilities : list string;
  pg_created_at : option string;
  pg_description : option string;
  pg_display_name : string;
  pg_enabled : bool;
  pg_id : string;
  pg_installed_by : PluginActor;
  pg_metadata : list (string * string);
  pg_plugin_version : string;
  pg_protocol_version : string;
  pg_runtime_error : option string;
  pg_runtime_status : PluginRuntimeStatus;
  pg_source : PluginSource;
  pg_tools : list InstalledPluginToolView;
  pg_updated_at : option string;
  pg_updated_by : PluginActor
}.
Record PluginCatalogView := mkPluginCatalog { pv_current_actor : PluginActor; pv_plugins : list InstalledPluginView }.

Record PluginSourcePayload := mkSourcePayload {
  ul_kind : option string;
  ul_ref : option string;
  ul_url : option string
}.
Record PluginPayload := mkPluginPayload {
  il_access : option AccessPayload;
  il_capabilities : option (list string);
  il_created_at : option string;
  il_description : option string;
  il_display_name : string;
  il_enabled : option bool;
  il_id : string;
  il_installed_by : option ActorPayload;
  il_metadata : option (list (string * string));
  il_plugin_version : string;
  il_protocol_version : string;
  il_runtime_error : option string;
  il_runtime_status : string;
  il_source : option PluginSourcePayload;
  il_tools : option (list InstalledPluginToolView);
  il_updated_at : option string;
  il_updated_by : option ActorPayload
}.
Record PluginCatalogPayload := mkPluginCatalogPayload {
  gl_current_actor : option ActorPayload;
  gl_plugins : option (list PluginPayload)
}.
Record PluginCatalogMutationResponse := mkPluginMutationPayload {
  yl_plugin : PluginPayload;
  yl_plugins : PluginCatalogPayload
}.

Definition normalizePluginActor (actor : option ActorPayload) : PluginActor :=
  mkPluginActor (trimmed (mbind al_home_dir actor)) (trimmed (mbind al_username actor) ?? "unknown").

Definition normalizeAccess (access : option AccessPayload) (installedBy : PluginActor) : PluginAccessPolicy :=
  mkPluginAccess ((fun l => trimmedTexts (Some l)) <$> mbind sl_allowed_users access)
    (trimmed (mbind sl_owner_username access) ?? pa_username installedBy) (trimmed (mbind sl_visibility access)).

Definition normalizeTools (tools : option (list InstalledPluginToolView)) : list InstalledPluginToolView :=
  (fun tool => mkPluginTool (pt_approval_tier tool) (Some (trimmedTexts (pt_capabilities tool)))
     (trimmed (pt_description tool)) (pt_input_schema tool) (pt_mutating tool) (trimText (pt_name tool))
     (pt_output_schema tool) (trimText (pt_target_kind tool))) <$> (tools ?? []).

Definition normalizeInstalledPlugin (plugin : PluginPayload) : InstalledPluginView :=
  let installedBy := normalizePluginActor (il_installed_by plugin) in
  let updatedBy := normalizePluginActor (il_updated_by plugin) in
  mkPlugin (normalizeAccess (il_access plugin) installedBy) (trimmedTexts (il_capabilities plugin))
    (trimmed (il_created_at plugin)) (trimmed (il_description plugin)) (trimText (il_display_name plugin))
    (il_enabled plugin ?? true) (trimText (il_id plugin)) installedBy (il_metadata plugin ?? [])
    (trimText (il_plugin_version plugin)) (trimText (il_protocol_version plugin)) (trimmed (il_runtime_error plugin))
    (if decide (il_runtime_status plugin = "disabled") then PluginDisabled
     else if decide (il_runtime_status plugin = "validation_error") then PluginValidationError
     else PluginReady)
    (mkPluginSource (if decide (mbind ul_kind (il_source plugin) = Some "zip") then SourceZip else SourceGit)
       (trimmed (mbind ul_ref (il_source plugin))) (trimmed (mbind ul_url (il_source plugin)) ?? ""))
    (normalizeTools (il_tools plugin)) (trimmed (il_updated_at plugin)) updatedBy.

Definition normalizeCatalog (catalog : PluginCatalogPayload) : PluginCatalogView :=
  mkPluginCatalog (normalizePluginActor (gl_current_actor catalog))
    (normalizeInstalledPlugin <$> (gl_plugins catalog ?? [])).

Record InstallPluginPayload := mkInstall {
  in_allowed_users : option (list string);
  in_visibility : option string;
  in_metadata : option (list (string * string));
  in_source : PluginSource
}.

Definition pluginClient : ApiClient := mkClient (Some "PluginAPIError") "plugin_request_failed" "Plugin request failed".
Definition requestPluginJSON (T : Set) := fetchJSON pluginClient T.

Definition showSource (kind : PluginInstallSourceKind) : string :=
  match kind with SourceGit => "git" | SourceZip => "zip" end.
Definition installJson (payload : InstallPluginPayload) : Json :=
  jobject [("access", Some (jobject [("allowed_users", jtexts (in_allowed_users payload ?? []));
                                     ("owner_username", jtext "");
                                     ("visibility", jtextOpt (trimmed (in_visibility payload)))]));
           ("metadata", Some (headersJson (in_metadata payload)));
           ("source", Some (jobject [("kind", jtext (showSource (ps_kind (in_source payload))));
                                     ("ref", jtextOpt (trimmed (ps_ref (in_source payload))));
                                     ("url", jtext (trimText (ps_url (in_source payload))))]))].

Section Plugins.
Context `{!RuntimeHost}.

Definition fetchInstalledPlugins : Web PluginCatalogView :=
  runtimeContext <- resolveRuntimeContext ;;
  payload <- requestPluginJSON PluginCatalogPayload runtimeContext "/api/v1/plugins" noInit ;;
  Ret (normalizeCatalog payload).

(** The plugin and the plugins of a mutation. *)
Definition pluginMutation (response : PluginCatalogMutationResponse) : InstalledPluginView * PluginCatalogView :=
  (normalizeInstalledPlugin (yl_plugin response), normalizeCatalog (yl_plugins response)).

Definition installPlugin (payload : InstallPluginPayload) : Web (InstalledPluginView * PluginCatalogView) :=
  runtimeContext <- resolveRuntimeContext ;;
  response <- requestPluginJSON PluginCatalogMutationResponse runtimeContext "/api/v1/plugins/install"
    (withBody "POST" (installJson payload)) ;;
  Ret (pluginMutation response).

Definition mutatePlugin (pluginID method path : string) : Web (InstalledPluginView * PluginCatalogView) :=
  runtimeContext <- resolveRuntimeContext ;;
  response <- requestPluginJSON PluginCatalogMutationResponse runtimeContext
    ("/api/v1/plugins/" +:+ encodeURIComponent pluginID +:+ path) (mkInit (Some method) None) ;;
  Ret (pluginMutation response).

Definition enablePlugin (pluginID : string) := mutatePlugin pluginID "POST" "/enable".
Definition disablePlugin (pluginID : string) := mutatePlugin pluginID "POST" "/disable".
Definition updateInstalledPlugin (pluginID : string) := mutatePlugin pluginID "POST" "/update".
Definition deleteInstalledPlugin (pluginID : string) := mutatePlugin pluginID "DELETE" "".

End Plugins.
