(* ===== verification/SettingsApi.v ===== *)
(** * The clients of the settings

    The settings in [frontend/src/shared/api/runtime.ts] (title of the window,
    language, and the commands of the desktop shell),
    [shared/api/terminal-settings.ts] and [shared/api/agent-settings.ts]. *)
From Stdlib Require Import Ascii String QArith Qround Qminmax.
From stdpp Require Import strings.
From S2P Require Import Prelude JsString Text Number RuntimePath Url Effects Http ProviderApi.
Local Open Scope string_scope.
Local Open Scope list_scope.
Local Open Scope Z_scope.
Local Open Scope js_scope.
Local Open Scope prog_scope.

(** ** The runtime *)

Definition runtimeClient : ApiClient := mkClient None "" "Runtime request failed".

Inductive RuntimeWatcherMode := WatcherEphemeral | WatcherPersistent.
#[global] Instance watcher_mode_eq : EqDecision RuntimeWatcherMode.
Proof. solve_decision. Defined.
Definition showWatcherMode (mode : RuntimeWatcherMode) : string :=
  match mode with WatcherEphemeral => "ephemeral" | WatcherPersistent => "persistent" end.

Definition showTitleMode (mode : WindowTitleMode) : string :=
  match mode with TitleAuto => "auto" | TitleCustom => "custom" end.
Definition showLocale (locale : AppLocale) : string :=
  match locale with LocaleEn => "en" | LocaleRu => "ru" | LocaleZhCN => "zh-CN" | LocaleEs => "es" end.

Record WindowTitlePayload := mkTitlePayload {
  wl_auto_title : option string;
  wl_custom_title : option string;
  wl_mode : option string
}.
Record LocalePayload := mkLocalePayload {
  kl_locale : option string;
  kl_supported_locales : option (list (option string))
}.
Record RuntimeShutdownPayload := mkShutdown { sh_can_close : bool; sh_active_tasks : Z; sh_watcher_mode : string }.

Section Runtime.
Context `{!RuntimeHost}.

(** [requestRuntimeJSON] *)
Definition runtime_requestRuntimeJSON (T : Set) (path : string) (init : RequestInit) : Web T :=
  runtimeContext <- resolveRuntimeContext ;;
  fetchJSON runtimeClient T runtimeContext path init.

Definition requestRuntimeSettings : Web string :=
  if negb isTauri then Ret "ephemeral" else await (Invoke string "runtime_settings" None).

Definition titleSettings (payload : WindowTitlePayload) : WindowTitleSettings :=
  normalizeWindowTitleSettings (wl_auto_title payload) (wl_custom_title payload) (wl_mode payload).

Definition requestWindowTitleSettings : Web WindowTitleSettings :=
  payload <- runtime_requestRuntimeJSON WindowTitlePayload "/api/v1/settings/window-title" noInit ;;
  Ret (titleSettings payload).

Definition updateWindowTitleSettings (custom_title : option string) (mode : option WindowTitleMode)
    : Web WindowTitleSettings :=
  payload <- runtime_requestRuntimeJSON WindowTitlePayload "/api/v1/settings/window-title"
    (withBody "PUT" (jobject [("custom_title", jtextOpt custom_title); ("mode", jtextOpt (showTitleMode <$> mode))])) ;;
  Ret (titleSettings payload).

Definition requestLocaleSettings : Web (AppLocale * list AppLocale) :=
  payload <- runtime_requestRuntimeJSON LocalePayload "/api/v1/settings/locale" noInit ;;
  Ret (normalizeLocaleSettings (kl_locale payload) (kl_supported_locales payload)).

Definition updateLocaleSettings (locale : AppLocale) : Web (AppLocale * list AppLocale) :=
  payload <- runtime_requestRuntimeJSON LocalePayload "/api/v1/settings/locale"
    (withBody "PUT" (jobject [("locale", jtext (showLocale locale))])) ;;
  Ret (normalizeLocaleSettings (kl_locale payload) (kl_supported_locales payload)).

Definition setRuntimeWatcherMode (mode : RuntimeWatcherMode) : Web unit :=
  if negb isTauri then Throw (PlainError "Runtime settings mutation is only available in the desktop app.")
  else await (Invoke unit "set_watcher_mode" (Some (jobject [("mode", jtext (showWatcherMode mode))]))).

Definition requestRuntimeShutdown (force : option bool) : Web RuntimeShutdownPayload :=
  if negb isTauri then Ret (mkShutdown true 0 "ephemeral")
  else await (Invoke RuntimeShutdownPayload "request_shutdown" (Some (jobject [("force", jbool (force ?? false))]))).

(** The commands on the window. *)
Definition invokeWindow (command : string) : Web unit :=
  if negb isTauri then Ret tt else await (Invoke unit command None).
Definition closeRuntimeWindow : Web unit := invokeWindow "close_window".
Definition minimizeRuntimeWindow : Web unit := invokeWindow "minimize_window".
Definition toggleRuntimeFullscreen : Web unit := invokeWindow "toggle_fullscreen_window".

End Runtime.

(** ** Terminals *)

Inductive TerminalThemeMode := ThemeAdaptive | ThemeContrast.
Inductive TerminalCursorStyle := CursorBlock | CursorBar | CursorUnderline.
#[global] Instance theme_mode_eq : EqDecision TerminalThemeMode.
Proof. solve_decision. Defined.
#[global] Instance cursor_style_eq : EqDecision TerminalCursorStyle.
Proof. solve_decision. Defined.

Record TerminalSettings := mkTerminalSettings {
  se_font_size : Z;
  se_line_height : Q;
  se_theme_mode : TerminalThemeMode;
  se_scrollback : Z;
  se_cursor_style : TerminalCursorStyle;
  se_cursor_blink : bool
}.

Record TerminalSettingsPayload := mkTerminalPayload {
  xl_font_size : option Number;
  xl_line_height : option Number;
  xl_theme_mode : option string;
  xl_scrollback : option Number;
  xl_cursor_style : option string;
  xl_cursor_blink : option bool
}.

Definition DEFAULT_TERMINAL_FONT_SIZE : Z := 13.
Definition MIN_TERMINAL_FONT_SIZE : Z := 11.
Definition MAX_TERMINAL_FONT_SIZE : Z := 16.
Definition DEFAULT_TERMINAL_LINE_HEIGHT : Q := 125 # 100.
Definition MIN_TERMINAL_LINE_HEIGHT : Q := 105 # 100.
Definition MAX_TERMINAL_LINE_HEIGHT : Q := 160 # 100.
Definition DEFAULT_TERMINAL_THEME_MODE : TerminalThemeMode := ThemeAdaptive.
Definition DEFAULT_TERMINAL_SCROLLBACK : Z := 5000.
Definition MIN_TERMINAL_SCROLLBACK : Z := 1000.
Definition MAX_TERMINAL_SCROLLBACK : Z := 20000.
Definition DEFAULT_TERMINAL_CURSOR_STYLE : TerminalCursorStyle := CursorBlock.
Definition DEFAULT_TERMINAL_CURSOR_BLINK : bool := true.

Definition clampTerminalFontSize (value : Number) : Z :=
  match finite value with
  | None => DEFAULT_TERMINAL_FONT_SIZE
  | Some q => Z.min MAX_TERMINAL_FONT_SIZE (Z.max MIN_TERMINAL_FONT_SIZE (roundQ q))
  end.

(** The result has two decimals. *)
Definition clampTerminalLineHeight (value : Number) : Q :=
  match finite value with
  | None => DEFAULT_TERMINAL_LINE_HEIGHT
  | Some q =>
      let clamped := Qmin MAX_TERMINAL_LINE_HEIGHT (Qmax MIN_TERMINAL_LINE_HEIGHT q) in
      roundQ (clamped * 100)%Q # 100
  end.

Definition clampTerminalThemeMode (value : option string) : TerminalThemeMode :=
  if decide (lowerText (trimText (value ?? "")) = "contrast") then ThemeContrast else DEFAULT_TERMINAL_THEME_MODE.

Definition clampTerminalCursorStyle (value : option string) : TerminalCursorStyle :=
  let style := lowerText (trimText (value ?? "")) in
  if decide (style = "bar") then CursorBar
  else if decide (style = "underline") then CursorUnderline
  else DEFAULT_TERMINAL_CURSOR_STYLE.

Definition clampTerminalScrollback (value : Number) : Z :=
  match finite value with
  | None => DEFAULT_TERMINAL_SCROLLBACK
  | Some q => Z.min MAX_TERMINAL_SCROLLBACK (Z.max MIN_TERMINAL_SCROLLBACK (roundQ q))
  end.

Definition normalizeTerminalSettings (payload : option TerminalSettingsPayload) : TerminalSettings :=
  mkTerminalSettings
    (clampTerminalFontSize (mbind xl_font_size payload ?? ofZ DEFAULT_TERMINAL_FONT_SIZE))
    (clampTerminalLineHeight (mbind xl_line_height payload ?? Finite DEFAULT_TERMINAL_LINE_HEIGHT))
    (clampTerminalThemeMode (mbind xl_theme_mode payload))
    (clampTerminalScrollback (mbind xl_scrollback payload ?? ofZ DEFAULT_TERMINAL_SCROLLBACK))
    (clampTerminalCursorStyle (mbind xl_cursor_style payload))
    (mbind xl_cursor_blink payload ?? DEFAULT_TERMINAL_CURSOR_BLINK).

Definition showTheme (mode : TerminalThemeMode) : string :=
  match mode with ThemeAdaptive => "adaptive" | ThemeContrast => "contrast" end.
Definition showCursor (style : TerminalCursorStyle) : string :=
  match style with CursorBlock => "block" | CursorBar => "bar" | CursorUnderline => "underline" end.

(** The body of an update; the clamps are applied once more. *)
Definition terminalSettingsJson (settings : TerminalSettings) : Json :=
  jobject
    [("font_size", jnumber (clampTerminalFontSize (ofZ (se_font_size settings))));
     ("line_height", jvalue (Finite (clampTerminalLineHeight (Finite (se_line_height settings)))));
     ("theme_mode", jtext (showTheme (clampTerminalThemeMode (Some (showTheme (se_theme_mode settings))))));
     ("scrollback", jnumber (clampTerminalScrollback (ofZ (se_scrollback settings))));
     ("cursor_style", jtext (showCursor (clampTerminalCursorStyle (Some (showCursor (se_cursor_style settings))))));
     ("cursor_blink", jbool (se_cursor_blink settings))].

(** ** The composer of the agent *)

Inductive AgentComposerSubmitMode := EnterSends | ModEnterSends.
#[global] Instance submit_mode_eq : EqDecision AgentComposerSubmitMode.
Proof. solve_decision. Defined.
Definition showSubmitMode (mode : AgentComposerSubmitMode) : string :=
  match mode with EnterSends => "enter-sends" | ModEnterSends => "mod-enter-sends" end.

Record AgentSettings := mkAgentSettings {
  ag_composer_submit_mode : AgentComposerSubmitMode;
  ag_debug_mode_enabled : bool
}.
Record AgentSettingsPayload := mkAgentPayload {
  dl_composer_submit_mode : option string;
  dl_debug_mode_enabled : option bool
}.

Definition DEFAULT_AGENT_COMPOSER_SUBMIT_MODE : AgentComposerSubmitMode := EnterSends.
Definition clampAgentComposerSubmitMode (value : option string) : AgentComposerSubmitMode :=
  if decide (value = Some "mod-enter-sends") then ModEnterSends else DEFAULT_AGENT_COMPOSER_SUBMIT_MODE.

Definition normalizeAgentSettings (payload : option AgentSettingsPayload) : AgentSettings :=
  mkAgentSettings (clampAgentComposerSubmitMode (mbind dl_composer_submit_mode payload))
    (bool_decide (mbind dl_debug_mode_enabled payload = Some true)).

Definition agentSettingsJson (settings : AgentSettings) : Json :=
  jobject
    [("composer_submit_mode", jtext (showSubmitMode (clampAgentComposerSubmitMode (Some (showSubmitMode (ag_composer_submit_mode settings))))));
     ("debug_mode_enabled", jbool (ag_debug_mode_enabled settings))].

Section Settings.
Context `{!RuntimeHost}.

(** The errors of these calls hold the status only. *)
Definition settingsFetch (T : Set) (text path : string) (init : RequestInit) : Web T :=
  runtimeContext <- resolveRuntimeContext ;;
  response <- await (Fetch T (toRequest runtimeContext path init)) ;;
  if negb (hr_ok response)
  then Throw (PlainError (text +:+ " (" +:+ showZ (hr_status response) +:+ ")"))
  else readJson response.

Definition requestTerminalSettings : Web TerminalSettings :=
  payload <- settingsFetch (option TerminalSettingsPayload) "Unable to load terminal settings"
    "/api/v1/settings/terminal" noInit ;;
  Ret (normalizeTerminalSettings payload).

Definition updateTerminalSettings (settings : TerminalSettings) : Web TerminalSettings :=
  payload <- settingsFetch (option TerminalSettingsPayload) "Unable to update terminal settings"
    "/api/v1/settings/terminal" (withBody "PUT" (terminalSettingsJson settings)) ;;
  Ret (normalizeTerminalSettings payload).

Definition requestAgentSettings : Web AgentSettings :=
  payload <- settingsFetch (option AgentSettingsPayload) "Unable to load agent settings" "/api/v1/settings/agent" noInit ;;
  Ret (normalizeAgentSettings payload).

Definition updateAgentSettings (settings : AgentSettings) : Web AgentSettings :=
  payload <- settingsFetch (option AgentSettingsPayload) "Unable to update agent settings" "/api/v1/settings/agent"
    (withBody "PUT" (agentSettingsJson settings)) ;;
  Ret (normalizeAgentSettings payload).

End Settings.
