(* ===== verification/Api.v ===== *)
(** * The calls of the API clients

    Every function of the clients that sends an HTTP request, as one type of
    calls, with the abstract description of what it sends: the method, the
    segments of the path, the parameters of the query and the body, as a server
    reads them.  The theorems are about all calls at once. *)
From Stdlib Require Import Ascii String.
From stdpp Require Import strings.
From S2P Require Import Prelude JsString Text Types Number RuntimePath Url CommanderApi Conversation AgentContext AgentState Effects Http ProviderApi AgentApi TerminalSession TerminalApi FilesApi ServicesApi SettingsApi.
Local Open Scope string_scope.
Local Open Scope list_scope.
Local Open Scope Z_scope.
Local Open Scope js_scope.
Local Open Scope prog_scope.

Inductive ApiCall :=
  (* agent/api/provider-client.ts *)
  | FetchProviderCatalog
  | FetchProviderGateway (query : AgentProviderGatewaySnapshotQuery)
  | ProbeProvider (id : string)
  | PrewarmProvider (id : string)
  | ClearProviderRoute (id : string)
  | CreateProvider (payload : CreateAgentProviderPayload)
  | DiscoverModels (payload : DiscoverAgentProviderModelsPayload)
  | UpdateProvider (id : string) (payload : UpdateAgentProviderPayload)
  | SetActiveProvider (id : string)
  | DeleteProvider (id : string)
  (* agent/api/client.ts *)
  | FetchAgentCatalog
  | FetchAgentConversation
  | FetchAgentConversations (query : option string) (scope : option AgentConversationListScope)
  | CreateAgentConversation
  | RenameAgentConversation (id title : string)
  | DeleteAgentConversation (id : string)
  | ArchiveAgentConversation (id : string)
  | RestoreAgentConversation (id : string)
  | ActivateAgentConversation (id : string)
  | UpdateAgentContext (id : string) (preferences : AgentConversationContextPreferences)
  | SendAgentMessage (input : PromptInput)
  | CreateAttachment (input : AttachmentInput)
  | FetchAttachments
  | DeleteAttachment (id : string)
  | ExecuteAgentTool (approval_token : option string) (context : ToolContext) (input : ToolInput)
  | ExplainCommand (input : ExplainInput)
  | PlanCommand (input : PlanInput)
  | SetAgentProfile (id : string)
  | SetAgentRole (id : string)
  | SetAgentMode (id : string)
  (* terminal/api/client.ts *)
  | FetchTerminalSnapshotCall (w : string) (from : option Z)
  | CreateTerminalSessionCall (w : string)
  | SetActiveTerminalSessionCall (w id : string)
  | CloseTerminalSessionCall (w id : string)
  | FetchTerminalDiagnosticsCall (w : string)
  | FetchTerminalLatestCommandCall (w : string)
  | FetchTerminalSessionCatalogCall
  | FetchTerminalShellsCall
  | CreateTerminalTabCall (title : option string)
  | CreateSplitTerminalCall (input : CreateSplitTerminalWidgetInput)
  | CloseTerminalTabCall (id : string)
  | SendTerminalInputCall (w text : string) (appendNewline : bool)
  | RestartTerminalCall (w : string) (shell : option string)
  | InterruptTerminalCall (w : string)
  (* commander/api/client.ts *)
  | ListCommander (path : string) (query : option string)
  | ReadCommanderPreview (path : string) (maxBytes : option Z)
  | ReadCommander (path : string)
  | MutateCommander (request : FSRequest)
  (* files, preview and workspace *)
  | ListFiles (path : string) (options : FilesRequestOptions)
  | OpenFiles (path : string) (options : FilesRequestOptions)
  | ReadPreview (path : string) (maxBytes : option Z) (options : FilesRequestOptions)
  | OpenPreview (path : string) (options : FilesRequestOptions)
  | FetchWorkspace
  | FocusWidget (id : string)
  | FetchWidgetKinds
  | OpenDirectoryWidget (input : OpenWorkspaceWidgetInput)
  | OpenPreviewWidget (input : OpenWorkspaceWidgetInput)
  | CloseWidget (id : string)
  (* mcp, remote and plugins *)
  | FetchServers
  | FetchTemplates
  | RegisterServer (payload : RegisterRemoteMCPServerPayload)
  | ProbeServer (payload : RegisterRemoteMCPServerPayload)
  | FetchServerDetails (id : string)
  | UpdateServer (id : string) (payload : RegisterRemoteMCPServerPayload)
  | DeleteServer (id : string)
  | ControlServer (id : string) (action : MCPServerControlAction)
  | FetchProfiles
  | SaveProfile (payload : SaveRemoteProfilePayload)
  | DeleteProfile (id : string)
  | FetchConnections
  | CheckProfile (id : string)
  | SelectProfile (id : string)
  | ImportProfiles (path : option string)
  | FetchTmuxSessions (id : string)
  | CreateProfileSession (id : string) (title tmux_session : option string)
  | FetchPlugins
  | InstallPlugin (payload : InstallPluginPayload)
  | EnablePlugin (id : string)
  | DisablePlugin (id : string)
  | UpdatePlugin (id : string)
  | DeletePlugin (id : string)
  (* settings *)
  | RequestWindowTitle
  | UpdateWindowTitle (custom_title : option string) (mode : option WindowTitleMode)
  | RequestLocale
  | UpdateLocale (locale : AppLocale)
  | RequestTerminalSettings
  | UpdateTerminalSettings (settings : TerminalSettings)
  | RequestAgentSettings
  | UpdateAgentSettings (settings : AgentSettings).

Definition ignore {A} (p : Web A) : Web unit := _ <- p ;; Ret tt.

Definition apiProg `{!RuntimeHost} `{!Zod} (c : ApiCall) : Web unit :=
  match c with
  | FetchProviderCatalog => ignore fetchAgentProviderCatalog
  | FetchProviderGateway query => ignore (fetchAgentProviderGatewaySnapshot query)
  | ProbeProvider id => ignore (probeAgentProvider id)
  | PrewarmProvider id => ignore (prewarmAgentProvider id)
  | ClearProviderRoute id => ignore (clearAgentProviderRouteState id)
  | CreateProvider payload => ignore (createAgentProvider payload)
  | DiscoverModels payload => ignore (discoverAgentProviderModels payload)
  | UpdateProvider id payload => ignore (updateAgentProvider id payload)
  | SetActiveProvider id => ignore (setActiveAgentProvider id)
  | DeleteProvider id => ignore (deleteAgentProvider id)
  | FetchAgentCatalog => ignore fetchAgentCatalog
  | FetchAgentConversation => ignore fetchAgentConversation
  | FetchAgentConversations query scope => ignore (fetchAgentConversations query scope)
  | CreateAgentConversation => ignore createAgentConversation
  | RenameAgentConversation id title => ignore (renameAgentConversation id title)
  | DeleteAgentConversation id => ignore (deleteAgentConversation id)
  | ArchiveAgentConversation id => ignore (archiveAgentConversation id)
  | RestoreAgentConversation id => ignore (restoreAgentConversation id)
  | ActivateAgentConversation id => ignore (activateAgentConversation id)
  | UpdateAgentContext id preferences => ignore (updateAgentConversationContext id preferences)
  | SendAgentMessage input => ignore (sendAgentConversationMessage input)
  | CreateAttachment input => ignore (createAgentAttachmentReference input)
  | FetchAttachments => ignore fetchAgentAttachmentReferences
  | DeleteAttachment id => deleteAgentAttachmentReference id
  | ExecuteAgentTool token context input => ignore (executeAgentTool token context input)
  | ExplainCommand input => ignore (explainTerminalCommand input)
  | PlanCommand input => ignore (planTerminalCommand input)
  | SetAgentProfile id => ignore (setAgentProfile id)
  | SetAgentRole id => ignore (setAgentRole id)
  | SetAgentMode id => ignore (setAgentMode id)
  | FetchTerminalSnapshotCall w from => ignore (fetchTerminalSnapshot w from)
  | CreateTerminalSessionCall w => ignore (createTerminalSession w)
  | SetActiveTerminalSessionCall w id => ignore (setActiveTerminalSession w id)
  | CloseTerminalSessionCall w id => ignore (closeTerminalSession w id)
  | FetchTerminalDiagnosticsCall w => ignore (fetchTerminalDiagnostics w)
  | FetchTerminalLatestCommandCall w => ignore (fetchTerminalLatestCommand w)
  | FetchTerminalSessionCatalogCall => ignore fetchTerminalSessionCatalog
  | FetchTerminalShellsCall => ignore fetchTerminalShells
  | CreateTerminalTabCall title => ignore (createTerminalTab title)
  | CreateSplitTerminalCall input => ignore (createSplitTerminalWidget input)
  | CloseTerminalTabCall id => ignore (closeTerminalTab id)
  | SendTerminalInputCall w text appendNewline => ignore (sendTerminalInput w text appendNewline)
  | RestartTerminalCall w shell => ignore (restartTerminal w shell)
  | InterruptTerminalCall w => ignore (interruptTerminal w)
  | ListCommander path query => ignore (listCommanderDirectory path query)
  | ReadCommanderPreview path maxBytes => ignore (readCommanderFilePreview path maxBytes)
  | ReadCommander path => ignore (readCommanderFile path)
  | MutateCommander request => serveFSRequest request
  | ListFiles path options => ignore (listFilesDirectory path options)
  | OpenFiles path options => ignore (openFilesPathExternally path options)
  | ReadPreview path maxBytes options => ignore (readPreviewFile path maxBytes options)
  | OpenPreview path options => ignore (openPreviewPathExternally path options)
  | FetchWorkspace => ignore fetchWorkspaceSnapshot
  | FocusWidget id => ignore (focusWorkspaceWidget id)
  | FetchWidgetKinds => ignore fetchWorkspaceWidgetKindCatalog
  | OpenDirectoryWidget input => ignore (openDirectoryWorkspaceWidget input)
  | OpenPreviewWidget input => ignore (openPreviewWorkspaceWidget input)
  | CloseWidget id => ignore (closeWorkspaceWidget id)
  | FetchServers => ignore fetchMCPServers
  | FetchTemplates => ignore fetchMCPTemplateCatalog
  | RegisterServer payload => ignore (registerRemoteMCPServer payload)
  | ProbeServer payload => ignore (probeMCPServer payload)
  | FetchServerDetails id => ignore (fetchMCPServerDetails id)
  | UpdateServer id payload => ignore (updateRemoteMCPServer id payload)
  | DeleteServer id => ignore (deleteMCPServer id)
  | ControlServer id action => ignore (controlMCPServer id action)
  | FetchProfiles => ignore fetchRemoteProfiles
  | SaveProfile payload => ignore (saveRemoteProfile payload)
  | DeleteProfile id => ignore (deleteRemoteProfile id)
  | FetchConnections => ignore fetchRemoteConnectionsSnapshot
  | CheckProfile id => ignore (checkRemoteProfileConnection id)
  | SelectProfile id => ignore (selectRemoteProfileConnection id)
  | ImportProfiles path => ignore (importSSHConfigProfiles path)
  | FetchTmuxSessions id => ignore (fetchRemoteProfileTmuxSessions id)
  | CreateProfileSession id title tmux_session => ignore (createRemoteProfileSession id title tmux_session)
  | FetchPlugins => ignore fetchInstalledPlugins
  | InstallPlugin payload => ignore (installPlugin payload)
  | EnablePlugin id => ignore (enablePlugin id)
  | DisablePlugin id => ignore (disablePlugin id)
  | UpdatePlugin id => ignore (updateInstalledPlugin id)
  | DeletePlugin id => ignore (deleteInstalledPlugin id)
  | RequestWindowTitle => ignore requestWindowTitleSettings
  | UpdateWindowTitle custom_title mode => ignore (updateWindowTitleSettings custom_title mode)
  | RequestLocale => ignore requestLocaleSettings
  | UpdateLocale locale => ignore (updateLocaleSettings locale)
  | RequestTerminalSettings => ignore requestTerminalSettings
  | UpdateTerminalSettings settings => ignore (updateTerminalSettings settings)
  | RequestAgentSettings => ignore requestAgentSettings
  | UpdateAgentSettings settings => ignore (updateAgentSettings settings)
  end.

(** ** What a server reads *)

Record Route := mkRoute { ro_method : string; ro_segments : list string; ro_params : SearchParams }.

Definition get_ := mkRoute "GET".
Definition post_ := mkRoute "POST".
Definition put_ := mkRoute "PUT".
Definition delete_ := mkRoute "DELETE".

Definition maxBytesParam (maxBytes : option Z) : SearchParams :=
  match maxBytes with
  | Some n => if n =? 0 then [] else [("max_bytes", showZ n)]
  | None => []
  end.

(** The route below [/api/v1]. *)
Definition apiRoute (c : ApiCall) : Route :=
  match c with
  | FetchProviderCatalog => get_ ["agent"; "providers"] []
  | FetchProviderGateway query => get_ ["agent"; "providers"; "gateway"] (gatewayParams query)
  | ProbeProvider id => post_ ["agent"; "providers"; id; "probe"] []
  | PrewarmProvider id => post_ ["agent"; "providers"; id; "prewarm"] []
  | ClearProviderRoute id => post_ ["agent"; "providers"; id; "route-state"; "clear"] []
  | CreateProvider _ => post_ ["agent"; "providers"] []
  | DiscoverModels _ => post_ ["agent"; "providers"; "models"] []
  | UpdateProvider id _ => mkRoute "PATCH" ["agent"; "providers"; id] []
  | SetActiveProvider _ => put_ ["agent"; "providers"; "active"] []
  | DeleteProvider id => delete_ ["agent"; "providers"; id] []
  | FetchAgentCatalog => get_ ["agent"] []
  | FetchAgentConversation => get_ ["agent"; "conversation"] []
  | FetchAgentConversations query scope => get_ ["agent"; "conversations"] (conversationsParams query scope)
  | CreateAgentConversation => post_ ["agent"; "conversations"] []
  | RenameAgentConversation id _ => mkRoute "PATCH" ["agent"; "conversations"; id] []
  | DeleteAgentConversation id => delete_ ["agent"; "conversations"; id] []
  | ArchiveAgentConversation id => put_ ["agent"; "conversations"; id; "archive"] []
  | RestoreAgentConversation id => put_ ["agent"; "conversations"; id; "restore"] []
  | ActivateAgentConversation id => put_ ["agent"; "conversations"; id; "activate"] []
  | UpdateAgentContext id _ => put_ ["agent"; "conversations"; id; "context"] []
  | SendAgentMessage _ => post_ ["agent"; "conversation"; "messages"] []
  | CreateAttachment _ => post_ ["agent"; "conversation"; "attachments"; "references"] []
  | FetchAttachments => get_ ["agent"; "conversation"; "attachments"; "references"] []
  | DeleteAttachment id => delete_ ["agent"; "conversation"; "attachments"; "references"; id] []
  | ExecuteAgentTool _ _ _ => post_ ["tools"; "execute"] []
  | ExplainCommand _ => post_ ["agent"; "terminal-commands"; "explain"] []
  | PlanCommand _ => post_ ["agent"; "terminal-commands"; "plan"] []
  | SetAgentProfile _ => put_ ["agent"; "selection"; "profile"] []
  | SetAgentRole _ => put_ ["agent"; "selection"; "role"] []
  | SetAgentMode _ => put_ ["agent"; "selection"; "mode"] []
  | FetchTerminalSnapshotCall w from => get_ ["terminal"; w] (match from with Some n => [("from", showZ n)] | None => [] end)
  | CreateTerminalSessionCall w => post_ ["terminal"; w; "sessions"] []
  | SetActiveTerminalSessionCall w _ => put_ ["terminal"; w; "sessions"; "active"] []
  | CloseTerminalSessionCall w id => delete_ ["terminal"; w; "sessions"; id] []
  | FetchTerminalDiagnosticsCall w => get_ ["terminal"; w; "diagnostics"] []
  | FetchTerminalLatestCommandCall w => get_ ["terminal"; w; "commands"; "latest"] []
  | FetchTerminalSessionCatalogCall => get_ ["terminal"; "sessions"] []
  | FetchTerminalShellsCall => get_ ["terminal"; "shells"] []
  | CreateTerminalTabCall _ => post_ ["workspace"; "tabs"] []
  | CreateSplitTerminalCall _ => post_ ["workspace"; "widgets"; "split"] []
  | CloseTerminalTabCall id => delete_ ["workspace"; "tabs"; id] []
  | SendTerminalInputCall w _ _ => post_ ["terminal"; w; "input"] []
  | RestartTerminalCall w _ => post_ ["terminal"; w; "restart"] []
  | InterruptTerminalCall w => post_ ["terminal"; w; "interrupt"] []
  | ListCommander path query => get_ ["fs"; "list"] (listParams path query)
  | ReadCommanderPreview path maxBytes => get_ ["fs"; "read"] (("path", path) :: maxBytesParam maxBytes)
  | ReadCommander path => get_ ["fs"; "file"] [("path", path)]
  | MutateCommander request =>
      match request with
      | ReqMkdir _ => post_ ["fs"; "mkdir"] []
      | ReqCopy _ _ _ | ReqCopyToPaths _ _ => post_ ["fs"; "copy"] []
      | ReqMove _ _ _ => post_ ["fs"; "move"] []
      | ReqDelete _ => post_ ["fs"; "delete"] []
      | ReqRename _ _ => post_ ["fs"; "rename"] []
      | ReqWriteFile _ _ => put_ ["fs"; "file"] []
      | ReqOpen _ => post_ ["fs"; "open"] []
      end
  | ListFiles path options => get_ ["fs"; "list"] (filesParams path options)
  | OpenFiles _ _ | OpenPreview _ _ => post_ ["fs"; "open"] []
  | ReadPreview path maxBytes options => get_ ["fs"; "read"] (previewParams path maxBytes options)
  | FetchWorkspace => get_ ["workspace"] []
  | FocusWidget _ => post_ ["workspace"; "focus-widget"] []
  | FetchWidgetKinds => get_ ["workspace"; "widget-kinds"] []
  | OpenDirectoryWidget _ => post_ ["workspace"; "widgets"; "open-directory"] []
  | OpenPreviewWidget _ => post_ ["workspace"; "widgets"; "open-preview"] []
  | CloseWidget id => delete_ ["workspace"; "widgets"; id] []
  | FetchServers => get_ ["mcp"; "servers"] []
  | FetchTemplates => get_ ["mcp"; "catalog"] []
  | RegisterServer _ => post_ ["mcp"; "servers"] []
  | ProbeServer _ => post_ ["mcp"; "probe"] []
  | FetchServerDetails id => get_ ["mcp"; "servers"; id] []
  | UpdateServer id _ => put_ ["mcp"; "servers"; id] []
  | DeleteServer id => delete_ ["mcp"; "servers"; id] []
  | ControlServer id action => post_ ["mcp"; "servers"; id; showControl action] []
  | FetchProfiles => get_ ["remote"; "profiles"] []
  | SaveProfile _ => post_ ["remote"; "profiles"] []
  | DeleteProfile id => delete_ ["remote"; "profiles"; id] []
  | FetchConnections => get_ ["connections"] []
  | CheckProfile id => post_ ["connections"; id; "check"] []
  | SelectProfile _ => put_ ["connections"; "active"] []
  | ImportProfiles _ => post_ ["remote"; "profiles"; "import-ssh-config"] []
  | FetchTmuxSessions id => get_ ["remote"; "profiles"; id; "tmux-sessions"] []
  | CreateProfileSession id _ _ => post_ ["remote"; "profiles"; id; "session"] []
  | FetchPlugins => get_ ["plugins"] []
  | InstallPlugin _ => post_ ["plugins"; "install"] []
  | EnablePlugin id => post_ ["plugins"; id; "enable"] []
  | DisablePlugin id => post_ ["plugins"; id; "disable"] []
  | UpdatePlugin id => post_ ["plugins"; id; "update"] []
  | DeletePlugin id => delete_ ["plugins"; id] []
  | RequestWindowTitle => get_ ["settings"; "window-title"] []
  | UpdateWindowTitle _ _ => put_ ["settings"; "window-title"] []
  | RequestLocale => get_ ["settings"; "locale"] []
  | UpdateLocale _ => put_ ["settings"; "locale"] []
  | RequestTerminalSettings => get_ ["settings"; "terminal"] []
  | UpdateTerminalSettings _ => put_ ["settings"; "terminal"] []
  | RequestAgentSettings => get_ ["settings"; "agent"] []
  | UpdateAgentSettings _ => put_ ["settings"; "agent"] []
  end.

(** An id that a client puts into a path without encoding it. *)
Definition rawId (c : ApiCall) : option string :=
  match c with UpdateProvider id _ | DeleteProvider id => Some id | _ => None end.

(** The request reads as the route, below the runtime's base URL. *)
Definition reads_as (context : RuntimeContext) (request : HttpRequest) (route : Route) : Prop :=
  hq_method request = ro_method route /\
  exists target, hq_url request = cx_baseUrl context +:+ target /\
    decodeTarget target = ("" :: "api" :: "v1" :: ro_segments route, ro_params route).

(** The request reads as the call's route; where an id is not encoded, its target
    ends with the id as it is, and reads as the route if the id needs no
    encoding. *)
Definition carries (context : RuntimeContext) (request : HttpRequest) (c : ApiCall) : Prop :=
  match rawId c with
  | None => reads_as context request (apiRoute c)
  | Some id =>
      hq_method request = ro_method (apiRoute c) /\
      hq_url request = cx_baseUrl context +:+ "/api/v1/agent/providers/" +:+ id /\
      (str_all uri_unreserved id = true -> reads_as context request (apiRoute c))
  end.

Definition authorised (context : RuntimeContext) (request : HttpRequest) : Prop :=
  hq_headers request =
    authorization (cx_authToken context) :: (if hq_body request then [jsonContent] else []).

(** The client whose error a refused call throws; the calls of the terminal's
    and the agent's settings have a text of their own. *)
Definition clientOf (c : ApiCall) : ApiClient :=
  match c with
  | FetchProviderCatalog | FetchProviderGateway _ | ProbeProvider _ | PrewarmProvider _ | ClearProviderRoute _
  | CreateProvider _ | DiscoverModels _ | UpdateProvider _ _ | SetActiveProvider _ | DeleteProvider _ => providerClient
  | ExecuteAgentTool _ _ _ => toolClient
  | FetchTerminalSnapshotCall _ _ | CreateTerminalSessionCall _ | SetActiveTerminalSessionCall _ _
  | CloseTerminalSessionCall _ _ | FetchTerminalDiagnosticsCall _ | FetchTerminalLatestCommandCall _
  | FetchTerminalSessionCatalogCall | FetchTerminalShellsCall | CreateTerminalTabCall _ | CreateSplitTerminalCall _
  | CloseTerminalTabCall _ | SendTerminalInputCall _ _ _ | RestartTerminalCall _ _ | InterruptTerminalCall _ =>
      terminalClient
  | ListCommander _ _ | ReadCommanderPreview _ _ | ReadCommander _ | MutateCommander _ => commanderClient
  | ListFiles _ _ | OpenFiles _ _ => filesClient
  | ReadPreview _ _ _ | OpenPreview _ _ => previewClient
  | FetchWorkspace => workspaceClient "workspace_request_failed" "Workspace request failed"
  | FocusWidget _ => workspaceClient "workspace_focus_widget_request_failed" "Workspace focus-widget request failed"
  | FetchWidgetKinds => workspaceClient "workspace_widget_catalog_request_failed" "Workspace widget catalog request failed"
  | OpenDirectoryWidget _ =>
      workspaceClient "workspace_open_directory_request_failed" "Workspace open-directory request failed"
  | OpenPreviewWidget _ => workspaceClient "workspace_open_preview_request_failed" "Workspace open-preview request failed"
  | CloseWidget _ => workspaceClient "workspace_close_widget_request_failed" "Workspace close-widget request failed"
  | FetchServers | FetchTemplates | RegisterServer _ | ProbeServer _ | FetchServerDetails _ | UpdateServer _ _
  | DeleteServer _ | ControlServer _ _ => mcpClient
  | FetchProfiles | SaveProfile _ | DeleteProfile _ | FetchConnections | CheckProfile _ | SelectProfile _
  | ImportProfiles _ | FetchTmuxSessions _ | CreateProfileSession _ _ _ => remoteClient
  | FetchPlugins | InstallPlugin _ | EnablePlugin _ | DisablePlugin _ | UpdatePlugin _ | DeletePlugin _ => pluginClient
  | RequestWindowTitle | UpdateWindowTitle _ _ | RequestLocale | UpdateLocale _ => runtimeClient
  | _ => agentClient
  end.
Definition settingsText (c : ApiCall) : option string :=
  match c with
  | RequestTerminalSettings => Some "Unable to load terminal settings"
  | UpdateTerminalSettings _ => Some "Unable to update terminal settings"
  | RequestAgentSettings => Some "Unable to load agent settings"
  | UpdateAgentSettings _ => Some "Unable to update agent settings"
  | _ => None
  end.
Definition callError (c : ApiCall) {T : Set} (response : HttpResponse T) : ApiError :=
  let status := " (" +:+ showZ (hr_status response) +:+ ")" in
  match settingsText c, hr_error response with
  | Some text, _ => PlainError (text +:+ status)
  | None, Some (mkEnvelope code message) =>
      let message := message ?? (ac_text (clientOf c) +:+ status) in
      match ac_errorClass (clientOf c) with
      | Some name => APIError name (hr_status response) (code ?? ac_code (clientOf c)) message
      | None => PlainError message
      end
  | None, None =>
      let message := ac_text (clientOf c) +:+ status in
      match ac_errorClass (clientOf c) with
      | Some name => APIError name (hr_status response) (ac_code (clientOf c)) message
      | None => PlainError message
      end
  end.

(** The answer makes the call fail: it is not ok; the answer of a tool must
    have no status of the tool instead. *)
Definition refuses (c : ApiCall) {T : Set} (response : HttpResponse T) : Prop :=
  match c with
  | ExecuteAgentTool _ _ _ => is_Some (match hr_payload response with inl _ => None | inr m => Some m end)
  | _ => hr_ok response = false
  end.

(** * Lemmas *)

(** A call that awaits nothing any more. *)
Definition settled {A} (p : Web A) : Prop := (exists r, p = Ret r) \/ (exists e, p = Throw e).

Lemma settled_ret {A} (r : A) : settled (Ret r : Web A).
Proof. left. by exists r. Qed.
Lemma settled_throw {A} e : settled (Throw e : Web A).
Proof. right. by exists e. Qed.
Lemma settled_bind {A B} (p : Web A) (k : A -> Web B) : settled p -> (forall r, settled (k r)) -> settled (bind p k).
Proof. intros [[r ->]|[e ->]] Hk; cbn; [apply Hk|apply settled_throw]. Qed.

Section Settled.
Context `{!Zod}.
Lemma settled_parse {T} schema (read : Json -> option T) payload message :
  settled (parseWithSchema schema read payload message).
Proof.
  unfold parseWithSchema. destruct (safeParse _ _); [|apply settled_throw].
  destruct (read payload); [apply settled_ret|apply settled_throw].
Qed.
Lemma settled_elements {T} schema (read : Json -> option T) what i l : settled (parseElements schema read what i l).
Proof.
  revert i. induction l as [|x l IH]; intros i; cbn [parseElements]; [apply settled_ret|].
  apply settled_bind; [apply settled_parse|intros y]. apply settled_bind; [apply IH|intros ys; apply settled_ret].
Qed.
Lemma settled_snapshot v : settled (normalizeTerminalSnapshot v).
Proof.
  unfold normalizeTerminalSnapshot. apply settled_bind; [apply settled_parse|intros [[state next] active]].
  apply settled_bind; [apply settled_elements|intros sessions].
  apply settled_bind; [apply settled_elements|intros chunks; apply settled_ret].
Qed.
End Settled.

Lemma settled_read {T : Set} (response : HttpResponse T) : settled (readJson response).
Proof. unfold readJson. destruct (hr_payload response); [apply settled_ret|apply settled_throw]. Qed.

(** What the code writes for the route. *)
Definition writtenPath (segments : list string) : string := "/" +:+ join "/" (encodeURIComponent <$> segments).

Lemma written_no_unit c segments : is_delimiter c = true -> c <> slash -> no_unit c (writtenPath segments) = true.
Proof.
  intros Hc Hs. unfold writtenPath. rewrite no_unit_append. apply andb_true_iff. split.
  - unfold no_unit. cbn. rewrite bool_decide_eq_false_2 by (unfold slash in Hs; congruence). done.
  - induction segments as [|s l IH]; [done|]. destruct l as [|s' l]; [by apply component_no_unit|].
    change (join "/" (encodeURIComponent <$> s :: s' :: l)) with
      (encodeURIComponent s +:+ "/" +:+ join "/" (encodeURIComponent <$> s' :: l)).
    rewrite !no_unit_append, IH, component_no_unit by done. unfold no_unit. cbn.
    rewrite bool_decide_eq_false_2 by (unfold slash in Hs; congruence). done.
Qed.

Lemma decode_written segments : segments <> [] -> decodePath (writtenPath segments) = "" :: segments.
Proof.
  intros Hne. unfold decodePath, writtenPath.
  change ("/" +:+ join "/" (encodeURIComponent <$> segments)) with
    ("" +:+ String slash (join (String slash "") (encodeURIComponent <$> segments))).
  rewrite splitOn_app, splitOn_join.
  - cbn [splitOn app fmap list_fmap]. cbn [percentDecode]. f_equal.
    rewrite <- list_fmap_compose. rewrite (list_fmap_ext _ id); [by rewrite list_fmap_id|].
    intros i s _. apply decode_component.
  - apply Forall_forall. intros s [s' [-> _]]%list_elem_of_fmap. by apply component_no_unit.
  - by destruct segments.
Qed.

Lemma decode_target segments query :
  segments <> [] -> decodeTarget (writtenPath segments +:+ String "?" query) = ("" :: segments, decodeQuery query).
Proof.
  intros Hne. unfold decodeTarget. rewrite cutAt_app by by apply written_no_unit. by rewrite decode_written.
Qed.
Lemma decode_target_path segments : segments <> [] -> decodeTarget (writtenPath segments) = ("" :: segments, []).
Proof.
  intros Hne. unfold decodeTarget. rewrite cutAt_none by by apply written_no_unit. by rewrite decode_written.
Qed.

Lemma decode_query_suffix segments params :
  segments <> [] -> decodeTarget (writtenPath segments +:+ querySuffix params) = ("" :: segments, params).
Proof.
  intros Hne. destruct params as [|p params]; cbn [querySuffix]; [by rewrite append_nil_r, decode_target_path|].
  change ("?" +:+ ?q) with (String "?" q). by rewrite decode_target, decode_params.
Qed.

(** ** Every call *)

(** What a call does once the runtime context is there: one request, and its
    end with the answer. *)
Record sends (c : ApiCall) (p : Web unit) (context : RuntimeContext) (T : Set) (request : HttpRequest)
    (k : HttpResponse T + ApiError -> Web unit) : Prop := {
  sends_run : run p (Settled (inl context)) = (Settled (inl context), Waiting (Fetch T request) k);
  sends_route : carries context request c;
  sends_headers : authorised context request;
  sends_settled a : settled (k a);
  sends_lost e : k (inr e) = Throw e;
  sends_refused response : refuses c response -> k (inl response) = Throw (callError c response)
}.

(** A request of [fetchJSON] below [/api/v1]. *)
Lemma reads_path context method segments path init :
  segments <> [] -> ri_method init ?? "GET" = method -> path = writtenPath ("api" :: "v1" :: segments) ->
  reads_as context (toRequest context path init) (mkRoute method segments []).
Proof. intros Hne Hm ->. split; [done|]. eexists. split; [reflexivity|]. by rewrite decode_target_path. Qed.
Lemma reads_suffix context method segments params path init :
  segments <> [] -> ri_method init ?? "GET" = method ->
  path = writtenPath ("api" :: "v1" :: segments) +:+ querySuffix params ->
  reads_as context (toRequest context path init) (mkRoute method segments params).
Proof. intros Hne Hm ->. split; [done|]. eexists. split; [reflexivity|]. by rewrite decode_query_suffix. Qed.
Lemma reads_query context method segments params query path init :
  segments <> [] -> ri_method init ?? "GET" = method ->
  path = writtenPath ("api" :: "v1" :: segments) +:+ String "?" query -> decodeQuery query = params ->
  reads_as context (toRequest context path init) (mkRoute method segments params).
Proof. intros Hne Hm -> <-. split; [done|]. eexists. split; [reflexivity|]. by rewrite decode_target. Qed.

Lemma set_param_ne name value params : setParam name value params <> [].
Proof. destruct params as [|[n v] params]; cbn; [done|]. by case_bool_decide. Qed.
Lemma set_trimmed_ne name value params : params <> [] -> setTrimmed name value params <> [].
Proof. intros Hne. unfold setTrimmed. destruct (trimmed value); [apply set_param_ne|done]. Qed.
(** A request of the file system with a query. *)
Lemma reads_fs context route params init :
  params <> [] -> writtenPath ["api"; "v1"; "fs"; route] = "/api/v1/fs/" +:+ route ->
  ri_method init = None ->
  reads_as context (toRequest context (fsPath route params) init) (mkRoute "GET" ["fs"; route] params).
Proof.
  intros Hne Hr Hm. apply reads_suffix; [done|by rewrite Hm|]. rewrite Hr. unfold fsPath.
  destruct params as [|p params]; [done|]. cbn [querySuffix]. by rewrite !append_assoc.
Qed.

Lemma decode_read_query path maxBytes :
  decodeQuery ("path=" +:+ encodeURIComponent path +:+
    match maxBytes with Some n => if n =? 0 then "" else "&max_bytes=" +:+ showZ n | None => "" end) =
  ("path", path) :: maxBytesParam maxBytes.
Proof.
  pose proof (decode_query_one "path" path) as H1. change ("path=" +:+ ?s) with ("path" +:+ "=" +:+ s).
  destruct maxBytes as [n|]; [destruct (n =? 0) eqn:E|]; cbn [maxBytesParam]; rewrite ?E.
  - rewrite append_nil_r. by apply H1.
  - transitivity (decodeQuery (("path" +:+ "=" +:+ encodeURIComponent path) +:+
      String "&" ("max_bytes" +:+ "=" +:+ encodeURIComponent (showZ n)))).
    { f_equal. rewrite component_showZ, !append_assoc. reflexivity. }
    rewrite decode_query_app, decode_query_one, decode_param_component; [done..| |done].
    rewrite !no_unit_append, component_no_unit by done. done.
  - rewrite append_nil_r. by apply H1.
Qed.

Ltac settled_tac :=
  repeat first
    [ apply settled_ret | apply settled_throw | apply settled_read | apply settled_parse | apply settled_snapshot
    | apply settled_bind; [|intros ?]
    | match goal with |- settled (if ?b then _ else _) => destruct b end
    | match goal with |- settled (match ?x with _ => _ end) => destruct x end
    | progress cbn [bind] ].

Ltac route_tac :=
  first
    [ apply reads_path; [done|reflexivity|];
      unfold conversationsPath, mcpPath, profilePath, buildTerminalPath, writtenPath; cbn [fmap list_fmap join];
      rewrite ?append_nil_r; reflexivity
    | apply reads_suffix; [done|reflexivity|reflexivity]
    | idtac ].

(** The six facts of a call; what does not follow by evaluation is left. *)
Ltac sends_tac :=
  eexists _, _, _; constructor;
  [ reflexivity | unfold carries; cbn [rawId]; route_tac | reflexivity | intros [response|e]; settled_tac | reflexivity
  | intros response Hr; cbn in Hr |- *; rewrite ?Hr; try reflexivity;
    unfold responseError; cbn; try (destruct (hr_error response) as [[code message]|]; reflexivity) ].

Section Calls.
Context `{!RuntimeHost} `{!Zod}.

Lemma api_sends c context : exists T request k, sends c (apiProg c) context T request k.
Proof.
  destruct c.
  all: try (sends_tac; fail).
  all: try (match goal with r : FSRequest |- _ => destruct r; sends_tac end; fail).
  all: sends_tac.
  - split_and!; [reflexivity..|]. intros Hid.
    apply reads_path; [done|reflexivity|]. unfold writtenPath. cbn [fmap list_fmap join]. by rewrite (component_id id Hid).
  - split_and!; [reflexivity..|]. intros Hid.
    apply reads_path; [done|reflexivity|]. unfold writtenPath. cbn [fmap list_fmap join]. by rewrite (component_id id Hid).
  - destruct Hr as [m Hr]. destruct (hr_payload response); [done|]. by destruct (hr_error response) as [[]|].
  - destruct from as [n|]; [|route_tac].
    eapply (reads_query _ "GET" _ _ ("from" +:+ "=" +:+ encodeURIComponent (showZ n))); [done|reflexivity| |by rewrite decode_query_one].
    unfold buildTerminalPath, writtenPath. cbn [fmap list_fmap join]. by rewrite append_nil_r, !append_assoc.
  - apply reads_path; [done|by destruct (trimmed shell)|].
    unfold buildTerminalPath, writtenPath. cbn [fmap list_fmap join]. reflexivity.
  - apply reads_fs; [by apply set_trimmed_ne|reflexivity|reflexivity].
  - apply (reads_query _ "GET" _ _ ("path=" +:+ encodeURIComponent path +:+
      match maxBytes with Some n => if n =? 0 then "" else "&max_bytes=" +:+ showZ n | None => "" end)); [done|reflexivity|reflexivity|].
    apply decode_read_query.
  - apply (reads_query _ "GET" _ _ ("path=" +:+ encodeURIComponent path)); [done|reflexivity|reflexivity|].
    by apply (decode_query_one "path").
  - apply reads_fs; [by do 2 apply set_trimmed_ne|reflexivity|reflexivity].
  - apply reads_fs; [|reflexivity|reflexivity]. do 2 apply set_trimmed_ne. destruct maxBytes as [n|]; [|done].
    destruct (n =? 0); [done|apply set_param_ne].
  - apply reads_path; [done|reflexivity|]. unfold mcpPath, writtenPath. cbn [fmap list_fmap join].
    by destruct action.
Qed.

(** C16: The errors of every call of the API clients are those of its client: a
    request that is lost fails with its own error, and a refused one with the
    code and the message of the answer's envelope where it has them, and the
    client's code and its text with the status where it does not.  The calls
    that load and save the agent's and the terminal's settings have only their
    text. *)
Theorem api_errors_exact c context :
  exists (T : Set) request k,
    run (apiProg c) (Settled (inl context)) = (Settled (inl context), Waiting (Fetch T request) k) /\
    (forall e, k (inr e) = Throw e) /\
    forall response, refuses c response -> k (inl response) = Throw (callError c response).
Proof.
  destruct (api_sends c context) as (T & request & k & Hs). exists T, request, k.
  destruct Hs as [H1 _ _ _ H5 H6]. auto.
Qed.

End Calls.

(* A host in the browser, a context, and where a call goes. *)
Definition browserHost : RuntimeHost :=
  {| VITE_RTERM_API_BASE := Some "http://h"; VITE_RTERM_AUTH_TOKEN := Some "t"; isTauri := false |}.
Definition sampleContext : RuntimeContext := mkRuntimeContext "t" "http://h" "" "" "/home/u" "/repo" "".
Definition urlOf {S R} (m : S * OutcomeX ApiError ContextPromise WebRequest R) : option string :=
  match m.2 with Waiting (Fetch _ request) _ => Some (hq_url request) | _ => None end.


Lemma api_errors_exact_witness :
  let response : HttpResponse Json := mkHttpResponse 404 (inr "") (Some (mkEnvelope (Some "no_widget") None)) in
  hr_ok response = false /\
  callError (InterruptTerminalCall "w") response =
    APIError "TerminalAPIError" 404 "no_widget" "Terminal request failed (404)" /\
  exists (T : Set) request k,
    run (@apiProg browserHost accepts_zod (InterruptTerminalCall "w")) (Settled (inl sampleContext)) =
      (Settled (inl sampleContext), Waiting (Fetch T request) k) /\
    k (inr OtherThrow) = Throw OtherThrow.
Proof.
  split; [reflexivity|]. split; [reflexivity|].
  destruct (@api_errors_exact browserHost accepts_zod (InterruptTerminalCall "w") sampleContext)
    as (T & request & k & Hrun & Hlost & _). exists T, request, k. split; [exact Hrun|apply Hlost].
Defined.

(* The id of a provider goes into the path of an update or a deletion as it is. *)
Example delete_provider_not_encoded :
  urlOf (run (@apiProg browserHost accepts_zod (DeleteProvider "a/b?c")) (Settled (inl sampleContext))) =
    Some "http://h/api/v1/agent/providers/a/b?c".
Proof. reflexivity. Qed.
Example probe_provider_encoded :
  urlOf (run (@apiProg browserHost accepts_zod (ProbeProvider "a/b?c")) (Settled (inl sampleContext))) =
    Some "http://h/api/v1/agent/providers/a%2Fb%3Fc/probe".
Proof. reflexivity. Qed.

(** * The calls of the API clients together

    Any number of calls run at the same time and share one promise, that of the
    runtime context ([runtimeContextPromise] of
    [frontend/src/shared/api/runtime.ts]).  The first call makes it and the
    others wait for it. *)
Local Open Scope string_scope.
Local Open Scope list_scope.
Local Open Scope nat_scope.
Local Open Scope js_scope.
Local Open Scope prog_scope.

Notation ApiSystem := (SystemX ApiError ContextPromise WebRequest).

(** The promise gives those who wait for it what it was settled with. *)
Definition contextAnswer (s : ContextPromise) (A : Set) (r : WebRequest A) : A + ApiError -> Prop :=
  match r in WebRequest A return A + ApiError -> Prop with
  | PendingContext => fun a => s = Settled a
  | _ => fun _ => True
  end.

(** Calls start at any time; [fetch] and [invoke] are answered anyhow. *)
Definition api_step `{!RuntimeHost} `{!Zod} : ApiSystem -> ApiSystem -> Prop :=
  sys_step (fun p => exists c, p = apiProg c) contextAnswer (fun _ _ => False).

(** * Lemmas *)

(** A call that leaves the promise alone. *)
Definition silent {R} (p : Web R) : Prop := stable (X := ApiError) eq (fun _ _ => True) p.

(** A call that settles the promise, once, before it ends. *)
Fixpoint loading {R} (p : Web R) : Prop :=
  match p with
  | Ret _ | Throw _ => False
  | Update f k => (exists r, forall s, f s = Settled r) /\ silent k
  | Get k => forall s, loading (k s)
  | Await _ k => forall a, loading (k a)
  end.

(** A call that starts with the runtime context. *)
Definition contextual {R} (p : Web R) : Prop :=
  match p with
  | Get k =>
      (exists q, k NotRequested = Update (fun _ => Requested) q /\ loading q) /\
      silent (k Requested) /\ (forall context, silent (k (Settled (inl context)))) /\
      forall e, k (Settled (inr e)) = Throw e
  | _ => False
  end.

Lemma silent_settled {R} (p : Web R) : settled p -> silent p.
Proof. by intros [[r ->]|[e ->]] s0 s. Qed.
Lemma silent_bind {R R'} (p : Web R) (k : R -> Web R') : silent p -> (forall r, silent (k r)) -> silent (bind p k).
Proof. apply stable_bind. Qed.
Lemma silent_await {A : Set} (r : WebRequest A) : silent (await r).
Proof. by apply stable_await. Qed.
Lemma silent_fetch client T context path init : silent (fetchJSON client T context path init).
Proof.
  unfold fetchJSON. apply silent_bind; [apply silent_await|intros response]. apply silent_settled.
  destruct (negb _); [apply settled_throw|apply settled_read].
Qed.
Lemma loading_bind {R R'} (p : Web R) (k : R -> Web R') : loading p -> (forall r, silent (k r)) -> loading (bind p k).
Proof.
  intros Hp Hk. induction p as [r|e|f p IH|p IH|A r p IH]; cbn [loading bind] in *; try done; auto.
  split; [apply Hp|]. apply silent_bind; [apply Hp|done].
Qed.

Section Calls.
Context `{!RuntimeHost} `{!Zod}.

Lemma loading_settle : loading (settle loadRuntimeContext).
Proof.
  unfold settle, loadRuntimeContext, resolveRuntimeTransport, readRuntimeTransportFromTauri.
  assert (forall e : ApiError, (exists r, forall s : ContextPromise, (fun _ => Settled (inr e)) s = Settled r) /\
    silent (Throw e : Web RuntimeContext)) as Hthrow.
  { intros e. split; [by eexists|]. apply silent_settled, settled_throw. }
  assert (forall context : RuntimeContext, (exists r, forall s : ContextPromise, (fun _ => Settled (inl context)) s = Settled r) /\
    silent (Ret context : Web RuntimeContext)) as Hret.
  { intros context. split; [by eexists|]. apply silent_settled, settled_ret. }
  assert (forall transport, loading (settle (response <- await (Fetch BootstrapPayload (bootstrapRequest transport)) ;;
    if negb (hr_ok response)
    then Throw (PlainError ("Unable to load runtime bootstrap (" +:+ showZ (hr_status response) +:+ ")"))
    else
      payload <- readJson response ;;
      match trimmed (bp_repo_root payload) with
      | None => Throw (PlainError "Runtime bootstrap did not provide repo_root")
      | Some repoRoot => Ret (contextOf transport payload repoRoot)
      end))) as Hfetch.
  { intros transport. unfold settle. cbn [await bind tryCatch loading]. intros [response|e]; [|apply Hthrow].
    cbn [bind]. destruct (negb _); [apply Hthrow|]. unfold readJson.
    destruct (hr_payload response) as [payload|m]; cbn [bind]; [|apply Hthrow].
    destruct (trimmed _); [apply Hret|apply Hthrow]. }
  destruct readRuntimeTransportFromEnv as [transport|]; [apply Hfetch|].
  destruct (negb isTauri); [apply Hthrow|]. cbn [await bind tryCatch loading].
  intros [payload|e]; [|apply Hthrow]. cbn [bind].
  destruct (trimmed (ri_base_url payload)); [|apply Hthrow]. destruct (trimmed (ri_auth_token payload)); [|apply Hthrow].
  apply Hfetch.
Qed.

Lemma contextual_resolve : contextual resolveRuntimeContext.
Proof.
  cbn. split; [|split; [|split]].
  - eexists. split; [reflexivity|]. apply loading_settle.
  - apply silent_await.
  - intros context. apply silent_settled, settled_ret.
  - done.
Qed.

Lemma contextual_bind {R R'} (p : Web R) (k : R -> Web R') :
  contextual p -> (forall r, silent (k r)) -> contextual (bind p k).
Proof.
  intros Hp Hk. destruct p as [| | |f|]; try done. destruct Hp as [(q & Hq & Hl) (H1 & H2 & H3)]. cbn.
  split; [|split; [|split]].
  - exists (bind q k). rewrite Hq. split; [done|]. by apply loading_bind.
  - by apply silent_bind.
  - intros context. by apply silent_bind.
  - intros e. by rewrite H3.
Qed.

Ltac contextual_tac :=
  repeat first
    [ apply contextual_resolve | apply contextual_bind; [|intros ?] | apply silent_fetch
    | apply silent_await | apply silent_settled, settled_snapshot | apply silent_bind; [|intros ?] | apply silent_settled; settled_tac ].

Lemma contextual_api c : contextual (apiProg c).
Proof.
  destruct c; try (match goal with |- context [MutateCommander ?r] => destruct r end); contextual_tac.
Qed.

(** ** Systems of calls *)

Definition quiet (o : OutcomeX ApiError ContextPromise WebRequest unit) : Prop :=
  match o with Waiting _ k => forall a, silent (k a) | Ended _ => False end.
Definition busy (o : OutcomeX ApiError ContextPromise WebRequest unit) : Prop :=
  match o with Waiting _ k => forall a, loading (k a) | Ended _ => False end.

(** Exactly one call loads the context while the promise is pending. *)
Definition coherent (m : ApiSystem) : Prop :=
  match sys_state m with
  | Requested => exists o rest, sys_calls m ≡ₚ o :: rest /\ busy o /\ Forall quiet rest
  | _ => Forall quiet (sys_calls m)
  end.

Lemma run_silent (p : Web unit) s :
  silent p -> fst (run p s) = s /\ match snd (run p s) with Ended _ => True | Waiting r k => quiet (Waiting r k) end.
Proof.
  intros Hp. pose proof (wp_run _ _ p s s _ (Hp s s eq_refl)) as Hw.
  destruct (run p s) as [s' [r|A r k]]; cbn [fst snd] in *; [by destruct Hw|].
  destruct Hw as [[<- _] Hk]. split; [done|]. intros a s0 s1 <-. apply Hk.
Qed.

Lemma run_loading (p : Web unit) s :
  loading p ->
  (fst (run p s) = s /\ match snd (run p s) with Ended _ => False | Waiting r k => busy (Waiting r k) end) \/
  ((exists r, fst (run p s) = Settled r) /\
   match snd (run p s) with Ended _ => True | Waiting r k => quiet (Waiting r k) end).
Proof.
  induction p as [r|e|f p IH|p IH|A r p IH]; cbn [loading run]; try done.
  - intros [[r Hf] Hp]. right. destruct (run_silent p (f s) Hp) as [H1 H2]. split; [exists r; by rewrite H1|done].
  - intros Hp. by apply IH.
  - intros Hp. left. done.
Qed.

Lemma proceed_quiet (p : Web unit) s calls :
  silent p ->
  exists l, proceed p (mkSystem s calls) = mkSystem s (calls ++ l) /\ Forall quiet l.
Proof.
  intros Hp. destruct (run_silent p s Hp) as [H1 H2]. unfold proceed. cbn [sys_state sys_calls].
  destruct (run p s) as [s' [r|A r k]]; cbn [fst snd] in *; subst s'.
  - exists []. by rewrite app_nil_r.
  - exists [Waiting r k]. split; [done|]. by apply Forall_singleton.
Qed.

Lemma coherent_more s calls l :
  Forall quiet l -> coherent (mkSystem s calls) -> coherent (mkSystem s (calls ++ l)).
Proof.
  unfold coherent. cbn [sys_state sys_calls]. intros Hl. destruct s; [by intros Hc; apply Forall_app_2| |by intros Hc; apply Forall_app_2].
  intros (o & rest & Hp & Ho & Hq). exists o, (rest ++ l). rewrite Hp. split; [done|]. split; [done|]. by apply Forall_app_2.
Qed.

Lemma coherent_busy (p : Web unit) calls :
  loading p -> Forall quiet calls -> coherent (proceed p (mkSystem Requested calls)).
Proof.
  intros Hp Hq. unfold proceed. cbn [sys_state sys_calls].
  destruct (run_loading p Requested Hp) as [[H1 H2]|[[r H1] H2]];
    destruct (run p Requested) as [s' [x|A x k]]; cbn [fst snd] in *; subst s'; try done; unfold coherent; cbn [sys_state sys_calls].
  - exists (Waiting x k), calls. split; [|done]. by rewrite Permutation_app_comm.
  - apply Forall_app_2; [done|]. by apply Forall_singleton.
Qed.

Lemma coherent_start (p : Web unit) m : contextual p -> coherent m -> coherent (proceed p m).
Proof.
  intros Hp Hm. destruct m as [s calls]. destruct p as [| | |f|]; try done.
  destruct Hp as [(q & Hq & Hl) (H1 & H2 & H3)]. unfold proceed. cbn [run sys_state sys_calls].
  change (coherent (proceed (f s) (mkSystem s calls))).
  destruct s as [| |[context|e]].
  - rewrite Hq. change (coherent (proceed q (mkSystem Requested calls))). by apply coherent_busy.
  - destruct (proceed_quiet (f Requested) Requested calls H1) as (l & -> & Hq'). by apply coherent_more.
  - destruct (proceed_quiet _ (Settled (inl context)) calls (H2 context)) as (l & -> & Hq'). by apply coherent_more.
  - by rewrite H3.
Qed.

Lemma coherent_answer m i (A : Set) (r : WebRequest A) k a :
  sys_calls m !! i = Some (Waiting r k) -> coherent m ->
  coherent (proceed (k a) (mkSystem (sys_state m) (delete i (sys_calls m)))).
Proof.
  destruct m as [s calls]. cbn [sys_state sys_calls]. intros Hi. apply delete_Permutation in Hi.
  generalize (delete i calls) Hi. clear Hi. intros others Hi Hm.
  assert (silent (k a) -> coherent (mkSystem s others) -> coherent (proceed (k a) (mkSystem s others))) as Hgo.
  { intros Hk Hc. destruct (proceed_quiet (k a) s others Hk) as (l & -> & Hl). by apply coherent_more. }
  destruct s as [| |settled]; unfold coherent in Hm; cbn [sys_state sys_calls] in Hm.
  - rewrite Hi in Hm. apply Forall_cons in Hm as [Hk Ho]. by apply Hgo.
  - destruct Hm as (o & rest & Hp & Ho & Hq).
    assert (Waiting r k ∈ o :: rest) as [Ho'|Hin]%elem_of_cons by (rewrite <- Hp, Hi; by left).
    + subst o. apply coherent_busy; [apply Ho|]. rewrite Hi in Hp. apply Permutation_cons_inv in Hp. by rewrite Hp.
    + apply elem_of_Permutation in Hin as [rest' Hr]. rewrite Hr in Hq. apply Forall_cons in Hq as [Hk Hq].
      apply Hgo; [apply Hk|]. exists o, rest'. split; [|done]. cbn [sys_calls].
      apply (Permutation_cons_inv (a := Waiting r k)). rewrite <- Hi, Hp, Hr. by rewrite Permutation_swap.
  - rewrite Hi in Hm. apply Forall_cons in Hm as [Hk Ho]. by apply Hgo.
Qed.

Lemma api_step_coherent m m' : api_step m m' -> coherent m -> coherent m'.
Proof.
  intros Hs Hm. destruct Hs as [p [c ->]|i A r k a Hi Ha|s []].
  - apply coherent_start; [apply contextual_api|done].
  - by apply (coherent_answer m i A r k a).
Qed.

(** A settled promise stays as it is. *)
Lemma api_step_settled m m' r :
  api_step m m' -> coherent m -> sys_state m = Settled r -> sys_state m' = Settled r.
Proof.
  destruct m as [s calls]. unfold coherent. cbn [sys_state sys_calls]. intros Hs Hm ->.
  destruct Hs as [p [c ->]|i A r' k a Hi Ha|s' []]; cbn [sys_state sys_calls] in *.
  - pose proof (contextual_api c) as Hc. destruct (apiProg c) as [| | |f|]; try done.
    destruct Hc as (_ & _ & H2 & H3). unfold proceed. cbn [run sys_state sys_calls].
    change (sys_state (proceed (f (Settled r)) (mkSystem (Settled r) calls)) = Settled r).
    destruct r as [context|e]; [|by rewrite H3].
    by destruct (proceed_quiet _ (Settled (inl context)) calls (H2 context)) as (l & -> & _).
  - assert (quiet (Waiting r' k)) as Hk by (eapply Forall_lookup_1; [exact Hm|exact Hi]).
    by destruct (proceed_quiet (k a) (Settled r) (delete i calls) (Hk a)) as (l & -> & _).
Qed.

Lemma failed_context_fails c e calls :
  proceed (apiProg c) (mkSystem (Settled (inr e)) calls) = mkSystem (Settled (inr e)) calls /\
  run (apiProg c) (Settled (inr e)) = (Settled (inr e), Ended (inr e)).
Proof.
  pose proof (contextual_api c) as Hc. unfold proceed. cbn [sys_state sys_calls].
  destruct (apiProg c) as [| | |f|]; try done. destruct Hc as (_ & _ & _ & H3). cbn [run]. by rewrite H3.
Qed.

(** The runtime context is loaded once.  In every interleaving of calls of
    the API clients, exactly one call loads the context while its promise is
    pending and none does otherwise; what the promise is settled with never
    changes.  So a load that failed fails every later call with the same error,
    before it sends a request, for as long as the page lives. *)
Theorem context_settled_once m m' r :
  rtc api_step (mkSystem NotRequested []) m -> rtc api_step m m' ->
  coherent m /\
  (sys_state m = Settled r -> sys_state m' = Settled r /\
   forall c e, r = inr e -> proceed (apiProg c) m' = m' /\ run (apiProg c) (sys_state m') = (sys_state m', Ended (inr e))).
Proof.
  intros H1 H2.
  assert (forall m m', rtc api_step m m' -> coherent m -> coherent m') as Hc.
  { intros a b Hab. induction Hab as [a|a b c Hab Hbc IH]; [done|]. intros Ha. by apply IH, (api_step_coherent a). }
  assert (coherent m) as Hm by (apply (Hc (mkSystem NotRequested []) m H1), List.Forall_nil). split; [done|]. intros Hs.
  assert (sys_state m' = Settled r) as Hs'.
  { clear H1. induction H2 as [a|a b c Hab Hbc IH]; [done|].
    apply IH; [by apply (api_step_coherent a)|by apply (api_step_settled a)]. }
  split; [done|]. intros c e ->. destruct m' as [s calls]. cbn [sys_state] in *. subst s. apply failed_context_fails.
Qed.

End Calls.

(* The bootstrap of the first call is lost; the next call fails at once. *)
Lemma context_settled_once_witness :
  exists m : ApiSystem,
    rtc (@api_step browserHost accepts_zod) (mkSystem NotRequested []) m /\
    sys_state m = Settled (inr (PlainError "Failed to fetch")) /\
    run (@apiProg browserHost accepts_zod FetchPlugins) (sys_state m) = (sys_state m, Ended (inr (PlainError "Failed to fetch"))).
Proof.
  pose (m1 := proceed (@apiProg browserHost accepts_zod FetchWorkspace) (mkSystem NotRequested [])).
  assert (@api_step browserHost accepts_zod (mkSystem NotRequested []) m1) as H1.
  { apply sys_start. by exists FetchWorkspace. }
  assert (exists m2, @api_step browserHost accepts_zod m1 m2 /\ sys_state m2 = Settled (inr (PlainError "Failed to fetch")))
    as (m2 & H2 & Hm2).
  { eexists. split.
    - eapply (sys_answer _ _ _ m1 0 (HttpResponse BootstrapPayload) (Fetch BootstrapPayload _) _
        (inr (PlainError "Failed to fetch"))); [reflexivity|exact I].
    - reflexivity. }
  assert (rtc (@api_step browserHost accepts_zod) (mkSystem NotRequested []) m2) as Hr.
  { eapply rtc_l; [exact H1|]. by apply rtc_once. }
  exists m2. split; [exact Hr|]. split; [exact Hm2|].
  destruct (@context_settled_once browserHost accepts_zod m2 m2 (inr (PlainError "Failed to fetch")) Hr (rtc_refl _ _)) as [_ Hs].
  by apply (proj2 (Hs Hm2) FetchPlugins _ eq_refl).
Defined.
