(* ===== verification/Preferences.v ===== *)
(** * Preferences

    The module states behind the settings of the frontend and the calls that
    load and save them: [features/terminal/model/use-terminal-preferences.ts],
    [features/agent/model/use-ai-composer-preferences.ts],
    [features/runtime/model/use-runtime-settings.ts],
    [features/runtime/model/use-window-title-settings.ts] and
    [features/i18n/model/locale-provider.tsx].  Their requests are the calls of
    [SettingsApi]; subscribers are left out. *)
From Stdlib Require Import Ascii String QArith Qround Qminmax.
From stdpp Require Import strings gmap.
From S2P Require Import Prelude JsString Text Number RuntimePath Effects AgentState Http SettingsApi.
Local Open Scope string_scope.
Local Open Scope list_scope.
Local Open Scope Z_scope.
Local Open Scope js_scope.
Local Open Scope prog_scope.

(** ** Terminals *)

Inductive TerminalPreferencesRequest : Set -> Type :=
  | RequestTerminalSettings : TerminalPreferencesRequest TerminalSettings
  | UpdateTerminalSettings (settings : TerminalSettings) : TerminalPreferencesRequest TerminalSettings.

(** [tp_loadPromise] tells whether the module's [loadPromise] is there. *)
Record TerminalPreferencesState : Set := mkTerminalPreferences {
  tp_cursorBlink : bool;
  tp_cursorStyle : TerminalCursorStyle;
  tp_errorMessage : option string;
  tp_fontSize : Z;
  tp_lineHeight : Q;
  tp_scrollback : Z;
  tp_themeMode : TerminalThemeMode;
  tp_isLoading : bool;
  tp_isSaving : bool;
  tp_loadPromise : bool
}.

Notation TerminalPrefs := (Prog TerminalPreferencesState TerminalPreferencesRequest).

Definition terminalPreferencesState : TerminalPreferencesState :=
  mkTerminalPreferences DEFAULT_TERMINAL_CURSOR_BLINK DEFAULT_TERMINAL_CURSOR_STYLE None DEFAULT_TERMINAL_FONT_SIZE
    DEFAULT_TERMINAL_LINE_HEIGHT DEFAULT_TERMINAL_SCROLLBACK DEFAULT_TERMINAL_THEME_MODE true false false.

Definition setTerminalStatus (error : option string -> option string) (loading saving promise : bool -> bool)
    (s : TerminalPreferencesState) : TerminalPreferencesState :=
  mkTerminalPreferences (tp_cursorBlink s) (tp_cursorStyle s) (error (tp_errorMessage s)) (tp_fontSize s)
    (tp_lineHeight s) (tp_scrollback s) (tp_themeMode s) (loading (tp_isLoading s)) (saving (tp_isSaving s))
    (promise (tp_loadPromise s)).

Definition applyTerminalSettings (settings : TerminalSettings) (s : TerminalPreferencesState) : TerminalPreferencesState :=
  mkTerminalPreferences (se_cursor_blink settings) (se_cursor_style settings) (tp_errorMessage s)
    (se_font_size settings) (se_line_height settings) (se_scrollback settings) (se_theme_mode settings)
    (tp_isLoading s) (tp_isSaving s) (tp_loadPromise s).

Definition formatTerminalPreferencesError (error : JsError) : string :=
  getErrorMessage error "Unable to load terminal settings.".

Definition refreshTerminalPreferences : TerminalPrefs unit :=
  update (setTerminalStatus (fun _ => None) (fun _ => true) id id) ;;;
  finally
    (tryCatch
       (settings <- await RequestTerminalSettings ;; update (applyTerminalSettings settings))
       (fun error => update (setTerminalStatus (fun _ => Some (formatTerminalPreferencesError error)) id id id)))
    (update (setTerminalStatus id (fun _ => false) id id)).

Definition ensureTerminalPreferencesLoaded : TerminalPrefs unit :=
  s <- get ;;
  if tp_loadPromise s then Ret tt
  else
    update (setTerminalStatus id id id (fun _ => true)) ;;;
    finally refreshTerminalPreferences (update (setTerminalStatus id id id (fun _ => false))).

(** The argument of [persistTerminalSettings]. *)
Record NextTerminalSettings := mkNext {
  nx_cursorBlink : bool;
  nx_cursorStyle : TerminalCursorStyle;
  nx_fontSize : Number;
  nx_lineHeight : Number;
  nx_scrollback : Number;
  nx_themeMode : TerminalThemeMode
}.

(** What it sends. *)
Definition persistedSettings (next : NextTerminalSettings) : TerminalSettings :=
  mkTerminalSettings (clampTerminalFontSize (nx_fontSize next)) (clampTerminalLineHeight (nx_lineHeight next))
    (clampTerminalThemeMode (Some (showTheme (nx_themeMode next)))) (clampTerminalScrollback (nx_scrollback next))
    (clampTerminalCursorStyle (Some (showCursor (nx_cursorStyle next)))) (nx_cursorBlink next).

Definition persistTerminalSettings (next : NextTerminalSettings) : TerminalPrefs unit :=
  update (setTerminalStatus (fun _ => None) id (fun _ => true) id) ;;;
  finally
    (tryCatch
       (settings <- await (UpdateTerminalSettings (persistedSettings next)) ;;
        update (applyTerminalSettings settings))
       (fun error => update (setTerminalStatus (fun _ => Some (formatTerminalPreferencesError error)) id id id)))
    (update (setTerminalStatus id id (fun _ => false) id)).

(** The preferences that are shown. *)
Definition currentPreferences (s : TerminalPreferencesState) : NextTerminalSettings :=
  mkNext (tp_cursorBlink s) (tp_cursorStyle s) (ofZ (tp_fontSize s)) (Finite (tp_lineHeight s)) (ofZ (tp_scrollback s))
    (tp_themeMode s).

Definition setTerminalFontSize (fontSize : Number) : TerminalPrefs unit :=
  s <- get ;;
  let n := currentPreferences s in
  persistTerminalSettings (mkNext (nx_cursorBlink n) (nx_cursorStyle n) fontSize (nx_lineHeight n) (nx_scrollback n) (nx_themeMode n)).
Definition setTerminalLineHeight (lineHeight : Number) : TerminalPrefs unit :=
  s <- get ;;
  let n := currentPreferences s in
  persistTerminalSettings (mkNext (nx_cursorBlink n) (nx_cursorStyle n) (nx_fontSize n) lineHeight (nx_scrollback n) (nx_themeMode n)).
Definition setTerminalScrollback (scrollback : Number) : TerminalPrefs unit :=
  s <- get ;;
  let n := currentPreferences s in
  persistTerminalSettings (mkNext (nx_cursorBlink n) (nx_cursorStyle n) (nx_fontSize n) (nx_lineHeight n) scrollback (nx_themeMode n)).
Definition setTerminalThemeMode (themeMode : TerminalThemeMode) : TerminalPrefs unit :=
  s <- get ;;
  let n := currentPreferences s in
  persistTerminalSettings (mkNext (nx_cursorBlink n) (nx_cursorStyle n) (nx_fontSize n) (nx_lineHeight n) (nx_scrollback n) themeMode).
Definition setTerminalCursorStyle (cursorStyle : TerminalCursorStyle) : TerminalPrefs unit :=
  s <- get ;;
  let n := currentPreferences s in
  persistTerminalSettings (mkNext (nx_cursorBlink n) cursorStyle (nx_fontSize n) (nx_lineHeight n) (nx_scrollback n) (nx_themeMode n)).
Definition setTerminalCursorBlink (cursorBlink : bool) : TerminalPrefs unit :=
  s <- get ;;
  let n := currentPreferences s in
  persistTerminalSettings (mkNext cursorBlink (nx_cursorStyle n) (nx_fontSize n) (nx_lineHeight n) (nx_scrollback n) (nx_themeMode n)).

Definition terminalDefaults : NextTerminalSettings :=
  mkNext DEFAULT_TERMINAL_CURSOR_BLINK DEFAULT_TERMINAL_CURSOR_STYLE (ofZ DEFAULT_TERMINAL_FONT_SIZE)
    (Finite DEFAULT_TERMINAL_LINE_HEIGHT) (ofZ DEFAULT_TERMINAL_SCROLLBACK) DEFAULT_TERMINAL_THEME_MODE.
Definition resetTerminalDefaults : TerminalPrefs unit := persistTerminalSettings terminalDefaults.

(** What [useTerminalPreferences] returns; [shown] is the state of the last
    rendering. *)
Inductive TerminalPreferencesCall :=
  | UpdateFontSize (value : Number) | IncreaseFontSize | DecreaseFontSize | ResetFontSize
  | UpdateLineHeight (value : Number) | IncreaseLineHeight | DecreaseLineHeight | ResetLineHeight
  | UpdateScrollback (value : Number) | IncreaseScrollback | DecreaseScrollback | ResetScrollback
  | UpdateThemeMode (value : TerminalThemeMode) | ResetThemeMode
  | UpdateCursorStyle (value : TerminalCursorStyle) | ResetCursorStyle
  | UpdateCursorBlink (value : bool) | ResetCursorBlink
  | ResetAllDefaults
  | RefreshTerminal.

Definition useTerminalPreferences (shown : TerminalPreferencesState) (c : TerminalPreferencesCall) : TerminalPrefs unit :=
  match c with
  | UpdateFontSize value => setTerminalFontSize value
  | IncreaseFontSize => setTerminalFontSize (ofZ (tp_fontSize shown + 1))
  | DecreaseFontSize => setTerminalFontSize (ofZ (tp_fontSize shown - 1))
  | ResetFontSize => setTerminalFontSize (ofZ DEFAULT_TERMINAL_FONT_SIZE)
  | UpdateLineHeight value => setTerminalLineHeight value
  | IncreaseLineHeight => setTerminalLineHeight (Finite (tp_lineHeight shown + (5 # 100)))
  | DecreaseLineHeight => setTerminalLineHeight (Finite (tp_lineHeight shown - (5 # 100)))
  | ResetLineHeight => setTerminalLineHeight (Finite DEFAULT_TERMINAL_LINE_HEIGHT)
  | UpdateScrollback value => setTerminalScrollback value
  | IncreaseScrollback => setTerminalScrollback (ofZ (tp_scrollback shown + 1000))
  | DecreaseScrollback => setTerminalScrollback (ofZ (tp_scrollback shown - 1000))
  | ResetScrollback => setTerminalScrollback (ofZ DEFAULT_TERMINAL_SCROLLBACK)
  | UpdateThemeMode value => setTerminalThemeMode value
  | ResetThemeMode => setTerminalThemeMode DEFAULT_TERMINAL_THEME_MODE
  | UpdateCursorStyle value => setTerminalCursorStyle value
  | ResetCursorStyle => setTerminalCursorStyle DEFAULT_TERMINAL_CURSOR_STYLE
  | UpdateCursorBlink value => setTerminalCursorBlink value
  | ResetCursorBlink => setTerminalCursorBlink DEFAULT_TERMINAL_CURSOR_BLINK
  | ResetAllDefaults => resetTerminalDefaults
  | RefreshTerminal => ensureTerminalPreferencesLoaded
  end.

(** ** The composer of the agent *)

Inductive ComposerRequest : Set -> Type :=
  | RequestAgentSettings : ComposerRequest AgentSettings
  | UpdateAgentSettings (settings : AgentSettings) : ComposerRequest AgentSettings.

Record AiComposerPreferencesState := mkComposer {
  ap_submitMode : AgentComposerSubmitMode;
  ap_debugModeEnabled : bool;
  ap_isLoading : bool;
  ap_isSaving : bool;
  ap_errorMessage : option string;
  ap_loadPromise : bool
}.

Notation ComposerPrefs := (Prog AiComposerPreferencesState ComposerRequest).

Definition aiComposerPreferencesState : AiComposerPreferencesState :=
  mkComposer DEFAULT_AGENT_COMPOSER_SUBMIT_MODE false true false None false.

Definition setComposerStatus (error : option string -> option string) (loading saving promise : bool -> bool)
    (s : AiComposerPreferencesState) : AiComposerPreferencesState :=
  mkComposer (ap_submitMode s) (ap_debugModeEnabled s) (loading (ap_isLoading s)) (saving (ap_isSaving s))
    (error (ap_errorMessage s)) (promise (ap_loadPromise s)).
Definition applyAgentSettings (settings : AgentSettings) (s : AiComposerPreferencesState) : AiComposerPreferencesState :=
  mkComposer (ag_composer_submit_mode settings) (ag_debug_mode_enabled settings) (ap_isLoading s) (ap_isSaving s)
    (ap_errorMessage s) (ap_loadPromise s).

Definition formatAiComposerPreferencesError (error : JsError) : string :=
  getErrorMessage error "Unable to load AI composer settings.".

Definition refreshAiComposerPreferences : ComposerPrefs unit :=
  update (setComposerStatus (fun _ => None) (fun _ => true) id id) ;;;
  finally
    (tryCatch
       (settings <- await RequestAgentSettings ;; update (applyAgentSettings settings))
       (fun error => update (setComposerStatus (fun _ => Some (formatAiComposerPreferencesError error)) id id id)))
    (update (setComposerStatus id (fun _ => false) id id)).

(** It runs whenever a component subscribes. *)
Definition ensureAiComposerPreferencesLoaded : ComposerPrefs unit :=
  s <- get ;;
  if ap_loadPromise s then Ret tt
  else
    update (setComposerStatus id id id (fun _ => true)) ;;;
    finally refreshAiComposerPreferences (update (setComposerStatus id id id (fun _ => false))).

(** Both setters, which differ in the field that they change. *)
Definition persistComposer (settings : AiComposerPreferencesState -> AgentSettings) : ComposerPrefs unit :=
  finally
    (tryCatch
       (update (setComposerStatus (fun _ => None) id (fun _ => true) id) ;;;
        s <- get ;;
        saved <- await (UpdateAgentSettings (settings s)) ;;
        update (applyAgentSettings saved))
       (fun error => update (setComposerStatus (fun _ => Some (formatAiComposerPreferencesError error)) id id id)))
    (update (setComposerStatus id id (fun _ => false) id)).

Definition setAiComposerSubmitMode (mode : AgentComposerSubmitMode) : ComposerPrefs unit :=
  let nextMode := clampAgentComposerSubmitMode (Some (showSubmitMode mode)) in
  persistComposer (fun s => mkAgentSettings nextMode (ap_debugModeEnabled s)).
Definition setAiDebugModeEnabled (enabled : bool) : ComposerPrefs unit :=
  persistComposer (fun s => mkAgentSettings (ap_submitMode s) enabled).

(** ** The watcher of the runtime *)

Inductive RuntimeSettingsRequest : Set -> Type :=
  | LoadRuntimeSettings : RuntimeSettingsRequest (RuntimeContext * string)   (* both, with [Promise.all] *)
  | SetRuntimeWatcherMode (mode : RuntimeWatcherMode) : RuntimeSettingsRequest unit
  | RequestRuntimeSettings : RuntimeSettingsRequest string.                  (* [watcher_mode] *)

Record RuntimeSettingsState := mkRuntimeSettings {
  rs_runtimeContext : option RuntimeContext;
  rs_watcherMode : RuntimeWatcherMode;
  rs_isLoading : bool;
  rs_isSaving : bool;
  rs_errorMessage : option string
}.

Notation RuntimePrefs := (Prog RuntimeSettingsState RuntimeSettingsRequest).

Definition initialRuntimeSettings : RuntimeSettingsState := mkRuntimeSettings None WatcherEphemeral true false None.

Definition normalizeWatcherMode (mode : option string) : RuntimeWatcherMode :=
  if decide (mode = Some "persistent") then WatcherPersistent else WatcherEphemeral.
Definition formatRuntimeSettingsError (error : JsError) : string := getErrorMessage error "Unable to load runtime settings.".

Definition setRuntimeStatus (error : option string -> option string) (loading saving : bool -> bool)
    (s : RuntimeSettingsState) : RuntimeSettingsState :=
  mkRuntimeSettings (rs_runtimeContext s) (rs_watcherMode s) (loading (rs_isLoading s)) (saving (rs_isSaving s))
    (error (rs_errorMessage s)).
Definition setRuntimeContext (context : RuntimeContext) (s : RuntimeSettingsState) : RuntimeSettingsState :=
  mkRuntimeSettings (Some context) (rs_watcherMode s) (rs_isLoading s) (rs_isSaving s) (rs_errorMessage s).
Definition setWatcherMode (mode : RuntimeWatcherMode) (s : RuntimeSettingsState) : RuntimeSettingsState :=
  mkRuntimeSettings (rs_runtimeContext s) mode (rs_isLoading s) (rs_isSaving s) (rs_errorMessage s).

Definition refreshRuntimeSettings : RuntimePrefs unit :=
  update (setRuntimeStatus (fun _ => None) (fun _ => true) id) ;;;
  finally
    (tryCatch
       (loaded <- await LoadRuntimeSettings ;;
        update (setRuntimeContext (fst loaded)) ;;;
        update (setWatcherMode (normalizeWatcherMode (Some (snd loaded)))))
       (fun error => update (setRuntimeStatus (fun _ => Some (formatRuntimeSettingsError error)) id id)))
    (update (setRuntimeStatus id (fun _ => false) id)).

(** [shown] is the mode of the last rendering. *)
Definition updateWatcherMode (canPersistWatcherMode : bool) (shown mode : RuntimeWatcherMode) : RuntimePrefs unit :=
  if bool_decide (mode = shown) || negb canPersistWatcherMode then Ret tt
  else
    update (setRuntimeStatus (fun _ => None) id (fun _ => true)) ;;;
    finally
      (tryCatch
         (await (SetRuntimeWatcherMode mode) ;;;
          nextSettings <- await RequestRuntimeSettings ;;
          update (setWatcherMode (normalizeWatcherMode (Some nextSettings))))
         (fun error => update (setRuntimeStatus (fun _ => Some (formatRuntimeSettingsError error)) id id)))
      (update (setRuntimeStatus id id (fun _ => false))).

(** ** The title of the window *)

Inductive TitleRequest : Set -> Type :=
  | RequestWindowTitleSettings : TitleRequest WindowTitleSettings
  | UpdateWindowTitleSettings (custom_title : option string) (mode : option WindowTitleMode) : TitleRequest WindowTitleSettings.

(** The state of one use of the hook; [ut_view] holds the automatic title, the
    custom title and the mode. *)
Record WindowTitleSettingsState := mkTitleState {
  ut_view : WindowTitleSettings;
  ut_errorMessage : option string;
  ut_isLoading : bool;
  ut_isSaving : bool
}.

Definition initialTitle : WindowTitleSettingsState := mkTitleState (mkWindowTitle "" "" TitleAuto) None true false.

(** All mounted uses of the hook; they hear each other's changes through an
    event of the window. *)
Notation Titles := (gmap nat WindowTitleSettingsState).
Notation TitlePrefs := (Prog Titles TitleRequest).

Definition applyViewState (next : WindowTitleSettings) (s : WindowTitleSettingsState) : WindowTitleSettingsState :=
  mkTitleState next (ut_errorMessage s) (ut_isLoading s) (ut_isSaving s).
Definition setTitleStatus (error : option string -> option string) (loading saving : bool -> bool)
    (s : WindowTitleSettingsState) : WindowTitleSettingsState :=
  mkTitleState (ut_view s) (error (ut_errorMessage s)) (loading (ut_isLoading s)) (saving (ut_isSaving s)).
Definition emitWindowTitleSettingsChanged (next : WindowTitleSettings) (titles : Titles) : Titles :=
  applyViewState next <$> titles.
Definition formatWindowTitleSettingsError (error : JsError) : string :=
  getErrorMessage error "Unable to load window title settings.".

Section Title.
Variable i : nat.    (* the use of the hook *)

Definition onTitle (f : WindowTitleSettingsState -> WindowTitleSettingsState) : TitlePrefs unit := update (alter f i).

Definition refreshWindowTitle : TitlePrefs unit :=
  onTitle (setTitleStatus (fun _ => None) (fun _ => true) id) ;;;
  finally
    (tryCatch
       (next <- await RequestWindowTitleSettings ;;
        onTitle (applyViewState next) ;;;
        update (emitWindowTitleSettingsChanged next))
       (fun error => onTitle (setTitleStatus (fun _ => Some (formatWindowTitleSettingsError error)) id id)))
    (onTitle (setTitleStatus id (fun _ => false) id)).

Definition updateTitleSettings (customTitle : option string) (mode : option WindowTitleMode) : TitlePrefs unit :=
  onTitle (setTitleStatus (fun _ => None) id (fun _ => true)) ;;;
  finally
    (tryCatch
       (updated <- await (UpdateWindowTitleSettings customTitle mode) ;;
        onTitle (applyViewState updated) ;;;
        update (emitWindowTitleSettingsChanged updated))
       (fun error => onTitle (setTitleStatus (fun _ => Some (formatWindowTitleSettingsError error)) id id)))
    (onTitle (setTitleStatus id id (fun _ => false))).

Definition mountWindowTitle : TitlePrefs unit := update (<[i := initialTitle]>) ;;; refreshWindowTitle.

End Title.

(** ** The language *)

Inductive LocaleRequest : Set -> Type :=
  | RequestLocaleSettings : LocaleRequest (AppLocale * list AppLocale)
  | UpdateLocaleSettings (locale : AppLocale) : LocaleRequest (AppLocale * list AppLocale).

Record LocaleState := mkLocaleState {
  lo_locale : AppLocale;
  lo_supportedLocales : list AppLocale;
  lo_isLoading : bool;
  lo_isSaving : bool;
  lo_errorMessage : option string
}.

Notation LocalePrefs := (Prog LocaleState LocaleRequest).

Definition initialLocale : LocaleState := mkLocaleState LocaleRu defaultSupportedLocales true false None.

Definition setLocaleStatus (error : option string -> option string) (loading saving : bool -> bool) (s : LocaleState)
    : LocaleState :=
  mkLocaleState (lo_locale s) (lo_supportedLocales s) (loading (lo_isLoading s)) (saving (lo_isSaving s))
    (error (lo_errorMessage s)).
Definition setLocaleState (locale : AppLocale) (s : LocaleState) : LocaleState :=
  mkLocaleState locale (lo_supportedLocales s) (lo_isLoading s) (lo_isSaving s) (lo_errorMessage s).
Definition setSupportedLocales (locales : list AppLocale) (s : LocaleState) : LocaleState :=
  mkLocaleState (lo_locale s) locales (lo_isLoading s) (lo_isSaving s) (lo_errorMessage s).
Definition formatLocaleSettingsError (error : JsError) : string := getErrorMessage error "Unable to load language settings.".

Definition refreshLocale : LocalePrefs unit :=
  update (setLocaleStatus (fun _ => None) (fun _ => true) id) ;;;
  finally
    (tryCatch
       (nextSettings <- await RequestLocaleSettings ;;
        update (setLocaleState (fst nextSettings)) ;;;
        update (setSupportedLocales (snd nextSettings)))
       (fun error => update (setLocaleStatus (fun _ => Some (formatLocaleSettingsError error)) id id)))
    (update (setLocaleStatus id (fun _ => false) id)).

(** [locale] is the language of the last rendering. *)
Definition setLocale (locale nextLocale : AppLocale) : LocalePrefs unit :=
  if bool_decide (nextLocale = locale) then Ret tt
  else
    update (setLocaleStatus (fun _ => None) id (fun _ => true)) ;;;
    update (setLocaleState nextLocale) ;;;
    finally
      (tryCatch
         (nextSettings <- await (UpdateLocaleSettings nextLocale) ;;
          update (setLocaleState (fst nextSettings)) ;;;
          update (setSupportedLocales (snd nextSettings)))
         (fun error =>
            update (setLocaleState locale) ;;;
            update (setLocaleStatus (fun _ => Some (formatLocaleSettingsError error)) id id)))
      (update (setLocaleStatus id id (fun _ => false))).

(** * Lemmas *)

(** ** Ranges *)

Definition in_range (settings : TerminalSettings) : Prop :=
  MIN_TERMINAL_FONT_SIZE <= se_font_size settings <= MAX_TERMINAL_FONT_SIZE /\
  (exists n, se_line_height settings = (n # 100)%Q /\ 105 <= n <= 160) /\
  MIN_TERMINAL_SCROLLBACK <= se_scrollback settings <= MAX_TERMINAL_SCROLLBACK.

Lemma clamp_font_range v : MIN_TERMINAL_FONT_SIZE <= clampTerminalFontSize v <= MAX_TERMINAL_FONT_SIZE.
Proof.
  unfold clampTerminalFontSize, MIN_TERMINAL_FONT_SIZE, MAX_TERMINAL_FONT_SIZE, DEFAULT_TERMINAL_FONT_SIZE.
  destruct (finite v); lia.
Qed.
Lemma clamp_scrollback_range v : MIN_TERMINAL_SCROLLBACK <= clampTerminalScrollback v <= MAX_TERMINAL_SCROLLBACK.
Proof.
  unfold clampTerminalScrollback, MIN_TERMINAL_SCROLLBACK, MAX_TERMINAL_SCROLLBACK, DEFAULT_TERMINAL_SCROLLBACK.
  destruct (finite v); lia.
Qed.

(** Rounding is monotone, and keeps integers. *)
Lemma roundQ_le p q : (p <= q)%Q -> roundQ p <= roundQ q.
Proof. intros H. unfold roundQ. apply Qfloor_resp_le. by apply Qplus_le_compat; [|apply Qle_refl]. Qed.
Lemma roundQ_hundredths n : roundQ ((n # 100) * 100)%Q = n.
Proof.
  rewrite <- (roundQ_inject n) at 2. unfold roundQ. apply Qfloor_comp.
  unfold Qeq, inject_Z. cbn. lia.
Qed.

Lemma clamp_height_range v : exists n, clampTerminalLineHeight v = (n # 100)%Q /\ 105 <= n <= 160.
Proof.
  unfold clampTerminalLineHeight. destruct (finite v) as [q|]; [|by exists 125].
  eexists. split; [reflexivity|]. split.
  - rewrite <- (roundQ_hundredths 105). apply roundQ_le, Qmult_le_compat_r; [|done].
    apply Q.min_glb; [done|apply Q.le_max_l].
  - rewrite <- (roundQ_hundredths 160). apply roundQ_le, Qmult_le_compat_r; [|done]. apply Q.le_min_l.
Qed.

Lemma clamp_font_id n : MIN_TERMINAL_FONT_SIZE <= n <= MAX_TERMINAL_FONT_SIZE -> clampTerminalFontSize (ofZ n) = n.
Proof. intros H. unfold clampTerminalFontSize. cbn [finite ofZ]. rewrite roundQ_inject. lia. Qed.
Lemma clamp_scrollback_id n :
  MIN_TERMINAL_SCROLLBACK <= n <= MAX_TERMINAL_SCROLLBACK -> clampTerminalScrollback (ofZ n) = n.
Proof. intros H. unfold clampTerminalScrollback. cbn [finite ofZ]. rewrite roundQ_inject. lia. Qed.
Lemma clamp_height_id n : 105 <= n <= 160 -> clampTerminalLineHeight (Finite (n # 100)) = (n # 100)%Q.
Proof.
  intros H. unfold clampTerminalLineHeight. cbn [finite]. f_equal.
  rewrite <- (roundQ_hundredths n) at 2. unfold roundQ. apply Qfloor_comp.
  rewrite (Q.max_r MIN_TERMINAL_LINE_HEIGHT (n # 100)) by (unfold MIN_TERMINAL_LINE_HEIGHT, Qle; cbn; lia).
  rewrite (Q.min_r MAX_TERMINAL_LINE_HEIGHT (n # 100)) by (unfold MAX_TERMINAL_LINE_HEIGHT, Qle; cbn; lia).
  reflexivity.
Qed.
Lemma clamp_theme_id mode : clampTerminalThemeMode (Some (showTheme mode)) = mode.
Proof. by destruct mode. Qed.
Lemma clamp_cursor_id style : clampTerminalCursorStyle (Some (showCursor style)) = style.
Proof. by destruct style. Qed.

Lemma persisted_in_range next : in_range (persistedSettings next).
Proof. split; [apply clamp_font_range|]. split; [apply clamp_height_range|apply clamp_scrollback_range]. Qed.
Lemma normalized_in_range payload : in_range (normalizeTerminalSettings payload).
Proof. split; [apply clamp_font_range|]. split; [apply clamp_height_range|apply clamp_scrollback_range]. Qed.

(** ** Systems of calls *)

Definition shown_in_range (s : TerminalPreferencesState) : Prop :=
  in_range (mkTerminalSettings (tp_fontSize s) (tp_lineHeight s) (tp_themeMode s) (tp_scrollback s) (tp_cursorStyle s)
    (tp_cursorBlink s)).

(** What [requestTerminalSettings] and [updateTerminalSettings] return is
    normalised, whatever the backend answers. *)
Definition settingsAnswer (s : TerminalPreferencesState) (A : Set) (r : TerminalPreferencesRequest A) : A + JsError -> Prop :=
  match r in TerminalPreferencesRequest A return A + JsError -> Prop with
  | RequestTerminalSettings => fun a => match a with inl x => exists payload, x = normalizeTerminalSettings payload | inr _ => True end
  | UpdateTerminalSettings _ => fun a => match a with inl x => exists payload, x = normalizeTerminalSettings payload | inr _ => True end
  end.

(** The callbacks of any rendering, started and answered in any order. *)
Definition preferences_step : System TerminalPreferencesState TerminalPreferencesRequest -> _ -> Prop :=
  sys_step (fun p => exists shown c, p = useTerminalPreferences shown c) settingsAnswer (fun _ _ => False).

Definition request_in_range (A : Set) (r : TerminalPreferencesRequest A) : Prop :=
  match r with UpdateTerminalSettings settings => in_range settings | RequestTerminalSettings => True end.

(** The calls in flight leave the preferences in range, whatever they are
    answered, and send only such settings. *)
Definition in_flight (o : Outcome TerminalPreferencesState TerminalPreferencesRequest unit) : Prop :=
  match o with
  | Ended _ => False
  | @Waiting _ _ _ _ A r k =>
      request_in_range A r /\ forall a s, settingsAnswer s A r a -> shown_in_range s ->
        exists x, run (k a) s = (x, Ended (inl tt)) /\ shown_in_range x
  end.

(** Every callback is one request and its answer, or nothing. *)
Lemma preferences_call shown c s :
  shown_in_range s ->
  exists x, shown_in_range x /\
    (run (useTerminalPreferences shown c) s = (x, Ended (inl tt)) \/
     exists (A : Set) (r : TerminalPreferencesRequest A) k,
       run (useTerminalPreferences shown c) s = (x, Waiting r k) /\ in_flight (Waiting r k)).
Proof.
  intros Hs.
  assert (forall next, exists x, shown_in_range x /\
    (run (persistTerminalSettings next) s = (x, Ended (inl tt)) \/
     exists (A : Set) (r : TerminalPreferencesRequest A) k, run (persistTerminalSettings next) s = (x, Waiting r k) /\ in_flight (Waiting r k)))
    as Hpersist.
  { intros next. eexists. split; [|right; eexists _, _, _; split; [reflexivity|]]; [exact Hs|].
    split; [apply persisted_in_range|]. intros [x|e] s' Ha Hs'; cbn in Ha |- *; eexists; (split; [reflexivity|]).
    - destruct Ha as [payload ->]. apply normalized_in_range.
    - exact Hs'. }
  destruct c; try apply Hpersist.
  cbn [useTerminalPreferences]. unfold ensureTerminalPreferencesLoaded. cbn [get bind run]. destruct (tp_loadPromise s).
  - exists s. auto.
  - eexists. split; [|right; eexists _, _, _; split; [reflexivity|]]; [exact Hs|].
    split; [done|]. intros [x|e] s' Ha Hs'; cbn in Ha |- *; eexists; (split; [reflexivity|]).
    + destruct Ha as [payload ->]. apply normalized_in_range.
    + exact Hs'.
Qed.

(** In every interleaving of loads and changes, from any renderings, the
    terminal preferences that are shown are those the terminal can use (a font
    of 11 to 16, a line height of 1.05 to 1.6 in hundredths, 1000 to 20000 lines
    of scrollback), and so are the settings of every request in flight; and the
    request's body writes them as they are, although it clamps them again. *)
Theorem terminal_preferences_in_range m :
  rtc preferences_step (mkSystem terminalPreferencesState []) m ->
  shown_in_range (sys_state m) /\
  (forall settings k, Waiting (UpdateTerminalSettings settings) k ∈ sys_calls m ->
    in_range settings /\
    terminalSettingsJson settings = jobject
      [("font_size", jnumber (se_font_size settings)); ("line_height", jvalue (Finite (se_line_height settings)));
       ("theme_mode", jtext (showTheme (se_theme_mode settings))); ("scrollback", jnumber (se_scrollback settings));
       ("cursor_style", jtext (showCursor (se_cursor_style settings))); ("cursor_blink", jbool (se_cursor_blink settings))]).
Proof.
  intros Hr.
  assert (shown_in_range (sys_state m) /\ forall o, o ∈ sys_calls m -> in_flight o) as [Hs Hc].
  { refine (rtc_ind_r (fun m => shown_in_range (sys_state m) /\ forall o, o ∈ sys_calls m -> in_flight o) _ _ _ _ Hr).
    - split; [|by intros o ?%not_elem_of_nil]. split; [done|]. split; [by exists 125|done].
    - intros m1 m2 _ Hstep [Hs Hc]. destruct Hstep as [p (shown & c & ->)|i A r k a Hi Ha|s []].
      + unfold proceed. destruct (preferences_call shown c (sys_state m1) Hs) as (x & Hx & [->|(A & r & k & -> & Hk)]);
          cbn [sys_state sys_calls]; (split; [done|]); [done|].
        intros o [Ho| ->%list_elem_of_singleton]%elem_of_app; [by apply Hc|done].
      + assert (in_flight (Waiting r k)) as [_ Hk] by (apply Hc; by eapply list_elem_of_lookup_2).
        destruct (Hk a _ Ha Hs) as (x & Hrun & Hx). unfold proceed. cbn [sys_state sys_calls]. rewrite Hrun.
        cbn [sys_state sys_calls]. split; [done|]. intros o Ho. apply Hc.
        apply list_elem_of_lookup in Ho as [j Hj]. rewrite list_lookup_delete in Hj.
        case_decide; by eapply list_elem_of_lookup_2. }
  split; [done|]. intros settings k Hin. destruct (Hc _ Hin) as [Hsettings _]. split; [exact Hsettings|].
  destruct Hsettings as (H1 & (n & H2 & H3) & H4). unfold terminalSettingsJson.
  by rewrite clamp_font_id, clamp_scrollback_id, clamp_theme_id, clamp_cursor_id, H2, clamp_height_id by done.
Qed.

Lemma terminal_preferences_in_range_witness :
  exists m : System TerminalPreferencesState TerminalPreferencesRequest,
    rtc preferences_step (mkSystem terminalPreferencesState []) m /\ shown_in_range (sys_state m) /\
    tp_fontSize (sys_state m) = 16 /\ tp_isSaving (sys_state m) = false.
Proof.
  pose (m1 := proceed (useTerminalPreferences terminalPreferencesState (UpdateFontSize (ofZ 99)))
    (mkSystem terminalPreferencesState [])).
  pose (payload := mkTerminalPayload (Some (ofZ 40)) None None None None None).
  assert (exists m2, preferences_step m1 m2 /\ tp_fontSize (sys_state m2) = 16 /\ tp_isSaving (sys_state m2) = false)
    as (m2 & H2 & Hfont & Hsaving).
  { eexists. split; [|split].
    - eapply (sys_answer _ _ _ m1 0 TerminalSettings (UpdateTerminalSettings _) _
        (inl (normalizeTerminalSettings (Some payload)))); [reflexivity|by exists (Some payload)].
    - reflexivity.
    - reflexivity. }
  assert (rtc preferences_step (mkSystem terminalPreferencesState []) m2) as Hr.
  { eapply rtc_l; [|by apply rtc_once]. apply sys_start. by exists terminalPreferencesState, (UpdateFontSize (ofZ 99)). }
  exists m2. split; [exact Hr|]. split; [|by split].
  destruct (terminal_preferences_in_range m2 Hr) as [H _]. exact H.
Defined.

(** ** One change *)

Definition settingsOf (s : TerminalPreferencesState) : TerminalSettings :=
  mkTerminalSettings (tp_fontSize s) (tp_lineHeight s) (tp_themeMode s) (tp_scrollback s) (tp_cursorStyle s)
    (tp_cursorBlink s).

(** What a callback asks for: one field is new. *)
Definition asksFor (shown : TerminalPreferencesState) (c : TerminalPreferencesCall) (now : TerminalSettings)
    : option TerminalSettings :=
  let '(mkTerminalSettings font height theme scrollback cursor blink) := now in
  let withFont n := Some (mkTerminalSettings n height theme scrollback cursor blink) in
  let withHeight q := Some (mkTerminalSettings font q theme scrollback cursor blink) in
  let withScrollback n := Some (mkTerminalSettings font height theme n cursor blink) in
  match c with
  | UpdateFontSize value => withFont (clampTerminalFontSize value)
  | IncreaseFontSize => withFont (Z.min 16 (tp_fontSize shown + 1))
  | DecreaseFontSize => withFont (Z.max 11 (tp_fontSize shown - 1))
  | ResetFontSize => withFont 13
  | UpdateLineHeight value => withHeight (clampTerminalLineHeight value)
  | IncreaseLineHeight => withHeight (clampTerminalLineHeight (Finite (tp_lineHeight shown + (5 # 100))))
  | DecreaseLineHeight => withHeight (clampTerminalLineHeight (Finite (tp_lineHeight shown - (5 # 100))))
  | ResetLineHeight => withHeight (125 # 100)%Q
  | UpdateScrollback value => withScrollback (clampTerminalScrollback value)
  | IncreaseScrollback => withScrollback (Z.min 20000 (tp_scrollback shown + 1000))
  | DecreaseScrollback => withScrollback (Z.max 1000 (tp_scrollback shown - 1000))
  | ResetScrollback => withScrollback 5000
  | UpdateThemeMode mode => Some (mkTerminalSettings font height mode scrollback cursor blink)
  | ResetThemeMode => Some (mkTerminalSettings font height ThemeAdaptive scrollback cursor blink)
  | UpdateCursorStyle style => Some (mkTerminalSettings font height theme scrollback style blink)
  | ResetCursorStyle => Some (mkTerminalSettings font height theme scrollback CursorBlock blink)
  | UpdateCursorBlink value => Some (mkTerminalSettings font height theme scrollback cursor value)
  | ResetCursorBlink => Some (mkTerminalSettings font height theme scrollback cursor true)
  | ResetAllDefaults => Some (mkTerminalSettings 13 (125 # 100) ThemeAdaptive 5000 CursorBlock true)
  | RefreshTerminal => None
  end.

#[local] Arguments clampTerminalFontSize : simpl never.
#[local] Arguments clampTerminalLineHeight : simpl never.
#[local] Arguments clampTerminalScrollback : simpl never.
#[local] Arguments clampTerminalThemeMode : simpl never.
#[local] Arguments clampTerminalCursorStyle : simpl never.

Lemma persisted_current s : shown_in_range s -> persistedSettings (currentPreferences s) = settingsOf s.
Proof.
  intros (H1 & (n & H2 & H3) & H4). cbn [se_font_size se_line_height se_scrollback] in *.
  unfold persistedSettings, currentPreferences. cbn. unfold settingsOf.
  by rewrite clamp_font_id, clamp_scrollback_id, clamp_theme_id, clamp_cursor_id, H2, clamp_height_id by done.
Qed.

Lemma clamp_font_step n : MIN_TERMINAL_FONT_SIZE <= n <= MAX_TERMINAL_FONT_SIZE ->
  clampTerminalFontSize (ofZ (n + 1)) = Z.min 16 (n + 1) /\ clampTerminalFontSize (ofZ (n - 1)) = Z.max 11 (n - 1).
Proof.
  unfold clampTerminalFontSize, MIN_TERMINAL_FONT_SIZE, MAX_TERMINAL_FONT_SIZE. cbn [finite ofZ]. rewrite !roundQ_inject. lia.
Qed.
Lemma clamp_scrollback_step n : MIN_TERMINAL_SCROLLBACK <= n <= MAX_TERMINAL_SCROLLBACK ->
  clampTerminalScrollback (ofZ (n + 1000)) = Z.min 20000 (n + 1000) /\
  clampTerminalScrollback (ofZ (n - 1000)) = Z.max 1000 (n - 1000).
Proof.
  unfold clampTerminalScrollback, MIN_TERMINAL_SCROLLBACK, MAX_TERMINAL_SCROLLBACK. cbn [finite ofZ].
  rewrite !roundQ_inject. lia.
Qed.

Lemma call_asks shown c s asked :
  shown_in_range shown -> shown_in_range s -> asksFor shown c (settingsOf s) = Some asked ->
  exists next, persistedSettings next = asked /\
    run (useTerminalPreferences shown c) s = run (persistTerminalSettings next) s.
Proof.
  intros Hshown Hs. pose proof (persisted_current s Hs) as E. unfold persistedSettings, currentPreferences in E.
  cbn in E. injection E as E1 E2 E3 E4 E5.
  destruct (clamp_font_step _ (proj1 Hshown)) as [F1 F2].
  destruct (clamp_scrollback_step _ (proj2 (proj2 Hshown))) as [G1 G2]. cbn [se_font_size se_scrollback] in F1, F2, G1, G2.
  destruct c; cbn; intros [= <-]; eexists; (split; [|reflexivity]);
    unfold persistedSettings; cbn; rewrite ?E1, ?E2, ?E3, ?E4, ?E5, ?F1, ?F2, ?G1, ?G2; try reflexivity;
    by rewrite ?clamp_theme_id, ?clamp_cursor_id.
Qed.

(** A change of a terminal preference sends one request, with the shown
    preferences but for the field that it changes, whose value is the asked
    one cut to its range (or all defaults, for a reset of all); until the
    answer the old value is shown and the preferences are saving.  The answer
    replaces all preferences and a failure keeps them and shows its message;
    both end the saving. *)
Theorem terminal_change_exact shown c s asked :
  shown_in_range shown -> shown_in_range s -> asksFor shown c (settingsOf s) = Some asked ->
  exists k,
    run (useTerminalPreferences shown c) s =
      (setTerminalStatus (fun _ => None) id (fun _ => true) id s, Waiting (UpdateTerminalSettings asked) k) /\
    (forall saved s', run (k (inl saved)) s' =
      (setTerminalStatus id id (fun _ => false) id (applyTerminalSettings saved s'), Ended (inl tt))) /\
    (forall e s', run (k (inr e)) s' =
      (setTerminalStatus (fun _ => Some (formatTerminalPreferencesError e)) id (fun _ => false) id s', Ended (inl tt))).
Proof.
  intros Hshown Hs Hasked. destruct (call_asks shown c s asked Hshown Hs Hasked) as (next & <- & ->).
  eexists. split; [reflexivity|]. by split.
Qed.

Lemma terminal_change_exact_witness :
  let s := terminalPreferencesState in
  shown_in_range s /\
  asksFor s IncreaseLineHeight (settingsOf s) = Some (mkTerminalSettings 13 (130 # 100) ThemeAdaptive 5000 CursorBlock true) /\
  exists k, run (useTerminalPreferences s IncreaseLineHeight) s =
    (setTerminalStatus (fun _ => None) id (fun _ => true) id s,
     Waiting (UpdateTerminalSettings (mkTerminalSettings 13 (130 # 100) ThemeAdaptive 5000 CursorBlock true)) k).
Proof.
  intros s. assert (shown_in_range s) as Hs by (split; [done|]; split; [by exists 125|done]).
  split; [exact Hs|]. split; [reflexivity|].
  destruct (terminal_change_exact s IncreaseLineHeight s _ Hs Hs eq_refl) as (k & Hk & _). by exists k.
Defined.

(* A second change before the answer to the first one undoes it: its request
   holds the font size that is still shown.  The hook does not prevent it; the
   settings section does, whose controls are disabled while a change is saved. *)
Example second_change_undoes_first :
  let m1 := proceed (useTerminalPreferences terminalPreferencesState (UpdateFontSize (ofZ 16)))
    (mkSystem terminalPreferencesState []) in
  match run (useTerminalPreferences (sys_state m1) (UpdateCursorStyle CursorBar)) (sys_state m1) with
  | (_, Waiting (UpdateTerminalSettings settings) _) => se_font_size settings = 13 /\ se_cursor_style settings = CursorBar
  | _ => False
  end.
Proof. by split. Qed.

(** ** The language *)

(** Choosing a language shows it at once, with one request; the answer's
    language and list replace it, and a failure goes back to the language that
    was shown when it was chosen, with a message.  Choosing the shown language
    does nothing. *)
Theorem locale_change_exact locale nextLocale s :
  (nextLocale = locale -> run (setLocale locale nextLocale) s = (s, Ended (inl tt))) /\
  (nextLocale <> locale -> exists k,
    run (setLocale locale nextLocale) s =
      (mkLocaleState nextLocale (lo_supportedLocales s) (lo_isLoading s) true None,
       Waiting (UpdateLocaleSettings nextLocale) k) /\
    (forall answer s', run (k (inl answer)) s' =
      (mkLocaleState (fst answer) (snd answer) (lo_isLoading s') false (lo_errorMessage s'), Ended (inl tt))) /\
    (forall e s', run (k (inr e)) s' =
      (mkLocaleState locale (lo_supportedLocales s') (lo_isLoading s') false (Some (formatLocaleSettingsError e)),
       Ended (inl tt)))).
Proof.
  unfold setLocale. split; intros H.
  - by rewrite bool_decide_eq_true_2.
  - rewrite bool_decide_eq_false_2 by done. eexists. split; [reflexivity|]. by split.
Qed.

(* Two choices, the second accepted before the first one fails: the language
   that the backend has stored is no longer shown.  Here too only the disabled
   control of the settings section prevents it. *)
Example late_failure_reverts_later_choice :
  let s0 := mkLocaleState LocaleRu defaultSupportedLocales false false None in
  match run (setLocale LocaleRu LocaleEn) s0 with
  | (s1, @Waiting _ _ _ _ _ (UpdateLocaleSettings _) k1) =>
      match run (setLocale LocaleEn LocaleEs) s1 with
      | (s2, @Waiting _ _ _ _ _ (UpdateLocaleSettings _) k2) =>
          let s3 := fst (run (k2 (inl (LocaleEs, defaultSupportedLocales))) s2) in
          lo_locale s3 = LocaleEs /\ lo_locale (fst (run (k1 (inr None)) s3)) = LocaleRu
      | _ => False
      end
  | _ => False
  end.
Proof. by split. Qed.

(** ** The title of the window *)

(** After an answer every use of the hook shows the same settings. *)
Lemma title_answer_shared i customTitle mode titles :
  exists k, run (updateTitleSettings i customTitle mode) titles =
    (alter (setTitleStatus (fun _ => None) id (fun _ => true)) i titles,
     Waiting (UpdateWindowTitleSettings customTitle mode) k) /\
  forall updated titles' j u, (fst (run (k (inl updated)) titles')) !! j = Some u -> ut_view u = updated.
Proof.
  eexists. split; [reflexivity|]. intros updated titles' j u. cbn.
  unfold emitWindowTitleSettingsChanged. destruct (decide (i = j)) as [<-|Hne].
  - rewrite lookup_alter_eq, lookup_fmap, lookup_alter_eq. destruct (titles' !! i); cbn; [|done]. by intros [= <-].
  - rewrite !lookup_alter_ne, lookup_fmap, lookup_alter_ne by done.
    destruct (titles' !! j); cbn; [|done]. by intros [= <-].
Qed.
