(* ===== verification/ProviderSettings.v ===== *)
(** * Drafts of provider settings

    [frontend/src/features/agent/model/provider-settings-draft.ts]: the form
    that edits a provider, and the payload that saves it. *)
From Stdlib Require Import Ascii String QArith.
From stdpp Require Import strings.
From S2P Require Import Prelude JsString Text Number Providers Http ProviderApi Effects AgentState.
Local Open Scope string_scope.
Local Open Scope list_scope.
Local Open Scope Z_scope.
Local Open Scope js_scope.

Definition DEFAULT_CODEX_COMMAND : string := "codex".
Definition DEFAULT_CODEX_MODEL : string := "gpt-5.4".
Definition DEFAULT_CLAUDE_COMMAND : string := "claude".
Definition DEFAULT_CLAUDE_MODEL : string := "sonnet".
Definition DEFAULT_OPENAI_COMPATIBLE_BASE_URL : string := "http://127.0.0.1:8317".
Definition DEFAULT_OPENAI_COMPATIBLE_MODEL : string := "gpt-5.4".

(** What throws gives the message on the right. *)
Notation Checked T := (T + string)%type.
Definition andThen {A B} (r : Checked A) (k : A -> Checked B) : Checked B :=
  match r with inl x => k x | inr message => inr message end.

Definition normalizeText (value : string) : string := trimText value.
Definition requireText (value label : string) : Checked string :=
  let normalized := normalizeText value in
  if truthy normalized then inl normalized else inr (label +:+ " is required.").

Inductive AgentProviderDraftMode := DraftExisting | DraftNew.
#[global] Instance draft_mode_eq : EqDecision AgentProviderDraftMode.
Proof. solve_decision. Defined.

(** The fields of one kind: its command or base URL, and its model. *)
Record KindDraft := mkKindDraft { kd_endpoint : string; kd_model : string }.

Record AgentProviderDraft := mkDraft {
  pd_mode : AgentProviderDraftMode;
  pd_id : option string;
  pd_kind : string;
  pd_displayName : string;
  pd_enabled : bool;
  pd_ownerUsername : string;
  pd_visibility : string;
  pd_allowedUsers : string;
  pd_prewarmPolicy : AgentProviderPrewarmPolicy;
  pd_warmTTLSeconds : Number;
  pd_codex : KindDraft;
  pd_claude : KindDraft;
  pd_openAICompatible : KindDraft
}.

Definition createEmptyProviderDraft (kind : string) : AgentProviderDraft :=
  mkDraft DraftNew None kind "" true "" "private" "" PrewarmManual (ofZ 900)
    (mkKindDraft DEFAULT_CODEX_COMMAND DEFAULT_CODEX_MODEL)
    (mkKindDraft DEFAULT_CLAUDE_COMMAND DEFAULT_CLAUDE_MODEL)
    (mkKindDraft DEFAULT_OPENAI_COMPATIBLE_BASE_URL DEFAULT_OPENAI_COMPATIBLE_MODEL).

Definition kindDraft (settings : option ProviderKindSettings) (endpoint model : string) : KindDraft :=
  mkKindDraft (mbind pk_endpoint settings ?? endpoint) (mbind pk_model settings ?? model).

(** The access and the route policy of a view are always there, since the
    client normalises them. *)
Definition createProviderDraftFromView (provider : AgentProviderView) : AgentProviderDraft :=
  let access := pv_access provider in
  let routePolicy := pv_route_policy provider in
  mkDraft DraftExisting (Some (pv_id provider)) (pv_kind provider) (pv_display_name provider) (pv_enabled provider)
    (ap_owner_username access) (ap_visibility access ?? "private") (join ", " (ap_allowed_users access ?? []))
    (rp_prewarm_policy routePolicy ?? PrewarmManual) (ofZ (rp_warm_ttl_seconds routePolicy ?? 900))
    (kindDraft (pv_codex provider) DEFAULT_CODEX_COMMAND DEFAULT_CODEX_MODEL)
    (kindDraft (pv_claude provider) DEFAULT_CLAUDE_COMMAND DEFAULT_CLAUDE_MODEL)
    (kindDraft (pv_openai_compatible provider) DEFAULT_OPENAI_COMPATIBLE_BASE_URL DEFAULT_OPENAI_COMPATIBLE_MODEL).

(** The users of a text with commas. *)
Definition parseUsers (allowedUsers : string) : list string :=
  filterb truthy (trimText <$> splitOn "," allowedUsers).

Definition accessInput (draft : AgentProviderDraft) : AccessInput :=
  mkAccessInput (Some (normalizeText (pd_ownerUsername draft))) (Some (normalizeText (pd_visibility draft)))
    (Some (parseUsers (pd_allowedUsers draft))).
Definition policyInput (draft : AgentProviderDraft) : RoutePolicyInput :=
  mkPolicyInput (pd_prewarmPolicy draft) (truncNatural (pd_warmTTLSeconds draft)).

(** The settings of a kind, checked. *)
Definition kindInput (draft : KindDraft) (endpointLabel modelLabel : string) : Checked KindSettingsInput :=
  andThen (requireText (kd_endpoint draft) endpointLabel) (fun endpoint =>
  andThen (requireText (kd_model draft) modelLabel) (fun model =>
  inl (mkKindInput (Some endpoint) (Some model) None))).

(** The [switch] of both payloads: the settings of the draft's kind. *)
Definition withKind (draft : AgentProviderDraft)
    (payload : option KindSettingsInput -> option KindSettingsInput -> option KindSettingsInput -> UpdateAgentProviderPayload)
    : Checked UpdateAgentProviderPayload :=
  if decide (pd_kind draft = "codex") then
    andThen (kindInput (pd_codex draft) "Codex command" "Codex model") (fun k => inl (payload (Some k) None None))
  else if decide (pd_kind draft = "claude") then
    andThen (kindInput (pd_claude draft) "Claude command" "Claude model") (fun k => inl (payload None (Some k) None))
  else if decide (pd_kind draft = "openai-compatible") then
    andThen (kindInput (pd_openAICompatible draft) "Source URL" "Source model") (fun k => inl (payload None None (Some k)))
  else inr ("Unsupported provider kind: " +:+ pd_kind draft).

Definition draftPayload (draft : AgentProviderDraft) : Checked UpdateAgentProviderPayload :=
  withKind draft (mkUpdateProvider (Some (normalizeText (pd_displayName draft))) (Some (pd_enabled draft))
    (Some (accessInput draft)) (Some (policyInput draft))).

Definition buildCreateProviderPayload (draft : AgentProviderDraft) : Checked CreateAgentProviderPayload :=
  andThen (draftPayload draft) (fun payload => inl (mkCreateProvider (pd_kind draft) payload)).

Definition buildUpdateProviderPayload (draft : AgentProviderDraft) : Checked UpdateAgentProviderPayload :=
  if truthyOpt (pd_id draft) then draftPayload draft else inr "Existing provider id is required.".

(** * Lemmas *)

Lemma trim_end_nil : trimText "" = "".
Proof. reflexivity. Qed.

Lemma truthy_ne s : s <> "" -> truthy s = true.
Proof. intros H. unfold truthy. by rewrite bool_decide_eq_false_2. Qed.

(** The users of a view survive the text of the form when no name holds a comma. *)
Lemma split_users us pre :
  us <> [] -> Forall (fun u => trimmedText u /\ u <> "" /\ no_unit "," u = true) us -> pre = "" \/ pre = " " ->
  trimText <$> splitOn "," (pre +:+ join ", " us) = us.
Proof.
  intros Hne Hus. revert pre. induction Hus as [|u us (H1 & H2 & H3) Hus IH]; intros pre Hpre; [done|].
  assert (trimText (pre +:+ u) = u) as Hu by (destruct Hpre as [-> | ->]; [by apply trimText_id|by apply trim_space]).
  assert (no_unit "," (pre +:+ u) = true) as Hn.
  { rewrite no_unit_append, H3, andb_true_r. by destruct Hpre as [-> | ->]. }
  destruct us as [|u' us].
  - cbn [join]. rewrite splitOn_no_unit by done. cbn. by rewrite Hu.
  - change (join ", " (u :: u' :: us)) with (u +:+ String "," (" " +:+ join ", " (u' :: us))).
    rewrite <- append_assoc, splitOn_app, splitOn_no_unit by done. cbn [app fmap list_fmap]. rewrite Hu. f_equal.
    apply IH; [done|by right].
Qed.

Lemma parse_users us :
  Forall (fun u => trimmedText u /\ u <> "" /\ no_unit "," u = true) us -> parseUsers (join ", " us) = us.
Proof.
  intros Hus. unfold parseUsers. destruct us as [|u us]; [reflexivity|].
  pose proof (split_users (u :: us) "" ltac:(done) Hus ltac:(by left)) as Hs. cbn [String.append] in Hs.
  rewrite Hs. apply filterb_all.
  intros x Hx. apply truthy_ne. by apply (proj1 (Forall_forall _ _) Hus x Hx).
Qed.

(** What the client's normalisation guarantees of a view. *)
Lemma trimmed_Some o v : trimmed o = Some v -> trimmedText v /\ v <> "".
Proof.
  unfold trimmed. intros [H1 H2]%truthyOpt_Some. destruct o as [s|]; [|done]. injection H1 as <-.
  split; [apply trim_trimmed|done].
Qed.
Lemma actor_trimmed actor : trimmedText (ac_username (normalizeActor actor)).
Proof.
  unfold normalizeActor. cbn [ac_username]. destruct (trimmed _) as [v|] eqn:E; cbn; [by destruct (trimmed_Some _ _ E)|].
  by split; vm_compute.
Qed.

(** The view's own settings. *)
Definition ownSettings (p : AgentProviderView) : option ProviderKindSettings :=
  if decide (pv_kind p = "codex") then pv_codex p
  else if decide (pv_kind p = "claude") then pv_claude p
  else if decide (pv_kind p = "openai-compatible") then pv_openai_compatible p
  else None.

(** The payload that says of a provider what its view says. *)
Definition viewPayload (p : AgentProviderView) (endpoint model : string) : UpdateAgentProviderPayload :=
  let own kind := if decide (pv_kind p = kind) then Some (mkKindInput (Some endpoint) (Some model) None) else None in
  mkUpdateProvider (Some (trimText (pv_display_name p))) (Some (pv_enabled p))
    (Some (mkAccessInput (Some (ap_owner_username (pv_access p))) (Some (ap_visibility (pv_access p) ?? "private"))
      (Some (ap_allowed_users (pv_access p) ?? []))))
    (Some (mkPolicyInput (rp_prewarm_policy (pv_route_policy p) ?? PrewarmManual)
      (ofZ (rp_warm_ttl_seconds (pv_route_policy p) ?? 900))))
    (own "codex") (own "claude") (own "openai-compatible").

Lemma trunc_natural n : 0 <= n -> truncNatural (ofZ n) = ofZ n.
Proof. intros H. unfold truncNatural, ofZ. rewrite truncQ_inject. by rewrite Z.max_r. Qed.

Lemma require_text s label : trimmedText s -> s <> "" -> requireText s label = inl s.
Proof. intros H1 H2. unfold requireText, normalizeText. rewrite trimText_id by done. by rewrite truthy_ne. Qed.

Lemma kind_input e m l1 l2 :
  trimmedText e -> e <> "" -> trimmedText m -> m <> "" ->
  kindInput (mkKindDraft e m) l1 l2 = inl (mkKindInput (Some e) (Some m) None).
Proof. intros H1 H2 H3 H4. unfold kindInput. cbn. rewrite !require_text by done. reflexivity. Qed.

(** A draft that was opened from a provider of the catalog and not edited
    saves exactly what the catalog says of the provider: its trimmed name, flag,
    owner, visibility, users, route policy, and the endpoint and model of its
    kind.  The client has normalised the catalog; the users' names must hold no
    comma, because the form joins them with commas. *)
Theorem unchanged_draft_saves_view raw endpoint model models :
  let p := normalizeProviderView raw in
  pv_id p <> "" ->
  ownSettings p = Some (mkKindSettings (Some endpoint) (Some model) models) ->
  trimmedText endpoint -> endpoint <> "" -> trimmedText model -> model <> "" ->
  Forall (fun u => no_unit "," u = true) (ap_allowed_users (pv_access p) ?? []) ->
  buildUpdateProviderPayload (createProviderDraftFromView p) = inl (viewPayload p endpoint model).
Proof.
  intros p Hid Hown He1 He2 Hm1 Hm2 Hcommas.
  assert (accessInput (createProviderDraftFromView p) =
    mkAccessInput (Some (ap_owner_username (pv_access p))) (Some (ap_visibility (pv_access p) ?? "private"))
      (Some (ap_allowed_users (pv_access p) ?? []))) as Haccess.
  { unfold accessInput, createProviderDraftFromView, normalizeText. cbn [pd_ownerUsername pd_visibility pd_allowedUsers].
    f_equal; f_equal.
    - apply trimText_id. cbn [p normalizeProviderView pv_access normalizeAccessPolicy ap_owner_username].
      destruct (trimmed (mbind sl_owner_username (vl_access raw))) as [v|] eqn:E; [by destruct (trimmed_Some _ _ E)|].
      apply actor_trimmed.
    - cbn [p normalizeProviderView pv_access normalizeAccessPolicy ap_visibility].
      destruct (trimmed (mbind sl_visibility (vl_access raw))) as [v|] eqn:E; [|reflexivity].
      apply trimmed_Some in E as [E _]. by apply trimText_id.
    - apply parse_users. apply Forall_forall. intros u Hu. split_and!; [..|by apply (proj1 (Forall_forall _ _) Hcommas)];
        cbn [p normalizeProviderView pv_access normalizeAccessPolicy ap_allowed_users nullish] in Hu;
        apply elem_of_filterb in Hu as [[x [-> _]]%list_elem_of_fmap Ht].
      + apply trim_trimmed.
      + intros Hx. by rewrite Hx in Ht. }
  assert (policyInput (createProviderDraftFromView p) =
    mkPolicyInput (rp_prewarm_policy (pv_route_policy p) ?? PrewarmManual)
      (ofZ (rp_warm_ttl_seconds (pv_route_policy p) ?? 900))) as Hpolicy.
  { unfold policyInput, createProviderDraftFromView. cbn [pd_prewarmPolicy pd_warmTTLSeconds]. f_equal.
    apply trunc_natural. cbn [p normalizeProviderView pv_route_policy normalizeRoutePolicy rp_warm_ttl_seconds nullish].
    generalize (mbind ol_warm_ttl_seconds (vl_route_policy raw) ≫= finite). intros [q|]; [apply Z.le_max_l|done]. }
  clearbody p. unfold buildUpdateProviderPayload. cbn [createProviderDraftFromView pd_id].
  assert (truthyOpt (Some (pv_id p)) = Some (pv_id p)) as -> by (by apply truthyOpt_Some).
  unfold draftPayload, withKind, viewPayload. rewrite Haccess, Hpolicy. unfold ownSettings in Hown.
  cbn [createProviderDraftFromView pd_kind pd_codex pd_claude pd_openAICompatible pd_displayName pd_enabled].
  destruct (decide (pv_kind p = "codex")) as [Hk|_]; [|destruct (decide (pv_kind p = "claude")) as [Hk|_];
    [|destruct (decide (pv_kind p = "openai-compatible")) as [Hk|_]; [|done]]];
    rewrite Hown, ?Hk; unfold kindDraft; cbn [mbind option_bind pk_endpoint pk_model nullish];
    rewrite kind_input by done; reflexivity.
Qed.

Lemma unchanged_draft_saves_view_witness :
  let raw := mkProviderPayload "p1" "claude" " Claude " true false
    (Some (mkAccessPayload (Some "ann") None (Some ["bob "; ""; "eve"]))) None None None None
    (Some (mkKindPayload (Some "claude") (Some "opus") None)) None "" "" in
  let p := normalizeProviderView raw in
  pv_id p <> "" /\ ownSettings p = Some (mkKindSettings (Some "claude") (Some "opus") (Some [])) /\
  buildUpdateProviderPayload (createProviderDraftFromView p) =
    inl (mkUpdateProvider (Some "Claude") (Some true)
      (Some (mkAccessInput (Some "ann") (Some "private") (Some ["bob"; "eve"])))
      (Some (mkPolicyInput PrewarmManual (ofZ 900))) None (Some (mkKindInput (Some "claude") (Some "opus") None)) None).
Proof.
  intros raw p. split; [done|]. split; [reflexivity|].
  assert (trimmedText "claude" /\ trimmedText "opus") as [H1 H2] by (by split; split).
  apply (unchanged_draft_saves_view raw "claude" "opus" (Some [])); try done. by repeat constructor.
Defined.

(* A user whose name holds a comma becomes two users. *)
Example comma_splits_user :
  let p := normalizeProviderView (mkProviderPayload "p1" "codex" "C" true false
    (Some (mkAccessPayload (Some "ann") None (Some ["Smith, John"]))) None None None
    (Some (mkKindPayload (Some "codex") (Some "gpt") None)) None None "" "") in
  match buildUpdateProviderPayload (createProviderDraftFromView p) with
  | inl payload => (un_access payload ≫= an_allowed_users) = Some ["Smith"; "John"]
  | inr _ => False
  end.
Proof. reflexivity. Qed.

(** * The settings of providers

    [frontend/src/features/agent/model/use-agent-provider-settings.ts]: the
    catalog of providers with one selected, the draft that edits it, the models
    that it offers, and the history of its runs.  Callbacks read the state when
    they are called, which is the state of the last rendering. *)
Local Open Scope string_scope.
Local Open Scope list_scope.
Local Open Scope Z_scope.
Local Open Scope js_scope.
Local Open Scope prog_scope.

(** ** State *)

Inductive ProviderHistoryStatusFilter := StatusAll | StatusFailed | StatusSucceeded | StatusCancelled.
Inductive ProviderHistoryScopeFilter := ScopeSelected | ScopeEvery.
#[global] Instance history_status_eq : EqDecision ProviderHistoryStatusFilter.
Proof. solve_decision. Defined.
#[global] Instance history_scope_eq : EqDecision ProviderHistoryScopeFilter.
Proof. solve_decision. Defined.

Definition providerGatewayHistoryLimit : Z := 20.
Definition providerGatewayHistoryPageOptions : list Z := [10; 20; 50].

Record SelectionState := mkSelectionState {
  sl_catalog : option AgentProviderCatalog;
  sl_selectedProviderID : option string;
  sl_draft : option AgentProviderDraft
}.
Record BusyState := mkBusy {
  bz_isLoading : bool;
  bz_isSaving : bool;
  bz_isProbing : bool;
  bz_isPreparing : bool;
  bz_errorMessage : option string;
  bz_statusMessage : option string;
  bz_probeErrorMessage : option string
}.
Record GatewayState := mkGatewayState { ga_gateway : option AgentProviderGatewaySnapshot; ga_errorMessage : option string }.
Record ModelsState := mkModels { mo_available : list string; mo_isLoading : bool; mo_errorMessage : option string }.
Record HistoryState := mkHistory {
  hi_runs : list AgentProviderGatewayRun;
  hi_errorMessage : option string;
  hi_query : string;
  hi_status : ProviderHistoryStatusFilter;
  hi_scope : ProviderHistoryScopeFilter;
  hi_limit : Z;
  hi_offset : Z;
  hi_total : Z;
  hi_hasMore : bool;
  hi_isLoading : bool
}.
Record SettingsState := mkSettings {
  st_selection : SelectionState;
  st_busy : BusyState;
  st_gateway : GatewayState;
  st_models : ModelsState;
  st_history : HistoryState
}.

Definition initialSettings : SettingsState :=
  mkSettings (mkSelectionState None None None) (mkBusy true false false false None None None) (mkGatewayState None None)
    (mkModels [] false None) (mkHistory [] None "" StatusAll ScopeSelected providerGatewayHistoryLimit 0 0 false false).

(** The result of a request that changes a provider, or a catalog. *)
Inductive ProviderSettingsRequest : Set -> Type :=
  | FetchCatalog : ProviderSettingsRequest AgentProviderCatalog
  | FetchGatewaySnapshot (query : option AgentProviderGatewaySnapshotQuery) : ProviderSettingsRequest AgentProviderGatewaySnapshot
  | CreateProviderRequest (payload : CreateAgentProviderPayload) : ProviderSettingsRequest ProviderMutation
  | UpdateProviderRequest (id : string) (payload : UpdateAgentProviderPayload) : ProviderSettingsRequest ProviderMutation
  | SetActiveRequest (id : string) : ProviderSettingsRequest AgentProviderCatalog
  | DeleteRequest (id : string) : ProviderSettingsRequest AgentProviderCatalog
  | DiscoverRequest (payload : DiscoverAgentProviderModelsPayload) : ProviderSettingsRequest (list string)
  | ProbeRequest (id : string) : ProviderSettingsRequest AgentProviderProbeResult
  | PrewarmRequest (id : string) : ProviderSettingsRequest AgentProviderPrewarmResult
  | ClearRouteRequest (id : string) : ProviderSettingsRequest unit.

Notation Settings := (Prog SettingsState ProviderSettingsRequest).

(** ** Setters *)

Definition on_selection (f : SelectionState -> SelectionState) (s : SettingsState) : SettingsState :=
  mkSettings (f (st_selection s)) (st_busy s) (st_gateway s) (st_models s) (st_history s).
Definition on_busy (f : BusyState -> BusyState) (s : SettingsState) : SettingsState :=
  mkSettings (st_selection s) (f (st_busy s)) (st_gateway s) (st_models s) (st_history s).
Definition set_gateway (g : GatewayState) (s : SettingsState) : SettingsState :=
  mkSettings (st_selection s) (st_busy s) g (st_models s) (st_history s).
Definition on_models (f : ModelsState -> ModelsState) (s : SettingsState) : SettingsState :=
  mkSettings (st_selection s) (st_busy s) (st_gateway s) (f (st_models s)) (st_history s).
Definition on_history (f : HistoryState -> HistoryState) (s : SettingsState) : SettingsState :=
  mkSettings (st_selection s) (st_busy s) (st_gateway s) (st_models s) (f (st_history s)).

Definition setDraft (draft : option AgentProviderDraft) : SettingsState -> SettingsState :=
  on_selection (fun l => mkSelectionState (sl_catalog l) (sl_selectedProviderID l) draft).
Definition setSelectedProviderID (id : option string) : SettingsState -> SettingsState :=
  on_selection (fun l => mkSelectionState (sl_catalog l) id (sl_draft l)).

Definition setLoading (b : bool) : SettingsState -> SettingsState :=
  on_busy (fun z => mkBusy b (bz_isSaving z) (bz_isProbing z) (bz_isPreparing z) (bz_errorMessage z) (bz_statusMessage z) (bz_probeErrorMessage z)).
Definition setSaving (b : bool) : SettingsState -> SettingsState :=
  on_busy (fun z => mkBusy (bz_isLoading z) b (bz_isProbing z) (bz_isPreparing z) (bz_errorMessage z) (bz_statusMessage z) (bz_probeErrorMessage z)).
Definition setProbing (b : bool) : SettingsState -> SettingsState :=
  on_busy (fun z => mkBusy (bz_isLoading z) (bz_isSaving z) b (bz_isPreparing z) (bz_errorMessage z) (bz_statusMessage z) (bz_probeErrorMessage z)).
Definition setPreparing (b : bool) : SettingsState -> SettingsState :=
  on_busy (fun z => mkBusy (bz_isLoading z) (bz_isSaving z) (bz_isProbing z) b (bz_errorMessage z) (bz_statusMessage z) (bz_probeErrorMessage z)).
Definition setErrorMessage (m : option string) : SettingsState -> SettingsState :=
  on_busy (fun z => mkBusy (bz_isLoading z) (bz_isSaving z) (bz_isProbing z) (bz_isPreparing z) m (bz_statusMessage z) (bz_probeErrorMessage z)).
Definition setStatusMessage (m : option string) : SettingsState -> SettingsState :=
  on_busy (fun z => mkBusy (bz_isLoading z) (bz_isSaving z) (bz_isProbing z) (bz_isPreparing z) (bz_errorMessage z) m (bz_probeErrorMessage z)).
Definition setProbeErrorMessage (m : option string) : SettingsState -> SettingsState :=
  on_busy (fun z => mkBusy (bz_isLoading z) (bz_isSaving z) (bz_isProbing z) (bz_isPreparing z) (bz_errorMessage z) (bz_statusMessage z) m).

Definition setHistoryLoading (b : bool) : SettingsState -> SettingsState :=
  on_history (fun h => mkHistory (hi_runs h) (hi_errorMessage h) (hi_query h) (hi_status h) (hi_scope h) (hi_limit h)
    (hi_offset h) (hi_total h) (hi_hasMore h) b).
Definition setHistoryRuns (f : list AgentProviderGatewayRun -> list AgentProviderGatewayRun) (error : option string)
    : SettingsState -> SettingsState :=
  on_history (fun h => mkHistory (f (hi_runs h)) error (hi_query h) (hi_status h) (hi_scope h) (hi_limit h)
    (hi_offset h) (hi_total h) (hi_hasMore h) (hi_isLoading h)).
Definition setHistoryTotals (total : Z) (hasMore : bool) : SettingsState -> SettingsState :=
  on_history (fun h => mkHistory (hi_runs h) (hi_errorMessage h) (hi_query h) (hi_status h) (hi_scope h) (hi_limit h)
    (hi_offset h) total hasMore (hi_isLoading h)).
Definition setHistoryOffset (f : Z -> Z) : SettingsState -> SettingsState :=
  on_history (fun h => mkHistory (hi_runs h) (hi_errorMessage h) (hi_query h) (hi_status h) (hi_scope h) (hi_limit h)
    (f (hi_offset h)) (hi_total h) (hi_hasMore h) (hi_isLoading h)).
Definition setHistoryFilters (query : string) (status : ProviderHistoryStatusFilter) (scope : ProviderHistoryScopeFilter)
    (limit : Z) : SettingsState -> SettingsState :=
  on_history (fun h => mkHistory (hi_runs h) (hi_errorMessage h) query status scope limit (hi_offset h) (hi_total h)
    (hi_hasMore h) (hi_isLoading h)).

(** ** Helpers *)

Definition settingsError (error : JsError) : string := getErrorMessage error "Unable to update provider settings.".

Definition findProvider (catalog : AgentProviderCatalog) (id : string) : option AgentProviderView :=
  find (fun provider => bool_decide (pv_id provider = id)) (pc_providers catalog).

Definition getPreferredProvider (catalog : AgentProviderCatalog) (preferredID : option string) : option AgentProviderView :=
  match truthyOpt preferredID ≫= findProvider catalog with
  | Some provider => Some provider
  | None =>
      match findProvider catalog (pc_active_provider_id catalog) with
      | Some provider => Some provider
      | None => head (pc_providers catalog)
      end
  end.

Definition getDraftModelValue (draft : option AgentProviderDraft) : string :=
  match draft with
  | None => ""
  | Some d =>
      if decide (pd_kind d = "codex") then kd_model (pd_codex d)
      else if decide (pd_kind d = "claude") then kd_model (pd_claude d)
      else if decide (pd_kind d = "openai-compatible") then kd_model (pd_openAICompatible d)
      else ""
  end.

Definition uniqueModels (models : list string) : list string := dedupe (filterb truthy (trimText <$> models)).

Definition chatModelsOnly (chatModels : list string) : KindSettingsInput := mkKindInput None None (Some chatModels).
Definition buildChatModelsUpdatePayload (provider : AgentProviderView) (chatModels : list string)
    : Checked UpdateAgentProviderPayload :=
  let payload := mkUpdateProvider None None None None in
  if decide (pv_kind provider = "codex") then inl (payload (Some (chatModelsOnly chatModels)) None None)
  else if decide (pv_kind provider = "claude") then inl (payload None (Some (chatModelsOnly chatModels)) None)
  else if decide (pv_kind provider = "openai-compatible") then inl (payload None None (Some (chatModelsOnly chatModels)))
  else inr ("Provider kind " +:+ pv_kind provider +:+ " does not support chat model availability.").

(** A payload that is built inside of the call. *)
Definition orThrow {A} (r : Checked A) : Settings A :=
  match r with inl x => Ret x | inr message => Throw (Some message) end.

(** [display_name || kind] *)
Definition nameOr (display_name kind : string) : string := if truthy display_name then display_name else kind.

(** ** The gateway and the history *)

Definition reloadGateway : Settings unit :=
  tryCatch
    (nextGateway <- await (FetchGatewaySnapshot None) ;;
     update (set_gateway (mkGatewayState (Some nextGateway) None)))
    (fun error => update (set_gateway (mkGatewayState None (Some (settingsError error))))).

Definition showHistoryStatus (status : ProviderHistoryStatusFilter) : option string :=
  match status with
  | StatusAll => None
  | StatusFailed => Some "failed"
  | StatusSucceeded => Some "succeeded"
  | StatusCancelled => Some "cancelled"
  end.

Definition historyRequest (shown : SettingsState) : AgentProviderGatewaySnapshotQuery :=
  let h := st_history shown in
  mkGatewayQuery (if decide (hi_scope h = ScopeSelected) then sl_selectedProviderID (st_selection shown) else None)
    (showHistoryStatus (hi_status h)) (Some (hi_query h)) (Some (hi_offset h)) (Some (hi_limit h)).

Definition clearHistory : SettingsState -> SettingsState :=
  fun s => setHistoryLoading false (setHistoryRuns (fun _ => []) None s).

(** [reloadHistory] of the rendering [shown]. *)
Definition reloadHistory (shown : SettingsState) : Settings unit :=
  let h := st_history shown in
  if negb (bool_decide (is_Some (sl_catalog (st_selection shown)))) then update clearHistory
  else if bool_decide (hi_scope h = ScopeSelected) &&
          negb (bool_decide (is_Some (truthyOpt (sl_selectedProviderID (st_selection shown)))))
  then update clearHistory
  else
    update (setHistoryLoading true) ;;;
    finally
      (tryCatch
         (next <- await (FetchGatewaySnapshot (Some (historyRequest shown))) ;;
          update (setHistoryRuns
            (fun currentRuns => if 0 <? hi_offset h then currentRuns ++ gw_recent_runs next else gw_recent_runs next) None) ;;;
          update (setHistoryTotals (gw_recent_runs_total next) (gw_recent_runs_has_more next)))
         (fun error =>
            update (setHistoryRuns (fun _ => []) (Some (settingsError error))) ;;;
            update (setHistoryTotals 0 false)))
      (update (setHistoryLoading false)).

(** ** The catalog *)

Definition selectProviderFromCatalog (nextCatalog : AgentProviderCatalog) (providerID : option string) : Settings unit :=
  let provider := getPreferredProvider nextCatalog providerID in
  update (fun s => setProbeErrorMessage None (on_selection (fun _ =>
    mkSelectionState (Some nextCatalog) (pv_id <$> provider) (createProviderDraftFromView <$> provider)) s)).

Definition reloadCatalog (preferredProviderID : option string) : Settings unit :=
  update (fun s => setErrorMessage None (setLoading true s)) ;;;
  finally
    (tryCatch
       (nextCatalog <- await FetchCatalog ;;
        selectProviderFromCatalog nextCatalog preferredProviderID ;;;
        reloadGateway)
       (fun error => update (setErrorMessage (Some (settingsError error)))))
    (update (setLoading false)).

(** ** The models *)

(** The request for the models of a draft; a draft of no CLI is one of a source. *)
Definition discoverPayload (nextDraft : AgentProviderDraft) : DiscoverAgentProviderModelsPayload :=
  let settings (k : KindDraft) :=
    Some (mkKindInput (truthyOpt (Some (kd_endpoint k))) (truthyOpt (Some (kd_model k))) None) in
  let existing :=
    if decide (pd_mode nextDraft = DraftExisting) then truthyOpt (pd_id nextDraft) else None in
  let payload kind :=
    match existing with
    | Some id => mkDiscover (Some id) None
    | None => mkDiscover None (Some kind)
    end in
  if decide (pd_kind nextDraft = "codex") then payload "codex" (settings (pd_codex nextDraft)) None None
  else if decide (pd_kind nextDraft = "claude") then payload "claude" None (settings (pd_claude nextDraft)) None
  else payload "openai-compatible" None None (settings (pd_openAICompatible nextDraft)).

Definition withModel (model : string) (k : KindDraft) : KindDraft := mkKindDraft (kd_endpoint k) model.

(** The model of a draft's kind, when the draft is of the kind [kind]. *)
Definition setDraftModel (kind model : string) (d : AgentProviderDraft) : AgentProviderDraft :=
  if negb (bool_decide (pd_kind d = kind)) then d
  else
    let build codex claude openAICompatible :=
      mkDraft (pd_mode d) (pd_id d) (pd_kind d) (pd_displayName d) (pd_enabled d) (pd_ownerUsername d) (pd_visibility d)
        (pd_allowedUsers d) (pd_prewarmPolicy d) (pd_warmTTLSeconds d) codex claude openAICompatible in
    if decide (pd_kind d = "codex") then build (withModel model (pd_codex d)) (pd_claude d) (pd_openAICompatible d)
    else if decide (pd_kind d = "claude") then build (pd_codex d) (withModel model (pd_claude d)) (pd_openAICompatible d)
    else if decide (pd_kind d = "openai-compatible") then build (pd_codex d) (pd_claude d) (withModel model (pd_openAICompatible d))
    else d.

Definition updateDraft (f : AgentProviderDraft -> AgentProviderDraft) : SettingsState -> SettingsState :=
  on_selection (fun l => mkSelectionState (sl_catalog l) (sl_selectedProviderID l) (f <$> sl_draft l)).

Definition setModels (available : list string) (error : option string) : SettingsState -> SettingsState :=
  on_models (fun m => mkModels available (mo_isLoading m) error).
Definition setLoadingModels (b : bool) : SettingsState -> SettingsState :=
  on_models (fun m => mkModels (mo_available m) b (mo_errorMessage m)).
Definition setModelError (error : option string) : SettingsState -> SettingsState :=
  on_models (fun m => mkModels (mo_available m) (mo_isLoading m) error).
Definition setAvailableModels (available : list string) : SettingsState -> SettingsState :=
  on_models (fun m => mkModels available (mo_isLoading m) (mo_errorMessage m)).

Definition refreshAvailableModels (shown : SettingsState) (draftOverride : option AgentProviderDraft) : Settings unit :=
  let nextDraft := match draftOverride with Some d => Some d | None => sl_draft (st_selection shown) end in
  let currentModel := getDraftModelValue nextDraft in
  let onlyCurrent := if truthy currentModel then [currentModel] else [] in
  match nextDraft with
  | None => update (fun s => setLoadingModels false (setModels onlyCurrent None s))
  | Some draft =>
      update (fun s => setModelError None (setLoadingModels true s)) ;;;
      finally
        (tryCatch
           (models <- await (DiscoverRequest (discoverPayload draft)) ;;
            let nextModels := uniqueModels (models ++ [currentModel]) in
            update (setAvailableModels nextModels) ;;;
            match nextModels with
            | first :: _ => if truthy currentModel then Ret tt else update (updateDraft (setDraftModel (pd_kind draft) first))
            | [] => Ret tt
            end)
           (fun error => update (setModels onlyCurrent (Some (settingsError error)))))
        (update (setLoadingModels false))
  end.

(** What the effect does when there is no draft. *)
Definition clearModels : SettingsState -> SettingsState := on_models (fun _ => mkModels [] false None).

(** ** Callbacks *)

Definition clearMessages (s : SettingsState) : SettingsState :=
  setProbeErrorMessage None (setStatusMessage None (setErrorMessage None s)).
Definition startSaving (s : SettingsState) : SettingsState :=
  setStatusMessage None (setErrorMessage None (setSaving true s)).
Definition saving (body : Settings unit) : Settings unit :=
  update startSaving ;;;
  finally (tryCatch body (fun error => update (setErrorMessage (Some (settingsError error))))) (update (setSaving false)).

Definition selectProvider (providerID : string) : Settings unit :=
  s <- get ;;
  match sl_catalog (st_selection s) ≫= fun catalog => findProvider catalog providerID with
  | None => Ret tt
  | Some provider =>
      update (fun s => clearMessages (on_selection (fun l =>
        mkSelectionState (sl_catalog l) (Some (pv_id provider)) (Some (createProviderDraftFromView provider))) s))
  end.

Definition startCreateProvider (kind : string) : Settings unit :=
  update (fun s => clearMessages (on_selection (fun l =>
    mkSelectionState (sl_catalog l) None (Some (createEmptyProviderDraft kind))) s)).

Definition resetDraft : Settings unit :=
  s <- get ;;
  match sl_draft (st_selection s) with
  | None => Ret tt
  | Some draft =>
      if decide (pd_mode draft = DraftNew) then
        update (fun s => clearMessages (setDraft (Some (createEmptyProviderDraft (pd_kind draft))) s))
      else
        match sl_catalog (st_selection s) ≫= (fun catalog => pd_id draft ≫= findProvider catalog) with
        | None => Ret tt
        | Some provider => update (fun s => clearMessages (setDraft (Some (createProviderDraftFromView provider)) s))
        end
  end.

Definition saveDraft : Settings unit :=
  shown <- get ;;
  match sl_draft (st_selection shown) with
  | None => Ret tt
  | Some draft =>
      saving
        (if decide (pd_mode draft = DraftNew) then
           payload <- orThrow (buildCreateProviderPayload draft) ;;
           response <- await (CreateProviderRequest payload) ;;
           selectProviderFromCatalog (pm_providers response) (Some (pv_id (pm_provider response))) ;;;
           reloadGateway ;;;
           update (setStatusMessage (Some ("Created " +:+
             nameOr (pv_display_name (pm_provider response)) (pv_kind (pm_provider response)) +:+ " provider.")))
         else
           payload <- orThrow (buildUpdateProviderPayload draft) ;;
           response <- await (UpdateProviderRequest (pd_id draft ?? "") payload) ;;
           selectProviderFromCatalog (pm_providers response) (Some (pv_id (pm_provider response))) ;;;
           reloadGateway ;;;
           reloadHistory shown ;;;
           update (setStatusMessage (Some ("Saved " +:+
             nameOr (pv_display_name (pm_provider response)) (pv_kind (pm_provider response)) +:+ " provider."))))
  end.

(** The guard of the callbacks on the selected provider. *)
Definition withSelected (body : SettingsState -> string -> Settings unit) : Settings unit :=
  shown <- get ;;
  match truthyOpt (sl_selectedProviderID (st_selection shown)) with
  | None => Ret tt
  | Some id => body shown id
  end.

Definition activateSelectedProvider : Settings unit :=
  withSelected (fun shown id => saving
    (nextCatalog <- await (SetActiveRequest id) ;;
     selectProviderFromCatalog nextCatalog (Some id) ;;;
     reloadGateway ;;;
     reloadHistory shown ;;;
     let provider := findProvider nextCatalog id in
     update (setStatusMessage (Some ("Activated " +:+
       (truthyOpt (pv_display_name <$> provider) ?? (truthyOpt (pv_kind <$> provider) ?? "provider")) +:+ "."))))).

Definition removeSelectedProvider : Settings unit :=
  shown <- get ;;
  match sl_draft (st_selection shown) with
  | None => Ret tt
  | Some draft =>
      match (if decide (pd_mode draft = DraftExisting) then truthyOpt (pd_id draft) else None) with
      | None => Ret tt
      | Some id => saving
          (nextCatalog <- await (DeleteRequest id) ;;
           let nextProvider := getPreferredProvider nextCatalog None in
           selectProviderFromCatalog nextCatalog (pv_id <$> nextProvider) ;;;
           reloadGateway ;;;
           update (setStatusMessage (Some ("Deleted " +:+ nameOr (pd_displayName draft) (pd_kind draft) +:+ " provider."))))
      end
  end.

Definition updateProviderChatModels (provider : AgentProviderView) (chatModels : list string) : Settings unit :=
  shown <- get ;;
  saving
    (payload <- orThrow (buildChatModelsUpdatePayload provider (uniqueModels chatModels)) ;;
     response <- await (UpdateProviderRequest (pv_id provider) payload) ;;
     selectProviderFromCatalog (pm_providers response) (Some (pv_id (pm_provider response))) ;;;
     reloadGateway ;;;
     reloadHistory shown ;;;
     update (setStatusMessage (Some ("Updated chat model availability for " +:+
       nameOr (pv_display_name (pm_provider response)) (pv_kind (pm_provider response)) +:+ ".")))).

(** The three actions on the route of the selected provider: what they set
    while they run, what they ask and what they say when it went well. *)
Definition routeAction {A : Set} (busy : bool -> SettingsState -> SettingsState)
    (request : string -> ProviderSettingsRequest A) (status : A -> string) : Settings unit :=
  withSelected (fun shown id =>
    update (fun s => setProbeErrorMessage None (busy true s)) ;;;
    finally
      (tryCatch
         (result <- await (request id) ;;
          reloadGateway ;;;
          reloadHistory shown ;;;
          update (setStatusMessage (Some (status result))))
         (fun error => update (setProbeErrorMessage (Some (settingsError error)))))
      (update (busy false))).

Definition probeSelectedProvider : Settings unit :=
  routeAction setProbing ProbeRequest
    (fun result => "Probed " +:+ nameOr (pb_display_name result) (pb_provider_kind result) +:+ " provider.").
Definition prewarmSelectedProvider : Settings unit :=
  routeAction setPreparing PrewarmRequest
    (fun result => "Prepared " +:+ nameOr (pw_display_name result) (pw_provider_kind result) +:+ " route.").
Definition clearSelectedProviderRouteState : Settings unit :=
  routeAction setPreparing ClearRouteRequest (fun _ => "Cleared stored route state for the selected provider.").

Definition loadMoreHistory : Settings unit :=
  s <- get ;;
  let h := st_history s in
  if negb (hi_hasMore h) || hi_isLoading h then Ret tt
  else update (setHistoryOffset (fun currentOffset => currentOffset + hi_limit h)).

(** ** Everything that happens *)

(** The callbacks, the form's changes of the draft and of the filters, and the
    effects and timers of the hook. *)
Inductive SettingsCall :=
  | ReloadCatalog (preferredProviderID : option string)
  | SelectProvider (providerID : string)
  | StartCreateProvider (kind : string)
  | ResetDraft
  | SaveDraft
  | ActivateSelected
  | RemoveSelected
  | UpdateChatModels (provider : AgentProviderView) (chatModels : list string)
  | ProbeSelected
  | PrewarmSelected
  | ClearSelectedRoute
  | LoadMoreHistory
  | RefreshModels (draftOverride : option AgentProviderDraft)
  | EditDraft (f : AgentProviderDraft -> AgentProviderDraft)
  | SetHistoryFilters (query : string) (status : ProviderHistoryStatusFilter) (scope : ProviderHistoryScopeFilter) (limit : Z)
  | ResetHistoryOffset
  | HistoryTimer
  | ModelsTimer.

Definition settingsProg (c : SettingsCall) : Settings unit :=
  match c with
  | ReloadCatalog preferredProviderID => reloadCatalog preferredProviderID
  | SelectProvider providerID => selectProvider providerID
  | StartCreateProvider kind => startCreateProvider kind
  | ResetDraft => resetDraft
  | SaveDraft => saveDraft
  | ActivateSelected => activateSelectedProvider
  | RemoveSelected => removeSelectedProvider
  | UpdateChatModels provider chatModels => updateProviderChatModels provider chatModels
  | ProbeSelected => probeSelectedProvider
  | PrewarmSelected => prewarmSelectedProvider
  | ClearSelectedRoute => clearSelectedProviderRouteState
  | LoadMoreHistory => loadMoreHistory
  | RefreshModels draftOverride => shown <- get ;; refreshAvailableModels shown draftOverride
  | EditDraft f => update (updateDraft f)
  | SetHistoryFilters query status scope limit => update (setHistoryFilters query status scope limit)
  | ResetHistoryOffset => update (setHistoryOffset (fun _ => 0))
  | HistoryTimer => shown <- get ;; reloadHistory shown
  | ModelsTimer =>
      shown <- get ;;
      match sl_draft (st_selection shown) with
      | None => update clearModels
      | Some draft => refreshAvailableModels shown (Some draft)
      end
  end.

(** The fields of the form leave the draft's provider and kind alone. *)
Definition form_edit (c : SettingsCall) : Prop :=
  match c with
  | EditDraft f => forall d, pd_mode (f d) = pd_mode d /\ pd_id (f d) = pd_id d /\ pd_kind (f d) = pd_kind d
  | _ => True
  end.

Definition settings_step : System SettingsState ProviderSettingsRequest -> _ -> Prop :=
  sys_step (fun p => exists c, form_edit c /\ p = settingsProg c) (fun _ _ _ _ => True) (fun _ _ => False).


(** * Lemmas *)

Lemma findProvider_id c id p : findProvider c id = Some p -> pv_id p = id.
Proof. unfold findProvider. intros [_ H]%find_Some. by apply bool_decide_eq_true in H. Qed.

Lemma preferred_found c preferred p :
  getPreferredProvider c preferred = Some p -> findProvider c (pv_id p) = Some p.
Proof.
  unfold getPreferredProvider.
  destruct (truthyOpt preferred ≫= findProvider c) as [q|] eqn:E1.
  { intros [= <-]. apply bind_Some in E1 as (id & _ & E1). by rewrite (findProvider_id c id q E1). }
  destruct (findProvider c (pc_active_provider_id c)) as [q|] eqn:E2.
  { intros [= <-]. by rewrite (findProvider_id c _ q E2). }
  unfold findProvider. destruct (pc_providers c) as [|q l]; [done|]. cbn [head]. intros [= ->]. cbn.
  by rewrite bool_decide_eq_true_2.
Qed.

(** ** The draft edits the selected provider *)

(** A draft of an existing provider is of the selected one; without a selected
    provider there is no draft or one of a new provider. *)
Definition coherent (s : SettingsState) : Prop :=
  let l := st_selection s in
  match sl_selectedProviderID l with
  | Some id => exists catalog provider draft,
      sl_catalog l = Some catalog /\ findProvider catalog id = Some provider /\ sl_draft l = Some draft /\
      pd_mode draft = DraftExisting /\ pd_id draft = Some id /\ pd_kind draft = pv_kind provider
  | None => forall draft, sl_draft l = Some draft -> pd_mode draft = DraftNew /\ pd_id draft = None
  end.

Lemma same_selection s s' : st_selection s' = st_selection s -> keeps coherent s s'.
Proof. unfold keeps, coherent. by intros ->. Qed.

Lemma edit_coherent f s :
  (forall d, pd_mode (f d) = pd_mode d /\ pd_id (f d) = pd_id d /\ pd_kind (f d) = pd_kind d) ->
  keeps coherent s (updateDraft f s).
Proof.
  intros Hf. unfold keeps, coherent, updateDraft, on_selection. cbn.
  destruct (sl_selectedProviderID (st_selection s)) as [id|].
  - intros (c & p & d & H1 & H2 & H3 & H4 & H5 & H6). exists c, p, (f d). destruct (Hf d) as (-> & -> & ->).
    by rewrite H3.
  - intros Hs d (d0 & Hd & ->)%fmap_Some. destruct (Hf d0) as (-> & -> & _). by apply Hs.
Qed.

Lemma setDraftModel_frame kind model d :
  pd_mode (setDraftModel kind model d) = pd_mode d /\ pd_id (setDraftModel kind model d) = pd_id d /\
  pd_kind (setDraftModel kind model d) = pd_kind d.
Proof. unfold setDraftModel. destruct (negb _); [done|]. repeat case_decide; done. Qed.

Lemma select_coherent c preferred s p :
  getPreferredProvider c preferred = p ->
  coherent (setProbeErrorMessage None (on_selection (fun _ =>
    mkSelectionState (Some c) (pv_id <$> p) (createProviderDraftFromView <$> p)) s)).
Proof.
  intros Hp. unfold coherent. destruct p as [p|]; cbn; [|done].
  exists c, p, (createProviderDraftFromView p). apply preferred_found in Hp. done.
Qed.

Notation anything := (fun (A : Set) (r : ProviderSettingsRequest A) => True).
Notation coherently := (stable (keeps coherent) anything).

Create HintDb settings.
#[local] Hint Resolve stable_ret stable_throw stable_get stable_bind stable_try stable_finally : settings.
#[local] Hint Extern 1 (stable _ _ (update _)) => (apply stable_update; intros ?; apply same_selection; reflexivity) : settings.
#[local] Hint Extern 1 (stable _ _ (await _)) => (apply stable_await; exact I) : settings.

Lemma selects_coherently c preferred : coherently (selectProviderFromCatalog c preferred).
Proof. apply stable_update. intros s _. by eapply select_coherent. Qed.
Lemma gateway_coherently : coherently reloadGateway.
Proof. unfold reloadGateway. auto 10 with settings. Qed.
Lemma history_coherently shown : coherently (reloadHistory shown).
Proof. unfold reloadHistory. destruct (negb _); [auto with settings|]. destruct (_ && _); auto 20 with settings. Qed.
Lemma saving_coherently body : coherently body -> coherently (saving body).
Proof. unfold saving. intros. auto 10 with settings. Qed.
Lemma orThrow_coherently {A} (r : Checked A) : coherently (orThrow r).
Proof. destruct r; cbn; auto with settings. Qed.
#[local] Hint Resolve selects_coherently gateway_coherently history_coherently saving_coherently orThrow_coherently : settings.

Lemma models_coherently shown draftOverride : coherently (refreshAvailableModels shown draftOverride).
Proof.
  unfold refreshAvailableModels. destruct (match draftOverride with Some d => _ | None => _ end) as [d|];
    [|auto with settings].
  cbv zeta. apply stable_bind; [auto with settings|]. intros _. apply stable_finally; [|auto with settings].
  apply stable_try; [|auto with settings]. apply stable_bind; [auto with settings|]. intros models.
  apply stable_bind; [auto with settings|]. intros _.
  destruct (uniqueModels _) as [|first l]; [auto with settings|]. destruct (truthy _); [auto with settings|].
  apply stable_update. intros s. apply edit_coherent. intros d'. apply setDraftModel_frame.
Qed.
Lemma route_coherently {A : Set} busy (request : string -> ProviderSettingsRequest A) status :
  (forall b s, st_selection (busy b s) = st_selection s) -> coherently (routeAction busy request status).
Proof.
  intros Hbusy. unfold routeAction, withSelected. apply stable_bind; [auto with settings|]. intros shown.
  destruct (truthyOpt _) as [id|]; [|auto with settings]. apply stable_bind.
  - apply stable_update. intros s. apply same_selection. cbn. apply Hbusy.
  - intros _. apply stable_finally; [auto 10 with settings|]. apply stable_update. intros s. apply same_selection, Hbusy.
Qed.

Lemma reset_coherently : coherently resetDraft.
Proof.
  intros s0 s Hs. unfold resetDraft, get. cbn [bind wp].
  destruct (sl_draft (st_selection s)) as [d|] eqn:Ed; [|exact Hs].
  destruct (decide (pd_mode d = DraftNew)) as [Hnew|Hold].
  - cbn. intros H0. specialize (Hs H0). unfold coherent in *. cbn.
    destruct (sl_selectedProviderID (st_selection s)) as [id|].
    + destruct Hs as (c & p & d' & _ & _ & Hd & Hm & _). congruence.
    + by intros d' [= <-].
  - destruct (sl_catalog (st_selection s) ≫= _) as [p|] eqn:Ep; [|exact Hs]. cbn. intros H0. specialize (Hs H0).
    unfold coherent in *. cbn. destruct (sl_selectedProviderID (st_selection s)) as [id|].
    + destruct Hs as (c & q & d' & Hc & Hq & Hd & Hm & Hi & Hk). exists c, p, (createProviderDraftFromView p).
      rewrite Ed in Hd. injection Hd as <-. rewrite Hc in Ep. cbn in Ep. rewrite Hi in Ep. cbn in Ep.
      pose proof (findProvider_id _ _ _ Ep) as <-. by rewrite Hc.
    + destruct (Hs d Ed) as [Hm _]. congruence.
Qed.

Lemma settings_coherently c : form_edit c -> coherently (settingsProg c).
Proof.
  intros Hc. destruct c; cbn [settingsProg]; auto with settings.
  - unfold reloadCatalog. auto 10 with settings.
  - intros s0 s Hs. unfold selectProvider, get. cbn [bind wp].
    destruct (sl_catalog (st_selection s)) as [c|] eqn:Ec; [|exact Hs]. cbn [mbind option_bind].
    destruct (findProvider c providerID) as [p|] eqn:Ep; [|exact Hs]. cbn. intros _. unfold coherent. cbn.
    exists c, p, (createProviderDraftFromView p). pose proof (findProvider_id _ _ _ Ep) as <-. by rewrite Ec.
  - intros s0 s Hs. cbn. intros _ d [= <-]. done.
  - apply reset_coherently.
  - unfold saveDraft. apply stable_bind; [auto with settings|]. intros shown. destruct (sl_draft _) as [d|]; [|auto with settings].
    destruct (decide _); auto 20 with settings.
  - unfold activateSelectedProvider, withSelected. apply stable_bind; [auto with settings|]. intros shown.
    destruct (truthyOpt _); auto 20 with settings.
  - unfold removeSelectedProvider. apply stable_bind; [auto with settings|]. intros shown. destruct (sl_draft _) as [d|]; [|auto with settings].
    destruct (if decide (pd_mode d = DraftExisting) then truthyOpt (pd_id d) else None); auto 20 with settings.
  - unfold updateProviderChatModels. auto 20 with settings.
  - by apply route_coherently.
  - by apply route_coherently.
  - by apply route_coherently.
  - unfold loadMoreHistory. apply stable_bind; [auto with settings|]. intros shown.
    destruct (_ || _); auto 20 with settings.
  - apply stable_bind; [auto with settings|]. intros shown. apply models_coherently.
  - apply stable_update. intros s. by apply edit_coherent.
  - apply stable_bind; [auto with settings|]. intros shown. destruct (sl_draft _); [apply models_coherently|auto with settings].
Qed.

(** What the request of a callback concerns: the selected provider, with the
    settings of its kind only, or a new one when none is selected. *)
Definition onlyKind (kind : string) (payload : UpdateAgentProviderPayload) : Prop :=
  (is_Some (un_codex payload) -> kind = "codex") /\ (is_Some (un_claude payload) -> kind = "claude") /\
  (is_Some (un_openai_compatible payload) -> kind = "openai-compatible").
Definition concernsSelected (s : SettingsState) (A : Set) (request : ProviderSettingsRequest A) : Prop :=
  let l := st_selection s in
  match request with
  | UpdateProviderRequest id payload => exists catalog provider,
      sl_selectedProviderID l = Some id /\ sl_catalog l = Some catalog /\ findProvider catalog id = Some provider /\
      onlyKind (pv_kind provider) payload
  | DeleteRequest id => sl_selectedProviderID l = Some id
  | CreateProviderRequest payload =>
      sl_selectedProviderID l = None /\ onlyKind (en_kind payload) (en_settings payload)
  | _ => False
  end.

Lemma withKind_only draft name enabled access policy payload :
  withKind draft (mkUpdateProvider name enabled access policy) = inl payload -> onlyKind (pd_kind draft) payload.
Proof.
  unfold withKind. intros H.
  repeat case_decide; try discriminate; destruct (kindInput _ _ _); cbn in H; try discriminate; injection H as <-;
    unfold onlyKind; cbn; (split; [|split]); try done; by intros [].
Qed.

Lemma save_concerns s :
  coherent s ->
  match snd (run saveDraft s) with
  | @Waiting _ _ _ _ A request _ => concernsSelected s A request
  | Ended _ => True
  end.
Proof.
  intros Hs. unfold saveDraft, get. cbn [bind run]. destruct (sl_draft (st_selection s)) as [d|] eqn:Ed; [|exact I].
  unfold saving, update. cbn [bind run]. unfold coherent in Hs. rewrite Ed in Hs. destruct (decide _) as [Hnew|Hold].
  - destruct (buildCreateProviderPayload d) as [payload|message] eqn:Ep; [|exact I]. cbn.
    destruct (sl_selectedProviderID (st_selection s)) as [id|].
    { destruct Hs as (c & p & d' & _ & _ & [= <-] & Hm & _). congruence. }
    split; [done|]. unfold buildCreateProviderPayload in Ep.
    destruct (draftPayload d) as [u|] eqn:Eu; [|done]. injection Ep as <-. cbn. by eapply withKind_only.
  - destruct (buildUpdateProviderPayload d) as [payload|message] eqn:Ep; [|exact I]. cbn.
    destruct (sl_selectedProviderID (st_selection s)) as [id|]; [|by destruct (Hs d eq_refl)].
    destruct Hs as (c & p & d' & Hc & Hp & [= <-] & Hm & Hi & Hk). exists c, p. rewrite Hi. split; [done|].
    split; [done|]. split; [done|]. rewrite <- Hk. unfold buildUpdateProviderPayload in Ep.
    destruct (truthyOpt (pd_id d)); [|done]. by eapply withKind_only.
Qed.

Lemma remove_concerns s :
  coherent s ->
  match snd (run removeSelectedProvider s) with
  | @Waiting _ _ _ _ A request _ => concernsSelected s A request
  | Ended _ => True
  end.
Proof.
  intros Hs. unfold removeSelectedProvider, get. cbn [bind run].
  destruct (sl_draft (st_selection s)) as [d|] eqn:Ed; [|exact I]. unfold coherent in Hs. rewrite Ed in Hs.
  destruct (decide _) as [Hold|]; [|exact I]. destruct (truthyOpt (pd_id d)) as [id|] eqn:Ei; [|exact I]. cbn.
  destruct (sl_selectedProviderID (st_selection s)) as [id'|].
  - destruct Hs as (c & p & d' & _ & _ & [= <-] & _ & Hi & _). apply truthyOpt_Some in Ei as [Ei _]. congruence.
  - destruct (Hs d eq_refl). congruence.
Qed.

(** C18: In every interleaving of the callbacks, the form's changes, the timers and
    the answers, a draft of an existing provider has the id and the kind of
    the selected provider of the catalog, and the draft of a new one is there
    only when none is selected; so a save updates the selected provider, with
    the settings of its kind only, or creates one when none is selected, and a
    removal deletes the selected one. *)
Theorem settings_edit_selected m :
  rtc settings_step (mkSystem initialSettings []) m ->
  coherent (sys_state m) /\
  forall callback, callback = saveDraft \/ callback = removeSelectedProvider ->
    match snd (run callback (sys_state m)) with
    | @Waiting _ _ _ _ A request _ => concernsSelected (sys_state m) A request
    | Ended _ => True
    end.
Proof.
  intros Hr. assert (coherent (sys_state m)) as Hs.
  { eapply (system_invariant coherent); [| | |exact Hr]; [|by intros|by intros d].
    intros p (c & Hc & ->). by apply settings_coherently. }
  split; [done|]. intros callback [-> | ->]; [by apply save_concerns|by apply remove_concerns].
Qed.

Definition sampleProvider (id kind : string) : AgentProviderView :=
  let actor := mkActor "me" None in
  mkProviderView id kind "Mine" true true (mkAccess "me" None None) actor actor (mkRoutePolicy None None)
    None None None "" "".
Definition sampleCatalog : AgentProviderCatalog :=
  mkProviderCatalog (mkActor "me" None) [sampleProvider "p1" "codex"; sampleProvider "p2" "claude"] "p2" [].

Lemma settings_edit_selected_witness :
  exists m : System SettingsState ProviderSettingsRequest,
    rtc settings_step (mkSystem initialSettings []) m /\ coherent (sys_state m) /\
    sl_selectedProviderID (st_selection (sys_state m)) = Some "p2" /\
    match snd (run saveDraft (sys_state m)) with
    | @Waiting _ _ _ _ A request _ => concernsSelected (sys_state m) A request
    | Ended _ => False
    end.
Proof.
  pose (m1 := proceed (settingsProg (ReloadCatalog None)) (mkSystem initialSettings [])).
  assert (exists m2, settings_step m1 m2 /\ sl_selectedProviderID (st_selection (sys_state m2)) = Some "p2" /\
    exists (A : Set) (r : ProviderSettingsRequest A) k, snd (run saveDraft (sys_state m2)) = Waiting r k)
    as (m2 & H2 & Hid & A & r & k & Hsave).
  { eexists. split; [|split].
    - eapply (sys_answer _ _ _ m1 0%nat AgentProviderCatalog FetchCatalog _ (inl sampleCatalog)); [reflexivity|exact I].
    - reflexivity.
    - eexists _, _, _. reflexivity. }
  assert (rtc settings_step (mkSystem initialSettings []) m2) as Hr.
  { eapply rtc_l; [|by apply rtc_once]. apply sys_start. by exists (ReloadCatalog None). }
  exists m2. split; [exact Hr|]. destruct (settings_edit_selected m2 Hr) as [Hs Hc]. split; [exact Hs|].
  split; [exact Hid|]. specialize (Hc saveDraft (or_introl eq_refl)). rewrite Hsave in *. exact Hc.
Defined.

(** ** Every callback ends *)

(** Nothing of what the callback started is shown as running. *)
Definition restsAfter (c : SettingsCall) (s : SettingsState) : Prop :=
  match c with
  | ReloadCatalog _ => bz_isLoading (st_busy s) = false
  | SaveDraft | ActivateSelected | RemoveSelected | UpdateChatModels _ _ => bz_isSaving (st_busy s) = false
  | ProbeSelected => bz_isProbing (st_busy s) = false
  | PrewarmSelected | ClearSelectedRoute => bz_isPreparing (st_busy s) = false
  | RefreshModels _ | ModelsTimer => mo_isLoading (st_models s) = false
  | HistoryTimer => hi_isLoading (st_history s) = false
  | _ => True
  end.

(** A call that ends with [f] ends in a state that [f] made. *)
Lemma served_finally (p : Settings unit) f s (Q : SettingsState -> Prop) :
  (forall s, Q (f s)) -> served_with (finally p (update f)) s Q.
Proof.
  intros Hf. unfold served_with. apply wp_finally. eapply wp_weaken; [|apply wp_any].
  intros r a b _. cbn. by destruct r.
Qed.
Lemma served_update (p : Settings unit) f s Q :
  served_with p (f s) Q -> served_with (update f ;;; p) s Q.
Proof. done. Qed.
Lemma served_saving body s : served_with (saving body) s (fun s => bz_isSaving (st_busy s) = false).
Proof. apply served_update, served_finally. done. Qed.

Lemma gateway_within : within 1 reloadGateway.
Proof. unfold reloadGateway. apply (within_try 1 0); [within_tac|intros; within_tac]. Qed.
Lemma history_within shown : within 1 (reloadHistory shown).
Proof.
  unfold reloadHistory. cbv zeta. destruct (negb _); [exact I|]. destruct (_ && _); [exact I|].
  apply (within_bind 0); [exact I|intros _]. apply (within_finally 1 0); [|exact I].
  apply (within_try 1 0); [within_tac|intros; within_tac].
Qed.
Lemma select_within c preferred : within 0 (selectProviderFromCatalog c preferred).
Proof. exact I. Qed.
Lemma orThrow_within {A} (r : Checked A) : within 0 (orThrow r).
Proof. by destruct r. Qed.
Lemma saving_within n body : within n body -> within n (saving body).
Proof.
  intros H. unfold saving. apply (within_bind 0); [exact I|intros _].
  apply (within_le (n + 0 + 0)); [lia|]. apply within_finally; [|exact I]. by apply within_try.
Qed.

Lemma refresh_within shown draftOverride : within 1 (refreshAvailableModels shown draftOverride).
Proof.
  unfold refreshAvailableModels. destruct (match draftOverride with Some d => _ | None => _ end) as [d|]; [|exact I].
  cbv zeta. apply (within_bind 0); [exact I|intros _]. apply (within_finally 1 0); [|exact I].
  apply (within_try 1 0); [|intros; exact I]. within_tac.
Qed.

(** The bound of a call, with those of the calls in it. *)
Ltac settings_step_within :=
  lazymatch goal with
  | |- within _ (bind (orThrow _) _) => apply (within_bind 0); [apply orThrow_within|intros ?]
  | |- within _ (bind (selectProviderFromCatalog _ _) _) => apply (within_bind 0); [exact I|intros _]
  | |- within _ (bind reloadGateway _) => apply (within_bind 1); [apply gateway_within|intros _]
  | |- within _ (bind (reloadHistory _) _) => apply (within_bind 1); [apply history_within|intros _]
  | |- within _ reloadGateway => apply (within_le 1); [lia|apply gateway_within]
  | |- within _ (reloadHistory _) => apply (within_le 1); [lia|apply history_within]
  | |- within _ (refreshAvailableModels _ _) => apply (within_le 1); [lia|apply refresh_within]
  | |- within _ (saving _) => apply saving_within
  | |- _ => within_step
  end.
Ltac settings_within := repeat settings_step_within.

Lemma route_within {A : Set} busy (request : string -> ProviderSettingsRequest A) status :
  within 3 (routeAction busy request status).
Proof.
  unfold routeAction, withSelected. apply (within_bind 0); [by intros ?|intros shown].
  destruct (truthyOpt _) as [id|]; [|exact I]. apply (within_bind 0); [exact I|intros _].
  apply (within_finally 3 0); [|exact I]. apply (within_try 3 0); [settings_within|intros; exact I].
Qed.
Lemma refresh_served shown draftOverride s :
  served_with (refreshAvailableModels shown draftOverride) s (fun s => mo_isLoading (st_models s) = false).
Proof.
  unfold refreshAvailableModels. destruct (match draftOverride with Some d => _ | None => _ end) as [d|]; [|done].
  by apply served_update, served_finally.
Qed.
Lemma route_served {A : Set} busy (request : string -> ProviderSettingsRequest A) status s Q :
  (forall s, Q (busy false s)) -> served_with (routeAction busy request status) s Q.
Proof.
  intros HQ. unfold routeAction, withSelected, get. unfold served_with. cbn [bind wp].
  destruct (truthyOpt _) as [id|]; [|done]. by apply (served_update _ _ _ Q), served_finally.
Qed.

(** Every callback, effect and timer of the hook ends after at most three
    answers, whatever they are and whatever else happens in between; when it
    has sent a request, nothing that it started is shown as running at its
    end, be it a failure or not. *)
Theorem settings_calls_end c :
  within 3 (settingsProg c) /\ forall s, served_with (settingsProg c) s (restsAfter c).
Proof.
  split.
  - destruct c; cbn [settingsProg]; try exact I; try apply route_within.
    + unfold reloadCatalog. apply (within_bind 0); [exact I|intros _]. apply (within_finally 3 0); [|exact I].
      apply (within_try 3 0); [|intros; exact I]. settings_within.
    + unfold selectProvider. settings_within.
    + unfold resetDraft. settings_within.
    + unfold saveDraft. settings_within.
    + unfold activateSelectedProvider, withSelected. settings_within.
    + unfold removeSelectedProvider. settings_within.
    + unfold updateProviderChatModels. settings_within.
    + unfold loadMoreHistory. settings_within.
    + settings_within.
    + settings_within.
    + settings_within.
  - intros s. destruct c; cbn [settingsProg restsAfter]; try (eapply wp_weaken; [|apply wp_any]; by intros).
    + by apply served_update, served_finally.
    + unfold saveDraft, get, served_with. cbn [bind wp]. destruct (sl_draft _); [apply served_saving|done].
    + unfold activateSelectedProvider, withSelected, get, served_with. cbn [bind wp].
      destruct (truthyOpt _); [apply served_saving|done].
    + unfold removeSelectedProvider, get, served_with. cbn [bind wp]. destruct (sl_draft _) as [d|]; [|done].
      destruct (if decide (pd_mode d = DraftExisting) then truthyOpt (pd_id d) else None); [apply served_saving|done].
    + unfold updateProviderChatModels, get, served_with. cbn [bind wp]. apply served_saving.
    + by apply route_served.
    + by apply route_served.
    + by apply route_served.
    + unfold served_with, get. cbn [bind wp]. apply refresh_served.
    + unfold served_with, get, reloadHistory. cbn [bind wp]. cbv zeta. destruct (negb _); [done|]. destruct (_ && _); [done|].
      by apply (served_update _ _ _ (fun s => hi_isLoading (st_history s) = false)), served_finally.
    + unfold served_with, get. cbn [bind wp]. destruct (sl_draft _); [apply refresh_served|done].
Qed.

(** ** What a late answer changes *)

(** A run of the system: calls start, and the awaits in flight are answered. *)
Definition answerFirst (a : forall A : Set, ProviderSettingsRequest A -> A + JsError)
    (m : System SettingsState ProviderSettingsRequest) : System SettingsState ProviderSettingsRequest :=
  match sys_calls m with
  | @Waiting _ _ _ _ A r k :: calls => proceed (k (a A r)) (mkSystem (sys_state m) calls)
  | _ => m
  end.
Definition sampleAnswer (A : Set) (r : ProviderSettingsRequest A) : A + JsError :=
  match r with
  | FetchCatalog => inl sampleCatalog
  | DiscoverRequest _ => inl ["found"]
  | UpdateProviderRequest _ _ => inl (mkProviderMutation (sampleProvider "p2" "claude") sampleCatalog)
  | FetchGatewaySnapshot _ =>
      inl (mkGateway "" [] [mkGatewayRun "r" "p2" "claude" "" None None "" None None "succeeded" None None true None None
        true None None None None 0 0 "" ""] 41 20 20 true)
  | _ => inr None
  end.
Definition startCall (c : SettingsCall) (m : System SettingsState ProviderSettingsRequest) :=
  proceed (settingsProg c) m.
Definition loadedSettings : System SettingsState ProviderSettingsRequest :=
  answerFirst sampleAnswer (answerFirst sampleAnswer (startCall (ReloadCatalog None) (mkSystem initialSettings []))).
Definition typed (name model : string) (d : AgentProviderDraft) : AgentProviderDraft :=
  mkDraft (pd_mode d) (pd_id d) (pd_kind d) name (pd_enabled d) (pd_ownerUsername d) (pd_visibility d)
    (pd_allowedUsers d) (pd_prewarmPolicy d) (pd_warmTTLSeconds d) (pd_codex d) (withModel model (pd_claude d))
    (pd_openAICompatible d).

(* The models found for a draft without one go to the draft that is open by
   then, although its model is another: the guard compares kinds only. *)
Example found_model_replaces_another :
  let asked := startCall (RefreshModels None) (startCall (EditDraft (typed "" "")) loadedSettings) in
  let other := startCall (EditDraft (typed "Other" "opus")) (startCall (StartCreateProvider "claude") asked) in
  getDraftModelValue (sl_draft (st_selection (sys_state other))) = "opus" /\
  getDraftModelValue (sl_draft (st_selection (sys_state (answerFirst sampleAnswer other)))) = "found".
Proof. vm_compute. by split. Qed.

(* After a save the page of history that is shown is appended a second time,
   since every load at an offset appends. *)
Example save_repeats_history :
  let page := answerFirst sampleAnswer (startCall HistoryTimer (startCall LoadMoreHistory
    (answerFirst sampleAnswer (startCall HistoryTimer loadedSettings)))) in
  let saved := Nat.iter 3 (answerFirst sampleAnswer) (startCall SaveDraft page) in
  length (hi_runs (st_history (sys_state page))) = 2%nat /\ length (hi_runs (st_history (sys_state saved))) = 3%nat /\
  sys_calls saved = [].
Proof. vm_compute. by split. Qed.

(* What is typed while a save waits is lost: the answer replaces the draft. *)
Example save_drops_later_edit :
  let waiting := startCall (EditDraft (typed "Later" "opus")) (startCall SaveDraft loadedSettings) in
  pd_displayName <$> sl_draft (st_selection (sys_state waiting)) = Some "Later" /\
  pd_displayName <$> sl_draft (st_selection (sys_state (answerFirst sampleAnswer waiting))) = Some "Mine".
Proof. vm_compute. by split. Qed.
