(* ===== verification/PreviewTable.v ===== *)
(** * Tables of delimited files

    [frontend/src/widgets/preview/preview-table.ts]: the table that the preview
    widget shows of a CSV or TSV file.  The code reads one code unit at a time
    and its delimiters, quotes and line ends are ASCII, so that reading bytes of
    UTF-8 does the same. *)
From Stdlib Require Import Ascii String.
From stdpp Require Import strings.
From S2P Require Import Prelude JsString Text.
Local Open Scope string_scope.
Local Open Scope list_scope.
Local Open Scope nat_scope.
Local Open Scope js_scope.

Inductive DelimiterLabel := LabelCSV | LabelTSV.

Record PreviewTable := mkPreviewTable {
  pt_columns : list string;
  pt_delimiterLabel : DelimiterLabel;
  pt_rows : list (list string);
  pt_truncatedColumns : bool;
  pt_truncatedRows : bool
}.

Definition maxPreviewTableColumns : nat := 12.
Definition maxPreviewTableRows : nat := 50.

Definition tab : ascii := ascii_of_nat 9.
Definition newline : ascii := ascii_of_nat 10.
Definition carriageReturn : ascii := ascii_of_nat 13.

Definition getDelimitedPreviewConfig (path : string) : option (ascii * DelimiterLabel) :=
  let normalizedPath := lowerText path in
  if endsWith ".csv" normalizedPath then Some (","%char, LabelCSV)
  else if endsWith ".tsv" normalizedPath || endsWith ".tab" normalizedPath then Some (tab, LabelTSV)
  else None.

Definition push (cell : string) (a : ascii) : string := cell +:+ String a "".

(** The loop, from the rest [s] of the content. *)
Fixpoint parseLoop (delimiter : ascii) (s : string) (rows : list (list string)) (row : list string) (cell : string)
    (quoted : bool) : list (list string) * list string * string :=
  match s with
  | EmptyString => (rows, row, cell)
  | String char s1 =>
      if quoted then
        if decide (char = dquote) then
          match s1 with
          | String nextChar s2 =>
              if decide (nextChar = dquote) then parseLoop delimiter s2 rows row (push cell dquote) true
              else parseLoop delimiter s1 rows row cell false
          | EmptyString => parseLoop delimiter s1 rows row cell false
          end
        else parseLoop delimiter s1 rows row (push cell char) true
      else if decide (char = dquote) then parseLoop delimiter s1 rows row cell true
      else if decide (char = delimiter) then parseLoop delimiter s1 rows (row ++ [cell]) "" false
      else if decide (char = newline) then parseLoop delimiter s1 (rows ++ [row ++ [cell]]) [] "" false
      else if decide (char = carriageReturn) then parseLoop delimiter s1 rows row cell false
      else parseLoop delimiter s1 rows row (push cell char) false
  end.

Definition parseDelimitedRows (content : string) (delimiter : ascii) : list (list string) :=
  let '(rows, row, cell) := parseLoop delimiter content [] [] "" false in
  let row := row ++ [cell] in
  if some (fun value => truthy value) row || bool_decide (rows = []) then rows ++ [row] else rows.

Definition normalizeColumns (row : list string) : list string :=
  imap (fun index value =>
    let label := trimText value in
    if truthy label then label else "Column " +:+ showNat (index + 1)) row.

Definition createPreviewTable (path content : string) : option PreviewTable :=
  let trimmedContent := trimText content in
  match getDelimitedPreviewConfig path with
  | None => None
  | Some (delimiter, delimiterLabel) =>
      if negb (truthy trimmedContent) then None
      else
        match parseDelimitedRows trimmedContent delimiter with
        | [] => None
        | headerRow :: bodyRows =>
            if decide (headerRow = []) then None
            else
              let columns := normalizeColumns headerRow in
              let visibleColumns := take maxPreviewTableColumns columns in
              let visibleRows :=
                (fun row => imap (fun index _ => row !! index ?? "") visibleColumns) <$> take maxPreviewTableRows bodyRows in
              Some (mkPreviewTable visibleColumns delimiterLabel visibleRows
                (length visibleColumns <? length columns) (length visibleRows <? length bodyRows))
        end
  end.

(** ** A writer of tables *)

(** Every cell in quotes, with its quotes doubled. *)
Fixpoint escapeQuotes (cell : string) : string :=
  match cell with
  | EmptyString => ""
  | String a s => if decide (a = dquote) then String dquote (String dquote (escapeQuotes s)) else String a (escapeQuotes s)
  end.
Definition writeCell (cell : string) : string := String dquote (escapeQuotes cell +:+ String dquote "").
Definition writeRow (delimiter : ascii) (row : list string) : string := join (String delimiter "") (writeCell <$> row).
Definition writeTable (delimiter : ascii) (rows : list (list string)) : string :=
  join (String newline "") (writeRow delimiter <$> rows).

(** * Lemmas *)

Definition separates (delimiter : ascii) : Prop := delimiter <> dquote.

(** What follows a cell: nothing, or something that is not a quote. *)
Definition after_cell (s : string) : Prop := match s with EmptyString => True | String a _ => a <> dquote end.

Lemma push_append c a s : push c a +:+ s = c +:+ String a s.
Proof. unfold push. by rewrite append_assoc. Qed.

Lemma parse_escaped d cell : forall rest rows row acc,
  after_cell rest ->
  parseLoop d (escapeQuotes cell +:+ String dquote rest) rows row acc true =
  parseLoop d rest rows row (acc +:+ cell) false.
Proof.
  induction cell as [|a cell IH]; intros rest rows row acc Hrest.
  - rewrite append_nil_r. cbn [escapeQuotes String.append]. cbn [parseLoop].
    rewrite decide_True by done. destruct rest as [|b rest]; [done|]. by rewrite decide_False.
  - cbn [escapeQuotes]. destruct (decide (a = dquote)) as [->|Ha]; cbn [String.append]; cbn [parseLoop].
    + rewrite !decide_True by done. rewrite IH by done. by rewrite push_append.
    + rewrite decide_False by done. rewrite IH by done. by rewrite push_append.
Qed.

Lemma parse_cell d cell rest rows row :
  after_cell rest -> parseLoop d (writeCell cell +:+ rest) rows row "" false = parseLoop d rest rows row cell false.
Proof.
  intros Hrest. unfold writeCell. cbn [String.append]. cbn [parseLoop]. rewrite decide_True by done.
  rewrite append_assoc. cbn [String.append]. by rewrite parse_escaped.
Qed.

(** The rest behind a row: the end of the content, or a line end. *)
Definition after_row (s : string) : Prop := s = "" \/ exists t, s = String newline t.

Lemma after_row_cell s : after_row s -> after_cell s.
Proof. intros [->|[t ->]]; done. Qed.

Lemma parse_row d row : forall cells rest rows,
  separates d -> row <> [] -> after_row rest ->
  parseLoop d (writeRow d row +:+ rest) rows cells "" false =
  parseLoop d rest rows (cells ++ dropLast row) (lastOf row ?? "") false.
Proof.
  induction row as [|c row IH]; intros cells rest rows Hd Hne Hrest; [done|].
  destruct row as [|c' row].
  - unfold writeRow. cbn [fmap list_fmap join]. rewrite parse_cell by by apply after_row_cell.
    cbn. by rewrite app_nil_r.
  - change (writeRow d (c :: c' :: row)) with (writeCell c +:+ String d (writeRow d (c' :: row))).
    rewrite append_assoc. rewrite parse_cell by exact Hd. cbn [String.append]. cbn [parseLoop].
    rewrite decide_False by exact Hd. rewrite decide_True by done. rewrite IH by done.
    f_equal. rewrite <- app_assoc. f_equal. unfold dropLast. cbn [length]. cbn [Nat.sub take]. by rewrite Nat.sub_0_r.
Qed.

Lemma row_again row : row <> [] -> dropLast row ++ [lastOf row ?? ""] = row.
Proof.
  intros Hne. unfold dropLast, lastOf. destruct row as [|c row _] using rev_ind; [done|].
  rewrite last_snoc, length_app, Nat.add_sub, take_app_length. done.
Qed.

Lemma parse_table d table : forall rows,
  separates d -> d <> newline -> table <> [] -> Forall (fun row => row <> []) table ->
  exists before row, table = before ++ [row] /\
    parseLoop d (writeTable d table) rows [] "" false = (rows ++ before, dropLast row, lastOf row ?? "").
Proof.
  induction table as [|row table IH]; intros rows Hd Hn Hne Hrows; [done|].
  apply Forall_cons in Hrows as [Hrow Hrows]. destruct table as [|row' table].
  - exists [], row. split; [done|]. unfold writeTable. cbn [fmap list_fmap join].
    rewrite <- (append_nil_r (writeRow d row)). rewrite parse_row by (try done; by left). cbn. by rewrite app_nil_r.
  - destruct (IH (rows ++ [row]) Hd Hn ltac:(done) Hrows) as (before & last & Ht & Hp).
    exists (row :: before), last. rewrite Ht. split; [done|]. rewrite <- Ht.
    change (writeTable d (row :: row' :: table)) with (writeRow d row +:+ String newline (writeTable d (row' :: table))).
    rewrite parse_row by (try done; by right; eexists). cbn [parseLoop].
    rewrite !decide_False by done. rewrite decide_True by done. cbn [app]. rewrite row_again by done.
    rewrite Hp. by rewrite <- app_assoc.
Qed.

(** ** A written table is not trimmed *)

Fixpoint last_unit (s : string) : option ascii :=
  match s with
  | EmptyString => None
  | String a EmptyString => Some a
  | String _ s => last_unit s
  end.

Lemma last_unit_append s t : t <> "" -> last_unit (s +:+ t) = last_unit t.
Proof.
  intros Ht. induction s as [|a s IH]; [done|]. cbn [String.append last_unit].
  destruct (s +:+ t) eqn:E; [|exact IH]. destruct s; [|done]. cbn in E. congruence.
Qed.

Lemma spaces_last w : w ∈ spaces -> w <> "" /\ last_unit w <> Some dquote.
Proof.
  assert (Forall (fun w => w <> "" /\ last_unit w <> Some dquote) spaces) as H.
  { unfold spaces, ascii_spaces, wide_spaces. repeat constructor; by vm_compute. }
  intros Hw. by apply (proj1 (Forall_forall _ _) H).
Qed.

Lemma quoted_trimmed s t u : s = String dquote t -> s = u +:+ String dquote "" -> trimmedText s.
Proof.
  intros H1 H2. split; [by rewrite H1|]. apply trailing_space_none. intros w Hw.
  destruct (endsWith w s) eqn:E; [|done]. exfalso. apply endsWith_spec in E as [v E].
  destruct (spaces_last w Hw) as [Hne Hl]. apply Hl. rewrite <- (last_unit_append v) by done.
  rewrite <- E, H2. by apply last_unit_append.
Qed.

Definition quoted (s : string) : Prop :=
  (exists t, s = String dquote t) /\ (exists u, s = u +:+ String dquote "").

Lemma quoted_append s t : quoted s -> quoted t -> forall sep, quoted (s +:+ sep +:+ t).
Proof.
  intros [[x ->] _] [_ [y ->]] sep. split; [by eexists|]. exists (String dquote x +:+ sep +:+ y).
  by rewrite !append_assoc.
Qed.
Lemma quoted_join sep l : l <> [] -> Forall quoted l -> quoted (join sep l).
Proof.
  intros Hne Hl. induction Hl as [|s l Hs Hl IH]; [done|]. destruct l as [|t l]; [done|].
  apply quoted_append; [done|]. by apply IH.
Qed.
Lemma write_quoted d table : table <> [] -> Forall (fun row => row <> []) table -> quoted (writeTable d table).
Proof.
  intros Hne Hrows. apply quoted_join; [by destruct table|]. apply Forall_fmap. eapply Forall_impl; [exact Hrows|].
  intros row Hrow. apply quoted_join; [by destruct row|]. apply Forall_fmap, Forall_true. intros cell.
  split; [by eexists|]. by exists (String dquote (escapeQuotes cell)).
Qed.

(** ** The table of a written file *)

(** The rows below the header, without a blank one at the end. *)
Definition keptRows (body : list (list string)) : list (list string) :=
  match last body with
  | Some row => if some (fun value => truthy value) row then body else removelast body
  | None => body
  end.

Lemma read_table d header body :
  separates d -> d <> newline -> Forall (fun row => row <> []) (header :: body) ->
  parseDelimitedRows (writeTable d (header :: body)) d = header :: keptRows body.
Proof.
  intros Hd Hn Hrows. destruct (parse_table d (header :: body) [] Hd Hn ltac:(done) Hrows) as (before & row & E & Hp).
  unfold parseDelimitedRows. rewrite Hp. rewrite E in Hrows. apply Forall_app in Hrows as [_ [Hrow _]%Forall_cons].
  rewrite row_again by done. cbn [app]. destruct before as [|h before]; injection E as -> ->.
  - cbn. by rewrite orb_true_r.
  - rewrite (bool_decide_eq_false_2 (h :: before = [])), orb_false_r by done. unfold keptRows. rewrite last_snoc.
    destruct (some _ row); [done|]. by rewrite removelast_last.
Qed.

(** What is shown of a header and rows: at most twelve columns and fifty rows. *)
Definition tableOf (label : DelimiterLabel) (header : list string) (body : list (list string)) : PreviewTable :=
  mkPreviewTable (take 12 (normalizeColumns header)) label
    ((fun row => (fun i => row !! i ?? "") <$> seq 0 (Nat.min 12 (length header))) <$> take 50 body)
    (12 <? length header) (50 <? length body).

Lemma imap_seq {A B} (f : nat -> B) (l : list A) : imap (fun i _ => f i) l = f <$> seq 0 (length l).
Proof.
  revert f. induction l as [|x l IH]; intros f; [done|]. rewrite imap_cons. cbn [length seq fmap list_fmap].
  f_equal. unfold compose. rewrite (IH (fun i => f (S i))). rewrite <- (fmap_S_seq 0), <- list_fmap_compose. done.
Qed.

Lemma ltb_take {A} n (l : list A) : (length (take n l) <? length l) = (n <? length l).
Proof. rewrite length_take. destruct (n <? length l) eqn:E; [apply Nat.ltb_lt in E|apply Nat.ltb_ge in E];
  [apply Nat.ltb_lt|apply Nat.ltb_ge]; lia. Qed.

Lemma shown_table label header body :
  mkPreviewTable (take maxPreviewTableColumns (normalizeColumns header)) label
    ((fun row => imap (fun index _ => row !! index ?? "") (take maxPreviewTableColumns (normalizeColumns header)))
      <$> take maxPreviewTableRows body)
    (length (take maxPreviewTableColumns (normalizeColumns header)) <? length (normalizeColumns header))
    (length ((fun row => imap (fun index _ => row !! index ?? "") (take maxPreviewTableColumns (normalizeColumns header)))
      <$> take maxPreviewTableRows body) <? length body) = tableOf label header body.
Proof.
  assert (length (normalizeColumns header) = length header) as E by apply length_imap.
  unfold tableOf. rewrite length_fmap, !ltb_take, E. f_equal.
  apply list_fmap_ext. intros _ row _. by rewrite imap_seq, length_take, E.
Qed.

(** C22: A table that is written with every cell in quotes is shown as it is: the
    header's cells are the columns, trimmed, a blank one by its number; of the
    first fifty rows as many cells as there are columns are shown, up to twelve,
    whatever they hold (delimiters, quotes, line ends), with empty cells where a
    row is short, and longer or wider tables are marked as cut.  Only a last row
    below the header whose cells are all empty is not shown, as the end of the
    file. *)
Theorem written_table_shown path d label header body :
  getDelimitedPreviewConfig path = Some (d, label) ->
  header <> [] -> Forall (fun row => row <> []) body ->
  createPreviewTable path (writeTable d (header :: body)) = Some (tableOf label header (keptRows body)).
Proof.
  intros Hpath Hheader Hbody.
  assert (separates d /\ d <> newline) as [Hd Hn].
  { unfold getDelimitedPreviewConfig in Hpath. destruct (endsWith ".csv" _); [by injection Hpath as <- _|].
    destruct (_ || _); [by injection Hpath as <- _|done]. }
  assert (Forall (fun row => row <> []) (header :: body)) as Hrows by by constructor.
  destruct (write_quoted d (header :: body) ltac:(done) Hrows) as [[t Ht] [u Hu]].
  unfold createPreviewTable. rewrite trimText_id by by eapply quoted_trimmed. rewrite Hpath.
  rewrite read_table by done. rewrite Ht. cbn [negb truthy]. rewrite decide_False by done.
  by rewrite shown_table.
Qed.

Lemma written_table_shown_witness :
  let body := [["1,5"; "say " +:+ String dquote ("hi" +:+ String dquote "")]; [String newline "x"; "y"; "z"]] in
  getDelimitedPreviewConfig "/data/Report.CSV" = Some (","%char, LabelCSV) /\
  createPreviewTable "/data/Report.CSV" (writeTable "," ([" total "; ""] :: body ++ [[""; ""]])) =
    Some (mkPreviewTable ["total"; "Column 2"] LabelCSV
      [["1,5"; "say " +:+ String dquote ("hi" +:+ String dquote "")]; [String newline "x"; "y"]] false false).
Proof.
  intros body. split; [reflexivity|].
  apply (written_table_shown "/data/Report.CSV" "," LabelCSV [" total "; ""] (body ++ [[""; ""]])); [reflexivity|done|].
  by repeat constructor.
Defined.

(** Whatever the content, the table has one to twelve columns, each with a
    label, at most fifty rows, and a cell for each column in every row. *)
Lemma table_shape path content table :
  createPreviewTable path content = Some table ->
  1 <= length (pt_columns table) <= 12 /\ Forall (fun label => label <> "") (pt_columns table) /\
  length (pt_rows table) <= 50 /\ Forall (fun row => length row = length (pt_columns table)) (pt_rows table).
Proof.
  unfold createPreviewTable. destruct (getDelimitedPreviewConfig path) as [[d label]|]; [|done].
  destruct (negb _); [done|]. destruct (parseDelimitedRows _ d) as [|header body]; [done|].
  destruct (decide (header = [])) as [|Hne]; [done|]. intros [= <-]. rewrite shown_table. unfold tableOf.
  cbn [pt_columns pt_rows]. unfold normalizeColumns.
  assert (forall l : list string, length (take 12 (imap (fun index value =>
    let label := trimText value in if truthy label then label else "Column " +:+ showNat (index + 1)) l)) =
    Nat.min 12 (length l)) as Hlen by (intros l; by rewrite length_take, length_imap).
  split; [|split; [|split]].
  - rewrite Hlen. destruct header; [done|]. cbn [length]. lia.
  - apply Forall_take, Forall_lookup. intros i x. rewrite list_lookup_imap. destruct (header !! i) as [v|]; [|done].
    cbn. intros [= <-]. destruct (truthy (trimText v)) eqn:E; [|done].
    unfold truthy in E. by apply negb_true_iff, bool_decide_eq_false in E.
  - rewrite length_fmap, length_take. lia.
  - rewrite Hlen. apply Forall_fmap, Forall_true. intros row. cbn. by rewrite length_fmap, length_seq.
Qed.

(* The content is trimmed before it is read, and a tab is space: a TSV file
   whose first header cell is empty loses it, so that its labels move to the
   column before theirs. *)
Example empty_first_label_is_lost :
  let content := String tab ("price" +:+ String newline ("apple" +:+ String tab "3")) in
  (pt_columns <$> createPreviewTable "a.tsv" content) = Some ["price"] /\
  (pt_rows <$> createPreviewTable "a.tsv" content) = Some [["apple"]].
Proof. by split. Qed.

(* A carriage return alone does not end a row, it is left out. *)
Example carriage_return_is_no_line_end :
  parseDelimitedRows ("a" +:+ String carriageReturn "b") "," = [["ab"]].
Proof. reflexivity. Qed.
