(* ===== verification/Dockview.v ===== *)
(** * Panels of the workspace

    The dock of panels is the library dockview, a parameter of the model: the
    class [Dockview] has the calls that the code makes and [DockviewLaws] what
    it relies on of them.  Then the panels of terminals,
    files and previews:
    [frontend/src/widgets/terminal/terminal-panel.ts],
    [widgets/files/files-panel.ts], [widgets/preview/preview-panel.ts] and
    [features/terminal/model/panel-registry.ts]. *)
From Stdlib Require Import Ascii String.
From stdpp Require Import gmap strings.
From S2P Require Import Prelude JsString Text Number Effects Http.
Local Open Scope string_scope.
Local Open Scope list_scope.
Local Open Scope nat_scope.
Local Open Scope js_scope.
Local Open Scope prog_scope.

(** ** The dock *)

Inductive DockDirection := DirectionBelow | DirectionRight.

(** A panel as the code reads it. *)
Record DockPanel := mkPanel { dp_id : string; dp_params : option Json }.

(** The argument of [addPanel]. *)
Record AddPanelOptions := mkAddPanel {
  dd_id : string;
  dd_title : string;
  dd_tabComponent : string;
  dd_params : option Json;
  dd_position : option (DockDirection * option string)
}.

Class Dockview := {
  Dock : Type;
  dock_panels : Dock -> list DockPanel;
  dock_active : Dock -> option string;
  dock_add : AddPanelOptions -> Dock -> Dock;
  dock_activate : string -> Dock -> Dock;
  dock_close : string -> Dock -> Dock;
  dock_clear : Dock -> Dock;
  dock_toJSON : Dock -> Json;
  dock_fromJSON : Json -> Dock -> Dock
}.

Definition panel_ids `{Dockview} (d : Dock) : list string := dp_id <$> dock_panels d.

(** What the code relies on: a panel with a new id is added to the others,
    activating a panel that is there makes it the active one and leaves the
    panels alone, closing takes it away, a cleared dock has no panels, and reading what a dock wrote
    gives its panels back and writes the same, an object. *)
Class DockviewLaws (D : Dockview) : Prop := {
  panels_add : forall o d, dd_id o ∉ panel_ids d -> dock_panels (dock_add o d) ≡ₚ mkPanel (dd_id o) (dd_params o) :: dock_panels d;
  panels_activate : forall id d, dock_panels (dock_activate id d) = dock_panels d;
  active_activate : forall id d, id ∈ panel_ids d -> dock_active (dock_activate id d) = Some id;
  panels_close : forall id d, dock_panels (dock_close id d) = filterb (fun p => negb (bool_decide (dp_id p = id))) (dock_panels d);
  panels_clear : forall d, dock_panels (dock_clear d) = [];
  panels_fromJSON : forall d d', dock_panels (dock_fromJSON (dock_toJSON d) d') = dock_panels d;
  json_fromJSON : forall d d', dock_toJSON (dock_fromJSON (dock_toJSON d) d') = dock_toJSON d;
  json_object : forall d, exists fields, dock_toJSON d = JObject fields
}.

Section Panels.
Context `{Dockview}.

(** [api.getPanel(id)] *)
Definition getPanel (d : Dock) (id : string) : option DockPanel :=
  find (fun panel => bool_decide (dp_id panel = id)) (dock_panels d).

End Panels.

(** ** Panels of terminals *)

Inductive TerminalPanelPreset := PresetMain | PresetWorkspace.
#[global] Instance preset_eq : EqDecision TerminalPanelPreset.
Proof. solve_decision. Defined.

Record TerminalPanelParams := mkTerminalParams {
  tr_preset : TerminalPanelPreset;
  tr_title : string;
  tr_widgetId : string;
  tr_runtimeTabId : option string
}.

Definition getDefaultTerminalWidgetId (preset : TerminalPanelPreset) : string :=
  match preset with PresetMain => "term-main" | PresetWorkspace => "term-side" end.

Definition createTerminalPanelParams (preset : TerminalPanelPreset) (widgetId runtimeTabId : option string)
    : TerminalPanelParams :=
  mkTerminalParams preset (match preset with PresetMain => "Main terminal" | PresetWorkspace => "Workspace shell" end)
    (widgetId ?? getDefaultTerminalWidgetId preset) runtimeTabId.

Definition getFallbackTerminalPanelParams (panelId : string) : TerminalPanelParams :=
  if decide (panelId = "terminal-header") then createTerminalPanelParams PresetMain None None
  else createTerminalPanelParams PresetWorkspace None None.

Definition showPreset (preset : TerminalPanelPreset) : string :=
  match preset with PresetMain => "main" | PresetWorkspace => "workspace" end.

(** The parameters as the object that the dock keeps. *)
Definition terminalParamsJson (p : TerminalPanelParams) : Json :=
  jobject [("preset", jtext (showPreset (tr_preset p))); ("title", jtext (tr_title p));
    ("widgetId", jtext (tr_widgetId p)); ("runtimeTabId", jtextOpt (tr_runtimeTabId p))].

(** A property of a value that may be anything. *)
Definition propertyOf (value : option Json) (name : string) : option Json :=
  match value with
  | Some (JObject fields) => snd <$> find (fun field => bool_decide (field.1 = name)) fields
  | _ => None
  end.
Definition textOf (value : option Json) : option string :=
  match value with Some (JString s) => Some s | _ => None end.

(** The type guard, with the value that it accepts. *)
Definition isTerminalPanelParams (value : option Json) : option TerminalPanelParams :=
  preset ← match textOf (propertyOf value "preset") with
           | Some s => if decide (s = "main") then Some PresetMain
                       else if decide (s = "workspace") then Some PresetWorkspace else None
           | None => None
           end;
  title ← textOf (propertyOf value "title");
  widgetId ← textOf (propertyOf value "widgetId");
  match propertyOf value "runtimeTabId" with
  | None => Some (mkTerminalParams preset title widgetId None)
  | Some (JString tab) => Some (mkTerminalParams preset title widgetId (Some tab))
  | Some _ => None
  end.

Definition resolveTerminalPanelParams (panelId : string) (params : option Json) : TerminalPanelParams :=
  isTerminalPanelParams params ?? getFallbackTerminalPanelParams panelId.

Definition isTerminalPanel (panelId : string) (params : option Json) : bool :=
  bool_decide (is_Some (isTerminalPanelParams params)) || bool_decide (panelId = "terminal") ||
  bool_decide (panelId = "terminal-header") || startsWith "terminal-" panelId || startsWith "terminal-header-" panelId.

Definition getTerminalPanelIdSeed (preset : TerminalPanelPreset) : string :=
  match preset with PresetMain => "terminal-header" | PresetWorkspace => "terminal" end.

Section TerminalPanels.
Context `{Dockview}.

(** The loop that looks for the next index. *)
Fixpoint nextPanelIndex (fuel : nat) (d : Dock) (idSeed : string) (index : nat) : nat :=
  match fuel with
  | O => index
  | S fuel => if getPanel d (idSeed +:+ "-" +:+ showNat index) then nextPanelIndex fuel d idSeed (index + 1) else index
  end.

(** One more round than there are panels. *)
Definition createNextTerminalPanelId (containerApi : Dock) (preset : TerminalPanelPreset) : string :=
  let idSeed := getTerminalPanelIdSeed preset in
  if getPanel containerApi idSeed then
    idSeed +:+ "-" +:+ showNat (nextPanelIndex (S (length (dock_panels containerApi))) containerApi idSeed 2)
  else idSeed.

End TerminalPanels.

(** ** Panels of files and previews *)

(** The parameters of both kinds, [FilesPanelParams] and [PreviewPanelParams],
    whose [component] is [files] or [preview]. *)
Record PathPanelParams := mkPathParams {
  pp_connectionId : option string;
  pp_path : string;
  pp_title : string;
  pp_widgetId : string
}.

Definition getPathTitle (fallback path : string) : string :=
  let trimmedPath := stripTrailing slash path in
  let lastSegment := last (filterb truthy (splitOn slash trimmedPath)) in
  truthyOpt lastSegment ?? (if truthy trimmedPath then trimmedPath else fallback).

Definition createPathPanelParams (fallback : string) (connectionId : option string) (path : string)
    (title : option string) (widgetId : string) : PathPanelParams :=
  mkPathParams connectionId path (title ?? getPathTitle fallback path) widgetId.
Definition createFilesPanelParams := createPathPanelParams "Files".
Definition createPreviewPanelParams := createPathPanelParams "Preview".

(** The parameters as the object that the dock keeps. *)
Definition pathParamsJson (component : string) (p : PathPanelParams) : Json :=
  jobject [("component", jtext component); ("connectionId", jtextOpt (pp_connectionId p)); ("path", jtext (pp_path p));
    ("title", jtext (pp_title p)); ("widgetId", jtext (pp_widgetId p))].

(** The type guard, with the value that it accepts. *)
Definition isPathPanelParams (component : string) (value : option Json) : option PathPanelParams :=
  found ← textOf (propertyOf value "component");
  path ← textOf (propertyOf value "path");
  title ← textOf (propertyOf value "title");
  widgetId ← textOf (propertyOf value "widgetId");
  if decide (found = component) then
    match propertyOf value "connectionId" with
    | None => Some (mkPathParams None path title widgetId)
    | Some (JString connectionId) => Some (mkPathParams (Some connectionId) path title widgetId)
    | Some _ => None
    end
  else None.
Definition resolveFilesPanelParams : option Json -> option PathPanelParams := isPathPanelParams "files".
Definition resolvePreviewPanelParams : option Json -> option PathPanelParams := isPathPanelParams "preview".

(** ** The registry of terminal panels *)

Record TerminalPanelBinding := mkBinding {
  tb_hostId : string;
  tb_preset : TerminalPanelPreset;
  tb_runtimeTabId : option string;
  tb_runtimeWidgetId : string
}.

(** An object with its keys in the order of insertion. *)
Notation TerminalPanelBindings := (list (string * TerminalPanelBinding)).

Inductive BindingEvent :=
  | RegisterTerminalPanelBinding (binding : TerminalPanelBinding)
  | UnregisterTerminalPanelBinding (hostId : string).

Definition bindingAt (bindings : TerminalPanelBindings) (hostId : string) : option TerminalPanelBinding :=
  snd <$> find (fun b => bool_decide (b.1 = hostId)) bindings.

(** [{ ...bindings, [hostId]: binding }] keeps the place of a key that is there. *)
Definition onBindingEvent (bindings : TerminalPanelBindings) (e : BindingEvent) : TerminalPanelBindings :=
  match e with
  | RegisterTerminalPanelBinding binding =>
      let hostId := tb_hostId binding in
      if bindingAt bindings hostId then
        (fun b => if decide (b.1 = hostId) then (hostId, binding) else b) <$> bindings
      else bindings ++ [(hostId, binding)]
  | UnregisterTerminalPanelBinding hostId => filterb (fun b => negb (bool_decide (b.1 = hostId))) bindings
  end.

Definition resolveTerminalPanelBinding (bindings : TerminalPanelBindings) (activeHostId : option string)
    : option TerminalPanelBinding :=
  match truthyOpt activeHostId ≫= bindingAt bindings with
  | Some binding => Some binding
  | None =>
      match bindingAt bindings "terminal" with
      | Some binding => Some binding
      | None =>
          match bindingAt bindings "terminal-header" with
          | Some binding => Some binding
          | None => snd <$> head bindings
          end
      end
  end.

(** * Lemmas *)

Lemma terminal_params_read p : isTerminalPanelParams (Some (terminalParamsJson p)) = Some p.
Proof. destruct p as [[] title widgetId [tab|]]; reflexivity. Qed.

Lemma path_params_read component p : isPathPanelParams component (Some (pathParamsJson component p)) = Some p.
Proof.
  transitivity (if decide (component = component) then Some p else None); [|by rewrite decide_True].
  by destruct p as [[c|] path title widgetId].
Qed.

Lemma params_is_terminal id p : isTerminalPanel id (Some (terminalParamsJson p)) = true.
Proof. unfold isTerminalPanel. by rewrite terminal_params_read. Qed.

Section PanelLemmas.
Context `{D : Dockview} `{!DockviewLaws D}.

Lemma getPanel_none d id : getPanel d id = None <-> id ∉ panel_ids d.
Proof.
  unfold getPanel, panel_ids. rewrite find_None. split.
  - intros Hn (p & -> & Hp)%list_elem_of_fmap. specialize (Hn p Hp). cbn in Hn.
    by apply bool_decide_eq_false in Hn.
  - intros Hn p Hp. apply bool_decide_eq_false. intros <-. apply Hn. by apply list_elem_of_fmap_2.
Qed.

Lemma next_index_cases fuel d seed index :
  let i := nextPanelIndex fuel d seed index in
  getPanel d (seed +:+ "-" +:+ showNat i) = None \/
  forall k, index <= k < index + fuel -> is_Some (getPanel d (seed +:+ "-" +:+ showNat k)).
Proof.
  cbv zeta. revert index. induction fuel as [|fuel IH]; intros index; cbn [nextPanelIndex].
  - right. intros k Hk. lia.
  - destruct (getPanel d (seed +:+ "-" +:+ showNat index)) as [p|] eqn:E; [|by left].
    destruct (IH (index + 1)) as [Hl|Hr]; [by left|right]. intros k Hk.
    destruct (decide (k = index)) as [->|]; [by eexists|]. apply Hr. lia.
Qed.

(** The id of a new terminal panel is none of the dock's. *)
Lemma next_panel_id_fresh d preset : createNextTerminalPanelId d preset ∉ panel_ids d.
Proof.
  unfold createNextTerminalPanelId. destruct (getPanel d (getTerminalPanelIdSeed preset)) eqn:E;
    [|by apply getPanel_none].
  set (seed := getTerminalPanelIdSeed preset). apply getPanel_none.
  destruct (next_index_cases (S (length (dock_panels d))) d seed 2) as [Hl|Hr]; [exact Hl|exfalso].
  assert (NoDup ((fun k => seed +:+ "-" +:+ showNat k) <$> seq 2 (S (length (dock_panels d))))) as Hnd.
  { apply NoDup_fmap_2; [|apply NoDup_seq]. intros x y Hxy. apply append_inj_l, append_inj_l in Hxy.
    by apply showNat_inj. }
  assert (length ((fun k => seed +:+ "-" +:+ showNat k) <$> seq 2 (S (length (dock_panels d)))) <= length (panel_ids d)) as Hlen.
  { apply submseteq_length, NoDup_submseteq; [exact Hnd|]. intros s (k & -> & Hk)%list_elem_of_fmap.
    apply elem_of_seq in Hk. destruct (Hr k) as [p Hp]; [lia|].
    destruct (decide (seed +:+ "-" +:+ showNat k ∈ panel_ids d)) as [|Hn]; [done|].
    apply getPanel_none in Hn. congruence. }
  unfold panel_ids in Hlen. rewrite !length_fmap, length_seq in Hlen. lia.
Qed.

End PanelLemmas.

(** The panel that is looked for is the one that was registered last for the
    active host, and any registered one rather than none. *)
Lemma binding_found bindings host binding :
  host <> "" -> host = tb_hostId binding ->
  resolveTerminalPanelBinding (onBindingEvent bindings (RegisterTerminalPanelBinding binding)) (Some host) = Some binding.
Proof.
  intros Hne ->. unfold resolveTerminalPanelBinding.
  assert (bindingAt (onBindingEvent bindings (RegisterTerminalPanelBinding binding)) (tb_hostId binding) = Some binding) as Hb.
  { cbn [onBindingEvent]. unfold bindingAt. induction bindings as [|[k b] bindings IH].
    - cbn. by rewrite bool_decide_eq_true_2.
    - cbn [find fst]. destruct (bool_decide (k = tb_hostId binding)) eqn:E; cbn [fmap option_fmap option_map snd].
      + apply bool_decide_eq_true in E as ->. cbn. rewrite decide_True by done. cbn. by rewrite bool_decide_eq_true_2.
      + cbn [find fst] in *. destruct (find _ bindings) as [[k' b']|] eqn:Ef; cbn [fmap option_fmap option_map snd] in *.
        * cbn [fmap list_fmap]. cbn [fst]. apply bool_decide_eq_false in E. rewrite decide_False by done. cbn [find fst].
          rewrite bool_decide_eq_false_2 by done. exact IH.
        * cbn [app find fst]. rewrite E. exact IH. }
  assert (truthyOpt (Some (tb_hostId binding)) = Some (tb_hostId binding)) as -> by by apply truthyOpt_Some.
  cbn [mbind option_bind]. by rewrite Hb.
Qed.

(** ** A dock *)

(** The list of the panels with the active one, written as the array of their
    ids and parameters. *)
Definition listDock : Type := list DockPanel * option string.
Definition panelJson (p : DockPanel) : Json := JArray [JString (dp_id p); dp_params p ?? JNull; JBool (if dp_params p then true else false)].
Definition readPanel (j : Json) : option DockPanel :=
  match j with
  | JArray [JString id; params; JBool b] => Some (mkPanel id (if b then Some params else None))
  | _ => None
  end.
Definition listDockview : Dockview := {|
  Dock := listDock;
  dock_panels := fst;
  dock_active := snd;
  dock_add o d := (d.1 ++ [mkPanel (dd_id o) (dd_params o)], Some (dd_id o));
  dock_activate id d := (d.1, Some id);
  dock_close id d := (filterb (fun p => negb (bool_decide (dp_id p = id))) d.1, d.2);
  dock_clear d := ([], None);
  dock_toJSON d := JObject [("panels", JArray (panelJson <$> d.1))];
  dock_fromJSON j d := (match propertyOf (Some j) "panels" with Some (JArray l) => omap readPanel l | _ => [] end, None)
|}.

Lemma listDockview_laws : DockviewLaws listDockview.
Proof.
  assert (forall l : list DockPanel, omap (M := list) readPanel (panelJson <$> l) = l) as Hread.
  { intros l. induction l as [|[id [params|]] l IH]; [done| |]; cbn in *; by f_equal. }
  split; try done.
  - intros o d _. cbn. by rewrite Permutation_app_comm.
  - intros d d'. apply Hread.
  - intros d d'. cbn. do 3 f_equal. exact (f_equal (fun l => JArray (panelJson <$> l)) (Hread d.1)).
  - intros d. by eexists.
Qed.
