(* ===== verification/Panels.v ===== *)
(** * Opening and closing panels

    [frontend/src/widgets/terminal/ensure-terminal-visibility.ts] and
    [open-remote-profile-session.ts], which show a terminal for the agent and
    for a remote profile, [closeTerminalPanel] and the close button of a panel
    ([terminal-panel.ts], [terminal-dockview-header-actions-widget.tsx]), and the
    list of terminal sessions, [terminal-session-navigator-widget.tsx], which
    composes them with calls of the API. *)
From Stdlib Require Import Ascii String.
From stdpp Require Import strings.
From S2P Require Import Prelude JsString Text Number Effects Http TerminalApi ServicesApi Dockview.
Local Open Scope string_scope.
Local Open Scope list_scope.
Local Open Scope nat_scope.
Local Open Scope js_scope.
Local Open Scope prog_scope.

(** ** State and requests *)

(** The dock, and the state of the list of sessions. *)
Record PanelsState `{Dockview} := mkPanels {
  ps_dock : Dock;
  ps_entries : list TerminalSessionCatalogEntry;
  ps_errorMessage : option string;
  ps_filterQuery : string;
  ps_isLoading : bool;
  ps_pendingActionKey : option string
}.
Arguments mkPanels {_}.

(** [createTerminalTab] answers the id of the tab and of its widget. *)
Inductive PanelRequest : Set -> Type :=
  | CreateTerminalTab (title : option string) : PanelRequest (string * string)
  | CloseTerminalTab (tabId : string) : PanelRequest string
  | CreateRemoteSession (profileId : string) (title tmuxSession : option string)
      : PanelRequest CreateRemoteProfileSessionResult
  | CloseWorkspaceWidget (widgetId : string) : PanelRequest string
  | FetchSessions : PanelRequest TerminalSessionCatalog
  | SetActiveSession (widgetId sessionId : string) : PanelRequest unit
  | FocusWorkspaceWidget (widgetId : string) : PanelRequest unit
  | RestartTerminal (widgetId : string) : PanelRequest unit.

(** The digits of [/-(\d+)$/]. *)
Fixpoint trailingIndex (s : string) : option string :=
  match s with
  | EmptyString => None
  | String a s' =>
      if bool_decide (a = "-"%char) && truthy s' && str_all is_digit s' then Some s' else trailingIndex s'
  end.

Definition panelTitle (fallback panelId : string) (requestedTitle : option string) : string :=
  let title := truthyOpt (trimText <$> requestedTitle) ?? fallback in
  match trailingIndex panelId with
  | None => title
  | Some index => title +:+ " " +:+ index
  end.
Definition resolveWorkspaceTerminalPanelTitle : string -> option string -> string := panelTitle "Workspace shell".
Definition resolvePanelTitle : string -> option string -> string := panelTitle "Remote Shell".

Section Panels.
Context `{D : Dockview}.

Notation Panels := (ProgX ApiError PanelsState PanelRequest).

Definition on_dock (f : Dock -> Dock) (s : PanelsState) : PanelsState :=
  mkPanels (f (ps_dock s)) (ps_entries s) (ps_errorMessage s) (ps_filterQuery s) (ps_isLoading s) (ps_pendingActionKey s).
Definition setEntries (entries : list TerminalSessionCatalogEntry) (s : PanelsState) : PanelsState :=
  mkPanels (ps_dock s) entries (ps_errorMessage s) (ps_filterQuery s) (ps_isLoading s) (ps_pendingActionKey s).
Definition setErrorMessage (m : option string) (s : PanelsState) : PanelsState :=
  mkPanels (ps_dock s) (ps_entries s) m (ps_filterQuery s) (ps_isLoading s) (ps_pendingActionKey s).
Definition setFilterQuery (query : string) (s : PanelsState) : PanelsState :=
  mkPanels (ps_dock s) (ps_entries s) (ps_errorMessage s) query (ps_isLoading s) (ps_pendingActionKey s).
Definition setIsLoading (b : bool) (s : PanelsState) : PanelsState :=
  mkPanels (ps_dock s) (ps_entries s) (ps_errorMessage s) (ps_filterQuery s) b (ps_pendingActionKey s).
Definition setPendingActionKey (key : option string) (s : PanelsState) : PanelsState :=
  mkPanels (ps_dock s) (ps_entries s) (ps_errorMessage s) (ps_filterQuery s) (ps_isLoading s) key.

(** ** Showing a terminal *)

Definition resolveWorkspaceTerminalPanelPosition (d : Dock) : option (DockDirection * option string) :=
  match dock_active d with
  | None => None
  | Some active => Some (DirectionRight, Some active)
  end.

(** The panel is a terminal's and of the widget. *)
Definition showsWidget (widgetId : string) (panel : DockPanel) : bool :=
  isTerminalPanel (dp_id panel) (dp_params panel) &&
  bool_decide (tr_widgetId (resolveTerminalPanelParams (dp_id panel) (dp_params panel)) = widgetId).
Definition findVisibleTerminalPanel (d : Dock) (widgetId : string) : option DockPanel :=
  find (showsWidget widgetId) (dock_panels d).

(** A new panel, activated at once. *)
Definition addTerminalPanel (title : string -> string) (params : TerminalPanelParams) (d : Dock) : Dock :=
  let nextPanelId := createNextTerminalPanelId d PresetWorkspace in
  dock_activate nextPanelId
    (dock_add (mkAddPanel nextPanelId (title nextPanelId) "terminal-tab" (Some (terminalParamsJson params))
      (resolveWorkspaceTerminalPanelPosition d)) d).

Definition revealExistingTerminalPanel (widgetId : string) (title : option string) (d : Dock) : Dock :=
  match findVisibleTerminalPanel d widgetId with
  | Some existingPanel => dock_activate (dp_id existingPanel) d
  | None =>
      addTerminalPanel (fun id => resolveWorkspaceTerminalPanelTitle id title)
        (createTerminalPanelParams PresetWorkspace (Some widgetId) None) d
  end.

(** [hasApi]: there is a dock. *)
Definition ensureAiTerminalVisibility (hasApi : bool) (requestedWidgetId requestedWidgetTitle : option string) : Panels string :=
  let widgetId := trimText (requestedWidgetId ?? "") in
  let title := trimText (requestedWidgetTitle ?? "") in
  if truthy widgetId then
    (if hasApi then update (on_dock (revealExistingTerminalPanel widgetId (Some title))) else Ret tt) ;;;
    Ret widgetId
  else
    runtimeTerminal <- await (CreateTerminalTab (truthyOpt (Some title))) ;;
    (if hasApi then update (on_dock (addTerminalPanel (fun id => resolveWorkspaceTerminalPanelTitle id (Some title))
        (createTerminalPanelParams PresetWorkspace (Some (snd runtimeTerminal)) (Some (fst runtimeTerminal)))))
     else Ret tt) ;;;
    Ret (snd runtimeTerminal).

(** What is shown of the answer of [createRemoteProfileSession]. *)
Definition revealRemoteSession (title : option string) (result : CreateRemoteProfileSessionResult) (d : Dock) : Dock :=
  match findVisibleTerminalPanel d (rm_widget_id result) with
  | Some existingPanel => dock_activate (dp_id existingPanel) d
  | None =>
      addTerminalPanel (fun id => resolvePanelTitle id title)
        (createTerminalPanelParams PresetWorkspace (Some (rm_widget_id result)) (Some (rm_tab_id result))) d
  end.

Definition openRemoteProfileSession (hasApi : bool) (profileId : string) (title tmuxSession : option string)
    : Panels CreateRemoteProfileSessionResult :=
  result <- await (CreateRemoteSession profileId title tmuxSession) ;;
  (if hasApi then update (on_dock (revealRemoteSession title result)) else Ret tt) ;;;
  Ret result.

(** ** Closing a panel *)

(** [error instanceof <name> && error.status === 404] *)
Definition notFound (name : string) (error : ApiError) : bool :=
  match error with
  | APIError errorName status _ _ => bool_decide (errorName = name) && (status =? 404)%Z
  | _ => false
  end.

(** A request whose failure, a 404 aside, keeps the panel. *)
Definition closingWidget (name : string) (request : PanelRequest string) (panelId : string) : Panels bool :=
  gone <- tryCatch (await request ;;; Ret true) (fun error => Ret (notFound name error)) ;;
  if gone then update (on_dock (dock_close panelId)) ;;; Ret true else Ret false.

Definition closeTerminalPanel (panelId : string) (params : TerminalPanelParams) : Panels bool :=
  match truthyOpt (tr_runtimeTabId params) with
  | Some tabId => closingWidget "TerminalAPIError" (CloseTerminalTab tabId) panelId
  | None => update (on_dock (dock_close panelId)) ;;; Ret true
  end.

(** The close button of the active panel. *)
Definition handleClosePanel (panel : DockPanel) : Panels unit :=
  let backendPanelParams :=
    match resolveFilesPanelParams (dp_params panel) with
    | Some params => Some params
    | None => resolvePreviewPanelParams (dp_params panel)
    end in
  if isTerminalPanel (dp_id panel) (dp_params panel) then
    closeTerminalPanel (dp_id panel) (resolveTerminalPanelParams (dp_id panel) (dp_params panel)) ;;; Ret tt
  else
    match backendPanelParams with
    | Some params => closingWidget "WorkspaceAPIError" (CloseWorkspaceWidget (pp_widgetId params)) (dp_id panel) ;;; Ret tt
    | None => update (on_dock (dock_close (dp_id panel)))
    end.

(** ** The list of sessions *)

Definition sessionsError (error : ApiError) (fallback : string) : string :=
  match errorMessage error with
  | Some message => if truthy (trimText message) then message else fallback
  | None => fallback
  end.

Definition formatTerminalSessionScope (entry : TerminalSessionCatalogEntry) : string :=
  let workspaceName := truthyOpt (Some (trimText (te_workspace_name entry))) ?? "Workspace" in
  let tabTitle := truthyOpt (trimText <$> te_tab_title entry) ??
    (truthyOpt (Some (trimText (te_widget_title entry))) ?? "Terminal") in
  workspaceName +:+ " / " +:+ tabTitle.

Definition formatTerminalSessionPrimaryText (entry : TerminalSessionCatalogEntry) : string :=
  truthyOpt (trimText <$> te_working_dir entry) ??
  (truthyOpt (trimText <$> te_connection_name entry) ??
  (truthyOpt (Some (trimText (te_widget_title entry))) ?? te_session_id entry)).

Definition resolveRecoveryLabel (entry : TerminalSessionCatalogEntry) : string :=
  if bool_decide (te_status entry = "running") || bool_decide (te_status entry = "starting") then ""
  else if bool_decide (te_connection_kind entry = Some "ssh") && bool_decide (te_remote_launch_mode entry = Some "tmux")
  then "Resume session"
  else if bool_decide (te_connection_kind entry = Some "ssh") then "Reconnect shell"
  else "Restart shell".

Definition visibleEntries (entries : list TerminalSessionCatalogEntry) (filterQuery : string)
    : list TerminalSessionCatalogEntry :=
  let query := lowerText (trimText filterQuery) in
  if truthy query then
    filterb (fun entry => some (fun field => strIncludes query (lowerText field))
      [te_workspace_name entry; te_tab_title entry ?? ""; te_widget_title entry; te_session_id entry;
       te_connection_name entry ?? ""; te_connection_kind entry ?? ""; te_remote_session_name entry ?? "";
       te_remote_launch_mode entry ?? ""; te_working_dir entry ?? ""; te_status entry; te_status_detail entry ?? ""]) entries
  else entries.

Definition refreshSessions : Panels unit :=
  update (fun s => setErrorMessage None (setIsLoading true s)) ;;;
  finally
    (tryCatch
       (snapshot <- await FetchSessions ;;
        update (setEntries (tg_sessions snapshot)))
       (fun error => update (setErrorMessage (Some (sessionsError error "Unable to load sessions.")))))
    (update (setIsLoading false)).

(** Both actions on a session: the request that goes first, then the focus. *)
Definition sessionAction (name fallback : string) (first : Panels unit) (hasApi : bool) (entry : TerminalSessionCatalogEntry)
    : Panels unit :=
  let actionKey := name +:+ ":" +:+ te_widget_id entry +:+ ":" +:+ te_session_id entry in
  update (fun s => setErrorMessage None (setPendingActionKey (Some actionKey) s)) ;;;
  finally
    (tryCatch
       (first ;;;
        await (FocusWorkspaceWidget (te_widget_id entry)) ;;;
        ensureAiTerminalVisibility hasApi (Some (te_widget_id entry)) (Some (te_widget_title entry)) ;;;
        refreshSessions)
       (fun error => update (setErrorMessage (Some (sessionsError error fallback)))))
    (update (setPendingActionKey None)).

Definition handleFocus (hasApi : bool) (entry : TerminalSessionCatalogEntry) : Panels unit :=
  sessionAction "focus" "Unable to focus session."
    (if te_is_active_session entry then Ret tt else await (SetActiveSession (te_widget_id entry) (te_session_id entry)))
    hasApi entry.
Definition handleRecover (hasApi : bool) (entry : TerminalSessionCatalogEntry) : Panels unit :=
  sessionAction "recover" "Unable to recover session." (await (RestartTerminal (te_widget_id entry))) hasApi entry.

End Panels.
Notation PanelsProg := (ProgX ApiError PanelsState PanelRequest).

(** ** Everything that happens to the dock *)

Inductive PanelsCall :=
  | EnsureTerminal (hasApi : bool) (widgetId title : option string)
  | OpenRemoteSession (hasApi : bool) (profileId : string) (title tmuxSession : option string)
  | ClosePanelClick (panel : DockPanel)
  | RefreshSessions
  | FilterSessions (query : string)
  | FocusSession (hasApi : bool) (entry : TerminalSessionCatalogEntry)
  | RecoverSession (hasApi : bool) (entry : TerminalSessionCatalogEntry).

Definition panelsProg `{Dockview} (c : PanelsCall) : PanelsProg unit :=
  match c with
  | EnsureTerminal hasApi widgetId title => ensureAiTerminalVisibility hasApi widgetId title ;;; Ret tt
  | OpenRemoteSession hasApi profileId title tmuxSession =>
      openRemoteProfileSession hasApi profileId title tmuxSession ;;; Ret tt
  | ClosePanelClick panel => handleClosePanel panel
  | RefreshSessions => refreshSessions
  | FilterSessions query => update (setFilterQuery query)
  | FocusSession hasApi entry => handleFocus hasApi entry
  | RecoverSession hasApi entry => handleRecover hasApi entry
  end.

(** * Lemmas *)

Section PanelsLemmas.
Context `{D : Dockview} `{!DockviewLaws D}.

(** The terminal of a widget is shown: one of its panels is the active one. *)
Definition terminalShown (d : Dock) (widgetId : string) : Prop :=
  exists panel, panel ∈ dock_panels d /\ showsWidget widgetId panel = true /\ dock_active d = Some (dp_id panel).
(** The panels that show the widget. *)
Definition panelsOf (d : Dock) (widgetId : string) : nat := occurrences (showsWidget widgetId) (dock_panels d).

Lemma occurrences_perm {A} (p : A -> bool) l l' : l ≡ₚ l' -> occurrences p l = occurrences p l'.
Proof.
  unfold occurrences, filterb. induction 1 as [|x l l' H IH|x y l|l l' l'' H1 IH1 H2 IH2]; cbn; try done.
  - destruct (p x); cbn; lia.
  - destruct (p x), (p y); cbn; lia.
  - lia.
Qed.

Section Added.
Variables (title : string -> string) (params : TerminalPanelParams) (d : Dock).
Let id := createNextTerminalPanelId d PresetWorkspace.
Let panel := mkPanel id (Some (terminalParamsJson params)).

Lemma added_panels : dock_panels (addTerminalPanel title params d) ≡ₚ panel :: dock_panels d.
Proof. unfold addTerminalPanel. rewrite panels_activate. apply panels_add. apply next_panel_id_fresh. Qed.

Lemma added_shows w : showsWidget w panel = bool_decide (tr_widgetId params = w).
Proof.
  unfold showsWidget, resolveTerminalPanelParams, panel. cbn [dp_id dp_params].
  by rewrite params_is_terminal, terminal_params_read.
Qed.

Lemma added_count w :
  panelsOf (addTerminalPanel title params d) w = (if decide (tr_widgetId params = w) then 1 else 0) + panelsOf d w.
Proof.
  unfold panelsOf. rewrite (occurrences_perm _ _ _ added_panels). unfold occurrences, filterb. cbn [List.filter].
  rewrite added_shows. destruct (decide _); [by rewrite bool_decide_eq_true_2|by rewrite bool_decide_eq_false_2].
Qed.

Lemma added_shown : terminalShown (addTerminalPanel title params d) (tr_widgetId params).
Proof.
  exists panel. split; [rewrite added_panels; by left|]. split; [rewrite added_shows; by apply bool_decide_eq_true_2|].
  unfold addTerminalPanel. apply active_activate. unfold panel_ids.
  rewrite panels_add by apply next_panel_id_fresh. by left.
Qed.

Lemma added_distinct : NoDup (panel_ids d) -> NoDup (panel_ids (addTerminalPanel title params d)).
Proof.
  intros Hd. unfold panel_ids. rewrite added_panels. cbn. apply NoDup_cons. split; [|done]. apply next_panel_id_fresh.
Qed.

Lemma added_kept : dock_panels d ⊆+ dock_panels (addTerminalPanel title params d).
Proof. rewrite added_panels. by apply submseteq_cons. Qed.
End Added.

(** ** Revealing a widget *)

(** What both ways of showing a widget have in common: the panel that shows it
    is activated, or one is added. *)
Definition revealed (widgetId : string) (added : Dock -> Dock) (d : Dock) : Dock :=
  match findVisibleTerminalPanel d widgetId with
  | Some existingPanel => dock_activate (dp_id existingPanel) d
  | None => added d
  end.

Lemma occurrences_none {A} (p : A -> bool) l : find p l = None -> occurrences p l = 0.
Proof.
  intros H. unfold occurrences, filterb. induction l as [|x l IH]; [done|]. cbn in H. cbn.
  destruct (p x); [done|]. by apply IH.
Qed.
Lemma occurrences_some {A} (p : A -> bool) l x : find p l = Some x -> 1 <= occurrences p l.
Proof.
  intros [Hx Hp]%find_Some. unfold occurrences, filterb. apply list_elem_of_lookup in Hx as [i Hi].
  revert i Hi. induction l as [|y l IH]; intros i Hi; [done|]. cbn. destruct (p y) eqn:E; cbn; [lia|].
  destruct i as [|i]; cbn in Hi; [congruence|]. by apply (IH i).
Qed.

(** What a change of the dock keeps: the panels that are there, and that their
    ids differ; the terminal of [w] has at most one panel more, and only when it had none. *)
Definition reveals (w : string) (d d' : Dock) : Prop :=
  terminalShown d' w /\ panelsOf d' w = Nat.max 1 (panelsOf d w) /\ dock_panels d ⊆+ dock_panels d' /\
  (NoDup (panel_ids d) -> NoDup (panel_ids d')).

Lemma revealed_reveals w title params d :
  tr_widgetId params = w -> reveals w d (revealed w (addTerminalPanel title params) d).
Proof.
  intros Hw. unfold revealed. destruct (findVisibleTerminalPanel d w) as [p|] eqn:E.
  - pose proof (find_Some _ _ _ E) as [Hp Hs]. split; [|split; [|split]].
    + exists p. rewrite panels_activate. split; [done|]. split; [done|]. apply active_activate.
      by apply list_elem_of_fmap_2.
    + unfold panelsOf. rewrite panels_activate. apply occurrences_some in E. lia.
    + by rewrite panels_activate.
    + unfold panel_ids. by rewrite panels_activate.
  - split; [|split; [|split]].
    + rewrite <- Hw. apply added_shown.
    + rewrite added_count, decide_True by done. unfold panelsOf. rewrite (occurrences_none _ _ E). lia.
    + apply added_kept.
    + apply added_distinct.
Qed.

Lemma reveal_existing w title d : w <> "" -> reveals w d (revealExistingTerminalPanel w title d).
Proof. intros Hw. unfold revealExistingTerminalPanel. by apply (revealed_reveals w). Qed.
Lemma reveal_remote title result d : reveals (rm_widget_id result) d (revealRemoteSession title result d).
Proof. unfold revealRemoteSession. by apply (revealed_reveals (rm_widget_id result)). Qed.

(** ** Any order of calls *)

(** The ids of the dock's panels differ. *)
Definition distinct_panels (s : PanelsState) : Prop := NoDup (panel_ids (ps_dock s)).
Notation distinctly := (stable (X := ApiError) (E := PanelRequest) (keeps distinct_panels) (fun (A : Set) (r : PanelRequest A) => True)).

Create HintDb panels.
#[local] Hint Resolve stable_ret stable_throw stable_get stable_bind stable_try stable_finally : panels.
#[local] Hint Extern 1 (stable _ _ (update _)) => (apply stable_update; intros s Hs; exact Hs) : panels.
#[local] Hint Extern 1 (stable _ _ (await _)) => (apply stable_await; exact I) : panels.

Lemma distinctly_dock f :
  (forall d, NoDup (panel_ids d) -> NoDup (panel_ids (f d))) -> distinctly (update (on_dock f)).
Proof. intros Hf. apply stable_update. intros s. exact (Hf (ps_dock s)). Qed.

Lemma distinctly_close id : distinctly (update (on_dock (dock_close id))).
Proof.
  apply distinctly_dock. intros d Hd. unfold panel_ids in *. rewrite panels_close.
  eapply sublist_NoDup; [exact Hd|]. apply fmap_sublist, filterb_sublist.
Qed.
#[local] Hint Resolve distinctly_close : panels.

Lemma distinctly_ensure hasApi w title : distinctly (ensureAiTerminalVisibility hasApi w title).
Proof.
  unfold ensureAiTerminalVisibility. cbv zeta. destruct (truthy _) eqn:E.
  - destruct hasApi; [|auto with panels]. apply stable_bind; [|auto with panels]. apply distinctly_dock. intros d.
    apply (reveal_existing (trimText (w ?? ""))). unfold truthy in E. by apply negb_true_iff, bool_decide_eq_false in E.
  - apply stable_bind; [auto with panels|]. intros tab. destruct hasApi; [|auto with panels].
    apply stable_bind; [|auto with panels]. apply distinctly_dock. intros d. apply added_distinct.
Qed.
Lemma distinctly_refresh : distinctly refreshSessions.
Proof. unfold refreshSessions. auto 12 with panels. Qed.
#[local] Hint Resolve distinctly_ensure distinctly_refresh : panels.
Lemma distinctly_action name fallback first hasApi entry :
  distinctly first -> distinctly (sessionAction name fallback first hasApi entry).
Proof. intros Hf. unfold sessionAction. cbv zeta. auto 20 with panels. Qed.
Lemma distinctly_closing name request id : distinctly (closingWidget name request id).
Proof.
  unfold closingWidget. apply stable_bind; [auto 8 with panels|]. intros []; auto with panels.
Qed.
#[local] Hint Resolve distinctly_closing : panels.

Lemma distinctly_call c : distinctly (panelsProg c).
Proof.
  destruct c; cbn [panelsProg]; try by auto with panels.
  - apply stable_bind; [|auto with panels]. unfold openRemoteProfileSession. apply stable_bind; [auto with panels|].
    intros result. destruct hasApi; [|auto with panels]. apply stable_bind; [|auto with panels].
    apply distinctly_dock. intros d. apply reveal_remote.
  - unfold handleClosePanel, closeTerminalPanel. cbv zeta. destruct (isTerminalPanel _ _).
    + destruct (truthyOpt _); auto with panels.
    + destruct (match resolveFilesPanelParams _ with Some _ => _ | None => _ end); auto with panels.
  - apply distinctly_action. destruct (te_is_active_session entry); auto with panels.
  - apply distinctly_action. auto with panels.
Qed.

(** The calls, their answers, and what the user does with the dock, which keeps
    the ids of its panels apart. *)
Definition panels_step : SystemX ApiError PanelsState PanelRequest -> _ -> Prop :=
  sys_step (fun p => exists c, p = panelsProg c) (fun _ _ _ _ => True)
    (fun s s' => exists d, (NoDup (panel_ids (ps_dock s)) -> NoDup (panel_ids d)) /\ s' = on_dock (fun _ => d) s).

Definition emptyPanels (d : Dock) : PanelsState := mkPanels d [] None "" false None.

(** C21: In every interleaving of the calls, the answers and the user's changes the
    ids of the panels differ.  Showing the terminal of a widget, for the agent at
    once or for a remote profile when its session is there, leaves one of its
    panels the active one: the panel that showed it, and only when there was none
    a new one, with an id that no panel has; the other panels stay. *)
Theorem terminal_shown_once d m widgetId title :
  NoDup (panel_ids d) -> rtc panels_step (mkSystem (emptyPanels d) []) m -> trimText widgetId <> "" ->
  distinct_panels (sys_state m) /\
  (exists s, run (ensureAiTerminalVisibility true (Some widgetId) title) (sys_state m) = (s, Ended (inl (trimText widgetId))) /\
     reveals (trimText widgetId) (ps_dock (sys_state m)) (ps_dock s)) /\
  (forall profileId tmux, exists k,
     run (openRemoteProfileSession true profileId title tmux) (sys_state m) =
       (sys_state m, Waiting (CreateRemoteSession profileId title tmux) k) /\
     forall result s, exists s', run (k (inl result)) s = (s', Ended (inl result)) /\
       reveals (rm_widget_id result) (ps_dock s) (ps_dock s')).
Proof.
  intros Hd Hr Hw. split; [|split].
  - eapply (system_invariant distinct_panels); [| | |exact Hr]; [| |exact Hd].
    + intros p (c & ->). apply distinctly_call.
    + intros s s' (d' & Hd' & ->) Hs. by apply Hd'.
  - unfold ensureAiTerminalVisibility. cbv zeta. change (Some widgetId ?? "") with widgetId.
    assert (truthy (trimText widgetId) = true) as -> by (unfold truthy; by rewrite bool_decide_eq_false_2).
    eexists. split; [reflexivity|]. by apply reveal_existing.
  - intros profileId tmux. eexists. split; [reflexivity|]. intros result s. eexists. split; [reflexivity|].
    apply reveal_remote.
Qed.
End PanelsLemmas.

(** A dock with the main terminal, which the agent's request for [term-main]
    shows again, and a remote session that gets a panel of its own. *)
Lemma terminal_shown_once_witness :
  let d : @Dock listDockview := ([mkPanel "terminal-header" None], None) in
  let m : SystemX ApiError (@PanelsState listDockview) PanelRequest := mkSystem (emptyPanels d) [] in
  NoDup (panel_ids d) /\
  (exists s, run (ensureAiTerminalVisibility true (Some " term-main ") None) (sys_state m) = (s, Ended (inl "term-main")) /\
     terminalShown (ps_dock s) "term-main" /\ panelsOf (ps_dock s) "term-main" = 1).
Proof.
  intros d m. assert (NoDup (panel_ids d)) as Hd by apply NoDup_singleton. split; [exact Hd|].
  destruct (terminal_shown_once (DockviewLaws0 := listDockview_laws) d m " term-main " None Hd (rtc_refl _ _) ltac:(done))
    as (_ & (s & Hrun & Hshown & Hcount & _) & _).
  exists s. split; [exact Hrun|]. split; [exact Hshown|]. exact (eq_trans Hcount eq_refl).
Defined.

(* The title of a second panel has its number. *)
Example second_terminal_title :
  let d : @Dock listDockview := ([mkPanel "terminal" None], None) in
  createNextTerminalPanelId d PresetWorkspace = "terminal-2" /\
  resolveWorkspaceTerminalPanelTitle "terminal-2" (Some " build ") = "build 2".
Proof. by split. Qed.

(* A panel that the layout restores without parameters is of the side terminal
   unless its id is that of the first main one: a second main panel,
   [terminal-header-2], falls back to the side terminal. *)
Example second_main_panel_falls_back :
  tr_widgetId (resolveTerminalPanelParams "terminal-header" None) = "term-main" /\
  isTerminalPanel "terminal-header-2" None = true /\
  tr_widgetId (resolveTerminalPanelParams "terminal-header-2" None) = "term-side".
Proof. by split. Qed.

(** ** The actions on sessions end *)

Section Actions.
Context `{D : Dockview}.

Lemma ensure_within hasApi w title : within 1 (ensureAiTerminalVisibility hasApi w title).
Proof.
  unfold ensureAiTerminalVisibility. cbv zeta. destruct (truthy _); [by destruct hasApi|].
  apply (within_bind 1 0); [apply within_await|]. intros tab. by destruct hasApi.
Qed.
Lemma refresh_sessions_within : within 1 refreshSessions.
Proof.
  unfold refreshSessions. apply (within_bind 0); [exact I|intros _]. apply (within_finally 1 0); [|exact I].
  apply (within_try 1 0); [within_tac|intros; exact I].
Qed.

(** Focusing and recovering a session end after at most four answers, with no
    action shown as pending. *)
Lemma session_action_ends c :
  match c with FocusSession _ _ | RecoverSession _ _ => True | _ => False end ->
  within 4 (panelsProg c) /\ forall s, ends_with (panelsProg c) s (fun s => ps_pendingActionKey s = None).
Proof.
  assert (forall name fallback first hasApi entry, within 1 first ->
    within 4 (sessionAction name fallback first hasApi entry) /\
    forall s, ends_with (sessionAction name fallback first hasApi entry) s (fun s => ps_pendingActionKey s = None)) as Haction.
  { intros name fallback first hasApi entry Hf. split.
    - unfold sessionAction. cbv zeta. apply (within_bind 0); [exact I|intros _]. apply (within_finally 4 0); [|exact I].
      apply (within_try 4 0); [|intros; exact I]. apply (within_bind 1 3); [exact Hf|intros _].
      apply (within_bind 1 2); [apply within_await|intros _]. apply (within_bind 1 1); [apply ensure_within|intros _].
      apply refresh_sessions_within.
    - intros s. unfold ends_with, sessionAction, update. cbn [bind wp]. apply wp_finally.
      eapply wp_weaken; [|apply wp_any]. intros r a b _. cbn. by destruct r. }
  intros Hc. destruct c; try done; cbn [panelsProg]; apply Haction.
  - destruct (te_is_active_session entry); [exact I|apply within_await].
  - apply within_await.
Qed.
End Actions.
