(* ===== verification/Workspaces.v ===== *)
(** * Workspaces of the shell

    [frontend/src/app/use-dockview-workspace.ts] and the files that it uses
    ([dockview-workspace.*.ts], [use-dockview-workspace-effects.ts]): the tabs of
    the workspaces, each with the layout it had when it was left, the dock that
    shows the active one, the debounced capture of its layout, and what is
    stored and read back.  Then the title of the window
    ([use-window-title-sync.ts]) and the catalog of widget kinds
    ([features/workspace/model/widget-catalog.ts]).

    The dock is the parameter [Dockview]; the text that [JSON] writes and reads
    is the parameter [JsonStore].  The id of a workspace is an integer, as the
    code creates it. *)
From Stdlib Require Import Ascii String QArith.
From stdpp Require Import strings.
From S2P Require Import Prelude JsString Text Number Effects Http FilesApi Dockview.
Local Open Scope string_scope.
Local Open Scope list_scope.
Local Open Scope Z_scope.
Local Open Scope js_scope.

(** ** Tabs and their snapshots *)

Record WorkspaceLayoutTab := mkTab { wt_id : Z; wt_title : string; wt_snapshot : option Json }.
Record PersistedDockviewWorkspaceState := mkPersisted { ws_activeWorkspaceId : Z; ws_workspaceTabs : list WorkspaceLayoutTab }.

Definition DEFAULT_ACTIVE_WORKSPACE_ID : Z := 2.
Definition createDefaultWorkspaceTabs : list WorkspaceLayoutTab :=
  [mkTab 1 "Workspace-1" None; mkTab 2 "Workspace-2" None].

Definition tabAt (tabs : list WorkspaceLayoutTab) (id : Z) : option WorkspaceLayoutTab :=
  find (fun workspace => bool_decide (wt_id workspace = id)) tabs.

(** [typeof v === 'number'], of an integer. *)
Definition integerOf (v : option Json) : option Z :=
  match v with
  | Some (JNumber (Finite q)) => if decide (Qden q = 1%positive) then Some (Qnum q) else None
  | _ => None
  end.

(** One element of the stored array: the test of the filter and the map after it. *)
Definition normalizeTab (workspace : Json) : option WorkspaceLayoutTab :=
  id ← integerOf (propertyOf (Some workspace) "id");
  title ← textOf (propertyOf (Some workspace) "title");
  snapshot ← propertyOf (Some workspace) "snapshot";
  Some (mkTab id title (match snapshot with JNull => None | j => Some j end)).

Definition normalizePersistedDockviewWorkspaceState (value : option Json) : option PersistedDockviewWorkspaceState :=
  match propertyOf value "workspaceTabs", integerOf (propertyOf value "activeWorkspaceId") with
  | Some (JArray tabs), Some activeWorkspaceId =>
      let workspaceTabs := omap normalizeTab tabs in
      if decide (workspaceTabs = []) then None
      else if tabAt workspaceTabs activeWorkspaceId then Some (mkPersisted activeWorkspaceId workspaceTabs)
      else None
  | _, _ => None
  end.

Definition tabJson (workspace : WorkspaceLayoutTab) : Json :=
  jobject [("id", jnumber (wt_id workspace)); ("title", jtext (wt_title workspace));
    ("snapshot", Some (wt_snapshot workspace ?? JNull))].
Definition persistedJson (state : PersistedDockviewWorkspaceState) : Json :=
  jobject [("activeWorkspaceId", jnumber (ws_activeWorkspaceId state));
    ("workspaceTabs", Some (JArray (tabJson <$> ws_workspaceTabs state)))].

(** [JSON] on what local storage keeps. *)
Class JsonStore := {
  Stored : Type;
  stored_truthy : Stored -> bool;
  stringify : Json -> Stored;
  parse : Stored -> option Json
}.
Class JsonStoreLaws (J : JsonStore) : Prop := {
  stored_written : forall j, stored_truthy (stringify j) = true;
  parse_written : forall j, parse (stringify j) = Some j
}.

Section Client.
Context `{JsonStore}.

(** [readState], of what [getItem] answers; it never throws. *)
Definition readState (item : option Stored) : option PersistedDockviewWorkspaceState :=
  match item with
  | None => None
  | Some rawValue => if stored_truthy rawValue then parse rawValue ≫= fun j => normalizePersistedDockviewWorkspaceState (Some j) else None
  end.
Definition writeState (state : PersistedDockviewWorkspaceState) : Stored := stringify (persistedJson state).
End Client.

(** ** Snapshots of the dock *)

Definition truthyJson (j : Json) : bool :=
  match j with
  | JNull => false
  | JBool b => b
  | JNumber (Finite q) => negb (Qeq_bool q 0)
  | JNumber NaN => false
  | JString s => truthy s
  | _ => true
  end.

Definition readDockviewWorkspaceSnapshot (tabs : list WorkspaceLayoutTab) (workspaceId : Z) : option Json :=
  tabAt tabs workspaceId ≫= wt_snapshot.
Definition writeDockviewWorkspaceSnapshot (tabs : list WorkspaceLayoutTab) (workspaceId : Z) (snapshot : option Json)
    : list WorkspaceLayoutTab :=
  (fun workspace =>
     if decide (wt_id workspace = workspaceId) then mkTab (wt_id workspace) (wt_title workspace) snapshot else workspace) <$> tabs.
Definition createDockviewWorkspaceTab (tabs : list WorkspaceLayoutTab) : WorkspaceLayoutTab :=
  let nextWorkspaceId := foldl (fun maxWorkspaceId workspace => Z.max maxWorkspaceId (wt_id workspace)) 0 tabs + 1 in
  mkTab nextWorkspaceId ("Workspace-" +:+ showZ nextWorkspaceId) None.

Section Snapshots.
Context `{Dockview}.

Definition captureDockviewWorkspaceSnapshot (api : Dock) : option Json :=
  if (0 <? Z.of_nat (length (dock_panels api))) then Some (dock_toJSON api) else None.
Definition applyDockviewWorkspaceSnapshot (api : Dock) (snapshot : option Json) : Dock :=
  match snapshot with
  | Some j => if truthyJson j then dock_fromJSON j api else dock_clear api
  | None => dock_clear api
  end.
End Snapshots.

(** ** The catalog of widget kinds and the first layout *)

Definition getWorkspaceWidgetKindEntry (entries : option (list WorkspaceWidgetKindCatalogEntry)) (kind : string)
    : option WorkspaceWidgetKindCatalogEntry :=
  entries ≫= find (fun entry => bool_decide (wk_kind entry = kind)).
Definition isWorkspaceWidgetKindCreatable (entries : option (list WorkspaceWidgetKindCatalogEntry)) (kind : string) : bool :=
  match getWorkspaceWidgetKindEntry entries kind with
  | Some entry => match wk_status entry with KindAvailable => wk_runtime_owned entry && wk_can_create entry | _ => false end
  | None => false
  end.
Definition isWorkspaceWidgetKindFrontendLocal (entries : option (list WorkspaceWidgetKindCatalogEntry)) (kind : string) : bool :=
  match getWorkspaceWidgetKindEntry entries kind with
  | Some entry => match wk_status entry with KindFrontendLocal => negb (wk_runtime_owned entry) | _ => false end
  | None => false
  end.

Definition canSeedBackendWidgetKind (entries : option (list WorkspaceWidgetKindCatalogEntry)) (kind : string) : bool :=
  if entries then isWorkspaceWidgetKindCreatable entries kind else true.
Definition canSeedFrontendLocalWidgetKind (entries : option (list WorkspaceWidgetKindCatalogEntry)) (kind : string) : bool :=
  if entries then isWorkspaceWidgetKindFrontendLocal entries kind else true.

Section Bootstrap.
Context `{Dockview}.

Definition hasDockviewWorkspaceBootstrap (api : Dock) : bool := if getPanel api "terminal-header" then true else false.

(** The dock after the panels were added; the snapshot is its layout. *)
Definition seedDockviewWorkspaceBootstrap (api : Dock) (entries : option (list WorkspaceWidgetKindCatalogEntry)) : Dock :=
  let params preset := Some (terminalParamsJson (createTerminalPanelParams preset None None)) in
  if canSeedBackendWidgetKind entries "terminal" then
    let api := dock_add (mkAddPanel "terminal-header" "Main terminal" "terminal-tab" (params PresetMain) None) api in
    let api := dock_add (mkAddPanel "terminal" "Workspace shell" "terminal-tab" (params PresetWorkspace)
      (Some (DirectionBelow, None))) api in
    if canSeedFrontendLocalWidgetKind entries "commander" then
      dock_add (mkAddPanel "tool" "tool" "commander-tab" None (Some (DirectionRight, Some "terminal"))) api
    else api
  else api.

(** What [resolveDockviewWorkspaceReadyState] does to the dock, and the snapshot of a seeded one. *)
Definition resolveDockviewWorkspaceReadyState (api : Dock) (activeWorkspaceId : Z) (hasPersistedWorkspaceState : bool)
    (entries : option (list WorkspaceWidgetKindCatalogEntry)) (tabs : list WorkspaceLayoutTab) : Dock * option Json :=
  if hasDockviewWorkspaceBootstrap api then (api, None)
  else
    match (snapshot ← readDockviewWorkspaceSnapshot tabs activeWorkspaceId; if truthyJson snapshot then Some snapshot else None) with
    | Some snapshot => (dock_fromJSON snapshot api, None)
    | None =>
        if hasPersistedWorkspaceState then (dock_clear api, None)
        else
          let seeded := seedDockviewWorkspaceBootstrap api entries in
          (seeded, Some (dock_toJSON seeded))
    end.
End Bootstrap.

(** ** The hook *)

Definition DOCKVIEW_PERSIST_DEBOUNCE_MS : Z := 120.

(** The refs, which the states of React follow, the dock when there is one, and
    the persistence controller: its subscription and the deadline of its timer. *)
Record WorkspaceState `{Dockview} := mkWorkspaces {
  wz_workspaceTabs : list WorkspaceLayoutTab;
  wz_activeWorkspaceId : Z;
  wz_dockviewApi : option Dock;
  wz_bound : bool;
  wz_timeout : option Z
}.
Arguments mkWorkspaces {_}.

Section Hook.
Context `{Dockview}.

(** [initial] is what [readState] answers when the hook mounts. *)
Definition mountedWorkspaces (initial : option PersistedDockviewWorkspaceState) : WorkspaceState :=
  mkWorkspaces ((ws_workspaceTabs <$> initial) ?? createDefaultWorkspaceTabs)
    ((ws_activeWorkspaceId <$> initial) ?? DEFAULT_ACTIVE_WORKSPACE_ID) None false None.

Definition updateWorkspaceTabs (updater : list WorkspaceLayoutTab -> list WorkspaceLayoutTab) (s : WorkspaceState) : WorkspaceState :=
  mkWorkspaces (updater (wz_workspaceTabs s)) (wz_activeWorkspaceId s) (wz_dockviewApi s) (wz_bound s) (wz_timeout s).
Definition activateWorkspace (workspaceId : Z) (s : WorkspaceState) : WorkspaceState :=
  mkWorkspaces (wz_workspaceTabs s) workspaceId (wz_dockviewApi s) (wz_bound s) (wz_timeout s).
Definition setDock (api : Dock) (s : WorkspaceState) : WorkspaceState :=
  mkWorkspaces (wz_workspaceTabs s) (wz_activeWorkspaceId s) (Some api) (wz_bound s) (wz_timeout s).
Definition setTimer (timeout : option Z) (s : WorkspaceState) : WorkspaceState :=
  mkWorkspaces (wz_workspaceTabs s) (wz_activeWorkspaceId s) (wz_dockviewApi s) (wz_bound s) timeout.

Definition persistCurrentWorkspaceSnapshot (s : WorkspaceState) : WorkspaceState :=
  match wz_dockviewApi s with
  | None => s
  | Some api =>
      updateWorkspaceTabs (fun tabs =>
        writeDockviewWorkspaceSnapshot tabs (wz_activeWorkspaceId s) (captureDockviewWorkspaceSnapshot api)) s
  end.
Definition restoreWorkspaceSnapshot (workspaceId : Z) (s : WorkspaceState) : WorkspaceState :=
  match wz_dockviewApi s with
  | None => s
  | Some api => setDock (applyDockviewWorkspaceSnapshot api (readDockviewWorkspaceSnapshot (wz_workspaceTabs s) workspaceId)) s
  end.

Definition selectDockviewWorkspace (nextWorkspaceId : Z) (s : WorkspaceState) : WorkspaceState :=
  if decide (nextWorkspaceId = wz_activeWorkspaceId s) then s
  else restoreWorkspaceSnapshot nextWorkspaceId (activateWorkspace nextWorkspaceId (persistCurrentWorkspaceSnapshot s)).

(** The new tab is made of the tabs as they were before the capture. *)
Definition addDockviewWorkspace (s : WorkspaceState) : WorkspaceState :=
  let nextWorkspace := createDockviewWorkspaceTab (wz_workspaceTabs s) in
  restoreWorkspaceSnapshot (wt_id nextWorkspace)
    (activateWorkspace (wt_id nextWorkspace)
      (updateWorkspaceTabs (fun tabs => tabs ++ [nextWorkspace]) (persistCurrentWorkspaceSnapshot s))).

(** With the result, whether a title has changed. *)
Definition renameDockviewWorkspace (workspaceId : Z) (title : string) (s : WorkspaceState) : WorkspaceState * bool :=
  let nextTitle := trimText title in
  if truthy nextTitle then
    (updateWorkspaceTabs (fmap (fun workspace =>
       if bool_decide (wt_id workspace <> workspaceId) || bool_decide (wt_title workspace = nextTitle) then workspace
       else mkTab (wt_id workspace) nextTitle (wt_snapshot workspace))) s,
     some (fun workspace => negb (bool_decide (wt_id workspace <> workspaceId) || bool_decide (wt_title workspace = nextTitle)))
       (wz_workspaceTabs s))
  else (s, false).

(** [nextTabs[i] ?? nextTabs[i - 1] ?? nextTabs[0]] *)
Definition fallbackTab (nextTabs : list WorkspaceLayoutTab) (i : nat) : option WorkspaceLayoutTab :=
  match nextTabs !! i with
  | Some workspace => Some workspace
  | None =>
      match at_ nextTabs (Z.of_nat i - 1) with
      | Some workspace => Some workspace
      | None => head nextTabs
      end
  end.

(** With the result, whether the workspace is gone. *)
Definition deleteDockviewWorkspace (workspaceId : Z) (s : WorkspaceState) : WorkspaceState * bool :=
  let workspaceTabs := wz_workspaceTabs s in
  if Z.of_nat (length workspaceTabs) <=? 1 then (s, false)
  else
    match findIndex (fun workspace => bool_decide (wt_id workspace = workspaceId)) workspaceTabs with
    | None => (s, false)
    | Some workspaceIndex =>
        let nextTabs := filterb (fun workspace => negb (bool_decide (wt_id workspace = workspaceId))) workspaceTabs in
        let deleted := updateWorkspaceTabs (fun _ => nextTabs) (persistCurrentWorkspaceSnapshot s) in
        if negb (bool_decide (wz_activeWorkspaceId s = workspaceId)) then (deleted, true)
        else
          match fallbackTab nextTabs workspaceIndex with
          | None => (deleted, false)
          | Some fallbackWorkspace =>
              (restoreWorkspaceSnapshot (wt_id fallbackWorkspace) (activateWorkspace (wt_id fallbackWorkspace) deleted), true)
          end
    end.

(** [handleDockviewReady] with the dock [api] *)
Definition handleDockviewReady (api : Dock) (hasPersisted : bool) (entries : option (list WorkspaceWidgetKindCatalogEntry))
    (s : WorkspaceState) : WorkspaceState :=
  let '(ready, seeded) := resolveDockviewWorkspaceReadyState api (wz_activeWorkspaceId s) hasPersisted entries (wz_workspaceTabs s) in
  let bound := mkWorkspaces (wz_workspaceTabs s) (wz_activeWorkspaceId s) (Some ready) true (wz_timeout s) in
  match seeded with
  | Some snapshot => updateWorkspaceTabs (fun tabs => writeDockviewWorkspaceSnapshot tabs DEFAULT_ACTIVE_WORKSPACE_ID (Some snapshot)) bound
  | None => bound
  end.

(** The controller: an event of the dock at [now], the timer, and the unmount. *)
Definition schedule (now : Z) (s : WorkspaceState) : WorkspaceState :=
  if wz_bound s then setTimer (Some (now + DOCKVIEW_PERSIST_DEBOUNCE_MS)) s else s.
Definition onTimeout (now : Z) (s : WorkspaceState) : WorkspaceState :=
  match wz_timeout s with
  | Some deadline => if deadline <=? now then persistCurrentWorkspaceSnapshot (setTimer None s) else s
  | None => s
  end.
Definition dispose (s : WorkspaceState) : WorkspaceState :=
  mkWorkspaces (wz_workspaceTabs s) (wz_activeWorkspaceId s) (wz_dockviewApi s) false None.

(** What the effect after a rendering stores. *)
Definition storedWorkspaces `{JsonStore} (s : WorkspaceState) : Stored :=
  writeState (mkPersisted (wz_activeWorkspaceId s) (wz_workspaceTabs s)).
End Hook.

(** ** The title of the window *)

Definition PRODUCT_LABEL : string := "RunaTerminal".
Definition resolveAutoTitle (activeWorkspaceId : Z) (tabs : list WorkspaceLayoutTab) (fallbackAutoTitle : string) : string :=
  let title := truthyOpt (trimText ∘ wt_title <$> tabAt tabs activeWorkspaceId) ?? trimText fallbackAutoTitle in
  if truthy title then title +:+ " · " +:+ PRODUCT_LABEL else PRODUCT_LABEL.
Definition windowTitle (activeWorkspaceId : Z) (autoTitle customTitle : string) (custom : bool)
    (tabs : list WorkspaceLayoutTab) : string :=
  if custom && truthy (trimText customTitle) then trimText customTitle
  else resolveAutoTitle activeWorkspaceId tabs autoTitle.

(** * What the shell promises *)

(** A bar of workspaces: each keeps its layout, and one is shown.  [None] is an
    empty workspace. *)
Record WorkspaceBar := mkBar { br_workspaces : list (Z * string * option Json); br_active : Z }.
Definition bar_ids (b : WorkspaceBar) : list Z := fst ∘ fst <$> br_workspaces b.

(** What happens to the shell with a dock [Dk]: the user's choices in the bar, the
    user's changes of the layout, the dock's events, the timer and the unmount. *)
Inductive WorkspaceEvent (Dk : Type) :=
  | SelectWorkspace (id : Z)
  | AddWorkspace
  | RenameWorkspace (id : Z) (title : string)
  | DeleteWorkspace (id : Z)
  | ChangeLayout (api : Dk)
  | DockEvent (now : Z)
  | TimerFires (now : Z)
  | Unmount.
Arguments SelectWorkspace {Dk} id.
Arguments AddWorkspace {Dk}.
Arguments RenameWorkspace {Dk} id title.
Arguments DeleteWorkspace {Dk} id.
Arguments ChangeLayout {Dk} api.
Arguments DockEvent {Dk} now.
Arguments TimerFires {Dk} now.
Arguments Unmount {Dk}.

(** The workspace shown after the deletion of the one at [i]: the next one, or
    the last one. *)
Definition neighbour (ids : list Z) (i : nat) : option Z :=
  match ids !! i with Some id => Some id | None => last ids end.

(** What the bar makes of an event: selecting shows the workspace, adding shows
    an empty one behind the others, with an id above theirs, renaming and
    deleting are of one workspace, the last one stays, and a change of the layout
    is the active one's.  The dock's events, the timer and the unmount are
    nothing to the bar. *)
Definition barEvent {Dk : Type} (shows : Dk -> option Json) (e : WorkspaceEvent Dk) (b : WorkspaceBar) : WorkspaceBar :=
  match e with
  | SelectWorkspace id => mkBar (br_workspaces b) id
  | AddWorkspace =>
      let id := foldr Z.max 0 (bar_ids b) + 1 in
      mkBar (br_workspaces b ++ [(id, "Workspace-" +:+ showZ id, None)]) id
  | RenameWorkspace id title =>
      if truthy (trimText title)
      then mkBar ((fun w => if decide (w.1.1 = id) then (id, trimText title, w.2) else w) <$> br_workspaces b) (br_active b)
      else b
  | DeleteWorkspace id =>
      match findIndex (fun x => bool_decide (x = id)) (bar_ids b) with
      | Some i =>
          if decide (length (bar_ids b) = 1)%nat then b
          else
            let left := mkBar (filterb (fun w => negb (bool_decide (w.1.1 = id))) (br_workspaces b)) (br_active b) in
            if decide (br_active b = id)
            then mkBar (br_workspaces left) (neighbour (bar_ids left) i ?? br_active b)
            else left
      | None => b
      end
  | ChangeLayout api =>
      mkBar ((fun w => if decide (w.1.1 = br_active b) then (w.1, shows api) else w) <$> br_workspaces b) (br_active b)
  | _ => b
  end.

Section Refinement.
Context `{D : Dockview} `{!DockviewLaws D}.

Notation Event := (WorkspaceEvent Dock).

Definition onWorkspaceEvent (e : Event) (s : WorkspaceState) : WorkspaceState :=
  match e with
  | SelectWorkspace id => selectDockviewWorkspace id s
  | AddWorkspace => addDockviewWorkspace s
  | RenameWorkspace id title => fst (renameDockviewWorkspace id title s)
  | DeleteWorkspace id => fst (deleteDockviewWorkspace id s)
  | ChangeLayout d => setDock d s
  | DockEvent now => schedule now s
  | TimerFires now => onTimeout now s
  | Unmount => dispose s
  end.

(** The tabs that can be selected. *)
Definition offers (s : WorkspaceState) (e : Event) : Prop :=
  match e with SelectWorkspace id => id ∈ wt_id <$> wz_workspaceTabs s | _ => True end.
Fixpoint offered (s : WorkspaceState) (es : list Event) : Prop :=
  match es with [] => True | e :: es => offers s e /\ offered (onWorkspaceEvent e s) es end.

Definition workspace_step (s s' : WorkspaceState) : Prop := exists e, offers s e /\ s' = onWorkspaceEvent e s.
Definition runWorkspaces (s : WorkspaceState) (es : list Event) : WorkspaceState := foldl (fun s e => onWorkspaceEvent e s) s es.
Definition runBar (b : WorkspaceBar) (es : list Event) : WorkspaceBar :=
  foldl (fun b e => barEvent captureDockviewWorkspaceSnapshot e b) b es.

(** The layout of a workspace: the dock's for the active one, and for another
    one what the dock would show of its snapshot. *)
Definition layoutOf (api : Dock) (s : WorkspaceState) (id : Z) (snapshot : option Json) : option Json :=
  captureDockviewWorkspaceSnapshot
    (if decide (id = wz_activeWorkspaceId s) then api else applyDockviewWorkspaceSnapshot api snapshot).
Definition barOf (api : Dock) (s : WorkspaceState) : WorkspaceBar :=
  mkBar ((fun w => (wt_id w, wt_title w, layoutOf api s (wt_id w) (wt_snapshot w))) <$> wz_workspaceTabs s)
    (wz_activeWorkspaceId s).

(** A snapshot that a dock wrote. *)
Definition written (snapshot : option Json) : Prop := forall j, snapshot = Some j -> exists d : Dock, j = dock_toJSON d.

(** The workspaces have different ids, one of them is active, and the snapshots
    are of docks. *)
Definition workspaces_ok (s : WorkspaceState) : Prop :=
  NoDup (wt_id <$> wz_workspaceTabs s) /\ wz_activeWorkspaceId s ∈ wt_id <$> wz_workspaceTabs s /\
  Forall (fun w => written (wt_snapshot w)) (wz_workspaceTabs s).

(** * Lemmas *)

Lemma find_id tabs id : is_Some (tabAt tabs id) <-> id ∈ wt_id <$> tabs.
Proof.
  unfold tabAt. split.
  - intros [w [Hw Hid]%find_Some]. apply bool_decide_eq_true in Hid as <-. by apply list_elem_of_fmap_2.
  - intros (w & -> & Hw)%list_elem_of_fmap. destruct (find _ tabs) eqn:E; [by eexists|].
    specialize (proj1 (find_None _ _) E w Hw). cbn. intros Hn%bool_decide_eq_false. done.
Qed.

Lemma tabAt_elem tabs w : NoDup (wt_id <$> tabs) -> w ∈ tabs -> tabAt tabs (wt_id w) = Some w.
Proof.
  unfold tabAt. induction tabs as [|v tabs IH]; [by intros _ ?%not_elem_of_nil|].
  cbn [fmap list_fmap find]. intros [Hv Hnd]%NoDup_cons [->|Hw]%elem_of_cons; [by rewrite bool_decide_eq_true_2|].
  rewrite bool_decide_eq_false_2; [by apply IH|]. intros E. apply Hv. rewrite E. by apply list_elem_of_fmap_2.
Qed.

Lemma write_ids tabs id snapshot : wt_id <$> writeDockviewWorkspaceSnapshot tabs id snapshot = wt_id <$> tabs.
Proof.
  unfold writeDockviewWorkspaceSnapshot. rewrite <- list_fmap_compose. apply list_fmap_ext. intros _ w _. cbn.
  by case_decide.
Qed.

Lemma capture_written api : written (captureDockviewWorkspaceSnapshot api).
Proof. intros j. unfold captureDockviewWorkspaceSnapshot. destruct (0 <? _); [|done]. intros [= <-]. by eexists. Qed.

Lemma capture_clear api : captureDockviewWorkspaceSnapshot (dock_clear api) = None.
Proof. unfold captureDockviewWorkspaceSnapshot. by rewrite panels_clear. Qed.

(** Showing what a dock wrote shows that dock, whatever was shown before. *)
Lemma capture_restored api d : captureDockviewWorkspaceSnapshot (applyDockviewWorkspaceSnapshot api (Some (dock_toJSON d))) =
  captureDockviewWorkspaceSnapshot d.
Proof.
  unfold applyDockviewWorkspaceSnapshot. destruct (json_object d) as [fields Hf].
  assert (truthyJson (dock_toJSON d) = true) as -> by by rewrite Hf.
  unfold captureDockviewWorkspaceSnapshot. by rewrite panels_fromJSON, json_fromJSON.
Qed.
Lemma capture_again api d : captureDockviewWorkspaceSnapshot (applyDockviewWorkspaceSnapshot api (captureDockviewWorkspaceSnapshot d)) =
  captureDockviewWorkspaceSnapshot d.
Proof.
  unfold captureDockviewWorkspaceSnapshot at 2. destruct (0 <? Z.of_nat (length (dock_panels d))) eqn:E.
  - by rewrite capture_restored.
  - cbn [applyDockviewWorkspaceSnapshot]. rewrite capture_clear. unfold captureDockviewWorkspaceSnapshot. by rewrite E.
Qed.
(** What is shown of a written snapshot does not depend on the dock. *)
Lemma capture_any api api' snapshot :
  written snapshot ->
  captureDockviewWorkspaceSnapshot (applyDockviewWorkspaceSnapshot api snapshot) =
  captureDockviewWorkspaceSnapshot (applyDockviewWorkspaceSnapshot api' snapshot).
Proof.
  intros Hw. destruct snapshot as [j|]; [|cbn; by rewrite !capture_clear].
  destruct (Hw j eq_refl) as [d ->]. by rewrite !capture_restored.
Qed.

(** ** The bar after a capture and a restore *)

Definition shownTabs (api : Dock) (tabs : list WorkspaceLayoutTab) : list (Z * string * option Json) :=
  (fun w => (wt_id w, wt_title w, captureDockviewWorkspaceSnapshot (applyDockviewWorkspaceSnapshot api (wt_snapshot w)))) <$> tabs.

Lemma shown_any api api' tabs :
  Forall (fun w => written (wt_snapshot w)) tabs -> shownTabs api tabs = shownTabs api' tabs.
Proof.
  intros Hw. apply list_fmap_ext. intros i w Hi. f_equal. apply capture_any.
  by apply (proj1 (Forall_lookup _ _) Hw i).
Qed.

Lemma restored_bar api tabs id s :
  NoDup (wt_id <$> tabs) -> Forall (fun w => written (wt_snapshot w)) tabs -> id ∈ wt_id <$> tabs ->
  wz_workspaceTabs s = tabs -> wz_dockviewApi s = Some api ->
  let s' := restoreWorkspaceSnapshot id (activateWorkspace id s) in
  exists api', wz_dockviewApi s' = Some api' /\ wz_workspaceTabs s' = tabs /\ wz_activeWorkspaceId s' = id /\
    barOf api' s' = mkBar (shownTabs api tabs) id.
Proof.
  intros Hnd Hw Hid Htabs Hdock. cbv zeta. unfold restoreWorkspaceSnapshot, activateWorkspace. cbn [wz_dockviewApi wz_workspaceTabs].
  rewrite Hdock. cbn. eexists. split; [reflexivity|]. split; [done|]. split; [done|].
  unfold barOf. cbn [wz_workspaceTabs wz_activeWorkspaceId setDock]. rewrite Htabs. f_equal.
  apply list_fmap_ext. intros i w Hi. f_equal. unfold layoutOf. cbn [wz_activeWorkspaceId setDock].
  apply list_elem_of_lookup_2 in Hi as Hin. case_decide as E.
  - subst id. unfold readDockviewWorkspaceSnapshot. rewrite tabAt_elem by done. reflexivity.
  - apply capture_any. apply (proj1 (Forall_forall _ _) Hw). done.
Qed.

Lemma persisted_tabs api s :
  wz_dockviewApi s = Some api -> workspaces_ok s ->
  let s' := persistCurrentWorkspaceSnapshot s in
  wz_dockviewApi s' = Some api /\ wz_activeWorkspaceId s' = wz_activeWorkspaceId s /\ workspaces_ok s' /\
  wt_id <$> wz_workspaceTabs s' = wt_id <$> wz_workspaceTabs s /\
  shownTabs api (wz_workspaceTabs s') = br_workspaces (barOf api s).
Proof.
  intros Hdock (Hnd & Hactive & Hw). cbv zeta. unfold persistCurrentWorkspaceSnapshot. rewrite Hdock.
  cbn [wz_dockviewApi wz_activeWorkspaceId wz_workspaceTabs updateWorkspaceTabs]. unfold workspaces_ok.
  cbn [wz_dockviewApi wz_activeWorkspaceId wz_workspaceTabs updateWorkspaceTabs]. rewrite write_ids.
  split; [done|]. split; [done|]. split; [split; [done|split; [done|]]|split; [done|]].
  - apply Forall_fmap. eapply Forall_impl; [exact Hw|]. intros w H1. cbn. case_decide; [apply capture_written|done].
  - unfold shownTabs, writeDockviewWorkspaceSnapshot, barOf, layoutOf. cbn [br_workspaces]. rewrite <- list_fmap_compose.
    apply list_fmap_ext. intros i w Hi. cbn. case_decide; cbn; [by rewrite capture_again|done].
Qed.

Lemma bar_ids_of api s : bar_ids (barOf api s) = wt_id <$> wz_workspaceTabs s.
Proof. unfold bar_ids, barOf. cbn [br_workspaces]. by rewrite <- list_fmap_compose. Qed.

(** ** Adding and deleting *)

Lemma fold_max tabs : forall n, Forall (fun w => wt_id w <= foldl (fun m w => Z.max m (wt_id w)) n tabs) tabs /\
  n <= foldl (fun m w => Z.max m (wt_id w)) n tabs.
Proof.
  induction tabs as [|w tabs IH]; intros n; cbn [foldl]; [by split; [constructor|lia]|].
  destruct (IH (Z.max n (wt_id w))) as [H1 H2]. split; [constructor; [lia|done]|lia].
Qed.

Lemma next_id_fresh tabs : wt_id (createDockviewWorkspaceTab tabs) ∉ wt_id <$> tabs.
Proof.
  unfold createDockviewWorkspaceTab. cbn [wt_id]. intros (w & Hw & Hin)%list_elem_of_fmap.
  destruct (fold_max tabs 0) as [Hmax _]. pose proof (proj1 (Forall_forall _ _) Hmax w Hin). cbn in *. lia.
Qed.

Lemma filter_ids id tabs :
  wt_id <$> filterb (fun w => negb (bool_decide (wt_id w = id))) tabs = filterb (fun i => negb (bool_decide (i = id))) (wt_id <$> tabs).
Proof.
  unfold filterb. induction tabs as [|w tabs IH]; [done|]. cbn. destruct (negb _); cbn; by rewrite IH.
Qed.

Lemma fallback_in nextTabs i w : fallbackTab nextTabs i = Some w -> w ∈ nextTabs.
Proof.
  unfold fallbackTab. destruct (nextTabs !! i) eqn:E; [intros [= <-]; by eapply list_elem_of_lookup_2|].
  destruct (at_ nextTabs _) as [v|] eqn:E2.
  - intros [= <-]. revert E2. unfold at_. destruct (decide _); [|done]. intros ?. by eapply list_elem_of_lookup_2.
  - destruct nextTabs; [done|]. intros [= ->]. by left.
Qed.
Lemma fallback_some nextTabs i : nextTabs <> [] -> is_Some (fallbackTab nextTabs i).
Proof.
  unfold fallbackTab. intros Hne. destruct (nextTabs !! i); [by eexists|]. destruct (at_ _ _); [by eexists|].
  destruct nextTabs; [done|]. by eexists.
Qed.

(** ** Every step *)

Definition refines_step (f : WorkspaceBar -> WorkspaceBar) (s s' : WorkspaceState) : Prop :=
  forall api, wz_dockviewApi s = Some api -> workspaces_ok s ->
  exists api', wz_dockviewApi s' = Some api' /\ workspaces_ok s' /\ barOf api' s' = f (barOf api s).
Notation bar := (barEvent captureDockviewWorkspaceSnapshot).

(** A step after which the dock, the tabs and the active one are the same. *)
Lemma refines_same s s' :
  wz_dockviewApi s' = wz_dockviewApi s -> wz_workspaceTabs s' = wz_workspaceTabs s ->
  wz_activeWorkspaceId s' = wz_activeWorkspaceId s -> refines_step (fun b => b) s s'.
Proof.
  intros H1 H2 H3 api Hdock Hok. exists api. rewrite H1. split; [done|]. unfold workspaces_ok. rewrite H2, H3.
  split; [done|]. unfold barOf, layoutOf. by rewrite H2, H3.
Qed.

Lemma refines_capture s : refines_step (fun b => b) s (persistCurrentWorkspaceSnapshot s).
Proof.
  intros api Hdock Hok. destruct (persisted_tabs api s Hdock Hok) as (H1 & H2 & H3 & H4 & H5).
  exists api. split; [done|]. split; [done|].
  unfold persistCurrentWorkspaceSnapshot. rewrite Hdock. unfold barOf, layoutOf, writeDockviewWorkspaceSnapshot.
  cbn [wz_workspaceTabs wz_activeWorkspaceId updateWorkspaceTabs]. f_equal. rewrite <- list_fmap_compose.
  apply list_fmap_ext. intros i w Hi. cbn. destruct (decide (wt_id w = wz_activeWorkspaceId s)) as [E|E]; cbn.
  - by rewrite decide_True.
  - by rewrite decide_False.
Qed.

Lemma refines_select id s :
  id ∈ wt_id <$> wz_workspaceTabs s -> refines_step (bar (SelectWorkspace id)) s (selectDockviewWorkspace id s).
Proof.
  intros Hid api Hdock Hok. unfold selectDockviewWorkspace. case_decide as E.
  { exists api. split; [done|]. split; [done|]. by rewrite E. }
  destruct (persisted_tabs api s Hdock Hok) as (H1 & H2 & (H3 & H4 & H5) & H6 & H7).
  destruct (restored_bar api _ id (persistCurrentWorkspaceSnapshot s) H3 H5 ltac:(by rewrite H6) eq_refl H1)
    as (api' & R1 & R2 & R3 & R4).
  exists api'. split; [done|]. split.
  - split; [by rewrite R2|]. rewrite R2, R3. split; [by rewrite H6|done].
  - by rewrite R4, H7.
Qed.

Lemma max_ids tabs : foldr Z.max 0 (wt_id <$> tabs) = foldl (fun m w => Z.max m (wt_id w)) 0 tabs.
Proof.
  assert (forall n, foldl (fun m w => Z.max m (wt_id w)) n tabs = Z.max n (foldr Z.max 0 (wt_id <$> tabs)) \/ n < 0) as Hgo.
  { induction tabs as [|w tabs IH]; intros n; cbn; [lia|]. destruct (IH (Z.max n (wt_id w))) as [->|]; lia. }
  destruct (Hgo 0) as [->|]; [|lia]. assert (0 <= foldr Z.max 0 (wt_id <$> tabs)); [|lia].
  clear. induction tabs; cbn; lia.
Qed.

Lemma refines_add s : refines_step (bar AddWorkspace) s (addDockviewWorkspace s).
Proof.
  intros api Hdock Hok. unfold addDockviewWorkspace. pose proof (next_id_fresh (wz_workspaceTabs s)) as Hfresh.
  set (new := createDockviewWorkspaceTab (wz_workspaceTabs s)) in *.
  destruct (persisted_tabs api s Hdock Hok) as (H1 & H2 & (H3 & H4 & H5) & H6 & H7).
  set (s1 := updateWorkspaceTabs (fun tabs => tabs ++ [new]) (persistCurrentWorkspaceSnapshot s)).
  assert (NoDup (wt_id <$> wz_workspaceTabs s1) /\ Forall (fun w => written (wt_snapshot w)) (wz_workspaceTabs s1) /\
    wt_id new ∈ wt_id <$> wz_workspaceTabs s1) as (N1 & N2 & N3).
  { cbn [s1 wz_workspaceTabs updateWorkspaceTabs]. rewrite fmap_app, H6. split; [|split].
    - apply NoDup_app. split; [by rewrite <- H6|]. split; [|apply NoDup_singleton].
      intros x Hx ->%list_elem_of_singleton. done.
    - apply Forall_app. split; [done|]. constructor; [|done]. by intros j.
    - apply elem_of_app. right. by left. }
  destruct (restored_bar api _ (wt_id new) s1 N1 N2 N3 eq_refl H1) as (api' & R1 & R2 & R3 & R4).
  exists api'. split; [done|]. split; [unfold workspaces_ok; by rewrite R2, R3|].
  rewrite R4. cbn [s1 wz_workspaceTabs updateWorkspaceTabs]. unfold shownTabs. rewrite fmap_app. fold (shownTabs api (wz_workspaceTabs (persistCurrentWorkspaceSnapshot s))).
  rewrite H7. cbn [fmap list_fmap]. cbn [new createDockviewWorkspaceTab wt_snapshot applyDockviewWorkspaceSnapshot].
  rewrite capture_clear. cbn [barEvent]. by rewrite bar_ids_of, max_ids.
Qed.

Lemma rename_tabs id title s :
  let s' := fst (renameDockviewWorkspace id title s) in
  wz_dockviewApi s' = wz_dockviewApi s /\ wz_activeWorkspaceId s' = wz_activeWorkspaceId s /\
  if truthy (trimText title)
  then wz_workspaceTabs s' =
    (fun w => if decide (wt_id w = id) then mkTab (wt_id w) (trimText title) (wt_snapshot w) else w) <$> wz_workspaceTabs s
  else s' = s.
Proof.
  cbv zeta. unfold renameDockviewWorkspace. destruct (truthy _); [|done].
  split; [done|]. split; [done|]. cbn. apply list_fmap_ext. intros _ w _.
  destruct (decide (wt_id w = id)) as [E|E].
  - rewrite bool_decide_eq_false_2 by (intros Hn; by apply Hn). cbn [orb].
    destruct (bool_decide (wt_title w = trimText title)) eqn:E2; [|done]. apply bool_decide_eq_true in E2 as <-. by destruct w.
  - by rewrite bool_decide_eq_true_2.
Qed.

Lemma refines_rename id title s : refines_step (bar (RenameWorkspace id title)) s (fst (renameDockviewWorkspace id title s)).
Proof.
  intros api Hdock Hok. destruct (rename_tabs id title s) as (H1 & H2 & H3). cbn [barEvent].
  destruct (truthy (trimText title)); [|rewrite H3; by exists api].
  exists api. rewrite H1. split; [done|].
  assert (wt_id <$> wz_workspaceTabs (fst (renameDockviewWorkspace id title s)) = wt_id <$> wz_workspaceTabs s) as Hids.
  { rewrite H3, <- list_fmap_compose. apply list_fmap_ext. intros _ w _. cbn. by case_decide. }
  destruct Hok as (O1 & O2 & O3). split.
  - unfold workspaces_ok. rewrite Hids, H2, H3. split; [done|]. split; [done|]. apply Forall_fmap.
    eapply Forall_impl; [exact O3|]. intros w Hw. cbn. by case_decide.
  - unfold barOf, layoutOf. rewrite H2, H3. cbn [br_workspaces br_active]. f_equal. rewrite <- !list_fmap_compose.
    apply list_fmap_ext. intros _ w _. cbn [compose]. cbn [fst snd].
    destruct (decide (wt_id w = id)) as [E|E]; cbn [wt_id wt_title wt_snapshot]; [by rewrite E|done].
Qed.

Section Deleted.
Variables (api : Dock) (s : WorkspaceState) (id : Z).
Hypothesis Hok : workspaces_ok s.
Notation nextTabs := (filterb (fun w => negb (bool_decide (wt_id w = id))) (wz_workspaceTabs s)).

Lemma next_ids x : x ∈ wt_id <$> nextTabs <-> x ∈ wt_id <$> wz_workspaceTabs s /\ x <> id.
Proof.
  rewrite filter_ids, elem_of_filterb. split; intros [Hx Hn]; (split; [done|]).
  - by apply negb_true_iff, bool_decide_eq_false in Hn.
  - by apply negb_true_iff, bool_decide_eq_false.
Qed.

Lemma next_ok : NoDup (wt_id <$> nextTabs) /\ Forall (fun w => written (wt_snapshot w)) nextTabs.
Proof.
  destruct Hok as (O1 & O2 & O3). split.
  - rewrite filter_ids. eapply sublist_NoDup; [exact O1|apply filterb_sublist].
  - apply Forall_forall. intros w [Hw _]%elem_of_filterb. by apply (proj1 (Forall_forall _ _) O3).
Qed.

Lemma next_nonempty : 1 < Z.of_nat (length (wz_workspaceTabs s)) -> nextTabs <> [].
Proof.
  intros Hlen Hnil. assert (length (wt_id <$> wz_workspaceTabs s) <= length [id])%nat as Hl.
  { apply submseteq_length, NoDup_submseteq; [apply Hok|]. intros x Hx. apply list_elem_of_singleton.
    destruct (decide (x = id)) as [|Hn]; [done|]. assert (x ∈ wt_id <$> nextTabs) as Hin by (by apply next_ids).
    rewrite Hnil in Hin. by apply not_elem_of_nil in Hin. }
  rewrite length_fmap in Hl. cbn in Hl. lia.
Qed.

Lemma findIndex_fmap {A B} (g : A -> B) (f : B -> bool) (l : list A) : findIndex f (g <$> l) = findIndex (fun x => f (g x)) l.
Proof. induction l as [|x l IH]; [done|]. cbn. destruct (f (g x)); [done|]. by rewrite <- IH. Qed.

Lemma fallback_neighbour tabs i : (i <= length tabs)%nat -> wt_id <$> fallbackTab tabs i = neighbour (wt_id <$> tabs) i.
Proof.
  intros Hi. unfold fallbackTab, neighbour. rewrite list_lookup_fmap. destruct (tabs !! i) eqn:E; [done|]. cbn.
  apply lookup_ge_None in E. assert (i = length tabs) as -> by lia. clear E Hi.
  destruct (decide (tabs = [])) as [->|Hne]; [done|].
  assert (0 < length tabs)%nat as Hpos by (destruct tabs; [done|cbn; lia]).
  unfold at_. rewrite decide_True by lia. replace (Z.to_nat (Z.of_nat (length tabs) - 1)) with (pred (length tabs)) by lia.
  rewrite <- last_lookup, fmap_last. destruct (last tabs) eqn:E; [done|]. by apply last_None in E.
Qed.

Lemma next_length i :
  findIndex (fun w => bool_decide (wt_id w = id)) (wz_workspaceTabs s) = Some i -> (i <= length nextTabs)%nat.
Proof.
  intros (w & Hw & Hid & Hbefore)%findIndex_Some.
  assert (sublist (take i (wz_workspaceTabs s)) nextTabs) as Hsub.
  { rewrite <- (take_drop i (wz_workspaceTabs s)) at 2. rewrite filterb_app.
    rewrite (filterb_all (fun w => negb (bool_decide (wt_id w = id))) (take i (wz_workspaceTabs s))).
    { by apply sublist_inserts_r. }
    intros x Hx. apply list_elem_of_lookup in Hx as [j Hj]. apply lookup_take_Some in Hj as [Hj Hlt].
    by rewrite (Hbefore j x Hlt Hj). }
  apply sublist_length in Hsub. rewrite length_take in Hsub. apply lookup_lt_Some in Hw. lia.
Qed.

Lemma deleted_bar (f : WorkspaceLayoutTab -> option Json) :
  (forall w, w ∈ nextTabs -> f w = layoutOf api s (wt_id w) (wt_snapshot w)) ->
  (fun w => (wt_id w, wt_title w, f w)) <$> nextTabs =
    filterb (fun w => negb (bool_decide (w.1.1 = id))) (br_workspaces (barOf api s)).
Proof.
  intros Hf. transitivity ((fun w => (wt_id w, wt_title w, layoutOf api s (wt_id w) (wt_snapshot w))) <$> nextTabs).
  - apply list_fmap_ext. intros j w Hj. f_equal. apply Hf. by eapply list_elem_of_lookup_2.
  - unfold barOf, filterb. cbn [br_workspaces]. clear. induction (wz_workspaceTabs s) as [|w l IH]; [done|].
    cbn. destruct (negb _); cbn; by rewrite IH.
Qed.

(** The deletion in the bar. *)
Lemma bar_deletes i :
  findIndex (fun w => bool_decide (wt_id w = id)) (wz_workspaceTabs s) = Some i -> 1 < Z.of_nat (length (wz_workspaceTabs s)) ->
  barEvent captureDockviewWorkspaceSnapshot (DeleteWorkspace id) (barOf api s) =
  mkBar (filterb (fun w => negb (bool_decide (w.1.1 = id))) (br_workspaces (barOf api s)))
    (if decide (wz_activeWorkspaceId s = id) then neighbour (wt_id <$> nextTabs) i ?? wz_activeWorkspaceId s
     else wz_activeWorkspaceId s).
Proof.
  intros Hi Hlen. cbn [barEvent]. rewrite bar_ids_of, findIndex_fmap, Hi.
  rewrite decide_False by (rewrite length_fmap; lia). change (br_active (barOf api s)) with (wz_activeWorkspaceId s).
  assert (bar_ids (mkBar (filterb (fun w => negb (bool_decide (w.1.1 = id))) (br_workspaces (barOf api s))) (wz_activeWorkspaceId s)) =
    wt_id <$> nextTabs) as Hids.
  { unfold bar_ids. cbn [br_workspaces]. rewrite <- (deleted_bar (fun w => layoutOf api s (wt_id w) (wt_snapshot w))) by done.
    by rewrite <- list_fmap_compose. }
  cbv zeta. rewrite Hids. by destruct (decide _).
Qed.
End Deleted.

(** The deletions that do nothing. *)
Lemma bar_keeps id api s :
  workspaces_ok s ->
  Z.of_nat (length (wz_workspaceTabs s)) <= 1 \/ findIndex (fun w => bool_decide (wt_id w = id)) (wz_workspaceTabs s) = None ->
  bar (DeleteWorkspace id) (barOf api s) = barOf api s.
Proof.
  intros (_ & Hin & _) Hs. cbn [barEvent]. rewrite bar_ids_of, findIndex_fmap.
  destruct (findIndex _ _) as [i|] eqn:Ei; [|done]. destruct Hs as [Hs|Hs]; [|done].
  rewrite decide_True; [done|]. rewrite length_fmap. apply findIndex_lt in Ei. lia.
Qed.

Lemma refines_delete id s : refines_step (bar (DeleteWorkspace id)) s (fst (deleteDockviewWorkspace id s)).
Proof.
  intros api Hdock Hok. unfold deleteDockviewWorkspace. pose proof (bar_keeps id api s Hok) as Hkeep.
  destruct (Z.of_nat _ <=? 1) eqn:E1.
  { apply Z.leb_le in E1. exists api. split; [done|]. split; [done|]. by rewrite Hkeep by by left. }
  apply Z.leb_gt in E1. destruct (findIndex _ _) as [i|] eqn:Ei; [|exists api; split; [done|]; split; [done|]; by rewrite Hkeep by by right].
  clear Hkeep. rewrite (bar_deletes api s id i Ei E1).
  destruct (persisted_tabs api s Hdock Hok) as (H1 & H2 & _). destruct (next_ok s id Hok) as [N1 N2].
  pose proof (next_ids s id) as N3. pose proof (next_nonempty s id Hok E1) as N4. pose proof (deleted_bar api s id) as Hbar.
  pose proof (next_length s id i Ei) as N5.
  set (nextTabs := filterb (fun w => negb (bool_decide (wt_id w = id))) (wz_workspaceTabs s)) in *.
  cbv zeta. destruct (bool_decide (wz_activeWorkspaceId s = id)) eqn:E2; cbn [negb].
  - apply bool_decide_eq_true in E2. rewrite decide_True by done. rewrite <- fallback_neighbour by done.
    destruct (fallback_some nextTabs i N4) as [w Hw]. rewrite Hw. cbn [fst fmap option_fmap option_map nullish default from_option].
    apply fallback_in in Hw. assert (wt_id w ∈ wt_id <$> nextTabs) as Hwid by by apply list_elem_of_fmap_2.
    set (s1 := updateWorkspaceTabs (fun _ => nextTabs) (persistCurrentWorkspaceSnapshot s)).
    destruct (restored_bar api nextTabs (wt_id w) s1 N1 N2 Hwid eq_refl H1) as (api' & R1 & R2 & R3 & R4).
    exists api'. split; [done|]. split; [unfold workspaces_ok; by rewrite R2, R3|]. rewrite R4. f_equal. unfold shownTabs.
    apply Hbar. intros v Hv. unfold layoutOf. rewrite decide_False; [done|].
    assert (wt_id v ∈ wt_id <$> nextTabs) as Hvid by by apply list_elem_of_fmap_2. apply N3 in Hvid as [_ Hvne]. congruence.
  - apply bool_decide_eq_false in E2. rewrite decide_False by done. cbn [fst]. exists api. split; [exact H1|].
    assert (wz_activeWorkspaceId s ∈ wt_id <$> nextTabs) as Ha by (apply N3; split; [apply Hok|done]).
    split; [by split; [|split]; cbn [wz_workspaceTabs wz_activeWorkspaceId updateWorkspaceTabs]; rewrite ?H2|].
    rewrite <- (Hbar (fun w => layoutOf api s (wt_id w) (wt_snapshot w))) by done.
    unfold barOf, layoutOf. cbn [wz_workspaceTabs wz_activeWorkspaceId updateWorkspaceTabs]. by rewrite H2.
Qed.

Lemma refines_layout d s : refines_step (bar (ChangeLayout d)) s (setDock d s).
Proof.
  intros api Hdock Hok. exists d. split; [done|]. split; [exact Hok|].
  unfold barOf, layoutOf. cbn [barEvent wz_workspaceTabs wz_activeWorkspaceId setDock br_active br_workspaces]. f_equal.
  rewrite <- list_fmap_compose. apply list_fmap_ext. intros i w Hi. cbn.
  destruct (decide (wt_id w = wz_activeWorkspaceId s)); [done|]. f_equal. apply capture_any.
  apply (proj1 (Forall_lookup _ _) (proj2 (proj2 Hok)) i w Hi).
Qed.

Lemma event_refines e s : offers s e -> refines_step (bar e) s (onWorkspaceEvent e s).
Proof.
  destruct e as [id| |id title|id|d|now|now|]; intros Hid; cbn [onWorkspaceEvent].
  - by apply refines_select.
  - apply refines_add.
  - apply refines_rename.
  - apply refines_delete.
  - apply refines_layout.
  - unfold schedule. destruct (wz_bound s); by apply refines_same.
  - unfold onTimeout. destruct (wz_timeout s) as [deadline|]; [|by apply refines_same].
    destruct (deadline <=? now); [|by apply refines_same]. apply (refines_capture (setTimer None s)).
  - by apply refines_same.
Qed.

Lemma workspace_step_refines s s' :
  workspace_step s s' -> forall api, wz_dockviewApi s = Some api -> workspaces_ok s ->
  exists api', wz_dockviewApi s' = Some api' /\ workspaces_ok s' /\ exists f, barOf api' s' = f (barOf api s).
Proof.
  intros (e & Ho & ->) api Hdock Hok. destruct (event_refines e s Ho api Hdock Hok) as (api' & H1 & H2 & H3).
  exists api'. split; [done|]. split; [done|]. by eexists (bar e).
Qed.

(** ** The start *)

(** The stored state, or the default: the bar shows its snapshots. *)
Lemma ready_refines initial entries api :
  workspaces_ok (mountedWorkspaces initial) -> dock_panels api = [] ->
  let s := handleDockviewReady api (if initial then true else false) entries (mountedWorkspaces initial) in
  exists d, wz_dockviewApi s = Some d /\ workspaces_ok s /\
    forall p, initial = Some p -> barOf d s = mkBar (shownTabs api (ws_workspaceTabs p)) (ws_activeWorkspaceId p).
Proof.
  intros Hok Hempty. cbv zeta. unfold handleDockviewReady, resolveDockviewWorkspaceReadyState.
  assert (hasDockviewWorkspaceBootstrap api = false) as -> by (unfold hasDockviewWorkspaceBootstrap, getPanel; by rewrite Hempty).
  destruct initial as [p|].
  - assert ((ws_workspaceTabs <$> Some p) ?? createDefaultWorkspaceTabs = ws_workspaceTabs p) as Ht by done.
    pose proof Hok as (O1 & O2 & O3). unfold mountedWorkspaces in *. cbn [wz_workspaceTabs wz_activeWorkspaceId] in *.
    cbn [nullish fmap option_fmap option_map default] in *.
    set (s0 := mkWorkspaces (ws_workspaceTabs p) (ws_activeWorkspaceId p) (Some api) true None).
    destruct (restored_bar api (ws_workspaceTabs p) (ws_activeWorkspaceId p) s0 O1 O3 O2 eq_refl eq_refl) as (d & R1 & R2 & R3 & R4).
    assert (written (readDockviewWorkspaceSnapshot (ws_workspaceTabs p) (ws_activeWorkspaceId p))) as Hw.
    { unfold readDockviewWorkspaceSnapshot. intros j. destruct (tabAt _ _) as [w|] eqn:Ew; [|done]. cbn.
      apply find_Some in Ew as [Hin _]. by apply (proj1 (Forall_forall _ _) O3 w Hin). }
    unfold restoreWorkspaceSnapshot, activateWorkspace in R1, R4. cbn [s0 wz_dockviewApi wz_workspaceTabs setDock wz_activeWorkspaceId wz_bound wz_timeout] in R1, R4.
    destruct (readDockviewWorkspaceSnapshot _ _) as [j|] eqn:Ej.
    + destruct (Hw j eq_refl) as [dj ->]. destruct (json_object dj) as [fields Hf]. cbn [mbind option_bind].
      assert (truthyJson (dock_toJSON dj) = true) as Htj by by rewrite Hf. rewrite Htj.
      cbn [applyDockviewWorkspaceSnapshot] in R1, R4. rewrite Htj in R1, R4. injection R1 as <-.
      eexists. split; [reflexivity|]. split; [by split|]. intros q [= <-]. exact R4.
    + cbn [mbind option_bind]. cbn [applyDockviewWorkspaceSnapshot] in R1, R4. injection R1 as <-.
      eexists. split; [reflexivity|]. split; [by split|]. intros q [= <-]. exact R4.
  - cbn. eexists. split; [reflexivity|]. split; [|done]. split; [|split].
    + cbn. apply NoDup_cons. split; [|apply NoDup_singleton]. by intros ?%list_elem_of_singleton.
    + cbn. right. by left.
    + cbn. repeat constructor; cbn; intros j; [done|]. intros [= <-]. by eexists.
Qed.

(** C19: The shell refines a bar of workspaces that keep their layouts: from the
    first event of the dock on, whatever is chosen in the bar, laid out, scheduled
    and captured in whatever order, the bar of the shell is what the events make
    of the bar it started with: a selection shows the layout that the workspace
    was left with, a new workspace is empty and has an id above the others', a
    rename is of the title, a deletion shows the next workspace if it took the
    active one, a change of the layout is the active workspace's, and the dock's
    events, the debounced capture and the unmount change no layout.  The ids stay
    different, with one of them active. *)
Theorem workspaces_refine_bar initial entries api es :
  workspaces_ok (mountedWorkspaces initial) -> dock_panels api = [] ->
  let s0 := handleDockviewReady api (if initial then true else false) entries (mountedWorkspaces initial) in
  offered s0 es ->
  exists d0 d, wz_dockviewApi s0 = Some d0 /\ wz_dockviewApi (runWorkspaces s0 es) = Some d /\
    workspaces_ok (runWorkspaces s0 es) /\ barOf d (runWorkspaces s0 es) = runBar (barOf d0 s0) es.
Proof.
  intros Hok Hempty s0 Hr. destruct (ready_refines initial entries api Hok Hempty) as (d0 & Hd0 & Hok0 & _).
  fold s0 in Hd0, Hok0. exists d0. clearbody s0. clear Hok Hempty. revert s0 d0 Hd0 Hok0 Hr.
  induction es as [|e es IH]; intros s0 d0 Hd0 Hok0 Hr; [by exists d0|].
  destruct Hr as [Ho Hr]. destruct (event_refines e s0 Ho d0 Hd0 Hok0) as (d1 & H1 & H2 & H3).
  destruct (IH _ d1 H1 H2 Hr) as (d & _ & H4 & H5 & H6). exists d. split; [done|]. split; [done|]. split; [done|].
  cbn [runBar foldl]. rewrite <- H3. exact H6.
Qed.

(** ** What is stored *)

Lemma integer_read n : integerOf (jnumber n) = Some n.
Proof. reflexivity. Qed.

Lemma tab_read w : written (wt_snapshot w) -> normalizeTab (tabJson w) = Some w.
Proof.
  intros Hw. destruct w as [id title [j|]]; [|reflexivity]. destruct (Hw j eq_refl) as [d ->].
  destruct (json_object d) as [fields ->]. reflexivity.
Qed.

Lemma tabs_read tabs : Forall (fun w => written (wt_snapshot w)) tabs -> omap normalizeTab (tabJson <$> tabs) = tabs.
Proof.
  induction 1 as [|w tabs Hw Htabs IH]; [done|]. cbn [fmap list_fmap omap list_omap].
  by rewrite tab_read, IH.
Qed.

Lemma persisted_read s :
  workspaces_ok s ->
  let p := mkPersisted (wz_activeWorkspaceId s) (wz_workspaceTabs s) in
  normalizePersistedDockviewWorkspaceState (Some (persistedJson p)) = Some p.
Proof.
  intros (O1 & O2 & O3) p. unfold normalizePersistedDockviewWorkspaceState.
  change (propertyOf (Some (persistedJson p)) "workspaceTabs") with (Some (JArray (tabJson <$> wz_workspaceTabs s))).
  change (integerOf (propertyOf (Some (persistedJson p)) "activeWorkspaceId")) with (Some (wz_activeWorkspaceId s)).
  cbv iota beta zeta. rewrite tabs_read by done. rewrite decide_False.
  - destruct (proj2 (find_id _ _) O2) as [w ->]. done.
  - intros E. rewrite E in O2. by apply not_elem_of_nil in O2.
Qed.

Section Stored.
Context `{J : JsonStore} `{!JsonStoreLaws J}.

(** C20: The next start shows the workspaces as they were: after the debounced
    capture, what is stored after the next rendering reads back as the same tabs
    with the same active one, and with a new dock every workspace has the layout,
    the id and the title it had. *)
Theorem relaunch_restores_bar s d api entries deadline now :
  workspaces_ok s -> wz_dockviewApi s = Some d -> wz_timeout s = Some deadline -> deadline <= now -> dock_panels api = [] ->
  let captured := onTimeout now s in
  let initial := readState (Some (storedWorkspaces captured)) in
  initial = Some (mkPersisted (wz_activeWorkspaceId s) (wz_workspaceTabs captured)) /\
  exists d', wz_dockviewApi (handleDockviewReady api true entries (mountedWorkspaces initial)) = Some d' /\
    barOf d' (handleDockviewReady api true entries (mountedWorkspaces initial)) = barOf d s.
Proof.
  intros Hok Hdock Htimer Hnow Hempty. cbv zeta. unfold onTimeout. rewrite Htimer.
  rewrite (proj2 (Z.leb_le _ _) Hnow).
  destruct (persisted_tabs d (setTimer None s) Hdock Hok) as (H1 & H2 & H3 & H4 & H5).
  set (captured := persistCurrentWorkspaceSnapshot (setTimer None s)) in *.
  assert (readState (Some (storedWorkspaces captured)) =
    Some (mkPersisted (wz_activeWorkspaceId s) (wz_workspaceTabs captured))) as ->.
  { unfold readState, storedWorkspaces, writeState. rewrite stored_written, parse_written. cbn [mbind option_bind].
    rewrite persisted_read by done. by rewrite H2. }
  split; [done|]. set (p := mkPersisted (wz_activeWorkspaceId s) (wz_workspaceTabs captured)).
  assert (workspaces_ok (mountedWorkspaces (Some p))) as Hmounted.
  { destruct H3 as (O1 & O2 & O3). rewrite H2 in O2. by split; [|split]. }
  destruct (ready_refines (Some p) entries api Hmounted Hempty) as (d' & R1 & R2 & R3).
  exists d'. split; [exact R1|]. rewrite (R3 p eq_refl). cbn [p ws_workspaceTabs ws_activeWorkspaceId].
  rewrite (shown_any api d) by apply H3. by rewrite H5.
Qed.
End Stored.
End Refinement.

(** ** Concrete runs *)

Definition jsonStore : JsonStore := {| Stored := Json; stored_truthy _ := true; stringify j := j; parse := Some |}.
Lemma jsonStore_laws : JsonStoreLaws jsonStore.
Proof. by split. Qed.

Definition emptyDock : @Dock listDockview := ([], None).
(** The first start: the seeded layout in the second workspace. *)
Definition firstStart : @WorkspaceState listDockview := handleDockviewReady emptyDock false None (mountedWorkspaces None).
Definition shownIds (s : @WorkspaceState listDockview) : option (list string) := panel_ids <$> wz_dockviewApi s.

(** A workspace is added, the first one shown, and then the second one again. *)
Lemma workspaces_refine_bar_witness :
  let es := [AddWorkspace; SelectWorkspace 1; SelectWorkspace 2] in
  let s := runWorkspaces firstStart es in
  workspaces_ok s /\ shownIds s = Some ["terminal-header"; "terminal"; "tool"] /\ wt_id <$> wz_workspaceTabs s = [1; 2; 3] /\
  exists d0 d, barOf d s = runBar (barOf d0 firstStart) es /\
    (fun w => (w.1, bool_decide (is_Some w.2))) <$> br_workspaces (runBar (barOf d0 firstStart) es) =
    [((1, "Workspace-1"), false); ((2, "Workspace-2"), true); ((3, "Workspace-3"), false)].
Proof.
  intros es s.
  assert (workspaces_ok (mountedWorkspaces (None (A := PersistedDockviewWorkspaceState)) : @WorkspaceState listDockview)) as Hok.
  { split; [|split]; cbn; [|right; by left|by repeat constructor].
    apply NoDup_cons. split; [|apply NoDup_singleton]. by intros ?%list_elem_of_singleton. }
  destruct (workspaces_refine_bar (DockviewLaws0 := listDockview_laws) None None emptyDock es Hok eq_refl)
    as (d0 & d & Hd0 & Hd & Hs & Hbar).
  { split; [exact I|]. split; [vm_compute; by left|]. split; [vm_compute; right; by left|exact I]. }
  split; [exact Hs|]. split; [vm_compute; reflexivity|]. split; [vm_compute; reflexivity|].
  exists d0, d. split; [exact Hbar|]. vm_compute in Hd0. injection Hd0 as <-. vm_compute. reflexivity.
Defined.

Lemma relaunch_restores_bar_witness :
  let s := schedule 1000 (addDockviewWorkspace firstStart) in
  wz_timeout s = Some 1120 /\ wz_activeWorkspaceId s = 3 /\
  (ws_activeWorkspaceId <$> readState (H := jsonStore) (Some (storedWorkspaces (H0 := jsonStore) (onTimeout 1120 s)))) = Some 3.
Proof.
  intros s. split; [reflexivity|]. split; [reflexivity|].
  assert (workspaces_ok s) as Hok.
  { assert (workspaces_ok firstStart) as H1.
    { destruct (ready_refines (DockviewLaws0 := listDockview_laws) None None emptyDock) as (_ & _ & H & _); [|done|exact H].
      split; [|split]; cbn; [|right; by left|by repeat constructor].
      apply NoDup_cons. split; [|apply NoDup_singleton]. by intros ?%list_elem_of_singleton. }
    destruct (refines_add (DockviewLaws0 := listDockview_laws) firstStart _ eq_refl H1) as (_ & _ & H & _). exact H. }
  destruct (relaunch_restores_bar (DockviewLaws0 := listDockview_laws) (JsonStoreLaws0 := jsonStore_laws)
    s (default emptyDock (wz_dockviewApi s)) emptyDock None 1120 1120 Hok eq_refl eq_refl ltac:(lia) eq_refl) as [Hread _].
  rewrite Hread. reflexivity.
Defined.

(* The capture before a workspace is deleted is lost: the tabs that replace the
   captured ones were taken before.  The timer captures the layout again, unless
   the shell is closed within its 120 milliseconds. *)
Example delete_drops_capture :
  let changed := setDock (dock_add (mkAddPanel "new" "" "" None None) (default emptyDock (wz_dockviewApi firstStart))) firstStart in
  let seeded := readDockviewWorkspaceSnapshot (wz_workspaceTabs firstStart) 2 in
  readDockviewWorkspaceSnapshot (wz_workspaceTabs (fst (deleteDockviewWorkspace 1 changed))) 2 = seeded /\
  readDockviewWorkspaceSnapshot (wz_workspaceTabs (persistCurrentWorkspaceSnapshot changed)) 2 <> seeded.
Proof. split; [reflexivity|]. vm_compute. discriminate. Qed.

(* The tab beside a deleted one is shown, the next one first. *)
Example delete_shows_neighbour :
  let three := addDockviewWorkspace firstStart in
  wz_activeWorkspaceId (fst (deleteDockviewWorkspace 3 three)) = 2 /\
  wz_activeWorkspaceId (fst (deleteDockviewWorkspace 2 (selectDockviewWorkspace 2 three))) = 3.
Proof. by split. Qed.
