(* ===== verification/SharedModel.v ===== *)
(** * Stores of the shell

    [frontend/src/shared/model/]: the modals, the attachments and the prompt
    that wait for the agent panel, the widgets that the agent may not see, the
    sidebar and the focused widget; and the registry of display ids of
    terminals, [features/terminal/model/display-widget-id.ts].  A module's
    counters and maps are part of its state. *)
From Stdlib Require Import Ascii String.
From stdpp Require Import gmap strings.
From S2P Require Import Prelude JsString Text AgentContext.
Local Open Scope string_scope.
Local Open Scope list_scope.
Local Open Scope nat_scope.
Local Open Scope js_scope.

(** ** Modals ([modal.ts]) *)

Definition BODY_MODAL_HOST_ID : string := "body".

Inductive ModalVariant := ModalDefault | ModalSettings.
Inductive ModalContentKey := ContentSettingsShell | ContentAgentProviders.

Record OpenModalPayload := mkModalPayload {
  mo_hostId : string;
  mo_title : string;
  mo_description : string;
  mo_variant : option ModalVariant;
  mo_contentKey : option ModalContentKey
}.
Record ModalDescriptor := mkModal { md_id : string; md_payload : OpenModalPayload }.

Record Modals := mkModals { ml_modalSequence : nat; ml_modals : list ModalDescriptor }.
Definition initialModals : Modals := mkModals 0 [].

Inductive ModalEvent :=
  | OpenModal (payload : OpenModalPayload)
  | OpenBodyModal (title description : string) (variant : option ModalVariant) (contentKey : option ModalContentKey)
  | OpenWidgetModal (payload : OpenModalPayload)
  | CloseModal (id : string)
  | CloseHostModals (hostId : string)
  | CloseAllModals.

(** The new state of the counter is the number of the modal. *)
Definition createModal (payload : OpenModalPayload) (s : Modals) : Modals :=
  let modalSequence := ml_modalSequence s + 1 in
  mkModals modalSequence (ml_modals s ++ [mkModal ("modal-" +:+ showNat modalSequence) payload]).

Definition onModalEvent (s : Modals) (e : ModalEvent) : Modals :=
  match e with
  | OpenModal payload | OpenWidgetModal payload => createModal payload s
  | OpenBodyModal title description variant contentKey =>
      createModal (mkModalPayload BODY_MODAL_HOST_ID title description variant contentKey) s
  | CloseModal id => mkModals (ml_modalSequence s) (filterb (fun modal => negb (bool_decide (md_id modal = id))) (ml_modals s))
  | CloseHostModals hostId =>
      mkModals (ml_modalSequence s) (filterb (fun modal => negb (bool_decide (mo_hostId (md_payload modal) = hostId))) (ml_modals s))
  | CloseAllModals => mkModals (ml_modalSequence s) []
  end.

(** ** Attachments and blocked widgets ([ai-attachments.ts], [ai-blocked-widgets.ts]) *)

Record QueuedAiAttachmentReference := mkQueued {
  qa_id : string;
  qa_name : string;
  qa_path : string;
  qa_mime_type : string;
  qa_size : Z;
  qa_modified_time : Z
}.

Inductive AttachmentEvent :=
  | QueueAiAttachmentReference (attachment : QueuedAiAttachmentReference)
  | RemoveQueuedAiAttachmentReference (attachmentID : string)
  | ClearQueuedAiAttachmentReferences.

Definition withoutAttachment (id : string) (attachments : list QueuedAiAttachmentReference) : list QueuedAiAttachmentReference :=
  filterb (fun attachment => negb (bool_decide (qa_id attachment = id))) attachments.
Definition onAttachmentEvent (attachments : list QueuedAiAttachmentReference) (e : AttachmentEvent)
    : list QueuedAiAttachmentReference :=
  match e with
  | QueueAiAttachmentReference attachment => withoutAttachment (qa_id attachment) attachments ++ [attachment]
  | RemoveQueuedAiAttachmentReference attachmentID => withoutAttachment attachmentID attachments
  | ClearQueuedAiAttachmentReferences => []
  end.

Inductive BlockedEvent :=
  | BlockAiWidget (hostId : string)
  | ToggleAiBlockedWidget (hostId : string)
  | UnblockAiWidget (hostId : string)
  | ClearAllAiBlockedWidgets.

Definition unblocked (hostId : string) (hostIds : list string) : list string :=
  filterb (fun currentHostId => negb (bool_decide (currentHostId = hostId))) hostIds.
Definition onBlockedEvent (hostIds : list string) (e : BlockedEvent) : list string :=
  match e with
  | BlockAiWidget hostId => if includes hostId hostIds then hostIds else hostIds ++ [hostId]
  | ToggleAiBlockedWidget hostId => if includes hostId hostIds then unblocked hostId hostIds else hostIds ++ [hostId]
  | UnblockAiWidget hostId => unblocked hostId hostIds
  | ClearAllAiBlockedWidgets => []
  end.

(** ** The prompt for the agent panel ([ai-handoff.ts]) *)

Record AiPromptHandoffRequest := mkHandoffRequest {
  ah_context_widget_ids : option (list string);
  ah_prompt : string;
  ah_submit : option bool
}.
Record AiPromptHandoff := mkHandoff { ah_request : AiPromptHandoffRequest; ah_request_id : nat }.

Record Handoffs := mkHandoffs { hf_sequence : nat; hf_queued : option AiPromptHandoff }.
Definition initialHandoffs : Handoffs := mkHandoffs 0 None.

Inductive HandoffEvent :=
  | QueueAiPromptHandoff (request : AiPromptHandoffRequest)
  | ConsumeAiPromptHandoff (requestID : nat)
  | ClearAiPromptHandoff.

Definition onHandoffEvent (s : Handoffs) (e : HandoffEvent) : Handoffs :=
  match e with
  | QueueAiPromptHandoff request =>
      let aiPromptHandoffSequence := hf_sequence s + 1 in
      mkHandoffs aiPromptHandoffSequence
        (Some (mkHandoff
          (mkHandoffRequest (filterb (fun widgetID => truthy (trimText widgetID)) <$> ah_context_widget_ids request)
            (ah_prompt request) (ah_submit request)) aiPromptHandoffSequence))
  | ConsumeAiPromptHandoff requestID =>
      mkHandoffs (hf_sequence s)
        (match hf_queued s with
         | Some current => if decide (ah_request_id current = requestID) then None else Some current
         | None => None
         end)
  | ClearAiPromptHandoff => mkHandoffs (hf_sequence s) None
  end.

(** ** The sidebar and the focused widget ([app.ts], [widget-focus.ts]) *)

Inductive SidebarEvent := OpenAiSidebar | CloseAiSidebar | ToggleAiSidebar.
Definition onSidebarEvent (isAiSidebarOpen : bool) (e : SidebarEvent) : bool :=
  match e with OpenAiSidebar => true | CloseAiSidebar => false | ToggleAiSidebar => negb isAiSidebarOpen end.

Inductive FocusEvent := SetActiveWidgetHostId (hostId : string) | ClearActiveWidgetHostId.
Definition onFocusEvent (currentHostId : option string) (e : FocusEvent) : option string :=
  match e with SetActiveWidgetHostId hostId => Some hostId | ClearActiveWidgetHostId => None end.

(** ** Display ids of terminals *)

Record DisplayIds := mkDisplayIds { di_registry : gmap string string; di_nextOrdinal : nat }.
Definition initialDisplayIds : DisplayIds := mkDisplayIds ∅ 1.

Definition resolveTerminalDisplayWidgetId (runtimeWidgetId : string) (s : DisplayIds) : DisplayIds * string :=
  let normalizedWidgetId := trimText runtimeWidgetId in
  if truthy normalizedWidgetId then
    match truthyOpt (di_registry s !! normalizedWidgetId) with
    | Some existingDisplayId => (s, existingDisplayId)
    | None =>
        let nextDisplayId := "term_" +:+ showNat (di_nextOrdinal s) in
        (mkDisplayIds (<[normalizedWidgetId := nextDisplayId]> (di_registry s)) (di_nextOrdinal s + 1), nextDisplayId)
    end
  else (s, "term_?").

(** * Lemmas *)

(** ** Modals *)

(** The ids are those of different numbers up to the counter. *)
Definition modals_ok (s : Modals) : Prop :=
  NoDup (md_id <$> ml_modals s) /\
  Forall (fun modal => exists n, 1 <= n <= ml_modalSequence s /\ md_id modal = "modal-" +:+ showNat n) (ml_modals s).

Lemma modals_filter p s n : modals_ok s -> ml_modalSequence s = n -> modals_ok (mkModals n (filterb p (ml_modals s))).
Proof.
  intros [H1 H2] <-. split; cbn.
  - eapply sublist_NoDup; [exact H1|]. apply fmap_sublist, filterb_sublist.
  - apply Forall_forall. intros x [Hx _]%elem_of_filterb. by apply (proj1 (Forall_forall _ _) H2).
Qed.

Lemma modals_create payload s : modals_ok s -> modals_ok (createModal payload s).
Proof.
  intros [H1 H2]. split; cbn.
  - rewrite fmap_app. apply NoDup_app. split; [done|]. split; [|apply NoDup_singleton].
    intros id (modal & -> & Hm)%list_elem_of_fmap Hid%list_elem_of_singleton.
    destruct (proj1 (Forall_forall _ _) H2 modal Hm) as (n & Hn & Eid). rewrite Eid in Hid. cbn [md_id] in Hid.
    apply (append_inj_l "modal-"), showNat_inj in Hid. lia.
  - apply Forall_app. split.
    + eapply Forall_impl; [exact H2|]. intros modal (n & Hn & E). exists n. split; [lia|done].
    + constructor; [|done]. exists (ml_modalSequence s + 1). split; [lia|done].
Qed.

(** The ids of the open modals differ, so that closing one closes no other; an
    id is not used again. *)
Lemma modals_events es : modals_ok (foldl onModalEvent initialModals es).
Proof.
  assert (modals_ok initialModals) as H by by split; constructor.
  revert H. generalize initialModals. induction es as [|e es IH]; intros s Hs; [done|]. cbn [foldl]. apply IH.
  destruct e; cbn [onModalEvent]; [by apply modals_create..|by apply modals_filter|by apply modals_filter|].
  by split; constructor.
Qed.

(** ** Lists without repetition *)

Lemma attachments_distinct es : NoDup (qa_id <$> foldl onAttachmentEvent [] es).
Proof.
  assert (NoDup (qa_id <$> ([] : list QueuedAiAttachmentReference))) as H by constructor.
  revert H. generalize ([] : list QueuedAiAttachmentReference). induction es as [|e es IH]; intros l Hl; [done|].
  cbn [foldl]. apply IH.
  assert (forall id, NoDup (qa_id <$> withoutAttachment id l)) as Hw.
  { intros id. eapply sublist_NoDup; [exact Hl|]. apply fmap_sublist, filterb_sublist. }
  destruct e as [a|id|]; cbn [onAttachmentEvent]; [|apply Hw|constructor].
  rewrite fmap_app. apply NoDup_app. split; [apply Hw|]. split; [|apply NoDup_singleton].
  intros id (x & -> & [_ Hx]%elem_of_filterb)%list_elem_of_fmap Hid%list_elem_of_singleton.
  apply negb_true_iff, bool_decide_eq_false in Hx. done.
Qed.

(** What blocks and toggles do to the set of blocked widgets. *)
Lemma blocked_events es : NoDup (foldl onBlockedEvent [] es).
Proof.
  assert (NoDup ([] : list string)) as H by constructor. revert H. generalize ([] : list string).
  induction es as [|e es IH]; intros l Hl; [done|]. cbn [foldl]. apply IH.
  assert (forall h, includes h l = false -> NoDup (l ++ [h])) as Hadd.
  { intros h Hh%bool_decide_eq_false. apply NoDup_app. split; [done|]. split; [|apply NoDup_singleton].
    intros x Hx ->%list_elem_of_singleton. done. }
  assert (forall h, NoDup (unblocked h l)) as Hw by (intros h; eapply sublist_NoDup; [exact Hl|apply filterb_sublist]).
  destruct e as [h|h|h|]; cbn [onBlockedEvent]; try destruct (includes h l) eqn:E; auto using NoDup_nil_2.
Qed.

Lemma toggle_spec h x l :
  x ∈ onBlockedEvent l (ToggleAiBlockedWidget h) <-> (if decide (x = h) then h ∉ l else x ∈ l).
Proof.
  cbn [onBlockedEvent]. unfold includes, unblocked. destruct (bool_decide (h ∈ l)) eqn:E.
  - apply bool_decide_eq_true in E. rewrite elem_of_filterb, negb_true_iff, bool_decide_eq_false.
    case_decide as Ex; [subst; by split; [intros [_ []]|]|]. by split; [intros []|].
  - apply bool_decide_eq_false in E. rewrite elem_of_app, list_elem_of_singleton.
    case_decide as Ex; [subst; by split; [|right]|]. split; [by intros [|]|by left].
Qed.

(** ** The prompt *)

(** A prompt is taken by its own id only: taking an older one leaves it. *)
Lemma handoff_kept es request es' :
  (forall id, ConsumeAiPromptHandoff id ∈ es' -> id <= hf_sequence (foldl onHandoffEvent initialHandoffs es)) ->
  (forall e, e ∈ es' -> match e with ConsumeAiPromptHandoff _ => True | _ => False end) ->
  ah_prompt ∘ ah_request <$> hf_queued (foldl onHandoffEvent initialHandoffs (es ++ QueueAiPromptHandoff request :: es')) =
    Some (ah_prompt request).
Proof.
  rewrite foldl_app. cbn [foldl]. generalize (foldl onHandoffEvent initialHandoffs es). intros s Hids Hes. cbn [onHandoffEvent].
  assert (forall q, hf_queued q = Some (mkHandoff (mkHandoffRequest (filterb (fun widgetID => truthy (trimText widgetID)) <$>
    ah_context_widget_ids request) (ah_prompt request) (ah_submit request)) (hf_sequence s + 1)) ->
    ah_prompt ∘ ah_request <$> hf_queued (foldl onHandoffEvent q es') = Some (ah_prompt request)) as Hgo; [|by apply Hgo].
  induction es' as [|e es' IH]; intros q Hq; cbn [foldl]; [by rewrite Hq|].
  apply IH; [intros id Hid; apply Hids; by right|intros e' He; apply Hes; by right|].
  specialize (Hes e ltac:(by left)). destruct e as [|id|]; try done. cbn [onHandoffEvent hf_queued]. rewrite Hq. cbn.
  rewrite decide_False; [done|]. specialize (Hids id ltac:(by left)). lia.
Qed.

(** ** Display ids *)

(** Different widgets have different names, of numbers that were given out. *)
Definition display_ok (s : DisplayIds) : Prop :=
  1 <= di_nextOrdinal s /\ forall w name, di_registry s !! w = Some name ->
    (exists n, 1 <= n < di_nextOrdinal s /\ name = "term_" +:+ showNat n) /\
    forall w', di_registry s !! w' = Some name -> w' = w.

Lemma display_resolve w s :
  display_ok s ->
  let '(s', name) := resolveTerminalDisplayWidgetId w s in
  display_ok s' /\ (trimText w <> "" -> di_registry s' !! trimText w = Some name) /\
  forall v n, di_registry s !! v = Some n -> di_registry s' !! v = Some n.
Proof.
  intros [H1 Hs]. unfold resolveTerminalDisplayWidgetId. destruct (truthy (trimText w)) eqn:Ew.
  2:{ split; [by split|]. split; [|done]. intros Hn. unfold truthy in Ew. apply negb_false_iff, bool_decide_eq_true in Ew. done. }
  destruct (truthyOpt (di_registry s !! trimText w)) as [name|] eqn:E.
  - apply truthyOpt_Some in E as [E _]. split; [by split|]. by split.
  - assert (di_registry s !! trimText w = None) as Hnone.
    { destruct (di_registry s !! trimText w) as [name|] eqn:En; [|done]. exfalso.
      destruct (Hs _ _ En) as [(n & _ & ->) _].
      assert (truthyOpt (Some ("term_" +:+ showNat n)) = Some ("term_" +:+ showNat n)) as Ht by by apply truthyOpt_Some.
      congruence. }
    split; [|split].
    + split; [cbn; lia|]. intros v name. cbn. intros [[<- <-]|[Hne Hv]]%lookup_insert_Some.
      * split; [exists (di_nextOrdinal s); split; [cbn; lia|done]|].
        intros v' [[? _]|[_ Hv']]%lookup_insert_Some; [done|].
         destruct (Hs _ _ Hv') as [(n & Hn & En) _]. apply (append_inj_l "term_"), showNat_inj in En. lia.
      * destruct (Hs v name Hv) as [(n & Hn & ->) Hu]. split; [exists n; split; [cbn; lia|done]|].
        intros v' [[_ E']|[_ Hv']]%lookup_insert_Some; [|by apply Hu].
        apply (append_inj_l "term_"), showNat_inj in E'. lia.
    + intros _. cbn. apply lookup_insert_eq.
    + intros v n Hv. cbn. rewrite lookup_insert_ne; [done|]. intros <-. congruence.
Qed.
