(* ===== verification/SettingsTexts.v ===== *)
(** * The texts of the settings

    The tables of texts of the settings sections
    ([frontend/src/widgets/settings/mcp-settings-section.tsx],
    [plugins-settings-section.tsx] and [remote-profiles-settings-section.tsx]),
    one record of texts for each locale.  A count is a natural number. *)
From Stdlib Require Import Ascii String QArith Qround Qminmax.
From stdpp Require Import strings.
From S2P Require Import Prelude JsString Text RuntimePath ServicesApi Number.
Local Open Scope string_scope.
Local Open Scope list_scope.
Local Open Scope nat_scope.

(** ** MCP servers *)

Record MCPSettingsCopy := mkMcpCopy {
  mcy_activeBadge : string;
  mcy_activeCount : nat -> string;
  mcy_cancelEdit : string;
  mcy_delete : string;
  mcy_deletedServer : string -> string;
  mcy_description : string;
  mcy_disable : string;
  mcy_disabledCount : nat -> string;
  mcy_disabledState : string;
  mcy_edit : string;
  mcy_enable : string;
  mcy_endpointAria : string;
  mcy_errorControl : MCPServerControlAction -> string;
  mcy_errorDelete : string;
  mcy_errorDuplicateHeader : string -> string;
  mcy_errorHeaderDuplicateAuth : string -> string;
  mcy_errorHeaderFormat : string;
  mcy_errorHeaderName : string;
  mcy_errorLoadDetails : string;
  mcy_errorLoadServers : string;
  mcy_errorLoadTemplates : string;
  mcy_errorProbe : string;
  mcy_errorSave : string;
  mcy_filterAria : string;
  mcy_filterPlaceholder : string;
  mcy_headersAria : string;
  mcy_headersDescription : string;
  mcy_headersPlaceholder : string;
  mcy_idAria : string;
  mcy_loadingServers : string;
  mcy_loadingTemplates : string;
  mcy_localDescription : string;
  mcy_noFilterMatches : string;
  mcy_noServers : string;
  mcy_optionalSecret : string;
  mcy_probePrefix : string;
  mcy_refresh : string;
  mcy_refreshing : string;
  mcy_register : string;
  mcy_registeredCount : nat -> string;
  mcy_registeredServer : string -> string;
  mcy_registering : string;
  mcy_remoteDescriptionFallback : string;
  mcy_restart : string;
  mcy_saveAria : string;
  mcy_saveChanges : string;
  mcy_saveChangesAria : string;
  mcy_savedServer : string -> string;
  mcy_saving : string;
  mcy_start : string;
  mcy_stop : string;
  mcy_templateDescription : string;
  mcy_templateLoaded : string -> string;
  mcy_templateSecretAria : string;
  mcy_templatesTitle : string;
  mcy_testAria : string;
  mcy_testing : string;
  mcy_title : string;
  mcy_visibleCount : nat -> string
}.

Definition mcpSettingsCopy_en : MCPSettingsCopy := {|
  mcy_activeBadge := "active";
  mcy_activeCount count := showNat count +:+ " active";
  mcy_cancelEdit := "Cancel edit";
  mcy_delete := "Delete";
  mcy_deletedServer serverID := "Deleted " +:+ serverID +:+ ".";
  mcy_description := "External MCP onboarding is explicit: register or edit a remote endpoint, then start/stop/enable it manually. Invoke and AI handoff remain separate operator actions outside this settings slice.";
  mcy_disable := "Disable";
  mcy_disabledCount count := showNat count +:+ " disabled";
  mcy_disabledState := "disabled";
  mcy_edit := "Edit";
  mcy_enable := "Enable";
  mcy_endpointAria := "MCP endpoint URL";
  mcy_errorControl action := "Unable to " +:+ showControl action +:+ " MCP server";
  mcy_errorDelete := "Unable to delete MCP server";
  mcy_errorDuplicateHeader name := "Duplicate header: " +:+ name;
  mcy_errorHeaderDuplicateAuth name := name +:+ " is already set in raw headers. Clear one of the duplicates.";
  mcy_errorHeaderFormat := "Header lines must use `Name: value` format.";
  mcy_errorHeaderName := "Header names must be non-empty.";
  mcy_errorLoadDetails := "Unable to load MCP server details";
  mcy_errorLoadServers := "Unable to load MCP servers";
  mcy_errorLoadTemplates := "Unable to load MCP templates";
  mcy_errorProbe := "Unable to probe MCP endpoint";
  mcy_errorSave := "Unable to save MCP server";
  mcy_filterAria := "Filter MCP servers";
  mcy_filterPlaceholder := "Filter registered MCP servers";
  mcy_headersAria := "MCP request headers";
  mcy_headersDescription := "Raw headers are persisted in the local runtime MCP registry. Template auth helpers are merged at request time before probe/register.";
  mcy_headersPlaceholder := "Optional headers, one per line: Authorization: Bearer ...";
  mcy_idAria := "MCP server id";
  mcy_loadingServers := "Loading MCP servers…";
  mcy_loadingTemplates := "Loading MCP templates…";
  mcy_localDescription := "Local process server managed by the plugin runtime.";
  mcy_noFilterMatches := "No MCP servers match current filter.";
  mcy_noServers := "No MCP servers registered yet.";
  mcy_optionalSecret := "Optional auth secret";
  mcy_probePrefix := "Probe";
  mcy_refresh := "Refresh";
  mcy_refreshing := "Refreshing…";
  mcy_register := "Register remote MCP";
  mcy_registeredCount count := showNat count +:+ " registered";
  mcy_registeredServer serverID := "Registered " +:+ serverID +:+ ". Start it explicitly before invoke.";
  mcy_registering := "Registering…";
  mcy_remoteDescriptionFallback := "Remote endpoint is not exposed by the backend snapshot.";
  mcy_restart := "Restart";
  mcy_saveAria := "Register remote MCP server";
  mcy_saveChanges := "Save changes";
  mcy_saveChangesAria := "Save MCP server changes";
  mcy_savedServer serverID := "Saved " +:+ serverID +:+ ".";
  mcy_saving := "Saving…";
  mcy_start := "Start";
  mcy_stop := "Stop";
  mcy_templateDescription := "Load a bounded template to prefill endpoint and auth helpers. Registration still stays explicit.";
  mcy_templateLoaded name := "Loaded " +:+ name +:+ " template.";
  mcy_templateSecretAria := "MCP template secret";
  mcy_templatesTitle := "Onboarding templates";
  mcy_testAria := "Test MCP endpoint";
  mcy_testing := "Testing…";
  mcy_title := "MCP servers";
  mcy_visibleCount count := showNat count +:+ " visible"
|}.

Definition mcpSettingsCopy_ru : MCPSettingsCopy := {|
  mcy_activeBadge := "активен";
  mcy_activeCount count := showNat count +:+ " активных";
  mcy_cancelEdit := "Отменить редактирование";
  mcy_delete := "Удалить";
  mcy_deletedServer serverID := "Удален " +:+ serverID +:+ ".";
  mcy_description := "Подключение внешних MCP выполняется явно: зарегистрируйте адрес, затем вручную запускайте, останавливайте или включайте сервер.";
  mcy_disable := "Выключить";
  mcy_disabledCount count := showNat count +:+ " выключено";
  mcy_disabledState := "выключен";
  mcy_edit := "Изменить";
  mcy_enable := "Включить";
  mcy_endpointAria := "URL MCP-сервера";
  mcy_errorControl action := "Не удалось выполнить " +:+ showControl action +:+ " для MCP-сервера";
  mcy_errorDelete := "Не удалось удалить MCP-сервер";
  mcy_errorDuplicateHeader name := "Повторяющийся заголовок: " +:+ name;
  mcy_errorHeaderDuplicateAuth name := name +:+ " уже задан в заголовках. Уберите один из дублей.";
  mcy_errorHeaderFormat := "Строки заголовков должны быть в формате `Name: value`.";
  mcy_errorHeaderName := "Имена заголовков не должны быть пустыми.";
  mcy_errorLoadDetails := "Не удалось загрузить детали MCP-сервера";
  mcy_errorLoadServers := "Не удалось загрузить MCP-серверы";
  mcy_errorLoadTemplates := "Не удалось загрузить шаблоны MCP";
  mcy_errorProbe := "Не удалось проверить MCP-сервер";
  mcy_errorSave := "Не удалось сохранить MCP-сервер";
  mcy_filterAria := "Фильтр MCP-серверов";
  mcy_filterPlaceholder := "Фильтр зарегистрированных MCP-серверов";
  mcy_headersAria := "Заголовки MCP-запроса";
  mcy_headersDescription := "Заголовки сохраняются в локальном реестре MCP. Данные из шаблона добавляются перед проверкой или регистрацией.";
  mcy_headersPlaceholder := "Необязательные заголовки, по одному на строку: Authorization: Bearer ...";
  mcy_idAria := "ID MCP-сервера";
  mcy_loadingServers := "Загрузка MCP-серверов…";
  mcy_loadingTemplates := "Загрузка шаблонов MCP…";
  mcy_localDescription := "Локальный процессный сервер управляется подсистемой плагинов.";
  mcy_noFilterMatches := "Нет MCP-серверов по текущему фильтру.";
  mcy_noServers := "MCP-серверы пока не зарегистрированы.";
  mcy_optionalSecret := "Необязательный секрет авторизации";
  mcy_probePrefix := "Проверка";
  mcy_refresh := "Обновить";
  mcy_refreshing := "Обновление…";
  mcy_register := "Зарегистрировать MCP-сервер";
  mcy_registeredCount count := showNat count +:+ " зарегистрировано";
  mcy_registeredServer serverID := serverID +:+ " зарегистрирован. Запустите его перед использованием.";
  mcy_registering := "Регистрация…";
  mcy_remoteDescriptionFallback := "Адрес удалённого сервера пока не получен.";
  mcy_restart := "Перезапустить";
  mcy_saveAria := "Зарегистрировать MCP-сервер";
  mcy_saveChanges := "Сохранить изменения";
  mcy_saveChangesAria := "Сохранить изменения MCP-сервера";
  mcy_savedServer serverID := "Сохранен " +:+ serverID +:+ ".";
  mcy_saving := "Сохранение…";
  mcy_start := "Запустить";
  mcy_stop := "Остановить";
  mcy_templateDescription := "Загрузите шаблон, чтобы заполнить адрес и данные авторизации. Регистрация всё равно выполняется вручную.";
  mcy_templateLoaded name := "Шаблон " +:+ name +:+ " загружен.";
  mcy_templateSecretAria := "Секрет шаблона MCP";
  mcy_templatesTitle := "Шаблоны подключения";
  mcy_testAria := "Проверить MCP-сервер";
  mcy_testing := "Проверка…";
  mcy_title := "MCP-серверы";
  mcy_visibleCount count := showNat count +:+ " видно"
|}.

Definition mcpSettingsCopy_zh_CN : MCPSettingsCopy := {|
  mcy_activeBadge := "活动";
  mcy_activeCount count := "活动 " +:+ showNat count;
  mcy_cancelEdit := "取消编辑";
  mcy_delete := "删除";
  mcy_deletedServer serverID := "已删除 " +:+ serverID +:+ "。";
  mcy_description := "外部 MCP 接入是显式的：注册或编辑远程端点，然后手动启动、停止或启用。调用和 AI handoff 仍是此设置切片之外的单独操作。";
  mcy_disable := "禁用";
  mcy_disabledCount count := "已禁用 " +:+ showNat count;
  mcy_disabledState := "已禁用";
  mcy_edit := "编辑";
  mcy_enable := "启用";
  mcy_endpointAria := "MCP 端点 URL";
  mcy_errorControl action := "无法对 MCP 服务器执行 " +:+ showControl action;
  mcy_errorDelete := "无法删除 MCP 服务器";
  mcy_errorDuplicateHeader name := "重复的 header：" +:+ name;
  mcy_errorHeaderDuplicateAuth name := name +:+ " 已在 raw headers 中设置。请清除其中一个重复项。";
  mcy_errorHeaderFormat := "Header 行必须使用 `Name: value` 格式。";
  mcy_errorHeaderName := "Header 名称不能为空。";
  mcy_errorLoadDetails := "无法加载 MCP 服务器详情";
  mcy_errorLoadServers := "无法加载 MCP 服务器";
  mcy_errorLoadTemplates := "无法加载 MCP 模板";
  mcy_errorProbe := "无法探测 MCP 端点";
  mcy_errorSave := "无法保存 MCP 服务器";
  mcy_filterAria := "筛选 MCP 服务器";
  mcy_filterPlaceholder := "筛选已注册的 MCP 服务器";
  mcy_headersAria := "MCP 请求 headers";
  mcy_headersDescription := "Raw headers 会保存在本地运行时 MCP 注册表中。模板认证辅助项会在 probe/register 前合并。";
  mcy_headersPlaceholder := "可选 headers，每行一个：Authorization: Bearer ...";
  mcy_idAria := "MCP 服务器 ID";
  mcy_loadingServers := "正在加载 MCP 服务器…";
  mcy_loadingTemplates := "正在加载 MCP 模板…";
  mcy_localDescription := "由插件运行时管理的本地进程服务器。";
  mcy_noFilterMatches := "没有 MCP 服务器匹配当前筛选条件。";
  mcy_noServers := "尚未注册 MCP 服务器。";
  mcy_optionalSecret := "可选认证 secret";
  mcy_probePrefix := "探测";
  mcy_refresh := "刷新";
  mcy_refreshing := "刷新中…";
  mcy_register := "注册远程 MCP";
  mcy_registeredCount count := "已注册 " +:+ showNat count;
  mcy_registeredServer serverID := "已注册 " +:+ serverID +:+ "。调用前请显式启动。";
  mcy_registering := "注册中…";
  mcy_remoteDescriptionFallback := "后端快照未暴露远程端点。";
  mcy_restart := "重启";
  mcy_saveAria := "注册远程 MCP 服务器";
  mcy_saveChanges := "保存更改";
  mcy_saveChangesAria := "保存 MCP 服务器更改";
  mcy_savedServer serverID := "已保存 " +:+ serverID +:+ "。";
  mcy_saving := "保存中…";
  mcy_start := "启动";
  mcy_stop := "停止";
  mcy_templateDescription := "加载受限模板以预填端点和认证辅助项。注册仍保持显式。";
  mcy_templateLoaded name := "已加载 " +:+ name +:+ " 模板。";
  mcy_templateSecretAria := "MCP 模板 secret";
  mcy_templatesTitle := "接入模板";
  mcy_testAria := "测试 MCP 端点";
  mcy_testing := "测试中…";
  mcy_title := "MCP 服务器";
  mcy_visibleCount count := "可见 " +:+ showNat count
|}.

Definition mcpSettingsCopy_es : MCPSettingsCopy := {|
  mcy_activeBadge := "activo";
  mcy_activeCount count := showNat count +:+ " activos";
  mcy_cancelEdit := "Cancelar edicion";
  mcy_delete := "Eliminar";
  mcy_deletedServer serverID := serverID +:+ " eliminado.";
  mcy_description := "El onboarding externo de MCP es explicito: registra o edita un endpoint remoto y luego inicia, detiene o activa manualmente. Invoke y AI handoff siguen siendo acciones separadas fuera de este settings slice.";
  mcy_disable := "Desactivar";
  mcy_disabledCount count := showNat count +:+ " desactivados";
  mcy_disabledState := "desactivado";
  mcy_edit := "Editar";
  mcy_enable := "Activar";
  mcy_endpointAria := "URL del endpoint MCP";
  mcy_errorControl action := "No se pudo ejecutar " +:+ showControl action +:+ " en el servidor MCP";
  mcy_errorDelete := "No se pudo eliminar el servidor MCP";
  mcy_errorDuplicateHeader name := "Header duplicado: " +:+ name;
  mcy_errorHeaderDuplicateAuth name := name +:+ " ya esta en raw headers. Borra uno de los duplicados.";
  mcy_errorHeaderFormat := "Las lineas de headers deben usar el formato `Name: value`.";
  mcy_errorHeaderName := "Los nombres de headers no pueden estar vacios.";
  mcy_errorLoadDetails := "No se pudieron cargar los detalles del servidor MCP";
  mcy_errorLoadServers := "No se pudieron cargar los servidores MCP";
  mcy_errorLoadTemplates := "No se pudieron cargar las plantillas MCP";
  mcy_errorProbe := "No se pudo probar el endpoint MCP";
  mcy_errorSave := "No se pudo guardar el servidor MCP";
  mcy_filterAria := "Filtrar servidores MCP";
  mcy_filterPlaceholder := "Filtrar servidores MCP registrados";
  mcy_headersAria := "Headers de solicitud MCP";
  mcy_headersDescription := "Los raw headers se persisten en el registro MCP local de runtime. Los auth helpers de plantilla se combinan antes de probe/register.";
  mcy_headersPlaceholder := "Headers opcionales, uno por linea: Authorization: Bearer ...";
  mcy_idAria := "ID del servidor MCP";
  mcy_loadingServers := "Cargando servidores MCP…";
  mcy_loadingTemplates := "Cargando plantillas MCP…";
  mcy_localDescription := "Servidor de proceso local gestionado por plugin runtime.";
  mcy_noFilterMatches := "Ningun servidor MCP coincide con el filtro actual.";
  mcy_noServers := "Todavia no hay servidores MCP registrados.";
  mcy_optionalSecret := "Auth secret opcional";
  mcy_probePrefix := "Prueba";
  mcy_refresh := "Actualizar";
  mcy_refreshing := "Actualizando…";
  mcy_register := "Registrar MCP remoto";
  mcy_registeredCount count := showNat count +:+ " registrados";
  mcy_registeredServer serverID := serverID +:+ " registrado. Inicialo explicitamente antes de invoke.";
  mcy_registering := "Registrando…";
  mcy_remoteDescriptionFallback := "El endpoint remoto no esta expuesto por el snapshot del backend.";
  mcy_restart := "Reiniciar";
  mcy_saveAria := "Registrar servidor MCP remoto";
  mcy_saveChanges := "Guardar cambios";
  mcy_saveChangesAria := "Guardar cambios del servidor MCP";
  mcy_savedServer serverID := serverID +:+ " guardado.";
  mcy_saving := "Guardando…";
  mcy_start := "Iniciar";
  mcy_stop := "Detener";
  mcy_templateDescription := "Carga una plantilla acotada para prefijar endpoint y auth helpers. El registro sigue siendo explicito.";
  mcy_templateLoaded name := "Plantilla " +:+ name +:+ " cargada.";
  mcy_templateSecretAria := "Secret de plantilla MCP";
  mcy_templatesTitle := "Plantillas de onboarding";
  mcy_testAria := "Probar endpoint MCP";
  mcy_testing := "Probando…";
  mcy_title := "Servidores MCP";
  mcy_visibleCount count := showNat count +:+ " visibles"
|}.

Definition mcpSettingsCopy (locale : AppLocale) : MCPSettingsCopy :=
  match locale with
  | LocaleEn => mcpSettingsCopy_en
  | LocaleRu => mcpSettingsCopy_ru
  | LocaleZhCN => mcpSettingsCopy_zh_CN
  | LocaleEs => mcpSettingsCopy_es
  end.

(** ** Plugins *)

(** The owner, the visibility and the number of metadata entries of a plugin. *)
Definition ownerText (owner : string) (visibility : option string) (meta : string) (metadataCount : option nat) : string :=
  join " · " (filterb truthy ([owner] ++ option_list visibility ++
    match metadataCount with
    | Some n => if bool_decide (0 < n) then [meta +:+ showNat n] else []
    | None => []
    end)).

Record PluginsSettingsCopy := mkPluginCopy {
  pcy_allowedUsersAria : string;
  pcy_actor : string -> string;
  pcy_catalogDescription : string;
  pcy_catalogTitle : string;
  pcy_description : string;
  pcy_disable : string;
  pcy_disabledStatus : string;
  pcy_enabledCount : nat -> string;
  pcy_enable : string;
  pcy_enabledStatus : string;
  pcy_errorChangeState : string;
  pcy_errorDuplicateMetadataKey : string -> string;
  pcy_errorInstall : string;
  pcy_errorLoad : string;
  pcy_errorMetadataFormat : string;
  pcy_errorMetadataKey : string;
  pcy_filterAria : string;
  pcy_filterPlaceholder : string;
  pcy_gitRefAria : string;
  pcy_gitRefPlaceholder : string;
  pcy_gitRepository : string;
  pcy_installedCount : nat -> string;
  pcy_installing : string;
  pcy_installFrom : PluginInstallSourceKind -> string;
  pcy_installDescription : string;
  pcy_installedMessage : string -> string;
  pcy_installTitle : string;
  pcy_loadingCatalog : string;
  pcy_metadataAria : string;
  pcy_metadataCount : nat -> string;
  pcy_noFilterMatches : string;
  pcy_noPlugins : string;
  pcy_ownerMeta : string -> option string -> option nat -> string;
  pcy_readyStatus : string;
  pcy_remove : string;
  pcy_removedMessage : string -> string;
  pcy_sourceKindAria : string;
  pcy_sourceDescription : PluginInstallSourceKind -> string;
  pcy_sourceRefDescription : string -> string;
  pcy_sourceURLAria : string;
  pcy_title : string;
  pcy_toolCount : nat -> string;
  pcy_update : string;
  pcy_updatedMessage : string -> string -> string;
  pcy_validationErrorStatus : string;
  pcy_visibilityAria : string;
  pcy_visibilityPrivate : string;
  pcy_visibilityShared : string;
  pcy_visibleCount : nat -> string;
  pcy_zipArchive : string
}.

Definition pluginsSettingsCopy_en : PluginsSettingsCopy := {|
  pcy_allowedUsersAria := "Plugin allowed users";
  pcy_actor username := "actor: " +:+ username;
  pcy_catalogDescription := "Enable, disable, update, or remove installed plugins without reopening the runtime.";
  pcy_catalogTitle := "Catalog";
  pcy_description := "Local plugin catalog on the backend-owned runtime path. Install sources stay intentionally limited to `git` URLs and `zip` archive URLs.";
  pcy_disable := "Disable";
  pcy_disabledStatus := "disabled";
  pcy_enabledCount count := showNat count +:+ " enabled";
  pcy_enable := "Enable";
  pcy_enabledStatus := "enabled";
  pcy_errorChangeState := "Unable to change plugin state";
  pcy_errorDuplicateMetadataKey key := "Duplicate metadata key: " +:+ key;
  pcy_errorInstall := "Unable to install plugin";
  pcy_errorLoad := "Unable to load installed plugins";
  pcy_errorMetadataFormat := "Metadata lines must use `key=value` format.";
  pcy_errorMetadataKey := "Metadata keys must be non-empty.";
  pcy_filterAria := "Filter installed plugins";
  pcy_filterPlaceholder := "Filter by plugin, owner, source, tool, or metadata";
  pcy_gitRefAria := "Plugin git ref";
  pcy_gitRefPlaceholder := "Optional branch or tag";
  pcy_gitRepository := "Git repository";
  pcy_installedCount count := showNat count +:+ " installed";
  pcy_installing := "Installing…";
  pcy_installFrom kind := "Install from " +:+ showSource kind;
  pcy_installDescription := "Access policy fields are persisted now for future rights enforcement, but not enforced yet.";
  pcy_installedMessage name := "Installed " +:+ name +:+ ".";
  pcy_installTitle := "Install plugin bundle";
  pcy_loadingCatalog := "Loading plugin catalog…";
  pcy_metadataAria := "Plugin metadata";
  pcy_metadataCount count := "meta " +:+ showNat count;
  pcy_noFilterMatches := "No installed plugins match current filter.";
  pcy_noPlugins := "No plugins installed yet.";
  pcy_ownerMeta owner visibility metadataCount := ownerText ("owner: " +:+ owner) visibility "meta " metadataCount;
  pcy_readyStatus := "ready";
  pcy_remove := "Remove";
  pcy_removedMessage name := "Removed " +:+ name +:+ ".";
  pcy_sourceKindAria := "Plugin source kind";
  pcy_sourceDescription kind := showSource kind +:+ " source";
  pcy_sourceRefDescription ref := "ref " +:+ ref;
  pcy_sourceURLAria := "Plugin source URL";
  pcy_title := "Installed plugins";
  pcy_toolCount count := showNat count +:+ " tool" +:+ (if bool_decide (count = 1) then "" else "s");
  pcy_update := "Update";
  pcy_updatedMessage name version := "Updated " +:+ name +:+ " to " +:+ version +:+ ".";
  pcy_validationErrorStatus := "validation error";
  pcy_visibilityAria := "Plugin visibility";
  pcy_visibilityPrivate := "Private";
  pcy_visibilityShared := "Shared";
  pcy_visibleCount count := showNat count +:+ " visible";
  pcy_zipArchive := "ZIP archive"
|}.

Definition pluginsSettingsCopy_ru : PluginsSettingsCopy := {|
  pcy_allowedUsersAria := "Разрешенные пользователи плагина";
  pcy_actor username := "пользователь: " +:+ username;
  pcy_catalogDescription := "Включайте, выключайте, обновляйте или удаляйте плагины без перезапуска приложения.";
  pcy_catalogTitle := "Каталог";
  pcy_description := "Локальный каталог плагинов хранится на стороне приложения. Источники установки ограничены URL git-репозитория и ZIP-архива.";
  pcy_disable := "Выключить";
  pcy_disabledStatus := "выключен";
  pcy_enabledCount count := showNat count +:+ " включено";
  pcy_enable := "Включить";
  pcy_enabledStatus := "включен";
  pcy_errorChangeState := "Не удалось изменить состояние плагина";
  pcy_errorDuplicateMetadataKey key := "Повторяющийся ключ метаданных: " +:+ key;
  pcy_errorInstall := "Не удалось установить плагин";
  pcy_errorLoad := "Не удалось загрузить установленные плагины";
  pcy_errorMetadataFormat := "Строки метаданных должны быть в формате `key=value`.";
  pcy_errorMetadataKey := "Ключи метаданных не должны быть пустыми.";
  pcy_filterAria := "Фильтр установленных плагинов";
  pcy_filterPlaceholder := "Фильтр по плагину, владельцу, источнику, инструменту или метаданным";
  pcy_gitRefAria := "Git-ссылка плагина";
  pcy_gitRefPlaceholder := "Необязательная ветка или тег";
  pcy_gitRepository := "Git-репозиторий";
  pcy_installedCount count := showNat count +:+ " установлено";
  pcy_installing := "Установка…";
  pcy_installFrom kind := "Установить из " +:+ showSource kind;
  pcy_installDescription := "Поля доступа уже сохраняются для будущего контроля прав, но пока не применяются.";
  pcy_installedMessage name := "Установлен " +:+ name +:+ ".";
  pcy_installTitle := "Установка пакета плагина";
  pcy_loadingCatalog := "Загрузка каталога плагинов…";
  pcy_metadataAria := "Метаданные плагина";
  pcy_metadataCount count := "метаданные " +:+ showNat count;
  pcy_noFilterMatches := "Нет установленных плагинов по текущему фильтру.";
  pcy_noPlugins := "Плагины пока не установлены.";
  pcy_ownerMeta owner visibility metadataCount := ownerText ("владелец: " +:+ owner) visibility "метаданные " metadataCount;
  pcy_readyStatus := "готов";
  pcy_remove := "Удалить";
  pcy_removedMessage name := "Удалён " +:+ name +:+ ".";
  pcy_sourceKindAria := "Тип источника плагина";
  pcy_sourceDescription kind := "источник " +:+ showSource kind;
  pcy_sourceRefDescription ref := "ref " +:+ ref;
  pcy_sourceURLAria := "URL источника плагина";
  pcy_title := "Установленные плагины";
  pcy_toolCount count := showNat count +:+ " " +:+ (if bool_decide (count = 1) then "инструмент" else "инструментов");
  pcy_update := "Обновить";
  pcy_updatedMessage name version := "Обновлен " +:+ name +:+ " до " +:+ version +:+ ".";
  pcy_validationErrorStatus := "ошибка валидации";
  pcy_visibilityAria := "Видимость плагина";
  pcy_visibilityPrivate := "Приватный";
  pcy_visibilityShared := "Общий";
  pcy_visibleCount count := showNat count +:+ " видно";
  pcy_zipArchive := "ZIP-архив"
|}.

Definition pluginsSettingsCopy_zh_CN : PluginsSettingsCopy := {|
  pcy_allowedUsersAria := "插件允许用户";
  pcy_actor username := "执行者：" +:+ username;
  pcy_catalogDescription := "无需重新打开运行时即可启用、禁用、更新或移除已安装插件。";
  pcy_catalogTitle := "目录";
  pcy_description := "后端运行时路径上的本地插件目录。安装来源刻意限制为 `git` URL 和 `zip` 归档 URL。";
  pcy_disable := "禁用";
  pcy_disabledStatus := "已禁用";
  pcy_enabledCount count := "已启用 " +:+ showNat count;
  pcy_enable := "启用";
  pcy_enabledStatus := "已启用";
  pcy_errorChangeState := "无法更改插件状态";
  pcy_errorDuplicateMetadataKey key := "重复的元数据键：" +:+ key;
  pcy_errorInstall := "无法安装插件";
  pcy_errorLoad := "无法加载已安装插件";
  pcy_errorMetadataFormat := "元数据行必须使用 `key=value` 格式。";
  pcy_errorMetadataKey := "元数据键不能为空。";
  pcy_filterAria := "筛选已安装插件";
  pcy_filterPlaceholder := "按插件、所有者、来源、工具或元数据筛选";
  pcy_gitRefAria := "插件 Git ref";
  pcy_gitRefPlaceholder := "可选分支或标签";
  pcy_gitRepository := "Git 仓库";
  pcy_installedCount count := "已安装 " +:+ showNat count;
  pcy_installing := "安装中…";
  pcy_installFrom kind := "从 " +:+ showSource kind +:+ " 安装";
  pcy_installDescription := "访问策略字段现在会持久化，以供未来权限执行使用，但目前尚未强制执行。";
  pcy_installedMessage name := "已安装 " +:+ name +:+ "。";
  pcy_installTitle := "安装插件包";
  pcy_loadingCatalog := "正在加载插件目录…";
  pcy_metadataAria := "插件元数据";
  pcy_metadataCount count := "元数据 " +:+ showNat count;
  pcy_noFilterMatches := "没有已安装插件匹配当前筛选条件。";
  pcy_noPlugins := "尚未安装插件。";
  pcy_ownerMeta owner visibility metadataCount := ownerText ("所有者：" +:+ owner) visibility "元数据 " metadataCount;
  pcy_readyStatus := "就绪";
  pcy_remove := "移除";
  pcy_removedMessage name := "已移除 " +:+ name +:+ "。";
  pcy_sourceKindAria := "插件来源类型";
  pcy_sourceDescription kind := showSource kind +:+ " 来源";
  pcy_sourceRefDescription ref := "ref " +:+ ref;
  pcy_sourceURLAria := "插件来源 URL";
  pcy_title := "已安装插件";
  pcy_toolCount count := showNat count +:+ " 个工具";
  pcy_update := "更新";
  pcy_updatedMessage name version := "已将 " +:+ name +:+ " 更新到 " +:+ version +:+ "。";
  pcy_validationErrorStatus := "验证错误";
  pcy_visibilityAria := "插件可见性";
  pcy_visibilityPrivate := "私有";
  pcy_visibilityShared := "共享";
  pcy_visibleCount count := "可见 " +:+ showNat count;
  pcy_zipArchive := "ZIP 归档"
|}.

Definition pluginsSettingsCopy_es : PluginsSettingsCopy := {|
  pcy_allowedUsersAria := "Usuarios permitidos del plugin";
  pcy_actor username := "actor: " +:+ username;
  pcy_catalogDescription := "Activa, desactiva, actualiza o elimina plugins instalados sin reabrir runtime.";
  pcy_catalogTitle := "Catalogo";
  pcy_description := "Catalogo local de plugins en la ruta de runtime propiedad del backend. Las fuentes de instalacion se limitan intencionalmente a URL `git` y URL de archivo `zip`.";
  pcy_disable := "Desactivar";
  pcy_disabledStatus := "desactivado";
  pcy_enabledCount count := showNat count +:+ " activados";
  pcy_enable := "Activar";
  pcy_enabledStatus := "activado";
  pcy_errorChangeState := "No se pudo cambiar el estado del plugin";
  pcy_errorDuplicateMetadataKey key := "Clave de metadata duplicada: " +:+ key;
  pcy_errorInstall := "No se pudo instalar el plugin";
  pcy_errorLoad := "No se pudieron cargar los plugins instalados";
  pcy_errorMetadataFormat := "Las lineas de metadata deben usar el formato `key=value`.";
  pcy_errorMetadataKey := "Las claves de metadata no pueden estar vacias.";
  pcy_filterAria := "Filtrar plugins instalados";
  pcy_filterPlaceholder := "Filtrar por plugin, propietario, fuente, herramienta o metadata";
  pcy_gitRefAria := "Git ref del plugin";
  pcy_gitRefPlaceholder := "Rama o etiqueta opcional";
  pcy_gitRepository := "Repositorio Git";
  pcy_installedCount count := showNat count +:+ " instalados";
  pcy_installing := "Instalando…";
  pcy_installFrom kind := "Instalar desde " +:+ showSource kind;
  pcy_installDescription := "Los campos de access policy ya se persisten para una futura aplicacion de permisos, pero aun no se aplican.";
  pcy_installedMessage name := name +:+ " instalado.";
  pcy_installTitle := "Instalar bundle de plugin";
  pcy_loadingCatalog := "Cargando catalogo de plugins…";
  pcy_metadataAria := "Metadata del plugin";
  pcy_metadataCount count := "metadata " +:+ showNat count;
  pcy_noFilterMatches := "Ningun plugin instalado coincide con el filtro actual.";
  pcy_noPlugins := "Todavia no hay plugins instalados.";
  pcy_ownerMeta owner visibility metadataCount := ownerText ("propietario: " +:+ owner) visibility "metadata " metadataCount;
  pcy_readyStatus := "listo";
  pcy_remove := "Eliminar";
  pcy_removedMessage name := name +:+ " eliminado.";
  pcy_sourceKindAria := "Tipo de fuente del plugin";
  pcy_sourceDescription kind := "fuente " +:+ showSource kind;
  pcy_sourceRefDescription ref := "ref " +:+ ref;
  pcy_sourceURLAria := "URL fuente del plugin";
  pcy_title := "Plugins instalados";
  pcy_toolCount count := showNat count +:+ " herramienta" +:+ (if bool_decide (count = 1) then "" else "s");
  pcy_update := "Actualizar";
  pcy_updatedMessage name version := name +:+ " actualizado a " +:+ version +:+ ".";
  pcy_validationErrorStatus := "error de validacion";
  pcy_visibilityAria := "Visibilidad del plugin";
  pcy_visibilityPrivate := "Privado";
  pcy_visibilityShared := "Compartido";
  pcy_visibleCount count := showNat count +:+ " visibles";
  pcy_zipArchive := "Archivo ZIP"
|}.

Definition pluginsSettingsCopy (locale : AppLocale) : PluginsSettingsCopy :=
  match locale with
  | LocaleEn => pluginsSettingsCopy_en
  | LocaleRu => pluginsSettingsCopy_ru
  | LocaleZhCN => pluginsSettingsCopy_zh_CN
  | LocaleEs => pluginsSettingsCopy_es
  end.

(** ** Remote profiles *)

Record RemoteProfilesCopy := mkRemoteCopy {
  rcy_browseTmux : string;
  rcy_cancelEdit : string;
  rcy_check : string;
  rcy_defaultBadge : string;
  rcy_defaultConnection : string -> string;
  rcy_defaultCount : nat -> string;
  rcy_deletedProfile : string;
  rcy_delete : string;
  rcy_description : string;
  rcy_derivedAutomatically : string;
  rcy_detached : string;
  rcy_edit : string;
  rcy_errorCheck : string;
  rcy_errorDelete : string;
  rcy_errorImport : string;
  rcy_errorLoad : string;
  rcy_errorLoadTmux : string;
  rcy_errorOpenShell : string;
  rcy_errorPort : string;
  rcy_errorSave : string;
  rcy_errorSetDefault : string;
  rcy_filterAria : string;
  rcy_filterPlaceholder : string;
  rcy_filterTmuxAria : string -> string;
  rcy_focusedShell : string -> string;
  rcy_hostAria : string;
  rcy_identityFileAria : string;
  rcy_importButton : string;
  rcy_importing : string;
  rcy_importPathAria : string;
  rcy_importPathPlaceholder : string;
  rcy_importSummary : nat -> nat -> string;
  rcy_launchPrefix : string;
  rcy_loadNamedSession : string;
  rcy_loadedTmuxEditor : string -> string;
  rcy_loadedTmuxSessions : nat -> string;
  rcy_loadingProfiles : string;
  rcy_loadingTmux : string;
  rcy_nameAria : string;
  rcy_namedTmuxSessionAria : string -> string;
  rcy_noFilterMatches : string;
  rcy_noProfiles : string;
  rcy_noTmuxFilterMatches : string;
  rcy_noTmuxSessions : string;
  rcy_noTmuxSessionsYet : string;
  rcy_openNamedSession : string;
  rcy_openShell : string;
  rcy_openedShell : string -> string;
  rcy_openedTmuxShell : string -> string -> string;
  rcy_portAria : string;
  rcy_preflightPassed : string;
  rcy_preflightStatus : string -> string -> string;
  rcy_refresh : string;
  rcy_refreshing : string;
  rcy_refreshTmux : string;
  rcy_remoteName : string;
  rcy_resumedShell : string -> string;
  rcy_resumedTmuxShell : string -> string -> string;
  rcy_resumeSession : string;
  rcy_saveChanges : string;
  rcy_saveProfile : string;
  rcy_saveProfileAria : string;
  rcy_saveProfileChangesAria : string;
  rcy_savedCount : nat -> string;
  rcy_savedProfile : string -> string;
  rcy_saving : string;
  rcy_setDefault : string;
  rcy_shellLaunchSucceeded : string;
  rcy_title : string;
  rcy_tmuxAttached : string;
  rcy_tmuxDetached : string;
  rcy_tmuxFilterPlaceholder : string;
  rcy_tmuxManager : string;
  rcy_tmuxRequiredLoad : string;
  rcy_tmuxRequiredOpen : string;
  rcy_tmuxResume : string;
  rcy_tmuxSessionAria : string;
  rcy_tmuxSummary : nat -> nat -> nat -> string;
  rcy_unknownCheckFailed : string;
  rcy_unknownLaunchFailed : string;
  rcy_useSession : string;
  rcy_userAria : string;
  rcy_visibleCount : nat -> string;
  rcy_windowCount : nat -> string
}.

Definition remoteProfilesCopy_en : RemoteProfilesCopy := {|
  rcy_browseTmux := "Browse tmux";
  rcy_cancelEdit := "Cancel edit";
  rcy_check := "Check";
  rcy_defaultBadge := "default";
  rcy_defaultConnection name := "Default connection: " +:+ name +:+ ".";
  rcy_defaultCount count := showNat count +:+ " default";
  rcy_deletedProfile := "Deleted SSH profile.";
  rcy_delete := "Delete";
  rcy_description := "Saved SSH targets are backend-owned. Keep a narrow profile inventory here and import concrete aliases from `~/.ssh/config`, including `Include`, wildcard-host defaults, and `Match host/originalhost` overrides.";
  rcy_derivedAutomatically := "derived automatically";
  rcy_detached := "detached";
  rcy_edit := "Edit";
  rcy_errorCheck := "Unable to check remote profile";
  rcy_errorDelete := "Unable to delete remote profile";
  rcy_errorImport := "Unable to import SSH config";
  rcy_errorLoad := "Unable to load remote profiles";
  rcy_errorLoadTmux := "Unable to load tmux sessions";
  rcy_errorOpenShell := "Unable to open remote shell";
  rcy_errorPort := "Port must be a positive integer.";
  rcy_errorSave := "Unable to save remote profile";
  rcy_errorSetDefault := "Unable to set default connection";
  rcy_filterAria := "Filter remote profiles";
  rcy_filterPlaceholder := "Filter saved SSH profiles";
  rcy_filterTmuxAria profileName := "Filter tmux sessions for " +:+ profileName;
  rcy_focusedShell profileName := "Focused running remote shell for " +:+ profileName +:+ ".";
  rcy_hostAria := "Remote profile host";
  rcy_identityFileAria := "Remote profile identity file";
  rcy_importButton := "Import SSH config";
  rcy_importing := "Importing…";
  rcy_importPathAria := "SSH config path";
  rcy_importPathPlaceholder := "Default: ~/.ssh/config";
  rcy_importSummary importedCount skippedCount := if bool_decide (0 < skippedCount) then "Imported " +:+ showNat importedCount +:+ " " +:+ (if bool_decide (importedCount = 1) then "profile" else "profiles") +:+ "; " +:+ showNat skippedCount +:+ " " +:+ (if bool_decide (skippedCount = 1) then "host skipped" else "hosts skipped") +:+ "." else "Imported " +:+ showNat importedCount +:+ " " +:+ (if bool_decide (importedCount = 1) then "profile" else "profiles") +:+ ".";
  rcy_launchPrefix := "launch:";
  rcy_loadNamedSession := "Load named session";
  rcy_loadedTmuxEditor sessionName := "Loaded tmux session " +:+ sessionName +:+ " into profile editor.";
  rcy_loadedTmuxSessions count := "Loaded " +:+ showNat count +:+ " tmux sessions.";
  rcy_loadingProfiles := "Loading remote profiles…";
  rcy_loadingTmux := "Loading tmux…";
  rcy_nameAria := "Remote profile name";
  rcy_namedTmuxSessionAria profileName := "Named tmux session for " +:+ profileName;
  rcy_noFilterMatches := "No SSH profiles match current filter.";
  rcy_noProfiles := "No saved SSH profiles yet.";
  rcy_noTmuxFilterMatches := "No discovered tmux sessions match the current filter.";
  rcy_noTmuxSessions := "No tmux sessions reported by remote host.";
  rcy_noTmuxSessionsYet := "No discovered tmux sessions yet. You can still type a named session below.";
  rcy_openNamedSession := "Open named session";
  rcy_openShell := "Open shell";
  rcy_openedShell profileName := "Opened remote shell for " +:+ profileName +:+ ".";
  rcy_openedTmuxShell profileName sessionName := "Opened " +:+ profileName +:+ " on tmux session " +:+ sessionName +:+ ".";
  rcy_portAria := "Remote profile port";
  rcy_preflightPassed := "Last preflight passed.";
  rcy_preflightStatus profileName status := profileName +:+ ": preflight " +:+ status +:+ ".";
  rcy_refresh := "Refresh";
  rcy_refreshing := "Refreshing…";
  rcy_refreshTmux := "Refresh tmux";
  rcy_remoteName := "Remote profile tmux session";
  rcy_resumedShell profileName := "Resumed running remote shell for " +:+ profileName +:+ ".";
  rcy_resumedTmuxShell profileName sessionName := "Resumed " +:+ profileName +:+ " on tmux session " +:+ sessionName +:+ ".";
  rcy_resumeSession := "Resume session";
  rcy_saveChanges := "Save changes";
  rcy_saveProfile := "Save profile";
  rcy_saveProfileAria := "Save remote profile";
  rcy_saveProfileChangesAria := "Save remote profile changes";
  rcy_savedCount count := showNat count +:+ " saved";
  rcy_savedProfile profileName := "Saved " +:+ profileName +:+ ".";
  rcy_saving := "Saving…";
  rcy_setDefault := "Set default";
  rcy_shellLaunchSucceeded := "Last shell launch succeeded.";
  rcy_title := "Remote profiles";
  rcy_tmuxAttached := "attached";
  rcy_tmuxDetached := "detached";
  rcy_tmuxFilterPlaceholder := "Filter discovered tmux sessions";
  rcy_tmuxManager := "tmux manager";
  rcy_tmuxRequiredLoad := "Choose or type a tmux session name before loading it into the profile editor.";
  rcy_tmuxRequiredOpen := "Choose or type a tmux session name before opening it.";
  rcy_tmuxResume := "tmux resume:";
  rcy_tmuxSessionAria := "Resume remote shell through tmux";
  rcy_tmuxSummary total attached detached := showNat total +:+ " discovered · " +:+ showNat attached +:+ " attached · " +:+ showNat detached +:+ " detached";
  rcy_unknownCheckFailed := "Last preflight failed.";
  rcy_unknownLaunchFailed := "Last launch failed.";
  rcy_useSession := "Use session";
  rcy_userAria := "Remote profile user";
  rcy_visibleCount count := showNat count +:+ " visible";
  rcy_windowCount count := showNat count +:+ " window" +:+ (if bool_decide (count = 1) then "" else "s")
|}.

Definition remoteProfilesCopy_ru : RemoteProfilesCopy := {|
  rcy_browseTmux := "Просмотреть tmux";
  rcy_cancelEdit := "Отменить редактирование";
  rcy_check := "Проверить";
  rcy_defaultBadge := "по умолчанию";
  rcy_defaultConnection name := "Соединение по умолчанию: " +:+ name +:+ ".";
  rcy_defaultCount count := showNat count +:+ " по умолчанию";
  rcy_deletedProfile := "SSH-профиль удалён.";
  rcy_delete := "Удалить";
  rcy_description := "Здесь хранится короткий список SSH-профилей и импортируются конкретные алиасы из `~/.ssh/config`, включая `Include`, wildcard-defaults и правила `Match host/originalhost`.";
  rcy_derivedAutomatically := "выводится автоматически";
  rcy_detached := "отсоединена";
  rcy_edit := "Изменить";
  rcy_errorCheck := "Не удалось проверить удалённый профиль";
  rcy_errorDelete := "Не удалось удалить удалённый профиль";
  rcy_errorImport := "Не удалось импортировать SSH config";
  rcy_errorLoad := "Не удалось загрузить удалённые профили";
  rcy_errorLoadTmux := "Не удалось загрузить tmux-сессии";
  rcy_errorOpenShell := "Не удалось открыть удалённую оболочку";
  rcy_errorPort := "Порт должен быть положительным целым числом.";
  rcy_errorSave := "Не удалось сохранить удалённый профиль";
  rcy_errorSetDefault := "Не удалось назначить соединение по умолчанию";
  rcy_filterAria := "Фильтр удалённых профилей";
  rcy_filterPlaceholder := "Фильтр сохраненных SSH-профилей";
  rcy_filterTmuxAria profileName := "Фильтр tmux-сессий для " +:+ profileName;
  rcy_focusedShell profileName := "Сфокусирована запущенная удалённая оболочка для " +:+ profileName +:+ ".";
  rcy_hostAria := "Хост удалённого профиля";
  rcy_identityFileAria := "Файл ключа удалённого профиля";
  rcy_importButton := "Импорт SSH config";
  rcy_importing := "Импорт…";
  rcy_importPathAria := "Путь SSH config";
  rcy_importPathPlaceholder := "По умолчанию: ~/.ssh/config";
  rcy_importSummary importedCount skippedCount := if bool_decide (0 < skippedCount) then "Импортировано " +:+ showNat importedCount +:+ "; пропущено хостов: " +:+ showNat skippedCount +:+ "." else "Импортировано " +:+ showNat importedCount +:+ ".";
  rcy_launchPrefix := "запуск:";
  rcy_loadNamedSession := "Загрузить сессию";
  rcy_loadedTmuxEditor sessionName := "tmux-сессия " +:+ sessionName +:+ " загружена в редактор профиля.";
  rcy_loadedTmuxSessions count := "Загружено tmux-сессий: " +:+ showNat count +:+ ".";
  rcy_loadingProfiles := "Загрузка удалённых профилей…";
  rcy_loadingTmux := "Загрузка tmux…";
  rcy_nameAria := "Название удалённого профиля";
  rcy_namedTmuxSessionAria profileName := "Именованная tmux-сессия для " +:+ profileName;
  rcy_noFilterMatches := "Нет SSH-профилей по текущему фильтру.";
  rcy_noProfiles := "Сохраненных SSH-профилей пока нет.";
  rcy_noTmuxFilterMatches := "Нет tmux-сессий по текущему фильтру.";
  rcy_noTmuxSessions := "Удалённый хост не сообщил tmux-сессии.";
  rcy_noTmuxSessionsYet := "Обнаруженных tmux-сессий пока нет. Можно вручную ввести имя ниже.";
  rcy_openNamedSession := "Открыть сессию";
  rcy_openShell := "Открыть оболочку";
  rcy_openedShell profileName := "Открыта удалённая оболочка для " +:+ profileName +:+ ".";
  rcy_openedTmuxShell profileName sessionName := profileName +:+ " открыт в tmux-сессии " +:+ sessionName +:+ ".";
  rcy_portAria := "Порт удалённого профиля";
  rcy_preflightPassed := "Последняя проверка успешна.";
  rcy_preflightStatus profileName status := profileName +:+ ": проверка " +:+ status +:+ ".";
  rcy_refresh := "Обновить";
  rcy_refreshing := "Обновление…";
  rcy_refreshTmux := "Обновить tmux";
  rcy_remoteName := "tmux-сессия удалённого профиля";
  rcy_resumedShell profileName := "Возобновлена удалённая оболочка для " +:+ profileName +:+ ".";
  rcy_resumedTmuxShell profileName sessionName := profileName +:+ " возобновлён в tmux-сессии " +:+ sessionName +:+ ".";
  rcy_resumeSession := "Возобновить сессию";
  rcy_saveChanges := "Сохранить изменения";
  rcy_saveProfile := "Сохранить профиль";
  rcy_saveProfileAria := "Сохранить удалённый профиль";
  rcy_saveProfileChangesAria := "Сохранить изменения удалённого профиля";
  rcy_savedCount count := showNat count +:+ " сохранено";
  rcy_savedProfile profileName := "Сохранён " +:+ profileName +:+ ".";
  rcy_saving := "Сохранение…";
  rcy_setDefault := "По умолчанию";
  rcy_shellLaunchSucceeded := "Последний запуск оболочки успешен.";
  rcy_title := "Удалённые профили";
  rcy_tmuxAttached := "подключена";
  rcy_tmuxDetached := "отсоединена";
  rcy_tmuxFilterPlaceholder := "Фильтр обнаруженных tmux-сессий";
  rcy_tmuxManager := "tmux-сессии";
  rcy_tmuxRequiredLoad := "Выберите или введите имя tmux-сессии перед загрузкой в редактор профиля.";
  rcy_tmuxRequiredOpen := "Выберите или введите имя tmux-сессии перед открытием.";
  rcy_tmuxResume := "возобновление tmux:";
  rcy_tmuxSessionAria := "Возобновлять удалённую оболочку через tmux";
  rcy_tmuxSummary total attached detached := showNat total +:+ " обнаружено · " +:+ showNat attached +:+ " подключено · " +:+ showNat detached +:+ " отсоединено";
  rcy_unknownCheckFailed := "Последняя проверка завершилась ошибкой.";
  rcy_unknownLaunchFailed := "Последний запуск завершился ошибкой.";
  rcy_useSession := "Использовать сессию";
  rcy_userAria := "Пользователь удалённого профиля";
  rcy_visibleCount count := showNat count +:+ " видно";
  rcy_windowCount count := showNat count +:+ " окон"
|}.

Definition remoteProfilesCopy_zh_CN : RemoteProfilesCopy := {|
  rcy_browseTmux := "浏览 tmux";
  rcy_cancelEdit := "取消编辑";
  rcy_check := "检查";
  rcy_defaultBadge := "默认";
  rcy_defaultConnection name := "默认连接：" +:+ name +:+ "。";
  rcy_defaultCount count := "默认 " +:+ showNat count;
  rcy_deletedProfile := "已删除 SSH 配置。";
  rcy_delete := "删除";
  rcy_description := "已保存的 SSH 目标由后端拥有。这里保留精简的配置清单，并可从 `~/.ssh/config` 导入具体别名，包括 `Include`、通配主机默认值和 `Match host/originalhost` 覆盖。";
  rcy_derivedAutomatically := "自动推导";
  rcy_detached := "已分离";
  rcy_edit := "编辑";
  rcy_errorCheck := "无法检查远程配置";
  rcy_errorDelete := "无法删除远程配置";
  rcy_errorImport := "无法导入 SSH 配置";
  rcy_errorLoad := "无法加载远程配置";
  rcy_errorLoadTmux := "无法加载 tmux 会话";
  rcy_errorOpenShell := "无法打开远程 shell";
  rcy_errorPort := "端口必须是正整数。";
  rcy_errorSave := "无法保存远程配置";
  rcy_errorSetDefault := "无法设置默认连接";
  rcy_filterAria := "筛选远程配置";
  rcy_filterPlaceholder := "筛选已保存的 SSH 配置";
  rcy_filterTmuxAria profileName := "筛选 " +:+ profileName +:+ " 的 tmux 会话";
  rcy_focusedShell profileName := "已聚焦 " +:+ profileName +:+ " 的运行中远程 shell。";
  rcy_hostAria := "远程配置主机";
  rcy_identityFileAria := "远程配置 identity file";
  rcy_importButton := "导入 SSH 配置";
  rcy_importing := "导入中…";
  rcy_importPathAria := "SSH 配置路径";
  rcy_importPathPlaceholder := "默认：~/.ssh/config";
  rcy_importSummary importedCount skippedCount := if bool_decide (0 < skippedCount) then "已导入 " +:+ showNat importedCount +:+ " 个；跳过 " +:+ showNat skippedCount +:+ " 个主机。" else "已导入 " +:+ showNat importedCount +:+ " 个。";
  rcy_launchPrefix := "启动：";
  rcy_loadNamedSession := "加载命名会话";
  rcy_loadedTmuxEditor sessionName := "已将 tmux 会话 " +:+ sessionName +:+ " 加载到配置编辑器。";
  rcy_loadedTmuxSessions count := "已加载 " +:+ showNat count +:+ " 个 tmux 会话。";
  rcy_loadingProfiles := "正在加载远程配置…";
  rcy_loadingTmux := "正在加载 tmux…";
  rcy_nameAria := "远程配置名称";
  rcy_namedTmuxSessionAria profileName := profileName +:+ " 的命名 tmux 会话";
  rcy_noFilterMatches := "没有 SSH 配置匹配当前筛选条件。";
  rcy_noProfiles := "尚未保存 SSH 配置。";
  rcy_noTmuxFilterMatches := "没有 tmux 会话匹配当前筛选条件。";
  rcy_noTmuxSessions := "远程主机未报告 tmux 会话。";
  rcy_noTmuxSessionsYet := "尚未发现 tmux 会话。仍可在下方输入命名会话。";
  rcy_openNamedSession := "打开命名会话";
  rcy_openShell := "打开 shell";
  rcy_openedShell profileName := "已为 " +:+ profileName +:+ " 打开远程 shell。";
  rcy_openedTmuxShell profileName sessionName := "已在 tmux 会话 " +:+ sessionName +:+ " 中打开 " +:+ profileName +:+ "。";
  rcy_portAria := "远程配置端口";
  rcy_preflightPassed := "上次 preflight 通过。";
  rcy_preflightStatus profileName status := profileName +:+ ": preflight " +:+ status +:+ ".";
  rcy_refresh := "刷新";
  rcy_refreshing := "刷新中…";
  rcy_refreshTmux := "刷新 tmux";
  rcy_remoteName := "远程配置 tmux 会话";
  rcy_resumedShell profileName := "已恢复 " +:+ profileName +:+ " 的远程 shell。";
  rcy_resumedTmuxShell profileName sessionName := "已在 tmux 会话 " +:+ sessionName +:+ " 中恢复 " +:+ profileName +:+ "。";
  rcy_resumeSession := "恢复会话";
  rcy_saveChanges := "保存更改";
  rcy_saveProfile := "保存配置";
  rcy_saveProfileAria := "保存远程配置";
  rcy_saveProfileChangesAria := "保存远程配置更改";
  rcy_savedCount count := "已保存 " +:+ showNat count;
  rcy_savedProfile profileName := "已保存 " +:+ profileName +:+ "。";
  rcy_saving := "保存中…";
  rcy_setDefault := "设为默认";
  rcy_shellLaunchSucceeded := "上次 shell 启动成功。";
  rcy_title := "远程配置";
  rcy_tmuxAttached := "已附加";
  rcy_tmuxDetached := "已分离";
  rcy_tmuxFilterPlaceholder := "筛选发现的 tmux 会话";
  rcy_tmuxManager := "tmux 管理器";
  rcy_tmuxRequiredLoad := "加载到配置编辑器前，请选择或输入 tmux 会话名。";
  rcy_tmuxRequiredOpen := "打开前，请选择或输入 tmux 会话名。";
  rcy_tmuxResume := "tmux 恢复：";
  rcy_tmuxSessionAria := "通过 tmux 恢复远程 shell";
  rcy_tmuxSummary total attached detached := "发现 " +:+ showNat total +:+ " 个 · 已附加 " +:+ showNat attached +:+ " · 已分离 " +:+ showNat detached;
  rcy_unknownCheckFailed := "上次 preflight 失败。";
  rcy_unknownLaunchFailed := "上次启动失败。";
  rcy_useSession := "使用会话";
  rcy_userAria := "远程配置用户";
  rcy_visibleCount count := "可见 " +:+ showNat count;
  rcy_windowCount count := showNat count +:+ " 个窗口"
|}.

Definition remoteProfilesCopy_es : RemoteProfilesCopy := {|
  rcy_browseTmux := "Explorar tmux";
  rcy_cancelEdit := "Cancelar edicion";
  rcy_check := "Comprobar";
  rcy_defaultBadge := "predeterminado";
  rcy_defaultConnection name := "Conexion predeterminada: " +:+ name +:+ ".";
  rcy_defaultCount count := showNat count +:+ " predeterminados";
  rcy_deletedProfile := "Perfil SSH eliminado.";
  rcy_delete := "Eliminar";
  rcy_description := "Los destinos SSH guardados pertenecen al backend. Mantén aqui un inventario reducido de perfiles e importa alias concretos desde `~/.ssh/config`, incluidos `Include`, defaults wildcard-host y overrides `Match host/originalhost`.";
  rcy_derivedAutomatically := "derivado automaticamente";
  rcy_detached := "desconectada";
  rcy_edit := "Editar";
  rcy_errorCheck := "No se pudo comprobar el perfil remoto";
  rcy_errorDelete := "No se pudo eliminar el perfil remoto";
  rcy_errorImport := "No se pudo importar SSH config";
  rcy_errorLoad := "No se pudieron cargar los perfiles remotos";
  rcy_errorLoadTmux := "No se pudieron cargar las sesiones tmux";
  rcy_errorOpenShell := "No se pudo abrir el shell remoto";
  rcy_errorPort := "El puerto debe ser un entero positivo.";
  rcy_errorSave := "No se pudo guardar el perfil remoto";
  rcy_errorSetDefault := "No se pudo definir la conexion predeterminada";
  rcy_filterAria := "Filtrar perfiles remotos";
  rcy_filterPlaceholder := "Filtrar perfiles SSH guardados";
  rcy_filterTmuxAria profileName := "Filtrar sesiones tmux para " +:+ profileName;
  rcy_focusedShell profileName := "Shell remoto en ejecucion enfocado para " +:+ profileName +:+ ".";
  rcy_hostAria := "Host del perfil remoto";
  rcy_identityFileAria := "Identity file del perfil remoto";
  rcy_importButton := "Importar SSH config";
  rcy_importing := "Importando…";
  rcy_importPathAria := "Ruta de SSH config";
  rcy_importPathPlaceholder := "Predeterminado: ~/.ssh/config";
  rcy_importSummary importedCount skippedCount := if bool_decide (0 < skippedCount) then "Importados " +:+ showNat importedCount +:+ "; hosts omitidos: " +:+ showNat skippedCount +:+ "." else "Importados " +:+ showNat importedCount +:+ ".";
  rcy_launchPrefix := "launch:";
  rcy_loadNamedSession := "Cargar sesion nombrada";
  rcy_loadedTmuxEditor sessionName := "Sesion tmux " +:+ sessionName +:+ " cargada en el editor de perfil.";
  rcy_loadedTmuxSessions count := showNat count +:+ " sesiones tmux cargadas.";
  rcy_loadingProfiles := "Cargando perfiles remotos…";
  rcy_loadingTmux := "Cargando tmux…";
  rcy_nameAria := "Nombre del perfil remoto";
  rcy_namedTmuxSessionAria profileName := "Sesion tmux nombrada para " +:+ profileName;
  rcy_noFilterMatches := "Ningun perfil SSH coincide con el filtro actual.";
  rcy_noProfiles := "Todavia no hay perfiles SSH guardados.";
  rcy_noTmuxFilterMatches := "Ninguna sesion tmux descubierta coincide con el filtro actual.";
  rcy_noTmuxSessions := "El host remoto no reporto sesiones tmux.";
  rcy_noTmuxSessionsYet := "Todavia no hay sesiones tmux descubiertas. Puedes escribir una sesion nombrada abajo.";
  rcy_openNamedSession := "Abrir sesion nombrada";
  rcy_openShell := "Abrir shell";
  rcy_openedShell profileName := "Shell remoto abierto para " +:+ profileName +:+ ".";
  rcy_openedTmuxShell profileName sessionName := profileName +:+ " abierto en la sesion tmux " +:+ sessionName +:+ ".";
  rcy_portAria := "Puerto del perfil remoto";
  rcy_preflightPassed := "Ultimo preflight correcto.";
  rcy_preflightStatus profileName status := profileName +:+ ": preflight " +:+ status +:+ ".";
  rcy_refresh := "Actualizar";
  rcy_refreshing := "Actualizando…";
  rcy_refreshTmux := "Actualizar tmux";
  rcy_remoteName := "Sesion tmux del perfil remoto";
  rcy_resumedShell profileName := "Shell remoto reanudado para " +:+ profileName +:+ ".";
  rcy_resumedTmuxShell profileName sessionName := profileName +:+ " reanudado en la sesion tmux " +:+ sessionName +:+ ".";
  rcy_resumeSession := "Reanudar sesion";
  rcy_saveChanges := "Guardar cambios";
  rcy_saveProfile := "Guardar perfil";
  rcy_saveProfileAria := "Guardar perfil remoto";
  rcy_saveProfileChangesAria := "Guardar cambios del perfil remoto";
  rcy_savedCount count := showNat count +:+ " guardados";
  rcy_savedProfile profileName := profileName +:+ " guardado.";
  rcy_saving := "Guardando…";
  rcy_setDefault := "Predeterminado";
  rcy_shellLaunchSucceeded := "Ultimo lanzamiento de shell correcto.";
  rcy_title := "Perfiles remotos";
  rcy_tmuxAttached := "conectada";
  rcy_tmuxDetached := "desconectada";
  rcy_tmuxFilterPlaceholder := "Filtrar sesiones tmux descubiertas";
  rcy_tmuxManager := "gestor tmux";
  rcy_tmuxRequiredLoad := "Elige o escribe un nombre de sesion tmux antes de cargarla en el editor.";
  rcy_tmuxRequiredOpen := "Elige o escribe un nombre de sesion tmux antes de abrirla.";
  rcy_tmuxResume := "tmux resume:";
  rcy_tmuxSessionAria := "Reanudar shell remoto mediante tmux";
  rcy_tmuxSummary total attached detached := showNat total +:+ " descubiertas · " +:+ showNat attached +:+ " conectadas · " +:+ showNat detached +:+ " desconectadas";
  rcy_unknownCheckFailed := "Ultimo preflight fallido.";
  rcy_unknownLaunchFailed := "Ultimo lanzamiento fallido.";
  rcy_useSession := "Usar sesion";
  rcy_userAria := "Usuario del perfil remoto";
  rcy_visibleCount count := showNat count +:+ " visibles";
  rcy_windowCount count := showNat count +:+ " ventana" +:+ (if bool_decide (count = 1) then "" else "s")
|}.

Definition remoteProfilesCopy (locale : AppLocale) : RemoteProfilesCopy :=
  match locale with
  | LocaleEn => remoteProfilesCopy_en
  | LocaleRu => remoteProfilesCopy_ru
  | LocaleZhCN => remoteProfilesCopy_zh_CN
  | LocaleEs => remoteProfilesCopy_es
  end.

(** * The texts of the settings

    The texts of the sections of the settings in the four languages:
    [frontend/src/widgets/settings/settings-shell-copy.ts],
    [runtime-settings-section.tsx], [terminal-settings-section-copy.ts] and
    [ai-composer-settings-section.tsx]. *)
Local Open Scope string_scope.
Local Open Scope list_scope.
Local Open Scope Z_scope.
Local Open Scope js_scope.

(** ** The sections ([settings-shell-copy.ts]) *)

Inductive SettingsSectionID :=
  | SectionGeneral | SectionAiApps | SectionAiModels | SectionAiComposer | SectionAiLimits | SectionMcp | SectionPlugins | SectionRemote | SectionTerminal | SectionCommander.
#[global] Instance settings_section_eq : EqDecision SettingsSectionID.
Proof. solve_decision. Defined.

Definition showSection (id : SettingsSectionID) : string :=
  match id with
  | SectionGeneral => "general"
  | SectionAiApps => "ai-apps"
  | SectionAiModels => "ai-models"
  | SectionAiComposer => "ai-composer"
  | SectionAiLimits => "ai-limits"
  | SectionMcp => "mcp"
  | SectionPlugins => "plugins"
  | SectionRemote => "remote"
  | SectionTerminal => "terminal"
  | SectionCommander => "commander"
  end.

Record SettingsSectionMeta := mkSectionMeta {
  sx_navTitle : string;
  sx_navDescription : string;
  sx_shellTitle : string;
  sx_shellDescription : string;
  sx_groupLabel : string
}.

Record SettingsAiLimitsCopy := mkAiLimitsCopy {
  sal_activeBadge : string;
  sal_description : string;
  sal_loading : string;
  sal_noProviders : string;
  sal_routeActive : string;
  sal_routeAuthRequired : string;
  sal_routeConfiguredHttp : string;
  sal_routeDisabled : string;
  sal_routeDisabledHttp : string;
  sal_routeReady : string;
  sal_routeUnchecked : string;
  sal_routeUnknown : string;
  sal_title : string
}.

Record SettingsAiModelsCopy := mkAiModelsCopy {
  sam_availableModelsTitle : string;
  sam_countModels : Z -> string;
  sam_defaultBadge : string;
  sam_defaultModelDescription : string;
  sam_enabledModelDescription : string;
  sam_exposeModelAriaLabel : string -> string;
  sam_loadingShort : string;
  sam_loadingProviders : string;
  sam_noDiscoveredModels : string;
  sam_noProviders : string;
  sam_providerAvailable : string;
  sam_providerActive : string;
  sam_refreshModels : string;
  sam_sectionDescription : string;
  sam_routeNotConfigured : string;
  sam_routeNotProbedClaude : string;
  sam_routeNotProbedCodex : string;
  sam_routeUnknown : string
}.

Record SettingsAiParentCopy := mkAiParentCopy {
  sap_description : string;
  sap_title : string
}.

Record SettingsCommanderCopy := mkCommanderCopy {
  sco_description : string;
  sco_notConnected : string;
  sco_planned : string;
  sco_preferencesTitle : string;
  sco_title : string
}.

Record SettingsRouteStatesCopy := mkRouteStatesCopy {
  srs_authRequired : string;
  srs_disabled : string;
  srs_modelUnavailable : string;
  srs_needsAttention : string;
  srs_ready : string;
  srs_unchecked : string;
  srs_unreachable : string
}.

Record SettingsSidebarCopy := mkSidebarCopy {
  ssb_description : string;
  ssb_product : string;
  ssb_settings : string
}.

Record SettingsShellCopy := mkShellCopy {
  ssc_aiLimits : SettingsAiLimitsCopy;
  ssc_aiModels : SettingsAiModelsCopy;
  ssc_aiParent : SettingsAiParentCopy;
  ssc_commander : SettingsCommanderCopy;
  ssc_providerRouteStates : SettingsRouteStatesCopy;
  ssc_sections : (SettingsSectionID -> SettingsSectionMeta);
  ssc_sidebar : SettingsSidebarCopy
}.

Definition section_general_en : SettingsSectionMeta := {|
  sx_navTitle := "General";
  sx_navDescription := "Language, theme, and startup.";
  sx_shellTitle := "General";
  sx_shellDescription := "Language, appearance, window title, and launch behavior for the active shell.";
  sx_groupLabel := "General"
|}.

Definition section_ai_apps_en : SettingsSectionMeta := {|
  sx_navTitle := "AI providers";
  sx_navDescription := "Codex, Claude, and HTTP sources.";
  sx_shellTitle := "AI providers";
  sx_shellDescription := "Connect and check providers that can serve the main chat.";
  sx_groupLabel := "AI"
|}.

Definition section_ai_models_en : SettingsSectionMeta := {|
  sx_navTitle := "Models";
  sx_navDescription := "Models exposed to the main chat.";
  sx_shellTitle := "AI models";
  sx_shellDescription := "Choose which discovered provider models appear in the main chat.";
  sx_groupLabel := "AI"
|}.

Definition section_ai_composer_en : SettingsSectionMeta := {|
  sx_navTitle := "Composer";
  sx_navDescription := "Enter / Shift+Enter chat behavior.";
  sx_shellTitle := "Chat input";
  sx_shellDescription := "Choose the send and newline shortcuts for the AI composer.";
  sx_groupLabel := "AI"
|}.

Definition section_ai_limits_en : SettingsSectionMeta := {|
  sx_navTitle := "Status";
  sx_navDescription := "Provider readiness for chat.";
  sx_shellTitle := "Provider status";
  sx_shellDescription := "See which providers are ready, disabled, or need attention.";
  sx_groupLabel := "AI"
|}.

Definition section_mcp_en : SettingsSectionMeta := {|
  sx_navTitle := "MCP";
  sx_navDescription := "External server registration and lifecycle.";
  sx_shellTitle := "MCP";
  sx_shellDescription := "Register remote MCP endpoints and control their lifecycle explicitly.";
  sx_groupLabel := "Runtime"
|}.

Definition section_plugins_en : SettingsSectionMeta := {|
  sx_navTitle := "Plugins";
  sx_navDescription := "Local catalog and install lifecycle.";
  sx_shellTitle := "Plugins";
  sx_shellDescription := "Install, update, enable, or remove local plugin bundles.";
  sx_groupLabel := "Runtime"
|}.

Definition section_remote_en : SettingsSectionMeta := {|
  sx_navTitle := "Remote";
  sx_navDescription := "SSH profiles and config import.";
  sx_shellTitle := "Remote";
  sx_shellDescription := "Saved SSH profiles, ~/.ssh/config import, and remote shell launch options.";
  sx_groupLabel := "Runtime"
|}.

Definition section_terminal_en : SettingsSectionMeta := {|
  sx_navTitle := "Terminal";
  sx_navDescription := "Terminal runtime preferences.";
  sx_shellTitle := "Terminal";
  sx_shellDescription := "Terminal defaults and future terminal preferences.";
  sx_groupLabel := "Runtime"
|}.

Definition section_commander_en : SettingsSectionMeta := {|
  sx_navTitle := "Commander";
  sx_navDescription := "File-manager surface settings.";
  sx_shellTitle := "Commander";
  sx_shellDescription := "File manager and dual-pane behavior. Commander options will appear here as they become configurable.";
  sx_groupLabel := "Workspace"
|}.

Definition sections_en (id : SettingsSectionID) : SettingsSectionMeta :=
  match id with
  | SectionGeneral => section_general_en
  | SectionAiApps => section_ai_apps_en
  | SectionAiModels => section_ai_models_en
  | SectionAiComposer => section_ai_composer_en
  | SectionAiLimits => section_ai_limits_en
  | SectionMcp => section_mcp_en
  | SectionPlugins => section_plugins_en
  | SectionRemote => section_remote_en
  | SectionTerminal => section_terminal_en
  | SectionCommander => section_commander_en
  end.

Definition aiLimits_settingsShellCopy_en : SettingsAiLimitsCopy := {|
  sal_activeBadge := "active";
  sal_description := "This surface currently shows only route readiness for chat. Real quota and rate-limit behavior will arrive as a separate backend-owned step.";
  sal_loading := "Loading provider catalog…";
  sal_noProviders := "No providers yet.";
  sal_routeActive := "Active provider for the current chat runtime.";
  sal_routeAuthRequired := "Needs a local CLI login before the route can be used.";
  sal_routeConfiguredHttp := "HTTP source is configured. Use model refresh to validate the remote catalog.";
  sal_routeDisabled := "Disabled provider; chat will not route requests here.";
  sal_routeDisabledHttp := "Disabled HTTP source; chat will not route requests here.";
  sal_routeReady := "Backend-owned route is ready for chat traffic.";
  sal_routeUnchecked := "Route has not been probed yet.";
  sal_routeUnknown := "Unknown provider readiness.";
  sal_title := "Provider status"
|}.

Definition aiModels_settingsShellCopy_en : SettingsAiModelsCopy := {|
  sam_availableModelsTitle := "Available models";
  sam_countModels count := showZ count +:+ " model" +:+ (if bool_decide (count = 1) then "" else "s");
  sam_defaultBadge := "default";
  sam_defaultModelDescription := "Base provider model. Always available in the main AI interface.";
  sam_enabledModelDescription := "Enable this model to expose it in the main AI chat dropdown.";
  sam_exposeModelAriaLabel model := "Expose " +:+ model +:+ " in the main AI model selector";
  sam_loadingShort := "Loading…";
  sam_loadingProviders := "Loading provider catalog…";
  sam_noDiscoveredModels := "The backend has not returned models for this provider yet.";
  sam_noProviders := "No AI providers yet. Add a CLI or HTTP source first in AI providers.";
  sam_providerAvailable := "Available for activation in the provider catalog.";
  sam_providerActive := "Active in the current runtime.";
  sam_refreshModels := "Refresh models";
  sam_sectionDescription := "Switch provider to inspect the auto-discovered catalog available to the main chat model selector.";
  sam_routeNotConfigured := "OpenAI-compatible source URL is not configured.";
  sam_routeNotProbedClaude := "Claude Code CLI route has not been probed yet.";
  sam_routeNotProbedCodex := "Codex CLI route has not been probed yet.";
  sam_routeUnknown := "Unknown provider connection state."
|}.

Definition aiParent_settingsShellCopy_en : SettingsAiParentCopy := {|
  sap_description := "Providers, models, and chat limits.";
  sap_title := "AI"
|}.

Definition commander_settingsShellCopy_en : SettingsCommanderCopy := {|
  sco_description := "This section is reserved for commander-specific options once they leave widget-local state.";
  sco_notConnected := "A dedicated configuration surface for commander is not wired yet.";
  sco_planned := "Planned";
  sco_preferencesTitle := "Commander preferences";
  sco_title := "Section status"
|}.

Definition providerRouteStates_settingsShellCopy_en : SettingsRouteStatesCopy := {|
  srs_authRequired := "Login required";
  srs_disabled := "Disabled";
  srs_modelUnavailable := "Model unavailable";
  srs_needsAttention := "Needs attention";
  srs_ready := "Ready";
  srs_unchecked := "Unchecked";
  srs_unreachable := "Unreachable"
|}.

Definition sidebar_settingsShellCopy_en : SettingsSidebarCopy := {|
  ssb_description := "Choose a section.";
  ssb_product := "Rune Terminal";
  ssb_settings := "Sections"
|}.

Definition settingsShellCopy_en : SettingsShellCopy := {|
  ssc_aiLimits := aiLimits_settingsShellCopy_en;
  ssc_aiModels := aiModels_settingsShellCopy_en;
  ssc_aiParent := aiParent_settingsShellCopy_en;
  ssc_commander := commander_settingsShellCopy_en;
  ssc_providerRouteStates := providerRouteStates_settingsShellCopy_en;
  ssc_sections := sections_en;
  ssc_sidebar := sidebar_settingsShellCopy_en
|}.

Definition section_general_ru : SettingsSectionMeta := {|
  sx_navTitle := "Основные";
  sx_navDescription := "Язык, тема и запуск.";
  sx_shellTitle := "Основные";
  sx_shellDescription := "Язык интерфейса, тема, заголовок окна и поведение запуска.";
  sx_groupLabel := "Основные"
|}.

Definition section_ai_apps_ru : SettingsSectionMeta := {|
  sx_navTitle := "Провайдеры AI";
  sx_navDescription := "Codex, Claude и HTTP-источники.";
  sx_shellTitle := "Провайдеры AI";
  sx_shellDescription := "Подключение и проверка провайдеров для основного чата.";
  sx_groupLabel := "AI"
|}.

Definition section_ai_models_ru : SettingsSectionMeta := {|
  sx_navTitle := "Модели";
  sx_navDescription := "Модели, доступные в основном чате.";
  sx_shellTitle := "Модели AI";
  sx_shellDescription := "Выберите, какие найденные модели показывать в основном чате.";
  sx_groupLabel := "AI"
|}.

Definition section_ai_composer_ru : SettingsSectionMeta := {|
  sx_navTitle := "Ввод";
  sx_navDescription := "Отправка и новая строка.";
  sx_shellTitle := "Ввод в чате";
  sx_shellDescription := "Настройте сочетания для отправки сообщения и переноса строки.";
  sx_groupLabel := "AI"
|}.

Definition section_ai_limits_ru : SettingsSectionMeta := {|
  sx_navTitle := "Статус";
  sx_navDescription := "Готовность провайдеров к чату.";
  sx_shellTitle := "Статус провайдеров";
  sx_shellDescription := "Посмотрите, какие провайдеры готовы, выключены или требуют внимания.";
  sx_groupLabel := "AI"
|}.

Definition section_mcp_ru : SettingsSectionMeta := {|
  sx_navTitle := "MCP";
  sx_navDescription := "Серверы и запуск.";
  sx_shellTitle := "MCP";
  sx_shellDescription := "Регистрация удалённых MCP-серверов и явное управление их запуском.";
  sx_groupLabel := "Система"
|}.

Definition section_plugins_ru : SettingsSectionMeta := {|
  sx_navTitle := "Плагины";
  sx_navDescription := "Установка и включение.";
  sx_shellTitle := "Плагины";
  sx_shellDescription := "Установка, обновление, включение и удаление локальных пакетов плагинов.";
  sx_groupLabel := "Система"
|}.

Definition section_remote_ru : SettingsSectionMeta := {|
  sx_navTitle := "Удалённый доступ";
  sx_navDescription := "SSH-профили и импорт.";
  sx_shellTitle := "Удалённый доступ";
  sx_shellDescription := "Сохранённые SSH-профили, импорт из ~/.ssh/config и запуск удалённой оболочки.";
  sx_groupLabel := "Система"
|}.

Definition section_terminal_ru : SettingsSectionMeta := {|
  sx_navTitle := "Терминал";
  sx_navDescription := "Шрифт, курсор и прокрутка.";
  sx_shellTitle := "Терминал";
  sx_shellDescription := "Настройки терминала по умолчанию и будущие параметры терминального виджета.";
  sx_groupLabel := "Система"
|}.

Definition section_commander_ru : SettingsSectionMeta := {|
  sx_navTitle := "Commander";
  sx_navDescription := "Настройки файлового менеджера.";
  sx_shellTitle := "Commander";
  sx_shellDescription := "Файловый менеджер и двухпанельное поведение. Настройки Commander появятся здесь по мере готовности.";
  sx_groupLabel := "Рабочая область"
|}.

Definition sections_ru (id : SettingsSectionID) : SettingsSectionMeta :=
  match id with
  | SectionGeneral => section_general_ru
  | SectionAiApps => section_ai_apps_ru
  | SectionAiModels => section_ai_models_ru
  | SectionAiComposer => section_ai_composer_ru
  | SectionAiLimits => section_ai_limits_ru
  | SectionMcp => section_mcp_ru
  | SectionPlugins => section_plugins_ru
  | SectionRemote => section_remote_ru
  | SectionTerminal => section_terminal_ru
  | SectionCommander => section_commander_ru
  end.

Definition aiLimits_settingsShellCopy_ru : SettingsAiLimitsCopy := {|
  sal_activeBadge := "активен";
  sal_description := "Сейчас здесь видно, какие провайдеры готовы к чату. Квоты и лимиты появятся отдельной настройкой.";
  sal_loading := "Загружаю каталог провайдеров…";
  sal_noProviders := "Провайдеров пока нет.";
  sal_routeActive := "Активный провайдер для текущего чата.";
  sal_routeAuthRequired := "Нужен локальный вход в CLI, прежде чем маршрут станет доступен.";
  sal_routeConfiguredHttp := "HTTP-источник настроен. Обновите модели, чтобы проверить удалённый каталог.";
  sal_routeDisabled := "Провайдер выключен; чат не будет отправлять сюда запросы.";
  sal_routeDisabledHttp := "HTTP-источник выключен; чат не будет отправлять сюда запросы.";
  sal_routeReady := "Маршрут готов принимать запросы чата.";
  sal_routeUnchecked := "Маршрут ещё не проверялся.";
  sal_routeUnknown := "Неизвестное состояние готовности провайдера.";
  sal_title := "Статус провайдеров"
|}.

Definition aiModels_settingsShellCopy_ru : SettingsAiModelsCopy := {|
  sam_availableModelsTitle := "Доступные модели";
  sam_countModels count := showZ count +:+ " " +:+ (if bool_decide (count = 1) then "модель" else if ((2 <=? count)%Z && (count <=? 4)%Z) then "модели" else "моделей");
  sam_defaultBadge := "по умолчанию";
  sam_defaultModelDescription := "Базовая модель провайдера. Всегда доступна в основном AI-интерфейсе.";
  sam_enabledModelDescription := "Включи модель, чтобы она появилась в списке основного AI-чата.";
  sam_exposeModelAriaLabel model := "Показывать " +:+ model +:+ " в основном селекторе AI-моделей";
  sam_loadingShort := "Загрузка…";
  sam_loadingProviders := "Загружаю каталог провайдеров…";
  sam_noDiscoveredModels := "Сервер пока не вернул модели для этого провайдера.";
  sam_noProviders := "Провайдеров AI пока нет. Сначала добавьте CLI или HTTP-источник в разделе «Провайдеры AI».";
  sam_providerAvailable := "Доступен для активации в каталоге провайдеров.";
  sam_providerActive := "Сейчас активен.";
  sam_refreshModels := "Обновить модели";
  sam_sectionDescription := "Переключайте провайдера, чтобы выбрать модели, доступные в основном чате.";
  sam_routeNotConfigured := "URL OpenAI-compatible источника ещё не настроен.";
  sam_routeNotProbedClaude := "Маршрут Claude Code CLI ещё не проверялся.";
  sam_routeNotProbedCodex := "Маршрут Codex CLI ещё не проверялся.";
  sam_routeUnknown := "Неизвестное состояние подключения провайдера."
|}.

Definition aiParent_settingsShellCopy_ru : SettingsAiParentCopy := {|
  sap_description := "Провайдеры, модели и статус.";
  sap_title := "AI"
|}.

Definition commander_settingsShellCopy_ru : SettingsCommanderCopy := {|
  sco_description := "Этот раздел зарезервирован для настроек Commander.";
  sco_notConnected := "Отдельная поверхность настройки Commander ещё не подключена.";
  sco_planned := "Запланировано";
  sco_preferencesTitle := "Настройки Commander";
  sco_title := "Состояние раздела"
|}.

Definition providerRouteStates_settingsShellCopy_ru : SettingsRouteStatesCopy := {|
  srs_authRequired := "Нужен вход";
  srs_disabled := "Выключен";
  srs_modelUnavailable := "Модель недоступна";
  srs_needsAttention := "Нужно внимание";
  srs_ready := "Готов";
  srs_unchecked := "Не проверен";
  srs_unreachable := "Недоступен"
|}.

Definition sidebar_settingsShellCopy_ru : SettingsSidebarCopy := {|
  ssb_description := "Выберите раздел.";
  ssb_product := "Rune Terminal";
  ssb_settings := "Разделы"
|}.

Definition settingsShellCopy_ru : SettingsShellCopy := {|
  ssc_aiLimits := aiLimits_settingsShellCopy_ru;
  ssc_aiModels := aiModels_settingsShellCopy_ru;
  ssc_aiParent := aiParent_settingsShellCopy_ru;
  ssc_commander := commander_settingsShellCopy_ru;
  ssc_providerRouteStates := providerRouteStates_settingsShellCopy_ru;
  ssc_sections := sections_ru;
  ssc_sidebar := sidebar_settingsShellCopy_ru
|}.

Definition section_general_zh_CN : SettingsSectionMeta := {|
  sx_navTitle := "常规";
  sx_navDescription := "runtime 模式、shell 语言与 bootstrap context。";
  sx_shellTitle := "常规";
  sx_shellDescription := "桌面 runtime 生命周期、语言选择和当前 shell bootstrap context。";
  sx_groupLabel := "General"
|}.

Definition section_ai_apps_zh_CN : SettingsSectionMeta := {|
  sx_navTitle := "AI providers";
  sx_navDescription := "用于 AI runtime 的 CLI 和 HTTP providers。";
  sx_shellTitle := "AI / Providers";
  sx_shellDescription := "管理 CLI 和 OpenAI-compatible HTTP providers、它们在 runtime 中的可用性，以及连接参数，而不离开共享 settings shell。";
  sx_groupLabel := "AI"
|}.

Definition section_ai_models_zh_CN : SettingsSectionMeta := {|
  sx_navTitle := "模型";
  sx_navDescription := "主聊天中可用的模型。";
  sx_shellTitle := "AI / 模型";
  sx_shellDescription := "后端为活动 provider 返回的模型目录，以及它们在主 AI 聊天中的暴露方式。";
  sx_groupLabel := "AI"
|}.

Definition section_ai_composer_zh_CN : SettingsSectionMeta := {|
  sx_navTitle := "Composer";
  sx_navDescription := "聊天中的 Enter / Shift+Enter 行为。";
  sx_shellTitle := "AI / Composer";
  sx_shellDescription := "AI composer 的 runtime-backed 键盘行为：发送/换行快捷键保存在共享的 settings contract 中。";
  sx_groupLabel := "AI"
|}.

Definition section_ai_limits_zh_CN : SettingsSectionMeta := {|
  sx_navTitle := "限制";
  sx_navDescription := "路由就绪状态与未来的 quota surface。";
  sx_shellTitle := "AI / 限制";
  sx_shellDescription := "当前 provider 的 readiness surface。完整的 quota 和 rate-limit contract 将由后端单独补上。";
  sx_groupLabel := "AI"
|}.

Definition section_mcp_zh_CN : SettingsSectionMeta := {|
  sx_navTitle := "MCP";
  sx_navDescription := "外部服务器注册与生命周期。";
  sx_shellTitle := "MCP";
  sx_shellDescription := "注册远程 MCP endpoint，并通过 backend-owned MCP runtime 管理生命周期，而不引入隐式 AI context 注入。";
  sx_groupLabel := "Runtime"
|}.

Definition section_plugins_zh_CN : SettingsSectionMeta := {|
  sx_navTitle := "Plugins";
  sx_navDescription := "本地目录与安装生命周期。";
  sx_shellTitle := "Plugins";
  sx_shellDescription := "backend-owned 本地 plugin catalog，使用明确的 git/zip 安装源、runtime-safe 激活检查以及面向未来的访问元数据。";
  sx_groupLabel := "Runtime"
|}.

Definition section_remote_zh_CN : SettingsSectionMeta := {|
  sx_navTitle := "Remote";
  sx_navDescription := "SSH profiles 与 config 导入。";
  sx_shellTitle := "Remote";
  sx_shellDescription := "backend-owned SSH profiles、精简的 ~/.ssh/config 导入，以及对高级远程拓扑的明确边界。";
  sx_groupLabel := "Runtime"
|}.

Definition section_terminal_zh_CN : SettingsSectionMeta := {|
  sx_navTitle := "Terminal";
  sx_navDescription := "终端 runtime 偏好。";
  sx_shellTitle := "Terminal";
  sx_shellDescription := "终端 runtime 和未来终端偏好的专用入口，不与通用或 AI 设置混合。";
  sx_groupLabel := "Runtime"
|}.

Definition section_commander_zh_CN : SettingsSectionMeta := {|
  sx_navTitle := "Commander";
  sx_navDescription := "文件管理器界面设置。";
  sx_shellTitle := "Commander";
  sx_shellDescription := "文件管理器和双栏行为的导航界面。Commander-specific 选项会随着脱离 widget-local state 而逐步出现在这里。";
  sx_groupLabel := "Workspace"
|}.

Definition sections_zh_CN (id : SettingsSectionID) : SettingsSectionMeta :=
  match id with
  | SectionGeneral => section_general_zh_CN
  | SectionAiApps => section_ai_apps_zh_CN
  | SectionAiModels => section_ai_models_zh_CN
  | SectionAiComposer => section_ai_composer_zh_CN
  | SectionAiLimits => section_ai_limits_zh_CN
  | SectionMcp => section_mcp_zh_CN
  | SectionPlugins => section_plugins_zh_CN
  | SectionRemote => section_remote_zh_CN
  | SectionTerminal => section_terminal_zh_CN
  | SectionCommander => section_commander_zh_CN
  end.

Definition aiLimits_settingsShellCopy_zh_CN : SettingsAiLimitsCopy := {|
  sal_activeBadge := "active";
  sal_description := "当前这里只展示聊天路由是否可用。真正的配额和速率限制会作为单独的后端步骤加入。";
  sal_loading := "正在加载 provider catalog…";
  sal_noProviders := "还没有 provider。";
  sal_routeActive := "当前聊天 runtime 的活动 provider。";
  sal_routeAuthRequired := "在使用该路由前，需要先完成本地 CLI 登录。";
  sal_routeConfiguredHttp := "HTTP source 已配置。使用刷新模型来验证远端目录。";
  sal_routeDisabled := "该 provider 已禁用；聊天不会把请求发送到这里。";
  sal_routeDisabledHttp := "该 HTTP source 已禁用；聊天不会把请求发送到这里。";
  sal_routeReady := "backend-owned route 已可用于聊天流量。";
  sal_routeUnchecked := "该 route 还没有执行 probe。";
  sal_routeUnknown := "未知的 provider 就绪状态。";
  sal_title := "Provider 状态"
|}.

Definition aiModels_settingsShellCopy_zh_CN : SettingsAiModelsCopy := {|
  sam_availableModelsTitle := "可用模型";
  sam_countModels count := showZ count +:+ " 个模型";
  sam_defaultBadge := "default";
  sam_defaultModelDescription := "Provider 的基础模型，始终会出现在主 AI 界面中。";
  sam_enabledModelDescription := "启用后，该模型会出现在主 AI 聊天下拉框中。";
  sam_exposeModelAriaLabel model := "在主 AI 模型选择器中显示 " +:+ model;
  sam_loadingShort := "加载中…";
  sam_loadingProviders := "正在加载 provider catalog…";
  sam_noDiscoveredModels := "后端还没有为这个 provider 返回模型列表。";
  sam_noProviders := "还没有直接 AI provider。请先在“已安装应用”中添加 CLI 或 HTTP source。";
  sam_providerAvailable := "可在 provider catalog 中激活。";
  sam_providerActive := "当前已在 runtime 中激活。";
  sam_refreshModels := "刷新模型";
  sam_sectionDescription := "切换 provider 以查看自动发现的模型目录，并暴露到主聊天模型选择器中。";
  sam_routeNotConfigured := "尚未配置 OpenAI-compatible source URL。";
  sam_routeNotProbedClaude := "Claude Code CLI route 还没有执行 probe。";
  sam_routeNotProbedCodex := "Codex CLI route 还没有执行 probe。";
  sam_routeUnknown := "未知的 provider 连接状态。"
|}.

Definition aiParent_settingsShellCopy_zh_CN : SettingsAiParentCopy := {|
  sap_description := "Provider、模型与聊天限制。";
  sap_title := "AI"
|}.

Definition commander_settingsShellCopy_zh_CN : SettingsCommanderCopy := {|
  sco_description := "当 commander-specific 选项从 widget-local state 中抽离出来后，这个部分会承载它们。";
  sco_notConnected := "Commander 的独立配置界面还没有接入。";
  sco_planned := "Planned";
  sco_preferencesTitle := "Commander 偏好";
  sco_title := "部分状态"
|}.

Definition providerRouteStates_settingsShellCopy_zh_CN : SettingsRouteStatesCopy := {|
  srs_authRequired := "需要登录";
  srs_disabled := "已禁用";
  srs_modelUnavailable := "模型不可用";
  srs_needsAttention := "需要关注";
  srs_ready := "就绪";
  srs_unchecked := "未检查";
  srs_unreachable := "不可达"
|}.

Definition sidebar_settingsShellCopy_zh_CN : SettingsSidebarCopy := {|
  ssb_description := "shell、AI runtime、terminal、remote、MCP、plugins 与 commander 的统一导航器。";
  ssb_product := "Rune Terminal";
  ssb_settings := "设置"
|}.

Definition settingsShellCopy_zh_CN : SettingsShellCopy := {|
  ssc_aiLimits := aiLimits_settingsShellCopy_zh_CN;
  ssc_aiModels := aiModels_settingsShellCopy_zh_CN;
  ssc_aiParent := aiParent_settingsShellCopy_zh_CN;
  ssc_commander := commander_settingsShellCopy_zh_CN;
  ssc_providerRouteStates := providerRouteStates_settingsShellCopy_zh_CN;
  ssc_sections := sections_zh_CN;
  ssc_sidebar := sidebar_settingsShellCopy_zh_CN
|}.

Definition section_general_es : SettingsSectionMeta := {|
  sx_navTitle := "General";
  sx_navDescription := "Modo del runtime, idioma del shell y bootstrap context.";
  sx_shellTitle := "General";
  sx_shellDescription := "Ciclo de vida del runtime de escritorio, selección de idioma y bootstrap context actual del shell.";
  sx_groupLabel := "General"
|}.

Definition section_ai_apps_es : SettingsSectionMeta := {|
  sx_navTitle := "AI providers";
  sx_navDescription := "CLI y HTTP providers para el AI runtime.";
  sx_shellTitle := "AI / Providers";
  sx_shellDescription := "Gestiona providers CLI y OpenAI-compatible HTTP, su disponibilidad en runtime y sus parámetros de conexión sin salir del settings shell compartido.";
  sx_groupLabel := "AI"
|}.

Definition section_ai_models_es : SettingsSectionMeta := {|
  sx_navTitle := "Modelos";
  sx_navDescription := "Modelos expuestos al chat principal.";
  sx_shellTitle := "AI / Modelos";
  sx_shellDescription := "Catálogo de modelos que el backend devolvió para los providers activos y su exposición en el chat principal de AI.";
  sx_groupLabel := "AI"
|}.

Definition section_ai_composer_es : SettingsSectionMeta := {|
  sx_navTitle := "Composer";
  sx_navDescription := "Comportamiento de Enter / Shift+Enter en el chat.";
  sx_shellTitle := "AI / Composer";
  sx_shellDescription := "Comportamiento de teclado runtime-backed para el AI composer: la selección de enviar/salto de línea se guarda en el contrato compartido de settings.";
  sx_groupLabel := "AI"
|}.

Definition section_ai_limits_es : SettingsSectionMeta := {|
  sx_navTitle := "Límites";
  sx_navDescription := "Estado de las routes y futuras superficies de cuota.";
  sx_shellTitle := "AI / Límites";
  sx_shellDescription := "Superficie actual de readiness de providers. Los contratos completos de quota y rate-limit llegarán en un paso backend aparte.";
  sx_groupLabel := "AI"
|}.

Definition section_mcp_es : SettingsSectionMeta := {|
  sx_navTitle := "MCP";
  sx_navDescription := "Registro de servidores externos y ciclo de vida.";
  sx_shellTitle := "MCP";
  sx_shellDescription := "Registra endpoints MCP remotos y controla su ciclo de vida mediante el runtime MCP backend-owned sin inyección implícita de contexto AI.";
  sx_groupLabel := "Runtime"
|}.

Definition section_plugins_es : SettingsSectionMeta := {|
  sx_navTitle := "Plugins";
  sx_navDescription := "Catálogo local y ciclo de instalación.";
  sx_shellTitle := "Plugins";
  sx_shellDescription := "Catálogo local de plugins backend-owned con fuentes explícitas git/zip, validaciones de activación seguras para el runtime y metadatos de acceso orientados al futuro.";
  sx_groupLabel := "Runtime"
|}.

Definition section_remote_es : SettingsSectionMeta := {|
  sx_navTitle := "Remote";
  sx_navDescription := "Perfiles SSH e importación de config.";
  sx_shellTitle := "Remote";
  sx_shellDescription := "Perfiles SSH backend-owned, importación estrecha de ~/.ssh/config y límites explícitos alrededor de la topología remota avanzada.";
  sx_groupLabel := "Runtime"
|}.

Definition section_terminal_es : SettingsSectionMeta := {|
  sx_navTitle := "Terminal";
  sx_navDescription := "Preferencias del runtime terminal.";
  sx_shellTitle := "Terminal";
  sx_shellDescription := "Punto de entrada dedicado para el runtime terminal y futuras preferencias del terminal, sin mezclarlo con settings generales o de AI.";
  sx_groupLabel := "Runtime"
|}.

Definition section_commander_es : SettingsSectionMeta := {|
  sx_navTitle := "Commander";
  sx_navDescription := "Settings de la superficie del gestor de archivos.";
  sx_shellTitle := "Commander";
  sx_shellDescription := "Superficie de navegación para el gestor de archivos y el comportamiento dual-pane. Las opciones específicas de commander aparecerán aquí cuando salgan del widget-local state.";
  sx_groupLabel := "Workspace"
|}.

Definition sections_es (id : SettingsSectionID) : SettingsSectionMeta :=
  match id with
  | SectionGeneral => section_general_es
  | SectionAiApps => section_ai_apps_es
  | SectionAiModels => section_ai_models_es
  | SectionAiComposer => section_ai_composer_es
  | SectionAiLimits => section_ai_limits_es
  | SectionMcp => section_mcp_es
  | SectionPlugins => section_plugins_es
  | SectionRemote => section_remote_es
  | SectionTerminal => section_terminal_es
  | SectionCommander => section_commander_es
  end.

Definition aiLimits_settingsShellCopy_es : SettingsAiLimitsCopy := {|
  sal_activeBadge := "active";
  sal_description := "Esta superficie solo muestra la disponibilidad de las rutas para el chat. Las cuotas y límites reales llegarán en un paso backend separado.";
  sal_loading := "Cargando provider catalog…";
  sal_noProviders := "Todavía no hay providers.";
  sal_routeActive := "Provider activo para el runtime actual del chat.";
  sal_routeAuthRequired := "Necesita un login local del CLI antes de poder usar la ruta.";
  sal_routeConfiguredHttp := "La fuente HTTP está configurada. Usa refresh models para validar el catálogo remoto.";
  sal_routeDisabled := "Provider deshabilitado; el chat no enviará solicitudes aquí.";
  sal_routeDisabledHttp := "Fuente HTTP deshabilitada; el chat no enviará solicitudes aquí.";
  sal_routeReady := "La backend-owned route está lista para tráfico de chat.";
  sal_routeUnchecked := "La route todavía no ha sido probada.";
  sal_routeUnknown := "Estado de disponibilidad del provider desconocido.";
  sal_title := "Estado de providers"
|}.

Definition aiModels_settingsShellCopy_es : SettingsAiModelsCopy := {|
  sam_availableModelsTitle := "Modelos disponibles";
  sam_countModels count := showZ count +:+ " modelo" +:+ (if bool_decide (count = 1) then "" else "s");
  sam_defaultBadge := "default";
  sam_defaultModelDescription := "Modelo base del provider. Siempre está disponible en la interfaz principal de AI.";
  sam_enabledModelDescription := "Actívalo para exponer el modelo en el desplegable principal del chat AI.";
  sam_exposeModelAriaLabel model := "Exponer " +:+ model +:+ " en el selector principal de modelos AI";
  sam_loadingShort := "Cargando…";
  sam_loadingProviders := "Cargando provider catalog…";
  sam_noDiscoveredModels := "El backend todavía no devolvió modelos para este provider.";
  sam_noProviders := "Todavía no hay providers AI directos. Añade primero una fuente CLI o HTTP en la sección `Aplicaciones instaladas`.";
  sam_providerAvailable := "Disponible para activarse en el provider catalog.";
  sam_providerActive := "Activo ahora mismo en el runtime.";
  sam_refreshModels := "Actualizar modelos";
  sam_sectionDescription := "Cambia de provider para inspeccionar el catálogo autodetectado disponible para el selector principal del chat.";
  sam_routeNotConfigured := "La URL de la fuente OpenAI-compatible no está configurada.";
  sam_routeNotProbedClaude := "La Claude Code CLI route todavía no ha sido probada.";
  sam_routeNotProbedCodex := "La Codex CLI route todavía no ha sido probada.";
  sam_routeUnknown := "Estado de conexión del provider desconocido."
|}.

Definition aiParent_settingsShellCopy_es : SettingsAiParentCopy := {|
  sap_description := "Providers, modelos y límites del chat.";
  sap_title := "AI"
|}.

Definition commander_settingsShellCopy_es : SettingsCommanderCopy := {|
  sco_description := "Esta sección queda reservada para opciones específicas de commander cuando salgan del widget-local state.";
  sco_notConnected := "La superficie de configuración dedicada para commander aún no está conectada.";
  sco_planned := "Planned";
  sco_preferencesTitle := "Preferencias de commander";
  sco_title := "Estado de la sección"
|}.

Definition providerRouteStates_settingsShellCopy_es : SettingsRouteStatesCopy := {|
  srs_authRequired := "Login requerido";
  srs_disabled := "Deshabilitado";
  srs_modelUnavailable := "Modelo no disponible";
  srs_needsAttention := "Requiere atención";
  srs_ready := "Listo";
  srs_unchecked := "Sin probar";
  srs_unreachable := "Inalcanzable"
|}.

Definition sidebar_settingsShellCopy_es : SettingsSidebarCopy := {|
  ssb_description := "Navegador común para shell, AI runtime, terminal, remote, MCP, plugins y commander.";
  ssb_product := "Rune Terminal";
  ssb_settings := "Settings"
|}.

Definition settingsShellCopy_es : SettingsShellCopy := {|
  ssc_aiLimits := aiLimits_settingsShellCopy_es;
  ssc_aiModels := aiModels_settingsShellCopy_es;
  ssc_aiParent := aiParent_settingsShellCopy_es;
  ssc_commander := commander_settingsShellCopy_es;
  ssc_providerRouteStates := providerRouteStates_settingsShellCopy_es;
  ssc_sections := sections_es;
  ssc_sidebar := sidebar_settingsShellCopy_es
|}.

Definition settingsShellCopy (locale : AppLocale) : SettingsShellCopy :=
  match locale with
  | LocaleEn => settingsShellCopy_en
  | LocaleRu => settingsShellCopy_ru
  | LocaleZhCN => settingsShellCopy_zh_CN
  | LocaleEs => settingsShellCopy_es
  end.

(** ** The runtime ([runtime-settings-section.tsx]) *)

Record RuntimeSettingsCopy := mkRuntimeCopy {
  rty_autoPreview : string;
  rty_browserBadge : string;
  rty_debugModeCurrentState : string;
  rty_debugModeHint : string;
  rty_debugModeOptionDisabledLabel : string;
  rty_debugModeOptionEnabledLabel : string;
  rty_debugModeSectionDescription : string;
  rty_debugModeSectionTitle : string;
  rty_debugModeStatusDisabled : string;
  rty_debugModeStatusEnabled : string;
  rty_currentRule : string;
  rty_currentRuntime : string;
  rty_currentShellTransport : string;
  rty_currentMode : string;
  rty_customTitlePlaceholder : string;
  rty_customTitleTextboxLabel : string;
  rty_currentLanguage : string;
  rty_generalLanguageDescription : string;
  rty_homeDirectory : string;
  rty_languageChangesHint : string;
  rty_languageSectionDescription : string;
  rty_languageSectionTitle : string;
  rty_loading : string;
  rty_repositoryRoot : string;
  rty_resetToAuto : string;
  rty_refresh : string;
  rty_runtimeLifecycleDescription : string;
  rty_runtimeLifecycleTitle : string;
  rty_runtimeSectionDescription : string;
  rty_runtimeSectionTitle : string;
  rty_saveCustomTitle : string;
  rty_shellLanguage : string;
  rty_shellTheme : string;
  rty_splitBrowserLoop : string;
  rty_themeChangesHint : string;
  rty_themeDarkDescription : string;
  rty_themeDarkLabel : string;
  rty_themeLightDescription : string;
  rty_themeLightLabel : string;
  rty_themeResolvedDark : string;
  rty_themeResolvedLight : string;
  rty_themeSectionDescription : string;
  rty_themeSectionTitle : string;
  rty_themeSystemDescription : string;
  rty_themeSystemLabel : string;
  rty_transport : string;
  rty_unavailable : string;
  rty_windowTitleAutoDescription : string;
  rty_windowTitleAutoOptionDescription : string;
  rty_windowTitleCustomDescription : string;
  rty_windowTitleCustomOptionDescription : string;
  rty_windowTitleDescription : string;
  rty_windowTitleMode : string;
  rty_windowTitleTitle : string;
  rty_watcherModeHintDesktop : string;
  rty_watcherModeHintBrowser : string;
  rty_watcherModeLabelEphemeral : string;
  rty_watcherModeLabelPersistent : string;
  rty_watcherModeOptionEphemeralDescription : string;
  rty_watcherModeOptionEphemeralLabel : string;
  rty_watcherModeOptionPersistentDescription : string;
  rty_watcherModeOptionPersistentLabel : string;
  rty_watcherModeRadioLabel : string;
  rty_watcherModeShutdownEphemeral : string;
  rty_watcherModeShutdownPersistent : string;
  rty_watcherModeTransportDesktop : string;
  rty_desktopBadge : string
}.

Definition runtimeSettingsCopy_en : RuntimeSettingsCopy := {|
  rty_autoPreview := "Auto preview";
  rty_browserBadge := "Browser";
  rty_debugModeCurrentState := "Current AI debug state";
  rty_debugModeHint := "When disabled, the AI panel hides the debug view entirely. When enabled, the debug mode stays available in the history dropdown.";
  rty_debugModeOptionDisabledLabel := "Debug hidden";
  rty_debugModeOptionEnabledLabel := "Debug enabled";
  rty_debugModeSectionDescription := "General settings own whether the AI shell exposes its debug panel mode.";
  rty_debugModeSectionTitle := "AI debug mode";
  rty_debugModeStatusDisabled := "Disabled";
  rty_debugModeStatusEnabled := "Enabled";
  rty_currentRule := "Current rule";
  rty_currentRuntime := "Current runtime";
  rty_currentShellTransport := "Current mode";
  rty_currentMode := "Current mode";
  rty_customTitlePlaceholder := "Ops Shell";
  rty_customTitleTextboxLabel := "Custom window title";
  rty_currentLanguage := "Current language";
  rty_generalLanguageDescription := "Language preference is stored in the shared runtime settings contract and applies immediately on the active shell path.";
  rty_homeDirectory := "Home directory";
  rty_languageChangesHint := "Language changes apply immediately and do not require restarting the app.";
  rty_languageSectionDescription := "The active shell keeps one runtime-owned language preference instead of browser-local translation state.";
  rty_languageSectionTitle := "Language";
  rty_loading := "Loading…";
  rty_repositoryRoot := "Repository root";
  rty_resetToAuto := "Reset to auto";
  rty_refresh := "Refresh";
  rty_runtimeLifecycleDescription := "Watcher mode is a real desktop runtime setting. It controls whether closing the desktop shell detaches from the runtime or shuts it down.";
  rty_runtimeLifecycleTitle := "Runtime lifecycle";
  rty_runtimeSectionDescription := "The active shell settings surface reads the same runtime bootstrap metadata that powers the main shell.";
  rty_runtimeSectionTitle := "Current runtime";
  rty_saveCustomTitle := "Save custom title";
  rty_shellLanguage := "Shell language";
  rty_shellTheme := "Shell theme";
  rty_splitBrowserLoop := "Split browser dev loop";
  rty_themeChangesHint := "Theme changes update the document root tokens immediately.";
  rty_themeDarkDescription := "Force the dark shell token set regardless of OS preference.";
  rty_themeDarkLabel := "Dark";
  rty_themeLightDescription := "Force the light shell token set regardless of OS preference.";
  rty_themeLightLabel := "Light";
  rty_themeResolvedDark := "Resolved: dark";
  rty_themeResolvedLight := "Resolved: light";
  rty_themeSectionDescription := "Shell appearance is now an app-owned theme preference projected through document root tokens.";
  rty_themeSectionTitle := "Theme";
  rty_themeSystemDescription := "Follow the operating system color scheme.";
  rty_themeSystemLabel := "System";
  rty_transport := "Transport";
  rty_unavailable := "Unavailable";
  rty_windowTitleAutoDescription := "Auto title follows the active workspace title on the current shell path.";
  rty_windowTitleAutoOptionDescription := "Use the active workspace title and append the product label.";
  rty_windowTitleCustomDescription := "Pinned custom title stays until reset back to auto.";
  rty_windowTitleCustomOptionDescription := "Pin an explicit operator-defined window title until reset.";
  rty_windowTitleDescription := "Window title rules stay narrow on purpose: auto title follows the active workspace on the current shell path, or operators can pin an explicit custom title.";
  rty_windowTitleMode := "Window title mode";
  rty_windowTitleTitle := "Window title";
  rty_watcherModeHintDesktop := "Changes are written through the desktop runtime settings and affect the close-window behavior immediately.";
  rty_watcherModeHintBrowser := "This control is read-only in the split browser dev loop. Open the desktop app to persist watcher mode changes.";
  rty_watcherModeLabelEphemeral := "Ephemeral";
  rty_watcherModeLabelPersistent := "Persistent";
  rty_watcherModeOptionEphemeralDescription := "The desktop window owns the runtime and shuts it down on close after task checks.";
  rty_watcherModeOptionEphemeralLabel := "Ephemeral runtime";
  rty_watcherModeOptionPersistentDescription := "The desktop window can close without stopping the runtime process.";
  rty_watcherModeOptionPersistentLabel := "Persistent runtime";
  rty_watcherModeRadioLabel := "Desktop watcher mode";
  rty_watcherModeShutdownEphemeral := "Closing the desktop window stops the owned runtime after the active-task guard passes.";
  rty_watcherModeShutdownPersistent := "Closing the desktop window detaches from the runtime and leaves it running.";
  rty_watcherModeTransportDesktop := "Desktop app runtime";
  rty_desktopBadge := "Desktop"
|}.

Definition runtimeSettingsCopy_ru : RuntimeSettingsCopy := {|
  rty_autoPreview := "Автозаголовок";
  rty_browserBadge := "Браузер";
  rty_debugModeCurrentState := "Текущее состояние отладки AI";
  rty_debugModeHint := "Когда режим выключен, панель AI скрывает отладку. Когда включён, режим отладки доступен в истории.";
  rty_debugModeOptionDisabledLabel := "Скрыт";
  rty_debugModeOptionEnabledLabel := "Включён";
  rty_debugModeSectionDescription := "Общие настройки управляют доступностью режима отладки AI.";
  rty_debugModeSectionTitle := "Отладка AI";
  rty_debugModeStatusDisabled := "Выключен";
  rty_debugModeStatusEnabled := "Включён";
  rty_currentRule := "Текущее правило";
  rty_currentRuntime := "Текущий запуск";
  rty_currentShellTransport := "Среда запуска";
  rty_currentMode := "Текущий режим";
  rty_customTitlePlaceholder := "Ops Shell";
  rty_customTitleTextboxLabel := "Пользовательский заголовок окна";
  rty_currentLanguage := "Текущий язык";
  rty_generalLanguageDescription := "Язык хранится в общих настройках и применяется сразу.";
  rty_homeDirectory := "Домашняя директория";
  rty_languageChangesHint := "Смена языка применяется сразу и не требует перезапуска приложения.";
  rty_languageSectionDescription := "Активная оболочка использует один общий язык интерфейса.";
  rty_languageSectionTitle := "Язык";
  rty_loading := "Загрузка…";
  rty_repositoryRoot := "Корень репозитория";
  rty_resetToAuto := "Сбросить в авто";
  rty_refresh := "Обновить";
  rty_runtimeLifecycleDescription := "Режим закрытия определяет, завершать процесс вместе с окном или оставлять его запущенным.";
  rty_runtimeLifecycleTitle := "Закрытие приложения";
  rty_runtimeSectionDescription := "Текущие сведения о запуске, которые использует основная оболочка.";
  rty_runtimeSectionTitle := "Текущий запуск";
  rty_saveCustomTitle := "Сохранить заголовок";
  rty_shellLanguage := "Язык интерфейса";
  rty_shellTheme := "Тема интерфейса";
  rty_splitBrowserLoop := "Браузерный режим разработки";
  rty_themeChangesHint := "Смена темы сразу обновляет оформление приложения.";
  rty_themeDarkDescription := "Всегда использовать тёмную тему независимо от настроек ОС.";
  rty_themeDarkLabel := "Тёмная";
  rty_themeLightDescription := "Всегда использовать светлую тему независимо от настроек ОС.";
  rty_themeLightLabel := "Светлая";
  rty_themeResolvedDark := "Применено: тёмная";
  rty_themeResolvedLight := "Применено: светлая";
  rty_themeSectionDescription := "Оформление приложения управляется общей настройкой темы.";
  rty_themeSectionTitle := "Тема";
  rty_themeSystemDescription := "Следовать системной цветовой схеме.";
  rty_themeSystemLabel := "Системная";
  rty_transport := "Транспорт";
  rty_unavailable := "Недоступно";
  rty_windowTitleAutoDescription := "Автозаголовок следует за названием активной рабочей области.";
  rty_windowTitleAutoOptionDescription := "Использовать название активной рабочей области и подпись продукта.";
  rty_windowTitleCustomDescription := "Закреплённый заголовок сохраняется до ручного сброса в автоматический режим.";
  rty_windowTitleCustomOptionDescription := "Закрепить явный заголовок окна до сброса.";
  rty_windowTitleDescription := "Заголовок окна может следовать за активной рабочей областью или быть закреплён вручную.";
  rty_windowTitleMode := "Режим заголовка окна";
  rty_windowTitleTitle := "Заголовок окна";
  rty_watcherModeHintDesktop := "Изменения сразу влияют на поведение закрытия окна в приложении.";
  rty_watcherModeHintBrowser := "В браузерном режиме разработки этот контроль доступен только для чтения. Откройте приложение, чтобы сохранить изменение.";
  rty_watcherModeLabelEphemeral := "Временный";
  rty_watcherModeLabelPersistent := "Постоянный";
  rty_watcherModeOptionEphemeralDescription := "Окно приложения завершает процесс при закрытии после проверки активных задач.";
  rty_watcherModeOptionEphemeralLabel := "Временный процесс";
  rty_watcherModeOptionPersistentDescription := "Окно можно закрыть без остановки процесса.";
  rty_watcherModeOptionPersistentLabel := "Постоянный процесс";
  rty_watcherModeRadioLabel := "Поведение при закрытии";
  rty_watcherModeShutdownEphemeral := "Закрытие окна останавливает процесс после проверки активных задач.";
  rty_watcherModeShutdownPersistent := "Закрытие окна отсоединяется от процесса и оставляет его запущенным.";
  rty_watcherModeTransportDesktop := "Приложение";
  rty_desktopBadge := "Приложение"
|}.

Definition runtimeSettingsCopy_zh_CN : RuntimeSettingsCopy := {|
  rty_autoPreview := "自动预览";
  rty_browserBadge := "浏览器";
  rty_debugModeCurrentState := "当前 AI 调试状态";
  rty_debugModeHint := "关闭后，AI 面板会完全隐藏 debug 视图。开启后，history 下拉菜单中会重新出现 debug 模式。";
  rty_debugModeOptionDisabledLabel := "隐藏 debug";
  rty_debugModeOptionEnabledLabel := "启用 debug";
  rty_debugModeSectionDescription := "通用设置负责决定 AI shell 是否暴露 debug 面板模式。";
  rty_debugModeSectionTitle := "AI debug 模式";
  rty_debugModeStatusDisabled := "已关闭";
  rty_debugModeStatusEnabled := "已开启";
  rty_currentRule := "当前规则";
  rty_currentRuntime := "当前运行时";
  rty_currentShellTransport := "当前模式";
  rty_currentMode := "当前模式";
  rty_customTitlePlaceholder := "Ops Shell";
  rty_customTitleTextboxLabel := "自定义窗口标题";
  rty_currentLanguage := "当前语言";
  rty_generalLanguageDescription := "语言偏好保存在共享的 runtime settings contract 中，并会立即应用到当前 shell path。";
  rty_homeDirectory := "主目录";
  rty_languageChangesHint := "语言切换会立即生效，不需要重启应用。";
  rty_languageSectionDescription := "当前 shell 只使用一个 runtime-backed language preference，而不是浏览器本地翻译状态。";
  rty_languageSectionTitle := "语言";
  rty_loading := "加载中…";
  rty_repositoryRoot := "仓库根目录";
  rty_resetToAuto := "恢复自动";
  rty_refresh := "刷新";
  rty_runtimeLifecycleDescription := "Watcher mode 是真实的桌面运行时设置。它决定关闭桌面窗口时是与运行时分离，还是直接关闭运行时。";
  rty_runtimeLifecycleTitle := "运行时生命周期";
  rty_runtimeSectionDescription := "当前 settings shell 读取与主 shell 相同的 runtime bootstrap metadata。";
  rty_runtimeSectionTitle := "当前运行时";
  rty_saveCustomTitle := "保存自定义标题";
  rty_shellLanguage := "Shell 语言";
  rty_shellTheme := "Shell 主题";
  rty_splitBrowserLoop := "拆分浏览器开发循环";
  rty_themeChangesHint := "主题变更会立即更新文档根节点上的 token 集。";
  rty_themeDarkDescription := "无论系统偏好如何，都强制使用深色 shell tokens。";
  rty_themeDarkLabel := "深色";
  rty_themeLightDescription := "无论系统偏好如何，都强制使用浅色 shell tokens。";
  rty_themeLightLabel := "浅色";
  rty_themeResolvedDark := "已解析：深色";
  rty_themeResolvedLight := "已解析：浅色";
  rty_themeSectionDescription := "Shell 外观现在由 app-owned theme preference 控制，并投射到文档根 tokens。";
  rty_themeSectionTitle := "主题";
  rty_themeSystemDescription := "跟随操作系统配色方案。";
  rty_themeSystemLabel := "系统";
  rty_transport := "传输";
  rty_unavailable := "不可用";
  rty_windowTitleAutoDescription := "自动标题会跟随当前 shell path 上的活动 workspace 标题。";
  rty_windowTitleAutoOptionDescription := "使用活动 workspace 标题，并附加产品标签。";
  rty_windowTitleCustomDescription := "固定的自定义标题会一直保留，直到手动恢复为自动。";
  rty_windowTitleCustomOptionDescription := "固定一个明确的操作员自定义窗口标题，直到重置。";
  rty_windowTitleDescription := "窗口标题规则在这个阶段保持精简：自动标题跟随活动 workspace，或者由操作员固定一个自定义标题。";
  rty_windowTitleMode := "窗口标题模式";
  rty_windowTitleTitle := "窗口标题";
  rty_watcherModeHintDesktop := "更改会写入桌面运行时设置，并立即影响关闭窗口的行为。";
  rty_watcherModeHintBrowser := "在拆分浏览器开发循环中，该控件为只读。请打开桌面应用以持久化 watcher mode 更改。";
  rty_watcherModeLabelEphemeral := "临时";
  rty_watcherModeLabelPersistent := "常驻";
  rty_watcherModeOptionEphemeralDescription := "桌面窗口拥有运行时，并会在关闭时经过任务检查后将其关闭。";
  rty_watcherModeOptionEphemeralLabel := "临时运行时";
  rty_watcherModeOptionPersistentDescription := "桌面窗口可以关闭，而不停止运行时进程。";
  rty_watcherModeOptionPersistentLabel := "常驻运行时";
  rty_watcherModeRadioLabel := "桌面 watcher 模式";
  rty_watcherModeShutdownEphemeral := "关闭桌面窗口会在活动任务检查通过后停止所属运行时。";
  rty_watcherModeShutdownPersistent := "关闭桌面窗口会与运行时分离，并让它继续运行。";
  rty_watcherModeTransportDesktop := "桌面应用运行时";
  rty_desktopBadge := "桌面"
|}.

Definition runtimeSettingsCopy_es : RuntimeSettingsCopy := {|
  rty_autoPreview := "Vista previa auto";
  rty_browserBadge := "Navegador";
  rty_debugModeCurrentState := "Estado actual del debug AI";
  rty_debugModeHint := "Cuando está desactivado, el panel AI oculta por completo la vista debug. Cuando está activado, el modo debug vuelve a estar disponible en el history dropdown.";
  rty_debugModeOptionDisabledLabel := "Debug oculto";
  rty_debugModeOptionEnabledLabel := "Debug habilitado";
  rty_debugModeSectionDescription := "La configuración general decide si el shell de AI expone su modo de panel debug.";
  rty_debugModeSectionTitle := "Modo debug AI";
  rty_debugModeStatusDisabled := "Desactivado";
  rty_debugModeStatusEnabled := "Activado";
  rty_currentRule := "Regla actual";
  rty_currentRuntime := "Runtime actual";
  rty_currentShellTransport := "Modo actual";
  rty_currentMode := "Modo actual";
  rty_customTitlePlaceholder := "Ops Shell";
  rty_customTitleTextboxLabel := "Título personalizado de la ventana";
  rty_currentLanguage := "Idioma actual";
  rty_generalLanguageDescription := "La preferencia de idioma se guarda en el contrato compartido de runtime settings y se aplica de inmediato en el shell activo.";
  rty_homeDirectory := "Directorio personal";
  rty_languageChangesHint := "Los cambios de idioma se aplican al instante y no requieren reiniciar la aplicación.";
  rty_languageSectionDescription := "El shell activo usa una sola preferencia de idioma controlada por el runtime, no un estado local del navegador.";
  rty_languageSectionTitle := "Idioma";
  rty_loading := "Cargando…";
  rty_repositoryRoot := "Raíz del repositorio";
  rty_resetToAuto := "Restablecer a auto";
  rty_refresh := "Actualizar";
  rty_runtimeLifecycleDescription := "Watcher mode es una configuración real del runtime de escritorio. Controla si al cerrar la ventana se desacopla del runtime o si lo apaga.";
  rty_runtimeLifecycleTitle := "Ciclo de vida del runtime";
  rty_runtimeSectionDescription := "La superficie activa de settings lee el mismo bootstrap metadata del runtime que usa el shell principal.";
  rty_runtimeSectionTitle := "Runtime actual";
  rty_saveCustomTitle := "Guardar título personalizado";
  rty_shellLanguage := "Idioma del shell";
  rty_shellTheme := "Tema del shell";
  rty_splitBrowserLoop := "Bucle de desarrollo en navegador";
  rty_themeChangesHint := "Los cambios de tema actualizan de inmediato los tokens del documento raíz.";
  rty_themeDarkDescription := "Fuerza los tokens oscuros del shell sin depender del sistema operativo.";
  rty_themeDarkLabel := "Oscuro";
  rty_themeLightDescription := "Fuerza los tokens claros del shell sin depender del sistema operativo.";
  rty_themeLightLabel := "Claro";
  rty_themeResolvedDark := "Resuelto: oscuro";
  rty_themeResolvedLight := "Resuelto: claro";
  rty_themeSectionDescription := "La apariencia del shell ahora usa una preferencia de tema propia de la app proyectada en tokens raíz.";
  rty_themeSectionTitle := "Tema";
  rty_themeSystemDescription := "Seguir el esquema de color del sistema operativo.";
  rty_themeSystemLabel := "Sistema";
  rty_transport := "Transporte";
  rty_unavailable := "No disponible";
  rty_windowTitleAutoDescription := "El título automático sigue el título del workspace activo en el shell actual.";
  rty_windowTitleAutoOptionDescription := "Usa el título del workspace activo y añade la etiqueta del producto.";
  rty_windowTitleCustomDescription := "El título personalizado fijado se mantiene hasta restablecerlo manualmente a auto.";
  rty_windowTitleCustomOptionDescription := "Fija un título de ventana definido explícitamente por el operador hasta restablecerlo.";
  rty_windowTitleDescription := "Las reglas del título de la ventana siguen siendo estrechas a propósito: el modo auto sigue el workspace activo o el operador fija un título explícito.";
  rty_windowTitleMode := "Modo del título de ventana";
  rty_windowTitleTitle := "Título de ventana";
  rty_watcherModeHintDesktop := "Los cambios se escriben a través de la configuración del runtime de escritorio y afectan inmediatamente al comportamiento de cierre.";
  rty_watcherModeHintBrowser := "Este control es de solo lectura en el bucle de desarrollo del navegador. Abre la app de escritorio para persistir cambios de watcher mode.";
  rty_watcherModeLabelEphemeral := "Efímero";
  rty_watcherModeLabelPersistent := "Persistente";
  rty_watcherModeOptionEphemeralDescription := "La ventana de escritorio es dueña del runtime y lo detiene al cerrar tras comprobar tareas activas.";
  rty_watcherModeOptionEphemeralLabel := "Runtime efímero";
  rty_watcherModeOptionPersistentDescription := "La ventana de escritorio puede cerrarse sin detener el proceso del runtime.";
  rty_watcherModeOptionPersistentLabel := "Runtime persistente";
  rty_watcherModeRadioLabel := "Modo del watcher de escritorio";
  rty_watcherModeShutdownEphemeral := "Cerrar la ventana del escritorio detiene el runtime gestionado cuando pasa la comprobación de tareas activas.";
  rty_watcherModeShutdownPersistent := "Cerrar la ventana del escritorio la desacopla del runtime y lo deja ejecutándose.";
  rty_watcherModeTransportDesktop := "Runtime de la app de escritorio";
  rty_desktopBadge := "Escritorio"
|}.

Definition runtimeSettingsCopy (locale : AppLocale) : RuntimeSettingsCopy :=
  match locale with
  | LocaleEn => runtimeSettingsCopy_en
  | LocaleRu => runtimeSettingsCopy_ru
  | LocaleZhCN => runtimeSettingsCopy_zh_CN
  | LocaleEs => runtimeSettingsCopy_es
  end.

(** [x.toFixed(2)] of a number that is not negative. *)
Definition toFixed2 (q : Q) : string :=
  let n := roundQ (q * 100) in
  showZ (n / 100) +:+ "." +:+ padZeros 2 (showZ (n mod 100)).

(** ** The terminal ([terminal-settings-section-copy.ts]) *)

Record TerminalSettingsCopy := mkTerminalSettingsCopy {
  tsy_adjustLineHeightDescription : Q -> Q -> Q -> string;
  tsy_adjustLineHeightTitle : string;
  tsy_adjustScrollbackDescription : Z -> Z -> Z -> string;
  tsy_adjustScrollbackTitle : string;
  tsy_adjustSizeDescription : Z -> Z -> Z -> string;
  tsy_adjustSizeTitle : string;
  tsy_cursorBlinkDisabled : string;
  tsy_cursorBlinkEnabled : string;
  tsy_cursorBlinkTitle : string;
  tsy_cursorBlinkDescription : string;
  tsy_cursorStyleBar : string;
  tsy_cursorStyleBlock : string;
  tsy_cursorStyleDescription : string;
  tsy_cursorStyleTitle : string;
  tsy_cursorStyleUnderline : string;
  tsy_currentFontDescription : string;
  tsy_currentFontTitle : string;
  tsy_currentLineHeightDescription : string;
  tsy_currentLineHeightTitle : string;
  tsy_currentScrollbackDescription : string;
  tsy_currentScrollbackTitle : string;
  tsy_defaultStateDescription : string;
  tsy_decreaseFontSizeAria : string;
  tsy_decreaseLineHeightAria : string;
  tsy_decreaseScrollbackAria : string;
  tsy_enableCursorBlinkAria : string;
  tsy_increaseFontSizeAria : string;
  tsy_increaseLineHeightAria : string;
  tsy_increaseScrollbackAria : string;
  tsy_loading : string;
  tsy_resetAllDefaultsAria : string;
  tsy_resetCursorBlinkAria : string;
  tsy_resetCursorStyleAria : string;
  tsy_resetFontSizeAria : string;
  tsy_resetLineHeightAria : string;
  tsy_resetScrollbackAria : string;
  tsy_resetThemeModeAria : string;
  tsy_resetTitle : string;
  tsy_resetDescription : string;
  tsy_sectionDescription : string;
  tsy_sectionTitle : string;
  tsy_terminalCursorStyleAria : string;
  tsy_terminalThemeModeAria : string;
  tsy_themeModeAdaptive : string;
  tsy_themeModeContrast : string;
  tsy_themeModeDescription : string;
  tsy_themeModeTitle : string
}.

Definition terminalSettingsCopy_en : TerminalSettingsCopy := {|
  tsy_adjustLineHeightDescription min max defaultValue := "Range " +:+ toFixed2 min +:+ "x-" +:+ toFixed2 max +:+ "x, default " +:+ toFixed2 defaultValue +:+ "x.";
  tsy_adjustLineHeightTitle := "Adjust line height";
  tsy_adjustScrollbackDescription min max defaultValue := "Range " +:+ showZ min +:+ "-" +:+ showZ max +:+ " lines, default " +:+ showZ defaultValue +:+ ".";
  tsy_adjustScrollbackTitle := "Adjust scrollback";
  tsy_adjustSizeDescription min max defaultValue := "Range " +:+ showZ min +:+ "px-" +:+ showZ max +:+ "px, default " +:+ showZ defaultValue +:+ "px.";
  tsy_adjustSizeTitle := "Adjust size";
  tsy_cursorBlinkDisabled := "Disabled";
  tsy_cursorBlinkEnabled := "Enabled";
  tsy_cursorBlinkTitle := "Blinking cursor";
  tsy_cursorBlinkDescription := "Blink preference is stored in the runtime, while xterm still disables blink for exited and failed sessions.";
  tsy_cursorStyleBar := "Bar";
  tsy_cursorStyleBlock := "Block";
  tsy_cursorStyleDescription := "Cursor shape is set through the backend-owned contract and applies to live xterm sessions.";
  tsy_cursorStyleTitle := "Terminal cursor style";
  tsy_cursorStyleUnderline := "Underline";
  tsy_currentFontDescription := "Changes apply immediately to every terminal widget and persist in runtime state.";
  tsy_currentFontTitle := "Current terminal font size";
  tsy_currentLineHeightDescription := "Line height controls xterm vertical density and applies immediately to live terminal widgets.";
  tsy_currentLineHeightTitle := "Current line height";
  tsy_currentScrollbackDescription := "Scrollback limits the xterm buffer depth and now also goes through the runtime-owned contract.";
  tsy_currentScrollbackTitle := "Current scrollback";
  tsy_defaultStateDescription := "These terminal settings are now backed by the shared runtime contract.";
  tsy_decreaseFontSizeAria := "Decrease terminal font size";
  tsy_decreaseLineHeightAria := "Decrease terminal line height";
  tsy_decreaseScrollbackAria := "Decrease terminal scrollback";
  tsy_enableCursorBlinkAria := "Enable terminal cursor blink";
  tsy_increaseFontSizeAria := "Increase terminal font size";
  tsy_increaseLineHeightAria := "Increase terminal line height";
  tsy_increaseScrollbackAria := "Increase terminal scrollback";
  tsy_loading := "Loading...";
  tsy_resetAllDefaultsAria := "Reset all terminal defaults";
  tsy_resetCursorBlinkAria := "Reset terminal cursor blink";
  tsy_resetCursorStyleAria := "Reset terminal cursor style";
  tsy_resetFontSizeAria := "Reset terminal font size";
  tsy_resetLineHeightAria := "Reset terminal line height";
  tsy_resetScrollbackAria := "Reset terminal scrollback";
  tsy_resetThemeModeAria := "Reset terminal theme mode";
  tsy_resetTitle := "Reset terminal defaults";
  tsy_resetDescription := "One-shot restore of the runtime-owned terminal baseline for typography, palette, scrollback, and cursor behavior.";
  tsy_sectionDescription := "Runtime-owned terminal defaults. They are stored in backend state and apply to every live terminal widget in the current shell.";
  tsy_sectionTitle := "Terminal runtime defaults";
  tsy_terminalCursorStyleAria := "Terminal cursor style";
  tsy_terminalThemeModeAria := "Terminal theme mode";
  tsy_themeModeAdaptive := "Adaptive";
  tsy_themeModeContrast := "Contrast";
  tsy_themeModeDescription := "Adaptive follows the current shell chrome, while contrast forces a higher-contrast terminal palette.";
  tsy_themeModeTitle := "Terminal theme mode"
|}.

Definition terminalSettingsCopy_ru : TerminalSettingsCopy := {|
  tsy_adjustLineHeightDescription min max defaultValue := "Диапазон " +:+ toFixed2 min +:+ "x-" +:+ toFixed2 max +:+ "x, по умолчанию " +:+ toFixed2 defaultValue +:+ "x.";
  tsy_adjustLineHeightTitle := "Настроить высоту строки";
  tsy_adjustScrollbackDescription min max defaultValue := "Диапазон " +:+ showZ min +:+ "-" +:+ showZ max +:+ " строк, по умолчанию " +:+ showZ defaultValue +:+ ".";
  tsy_adjustScrollbackTitle := "Настроить буфер прокрутки";
  tsy_adjustSizeDescription min max defaultValue := "Диапазон " +:+ showZ min +:+ "px-" +:+ showZ max +:+ "px, по умолчанию " +:+ showZ defaultValue +:+ "px.";
  tsy_adjustSizeTitle := "Настроить размер";
  tsy_cursorBlinkDisabled := "Выключено";
  tsy_cursorBlinkEnabled := "Включено";
  tsy_cursorBlinkTitle := "Мигание курсора";
  tsy_cursorBlinkDescription := "Настройка мигания сохраняется в приложении, но xterm выключает мигание для завершённых и упавших сессий.";
  tsy_cursorStyleBar := "Полоса";
  tsy_cursorStyleBlock := "Блок";
  tsy_cursorStyleDescription := "Форма курсора задаётся через общий контракт настроек и применяется к живым сессиям xterm.";
  tsy_cursorStyleTitle := "Стиль курсора терминала";
  tsy_cursorStyleUnderline := "Подчёркивание";
  tsy_currentFontDescription := "Изменение применяется сразу ко всем терминальным виджетам и сохраняется в настройках.";
  tsy_currentFontTitle := "Текущий размер шрифта терминала";
  tsy_currentLineHeightDescription := "Высота строки управляет вертикальной плотностью xterm и применяется сразу ко всем живым терминальным виджетам.";
  tsy_currentLineHeightTitle := "Текущая высота строки";
  tsy_currentScrollbackDescription := "Буфер прокрутки ограничивает объём истории xterm и сохраняется в общих настройках.";
  tsy_currentScrollbackTitle := "Текущий буфер прокрутки";
  tsy_defaultStateDescription := "Эти настройки терминала сохраняются в общем контракте настроек.";
  tsy_decreaseFontSizeAria := "Уменьшить размер шрифта терминала";
  tsy_decreaseLineHeightAria := "Уменьшить высоту строки терминала";
  tsy_decreaseScrollbackAria := "Уменьшить буфер прокрутки терминала";
  tsy_enableCursorBlinkAria := "Включить мигание курсора терминала";
  tsy_increaseFontSizeAria := "Увеличить размер шрифта терминала";
  tsy_increaseLineHeightAria := "Увеличить высоту строки терминала";
  tsy_increaseScrollbackAria := "Увеличить буфер прокрутки терминала";
  tsy_loading := "Загрузка…";
  tsy_resetAllDefaultsAria := "Сбросить все настройки терминала";
  tsy_resetCursorBlinkAria := "Сбросить мигание курсора терминала";
  tsy_resetCursorStyleAria := "Сбросить стиль курсора терминала";
  tsy_resetFontSizeAria := "Сбросить размер шрифта терминала";
  tsy_resetLineHeightAria := "Сбросить высоту строки терминала";
  tsy_resetScrollbackAria := "Сбросить буфер прокрутки терминала";
  tsy_resetThemeModeAria := "Сбросить режим темы терминала";
  tsy_resetTitle := "Сбросить настройки терминала";
  tsy_resetDescription := "Одно действие возвращает базовые настройки терминала для типографики, палитры, буфера прокрутки и поведения курсора.";
  tsy_sectionDescription := "Настройки терминала по умолчанию сохраняются в приложении и применяются ко всем живым терминальным виджетам.";
  tsy_sectionTitle := "Настройки терминала по умолчанию";
  tsy_terminalCursorStyleAria := "Стиль курсора терминала";
  tsy_terminalThemeModeAria := "Режим темы терминала";
  tsy_themeModeAdaptive := "Адаптивный";
  tsy_themeModeContrast := "Контрастный";
  tsy_themeModeDescription := "Адаптивный режим следует текущей теме оболочки, а контрастный включает более контрастную палитру терминала.";
  tsy_themeModeTitle := "Режим темы терминала"
|}.

Definition terminalSettingsCopy_zh_CN : TerminalSettingsCopy := {|
  tsy_adjustLineHeightDescription min max defaultValue := "范围 " +:+ toFixed2 min +:+ "x-" +:+ toFixed2 max +:+ "x，默认 " +:+ toFixed2 defaultValue +:+ "x。";
  tsy_adjustLineHeightTitle := "调整行高";
  tsy_adjustScrollbackDescription min max defaultValue := "范围 " +:+ showZ min +:+ "-" +:+ showZ max +:+ " 行，默认 " +:+ showZ defaultValue +:+ "。";
  tsy_adjustScrollbackTitle := "调整 scrollback";
  tsy_adjustSizeDescription min max defaultValue := "范围 " +:+ showZ min +:+ "px-" +:+ showZ max +:+ "px，默认 " +:+ showZ defaultValue +:+ "px。";
  tsy_adjustSizeTitle := "调整字号";
  tsy_cursorBlinkDisabled := "已关闭";
  tsy_cursorBlinkEnabled := "已开启";
  tsy_cursorBlinkTitle := "光标闪烁";
  tsy_cursorBlinkDescription := "光标闪烁偏好保存在 runtime 中；xterm 对退出或失败的会话仍会关闭闪烁。";
  tsy_cursorStyleBar := "竖线";
  tsy_cursorStyleBlock := "块";
  tsy_cursorStyleDescription := "光标形状通过后端拥有的契约设置，并应用到实时 xterm 会话。";
  tsy_cursorStyleTitle := "终端光标样式";
  tsy_cursorStyleUnderline := "下划线";
  tsy_currentFontDescription := "更改会立即应用到所有 terminal widget，并保存在 runtime state 中。";
  tsy_currentFontTitle := "当前终端字号";
  tsy_currentLineHeightDescription := "行高控制 xterm 的垂直密度，并立即应用到实时 terminal widget。";
  tsy_currentLineHeightTitle := "当前行高";
  tsy_currentScrollbackDescription := "Scrollback 限制 xterm 缓冲区深度，现在也通过 runtime-owned contract。";
  tsy_currentScrollbackTitle := "当前 scrollback";
  tsy_defaultStateDescription := "这些终端设置现在由共享 runtime contract 支持。";
  tsy_decreaseFontSizeAria := "减小终端字号";
  tsy_decreaseLineHeightAria := "减小终端行高";
  tsy_decreaseScrollbackAria := "减少终端 scrollback";
  tsy_enableCursorBlinkAria := "启用终端光标闪烁";
  tsy_increaseFontSizeAria := "增大终端字号";
  tsy_increaseLineHeightAria := "增大终端行高";
  tsy_increaseScrollbackAria := "增加终端 scrollback";
  tsy_loading := "加载中...";
  tsy_resetAllDefaultsAria := "重置所有终端默认值";
  tsy_resetCursorBlinkAria := "重置终端光标闪烁";
  tsy_resetCursorStyleAria := "重置终端光标样式";
  tsy_resetFontSizeAria := "重置终端字号";
  tsy_resetLineHeightAria := "重置终端行高";
  tsy_resetScrollbackAria := "重置终端 scrollback";
  tsy_resetThemeModeAria := "重置终端主题模式";
  tsy_resetTitle := "重置终端默认值";
  tsy_resetDescription := "一次性恢复 runtime-owned 的终端基线，包括字体、调色板、scrollback 和光标行为。";
  tsy_sectionDescription := "Runtime-owned 终端默认值保存在后端状态中，并应用到当前 shell 的所有实时 terminal widget。";
  tsy_sectionTitle := "终端运行时默认值";
  tsy_terminalCursorStyleAria := "终端光标样式";
  tsy_terminalThemeModeAria := "终端主题模式";
  tsy_themeModeAdaptive := "自适应";
  tsy_themeModeContrast := "高对比";
  tsy_themeModeDescription := "自适应跟随当前 shell chrome；高对比会强制使用更高对比度的终端调色板。";
  tsy_themeModeTitle := "终端主题模式"
|}.

Definition terminalSettingsCopy_es : TerminalSettingsCopy := {|
  tsy_adjustLineHeightDescription min max defaultValue := "Rango " +:+ toFixed2 min +:+ "x-" +:+ toFixed2 max +:+ "x, valor por defecto " +:+ toFixed2 defaultValue +:+ "x.";
  tsy_adjustLineHeightTitle := "Ajustar altura de línea";
  tsy_adjustScrollbackDescription min max defaultValue := "Rango " +:+ showZ min +:+ "-" +:+ showZ max +:+ " líneas, valor por defecto " +:+ showZ defaultValue +:+ ".";
  tsy_adjustScrollbackTitle := "Ajustar scrollback";
  tsy_adjustSizeDescription min max defaultValue := "Rango " +:+ showZ min +:+ "px-" +:+ showZ max +:+ "px, valor por defecto " +:+ showZ defaultValue +:+ "px.";
  tsy_adjustSizeTitle := "Ajustar tamaño";
  tsy_cursorBlinkDisabled := "Desactivado";
  tsy_cursorBlinkEnabled := "Activado";
  tsy_cursorBlinkTitle := "Cursor parpadeante";
  tsy_cursorBlinkDescription := "La preferencia de parpadeo se guarda en el runtime, pero xterm la desactiva para sesiones finalizadas o fallidas.";
  tsy_cursorStyleBar := "Barra";
  tsy_cursorStyleBlock := "Bloque";
  tsy_cursorStyleDescription := "La forma del cursor se define mediante el contrato controlado por backend y se aplica a sesiones xterm vivas.";
  tsy_cursorStyleTitle := "Estilo del cursor de terminal";
  tsy_cursorStyleUnderline := "Subrayado";
  tsy_currentFontDescription := "Los cambios se aplican inmediatamente a todos los terminal widgets y se guardan en runtime state.";
  tsy_currentFontTitle := "Tamaño de fuente actual del terminal";
  tsy_currentLineHeightDescription := "La altura de línea controla la densidad vertical de xterm y se aplica inmediatamente a terminal widgets vivos.";
  tsy_currentLineHeightTitle := "Altura de línea actual";
  tsy_currentScrollbackDescription := "Scrollback limita la profundidad del buffer de xterm y también pasa por el runtime-owned contract.";
  tsy_currentScrollbackTitle := "Scrollback actual";
  tsy_defaultStateDescription := "Estos ajustes de terminal ahora están respaldados por el contrato compartido del runtime.";
  tsy_decreaseFontSizeAria := "Disminuir tamaño de fuente del terminal";
  tsy_decreaseLineHeightAria := "Disminuir altura de línea del terminal";
  tsy_decreaseScrollbackAria := "Disminuir scrollback del terminal";
  tsy_enableCursorBlinkAria := "Activar parpadeo del cursor del terminal";
  tsy_increaseFontSizeAria := "Aumentar tamaño de fuente del terminal";
  tsy_increaseLineHeightAria := "Aumentar altura de línea del terminal";
  tsy_increaseScrollbackAria := "Aumentar scrollback del terminal";
  tsy_loading := "Cargando...";
  tsy_resetAllDefaultsAria := "Restablecer todos los valores del terminal";
  tsy_resetCursorBlinkAria := "Restablecer parpadeo del cursor del terminal";
  tsy_resetCursorStyleAria := "Restablecer estilo del cursor del terminal";
  tsy_resetFontSizeAria := "Restablecer tamaño de fuente del terminal";
  tsy_resetLineHeightAria := "Restablecer altura de línea del terminal";
  tsy_resetScrollbackAria := "Restablecer scrollback del terminal";
  tsy_resetThemeModeAria := "Restablecer modo de tema del terminal";
  tsy_resetTitle := "Restablecer valores del terminal";
  tsy_resetDescription := "Restauración de una sola acción para la base runtime-owned del terminal: tipografía, paleta, scrollback y cursor.";
  tsy_sectionDescription := "Valores por defecto del terminal controlados por runtime. Se guardan en backend state y se aplican a todos los terminal widgets vivos en el shell actual.";
  tsy_sectionTitle := "Valores del runtime del terminal";
  tsy_terminalCursorStyleAria := "Estilo del cursor de terminal";
  tsy_terminalThemeModeAria := "Modo de tema del terminal";
  tsy_themeModeAdaptive := "Adaptativo";
  tsy_themeModeContrast := "Contraste";
  tsy_themeModeDescription := "Adaptativo sigue el chrome del shell actual; contraste fuerza una paleta de terminal de mayor contraste.";
  tsy_themeModeTitle := "Modo de tema del terminal"
|}.

Definition terminalSettingsCopy (locale : AppLocale) : TerminalSettingsCopy :=
  match locale with
  | LocaleEn => terminalSettingsCopy_en
  | LocaleRu => terminalSettingsCopy_ru
  | LocaleZhCN => terminalSettingsCopy_zh_CN
  | LocaleEs => terminalSettingsCopy_es
  end.

(** ** The composer ([ai-composer-settings-section.tsx]) *)

Record AiComposerSettingsCopy := mkComposerSettingsCopy {
  acy_currentMode : string;
  acy_description : string;
  acy_enterSendsDescription : string;
  acy_enterSendsLabel : string;
  acy_loading : string;
  acy_modEnterSendsDescription : string;
  acy_modEnterSendsLabel : string;
  acy_optionLabel : string;
  acy_runtime : string;
  acy_saving : string;
  acy_storedPreference : string;
  acy_title : string
}.

Definition aiComposerSettingsCopy_en : AiComposerSettingsCopy := {|
  acy_currentMode := "Current mode";
  acy_description := "Runtime-backed keyboard behavior for the AI composer. The selected send/newline shortcut is stored in the shared runtime settings contract.";
  acy_enterSendsDescription := "Shift+Enter inserts a new line.";
  acy_enterSendsLabel := "Enter sends";
  acy_loading := "Loading";
  acy_modEnterSendsDescription := "Plain Enter inserts a new line.";
  acy_modEnterSendsLabel := "Ctrl/Cmd+Enter sends";
  acy_optionLabel := "Composer submit shortcut";
  acy_runtime := "Runtime";
  acy_saving := "Saving";
  acy_storedPreference := "This preference is stored in the runtime DB and applies immediately to the AI composer.";
  acy_title := "Keyboard submit behavior"
|}.

Definition aiComposerSettingsCopy_ru : AiComposerSettingsCopy := {|
  acy_currentMode := "Текущий режим";
  acy_description := "Выберите, какое сочетание отправляет сообщение, а какое переносит строку.";
  acy_enterSendsDescription := "Shift+Enter вставляет новую строку.";
  acy_enterSendsLabel := "Enter отправляет";
  acy_loading := "Загрузка";
  acy_modEnterSendsDescription := "Обычный Enter вставляет новую строку.";
  acy_modEnterSendsLabel := "Ctrl/Cmd+Enter отправляет";
  acy_optionLabel := "Сочетание отправки";
  acy_runtime := "Сохранено";
  acy_saving := "Сохранение";
  acy_storedPreference := "Настройка сразу применяется к полю ввода чата.";
  acy_title := "Отправка с клавиатуры"
|}.

Definition aiComposerSettingsCopy_zh_CN : AiComposerSettingsCopy := {|
  acy_currentMode := "当前模式";
  acy_description := "AI 编写器的键盘行为由运行时托管。发送和换行快捷键会存储在共享运行时设置契约中。";
  acy_enterSendsDescription := "Shift+Enter 插入新行。";
  acy_enterSendsLabel := "Enter 发送";
  acy_loading := "加载中";
  acy_modEnterSendsDescription := "普通 Enter 插入新行。";
  acy_modEnterSendsLabel := "Ctrl/Cmd+Enter 发送";
  acy_optionLabel := "编写器发送快捷键";
  acy_runtime := "运行时";
  acy_saving := "保存中";
  acy_storedPreference := "此首选项存储在运行时数据库中，并会立即应用到 AI 编写器。";
  acy_title := "键盘发送行为"
|}.

Definition aiComposerSettingsCopy_es : AiComposerSettingsCopy := {|
  acy_currentMode := "Modo actual";
  acy_description := "El comportamiento de teclado del composer de IA esta respaldado por runtime. El atajo de envio y salto de linea se guarda en el contrato compartido de ajustes.";
  acy_enterSendsDescription := "Shift+Enter inserta una nueva linea.";
  acy_enterSendsLabel := "Enter envia";
  acy_loading := "Cargando";
  acy_modEnterSendsDescription := "Enter normal inserta una nueva linea.";
  acy_modEnterSendsLabel := "Ctrl/Cmd+Enter envia";
  acy_optionLabel := "Atajo de envio del composer";
  acy_runtime := "Runtime";
  acy_saving := "Guardando";
  acy_storedPreference := "Esta preferencia se guarda en la DB de runtime y se aplica inmediatamente al composer de IA.";
  acy_title := "Comportamiento de envio con teclado"
|}.

Definition aiComposerSettingsCopy (locale : AppLocale) : AiComposerSettingsCopy :=
  match locale with
  | LocaleEn => aiComposerSettingsCopy_en
  | LocaleRu => aiComposerSettingsCopy_ru
  | LocaleZhCN => aiComposerSettingsCopy_zh_CN
  | LocaleEs => aiComposerSettingsCopy_es
  end.

(** * The texts of the shell

    [frontend/src/widgets/shell/right-action-rail-widget-copy.ts] and
    [shell-topbar-widget-copy.ts]. *)
Local Open Scope string_scope.
Local Open Scope list_scope.
Local Open Scope Z_scope.
Local Open Scope js_scope.

(** ** The rail ([right-action-rail-widget-copy.ts]) *)

Record RightActionRailWidgetCopy := mkRailCopy {
  rac_catalogUnavailable : string;
  rac_createWidget : string -> string;
  rac_createWidgetMenu : string;
  rac_createWorkspace : string;
  rac_frontendLocal : string;
  rac_loadingCatalog : string;
  rac_needsFilePath : string;
  rac_notReportedByBackend : string;
  rac_openSettingsPanel : string;
  rac_openUtilityPanel : string;
  rac_planned : string;
  rac_rightActionRail : string;
  rac_settingsDescription : string;
  rac_settingsTitle : string;
  rac_unavailable : string;
  rac_unavailableWidget : string -> string -> string;
  rac_workspaceTitle : string
}.

Definition rightActionRailWidgetCopy_en : RightActionRailWidgetCopy := {|
  rac_catalogUnavailable := "Catalog unavailable";
  rac_createWidget label := "Create " +:+ label +:+ " widget";
  rac_createWidgetMenu := "Create widget menu";
  rac_createWorkspace := "Create workspace";
  rac_frontendLocal := "Frontend-local";
  rac_loadingCatalog := "Loading catalog";
  rac_needsFilePath := "Needs file path";
  rac_notReportedByBackend := "Not reported by backend";
  rac_openSettingsPanel := "Open settings panel";
  rac_openUtilityPanel := "Open utility panel";
  rac_planned := "Planned";
  rac_rightActionRail := "Right action rail";
  rac_settingsDescription := "Navigate shell settings by section: General, AI, Terminal, and Commander.";
  rac_settingsTitle := "Settings";
  rac_unavailable := "Unavailable";
  rac_unavailableWidget label reason := label +:+ " widget unavailable: " +:+ reason;
  rac_workspaceTitle := "Workspace"
|}.

Definition rightActionRailWidgetCopy_ru : RightActionRailWidgetCopy := {|
  rac_catalogUnavailable := "Каталог недоступен";
  rac_createWidget label := "Создать виджет " +:+ label;
  rac_createWidgetMenu := "Меню создания виджета";
  rac_createWorkspace := "Создать workspace";
  rac_frontendLocal := "Frontend-local";
  rac_loadingCatalog := "Загрузка каталога";
  rac_needsFilePath := "Нужен путь к файлу";
  rac_notReportedByBackend := "Нет данных от приложения";
  rac_openSettingsPanel := "Открыть настройки";
  rac_openUtilityPanel := "Открыть панель инструментов";
  rac_planned := "Запланировано";
  rac_rightActionRail := "Правая панель действий";
  rac_settingsDescription := "Настройки оболочки, AI, терминала, удалённого доступа, MCP, плагинов и Commander.";
  rac_settingsTitle := "Настройки";
  rac_unavailable := "Недоступно";
  rac_unavailableWidget label reason := label +:+ " недоступен: " +:+ reason;
  rac_workspaceTitle := "Workspace"
|}.

Definition rightActionRailWidgetCopy_zh_CN : RightActionRailWidgetCopy := {|
  rac_catalogUnavailable := "目录不可用";
  rac_createWidget label := "创建 " +:+ label +:+ " widget";
  rac_createWidgetMenu := "创建 widget 菜单";
  rac_createWorkspace := "创建 workspace";
  rac_frontendLocal := "Frontend-local";
  rac_loadingCatalog := "正在加载目录";
  rac_needsFilePath := "需要文件路径";
  rac_notReportedByBackend := "Backend 未报告";
  rac_openSettingsPanel := "打开设置";
  rac_openUtilityPanel := "打开工具面板";
  rac_planned := "已规划";
  rac_rightActionRail := "右侧操作栏";
  rac_settingsDescription := "按部分浏览 shell 设置：通用、AI、Terminal 和 Commander。";
  rac_settingsTitle := "设置";
  rac_unavailable := "不可用";
  rac_unavailableWidget label reason := label +:+ " widget 不可用：" +:+ reason;
  rac_workspaceTitle := "Workspace"
|}.

Definition rightActionRailWidgetCopy_es : RightActionRailWidgetCopy := {|
  rac_catalogUnavailable := "Catalogo no disponible";
  rac_createWidget label := "Crear widget " +:+ label;
  rac_createWidgetMenu := "Menu de creacion de widgets";
  rac_createWorkspace := "Crear workspace";
  rac_frontendLocal := "Frontend-local";
  rac_loadingCatalog := "Cargando catalogo";
  rac_needsFilePath := "Necesita ruta de archivo";
  rac_notReportedByBackend := "Backend no lo informa";
  rac_openSettingsPanel := "Abrir ajustes";
  rac_openUtilityPanel := "Abrir panel de utilidades";
  rac_planned := "Planificado";
  rac_rightActionRail := "Barra derecha de acciones";
  rac_settingsDescription := "Navega los ajustes de shell por seccion: General, AI, Terminal y Commander.";
  rac_settingsTitle := "Ajustes";
  rac_unavailable := "No disponible";
  rac_unavailableWidget label reason := label +:+ " no disponible: " +:+ reason;
  rac_workspaceTitle := "Workspace"
|}.

Definition rightActionRailWidgetCopy (locale : AppLocale) : RightActionRailWidgetCopy :=
  match locale with
  | LocaleEn => rightActionRailWidgetCopy_en
  | LocaleRu => rightActionRailWidgetCopy_ru
  | LocaleZhCN => rightActionRailWidgetCopy_zh_CN
  | LocaleEs => rightActionRailWidgetCopy_es
  end.

(** ** The topbar ([shell-topbar-widget-copy.ts]) *)

Record ShellTopbarWidgetCopy := mkTopbarCopy {
  tbc_addWorkspace : string;
  tbc_cancel : string;
  tbc_closeWindow : string;
  tbc_collapseWindow : string;
  tbc_delete : string;
  tbc_rename : string;
  tbc_save : string;
  tbc_toggleAiPanel : string;
  tbc_toggleFullscreen : string;
  tbc_workspaceActions : string -> string;
  tbc_workspaceName : string;
  tbc_workspaceTabs : string
}.

Definition shellTopbarWidgetCopy_en : ShellTopbarWidgetCopy := {|
  tbc_addWorkspace := "Add workspace";
  tbc_cancel := "Cancel";
  tbc_closeWindow := "Close window";
  tbc_collapseWindow := "Collapse window";
  tbc_delete := "Delete";
  tbc_rename := "Rename";
  tbc_save := "Save";
  tbc_toggleAiPanel := "Toggle AI panel";
  tbc_toggleFullscreen := "Toggle fullscreen";
  tbc_workspaceActions title := "Workspace actions for " +:+ title;
  tbc_workspaceName := "Workspace name";
  tbc_workspaceTabs := "Workspace tabs"
|}.

Definition shellTopbarWidgetCopy_ru : ShellTopbarWidgetCopy := {|
  tbc_addWorkspace := "Добавить workspace";
  tbc_cancel := "Отмена";
  tbc_closeWindow := "Закрыть окно";
  tbc_collapseWindow := "Свернуть окно";
  tbc_delete := "Удалить";
  tbc_rename := "Переименовать";
  tbc_save := "Сохранить";
  tbc_toggleAiPanel := "Переключить AI-панель";
  tbc_toggleFullscreen := "Переключить полноэкранный режим";
  tbc_workspaceActions title := "Действия workspace для " +:+ title;
  tbc_workspaceName := "Имя workspace";
  tbc_workspaceTabs := "Вкладки workspace"
|}.

Definition shellTopbarWidgetCopy_zh_CN : ShellTopbarWidgetCopy := {|
  tbc_addWorkspace := "添加 workspace";
  tbc_cancel := "取消";
  tbc_closeWindow := "关闭窗口";
  tbc_collapseWindow := "折叠窗口";
  tbc_delete := "删除";
  tbc_rename := "重命名";
  tbc_save := "保存";
  tbc_toggleAiPanel := "切换 AI 面板";
  tbc_toggleFullscreen := "切换全屏";
  tbc_workspaceActions title := title +:+ " 的 workspace 操作";
  tbc_workspaceName := "Workspace 名称";
  tbc_workspaceTabs := "Workspace 标签页"
|}.

Definition shellTopbarWidgetCopy_es : ShellTopbarWidgetCopy := {|
  tbc_addWorkspace := "Agregar workspace";
  tbc_cancel := "Cancelar";
  tbc_closeWindow := "Cerrar ventana";
  tbc_collapseWindow := "Contraer ventana";
  tbc_delete := "Eliminar";
  tbc_rename := "Renombrar";
  tbc_save := "Guardar";
  tbc_toggleAiPanel := "Alternar panel de AI";
  tbc_toggleFullscreen := "Alternar pantalla completa";
  tbc_workspaceActions title := "Acciones de workspace para " +:+ title;
  tbc_workspaceName := "Nombre del workspace";
  tbc_workspaceTabs := "Pestanas de workspace"
|}.

Definition shellTopbarWidgetCopy (locale : AppLocale) : ShellTopbarWidgetCopy :=
  match locale with
  | LocaleEn => shellTopbarWidgetCopy_en
  | LocaleRu => shellTopbarWidgetCopy_ru
  | LocaleZhCN => shellTopbarWidgetCopy_zh_CN
  | LocaleEs => shellTopbarWidgetCopy_es
  end.

(** * The texts of the provider settings

    [frontend/src/widgets/settings/agent-provider-settings-widget-copy.ts]; the
    tables of two languages take what they lack from the English one. *)
Local Open Scope string_scope.
Local Open Scope list_scope.
Local Open Scope Z_scope.
Local Open Scope js_scope.

Record ProviderStatusesCopy := mkStatusesCopy {
  pst_all : string;
  pst_authRequired : string;
  pst_cancelled : string;
  pst_cancelledOnly : string;
  pst_disabled : string;
  pst_failedOnly : string;
  pst_failing : string;
  pst_healthy : string;
  pst_loginRequired : string;
  pst_modelUnavailable : string;
  pst_needsAttention : string;
  pst_noRuns : string;
  pst_ready : string;
  pst_routeReady : string;
  pst_succeededOnly : string;
  pst_unchecked : string;
  pst_unreachable : string
}.

Record AgentProviderSettingsWidgetCopy := mkProviderCopy {
  pvc_active : string;
  pvc_activate : string;
  pvc_actor : string;
  pvc_addProvider : string -> string;
  pvc_allowedUsers : string;
  pvc_allProviders : string;
  pvc_allowedUsersHint : string;
  pvc_averageLatency : string;
  pvc_baseUrl : string;
  pvc_baseUrlHint : string;
  pvc_chatEnabledModels : Z -> string;
  pvc_claudeCliDescription : string;
  pvc_chatVisibility : string;
  pvc_chooseProvider : string;
  pvc_clearRouteState : string;
  pvc_command : string;
  pvc_commandHint : string -> string;
  pvc_completed : string;
  pvc_codexCliDescription : string;
  pvc_description : string;
  pvc_descriptionEmbedded : string;
  pvc_configuredProviders : string;
  pvc_connection : string;
  pvc_conversation : string;
  pvc_createProvider : string;
  pvc_createdUpdated : string -> string -> string;
  pvc_currentActor : string -> string;
  pvc_currentStatus : string;
  pvc_defaultModel : string;
  pvc_delete : string;
  pvc_disabled : string;
  pvc_disabledProviderHint : string;
  pvc_displayName : string;
  pvc_displayNamePlaceholder : string;
  pvc_errorClass : string;
  pvc_firstResponse : string;
  pvc_gatewaySignals : string;
  pvc_gatewaySignalsDescription : string;
  pvc_gatewayTelemetryUnavailable : string -> string;
  pvc_historySearch : string;
  pvc_historySearchHint : string;
  pvc_historySearchPlaceholder : string;
  pvc_historyWindow : string;
  pvc_httpProviderDescription : string;
  pvc_kind : string -> bool -> string;
  pvc_loading : string;
  pvc_loadingModels : string;
  pvc_loadingProviderActivity : string;
  pvc_lastError : string;
  pvc_loadMoreHistory : string;
  pvc_manualOnly : string;
  pvc_model : string;
  pvc_modelCodexHint : string;
  pvc_modelClaudeHint : string;
  pvc_modelHttpHint : string;
  pvc_noModelsLoaded : string;
  pvc_noProviderActivity : string;
  pvc_noProviderSelected : string;
  pvc_noDiscoveredModelsEnabled : string;
  pvc_noProviders : string;
  pvc_ownerHint : string;
  pvc_ownerUsername : string;
  pvc_prepareOnActivate : string;
  pvc_prepareOnAppStart : string;
  pvc_preparing : string;
  pvc_prewarmPolicy : string;
  pvc_prewarmSectionDescription : string;
  pvc_private : string;
  pvc_probeLatency : string;
  pvc_probeProviderRoute : string;
  pvc_probing : string;
  pvc_provider : string;
  pvc_providerActivityUnavailable : string -> string;
  pvc_providerScope : string;
  pvc_providerStatus : string;
  pvc_providerVisibility : string;
  pvc_recoveryActionLabel : string -> string;
  pvc_ready : string;
  pvc_recentProviderActivity : string;
  pvc_recentProviderActivityDescription : string;
  pvc_refresh : string;
  pvc_requestMode : string;
  pvc_reset : string;
  pvc_resolvedBinary : string;
  pvc_resolvedRoute : string;
  pvc_routeChecked : string;
  pvc_routePolicy : string;
  pvc_routeStatusMessage : string -> string;
  pvc_routeState : string;
  pvc_runDiagnostics : string;
  pvc_runDiagnosticsDescription : string;
  pvc_runs : Z -> string;
  pvc_saveChanges : string;
  pvc_saving : string;
  pvc_selectedProvider : string;
  pvc_shared : string;
  pvc_showingRuns : Z -> Z -> Z -> string;
  pvc_started : string;
  pvc_status : string;
  pvc_statusFilter : string;
  pvc_statuses : ProviderStatusesCopy;
  pvc_suggestedRecovery : string -> string;
  pvc_title : string;
  pvc_titleEmbedded : string;
  pvc_totalDuration : string;
  pvc_unknown : string;
  pvc_unknownUntilProbed : string;
  pvc_warmPolicy : string;
  pvc_routeStats : Z -> Z -> string -> string;
  pvc_ttl : string;
  pvc_warmTtl : string;
  pvc_warmTtlHint : string;
  pvc_warmWindowEnds : string -> string
}.

(** The digits between two texts: [/^prefix(\d+)suffix$/.exec(message)?.[1]]. *)
Definition digitsBetween (prefix suffix message : string) : option string :=
  if startsWith prefix message then
    let rest := strDrop (String.length prefix) message in
    if endsWith suffix rest then
      let digits := strTake (String.length rest - String.length suffix) rest in
      if truthy digits && str_all is_digit digits then Some digits else None
    else None
  else None.
Definition routeStatusMessage_ru (message : string) : string :=
  if decide (message = "Codex CLI route is reachable.") then "Маршрут Codex CLI доступен."
  else if decide (message = "Claude route is reachable.") then "Маршрут Claude доступен."
  else if decide (message = "Route should be prepared again.") then "Маршрут нужно подготовить снова."
  else if decide (message = "Prepared.") then "Подготовлено."
  else
    match digitsBetween "Source is reachable with " " discovered model(s)." message with
    | Some n => "Источник доступен, найдено моделей: " +:+ n +:+ "."
    | None =>
        match digitsBetween "Route prepared via model discovery with " " available model(s)." message with
        | Some n => "Маршрут подготовлен через каталог моделей, доступно моделей: " +:+ n +:+ "."
        | None => message
        end
    end.

Definition statuses_agentProviderSettingsWidgetCopy_en : ProviderStatusesCopy := {|
  pst_all := "All statuses";
  pst_authRequired := "Login required";
  pst_cancelled := "Cancelled";
  pst_cancelledOnly := "Cancelled only";
  pst_disabled := "Disabled";
  pst_failedOnly := "Failed only";
  pst_failing := "Failing";
  pst_healthy := "Healthy";
  pst_loginRequired := "Login required";
  pst_modelUnavailable := "Model unavailable";
  pst_needsAttention := "Needs attention";
  pst_noRuns := "No runs yet";
  pst_ready := "Ready";
  pst_routeReady := "Route ready";
  pst_succeededOnly := "Succeeded only";
  pst_unchecked := "Unchecked";
  pst_unreachable := "Unreachable"
|}.

Definition agentProviderSettingsWidgetCopy_en : AgentProviderSettingsWidgetCopy := {|
  pvc_active := "Active";
  pvc_activate := "Activate";
  pvc_actor := "Actor";
  pvc_addProvider label := "Add " +:+ label;
  pvc_allowedUsers := "Allowed users";
  pvc_allProviders := "All providers";
  pvc_allowedUsersHint := "Comma-separated usernames for future shared-provider access control.";
  pvc_averageLatency := "Average latency";
  pvc_baseUrl := "Base URL";
  pvc_baseUrlHint := "Base URL for the HTTP source. Example: http://192.168.1.8:8317";
  pvc_chatEnabledModels count := showZ count +:+ " models enabled for the chat toolbar.";
  pvc_claudeCliDescription := "Uses local `claude -p` in non-interactive mode with tools disabled for chat completions.";
  pvc_chatVisibility := "Chat visibility";
  pvc_chooseProvider := "Choose an existing provider on the left or create a new one.";
  pvc_clearRouteState := "Clear route state";
  pvc_command := "Command";
  pvc_commandHint command := "Command name or absolute path. Defaults to " +:+ command +:+ ".";
  pvc_completed := "Completed";
  pvc_codexCliDescription := "Uses local `codex exec` in non-interactive mode for chat completions.";
  pvc_description := "Manage local Codex CLI and Claude Code CLI routing without leaving the shell modal.";
  pvc_descriptionEmbedded := "Connect CLI providers for chat and manage the active runtime without leaving settings sections.";
  pvc_configuredProviders := "Configured providers";
  pvc_connection := "Connection";
  pvc_conversation := "Conversation";
  pvc_createProvider := "Create provider";
  pvc_createdUpdated createdBy updatedBy := "Created by " +:+ createdBy +:+ " · updated by " +:+ updatedBy;
  pvc_currentActor actor := "Current actor: " +:+ actor;
  pvc_currentStatus := "Current status";
  pvc_defaultModel := "default model";
  pvc_delete := "Delete";
  pvc_disabled := "Disabled";
  pvc_disabledProviderHint := "Disabled providers stay in the catalog but cannot become active.";
  pvc_displayName := "Display name";
  pvc_displayNamePlaceholder := "Provider display name";
  pvc_errorClass := "Error class";
  pvc_firstResponse := "First response";
  pvc_gatewaySignals := "Gateway signals";
  pvc_gatewaySignalsDescription := "Backend-owned recent run history and health signals for the active provider route.";
  pvc_gatewayTelemetryUnavailable message := "Gateway telemetry is unavailable: " +:+ message;
  pvc_historySearch := "History search";
  pvc_historySearchHint := "Filter by provider, model, request mode, error, or conversation id.";
  pvc_historySearchPlaceholder := "Search recent runs";
  pvc_historyWindow := "History window";
  pvc_httpProviderDescription := "Uses an OpenAI-compatible `/v1/models` and `/v1/chat/completions` endpoint.";
  pvc_kind label active := "Kind: " +:+ label +:+ (if active then " · currently active" else "");
  pvc_loading := "Loading provider catalog…";
  pvc_loadingModels := "Loading…";
  pvc_loadingProviderActivity := "Loading provider activity…";
  pvc_lastError := "Last error";
  pvc_loadMoreHistory := "Load more history";
  pvc_manualOnly := "Manual only";
  pvc_model := "Model";
  pvc_modelCodexHint := "CLI model aliases are resolved by the local Codex CLI.";
  pvc_modelClaudeHint := "Common Claude Code aliases are exposed locally; the CLI resolves exact model support.";
  pvc_modelHttpHint := "The backend reads `/v1/models` from this source and exposes enabled models in the chat toolbar.";
  pvc_noModelsLoaded := "No models loaded";
  pvc_noProviderActivity := "No provider activity matches the current backend filters.";
  pvc_noProviderSelected := "No provider selected";
  pvc_noDiscoveredModelsEnabled := "No discovered models are enabled yet.";
  pvc_noProviders := "No providers are available yet. Create one from the toolbar above.";
  pvc_ownerHint := "Future-ready ownership metadata for provider governance.";
  pvc_ownerUsername := "Owner username";
  pvc_prepareOnActivate := "Prepare on activate";
  pvc_prepareOnAppStart := "Prepare on app start";
  pvc_preparing := "Preparing…";
  pvc_prewarmPolicy := "Prewarm policy";
  pvc_prewarmSectionDescription := "Backend-owned prewarm behavior and warm TTL for the selected provider route.";
  pvc_private := "Private";
  pvc_probeLatency := "Probe latency";
  pvc_probeProviderRoute := "Probe provider route";
  pvc_probing := "Probing…";
  pvc_provider := "Provider";
  pvc_providerActivityUnavailable message := "Provider run history is unavailable: " +:+ message;
  pvc_providerScope := "Provider scope";
  pvc_providerStatus := "Provider status";
  pvc_providerVisibility := "Provider visibility";
  pvc_recoveryActionLabel label := label;
  pvc_ready := "Ready";
  pvc_recentProviderActivity := "Recent provider activity";
  pvc_recentProviderActivityDescription := "Filtered persisted gateway history over the same backend-owned provider route.";
  pvc_refresh := "Refresh";
  pvc_requestMode := "Request mode";
  pvc_reset := "Reset";
  pvc_resolvedBinary := "Resolved binary";
  pvc_resolvedRoute := "Resolved route";
  pvc_routeChecked := "Route checked";
  pvc_routePolicy := "Route policy";
  pvc_routeStatusMessage message := message;
  pvc_routeState := "Route state";
  pvc_runDiagnostics := "Run diagnostics";
  pvc_runDiagnosticsDescription := "Detailed operator view for the selected persisted provider run.";
  pvc_runs count := showZ count +:+ " runs";
  pvc_saveChanges := "Save changes";
  pvc_saving := "Saving…";
  pvc_selectedProvider := "Selected provider";
  pvc_shared := "Shared";
  pvc_showingRuns visible total offset := "Showing " +:+ showZ visible +:+ " of " +:+ showZ total +:+ " persisted runs" +:+ (if (0 <? offset)%Z then " from offset " +:+ showZ offset else "") +:+ ".";
  pvc_started := "Started";
  pvc_status := "Status";
  pvc_statusFilter := "Status filter";
  pvc_statuses := statuses_agentProviderSettingsWidgetCopy_en;
  pvc_suggestedRecovery label := "Suggested recovery: " +:+ label;
  pvc_title := "AI provider routing";
  pvc_titleEmbedded := "AI / Providers";
  pvc_totalDuration := "Total duration";
  pvc_unknown := "unknown";
  pvc_unknownUntilProbed := "Unknown until probed";
  pvc_warmPolicy := "Warm policy";
  pvc_routeStats succeeded total averageDuration := showZ succeeded +:+ "/" +:+ showZ total +:+ " ok · avg " +:+ averageDuration;
  pvc_ttl := "ttl";
  pvc_warmTtl := "Warm TTL (seconds)";
  pvc_warmTtlHint := "How long a prepared route is treated as warm before the shell marks it stale.";
  pvc_warmWindowEnds value := "Warm window ends " +:+ value
|}.

Definition statuses_agentProviderSettingsWidgetCopy_ru : ProviderStatusesCopy := {|
  pst_all := "Все статусы";
  pst_authRequired := "Нужен логин";
  pst_cancelled := "Отменён";
  pst_cancelledOnly := "Только отменённые";
  pst_disabled := "Выключен";
  pst_failedOnly := "Только ошибки";
  pst_failing := "С ошибками";
  pst_healthy := "Работает";
  pst_loginRequired := "Нужен логин";
  pst_modelUnavailable := "Модель недоступна";
  pst_needsAttention := "Требует внимания";
  pst_noRuns := "Запусков еще нет";
  pst_ready := "Готов";
  pst_routeReady := "Маршрут готов";
  pst_succeededOnly := "Только успешные";
  pst_unchecked := "Не проверен";
  pst_unreachable := "Недоступен"
|}.

Definition agentProviderSettingsWidgetCopy_ru : AgentProviderSettingsWidgetCopy := {|
  pvc_active := "Активен";
  pvc_activate := "Активировать";
  pvc_actor := "Пользователь";
  pvc_addProvider label := "Добавить " +:+ label;
  pvc_allowedUsers := "Разрешенные пользователи";
  pvc_allProviders := "Все провайдеры";
  pvc_allowedUsersHint := "Имена пользователей через запятую для будущего общего доступа к провайдеру.";
  pvc_averageLatency := "Средняя задержка";
  pvc_baseUrl := "URL источника";
  pvc_baseUrlHint := "URL HTTP-источника. Пример: http://192.168.1.8:8317";
  pvc_chatEnabledModels count := showZ count +:+ " моделей включено для чата.";
  pvc_claudeCliDescription := "Использует локальный `claude -p` для ответов чата.";
  pvc_chatVisibility := "Видимость в чате";
  pvc_chooseProvider := "Выберите провайдера слева или создайте нового.";
  pvc_clearRouteState := "Очистить состояние маршрута";
  pvc_command := "Команда";
  pvc_commandHint command := "Имя команды или абсолютный путь. По умолчанию " +:+ command +:+ ".";
  pvc_completed := "Завершено";
  pvc_codexCliDescription := "Использует локальный `codex exec` для ответов чата.";
  pvc_description := "Подключайте Codex CLI, Claude Code CLI и HTTP-провайдеры для чата.";
  pvc_descriptionEmbedded := "Подключайте Codex, Claude и HTTP-провайдеры для чата.";
  pvc_configuredProviders := "Настроенные провайдеры";
  pvc_connection := "Подключение";
  pvc_conversation := "Диалог";
  pvc_createProvider := "Создать провайдера";
  pvc_createdUpdated createdBy updatedBy := "Создал " +:+ createdBy +:+ " · обновил " +:+ updatedBy;
  pvc_currentActor actor := "Текущий пользователь: " +:+ actor;
  pvc_currentStatus := "Текущий статус";
  pvc_defaultModel := "модель по умолчанию";
  pvc_delete := "Удалить";
  pvc_disabled := "Отключен";
  pvc_disabledProviderHint := "Отключенные провайдеры остаются в каталоге, но не могут стать активными.";
  pvc_displayName := "Отображаемое имя";
  pvc_displayNamePlaceholder := "Отображаемое имя провайдера";
  pvc_errorClass := "Тип ошибки";
  pvc_firstResponse := "Первый ответ";
  pvc_gatewaySignals := "Состояние маршрута";
  pvc_gatewaySignalsDescription := "Последние проверки и состояние маршрута выбранного провайдера.";
  pvc_gatewayTelemetryUnavailable message := "Данные маршрута недоступны: " +:+ message;
  pvc_historySearch := "Поиск истории";
  pvc_historySearchHint := "Фильтр по провайдеру, модели, режиму запроса, ошибке или id диалога.";
  pvc_historySearchPlaceholder := "Искать последние запуски";
  pvc_historyWindow := "Окно истории";
  pvc_httpProviderDescription := "Использует OpenAI-compatible API: `/v1/models` и `/v1/chat/completions`.";
  pvc_kind label active := label +:+ (if active then " · сейчас активен" else "");
  pvc_loading := "Загрузка каталога провайдеров…";
  pvc_loadingModels := "Загрузка…";
  pvc_loadingProviderActivity := "Загрузка активности провайдера…";
  pvc_lastError := "Последняя ошибка";
  pvc_loadMoreHistory := "Загрузить ещё";
  pvc_manualOnly := "Только вручную";
  pvc_model := "Модель";
  pvc_modelCodexHint := "Псевдонимы моделей разрешает локальный Codex CLI.";
  pvc_modelClaudeHint := "Точную поддержку моделей определяет Claude Code CLI.";
  pvc_modelHttpHint := "Приложение читает `/v1/models` из этого источника и показывает включённые модели в чате.";
  pvc_noModelsLoaded := "Модели не загружены";
  pvc_noProviderActivity := "Запусков провайдера по текущим фильтрам не найдено.";
  pvc_noProviderSelected := "Провайдер не выбран";
  pvc_noDiscoveredModelsEnabled := "Обнаруженные модели пока не включены.";
  pvc_noProviders := "Провайдеров пока нет. Создайте провайдера на панели выше.";
  pvc_ownerHint := "Владелец настройки провайдера.";
  pvc_ownerUsername := "Имя владельца";
  pvc_prepareOnActivate := "Подготовить при активации";
  pvc_prepareOnAppStart := "Подготовить при старте приложения";
  pvc_preparing := "Подготовка…";
  pvc_prewarmPolicy := "Подготовка маршрута";
  pvc_prewarmSectionDescription := "Когда подготавливать выбранный маршрут и как долго считать его готовым.";
  pvc_private := "Приватный";
  pvc_probeLatency := "Задержка проверки";
  pvc_probeProviderRoute := "Проверить маршрут провайдера";
  pvc_probing := "Проверка…";
  pvc_provider := "Провайдер";
  pvc_providerActivityUnavailable message := "История запусков провайдера недоступна: " +:+ message;
  pvc_providerScope := "Область провайдера";
  pvc_providerStatus := "Статус провайдера";
  pvc_providerVisibility := "Видимость провайдера";
  pvc_recoveryActionLabel label := if decide (label = "Probe route") then "Проверить маршрут" else if decide (label = "Re-check binary") then "Проверить команду ещё раз" else if decide (label = "Re-check auth") then "Проверить вход ещё раз" else if decide (label = "Retry route probe") then "Повторить проверку маршрута" else if decide (label = "Re-check models") then "Проверить модели ещё раз" else if decide (label = "Retry route prepare") then "Повторить подготовку маршрута" else if decide (label = "Re-check route") then "Проверить маршрут ещё раз" else if decide (label = "Prepare route") then "Подготовить маршрут" else if decide (label = "Refresh route") then "Обновить маршрут" else label;
  pvc_ready := "Готов";
  pvc_recentProviderActivity := "Недавняя активность провайдера";
  pvc_recentProviderActivityDescription := "Сохранённая история запусков выбранного маршрута.";
  pvc_refresh := "Обновить";
  pvc_requestMode := "Режим запроса";
  pvc_reset := "Сбросить";
  pvc_resolvedBinary := "Найденный бинарь";
  pvc_resolvedRoute := "Итоговый маршрут";
  pvc_routeChecked := "Маршрут проверен";
  pvc_routePolicy := "Подготовка";
  pvc_routeStatusMessage := routeStatusMessage_ru;
  pvc_routeState := "Состояние маршрута";
  pvc_runDiagnostics := "Диагностика запуска";
  pvc_runDiagnosticsDescription := "Подробности выбранного запуска провайдера.";
  pvc_runs count := showZ count +:+ " запусков";
  pvc_saveChanges := "Сохранить изменения";
  pvc_saving := "Сохранение…";
  pvc_selectedProvider := "Выбранный провайдер";
  pvc_shared := "Общий";
  pvc_showingRuns visible total offset := "Показано " +:+ showZ visible +:+ " из " +:+ showZ total +:+ " сохранённых запусков" +:+ (if (0 <? offset)%Z then " со смещения " +:+ showZ offset else "") +:+ ".";
  pvc_started := "Начато";
  pvc_status := "Статус";
  pvc_statusFilter := "Фильтр статуса";
  pvc_statuses := statuses_agentProviderSettingsWidgetCopy_ru;
  pvc_suggestedRecovery label := "Рекомендуемое восстановление: " +:+ label;
  pvc_title := "Провайдеры AI";
  pvc_titleEmbedded := "Провайдеры AI";
  pvc_totalDuration := "Общая длительность";
  pvc_unknown := "неизвестно";
  pvc_unknownUntilProbed := "Неизвестно до проверки";
  pvc_warmPolicy := "Готовность";
  pvc_routeStats succeeded total averageDuration := showZ succeeded +:+ "/" +:+ showZ total +:+ " успешно · среднее " +:+ averageDuration;
  pvc_ttl := "TTL";
  pvc_warmTtl := "Время готовности (секунды)";
  pvc_warmTtlHint := "Как долго подготовленный маршрут считается готовым.";
  pvc_warmWindowEnds value := "Готовность действует до " +:+ value
|}.

Definition statuses_agentProviderSettingsWidgetCopy_zh_CN : ProviderStatusesCopy := {|
  pst_all := "所有状态";
  pst_authRequired := "需要登录";
  pst_cancelled := "已取消";
  pst_cancelledOnly := "仅已取消";
  pst_disabled := "已禁用";
  pst_failedOnly := "仅失败";
  pst_failing := "失败中";
  pst_healthy := "健康";
  pst_loginRequired := "需要登录";
  pst_modelUnavailable := "模型不可用";
  pst_needsAttention := "需要注意";
  pst_noRuns := "尚无运行";
  pst_ready := "就绪";
  pst_routeReady := "路由就绪";
  pst_succeededOnly := "仅成功";
  pst_unchecked := "未检查";
  pst_unreachable := "不可达"
|}.

Definition agentProviderSettingsWidgetCopy_zh_CN : AgentProviderSettingsWidgetCopy := {|
  pvc_active := "活动";
  pvc_activate := "激活";
  pvc_actor := "操作者";
  pvc_addProvider label := "添加 " +:+ label;
  pvc_allowedUsers := "允许的用户";
  pvc_allProviders := "所有 providers";
  pvc_allowedUsersHint := "用逗号分隔用户名，用于未来的共享 provider 访问控制。";
  pvc_averageLatency := "平均延迟";
  pvc_baseUrl := pvc_baseUrl agentProviderSettingsWidgetCopy_en;
  pvc_baseUrlHint := pvc_baseUrlHint agentProviderSettingsWidgetCopy_en;
  pvc_chatEnabledModels count := showZ count +:+ " 个模型已在聊天工具栏启用。";
  pvc_claudeCliDescription := pvc_claudeCliDescription agentProviderSettingsWidgetCopy_en;
  pvc_chatVisibility := "聊天可见性";
  pvc_chooseProvider := "选择左侧已有 provider，或创建新的 provider。";
  pvc_clearRouteState := "清除路由状态";
  pvc_command := "命令";
  pvc_commandHint command := "命令名或绝对路径。默认是 " +:+ command +:+ "。";
  pvc_completed := "完成时间";
  pvc_codexCliDescription := pvc_codexCliDescription agentProviderSettingsWidgetCopy_en;
  pvc_description := "在 shell 弹窗中管理本地 Codex CLI 和 Claude Code CLI 路由。";
  pvc_descriptionEmbedded := "连接聊天 CLI providers，并在 settings sections 内管理活动 runtime。";
  pvc_configuredProviders := "已配置 providers";
  pvc_connection := "连接";
  pvc_conversation := pvc_conversation agentProviderSettingsWidgetCopy_en;
  pvc_createProvider := "创建 provider";
  pvc_createdUpdated createdBy updatedBy := "创建者 " +:+ createdBy +:+ " · 更新者 " +:+ updatedBy;
  pvc_currentActor actor := "当前操作者：" +:+ actor;
  pvc_currentStatus := "当前状态";
  pvc_defaultModel := "默认模型";
  pvc_delete := "删除";
  pvc_disabled := "已禁用";
  pvc_disabledProviderHint := "禁用的 providers 会保留在目录中，但不能设为活动。";
  pvc_displayName := "显示名称";
  pvc_displayNamePlaceholder := "Provider 显示名称";
  pvc_errorClass := "错误类别";
  pvc_firstResponse := "首次响应";
  pvc_gatewaySignals := "Gateway 信号";
  pvc_gatewaySignalsDescription := "活动 provider 路由的 backend 运行历史和健康信号。";
  pvc_gatewayTelemetryUnavailable message := "Gateway 遥测不可用：" +:+ message;
  pvc_historySearch := "历史搜索";
  pvc_historySearchHint := "按 provider、模型、请求模式、错误或 conversation id 过滤。";
  pvc_historySearchPlaceholder := "搜索最近运行";
  pvc_historyWindow := "历史窗口";
  pvc_httpProviderDescription := pvc_httpProviderDescription agentProviderSettingsWidgetCopy_en;
  pvc_kind label active := "类型：" +:+ label +:+ (if active then " · 当前活动" else "");
  pvc_loading := "正在加载 provider 目录…";
  pvc_loadingModels := "正在加载…";
  pvc_loadingProviderActivity := "正在加载 provider 活动…";
  pvc_lastError := "最后错误";
  pvc_loadMoreHistory := "加载更多历史";
  pvc_manualOnly := "仅手动";
  pvc_model := "模型";
  pvc_modelCodexHint := pvc_modelCodexHint agentProviderSettingsWidgetCopy_en;
  pvc_modelClaudeHint := pvc_modelClaudeHint agentProviderSettingsWidgetCopy_en;
  pvc_modelHttpHint := pvc_modelHttpHint agentProviderSettingsWidgetCopy_en;
  pvc_noModelsLoaded := "没有加载模型";
  pvc_noProviderActivity := "当前 backend 过滤器没有匹配的 provider 活动。";
  pvc_noProviderSelected := "未选择 provider";
  pvc_noDiscoveredModelsEnabled := "尚未启用已发现模型。";
  pvc_noProviders := "还没有 providers。请从上方工具栏创建一个。";
  pvc_ownerHint := "用于未来 provider 治理的所有者元数据。";
  pvc_ownerUsername := "所有者用户名";
  pvc_prepareOnActivate := "激活时准备";
  pvc_prepareOnAppStart := "应用启动时准备";
  pvc_preparing := "正在准备…";
  pvc_prewarmPolicy := "Prewarm 策略";
  pvc_prewarmSectionDescription := "所选 provider 路由的 backend prewarm 行为和 warm TTL。";
  pvc_private := "私有";
  pvc_probeLatency := "检查延迟";
  pvc_probeProviderRoute := "检查 provider 路由";
  pvc_probing := "正在检查…";
  pvc_provider := "Provider";
  pvc_providerActivityUnavailable message := "Provider 运行历史不可用：" +:+ message;
  pvc_providerScope := "Provider 范围";
  pvc_providerStatus := "Provider 状态";
  pvc_providerVisibility := "Provider 可见性";
  pvc_recoveryActionLabel := pvc_recoveryActionLabel agentProviderSettingsWidgetCopy_en;
  pvc_ready := "就绪";
  pvc_recentProviderActivity := "最近 provider 活动";
  pvc_recentProviderActivityDescription := "同一 backend provider 路由的持久化 gateway 历史。";
  pvc_refresh := "刷新";
  pvc_requestMode := "请求模式";
  pvc_reset := "重置";
  pvc_resolvedBinary := "已解析二进制";
  pvc_resolvedRoute := "已解析路由";
  pvc_routeChecked := "路由检查时间";
  pvc_routePolicy := "路由策略";
  pvc_routeStatusMessage := pvc_routeStatusMessage agentProviderSettingsWidgetCopy_en;
  pvc_routeState := "路由状态";
  pvc_runDiagnostics := "运行诊断";
  pvc_runDiagnosticsDescription := "所选持久化 provider 运行的详细操作视图。";
  pvc_runs count := showZ count +:+ " 次运行";
  pvc_saveChanges := "保存更改";
  pvc_saving := "正在保存…";
  pvc_selectedProvider := "所选 provider";
  pvc_shared := "共享";
  pvc_showingRuns visible total offset := "显示 " +:+ showZ visible +:+ " / " +:+ showZ total +:+ " 次持久化运行" +:+ (if (0 <? offset)%Z then "，偏移 " +:+ showZ offset else "") +:+ "。";
  pvc_started := "开始时间";
  pvc_status := "状态";
  pvc_statusFilter := "状态过滤";
  pvc_statuses := statuses_agentProviderSettingsWidgetCopy_zh_CN;
  pvc_suggestedRecovery label := "建议恢复：" +:+ label;
  pvc_title := "AI provider 路由";
  pvc_titleEmbedded := "AI / Providers";
  pvc_totalDuration := "总耗时";
  pvc_unknown := "未知";
  pvc_unknownUntilProbed := "检查前未知";
  pvc_warmPolicy := "Warm 策略";
  pvc_routeStats succeeded total averageDuration := showZ succeeded +:+ "/" +:+ showZ total +:+ " 正常 · 平均 " +:+ averageDuration;
  pvc_ttl := "ttl";
  pvc_warmTtl := "Warm TTL（秒）";
  pvc_warmTtlHint := "准备好的路由在 shell 标记为 stale 前保持 warm 的时长。";
  pvc_warmWindowEnds value := "Warm 窗口结束于 " +:+ value
|}.

Definition statuses_agentProviderSettingsWidgetCopy_es : ProviderStatusesCopy := {|
  pst_all := "Todos los estados";
  pst_authRequired := "Login requerido";
  pst_cancelled := "Cancelado";
  pst_cancelledOnly := "Solo cancelados";
  pst_disabled := "Deshabilitado";
  pst_failedOnly := "Solo fallidas";
  pst_failing := "Con fallos";
  pst_healthy := "Saludable";
  pst_loginRequired := "Login requerido";
  pst_modelUnavailable := "Modelo no disponible";
  pst_needsAttention := "Requiere atencion";
  pst_noRuns := "Sin ejecuciones aun";
  pst_ready := "Listo";
  pst_routeReady := "Ruta lista";
  pst_succeededOnly := "Solo exitosas";
  pst_unchecked := "Sin comprobar";
  pst_unreachable := "Inalcanzable"
|}.

Definition agentProviderSettingsWidgetCopy_es : AgentProviderSettingsWidgetCopy := {|
  pvc_active := "Activo";
  pvc_activate := "Activar";
  pvc_actor := "Actor";
  pvc_addProvider label := "Agregar " +:+ label;
  pvc_allowedUsers := "Usuarios permitidos";
  pvc_allProviders := "Todos los proveedores";
  pvc_allowedUsersHint := "Usuarios separados por comas para futuro control de acceso compartido.";
  pvc_averageLatency := "Latencia media";
  pvc_baseUrl := pvc_baseUrl agentProviderSettingsWidgetCopy_en;
  pvc_baseUrlHint := pvc_baseUrlHint agentProviderSettingsWidgetCopy_en;
  pvc_chatEnabledModels count := showZ count +:+ " modelos habilitados para la barra de chat.";
  pvc_claudeCliDescription := pvc_claudeCliDescription agentProviderSettingsWidgetCopy_en;
  pvc_chatVisibility := "Visibilidad en chat";
  pvc_chooseProvider := "Elige un proveedor existente a la izquierda o crea uno nuevo.";
  pvc_clearRouteState := "Limpiar estado de ruta";
  pvc_command := "Comando";
  pvc_commandHint command := "Nombre de comando o ruta absoluta. Predeterminado: " +:+ command +:+ ".";
  pvc_completed := "Completado";
  pvc_codexCliDescription := pvc_codexCliDescription agentProviderSettingsWidgetCopy_en;
  pvc_description := "Gestiona rutas locales de Codex CLI y Claude Code CLI sin salir del modal de shell.";
  pvc_descriptionEmbedded := "Conecta proveedores CLI para chat y gestiona el runtime activo sin salir de las settings sections.";
  pvc_configuredProviders := "Proveedores configurados";
  pvc_connection := "Conexion";
  pvc_conversation := pvc_conversation agentProviderSettingsWidgetCopy_en;
  pvc_createProvider := "Crear proveedor";
  pvc_createdUpdated createdBy updatedBy := "Creado por " +:+ createdBy +:+ " · actualizado por " +:+ updatedBy;
  pvc_currentActor actor := "Actor actual: " +:+ actor;
  pvc_currentStatus := "Estado actual";
  pvc_defaultModel := "modelo predeterminado";
  pvc_delete := "Eliminar";
  pvc_disabled := "Deshabilitado";
  pvc_disabledProviderHint := "Los proveedores deshabilitados quedan en el catalogo, pero no pueden activarse.";
  pvc_displayName := "Nombre visible";
  pvc_displayNamePlaceholder := "Nombre visible del proveedor";
  pvc_errorClass := "Clase de error";
  pvc_firstResponse := "Primera respuesta";
  pvc_gatewaySignals := "Senales de gateway";
  pvc_gatewaySignalsDescription := "Historial reciente y senales de salud de la ruta activa del proveedor.";
  pvc_gatewayTelemetryUnavailable message := "La telemetria de gateway no esta disponible: " +:+ message;
  pvc_historySearch := "Buscar historial";
  pvc_historySearchHint := "Filtra por proveedor, modelo, modo de solicitud, error o conversation id.";
  pvc_historySearchPlaceholder := "Buscar ejecuciones recientes";
  pvc_historyWindow := "Ventana de historial";
  pvc_httpProviderDescription := pvc_httpProviderDescription agentProviderSettingsWidgetCopy_en;
  pvc_kind label active := "Tipo: " +:+ label +:+ (if active then " · activo ahora" else "");
  pvc_loading := "Cargando catalogo de proveedores…";
  pvc_loadingModels := "Cargando…";
  pvc_loadingProviderActivity := "Cargando actividad del proveedor…";
  pvc_lastError := "Ultimo error";
  pvc_loadMoreHistory := "Cargar mas historial";
  pvc_manualOnly := "Solo manual";
  pvc_model := "Modelo";
  pvc_modelCodexHint := pvc_modelCodexHint agentProviderSettingsWidgetCopy_en;
  pvc_modelClaudeHint := pvc_modelClaudeHint agentProviderSettingsWidgetCopy_en;
  pvc_modelHttpHint := pvc_modelHttpHint agentProviderSettingsWidgetCopy_en;
  pvc_noModelsLoaded := "No hay modelos cargados";
  pvc_noProviderActivity := "No hay actividad del proveedor para los filtros actuales.";
  pvc_noProviderSelected := "No hay proveedor seleccionado";
  pvc_noDiscoveredModelsEnabled := "Todavia no hay modelos descubiertos habilitados.";
  pvc_noProviders := "Todavia no hay proveedores. Crea uno desde la barra superior.";
  pvc_ownerHint := "Metadatos de propietario para futura gobernanza de proveedores.";
  pvc_ownerUsername := "Usuario propietario";
  pvc_prepareOnActivate := "Preparar al activar";
  pvc_prepareOnAppStart := "Preparar al iniciar la app";
  pvc_preparing := "Preparando…";
  pvc_prewarmPolicy := "Politica prewarm";
  pvc_prewarmSectionDescription := "Comportamiento prewarm y warm TTL de la ruta seleccionada del proveedor.";
  pvc_private := "Privado";
  pvc_probeLatency := "Latencia de prueba";
  pvc_probeProviderRoute := "Probar ruta del proveedor";
  pvc_probing := "Probando…";
  pvc_provider := "Proveedor";
  pvc_providerActivityUnavailable message := "El historial de ejecuciones no esta disponible: " +:+ message;
  pvc_providerScope := "Alcance del proveedor";
  pvc_providerStatus := "Estado del proveedor";
  pvc_providerVisibility := "Visibilidad del proveedor";
  pvc_recoveryActionLabel := pvc_recoveryActionLabel agentProviderSettingsWidgetCopy_en;
  pvc_ready := "Listo";
  pvc_recentProviderActivity := "Actividad reciente del proveedor";
  pvc_recentProviderActivityDescription := "Historial gateway persistido para la misma ruta backend del proveedor.";
  pvc_refresh := "Actualizar";
  pvc_requestMode := "Modo de solicitud";
  pvc_reset := "Restablecer";
  pvc_resolvedBinary := "Binario resuelto";
  pvc_resolvedRoute := "Ruta resuelta";
  pvc_routeChecked := "Ruta comprobada";
  pvc_routePolicy := "Politica de ruta";
  pvc_routeStatusMessage := pvc_routeStatusMessage agentProviderSettingsWidgetCopy_en;
  pvc_routeState := "Estado de ruta";
  pvc_runDiagnostics := "Diagnostico de ejecucion";
  pvc_runDiagnosticsDescription := "Vista operativa detallada de la ejecucion persistida seleccionada.";
  pvc_runs count := showZ count +:+ " ejecuciones";
  pvc_saveChanges := "Guardar cambios";
  pvc_saving := "Guardando…";
  pvc_selectedProvider := "Proveedor seleccionado";
  pvc_shared := "Compartido";
  pvc_showingRuns visible total offset := "Mostrando " +:+ showZ visible +:+ " de " +:+ showZ total +:+ " ejecuciones persistidas" +:+ (if (0 <? offset)%Z then " desde offset " +:+ showZ offset else "") +:+ ".";
  pvc_started := "Iniciado";
  pvc_status := "Estado";
  pvc_statusFilter := "Filtro de estado";
  pvc_statuses := statuses_agentProviderSettingsWidgetCopy_es;
  pvc_suggestedRecovery label := "Recuperacion sugerida: " +:+ label;
  pvc_title := "Rutas de proveedores AI";
  pvc_titleEmbedded := "AI / Proveedores";
  pvc_totalDuration := "Duracion total";
  pvc_unknown := "desconocido";
  pvc_unknownUntilProbed := "Desconocido hasta probar";
  pvc_warmPolicy := "Politica warm";
  pvc_routeStats succeeded total averageDuration := showZ succeeded +:+ "/" +:+ showZ total +:+ " ok · media " +:+ averageDuration;
  pvc_ttl := "ttl";
  pvc_warmTtl := "Warm TTL (segundos)";
  pvc_warmTtlHint := "Tiempo que una ruta preparada se considera warm antes de marcarla stale.";
  pvc_warmWindowEnds value := "La ventana warm termina " +:+ value
|}.

Definition agentProviderSettingsWidgetCopy (locale : AppLocale) : AgentProviderSettingsWidgetCopy :=
  match locale with
  | LocaleEn => agentProviderSettingsWidgetCopy_en
  | LocaleRu => agentProviderSettingsWidgetCopy_ru
  | LocaleZhCN => agentProviderSettingsWidgetCopy_zh_CN
  | LocaleEs => agentProviderSettingsWidgetCopy_es
  end.
