(* ===== verification/SettingsForms.v ===== *)
(** * Forms of the settings

    The settings sections share a way to write their handlers: a handler sets
    a flag and clears the messages, runs a request in [try], shows the failure
    in [catch] and releases the flag in [finally].  Then drafts of several
    lines, which two sections read as a list of named values. *)
From Stdlib Require Import Ascii String.
From stdpp Require Import strings.
From S2P Require Import Prelude JsString Text Effects Http ServicesApi.
Local Open Scope string_scope.
Local Open Scope list_scope.
Local Open Scope nat_scope.
Local Open Scope js_scope.
Local Open Scope prog_scope.

Create HintDb forms.

Section Busy.
Context {S : Type} {E : Set -> Type}.

Definition busyWith (start : S -> S) (body : ProgX ApiError S E unit) (failed : ApiError -> S -> S) (stop : S -> S)
    : ProgX ApiError S E unit :=
  update start ;;;
  finally (tryCatch body (fun error => update (failed error))) (update stop).

(** A [catch] and a [finally] that await nothing. *)
Lemma within_try_quiet n {R} (p : ProgX ApiError S E R) h : within n p -> (forall e, within 0 (h e)) -> within n (tryCatch p h).
Proof. intros H1 H2. apply (within_le (n + 0)); [lia|]. by apply within_try. Qed.
Lemma within_finally_quiet n {R} (p : ProgX ApiError S E R) q : within n p -> within 0 q -> within n (finally p q).
Proof. intros H1 H2. apply (within_le (n + 0)); [lia|]. by apply within_finally. Qed.
Lemma within_then n {R R'} (p : ProgX ApiError S E R) (k : R -> ProgX ApiError S E R') :
  within n p -> (forall r, within 0 (k r)) -> within n (bind p k).
Proof. intros H1 H2. apply (within_le (n + 0)); [lia|]. by apply within_bind. Qed.
Lemma within_quiet n {R R'} (p : ProgX ApiError S E R) (k : R -> ProgX ApiError S E R') :
  within 0 p -> (forall r, within n (k r)) -> within n (bind p k).
Proof. apply (within_bind 0). Qed.

(** It ends within the answers of its body, in a state that [stop] has made. *)
Lemma busy_within n start body failed stop : within n body -> within n (busyWith start body failed stop).
Proof.
  intros H. apply within_quiet; [exact I|intros _]. apply within_finally_quiet; [|exact I]. by apply within_try_quiet.
Qed.
Lemma busy_ends start body failed stop s (Q : S -> Prop) :
  (forall s, Q (stop s)) -> ends_with (busyWith start body failed stop) s Q.
Proof.
  intros HQ. unfold ends_with, busyWith, update. cbn [bind wp]. apply wp_finally.
  eapply wp_weaken; [|apply wp_any]. intros r a b _. cbn. by destruct r.
Qed.
Lemma stable_busy (G : S -> S -> Prop) `{!PreOrder G} (P : forall A : Set, E A -> Prop) start body failed stop :
  (forall s, G s (start s)) -> (forall e s, G s (failed e s)) -> (forall s, G s (stop s)) -> stable G P body ->
  stable G P (busyWith start body failed stop).
Proof.
  intros H1 H2 H3 H4. apply stable_bind; [by apply stable_update|]. intros _.
  apply stable_finally; [apply stable_try; [exact H4|]|by apply stable_update]. intros e. by apply stable_update.
Qed.

(** A call whose requests are answered at once. *)
Fixpoint serve {R} (answers : forall A : Set, E A -> A + ApiError) (p : ProgX ApiError S E R) (s : S) : S * (R + ApiError) :=
  match p with
  | Ret r => (s, inl r)
  | Throw e => (s, inr e)
  | Update f k => serve answers k (f s)
  | Get k => serve answers (k s) s
  | Await request k => serve answers (k (answers _ request)) s
  end.

(** A failure of what a handler builds before it sends anything. *)
Definition orFail {A} (r : A + string) : ProgX ApiError S E A :=
  match r with inl x => Ret x | inr message => Throw (PlainError message) end.
Lemma orFail_within n {A} (r : A + string) : within n (orFail r).
Proof. by destruct r. Qed.
End Busy.

#[export] Hint Resolve within_try_quiet within_finally_quiet busy_within orFail_within within_await : forms.
#[export] Hint Extern 1 (within _ (update _)) => exact I : forms.
#[export] Hint Extern 1 (within _ (Ret _)) => exact I : forms.
#[export] Hint Extern 1 (within _ get) => (intros ?; exact I) : forms.
#[export] Hint Extern 2 (within _ (bind (await _) _)) => (apply within_then; [|intros ?]) : forms.
#[export] Hint Extern 3 (within _ (bind _ _)) => (apply within_quiet; [|intros ?]) : forms.
#[export] Hint Extern 4 (within _ (bind _ _)) => (apply within_then; [|intros ?]) : forms.
#[export] Hint Extern 2 (within _ (if ?b then _ else _)) => (destruct b) : forms.
#[export] Hint Extern 2 (within _ (match ?x with _ => _ end)) => (destruct x) : forms.

(** A call of a part of the state, with its requests among others. *)
Section Lift.
Context {X S S' : Type} {E E' : Set -> Type}.
Variable part : S' -> S.
Variable put : (S -> S) -> S' -> S'.
Variable inject : forall A : Set, E A -> E' A.

Fixpoint lift {R} (p : ProgX X S E R) : ProgX X S' E' R :=
  match p with
  | Ret r => Ret r
  | Throw e => Throw e
  | Update f k => Update (put f) (lift k)
  | Get k => Get (fun s => lift (k (part s)))
  | Await request k => Await (inject _ request) (fun a => lift (k a))
  end.

Lemma within_lift {R} n (p : ProgX X S E R) : within n p -> within n (lift p).
Proof.
  revert n. induction p as [r|e|f k IH|k IH|A r k IH]; intros n; cbn [lift within]; auto.
  destruct n; [done|]. cbn. auto.
Qed.
End Lift.
#[export] Hint Resolve within_lift : forms.

(** [error instanceof Error ? error.message : text] *)
Definition messageOr (text : string) (error : ApiError) : string := errorMessage error ?? text.

(** ** Drafts of lines *)

Definition lineFeed : ascii := ascii_of_nat 10.
Definition cr : ascii := ascii_of_nat 13.

Fixpoint dropTrailingCr (s : string) : string :=
  match s with
  | EmptyString => EmptyString
  | String a EmptyString => if decide (a = cr) then EmptyString else s
  | String a s' => String a (dropTrailingCr s')
  end.

(** [draft.split(/\r?\n/g)] *)
Definition splitLines (draft : string) : list string :=
  let pieces := splitOn lineFeed draft in
  (dropTrailingCr <$> dropLast pieces) ++ option_list (lastOf pieces).

(** [line.slice(0, i)] and [line.slice(i + 1)] for the first [c], at [i]. *)
Fixpoint cutAtSeparator (c : ascii) (line : string) : option (string * string) :=
  match line with
  | EmptyString => None
  | String a rest =>
      if decide (a = c) then Some ("", rest)
      else match cutAtSeparator c rest with
           | Some (before, after) => Some (String a before, after)
           | None => None
           end
  end.

(** The texts of the errors: a line without a name, a blank name, a name again. *)
Record DraftErrors := mkDraftErrors { de_format : string; de_name : string; de_duplicate : string -> string }.

(** The loop of [parseHeadersDraft] and [parseMetadataDraft]: [named] is the
    object that is built and [seen] the set of its names in lower case. *)
Fixpoint parseNamedLines (separator : ascii) (errors : DraftErrors) (rawLines : list string) (named : list (string * string))
    (seen : list string) : list (string * string) + string :=
  match rawLines with
  | [] => inl named
  | rawLine :: rawLines =>
      let line := trimText rawLine in
      if truthy line then
        match cutAtSeparator separator line with
        | None | Some (EmptyString, _) => inr (de_format errors)
        | Some (before, after) =>
            let name := trimText before in
            let value := trimText after in
            if negb (truthy name) then inr (de_name errors)
            else if includes (lowerText name) seen then inr (de_duplicate errors name)
            else parseNamedLines separator errors rawLines (setHeader name value named) (lowerText name :: seen)
        end
      else parseNamedLines separator errors rawLines named seen
  end.
Definition parseNamed (separator : ascii) (errors : DraftErrors) (draft : string) : list (string * string) + string :=
  parseNamedLines separator errors (splitLines draft) [] [].

(** * Lemmas *)

Lemma cut_first c name value : no_unit c name = true -> cutAtSeparator c (name +:+ String c value) = Some (name, value).
Proof.
  intros Hn. induction name as [|a name IH]; cbn [String.append cutAtSeparator]; [by rewrite decide_True|].
  unfold no_unit in Hn. cbn [str_all] in Hn. apply andb_true_iff in Hn as [Ha Hn].
  apply negb_true_iff, bool_decide_eq_false in Ha. rewrite decide_False by done. by rewrite IH.
Qed.

Lemma cr_is_space : String cr "" ∈ spaces.
Proof. by apply (bool_decide_unpack _). Qed.

Lemma drop_cr_id s : endsWith (String cr "") s = false -> dropTrailingCr s = s.
Proof.
  induction s as [|a s IH]; [done|]. cbn [dropTrailingCr]. intros Hcr. destruct s as [|b s].
  - rewrite decide_False; [done|]. intros ->. by vm_compute in Hcr.
  - rewrite IH; [done|]. cbn [endsWith] in Hcr. by apply orb_false_iff in Hcr as [_ Hcr].
Qed.

(** ** Writing named values *)

Definition writeNamed (separator : ascii) (entry : string * string) : string := entry.1 +:+ String separator (" " +:+ entry.2).

(** A name and a value that a line can hold. *)
Definition plain_entry (separator : ascii) (entry : string * string) : Prop :=
  trimmedText entry.1 /\ entry.1 <> "" /\ no_unit separator entry.1 = true /\ no_unit lineFeed entry.1 = true /\
  trimmedText entry.2 /\ no_unit lineFeed entry.2 = true.

(** A separator is in no white space character. *)
Definition plain_separator (separator : ascii) : Prop :=
  Forall (fun w => no_unit separator w = true) spaces /\ separator <> lineFeed.

Lemma space_alone w t v : w ∈ spaces -> w = t +:+ String " " v -> w = " ".
Proof.
  assert (Forall (fun w => strIncludes " " w = true -> w = " ") spaces) as H.
  { apply (bool_decide_unpack _). by vm_compute. }
  intros Hw E. apply (proj1 (Forall_forall _ _) H w Hw). apply strIncludes_spec. by exists t, v.
Qed.

Lemma leading_separated name separator rest :
  plain_separator separator -> leadingSpace name = None -> leadingSpace (name +:+ String separator rest) = None.
Proof.
  intros [Hs _] Hn. unfold leadingSpace in *. apply find_None. intros w Hw.
  rewrite startsWith_sep by by apply (proj1 (Forall_forall _ _) Hs). by apply (proj1 (find_None _ _) Hn).
Qed.

(** Where the end [u] of a text with a space begins. *)
Lemma split_at_space x y : forall z u : string,
  x +:+ String " " y = z +:+ u -> (exists p, y = p +:+ u) \/ (exists p, u = p +:+ String " " y).
Proof.
  induction x as [|a x IH]; intros z u Hx.
  - destruct z as [|b z]; cbn in Hx; [right; by exists ""|]. left. injection Hx as _ ->. by exists z.
  - destruct z as [|b z]; cbn in Hx; [right; by exists (String a x)|]. injection Hx as _ Hx. by eapply IH.
Qed.

(** A text that ends with a trimmed value behind a space is trimmed there. *)
Lemma trailing_value s v :
  v <> "" -> trailingSpace v = None -> trailingSpace (s +:+ String " " v) = None.
Proof.
  intros Hne Hv. apply trailing_space_none. intros w Hw. destruct (endsWith w _) eqn:E; [|done]. exfalso.
  apply endsWith_spec in E as [t E].
  assert (endsWith w v = false) as Hend by by apply (proj1 (trailing_space_none v) Hv).
  destruct (split_at_space _ _ _ _ E) as [[p Hp]|[p Hp]].
  - assert (endsWith w v = true) as Ht by (apply endsWith_spec; by exists p). congruence.
  - pose proof (space_alone w p v Hw Hp) as ->. apply (f_equal String.length) in Hp. rewrite length_append in Hp. cbn in Hp.
    destruct v; [done|]. cbn in Hp. lia.
Qed.

Lemma trim_end_space s : trimmedText s -> trimText (s +:+ " ") = s.
Proof.
  intros [H1 H2]. assert (trailingSpace (s +:+ " ") = Some " ") as Ht.
  { destruct (trailingSpace (s +:+ " ")) as [w|] eqn:E.
    - apply trailing_space_spec in E as [Hw [t Ht]%endsWith_spec]. f_equal.
      destruct (split_at_space s "" t w Ht) as [[p Hp]|[p Hp]]; [|by eapply space_alone].
      apply spaces_nonempty in Hw. apply (f_equal String.length) in Hp. rewrite length_append in Hp. cbn in Hp. lia.
    - exfalso. pose proof (proj1 (trailing_space_none _) E " " ltac:(by apply (bool_decide_unpack _))) as Hn.
      assert (endsWith " " (s +:+ " ") = true) by (apply endsWith_spec; by exists s). congruence. }
  unfold trimText, trimEndText. rewrite length_append. replace (String.length s + String.length " ") with (S (String.length s)) by (cbn; lia).
  cbn [trimEndFuel]. rewrite Ht, length_append. replace (String.length s + String.length " " - String.length " ") with (String.length s) by lia.
  rewrite strTake_append.
  assert (trimEndFuel (String.length s) s = s) as -> by (destruct (String.length s); cbn [trimEndFuel]; by rewrite ?H2).
  unfold trimStartText. destruct (String.length s); cbn [trimStartFuel]; by rewrite ?H1.
Qed.

(** ** Reading what was written *)

Lemma separator_trailing separator name : plain_separator separator -> trailingSpace (name +:+ String separator "") = None.
Proof.
  intros [Hs _]. apply trailing_space_none. intros w Hw. destruct (endsWith w _) eqn:E; [|done]. exfalso.
  apply endsWith_spec in E as [t E]. pose proof (proj1 (Forall_forall _ _) Hs w Hw) as Hn. cbn beta in Hn.
  apply spaces_nonempty in Hw.
  assert (exists u, w = u +:+ String separator "") as [u ->].
  { clear - E Hw. revert t E. induction name as [|a name IH]; intros t E.
    - destruct t as [|b t]; cbn in E; [by exists ""|]. injection E as _ E. destruct t, w; cbn in *; (done || lia).
    - destruct t as [|b t]; cbn in E; [by exists (String a name)|]. injection E as _ E. by eapply IH. }
  rewrite no_unit_append in Hn. apply andb_true_iff in Hn as [_ Hn]. unfold no_unit in Hn. cbn [str_all] in Hn.
  by rewrite bool_decide_eq_true_2 in Hn.
Qed.

(** A written line is read back. *)
Lemma line_read separator errors entry rawLines named seen :
  plain_separator separator -> plain_entry separator entry -> lowerText entry.1 ∉ seen ->
  parseNamedLines separator errors (writeNamed separator entry :: rawLines) named seen =
  parseNamedLines separator errors rawLines (setHeader entry.1 entry.2 named) (lowerText entry.1 :: seen).
Proof.
  destruct entry as [name value]. intros Hsep (H1 & H2 & H3 & H4 & H5 & H6) Hseen. cbn [fst snd] in *.
  cbn [parseNamedLines]. unfold writeNamed. cbn [fst snd].
  assert (exists after, trimText (name +:+ String separator (" " +:+ value)) = name +:+ String separator after /\
    trimText after = value) as (after & Hline & Hvalue).
  { destruct (decide (value = "")) as [->|Hne].
    - exists "". split; [|done]. change (" " +:+ "") with " ".
      change (String separator " ") with (String separator "" +:+ " "). rewrite <- append_assoc. apply trim_end_space.
      split; [by apply leading_separated; [|apply H1]|by apply separator_trailing].
    - exists (" " +:+ value). split; [|by apply trim_space]. apply trimText_id.
      split; [by apply leading_separated; [|apply H1]|].
      change (String separator (" " +:+ value)) with (String separator "" +:+ String " " value). rewrite <- append_assoc.
      by apply trailing_value; [|apply H5]. }
  rewrite Hline. assert (truthy (name +:+ String separator after) = true) as ->.
  { unfold truthy. rewrite bool_decide_eq_false_2; [done|]. by destruct name. }
  rewrite cut_first by done. destruct name as [|a name]; [done|]. rewrite Hvalue, trimText_id by done.
  assert (truthy (String a name) = true) as -> by done. cbn [negb].
  unfold includes. by rewrite bool_decide_eq_false_2.
Qed.

Lemma set_header_new name value named : name ∉ named.*1 -> setHeader name value named = named ++ [(name, value)].
Proof.
  induction named as [|[n v] named IH]; [done|]. cbn [fmap list_fmap fst setHeader]. intros [Hn Hin]%not_elem_of_cons.
  rewrite bool_decide_eq_false_2 by done. by rewrite IH.
Qed.

Lemma lines_read separator errors entries : forall named seen,
  plain_separator separator -> Forall (plain_entry separator) entries ->
  NoDup (lowerText <$> entries.*1) -> (forall e, e ∈ entries -> lowerText e.1 ∉ seen) ->
  (forall n, n ∈ named.*1 -> lowerText n ∈ seen) ->
  parseNamedLines separator errors (writeNamed separator <$> entries) named seen = inl (named ++ entries).
Proof.
  induction entries as [|entry entries IH]; intros named seen Hsep Hentries Hnd Hseen Hnamed; [by rewrite app_nil_r|].
  apply Forall_cons in Hentries as [He Hes]. cbn [fmap list_fmap] in *. apply NoDup_cons in Hnd as [Hn Hnd].
  rewrite line_read by (try done; apply Hseen; by left).
  rewrite set_header_new by (intros Hin; apply (Hseen entry ltac:(by left)); by apply Hnamed).
  rewrite IH; [by rewrite <- app_assoc; destruct entry|done|done|done| |].
  - intros e Hin [E|Hin']%elem_of_cons; [|by apply (Hseen e ltac:(by right))]. apply Hn. rewrite <- E.
    by apply list_elem_of_fmap_2, list_elem_of_fmap_2.
  - intros n. rewrite fmap_app. intros [Hin|Hin]%elem_of_app; [right; by apply Hnamed|].
    apply list_elem_of_singleton in Hin as ->. by left.
Qed.

Lemma written_no_cr separator entry :
  plain_separator separator -> plain_entry separator entry -> endsWith (String cr "") (writeNamed separator entry) = false.
Proof.
  destruct entry as [name value]. intros Hsep (H1 & H2 & H3 & H4 & H5 & H6). unfold writeNamed. cbn [fst snd] in *.
  destruct (endsWith _ _) eqn:E; [|done]. exfalso. apply endsWith_spec in E as [t E].
  change (String separator (" " +:+ value)) with (String separator "" +:+ String " " value) in E. rewrite <- append_assoc in E.
  destruct (split_at_space _ _ _ _ E) as [[p Hp]|[p Hp]].
  - destruct H5 as [_ H5]. pose proof (proj1 (trailing_space_none value) H5 _ cr_is_space) as Hn.
    assert (endsWith (String cr "") value = true) by (apply endsWith_spec; by exists p). congruence.
  - pose proof (space_alone _ _ _ cr_is_space Hp). done.
Qed.

Lemma lines_split lines :
  lines <> [] -> Forall (fun s => no_unit lineFeed s = true /\ endsWith (String cr "") s = false) lines ->
  splitLines (join (String lineFeed "") lines) = lines.
Proof.
  intros Hne Hlines. unfold splitLines. rewrite splitOn_join; [|eapply Forall_impl; [exact Hlines|by intros s []]|done].
  destruct lines as [|line lines _] using rev_ind; [done|]. unfold dropLast, lastOf.
  rewrite last_snoc, length_app, Nat.add_sub, take_app_length. cbn [option_list]. f_equal.
  apply Forall_app in Hlines as [Hlines _]. rewrite <- (list_fmap_id lines) at 2. apply list_fmap_ext.
  intros i s Hs. apply drop_cr_id. by apply (proj1 (Forall_lookup _ _) Hlines i s Hs).
Qed.

Lemma named_read separator errors entries :
  plain_separator separator -> Forall (plain_entry separator) entries -> NoDup (lowerText <$> entries.*1) ->
  parseNamed separator errors (join (String lineFeed "") (writeNamed separator <$> entries)) = inl entries.
Proof.
  intros Hsep Hentries Hnd. unfold parseNamed. destruct (decide (entries = [])) as [->|Hne]; [reflexivity|].
  rewrite lines_split; [|by destruct entries|].
  - rewrite lines_read; [done|done|done|done|intros e _ H; by apply not_elem_of_nil in H|intros n H; by apply not_elem_of_nil in H].
  - apply Forall_fmap. eapply Forall_impl; [exact Hentries|]. intros entry He. split; [|by apply written_no_cr].
    destruct entry as [name value]. destruct He as (H1 & H2 & H3 & H4 & H5 & H6). unfold writeNamed. cbn [fst snd] in *.
    rewrite no_unit_append, H4. unfold no_unit in *. cbn [str_all String.append]. rewrite H6.
    destruct Hsep as [_ Hsep]. by rewrite bool_decide_eq_false_2.
Qed.

(** ** What is read *)

(** Names are trimmed, not blank, and distinct whatever their case. *)
Definition good_names (named : list (string * string)) : Prop :=
  Forall (fun name => trimmedText name /\ name <> "") named.*1 /\ NoDup (lowerText <$> named.*1).

Lemma good_names_add name value named :
  good_names named -> trimmedText name -> name <> "" -> lowerText name ∉ lowerText <$> named.*1 ->
  good_names (setHeader name value named) /\ (setHeader name value named).*1 = named.*1 ++ [name].
Proof.
  intros [H1 H2] Ht Hne Hn. rewrite set_header_new by (intros Hin; by apply Hn, list_elem_of_fmap_2).
  unfold good_names. rewrite fmap_app. split; [split|done].
  - apply Forall_app. split; [done|]. by constructor.
  - rewrite fmap_app. apply NoDup_app. repeat split; [done| |by apply NoDup_singleton].
    by intros n Hin ->%list_elem_of_singleton.
Qed.

Lemma lines_good separator errors rawLines : forall named seen result,
  good_names named -> (forall n, n ∈ named.*1 -> lowerText n ∈ seen) ->
  parseNamedLines separator errors rawLines named seen = inl result -> good_names result.
Proof.
  induction rawLines as [|rawLine rawLines IH]; intros named seen result Hg Hseen; cbn [parseNamedLines]; [by intros [= <-]|].
  destruct (truthy (trimText rawLine)); [|by apply IH].
  destruct (cutAtSeparator separator _) as [[[|a before] after]|]; [done| |done]. set (name := trimText (String a before)).
  destruct (truthy name) eqn:Ename; cbn [negb]; [|done]. unfold includes. case_bool_decide as Hin; [done|].
  assert (name <> "") as Hne by (intros E; by rewrite E in Ename).
  destruct (good_names_add name (trimText after) named Hg (trim_trimmed _) Hne) as [Hg' Hnames].
  { intros (n & E & Hn)%list_elem_of_fmap. apply Hin. rewrite E. by apply Hseen. }
  apply IH; [done|]. intros n. rewrite Hnames. intros [Hn|Hn%list_elem_of_singleton]%elem_of_app; [right; by apply Hseen|rewrite Hn; by left].
Qed.

Lemma parsed_good separator errors draft named : parseNamed separator errors draft = inl named -> good_names named.
Proof.
  apply lines_good; [split; constructor|]. intros n Hn. by apply not_elem_of_nil in Hn.
Qed.
