(* ===== verification/McpSettings.v ===== *)
(** * The settings of MCP servers

    [frontend/src/widgets/settings/mcp-settings-section.tsx]: the servers, the
    form that registers or edits a remote one, the templates that fill the form
    in, and the actions on a server.  A handler reads the form of the rendering
    it was made in, which is the state when it is called. *)
From Stdlib Require Import Ascii String.
From stdpp Require Import strings.
From S2P Require Import Prelude JsString Text Effects Http ServicesApi SettingsTexts SettingsForms.
Local Open Scope string_scope.
Local Open Scope list_scope.
Local Open Scope nat_scope.
Local Open Scope js_scope.
Local Open Scope prog_scope.

(** ** State *)

Definition defaultServerID : string := "mcp.context7".
Definition defaultEndpoint : string := "https://mcp.context7.com/mcp".
Definition defaultTemplateID : string := "context7".

Record McpForm := mkMcpForm {
  mf_idDraft : string;
  mf_endpointDraft : string;
  mf_headersDraft : string;
  mf_selectedTemplateID : option string;
  mf_authSecretDraft : string;
  mf_editingServerID : option string;
  mf_probeResult : option MCPProbeResult
}.
Record McpBusy := mkMcpBusy {
  mb_isLoading : bool;
  mb_isLoadingTemplates : bool;
  mb_isSubmittingForm : bool;
  mb_isProbing : bool;
  mb_busyServerID : option string;
  mb_statusMessage : option string;
  mb_errorMessage : option string
}.

(** [mc_cancelled] is the flag of the effect that made the first loads. *)
Record McpState := mkMcpState {
  mc_servers : list MCPServerView;
  mc_templates : list MCPServerTemplate;
  mc_form : McpForm;
  mc_filterDraft : string;
  mc_busy : McpBusy;
  mc_cancelled : bool
}.

Definition emptyMcpForm : McpForm := mkMcpForm defaultServerID defaultEndpoint "" (Some defaultTemplateID) "" None None.
Definition initialMcp : McpState :=
  mkMcpState [] [] emptyMcpForm "" (mkMcpBusy true true false false None None None) false.

Inductive McpRequest : Set -> Type :=
  | FetchServers : McpRequest (list MCPServerView)
  | FetchTemplates : McpRequest (list MCPServerTemplate)
  | FetchServerDetails (serverID : string) : McpRequest MCPServerDetails
  | RegisterServer (payload : RegisterRemoteMCPServerPayload) : McpRequest MCPServerView
  | UpdateServer (serverID : string) (payload : RegisterRemoteMCPServerPayload) : McpRequest MCPServerView
  | ProbeServer (payload : RegisterRemoteMCPServerPayload) : McpRequest MCPProbeResult
  | ControlServer (serverID : string) (action : MCPServerControlAction) : McpRequest MCPServerView
  | DeleteServer (serverID : string) : McpRequest string.

Notation Mcp := (ProgX ApiError McpState McpRequest).

(** ** Setters *)

Definition setServers (f : list MCPServerView -> list MCPServerView) (s : McpState) : McpState :=
  mkMcpState (f (mc_servers s)) (mc_templates s) (mc_form s) (mc_filterDraft s) (mc_busy s) (mc_cancelled s).
Definition setTemplates (l : list MCPServerTemplate) (s : McpState) : McpState :=
  mkMcpState (mc_servers s) l (mc_form s) (mc_filterDraft s) (mc_busy s) (mc_cancelled s).
Definition on_form (f : McpForm -> McpForm) (s : McpState) : McpState :=
  mkMcpState (mc_servers s) (mc_templates s) (f (mc_form s)) (mc_filterDraft s) (mc_busy s) (mc_cancelled s).
Definition on_mcpBusy (f : McpBusy -> McpBusy) (s : McpState) : McpState :=
  mkMcpState (mc_servers s) (mc_templates s) (mc_form s) (mc_filterDraft s) (f (mc_busy s)) (mc_cancelled s).
Definition setMcpFilter (draft : string) (s : McpState) : McpState :=
  mkMcpState (mc_servers s) (mc_templates s) (mc_form s) draft (mc_busy s) (mc_cancelled s).

Definition setMcpLoading (b : bool) : McpState -> McpState :=
  on_mcpBusy (fun z => mkMcpBusy b (mb_isLoadingTemplates z) (mb_isSubmittingForm z) (mb_isProbing z) (mb_busyServerID z)
    (mb_statusMessage z) (mb_errorMessage z)).
Definition setLoadingTemplates (b : bool) : McpState -> McpState :=
  on_mcpBusy (fun z => mkMcpBusy (mb_isLoading z) b (mb_isSubmittingForm z) (mb_isProbing z) (mb_busyServerID z)
    (mb_statusMessage z) (mb_errorMessage z)).
Definition setSubmittingForm (b : bool) : McpState -> McpState :=
  on_mcpBusy (fun z => mkMcpBusy (mb_isLoading z) (mb_isLoadingTemplates z) b (mb_isProbing z) (mb_busyServerID z)
    (mb_statusMessage z) (mb_errorMessage z)).
Definition setMcpProbing (b : bool) : McpState -> McpState :=
  on_mcpBusy (fun z => mkMcpBusy (mb_isLoading z) (mb_isLoadingTemplates z) (mb_isSubmittingForm z) b (mb_busyServerID z)
    (mb_statusMessage z) (mb_errorMessage z)).
Definition setBusyServerID (id : option string) : McpState -> McpState :=
  on_mcpBusy (fun z => mkMcpBusy (mb_isLoading z) (mb_isLoadingTemplates z) (mb_isSubmittingForm z) (mb_isProbing z) id
    (mb_statusMessage z) (mb_errorMessage z)).
Definition setMcpStatus (m : option string) : McpState -> McpState :=
  on_mcpBusy (fun z => mkMcpBusy (mb_isLoading z) (mb_isLoadingTemplates z) (mb_isSubmittingForm z) (mb_isProbing z)
    (mb_busyServerID z) m (mb_errorMessage z)).
Definition setMcpError (m : option string) : McpState -> McpState :=
  on_mcpBusy (fun z => mkMcpBusy (mb_isLoading z) (mb_isLoadingTemplates z) (mb_isSubmittingForm z) (mb_isProbing z)
    (mb_busyServerID z) (mb_statusMessage z) m).

Definition setSelectedTemplateID (id : option string) : McpState -> McpState :=
  on_form (fun f => mkMcpForm (mf_idDraft f) (mf_endpointDraft f) (mf_headersDraft f) id (mf_authSecretDraft f)
    (mf_editingServerID f) (mf_probeResult f)).
Definition setProbeResult (result : option MCPProbeResult) : McpState -> McpState :=
  on_form (fun f => mkMcpForm (mf_idDraft f) (mf_endpointDraft f) (mf_headersDraft f) (mf_selectedTemplateID f)
    (mf_authSecretDraft f) (mf_editingServerID f) result).
(** The fields of the form. *)
Definition setFormDrafts (idDraft endpointDraft headersDraft authSecretDraft : string) : McpState -> McpState :=
  on_form (fun f => mkMcpForm idDraft endpointDraft headersDraft (mf_selectedTemplateID f) authSecretDraft
    (mf_editingServerID f) (mf_probeResult f)).

Section Mcp.
Context `{Locale}.
Variable copy : MCPSettingsCopy.

(** ** Helpers *)

Definition describeServer (server : MCPServerView) : string :=
  match ms_type server with
  | ServerRemote => ms_endpoint server ?? mcy_remoteDescriptionFallback copy
  | ServerProcess => mcy_localDescription copy
  end.

(** A view has both flags. *)
Definition serverEnabled (server : MCPServerView) : bool := ms_enabled server ?? false.
Definition serverActive (server : MCPServerView) : bool := ms_active server ?? false.

Definition formatServerState (server : MCPServerView) : string :=
  if negb (serverEnabled server) then mcy_disabledState copy
  else if serverActive server then ms_state server
  else ms_state server.

Definition showServerType (t : MCPServerType) : string :=
  match t with ServerProcess => "process" | ServerRemote => "remote" end.

Definition serverMatchesFilter (server : MCPServerView) (rawFilter : string) : bool :=
  let filter := lowerText (trimText rawFilter) in
  if negb (truthy filter) then true
  else
    some (fun field => strIncludes filter (lowerText field))
      [ms_id server; showServerType (ms_type server); ms_state server; ms_endpoint server ?? "";
       (if serverEnabled server then "enabled" else "disabled"); (if serverActive server then "active" else "inactive")].

Definition upsertServer (servers : list MCPServerView) (nextServer : MCPServerView) : list MCPServerView :=
  let hasServer := some (fun server => bool_decide (ms_id server = ms_id nextServer)) servers in
  if negb hasServer then sort (fun left right => localeCompare (ms_id left) (ms_id right)) (servers ++ [nextServer])
  else (fun server => if bool_decide (ms_id server = ms_id nextServer) then nextServer else server) <$> servers.

Definition colon : ascii := ":".
Definition headerErrors : DraftErrors :=
  mkDraftErrors (mcy_errorHeaderFormat copy) (mcy_errorHeaderName copy) (mcy_errorDuplicateHeader copy).
Definition parseHeadersDraft (draft : string) : list (string * string) + string := parseNamed colon headerErrors draft.

Definition formatHeadersDraft (headers : list (string * string)) : string :=
  join (String lineFeed "") (writeNamed colon <$> sort (fun left right => localeCompare left.1 right.1) headers).

Definition findSelectedTemplate (templates : list MCPServerTemplate) (templateID : option string) : option MCPServerTemplate :=
  match truthyOpt templateID with
  | None => None
  | Some templateID => find (fun template => bool_decide (mt_id template = templateID)) templates
  end.

Definition matchTemplateForServer (templates : list MCPServerTemplate) (id : string) (endpoint : option string)
    : option MCPServerTemplate :=
  let normalizedEndpoint := trimText <$> endpoint in
  let normalizedID := trimText id in
  find (fun template =>
    match truthyOpt (mt_suggested_server_id template) with
    | Some suggested => if bool_decide (suggested = normalizedID) then true else
        match truthyOpt (mt_endpoint template), truthyOpt normalizedEndpoint with
        | Some a, Some b => bool_decide (a = b)
        | _, _ => false
        end
    | None =>
        match truthyOpt (mt_endpoint template), truthyOpt normalizedEndpoint with
        | Some a, Some b => bool_decide (a = b)
        | _, _ => false
        end
    end) templates.

Definition buildDraftHeaders (headersDraft : string) (selectedTemplate : option MCPServerTemplate) (authSecretDraft : string)
    : list (string * string) + string :=
  match parseHeadersDraft headersDraft with
  | inr message => inr message
  | inl headers =>
      let authKind := (mt_auth_kind <$> selectedTemplate) ?? AuthNone in
      let authSecret := trimText authSecretDraft in
      match authKind with
      | AuthNone => inl headers
      | _ =>
          if bool_decide (authSecret = "") then inl headers
          else
            match truthyOpt (trimText <$> (selectedTemplate ≫= mt_auth_header_name)) with
            | None => inl headers
            | Some headerName =>
                match truthyOpt (find (fun name => bool_decide (lowerText (trimText name) = lowerText headerName)) headers.*1) with
                | Some _ => inr (mcy_errorHeaderDuplicateAuth copy headerName)
                | None =>
                    inl (setHeader headerName (((selectedTemplate ≫= mt_auth_value_prefix) ?? "") +:+ authSecret) headers)
                end
            end
      end
  end.

Definition describeProbeResult (result : MCPProbeResult) : string :=
  let detail := join " · " (filterb truthy (option_list (pr_server_name result) ++
    option_list ((fun v => "v" +:+ v) <$> truthyOpt (pr_server_version result)) ++
    option_list ((fun v => "protocol " +:+ v) <$> truthyOpt (pr_protocol_version result)))) in
  if negb (truthy detail) then pr_message result else pr_message result +:+ " " +:+ detail.

(** What the section shows of the state. *)
Definition mcpVisibleServers (s : McpState) : list MCPServerView :=
  filterb (fun server => serverMatchesFilter server (mc_filterDraft s)) (mc_servers s).
Definition mcpSelectedTemplate (s : McpState) : option MCPServerTemplate :=
  findSelectedTemplate (mc_templates s) (mf_selectedTemplateID (mc_form s)).
Definition mcpCanSubmit (s : McpState) : bool :=
  truthy (trimText (mf_idDraft (mc_form s))) && truthy (trimText (mf_endpointDraft (mc_form s))).

(** ** Handlers *)

Definition resetForm : McpState -> McpState := on_form (fun _ => emptyMcpForm).

(** The first loads do nothing once the section is gone. *)
Definition unlessCancelled (cancellable : bool) (f : McpState -> McpState) (s : McpState) : McpState :=
  if cancellable && mc_cancelled s then s else f s.

Definition loadServers (cancellable : bool) : Mcp unit :=
  let set f := update (unlessCancelled cancellable f) in
  update (fun s => setMcpError None (setMcpLoading true s)) ;;;
  finally
    (tryCatch
       (nextServers <- await FetchServers ;; set (setServers (fun _ => nextServers)))
       (fun error => set (setMcpError (Some (messageOr (mcy_errorLoadServers copy) error)))))
    (set (setMcpLoading false)).

(** [selectedTemplateID] is the one of the rendering that the load is made in. *)
Definition showTemplates (selectedTemplateID : option string) (nextTemplates : list MCPServerTemplate) (s : McpState) : McpState :=
  let s := setTemplates nextTemplates s in
  if bool_decide (0 < length nextTemplates) && negb (bool_decide (is_Some (findSelectedTemplate nextTemplates selectedTemplateID)))
  then setSelectedTemplateID (mt_id <$> head nextTemplates) s
  else s.
Definition loadTemplates (cancellable : bool) : Mcp unit :=
  let set f := update (unlessCancelled cancellable f) in
  shown <- get ;;
  update (setLoadingTemplates true) ;;;
  finally
    (tryCatch
       (nextTemplates <- await FetchTemplates ;;
        set (showTemplates (mf_selectedTemplateID (mc_form shown)) nextTemplates))
       (fun error => set (setMcpError (Some (messageOr (mcy_errorLoadTemplates copy) error)))))
    (set (setLoadingTemplates false)).

Definition clearMcpMessages (s : McpState) : McpState := setMcpStatus None (setMcpError None s).
Definition mcpFailed (text : string) (error : ApiError) : McpState -> McpState := setMcpError (Some (messageOr text error)).

(** The payload of the form, or what is wrong with its headers. *)
Definition formPayload (shown : McpState) : RegisterRemoteMCPServerPayload + string :=
  let f := mc_form shown in
  match buildDraftHeaders (mf_headersDraft f) (mcpSelectedTemplate shown) (mf_authSecretDraft f) with
  | inl headers => inl (mkRegister (mf_idDraft f) (mf_endpointDraft f) (Some headers))
  | inr message => inr message
  end.

Definition handleSubmit : Mcp unit :=
  shown <- get ;;
  busyWith (fun s => setProbeResult None (clearMcpMessages (setSubmittingForm true s)))
    (payload <- orFail (formPayload shown) ;;
     server <- match mf_editingServerID (mc_form shown) with
               | Some editingServerID => await (UpdateServer editingServerID payload)
               | None => await (RegisterServer payload)
               end ;;
     update (setServers (fun currentServers => upsertServer currentServers server)) ;;;
     update (setMcpStatus (Some
       (if bool_decide (is_Some (mf_editingServerID (mc_form shown))) then mcy_savedServer copy (ms_id server)
        else mcy_registeredServer copy (ms_id server)))) ;;;
     update resetForm)
    (mcpFailed (mcy_errorSave copy)) (setSubmittingForm false).

Definition handleProbe : Mcp unit :=
  shown <- get ;;
  busyWith (fun s => setProbeResult None (clearMcpMessages (setMcpProbing true s)))
    (payload <- orFail (formPayload shown) ;;
     result <- await (ProbeServer payload) ;;
     update (setProbeResult (Some result)))
    (mcpFailed (mcy_errorProbe copy)) (setMcpProbing false).

(** The handlers of one server hold the section's one busy id. *)
Definition withServer (serverID : string) (body : Mcp unit) (text : string) : Mcp unit :=
  busyWith (fun s => clearMcpMessages (setBusyServerID (Some serverID) s)) body (mcpFailed text) (setBusyServerID None).

Definition handleControl (serverID : string) (action : MCPServerControlAction) : Mcp unit :=
  withServer serverID
    (server <- await (ControlServer serverID action) ;;
     update (setServers (fun currentServers => upsertServer currentServers server)) ;;;
     update (setMcpStatus (Some (ms_id server +:+ ": " +:+ showControl action +:+ " complete."))))
    (mcy_errorControl copy action).

(** [templates] are those of the rendering. *)
Definition startEdit (templates : list MCPServerTemplate) (server : MCPServerDetails) : McpState -> McpState :=
  let view := md_server server in
  on_form (fun _ => mkMcpForm (ms_id view) (ms_endpoint view ?? "") (formatHeadersDraft (md_headers server ?? []))
    (mt_id <$> matchTemplateForServer templates (ms_id view) (ms_endpoint view)) "" (Some (ms_id view)) None).
Definition handleStartEdit (serverID : string) : Mcp unit :=
  shown <- get ;;
  withServer serverID
    (server <- await (FetchServerDetails serverID) ;; update (startEdit (mc_templates shown) server))
    (mcy_errorLoadDetails copy).

Definition handleDelete (serverID : string) : Mcp unit :=
  shown <- get ;;
  withServer serverID
    (deletedServerID <- await (DeleteServer serverID) ;;
     update (setServers (filterb (fun server => negb (bool_decide (ms_id server = deletedServerID))))) ;;;
     (if bool_decide (mf_editingServerID (mc_form shown) = Some deletedServerID) then update resetForm else Ret tt) ;;;
     update (setMcpStatus (Some (mcy_deletedServer copy deletedServerID))))
    (mcy_errorDelete copy).

Definition handleApplyTemplate (template : MCPServerTemplate) (s : McpState) : McpState :=
  setMcpError None (setMcpStatus (Some (mcy_templateLoaded copy (mt_display_name template)))
    (on_form (fun _ => mkMcpForm (mt_suggested_server_id template ?? defaultServerID) (mt_endpoint template ?? "") ""
      (Some (mt_id template)) "" None None) s)).

(** ** Everything that happens *)

Inductive McpCall :=
  | LoadServers (cancellable : bool)
  | LoadTemplates
  | SubmitForm
  | ProbeForm
  | ControlOf (serverID : string) (action : MCPServerControlAction)
  | EditServer (serverID : string)
  | RemoveServer (serverID : string)
  | ApplyTemplate (template : MCPServerTemplate)
  | CancelEdit
  | EditFilter (draft : string).

Definition mcpProg (c : McpCall) : Mcp unit :=
  match c with
  | LoadServers cancellable => loadServers cancellable
  | LoadTemplates => loadTemplates true
  | SubmitForm => handleSubmit
  | ProbeForm => handleProbe
  | ControlOf serverID action => handleControl serverID action
  | EditServer serverID => handleStartEdit serverID
  | RemoveServer serverID => handleDelete serverID
  | ApplyTemplate template => update (handleApplyTemplate template)
  | CancelEdit => update resetForm
  | EditFilter draft => update (setMcpFilter draft)
  end.

(** The field of the id is disabled while a server is edited. *)
Definition form_input (s s' : McpState) : Prop :=
  exists idDraft endpointDraft headersDraft authSecretDraft,
    s' = setFormDrafts (if bool_decide (is_Some (mf_editingServerID (mc_form s))) then mf_idDraft (mc_form s) else idDraft)
      endpointDraft headersDraft authSecretDraft s.
Definition cancelMcp (s : McpState) : McpState :=
  mkMcpState (mc_servers s) (mc_templates s) (mc_form s) (mc_filterDraft s) (mc_busy s) true.
Definition mcp_step : SystemX ApiError McpState McpRequest -> _ -> Prop :=
  sys_step (fun p => exists c, p = mcpProg c) (fun _ _ _ _ => True) (fun s s' => s' = cancelMcp s \/ form_input s s').
End Mcp.

(** * Lemmas *)

Section McpLemmas.
Context `{LocaleLaws}.
Variable copy : MCPSettingsCopy.
Local Notation M := (ProgX ApiError McpState McpRequest).

(** ** Headers *)

Lemma colon_plain : plain_separator colon.
Proof. split; [|done]. apply (bool_decide_unpack _). by vm_compute. Qed.

Definition sortedHeaders (headers : list (string * string)) : list (string * string) :=
  sort (fun left right => localeCompare left.1 right.1) headers.

(** Headers that the lines of the form can hold. *)
Definition plain_headers (headers : list (string * string)) : Prop :=
  Forall (plain_entry colon) headers /\ NoDup (lowerText <$> headers.*1).

Lemma headers_read headers :
  plain_headers headers -> parseHeadersDraft copy (formatHeadersDraft headers) = inl (sortedHeaders headers).
Proof.
  intros [H1 H2]. apply named_read; [apply colon_plain| |].
  - by rewrite (sort_perm _ headers : sortedHeaders headers ≡ₚ headers).
  - by rewrite (sort_perm _ headers : sortedHeaders headers ≡ₚ headers).
Qed.

Lemma no_secret draft template headers :
  parseHeadersDraft copy draft = inl headers -> buildDraftHeaders copy draft template "" = inl headers.
Proof. unfold buildDraftHeaders. intros ->. by destruct (_ ?? AuthNone). Qed.

(** ** Handlers *)

Lemma calls_within c : within 1 (mcpProg copy c).
Proof.
  destruct c; cbn [mcpProg]; try exact I; unfold loadServers, loadTemplates, handleSubmit, handleProbe, handleControl,
    handleStartEdit, handleDelete, withServer.
  all: auto 20 with forms.
Qed.

Lemma secret_find headers headerName :
  good_names headers -> headerName <> "" ->
  truthyOpt (find (fun name => bool_decide (lowerText (trimText name) = lowerText headerName)) headers.*1) = None ->
  lowerText headerName ∉ lowerText <$> headers.*1.
Proof.
  intros [Hg _] Hne Hf (name & E & Hin)%list_elem_of_fmap.
  pose proof (proj1 (Forall_forall _ _) Hg) as Hnames.
  destruct (find _ _) as [other|] eqn:Efind.
  - apply find_Some in Efind as [Ho _]. destruct (Hnames other Ho) as [_ Ho']. cbn in Hf. unfold truthy in Hf.
    by rewrite bool_decide_eq_false_2 in Hf.
  - apply (proj1 (find_None _ _)) with (x := name) in Efind; [|done]. destruct (Hnames name Hin) as [Ht _].
    rewrite trimText_id in Efind by done. apply bool_decide_eq_false in Efind. congruence.
Qed.

(** ** The server that is edited *)

Definition edits_its_server (s : McpState) : Prop :=
  forall id, mf_editingServerID (mc_form s) = Some id -> mf_idDraft (mc_form s) = id.

Lemma same_form s s' :
  (mf_editingServerID (mc_form s'), mf_idDraft (mc_form s')) = (mf_editingServerID (mc_form s), mf_idDraft (mc_form s)) ->
  keeps edits_its_server s s'.
Proof. unfold keeps, edits_its_server. by intros [= -> ->]. Qed.
Lemma new_form s s' : mf_editingServerID (mc_form s') = None -> keeps edits_its_server s s'.
Proof. unfold keeps, edits_its_server. by intros ->. Qed.

Notation anything := (fun (A : Set) (r : McpRequest A) => True).
Notation editing := (stable (keeps edits_its_server) anything).

Create HintDb mcp.
#[local] Hint Resolve stable_ret stable_throw stable_get stable_bind stable_try stable_finally : mcp.
#[local] Hint Extern 1 (stable _ _ (update _)) => (apply stable_update; intros ?; apply same_form; reflexivity) : mcp.
#[local] Hint Extern 2 (stable _ _ (update _)) => (apply stable_update; intros ?; apply new_form; reflexivity) : mcp.
#[local] Hint Extern 1 (stable _ _ (await _)) => (apply stable_await; exact I) : mcp.

Lemma set_editing cancellable f :
  (forall s, keeps edits_its_server s (f s)) -> editing (update (unlessCancelled cancellable f) : M unit).
Proof. intros Hf. apply stable_update. intros s. unfold unlessCancelled. destruct (_ && _); [by intros ?|apply Hf]. Qed.

Lemma withServer_editing serverID body text : editing body -> editing (withServer serverID body text : M unit).
Proof. intros Hb. unfold withServer. apply stable_busy; [apply _|intros; by apply same_form..|done]. Qed.

Lemma prog_editing c : editing (mcpProg copy c).
Proof.
  destruct c; cbn [mcpProg]; [| | | | | | |auto with mcp..].
  - unfold loadServers. cbv zeta. apply stable_bind; [auto with mcp|intros _].
    apply stable_finally; [|by apply set_editing; intros; apply same_form].
    apply stable_try; [|by intros e; apply set_editing; intros; apply same_form].
    apply stable_bind; [auto with mcp|]. intros servers. by apply set_editing; intros; apply same_form.
  - unfold loadTemplates. cbv zeta. apply stable_bind; [auto with mcp|intros shown]. apply stable_bind; [auto with mcp|intros _].
    apply stable_finally; [|by apply set_editing; intros; apply same_form].
    apply stable_try; [|by intros e; apply set_editing; intros; apply same_form].
    apply stable_bind; [auto with mcp|]. intros templates. apply set_editing. intros s. unfold showTemplates.
    destruct (_ && _); [|by apply same_form]. intros Hs id. by apply Hs.
  - unfold handleSubmit. apply stable_bind; [auto with mcp|intros shown].
    apply stable_busy; [apply _|intros; apply same_form; reflexivity..|].
    apply stable_bind; [destruct (formPayload _ _); cbn [orFail]; auto with mcp|intros payload].
    apply stable_bind; [destruct (mf_editingServerID _); auto with mcp|intros server].
    repeat (apply stable_bind; [auto with mcp|intros _]). auto with mcp.
  - unfold handleProbe. apply stable_bind; [auto with mcp|intros shown].
    apply stable_busy; [apply _|intros; apply same_form; reflexivity..|].
    apply stable_bind; [destruct (formPayload _ _); cbn [orFail]; auto with mcp|intros payload].
    apply stable_bind; [auto with mcp|intros result]. apply stable_update. intros s Hs id. by apply Hs.
  - unfold handleControl. apply withServer_editing. apply stable_bind; [auto with mcp|intros server]. auto with mcp.
  - unfold handleStartEdit. apply stable_bind; [auto with mcp|intros shown]. apply withServer_editing.
    apply stable_bind; [auto with mcp|intros server]. apply stable_update. by intros s _ id [= <-].
  - unfold handleDelete. apply stable_bind; [auto with mcp|intros shown]. apply withServer_editing.
    apply stable_bind; [auto with mcp|intros deleted]. apply stable_bind; [auto with mcp|intros _].
    apply stable_bind; [destruct (bool_decide _); auto with mcp|auto with mcp].
Qed.

Lemma reachable_edits m : rtc (mcp_step copy) (mkSystem initialMcp []) m -> edits_its_server (sys_state m).
Proof.
  apply (system_invariant edits_its_server).
  - intros p [c ->]. apply prog_editing.
  - intros s s' [->|(idDraft & endpointDraft & headersDraft & authSecretDraft & ->)] Hs; [exact Hs|]. intros id Hid.
    cbn in *. rewrite Hid. by apply Hs.
  - done.
Qed.

End McpLemmas.

(** * Theorems *)

Section McpTheorems.
Context `{LocaleLaws}.
Variable copy : MCPSettingsCopy.

(** The headers that a form sends never name a header twice, whatever the
    case of the names, and a blank name is never sent: the secret of a template
    is added only when no line of the form names its header. *)
Theorem sent_headers_distinct draft template secret headers :
  buildDraftHeaders copy draft template secret = inl headers -> good_names headers.
Proof.
  unfold buildDraftHeaders, parseHeadersDraft. destruct (parseNamed _ _ _) as [parsed|] eqn:Ep; [|done].
  apply parsed_good in Ep. destruct (_ ?? AuthNone); [by intros [= <-]|..].
  all: case_bool_decide; [by intros [= <-]|].
  all: destruct (truthyOpt (trimText <$> _)) as [headerName|] eqn:Eh; [|by intros [= <-]].
  all: apply truthyOpt_Some in Eh as [Eh Hne]; apply fmap_Some in Eh as (name & _ & ->).
  all: destruct (truthyOpt (find _ _)) eqn:Ef; [done|]; intros [= <-].
  all: apply good_names_add; [done|apply trim_trimmed|done|by apply secret_find].
Qed.

(** Whatever calls are in flight and whatever was answered, the form that
    edits a server sends its update to that server and under its id. *)
Theorem update_names_its_server m :
  rtc (mcp_step copy) (mkSystem initialMcp []) m ->
  match snd (run (handleSubmit copy) (sys_state m)) with
  | Waiting r _ =>
      match r with
      | UpdateServer serverID payload => mf_editingServerID (mc_form (sys_state m)) = Some serverID /\ rr_id payload = serverID
      | RegisterServer _ => mf_editingServerID (mc_form (sys_state m)) = None
      | _ => False
      end
  | Ended _ => True
  end.
Proof.
  intros Hr. apply reachable_edits in Hr. generalize (sys_state m), Hr. clear m Hr. intros s Hs.
  unfold handleSubmit, busyWith, get, update. cbn [bind run finally tryCatch]. unfold formPayload.
  destruct (buildDraftHeaders _ _ _ _) as [headers|]; cbn [orFail bind run finally tryCatch]; [|done].
  destruct (mf_editingServerID (mc_form s)) as [id|] eqn:E; cbn; [|done]. split; [done|by apply Hs].
Qed.

(** C23: Editing a server and saving the form unchanged sends the server its own
    endpoint and headers under its own id, whatever template the form matched,
    if the lines of the form can hold its headers: names and values without
    space around them and without line ends, names that are not empty, have no
    colon and differ up to case.  A server without headers is sent none. *)
Theorem unchanged_server_saved (s : McpState) serverID (answers : forall A : Set, McpRequest A -> A + ApiError) details :
  let headers := md_headers details ?? [] in
  answers _ (FetchServerDetails serverID) = inl details -> plain_headers headers ->
  match snd (run (handleSubmit copy) (fst (serve answers (handleStartEdit copy serverID) s))) with
  | Waiting r _ =>
      match r with
      | UpdateServer id payload =>
          id = ms_id (md_server details) /\ rr_id payload = id /\ rr_endpoint payload = (ms_endpoint (md_server details) ?? "") /\
          exists sent, rr_headers payload = Some sent /\ sent ≡ₚ headers
      | _ => False
      end
  | Ended _ => False
  end.
Proof.
  intros headers Ha Hplain. unfold handleStartEdit, withServer, busyWith, get, update. cbn [bind serve run finally tryCatch await].
  rewrite Ha. cbn [bind serve run finally tryCatch fst].
  unfold handleSubmit, busyWith, get, update. cbn [bind run finally tryCatch]. unfold formPayload, startEdit. fold headers. cbn.
  fold headers. rewrite (no_secret _ _ _ (sortedHeaders headers)) by by apply headers_read. cbn. repeat split.
  exists (sortedHeaders headers). split; [done|apply sort_perm].
Qed.

(** Every call of the section ends after at most one answer, and one that sets
    a flag leaves it released. *)
Theorem mcp_calls_end c s :
  within 1 (mcpProg copy c) /\
  ends_with (mcpProg copy c) s (fun s' =>
    match c with
    | SubmitForm => mb_isSubmittingForm (mc_busy s') = false
    | ProbeForm => mb_isProbing (mc_busy s') = false
    | ControlOf _ _ | EditServer _ | RemoveServer _ => mb_busyServerID (mc_busy s') = None
    | LoadServers false => mb_isLoading (mc_busy s') = false
    | _ => True
    end).
Proof.
  split; [apply calls_within|]. destruct c as [[]| | | |serverID action|serverID|serverID|t| |draft]; cbn [mcpProg].
  all: try (eapply wp_weaken; [|apply wp_any]; done).
  - unfold ends_with, loadServers, update. cbn [bind wp]. apply wp_finally.
    eapply wp_weaken; [|apply wp_any]. intros r a b _. cbn. by destruct r.
  - unfold handleSubmit, ends_with, get. cbn [bind wp]. by apply busy_ends.
  - unfold handleProbe, ends_with, get. cbn [bind wp]. by apply busy_ends.
  - by apply busy_ends.
  - unfold handleStartEdit, ends_with, get. cbn [bind wp]. by apply busy_ends.
  - unfold handleDelete, ends_with, get. cbn [bind wp]. by apply busy_ends.
Qed.
End McpTheorems.

(** * Witnesses and examples *)

Definition sampleServer (id : string) : MCPServerView :=
  mkServer id ServerRemote (Some "https://mcp.example/mcp") "idle" None (Some false) (Some true).
Definition sampleDetails : MCPServerDetails :=
  mkServerDetails (sampleServer "mcp.example") (Some [("X-Trace", "on"); ("Authorization", "Bearer a: b")]).
Definition sampleAnswers (A : Set) (r : McpRequest A) : A + ApiError :=
  match r with FetchServerDetails _ => inl sampleDetails | _ => inr OtherThrow end.

Lemma unchanged_server_saved_witness :
  fst (serve sampleAnswers (handleStartEdit mcpSettingsCopy_en "mcp.example") initialMcp) <> initialMcp /\
  match snd (run (handleSubmit mcpSettingsCopy_en) (fst (serve sampleAnswers (handleStartEdit mcpSettingsCopy_en "mcp.example") initialMcp))) with
  | Waiting r _ =>
      match r with
      | UpdateServer id payload =>
          id = ms_id (md_server sampleDetails) /\ rr_id payload = id /\
          rr_endpoint payload = (ms_endpoint (md_server sampleDetails) ?? "") /\
          exists sent, rr_headers payload = Some sent /\ sent ≡ₚ [("X-Trace", "on"); ("Authorization", "Bearer a: b")]
      | _ => False
      end
  | Ended _ => False
  end.
Proof.
  split; [by intros [=]|]. apply (unchanged_server_saved mcpSettingsCopy_en initialMcp "mcp.example" sampleAnswers sampleDetails);
    [reflexivity|].
  split; [repeat constructor; try done; by vm_compute|by apply (bool_decide_unpack _); vm_compute].
Defined.

Lemma sent_headers_distinct_witness :
  let template := mkTemplate "context7" "Context7" "" None None AuthBearerToken (Some "Authorization") (Some "Bearer ") None None in
  buildDraftHeaders mcpSettingsCopy_en "X-Trace: on" (Some template) " key " = inl [("X-Trace", "on"); ("Authorization", "Bearer key")] /\
  good_names [("X-Trace", "on"); ("Authorization", "Bearer key")].
Proof.
  intros template.
  assert (buildDraftHeaders mcpSettingsCopy_en "X-Trace: on" (Some template) " key " =
    inl [("X-Trace", "on"); ("Authorization", "Bearer key")]) as E by by vm_compute.
  split; [exact E|]. exact (sent_headers_distinct mcpSettingsCopy_en "X-Trace: on" (Some template) " key " _ E).
Defined.

(** The form edits [mcp.example], and the user tried to type another id. *)
Definition editedSystem : SystemX ApiError McpState McpRequest :=
  mkSystem (fst (serve sampleAnswers (handleStartEdit mcpSettingsCopy_en "mcp.example") initialMcp)) [].

Lemma update_names_its_server_witness :
  mf_editingServerID (mc_form (sys_state editedSystem)) = Some "mcp.example" /\
  match snd (run (handleSubmit mcpSettingsCopy_en) (sys_state editedSystem)) with
  | Waiting r _ =>
      match r with
      | UpdateServer serverID payload =>
          mf_editingServerID (mc_form (sys_state editedSystem)) = Some serverID /\ rr_id payload = serverID
      | RegisterServer _ => mf_editingServerID (mc_form (sys_state editedSystem)) = None
      | _ => False
      end
  | Ended _ => True
  end.
Proof.
  split; [reflexivity|]. apply (update_names_its_server mcpSettingsCopy_en editedSystem).
  eapply rtc_l; [eapply (sys_start _ _ _ _ (handleStartEdit mcpSettingsCopy_en "mcp.example")); by exists (EditServer "mcp.example")|].
  eapply rtc_l; [|apply rtc_refl].
  exact (sys_answer _ _ _ (proceed (handleStartEdit mcpSettingsCopy_en "mcp.example") (mkSystem initialMcp [])) 0%nat
    MCPServerDetails (FetchServerDetails "mcp.example") _ (inl sampleDetails) eq_refl I).
Defined.

(** The busy id is one for all rows: the answer for one server enables the
    buttons of another one whose call is still running. *)
Example answer_frees_another_row :
  let m := proceed (handleControl mcpSettingsCopy_en "b" ControlStop)
    (proceed (handleControl mcpSettingsCopy_en "a" ControlStart) (mkSystem initialMcp [])) in
  mb_busyServerID (mc_busy (sys_state m)) = Some "b" /\
  exists k, sys_calls m !! 0%nat = Some (Waiting (ControlServer "a" ControlStart) k) /\
    let m' := proceed (k (inl (sampleServer "a"))) (mkSystem (sys_state m) (delete 0%nat (sys_calls m))) in
    mb_busyServerID (mc_busy (sys_state m')) = None /\ length (sys_calls m') = 1.
Proof. split; [reflexivity|]. eexists. split; [reflexivity|]. by split. Qed.

(** A value that ends in white space is not what comes back. *)
Example header_value_is_trimmed :
  parseHeadersDraft mcpSettingsCopy_en (formatHeadersDraft [("X-Pad", "a ")]) = inl [("X-Pad", "a")].
Proof. by vm_compute. Qed.
