(* ===== verification/PluginSettings.v ===== *)
(** * The settings of plugins

    [frontend/src/widgets/settings/plugins-settings-section.tsx]: the catalog
    of installed plugins, the form that installs one and the actions on one. *)
From Stdlib Require Import Ascii String.
From stdpp Require Import strings.
From S2P Require Import Prelude JsString Text Effects Http ServicesApi SettingsTexts SettingsForms.
Local Open Scope string_scope.
Local Open Scope list_scope.
Local Open Scope nat_scope.
Local Open Scope js_scope.
Local Open Scope prog_scope.

(** ** State *)

Record InstallForm := mkInstallForm {
  if_sourceKind : PluginInstallSourceKind;
  if_sourceURL : string;
  if_sourceRef : string;
  if_metadataDraft : string;
  if_visibilityDraft : string;
  if_allowedUsersDraft : string
}.
Record PluginBusy := mkPluginBusy {
  pb_isLoading : bool;
  pb_isSubmitting : bool;
  pb_busyPluginID : option string;
  pb_statusMessage : option string;
  pb_errorMessage : option string
}.
Record PluginState := mkPluginState {
  pl_catalog : option PluginCatalogView;
  pl_form : InstallForm;
  pl_filterDraft : string;
  pl_busy : PluginBusy;
  pl_cancelled : bool
}.
Definition initialPlugins : PluginState :=
  mkPluginState None (mkInstallForm SourceGit "" "" "" "private" "") "" (mkPluginBusy true false None None None) false.

Inductive PluginAction := ActionEnable | ActionDisable | ActionUpdate | ActionDelete.
Notation PluginMutation := (InstalledPluginView * PluginCatalogView)%type.
Inductive PluginRequest : Set -> Type :=
  | FetchPlugins : PluginRequest PluginCatalogView
  | InstallRequest (payload : InstallPluginPayload) : PluginRequest PluginMutation
  | LifecycleRequest (action : PluginAction) (pluginID : string) : PluginRequest PluginMutation.

Notation Plugins := (ProgX ApiError PluginState PluginRequest).

Definition setCatalog (catalog : PluginCatalogView) (s : PluginState) : PluginState :=
  mkPluginState (Some catalog) (pl_form s) (pl_filterDraft s) (pl_busy s) (pl_cancelled s).
Definition setInstallForm (form : InstallForm) (s : PluginState) : PluginState :=
  mkPluginState (pl_catalog s) form (pl_filterDraft s) (pl_busy s) (pl_cancelled s).
Definition setPluginFilter (draft : string) (s : PluginState) : PluginState :=
  mkPluginState (pl_catalog s) (pl_form s) draft (pl_busy s) (pl_cancelled s).
Definition on_pluginBusy (f : PluginBusy -> PluginBusy) (s : PluginState) : PluginState :=
  mkPluginState (pl_catalog s) (pl_form s) (pl_filterDraft s) (f (pl_busy s)) (pl_cancelled s).
Definition setPluginsLoading (b : bool) : PluginState -> PluginState :=
  on_pluginBusy (fun z => mkPluginBusy b (pb_isSubmitting z) (pb_busyPluginID z) (pb_statusMessage z) (pb_errorMessage z)).
Definition setSubmitting (b : bool) : PluginState -> PluginState :=
  on_pluginBusy (fun z => mkPluginBusy (pb_isLoading z) b (pb_busyPluginID z) (pb_statusMessage z) (pb_errorMessage z)).
Definition setBusyPluginID (id : option string) : PluginState -> PluginState :=
  on_pluginBusy (fun z => mkPluginBusy (pb_isLoading z) (pb_isSubmitting z) id (pb_statusMessage z) (pb_errorMessage z)).
Definition setPluginStatus (m : option string) : PluginState -> PluginState :=
  on_pluginBusy (fun z => mkPluginBusy (pb_isLoading z) (pb_isSubmitting z) (pb_busyPluginID z) m (pb_errorMessage z)).
Definition setPluginError (m : option string) : PluginState -> PluginState :=
  on_pluginBusy (fun z => mkPluginBusy (pb_isLoading z) (pb_isSubmitting z) (pb_busyPluginID z) (pb_statusMessage z) m).

Section Plugins.
Variable copy : PluginsSettingsCopy.

(** ** Helpers *)

Definition showRuntimeStatus (status : PluginRuntimeStatus) : string :=
  match status with
  | PluginDisabled => "disabled"
  | PluginReady => "ready"
  | PluginValidationError => "validation_error"
  end.

Definition pluginMatchesFilter (plugin : InstalledPluginView) (rawFilter : string) : bool :=
  let filter := lowerText (trimText rawFilter) in
  if negb (truthy filter) then true
  else
    some (fun field => strIncludes filter (lowerText field))
      ([pg_id plugin; pg_display_name plugin; pg_description plugin ?? ""; pg_plugin_version plugin;
        showSource (ps_kind (pg_source plugin)); ps_url (pg_source plugin); px_owner_username (pg_access plugin);
        px_visibility (pg_access plugin) ?? ""; (if pg_enabled plugin then "enabled" else "disabled");
        showRuntimeStatus (pg_runtime_status plugin)] ++
       mjoin ((fun entry => [entry.1; entry.2]) <$> pg_metadata plugin) ++
       (pt_name <$> pg_tools plugin)).

Definition equals : ascii := "=".
Definition comma : ascii := ",".
Definition metadataErrors : DraftErrors :=
  mkDraftErrors (pcy_errorMetadataFormat copy) (pcy_errorMetadataKey copy) (pcy_errorDuplicateMetadataKey copy).
Definition parseMetadataDraft (draft : string) : list (string * string) + string := parseNamed equals metadataErrors draft.

(** The loop of [parseAllowedUsersDraft]. *)
Fixpoint addUsers (entries seen users : list string) : list string :=
  match entries with
  | [] => users
  | entry :: entries =>
      let user := trimText entry in
      if negb (truthy user) || includes (lowerText user) seen then addUsers entries seen users
      else addUsers entries (lowerText user :: seen) (users ++ [user])
  end.
(** Splitting at either of two characters is splitting at one, then at the other. *)
Definition parseAllowedUsersDraft (draft : string) : list string :=
  addUsers (mjoin (splitOn comma <$> splitOn lineFeed draft)) [] [].

Definition formatPluginDescription (plugin : InstalledPluginView) : string :=
  let details := filterb truthy
    (option_list (pg_description plugin) ++ [pcy_sourceDescription copy (ps_kind (pg_source plugin))] ++
     option_list (pcy_sourceRefDescription copy <$> truthyOpt (ps_ref (pg_source plugin))) ++
     [pcy_toolCount copy (length (pg_tools plugin))]) in
  join " · " details.

Definition formatPluginStatus (plugin : InstalledPluginView) : string :=
  if negb (pg_enabled plugin) then pcy_disabledStatus copy
  else match pg_runtime_status plugin with
       | PluginValidationError => pcy_validationErrorStatus copy
       | _ => pcy_readyStatus copy
       end.

Definition catalogPlugins (s : PluginState) : list InstalledPluginView := (pv_plugins <$> pl_catalog s) ?? [].
Definition visiblePlugins (s : PluginState) : list InstalledPluginView :=
  filterb (fun plugin => pluginMatchesFilter plugin (pl_filterDraft s)) (catalogPlugins s).

(** ** Handlers *)

Definition unlessGone (cancellable : bool) (f : PluginState -> PluginState) (s : PluginState) : PluginState :=
  if cancellable && pl_cancelled s then s else f s.

Definition loadPlugins (cancellable : bool) : Plugins unit :=
  let set f := update (unlessGone cancellable f) in
  update (fun s => setPluginError None (setPluginsLoading true s)) ;;;
  finally
    (tryCatch
       (nextCatalog <- await FetchPlugins ;; set (setCatalog nextCatalog))
       (fun error => set (setPluginError (Some (messageOr (pcy_errorLoad copy) error)))))
    (set (setPluginsLoading false)).

Definition clearPluginMessages (s : PluginState) : PluginState := setPluginError None (setPluginStatus None s).
Definition pluginFailed (text : string) (error : ApiError) : PluginState -> PluginState :=
  setPluginError (Some (messageOr text error)).
Definition pluginName (plugin : InstalledPluginView) : string :=
  if truthy (pg_display_name plugin) then pg_display_name plugin else pg_id plugin.

Definition installPayload (form : InstallForm) : InstallPluginPayload + string :=
  match parseMetadataDraft (if_metadataDraft form) with
  | inr message => inr message
  | inl metadata =>
      inl (mkInstall (Some (parseAllowedUsersDraft (if_allowedUsersDraft form)))
        (truthyOpt (Some (trimText (if_visibilityDraft form)))) (Some metadata)
        (mkPluginSource (if_sourceKind form)
          (match if_sourceKind form with SourceGit => Some (if_sourceRef form) | SourceZip => None end) (if_sourceURL form)))
  end.
(** The form after an installation: the kind of the source stays. *)
Definition installedForm (s : PluginState) : PluginState :=
  setInstallForm (mkInstallForm (if_sourceKind (pl_form s)) "" "" "" "private" "") s.

Definition handleInstall : Plugins unit :=
  shown <- get ;;
  busyWith (fun s => clearPluginMessages (setSubmitting true s))
    (payload <- orFail (installPayload (pl_form shown)) ;;
     result <- await (InstallRequest payload) ;;
     update (setCatalog result.2) ;;;
     update (setPluginStatus (Some (pcy_installedMessage copy (pluginName result.1)))) ;;;
     update installedForm)
    (pluginFailed (pcy_errorInstall copy)) (setSubmitting false).

Definition lifecycleMessage (plugin : InstalledPluginView) (action : PluginAction) (result : PluginMutation) : string :=
  match action with
  | ActionDelete => pcy_removedMessage copy (pluginName plugin)
  | ActionUpdate => pcy_updatedMessage copy (pluginName plugin) (pg_plugin_version result.1)
  | ActionDisable => pluginName plugin +:+ " " +:+ pcy_disabledStatus copy +:+ "."
  | ActionEnable => pluginName result.1 +:+ " " +:+ pcy_enabledStatus copy +:+ "."
  end.
Definition handleLifecycleAction (plugin : InstalledPluginView) (action : PluginAction) : Plugins unit :=
  busyWith (fun s => clearPluginMessages (setBusyPluginID (Some (pg_id plugin)) s))
    (result <- await (LifecycleRequest action (pg_id plugin)) ;;
     update (setCatalog result.2) ;;;
     update (setPluginStatus (Some (lifecycleMessage plugin action result))))
    (pluginFailed (pcy_errorChangeState copy)) (setBusyPluginID None).

Inductive PluginCall :=
  | LoadPlugins (cancellable : bool)
  | InstallFromForm
  | ActOn (plugin : InstalledPluginView) (action : PluginAction)
  | EditInstallForm (form : InstallForm)
  | EditPluginFilter (draft : string).
Definition pluginProg (c : PluginCall) : Plugins unit :=
  match c with
  | LoadPlugins cancellable => loadPlugins cancellable
  | InstallFromForm => handleInstall
  | ActOn plugin action => handleLifecycleAction plugin action
  | EditInstallForm form => update (setInstallForm form)
  | EditPluginFilter draft => update (setPluginFilter draft)
  end.

(** * Lemmas *)

Lemma plugin_calls_within c : within 1 (pluginProg c).
Proof.
  destruct c; cbn [pluginProg]; try exact I; unfold loadPlugins, handleInstall, handleLifecycleAction; auto 20 with forms.
Qed.

(** The users are trimmed, not blank, and named once whatever their case. *)
Lemma users_good entries : forall seen users,
  Forall (fun u => trimmedText u /\ u <> "") users -> NoDup (lowerText <$> users) ->
  (forall u, u ∈ users -> lowerText u ∈ seen) ->
  Forall (fun u => trimmedText u /\ u <> "") (addUsers entries seen users) /\ NoDup (lowerText <$> addUsers entries seen users).
Proof.
  induction entries as [|entry entries IH]; intros seen users H1 H2 H3; cbn [addUsers]; [done|].
  destruct (truthy (trimText entry)) eqn:E; cbn [negb orb]; [|by apply IH]. unfold includes.
  case_bool_decide as Hin; [by apply IH|]. apply IH.
  - apply Forall_app. split; [done|]. constructor; [|done]. split; [apply trim_trimmed|by apply truthy_true].
  - rewrite fmap_app. apply NoDup_app. split; [done|]. split; [|apply NoDup_singleton].
    intros u (v & -> & Hv)%list_elem_of_fmap Hu%list_elem_of_singleton. apply Hin. rewrite <- Hu. by apply H3.
  - intros u [Hu|Hu%list_elem_of_singleton]%elem_of_app; [right; by apply H3|rewrite Hu; by left].
Qed.

(** * Theorems *)

(** What the installation sends: keys and users are trimmed, not blank and
    distinct whatever their case, a revision only for a git source, and a
    visibility that is not blank; a draft of metadata that cannot be read is
    shown as its error, and nothing is sent. *)
Theorem install_request_exact s :
  match run handleInstall s with
  | (_, Waiting r _) =>
      match r with
      | InstallRequest payload =>
          (exists metadata, in_metadata payload = Some metadata /\ good_names metadata) /\
          (exists users, in_allowed_users payload = Some users /\ Forall (fun u => trimmedText u /\ u <> "") users /\
            NoDup (lowerText <$> users)) /\
          in_visibility payload <> Some "" /\
          (ps_kind (in_source payload) = SourceZip -> ps_ref (in_source payload) = None)
      | _ => False
      end
  | (s', Ended _) =>
      exists message, parseMetadataDraft (if_metadataDraft (pl_form s)) = inr message /\
        pb_errorMessage (pl_busy s') = Some message /\ pb_isSubmitting (pl_busy s') = false /\
        pl_form s' = pl_form s /\ pl_catalog s' = pl_catalog s
  end.
Proof.
  unfold handleInstall, busyWith, get, update. cbn [bind run finally tryCatch]. unfold installPayload.
  destruct (parseMetadataDraft _) as [metadata|message] eqn:Em; cbn; [|by exists message].
  split; [exists metadata; split; [done|by apply parsed_good in Em]|]. split; [|split].
  - eexists. split; [done|]. apply users_good; [constructor..|]. by intros u Hu%not_elem_of_nil.
  - unfold truthy. by case_bool_decide; cbn; [|intros [= ?]].
  - by intros ->.
Qed.

(** Every call ends after at most one answer, and releases what it set. *)
Theorem plugin_calls_end c s :
  within 1 (pluginProg c) /\
  ends_with (pluginProg c) s (fun s' =>
    match c with
    | InstallFromForm => pb_isSubmitting (pl_busy s') = false
    | ActOn _ _ => pb_busyPluginID (pl_busy s') = None
    | _ => True
    end).
Proof.
  split; [apply plugin_calls_within|]. destruct c; cbn [pluginProg].
  all: try (eapply wp_weaken; [|apply wp_any]; done).
  - unfold handleInstall, ends_with, get. cbn [bind wp]. by apply busy_ends.
  - by apply busy_ends.
Qed.

End Plugins.

Definition samplePlugin (id : string) : InstalledPluginView :=
  mkPlugin (mkPluginAccess None "owner" None) [] None None id true id (mkPluginActor None "owner") [] "1.0" "1" None PluginReady
    (mkPluginSource SourceGit None "https://example/p.git") [] None (mkPluginActor None "owner").

(** The catalog is that of the last answer: an action that was answered late
    shows a plugin again that another action has removed. *)
Example late_answer_restores_plugin :
  let a := samplePlugin "a" in let b := samplePlugin "b" in
  let catalog l := mkPluginCatalog (mkPluginActor None "owner") l in
  let m := proceed (handleLifecycleAction pluginsSettingsCopy_en b ActionDelete)
    (proceed (handleLifecycleAction pluginsSettingsCopy_en a ActionUpdate)
      (mkSystem (setCatalog (catalog [a; b]) initialPlugins) [])) in
  exists k1 k2, sys_calls m = [Waiting (LifecycleRequest ActionUpdate "a") k1; Waiting (LifecycleRequest ActionDelete "b") k2] /\
    let m1 := proceed (k2 (inl (b, catalog [a]))) (mkSystem (sys_state m) []) in
    catalogPlugins (sys_state m1) = [a] /\
    catalogPlugins (sys_state (proceed (k1 (inl (a, catalog [a; b]))) m1)) = [a; b].
Proof. eexists _, _. split; [reflexivity|]. by split. Qed.
