(* ===== verification/RemoteProfiles.v ===== *)
(** * The settings of remote profiles

    [frontend/src/widgets/settings/remote-profiles-settings-section.tsx]: the
    SSH profiles and their connections, the form that adds or edits one, the
    sessions of tmux on a profile's host, and the shells that are opened in the
    dock ([Panels]).  The two requests of a load, which [Promise.all] joins,
    are one request here with both answers.  The last section is the view. *)
From Stdlib Require Import Ascii String DecimalString DecimalPos.
From stdpp Require Import strings gmap.
From S2P Require Import Prelude JsString Text Number Effects Http ServicesApi SettingsTexts SettingsForms Dockview Panels.
Local Open Scope string_scope.
Local Open Scope list_scope.
Local Open Scope nat_scope.
Local Open Scope js_scope.
Local Open Scope prog_scope.

(** ** State *)

Inductive LaunchMode := LaunchShell | LaunchTmux.
Definition showLaunch (mode : LaunchMode) : string := match mode with LaunchShell => "shell" | LaunchTmux => "tmux" end.

Record ProfileForm := mkProfileForm {
  rp_editingProfileID : option string;
  rp_nameDraft : string;
  rp_hostDraft : string;
  rp_userDraft : string;
  rp_portDraft : string;
  rp_identityFileDraft : string;
  rp_launchModeDraft : LaunchMode;
  rp_tmuxSessionDraft : string
}.
Definition defaultProfileDraft : ProfileForm := mkProfileForm None "" "" "" "" "" LaunchShell "".

Record RemoteBusy := mkRemoteBusy {
  rb_isLoading : bool;
  rb_isSavingProfile : bool;
  rb_isImporting : bool;
  rb_busyProfileID : option string;
  rb_tmuxLoadingProfileID : option string;
  rb_statusMessage : option string;
  rb_errorMessage : option string
}.
Record TmuxState := mkTmux {
  rt_sessionsByProfile : gmap string (list RemoteTmuxSession);
  rt_draftsByProfile : gmap string string;
  rt_filtersByProfile : gmap string string
}.
Definition noTmux : TmuxState := mkTmux ∅ ∅ ∅.

(** [re_panels] is the dock of the section's [dockviewApi]. *)
Record RemoteState `{Dockview} := mkRemote {
  re_profiles : list RemoteProfile;
  re_connectionsSnapshot : RemoteConnectionsSnapshot;
  re_form : ProfileForm;
  re_pathDraft : string;
  re_filterDraft : string;
  re_busy : RemoteBusy;
  re_tmux : TmuxState;
  re_cancelled : bool;
  re_panels : PanelsState
}.
Arguments mkRemote {_}.

Inductive RemoteRequest : Set -> Type :=
  | FetchProfilesAndConnections : RemoteRequest (list RemoteProfile * RemoteConnectionsSnapshot)
  | FetchConnections : RemoteRequest RemoteConnectionsSnapshot
  | ImportProfiles (path : string) : RemoteRequest SSHConfigImportResult
  | SaveProfile (payload : SaveRemoteProfilePayload) : RemoteRequest (RemoteProfile * list RemoteProfile)
  | DeleteProfile (profileID : string) : RemoteRequest (option (list RemoteProfile))
  | CheckConnection (profileID : string) : RemoteRequest (RemoteConnectionView * RemoteConnectionsSnapshot)
  | SelectConnection (profileID : string) : RemoteRequest RemoteConnectionsSnapshot
  | FetchTmuxSessions (profileID : string) : RemoteRequest (list RemoteTmuxSession)
  | OfPanels (A : Set) (request : PanelRequest A) : RemoteRequest A.

Section Remote.
Context `{D : Dockview}.
Variable copy : RemoteProfilesCopy.
Local Notation Remote := (ProgX ApiError RemoteState RemoteRequest).

Definition initialRemote (panels : PanelsState) : RemoteState :=
  mkRemote [] (mkConnections "local" []) defaultProfileDraft "" "" (mkRemoteBusy true false false None None None None)
    noTmux false panels.

(** ** Setters *)

Definition setProfiles (profiles : list RemoteProfile) (s : RemoteState) : RemoteState :=
  mkRemote profiles (re_connectionsSnapshot s) (re_form s) (re_pathDraft s) (re_filterDraft s) (re_busy s) (re_tmux s)
    (re_cancelled s) (re_panels s).
Definition setConnectionsSnapshot (snapshot : RemoteConnectionsSnapshot) (s : RemoteState) : RemoteState :=
  mkRemote (re_profiles s) snapshot (re_form s) (re_pathDraft s) (re_filterDraft s) (re_busy s) (re_tmux s)
    (re_cancelled s) (re_panels s).
Definition on_profileForm (f : ProfileForm -> ProfileForm) (s : RemoteState) : RemoteState :=
  mkRemote (re_profiles s) (re_connectionsSnapshot s) (f (re_form s)) (re_pathDraft s) (re_filterDraft s) (re_busy s)
    (re_tmux s) (re_cancelled s) (re_panels s).
Definition setRemoteTexts (pathDraft filterDraft : string) (s : RemoteState) : RemoteState :=
  mkRemote (re_profiles s) (re_connectionsSnapshot s) (re_form s) pathDraft filterDraft (re_busy s) (re_tmux s)
    (re_cancelled s) (re_panels s).
Definition on_remoteBusy (f : RemoteBusy -> RemoteBusy) (s : RemoteState) : RemoteState :=
  mkRemote (re_profiles s) (re_connectionsSnapshot s) (re_form s) (re_pathDraft s) (re_filterDraft s) (f (re_busy s))
    (re_tmux s) (re_cancelled s) (re_panels s).
Definition on_tmux (f : TmuxState -> TmuxState) (s : RemoteState) : RemoteState :=
  mkRemote (re_profiles s) (re_connectionsSnapshot s) (re_form s) (re_pathDraft s) (re_filterDraft s) (re_busy s)
    (f (re_tmux s)) (re_cancelled s) (re_panels s).
Definition on_remotePanels (f : PanelsState -> PanelsState) (s : RemoteState) : RemoteState :=
  mkRemote (re_profiles s) (re_connectionsSnapshot s) (re_form s) (re_pathDraft s) (re_filterDraft s) (re_busy s)
    (re_tmux s) (re_cancelled s) (f (re_panels s)).

Definition setRemoteLoading (b : bool) : RemoteState -> RemoteState :=
  on_remoteBusy (fun z => mkRemoteBusy b (rb_isSavingProfile z) (rb_isImporting z) (rb_busyProfileID z)
    (rb_tmuxLoadingProfileID z) (rb_statusMessage z) (rb_errorMessage z)).
Definition setSavingProfile (b : bool) : RemoteState -> RemoteState :=
  on_remoteBusy (fun z => mkRemoteBusy (rb_isLoading z) b (rb_isImporting z) (rb_busyProfileID z)
    (rb_tmuxLoadingProfileID z) (rb_statusMessage z) (rb_errorMessage z)).
Definition setImporting (b : bool) : RemoteState -> RemoteState :=
  on_remoteBusy (fun z => mkRemoteBusy (rb_isLoading z) (rb_isSavingProfile z) b (rb_busyProfileID z)
    (rb_tmuxLoadingProfileID z) (rb_statusMessage z) (rb_errorMessage z)).
Definition setBusyProfileID (id : option string) : RemoteState -> RemoteState :=
  on_remoteBusy (fun z => mkRemoteBusy (rb_isLoading z) (rb_isSavingProfile z) (rb_isImporting z) id
    (rb_tmuxLoadingProfileID z) (rb_statusMessage z) (rb_errorMessage z)).
Definition setTmuxLoadingProfileID (id : option string) : RemoteState -> RemoteState :=
  on_remoteBusy (fun z => mkRemoteBusy (rb_isLoading z) (rb_isSavingProfile z) (rb_isImporting z) (rb_busyProfileID z)
    id (rb_statusMessage z) (rb_errorMessage z)).
Definition setRemoteStatus (m : option string) : RemoteState -> RemoteState :=
  on_remoteBusy (fun z => mkRemoteBusy (rb_isLoading z) (rb_isSavingProfile z) (rb_isImporting z) (rb_busyProfileID z)
    (rb_tmuxLoadingProfileID z) m (rb_errorMessage z)).
Definition setRemoteError (m : option string) : RemoteState -> RemoteState :=
  on_remoteBusy (fun z => mkRemoteBusy (rb_isLoading z) (rb_isSavingProfile z) (rb_isImporting z) (rb_busyProfileID z)
    (rb_tmuxLoadingProfileID z) (rb_statusMessage z) m).
Definition setTmuxDraft (profileID value : string) : RemoteState -> RemoteState :=
  on_tmux (fun t => mkTmux (rt_sessionsByProfile t) (<[profileID := value]> (rt_draftsByProfile t)) (rt_filtersByProfile t)).

(** ** Helpers *)

(** A port of a profile that is not zero. *)
Definition truthyPort (profile : RemoteProfile) : option Z :=
  match rf_port profile with Some port => if bool_decide (port = 0%Z) then None else Some port | None => None end.
Definition describeProfile (profile : RemoteProfile) : string :=
  match truthyOpt (rf_user profile) with Some user => user +:+ "@" | None => "" end +:+ rf_host profile +:+
  match truthyPort profile with Some port => ":" +:+ showZ port | None => "" end.

Definition summarizeImport (result : SSHConfigImportResult) : string :=
  rcy_importSummary copy (length (ih_imported result)) (length (ih_skipped result ?? [])).

Definition summarizeConnectionStatus (connection : option RemoteConnectionView) : option string :=
  match connection with
  | None => None
  | Some connection =>
      if bool_decide (rn_check_status connection = "failed") then
        Some (truthyOpt (rn_check_error connection) ?? rcy_unknownCheckFailed copy)
      else if bool_decide (rn_launch_status connection = "failed") then
        Some (truthyOpt (rn_launch_error connection) ?? rcy_unknownLaunchFailed copy)
      else if bool_decide (rn_launch_status connection = "succeeded") then Some (rcy_shellLaunchSucceeded copy)
      else if bool_decide (rn_check_status connection = "passed") then Some (rcy_preflightPassed copy)
      else None
  end.

Definition profileMatchesFilter (profile : RemoteProfile) (connection : option RemoteConnectionView) (rawFilter : string) : bool :=
  let filter := lowerText (trimText rawFilter) in
  if negb (truthy filter) then true
  else
    some (fun field => strIncludes filter (lowerText field))
      [rf_id profile; rf_name profile; rf_host profile; rf_user profile ?? ""; rf_identity_file profile ?? "";
       rf_launch_mode profile ?? ""; rf_tmux_session profile ?? ""; (showZ <$> truthyPort profile) ?? "";
       (rn_usability <$> connection) ?? ""; (rn_check_status <$> connection) ?? ""; (rn_launch_status <$> connection) ?? ""].

Definition tmuxSessionMatchesFilter (session : RemoteTmuxSession) (rawFilter : string) : bool :=
  let filter := lowerText (trimText rawFilter) in
  if negb (truthy filter) then true
  else
    some (fun field => strIncludes filter (lowerText field))
      [tm_name session; (if tm_attached session then "attached" else "detached"); (showZ <$> tm_window_count session) ?? ""].

Definition connectionOf (s : RemoteState) (profile : RemoteProfile) : option RemoteConnectionView :=
  find (fun item => bool_decide (rn_id item = rf_id profile)) (rc_connections (re_connectionsSnapshot s)).
Definition visibleProfiles (s : RemoteState) : list RemoteProfile :=
  filterb (fun profile => profileMatchesFilter profile (connectionOf s profile) (re_filterDraft s)) (re_profiles s).

(** [/^\d+$/.test(text)], and [Number(text)] of such a text. *)
Definition allDigits (text : string) : bool := truthy text && str_all is_digit text.
Definition digitsValue (text : string) : Z :=
  match NilZero.uint_of_string text with Some digits => Z.of_uint digits | None => 0%Z end.

(** ** Handlers *)

Definition resetProfileForm : RemoteState -> RemoteState := on_profileForm (fun _ => defaultProfileDraft).
Definition clearRemoteMessages (s : RemoteState) : RemoteState := setRemoteStatus None (setRemoteError None s).
Definition remoteFailed (text : string) (error : ApiError) : RemoteState -> RemoteState := setRemoteError (Some (messageOr text error)).

Definition unlessUnmounted (cancellable : bool) (f : RemoteState -> RemoteState) (s : RemoteState) : RemoteState :=
  if cancellable && re_cancelled s then s else f s.
Definition showLoaded (next : list RemoteProfile * RemoteConnectionsSnapshot) (s : RemoteState) : RemoteState :=
  on_tmux (fun _ => noTmux) (setConnectionsSnapshot next.2 (setProfiles next.1 s)).
Definition loadProfilesAndConnections (cancellable : bool) : Remote unit :=
  let set f := update (unlessUnmounted cancellable f) in
  update (fun s => setRemoteError None (setRemoteLoading true s)) ;;;
  finally
    (tryCatch
       (next <- await FetchProfilesAndConnections ;; set (showLoaded next))
       (fun error => set (remoteFailed (rcy_errorLoad copy) error)))
    (set (setRemoteLoading false)).

(** [setConnectionsSnapshot(await fetchRemoteConnectionsSnapshot())] *)
Definition refreshConnections : Remote unit :=
  snapshot <- await FetchConnections ;; update (setConnectionsSnapshot snapshot).

Definition handleImport : Remote unit :=
  shown <- get ;;
  busyWith (fun s => clearRemoteMessages (setImporting true s))
    (result <- await (ImportProfiles (re_pathDraft shown)) ;;
     update (setProfiles (ih_profiles result)) ;;;
     refreshConnections ;;;
     update (setRemoteStatus (Some (summarizeImport result))))
    (remoteFailed (rcy_errorImport copy)) (setImporting false).

Definition profilePayload (form : ProfileForm) : SaveRemoteProfilePayload :=
  let normalizedPort := trimText (rp_portDraft form) in
  mkSaveProfile (rp_hostDraft form) (rp_editingProfileID form) (Some (rp_identityFileDraft form))
    (Some (showLaunch (rp_launchModeDraft form))) (Some (rp_nameDraft form))
    (if bool_decide (normalizedPort = "") then None else Some (ofZ (digitsValue normalizedPort)))
    (match rp_launchModeDraft form with LaunchTmux => Some (rp_tmuxSessionDraft form) | LaunchShell => None end)
    (Some (rp_userDraft form)).
Definition badPort (normalizedPort : string) : bool :=
  negb (bool_decide (normalizedPort = "")) && (negb (allDigits normalizedPort) || (digitsValue normalizedPort <=? 0)%Z).

Definition handleSaveProfile : Remote unit :=
  shown <- get ;;
  let start s := clearRemoteMessages (setSavingProfile true s) in
  if badPort (trimText (rp_portDraft (re_form shown))) then
    update start ;;; update (fun s => setSavingProfile false (setRemoteError (Some (rcy_errorPort copy)) s))
  else
    busyWith start
      (result <- await (SaveProfile (profilePayload (re_form shown))) ;;
       update (setProfiles result.2) ;;;
       refreshConnections ;;;
       update (setRemoteStatus (Some (rcy_savedProfile copy (rf_name result.1)))) ;;;
       update resetProfileForm)
      (remoteFailed (rcy_errorSave copy)) (setSavingProfile false).

Definition profileDraftOf (profile : RemoteProfile) : ProfileForm :=
  mkProfileForm (Some (rf_id profile)) (rf_name profile) (rf_host profile) (rf_user profile ?? "")
    ((showZ <$> truthyPort profile) ?? "") (rf_identity_file profile ?? "")
    (if bool_decide (rf_launch_mode profile = Some "tmux") then LaunchTmux else LaunchShell) (rf_tmux_session profile ?? "").
Definition handleStartEdit (profile : RemoteProfile) (s : RemoteState) : RemoteState :=
  clearRemoteMessages (on_profileForm (fun _ => profileDraftOf profile) s).

(** The handlers of one profile hold the section's one busy id. *)
Definition withProfile (profileID : string) (body : Remote unit) (text : string) : Remote unit :=
  busyWith (fun s => clearRemoteMessages (setBusyProfileID (Some profileID) s)) body (remoteFailed text) (setBusyProfileID None).

Definition handleDeleteProfile (profileID : string) : Remote unit :=
  shown <- get ;;
  withProfile profileID
    (result <- await (DeleteProfile profileID) ;;
     update (setProfiles (result ?? [])) ;;;
     refreshConnections ;;;
     (if bool_decide (rp_editingProfileID (re_form shown) = Some profileID) then update resetProfileForm else Ret tt) ;;;
     update (setRemoteStatus (Some (rcy_deletedProfile copy))))
    (rcy_errorDelete copy).

Definition handleCheckProfile (profileID : string) : Remote unit :=
  withProfile profileID
    (result <- await (CheckConnection profileID) ;;
     update (setConnectionsSnapshot result.2) ;;;
     update (setRemoteStatus (Some (rcy_preflightStatus copy (rn_name result.1) (rn_check_status result.1)))))
    (rcy_errorCheck copy).

Definition findProfile (profiles : list RemoteProfile) (profileID : string) : option RemoteProfile :=
  find (fun profile => bool_decide (rf_id profile = profileID)) profiles.

Definition handleSetDefaultProfile (profileID : string) : Remote unit :=
  shown <- get ;;
  withProfile profileID
    (nextConnectionsSnapshot <- await (SelectConnection profileID) ;;
     update (setConnectionsSnapshot nextConnectionsSnapshot) ;;;
     update (setRemoteStatus (Some
       (rcy_defaultConnection copy ((rf_name <$> findProfile (re_profiles shown) profileID) ?? profileID)))))
    (rcy_errorSetDefault copy).

Definition showTmuxSessions (profiles : list RemoteProfile) (profileID : string) (sessions : list RemoteTmuxSession)
    : RemoteState -> RemoteState :=
  on_tmux (fun t => mkTmux (<[profileID := sessions]> (rt_sessionsByProfile t))
    (match rt_draftsByProfile t !! profileID with
     | Some _ => rt_draftsByProfile t
     | None => <[profileID := (findProfile profiles profileID ≫= rf_tmux_session) ?? ""]> (rt_draftsByProfile t)
     end) (rt_filtersByProfile t)).
Definition handleBrowseTmuxSessions (profileID : string) : Remote unit :=
  shown <- get ;;
  busyWith (fun s => clearRemoteMessages (setTmuxLoadingProfileID (Some profileID) s))
    (sessions <- await (FetchTmuxSessions profileID) ;;
     update (showTmuxSessions (re_profiles shown) profileID sessions) ;;;
     update (setRemoteStatus (Some
       (if bool_decide (0 < length sessions) then rcy_loadedTmuxSessions copy (length sessions) else rcy_noTmuxSessions copy))))
    (remoteFailed (rcy_errorLoadTmux copy)) (setTmuxLoadingProfileID None).

Definition handleUseTmuxSession (profile : RemoteProfile) (sessionName : string) (s : RemoteState) : RemoteState :=
  let form := profileDraftOf profile in
  setRemoteStatus (Some (rcy_loadedTmuxEditor copy sessionName))
    (setTmuxDraft (rf_id profile) sessionName
      (on_profileForm (fun f => mkProfileForm (rp_editingProfileID f) (rp_nameDraft f) (rp_hostDraft f) (rp_userDraft f)
         (rp_portDraft f) (rp_identityFileDraft f) LaunchTmux sessionName) (handleStartEdit profile s))).

Definition handleTmuxSessionDraftChange (profileID value : string) : RemoteState -> RemoteState := setTmuxDraft profileID value.
Definition handleTmuxSessionFilterChange (profileID value : string) : RemoteState -> RemoteState :=
  on_tmux (fun t => mkTmux (rt_sessionsByProfile t) (rt_draftsByProfile t) (<[profileID := value]> (rt_filtersByProfile t))).

(** The name of the session that the row of a profile holds. *)
Definition namedSession (s : RemoteState) (profile : RemoteProfile) : string :=
  trimText (rt_draftsByProfile (re_tmux s) !! rf_id profile ?? rf_tmux_session profile ?? "").
Definition refuseSession (message : string) (s : RemoteState) : RemoteState :=
  setRemoteStatus None (setRemoteError (Some message) s).

Definition openedMessage (profile : RemoteProfile) (tmuxSession : option string) (result : CreateRemoteProfileSessionResult) : string :=
  let targetSession :=
    truthyOpt (trimText <$> rm_remote_session_name result) ?? truthyOpt (trimText <$> tmuxSession) ?? "" in
  if rm_reused result then
    if truthy targetSession then rcy_resumedTmuxShell copy (rf_name profile) targetSession
    else rcy_focusedShell copy (rf_name profile)
  else if truthy targetSession then rcy_openedTmuxShell copy (rf_name profile) targetSession
  else rcy_openedShell copy (rf_name profile).
(** [hasApi]: the section was given the dock. *)
Definition handleOpenProfileShell (hasApi : bool) (profile : RemoteProfile) (tmuxSession : option string) : Remote unit :=
  withProfile (rf_id profile)
    (result <- lift re_panels on_remotePanels OfPanels
       (openRemoteProfileSession hasApi (rf_id profile) (Some (rf_name profile)) tmuxSession) ;;
     update (setRemoteStatus (Some (openedMessage profile tmuxSession result))))
    (rcy_errorOpenShell copy).

Definition handleOpenNamedTmuxSession (hasApi : bool) (profile : RemoteProfile) : Remote unit :=
  shown <- get ;;
  let sessionName := namedSession shown profile in
  if bool_decide (sessionName = "") then update (refuseSession (rcy_tmuxRequiredOpen copy))
  else handleOpenProfileShell hasApi profile (Some sessionName).

Definition handleLoadNamedTmuxSession (profile : RemoteProfile) (s : RemoteState) : RemoteState :=
  let sessionName := namedSession s profile in
  if bool_decide (sessionName = "") then refuseSession (rcy_tmuxRequiredLoad copy) s
  else handleUseTmuxSession profile sessionName s.

(** ** Everything that happens *)

Inductive RemoteCall :=
  | LoadProfiles (cancellable : bool)
  | ImportFromPath
  | SaveForm
  | RemoveProfile (profileID : string)
  | CheckProfile (profileID : string)
  | SetDefault (profileID : string)
  | BrowseTmux (profileID : string)
  | OpenShell (hasApi : bool) (profile : RemoteProfile) (tmuxSession : option string)
  | OpenNamedSession (hasApi : bool) (profile : RemoteProfile)
  | LoadNamedSession (profile : RemoteProfile)
  | UseSession (profile : RemoteProfile) (sessionName : string)
  | StartEdit (profile : RemoteProfile)
  | CancelProfileEdit
  | EditSessionDraft (profileID value : string)
  | EditSessionFilter (profileID value : string)
  | EditRemoteTexts (pathDraft filterDraft : string).

Definition remoteProg (c : RemoteCall) : Remote unit :=
  match c with
  | LoadProfiles cancellable => loadProfilesAndConnections cancellable
  | ImportFromPath => handleImport
  | SaveForm => handleSaveProfile
  | RemoveProfile profileID => handleDeleteProfile profileID
  | CheckProfile profileID => handleCheckProfile profileID
  | SetDefault profileID => handleSetDefaultProfile profileID
  | BrowseTmux profileID => handleBrowseTmuxSessions profileID
  | OpenShell hasApi profile tmuxSession => handleOpenProfileShell hasApi profile tmuxSession
  | OpenNamedSession hasApi profile => handleOpenNamedTmuxSession hasApi profile
  | LoadNamedSession profile => update (handleLoadNamedTmuxSession profile)
  | UseSession profile sessionName => update (handleUseTmuxSession profile sessionName)
  | StartEdit profile => update (handleStartEdit profile)
  | CancelProfileEdit => update resetProfileForm
  | EditSessionDraft profileID value => update (handleTmuxSessionDraftChange profileID value)
  | EditSessionFilter profileID value => update (handleTmuxSessionFilterChange profileID value)
  | EditRemoteTexts pathDraft filterDraft => update (setRemoteTexts pathDraft filterDraft)
  end.

(** * Lemmas *)

Lemma open_within hasApi profileId title tmuxSession : within 1 (openRemoteProfileSession hasApi profileId title tmuxSession).
Proof. unfold openRemoteProfileSession. auto 10 with forms. Qed.

Lemma shell_within hasApi profile tmuxSession : within 1 (handleOpenProfileShell hasApi profile tmuxSession).
Proof.
  unfold handleOpenProfileShell, withProfile. apply busy_within. apply within_then; [|by intros].
  apply within_lift, open_within.
Qed.

Lemma connections_within : within 1 refreshConnections.
Proof. unfold refreshConnections. within_tac. Qed.

Ltac remote_within :=
  repeat first
    [ apply (within_le 1); [lia|apply shell_within] | apply busy_within
    | apply within_finally_quiet | apply within_try_quiet; [|intros ?; exact I]
    | apply within_then; [apply connections_within|intros ?] | within_step ].

Lemma remote_calls_within c : within 2 (remoteProg c).
Proof.
  destruct c; cbn [remoteProg]; unfold loadProfilesAndConnections, handleImport, handleSaveProfile, handleDeleteProfile,
    handleCheckProfile, handleSetDefaultProfile, handleBrowseTmuxSessions, handleOpenNamedTmuxSession, withProfile.
  all: remote_within. apply within_quiet; [by destruct (bool_decide _)|by intros ?].
Qed.

(** ** Ports *)

Lemma digits_all (d : Decimal.uint) : str_all is_digit (NilEmpty.string_of_uint d) = true.
Proof. induction d; cbn; auto. Qed.

Lemma digits_trimmed s : str_all is_digit s = true -> trimmedText s.
Proof.
  intros Hs. assert (Forall (fun w => str_all is_digit w = false) spaces) as H.
  { apply (bool_decide_unpack _). by vm_compute. }
  pose proof (proj1 (Forall_forall _ _) H) as Hspace. split.
  - apply find_None. intros w Hw. destruct (startsWith w s) eqn:E; [|done]. apply startsWith_spec in E as [t ->].
    rewrite str_all_append, (Hspace w Hw) in Hs. done.
  - apply trailing_space_none. intros w Hw. destruct (endsWith w s) eqn:E; [|done]. apply endsWith_spec in E as [t ->].
    rewrite str_all_append, (Hspace w Hw), andb_false_r in Hs. done.
Qed.

Lemma port_text port : (0 < port)%Z ->
  showZ port <> "" /\ str_all is_digit (showZ port) = true /\ digitsValue (showZ port) = port.
Proof.
  intros Hp. destruct port as [|p|p]; [lia| |lia]. unfold showZ, digitsValue. cbn [Z.to_int NilZero.string_of_int].
  pose proof (Unsigned.to_uint_nonnil p) as Hne. rewrite NilZero.usu by done. split; [|split].
  - by destruct (Pos.to_uint p).
  - destruct (Pos.to_uint p); try apply (digits_all (Decimal.D0 _)); done || apply digits_all.
  - unfold Z.of_uint. by rewrite Unsigned.of_to.
Qed.

(** * Theorems *)

(** A saved port is positive: whatever the form holds, what is sent has no
    port, exactly when its field is blank, or one above zero; any other text is
    refused with its message, and the form stays. *)
Theorem saved_port_positive s :
  match run handleSaveProfile s with
  | (_, Waiting r _) =>
      match r with
      | SaveProfile payload =>
          payload = profilePayload (re_form s) /\
          match sp_port payload with
          | None => trimText (rp_portDraft (re_form s)) = ""
          | Some port => exists n, (0 < n)%Z /\ port = ofZ n /\ allDigits (trimText (rp_portDraft (re_form s))) = true
          end
      | _ => False
      end
  | (s', Ended _) =>
      rb_errorMessage (re_busy s') = Some (rcy_errorPort copy) /\ rb_isSavingProfile (re_busy s') = false /\
      re_form s' = re_form s /\ re_profiles s' = re_profiles s
  end.
Proof.
  unfold handleSaveProfile, busyWith, get, update. cbn [bind run finally tryCatch].
  destruct (badPort _) eqn:Ebad; cbn; [done|]. split; [done|].
  unfold badPort in Ebad. case_bool_decide as Hempty; [done|]. cbn [negb andb] in Ebad.
  apply orb_false_iff in Ebad as [Hd%negb_false_iff Hz%Z.leb_gt]. by eexists.
Qed.

(** Editing a profile and saving the form unchanged sends the profile its own
    values: an absent text as a blank one, which the client leaves out, and the
    tmux session of a profile that does not launch tmux not at all. *)
Theorem unchanged_profile_saved profile s :
  (forall port, rf_port profile = Some port -> 0 < port)%Z ->
  match snd (run handleSaveProfile (handleStartEdit profile s)) with
  | Waiting r _ =>
      match r with
      | SaveProfile payload =>
          sp_id payload = Some (rf_id profile) /\ sp_host payload = rf_host profile /\ sp_name payload = Some (rf_name profile) /\
          sp_port payload = ofZ <$> rf_port profile /\
          trimmed (sp_user payload) = trimmed (rf_user profile) /\
          trimmed (sp_identity_file payload) = trimmed (rf_identity_file profile) /\
          (rf_launch_mode profile = Some "tmux" -> sp_launch_mode payload = Some "tmux" /\
             trimmed (sp_tmux_session payload) = trimmed (rf_tmux_session profile)) /\
          (rf_launch_mode profile <> Some "tmux" -> sp_launch_mode payload = Some "shell" /\ sp_tmux_session payload = None)
      | _ => False
      end
  | Ended _ => False
  end.
Proof.
  intros Hport.
  assert (trimText (rp_portDraft (profileDraftOf profile)) = (showZ <$> rf_port profile) ?? "") as Ht.
  { unfold profileDraftOf, truthyPort. cbn [rp_portDraft]. destruct (rf_port profile) as [port|]; [|done].
    specialize (Hport port eq_refl). rewrite bool_decide_eq_false_2 by lia. cbn.
    apply trimText_id, digits_trimmed. by apply port_text. }
  assert (badPort ((showZ <$> rf_port profile) ?? "") = false /\
    sp_port (profilePayload (profileDraftOf profile)) = ofZ <$> rf_port profile) as [Hbad Hsent].
  { unfold profilePayload. cbn [sp_port]. rewrite Ht. unfold badPort. destruct (rf_port profile) as [port|]; [|done].
    cbn. destruct (port_text port) as (H1 & H2 & H3); [by apply Hport|]. unfold allDigits.
    rewrite H2, H3, bool_decide_eq_false_2 by done. unfold truthy. rewrite bool_decide_eq_false_2 by done.
    split; [|done]. specialize (Hport port eq_refl). cbn. by apply Z.leb_gt. }
  unfold handleSaveProfile, busyWith, get, update. cbn [bind run finally tryCatch].
  change (re_form (handleStartEdit profile s)) with (profileDraftOf profile). rewrite Ht, Hbad. cbn [bind run finally tryCatch await snd].
  rewrite Hsent. unfold profilePayload, profileDraftOf. cbn. repeat split.
  - by destruct (rf_user profile).
  - by destruct (rf_identity_file profile).
  - by rewrite bool_decide_eq_true_2.
  - rewrite bool_decide_eq_true_2 by done. by destruct (rf_tmux_session profile).
  - by rewrite bool_decide_eq_false_2.
  - by rewrite bool_decide_eq_false_2.
Qed.

(** Every call of the section ends after at most two answers and leaves nothing
    busy that it made busy. *)
Theorem remote_calls_end c s :
  within 2 (remoteProg c) /\
  ends_with (remoteProg c) s (fun s' =>
    match c with
    | ImportFromPath => rb_isImporting (re_busy s') = false
    | SaveForm => rb_isSavingProfile (re_busy s') = false
    | RemoveProfile _ | CheckProfile _ | SetDefault _ | OpenShell _ _ _ => rb_busyProfileID (re_busy s') = None
    | BrowseTmux _ => rb_tmuxLoadingProfileID (re_busy s') = None
    | _ => True
    end).
Proof.
  split; [apply remote_calls_within|]. destruct c; cbn [remoteProg].
  all: try (eapply wp_weaken; [|apply wp_any]; done).
  - unfold handleImport, ends_with, get. cbn [bind wp]. by apply busy_ends.
  - unfold handleSaveProfile, ends_with, get. cbn [bind wp]. destruct (badPort _); [done|]. by apply busy_ends.
  - unfold handleDeleteProfile, ends_with, get. cbn [bind wp]. by apply busy_ends.
  - by apply busy_ends.
  - unfold handleSetDefaultProfile, ends_with, get. cbn [bind wp]. by apply busy_ends.
  - unfold handleBrowseTmuxSessions, ends_with, get. cbn [bind wp]. by apply busy_ends.
  - by apply busy_ends.
Qed.

End Remote.

(** * Witnesses and examples *)

Definition sampleProfile : RemoteProfile :=
  mkRemoteProfile None "build.example" "build" None (Some "tmux") "Build" (Some 2222%Z) (Some "main") (Some "dev").
Definition sampleRemote : @RemoteState listDockview := initialRemote (emptyPanels (D := listDockview) ([], None)).

Lemma unchanged_profile_saved_witness :
  match snd (run (handleSaveProfile remoteProfilesCopy_en) (handleStartEdit sampleProfile sampleRemote)) with
  | Waiting r _ =>
      match r with
      | SaveProfile payload =>
          sp_id payload = Some "build" /\ sp_host payload = "build.example" /\ sp_name payload = Some "Build" /\
          sp_port payload = Some (ofZ 2222) /\
          trimmed (sp_user payload) = Some "dev" /\ trimmed (sp_identity_file payload) = None /\
          (Some "tmux" = Some "tmux" -> sp_launch_mode payload = Some "tmux" /\ trimmed (sp_tmux_session payload) = Some "main") /\
          (Some "tmux" <> Some "tmux" -> sp_launch_mode payload = Some "shell" /\ sp_tmux_session payload = None)
      | _ => False
      end
  | Ended _ => False
  end.
Proof.
  apply (unchanged_profile_saved remoteProfilesCopy_en sampleProfile sampleRemote). intros port [= <-]. lia.
Defined.

(** A profile is saved, and the request for the connections fails: the save is
    shown as failed and the form stays as it was, without the id of the profile
    that is in the list, so saving again adds the profile a second time. *)
Example saved_profile_shown_as_failed :
  let form := mkProfileForm None "Build" "build.example" "" "" "" LaunchShell "" in
  let saved := mkRemoteProfile None "build.example" "build" None (Some "shell") "Build" None None None in
  let s := on_profileForm (fun _ => form) sampleRemote in
  let s' := fst (serve (fun A (r : RemoteRequest A) =>
    match r in RemoteRequest A return A + ApiError with
    | SaveProfile _ => inl (saved, [saved])
    | _ => inr (PlainError "Failed to fetch")
    end) (handleSaveProfile remoteProfilesCopy_en) s) in
  re_profiles s' = [saved] /\ rb_errorMessage (re_busy s') = Some "Failed to fetch" /\ rb_statusMessage (re_busy s') = None /\
  re_form s' = form.
Proof. vm_compute. repeat split. Qed.

(** The busy id is one for all rows: the answer for one profile enables the
    buttons of another one whose call is still running. *)
Example answer_frees_another_profile :
  let m := proceed (handleDeleteProfile remoteProfilesCopy_en "b")
    (proceed (handleCheckProfile remoteProfilesCopy_en "a") (mkSystem sampleRemote [])) in
  rb_busyProfileID (re_busy (sys_state m)) = Some "b" /\
  exists k, sys_calls m !! 0%nat = Some (Waiting (CheckConnection "a") k) /\
    let m' := proceed (k (inr OtherThrow)) (mkSystem (sys_state m) (delete 0%nat (sys_calls m))) in
    rb_busyProfileID (re_busy (sys_state m')) = None /\ length (sys_calls m') = 1.
Proof. split; [reflexivity|]. eexists. split; [reflexivity|]. by split. Qed.

(** The row of a profile with a name typed for its tmux session opens the shell
    of the profile on that session. *)
Example named_session_opens :
  let s := setTmuxDraft "build" " work " sampleRemote in
  match snd (run (handleOpenNamedTmuxSession remoteProfilesCopy_en true sampleProfile) s) with
  | Waiting r _ => match r with OfPanels _ (CreateRemoteSession "build" (Some "Build") (Some "work")) => True | _ => False end
  | Ended _ => False
  end.
Proof. exact I. Qed.

(** * What the section shows

    The buttons of the section are a name, whether it is disabled, and its call. *)

Section View.
Context `{D : Dockview}.
Variables (copy : RemoteProfilesCopy) (hasApi : bool).

Record RemoteButton := mkRemoteButton { bt_label : string; bt_disabled : bool; bt_call : RemoteCall }.
Record TmuxManager := mkTmuxManager {
  tn_summary : string;
  tn_draft : string;
  tn_named : list RemoteButton;
  tn_filter : string;
  tn_sessions : list (string * list RemoteButton);
  tn_empty : option string
}.
Record ProfileCard := mkProfileCard {
  pc_id : string;
  pc_lines : list string;
  pc_badges : list string;
  pc_buttons : list RemoteButton;
  pc_tmux : option TmuxManager
}.
Inductive ProfileList := LoadingProfiles (text : string) | NoProfiles (text : string) | ProfileCards (cards : list ProfileCard).
Record RemoteSection := mkRemoteSection {
  rs_tmuxInput : bool;
  rs_form : list RemoteButton;
  rs_tools : list RemoteButton;
  rs_counts : list string;
  rs_status : option string;
  rs_error : option string;
  rs_profiles : ProfileList
}.

Definition isTmux (profile : RemoteProfile) : bool := bool_decide (rf_launch_mode profile = Some "tmux").

Definition sessionLine (session : RemoteTmuxSession) : string :=
  tm_name session +:+ " · " +:+ (if tm_attached session then rcy_tmuxAttached copy else rcy_tmuxDetached copy) +:+
  match tm_window_count session with
  | Some n => if bool_decide (n = 0%Z) then "" else " · " +:+ rcy_windowCount copy (Z.to_nat n)
  | None => ""
  end.

(** The buttons of the sessions wait for any profile, those of a row for its own. *)
Definition tmuxManager (s : RemoteState) (profile : RemoteProfile) (tmuxSessions : list RemoteTmuxSession) : TmuxManager :=
  let disabled := rb_isSavingProfile (re_busy s) || bool_decide (is_Some (rb_busyProfileID (re_busy s))) in
  let filter := rt_filtersByProfile (re_tmux s) !! rf_id profile ?? "" in
  let visible := filterb (fun session => tmuxSessionMatchesFilter session filter) tmuxSessions in
  let attached := length (filterb tm_attached tmuxSessions) in {|
    tn_summary :=
      match tmuxSessions with
      | [] => rcy_noTmuxSessionsYet copy
      | _ :: _ => rcy_tmuxSummary copy (length tmuxSessions) attached (length tmuxSessions - attached)
      end;
    tn_draft := match rt_draftsByProfile (re_tmux s) !! rf_id profile with
                | Some draft => draft
                | None => rf_tmux_session profile ?? ""
                end;
    tn_named := [mkRemoteButton (rcy_openNamedSession copy) disabled (OpenNamedSession hasApi profile);
      mkRemoteButton (rcy_loadNamedSession copy) disabled (LoadNamedSession profile)];
    tn_filter := filter;
    tn_sessions := (fun session => (sessionLine session,
      [mkRemoteButton (rcy_resumeSession copy) disabled (OpenShell hasApi profile (Some (tm_name session)));
       mkRemoteButton (rcy_useSession copy) disabled (UseSession profile (tm_name session))])) <$> visible;
    tn_empty := match visible with [] => Some (rcy_noTmuxFilterMatches copy) | _ :: _ => None end
  |}.

Definition profileCard (s : RemoteState) (profile : RemoteProfile) : ProfileCard :=
  let connection := connectionOf s profile in
  let disabled := bool_decide (rb_busyProfileID (re_busy s) = Some (rf_id profile)) || rb_isSavingProfile (re_busy s) in
  let loadingTmux := bool_decide (rb_tmuxLoadingProfileID (re_busy s) = Some (rf_id profile)) in
  let sessions := rt_sessionsByProfile (re_tmux s) !! rf_id profile in
  let optional (text : option string) := match truthyOpt text with Some line => [line] | None => [] end in {|
    pc_id := rf_id profile;
    pc_lines := [rf_name profile; describeProfile profile] ++ optional (rf_identity_file profile) ++
      (if isTmux profile then [rcy_tmuxResume copy +:+ " " +:+ (truthyOpt (rf_tmux_session profile) ?? rcy_derivedAutomatically copy)] else []) ++
      optional (summarizeConnectionStatus copy connection);
    pc_badges := ["SSH"] ++ (if isTmux profile then ["tmux"] else []) ++
      (if bool_decide (rc_active_connection_id (re_connectionsSnapshot s) = rf_id profile) then [rcy_defaultBadge copy] else []) ++
      match connection with
      | Some c => [rn_usability c; rn_check_status c] ++
          (if bool_decide (rn_launch_status c = "idle") then [] else [rcy_launchPrefix copy +:+ rn_launch_status c])
      | None => []
      end;
    pc_buttons := [mkRemoteButton (rcy_setDefault copy) disabled (SetDefault (rf_id profile));
      mkRemoteButton (rcy_check copy) disabled (CheckProfile (rf_id profile));
      mkRemoteButton (rcy_openShell copy) disabled (OpenShell hasApi profile None)] ++
      (if isTmux profile then
         [mkRemoteButton (if loadingTmux then rcy_loadingTmux copy
                          else match sessions with Some _ => rcy_refreshTmux copy | None => rcy_browseTmux copy end)
            (disabled || loadingTmux) (BrowseTmux (rf_id profile))]
       else []) ++
      [mkRemoteButton (rcy_edit copy) disabled (StartEdit profile);
       mkRemoteButton (rcy_delete copy) disabled (RemoveProfile (rf_id profile))];
    pc_tmux := if isTmux profile then tmuxManager s profile <$> sessions else None
  |}.

Definition RemoteProfilesSettingsSection (s : RemoteState) : RemoteSection :=
  let busy := re_busy s in
  let form := re_form s in
  let isEditing := bool_decide (is_Some (rp_editingProfileID form)) in
  let canSaveProfile := truthy (trimText (rp_hostDraft form)) in
  let visible := visibleProfiles s in {|
    rs_tmuxInput := match rp_launchModeDraft form with LaunchTmux => true | LaunchShell => false end;
    rs_form :=
      mkRemoteButton (if rb_isSavingProfile busy then rcy_saving copy else if isEditing then rcy_saveChanges copy else rcy_saveProfile copy)
        (negb canSaveProfile || rb_isSavingProfile busy || bool_decide (is_Some (rb_busyProfileID busy))) SaveForm ::
      (if isEditing then [mkRemoteButton (rcy_cancelEdit copy) (rb_isSavingProfile busy) CancelProfileEdit] else []);
    rs_tools :=
      [mkRemoteButton (if rb_isImporting busy then rcy_importing copy else rcy_importButton copy) (rb_isImporting busy) ImportFromPath;
       mkRemoteButton (if rb_isLoading busy then rcy_refreshing copy else rcy_refresh copy) (rb_isLoading busy) (LoadProfiles false)];
    rs_counts := [rcy_savedCount copy (length (re_profiles s))] ++
      (if truthy (trimText (re_filterDraft s)) then [rcy_visibleCount copy (length visible)] else []) ++
      [rcy_defaultCount copy (length (filterb (fun profile =>
         bool_decide (rc_active_connection_id (re_connectionsSnapshot s) = rf_id profile)) (re_profiles s)))];
    rs_status := truthyOpt (rb_statusMessage busy);
    rs_error := truthyOpt (rb_errorMessage busy);
    rs_profiles :=
      if rb_isLoading busy then LoadingProfiles (rcy_loadingProfiles copy)
      else match re_profiles s, visible with
           | [], _ => NoProfiles (rcy_noProfiles copy)
           | _, [] => NoProfiles (rcy_noFilterMatches copy)
           | _, _ => ProfileCards (profileCard s <$> visible)
           end
  |}.

(** While a profile is saved no button of a row is enabled, and while a profile is
    busy its row has none, and neither the form nor a list of sessions. *)
Lemma rows_wait_for_the_save s profile b :
  b ∈ pc_buttons (profileCard s profile) -> bt_disabled b = false ->
  rb_isSavingProfile (re_busy s) = false /\ rb_busyProfileID (re_busy s) <> Some (rf_id profile).
Proof.
  cbn [profileCard pc_buttons]. intros Hb Hd. split.
  - destruct (rb_isSavingProfile (re_busy s)); [|done]. exfalso. rewrite orb_true_r in Hb.
    destruct (isTmux profile); repeat (apply elem_of_cons in Hb as [->|Hb]; [done|]); by apply not_elem_of_nil in Hb.
  - intros E. rewrite (bool_decide_eq_true_2 _ E) in Hb.
    destruct (isTmux profile); repeat (apply elem_of_cons in Hb as [->|Hb]; [done|]); by apply not_elem_of_nil in Hb.
Qed.
Lemma sessions_wait_for_all s profile sessions line buttons b :
  (line, buttons) ∈ tn_sessions (tmuxManager s profile sessions) -> b ∈ buttons -> bt_disabled b = false ->
  rb_isSavingProfile (re_busy s) = false /\ rb_busyProfileID (re_busy s) = None.
Proof.
  cbn [tmuxManager tn_sessions]. intros (session & [= _ ->] & _)%list_elem_of_fmap Hb Hd.
  repeat (apply elem_of_cons in Hb as [->|Hb]; [|]); [..|by apply not_elem_of_nil in Hb];
    cbn [bt_disabled] in Hd; bool_prop; (split; [done|]); by apply eq_None_not_Some.
Qed.

End View.

(** The row of the default connection; while the profiles load it is not shown. *)
Example card_of_the_default :
  let s := setConnectionsSnapshot (mkConnections "build" [mkConnection true "build" "ssh" "Build" "passed" None "idle" None "available"])
    (setProfiles [sampleProfile] sampleRemote) in
  let shown s := rs_profiles (RemoteProfilesSettingsSection remoteProfilesCopy_en true s) in
  shown s = LoadingProfiles "Loading remote profiles…" /\
  match shown (setRemoteLoading false s) with
  | ProfileCards cards => pc_badges <$> cards = [["SSH"; "tmux"; "default"; "available"; "passed"]]
  | _ => False
  end.
Proof. vm_compute. split; reflexivity. Qed.
