(* ===== verification/Rely.v ===== *)
(** * Rely and guarantee

    What a call knows across its awaits: the other calls and the events change
    the state only as [R] allows and keep [I], and so must the call itself.
    Unlike the stretches of [Effects], a stretch here knows the state in which
    the call awaited.  Then the flags that calls raise and lower again. *)
From stdpp Require Import strings.
From S2P Require Import Prelude JsString Effects.
Local Open Scope nat_scope.

Section Rely.
Context {X : Type} {S : Type} {E : Set -> Type}.
Variable R : S -> S -> Prop.
Variable I : S -> Prop.

(** The stretch that began in [o] is in [s]. *)
Fixpoint relies {A} (p : ProgX X S E A) (o s : S) (Q : A + X -> S -> S -> Prop) : Prop :=
  match p with
  | Ret r => Q (inl r) o s
  | Throw e => Q (inr e) o s
  | Update f k => relies k o (f s) Q
  | Get k => relies (k s) o s Q
  | Await request k => (R o s /\ I s) /\ forall a s', R s s' -> I s' -> relies (k a) s' s' Q
  end.

(** A call that keeps to the rules, from every state that does. *)
Definition polite (p : ProgX X S E unit) : Prop := forall s, I s -> relies p s s (fun _ o s => R o s /\ I s).

Lemma relies_mono {A} (p : ProgX X S E A) o s (Q Q' : A + X -> S -> S -> Prop) :
  (forall r a b, Q r a b -> Q' r a b) -> relies p o s Q -> relies p o s Q'.
Proof.
  intros HQ. revert o s. induction p as [r|e|f k IH|k IH|B r k IH]; intros o s; cbn [relies]; auto.
  intros [H1 H2]. split; auto.
Qed.
Lemma relies_bind {A B} (p : ProgX X S E A) (k : A -> ProgX X S E B) o s Q :
  relies p o s (fun r a b => match r with inl x => relies (k x) a b Q | inr e => Q (inr e) a b end) ->
  relies (bind p k) o s Q.
Proof.
  revert o s. induction p as [r|e|f k' IH|k' IH|C r k' IH]; intros o s; cbn [bind relies]; auto.
  intros [H1 H2]. split; auto.
Qed.
Lemma relies_try {A} (p : ProgX X S E A) h o s Q :
  relies p o s (fun r a b => match r with inl x => Q (inl x) a b | inr e => relies (h e) a b Q end) ->
  relies (tryCatch p h) o s Q.
Proof.
  revert o s. induction p as [r|e|f k' IH|k' IH|C r k' IH]; intros o s; cbn [tryCatch relies]; auto.
  intros [H1 H2]. split; auto.
Qed.

Context `{!PreOrder R}.

(** ** Calls whose every change is allowed *)

Definition kept (f : S -> S) : Prop := forall s, I s -> R s (f s) /\ I (f s).
Fixpoint keeping {A} (p : ProgX X S E A) : Prop :=
  match p with
  | Ret _ | Throw _ => True
  | Update f k => kept f /\ keeping k
  | Get k => forall s, keeping (k s)
  | Await _ k => forall a, keeping (k a)
  end.

Lemma keeping_relies {A} (p : ProgX X S E A) o s :
  keeping p -> R o s -> I s -> relies p o s (fun _ o s => R o s /\ I s).
Proof.
  revert o s. induction p as [r|e|f k IH|k IH|B r k IH]; intros o s; cbn [keeping relies]; auto.
  - intros [Hf Hk] HR HI. destruct (Hf s HI) as [H1 H2]. apply IH; [done|by transitivity s|done].
  - intros Hk HR HI. split; [done|]. intros a s' HR' HI'. by apply IH.
Qed.
Lemma keeping_polite (p : ProgX X S E unit) : keeping p -> polite p.
Proof. intros Hp s HI. by apply keeping_relies. Qed.
Lemma keeping_bind {A B} (p : ProgX X S E A) (k : A -> ProgX X S E B) : keeping p -> (forall r, keeping (k r)) -> keeping (bind p k).
Proof. intros Hp Hk. induction p as [r|e|f k' IH|k' IH|C r k' IH]; cbn [bind keeping] in *; naive_solver. Qed.
Lemma keeping_try {A} (p : ProgX X S E A) h : keeping p -> (forall e, keeping (h e)) -> keeping (tryCatch p h).
Proof. intros Hp Hk. induction p as [r|e|f k' IH|k' IH|C r k' IH]; cbn [tryCatch keeping] in *; naive_solver. Qed.
Lemma keeping_await {A : Set} (r : E A) : keeping (await r : ProgX X S E A).
Proof. by intros [x|e]. Qed.
Lemma keeping_update f : kept f -> keeping (update f : ProgX X S E unit).
Proof. by split. Qed.
Lemma keeping_get : keeping (get : ProgX X S E S).
Proof. by intros s. Qed.

(** ** Systems of polite calls *)

Variable start : ProgX X S E unit -> Prop.
Variable answer : S -> forall A : Set, E A -> A + X -> Prop.
Variable event : S -> S -> Prop.
Hypothesis start_polite : forall p, start p -> polite p.
Hypothesis event_polite : forall s s', event s s' -> I s -> R s s' /\ I s'.

(** The call was left in a state that the present one may follow. *)
Definition left_in (s : S) (o : OutcomeX X S E unit) : Prop :=
  match o with
  | Ended _ => False
  | Waiting r k => exists s0, R s0 s /\ forall a s', R s0 s' -> I s' -> relies (k a) s' s' (fun _ o s => R o s /\ I s)
  end.
Definition orderly (m : SystemX X S E) : Prop := I (sys_state m) /\ forall o, o ∈ sys_calls m -> left_in (sys_state m) o.

Lemma left_later s s' o : R s s' -> left_in s o -> left_in s' o.
Proof. destruct o as [|A r k]; [done|]. intros Hs (s0 & H0 & Hk). exists s0. split; [by transitivity s|done]. Qed.

Lemma run_relies {A} (p : ProgX X S E A) o s Q :
  relies p o s Q ->
  match snd (run p s) with
  | Ended r => Q r o (fst (run p s))
  | Waiting r k => (R o (fst (run p s)) /\ I (fst (run p s))) /\
      forall a s', R (fst (run p s)) s' -> I s' -> relies (k a) s' s' Q
  end.
Proof. revert o s. induction p as [r|e|f k IH|k IH|B r k IH]; intros o s; cbn [run relies fst snd]; auto; apply IH. Qed.

Lemma proceed_orderly p s calls :
  I s -> relies p s s (fun _ o s => R o s /\ I s) -> (forall o, o ∈ calls -> left_in s o) ->
  R s (sys_state (proceed p (mkSystem s calls))) /\ orderly (proceed p (mkSystem s calls)).
Proof.
  intros Hs Hp Hcalls. apply run_relies in Hp. unfold proceed, orderly. cbn [sys_state sys_calls] in *.
  destruct (run p s) as [s' [r|A r k]]; cbn [fst snd sys_state sys_calls] in *.
  - destruct Hp as [HR HI]. split; [done|]. split; [done|]. intros o Ho. eapply left_later; [exact HR|by apply Hcalls].
  - destruct Hp as [[HR HI] Hk]. split; [done|]. split; [done|].
    intros o [Ho|Ho%list_elem_of_singleton]%elem_of_app; [eapply left_later; [exact HR|by apply Hcalls]|].
    rewrite Ho. exists s'. split; [reflexivity|done].
Qed.

Lemma step_orderly m m' : orderly m -> sys_step start answer event m m' -> R (sys_state m) (sys_state m') /\ orderly m'.
Proof.
  destruct m as [s calls]. intros [HI Hc] Hstep. cbn [sys_state sys_calls] in *.
  destruct Hstep as [p Hp|i A r k a Hi Ha|s' Hev]; cbn [sys_state sys_calls] in *.
  - apply proceed_orderly; [done|by apply start_polite|done].
  - assert (left_in s (Waiting r k)) as (s0 & H0 & Hk) by (by eapply Hc, list_elem_of_lookup_2).
    apply proceed_orderly; [done|by apply Hk|]. intros o Ho. apply Hc.
    apply list_elem_of_lookup in Ho as [j Hj]. rewrite list_lookup_delete in Hj.
    case_decide; by eapply list_elem_of_lookup_2.
  - destruct (event_polite s s') as [HR HI']; [done..|]. split; [done|]. split; [done|].
    intros o Ho. eapply left_later; [exact HR|by apply Hc].
Qed.

Lemma orderly_later m m' : orderly m -> rtc (sys_step start answer event) m m' -> R (sys_state m) (sys_state m') /\ orderly m'.
Proof.
  intros Ho Hr. revert Ho. induction Hr as [m|m1 m2 m3 Hs Hr IH]; intros Ho; [by split|].
  destruct (step_orderly m1 m2 Ho Hs) as [HR Ho2]. destruct (IH Ho2) as [HR' Ho3].
  split; [by transitivity (sys_state m2)|done].
Qed.

(** In every reachable state the calls in flight were left as they rely on. *)
Lemma reachable_orderly s0 m : I s0 -> rtc (sys_step start answer event) (mkSystem s0 []) m -> orderly m.
Proof. intros H0 Hr. eapply orderly_later; [|exact Hr]. split; [done|by intros o ?%not_elem_of_nil]. Qed.
End Rely.

(** ** At rest

    A flag is down whenever no call is in flight, when a call that raises it
    awaits only where every way on lowers it again. *)

Section Rest.
Context {X : Type} {S : Type} {E : Set -> Type}.
Variable down : S -> Prop.

(** Every end of the call leaves the flag down. *)
Fixpoint lowers {A} (p : ProgX X S E A) (s : S) : Prop :=
  match p with
  | Ret _ | Throw _ => down s
  | Update f k => lowers k (f s)
  | Get k => lowers (k s) s
  | Await _ k => forall a s', lowers (k a) s'
  end.
(** The stretch that began in [o] is in [s]. *)
Fixpoint tidy {A} (p : ProgX X S E A) (o s : S) : Prop :=
  match p with
  | Ret _ | Throw _ => down o -> down s
  | Update f k => tidy k o (f s)
  | Get k => tidy (k s) o s
  | Await _ k => ((down o -> down s) /\ forall a s', tidy (k a) s' s') \/ (forall a s', lowers (k a) s')
  end.

Definition lowering (o : OutcomeX X S E unit) : Prop :=
  match o with Ended _ => False | Waiting r k => forall a s, lowers (k a) s end.
Definition tidying (o : OutcomeX X S E unit) : Prop :=
  match o with Ended _ => False | Waiting r k => forall a s, tidy (k a) s s end.
Definition rested (m : SystemX X S E) : Prop :=
  (down (sys_state m) \/ exists o, o ∈ sys_calls m /\ lowering o) /\
  forall o, o ∈ sys_calls m -> tidying o \/ lowering o.

Lemma run_lowers (p : ProgX X S E unit) s :
  lowers p s -> match snd (run p s) with Ended _ => down (fst (run p s)) | o => lowering o end.
Proof. revert s. induction p as [r|e|f k IH|k IH|A r k IH]; intros s; cbn [lowers run fst snd]; auto; apply IH. Qed.
Lemma run_tidy (p : ProgX X S E unit) o s :
  tidy p o s ->
  match snd (run p s) with
  | Ended _ => down o -> down (fst (run p s))
  | c => ((down o -> down (fst (run p s))) /\ tidying c) \/ lowering c
  end.
Proof. revert s. induction p as [r|e|f k IH|k IH|A r k IH]; intros s; cbn [tidy run fst snd]; auto; apply IH. Qed.

(** A call proceeds beside others, one of which lowers the flag if it is up. *)
Lemma proceed_rested p s calls :
  (lowers p s \/ tidy p s s /\ (down s \/ exists o, o ∈ calls /\ lowering o)) ->
  (forall o, o ∈ calls -> tidying o \/ lowering o) -> rested (proceed p (mkSystem s calls)).
Proof.
  unfold proceed, rested. cbn [sys_state sys_calls]. intros Hp Hcalls.
  assert (forall c, c = snd (run p s) ->
    match c with
    | Ended _ => down (fst (run p s)) \/ exists o, o ∈ calls /\ lowering o
    | c => lowering c \/ tidying c /\ (down (fst (run p s)) \/ exists o, o ∈ calls /\ lowering o)
    end) as Hrun.
  { intros c ->. destruct Hp as [Hp|[Hp Hd]].
    - apply run_lowers in Hp. destruct (snd (run p s)); [by left|by left].
    - apply run_tidy in Hp. destruct (snd (run p s)) as [r|A r k]; [naive_solver|].
      destruct Hp as [[H1 H2]|H2]; [right; split; [done|naive_solver]|by left]. }
  specialize (Hrun _ eq_refl). destruct (run p s) as [s' [r|A r k]]; cbn [fst snd sys_state sys_calls] in *; [by split|].
  split.
  - destruct Hrun as [Hl|[_ [Hd|(o & Ho & Hl)]]]; [right; exists (Waiting r k)|by left|right; exists o]; rewrite elem_of_app, list_elem_of_singleton; auto.
  - intros o [Ho| ->%list_elem_of_singleton]%elem_of_app; [by apply Hcalls|]. destruct Hrun as [Hl|[Ht _]]; auto.
Qed.

Variable start : ProgX X S E unit -> Prop.
Variable answer : S -> forall A : Set, E A -> A + X -> Prop.
Variable event : S -> S -> Prop.
Hypothesis start_tidy : forall p s, start p -> tidy p s s \/ lowers p s.
Hypothesis event_down : forall s s', event s s' -> down s -> down s'.

Lemma elem_of_delete_inv {A} (l : list A) i x y : l !! i = Some x -> y ∈ l -> y = x \/ y ∈ delete i l.
Proof.
  intros Hi Hy. rewrite delete_take_drop, elem_of_app. rewrite <- (take_drop_middle _ _ _ Hi) in Hy.
  apply elem_of_app in Hy as [Hy|[-> |Hy]%elem_of_cons]; auto.
Qed.
Lemma elem_of_delete_sub {A} (l : list A) i y : y ∈ delete i l -> y ∈ l.
Proof. rewrite delete_take_drop, elem_of_app. intros [Hy|Hy]; [by eapply elem_of_take in Hy as (? & ? & _); eapply list_elem_of_lookup_2|]. eapply elem_of_submseteq; [exact Hy|]. apply sublist_submseteq, sublist_drop. Qed.

Lemma step_rested m m' : rested m -> sys_step start answer event m m' -> rested m'.
Proof.
  destruct m as [s calls]. intros [Hd Hc] Hstep. cbn [sys_state sys_calls] in *.
  destruct Hstep as [p Hp|i A r k a Hi Ha|s' Hev]; cbn [sys_state sys_calls] in *.
  - apply proceed_rested; [|done]. destruct (start_tidy p s Hp) as [Ht|Hl]; auto.
  - apply proceed_rested; [|intros o Ho; apply Hc; by eapply elem_of_delete_sub].
    assert (tidying (Waiting r k) \/ lowering (Waiting r k)) as Hk by (by eapply Hc, list_elem_of_lookup_2).
    destruct Hd as [Hd|(o & Ho & Hl)]; [destruct Hk as [Hk|Hk]; [right; split; [apply Hk|by left]|left; apply Hk]|].
    destruct (elem_of_delete_inv _ _ _ _ Hi Ho) as [-> |Ho']; [left; apply Hl|].
    destruct Hk as [Hk|Hk]; [right; split; [apply Hk|right; by exists o]|left; apply Hk].
  - split; [|done]. destruct Hd as [Hd|Hd]; [left; by eapply event_down|by right].
Qed.

(** When no call is in flight the flag is down. *)
Lemma down_at_rest s0 m :
  down s0 -> rtc (sys_step start answer event) (mkSystem s0 []) m -> sys_calls m = [] -> down (sys_state m).
Proof.
  intros H0 Hr Hm. assert (rested m) as [[Hd|(o & Ho & _)] _]; [|done|by rewrite Hm in Ho; apply not_elem_of_nil in Ho].
  assert (rested (mkSystem s0 [])) as Hi by (split; [by left|by intros o ?%not_elem_of_nil]).
  clear Hm H0. revert Hi. induction Hr as [m|m1 m2 m3 Hs Hr IH]; [done|]. intros Hi. apply IH. by eapply step_rested.
Qed.
End Rest.

Create HintDb rely.
#[export] Hint Resolve keeping_bind keeping_try keeping_update keeping_await keeping_get : rely.
#[export] Hint Extern 1 (keeping _ _ (Ret _)) => exact I : rely.
#[export] Hint Extern 1 (forall _, keeping _ _ _) => intros ? : rely.

(** * Changes that a flag keeps apart

    Many forms of the application disable their controls with a flag that is
    set while a change is being saved.  Here is what that gives: in a system of
    calls whose changes start only when the flag is down, keep it up until they
    end, and whose other calls leave it up, at most one change is in flight, and
    none when the flag is down. *)
Local Open Scope list_scope.
Local Open Scope nat_scope.

Section Serial.
Context {X S : Type} {E : Set -> Type}.
Variable locked : S -> bool.
Variable change : forall A : Set, E A -> bool.    (* the requests of changes *)

Notation origin := (fun (A : Set) (r : E A) (a : A + X) (s : S) => locked s).

(** The rest of a change: every request is one of a change and sent with the
    flag up, if it was up when the stretch began ([o]). *)
Definition changing {R} (p : ProgX X S E R) (o : bool) (s : S) : Prop :=
  wp origin (fun o s A r => change A r = true /\ (o = true -> locked s = true)) p o s (fun _ _ _ => True).

(** The rest of another call: it sends no change, and does not take the flag down. *)
Definition quiet {R} (p : ProgX X S E R) (o : bool) (s : S) : Prop :=
  wp origin (fun o s A r => change A r = false /\ (o = true -> locked s = true)) p o s
    (fun _ o s => o = true -> locked s = true).

Definition waits_for_change (c : OutcomeX X S E unit) : bool :=
  match c with Ended _ => false | @Waiting _ _ _ _ A r _ => change A r end.
Definition changes (m : SystemX X S E) : list (OutcomeX X S E unit) := filterb waits_for_change (sys_calls m).

(** What every call in flight goes on to do. *)
Definition behaves (c : OutcomeX X S E unit) : Prop :=
  match c with
  | Ended _ => False
  | @Waiting _ _ _ _ A r k =>
      forall a s, if change A r then changing (k a) (locked s) s else quiet (k a) (locked s) s
  end.

Definition serial (m : SystemX X S E) : Prop :=
  Forall behaves (sys_calls m) /\ length (changes m) <= 1 /\
  (changes m <> [] -> locked (sys_state m) = true).

Variable start : ProgX X S E unit -> Prop.
Variable answer : S -> forall A : Set, E A -> A + X -> Prop.
Hypothesis start_guarded : forall p s, start p ->
  quiet p (locked s) s \/ (locked s = false /\ changing p true s).

Lemma changes_app s calls c :
  length (changes (mkSystem s (calls ++ [c]))) =
  length (changes (mkSystem s calls)) + (if waits_for_change c then 1 else 0).
Proof.
  unfold changes. cbn [sys_calls]. rewrite filterb_app, length_app. f_equal. cbn. by destruct (waits_for_change c).
Qed.

Lemma no_change_appended s s' calls c :
  changes (mkSystem s (calls ++ [c])) <> [] -> changes (mkSystem s' calls) = [] -> waits_for_change c = true.
Proof.
  unfold changes. cbn [sys_calls]. rewrite filterb_app. intros Hc He. rewrite He in Hc. cbn in Hc. by destruct (waits_for_change c).
Qed.

(** A quiet stretch keeps the system serial. *)
Lemma quiet_serial p s calls :
  serial (mkSystem s calls) -> quiet p (locked s) s -> serial (proceed p (mkSystem s calls)).
Proof.
  intros (H1 & H2 & H3) Hp. apply wp_run in Hp. unfold proceed. cbn [sys_state sys_calls] in *.
  destruct (run p s) as [s' [r|A r k]]; cbn [fst snd] in Hp.
  - split; [done|]. split; [exact H2|]. intros Hc. apply Hp. by apply H3.
  - destruct Hp as [[Hr Hl] Hk]. split; [|split]; cbn [sys_state sys_calls].
    + apply Forall_app. split; [done|]. constructor; [|done]. cbn. intros a s2. rewrite Hr. apply Hk.
    + rewrite changes_app. cbn [waits_for_change]. rewrite Hr. unfold changes in *. cbn [sys_calls] in *. lia.
    + intros Hc. apply Hl, H3. intros E'. pose proof (no_change_appended s' s calls _ Hc E') as Hw.
      cbn in Hw. by rewrite Hr in Hw.
Qed.

(** So does a stretch of a change when no other change is in flight. *)
Lemma changing_serial p s calls :
  Forall behaves calls -> changes (mkSystem s calls) = [] -> changing p true s ->
  serial (proceed p (mkSystem s calls)).
Proof.
  intros H1 H2 Hp. apply wp_run in Hp. unfold proceed. cbn [sys_state sys_calls] in *.
  assert (forall s', changes (mkSystem s' calls) = []) as H2' by (intros s'; exact H2).
  destruct (run p s) as [s' [r|A r k]]; cbn [fst snd] in Hp.
  - split; [done|]. rewrite H2'. split; [cbn; lia|done].
  - destruct Hp as [[Hr Hl] Hk]. split; [|split]; cbn [sys_state sys_calls].
    + apply Forall_app. split; [done|]. constructor; [|done]. cbn. intros a s2. rewrite Hr. apply Hk.
    + rewrite changes_app, H2'. cbn [waits_for_change]. rewrite Hr. cbn. lia.
    + intros _. by apply Hl.
Qed.

Lemma delete_changes calls i c s :
  calls !! i = Some c ->
  length (changes (mkSystem s calls)) =
  length (changes (mkSystem s (delete i calls))) + (if waits_for_change c then 1 else 0).
Proof.
  intros Hi. unfold changes. cbn [sys_calls].
  rewrite <- (take_drop_middle calls i c Hi) at 1. rewrite delete_take_drop, !filterb_app, !length_app. cbn.
  unfold filterb. destruct (waits_for_change c); cbn; lia.
Qed.

Lemma step_serial m m' : sys_step start answer (fun _ _ => False) m m' -> serial m -> serial m'.
Proof.
  intros Hstep (H1 & H2 & H3). destruct m as [s calls]. destruct Hstep as [p Hp|i A r k a Hi Ha|s' []].
  - destruct (start_guarded p s Hp) as [Hq|[Hl Hc]]; [by apply quiet_serial|].
    apply changing_serial; [done| |done]. cbn [sys_state] in H3.
    destruct (changes (mkSystem s calls)); [done|]. rewrite H3 in Hl; done.
  - cbn [sys_state sys_calls] in *. pose proof (delete_changes calls i _ s Hi) as Hd.
    assert (Forall behaves (delete i calls)) as H1'.
    { rewrite Forall_forall in *. intros o Ho. apply H1. apply list_elem_of_lookup in Ho as [j Hj].
      rewrite list_lookup_delete in Hj. case_decide; by eapply list_elem_of_lookup_2. }
    assert (behaves (Waiting r k)) as Hb.
    { rewrite Forall_forall in H1. apply H1. by eapply list_elem_of_lookup_2. }
    specialize (Hb a s). cbn [waits_for_change] in Hd. destruct (change A r) eqn:Hr.
    + assert (changes (mkSystem s (delete i calls)) = []) as Hn.
      { destruct (changes (mkSystem s (delete i calls))); [done|]. cbn [length] in Hd. lia. }
      assert (locked s = true) as Hl.
      { apply H3. intros E'. rewrite E' in Hd. cbn [length] in Hd. lia. }
      rewrite Hl in Hb. by apply changing_serial.
    + apply quiet_serial; [|done]. split; [done|]. split; [lia|]. intros Hc. apply H3. intros E'.
      rewrite E' in Hd. cbn [length] in Hd. destruct (changes (mkSystem s (delete i calls))); [done|]. cbn [length] in Hd. lia.
Qed.

Lemma system_serial s m : rtc (sys_step start answer (fun _ _ => False)) (mkSystem s []) m -> serial m.
Proof.
  intros Hr. refine (rtc_ind_r serial _ _ _ _ Hr).
  - split; [done|]. split; [cbn; lia|done].
  - intros m1 m2 _ Hstep. by apply step_serial.
Qed.

End Serial.
