(* ===== verification/WidgetTexts.v ===== *)
(** * The texts of the AI panel

    [frontend/src/widgets/ai/ai-widget-copy.ts]. *)
From Stdlib Require Import Ascii String.
From stdpp Require Import strings.
From S2P Require Import Prelude JsString RuntimePath.
Local Open Scope string_scope.
Local Open Scope list_scope.
Local Open Scope nat_scope.

(** ** [collapsed] *)

Record AiCollapsedCopy := mkCollapsedCopy {
  acl_activeThread : string;
  acl_collapseAriaLabel : string;
  acl_expandAriaLabel : string;
  acl_modePrefix : string;
  acl_newConversation : string;
  acl_noMessagesYet : string;
  acl_noRoute : string;
  acl_open : string;
  acl_panelAriaLabel : string;
  acl_unchecked : string;
  acl_title : string
}.

Definition collapsedCopy_en : AiCollapsedCopy := {|
  acl_activeThread := "Active thread";
  acl_collapseAriaLabel := "Collapse AI panel";
  acl_expandAriaLabel := "Expand AI panel";
  acl_modePrefix := "Mode";
  acl_newConversation := "New conversation";
  acl_noMessagesYet := "No messages yet";
  acl_noRoute := "No route";
  acl_open := "Open";
  acl_panelAriaLabel := "AI work panel";
  acl_unchecked := "Unchecked";
  acl_title := "AI work panel"
|}.

Definition collapsedCopy_ru : AiCollapsedCopy := {|
  acl_activeThread := "Активный диалог";
  acl_collapseAriaLabel := "Свернуть AI-панель";
  acl_expandAriaLabel := "Развернуть AI-панель";
  acl_modePrefix := "Режим";
  acl_newConversation := "Новый диалог";
  acl_noMessagesYet := "Сообщений пока нет";
  acl_noRoute := "Маршрут не выбран";
  acl_open := "Открыть";
  acl_panelAriaLabel := "Рабочая AI-панель";
  acl_unchecked := "Не проверено";
  acl_title := "Рабочая AI-панель"
|}.

Definition collapsedCopy_zh_CN : AiCollapsedCopy := {|
  acl_activeThread := "活动会话";
  acl_collapseAriaLabel := "折叠 AI 面板";
  acl_expandAriaLabel := "展开 AI 面板";
  acl_modePrefix := "模式";
  acl_newConversation := "新会话";
  acl_noMessagesYet := "还没有消息";
  acl_noRoute := "未选择路由";
  acl_open := "打开";
  acl_panelAriaLabel := "AI 工作面板";
  acl_unchecked := "未检查";
  acl_title := "AI 工作面板"
|}.

Definition collapsedCopy_es : AiCollapsedCopy := {|
  acl_activeThread := "Conversación activa";
  acl_collapseAriaLabel := "Contraer panel de IA";
  acl_expandAriaLabel := "Expandir panel de IA";
  acl_modePrefix := "Modo";
  acl_newConversation := "Nueva conversación";
  acl_noMessagesYet := "Sin mensajes todavía";
  acl_noRoute := "Sin ruta";
  acl_open := "Abrir";
  acl_panelAriaLabel := "Panel de trabajo IA";
  acl_unchecked := "Sin comprobar";
  acl_title := "Panel de trabajo IA"
|}.

Definition collapsedCopy (locale : AppLocale) : AiCollapsedCopy :=
  match locale with
  | LocaleEn => collapsedCopy_en
  | LocaleRu => collapsedCopy_ru
  | LocaleZhCN => collapsedCopy_zh_CN
  | LocaleEs => collapsedCopy_es
  end.

(** ** [composer] *)

Record AiComposerCopy := mkComposerCopy {
  acm_allWidgets : string;
  acm_attachments : string;
  acm_cancelResponseAriaLabel : string;
  acm_composerOptionsAriaLabel : string;
  acm_contextBadge : nat -> string;
  acm_contextBadgeOff : string;
  acm_contextOff : string;
  acm_contextWidgets : string;
  acm_contextWidgetsDialog : string;
  acm_current : string;
  acm_currentPrefix : string;
  acm_deleteStoredAttachmentAriaLabel : string -> string;
  acm_excludedFromRequest : string;
  acm_missingSavedWidgets : nat -> string;
  acm_noActiveWidget : string;
  acm_noWidgetsSelected : string;
  acm_onlyCurrent : string;
  acm_recentAttachments : string;
  acm_recentAttachmentsLoading : string;
  acm_removeAttachmentAriaLabel : string -> string;
  acm_removeContextAriaLabel : string -> string;
  acm_requestContext : string;
  acm_reuseAttachmentAriaLabel : string -> string;
  acm_saveCleanedContext : string;
  acm_searchWidgetsPlaceholder : string;
  acm_selected : string;
  acm_selectedCount : nat -> string;
  acm_selectedForRequest : string;
  acm_sendPromptAriaLabel : string;
  acm_tuneAriaLabel : string;
  acm_tuneDescription : string;
  acm_tuneFallback : string;
  acm_useCurrent : string;
  acm_useCurrentWidgetHint : string;
  acm_useDefault : string;
  acm_useWidgetContextDescription : string;
  acm_useWidgetContextLabel : string;
  acm_widgetCount : nat -> string;
  acm_widgetsLabel : string;
  acm_providerAriaLabel : string;
  acm_modelAriaLabel : string;
  acm_profileAriaLabel : string;
  acm_roleAriaLabel : string;
  acm_modeAriaLabel : string
}.

Definition composerCopy_en : AiComposerCopy := {|
  acm_allWidgets := "All widgets";
  acm_attachments := "Attachments";
  acm_cancelResponseAriaLabel := "Cancel response";
  acm_composerOptionsAriaLabel := "Composer options";
  acm_contextBadge count := showNat count +:+ " ctx";
  acm_contextBadgeOff := "ctx off";
  acm_contextOff := "Context off";
  acm_contextWidgets := "Context widgets";
  acm_contextWidgetsDialog := "Context widgets";
  acm_current := "Current";
  acm_currentPrefix := "Current:";
  acm_deleteStoredAttachmentAriaLabel name := "Delete stored attachment " +:+ name;
  acm_excludedFromRequest := "Excluded from request";
  acm_missingSavedWidgets count := if bool_decide (count = 1) then "1 saved widget is no longer available in this workspace." else showNat count +:+ " saved widgets are no longer available in this workspace.";
  acm_noActiveWidget := "No active widget";
  acm_noWidgetsSelected := "No widgets selected";
  acm_onlyCurrent := "Only current";
  acm_recentAttachments := "Recent attachments";
  acm_recentAttachmentsLoading := "Recent attachments · loading";
  acm_removeAttachmentAriaLabel name := "Remove attachment " +:+ name;
  acm_removeContextAriaLabel name := "Remove " +:+ name +:+ " from request context";
  acm_requestContext := "Request context";
  acm_reuseAttachmentAriaLabel name := "Reuse attachment " +:+ name;
  acm_saveCleanedContext := "Save cleaned context";
  acm_searchWidgetsPlaceholder := "Search widgets";
  acm_selected := "Selected";
  acm_selectedCount count := showNat count +:+ " widget" +:+ (if bool_decide (count = 1) then "" else "s") +:+ " selected";
  acm_selectedForRequest := "Selected for this request";
  acm_sendPromptAriaLabel := "Send prompt";
  acm_tuneAriaLabel := "Agent tuning";
  acm_tuneDescription := "Profile, role, and mode stay available without consuming the whole toolbar row.";
  acm_tuneFallback := "Tune";
  acm_useCurrent := "Use current";
  acm_useCurrentWidgetHint := "Use current widget or pick specific widgets";
  acm_useDefault := "Use default";
  acm_useWidgetContextDescription := "Include selected workspace widgets in the AI request context.";
  acm_useWidgetContextLabel := "Use widget context";
  acm_widgetCount count := if bool_decide (count = 1) then "1 widget" else showNat count +:+ " widgets";
  acm_widgetsLabel := "Widgets";
  acm_providerAriaLabel := "AI provider";
  acm_modelAriaLabel := "AI model";
  acm_profileAriaLabel := "Agent profile";
  acm_roleAriaLabel := "Agent role";
  acm_modeAriaLabel := "Agent mode"
|}.

Definition composerCopy_ru : AiComposerCopy := {|
  acm_allWidgets := "Все виджеты";
  acm_attachments := "Вложения";
  acm_cancelResponseAriaLabel := "Отменить ответ";
  acm_composerOptionsAriaLabel := "Параметры composer";
  acm_contextBadge count := showNat count +:+ " конт.";
  acm_contextBadgeOff := "конт. выкл.";
  acm_contextOff := "Контекст выключен";
  acm_contextWidgets := "Виджеты контекста";
  acm_contextWidgetsDialog := "Виджеты контекста";
  acm_current := "Текущий";
  acm_currentPrefix := "Текущий:";
  acm_deleteStoredAttachmentAriaLabel name := "Удалить сохраненное вложение " +:+ name;
  acm_excludedFromRequest := "Не включается в запрос";
  acm_missingSavedWidgets count := if bool_decide (count = 1) then "1 сохраненный виджет больше недоступен в этом workspace." else showNat count +:+ " сохраненных виджетов больше недоступны в этом workspace.";
  acm_noActiveWidget := "Нет активного виджета";
  acm_noWidgetsSelected := "Виджеты не выбраны";
  acm_onlyCurrent := "Только текущий";
  acm_recentAttachments := "Недавние вложения";
  acm_recentAttachmentsLoading := "Недавние вложения · загрузка";
  acm_removeAttachmentAriaLabel name := "Удалить вложение " +:+ name;
  acm_removeContextAriaLabel name := "Убрать " +:+ name +:+ " из контекста запроса";
  acm_requestContext := "Контекст запроса";
  acm_reuseAttachmentAriaLabel name := "Использовать вложение " +:+ name +:+ " повторно";
  acm_saveCleanedContext := "Сохранить очищенный контекст";
  acm_searchWidgetsPlaceholder := "Поиск виджетов";
  acm_selected := "Выбрано";
  acm_selectedCount count := showNat count +:+ " виджет" +:+ (if bool_decide (count = 1) then "" else "ов") +:+ " выбрано";
  acm_selectedForRequest := "Выбрано для этого запроса";
  acm_sendPromptAriaLabel := "Отправить prompt";
  acm_tuneAriaLabel := "Настройка агента";
  acm_tuneDescription := "Профиль, роль и режим доступны без растягивания всей панели инструментов.";
  acm_tuneFallback := "Настройка";
  acm_useCurrent := "Использовать текущий";
  acm_useCurrentWidgetHint := "Используйте текущий виджет или выберите конкретные виджеты";
  acm_useDefault := "По умолчанию";
  acm_useWidgetContextDescription := "Включать выбранные workspace-виджеты в контекст AI-запроса.";
  acm_useWidgetContextLabel := "Использовать контекст виджетов";
  acm_widgetCount count := if bool_decide (count = 1) then "1 виджет" else showNat count +:+ " виджетов";
  acm_widgetsLabel := "Виджеты";
  acm_providerAriaLabel := "AI-провайдер";
  acm_modelAriaLabel := "AI-модель";
  acm_profileAriaLabel := "Профиль агента";
  acm_roleAriaLabel := "Роль агента";
  acm_modeAriaLabel := "Режим агента"
|}.

Definition composerCopy_zh_CN : AiComposerCopy := {|
  acm_allWidgets := "全部部件";
  acm_attachments := "附件";
  acm_cancelResponseAriaLabel := "取消响应";
  acm_composerOptionsAriaLabel := "编写器选项";
  acm_contextBadge count := showNat count +:+ " 上下文";
  acm_contextBadgeOff := "上下文关闭";
  acm_contextOff := "上下文关闭";
  acm_contextWidgets := "上下文部件";
  acm_contextWidgetsDialog := "上下文部件";
  acm_current := "当前";
  acm_currentPrefix := "当前：";
  acm_deleteStoredAttachmentAriaLabel name := "删除已保存附件 " +:+ name;
  acm_excludedFromRequest := "不包含在请求中";
  acm_missingSavedWidgets count := showNat count +:+ " 个已保存部件在此工作区中不再可用。";
  acm_noActiveWidget := "没有活动部件";
  acm_noWidgetsSelected := "未选择部件";
  acm_onlyCurrent := "仅当前";
  acm_recentAttachments := "最近附件";
  acm_recentAttachmentsLoading := "最近附件 · 加载中";
  acm_removeAttachmentAriaLabel name := "移除附件 " +:+ name;
  acm_removeContextAriaLabel name := "从请求上下文中移除 " +:+ name;
  acm_requestContext := "请求上下文";
  acm_reuseAttachmentAriaLabel name := "复用附件 " +:+ name;
  acm_saveCleanedContext := "保存清理后的上下文";
  acm_searchWidgetsPlaceholder := "搜索部件";
  acm_selected := "已选择";
  acm_selectedCount count := "已选择 " +:+ showNat count +:+ " 个部件";
  acm_selectedForRequest := "已为此请求选择";
  acm_sendPromptAriaLabel := "发送提示";
  acm_tuneAriaLabel := "代理调优";
  acm_tuneDescription := "配置文件、角色和模式保持可用，不占满整行工具栏。";
  acm_tuneFallback := "调优";
  acm_useCurrent := "使用当前";
  acm_useCurrentWidgetHint := "使用当前部件或选择特定部件";
  acm_useDefault := "使用默认值";
  acm_useWidgetContextDescription := "在 AI 请求上下文中包含所选工作区部件。";
  acm_useWidgetContextLabel := "使用部件上下文";
  acm_widgetCount count := showNat count +:+ " 个部件";
  acm_widgetsLabel := "部件";
  acm_providerAriaLabel := "AI 提供方";
  acm_modelAriaLabel := "AI 模型";
  acm_profileAriaLabel := "代理配置";
  acm_roleAriaLabel := "代理角色";
  acm_modeAriaLabel := "代理模式"
|}.

Definition composerCopy_es : AiComposerCopy := {|
  acm_allWidgets := "Todos los widgets";
  acm_attachments := "Adjuntos";
  acm_cancelResponseAriaLabel := "Cancelar respuesta";
  acm_composerOptionsAriaLabel := "Opciones del composer";
  acm_contextBadge count := showNat count +:+ " ctx";
  acm_contextBadgeOff := "ctx desact.";
  acm_contextOff := "Contexto desactivado";
  acm_contextWidgets := "Widgets de contexto";
  acm_contextWidgetsDialog := "Widgets de contexto";
  acm_current := "Actual";
  acm_currentPrefix := "Actual:";
  acm_deleteStoredAttachmentAriaLabel name := "Eliminar adjunto guardado " +:+ name;
  acm_excludedFromRequest := "Excluido de la solicitud";
  acm_missingSavedWidgets count := if bool_decide (count = 1) then "1 widget guardado ya no esta disponible en este workspace." else showNat count +:+ " widgets guardados ya no estan disponibles en este workspace.";
  acm_noActiveWidget := "Sin widget activo";
  acm_noWidgetsSelected := "No hay widgets seleccionados";
  acm_onlyCurrent := "Solo actual";
  acm_recentAttachments := "Adjuntos recientes";
  acm_recentAttachmentsLoading := "Adjuntos recientes · cargando";
  acm_removeAttachmentAriaLabel name := "Quitar adjunto " +:+ name;
  acm_removeContextAriaLabel name := "Quitar " +:+ name +:+ " del contexto de la solicitud";
  acm_requestContext := "Contexto de solicitud";
  acm_reuseAttachmentAriaLabel name := "Reutilizar adjunto " +:+ name;
  acm_saveCleanedContext := "Guardar contexto limpio";
  acm_searchWidgetsPlaceholder := "Buscar widgets";
  acm_selected := "Seleccionado";
  acm_selectedCount count := showNat count +:+ " widget" +:+ (if bool_decide (count = 1) then "" else "s") +:+ " seleccionados";
  acm_selectedForRequest := "Seleccionado para esta solicitud";
  acm_sendPromptAriaLabel := "Enviar prompt";
  acm_tuneAriaLabel := "Ajustes del agente";
  acm_tuneDescription := "El perfil, el rol y el modo siguen disponibles sin ocupar toda la fila.";
  acm_tuneFallback := "Ajustes";
  acm_useCurrent := "Usar actual";
  acm_useCurrentWidgetHint := "Usa el widget actual o elige widgets especificos";
  acm_useDefault := "Usar predeterminado";
  acm_useWidgetContextDescription := "Incluye widgets seleccionados del workspace en el contexto de IA.";
  acm_useWidgetContextLabel := "Usar contexto de widgets";
  acm_widgetCount count := if bool_decide (count = 1) then "1 widget" else showNat count +:+ " widgets";
  acm_widgetsLabel := "Widgets";
  acm_providerAriaLabel := "Proveedor de IA";
  acm_modelAriaLabel := "Modelo de IA";
  acm_profileAriaLabel := "Perfil del agente";
  acm_roleAriaLabel := "Rol del agente";
  acm_modeAriaLabel := "Modo del agente"
|}.

Definition composerCopy (locale : AppLocale) : AiComposerCopy :=
  match locale with
  | LocaleEn => composerCopy_en
  | LocaleRu => composerCopy_ru
  | LocaleZhCN => composerCopy_zh_CN
  | LocaleEs => composerCopy_es
  end.

(** ** [conversation] *)

Record AiConversationCopy := mkConversationCopy {
  acv_activeSummaryAriaLabel : string;
  acv_activeThread : string;
  acv_allScopeLabel : nat -> string;
  acv_allScopeAriaLabel : string;
  acv_archivedAtPrefix : string;
  acv_archivedBadge : string;
  acv_archivedScopeLabel : nat -> string;
  acv_archivedScopeAriaLabel : string;
  acv_archivedSection : string;
  acv_archivedThreadsSection : string;
  acv_archive : string;
  acv_archiveConversationAriaLabel : string;
  acv_archiveConversationTitle : string;
  acv_archiveRowAriaLabel : string -> string;
  acv_cancel : string;
  acv_cancelDeleteAriaLabel : string;
  acv_cancelRenameAriaLabel : string;
  acv_confirmDeleteAriaLabel : string;
  acv_conversationLabel : string;
  acv_conversationListAriaLabel : string;
  acv_conversationMenuAriaLabel : string;
  acv_conversationNavigatorAriaLabel : string;
  acv_conversationTitleAriaLabel : string;
  acv_conversationsTitle : string;
  acv_createConversationAriaLabel : string;
  acv_delete : string;
  acv_deleteConversationAriaLabel : string;
  acv_deleteConversationDescription : string;
  acv_deleteConversationTitle : string;
  acv_deleteRowAriaLabel : string -> string;
  acv_loadingConversations : string;
  acv_messageCount : nat -> string;
  acv_new : string;
  acv_newConversation : string;
  acv_noMatches : string;
  acv_openBadge : string;
  acv_openConversationAriaLabel : string -> string;
  acv_openConversationDetailAriaLabel : string -> string -> string -> string;
  acv_openThreadsSection : string;
  acv_recentScopeLabel : nat -> string;
  acv_recentScopeAriaLabel : string;
  acv_recentThreadList : string;
  acv_recentSection : string;
  acv_rename : string;
  acv_renameActiveConversationTitle : string;
  acv_renameConversationAriaLabel : string;
  acv_restore : string;
  acv_restoreConversationAriaLabel : string;
  acv_restoreConversationTitle : string;
  acv_restoreRowAriaLabel : string -> string;
  acv_save : string;
  acv_saveConversationTitleAriaLabel : string;
  acv_searchConversationsAriaLabel : string;
  acv_searchConversationsPlaceholder : string;
  acv_shownCount : nat -> string;
  acv_threadCount : nat -> string;
  acv_unknownActivity : string
}.

Definition conversationCopy_en : AiConversationCopy := {|
  acv_activeSummaryAriaLabel := "Active conversation summary";
  acv_activeThread := "Active thread";
  acv_allScopeLabel count := "All " +:+ showNat count;
  acv_allScopeAriaLabel := "Show all conversations";
  acv_archivedAtPrefix := "Archived";
  acv_archivedBadge := "Archived";
  acv_archivedScopeLabel count := "Archived " +:+ showNat count;
  acv_archivedScopeAriaLabel := "Show archived conversations";
  acv_archivedSection := "Archived";
  acv_archivedThreadsSection := "Archived threads";
  acv_archive := "Archive";
  acv_archiveConversationAriaLabel := "Archive conversation";
  acv_archiveConversationTitle := "Archive conversation";
  acv_archiveRowAriaLabel title := "Archive conversation " +:+ title;
  acv_cancel := "Cancel";
  acv_cancelDeleteAriaLabel := "Cancel delete";
  acv_cancelRenameAriaLabel := "Cancel rename";
  acv_confirmDeleteAriaLabel := "Confirm delete conversation";
  acv_conversationLabel := "Conversation";
  acv_conversationListAriaLabel := "Conversation list";
  acv_conversationMenuAriaLabel := "Conversation menu";
  acv_conversationNavigatorAriaLabel := "Conversation navigator";
  acv_conversationTitleAriaLabel := "Conversation title";
  acv_conversationsTitle := "Conversations";
  acv_createConversationAriaLabel := "Create conversation";
  acv_delete := "Delete";
  acv_deleteConversationAriaLabel := "Delete conversation";
  acv_deleteConversationDescription := "This removes the thread from the database and switches the panel to the next available conversation.";
  acv_deleteConversationTitle := "Delete conversation";
  acv_deleteRowAriaLabel title := "Delete conversation " +:+ title;
  acv_loadingConversations := "Loading conversations";
  acv_messageCount count := if bool_decide (count = 1) then "1 msg" else showNat count +:+ " msgs";
  acv_new := "New";
  acv_newConversation := "New conversation";
  acv_noMatches := "No conversations match this filter.";
  acv_openBadge := "Open";
  acv_openConversationAriaLabel title := "Open conversation " +:+ title;
  acv_openConversationDetailAriaLabel title messageCount updatedAt := "Open conversation " +:+ title +:+ " · " +:+ messageCount +:+ " · " +:+ updatedAt;
  acv_openThreadsSection := "Open threads";
  acv_recentScopeLabel count := "Open " +:+ showNat count;
  acv_recentScopeAriaLabel := "Show recent conversations";
  acv_recentThreadList := "Recent thread list";
  acv_recentSection := "Recent";
  acv_rename := "Rename";
  acv_renameActiveConversationTitle := "Rename active conversation";
  acv_renameConversationAriaLabel := "Rename conversation";
  acv_restore := "Restore";
  acv_restoreConversationAriaLabel := "Restore conversation";
  acv_restoreConversationTitle := "Restore conversation";
  acv_restoreRowAriaLabel title := "Restore conversation " +:+ title;
  acv_save := "Save";
  acv_saveConversationTitleAriaLabel := "Save conversation title";
  acv_searchConversationsAriaLabel := "Search conversations";
  acv_searchConversationsPlaceholder := "Search conversations";
  acv_shownCount count := showNat count +:+ " shown";
  acv_threadCount count := if bool_decide (count = 1) then "1 thread" else showNat count +:+ " threads";
  acv_unknownActivity := "Unknown activity"
|}.

Definition conversationCopy_ru : AiConversationCopy := {|
  acv_activeSummaryAriaLabel := "Сводка активного диалога";
  acv_activeThread := "Активный диалог";
  acv_allScopeLabel count := "Все " +:+ showNat count;
  acv_allScopeAriaLabel := "Показать все диалоги";
  acv_archivedAtPrefix := "В архиве";
  acv_archivedBadge := "В архиве";
  acv_archivedScopeLabel count := "Архив " +:+ showNat count;
  acv_archivedScopeAriaLabel := "Показать архивные диалоги";
  acv_archivedSection := "Архив";
  acv_archivedThreadsSection := "Архивные диалоги";
  acv_archive := "В архив";
  acv_archiveConversationAriaLabel := "Архивировать диалог";
  acv_archiveConversationTitle := "Архивировать диалог";
  acv_archiveRowAriaLabel title := "Архивировать диалог " +:+ title;
  acv_cancel := "Отмена";
  acv_cancelDeleteAriaLabel := "Отменить удаление";
  acv_cancelRenameAriaLabel := "Отменить переименование";
  acv_confirmDeleteAriaLabel := "Подтвердить удаление диалога";
  acv_conversationLabel := "Диалог";
  acv_conversationListAriaLabel := "Список диалогов";
  acv_conversationMenuAriaLabel := "Меню диалогов";
  acv_conversationNavigatorAriaLabel := "Навигатор диалогов";
  acv_conversationTitleAriaLabel := "Название диалога";
  acv_conversationsTitle := "Диалоги";
  acv_createConversationAriaLabel := "Создать диалог";
  acv_delete := "Удалить";
  acv_deleteConversationAriaLabel := "Удалить диалог";
  acv_deleteConversationDescription := "Диалог будет удален из базы данных, а панель переключится на следующий доступный диалог.";
  acv_deleteConversationTitle := "Удалить диалог";
  acv_deleteRowAriaLabel title := "Удалить диалог " +:+ title;
  acv_loadingConversations := "Загрузка диалогов";
  acv_messageCount count := if bool_decide (count = 1) then "1 сообщение" else showNat count +:+ " сообщений";
  acv_new := "Новый";
  acv_newConversation := "Новый диалог";
  acv_noMatches := "Нет диалогов по этому фильтру.";
  acv_openBadge := "Открыт";
  acv_openConversationAriaLabel title := "Открыть диалог " +:+ title;
  acv_openConversationDetailAriaLabel title messageCount updatedAt := "Открыть диалог " +:+ title +:+ " · " +:+ messageCount +:+ " · " +:+ updatedAt;
  acv_openThreadsSection := "Открытые диалоги";
  acv_recentScopeLabel count := "Открыто " +:+ showNat count;
  acv_recentScopeAriaLabel := "Показать недавние диалоги";
  acv_recentThreadList := "Список недавних диалогов";
  acv_recentSection := "Недавние";
  acv_rename := "Переименовать";
  acv_renameActiveConversationTitle := "Переименовать активный диалог";
  acv_renameConversationAriaLabel := "Переименовать диалог";
  acv_restore := "Восстановить";
  acv_restoreConversationAriaLabel := "Восстановить диалог";
  acv_restoreConversationTitle := "Восстановить диалог";
  acv_restoreRowAriaLabel title := "Восстановить диалог " +:+ title;
  acv_save := "Сохранить";
  acv_saveConversationTitleAriaLabel := "Сохранить название диалога";
  acv_searchConversationsAriaLabel := "Поиск диалогов";
  acv_searchConversationsPlaceholder := "Поиск диалогов";
  acv_shownCount count := "показано " +:+ showNat count;
  acv_threadCount count := if bool_decide (count = 1) then "1 диалог" else showNat count +:+ " диалогов";
  acv_unknownActivity := "Активность неизвестна"
|}.

Definition conversationCopy_zh_CN : AiConversationCopy := {|
  acv_activeSummaryAriaLabel := "活动会话摘要";
  acv_activeThread := "活动会话";
  acv_allScopeLabel count := "全部 " +:+ showNat count;
  acv_allScopeAriaLabel := "显示全部会话";
  acv_archivedAtPrefix := "已归档";
  acv_archivedBadge := "已归档";
  acv_archivedScopeLabel count := "已归档 " +:+ showNat count;
  acv_archivedScopeAriaLabel := "显示已归档会话";
  acv_archivedSection := "已归档";
  acv_archivedThreadsSection := "已归档会话";
  acv_archive := "归档";
  acv_archiveConversationAriaLabel := "归档会话";
  acv_archiveConversationTitle := "归档会话";
  acv_archiveRowAriaLabel title := "归档会话 " +:+ title;
  acv_cancel := "取消";
  acv_cancelDeleteAriaLabel := "取消删除";
  acv_cancelRenameAriaLabel := "取消重命名";
  acv_confirmDeleteAriaLabel := "确认删除会话";
  acv_conversationLabel := "会话";
  acv_conversationListAriaLabel := "会话列表";
  acv_conversationMenuAriaLabel := "会话菜单";
  acv_conversationNavigatorAriaLabel := "会话导航器";
  acv_conversationTitleAriaLabel := "会话标题";
  acv_conversationsTitle := "会话";
  acv_createConversationAriaLabel := "创建会话";
  acv_delete := "删除";
  acv_deleteConversationAriaLabel := "删除会话";
  acv_deleteConversationDescription := "这会从数据库中移除此会话，并将面板切换到下一个可用会话。";
  acv_deleteConversationTitle := "删除会话";
  acv_deleteRowAriaLabel title := "删除会话 " +:+ title;
  acv_loadingConversations := "正在加载会话";
  acv_messageCount count := showNat count +:+ " 条消息";
  acv_new := "新建";
  acv_newConversation := "新会话";
  acv_noMatches := "没有匹配此筛选条件的会话。";
  acv_openBadge := "打开";
  acv_openConversationAriaLabel title := "打开会话 " +:+ title;
  acv_openConversationDetailAriaLabel title messageCount updatedAt := "打开会话 " +:+ title +:+ " · " +:+ messageCount +:+ " · " +:+ updatedAt;
  acv_openThreadsSection := "打开的会话";
  acv_recentScopeLabel count := "打开 " +:+ showNat count;
  acv_recentScopeAriaLabel := "显示最近会话";
  acv_recentThreadList := "最近会话列表";
  acv_recentSection := "最近";
  acv_rename := "重命名";
  acv_renameActiveConversationTitle := "重命名活动会话";
  acv_renameConversationAriaLabel := "重命名会话";
  acv_restore := "恢复";
  acv_restoreConversationAriaLabel := "恢复会话";
  acv_restoreConversationTitle := "恢复会话";
  acv_restoreRowAriaLabel title := "恢复会话 " +:+ title;
  acv_save := "保存";
  acv_saveConversationTitleAriaLabel := "保存会话标题";
  acv_searchConversationsAriaLabel := "搜索会话";
  acv_searchConversationsPlaceholder := "搜索会话";
  acv_shownCount count := "显示 " +:+ showNat count;
  acv_threadCount count := showNat count +:+ " 个会话";
  acv_unknownActivity := "未知活动"
|}.

Definition conversationCopy_es : AiConversationCopy := {|
  acv_activeSummaryAriaLabel := "Resumen de conversacion activa";
  acv_activeThread := "Conversación activa";
  acv_allScopeLabel count := "Todas " +:+ showNat count;
  acv_allScopeAriaLabel := "Mostrar todas las conversaciones";
  acv_archivedAtPrefix := "Archivada";
  acv_archivedBadge := "Archivada";
  acv_archivedScopeLabel count := "Archivadas " +:+ showNat count;
  acv_archivedScopeAriaLabel := "Mostrar conversaciones archivadas";
  acv_archivedSection := "Archivadas";
  acv_archivedThreadsSection := "Conversaciones archivadas";
  acv_archive := "Archivar";
  acv_archiveConversationAriaLabel := "Archivar conversación";
  acv_archiveConversationTitle := "Archivar conversación";
  acv_archiveRowAriaLabel title := "Archivar conversación " +:+ title;
  acv_cancel := "Cancelar";
  acv_cancelDeleteAriaLabel := "Cancelar eliminacion";
  acv_cancelRenameAriaLabel := "Cancelar cambio de nombre";
  acv_confirmDeleteAriaLabel := "Confirmar eliminacion de conversacion";
  acv_conversationLabel := "Conversación";
  acv_conversationListAriaLabel := "Lista de conversaciones";
  acv_conversationMenuAriaLabel := "Menú de conversaciones";
  acv_conversationNavigatorAriaLabel := "Navegador de conversaciones";
  acv_conversationTitleAriaLabel := "Titulo de conversacion";
  acv_conversationsTitle := "Conversaciones";
  acv_createConversationAriaLabel := "Crear conversación";
  acv_delete := "Eliminar";
  acv_deleteConversationAriaLabel := "Eliminar conversación";
  acv_deleteConversationDescription := "Esto elimina la conversacion de la base de datos y cambia el panel a la siguiente disponible.";
  acv_deleteConversationTitle := "Eliminar conversación";
  acv_deleteRowAriaLabel title := "Eliminar conversación " +:+ title;
  acv_loadingConversations := "Cargando conversaciones";
  acv_messageCount count := if bool_decide (count = 1) then "1 mensaje" else showNat count +:+ " mensajes";
  acv_new := "Nueva";
  acv_newConversation := "Nueva conversación";
  acv_noMatches := "Ninguna conversación coincide con este filtro.";
  acv_openBadge := "Abierta";
  acv_openConversationAriaLabel title := "Abrir conversación " +:+ title;
  acv_openConversationDetailAriaLabel title messageCount updatedAt := "Abrir conversación " +:+ title +:+ " · " +:+ messageCount +:+ " · " +:+ updatedAt;
  acv_openThreadsSection := "Conversaciones abiertas";
  acv_recentScopeLabel count := "Abiertas " +:+ showNat count;
  acv_recentScopeAriaLabel := "Mostrar conversaciones recientes";
  acv_recentThreadList := "Lista de conversaciones recientes";
  acv_recentSection := "Recientes";
  acv_rename := "Renombrar";
  acv_renameActiveConversationTitle := "Renombrar conversación activa";
  acv_renameConversationAriaLabel := "Renombrar conversación";
  acv_restore := "Restaurar";
  acv_restoreConversationAriaLabel := "Restaurar conversación";
  acv_restoreConversationTitle := "Restaurar conversación";
  acv_restoreRowAriaLabel title := "Restaurar conversación " +:+ title;
  acv_save := "Guardar";
  acv_saveConversationTitleAriaLabel := "Guardar titulo de conversacion";
  acv_searchConversationsAriaLabel := "Buscar conversaciones";
  acv_searchConversationsPlaceholder := "Buscar conversaciones";
  acv_shownCount count := showNat count +:+ " visibles";
  acv_threadCount count := if bool_decide (count = 1) then "1 conversación" else showNat count +:+ " conversaciones";
  acv_unknownActivity := "Actividad desconocida"
|}.

Definition conversationCopy (locale : AppLocale) : AiConversationCopy :=
  match locale with
  | LocaleEn => conversationCopy_en
  | LocaleRu => conversationCopy_ru
  | LocaleZhCN => conversationCopy_zh_CN
  | LocaleEs => conversationCopy_es
  end.

(** ** [route] *)

Record AiRouteCopy := mkRouteCopy {
  art_firstLatency : nat -> string;
  art_noTelemetry : string;
  art_prepare : string;
  art_prepareLatency : nat -> string;
  art_prepared : string;
  art_probeLatency : nat -> string;
  art_ready : string;
  art_refresh : string;
  art_routeActionAriaLabel : string;
  art_unchecked : string
}.

Definition routeCopy_en : AiRouteCopy := {|
  art_firstLatency ms := "first " +:+ showNat ms +:+ "ms";
  art_noTelemetry := "No route telemetry yet";
  art_prepare := "Prepare";
  art_prepareLatency ms := "prepare " +:+ showNat ms +:+ "ms";
  art_prepared := "Prepared";
  art_probeLatency ms := "probe " +:+ showNat ms +:+ "ms";
  art_ready := "Ready";
  art_refresh := "Refresh";
  art_routeActionAriaLabel := "Route action";
  art_unchecked := "Unchecked"
|}.

Definition routeCopy_ru : AiRouteCopy := {|
  art_firstLatency ms := "первый ответ " +:+ showNat ms +:+ " мс";
  art_noTelemetry := "Телеметрии маршрута пока нет";
  art_prepare := "Подготовить";
  art_prepareLatency ms := "подготовка " +:+ showNat ms +:+ " мс";
  art_prepared := "Подготовлен";
  art_probeLatency ms := "проверка " +:+ showNat ms +:+ " мс";
  art_ready := "Готов";
  art_refresh := "Обновить";
  art_routeActionAriaLabel := "Действие маршрута";
  art_unchecked := "Не проверено"
|}.

Definition routeCopy_zh_CN : AiRouteCopy := {|
  art_firstLatency ms := "首响应 " +:+ showNat ms +:+ " 毫秒";
  art_noTelemetry := "暂无路由遥测";
  art_prepare := "准备";
  art_prepareLatency ms := "准备 " +:+ showNat ms +:+ " 毫秒";
  art_prepared := "已准备";
  art_probeLatency ms := "探测 " +:+ showNat ms +:+ " 毫秒";
  art_ready := "就绪";
  art_refresh := "刷新";
  art_routeActionAriaLabel := "路由操作";
  art_unchecked := "未检查"
|}.

Definition routeCopy_es : AiRouteCopy := {|
  art_firstLatency ms := "primer " +:+ showNat ms +:+ " ms";
  art_noTelemetry := "Aún no hay telemetría de ruta";
  art_prepare := "Preparar";
  art_prepareLatency ms := "preparar " +:+ showNat ms +:+ " ms";
  art_prepared := "Preparada";
  art_probeLatency ms := "probar " +:+ showNat ms +:+ " ms";
  art_ready := "Lista";
  art_refresh := "Actualizar";
  art_routeActionAriaLabel := "Acción de ruta";
  art_unchecked := "Sin comprobar"
|}.

Definition routeCopy (locale : AppLocale) : AiRouteCopy :=
  match locale with
  | LocaleEn => routeCopy_en
  | LocaleRu => routeCopy_ru
  | LocaleZhCN => routeCopy_zh_CN
  | LocaleEs => routeCopy_es
  end.

(** ** [chatModeLabels] and [agentModeLabels] *)

Definition chatModeLabels_en : list (string * string) :=
  [("chat", "chat");
   ("dev", "dev");
   ("debug", "debug")].

Definition chatModeLabels_ru : list (string * string) :=
  [("chat", "чат");
   ("dev", "разработка");
   ("debug", "отладка")].

Definition chatModeLabels_zh_CN : list (string * string) :=
  [("chat", "聊天");
   ("dev", "开发");
   ("debug", "调试")].

Definition chatModeLabels_es : list (string * string) :=
  [("chat", "chat");
   ("dev", "desarrollo");
   ("debug", "depurar")].

Definition chatModeLabels (locale : AppLocale) : list (string * string) :=
  match locale with
  | LocaleEn => chatModeLabels_en
  | LocaleRu => chatModeLabels_ru
  | LocaleZhCN => chatModeLabels_zh_CN
  | LocaleEs => chatModeLabels_es
  end.

Definition agentModeLabels_en : list (string * string) :=
  [("debug", "Debug");
   ("explore", "Explore");
   ("implement", "Implement");
   ("incident", "Incident");
   ("ops", "Ops");
   ("release", "Release");
   ("review", "Review");
   ("secure", "Secure")].

Definition agentModeLabels_ru : list (string * string) :=
  [("debug", "Отладка");
   ("explore", "Исследование");
   ("implement", "Реализация");
   ("incident", "Инцидент");
   ("ops", "Операции");
   ("release", "Релиз");
   ("review", "Ревью");
   ("secure", "Безопасный")].

Definition agentModeLabels_zh_CN : list (string * string) :=
  [("debug", "调试");
   ("explore", "探索");
   ("implement", "实现");
   ("incident", "事件");
   ("ops", "运维");
   ("release", "发布");
   ("review", "审查");
   ("secure", "安全")].

Definition agentModeLabels_es : list (string * string) :=
  [("debug", "Depurar");
   ("explore", "Explorar");
   ("implement", "Implementar");
   ("incident", "Incidente");
   ("ops", "Operaciones");
   ("release", "Lanzamiento");
   ("review", "Revisión");
   ("secure", "Seguro")].

Definition agentModeLabels (locale : AppLocale) : list (string * string) :=
  match locale with
  | LocaleEn => agentModeLabels_en
  | LocaleRu => agentModeLabels_ru
  | LocaleZhCN => agentModeLabels_zh_CN
  | LocaleEs => agentModeLabels_es
  end.

(** [labels[key]] *)
Fixpoint labelOf (key : string) (labels : list (string * string)) : option string :=
  match labels with
  | [] => None
  | (k, label) :: labels' => if bool_decide (k = key) then Some label else labelOf key labels'
  end.

(** ** Modes *)

Inductive ChatMode := ModeChat | ModeDev | ModeDebug.

Definition showChatMode (mode : ChatMode) : string :=
  match mode with ModeChat => "chat" | ModeDev => "dev" | ModeDebug => "debug" end.

Definition formatAiChatModeLabel (mode : ChatMode) (locale : AppLocale) : string :=
  nullish (labelOf (showChatMode mode) (chatModeLabels locale)) (showChatMode mode).

Record AiAgentSelectionOption := mkSelectionOption {
  ao_value : string;
  ao_label : string;
  ao_description : option string
}.

Definition localizeAiAgentModeOption (option : AiAgentSelectionOption) (locale : AppLocale)
    : AiAgentSelectionOption :=
  mkSelectionOption (ao_value option)
    (nullish (labelOf (ao_value option) (agentModeLabels locale)) (ao_label option)) (ao_description option).

(** * The texts of the terminal widget

    [frontend/src/widgets/terminal/terminal-widget-copy.ts], and the texts of
    the toolbar in [shared/ui/components/terminal-toolbar.tsx]. *)
Local Open Scope string_scope.
Local Open Scope list_scope.
Local Open Scope nat_scope.

Record TerminalToolbarCopy := mkToolbarCopy {
  tcy_clearViewportAria : string;
  tcy_closeSearchAria : string;
  tcy_copySelectionAria : string;
  tcy_findNextAria : string;
  tcy_findNextTitle : string;
  tcy_findPreviousAria : string;
  tcy_findPreviousTitle : string;
  tcy_jumpToLatestAria : string;
  tcy_noMatches : string;
  tcy_pasteFromClipboardAria : string;
  tcy_rendererDefault : string;
  tcy_rendererWebgl : string;
  tcy_searchInputAria : string;
  tcy_searchInputPlaceholder : string;
  tcy_searchResultsAria : string;
  tcy_searchShortcutHint : string;
  tcy_toggleSearchAria : string;
  tcy_typeQuery : string
}.

Record TerminalWidgetCopy := mkTerminalCopy {
  wcy_activeSession : string;
  wcy_aiLinked : string;
  wcy_browseSessions : string;
  wcy_browseSessionsAria : string -> string;
  wcy_browseSessionsTitle : string;
  wcy_closeSession : string;
  wcy_closeSessionAria : nat -> string -> string;
  wcy_closeSessionTabAria : nat -> string -> string;
  wcy_closePanelAria : string -> string;
  wcy_closeTerminalTabAria : string -> string;
  wcy_connectionLocal : string;
  wcy_connectionSSH : string;
  wcy_createSessionAria : string -> string;
  wcy_createSessionTitle : string;
  wcy_creatingSession : string;
  wcy_explainAndFix : string;
  wcy_explainAndFixAria : string -> string;
  wcy_explainAndFixLoading : string;
  wcy_explainAndFixPromptIntro : string;
  wcy_explainAndFixTitle : string;
  wcy_explainAndFixUnavailableTitle : string;
  wcy_explainLatestCommandPromptIntro : string;
  wcy_explainCommand : string;
  wcy_explainCommandAria : string -> string;
  wcy_explainingCommand : string;
  wcy_filterSessionsAria : string;
  wcy_filterSessionsPlaceholder : string;
  wcy_focusSession : string;
  wcy_focusSessionAria : nat -> string -> string;
  wcy_focusSessionFromBrowserAria : nat -> string -> string;
  wcy_hideSessions : string;
  wcy_interruptAria : string -> string;
  wcy_interruptTitle : string;
  wcy_interruptingTitle : string;
  wcy_lastExplain : string -> string;
  wcy_latestCommand : string;
  wcy_latestCommandLoadError : string;
  wcy_noCommandObserved : string;
  wcy_noSessionsMatch : string;
  wcy_newSession : string;
  wcy_reconnectShell : string;
  wcy_reconnectStream : string;
  wcy_recoverLocalTitle : string;
  wcy_recoverSessionAria : string -> string;
  wcy_recoverSSHTitle : string;
  wcy_recoverStreamTitle : string;
  wcy_refreshing : string;
  wcy_rerun : string;
  wcy_rerunCommandAria : string -> string;
  wcy_rerunLatestCommandError : string;
  wcy_restartAria : string -> string;
  wcy_restartShell : string;
  wcy_restartTitle : string;
  wcy_restartingTitle : string;
  wcy_responseLanguageInstruction : string;
  wcy_resumeSession : string;
  wcy_runningCommand : string;
  wcy_sessionLabel : nat -> string;
  wcy_terminalSource : string;
  wcy_terminalInputAria : string;
  wcy_terminalCommandApprovalInstruction : string;
  wcy_toolbar : TerminalToolbarCopy
}.

Definition defaultTerminalToolbarCopy : TerminalToolbarCopy := {|
  tcy_clearViewportAria := "Clear terminal viewport";
  tcy_closeSearchAria := "Close terminal search";
  tcy_copySelectionAria := "Copy selection";
  tcy_findNextAria := "Find next match";
  tcy_findNextTitle := "Next match (Enter / F3 / Ctrl+G)";
  tcy_findPreviousAria := "Find previous match";
  tcy_findPreviousTitle := "Previous match (Shift+Enter / Shift+F3 / Shift+Ctrl+G)";
  tcy_jumpToLatestAria := "Jump to latest terminal output";
  tcy_noMatches := "No matches";
  tcy_pasteFromClipboardAria := "Paste from clipboard";
  tcy_rendererDefault := "Default";
  tcy_rendererWebgl := "WebGL";
  tcy_searchInputAria := "Search terminal output";
  tcy_searchInputPlaceholder := "Search output";
  tcy_searchResultsAria := "Terminal search results";
  tcy_searchShortcutHint := "Enter / F3";
  tcy_toggleSearchAria := "Toggle terminal search";
  tcy_typeQuery := "Type query"
|}.

Definition toolbar_terminalWidgetCopyEn : TerminalToolbarCopy := {|
  tcy_clearViewportAria := "Clear terminal viewport";
  tcy_closeSearchAria := "Close terminal search";
  tcy_copySelectionAria := "Copy selection";
  tcy_findNextAria := "Find next match";
  tcy_findNextTitle := "Next match (Enter / F3 / Ctrl+G)";
  tcy_findPreviousAria := "Find previous match";
  tcy_findPreviousTitle := "Previous match (Shift+Enter / Shift+F3 / Shift+Ctrl+G)";
  tcy_jumpToLatestAria := "Jump to latest terminal output";
  tcy_noMatches := "No matches";
  tcy_pasteFromClipboardAria := "Paste from clipboard";
  tcy_rendererDefault := "Default";
  tcy_rendererWebgl := "WebGL";
  tcy_searchInputAria := "Search terminal output";
  tcy_searchInputPlaceholder := "Search output";
  tcy_searchResultsAria := "Terminal search results";
  tcy_searchShortcutHint := "Enter / F3";
  tcy_toggleSearchAria := "Toggle terminal search";
  tcy_typeQuery := "Type query"
|}.

Definition terminalWidgetCopyEn : TerminalWidgetCopy := {|
  wcy_activeSession := "active";
  wcy_aiLinked := "AI-linked";
  wcy_browseSessions := "Browse sessions";
  wcy_browseSessionsAria title := "Browse grouped terminal sessions for " +:+ title;
  wcy_browseSessionsTitle := "Inspect, filter, focus, or close grouped sessions in this terminal widget";
  wcy_closeSession := "Close";
  wcy_closeSessionAria index title := "Close terminal session " +:+ showNat index +:+ " for " +:+ title;
  wcy_closeSessionTabAria index title := "Close terminal session tab " +:+ showNat index +:+ " for " +:+ title;
  wcy_closePanelAria title := "Close " +:+ title;
  wcy_closeTerminalTabAria title := "Close terminal tab for " +:+ title;
  wcy_connectionLocal := "Local";
  wcy_connectionSSH := "SSH";
  wcy_createSessionAria title := "Create another terminal session for " +:+ title;
  wcy_createSessionTitle := "Create a new backend-owned session inside this terminal widget";
  wcy_creatingSession := "Creating...";
  wcy_explainAndFix := "Explain & fix";
  wcy_explainAndFixAria title := "Explain and fix the latest terminal issue for " +:+ title;
  wcy_explainAndFixLoading := "Loading...";
  wcy_explainAndFixPromptIntro := "Review and help explain and fix the latest error in this terminal.";
  wcy_explainAndFixTitle := "Open AI and explain/fix the latest visible terminal issue";
  wcy_explainAndFixUnavailableTitle := "No terminal issue or output is available yet";
  wcy_explainLatestCommandPromptIntro := "Explain the result of the latest terminal command and suggest the next practical step.";
  wcy_explainCommand := "Explain command";
  wcy_explainCommandAria title := "Explain the latest command for " +:+ title;
  wcy_explainingCommand := "Explaining...";
  wcy_filterSessionsAria := "Filter grouped terminal sessions";
  wcy_filterSessionsPlaceholder := "Filter sessions by cwd, shell, or tmux target";
  wcy_focusSession := "Focus";
  wcy_focusSessionAria index title := "Focus terminal session " +:+ showNat index +:+ " for " +:+ title;
  wcy_focusSessionFromBrowserAria index title := "Focus terminal session " +:+ showNat index +:+ " from browser for " +:+ title;
  wcy_hideSessions := "Hide sessions";
  wcy_interruptAria title := "Interrupt terminal for " +:+ title;
  wcy_interruptTitle := "Interrupt terminal";
  wcy_interruptingTitle := "Interrupting terminal...";
  wcy_lastExplain summary := "Last explain: " +:+ summary;
  wcy_latestCommand := "Latest command";
  wcy_latestCommandLoadError := "Unable to load the latest terminal command.";
  wcy_noCommandObserved := "No submitted command has been observed in this terminal session yet.";
  wcy_noSessionsMatch := "No grouped sessions match the current filter.";
  wcy_newSession := "New session";
  wcy_reconnectShell := "Reconnect shell";
  wcy_reconnectStream := "Reconnect stream";
  wcy_recoverLocalTitle := "Recover the current local shell session";
  wcy_recoverSessionAria title := "Recover terminal session for " +:+ title;
  wcy_recoverSSHTitle := "Recover the current SSH-backed shell against the same terminal target";
  wcy_recoverStreamTitle := "Reconnect the live terminal output stream without restarting the shell";
  wcy_refreshing := "Refreshing...";
  wcy_rerun := "Re-run";
  wcy_rerunCommandAria title := "Re-run the latest command for " +:+ title;
  wcy_rerunLatestCommandError := "Unable to rerun the latest terminal command.";
  wcy_restartAria title := "Restart terminal for " +:+ title;
  wcy_restartShell := "Restart shell";
  wcy_restartTitle := "Restart terminal";
  wcy_restartingTitle := "Restarting terminal...";
  wcy_responseLanguageInstruction := "Respond in English.";
  wcy_resumeSession := "Resume session";
  wcy_runningCommand := "Running...";
  wcy_sessionLabel index := "Session " +:+ showNat index;
  wcy_terminalSource := "Terminal";
  wcy_terminalInputAria := "Terminal input";
  wcy_terminalCommandApprovalInstruction := "If fixing requires commands, plan them first and run them only in this terminal after approval.";
  wcy_toolbar := toolbar_terminalWidgetCopyEn
|}.

Definition toolbar_terminalWidgetCopyRu : TerminalToolbarCopy := {|
  tcy_clearViewportAria := "Очистить область терминала";
  tcy_closeSearchAria := "Закрыть поиск в терминале";
  tcy_copySelectionAria := "Скопировать выделение";
  tcy_findNextAria := "Найти следующее совпадение";
  tcy_findNextTitle := "Следующее совпадение (Enter / F3 / Ctrl+G)";
  tcy_findPreviousAria := "Найти предыдущее совпадение";
  tcy_findPreviousTitle := "Предыдущее совпадение (Shift+Enter / Shift+F3 / Shift+Ctrl+G)";
  tcy_jumpToLatestAria := "Перейти к последнему выводу терминала";
  tcy_noMatches := "Нет совпадений";
  tcy_pasteFromClipboardAria := "Вставить из буфера обмена";
  tcy_rendererDefault := "Default";
  tcy_rendererWebgl := "WebGL";
  tcy_searchInputAria := "Поиск в выводе терминала";
  tcy_searchInputPlaceholder := "Искать в выводе";
  tcy_searchResultsAria := "Результаты поиска в терминале";
  tcy_searchShortcutHint := "Enter / F3";
  tcy_toggleSearchAria := "Переключить поиск в терминале";
  tcy_typeQuery := "Введите запрос"
|}.

Definition terminalWidgetCopyRu : TerminalWidgetCopy := {|
  wcy_activeSession := "активна";
  wcy_aiLinked := "Связано с AI";
  wcy_browseSessions := "Сессии";
  wcy_browseSessionsAria title := "Открыть список сгруппированных сессий терминала для " +:+ title;
  wcy_browseSessionsTitle := "Просмотреть, отфильтровать, сфокусировать или закрыть сгруппированные сессии";
  wcy_closeSession := "Закрыть";
  wcy_closeSessionAria index title := "Закрыть сессию терминала " +:+ showNat index +:+ " для " +:+ title;
  wcy_closeSessionTabAria index title := "Закрыть вкладку сессии терминала " +:+ showNat index +:+ " для " +:+ title;
  wcy_closePanelAria title := "Закрыть " +:+ title;
  wcy_closeTerminalTabAria title := "Закрыть вкладку терминала для " +:+ title;
  wcy_connectionLocal := "Локально";
  wcy_connectionSSH := wcy_connectionSSH terminalWidgetCopyEn;
  wcy_createSessionAria title := "Создать ещё одну сессию терминала для " +:+ title;
  wcy_createSessionTitle := "Создать новую backend-owned сессию в этом terminal widget";
  wcy_creatingSession := "Создание...";
  wcy_explainAndFix := "Объяснить";
  wcy_explainAndFixAria title := "Объяснить и исправить последнюю проблему терминала для " +:+ title;
  wcy_explainAndFixLoading := "Загрузка...";
  wcy_explainAndFixPromptIntro := "Проверь и помоги объяснить и исправить последнюю ошибку в этом терминале.";
  wcy_explainAndFixTitle := "Открыть AI и разобрать последнюю видимую проблему терминала";
  wcy_explainAndFixUnavailableTitle := "В терминале пока нет проблемы или вывода";
  wcy_explainLatestCommandPromptIntro := "Объясни результат последней terminal command и предложи следующий практический шаг.";
  wcy_explainCommand := "Объяснить команду";
  wcy_explainCommandAria title := "Объяснить последнюю команду для " +:+ title;
  wcy_explainingCommand := "Объяснение...";
  wcy_filterSessionsAria := "Фильтр сгруппированных сессий терминала";
  wcy_filterSessionsPlaceholder := "Фильтр по cwd, shell или tmux target";
  wcy_focusSession := "Фокус";
  wcy_focusSessionAria index title := "Сфокусировать сессию терминала " +:+ showNat index +:+ " для " +:+ title;
  wcy_focusSessionFromBrowserAria index title := "Сфокусировать сессию терминала " +:+ showNat index +:+ " из списка для " +:+ title;
  wcy_hideSessions := "Скрыть сессии";
  wcy_interruptAria title := "Прервать терминал для " +:+ title;
  wcy_interruptTitle := "Прервать терминал";
  wcy_interruptingTitle := "Прерывание терминала...";
  wcy_lastExplain summary := "Последнее объяснение: " +:+ summary;
  wcy_latestCommand := "Последняя команда";
  wcy_latestCommandLoadError := "Не удалось загрузить последнюю команду терминала.";
  wcy_noCommandObserved := "В этой сессии терминала пока не обнаружена отправленная команда.";
  wcy_noSessionsMatch := "Нет сгруппированных сессий под текущий фильтр.";
  wcy_newSession := "Новая сессия";
  wcy_reconnectShell := "Переподключить shell";
  wcy_reconnectStream := "Переподключить stream";
  wcy_recoverLocalTitle := "Восстановить текущую локальную shell session";
  wcy_recoverSessionAria title := "Восстановить сессию терминала для " +:+ title;
  wcy_recoverSSHTitle := "Восстановить текущую SSH-backed shell для той же terminal target";
  wcy_recoverStreamTitle := "Переподключить живой stream терминала без перезапуска shell";
  wcy_refreshing := "Обновление...";
  wcy_rerun := "Повторить";
  wcy_rerunCommandAria title := "Повторить последнюю команду для " +:+ title;
  wcy_rerunLatestCommandError := "Не удалось повторить последнюю команду терминала.";
  wcy_restartAria title := "Перезапустить терминал для " +:+ title;
  wcy_restartShell := "Перезапустить shell";
  wcy_restartTitle := "Перезапустить терминал";
  wcy_restartingTitle := "Перезапуск терминала...";
  wcy_responseLanguageInstruction := "Отвечай на русском.";
  wcy_resumeSession := "Возобновить сессию";
  wcy_runningCommand := "Запуск...";
  wcy_sessionLabel index := "Сессия " +:+ showNat index;
  wcy_terminalSource := "Терминал";
  wcy_terminalInputAria := "Ввод терминала";
  wcy_terminalCommandApprovalInstruction := "Если для исправления нужны команды, сначала спланируй их и выполняй только в этом терминале после approval.";
  wcy_toolbar := toolbar_terminalWidgetCopyRu
|}.

Definition toolbar_terminalWidgetCopyEs : TerminalToolbarCopy := {|
  tcy_clearViewportAria := "Limpiar área del terminal";
  tcy_closeSearchAria := "Cerrar búsqueda en terminal";
  tcy_copySelectionAria := "Copiar selección";
  tcy_findNextAria := "Buscar siguiente coincidencia";
  tcy_findNextTitle := "Siguiente coincidencia (Enter / F3 / Ctrl+G)";
  tcy_findPreviousAria := "Buscar coincidencia anterior";
  tcy_findPreviousTitle := "Coincidencia anterior (Shift+Enter / Shift+F3 / Shift+Ctrl+G)";
  tcy_jumpToLatestAria := "Ir a la salida más reciente del terminal";
  tcy_noMatches := "Sin coincidencias";
  tcy_pasteFromClipboardAria := "Pegar desde el portapapeles";
  tcy_rendererDefault := "Predeterminado";
  tcy_rendererWebgl := "WebGL";
  tcy_searchInputAria := "Buscar en la salida del terminal";
  tcy_searchInputPlaceholder := "Buscar en la salida";
  tcy_searchResultsAria := "Resultados de búsqueda del terminal";
  tcy_searchShortcutHint := "Enter / F3";
  tcy_toggleSearchAria := "Alternar búsqueda en terminal";
  tcy_typeQuery := "Escribe una consulta"
|}.

Definition terminalWidgetCopyEs : TerminalWidgetCopy := {|
  wcy_activeSession := "activa";
  wcy_aiLinked := "Vinculado con IA";
  wcy_browseSessions := "Sesiones";
  wcy_browseSessionsAria title := "Abrir sesiones agrupadas del terminal para " +:+ title;
  wcy_browseSessionsTitle := "Revisar, filtrar, enfocar o cerrar sesiones agrupadas";
  wcy_closeSession := "Cerrar";
  wcy_closeSessionAria index title := "Cerrar la sesión de terminal " +:+ showNat index +:+ " para " +:+ title;
  wcy_closeSessionTabAria index title := "Cerrar la pestaña de sesión de terminal " +:+ showNat index +:+ " para " +:+ title;
  wcy_closePanelAria title := "Cerrar " +:+ title;
  wcy_closeTerminalTabAria title := "Cerrar pestana de terminal para " +:+ title;
  wcy_connectionLocal := "Local";
  wcy_connectionSSH := "SSH";
  wcy_createSessionAria title := "Crear otra sesión de terminal para " +:+ title;
  wcy_createSessionTitle := "Crear una nueva sesión gestionada por el backend en este widget de terminal";
  wcy_creatingSession := "Creando...";
  wcy_explainAndFix := "Explicar";
  wcy_explainAndFixAria title := "Explicar y corregir el último problema del terminal para " +:+ title;
  wcy_explainAndFixLoading := "Cargando...";
  wcy_explainAndFixPromptIntro := "Revisa y ayuda a explicar y corregir el último error en este terminal.";
  wcy_explainAndFixTitle := "Abrir IA y explicar/corregir el último problema visible del terminal";
  wcy_explainAndFixUnavailableTitle := "Todavía no hay problemas ni salida disponible en el terminal";
  wcy_explainLatestCommandPromptIntro := "Explica el resultado del último comando del terminal y sugiere el siguiente paso práctico.";
  wcy_explainCommand := "Explicar comando";
  wcy_explainCommandAria title := "Explicar el último comando para " +:+ title;
  wcy_explainingCommand := "Explicando...";
  wcy_filterSessionsAria := "Filtrar sesiones agrupadas del terminal";
  wcy_filterSessionsPlaceholder := "Filtrar por cwd, shell o destino tmux";
  wcy_focusSession := "Enfocar";
  wcy_focusSessionAria index title := "Enfocar la sesión de terminal " +:+ showNat index +:+ " para " +:+ title;
  wcy_focusSessionFromBrowserAria index title := "Enfocar la sesión de terminal " +:+ showNat index +:+ " desde la lista para " +:+ title;
  wcy_hideSessions := "Ocultar sesiones";
  wcy_interruptAria title := "Interrumpir terminal para " +:+ title;
  wcy_interruptTitle := "Interrumpir terminal";
  wcy_interruptingTitle := "Interrumpiendo terminal...";
  wcy_lastExplain summary := "Última explicación: " +:+ summary;
  wcy_latestCommand := "Último comando";
  wcy_latestCommandLoadError := "No se pudo cargar el último comando del terminal.";
  wcy_noCommandObserved := "Todavía no se ha detectado ningún comando enviado en esta sesión de terminal.";
  wcy_noSessionsMatch := "Ninguna sesión agrupada coincide con el filtro actual.";
  wcy_newSession := "Nueva sesión";
  wcy_reconnectShell := "Reconectar shell";
  wcy_reconnectStream := "Reconectar stream";
  wcy_recoverLocalTitle := "Recuperar la sesión de shell local actual";
  wcy_recoverSessionAria title := "Recuperar sesión de terminal para " +:+ title;
  wcy_recoverSSHTitle := "Recuperar la shell SSH actual contra el mismo destino de terminal";
  wcy_recoverStreamTitle := "Reconectar el stream vivo del terminal sin reiniciar la shell";
  wcy_refreshing := "Actualizando...";
  wcy_rerun := "Repetir";
  wcy_rerunCommandAria title := "Repetir el último comando para " +:+ title;
  wcy_rerunLatestCommandError := "No se pudo repetir el último comando del terminal.";
  wcy_restartAria title := "Reiniciar terminal para " +:+ title;
  wcy_restartShell := "Reiniciar shell";
  wcy_restartTitle := "Reiniciar terminal";
  wcy_restartingTitle := "Reiniciando terminal...";
  wcy_responseLanguageInstruction := "Responde en español.";
  wcy_resumeSession := "Reanudar sesión";
  wcy_runningCommand := "Ejecutando...";
  wcy_sessionLabel index := "Sesión " +:+ showNat index;
  wcy_terminalSource := "Terminal";
  wcy_terminalInputAria := "Entrada del terminal";
  wcy_terminalCommandApprovalInstruction := "Si la corrección requiere comandos, planéalos primero y ejecútalos solo en este terminal después de la aprobación.";
  wcy_toolbar := toolbar_terminalWidgetCopyEs
|}.

Definition toolbar_terminalWidgetCopyZhCN : TerminalToolbarCopy := {|
  tcy_clearViewportAria := "清空终端视图";
  tcy_closeSearchAria := "关闭终端搜索";
  tcy_copySelectionAria := "复制选中内容";
  tcy_findNextAria := "查找下一个匹配项";
  tcy_findNextTitle := "下一个匹配项 (Enter / F3 / Ctrl+G)";
  tcy_findPreviousAria := "查找上一个匹配项";
  tcy_findPreviousTitle := "上一个匹配项 (Shift+Enter / Shift+F3 / Shift+Ctrl+G)";
  tcy_jumpToLatestAria := "跳转到最新终端输出";
  tcy_noMatches := "没有匹配项";
  tcy_pasteFromClipboardAria := "从剪贴板粘贴";
  tcy_rendererDefault := "默认";
  tcy_rendererWebgl := "WebGL";
  tcy_searchInputAria := "搜索终端输出";
  tcy_searchInputPlaceholder := "搜索输出";
  tcy_searchResultsAria := "终端搜索结果";
  tcy_searchShortcutHint := "Enter / F3";
  tcy_toggleSearchAria := "切换终端搜索";
  tcy_typeQuery := "输入查询"
|}.

Definition terminalWidgetCopyZhCN : TerminalWidgetCopy := {|
  wcy_activeSession := "活动";
  wcy_aiLinked := "已关联 AI";
  wcy_browseSessions := "会话";
  wcy_browseSessionsAria title := "打开 " +:+ title +:+ " 的分组终端会话";
  wcy_browseSessionsTitle := "查看、筛选、聚焦或关闭分组会话";
  wcy_closeSession := "关闭";
  wcy_closeSessionAria index title := "关闭 " +:+ title +:+ " 的终端会话 " +:+ showNat index;
  wcy_closeSessionTabAria index title := "关闭 " +:+ title +:+ " 的终端会话标签 " +:+ showNat index;
  wcy_closePanelAria title := "关闭 " +:+ title;
  wcy_closeTerminalTabAria title := "关闭 " +:+ title +:+ " 的终端标签页";
  wcy_connectionLocal := "本地";
  wcy_connectionSSH := "SSH";
  wcy_createSessionAria title := "为 " +:+ title +:+ " 创建另一个终端会话";
  wcy_createSessionTitle := "在此终端 widget 中创建新的后端会话";
  wcy_creatingSession := "正在创建...";
  wcy_explainAndFix := "解释";
  wcy_explainAndFixAria title := "解释并修复 " +:+ title +:+ " 的最新终端问题";
  wcy_explainAndFixLoading := "正在加载...";
  wcy_explainAndFixPromptIntro := "检查并帮助解释和修复此终端中的最新错误。";
  wcy_explainAndFixTitle := "打开 AI 并解释/修复最新可见终端问题";
  wcy_explainAndFixUnavailableTitle := "终端尚无可用问题或输出";
  wcy_explainLatestCommandPromptIntro := "解释最新终端命令的结果，并建议下一个实际步骤。";
  wcy_explainCommand := "解释命令";
  wcy_explainCommandAria title := "解释 " +:+ title +:+ " 的最新命令";
  wcy_explainingCommand := "正在解释...";
  wcy_filterSessionsAria := "筛选分组终端会话";
  wcy_filterSessionsPlaceholder := "按 cwd、shell 或 tmux 目标筛选";
  wcy_focusSession := "聚焦";
  wcy_focusSessionAria index title := "聚焦 " +:+ title +:+ " 的终端会话 " +:+ showNat index;
  wcy_focusSessionFromBrowserAria index title := "从列表聚焦 " +:+ title +:+ " 的终端会话 " +:+ showNat index;
  wcy_hideSessions := "隐藏会话";
  wcy_interruptAria title := "中断 " +:+ title +:+ " 的终端";
  wcy_interruptTitle := "中断终端";
  wcy_interruptingTitle := "正在中断终端...";
  wcy_lastExplain summary := "上次解释: " +:+ summary;
  wcy_latestCommand := "最新命令";
  wcy_latestCommandLoadError := "无法加载最新终端命令。";
  wcy_noCommandObserved := "此终端会话尚未检测到已提交的命令。";
  wcy_noSessionsMatch := "没有分组会话匹配当前筛选。";
  wcy_newSession := "新建会话";
  wcy_reconnectShell := "重新连接 shell";
  wcy_reconnectStream := "重新连接 stream";
  wcy_recoverLocalTitle := "恢复当前本地 shell 会话";
  wcy_recoverSessionAria title := "恢复 " +:+ title +:+ " 的终端会话";
  wcy_recoverSSHTitle := "针对同一终端目标恢复当前 SSH shell";
  wcy_recoverStreamTitle := "不重启 shell，重新连接实时终端 stream";
  wcy_refreshing := "正在刷新...";
  wcy_rerun := "重新运行";
  wcy_rerunCommandAria title := "重新运行 " +:+ title +:+ " 的最新命令";
  wcy_rerunLatestCommandError := "无法重新运行最新终端命令。";
  wcy_restartAria title := "重启 " +:+ title +:+ " 的终端";
  wcy_restartShell := "重启 shell";
  wcy_restartTitle := "重启终端";
  wcy_restartingTitle := "正在重启终端...";
  wcy_responseLanguageInstruction := "请用简体中文回答。";
  wcy_resumeSession := "恢复会话";
  wcy_runningCommand := "正在运行...";
  wcy_sessionLabel index := "会话 " +:+ showNat index;
  wcy_terminalSource := "终端";
  wcy_terminalInputAria := "终端输入";
  wcy_terminalCommandApprovalInstruction := "如果修复需要命令，请先规划，并在获得批准后只在此终端中执行。";
  wcy_toolbar := toolbar_terminalWidgetCopyZhCN
|}.

Definition terminalWidgetCopy (locale : AppLocale) : TerminalWidgetCopy :=
  match locale with
  | LocaleEn => terminalWidgetCopyEn
  | LocaleRu => terminalWidgetCopyRu
  | LocaleEs => terminalWidgetCopyEs
  | LocaleZh => terminalWidgetCopyZhCN
  end.

(** * The texts of the files and the preview panel

    [frontend/src/widgets/files/files-panel-widget-copy.ts] and
    [frontend/src/widgets/preview/preview-panel-widget-copy.ts]. *)
Local Open Scope string_scope.
Local Open Scope nat_scope.

(** ** Files *)

Record FilesPanelWidgetCopy := mkFilesCopy {
  fcy_actions : string;
  fcy_attachFileToAi : string -> string;
  fcy_clear : string;
  fcy_clearFilesFilter : string;
  fcy_copy : string;
  fcy_copyCurrentDirectoryPath : string;
  fcy_copyPath : string;
  fcy_copyPathForFile : string -> string;
  fcy_copiedPathFor : string -> string;
  fcy_copyingPathFor : string -> string;
  fcy_currentDirectory : string;
  fcy_directoryEmpty : string;
  fcy_filter : string;
  fcy_filterFiles : string;
  fcy_folder : string;
  fcy_hiddenOff : string;
  fcy_hiddenOn : string;
  fcy_hideHiddenFiles : string;
  fcy_kind : string;
  fcy_loadingDirectory : string;
  fcy_modified : string;
  fcy_name : string;
  fcy_noEntriesMatchFilter : string;
  fcy_noVisibleEntries : string;
  fcy_open : string;
  fcy_openContainingFolderForFile : string -> string;
  fcy_openCurrentDirectoryExternally : string;
  fcy_openDirectory : string -> string;
  fcy_openDir : string;
  fcy_openFile : string -> string;
  fcy_openFilesPath : string;
  fcy_openParentDirectory : string;
  fcy_openTerminalForFile : string -> string;
  fcy_openTerminalInCurrentDirectory : string;
  fcy_parent : string;
  fcy_path : string;
  fcy_pathPlaceholder : string;
  fcy_preview : string;
  fcy_previewFile : string -> string;
  fcy_refresh : string;
  fcy_refreshDirectory : string;
  fcy_shellTitle : string;
  fcy_showHiddenFiles : string;
  fcy_size : string;
  fcy_sortByKind : string;
  fcy_sortByModified : string;
  fcy_sortByName : string;
  fcy_sortBySize : string;
  fcy_term : string;
  fcy_terminal : string;
  fcy_terminalTargetUnavailable : string;
  fcy_previewTargetUnavailable : string
}.

Definition filesPanelWidgetCopy_en : FilesPanelWidgetCopy := {|
  fcy_actions := "Actions";
  fcy_attachFileToAi name := "Attach file " +:+ name +:+ " to AI";
  fcy_clear := "Clear";
  fcy_clearFilesFilter := "Clear files filter";
  fcy_copy := "Copy";
  fcy_copyCurrentDirectoryPath := "Copy current directory path";
  fcy_copyPath := "Copy path";
  fcy_copyPathForFile name := "Copy path for file " +:+ name;
  fcy_copiedPathFor label := "Copied path for " +:+ label;
  fcy_copyingPathFor label := "Copying path for " +:+ label;
  fcy_currentDirectory := "current directory";
  fcy_directoryEmpty := "Directory is empty";
  fcy_filter := "Filter";
  fcy_filterFiles := "Filter files";
  fcy_folder := "Folder";
  fcy_hiddenOff := "Hidden off";
  fcy_hiddenOn := "Hidden on";
  fcy_hideHiddenFiles := "Hide hidden files";
  fcy_kind := "Kind";
  fcy_loadingDirectory := "Loading directory";
  fcy_modified := "Modified";
  fcy_name := "Name";
  fcy_noEntriesMatchFilter := "No entries match filter";
  fcy_noVisibleEntries := "No visible entries";
  fcy_open := "Open";
  fcy_openContainingFolderForFile name := "Open containing folder for file " +:+ name;
  fcy_openCurrentDirectoryExternally := "Open current directory externally";
  fcy_openDirectory name := "Open directory " +:+ name;
  fcy_openDir := "Open dir";
  fcy_openFile name := "Open file " +:+ name;
  fcy_openFilesPath := "Open files path";
  fcy_openParentDirectory := "Open parent directory";
  fcy_openTerminalForFile name := "Open terminal for file " +:+ name;
  fcy_openTerminalInCurrentDirectory := "Open terminal in current directory";
  fcy_parent := "Parent";
  fcy_path := "Files path";
  fcy_pathPlaceholder := "Path";
  fcy_preview := "Preview";
  fcy_previewFile name := "Preview file " +:+ name;
  fcy_refresh := "Refresh";
  fcy_refreshDirectory := "Refresh directory";
  fcy_shellTitle := "Shell";
  fcy_showHiddenFiles := "Show hidden files";
  fcy_size := "Size";
  fcy_sortByKind := "Sort files by kind";
  fcy_sortByModified := "Sort files by modified time";
  fcy_sortByName := "Sort files by name";
  fcy_sortBySize := "Sort files by size";
  fcy_term := "Term";
  fcy_terminal := "Terminal";
  fcy_terminalTargetUnavailable := "Terminal target widget is unavailable";
  fcy_previewTargetUnavailable := "Preview target widget is unavailable"
|}.

Definition filesPanelWidgetCopy_ru : FilesPanelWidgetCopy := {|
  fcy_actions := "Действия";
  fcy_attachFileToAi name := "Прикрепить файл " +:+ name +:+ " к AI";
  fcy_clear := "Очистить";
  fcy_clearFilesFilter := "Очистить фильтр files";
  fcy_copy := "Копировать";
  fcy_copyCurrentDirectoryPath := "Копировать путь текущего каталога";
  fcy_copyPath := "Копировать путь";
  fcy_copyPathForFile name := "Копировать путь файла " +:+ name;
  fcy_copiedPathFor label := "Путь скопирован для " +:+ label;
  fcy_copyingPathFor label := "Копирование пути для " +:+ label;
  fcy_currentDirectory := "текущий каталог";
  fcy_directoryEmpty := "Каталог пуст";
  fcy_filter := "Фильтр";
  fcy_filterFiles := "Фильтр files";
  fcy_folder := "Папка";
  fcy_hiddenOff := "Скрытые выкл";
  fcy_hiddenOn := "Скрытые вкл";
  fcy_hideHiddenFiles := "Скрыть скрытые files";
  fcy_kind := "Тип";
  fcy_loadingDirectory := "Загрузка каталога";
  fcy_modified := "Изменено";
  fcy_name := "Имя";
  fcy_noEntriesMatchFilter := "Нет элементов по фильтру";
  fcy_noVisibleEntries := "Нет видимых элементов";
  fcy_open := "Открыть";
  fcy_openContainingFolderForFile name := "Открыть папку файла " +:+ name;
  fcy_openCurrentDirectoryExternally := "Открыть текущий каталог внешне";
  fcy_openDirectory name := "Открыть каталог " +:+ name;
  fcy_openDir := "Открыть каталог";
  fcy_openFile name := "Открыть файл " +:+ name;
  fcy_openFilesPath := "Открыть путь files";
  fcy_openParentDirectory := "Открыть родительский каталог";
  fcy_openTerminalForFile name := "Открыть terminal для файла " +:+ name;
  fcy_openTerminalInCurrentDirectory := "Открыть terminal в текущем каталоге";
  fcy_parent := "Выше";
  fcy_path := "Путь files";
  fcy_pathPlaceholder := "Путь";
  fcy_preview := "Preview";
  fcy_previewFile name := "Preview файла " +:+ name;
  fcy_refresh := "Обновить";
  fcy_refreshDirectory := "Обновить каталог";
  fcy_shellTitle := "Shell";
  fcy_showHiddenFiles := "Показать скрытые files";
  fcy_size := "Размер";
  fcy_sortByKind := "Сортировать files по типу";
  fcy_sortByModified := "Сортировать files по времени изменения";
  fcy_sortByName := "Сортировать files по имени";
  fcy_sortBySize := "Сортировать files по размеру";
  fcy_term := "Term";
  fcy_terminal := "Terminal";
  fcy_terminalTargetUnavailable := "Целевой terminal widget недоступен";
  fcy_previewTargetUnavailable := "Целевой preview widget недоступен"
|}.

Definition filesPanelWidgetCopy_zh_CN : FilesPanelWidgetCopy := {|
  fcy_actions := "操作";
  fcy_attachFileToAi name := "将文件 " +:+ name +:+ " 附加到 AI";
  fcy_clear := "清除";
  fcy_clearFilesFilter := "清除 files 过滤器";
  fcy_copy := "复制";
  fcy_copyCurrentDirectoryPath := "复制当前目录路径";
  fcy_copyPath := "复制路径";
  fcy_copyPathForFile name := "复制文件 " +:+ name +:+ " 的路径";
  fcy_copiedPathFor label := "已复制 " +:+ label +:+ " 的路径";
  fcy_copyingPathFor label := "正在复制 " +:+ label +:+ " 的路径";
  fcy_currentDirectory := "当前目录";
  fcy_directoryEmpty := "目录为空";
  fcy_filter := "过滤";
  fcy_filterFiles := "过滤 files";
  fcy_folder := "文件夹";
  fcy_hiddenOff := "隐藏关闭";
  fcy_hiddenOn := "隐藏开启";
  fcy_hideHiddenFiles := "隐藏隐藏 files";
  fcy_kind := "类型";
  fcy_loadingDirectory := "正在加载目录";
  fcy_modified := "修改时间";
  fcy_name := "名称";
  fcy_noEntriesMatchFilter := "没有匹配过滤器的条目";
  fcy_noVisibleEntries := "没有可见条目";
  fcy_open := "打开";
  fcy_openContainingFolderForFile name := "打开文件 " +:+ name +:+ " 所在文件夹";
  fcy_openCurrentDirectoryExternally := "外部打开当前目录";
  fcy_openDirectory name := "打开目录 " +:+ name;
  fcy_openDir := "打开目录";
  fcy_openFile name := "打开文件 " +:+ name;
  fcy_openFilesPath := "打开 files 路径";
  fcy_openParentDirectory := "打开上级目录";
  fcy_openTerminalForFile name := "为文件 " +:+ name +:+ " 打开 terminal";
  fcy_openTerminalInCurrentDirectory := "在当前目录打开 terminal";
  fcy_parent := "上级";
  fcy_path := "Files 路径";
  fcy_pathPlaceholder := "路径";
  fcy_preview := "Preview";
  fcy_previewFile name := "Preview 文件 " +:+ name;
  fcy_refresh := "刷新";
  fcy_refreshDirectory := "刷新目录";
  fcy_shellTitle := "Shell";
  fcy_showHiddenFiles := "显示隐藏 files";
  fcy_size := "大小";
  fcy_sortByKind := "按类型排序 files";
  fcy_sortByModified := "按修改时间排序 files";
  fcy_sortByName := "按名称排序 files";
  fcy_sortBySize := "按大小排序 files";
  fcy_term := "Term";
  fcy_terminal := "Terminal";
  fcy_terminalTargetUnavailable := "Terminal 目标 widget 不可用";
  fcy_previewTargetUnavailable := "Preview 目标 widget 不可用"
|}.

Definition filesPanelWidgetCopy_es : FilesPanelWidgetCopy := {|
  fcy_actions := "Acciones";
  fcy_attachFileToAi name := "Adjuntar archivo " +:+ name +:+ " a AI";
  fcy_clear := "Limpiar";
  fcy_clearFilesFilter := "Limpiar filtro de files";
  fcy_copy := "Copiar";
  fcy_copyCurrentDirectoryPath := "Copiar ruta del directorio actual";
  fcy_copyPath := "Copiar ruta";
  fcy_copyPathForFile name := "Copiar ruta del archivo " +:+ name;
  fcy_copiedPathFor label := "Ruta copiada para " +:+ label;
  fcy_copyingPathFor label := "Copiando ruta para " +:+ label;
  fcy_currentDirectory := "directorio actual";
  fcy_directoryEmpty := "Directorio vacio";
  fcy_filter := "Filtro";
  fcy_filterFiles := "Filtrar files";
  fcy_folder := "Carpeta";
  fcy_hiddenOff := "Ocultos desactivados";
  fcy_hiddenOn := "Ocultos activados";
  fcy_hideHiddenFiles := "Ocultar files ocultos";
  fcy_kind := "Tipo";
  fcy_loadingDirectory := "Cargando directorio";
  fcy_modified := "Modificado";
  fcy_name := "Nombre";
  fcy_noEntriesMatchFilter := "No hay entradas para el filtro";
  fcy_noVisibleEntries := "No hay entradas visibles";
  fcy_open := "Abrir";
  fcy_openContainingFolderForFile name := "Abrir carpeta del archivo " +:+ name;
  fcy_openCurrentDirectoryExternally := "Abrir directorio actual externamente";
  fcy_openDirectory name := "Abrir directorio " +:+ name;
  fcy_openDir := "Abrir dir";
  fcy_openFile name := "Abrir archivo " +:+ name;
  fcy_openFilesPath := "Abrir ruta de files";
  fcy_openParentDirectory := "Abrir directorio padre";
  fcy_openTerminalForFile name := "Abrir terminal para archivo " +:+ name;
  fcy_openTerminalInCurrentDirectory := "Abrir terminal en el directorio actual";
  fcy_parent := "Padre";
  fcy_path := "Ruta de files";
  fcy_pathPlaceholder := "Ruta";
  fcy_preview := "Preview";
  fcy_previewFile name := "Preview del archivo " +:+ name;
  fcy_refresh := "Actualizar";
  fcy_refreshDirectory := "Actualizar directorio";
  fcy_shellTitle := "Shell";
  fcy_showHiddenFiles := "Mostrar files ocultos";
  fcy_size := "Tamano";
  fcy_sortByKind := "Ordenar files por tipo";
  fcy_sortByModified := "Ordenar files por fecha de modificacion";
  fcy_sortByName := "Ordenar files por nombre";
  fcy_sortBySize := "Ordenar files por tamano";
  fcy_term := "Term";
  fcy_terminal := "Terminal";
  fcy_terminalTargetUnavailable := "El widget terminal de destino no esta disponible";
  fcy_previewTargetUnavailable := "El widget preview de destino no esta disponible"
|}.

Definition filesPanelWidgetCopy (locale : AppLocale) : FilesPanelWidgetCopy :=
  match locale with
  | LocaleEn => filesPanelWidgetCopy_en
  | LocaleRu => filesPanelWidgetCopy_ru
  | LocaleZhCN => filesPanelWidgetCopy_zh_CN
  | LocaleEs => filesPanelWidgetCopy_es
  end.

(** ** Preview *)

Record PreviewPanelWidgetCopy := mkPreviewCopy {
  vcy_copiedPath : string;
  vcy_copying : string;
  vcy_copyPath : string;
  vcy_empty : string;
  vcy_folder : string;
  vcy_hexPreview : string;
  vcy_loading : string;
  vcy_openContainingFolder : string;
  vcy_openFile : string;
  vcy_openFileExternally : string;
  vcy_opening : string;
  vcy_refresh : string;
  vcy_refreshPreview : string;
  vcy_tableLimit : nat -> nat -> string;
  vcy_tablePreview : string -> string;
  vcy_textPreview : string;
  vcy_truncated : string;
  vcy_unknownSize : string
}.

Definition previewPanelWidgetCopy_en : PreviewPanelWidgetCopy := {|
  vcy_copiedPath := "Copied preview file path to clipboard.";
  vcy_copying := "Copying...";
  vcy_copyPath := "Copy preview file path";
  vcy_empty := "Preview is empty";
  vcy_folder := "Folder";
  vcy_hexPreview := "Hex preview";
  vcy_loading := "Loading preview";
  vcy_openContainingFolder := "Open preview containing folder externally";
  vcy_openFile := "Open file";
  vcy_openFileExternally := "Open preview file externally";
  vcy_opening := "Opening...";
  vcy_refresh := "Refresh";
  vcy_refreshPreview := "Refresh preview";
  vcy_tableLimit rows columns := "Table preview is bounded to " +:+ showNat rows +:+ " rows and " +:+ showNat columns +:+ " columns.";
  vcy_tablePreview delimiter := delimiter +:+ " table preview";
  vcy_textPreview := "Text preview";
  vcy_truncated := "truncated";
  vcy_unknownSize := "unknown size"
|}.

Definition previewPanelWidgetCopy_ru : PreviewPanelWidgetCopy := {|
  vcy_copiedPath := "Путь preview файла скопирован в буфер.";
  vcy_copying := "Копирование...";
  vcy_copyPath := "Копировать путь preview файла";
  vcy_empty := "Preview пуст";
  vcy_folder := "Папка";
  vcy_hexPreview := "Hex preview";
  vcy_loading := "Загрузка preview";
  vcy_openContainingFolder := "Открыть папку preview файла внешне";
  vcy_openFile := "Открыть файл";
  vcy_openFileExternally := "Открыть preview файл внешне";
  vcy_opening := "Открытие...";
  vcy_refresh := "Обновить";
  vcy_refreshPreview := "Обновить preview";
  vcy_tableLimit rows columns := "Preview таблицы ограничен: " +:+ showNat rows +:+ " строк и " +:+ showNat columns +:+ " колонок.";
  vcy_tablePreview delimiter := delimiter +:+ " table preview";
  vcy_textPreview := "Текстовый preview";
  vcy_truncated := "обрезано";
  vcy_unknownSize := "размер неизвестен"
|}.

Definition previewPanelWidgetCopy_zh_CN : PreviewPanelWidgetCopy := {|
  vcy_copiedPath := "Preview 文件路径已复制到剪贴板。";
  vcy_copying := "正在复制...";
  vcy_copyPath := "复制 preview 文件路径";
  vcy_empty := "Preview 为空";
  vcy_folder := "文件夹";
  vcy_hexPreview := "Hex preview";
  vcy_loading := "正在加载 preview";
  vcy_openContainingFolder := "外部打开 preview 文件所在文件夹";
  vcy_openFile := "打开文件";
  vcy_openFileExternally := "外部打开 preview 文件";
  vcy_opening := "正在打开...";
  vcy_refresh := "刷新";
  vcy_refreshPreview := "刷新 preview";
  vcy_tableLimit rows columns := "表格 preview 限制为 " +:+ showNat rows +:+ " 行和 " +:+ showNat columns +:+ " 列。";
  vcy_tablePreview delimiter := delimiter +:+ " table preview";
  vcy_textPreview := "文本 preview";
  vcy_truncated := "已截断";
  vcy_unknownSize := "未知大小"
|}.

Definition previewPanelWidgetCopy_es : PreviewPanelWidgetCopy := {|
  vcy_copiedPath := "Ruta del archivo preview copiada al portapapeles.";
  vcy_copying := "Copiando...";
  vcy_copyPath := "Copiar ruta del archivo preview";
  vcy_empty := "Preview vacio";
  vcy_folder := "Carpeta";
  vcy_hexPreview := "Hex preview";
  vcy_loading := "Cargando preview";
  vcy_openContainingFolder := "Abrir carpeta del archivo preview externamente";
  vcy_openFile := "Abrir archivo";
  vcy_openFileExternally := "Abrir archivo preview externamente";
  vcy_opening := "Abriendo...";
  vcy_refresh := "Actualizar";
  vcy_refreshPreview := "Actualizar preview";
  vcy_tableLimit rows columns := "El preview de tabla se limita a " +:+ showNat rows +:+ " filas y " +:+ showNat columns +:+ " columnas.";
  vcy_tablePreview delimiter := delimiter +:+ " table preview";
  vcy_textPreview := "Preview de texto";
  vcy_truncated := "truncado";
  vcy_unknownSize := "tamano desconocido"
|}.

Definition previewPanelWidgetCopy (locale : AppLocale) : PreviewPanelWidgetCopy :=
  match locale with
  | LocaleEn => previewPanelWidgetCopy_en
  | LocaleRu => previewPanelWidgetCopy_ru
  | LocaleZhCN => previewPanelWidgetCopy_zh_CN
  | LocaleEs => previewPanelWidgetCopy_es
  end.

(** * The texts of a pane of the commander

    [frontend/src/widgets/commander/commander-pane-copy.ts]. *)

Record CommanderPaneCopy := mkPaneCopy {
  pcy_active : string;
  pcy_git : string;
  pcy_items : nat -> string;
  pcy_loadingDirectory : string;
  pcy_modified : string;
  pcy_name : string;
  pcy_pane : string;
  pcy_selected : nat -> string;
  pcy_size : string;
  pcy_sortByModified : string;
  pcy_sortByName : string;
  pcy_sortBySize : string;
  pcy_sortByType : string;
  pcy_type : string
}.

Definition commanderPaneCopy_en : CommanderPaneCopy := {|
  pcy_active := "ACTIVE";
  pcy_git := "Git";
  pcy_items count := showNat count +:+ " items";
  pcy_loadingDirectory := "Loading directory…";
  pcy_modified := "Modified";
  pcy_name := "Name";
  pcy_pane := "PANE";
  pcy_selected count := showNat count +:+ " selected";
  pcy_size := "Size";
  pcy_sortByModified := "Sort by modified";
  pcy_sortByName := "Sort by name";
  pcy_sortBySize := "Sort by size";
  pcy_sortByType := "Sort by type";
  pcy_type := "T"
|}.

Definition commanderPaneCopy_ru : CommanderPaneCopy := {|
  pcy_active := "АКТИВНА";
  pcy_git := "Git";
  pcy_items count := showNat count +:+ " элементов";
  pcy_loadingDirectory := "Загрузка каталога…";
  pcy_modified := "Изменено";
  pcy_name := "Имя";
  pcy_pane := "ПАНЕЛЬ";
  pcy_selected count := showNat count +:+ " выбрано";
  pcy_size := "Размер";
  pcy_sortByModified := "Сортировать по изменению";
  pcy_sortByName := "Сортировать по имени";
  pcy_sortBySize := "Сортировать по размеру";
  pcy_sortByType := "Сортировать по типу";
  pcy_type := "Т"
|}.

Definition commanderPaneCopy_zh_CN : CommanderPaneCopy := {|
  pcy_active := "活动";
  pcy_git := "Git";
  pcy_items count := showNat count +:+ " 个条目";
  pcy_loadingDirectory := "正在加载目录…";
  pcy_modified := "修改时间";
  pcy_name := "名称";
  pcy_pane := "面板";
  pcy_selected count := "已选择 " +:+ showNat count;
  pcy_size := "大小";
  pcy_sortByModified := "按修改时间排序";
  pcy_sortByName := "按名称排序";
  pcy_sortBySize := "按大小排序";
  pcy_sortByType := "按类型排序";
  pcy_type := "类"
|}.

Definition commanderPaneCopy_es : CommanderPaneCopy := {|
  pcy_active := "ACTIVO";
  pcy_git := "Git";
  pcy_items count := showNat count +:+ " elementos";
  pcy_loadingDirectory := "Cargando directorio…";
  pcy_modified := "Modificado";
  pcy_name := "Nombre";
  pcy_pane := "PANEL";
  pcy_selected count := showNat count +:+ " seleccionados";
  pcy_size := "Tamano";
  pcy_sortByModified := "Ordenar por modificacion";
  pcy_sortByName := "Ordenar por nombre";
  pcy_sortBySize := "Ordenar por tamano";
  pcy_sortByType := "Ordenar por tipo";
  pcy_type := "T"
|}.

Definition commanderPaneCopy (locale : AppLocale) : CommanderPaneCopy :=
  match locale with
  | LocaleEn => commanderPaneCopy_en
  | LocaleRu => commanderPaneCopy_ru
  | LocaleZhCN => commanderPaneCopy_zh_CN
  | LocaleEs => commanderPaneCopy_es
  end.
