(* ===== verification/FilesPanel.v ===== *)
(** * The files panel

    [frontend/src/widgets/files/files-panel-widget.tsx]: a directory listing
    with a path field, a filter and a sort order, and the actions on its
    entries.  The rendering that follows a change and the effects it triggers
    are one step with the change; the request of the loading effect is a call
    that carries the number of the effect's run, and the run before is aborted.
    The last section is the view. *)
From Stdlib Require Import Ascii String.
From stdpp Require Import strings.
From S2P Require Import Prelude JsString Text RuntimePath PaneState Effects Http Conversation TerminalApi FilesApi WidgetTexts SettingsForms Rely.
Local Open Scope string_scope.
Local Open Scope list_scope.
Local Open Scope nat_scope.
Local Open Scope js_scope.
Local Open Scope prog_scope.

(** ** State *)

(** [LoadReady] also has the path that was asked for, which the code has not. *)
Inductive FilesPanelLoadState :=
  | LoadLoading
  | LoadReady (asked : string) (snapshot : FilesDirectorySnapshot)
  | LoadError (errorMessage : string).
Inductive FilesPanelSortMode := SortByKind | SortByModified | SortByName | SortBySize.
Inductive FilesPanelSortDirection := FilesAsc | FilesDesc.
#[global] Instance files_sort_mode_eq : EqDecision FilesPanelSortMode.
Proof. solve_decision. Defined.
#[global] Instance files_sort_direction_eq : EqDecision FilesPanelSortDirection.
Proof. solve_decision. Defined.
Record FilesPanelSortState := mkFilesSort { so_direction : FilesPanelSortDirection; so_mode : FilesPanelSortMode }.
Inductive FilesPanelOpenState :=
  | OpenIdle
  | OpenPending (entryName message : string)
  | OpenSuccess (entryName message : string)
  | OpenError (entryName message : string).

(** What the panel tells the shell: a preview or a terminal was opened, an
    attachment queued, the sidebar opened. *)
Inductive FilesOutput :=
  | OnOpenPreview (connectionId : option string) (path title widgetId : string)
  | OnOpenTerminal (tabId title widgetId : string)
  | QueueAttachment (attachment : AgentAttachmentReference)
  | OpenAiSidebar.

(** [fl_run] is the number of the loading effect's last run. *)
Record FilesState := mkFiles {
  fl_currentPath : string;
  fl_pathDraft : string;
  fl_filterValue : string;
  fl_showHidden : bool;
  fl_sort : FilesPanelSortState;
  fl_openState : FilesPanelOpenState;
  fl_state : FilesPanelLoadState;
  fl_run : nat;
  fl_outputs : list FilesOutput
}.
Definition mountedFiles (path : string) : FilesState :=
  mkFiles path path "" false (mkFilesSort FilesAsc SortByName) OpenIdle LoadLoading 1 [].

Inductive FilesRequest : Set -> Type :=
  | ListDirectory (path : string) (options : FilesRequestOptions) : FilesRequest FilesDirectorySnapshot
  | OpenExternally (path : string) (options : FilesRequestOptions) : FilesRequest string
  | OpenPreviewWidget (input : OpenWorkspaceWidgetInput) : FilesRequest CreateWorkspaceWidgetResult
  | WriteText (text : string) : FilesRequest unit
  | CreateReference (action_source path : string) : FilesRequest AgentAttachmentReference
  | SplitTerminal (input : CreateSplitTerminalWidgetInput) : FilesRequest (string * string).

Notation Files := (ProgX ApiError FilesState FilesRequest).

Definition setPathDraft (draft : string) (s : FilesState) : FilesState :=
  mkFiles (fl_currentPath s) draft (fl_filterValue s) (fl_showHidden s) (fl_sort s) (fl_openState s) (fl_state s) (fl_run s)
    (fl_outputs s).
Definition setFilterValue (value : string) (s : FilesState) : FilesState :=
  mkFiles (fl_currentPath s) (fl_pathDraft s) value (fl_showHidden s) (fl_sort s) (fl_openState s) (fl_state s) (fl_run s)
    (fl_outputs s).
Definition toggleShowHidden (s : FilesState) : FilesState :=
  mkFiles (fl_currentPath s) (fl_pathDraft s) (fl_filterValue s) (negb (fl_showHidden s)) (fl_sort s) (fl_openState s)
    (fl_state s) (fl_run s) (fl_outputs s).
Definition setSort (sort : FilesPanelSortState) (s : FilesState) : FilesState :=
  mkFiles (fl_currentPath s) (fl_pathDraft s) (fl_filterValue s) (fl_showHidden s) sort (fl_openState s) (fl_state s)
    (fl_run s) (fl_outputs s).
Definition setOpenState (openState : FilesPanelOpenState) (s : FilesState) : FilesState :=
  mkFiles (fl_currentPath s) (fl_pathDraft s) (fl_filterValue s) (fl_showHidden s) (fl_sort s) openState (fl_state s)
    (fl_run s) (fl_outputs s).
Definition setLoadState (state : FilesPanelLoadState) (s : FilesState) : FilesState :=
  mkFiles (fl_currentPath s) (fl_pathDraft s) (fl_filterValue s) (fl_showHidden s) (fl_sort s) (fl_openState s) state
    (fl_run s) (fl_outputs s).
Definition tell (output : FilesOutput) (s : FilesState) : FilesState :=
  mkFiles (fl_currentPath s) (fl_pathDraft s) (fl_filterValue s) (fl_showHidden s) (fl_sort s) (fl_openState s) (fl_state s)
    (fl_run s) (fl_outputs s ++ [output]).

(** The loading effect runs again and aborts the run before. *)
Definition runEffect (s : FilesState) : FilesState :=
  mkFiles (fl_currentPath s) (fl_pathDraft s) (fl_filterValue s) (fl_showHidden s) (fl_sort s) (fl_openState s) LoadLoading
    (S (fl_run s)) (fl_outputs s).

(** [setCurrentPath], with the effects that follow when the path is another one. *)
Definition setCurrentPath (path : string) (s : FilesState) : FilesState :=
  if bool_decide (path = fl_currentPath s) then s
  else
    runEffect (mkFiles path path (fl_filterValue s) (fl_showHidden s) (fl_sort s) OpenIdle (fl_state s) (fl_run s) (fl_outputs s)).

(** ** Helpers *)

Definition getEntryKindLabel (entry : FilesDirectoryEntry) : string := if fe_isDirectory entry then "DIR" else "FILE".
Definition getEntryKindRank (entry : FilesDirectoryEntry) : Z := if fe_isDirectory entry then 0%Z else 1%Z.
Definition getDefaultSortDirection (mode : FilesPanelSortMode) : FilesPanelSortDirection :=
  match mode with SortByModified | SortBySize => FilesDesc | _ => FilesAsc end.
Definition renderSortLabel (label : string) (mode : FilesPanelSortMode) (sort : FilesPanelSortState) : string :=
  if negb (bool_decide (so_mode sort = mode)) then label
  else label +:+ " " +:+ match so_direction sort with FilesAsc => "ASC" | FilesDesc => "DESC" end.

Definition formatEntryCount (visibleCount totalCount : nat) (locale : AppLocale) : string :=
  let entryLabel := if bool_decide (totalCount = 1) then "entry" else "entries" in
  if bool_decide (visibleCount = totalCount) then
    match locale with
    | LocaleRu => showNat totalCount +:+ " элементов"
    | LocaleZhCN => showNat totalCount +:+ " 个条目"
    | LocaleEs => showNat totalCount +:+ " entradas"
    | LocaleEn => showNat totalCount +:+ " " +:+ entryLabel
    end
  else
    match locale with
    | LocaleRu => showNat visibleCount +:+ " из " +:+ showNat totalCount +:+ " элементов"
    | LocaleZhCN => showNat visibleCount +:+ " / " +:+ showNat totalCount +:+ " 个条目"
    | LocaleEs => showNat visibleCount +:+ " de " +:+ showNat totalCount +:+ " entradas"
    | LocaleEn => showNat visibleCount +:+ " of " +:+ showNat totalCount +:+ " " +:+ entryLabel
    end.

Definition getPathTitle (path fallbackTitle : string) : string :=
  let trimmedPath := stripTrailing slash path in
  let lastSegment := lastOf (filterb truthy (splitOn slash trimmedPath)) in
  truthyOpt lastSegment ?? truthyOpt (Some trimmedPath) ?? fallbackTitle.

Section Files.
Context `{Locale}.

(** [compareResult] of [sortFilesPanelEntries], before the direction. *)
Definition compareByMode (mode : FilesPanelSortMode) (leftEntry rightEntry : FilesDirectoryEntry) : Z :=
  let leftKindRank := getEntryKindRank leftEntry in
  let rightKindRank := getEntryKindRank rightEntry in
  let compareResult := if bool_decide (mode = SortByKind) then (leftKindRank - rightKindRank)%Z else 0%Z in
  let compareResult :=
    if bool_decide (mode = SortByModified) && bool_decide (compareResult = 0%Z)
    then (fe_modifiedTime leftEntry - fe_modifiedTime rightEntry)%Z else compareResult in
  let compareResult :=
    if bool_decide (mode = SortBySize) && bool_decide (compareResult = 0%Z)
    then (fe_sizeBytes leftEntry - fe_sizeBytes rightEntry)%Z else compareResult in
  if bool_decide (compareResult = 0%Z) then localeCompare (fe_name leftEntry) (fe_name rightEntry) else compareResult.
Definition compareFilesEntries (sort : FilesPanelSortState) (leftEntry rightEntry : FilesDirectoryEntry) : Z :=
  let leftKindRank := getEntryKindRank leftEntry in
  let rightKindRank := getEntryKindRank rightEntry in
  if negb (bool_decide (so_mode sort = SortByKind)) && negb (bool_decide (leftKindRank = rightKindRank))
  then (leftKindRank - rightKindRank)%Z
  else
    let compareResult := compareByMode (so_mode sort) leftEntry rightEntry in
    match so_direction sort with FilesDesc => (compareResult * -1)%Z | FilesAsc => compareResult end.
Definition sortFilesPanelEntries (entries : list FilesDirectoryEntry) (sort : FilesPanelSortState) : list FilesDirectoryEntry :=
  Prelude.sort (compareFilesEntries sort) entries.

(** What the panel shows. *)
Definition visibleEntries (s : FilesState) : list FilesDirectoryEntry :=
  match fl_state s with
  | LoadReady _ snapshot =>
      let normalizedFilterValue := lowerText (trimText (fl_filterValue s)) in
      filterb (fun entry => (fl_showHidden s || negb (fe_hidden entry)) &&
        (negb (truthy normalizedFilterValue) || strIncludes normalizedFilterValue (lowerText (fe_name entry))))
        (fs_entries snapshot)
  | _ => []
  end.
Definition sortedEntries (s : FilesState) : list FilesDirectoryEntry := sortFilesPanelEntries (visibleEntries s) (fl_sort s).
End Files.

(** The properties of the widget. *)
Section Widget.
Variables (connectionId widgetId : option string) (locale : AppLocale).
Let copy := filesPanelWidgetCopy locale.
Let options := mkFilesOptions connectionId widgetId.

Definition entryCountLabel (s : FilesState) : option string :=
  match fl_state s with
  | LoadReady _ snapshot => Some (formatEntryCount (length (visibleEntries s)) (length (fs_entries snapshot)) locale)
  | _ => None
  end.

(** ** Loading *)

Definition unlessAborted (run : nat) (f : FilesState -> FilesState) (s : FilesState) : FilesState :=
  if bool_decide (fl_run s = run) then f s else s.

(** The request of the loading effect's last run. *)
Definition loadDirectory : Files unit :=
  shown <- get ;;
  tryCatch
    (snapshot <- await (ListDirectory (fl_currentPath shown) options) ;;
     update (unlessAborted (fl_run shown) (setLoadState (LoadReady (fl_currentPath shown) snapshot))))
    (fun error => update (unlessAborted (fl_run shown) (setLoadState (LoadError (messageOr "Unable to load directory" error))))).

(** The property [path] becomes another one. *)
Definition onPathProperty (path : string) (s : FilesState) : FilesState := setPathDraft path (setCurrentPath path s).

(** ** Navigation *)

Definition handleOpenParent (s : FilesState) : FilesState :=
  match truthyOpt (getRuntimePathParent (fl_currentPath s)) with Some parentPath => setCurrentPath parentPath s | None => s end.

Definition handleOpenPath (s : FilesState) : FilesState :=
  let nextPath := trimText (fl_pathDraft s) in
  if negb (truthy nextPath) then setPathDraft (fl_currentPath s) s
  else if negb (bool_decide (nextPath = fl_currentPath s)) then setCurrentPath nextPath s
  else setPathDraft (fl_currentPath s) s.

Definition handleFilterKeyDown (key : string) (s : FilesState) : FilesState :=
  if bool_decide (key = "Escape") then setFilterValue "" s else s.
Definition handlePathKeyDown (key : string) (s : FilesState) : FilesState :=
  if bool_decide (key = "Enter") then handleOpenPath s
  else if bool_decide (key = "Escape") then setPathDraft (fl_currentPath s) s
  else s.

Definition handleSort (mode : FilesPanelSortMode) (s : FilesState) : FilesState :=
  let currentSort := fl_sort s in
  setSort
    (if negb (bool_decide (so_mode currentSort = mode)) then mkFilesSort (getDefaultSortDirection mode) mode
     else mkFilesSort (match so_direction currentSort with FilesAsc => FilesDesc | FilesDesc => FilesAsc end) mode) s.

(** ** Actions *)

(** An action shows that it is pending, then its result: [body] says it. *)
Definition entryAction (entryName pending : string) (body : Files string) (failure : string) : Files unit :=
  update (setOpenState (OpenPending entryName pending)) ;;;
  tryCatch
    (message <- body ;; update (setOpenState (OpenSuccess entryName message)))
    (fun error => update (setOpenState (OpenError entryName (messageOr failure error)))).

Definition handleOpenCurrentDirectory : Files unit :=
  shown <- get ;;
  let currentPath := fl_currentPath shown in
  entryAction currentPath ("Opening " +:+ currentPath)
    (await (OpenExternally currentPath options) ;;;
     Ret (match locale with
          | LocaleEn => "Open request sent for current directory"
          | _ => fcy_openCurrentDirectoryExternally copy
          end))
    "Unable to open current directory".

Definition handleOpenFileExternally (entry : FilesDirectoryEntry) : Files unit :=
  shown <- get ;;
  entryAction (fe_name entry) ("Opening " +:+ fe_name entry)
    (await (OpenExternally (joinRuntimePath (fl_currentPath shown) (fe_name entry)) options) ;;;
     Ret (match locale with
          | LocaleEn => "Open request sent for " +:+ fe_name entry
          | _ => fcy_openFile copy (fe_name entry)
          end))
    ("Unable to open " +:+ fe_name entry).

Definition handleOpenEntry (entry : FilesDirectoryEntry) : Files unit :=
  if fe_isDirectory entry then
    shown <- get ;; update (setCurrentPath (joinRuntimePath (fl_currentPath shown) (fe_name entry)))
  else handleOpenFileExternally entry.

Definition handleEntryKeyDown (key : string) (entry : FilesDirectoryEntry) : Files unit :=
  if negb (bool_decide (key = "Enter")) && negb (bool_decide (key = " ")) then Ret tt else handleOpenEntry entry.

Definition handleOpenContainingFolder (entry : FilesDirectoryEntry) : Files unit :=
  shown <- get ;;
  entryAction (fe_name entry) ("Opening containing folder for " +:+ fe_name entry)
    (await (OpenExternally (fl_currentPath shown) options) ;;;
     Ret (match locale with
          | LocaleEn => "Open request sent for containing folder of " +:+ fe_name entry
          | _ => fcy_openContainingFolderForFile copy (fe_name entry)
          end))
    ("Unable to open containing folder for " +:+ fe_name entry).

Definition handlePreviewEntry (entry : FilesDirectoryEntry) : Files unit :=
  match truthyOpt widgetId with
  | None => update (setOpenState (OpenError (fe_name entry) (fcy_previewTargetUnavailable copy)))
  | Some target =>
      shown <- get ;;
      let previewPath := joinRuntimePath (fl_currentPath shown) (fe_name entry) in
      entryAction (fe_name entry) ("Opening preview for " +:+ fe_name entry)
        (result <- await (OpenPreviewWidget (mkOpenInput connectionId previewPath target)) ;;
         update (tell (OnOpenPreview connectionId previewPath (fe_name entry) (cw_widget_id result))) ;;;
         Ret (match locale with
              | LocaleEn => "Preview widget opened for " +:+ fe_name entry
              | _ => fcy_previewFile copy (fe_name entry)
              end))
        ("Unable to preview " +:+ fe_name entry)
  end.

Definition handleCopyPath (targetPath label : string) : Files unit :=
  entryAction label (fcy_copyingPathFor copy label)
    (await (WriteText targetPath) ;;; Ret (fcy_copiedPathFor copy label))
    ("Unable to copy path for " +:+ label).

Definition handleAttachToAi (entry : FilesDirectoryEntry) : Files unit :=
  shown <- get ;;
  entryAction (fe_name entry) ("Attaching " +:+ fe_name entry +:+ " to AI")
    (attachment <- await (CreateReference "frontend.files.attach_to_ai" (joinRuntimePath (fl_currentPath shown) (fe_name entry))) ;;
     update (tell (QueueAttachment attachment)) ;;;
     update (tell OpenAiSidebar) ;;;
     Ret ("Attached " +:+ fe_name entry +:+ " to AI composer"))
    ("Unable to attach " +:+ fe_name entry +:+ " to AI").

Definition handleOpenTerminalHere (targetPath label : string) : Files unit :=
  match truthyOpt widgetId with
  | None => update (setOpenState (OpenError label (fcy_terminalTargetUnavailable copy)))
  | Some target =>
      let terminalTitle := fcy_shellTitle copy +:+ ": " +:+ getPathTitle targetPath (fcy_shellTitle copy) in
      entryAction label ("Opening terminal for " +:+ label)
        (result <- await (SplitTerminal (mkSplitInput connectionId None None target (Some terminalTitle) (Some targetPath))) ;;
         update (tell (OnOpenTerminal result.1 terminalTitle result.2)) ;;;
         Ret ("Terminal opened for " +:+ label))
        ("Unable to open terminal for " +:+ label)
  end.

(** ** Everything that happens *)

Inductive FilesCall :=
  | LoadEffect
  | OpenCurrentDirectory
  | OpenEntry (entry : FilesDirectoryEntry)
  | EntryKey (key : string) (entry : FilesDirectoryEntry)
  | OpenFileExternally (entry : FilesDirectoryEntry)
  | OpenContainingFolder (entry : FilesDirectoryEntry)
  | PreviewEntry (entry : FilesDirectoryEntry)
  | CopyPath (targetPath label : string)
  | AttachToAi (entry : FilesDirectoryEntry)
  | OpenTerminalHere (targetPath label : string).
Definition filesProg (c : FilesCall) : Files unit :=
  match c with
  | LoadEffect => loadDirectory
  | OpenCurrentDirectory => handleOpenCurrentDirectory
  | OpenEntry entry => handleOpenEntry entry
  | EntryKey key entry => handleEntryKeyDown key entry
  | OpenFileExternally entry => handleOpenFileExternally entry
  | OpenContainingFolder entry => handleOpenContainingFolder entry
  | PreviewEntry entry => handlePreviewEntry entry
  | CopyPath targetPath label => handleCopyPath targetPath label
  | AttachToAi entry => handleAttachToAi entry
  | OpenTerminalHere targetPath label => handleOpenTerminalHere targetPath label
  end.

Inductive filesEvent (s : FilesState) : FilesState -> Prop :=
  | ev_parent : filesEvent s (handleOpenParent s)
  | ev_openPath : filesEvent s (handleOpenPath s)
  | ev_filterKey key : filesEvent s (handleFilterKeyDown key s)
  | ev_pathKey key : filesEvent s (handlePathKeyDown key s)
  | ev_sort mode : filesEvent s (handleSort mode s)
  | ev_pathProperty path : filesEvent s (onPathProperty path s)
  | ev_refresh : filesEvent s (runEffect s)
  | ev_hidden : filesEvent s (toggleShowHidden s)
  | ev_filter value : filesEvent s (setFilterValue value s)
  | ev_draft draft : filesEvent s (setPathDraft draft s).

Definition files_step : SystemX ApiError FilesState FilesRequest -> _ -> Prop :=
  sys_step (fun p => exists c, p = filesProg c) (fun _ _ _ _ => True) filesEvent.
End Widget.

(** * Lemmas *)

(** ** What is shown is the current directory *)

(** A run of the loading effect is of one path. *)
Definition files_rely (a b : FilesState) : Prop :=
  fl_run a <= fl_run b /\ (fl_run a = fl_run b -> fl_currentPath a = fl_currentPath b).
Definition shows_current (s : FilesState) : Prop :=
  match fl_state s with LoadReady asked _ => asked = fl_currentPath s | _ => True end.

#[export] Instance files_rely_preorder : PreOrder files_rely.
Proof.
  split; [by intros s|]. intros a b c [H1 H2] [H3 H4]. split; [lia|]. intros E.
  rewrite H2 by lia. apply H4. lia.
Qed.

(** A change that leaves the run, the path and the listing alone. *)
Definition quiet_change (f : FilesState -> FilesState) : Prop :=
  forall s, fl_run (f s) = fl_run s /\ fl_currentPath (f s) = fl_currentPath s /\ fl_state (f s) = fl_state s.
Lemma quiet_kept f : quiet_change f -> kept files_rely shows_current f.
Proof. intros Hf s. destruct (Hf s) as (H1 & H2 & H3). unfold files_rely, shows_current. by rewrite H1, H2, H3. Qed.

Notation calm := (keeping files_rely shows_current).
#[local] Hint Extern 1 (kept files_rely shows_current _) => (apply quiet_kept; done) : rely.

Lemma calm_action entryName pending body failure : calm body -> calm (entryAction entryName pending body failure).
Proof. unfold entryAction. auto 10 with rely. Qed.
#[local] Hint Resolve calm_action : rely.

Lemma set_path_keeps path s : shows_current s -> files_rely s (setCurrentPath path s) /\ shows_current (setCurrentPath path s).
Proof.
  intros HI. unfold setCurrentPath. case_bool_decide; [by split|]. split; [|done]. split; cbn; lia.
Qed.

Section WidgetLemmas.
Variables (connectionId widgetId : option string) (locale : AppLocale).

Lemma load_polite : polite files_rely shows_current (loadDirectory connectionId widgetId).
Proof.
  intros s HI. unfold loadDirectory, get. cbn [bind relies tryCatch await].
  split; [by split|]. intros a s' [H1 H2] HI'. destruct a as [snapshot|e]; cbn [bind relies tryCatch update].
  - unfold unlessAborted. case_bool_decide as E; [|by split]. split; [by split|]. unfold shows_current. cbn. by apply H2.
  - unfold unlessAborted. case_bool_decide; by split.
Qed.

Lemma files_polite c : polite files_rely shows_current (filesProg connectionId widgetId locale c).
Proof.
  assert (forall entry, calm (handleOpenFileExternally connectionId widgetId locale entry)) as Hopen.
  { intros entry. unfold handleOpenFileExternally. auto 10 with rely. }
  assert (forall entry, polite files_rely shows_current (handleOpenEntry connectionId widgetId locale entry)) as Hentry.
  { intros entry. unfold handleOpenEntry. destruct (fe_isDirectory entry); [|apply keeping_polite; [apply _|apply Hopen]].
    intros s HI. unfold get, update. cbn [bind relies]. by apply set_path_keeps. }
  destruct c; cbn [filesProg].
  - apply load_polite.
  - apply keeping_polite; [apply _|]. unfold handleOpenCurrentDirectory. auto 10 with rely.
  - apply Hentry.
  - unfold handleEntryKeyDown. destruct (_ && _); [apply keeping_polite; [apply _|done]|apply Hentry].
  - apply keeping_polite; [apply _|apply Hopen].
  - apply keeping_polite; [apply _|]. unfold handleOpenContainingFolder. auto 10 with rely.
  - apply keeping_polite; [apply _|]. unfold handlePreviewEntry. destruct (truthyOpt _); auto 10 with rely.
  - apply keeping_polite; [apply _|]. unfold handleCopyPath. auto 10 with rely.
  - apply keeping_polite; [apply _|]. unfold handleAttachToAi. auto 15 with rely.
  - apply keeping_polite; [apply _|]. unfold handleOpenTerminalHere. destruct (truthyOpt _); auto 10 with rely.
Qed.

Lemma event_polite s s' : filesEvent s s' -> shows_current s -> files_rely s s' /\ shows_current s'.
Proof.
  intros Hev HI. assert (forall f, quiet_change f -> files_rely s (f s) /\ shows_current (f s)) as Hquiet.
  { intros f Hf. by apply quiet_kept. }
  assert (forall draft s, quiet_change (setPathDraft draft)) as Hdraft by done.
  assert (files_rely s (handleOpenPath s) /\ shows_current (handleOpenPath s)) as Hpath.
  { unfold handleOpenPath. destruct (negb _); [by apply (Hquiet (setPathDraft _))|].
    case_bool_decide; cbn [negb]; [by apply (Hquiet (setPathDraft _))|by apply set_path_keeps]. }
  destruct Hev.
  - unfold handleOpenParent. destruct (truthyOpt _); [by apply set_path_keeps|by split].
  - exact Hpath.
  - unfold handleFilterKeyDown. case_bool_decide; [by apply (Hquiet (setFilterValue _))|by split].
  - unfold handlePathKeyDown. case_bool_decide; [exact Hpath|].
    case_bool_decide; [by apply (Hquiet (setPathDraft _))|by split].
  - by apply (Hquiet (handleSort mode)).
  - unfold onPathProperty. destruct (set_path_keeps path s HI) as [H1 H2].
    destruct (quiet_kept (setPathDraft path) ltac:(done) _ H2) as [H3 H4].
    split; [by transitivity (setCurrentPath path s)|done].
  - split; [|done]. split; cbn; lia.
  - by apply (Hquiet toggleShowHidden).
  - by apply (Hquiet (setFilterValue value)).
  - by apply (Hquiet (setPathDraft draft)).
Qed.

(** C24: in every interleaving of navigation, refreshes, actions and answers, a
    listing that is shown is the answer to a request for the path that is shown:
    a late answer of another directory is never taken for the current one, so
    an entry's path is that of the directory it was listed in. *)
Theorem listing_is_of_path path m :
  rtc (files_step connectionId widgetId locale) (mkSystem (mountedFiles path) []) m ->
  (forall asked snapshot, fl_state (sys_state m) = LoadReady asked snapshot -> asked = fl_currentPath (sys_state m)) /\
  forall m', rtc (files_step connectionId widgetId locale) m m' -> fl_run (sys_state m') = fl_run (sys_state m) ->
    fl_currentPath (sys_state m') = fl_currentPath (sys_state m).
Proof.
  intros Hr. assert (forall p, (exists c, p = filesProg connectionId widgetId locale c) -> polite files_rely shows_current p) as Hp
    by (intros p [c ->]; apply files_polite).
  pose proof (reachable_orderly _ _ _ _ _ Hp event_polite _ _ (I : shows_current (mountedFiles path)) Hr) as Ho. split.
  - destruct Ho as [HI _]. intros asked snapshot E. unfold shows_current in HI. by rewrite E in HI.
  - intros m' Hr' E. destruct (orderly_later _ _ _ _ _ Hp event_polite _ _ Ho Hr') as [[_ H] _]. symmetry. by apply H.
Qed.

End WidgetLemmas.

(** ** The order of the entries *)

Section Order.
Context `{LocaleLaws}.
Local Open Scope Z_scope.

Definition by_rank (x y : FilesDirectoryEntry) : Z := getEntryKindRank x - getEntryKindRank y.
Definition by_files_name (x y : FilesDirectoryEntry) : Z := localeCompare (fe_name x) (fe_name y).
Definition by_mode (mode : FilesPanelSortMode) : FilesDirectoryEntry -> FilesDirectoryEntry -> Z :=
  match mode with
  | SortByKind => lex by_rank by_files_name
  | SortByModified => lex (fun x y => fe_modifiedTime x - fe_modifiedTime y) by_files_name
  | SortBySize => lex (fun x y => fe_sizeBytes x - fe_sizeBytes y) by_files_name
  | SortByName => by_files_name
  end.

Lemma by_mode_spec mode x y : compareByMode mode x y = by_mode mode x y.
Proof.
  unfold compareByMode, by_mode, lex, by_rank, by_files_name. destruct mode.
  all: repeat match goal with
    | |- context [bool_decide (?a = ?b :> FilesPanelSortMode)] =>
        let v := eval vm_compute in (bool_decide (a = b)) in change (bool_decide (a = b)) with v
    end; cbn [andb].
  all: repeat case_bool_decide; try case_decide; done.
Qed.

#[export] Instance by_mode_comparator mode : Comparator (by_mode mode).
Proof.
  assert (Comparator by_files_name) by exact (Comparator_map fe_name localeCompare localeCompare_comparator).
  destruct mode; cbn [by_mode]; [| |done|]; (apply Comparator_lex; [|done]); apply Comparator_diff.
Qed.

(** The comparison without the order of directories and files. *)
Definition by_direction (sort : FilesPanelSortState) (x y : FilesDirectoryEntry) : Z :=
  match so_direction sort with FilesDesc => by_mode (so_mode sort) x y * -1 | FilesAsc => by_mode (so_mode sort) x y end.
Lemma by_direction_comparator sort : Comparator (by_direction sort).
Proof.
  pose proof (by_mode_comparator (so_mode sort)). unfold by_direction.
  destruct (so_direction sort); [done|by apply Comparator_opp].
Qed.

#[export] Instance files_comparator sort : Comparator (compareFilesEntries sort).
Proof.
  eapply (Comparator_ext _ (if bool_decide (so_mode sort = SortByKind) then by_direction sort else lex by_rank (by_direction sort))).
  - intros x y. unfold compareFilesEntries. cbv zeta. rewrite by_mode_spec.
    destruct (bool_decide (so_mode sort = SortByKind)); cbn [negb andb]; [done|]. unfold lex, by_rank.
    case_bool_decide as E; case_decide as E'; cbn [negb]; try done; lia.
  - pose proof (by_direction_comparator sort). destruct (bool_decide _); [done|]. apply Comparator_lex; [apply Comparator_diff|done].
Qed.

Lemma sorted_weaken {A} (P Q : A -> A -> Prop) l : (forall x y, P x y -> Q x y) -> StronglySorted P l -> StronglySorted Q l.
Proof. intros HPQ. induction 1 as [|x l Hl IH Hx]; constructor; [done|]. eapply Forall_impl; [exact Hx|]. intros y. apply HPQ. Qed.

Lemma sorted_split (p : FilesDirectoryEntry -> bool) l :
  StronglySorted (fun x y => p y = true -> p x = true) l ->
  exists l1 l2, l = l1 ++ l2 /\ Forall (fun x => p x = true) l1 /\ Forall (fun x => p x = false) l2.
Proof.
  induction 1 as [|x l Hl IH Hx]; [by exists [], []|]. destruct IH as (l1 & l2 & -> & H1 & H2).
  destruct (p x) eqn:E; [by exists (x :: l1), l2; split; [|split; [constructor|]]|].
  assert (l1 = []) as ->.
  { destruct l1 as [|y l1]; [done|]. apply Forall_app in Hx as [Hx _]. apply Forall_cons in Hx as [Hx _].
    apply Forall_cons in H1 as [H1 _]. specialize (Hx H1). congruence. }
  exists [], (x :: l2). split; [done|]. split; [done|]. by constructor.
Qed.

(** The rows are the unique stable sorting of the visible entries by the order
    that is shown, a total preorder; directories come before files in both
    directions unless the kind itself is sorted. *)
Theorem files_sorted sort entries :
  Comparator (compareFilesEntries sort) /\ stable_sort_of (compareFilesEntries sort) entries (sortFilesPanelEntries entries sort) /\
  (so_mode sort <> SortByKind ->
   exists directories files, sortFilesPanelEntries entries sort = directories ++ files /\
     Forall (fun e => fe_isDirectory e = true) directories /\ Forall (fun e => fe_isDirectory e = false) files).
Proof.
  split; [apply _|]. split; [apply sort_stable; apply _|]. intros Hmode. apply sorted_split.
  eapply sorted_weaken; [|apply (sort_sorted (compareFilesEntries sort) entries)].
  intros x y Hxy Hy. cbn beta in Hxy. destruct (fe_isDirectory x) eqn:Hx; [done|]. exfalso.
  unfold compareFilesEntries, getEntryKindRank in Hxy. rewrite Hx, Hy in Hxy. cbn in Hxy.
  rewrite bool_decide_eq_false_2 in Hxy by done. cbn [negb andb] in Hxy.
  rewrite bool_decide_eq_false_2 in Hxy by lia. cbn [negb] in Hxy. lia.
Qed.
End Order.

(** ** Actions end *)

Section Ends.
Variables (connectionId widgetId : option string) (locale : AppLocale).

Lemma action_within n entryName pending body failure : within n body -> within n (entryAction entryName pending body failure).
Proof.
  intros Hb. apply within_quiet; [exact I|intros _]. apply within_try_quiet; [|intros ?; exact I].
  apply within_then; [done|intros ?; exact I].
Qed.
Lemma action_ends entryName pending body failure s :
  ends_with (entryAction entryName pending body failure) s (fun s => forall e m, fl_openState s <> OpenPending e m).
Proof.
  unfold ends_with, entryAction, update. cbn [bind wp]. apply wp_try, wp_bind.
  eapply wp_weaken; [|apply wp_any]. intros [message|e] a b _; cbn; done.
Qed.

(** Every call ends after at most one answer; an action that shows itself as
    pending shows its result when it ends. *)
Theorem files_calls_end c s :
  within 1 (filesProg connectionId widgetId locale c) /\
  match c with
  | LoadEffect => True
  | _ => (forall e m, fl_openState s <> OpenPending e m) ->
      ends_with (filesProg connectionId widgetId locale c) s (fun s => forall e m, fl_openState s <> OpenPending e m)
  end.
Proof.
  assert (forall entry, within 1 (handleOpenFileExternally connectionId widgetId locale entry)) as Hopen.
  { intros entry. apply within_quiet; [by intros ?|intros shown]. apply action_within. within_tac. }
  assert (forall entry, within 1 (handleOpenEntry connectionId widgetId locale entry)) as Hentry.
  { intros entry. unfold handleOpenEntry. destruct (fe_isDirectory entry); [within_tac|apply Hopen]. }
  assert (forall entry s, (forall e m, fl_openState s <> OpenPending e m) ->
    ends_with (handleOpenEntry connectionId widgetId locale entry) s (fun s => forall e m, fl_openState s <> OpenPending e m)) as Hends.
  { intros entry s' Hs. unfold handleOpenEntry. destruct (fe_isDirectory entry).
    - unfold ends_with, get, update. cbn [bind wp]. unfold setCurrentPath. by case_bool_decide.
    - unfold handleOpenFileExternally, ends_with, get. cbn [bind wp]. apply action_ends. }
  split.
  - destruct c; cbn [filesProg]; try done.
    + unfold loadDirectory. apply within_quiet; [by intros ?|intros shown]. apply within_try_quiet; [within_tac|intros ?; exact I].
    + apply within_quiet; [by intros ?|intros shown]. apply action_within. within_tac.
    + unfold handleEntryKeyDown. destruct (_ && _); [exact I|apply Hentry].
    + apply within_quiet; [by intros ?|intros shown]. apply action_within. within_tac.
    + unfold handlePreviewEntry. destruct (truthyOpt _); [|exact I].
      apply within_quiet; [by intros ?|intros shown]. apply action_within. within_tac.
    + apply action_within. within_tac.
    + apply within_quiet; [by intros ?|intros shown]. apply action_within. within_tac.
    + unfold handleOpenTerminalHere. destruct (truthyOpt _); [|exact I]. cbv zeta. apply action_within. within_tac.
  - destruct c; cbn [filesProg]; intros; try done; try (by apply Hends).
    + unfold handleOpenCurrentDirectory, ends_with, get. cbn [bind wp]. apply action_ends.
    + unfold handleEntryKeyDown. destruct (_ && _); [done|by apply Hends].
    + unfold handleOpenFileExternally, ends_with, get. cbn [bind wp]. apply action_ends.
    + unfold handleOpenContainingFolder, ends_with, get. cbn [bind wp]. apply action_ends.
    + unfold handlePreviewEntry. destruct (truthyOpt _); [|done]. unfold ends_with, get. cbn [bind wp]. apply action_ends.
    + apply action_ends.
    + unfold handleAttachToAi, ends_with, get. cbn [bind wp]. apply action_ends.
    + unfold handleOpenTerminalHere. destruct (truthyOpt _); [|done]. apply action_ends.
Qed.
End Ends.

(** * Witnesses and examples *)

Definition sampleFilesEntry (name : string) (isDirectory : bool) (sizeBytes : Z) : FilesDirectoryEntry :=
  mkFilesEntry false name isDirectory "" 0 name sizeBytes "".

Lemma files_sorted_witness :
  let sort := mkFilesSort FilesDesc SortBySize in
  let entries := [sampleFilesEntry "a" false 1; sampleFilesEntry "docs" true 0; sampleFilesEntry "b" false 5] in
  fe_name <$> sortFilesPanelEntries entries sort = ["docs"; "b"; "a"] /\
  so_mode sort <> SortByKind /\
  exists directories files, sortFilesPanelEntries entries sort = directories ++ files /\
    Forall (fun e => fe_isDirectory e = true) directories /\ Forall (fun e => fe_isDirectory e = false) files.
Proof.
  intros sort entries. split; [by vm_compute|]. split; [done|].
  destruct (files_sorted sort entries) as (_ & _ & H). by apply H.
Defined.

(** A listing of [/a] arrives after the panel went to [/b]. *)
Lemma listing_is_of_path_witness :
  let load := loadDirectory None (Some "w") in
  let m1 := proceed load (mkSystem (mountedFiles "/a") []) in
  exists k, sys_calls m1 = [Waiting (ListDirectory "/a" (mkFilesOptions None (Some "w"))) k] /\
  let m2 := mkSystem (handleOpenPath (setPathDraft "/b" (sys_state m1))) (sys_calls m1) in
  let m3 := proceed (k (inl (mkFilesSnapshot [] "/a"))) (mkSystem (sys_state m2) []) in
  fl_currentPath (sys_state m3) = "/b" /\
  (forall asked snapshot, fl_state (sys_state m3) = LoadReady asked snapshot -> asked = fl_currentPath (sys_state m3)) /\
  forall m', rtc (files_step None (Some "w") LocaleEn) m3 m' -> fl_run (sys_state m') = fl_run (sys_state m3) ->
    fl_currentPath (sys_state m') = fl_currentPath (sys_state m3).
Proof.
  intros load m1. eexists. split; [reflexivity|]. intros m2 m3. split; [reflexivity|].
  apply (listing_is_of_path None (Some "w") LocaleEn "/a" m3).
  eapply rtc_l; [apply (sys_start _ _ _ _ load); by exists LoadEffect|].
  eapply rtc_l; [apply (sys_event _ _ _ _ (setPathDraft "/b" (sys_state m1))); constructor|].
  eapply rtc_l; [apply (sys_event _ _ _ _ (handleOpenPath (setPathDraft "/b" (sys_state m1)))); constructor|].
  eapply rtc_l; [|apply rtc_refl].
  exact (sys_answer _ _ _ m2 0%nat FilesDirectorySnapshot (ListDirectory "/a" (mkFilesOptions None (Some "w"))) _
    (inl (mkFilesSnapshot [] "/a")) eq_refl I).
Defined.

(** Actions are not tied to the directory: the answer to one that was started in
    [/a] shows its message over the listing of [/b], which going there cleared. *)
Example action_speaks_in_next_directory :
  let entry := sampleFilesEntry "notes" false 1 in
  let m1 := proceed (handleOpenFileExternally None None LocaleEn entry) (mkSystem (mountedFiles "/a") []) in
  exists k, sys_calls m1 = [Waiting (OpenExternally "/a/notes" (mkFilesOptions None None)) k] /\
  let s := handleOpenPath (setPathDraft "/b" (sys_state m1)) in
  fl_openState s = OpenIdle /\
  fl_openState (sys_state (proceed (k (inr OtherThrow)) (mkSystem s []))) = OpenError "notes" "Unable to open notes".
Proof. eexists. split; [reflexivity|]. by split. Qed.

(** * What the panel shows *)

Section View.
Context `{Locale}.
Variables (widgetId : option string) (locale : AppLocale).
Notation copy := (filesPanelWidgetCopy locale).

(** What a click does: a call, or a change of the state. *)
Inductive FilesAct :=
  | ActCall (c : FilesCall)
  | ActOpenPath
  | ActClearFilter
  | ActToggleHidden
  | ActRefresh
  | ActOpenParent
  | ActSort (mode : FilesPanelSortMode).
Definition filesAct (a : FilesAct) (s : FilesState) : FilesState + FilesCall :=
  match a with
  | ActCall c => inr c
  | ActOpenPath => inl (handleOpenPath s)
  | ActClearFilter => inl (setFilterValue "" s)
  | ActToggleHidden => inl (toggleShowHidden s)
  | ActRefresh => inl (runEffect s)
  | ActOpenParent => inl (handleOpenParent s)
  | ActSort mode => inl (handleSort mode s)
  end.

Record FilesButton := mkFilesButton { fb_label : string; fb_disabled : bool; fb_act : FilesAct }.
Record FilesRow := mkFilesRow {
  fr_id : string;
  fr_label : option string;             (* the [aria-label] *)
  fr_cells : list string;
  fr_click : option FilesAct;
  fr_buttons : list FilesButton;
  fr_noActions : option string
}.
Record FilesView := mkFilesView {
  fv_title : string;
  fv_path : string;
  fv_entryCount : option string;
  fv_controls : list FilesButton;
  fv_header : list (bool * FilesButton);
  fv_state : option string;
  fv_open : option string;
  fv_rows : list FilesRow
}.

Definition withoutWidget : bool := negb (truthy (widgetId ?? "")).

Definition filesControls (s : FilesState) : list FilesButton :=
  let currentPath := fl_currentPath s in
  [mkFilesButton (fcy_open copy) false ActOpenPath] ++
  (if truthy (fl_filterValue s) then [mkFilesButton (fcy_clear copy) false ActClearFilter] else []) ++
  [mkFilesButton (if fl_showHidden s then fcy_hiddenOn copy else fcy_hiddenOff copy) false ActToggleHidden;
   mkFilesButton (fcy_refresh copy) false ActRefresh;
   mkFilesButton (fcy_openDir copy) false (ActCall OpenCurrentDirectory);
   mkFilesButton (fcy_terminal copy) withoutWidget (ActCall (OpenTerminalHere currentPath (fcy_currentDirectory copy)));
   mkFilesButton (fcy_copyPath copy) false (ActCall (CopyPath currentPath (fcy_currentDirectory copy)));
   mkFilesButton (fcy_parent copy) (negb (truthy (getRuntimePathParent currentPath ?? ""))) ActOpenParent].

Definition filesHeader (s : FilesState) : list (bool * FilesButton) :=
  (fun '(label, mode) => (bool_decide (so_mode (fl_sort s) = mode),
     mkFilesButton (renderSortLabel label mode (fl_sort s)) false (ActSort mode))) <$>
  [(fcy_kind copy, SortByKind); (fcy_name copy, SortByName); (fcy_size copy, SortBySize); (fcy_modified copy, SortByModified)].

Definition filesRow (s : FilesState) (entry : FilesDirectoryEntry) : FilesRow :=
  let name := fe_name entry in
  let cells := [getEntryKindLabel entry; name; fe_sizeLabel entry; fe_modified entry] in
  if fe_isDirectory entry then
    mkFilesRow (fe_id entry) (Some (fcy_openDirectory copy name)) cells (Some (ActCall (OpenEntry entry))) [] (Some (fcy_folder copy))
  else
    mkFilesRow (fe_id entry) None cells None
      [mkFilesButton (fcy_preview copy) withoutWidget (ActCall (PreviewEntry entry));
       mkFilesButton (fcy_open copy) false (ActCall (OpenFileExternally entry));
       mkFilesButton (fcy_folder copy) false (ActCall (OpenContainingFolder entry));
       mkFilesButton (fcy_term copy) withoutWidget (ActCall (OpenTerminalHere (fl_currentPath s) name));
       mkFilesButton (fcy_copy copy) false (ActCall (CopyPath (joinRuntimePath (fl_currentPath s) name) name));
       mkFilesButton "AI" false (ActCall (AttachToAi entry))] None.

(** The text in the place of the rows. *)
Definition filesStateText (s : FilesState) : option string :=
  match fl_state s with
  | LoadLoading => Some (fcy_loadingDirectory copy)
  | LoadError errorMessage => Some errorMessage
  | LoadReady _ snapshot =>
      match fs_entries snapshot, visibleEntries s with
      | [], _ => Some (fcy_directoryEmpty copy)
      | _ :: _, [] =>
          Some (if truthy (lowerText (trimText (fl_filterValue s))) then fcy_noEntriesMatchFilter copy else fcy_noVisibleEntries copy)
      | _ :: _, _ :: _ => None
      end
  end.
Definition filesOpenText (openState : FilesPanelOpenState) : option string :=
  match openState with
  | OpenIdle => None
  | OpenPending _ message | OpenSuccess _ message | OpenError _ message => Some message
  end.

Definition FilesPanelWidget (title : string) (s : FilesState) : FilesView := {|
  fv_title := title;
  fv_path := fl_currentPath s;
  fv_entryCount := entryCountLabel locale s;
  fv_controls := filesControls s;
  fv_header := filesHeader s;
  fv_state := filesStateText s;
  fv_open := filesOpenText (fl_openState s);
  fv_rows := filesRow s <$> sortedEntries s
|}.

(** Every button of the panel. *)
Definition filesButtons (title : string) (s : FilesState) : list FilesButton :=
  let view := FilesPanelWidget title s in
  fv_controls view ++ (snd <$> fv_header view) ++ mjoin (fr_buttons <$> fv_rows view).

(** ** Lemmas *)

(** The panel shows rows, or says why there are none, and never both. *)
Lemma rows_or_reason `{!LocaleLaws} title s :
  fv_rows (FilesPanelWidget title s) = [] <-> is_Some (fv_state (FilesPanelWidget title s)).
Proof.
  cbn [FilesPanelWidget fv_rows fv_state]. unfold sortedEntries, sortFilesPanelEntries, filesStateText.
  assert (forall l, filesRow s <$> l = [] <-> l = []) as Hf by by intros [].
  rewrite Hf. clear Hf.
  assert (forall l, Prelude.sort (compareFilesEntries (fl_sort s)) l = [] <-> l = []) as Hs.
  { intros l. pose proof (sort_perm (compareFilesEntries (fl_sort s)) l) as Hp. split; intros E.
    - rewrite E in Hp. by apply Permutation_nil in Hp.
    - subst l. done. }
  rewrite Hs. unfold visibleEntries. destruct (fl_state s) as [|asked snapshot|e]; [by split; eauto| |by split; eauto].
  destruct (fs_entries snapshot) as [|entry l]; [by split; eauto|].
  destruct (filterb _ (entry :: l)); split; intros Hx; [by eauto|done|done|by destruct Hx].
Qed.

(** An enabled button finds the widget that it needs: the messages about a
    missing target are not reached. *)
Definition needsTarget (c : FilesCall) : bool :=
  match c with PreviewEntry _ | OpenTerminalHere _ _ => true | _ => false end.
Lemma buttons_have_their_target title s b c :
  b ∈ filesButtons title s -> fb_act b = ActCall c -> fb_disabled b = false -> needsTarget c = true ->
  is_Some (truthyOpt widgetId).
Proof.
  intros Hb Ha Hd Hn.
  assert (withoutWidget = false -> is_Some (truthyOpt widgetId)) as Hw.
  { unfold withoutWidget. destruct widgetId as [w|]; [|done].
    change (negb (truthy w) = false -> is_Some (if truthy w then Some w else None)). destruct (truthy w); [by eexists|done]. }
  apply Hw. unfold filesButtons in Hb. cbn [FilesPanelWidget fv_controls fv_header fv_rows] in Hb.
  rewrite !elem_of_app in Hb. destruct Hb as [Hb|[Hb|Hb]].
  - unfold filesControls in Hb. rewrite !elem_of_app in Hb. destruct Hb as [Hb|[Hb|Hb]].
    + apply list_elem_of_singleton in Hb as ->. done.
    + destruct (truthy (fl_filterValue s)); [|by apply not_elem_of_nil in Hb]. apply list_elem_of_singleton in Hb as ->. done.
    + repeat (apply elem_of_cons in Hb as [->|Hb]); [..|by apply not_elem_of_nil in Hb];
        cbn in Ha, Hd; first [done|by injection Ha as <-].
  - apply list_elem_of_fmap in Hb as ([? b'] & -> & Hb). apply list_elem_of_fmap in Hb as ([label mode] & [= -> ->] & _). done.
  - apply list_elem_of_join in Hb as (l & Hb & (row & -> & Hrow)%list_elem_of_fmap).
    apply list_elem_of_fmap in Hrow as (entry & -> & _). unfold filesRow in Hb.
    destruct (fe_isDirectory entry); [by apply not_elem_of_nil in Hb|]. cbn [fr_buttons] in Hb.
    repeat (apply elem_of_cons in Hb as [->|Hb]); [..|by apply not_elem_of_nil in Hb];
      cbn in Ha, Hd; first [done|by injection Ha as <-].
Qed.
(** The disabled parent button and its handler agree. *)
Lemma no_parent_to_open s b :
  b ∈ filesControls s -> fb_act b = ActOpenParent -> fb_disabled b = true -> filesAct ActOpenParent s = inl s.
Proof.
  unfold filesControls. rewrite !elem_of_app. intros [Hb|[Hb|Hb]] Ha Hd.
  - apply list_elem_of_singleton in Hb as ->. done.
  - destruct (truthy (fl_filterValue s)); [|by apply not_elem_of_nil in Hb]. apply list_elem_of_singleton in Hb as ->. done.
  - repeat (apply elem_of_cons in Hb as [->|Hb]); [..|by apply not_elem_of_nil in Hb]; cbn in Ha; try done.
    cbn [fb_disabled] in Hd. cbn [filesAct]. unfold handleOpenParent. destruct (getRuntimePathParent (fl_currentPath s)) as [parent|]; [|done].
    change (negb (truthy parent) = true) in Hd. unfold truthyOpt. by destruct (truthy parent).
Qed.
End View.

(** A panel without a widget, at a listing with a hidden file. *)
Example hidden_files_are_named :
  let entries := [mkFilesEntry true ".env" false "" 0 ".env" 1 "1 B"; sampleFilesEntry "docs" true 0] in
  let s := setLoadState (LoadReady "/a" (mkFilesSnapshot entries "/a")) (mountedFiles "/a") in
  let view s := FilesPanelWidget None LocaleEn "Files" s in
  (fr_id <$> fv_rows (view s)) = ["docs"] /\ fv_entryCount (view s) = Some "1 of 2 entries" /\
  (fr_id <$> fv_rows (view (toggleShowHidden s))) = ["docs"; ".env"] /\
  fv_state (view (setFilterValue " EN " s)) = Some "No entries match filter"%string.
Proof. vm_compute. split_and!; reflexivity. Qed.
