(* ===== verification/PreviewPanel.v ===== *)
(** * The preview panel

    [frontend/src/widgets/preview/preview-panel-widget.tsx]: the preview of a
    file, its summary, and the actions that open it outside or copy its path.
    As in [FilesPanel] the effects of a change are one step with it.  The two
    numbers that the actions compare after their request are the refs of the
    component. *)
From Stdlib Require Import Ascii String.
From stdpp Require Import strings.
From S2P Require Import Prelude JsString RuntimePath Types CommanderApi Effects Http FilesApi PreviewTable WidgetTexts SettingsForms Rely.
Local Open Scope string_scope.
Local Open Scope list_scope.
Local Open Scope nat_scope.
Local Open Scope js_scope.
Local Open Scope prog_scope.

(** ** State *)

(** [PreviewReady] also has the path that was asked for, which the code has not. *)
Inductive PreviewPanelLoadState :=
  | PreviewLoading
  | PreviewReady (asked : string) (snapshot : PreviewFileSnapshot)
  | PreviewError (errorMessage : string).
(** [PreviewPanelExternalOpenState] and [PreviewPanelPathCopyState]. *)
Inductive PreviewActionState :=
  | ActionIdle
  | ActionPending
  | ActionSuccess (message : string)
  | ActionError (message : string).

(** [pv_path] is the property [path]. *)
Record PreviewState := mkPreview {
  pv_path : string;
  pv_state : PreviewPanelLoadState;
  pv_run : nat;
  pv_externalOpenRequestId : nat;
  pv_pathCopyRequestId : nat;
  pv_externalOpenState : PreviewActionState;
  pv_pathCopyState : PreviewActionState
}.
Definition mountedPreview (path : string) : PreviewState := mkPreview path PreviewLoading 1 1 1 ActionIdle ActionIdle.

Inductive PreviewRequest : Set -> Type :=
  | ReadPreview (path : string) (maxBytes : Z) (options : FilesRequestOptions) : PreviewRequest PreviewFileSnapshot
  | OpenPreviewPath (path : string) (options : FilesRequestOptions) : PreviewRequest string
  | WriteClipboard (text : string) : PreviewRequest unit.
Notation Preview := (ProgX ApiError PreviewState PreviewRequest).

Definition setPreviewState (state : PreviewPanelLoadState) (s : PreviewState) : PreviewState :=
  mkPreview (pv_path s) state (pv_run s) (pv_externalOpenRequestId s) (pv_pathCopyRequestId s) (pv_externalOpenState s)
    (pv_pathCopyState s).
Definition setExternalOpenState (state : PreviewActionState) (s : PreviewState) : PreviewState :=
  mkPreview (pv_path s) (pv_state s) (pv_run s) (pv_externalOpenRequestId s) (pv_pathCopyRequestId s) state (pv_pathCopyState s).
Definition setPathCopyState (state : PreviewActionState) (s : PreviewState) : PreviewState :=
  mkPreview (pv_path s) (pv_state s) (pv_run s) (pv_externalOpenRequestId s) (pv_pathCopyRequestId s) (pv_externalOpenState s)
    state.
Definition setExternalOpenRequestId (id : nat) (s : PreviewState) : PreviewState :=
  mkPreview (pv_path s) (pv_state s) (pv_run s) id (pv_pathCopyRequestId s) (pv_externalOpenState s) (pv_pathCopyState s).
Definition setPathCopyRequestId (id : nat) (s : PreviewState) : PreviewState :=
  mkPreview (pv_path s) (pv_state s) (pv_run s) (pv_externalOpenRequestId s) id (pv_externalOpenState s) (pv_pathCopyState s).

(** The loading effect runs again: after a refresh, or for another path. *)
Definition refreshPreview (s : PreviewState) : PreviewState :=
  mkPreview (pv_path s) PreviewLoading (S (pv_run s)) (pv_externalOpenRequestId s) (pv_pathCopyRequestId s)
    (pv_externalOpenState s) (pv_pathCopyState s).
(** The property [path] becomes another one: both effects run. *)
Definition onPathChange (path : string) (s : PreviewState) : PreviewState :=
  if bool_decide (path = pv_path s) then s
  else
    mkPreview path PreviewLoading (S (pv_run s)) (pv_externalOpenRequestId s + 1) (pv_pathCopyRequestId s + 1) ActionIdle ActionIdle.

(** ** Helpers *)

Definition formatBytes (size : option Z) (unknownSizeLabel : string) : string :=
  match size with
  | None => unknownSizeLabel
  | Some size =>
      if (size <? 1024)%Z then showZ size +:+ " B"
      else if (size <? 1024 * 1024)%Z then toFixed1 size 1024 +:+ " KB"
      else toFixed1 size (1024 * 1024) +:+ " MB"
  end.

Definition delimiterText (label : DelimiterLabel) : string := match label with LabelCSV => "CSV" | LabelTSV => "TSV" end.

(** The properties of the panel, but its path. *)
Section Panel.
Variables (connectionId widgetId : option string) (locale : AppLocale).
Let copy := previewPanelWidgetCopy locale.
Let options := mkFilesOptions connectionId widgetId.

Definition getPreviewKindLabel (snapshot : PreviewFileSnapshot) : string :=
  if decide (pf_previewKind snapshot = PreviewHex) then vcy_hexPreview copy else vcy_textPreview copy.

Definition previewTable (s : PreviewState) : option PreviewTable :=
  match pv_state s with
  | PreviewReady _ snapshot =>
      if decide (pf_previewKind snapshot = PreviewText) then createPreviewTable (pv_path s) (pf_content snapshot) else None
  | _ => None
  end.
Definition previewSummary (s : PreviewState) : option string :=
  match pv_state s with
  | PreviewReady _ snapshot => Some
      (match previewTable s with
       | Some table => vcy_tablePreview copy (delimiterText (pt_delimiterLabel table))
       | None => getPreviewKindLabel snapshot
       end +:+ " · " +:+ formatBytes (pf_sizeBytes snapshot) (vcy_unknownSize copy) +:+
       (if pf_truncated snapshot then " · " +:+ vcy_truncated copy else ""))
  | _ => None
  end.
Definition previewTableLimitLabel (s : PreviewState) : option string :=
  match previewTable s with
  | Some table =>
      if pt_truncatedColumns table || pt_truncatedRows table
      then Some (vcy_tableLimit copy (length (pt_rows table)) (length (pt_columns table))) else None
  | None => None
  end.

(** ** Calls *)

Definition unlessAbortedPreview (run : nat) (f : PreviewState -> PreviewState) (s : PreviewState) : PreviewState :=
  if bool_decide (pv_run s = run) then f s else s.
Definition loadPreview : Preview unit :=
  shown <- get ;;
  tryCatch
    (snapshot <- await (ReadPreview (pv_path shown) 65536 options) ;;
     update (unlessAbortedPreview (pv_run shown) (setPreviewState (PreviewReady (pv_path shown) snapshot))))
    (fun error =>
       update (unlessAbortedPreview (pv_run shown) (setPreviewState (PreviewError (messageOr "Unable to load preview" error))))).

(** An action with the number [requestId]: its result is shown unless the
    number that [current] reads has become another one. *)
Definition numbered (current : PreviewState -> nat) (requestId : nat) (show : PreviewActionState -> PreviewState -> PreviewState)
    (request : Preview unit) (message failure : string) : Preview unit :=
  tryCatch
    (request ;;;
     s <- get ;;
     if bool_decide (current s = requestId) then update (show (ActionSuccess message)) else Ret tt)
    (fun error =>
       s <- get ;;
       if bool_decide (current s = requestId) then update (show (ActionError (messageOr failure error))) else Ret tt).

Definition openExternally (path message failure : string) : Preview unit :=
  s <- get ;;
  let requestId := pv_externalOpenRequestId s + 1 in
  update (setExternalOpenRequestId requestId) ;;;
  update (setExternalOpenState ActionPending) ;;;
  numbered pv_externalOpenRequestId requestId setExternalOpenState (await (OpenPreviewPath path options) ;;; Ret tt) message failure.

Definition handleOpenExternally : Preview unit :=
  shown <- get ;;
  openExternally (pv_path shown)
    (match locale with
     | LocaleEn => "Preview file open request sent to the system opener."
     | _ => vcy_openFileExternally copy
     end)
    "Unable to open preview file externally".

Definition handleOpenContainingFolder : Preview unit :=
  shown <- get ;;
  match truthyOpt (getRuntimePathParent (pv_path shown)) with
  | None => update (setExternalOpenState (ActionError
      (match locale with LocaleEn => "Containing folder is unavailable" | _ => vcy_openContainingFolder copy end)))
  | Some containingFolderPath =>
      openExternally containingFolderPath
        (match locale with
         | LocaleEn => "Preview containing folder open request sent to the system opener."
         | _ => vcy_openContainingFolder copy
         end)
        "Unable to open preview containing folder"
  end.

Definition handleCopyPath : Preview unit :=
  shown <- get ;;
  let requestId := pv_pathCopyRequestId shown + 1 in
  update (setPathCopyRequestId requestId) ;;;
  update (setPathCopyState ActionPending) ;;;
  numbered pv_pathCopyRequestId requestId setPathCopyState (await (WriteClipboard (pv_path shown))) (vcy_copiedPath copy)
    "Unable to copy preview file path".

Inductive PreviewCall := LoadPreviewEffect | OpenFileOutside | OpenFolderOutside | CopyPreviewPath.
Definition previewProg (c : PreviewCall) : Preview unit :=
  match c with
  | LoadPreviewEffect => loadPreview
  | OpenFileOutside => handleOpenExternally
  | OpenFolderOutside => handleOpenContainingFolder
  | CopyPreviewPath => handleCopyPath
  end.
Definition preview_step : SystemX ApiError PreviewState PreviewRequest -> _ -> Prop :=
  sys_step (fun p => exists c, p = previewProg c) (fun _ _ _ _ => True)
    (fun s s' => s' = refreshPreview s \/ exists path, s' = onPathChange path s).
End Panel.

(** * Lemmas *)

(** Every number only grows, and stands for one path. *)
Definition number_rely (number : PreviewState -> nat) (a b : PreviewState) : Prop :=
  number a <= number b /\ (number a = number b -> pv_path a = pv_path b).
Definition preview_rely (a b : PreviewState) : Prop :=
  number_rely pv_run a b /\ number_rely pv_externalOpenRequestId a b /\ number_rely pv_pathCopyRequestId a b.
Definition shows_path (s : PreviewState) : Prop :=
  match pv_state s with PreviewReady asked _ => asked = pv_path s | _ => True end.

#[export] Instance number_rely_preorder number : PreOrder (number_rely number).
Proof.
  split; [by intros s|]. intros a b c [H1 H2] [H3 H4]. split; [lia|]. intros E. rewrite H2 by lia. apply H4. lia.
Qed.
#[export] Instance preview_rely_preorder : PreOrder preview_rely.
Proof.
  split; [by intros s|]. intros a b c (H1 & H2 & H3) (H4 & H5 & H6).
  split; [by transitivity b|]. split; by transitivity b.
Qed.

(** A change of what the actions show. *)
Lemma show_kept show state :
  show = setExternalOpenState \/ show = setPathCopyState -> kept preview_rely shows_path (show state).
Proof. intros [->| ->] s Hs; (split; [|exact Hs]); unfold preview_rely, number_rely; cbn; repeat split; lia. Qed.

Lemma numbered_keeping current requestId show request message failure :
  show = setExternalOpenState \/ show = setPathCopyState -> keeping preview_rely shows_path request ->
  keeping preview_rely shows_path (numbered current requestId show request message failure).
Proof.
  intros Hshow Hr. unfold numbered. apply keeping_try; [apply keeping_bind; [done|intros _]|intros e].
  all: apply keeping_bind; [apply keeping_get|intros s].
  all: destruct (bool_decide _); [by apply keeping_update, show_kept|exact I].
Qed.

Section PanelLemmas.
Variables (connectionId widgetId : option string) (locale : AppLocale).
Local Notation prog := (previewProg connectionId widgetId locale).

Lemma open_polite path message failure : polite preview_rely shows_path (openExternally connectionId widgetId path message failure).
Proof.
  intros s Hs. unfold openExternally, get, update. cbn [bind relies]. apply keeping_relies; [apply _| | |exact Hs].
  - apply numbered_keeping; [by left|]. apply keeping_bind; [apply keeping_await|intros ?; exact I].
  - unfold preview_rely, number_rely; cbn; repeat split; lia.
Qed.
Lemma preview_load_polite : polite preview_rely shows_path (loadPreview connectionId widgetId).
Proof.
  intros s Hs. unfold loadPreview, get. cbn [bind relies tryCatch await]. split; [by split|].
  intros a s' ((_ & H1) & _) Hs'. destruct a as [snapshot|e]; cbn [bind relies tryCatch update].
  all: unfold unlessAbortedPreview; case_bool_decide as E; [|by split].
  all: split; [unfold preview_rely, number_rely; cbn; repeat split; lia|]; unfold shows_path; cbn; try done.
  by apply H1.
Qed.
Lemma copy_polite : polite preview_rely shows_path (handleCopyPath locale).
Proof.
  intros s Hs. unfold handleCopyPath, get, update. cbn [bind relies]. apply keeping_relies; [apply _| | |exact Hs].
  - apply numbered_keeping; [by right|apply keeping_await].
  - unfold preview_rely, number_rely; cbn; repeat split; lia.
Qed.
Lemma preview_polite c : polite preview_rely shows_path (prog c).
Proof.
  destruct c; cbn [previewProg].
  - apply preview_load_polite.
  - intros s Hs. unfold handleOpenExternally, get. cbn [bind relies]. by apply open_polite.
  - intros s Hs. unfold handleOpenContainingFolder, get. cbn [bind relies]. destruct (truthyOpt _); [by apply open_polite|].
    unfold update. cbn [relies]. split; [unfold preview_rely, number_rely; cbn; repeat split; lia|exact Hs].
  - apply copy_polite.
Qed.
Lemma preview_event s s' :
  s' = refreshPreview s \/ (exists path, s' = onPathChange path s) -> shows_path s -> preview_rely s s' /\ shows_path s'.
Proof.
  intros [->|[path ->]] Hs; [split; [|done]; unfold preview_rely, number_rely; cbn; repeat split; lia|].
  unfold onPathChange. case_bool_decide; [by split|]. split; [|done]. unfold preview_rely, number_rely; cbn; repeat split; lia.
Qed.

(** ** The actions *)

(** What an action asks for; the folder of a file that has none is not opened. *)
Definition actionRequest (c : PreviewCall) (s : PreviewState) : option { A : Set & PreviewRequest A } :=
  let opened path := existT string (OpenPreviewPath path (mkFilesOptions connectionId widgetId)) in
  match c with
  | LoadPreviewEffect => None
  | OpenFileOutside => Some (opened (pv_path s))
  | OpenFolderOutside => opened <$> truthyOpt (getRuntimePathParent (pv_path s))
  | CopyPreviewPath => Some (existT unit (WriteClipboard (pv_path s)))
  end.

(** The two openings share a number and what they show, the copy has its own. *)
Definition actionNumber (c : PreviewCall) : PreviewState -> nat :=
  match c with CopyPreviewPath => pv_pathCopyRequestId | _ => pv_externalOpenRequestId end.
Definition actionState (c : PreviewCall) : PreviewState -> PreviewActionState :=
  match c with CopyPreviewPath => pv_pathCopyState | _ => pv_externalOpenState end.
Definition showAction (c : PreviewCall) : PreviewActionState -> PreviewState -> PreviewState :=
  match c with CopyPreviewPath => setPathCopyState | _ => setExternalOpenState end.
Definition takeNumber (c : PreviewCall) (n : nat) : PreviewState -> PreviewState :=
  match c with CopyPreviewPath => setPathCopyRequestId n | _ => setExternalOpenRequestId n end.

(** What the answer of an action does: nothing, once its number is not the
    current one, else it shows the result. *)
Lemma numbered_answer {A : Set} current requestId show (r : PreviewRequest A) (request : Preview unit) kr message failure :
  request = Await r kr -> (forall x, kr (inl x) = Ret tt) -> (forall e, kr (inr e) = Throw e) ->
  exists k, (forall s, run (numbered current requestId show request message failure) s = (s, Waiting r k)) /\
    forall a s, run (k a) s =
      (if bool_decide (current s = requestId)
       then show (match a with inl _ => ActionSuccess message | inr e => ActionError (messageOr failure e) end) s else s,
       Ended (inl tt)).
Proof.
  intros -> Hok Herr. eexists. split; [intros s; reflexivity|].
  intros [x|e] s; [rewrite Hok|rewrite Herr]; cbn; by destruct (bool_decide _).
Qed.

Lemma open_started path message failure s :
  exists k, run (openExternally connectionId widgetId path message failure) s =
      (setExternalOpenState ActionPending (setExternalOpenRequestId (pv_externalOpenRequestId s + 1) s),
       Waiting (OpenPreviewPath path (mkFilesOptions connectionId widgetId)) k) /\
    forall a s', run (k a) s' =
      (if bool_decide (pv_externalOpenRequestId s' = pv_externalOpenRequestId s + 1)
       then setExternalOpenState (match a with inl _ => ActionSuccess message | inr e => ActionError (messageOr failure e) end) s'
       else s', Ended (inl tt)).
Proof.
  destruct (numbered_answer pv_externalOpenRequestId (pv_externalOpenRequestId s + 1) setExternalOpenState
    (OpenPreviewPath path (mkFilesOptions connectionId widgetId))
    (await (OpenPreviewPath path (mkFilesOptions connectionId widgetId)) ;;; Ret tt)
    (fun a => bind (match a with inl x => Ret x | inr e => Throw e end) (fun _ => Ret tt)) message failure)
    as (k & Hrun & Hk); [reflexivity|done|done|].
  exists k. split; [|exact Hk]. unfold openExternally, get, update. cbn [bind run]. apply Hrun.
Qed.

(** Every action that has a request takes the next number of its kind. *)
Lemma action_started c s :
  match actionRequest c s with
  | Some (existT A r) =>
      exists k message failure,
        run (prog c) s = (showAction c ActionPending (takeNumber c (actionNumber c s + 1) s), Waiting r k) /\
        forall a s', run (k a) s' =
          (if bool_decide (actionNumber c s' = actionNumber c s + 1)
           then showAction c (match a with inl _ => ActionSuccess message | inr e => ActionError (messageOr failure e) end) s'
           else s', Ended (inl tt))
  | None => c = LoadPreviewEffect \/
      c = OpenFolderOutside /\ exists message, run (prog c) s = (setExternalOpenState (ActionError message) s, Ended (inl tt))
  end.
Proof.
  destruct c; cbn [actionRequest]; [by left| | |].
  - destruct (open_started (pv_path s)
      (match locale with
       | LocaleEn => "Preview file open request sent to the system opener."
       | _ => vcy_openFileExternally (previewPanelWidgetCopy locale)
       end) "Unable to open preview file externally" s) as (k & Hrun & Hk).
    exists k. do 2 eexists. split; [exact Hrun|exact Hk].
  - destruct (truthyOpt (getRuntimePathParent (pv_path s))) as [path|] eqn:E; cbn [fmap option_fmap option_map].
    + destruct (open_started path
        (match locale with
         | LocaleEn => "Preview containing folder open request sent to the system opener."
         | _ => vcy_openContainingFolder (previewPanelWidgetCopy locale)
         end) "Unable to open preview containing folder" s) as (k & Hrun & Hk).
      exists k. do 2 eexists. split; [|exact Hk]. cbn [previewProg]. unfold handleOpenContainingFolder, get. cbn [bind run].
      rewrite E. exact Hrun.
    + right. split; [done|]. eexists. cbn [previewProg]. unfold handleOpenContainingFolder, get, update. cbn [bind run].
      rewrite E. reflexivity.
  - destruct (numbered_answer pv_pathCopyRequestId (pv_pathCopyRequestId s + 1) setPathCopyState
      (WriteClipboard (pv_path s)) (await (WriteClipboard (pv_path s)))
      (fun a => match a with inl x => Ret x | inr e => Throw e end) (vcy_copiedPath (previewPanelWidgetCopy locale))
      "Unable to copy preview file path") as (k & Hrun & Hk); [reflexivity|by intros []|done|].
    exists k. do 2 eexists. split; [|exact Hk]. cbn [previewProg]. unfold handleCopyPath, get, update. cbn [bind run]. apply Hrun.
Qed.

Lemma action_number c a b : preview_rely a b -> number_rely (actionNumber c) a b.
Proof. intros (_ & H1 & H2). by destruct c. Qed.
Lemma action_taken c n s : actionNumber c (showAction c ActionPending (takeNumber c n s)) = n.
Proof. by destruct c. Qed.
Lemma action_pending c n s : actionState c (showAction c ActionPending (takeNumber c n s)) = ActionPending.
Proof. by destruct c. Qed.
Lemma action_path c n s : pv_path (showAction c ActionPending (takeNumber c n s)) = pv_path s.
Proof. by destruct c. Qed.

(** C25: the panel shows the file at its path: a load for the path before changes
    nothing.  Opening the file, opening its folder and copying its path each take
    the next number of their kind (the two openings are one kind), wait, and end
    with one answer, which is shown, as the success or the error of the action,
    if neither another action of the kind nor another path has come since, and
    changes nothing if one has.  To open the folder of a file that has none
    fails at once, and takes no number. *)
Theorem last_action_speaks path m c :
  rtc (preview_step connectionId widgetId locale) (mkSystem (mountedPreview path) []) m ->
  (forall asked snapshot, pv_state (sys_state m) = PreviewReady asked snapshot -> asked = pv_path (sys_state m)) /\
  match actionRequest c (sys_state m) with
  | None => c = LoadPreviewEffect \/ c = OpenFolderOutside /\ exists message,
      run (prog c) (sys_state m) = (setExternalOpenState (ActionError message) (sys_state m), Ended (inl tt))
  | Some (existT A r) =>
      exists s1 k, run (prog c) (sys_state m) = (s1, Waiting r k) /\
        actionState c s1 = ActionPending /\ actionNumber c s1 = actionNumber c (sys_state m) + 1 /\
        forall m', rtc (preview_step connectionId widgetId locale) (mkSystem s1 (sys_calls m ++ [Waiting r k])) m' ->
          actionNumber c s1 <= actionNumber c (sys_state m') /\
          forall a, exists s2, run (k a) (sys_state m') = (s2, Ended (inl tt)) /\
            if decide (actionNumber c (sys_state m') = actionNumber c s1)
            then pv_path (sys_state m') = pv_path (sys_state m) /\
              exists message, s2 = showAction c (if a then ActionSuccess message else ActionError message) (sys_state m')
            else s2 = sys_state m'
  end.
Proof.
  intros Hr. assert (forall p, (exists c, p = prog c) -> polite preview_rely shows_path p) as Hp
    by (intros p [c' ->]; apply preview_polite).
  pose proof (reachable_orderly _ _ _ _ _ Hp preview_event _ _ (I : shows_path (mountedPreview path)) Hr) as Ho. split.
  { destruct Ho as [HI _]. intros asked snapshot E. unfold shows_path in HI. by rewrite E in HI. }
  destruct m as [s calls]. cbn [sys_state sys_calls] in *. pose proof (action_started c s) as Hstarted.
  destruct (actionRequest c s) as [[A r]|]; [|exact Hstarted]. destruct Hstarted as (k & message & failure & Hstart & Hk).
  exists (showAction c ActionPending (takeNumber c (actionNumber c s + 1) s)), k.
  split; [exact Hstart|]. rewrite action_pending, action_taken. split; [done|]. split; [done|]. intros m' Hr'.
  assert (orderly preview_rely shows_path (proceed (prog c) (mkSystem s calls))) as Ho1.
  { apply (step_orderly _ _ _ (fun _ _ _ _ => True) _ Hp preview_event (mkSystem s calls)); [exact Ho|]. apply sys_start. by exists c. }
  unfold proceed in Ho1. cbn [sys_state sys_calls] in Ho1. rewrite Hstart in Ho1.
  destruct (orderly_later _ _ _ _ _ Hp preview_event _ _ Ho1 Hr') as [Hrely _]. cbn [sys_state] in *.
  destruct (action_number c _ _ Hrely) as [Hle Hpath]. rewrite action_taken, action_path in *.
  split; [exact Hle|]. intros a. eexists. split; [apply Hk|].
  case_bool_decide as E; case_decide as E'; try done. split; [by symmetry; apply Hpath|].
  destruct a; by eexists.
Qed.

End PanelLemmas.

(** * Witness and example *)

(** The path of [/a] is copied, then the panel shows [/b]. *)
Lemma last_action_speaks_witness :
  let m : SystemX ApiError PreviewState PreviewRequest := mkSystem (mountedPreview "/a") [] in
  exists s1 k, run (handleCopyPath LocaleEn) (sys_state m) = (s1, Waiting (WriteClipboard "/a") k) /\
    let s2 := onPathChange "/b" s1 in
    pv_pathCopyState s1 = ActionPending /\ pv_pathCopyState s2 = ActionIdle /\
    exists s3, run (k (inl tt)) s2 = (s3, Ended (inl tt)) /\ s3 = s2.
Proof.
  intros m. destruct (last_action_speaks None None LocaleEn "/a" m CopyPreviewPath (rtc_refl _ _)) as [_ Hc].
  cbn [actionRequest] in Hc. destruct Hc as (s1 & k & Hrun & Hpending & Hid & Hlater).
  exists s1, k. split; [exact Hrun|]. intros s2. split; [exact Hpending|].
  assert (Hs1 : s1 = setPathCopyState ActionPending (setPathCopyRequestId 2 (mountedPreview "/a"))) by (injection Hrun as <- _; reflexivity).
  split; [subst s2; by rewrite Hs1|].
  destruct (Hlater (mkSystem s2 (sys_calls m ++ [Waiting (WriteClipboard "/a") k]))) as [_ Ha].
  { eapply rtc_l; [|apply rtc_refl]. apply (sys_event _ _ _ (mkSystem s1 _) s2). right. by exists "/b". }
  destruct (Ha (inl tt)) as (s3 & Hrun' & Hs3). exists s3. split; [exact Hrun'|].
  rewrite decide_False in Hs3; [exact Hs3|]. subst s2. by rewrite Hs1.
Defined.

(** The folder of a file at the root cannot be opened: the failure takes no
    number, and the answer to the opening before replaces it. *)
Example failure_is_replaced :
  exists s1 k, run (handleOpenExternally None None LocaleEn) (mountedPreview "a") =
      (s1, Waiting (OpenPreviewPath "a" (mkFilesOptions None None)) k) /\
    let s2 := fst (run (handleOpenContainingFolder None None LocaleEn) s1) in
    pv_externalOpenState s2 = ActionError "Containing folder is unavailable" /\
    pv_externalOpenState (fst (run (k (inl "")) s2)) =
      ActionSuccess "Preview file open request sent to the system opener.".
Proof. do 2 eexists. split; [reflexivity|]. by split. Qed.

(** The summary of a table that was cut. *)
Example summary_of_table :
  let snapshot := mkPreviewFile ("a,b" +:+ String newline "1,2") "t.csv" None PreviewText (Some 2048%Z) true in
  previewSummary LocaleEn (setPreviewState (PreviewReady "t.csv" snapshot) (mountedPreview "t.csv")) =
    Some "CSV table preview · 2.0 KB · truncated".
Proof. by vm_compute. Qed.
