(* ===== verification/PathEdit.v ===== *)
(** * Editing the path of a pane

    [frontend/src/widgets/commander/commander-widget.shared.tsx] (the path
    suggestions) and the path editor of [commander-widget.tsx], with the keys
    of the path input of [commander-pane.tsx].

    The editor keeps the pane that it edits, the typed value and the index of
    the highlighted suggestion; the suggestions are computed from the widget of
    the last rendering.  An event is a handler of the editor or a rendering of
    another widget, each followed by the effects of the component. *)
From Stdlib Require Import Ascii String.
From stdpp Require Import strings relations gmap.
From S2P Require Import Prelude JsString Types RuntimePath ViewModel Navigation Store.
Local Open Scope string_scope.
Local Open Scope list_scope.
Local Open Scope Z_scope.

(** ** Suggestions *)

Inductive CommanderPathSuggestionMeta := MetaCurrent | MetaHistory | MetaPath.

Record CommanderPathSuggestion := mkSuggestion {
  sg_displayPath : string;
  sg_path : string;
  sg_meta : CommanderPathSuggestionMeta
}.

Definition getCommanderPathSuggestionMeta (suggestionPath : string)
    (paneState : CommanderPaneRuntimeState) : CommanderPathSuggestionMeta :=
  if bool_decide (suggestionPath = p_path paneState) then MetaCurrent
  else if includes suggestionPath (p_historyBack paneState) ||
          includes suggestionPath (p_historyForward paneState) then MetaHistory
  else MetaPath.

(** One turn of the loop over the candidates: the set of the paths seen so far
    and the list of the candidates kept. *)
Definition keepCandidate (kept : gset string * list string) (candidatePath : string)
    : gset string * list string :=
  let '(seenPaths, uniqueCandidates) := kept in
  if negb (truthy candidatePath) || bool_decide (candidatePath ∈ seenPaths) then kept
  else ({[candidatePath]} ∪ seenPaths, uniqueCandidates ++ [candidatePath]).

(** [uniqueCandidates] after the loop *)
Definition uniqueCandidatesOf (paneState : CommanderPaneRuntimeState) (directoryPaths : list string)
    : list string :=
  let historyCandidates :=
    [p_path paneState] ++ reverse (p_historyBack paneState) ++ p_historyForward paneState ++ ["~"] in
  snd (foldl keepCandidate (∅, []) (historyCandidates ++ directoryPaths)).

Record PathMatches := mkMatchLists {
  exactMatches : list string;
  prefixMatches : list string;
  segmentPrefixMatches : list string;
  containsMatches : list string
}.

(** One turn of the loop that sorts the candidates into the four lists. *)
Definition matchCandidate (normalizedInput : string) (formatPath : string -> string)
    (m : PathMatches) (candidatePath : string) : PathMatches :=
  let displayPath := formatPath candidatePath in
  let normalizedPath := toLowerCase displayPath in
  let lastSegment := nullish (toLowerCase <$> lastOf (splitOn slash displayPath)) normalizedPath in
  if bool_decide (normalizedPath = normalizedInput) then
    mkMatchLists (exactMatches m ++ [candidatePath]) (prefixMatches m) (segmentPrefixMatches m)
      (containsMatches m)
  else if startsWith normalizedInput normalizedPath then
    mkMatchLists (exactMatches m) (prefixMatches m ++ [candidatePath]) (segmentPrefixMatches m)
      (containsMatches m)
  else if startsWith normalizedInput lastSegment then
    mkMatchLists (exactMatches m) (prefixMatches m) (segmentPrefixMatches m ++ [candidatePath])
      (containsMatches m)
  else if strIncludes normalizedInput normalizedPath then
    mkMatchLists (exactMatches m) (prefixMatches m) (segmentPrefixMatches m)
      (containsMatches m ++ [candidatePath])
  else m.

Definition toSuggestion (paneState : CommanderPaneRuntimeState) (formatPath : string -> string)
    (candidatePath : string) : CommanderPathSuggestion :=
  mkSuggestion (formatPath candidatePath) candidatePath
    (getCommanderPathSuggestionMeta candidatePath paneState).

Definition getCommanderPathSuggestions (inputValue : string) (paneState : CommanderPaneRuntimeState)
    (directoryPaths : list string) (formatPath : string -> string) : list CommanderPathSuggestion :=
  let normalizedInput := toLowerCase (trim inputValue) in
  let uniqueCandidates := uniqueCandidatesOf paneState directoryPaths in
  if negb (truthy normalizedInput) then
    toSuggestion paneState formatPath <$> take 8 uniqueCandidates
  else
    let m := foldl (matchCandidate normalizedInput formatPath) (mkMatchLists [] [] [] [])
               uniqueCandidates in
    toSuggestion paneState formatPath <$>
      take 8 (exactMatches m ++ prefixMatches m ++ segmentPrefixMatches m ++ containsMatches m).

Definition joinCommanderPath (path name : string) : string :=
  if bool_decide (path = "~") then "~/" +:+ name else path +:+ "/" +:+ name.

(** ** The editor of the widget *)

(** [editingPathPaneId], [editingPathValue] and [pathSuggestionIndex] *)
Record PathEditor := mkPathEditor {
  pe_paneId : option CommanderPaneId;
  pe_value : string;
  pe_index : Z
}.

(** The three setters that close the editor. *)
Definition idleEditor : PathEditor := mkPathEditor None "" 0.

(** What the handlers do outside of the editor: events of the store, the focus
    of the root, and [commanderActions.setPanePath]. *)
Inductive EditorOutput :=
  | EditorDispatch (e : CommanderEvent)
  | FocusRoot
  | PanePathSet (pane : CommanderPaneId) (path : string).

(** What the component renders: the widget and the home directory of the
    runtime context, [None] without a context. *)
Record EditorView := mkEditorView {
  ev_widget : CommanderWidgetRuntimeState;
  ev_homeDir : option string
}.

(** The formatter of the runtime context, or the identity. *)
Definition formatPathOf (v : EditorView) (path : string) : string :=
  match ev_homeDir v with
  | Some homeDir => formatRuntimePathForDisplay path homeDir
  | None => path
  end.

Definition editingPathPaneRuntimeState (v : EditorView) (e : PathEditor)
    : option CommanderPaneRuntimeState := getRuntimePaneState (ev_widget v) <$> pe_paneId e.

Definition editingPaneDirectoryPaths (pane : CommanderPaneRuntimeState) : list string :=
  (fun entry => joinCommanderPath (p_path pane) (e_name entry)) <$>
    filterb (fun entry => bool_decide (e_kind entry = KindFolder)) (p_directoryEntries pane).

Definition editingPathSuggestions (v : EditorView) (e : PathEditor) : list CommanderPathSuggestion :=
  match editingPathPaneRuntimeState v e with
  | None => []
  | Some pane =>
      let l := w_leftPane (ev_widget v) in
      let r := w_rightPane (ev_widget v) in
      getCommanderPathSuggestions (pe_value e) pane
        (filterb truthy
           ([p_path l; p_path r] ++ p_historyBack l ++ p_historyForward l ++ p_historyBack r ++
            p_historyForward r ++ editingPaneDirectoryPaths pane))
        (formatPathOf v)
  end.

(** [state.pendingOperation || state.fileDialog] *)
Definition editorBlocked (v : EditorView) : bool :=
  bool_decide (is_Some (w_pendingOperation (ev_widget v))) ||
  bool_decide (is_Some (w_fileDialog (ev_widget v))).

Definition openEditor (v : EditorView) (paneId : CommanderPaneId) : PathEditor :=
  mkPathEditor (Some paneId)
    (pv_displayPath (toPaneViewState (ev_widget v) (getRuntimePaneState (ev_widget v) paneId) (ev_homeDir v)))
    0.

(** Ctrl+L at the root: the editor of the active pane. *)
Definition onRequestPathEdit (v : EditorView) (e : PathEditor) : PathEditor * list EditorOutput :=
  if editorBlocked v then (e, []) else (openEditor v (w_activePane (ev_widget v)), []).

Definition startPathEdit (v : EditorView) (e : PathEditor) (paneId : CommanderPaneId)
    : PathEditor * list EditorOutput :=
  if editorBlocked v then (e, [])
  else (openEditor v paneId, [EditorDispatch (SetActivePane paneId)]).

Definition cancelPathEdit (focusRoot : bool) : PathEditor * list EditorOutput :=
  (idleEditor, if focusRoot then [FocusRoot] else []).

Definition applyPathSuggestion (e : PathEditor) (suggestionPath : string) : PathEditor :=
  mkPathEditor (pe_paneId e) suggestionPath 0.

Definition handlePathEditValueChange (e : PathEditor) (nextValue : string) : PathEditor :=
  mkPathEditor (pe_paneId e) nextValue 0.

(** [(currentIndex + delta + n) % n], with the sign of the dividend. *)
Definition movePathSuggestion (v : EditorView) (e : PathEditor) (delta : Z) : PathEditor :=
  let n := Z.of_nat (length (editingPathSuggestions v e)) in
  mkPathEditor (pe_paneId e) (pe_value e)
    (if n =? 0 then 0 else Z.rem (pe_index e + delta + n) n).

(** [editingPathSuggestions[pathSuggestionIndex]] *)
Definition highlighted (v : EditorView) (e : PathEditor) : option CommanderPathSuggestion :=
  at_ (editingPathSuggestions v e) (pe_index e).

Definition confirmPathEdit (v : EditorView) (e : PathEditor) : PathEditor * list EditorOutput :=
  match pe_paneId e with
  | None => (e, [])
  | Some paneId =>
      let nextPath := trim (nullish (sg_path <$> highlighted v e) (pe_value e)) in
      (idleEditor, (if truthy nextPath then [PanePathSet paneId nextPath] else []) ++ [FocusRoot])
  end.

(** The key handler of the path input. *)
Definition onPathInputKeyDown (v : EditorView) (e : PathEditor) (key : string)
    : PathEditor * list EditorOutput :=
  let any := (0 <? length (editingPathSuggestions v e))%nat in
  if bool_decide (key = "ArrowDown") && any then (movePathSuggestion v e 1, [])
  else if bool_decide (key = "ArrowUp") && any then (movePathSuggestion v e (-1), [])
  else if bool_decide (key = "Tab") && any then
    (applyPathSuggestion e (nullish (sg_displayPath <$> highlighted v e) (pe_value e)), [])
  else if bool_decide (key = "Enter") then confirmPathEdit v e
  else if bool_decide (key = "Escape") then cancelPathEdit true
  else (e, []).

(** ** The effects *)

(** The effect that keeps the index below the number of suggestions; the code
    runs it when the suggestions change, and on an index in range it changes
    nothing. *)
Definition clampSuggestionIndex (v : EditorView) (e : PathEditor) : PathEditor :=
  let n := Z.of_nat (length (editingPathSuggestions v e)) in
  mkPathEditor (pe_paneId e) (pe_value e) (if n =? 0 then 0 else Z.min (pe_index e) (n - 1)).

Definition closeForOperation (v : EditorView) (e : PathEditor) : PathEditor :=
  if bool_decide (is_Some (w_pendingOperation (ev_widget v))) && bool_decide (is_Some (pe_paneId e))
  then idleEditor else e.

Definition closeForDialog (v : EditorView) (e : PathEditor) : PathEditor :=
  if bool_decide (is_Some (w_fileDialog (ev_widget v))) && bool_decide (is_Some (pe_paneId e))
  then idleEditor else e.

(** The effects in the order of the component. *)
Definition settleEditor (v : EditorView) (e : PathEditor) : PathEditor :=
  closeForDialog v (closeForOperation v (clampSuggestionIndex v e)).

(** ** Events *)

Inductive EditorEvent :=
  | EditorRender (v : EditorView)         (* another widget or context *)
  | RequestEdit                           (* Ctrl+L at the root *)
  | StartEdit (pane : CommanderPaneId)    (* a click on the path, the hint CTRL+L *)
  | InputBlur
  | InputChange (value : string)
  | InputKey (key : string)
  | SuggestionClick (index : nat).

Record PathEditing := mkPathEditing { pg_view : EditorView; pg_editor : PathEditor }.

(** The input and the list of suggestions are rendered while a pane is edited. *)
Definition editorHandler (s : PathEditing) (ev : EditorEvent) : PathEditor * list EditorOutput :=
  let v := pg_view s in
  let e := pg_editor s in
  let whileEditing r := match pe_paneId e with Some _ => r | None => (e, []) end in
  match ev with
  | EditorRender _ => (e, [])
  | RequestEdit => onRequestPathEdit v e
  | StartEdit pane => startPathEdit v e pane
  | InputBlur => whileEditing (cancelPathEdit false)
  | InputChange value => whileEditing (handlePathEditValueChange e value, [])
  | InputKey key => whileEditing (onPathInputKeyDown v e key)
  | SuggestionClick index =>
      match editingPathSuggestions v e !! index with
      | Some suggestion => (applyPathSuggestion e (sg_path suggestion), [])
      | None => (e, [])
      end
  end.

Definition editingStep (s : PathEditing) (ev : EditorEvent) : PathEditing * list EditorOutput :=
  let v := match ev with EditorRender v => v | _ => pg_view s end in
  let '(e, out) := editorHandler s ev in
  (mkPathEditing v (settleEditor v e), out).

(** The component mounts idle. *)
Definition mountEditing (v : EditorView) : PathEditing := mkPathEditing v idleEditor.

Definition runEditing (s : PathEditing) (evs : list EditorEvent) : PathEditing :=
  foldl (fun s ev => fst (editingStep s ev)) s evs.

Definition editing_step (s s' : PathEditing) : Prop := exists ev, s' = fst (editingStep s ev).

(** ** Specification *)

(** How well a displayed path matches the input, best first. *)
Definition matchRank (normalizedInput : string) (formatPath : string -> string) (path : string) : Z :=
  let shown := toLowerCase (formatPath path) in
  let segment := nullish (toLowerCase <$> lastOf (splitOn slash (formatPath path))) shown in
  if bool_decide (shown = normalizedInput) then 0
  else if startsWith normalizedInput shown then 1
  else if startsWith normalizedInput segment then 2
  else 3.

(** What can be suggested: the current path, the history from the nearest
    entry on, the home directory, then the known directories, without
    repetitions. *)
Definition suggestible (paneState : CommanderPaneRuntimeState) (directoryPaths : list string)
    : list string :=
  dedupe (filterb truthy
    (p_path paneState :: reverse (p_historyBack paneState) ++ p_historyForward paneState ++ "~" ::
     directoryPaths)).

(** The paths whose displayed form contains the input, letters of either case. *)
Definition containing (normalizedInput : string) (formatPath : string -> string) (l : list string)
    : list string := filterb (fun path => strIncludes normalizedInput (toLowerCase (formatPath path))) l.

Definition byRank (normalizedInput : string) (formatPath : string -> string) (x y : string) : Z :=
  matchRank normalizedInput formatPath x - matchRank normalizedInput formatPath y.

(** What holds after the effects of every event. *)
Definition editor_ok (s : PathEditing) : Prop :=
  let n := Z.of_nat (length (editingPathSuggestions (pg_view s) (pg_editor s))) in
  0 <= pe_index (pg_editor s) /\ (pe_index (pg_editor s) < n \/ n = 0 /\ pe_index (pg_editor s) = 0) /\
  (is_Some (pe_paneId (pg_editor s)) -> editorBlocked (pg_view s) = false) /\
  (pe_paneId (pg_editor s) = None -> pg_editor s = idleEditor).

(** ** Lemmas *)

Implicit Types (input : string) (formatPath : string -> string).

Lemma keep_candidates seen seenList acc l :
  (forall x, x ∈ seen <-> x ∈ seenList) ->
  snd (foldl keepCandidate (seen, acc) l) = acc ++ dedupe_from seenList (filterb truthy l).
Proof.
  revert seen seenList acc. induction l as [|x l IH]; intros seen seenList acc Hs.
  { symmetry. apply app_nil_r. }
  cbn [foldl keepCandidate]. unfold filterb in *. cbn [List.filter].
  destruct (truthy x); cbn [negb orb]; [|by apply IH].
  cbn [dedupe_from]. unfold includes. rewrite (bool_decide_ext _ _ (Hs x)).
  destruct (bool_decide (x ∈ seenList)); [by apply IH|].
  rewrite (IH _ (x :: seenList)), <- app_assoc; [done|]. set_solver.
Qed.

Lemma candidates_dedupe paneState directoryPaths :
  uniqueCandidatesOf paneState directoryPaths = suggestible paneState directoryPaths.
Proof.
  unfold uniqueCandidatesOf, suggestible, dedupe. rewrite (keep_candidates _ []) by set_solver.
  f_equal. f_equal. cbn. by rewrite <- !app_assoc.
Qed.

Lemma strIncludes_prefix p s : startsWith p s = true -> strIncludes p s = true.
Proof. intros H. destruct s; cbn; by rewrite H. Qed.

Lemma strIncludes_app p s t : strIncludes p t = true -> strIncludes p (s +:+ t) = true.
Proof. induction s as [|c s IH]; intros H; [done|]. cbn. by rewrite IH, orb_true_r. Qed.

Lemma splitOn_single c s w : splitOn c s = [w] -> w = s.
Proof.
  revert w. induction s as [|a s IH]; intros w; cbn [splitOn]; [congruence|].
  case_bool_decide; [intros [= _ E]; by apply splitOn_nonempty in E|].
  destruct (splitOn c s) as [|x l] eqn:E; [by apply splitOn_nonempty in E|].
  intros [= <- ->]. by rewrite (IH x).
Qed.

(** The last segment is the end of the path. *)
Lemma splitOn_last c s w : lastOf (splitOn c s) = Some w -> exists t, s = t +:+ w.
Proof.
  revert w. induction s as [|a s IH]; intros w Hw.
  - injection Hw as <-. by exists "".
  - assert (forall l, splitOn c s = l -> lastOf l = Some w -> exists t, String a s = t +:+ w) as Htail.
    { intros l <- Hl. destruct (IH w Hl) as [t ->]. by exists (String a t). }
    destruct (splitOn c (String a s)) as [|x [|y l]] eqn:E; [by apply splitOn_nonempty in E| |].
    + injection Hw as <-. apply splitOn_single in E as ->. by exists "".
    + cbn [splitOn] in E. case_bool_decide; [injection E as <- E; by eapply Htail|].
      destruct (splitOn c s) as [|z m] eqn:E'; [by apply splitOn_nonempty in E'|].
      injection E as <- ->. by eapply (Htail (z :: y :: l)).
Qed.

Lemma lower_append s t : toLowerCase (s +:+ t) = toLowerCase s +:+ toLowerCase t.
Proof. apply str_map_append. Qed.

(** A candidate goes to one of the lists when its displayed path contains the
    input, and then to the list of its rank. *)
Lemma match_contains input formatPath path :
  let shown := toLowerCase (formatPath path) in
  let segment := nullish (toLowerCase <$> lastOf (splitOn slash (formatPath path))) shown in
  shown = input \/ startsWith input shown = true \/ startsWith input segment = true ->
  strIncludes input shown = true.
Proof.
  intros shown segment [<-|[H|H]].
  - apply strIncludes_prefix, startsWith_spec. exists "". by rewrite append_nil_r.
  - by apply strIncludes_prefix.
  - unfold segment in H. destruct (lastOf (splitOn slash (formatPath path))) as [w|] eqn:E; cbn in H;
      [|by apply strIncludes_prefix].
    destruct (splitOn_last _ _ _ E) as [t Ht]. unfold shown. rewrite Ht, lower_append.
    by apply strIncludes_app, strIncludes_prefix.
Qed.

Lemma match_lists input formatPath l m :
  let at_rank k := filterb (fun path => bool_decide (matchRank input formatPath path = k))
                     (containing input formatPath l) in
  foldl (matchCandidate input formatPath) m l =
  mkMatchLists (exactMatches m ++ at_rank 0) (prefixMatches m ++ at_rank 1)
    (segmentPrefixMatches m ++ at_rank 2) (containsMatches m ++ at_rank 3).
Proof.
  cbv zeta. revert m. induction l as [|path l IH]; intros m; cbn [foldl].
  - destruct m. cbn. by rewrite !app_nil_r.
  - rewrite IH. clear IH. pose proof (match_contains input formatPath path) as Hc. cbv zeta in Hc.
    unfold containing, filterb. cbn [List.filter].
    unfold matchCandidate. cbv zeta.
    assert (matchRank input formatPath path = matchRank input formatPath path) as Hr by done.
    unfold matchRank in Hr at 2. cbv zeta in Hr.
    set (shown := toLowerCase (formatPath path)) in *.
    set (segment := nullish (toLowerCase <$> lastOf (splitOn slash (formatPath path))) shown) in *.
    case_bool_decide as E1; [|destruct (startsWith input shown) eqn:E2;
      [|destruct (startsWith input segment) eqn:E3]].
    1-3: rewrite Hc by auto; cbn [List.filter]; rewrite Hr; cbn; by rewrite <- !app_assoc.
    destruct (strIncludes input shown); cbn [List.filter]; [|done].
    rewrite Hr. cbn. by rewrite <- !app_assoc.
Qed.

#[export] Instance byRank_comparator input formatPath : Comparator (byRank input formatPath).
Proof. unfold byRank. split; intros; lia. Qed.

Lemma rank_range input formatPath path : 0 <= matchRank input formatPath path <= 3.
Proof. unfold matchRank. repeat case_match; lia. Qed.

Lemma sorted_app (cmp : string -> string -> Z) l1 l2 :
  StronglySorted (fun x y => cmp x y <= 0) l1 -> StronglySorted (fun x y => cmp x y <= 0) l2 ->
  (forall x y, x ∈ l1 -> y ∈ l2 -> cmp x y <= 0) -> StronglySorted (fun x y => cmp x y <= 0) (l1 ++ l2).
Proof.
  intros H1 H2 H. induction H1 as [|x l1 H1 IH Hx]; cbn; [done|]. constructor.
  - apply IH. intros y z Hy. apply H. by right.
  - apply Forall_app. split; [done|]. apply Forall_forall. intros y Hy. apply H; [left|done].
Qed.

(** The lists of the ranks, one after the other, are the sort by rank. *)
Lemma ranks_sorted input formatPath l :
  let at_rank k := filterb (fun path => bool_decide (matchRank input formatPath path = k)) l in
  at_rank 0 ++ at_rank 1 ++ at_rank 2 ++ at_rank 3 = sort (byRank input formatPath) l.
Proof.
  cbv zeta. eapply (stable_sorted_unique (byRank input formatPath) l); [|apply sort_stable, _].
  set (at_rank k := filterb (fun path => bool_decide (matchRank input formatPath path = k)) l).
  assert (forall k path, path ∈ at_rank k -> matchRank input formatPath path = k) as Hin.
  { intros k path [_ H%bool_decide_eq_true]%elem_of_filterb. done. }
  assert (forall k, StronglySorted (fun x y => byRank input formatPath x y <= 0) (at_rank k)) as Hs.
  { intros k. specialize (Hin k). clearbody at_rank. induction (at_rank k) as [|x m IH]; constructor.
    - apply IH. intros y Hy. apply Hin. by right.
    - apply Forall_forall. intros y Hy. unfold byRank. rewrite (Hin x), (Hin y) by (by constructor). lia. }
  split.
  - repeat (apply sorted_app; [apply Hs| |]); [apply Hs|..];
      intros x y Hx%Hin Hy; unfold byRank; rewrite ?elem_of_app in Hy;
      repeat match type of Hy with _ \/ _ => destruct Hy as [Hy|Hy] end; apply Hin in Hy; lia.
  - intros z. unfold same_class. unfold filterb at 1. rewrite !List.filter_app.
    assert (forall k, List.filter (fun y => bool_decide (byRank input formatPath z y = 0)) (at_rank k) =
      if bool_decide (matchRank input formatPath z = k)
      then filterb (fun y => bool_decide (byRank input formatPath z y = 0)) l else []) as Hk.
    { intros k. unfold at_rank.
      change (List.filter ?p ?m) with (filterb p m). rewrite filterb_filterb.
      unfold byRank. case_bool_decide as E.
      - apply filterb_ext. intros y _. repeat case_bool_decide; first [done|lia].
      - apply filterb_none. intros y _. repeat case_bool_decide; first [done|lia]. }
    unfold at_rank in Hk. rewrite !Hk. pose proof (rank_range input formatPath z).
    assert (matchRank input formatPath z = 0 \/ matchRank input formatPath z = 1 \/
      matchRank input formatPath z = 2 \/ matchRank input formatPath z = 3) as [->|[->|[->| ->]]] by lia;
      cbn; by rewrite ?app_nil_r.
Qed.

Lemma getCommanderPathSuggestions_paths inputValue paneState directoryPaths formatPath :
  let input := toLowerCase (trim inputValue) in
  let all := suggestible paneState directoryPaths in
  sg_path <$> getCommanderPathSuggestions inputValue paneState directoryPaths formatPath =
  take 8 (if truthy input then sort (byRank input formatPath) (containing input formatPath all) else all).
Proof.
  cbv zeta. unfold getCommanderPathSuggestions. rewrite candidates_dedupe.
  assert (forall l : list string, sg_path <$> (toSuggestion paneState formatPath <$> l) = l) as Hid.
  { intros l. rewrite <- list_fmap_compose. by apply list_fmap_id. }
  destruct (truthy _); cbn [negb]; rewrite Hid; [|done].
  rewrite match_lists. cbn. by rewrite ranks_sorted.
Qed.

(** A suggestion is determined by its path. *)
Lemma suggestion_of_path inputValue paneState directoryPaths formatPath s :
  s ∈ getCommanderPathSuggestions inputValue paneState directoryPaths formatPath ->
  s = toSuggestion paneState formatPath (sg_path s).
Proof.
  unfold getCommanderPathSuggestions.
  destruct (negb _); intros (path & -> & _)%list_elem_of_fmap; done.
Qed.

Lemma NoDup_sort input formatPath l : NoDup l -> NoDup (sort (byRank input formatPath) l).
Proof. intros H. by rewrite (sort_perm _). Qed.

Lemma suggested_nonempty inputValue paneState directoryPaths formatPath s :
  s ∈ getCommanderPathSuggestions inputValue paneState directoryPaths formatPath -> sg_path s <> "".
Proof.
  intros Hs. assert (sg_path s ∈ suggestible paneState directoryPaths) as Hin.
  { apply (list_elem_of_fmap_2 sg_path) in Hs. rewrite getCommanderPathSuggestions_paths in Hs.
    apply elem_of_take in Hs as (i & Hi & _). apply list_elem_of_lookup_2 in Hi.
    destruct (truthy _); [|done]. rewrite (sort_perm _) in Hi. by apply elem_of_filterb in Hi as [? _]. }
  apply elem_of_dedupe, elem_of_filterb in Hin as [_ H]. by apply truthy_true in H.
Qed.

(** ** The editor *)

Lemma suggestions_none v e : pe_paneId e = None -> editingPathSuggestions v e = [].
Proof. intros H. unfold editingPathSuggestions, editingPathPaneRuntimeState. by rewrite H. Qed.

(** The suggestions do not depend on the index. *)
Lemma suggestions_index v pane value i j :
  editingPathSuggestions v (mkPathEditor pane value i) = editingPathSuggestions v (mkPathEditor pane value j).
Proof. done. Qed.

Lemma settle_ok v e :
  0 <= pe_index e -> (pe_paneId e = None -> e = idleEditor) ->
  editor_ok (mkPathEditing v (settleEditor v e)).
Proof.
  intros Hi Hidle. unfold editor_ok, settleEditor. cbn [pg_editor pg_view].
  assert (forall f : PathEditor, f = idleEditor ->
    let n := Z.of_nat (length (editingPathSuggestions v f)) in
    0 <= pe_index f /\ (pe_index f < n \/ n = 0 /\ pe_index f = 0) /\
    (is_Some (pe_paneId f) -> editorBlocked v = false) /\ (pe_paneId f = None -> f = idleEditor)) as Hclosed.
  { intros f ->. rewrite suggestions_none by done. cbn. split_and!; [lia|auto|by intros [? ?]|done]. }
  destruct (pe_paneId e) as [pane|] eqn:Ep.
  - unfold closeForOperation, clampSuggestionIndex. rewrite Ep. cbn [pe_paneId pe_value pe_index].
    rewrite (bool_decide_eq_true_2 (is_Some (Some pane))) by eauto. rewrite andb_true_r.
    destruct (bool_decide (is_Some (w_pendingOperation (ev_widget v)))) eqn:E1.
    { apply Hclosed. unfold closeForDialog. by destruct (_ && _). }
    unfold closeForDialog. cbn [pe_paneId].
    rewrite (bool_decide_eq_true_2 (is_Some (Some pane))) by eauto. rewrite andb_true_r.
    destruct (bool_decide (is_Some (w_fileDialog (ev_widget v)))) eqn:E2; [by apply Hclosed|].
    cbn [pe_index pe_paneId]. rewrite (suggestions_index v (Some pane) _ _ (pe_index e)).
    assert (e = mkPathEditor (Some pane) (pe_value e) (pe_index e)) as <- by (destruct e; cbn in *; congruence).
    split_and!; [..|by unfold editorBlocked; rewrite E1, E2|done];
      destruct (Z.eqb_spec (Z.of_nat (length (editingPathSuggestions v e))) 0); lia.
  - apply Hclosed. specialize (Hidle eq_refl) as ->. unfold clampSuggestionIndex.
    rewrite suggestions_none by done. cbn. unfold closeForDialog, closeForOperation. cbn.
    repeat case_bool_decide; try done; by destruct (is_Some_None H0).
Qed.

Lemma move_nonneg v e delta :
  0 <= pe_index e -> delta = 1 \/ delta = -1 -> 0 <= pe_index (movePathSuggestion v e delta).
Proof.
  intros Hi Hd. unfold movePathSuggestion. cbn [pe_index].
  destruct (Z.eqb_spec (Z.of_nat (length (editingPathSuggestions v e))) 0); [lia|].
  apply Z.rem_nonneg; lia.
Qed.

Lemma handler_keeps s ev :
  editor_ok s ->
  let e := fst (editorHandler s ev) in 0 <= pe_index e /\ (pe_paneId e = None -> e = idleEditor).
Proof.
  intros (Hi & _ & _ & Hidle). destruct s as [v e]. cbn [pg_editor pg_view] in *.
  destruct ev as [| |pane| |value|key|index]; cbn [editorHandler pg_editor pg_view].
  - done.
  - unfold onRequestPathEdit. by destruct (editorBlocked v).
  - unfold startPathEdit. by destruct (editorBlocked v).
  - destruct (pe_paneId e) eqn:E; [done|]. cbn. rewrite E. auto.
  - destruct (pe_paneId e) eqn:E; cbn; rewrite E; auto. split; [lia|done].
  - destruct (pe_paneId e) as [pane|] eqn:E; [|cbn; rewrite E; auto].
    unfold onPathInputKeyDown, confirmPathEdit. rewrite E.
    repeat (match goal with |- context [if ?b then _ else _] => destruct b end);
      cbn [fst]; (split; [first [apply move_nonneg; [done|lia]|cbn; lia]|]);
      change (pe_paneId (movePathSuggestion ?v ?e ?d)) with (pe_paneId e); cbn; rewrite ?E; done.
  - destruct (editingPathSuggestions v e !! index) eqn:E; cbn; [|auto]. split; [lia|].
    intros Hp. rewrite suggestions_none in E by done. done.
Qed.

Lemma editor_ok_step s ev : editor_ok s -> editor_ok (fst (editingStep s ev)).
Proof.
  intros Hok. destruct (handler_keeps s ev Hok) as [Hi Hidle]. unfold editingStep.
  destruct (editorHandler s ev) as [e out]. by apply settle_ok.
Qed.

Lemma editor_ok_run s evs : editor_ok s -> editor_ok (runEditing s evs).
Proof.
  revert s. induction evs as [|ev evs IH]; intros s Hok; [done|]. by apply IH, editor_ok_step.
Qed.

(** On a state where the invariant holds the effects change nothing, so they
    need not run a second time. *)
Lemma settle_settled s : editor_ok s -> settleEditor (pg_view s) (pg_editor s) = pg_editor s.
Proof.
  destruct s as [v [pane value i]]. intros (H0 & Hi & Hb & Hidle). cbn in *.
  unfold settleEditor, clampSuggestionIndex. cbn [pe_paneId pe_value pe_index].
  assert ((if Z.of_nat (length (editingPathSuggestions v (mkPathEditor pane value i))) =? 0 then 0
    else Z.min i (Z.of_nat (length (editingPathSuggestions v (mkPathEditor pane value i))) - 1)) = i) as ->.
  { destruct (Z.eqb_spec (Z.of_nat (length (editingPathSuggestions v (mkPathEditor pane value i)))) 0); lia. }
  unfold closeForDialog, closeForOperation. cbn [pe_paneId].
  destruct pane as [pane|].
  - specialize (Hb ltac:(eauto)). unfold editorBlocked in Hb. apply orb_false_iff in Hb as [-> ->]. done.
  - specialize (Hidle eq_refl) as [= -> ->]. by rewrite !andb_false_r.
Qed.

Definition arrowKey (down : bool) : string := if down then "ArrowDown" else "ArrowUp".
Definition arrowSum (arrows : list bool) : Z :=
  foldr (fun (down : bool) total => (if down then 1 else -1) + total) 0 arrows.

Lemma arrow_step v pane value i (down : bool) :
  let s := mkPathEditing v (mkPathEditor (Some pane) value i) in
  let n := Z.of_nat (length (editingPathSuggestions v (mkPathEditor (Some pane) value i))) in
  editor_ok s -> 0 < n ->
  fst (editingStep s (InputKey (arrowKey down))) =
  mkPathEditing v (mkPathEditor (Some pane) value ((i + (if down then 1 else -1)) mod n)).
Proof.
  intros s n Hok Hn. pose proof (editor_ok_step s (InputKey (arrowKey down)) Hok) as Hok'.
  pose proof (settle_settled _ Hok') as Hs. revert Hok' Hs.
  unfold editingStep, s. cbn [editorHandler pg_view pg_editor pe_paneId].
  assert (onPathInputKeyDown v (mkPathEditor (Some pane) value i) (arrowKey down) =
    (movePathSuggestion v (mkPathEditor (Some pane) value i) (if down then 1 else -1), [])) as ->.
  { unfold onPathInputKeyDown. unfold n in Hn.
    rewrite (proj2 (Nat.ltb_lt 0 _)) by lia. by destruct down. }
  intros Hok' _. cbn [fst]. f_equal.
  assert (movePathSuggestion v (mkPathEditor (Some pane) value i) (if down then 1 else -1) =
    mkPathEditor (Some pane) value ((i + (if down then 1 else -1)) mod n)) as ->.
  { unfold movePathSuggestion. cbn [pe_paneId pe_value pe_index]. fold n. f_equal.
    destruct (Z.eqb_spec n 0); [lia|]. destruct Hok as (H0 & _). cbn in H0.
    rewrite Z.rem_mod_nonneg by (destruct down; lia).
    replace (i + (if down then 1 else -1) + n) with (i + (if down then 1 else -1) + 1 * n) by lia.
    by rewrite Z_mod_plus_full. }
  apply (settle_settled (mkPathEditing v _)). destruct Hok as (H0 & Hi & Hb & _).
  pose proof (Z.mod_pos_bound (i + (if down then 1 else -1)) n Hn).
  unfold editor_ok. cbn [pg_view pg_editor pe_index pe_paneId].
  rewrite (suggestions_index v (Some pane) value _ i). fold n. split_and!; [lia|lia|done|done].
Qed.

Lemma mount_ok v : editor_ok (mountEditing v).
Proof.
  unfold editor_ok. cbn [pg_view pg_editor mountEditing].
  rewrite suggestions_none by done. cbn. split_and!; [lia|auto|by intros [? ?]|done].
Qed.

Lemma arrows_walk v pane value i arrows :
  let suggestions := editingPathSuggestions v (mkPathEditor (Some pane) value i) in
  let n := Z.of_nat (length suggestions) in
  editor_ok (mkPathEditing v (mkPathEditor (Some pane) value i)) -> 0 < n ->
  runEditing (mkPathEditing v (mkPathEditor (Some pane) value i))
    ((fun a => InputKey (arrowKey a)) <$> arrows) =
  mkPathEditing v (mkPathEditor (Some pane) value ((i + arrowSum arrows) mod n)).
Proof.
  revert i. induction arrows as [|a arrows IH]; intros i suggestions n Hok Hn.
  - destruct Hok as (H0 & Hi & _). cbn [pg_view pg_editor pe_index] in H0, Hi.
    fold suggestions n in Hi. cbn [fmap list_fmap runEditing foldl arrowSum foldr].
    rewrite Z.add_0_r, Z.mod_small by lia. done.
  - cbn [fmap list_fmap runEditing foldl]. change (foldl _ ?x ?l) with (runEditing x l).
    pose proof (editor_ok_step _ (InputKey (arrowKey a)) Hok) as Hok'.
    rewrite (arrow_step v pane value i a Hok Hn) in Hok' |- *.
    rewrite (IH _ Hok' Hn). change (editingPathSuggestions _ _) with suggestions. fold n.
    rewrite Zplus_mod_idemp_l. do 3 f_equal. unfold arrowSum. cbn [foldr]. lia.
Qed.

Lemma enter_confirms v pane value j suggestion :
  editingPathSuggestions v (mkPathEditor (Some pane) value j) !! Z.to_nat j = Some suggestion -> 0 <= j ->
  editingStep (mkPathEditing v (mkPathEditor (Some pane) value j)) (InputKey "Enter") =
  (mkPathEditing v idleEditor,
   (let path := trim (sg_path suggestion) in if truthy path then [PanePathSet pane path] else []) ++ [FocusRoot]).
Proof.
  intros Hs Hj. unfold editingStep. cbn [editorHandler pg_view pg_editor pe_paneId].
  assert (highlighted v (mkPathEditor (Some pane) value j) = Some suggestion) as Hh.
  { unfold highlighted, at_. cbn [pe_index]. by rewrite decide_True by lia. }
  assert (onPathInputKeyDown v (mkPathEditor (Some pane) value j) "Enter" =
    confirmPathEdit v (mkPathEditor (Some pane) value j)) as -> by reflexivity.
  unfold confirmPathEdit. cbn [pe_paneId]. rewrite Hh. f_equal. f_equal.
  apply (settle_settled (mkPathEditing v idleEditor)), mount_ok.
Qed.

(** ** Properties *)

(** C27: The suggestions are the first eight of a reference list: without an
    input, the current path, the history from its nearest entry on, the home
    directory and the known directories, each once; with an input, those of
    them whose displayed path contains it in letters of either case, stably
    sorted by how well they match (equal, a prefix of the path, a prefix of its
    last segment, anywhere else).  No path is suggested twice, and there are as
    many suggestions as candidates unless there are more than eight. *)
Theorem suggestions_ranked inputValue paneState directoryPaths formatPath :
  let input := toLowerCase (trim inputValue) in
  let candidates :=
    if truthy input
    then sort (byRank input formatPath) (containing input formatPath (suggestible paneState directoryPaths))
    else suggestible paneState directoryPaths in
  let suggestions := getCommanderPathSuggestions inputValue paneState directoryPaths formatPath in
  suggestions = toSuggestion paneState formatPath <$> take 8 candidates /\
  NoDup (sg_path <$> suggestions) /\
  length suggestions = Nat.min 8 (length candidates).
Proof.
  intros input candidates suggestions.
  assert (sg_path <$> suggestions = take 8 candidates) as Hp
    by apply getCommanderPathSuggestions_paths.
  split_and!.
  - rewrite <- Hp, <- list_fmap_compose. rewrite <- (list_fmap_id suggestions) at 1.
    apply list_fmap_ext. intros i s Hs. by eapply suggestion_of_path, list_elem_of_lookup_2.
  - rewrite Hp. apply (sublist_NoDup _ candidates); [|apply sublist_take].
    assert (NoDup (suggestible paneState directoryPaths)) by apply dedupe_from_NoDup.
    unfold candidates. destruct (truthy input); [|done]. by apply NoDup_sort, NoDup_filterb.
  - rewrite <- (length_fmap sg_path), Hp, length_take. done.
Qed.

(** Whatever the user does and however the widget changes under the editor,
    after the effects the highlighted index points at a suggestion (or is zero
    when there is none), no path is edited while an operation or a file dialog
    is open, and a closed editor holds nothing of the last edit. *)
Theorem editor_always_ok v evs : editor_ok (runEditing (mountEditing v) evs).
Proof. apply editor_ok_run, mount_ok. Qed.

(** The arrow keys walk the suggestions in a circle and Enter goes to the
    one they reached: from the highlighted index on, with one step down or up
    for each key, modulo the number of suggestions.  The editor closes, the
    root takes the focus and nothing else happens. *)
Theorem arrows_then_enter v pane value i arrows :
  let s := mkPathEditing v (mkPathEditor (Some pane) value i) in
  let suggestions := editingPathSuggestions v (mkPathEditor (Some pane) value i) in
  editor_ok s -> suggestions <> [] ->
  exists suggestion,
    suggestions !! Z.to_nat ((i + arrowSum arrows) mod Z.of_nat (length suggestions)) = Some suggestion /\
    editingStep (runEditing s ((fun a => InputKey (arrowKey a)) <$> arrows)) (InputKey "Enter") =
    (mkPathEditing v idleEditor,
     (let path := trim (sg_path suggestion) in if truthy path then [PanePathSet pane path] else []) ++ [FocusRoot]).
Proof.
  intros s suggestions Hok Hne.
  assert (0 < Z.of_nat (length suggestions)) as Hn by (destruct suggestions; [done|cbn; lia]).
  pose proof (Z.mod_pos_bound (i + arrowSum arrows) _ Hn) as Hj.
  destruct (lookup_lt_is_Some_2 suggestions (Z.to_nat ((i + arrowSum arrows) mod Z.of_nat (length suggestions))))
    as [suggestion Hs]; [lia|].
  exists suggestion. split; [done|]. unfold s. rewrite arrows_walk by (try done; exact Hn). apply enter_confirms; [exact Hs|apply Hj].
Qed.

(** ** Witnesses and examples *)

Definition editing_widget : CommanderWidgetRuntimeState :=
  sample_widget None (sample_pane_at PaneLeft "/repo" [sample_folder "src"; sample_folder "new-docs"] [])
    (sample_pane_at PaneRight "/tmp" [] []).
Definition editing_view : EditorView := mkEditorView editing_widget (Some "/home/u").

(** Opened on the left pane with Ctrl+L, then a value typed. *)
Definition editing_typed (value : string) : PathEditing :=
  runEditing (mountEditing editing_view) [RequestEdit; InputChange value].

Lemma arrows_then_enter_witness :
  let s := editing_typed "/" in
  snd (editingStep (runEditing s [InputKey "ArrowDown"; InputKey "ArrowDown"; InputKey "ArrowUp"]) (InputKey "Enter")) =
    [PanePathSet PaneLeft "/tmp"; FocusRoot].
Proof.
  assert (editor_ok (editing_typed "/")) as Hok by (apply editor_ok_run, mount_ok).
  destruct (arrows_then_enter editing_view PaneLeft "/" 0 [true; true; false] Hok) as (x & Hx & E).
  - intros H. vm_compute in H. discriminate.
  - assert (x = mkSuggestion "/tmp" "/tmp" MetaPath) as -> by (vm_compute in Hx; congruence).
    exact (f_equal snd E).
Defined.

(** A typed path is replaced by the first suggestion whenever some known path
    contains it: in [/repo] the root directory cannot be typed, nor a path that
    begins the name of a known directory. *)
Example typed_path_replaced :
  snd (editingStep (editing_typed "/") (InputKey "Enter")) = [PanePathSet PaneLeft "/repo"; FocusRoot] /\
  snd (editingStep (editing_typed "/repo/new") (InputKey "Enter")) =
    [PanePathSet PaneLeft "/repo/new-docs"; FocusRoot] /\
  snd (editingStep (editing_typed "/repo/other") (InputKey "Enter")) =
    [PanePathSet PaneLeft "/repo/other"; FocusRoot].
Proof. vm_compute. split_and!; reflexivity. Qed.

(** At the root directory the suggested paths begin with two slashes. *)
Example root_directories_suggested_with_two_slashes :
  joinCommanderPath "/" "etc" = "//etc" /\ joinRuntimePath "/" "etc" = "/etc".
Proof. vm_compute. split; reflexivity. Qed.
