(* ===== verification/PendingBar.v ===== *)
(** * The pending bar and the controls of the commander

    [frontend/src/widgets/commander/commander-pending-bar.tsx] and the texts
    and tests of [commander-widget.shared.tsx] that it uses, the hints of
    [commander-widget.tsx], the header row, the clicks on the rows and the
    column heads of [commander-pane.tsx], and the title of the commander's tab.

    A control is what the user clicks or types in; its handler answers the
    actions that it calls, in order.  The last sections are a pane and the
    details of an operation as they are shown. *)
From Stdlib Require Import Ascii String.
From stdpp Require Import strings.
From S2P Require Import Prelude JsString Types RuntimePath CommanderApi Selection Preview Operations PaneState Navigation Store ViewModel Loader Mutations FileDialog Keyboard PathEdit WidgetTexts.
Local Open Scope string_scope.
Local Open Scope list_scope.
Local Open Scope Z_scope.

(** ** Texts *)

Definition commanderRenameTemplatePresets : list string :=
  ["[N]-[C:2]"; "[C:2]-[N]"; "[N:l]-[C:2]"; "[N:u]-[C:2]"; "[C:10:3]"].

Definition commanderCopyTemplatePresets : list string := ["[N]-copy"; "[N]-copy-[C:2]"; "[F]-copy"].

(** [entryNames[0]] printed in a template: the text of [undefined] when there is none. *)
Definition firstName (names : list string) : string := nullish (head names) "undefined".

Definition selectionLabel (b : CommanderPendingOperationBase) : string :=
  match o_entryNames b with
  | [name] => name
  | names => showNat (length names) +:+ " items"
  end.

Definition hasInvalid (preview : list CommanderRenamePreviewItem) : bool :=
  some (fun item => bool_decide (rp_status item = StInvalid)) preview.

Definition conflictMessage (names : list string) (targetPath : string) : string :=
  "Conflict: " +:+ firstName names +:+ " already exists in " +:+ targetPath.

(** [cloneMode === 'batch'] *)
Definition isBatch (c : CommanderClonePendingOperation) : bool :=
  match cl_cloneMode c with CloneBatch => true | CloneSingle => false end.

(** The case [copy] with [transferMode === 'clone']. *)
Definition cloneMessage (c : CommanderClonePendingOperation) : string :=
  let b := cl_base c in
  let sourcePath := o_sourcePath b in
  let targetName := trim (cl_inputValue c) in
  let batch := isBatch c in
  if negb (truthy targetName) then
    if batch then "Copy template is required in " +:+ sourcePath
    else "Copy target name is required in " +:+ sourcePath
  else if negb (isBatch c) && bool_decide (Some targetName = head (o_entryNames b))
  then "Copy target name must differ from " +:+ firstName (o_entryNames b)
  else if negb (bool_decide (cl_duplicateTargetNames c = []))
  then "Template creates duplicate names in " +:+ sourcePath
  else if batch && hasInvalid (cl_renamePreview c)
  then "Template creates invalid names in " +:+ sourcePath
  else if negb (bool_decide (cl_conflictEntryNames c = [])) then
    if batch then "Template conflicts with existing entries in " +:+ cl_targetPath c
    else conflictMessage (cl_conflictEntryNames c) (cl_targetPath c)
  else if batch
  then "Copy " +:+ selectionLabel b +:+ " in " +:+ sourcePath +:+ " using template"
  else "Copy " +:+ selectionLabel b +:+ " as " +:+ targetName +:+ " in " +:+ sourcePath.

Definition transferMessage (t : CommanderPaneTransferPendingOperation) : string :=
  if negb (bool_decide (tr_conflictEntryNames t = []))
  then conflictMessage (tr_conflictEntryNames t) (tr_targetPath t)
  else match tr_kind t with TransferCopy => "Copy " | TransferMove => "Move " end +:+
       selectionLabel (tr_base t) +:+ " to " +:+ tr_targetPath t.

Definition renameMessage (r : CommanderRenamePendingOperation) : string :=
  let b := rn_base r in
  let sourcePath := o_sourcePath b in
  if negb (bool_decide (rn_duplicateTargetNames r = []))
  then "Template creates duplicate names in " +:+ sourcePath
  else if negb (bool_decide (rn_conflictEntryNames r = []))
  then "Overwrite " +:+ rn_inputValue r +:+ " in " +:+ sourcePath
  else match rn_renameMode r with
       | RenameBatch => "Rename " +:+ selectionLabel b +:+ " in " +:+ sourcePath
       | RenameSingle => "Rename " +:+ firstName (o_entryNames b) +:+ " in " +:+ sourcePath
       end.

Definition orText (text other : string) : string := if truthy text then text else other.

Definition matchMessage (verb : string) (count : nat) (mask : string)
    (b : CommanderPendingOperationBase) : string :=
  verb +:+ showNat count +:+ " entries matching " +:+ mask +:+ " in " +:+ o_sourcePath b.

Definition operationMessage (op : CommanderPendingOperation) : string :=
  match op with
  | OpTransfer (TransferClone c) => cloneMessage c
  | OpTransfer (TransferPane t) => transferMessage t
  | OpDelete b => "Delete " +:+ selectionLabel b +:+ " from " +:+ o_sourcePath b
  | OpMkdir m => "Create " +:+ orText (mk_inputValue m) "directory" +:+ " in " +:+ o_sourcePath (mk_base m)
  | OpRename r => renameMessage r
  | OpMask m =>
      matchMessage (match ma_kind m with
                    | MaskSelect => "Select " | MaskUnselect => "Unselect " | MaskFilter => "Filter "
                    end) (ma_matchCount m) (orText (ma_inputValue m) "*") (ma_base m)
  | OpSearch s => matchMessage "Search " (se_matchCount s) (orText (se_inputValue s) "") (se_base s)
  end.

Definition formatPendingOperationMessage (state : CommanderWidgetViewState) : option string :=
  operationMessage <$> wv_pendingOperation state.

(** ** What the bar offers *)

Definition isPendingOperationBlocking (state : CommanderWidgetViewState) : bool :=
  match wv_pendingOperation state with
  | Some (OpTransfer (TransferClone c)) =>
      let targetName := trim (cl_inputValue c) in
      if negb (truthy targetName) then true
      else match cl_cloneMode c with
           | CloneBatch =>
               negb (bool_decide (cl_duplicateTargetNames c = [])) ||
               negb (bool_decide (cl_conflictEntryNames c = [])) || hasInvalid (cl_renamePreview c)
           | CloneSingle => bool_decide (Some targetName = head (o_entryNames (cl_base c)))
           end
  | Some (OpRename r) => negb (bool_decide (rn_duplicateTargetNames r = []))
  | _ => false
  end.

Definition isPendingOperationConflictResolution (state : CommanderWidgetViewState) : bool :=
  match wv_pendingOperation state with
  | Some (OpTransfer t) =>
      match t with
      | TransferPane _ => true
      | TransferClone c => negb (isBatch c)
      end && negb (bool_decide (transfer_conflicts t = []))
  | _ => false
  end.

Definition getRenamePreviewStatusLabel (status : CommanderRenamePreviewStatus) : string :=
  match status with
  | StDuplicate => "DUP" | StConflict => "EXISTS" | StInvalid => "INVALID" | StOk => "OK"
  end.

Record RenamePreviewSummary := mkSummary {
  su_total : nat; su_ok : nat; su_duplicate : nat; su_conflict : nat; su_invalid : nat
}.

(** One step of the [reduce]. *)
Definition countItem (s : RenamePreviewSummary) (item : CommanderRenamePreviewItem) : RenamePreviewSummary :=
  let total := S (su_total s) in
  match rp_status item with
  | StOk => mkSummary total (S (su_ok s)) (su_duplicate s) (su_conflict s) (su_invalid s)
  | StDuplicate => mkSummary total (su_ok s) (S (su_duplicate s)) (su_conflict s) (su_invalid s)
  | StConflict => mkSummary total (su_ok s) (su_duplicate s) (S (su_conflict s)) (su_invalid s)
  | StInvalid => mkSummary total (su_ok s) (su_duplicate s) (su_conflict s) (S (su_invalid s))
  end.

Definition getRenamePreviewSummary (preview : list CommanderRenamePreviewItem) : RenamePreviewSummary :=
  foldl countItem (mkSummary 0 0 0 0 0) preview.

Definition getRowTypeLabel (row : CommanderFileRow) : string :=
  match r_kind row with
  | KindFolder => "DIR"
  | KindSymlink => "LINK"
  | KindFile =>
      if nullish (r_executable row) false then "EXE"
      else if truthy (r_ext row) then str_map upper_unit (r_ext row) else "FILE"
  end.

Definition getCommanderPendingInputAriaLabel (op : option CommanderPendingOperation) : string :=
  match op with
  | Some (OpTransfer (TransferClone c)) =>
      if isBatch c then "Commander copy template input"
      else "Commander copy target name input"
  | Some (OpTransfer (TransferPane t)) =>
      match tr_kind t with
      | TransferCopy => "Commander copy target name input"
      | TransferMove => "Commander mask selection input"
      end
  | Some (OpMkdir _) => "Commander directory name input"
  | Some (OpRename _) => "Commander pending operation input"
  | Some (OpMask m) =>
      match ma_kind m with
      | MaskFilter => "Commander filter input"
      | _ => "Commander mask selection input"
      end
  | Some (OpSearch _) => "Commander search input"
  | _ => "Commander mask selection input"
  end.

(** [pendingInputOperation] of the bar, with the value of the input *)
Definition barInput (op : CommanderPendingOperation) : option string :=
  match op with
  | OpTransfer (TransferClone c) => Some (cl_inputValue c)
  | OpMkdir m => Some (mk_inputValue m)
  | OpRename r => Some (rn_inputValue r)
  | OpMask m => Some (ma_inputValue m)
  | OpSearch s => Some (se_inputValue s)
  | OpTransfer (TransferPane _) | OpDelete _ => None
  end.

(** [pendingInputOperation] of the widget, which takes the focus: no clone. *)
Definition widgetInput (op : CommanderPendingOperation) : bool :=
  match op with
  | OpMkdir _ | OpRename _ | OpMask _ | OpSearch _ => true
  | OpTransfer _ | OpDelete _ => false
  end.

(** The templates shown as presets. *)
Definition barPresets (op : CommanderPendingOperation) : list string :=
  match op with
  | OpRename r =>
      match rn_renameMode r with RenameBatch => commanderRenameTemplatePresets | RenameSingle => [] end
  | OpTransfer (TransferClone c) =>
      match cl_cloneMode c with CloneBatch => commanderCopyTemplatePresets | CloneSingle => [] end
  | _ => []
  end.

(** ** Controls *)

(** What a control calls: an action of the keyboard's table, the change of the
    input, the editing of a path, the focus of the root. *)
Inductive BarAction :=
  | BarRun (a : KeyAction)
  | BarInput (value : string)
  | BarPathEdit (pane : CommanderPaneId)
  | BarFocus.

Inductive BarControl :=
  | TypeInput (value : string)
  | InputKeyDown (key : string)
  | ClickConfirm
  | ClickOverwrite
  | ClickSkip
  | ClickOverwriteAll
  | ClickSkipAll
  | ClickCancel
  | ClickPreset (template : string)
  | ClickHint (hintKey : string).

(** The controls that are rendered. *)
Definition barOffers (state : CommanderWidgetViewState) (c : BarControl) : bool :=
  match wv_pendingOperation state with
  | None => match c with ClickHint key => includes key (h_key <$> wv_footerHints state) | _ => false end
  | Some op =>
      match c with
      | TypeInput _ | InputKeyDown _ => bool_decide (is_Some (barInput op))
      | ClickConfirm => negb (isPendingOperationConflictResolution state)
      | ClickOverwrite | ClickSkip | ClickOverwriteAll | ClickSkipAll =>
          isPendingOperationConflictResolution state
      | ClickCancel => true
      | ClickPreset template => includes template (barPresets op)
      | ClickHint _ => false
      end
  end.

(** The table of [handleHintAction] in front of [focusCommanderRoot]. *)
Definition hintAction (hintKey : string) : option KeyAction :=
  switchKey hintKey
    [("F2", RenameSelection); ("F3", ViewActiveFile); ("F4", EditActiveFile); ("F5", CopySelection);
     ("F6", MoveSelection); ("F7", MkdirKey); ("F8", DeleteSelection); ("NUM+", SelectByMask);
     ("NUM-", UnselectByMask); ("NUM*", InvertSelection); ("CTRL+F", FilterActivePane);
     ("CTRL+S", SearchActivePane); ("CTRL+BS", ClearActivePaneFilterKey)].

Definition handleHintAction (state : CommanderWidgetViewState) (hintKey : string) : list BarAction :=
  match hintAction hintKey with
  | Some a => [BarRun a; BarFocus]
  | None =>
      if bool_decide (hintKey = "CTRL+L") then [BarPathEdit (wv_activePane state)] else [BarFocus]
  end.

Definition barHandler (state : CommanderWidgetViewState) (c : BarControl) : list BarAction :=
  let blocking := isPendingOperationBlocking state in
  let needsInput :=
    match wv_pendingOperation state with Some op => bool_decide (is_Some (barInput op)) | None => false end in
  match c with
  | TypeInput value => [BarInput value]
  | InputKeyDown key =>
      if bool_decide (key = "Enter") then
        if blocking then [] else [BarRun ConfirmPendingOperationKey]
      else if bool_decide (key = "Escape") then [BarRun CancelPendingOperationKey; BarFocus]
      else []
  | ClickConfirm =>
      if blocking then []
      else BarRun ConfirmPendingOperationKey :: (if needsInput then [] else [BarFocus])
  | ClickOverwrite => [BarRun OverwritePendingConflict; BarFocus]
  | ClickSkip => [BarRun SkipPendingConflict; BarFocus]
  | ClickOverwriteAll => [BarRun OverwriteAllPendingConflicts; BarFocus]
  | ClickSkipAll => [BarRun SkipAllPendingConflicts; BarFocus]
  | ClickCancel => [BarRun CancelPendingOperationKey; BarFocus]
  | ClickPreset template => [BarInput template]
  | ClickHint key => handleHintAction state key
  end.

(** The label of the confirmation. *)
Definition confirmLabel (state : CommanderWidgetViewState) : string :=
  if isPendingOperationBlocking state then "Fix template" else "Confirm".

(** ** The header row *)

Inductive HeaderControl :=
  | HeaderBack | HeaderForward | HeaderViewMode (mode : CommanderViewMode)
  | HeaderRuntimeContext | HeaderDirsFirst | HeaderShowHidden.

Inductive HeaderAction :=
  | HeaderRun (a : KeyAction)
  | HeaderDispatch (e : CommanderEvent)
  | ToggleRuntimeContext
  | HeaderFocus.

(** [disabled] of the buttons *)
Definition headerDisabled (state : CommanderWidgetViewState) (hasContext : bool) (c : HeaderControl) : bool :=
  let activePane := match wv_activePane state with PaneLeft => wv_leftPane state | PaneRight => wv_rightPane state end in
  let disableHistoryControls := bool_decide (is_Some (wv_pendingOperation state)) in
  match c with
  | HeaderBack => disableHistoryControls || negb (pv_canGoBack activePane)
  | HeaderForward => disableHistoryControls || negb (pv_canGoForward activePane)
  | HeaderRuntimeContext => negb hasContext
  | _ => false
  end.

Definition headerHandler (c : HeaderControl) : list HeaderAction :=
  match c with
  | HeaderBack => [HeaderRun GoBack; HeaderFocus]
  | HeaderForward => [HeaderRun GoForward; HeaderFocus]
  | HeaderViewMode mode => [HeaderDispatch (SetViewMode mode)]
  | HeaderRuntimeContext => [ToggleRuntimeContext; HeaderFocus]
  | HeaderDirsFirst => [HeaderDispatch ToggleDirsFirst; HeaderFocus]
  | HeaderShowHidden => [HeaderDispatch ToggleShowHidden]
  end.

(** ** Rows and columns of a pane *)

Record ClickKeys := mkClickKeys { ck_shiftKey : bool; ck_metaKey : bool; ck_ctrlKey : bool }.

Inductive PaneControl :=
  | PanePointerDown
  | RowClick (rowId : string) (keys : ClickKeys)
  | RowDoubleClick (rowId : string)
  | HeadClick (mode : CommanderSortMode)
  | HeadKeyDown (mode : CommanderSortMode) (key : string)
  | PathClick.

Inductive PaneAction :=
  | PaneDispatch (e : CommanderEvent)
  | PaneOpenEntry (pane : CommanderPaneId) (entryId : string)
  | PaneStartPathEdit (pane : CommanderPaneId)
  | PaneFocus.

(** The pane-scoped interactions of [createCommanderPaneController] and the
    handlers of the pane that call them. *)
Definition paneHandler (pane : CommanderPaneViewState) (activePaneId : CommanderPaneId) (c : PaneControl)
    : list PaneAction :=
  let paneId := pv_id pane in
  let activate := PaneDispatch (SetActivePane paneId) in
  match c with
  | PanePointerDown => [activate; PaneFocus]
  | RowClick rowId keys =>
      [activate; PaneDispatch (SetPaneCursor paneId rowId (ck_shiftKey keys)); PaneFocus] ++
      (if ck_metaKey keys || ck_ctrlKey keys then [PaneDispatch (TogglePaneSelection paneId rowId)] else [])
  | RowDoubleClick rowId => [activate; PaneOpenEntry paneId rowId; PaneFocus]
  | HeadClick mode => [PaneDispatch (SetSortMode mode)]
  | HeadKeyDown mode key =>
      if bool_decide (key = "Enter") || bool_decide (key = " ") then [PaneDispatch (SetSortMode mode)] else []
  | PathClick => if bool_decide (activePaneId = paneId) then [PaneStartPathEdit paneId] else []
  end.

(** ** The tab *)

(** The digits behind the last dash, [-(\d+)$] *)
Definition digitSuffix (panelId : string) : option string :=
  match lastIndexOf "-" panelId with
  | None => None
  | Some i =>
      let digits := strDrop (S i) panelId in
      if truthy digits && str_all is_digit digits then Some digits else None
  end.

Definition formatCommanderTabTitle (panelId fallbackTitle : string) : string :=
  match digitSuffix panelId with
  | None => fallbackTitle
  | Some digits => fallbackTitle +:+ " " +:+ digits
  end.

(** ** Specification *)

(** The state that the bar renders for a widget. *)
Definition barState (w : CommanderWidgetRuntimeState) : CommanderWidgetViewState := toWidgetViewState w None.

(** What a control of the bar can ask for, run on the widget [w]. *)
Definition bar_asks `{Locale} (inFlight : bool) (w : CommanderWidgetRuntimeState) (c : BarControl)
    (q : ActionRequest) : Prop :=
  exists a, BarRun a ∈ barHandler (barState w) c /\ run_asks (commanderAction inFlight w a) q.

(** A copy into the pane itself is as the store made it: opened by a request, or
    its input changed, in a widget with that operation. *)
Definition made_by_store `{Locale} (w : CommanderWidgetRuntimeState) : Prop :=
  match w_pendingOperation w with
  | Some (OpTransfer (TransferClone _)) =>
      exists w', w_pendingOperation w' = w_pendingOperation w /\
        ((exists w0 kind, requestCommanderWidgetPendingOperation w0 kind = Some w') \/
         (exists w0 value, updateCommanderPendingOperationInput w0 value = Some w'))
  | _ => True
  end.

(** A single clone with a conflict has a name of its own. *)
Definition clone_named (w : CommanderWidgetRuntimeState) : Prop :=
  match w_pendingOperation w with
  | Some (OpTransfer (TransferClone c)) =>
      cl_cloneMode c = CloneSingle -> cl_conflictEntryNames c <> [] ->
      truthy (trim (cl_inputValue c)) = true /\ Some (trim (cl_inputValue c)) <> head (o_entryNames (cl_base c))
  | _ => True
  end.

Definition is_batch_clone (op : CommanderPendingOperation) : bool :=
  match op with OpTransfer (TransferClone c) => isBatch c | _ => false end.

(** The key that a button shows, and the press that it names. *)
Definition buttonKey (c : BarControl) : option string :=
  match c with
  | ClickConfirm | ClickOverwrite => Some "ENTER"
  | ClickSkip => Some "SPACE"
  | ClickOverwriteAll => Some "SHIFT+ENTER"
  | ClickSkipAll => Some "SHIFT+SPACE"
  | ClickCancel => Some "ESC"
  | _ => None
  end.

Definition shownPress (label : string) : KeyEvent :=
  let press shift key := mkKey false false false shift key "" in
  if bool_decide (label = "ENTER") then press false "Enter"
  else if bool_decide (label = "SPACE") then press false " "
  else if bool_decide (label = "SHIFT+ENTER") then press true "Enter"
  else if bool_decide (label = "SHIFT+SPACE") then press true " "
  else press false "Escape".

(** ** Lemmas *)

Lemma updated_clone_named `{Locale} w0 value w :
  updateCommanderPendingOperationInput w0 value = Some w -> clone_named w.
Proof.
  unfold updateCommanderPendingOperationInput.
  destruct (w_pendingOperation w0) as [[[c|t]|b|m|r|m|s]|]; try done; intros Hw.
  2-5: by injection Hw as <-.
  revert Hw. destruct (cl_cloneMode c) eqn:Em; intros [= <-]; unfold clone_named; cbn -[truthy trim];
    [|done].
  intros _ Hc. destruct (truthy (trim value)) eqn:Et; [|done]. split; [done|]. intros Hh.
  apply Hc. by rewrite bool_decide_eq_true_2.
Qed.

Lemma requested_clone_named `{Locale} w0 kind w :
  requestCommanderWidgetPendingOperation w0 kind = Some w -> clone_named w.
Proof.
  unfold requestCommanderWidgetPendingOperation.
  destruct (createPendingOperation w0 kind) as [op|] eqn:E; [|done]. intros [= <-]. unfold clone_named.
  cbn. revert E. unfold createPendingOperation. destruct (_ && _); [done|].
  assert (forall k p ids, createTransferOperation w0 k p ids = Some op ->
    match op with OpTransfer (TransferClone c) =>
      cl_cloneMode c = CloneSingle -> cl_conflictEntryNames c <> [] ->
      truthy (trim (cl_inputValue c)) = true /\
      Some (trim (cl_inputValue c)) <> head (o_entryNames (cl_base c))
    | _ => True end) as Ht.
  { intros k p ids. unfold createTransferOperation. cbv zeta.
    repeat case_match; intros; simplify_eq; try done; by destruct k. }
  destruct kind; try (by intros [= <-]); try (by apply Ht).
  unfold createRenameOperation. repeat case_match; intros; by simplify_eq.
Qed.

Lemma made_clone_named `{Locale} w : made_by_store w -> clone_named w.
Proof.
  unfold made_by_store, clone_named. destruct (w_pendingOperation w) as [[[c|t]|b|m|r|m|s]|]; try done.
  intros (w' & Hp & Hmade). assert (clone_named w') as Hn.
  { destruct Hmade as [(w0 & k & E)|(w0 & v & E)]; [by eapply requested_clone_named|by eapply updated_clone_named]. }
  unfold clone_named in Hn. by rewrite Hp in Hn.
Qed.

(** While the bar is blocked it shows no conflict buttons. *)
Lemma blocking_no_conflicts w :
  clone_named w -> isPendingOperationBlocking (barState w) = true ->
  isPendingOperationConflictResolution (barState w) = false.
Proof.
  unfold clone_named, isPendingOperationBlocking, isPendingOperationConflictResolution. cbn [barState toWidgetViewState wv_pendingOperation].
  destruct (w_pendingOperation w) as [[[c|t]|b|m|r|m|s]|]; try done. cbn [transfer_conflicts]. unfold isBatch.
  destruct (cl_cloneMode c); [|done]. intros Hn Hb. cbn [negb andb]. apply negb_false_iff, bool_decide_eq_true_2.
  destruct (decide (cl_conflictEntryNames c = [])) as [|Hc]; [done|]. destruct (Hn eq_refl Hc) as [Ht Hne].
  rewrite Ht in Hb. cbn in Hb. by apply bool_decide_eq_true in Hb.
Qed.

Lemma acts_no_calls es q : ~ sends (acts es Ret) q.
Proof. induction es as [|e es IH]; cbn; inversion 1; by subst. Qed.

(** The hints open operations, or look at the file under the cursor. *)
Lemma hint_answers_nothing key a : hintAction key = Some a -> answers_pending a = false.
Proof.
  intros Ha. apply switchKey_in in Ha.
  repeat (apply elem_of_cons in Ha as [[= -> ->]|Ha]; [done|]). by apply elem_of_nil in Ha.
Qed.

(** The answers to an operation ask for nothing without one, and send no change
    while a mutation is in flight. *)
Lemma answers_ask inFlight w a q :
  answers_pending a = true -> run_asks (commanderAction inFlight w a) q ->
  is_Some (w_pendingOperation w) /\ (forall x, q = Changes x -> inFlight = false).
Proof.
  intros Ha Hq. split.
  - destruct (w_pendingOperation w) eqn:E; [by eexists|by apply answers_without_pending in Hq].
  - intros x ->. apply run_asks_sends in Hq. destruct inFlight; [|done]. by apply answers_in_flight in Hq.
Qed.

Lemma summary_counts preview s :
  let count st := occurrences (fun item => bool_decide (rp_status item = st)) preview in
  foldl countItem s preview =
  mkSummary (su_total s + length preview) (su_ok s + count StOk) (su_duplicate s + count StDuplicate)
    (su_conflict s + count StConflict) (su_invalid s + count StInvalid).
Proof.
  revert s. induction preview as [|item preview IH]; intros s; cbn [foldl].
  - destruct s. cbn. by rewrite !Nat.add_0_r.
  - rewrite IH. unfold countItem. cbv zeta. rewrite !occurrences_cons. cbn [length].
    destruct (rp_status item); repeat case_bool_decide; try done; cbn; f_equal; lia.
Qed.

(** What the controls of the bar run. *)
Lemma bar_runs state c a :
  barOffers state c = true -> BarRun a ∈ barHandler state c ->
  (exists key, c = ClickHint key /\ hintAction key = Some a) \/ a = CancelPendingOperationKey \/
  (a = ConfirmPendingOperationKey /\ isPendingOperationBlocking state = false) \/
  (a ∈ [OverwritePendingConflict; SkipPendingConflict; OverwriteAllPendingConflicts; SkipAllPendingConflicts] /\
   isPendingOperationConflictResolution state = true).
Proof.
  intros Hoff Ha.
  assert (forall a', BarRun a ∈ [BarRun a'; BarFocus] -> a = a') as Htwo.
  { intros a' [[= ->]|[=]%list_elem_of_singleton]%elem_of_cons. done. }
  destruct c as [value|key| | | | | | |template|hintKey]; cbn [barHandler] in Ha.
  - by apply list_elem_of_singleton in Ha.
  - destruct (isPendingOperationBlocking state) eqn:Eb; destruct (bool_decide (key = "Enter"));
      destruct (bool_decide (key = "Escape")); try (by apply elem_of_nil in Ha); try (apply Htwo in Ha; by auto);
      apply list_elem_of_singleton in Ha as [= ->]; auto.
  - destruct (isPendingOperationBlocking state) eqn:Eb; [by apply elem_of_nil in Ha|].
    apply elem_of_cons in Ha as [[= ->]|Ha]; [auto|].
    match type of Ha with _ ∈ (if ?b then _ else _) => destruct b end;
      [by apply elem_of_nil in Ha|by apply list_elem_of_singleton in Ha].
  - apply Htwo in Ha as ->. do 3 right. split; [set_solver|]. revert Hoff. unfold barOffers. by destruct (wv_pendingOperation state).
  - apply Htwo in Ha as ->. do 3 right. split; [set_solver|]. revert Hoff. unfold barOffers. by destruct (wv_pendingOperation state).
  - apply Htwo in Ha as ->. do 3 right. split; [set_solver|]. revert Hoff. unfold barOffers. by destruct (wv_pendingOperation state).
  - apply Htwo in Ha as ->. do 3 right. split; [set_solver|]. revert Hoff. unfold barOffers. by destruct (wv_pendingOperation state).
  - apply Htwo in Ha as ->. auto.
  - by apply list_elem_of_singleton in Ha.
  - unfold handleHintAction in Ha. destruct (hintAction hintKey) as [b|] eqn:E.
    + apply Htwo in Ha as ->. eauto.
    + destruct (bool_decide _); by apply list_elem_of_singleton in Ha.
Qed.

(** A press at the root, while an operation is pending and no dialog is open. *)
Lemma shown_press_reaches label op pane rows hasPathEdit ts now `{Locale} :
  let e := shownPress label in
  kr_action (fst (onKeyDown None e pane rows (Some op) None hasPathEdit ts now)) =
  kr_action (handleCommanderPendingOperationKeys e (Some op)).
Proof.
  intros e. unfold onKeyDown. cbn [isInteractiveTextTarget].
  assert (k_altKey e = false /\ k_metaKey e = false /\ k_ctrlKey e = false) as (E1 & E2 & E3)
    by (unfold e, shownPress; by repeat case_bool_decide).
  unfold handleCommanderFileDialogKeys, handleCommanderAltNavigationKeys, handleCommanderModifierKeys.
  rewrite E1, E2, E3. cbn [negb andb orb find kr_handled declined].
  by rewrite pending_handled.
Qed.

(** ** Properties *)

(** C26: Whatever control of the bar is used, it sends a request that changes
    files only while an operation is pending, no other mutation is in flight and
    the bar is not blocked ("Fix template"), provided that a copy into the pane
    itself is as the store made it; and it lists a directory only by answering an
    operation of a bar that is not blocked, or, as a hint, in the active pane,
    and reads a file only as the hints to view and edit the file under the
    cursor. *)
Theorem bar_requests_unblocked `{Locale} inFlight w c q :
  made_by_store w -> barOffers (barState w) c = true -> bar_asks inFlight w c q ->
  let answered := is_Some (w_pendingOperation w) /\ isPendingOperationBlocking (barState w) = false in
  match q with
  | Changes _ => answered /\ inFlight = false
  | Lists (pane, _, _, _) => answered \/ (exists key, c = ClickHint key) /\ pane = w_activePane w
  | Reads pane x _ =>
      answered \/ (exists key, c = ClickHint key) /\ pane = w_activePane w /\
        truthyOpt (p_cursorEntryId (getRuntimePaneState w (w_activePane w))) = Some x
  end.
Proof.
  intros Hmade%made_clone_named Hoff (a & Ha & Hq) answered.
  assert (answers_pending a = true -> isPendingOperationBlocking (barState w) = false ->
    match q with Changes _ => answered /\ inFlight = false | _ => answered end) as Hans.
  { intros Hp Hb. destruct (answers_ask _ _ _ _ Hp Hq) as [Hop Hfl]. destruct q; [split; [done|by eapply Hfl]|done..]. }
  assert (match q with Changes _ => answered /\ inFlight = false | _ => answered end -> match q with
    | Changes _ => answered /\ inFlight = false
    | Lists (pane, _, _, _) => answered \/ (exists key, c = ClickHint key) /\ pane = w_activePane w
    | Reads pane x _ => answered \/ (exists key, c = ClickHint key) /\ pane = w_activePane w /\
        truthyOpt (p_cursorEntryId (getRuntimePaneState w (w_activePane w))) = Some x
    end) as Hleft.
  { destruct q as [q|[[[pane path] mode] options]|pane x mode]; [done|by left..]. }
  destruct (bar_runs _ _ _ Hoff Ha) as [(key & -> & Hk)|[->|[[-> Hb]|[Hr Hc]]]].
  - apply hint_answers_nothing in Hk. apply (other_actions_ask inFlight w a q Hk) in Hq.
    destruct q as [q|[[[pane path] mode] options]|pane x mode]; [done| |]; right; (split; [by eexists|exact Hq]).
  - by apply asks_dispatch in Hq.
  - by apply Hleft, Hans.
  - apply Hleft, Hans.
    + repeat (apply elem_of_cons in Hr as [->|Hr]; [done|]). by apply elem_of_nil in Hr.
    + destruct (isPendingOperationBlocking (barState w)) eqn:Eb; [|done].
      by rewrite (blocking_no_conflicts w) in Hc.
Qed.

(** The keys that the buttons show do what the buttons do: unless the
    operation is a copy by template or the bar is blocked, the press that an
    offered button names, at the root of the widget, runs the action of the
    button. *)
Theorem buttons_show_their_keys `{Locale} state op c label pane rows hasPathEdit ts now :
  wv_pendingOperation state = Some op -> is_batch_clone op = false ->
  isPendingOperationBlocking state = false -> barOffers state c = true -> buttonKey c = Some label ->
  BarRun <$> kr_action (fst (onKeyDown None (shownPress label) pane rows (Some op) None hasPathEdit ts now)) =
  head (barHandler state c).
Proof.
  intros Hop Hbatch Hblock Hoff Hlabel. rewrite shown_press_reaches.
  assert (isPendingOperationConflictResolution state = hasCommanderPendingConflictResolution op) as Hconf.
  { unfold isPendingOperationConflictResolution. rewrite Hop. cbn.
    destruct op as [[c'|t]| | | | |]; try done. cbn in Hbatch |- *. by rewrite Hbatch. }
  unfold barOffers in Hoff. rewrite Hop in Hoff.
  unfold handleCommanderPendingOperationKeys. cbv zeta.
  destruct c; cbn in Hlabel; try done; injection Hlabel as <-; cbn [barHandler]; rewrite ?Hconf in Hoff.
  - apply negb_true_iff in Hoff. rewrite Hoff, Hblock. by destruct op as [[]| | | | |].
  - by rewrite Hoff.
  - by rewrite Hoff.
  - by rewrite Hoff.
  - by rewrite Hoff.
  - destruct (hasCommanderPendingConflictResolution op); [done|]. by destruct op as [[]| | | | |].
Qed.

(** The summary above the preview counts every item under its status. *)
Lemma summary_exact preview :
  let s := getRenamePreviewSummary preview in
  let count st := occurrences (fun item => bool_decide (rp_status item = st)) preview in
  s = mkSummary (length preview) (count StOk) (count StDuplicate) (count StConflict) (count StInvalid) /\
  su_total s = (su_ok s + su_duplicate s + su_conflict s + su_invalid s)%nat.
Proof.
  intros s count. assert (s = mkSummary (length preview) (count StOk) (count StDuplicate) (count StConflict)
    (count StInvalid)) as -> by apply (summary_counts preview (mkSummary 0 0 0 0 0)).
  split; [done|]. cbn. unfold count. clear. induction preview as [|item preview IH]; [done|].
  rewrite !occurrences_cons. cbn [length]. destruct (rp_status item); repeat case_bool_decide; try done; lia.
Qed.

(** A pending operation always has a message, so the bar shows it. *)
Lemma operation_message_shown op : operationMessage op <> "".
Proof.
  assert (forall a s t, String a s +:+ t <> "") as Hne by done.
  destruct op as [[c|t]|b|m|r|m|s]; cbn -[append showNat];
    unfold cloneMessage, transferMessage, renameMessage, matchMessage, conflictMessage;
    repeat case_match; try apply Hne.
  all: apply Hne.
Qed.

(** ** Witnesses and examples *)

(** Two panes on one directory, two files selected, one of their copies there already. *)
Definition same_directory : CommanderWidgetRuntimeState :=
  let dir := [sample_file "a.txt" "txt"; sample_file "a-copy.txt" "txt"; sample_file "b.txt" "txt"] in
  mkWidget "w1" ViewCommander PaneLeft true SortName SortAsc true defaultCommanderFooterHints None None
    (sample_pane dir ["/d::a.txt"; "/d::b.txt"]) (sample_pane_at PaneRight "/d" dir []).

Definition after_request (kind : CommanderPendingOperationKind) (w : CommanderWidgetRuntimeState) :
    CommanderWidgetRuntimeState := default w (requestCommanderWidgetPendingOperation w kind).
Definition after_input (value : string) (w : CommanderWidgetRuntimeState) : CommanderWidgetRuntimeState :=
  default w (updateCommanderPendingOperationInput w value).

Definition two_deleted : CommanderWidgetRuntimeState := after_request KDelete same_directory.

(** The button that confirms a deletion, and the hint of F3. *)
Lemma bar_requests_unblocked_witness :
  isPendingOperationBlocking (barState two_deleted) = false /\
  truthyOpt (p_cursorEntryId (getRuntimePaneState same_directory PaneLeft)) = Some "/d::a.txt".
Proof.
  split.
  - destruct (bar_requests_unblocked false two_deleted ClickConfirm
      (Changes (ReqDelete ["/d/a.txt"; "/d/b.txt"])) I eq_refl) as [[_ H] _]; [|exact H].
    exists ConfirmPendingOperationKey. split; [vm_compute; left|].
    apply a_act. apply (a_call (ReqDelete ["/d/a.txt"; "/d/b.txt"])).
  - destruct (bar_requests_unblocked false same_directory (ClickHint "F3")
      (Reads PaneLeft "/d::a.txt" OpenView) I eq_refl) as [[H _]|(_ & _ & H)]; [..|exact H].
    + exists ViewActiveFile. split; [vm_compute; left|]. vm_compute. reflexivity.
    + destruct H as [op H]. discriminate H.
Defined.

Lemma buttons_show_their_keys_witness :
  let op := OpDelete (mkOpBase PaneLeft "/d" ["/d::a.txt"; "/d::b.txt"] ["a.txt"; "b.txt"]) in
  BarRun <$> kr_action (fst (onKeyDown None (shownPress "ENTER") PaneLeft [] (Some op) None true (mkTypeahead "" 0) 0)) =
  Some (BarRun ConfirmPendingOperationKey).
Proof.
  exact (buttons_show_their_keys (barState two_deleted) _ ClickConfirm "ENTER" PaneLeft [] true
    (mkTypeahead "" 0) 0 eq_refl eq_refl eq_refl eq_refl eq_refl).
Defined.

Definition pressed_at_root (w : CommanderWidgetRuntimeState) (label : string) : option KeyAction :=
  kr_action (fst (onKeyDown None (shownPress label) PaneLeft [] (w_pendingOperation w) None true (mkTypeahead "" 0) 0)).

(** A copy by template whose names exist is blocked in the bar, which shows no
    conflict buttons and does not take the focus; Enter at the root overwrites
    the existing entries. *)
Example enter_overwrites_blocked_template :
  let w := after_request KCopy same_directory in
  isPendingOperationBlocking (barState w) = true /\
  isPendingOperationConflictResolution (barState w) = false /\
  (widgetInput <$> w_pendingOperation w) = Some false /\
  pressed_at_root w "ENTER" = Some OverwritePendingConflict /\
  run_sends (commanderAction false w OverwritePendingConflict)
    (ReqCopyToPaths [mkCopyEntry "/d/a.txt" "/d/a-copy.txt"; mkCopyEntry "/d/b.txt" "/d/b-copy.txt"] true).
Proof.
  intros w. split_and!; [vm_compute; reflexivity..|]. unfold run_sends, commanderAction. sends_first.
Qed.

(** A template that gives two copies one name is blocked in the bar; Enter at
    the root sends both. *)
Example enter_sends_duplicate_targets :
  let w := after_input "same" (after_request KCopy same_directory) in
  isPendingOperationBlocking (barState w) = true /\
  pressed_at_root w "ENTER" = Some ConfirmPendingOperationKey /\
  run_sends (commanderAction false w ConfirmPendingOperationKey)
    (ReqCopyToPaths [mkCopyEntry "/d/a.txt" "/d/same.txt"; mkCopyEntry "/d/b.txt" "/d/same.txt"] false).
Proof.
  intros w. split_and!; [vm_compute; reflexivity..|]. unfold run_sends, commanderAction. sends_first.
Qed.

(** ** A pane as it is shown ([commander-pane.tsx]) *)

Inductive RowIcon := IconFolder | IconLink | IconCode | IconText.
Definition getRowIcon (row : CommanderFileRow) : RowIcon :=
  match r_kind row with
  | KindFolder => IconFolder
  | KindSymlink => IconLink
  | KindFile =>
      if bool_decide (r_ext row = "tsx") || bool_decide (r_ext row = "ts") || bool_decide (r_ext row = "sh") then IconCode
      else IconText
  end.

(** The label and the arrow of the direction. *)
Definition renderCommanderSortLabel (label : string) (isActive : bool) (sortDirection : CommanderSortDirection)
    : string * option string :=
  (label, if isActive then Some (match sortDirection with SortDesc => "▼" | SortAsc => "▲" end) else None).

Record HeaderCell := mkHeaderCell {
  hc_mode : option CommanderSortMode;       (* what a click sorts by *)
  hc_title : string;
  hc_label : string * option string
}.
Record ShownRow := mkShownRow {
  sr_id : string;
  sr_icon : RowIcon;
  sr_name : string;
  sr_type : string;
  sr_symlink : option string;
  sr_git : string;
  sr_size : string;
  sr_modified : string;
  sr_marks : bool * bool * bool             (* selected, focused, hidden *)
}.
Record ShownPane := mkShownPane {
  sp_badge : string;
  sp_path : string * string;                (* the text and its tooltip *)
  sp_filter : option string;
  sp_loading : bool;
  sp_error : option string;
  sp_items : string;
  sp_columns : list HeaderCell;
  sp_status : list string;                  (* in place of the rows *)
  sp_rows : list ShownRow;
  sp_footer : string * string;
  sp_scrollTo : option string               (* the row that is kept in view *)
}.

Definition paneRow (row : CommanderFileRow) : ShownRow := {|
  sr_id := r_id row;
  sr_icon := getRowIcon row;
  sr_name := r_name row;
  sr_type := getRowTypeLabel row;
  sr_symlink := if bool_decide (r_kind row = KindSymlink) then truthyOpt (r_symlinkTarget row) else None;
  sr_git := nullish (r_gitStatus row) "";
  sr_size := if bool_decide (r_kind row = KindSymlink) then "" else r_size row;
  sr_modified := r_modified row;
  sr_marks := (r_selected row, r_focused row, r_hidden row)
|}.

Definition CommanderPane (copy : CommanderPaneCopy) (isActive : bool) (pane : CommanderPaneViewState)
    (sortMode : CommanderSortMode) (sortDirection : CommanderSortDirection) : ShownPane :=
  let column mode title label :=
    mkHeaderCell (Some mode) title (renderCommanderSortLabel label (bool_decide (sortMode = mode)) sortDirection) in
  let empty := match pv_rows pane with [] => true | _ :: _ => false end in {|
    sp_badge := if isActive then pcy_active copy else pcy_pane copy;
    sp_path := (pv_displayPath pane, pv_path pane);
    sp_filter := if truthy (pv_filterQuery pane) then Some ("FILTER " +:+ pv_filterQuery pane) else None;
    sp_loading := pv_isLoading pane;
    sp_error := truthyOpt (pv_errorMessage pane);
    sp_items := pcy_items copy (ct_items (pv_counters pane));
    sp_columns := [column SortExt (pcy_sortByType copy) (pcy_type copy); column SortName (pcy_sortByName copy) (pcy_name copy);
      mkHeaderCell None "" (pcy_git copy, None); column SortSize (pcy_sortBySize copy) (pcy_size copy);
      column SortModified (pcy_sortByModified copy) (pcy_modified copy)];
    sp_status := (if pv_isLoading pane && empty then [pcy_loadingDirectory copy] else []) ++
      match truthyOpt (pv_errorMessage pane) with Some message => if empty then [message] else [] | None => [] end;
    sp_rows := paneRow <$> pv_rows pane;
    sp_footer := (pcy_selected copy (ct_selectedItems (pv_counters pane)), ct_selectedSize (pv_counters pane));
    sp_scrollTo := r_id <$> find r_focused (pv_rows pane)
  |}.

Definition is_focused (row : ShownRow) : bool := row.(sr_marks).1.2.
Definition shownPane (copy : CommanderPaneCopy) (w : CommanderWidgetRuntimeState) (homeDir : option string)
    (pane : CommanderPaneId) : ShownPane :=
  CommanderPane copy (bool_decide (w_activePane w = pane)) (toPaneViewState w (getPaneState w pane) homeDir)
    (w_sortMode w) (w_sortDirection w).

Lemma focused_rows copy w homeDir pane :
  p_id (getPaneState w pane) = pane ->
  occurrences is_focused (sp_rows (shownPane copy w homeDir pane)) =
    if bool_decide (w_activePane w = pane)
    then occurrences (fun e => bool_decide (p_cursorEntryId (getPaneState w pane) = Some (e_id e))) (p_entries (getPaneState w pane))
    else 0%nat.
Proof.
  intros Hid. cbn [shownPane CommanderPane sp_rows toPaneViewState pv_rows]. rewrite Hid.
  induction (p_entries (getPaneState w pane)) as [|e l IH]; [by destruct (bool_decide _)|].
  cbn [fmap list_fmap]. rewrite !occurrences_cons, IH. unfold is_focused. cbn [paneRow sr_marks fst snd r_focused].
  by destruct (bool_decide (w_activePane w = pane)).
Qed.

Lemma one_cursor l c :
  NoDup (entry_ids l) -> c ∈ entry_ids l -> occurrences (fun e => bool_decide (Some c = Some (e_id e))) l = 1%nat.
Proof.
  induction l as [|e l IH]; [by intros _ []%not_elem_of_nil|]. cbn [entry_ids fmap list_fmap]. intros [He Hd]%NoDup_cons Hc.
  rewrite occurrences_cons. destruct (decide (c = e_id e)) as [->|Hne].
  - rewrite bool_decide_eq_true_2 by done. f_equal. clear IH Hd Hc. induction l as [|e' l IH]; [done|].
    rewrite occurrences_cons. cbn [fmap list_fmap] in He. rewrite not_elem_of_cons in He. destruct He as [Hn He].
    rewrite bool_decide_eq_false_2 by congruence. by apply IH.
  - rewrite bool_decide_eq_false_2 by congruence. apply elem_of_cons in Hc as [|Hc]; [done|]. by apply IH.
Qed.

(** In a well formed widget whose listings have no id twice, one row is
    highlighted as the focused one in both panes together, that of the cursor of the
    active pane, which is kept in view. *)
Lemma one_row_focused `{Locale} copy w homeDir :
  widget_ok w -> p_entries (getPaneState w (w_activePane w)) <> [] ->
  NoDup (entry_ids (p_entries (getPaneState w (w_activePane w)))) ->
  occurrences is_focused (sp_rows (shownPane copy w homeDir PaneLeft) ++ sp_rows (shownPane copy w homeDir PaneRight)) = 1%nat.
Proof.
  intros Hw Hne Hd. unfold occurrences. rewrite filterb_app, length_app.
  change (occurrences is_focused (sp_rows (shownPane copy w homeDir PaneLeft)) +
    occurrences is_focused (sp_rows (shownPane copy w homeDir PaneRight)) = 1)%nat.
  rewrite !focused_rows by apply Hw. destruct (Hw (w_activePane w)) as [[_ Hm] _].
  destruct (Hm Hne) as (_ & (c & Hc & Hin) & _).
  destruct (w_activePane w); cbn [bool_decide decide]; rewrite Hc, one_cursor by done; done.
Qed.

(* The head of a column takes Enter and the space bar, and the key goes on to the
   root of the commander, which has no test that it was taken: without a pending operation
   the column is sorted and the entry under the cursor opened, and with one
   sorting confirms it. *)
Example head_key_reaches_root :
  let pane := toPaneViewState two_deleted (w_leftPane two_deleted) None in
  let free := after_input "" same_directory in
  paneHandler pane PaneLeft (HeadKeyDown SortSize "Enter") = [PaneDispatch (SetSortMode SortSize)] /\
  pressed_at_root two_deleted "ENTER" = Some ConfirmPendingOperationKey /\
  pressed_at_root free "ENTER" <> None.
Proof. split_and!; [reflexivity..|]. vm_compute. discriminate. Qed.

(** ** What the bar says of an operation ([commander-pending-bar.tsx]) *)

(** The help on templates, the presets, the counts, the duplicate names, and
    the names before and after with their status. *)
Record PreviewLine := mkPreviewLine {
  pl_index : nat;
  pl_current : string;
  pl_next : string;
  pl_status : string;
  pl_conflict : bool
}.
Record TemplatePanel := mkTemplatePanel {
  tp_help : list string;
  tp_presets : list string;
  tp_summary : list string;
  tp_warning : option string;
  tp_lines : list PreviewLine
}.
Record MaskPanel := mkMaskPanel {
  mk_help : list string;
  mk_summary : list string;
  mk_preview : list string;
  mk_more : option string
}.
Record PendingSupplement := mkSupplement { ps_template : option TemplatePanel; ps_mask : option MaskPanel }.

Definition templateHelp : list string :=
  ["[N] name"; "[N:l] lower"; "[N:u] upper"; "[E] ext"; "[E:l] lower ext"; "[F] full"; "[F:u] upper full"; "[C] counter";
   "[C:2] padded counter"; "[C:10:3] start 10 width 3"; "[C:10:3:2] step 2"].

Definition previewLine (index : nat) (item : CommanderRenamePreviewItem) : PreviewLine :=
  mkPreviewLine (S index) (rp_currentName item) (orText (rp_nextName item) "Invalid name")
    (getRenamePreviewStatusLabel (rp_status item)) (rp_conflict item).

Definition summaryBadges (summary : RenamePreviewSummary) : list string :=
  let optional count label := if bool_decide (count = 0%nat) then [] else [showNat count +:+ label] in
  [showNat (su_total summary) +:+ " total"; showNat (su_ok summary) +:+ " ok"] ++ optional (su_conflict summary) " exists" ++
  optional (su_duplicate summary) " duplicate" ++ optional (su_invalid summary) " invalid".

Definition templatePanel (op : CommanderPendingOperation) : option TemplatePanel :=
  let panel duplicates preview :=
    mkTemplatePanel templateHelp (barPresets op)
      (match preview with [] => [] | _ :: _ => summaryBadges (getRenamePreviewSummary preview) end)
      (match duplicates with [] => None | _ :: _ => Some ("Duplicate targets: " +:+ join ", " duplicates) end)
      (imap previewLine preview) in
  match op with
  | OpRename r => Some (panel (rn_duplicateTargetNames r) (rn_renamePreview r))
  | OpTransfer (TransferClone c) => if isBatch c then Some (panel (cl_duplicateTargetNames c) (cl_renamePreview c)) else None
  | _ => None
  end.

Definition moreMatches (matchCount : nat) (preview : list string) : option string :=
  if (length preview <? matchCount)%nat then Some ("+" +:+ showNat (matchCount - length preview) +:+ " more") else None.

Definition maskPanel (op : CommanderPendingOperation) : option MaskPanel :=
  match op with
  | OpMask m =>
      Some (mkMaskPanel (["* any"; "? single"; "; split masks"] ++
          match ma_kind m with MaskFilter => ["empty clears filter"] | _ => [] end)
        [showNat (ma_matchCount m) +:+ " matches"] (ma_matchPreview m) (moreMatches (ma_matchCount m) (ma_matchPreview m)))
  | OpSearch x =>
      Some (mkMaskPanel ["substring match"; "visible rows only"; "up/down step hits"; "enter confirms current"]
        ([showNat (se_matchCount x) +:+ " matches"] ++
         (if (0 <? se_matchCount x)%nat then [showZ (se_matchIndex x + 1) +:+ "/" +:+ showNat (se_matchCount x)] else []))
        (se_matchPreview x) (moreMatches (se_matchCount x) (se_matchPreview x)))
  | _ => None
  end.

(** It is shown below an operation with an input. *)
Definition pendingSupplement (op : CommanderPendingOperation) : option PendingSupplement :=
  match barInput op with
  | Some _ => Some (mkSupplement (templatePanel op) (maskPanel op))
  | None => None
  end.

(** The bar without an operation shows the hints, each with the key of its action. *)
Definition hintCells (state : CommanderWidgetViewState) : list (string * string) :=
  match formatPendingOperationMessage state with
  | Some message => if truthy message then [] else (fun hint => (h_key hint, h_label hint)) <$> wv_footerHints state
  | None => (fun hint => (h_key hint, h_label hint)) <$> wv_footerHints state
  end.

(** Two files renamed to one name, as the bar shows it. *)
Example duplicate_rename_is_shown :
  (fun panel => (tp_summary panel, tp_warning panel, (fun line => (pl_next line, pl_status line)) <$> tp_lines panel)) <$>
    (w_pendingOperation (after_input "same" (after_request KRename same_directory)) ≫= templatePanel) =
  Some (["2 total"; "0 ok"; "2 duplicate"], Some "Duplicate targets: same.txt", [("same.txt", "DUP"); ("same.txt", "DUP")]).
Proof. vm_compute. reflexivity. Qed.
