(* ===== verification/DialogView.v ===== *)
(** * The file dialog of the commander on the screen

    [frontend/src/widgets/commander/commander-file-dialog.tsx] and
    [getCommanderCursorMetrics] of [commander-widget.shared.tsx]: the cursor
    position, the sizes, the prompt for unsaved changes, and the requests to
    open the file with another program.  The state of the dialog in the store
    is [FileDialog]; here is the state of the component that shows it, and its
    view, whose enabled buttons are the events that it offers. *)
From Stdlib Require Import Ascii String.
From stdpp Require Import strings.
From S2P Require Import Prelude JsString Types CommanderApi Store ViewModel FileDialog Loader Keyboard PathEdit.
Local Open Scope string_scope.
Local Open Scope list_scope.
Local Open Scope Z_scope.

(** ** The cursor *)

Definition newline : ascii := "010".

Record CursorMetrics := mkMetrics { cu_line : Z; cu_column : Z; cu_chars : Z }.

(** [s.lastIndexOf('\n')] with its -1. *)
Definition lastLineBreakIndex (s : string) : Z :=
  match lastIndexOf newline s with Some i => Z.of_nat i | None => -1 end.

Definition getCommanderCursorMetrics (content : string) (position : Z) : CursorMetrics :=
  let chars := Z.of_nat (String.length content) in
  let safePosition := Z.max 0 (Z.min position chars) in
  let beforeCursor := strTake (Z.to_nat safePosition) content in
  mkMetrics (Z.of_nat (length (splitOn newline beforeCursor)))
    (safePosition - lastLineBreakIndex beforeCursor) chars.

(** ** Sizes *)

(** [formatBytes] of the dialog: nothing for an absent size or one that is not positive. *)
Definition formatBytesLabel (value : option Z) : option string :=
  match value with
  | None => None
  | Some v => if v <=? 0 then None else Some (formatBytes v)
  end.

Definition isBlocked (d : CommanderFileDialogState) : bool :=
  match fd_mode d with DialogBlocked => true | _ => false end.
Definition isEditable (d : CommanderFileDialogState) : bool :=
  match fd_mode d with DialogEdit => true | _ => false end.
Definition isHexPreview (d : CommanderFileDialogState) : bool :=
  negb (isEditable d) && negb (isBlocked d) &&
  match fd_previewKind d with Some PreviewHex => true | _ => false end.

Definition binaryPreviewSummary (d : CommanderFileDialogState) : option string :=
  match formatBytesLabel (fd_sizeBytes d), formatBytesLabel (fd_previewBytes d) with
  | Some size, Some preview =>
      Some ("Binary file · " +:+ size +:+ " · " +:+
            (if nullish (fd_truncated d) false then "Previewing first " else "Previewing ") +:+ preview)
  | Some size, None => Some ("Binary file · " +:+ size)
  | None, _ => None
  end.

Definition blockedBinaryHint (d : CommanderFileDialogState) : option string :=
  (fun size => "Binary file size: " +:+ size +:+ ". Use F3 for bounded hex preview.") <$>
    formatBytesLabel (fd_sizeBytes d).

(** The hint in the footer. *)
Definition modeHint (d : CommanderFileDialogState) : string :=
  if isEditable d then "Ctrl+S save"
  else if isBlocked d then
    match binaryPreviewSummary d, fd_blockedHint d with
    | Some text, _ => text
    | None, Some hint => hint
    | None, None => "Edit unavailable"
    end
  else if isHexPreview d then nullish (binaryPreviewSummary d) "Read only hex preview"
  else "Read only preview".

(** ** The component *)

(** [isFileDialogDirty] of the widget *)
Definition isFileDialogDirty (d : CommanderFileDialogState) : bool :=
  isEditable d && negb (bool_decide (fd_draftValue d = fd_content d)).

(** [activeFileDialogPath] of the widget *)
Definition activeFileDialogPath (d : CommanderFileDialogState) : string :=
  joinCommanderPath (fd_path d) (fd_entryName d).

Inductive ExternalAction := OpenFileAction | OpenFolderAction.

Definition successMessage (a : ExternalAction) : string :=
  match a with
  | OpenFolderAction => "Containing folder open request sent to the system opener."
  | OpenFileAction => "File open request sent to the system opener."
  end.
Definition fallbackErrorMessage (a : ExternalAction) : string :=
  match a with
  | OpenFolderAction => "Unable to open containing folder externally."
  | OpenFileAction => "Unable to open file externally."
  end.

(** The state of the component; [ui_calls] are the calls of
    [handleOpenExternal] that have not ended. *)
Record DialogUi := mkUi {
  ui_identity : option (string * CommanderFileDialogMode);
  ui_showDiscardPrompt : bool;
  ui_metrics : CursorMetrics;
  ui_openError : option string;
  ui_openSuccess : option string;
  ui_pending : bool;
  ui_pendingAction : option ExternalAction;
  ui_calls : list ExternalAction
}.

Definition setPrompt (b : bool) (u : DialogUi) : DialogUi :=
  mkUi (ui_identity u) b (ui_metrics u) (ui_openError u) (ui_openSuccess u) (ui_pending u)
    (ui_pendingAction u) (ui_calls u).
Definition setMetrics (m : CursorMetrics) (u : DialogUi) : DialogUi :=
  mkUi (ui_identity u) (ui_showDiscardPrompt u) m (ui_openError u) (ui_openSuccess u) (ui_pending u)
    (ui_pendingAction u) (ui_calls u).
Definition setOpen (error success : option string) (pending : bool) (action : option ExternalAction)
    (calls : list ExternalAction) (u : DialogUi) : DialogUi :=
  mkUi (ui_identity u) (ui_showDiscardPrompt u) (ui_metrics u) error success pending action calls.

(** What the component calls. *)
Inductive DialogOutput := OnChange (value : string) | OnClose | OnSave | OnOpen (a : ExternalAction).

Definition syncCursorMetrics (d : CommanderFileDialogState) (selectionStart : Z) (u : DialogUi) : DialogUi :=
  setMetrics (getCommanderCursorMetrics (fd_draftValue d) selectionStart) u.

Definition requestClose (d : CommanderFileDialogState) (u : DialogUi) : DialogUi * list DialogOutput :=
  if isEditable d && isFileDialogDirty d then (setPrompt true u, []) else (setPrompt false u, [OnClose]).

(** The effect that notices another file or mode. *)
Definition onIdentity (d : CommanderFileDialogState) (u : DialogUi) : DialogUi :=
  let nextIdentity := (activeFileDialogPath d, fd_mode d) in
  match ui_identity u with
  | Some identity =>
      if bool_decide (fst identity = fst nextIdentity) &&
         match snd identity, snd nextIdentity with
         | DialogView, DialogView | DialogEdit, DialogEdit | DialogBlocked, DialogBlocked => true
         | _, _ => false
         end
      then u
      else mkUi (Some nextIdentity) false (ui_metrics u) None None false None (ui_calls u)
  | None => mkUi (Some nextIdentity) false (ui_metrics u) None None false None (ui_calls u)
  end.

(** [handleOpenExternal] up to its [await]; both callbacks are given by the widget. *)
Definition handleOpenExternal (a : ExternalAction) (u : DialogUi) : DialogUi * list DialogOutput :=
  if ui_pending u then (u, [])
  else (setOpen None None true (Some a) (ui_calls u ++ [a]) u, [OnOpen a]).

(** Its end: [None] is success, [Some None] a failure that is no [Error]. *)
Definition openEnded (a : ExternalAction) (failure : option (option string)) (u : DialogUi) : DialogUi :=
  match failure with
  | None => setOpen (ui_openError u) (Some (successMessage a)) false None (ui_calls u) u
  | Some message => setOpen (Some (nullish message (fallbackErrorMessage a))) None false None (ui_calls u) u
  end.

Inductive DialogEvent :=
  | DialogRendered (selectionStart : Z)      (* after a change of the dialog *)
  | CursorMoved (selectionStart : Z)
  | TextChanged (value : string)
  | TextKeyDown (key : string) (ctrlKey metaKey : bool)
  | OverlayMouseDown
  | ClickClose
  | ClickSave
  | ClickKeepEditing
  | ClickSaveInPrompt
  | ClickDiscard
  | ClickOpen (a : ExternalAction)
  | OpenEnded (index : nat) (failure : option (option string)).

(** The controls that are rendered. *)
Definition dialogOffers (d : CommanderFileDialogState) (u : DialogUi) (ev : DialogEvent) : bool :=
  match ev with
  | TextKeyDown _ _ _ | CursorMoved _ => negb (isBlocked d)
  | TextChanged _ => isEditable d
  | ClickSave => isEditable d
  | ClickKeepEditing | ClickDiscard => ui_showDiscardPrompt u
  | ClickSaveInPrompt => ui_showDiscardPrompt u && isEditable d
  | ClickOpen _ => (isBlocked d || isHexPreview d) && negb (ui_pending u)
  | OpenEnded index _ => bool_decide (is_Some (ui_calls u !! index))
  | DialogRendered _ | OverlayMouseDown | ClickClose => true
  end.

Definition dialogHandler (d : CommanderFileDialogState) (u : DialogUi) (ev : DialogEvent)
    : DialogUi * list DialogOutput :=
  match ev with
  | DialogRendered selectionStart => (syncCursorMetrics d selectionStart (onIdentity d u), [])
  | CursorMoved selectionStart => (syncCursorMetrics d selectionStart u, [])
  | TextChanged value => (u, [OnChange value])
  | TextKeyDown key ctrlKey metaKey =>
      if bool_decide (key = "Escape") then requestClose d u
      else if isEditable d && (ctrlKey || metaKey) && (bool_decide (key = "s") || bool_decide (key = "S"))
      then (setPrompt false u, [OnSave])
      else (u, [])
  | OverlayMouseDown | ClickClose => requestClose d u
  | ClickSave | ClickSaveInPrompt => (setPrompt false u, [OnSave])
  | ClickKeepEditing => (setPrompt false u, [])
  | ClickDiscard => (setPrompt false u, [OnClose])
  | ClickOpen a => handleOpenExternal a u
  | OpenEnded index failure =>
      match ui_calls u !! index with
      | Some a =>
          (openEnded a failure (setOpen (ui_openError u) (ui_openSuccess u) (ui_pending u) (ui_pendingAction u)
             (removeAt index (ui_calls u)) u), [])
      | None => (u, [])
      end
  end.

Definition mountDialog (d : CommanderFileDialogState) : DialogUi :=
  mkUi None false (getCommanderCursorMetrics (fd_draftValue d) 0) None None false None [].

(** ** The callbacks of the widget *)

(** The events of the store and of the file flows that a callback starts:
    [onClose] and [onSave] in front of the focus of the root. *)
Definition widgetCallback (out : DialogOutput) : list FilesEvent :=
  match out with
  | OnChange value => [FxStore (SetFileDialogDraft value)]
  | OnClose => [FxStore CloseFileDialog]
  | OnSave => [FxSave]
  | OnOpen _ => []
  end.

(** [commanderActions.openFileExternally] starts the request and returns
    without waiting for it ([void]), so [await openAction()] never fails. *)
Definition widgetOpenFailure (request : option CommanderError) : option (option string) := None.

(** ** Specification *)

(** Where the line with index [k] begins: behind the lines in front of it and
    their line breaks. *)
Definition lineStart (lines : list string) (k : nat) : Z :=
  foldr (fun line total => Z.of_nat (String.length line) + 1 + total) 0 (take k lines).

(** ** Lemmas *)

Lemma total_length c s : lineStart (splitOn c s) (length (splitOn c s)) = Z.of_nat (String.length s) + 1.
Proof.
  unfold lineStart. rewrite firstn_all.
  induction s as [|a s IH]; cbn [splitOn]; [done|].
  case_bool_decide; [cbn; rewrite IH; lia|].
  destruct (splitOn c s) as [|w l] eqn:E; [by apply splitOn_nonempty in E|]. cbn in *. lia.
Qed.

(** The lines of a prefix are the lines of the text, the last one cut. *)
Lemma splitOn_prefix c s t :
  exists l w w' r, splitOn c s = l ++ [w] /\ splitOn c (s +:+ t) = l ++ (w +:+ w') :: r.
Proof.
  induction s as [|a s (l & w & w' & r & E1 & E2)].
  - destruct (splitOn c t) as [|w' r] eqn:E; [by apply splitOn_nonempty in E|]. by exists [], "", w', r.
  - cbn [splitOn append]. case_bool_decide as Ha.
    + exists ("" :: l), w, w', r. cbn. change (String.append s t) with (s +:+ t). by rewrite E1, E2.
    + change (String.append s t) with (s +:+ t). rewrite E1, E2. destruct l as [|x l]; cbn.
      * by exists [], (String a w), w', r.
      * by exists (String a x :: l), w, w', r.
Qed.

(** The last line of a text begins behind the last line break. *)
Lemma last_line_start s l w :
  splitOn newline s = l ++ [w] ->
  lineStart l (length l) = lastLineBreakIndex s + 1 /\
  Z.of_nat (String.length s) = lineStart l (length l) + Z.of_nat (String.length w).
Proof.
  unfold lastLineBreakIndex. destruct (lastIndexOf newline s) as [i|] eqn:Ei; intros E.
  - apply lastIndexOf_Some in Ei as (s1 & s2 & -> & <- & H2). apply lastIndexOf_None in H2.
    rewrite splitOn_app, (splitOn_no_unit newline s2) in E by exact H2.
    apply app_inj_tail in E as [<- <-]. rewrite total_length, length_append. cbn. lia.
  - apply lastIndexOf_None in Ei. rewrite (splitOn_no_unit newline s) in E by exact Ei.
    change ([s]) with ([] ++ [s]) in E. apply app_inj_tail in E as [<- <-]. cbn. lia.
Qed.

Lemma length_strTake n s : (n <= String.length s)%nat -> String.length (strTake n s) = n.
Proof. revert n. induction s as [|a s IH]; intros [|n] H; cbn in *; try lia. by rewrite IH by lia. Qed.

Lemma close_needs_discard d u ev :
  OnClose ∈ snd (dialogHandler d u ev) -> isFileDialogDirty d = true -> dialogOffers d u ev = true ->
  ev = ClickDiscard /\ ui_showDiscardPrompt u = true.
Proof.
  assert (isFileDialogDirty d = true -> snd (requestClose d u) = []) as Hr.
  { intros Hd. unfold requestClose. rewrite Hd. unfold isFileDialogDirty in Hd. by apply andb_true_iff in Hd as [-> _]. }
  intros Hc Hd Hoff. specialize (Hr Hd).
  destruct ev; cbn [dialogHandler snd] in Hc; rewrite ?Hr in Hc;
    try (by apply elem_of_nil in Hc); try (by apply list_elem_of_singleton in Hc).
  - destruct (bool_decide _); [by rewrite Hr in Hc; apply elem_of_nil in Hc|].
    destruct (_ && _); [by apply list_elem_of_singleton in Hc|by apply elem_of_nil in Hc].
  - unfold handleOpenExternal in Hc. destruct (ui_pending u); [by apply elem_of_nil in Hc|].
    by apply list_elem_of_singleton in Hc.
  - destruct (ui_calls u !! index); by apply elem_of_nil in Hc.
Qed.

(** ** Properties *)

(** The footer of the dialog locates the cursor: the position, kept within
    the text, is in the line that is shown, at the column that is shown behind
    the beginning of that line. *)
Theorem cursor_metrics_locate content position :
  let m := getCommanderCursorMetrics content position in
  let lines := splitOn newline content in
  exists text,
    1 <= cu_line m /\ lines !! Z.to_nat (cu_line m - 1) = Some text /\
    0 <= cu_column m - 1 <= Z.of_nat (String.length text) /\
    lineStart lines (Z.to_nat (cu_line m - 1)) + (cu_column m - 1) =
      Z.max 0 (Z.min position (Z.of_nat (String.length content))) /\
    cu_chars m = Z.of_nat (String.length content).
Proof.
  intros m lines. set (safe := Z.max 0 (Z.min position (Z.of_nat (String.length content)))).
  set (before := strTake (Z.to_nat safe) content).
  assert (String.length before = Z.to_nat safe) as Hlen by (apply length_strTake; lia).
  destruct (splitOn_prefix newline before (strDrop (Z.to_nat safe) content)) as (l & w & w' & r & E1 & E2).
  unfold before in E2 at 1. rewrite strTake_Drop in E2.
  destruct (last_line_start before l w E1) as [Hs Hw].
  assert (cu_line m = Z.of_nat (length l) + 1) as ->.
  { unfold m. cbn. fold safe before. rewrite E1, length_app. cbn. lia. }
  assert (cu_column m = safe - lastLineBreakIndex before) as -> by done.
  replace (Z.to_nat (Z.of_nat (length l) + 1 - 1)) with (length l) by lia.
  unfold lines. rewrite E2. exists (w +:+ w').
  assert (lineStart (l ++ (w +:+ w') :: r) (length l) = lineStart l (length l)) as ->.
  { unfold lineStart. by rewrite take_app_length, firstn_all. }
  rewrite length_append. split_and!; [lia|by rewrite list_lookup_middle|lia|lia|lia|done].
Qed.

(** ** Examples *)

(** The dialog says that the request was sent even when it failed. *)
Example open_failure_reported_as_sent :
  let d := edit_dialog "x" in
  let u := fst (dialogHandler d (mountDialog d) (ClickOpen OpenFileAction)) in
  forall error,
  ui_openSuccess (fst (dialogHandler d u (OpenEnded 0 (widgetOpenFailure (Some error))))) =
    Some (successMessage OpenFileAction).
Proof. reflexivity. Qed.

(** Escape in the text asks for unsaved changes; at the root, which has the
    focus after a click on Save, it closes the dialog without asking. *)
Example escape_at_root_discards :
  let d := edit_dialog "changed" in
  let u := mountDialog d in
  isFileDialogDirty d = true /\
  snd (dialogHandler d u (TextKeyDown "Escape" false false)) = [] /\
  kr_action (fst (onKeyDown None (plain_key "Escape") PaneLeft [] None (Some d) true (mkTypeahead "" 0) 0%Z)) =
    Some CloseFileDialogKey.
Proof. vm_compute. split_and!; reflexivity. Qed.

(** ** What the dialog shows *)

Record DialogButton := mkDialogButton { db_label : string; db_disabled : bool; db_event : DialogEvent }.
Inductive DialogBody :=
  | BlockedBody (texts : list string)
  | TextBody (label value : string) (readOnly : bool).
Record FileDialogView := mkFileDialogView {
  dv_mode : string;
  dv_title : string;
  dv_badges : list string;
  dv_path : string;
  dv_actions : list DialogButton;
  dv_body : DialogBody;
  dv_footer : list string;
  dv_prompt : option (string * list DialogButton);    (* [None] is the hint to close *)
  dv_hintClose : option string
}.

Definition openLabel (u : DialogUi) (a : ExternalAction) : string :=
  let busy := ui_pending u &&
    match ui_pendingAction u, a with
    | Some OpenFileAction, OpenFileAction | Some OpenFolderAction, OpenFolderAction => true
    | _, _ => false
    end in
  match a with
  | OpenFileAction => if busy then "Opening file…" else "Open file"
  | OpenFolderAction => if busy then "Opening folder…" else "Open containing folder"
  end.

(** Both callbacks of the external actions are given by the widget. *)
Definition dialogActions (d : CommanderFileDialogState) (u : DialogUi) : list DialogButton :=
  (if isBlocked d || isHexPreview d then
     (fun a => mkDialogButton (openLabel u a) (ui_pending u) (ClickOpen a)) <$> [OpenFileAction; OpenFolderAction]
   else []) ++
  (if isEditable d then [mkDialogButton "Save" false ClickSave] else []) ++
  [mkDialogButton "Close" false ClickClose].

Definition openResults (u : DialogUi) : list string :=
  let text (t : option string) := match truthyOpt t with Some t => [t] | None => [] end in
  text (ui_openError u) ++ text (ui_openSuccess u).

Definition dialogBody (d : CommanderFileDialogState) (u : DialogUi) : DialogBody :=
  if isBlocked d then
    BlockedBody
      ([nullish (fd_blockedTitle d) "Edit unavailable for this file";
        nullish (fd_blockedReason d) "File is not UTF-8 text. Use `F3` for preview or open it with an external tool."] ++
       match blockedBinaryHint d with Some hint => [hint] | None => [] end ++ openResults u)
  else TextBody ((if isEditable d then "Edit " else "View ") +:+ fd_entryName d) (fd_draftValue d) (negb (isEditable d)).

Definition discardPrompt (d : CommanderFileDialogState) (u : DialogUi) : option (string * list DialogButton) :=
  if ui_showDiscardPrompt u then
    Some ("Discard unsaved changes?",
      [mkDialogButton "Keep editing" false ClickKeepEditing] ++
      (if isEditable d then [mkDialogButton "Save" false ClickSaveInPrompt] else []) ++
      [mkDialogButton "Discard" false ClickDiscard])
  else None.

Definition CommanderFileDialog (d : CommanderFileDialogState) (u : DialogUi) : FileDialogView := {|
  dv_mode := if isEditable d then "EDIT" else if isBlocked d then "BLOCKED" else "VIEW";
  dv_title := fd_entryName d;
  dv_badges := (if isHexPreview d then ["HEX"] else []) ++ (if isEditable d && isFileDialogDirty d then ["DIRTY"] else []);
  dv_path := activeFileDialogPath d;
  dv_actions := dialogActions d u;
  dv_body := dialogBody d u;
  dv_footer := [modeHint d] ++
    (if isBlocked d then []
     else ["Ln " +:+ showZ (cu_line (ui_metrics u)) +:+ ", Col " +:+ showZ (cu_column (ui_metrics u));
           showZ (cu_chars (ui_metrics u)) +:+ " chars"]) ++ openResults u;
  dv_prompt := discardPrompt d u;
  dv_hintClose := match discardPrompt d u with Some _ => None | None => Some "Esc close" end
|}.

Definition dialogButtons (d : CommanderFileDialogState) (u : DialogUi) : list DialogButton :=
  dv_actions (CommanderFileDialog d u) ++ match dv_prompt (CommanderFileDialog d u) with Some (_, l) => l | None => [] end.

Definition is_click (ev : DialogEvent) : bool :=
  match ev with
  | ClickClose | ClickSave | ClickKeepEditing | ClickSaveInPrompt | ClickDiscard | ClickOpen _ => true
  | _ => false
  end.

(** The clicks that the dialog offers are those of its enabled buttons. *)
Lemma offers_are_buttons d u ev :
  is_click ev = true ->
  dialogOffers d u ev = true <-> exists b, b ∈ dialogButtons d u /\ db_event b = ev /\ db_disabled b = false.
Proof.
  intros Hc. unfold dialogButtons. cbn [CommanderFileDialog dv_actions dv_prompt]. split.
  - intros Ho. unfold dialogActions, discardPrompt.
    destruct ev; try discriminate; cbn [dialogOffers] in Ho.
    + exists (mkDialogButton "Close" false ClickClose). split; [|done]. set_solver.
    + rewrite Ho. exists (mkDialogButton "Save" false ClickSave). split; [|done]. set_solver.
    + rewrite Ho. exists (mkDialogButton "Keep editing" false ClickKeepEditing). split; [|done]. set_solver.
    + apply andb_true_iff in Ho as [Ho1 Ho2]. rewrite Ho1, Ho2.
      exists (mkDialogButton "Save" false ClickSaveInPrompt). split; [|done]. set_solver.
    + rewrite Ho. exists (mkDialogButton "Discard" false ClickDiscard). split; [|done]. set_solver.
    + apply andb_true_iff in Ho as [Ho1 Ho2]. rewrite Ho1. apply negb_true_iff in Ho2.
      exists (mkDialogButton (openLabel u a) (ui_pending u) (ClickOpen a)). split; [|done].
      apply elem_of_app. left. apply elem_of_app. left. apply list_elem_of_fmap. exists a. split; [done|].
      destruct a; set_solver.
  - intros (b & Hb & <- & Hd). rewrite elem_of_app in Hb. destruct Hb as [Hb|Hb].
    + unfold dialogActions in Hb. rewrite !elem_of_app in Hb. destruct Hb as [Hb|[Hb|Hb]].
      * destruct (isBlocked d || isHexPreview d) eqn:E; [|by apply not_elem_of_nil in Hb].
        apply list_elem_of_fmap in Hb as (a & -> & _). cbn in *. by rewrite E, Hd.
      * destruct (isEditable d) eqn:E; [|by apply not_elem_of_nil in Hb]. apply list_elem_of_singleton in Hb as ->. exact E.
      * by apply list_elem_of_singleton in Hb as ->.
    + unfold discardPrompt in Hb. destruct (ui_showDiscardPrompt u) eqn:E; [|by apply not_elem_of_nil in Hb].
      rewrite !elem_of_app in Hb. destruct Hb as [Hb|[Hb|Hb]].
      * apply list_elem_of_singleton in Hb as ->. exact E.
      * destruct (isEditable d) eqn:E'; [|by apply not_elem_of_nil in Hb]. apply list_elem_of_singleton in Hb as ->.
        cbn. by rewrite E, E'.
      * apply list_elem_of_singleton in Hb as ->. exact E.
Qed.

(** An unsaved draft, after Escape. *)
Example discard_is_asked :
  let d := edit_dialog "changed" in
  let u := fst (dialogHandler d (mountDialog d) (TextKeyDown "Escape" false false)) in
  let view := CommanderFileDialog d u in
  dv_badges view = ["DIRTY"] /\ (db_label <$> dialogButtons d u) = ["Save"; "Close"; "Keep editing"; "Save"; "Discard"] /\
  dv_footer view = ["Ctrl+S save"; "Ln 1, Col 1"; "7 chars"] /\ dv_hintClose view = None.
Proof. vm_compute. split_and!; reflexivity. Qed.
