(* ===== verification/ConversationNavigator.v ===== *)
(** * The conversation navigator of the AI panel

    [frontend/src/widgets/ai/ai-panel-header-widget.tsx]: the menu of the
    conversations with its search, scopes, keyboard, renaming and deletion, and
    the texts of the provider route.

    The component is a state machine: an event is a handler of a control or a
    rendering with other properties, followed by the effects of the component;
    what a handler calls is its output.  The last section is the view: the menu
    with its buttons, whose disabled ones the handlers refuse.  [lowerCase] stands for
    [String.prototype.toLowerCase] on any script and [formatDate] for [Date]
    and [Intl.DateTimeFormat]; the theorems hold for all of them. *)
From Stdlib Require Import Ascii String.
From stdpp Require Import strings.
From S2P Require Import Prelude JsString Text RuntimePath AgentState WidgetTexts.
Local Open Scope string_scope.
Local Open Scope list_scope.
Local Open Scope nat_scope.

(** ** Texts *)

(** [value.trim() || other] *)
Definition trimOr (value other : string) : string :=
  if truthy (trimText value) then trimText value else other.

Definition formatConversationTitle (conversation : AgentConversationSummary) (copy : AiConversationCopy) : string :=
  trimOr (sm_title conversation) (acv_newConversation copy).

Definition formatConversationCount (conversation : AgentConversationSummary) (copy : AiConversationCopy) : string :=
  acv_messageCount copy (sm_message_count conversation).

Definition isArchivedConversation (conversation : AgentConversationSummary) : bool :=
  match sm_archived_at conversation with Some archivedAt => truthy (trimText archivedAt) | None => false end.

Definition conversationScopeLabel (scope : AgentConversationListScope) (count : nat)
    (copy : AiConversationCopy) : string :=
  match scope with
  | ScopeRecent => acv_recentScopeLabel copy count
  | ScopeArchived => acv_archivedScopeLabel copy count
  | ScopeAll => acv_allScopeLabel copy count
  end.

Definition conversationScopeAriaLabel (scope : AgentConversationListScope) (copy : AiConversationCopy) : string :=
  match scope with
  | ScopeRecent => acv_recentScopeAriaLabel copy
  | ScopeArchived => acv_archivedScopeAriaLabel copy
  | ScopeAll => acv_allScopeAriaLabel copy
  end.

Definition conversationSectionTitle (scope : AgentConversationListScope) (archived : bool)
    (copy : AiConversationCopy) : string :=
  match scope with
  | ScopeAll => if archived then acv_archivedSection copy else acv_recentSection copy
  | _ => if archived then acv_archivedThreadsSection copy else acv_openThreadsSection copy
  end.

Definition buildConversationTitleCounts (conversations : list AgentConversationSummary)
    (copy : AiConversationCopy) : gmap string nat :=
  foldl (fun counts conversation =>
    let title := formatConversationTitle conversation copy in
    <[title := S (nullish (counts !! title) 0)]> counts) ∅ conversations.

Record ProviderRoute := mkRoute {
  ro_displayName : string;
  ro_model : option string;
  ro_lastErrorCode : option string;
  ro_routeReady : bool;
  ro_routeStatusState : option string;
  ro_routeStatusMessage : option string;
  ro_routePrepared : bool;
  ro_routePrepareState : option string;
  ro_routePrepareMessage : option string;
  ro_routeLatencyMS : nat;
  ro_routePrepareLatencyMS : nat;
  ro_lastFirstResponseLatencyMS : nat
}.

(** [text?.trim()], the empty text for an absent one: both are false. *)
Definition trimmedOpt (text : option string) : string := trimText (nullish text "").

Definition formatProviderRouteStateLabel (route : ProviderRoute) (copy : AiRouteCopy) : string :=
  if bool_decide (trimmedOpt (ro_routePrepareState route) = "prepared") && ro_routePrepared route
  then art_prepared copy
  else if bool_decide (trimmedOpt (ro_routeStatusState route) = "ready") && ro_routeReady route
  then art_ready copy
  else if truthy (trimmedOpt (ro_routePrepareState route)) then trimmedOpt (ro_routePrepareState route)
  else if truthy (trimmedOpt (ro_routeStatusState route)) then trimmedOpt (ro_routeStatusState route)
  else art_unchecked copy.

Definition formatProviderRouteMeta (route : ProviderRoute) (copy : AiRouteCopy) : string :=
  join " · "
    ((if truthy (trimmedOpt (ro_model route)) then [trimmedOpt (ro_model route)] else []) ++
     (if 0 <? ro_lastFirstResponseLatencyMS route then [art_firstLatency copy (ro_lastFirstResponseLatencyMS route)]
      else if 0 <? ro_routePrepareLatencyMS route then [art_prepareLatency copy (ro_routePrepareLatencyMS route)]
      else if 0 <? ro_routeLatencyMS route then [art_probeLatency copy (ro_routeLatencyMS route)]
      else [])).

(** [a || b] on texts *)
Definition orElse (a b : string) : string := if truthy a then a else b.

Definition activeProviderRouteMessage (route : option ProviderRoute) (providerRouteError : option string) : string :=
  orElse (trimmedOpt (route ≫= ro_routePrepareMessage))
    (orElse (trimmedOpt (route ≫= ro_routeStatusMessage)) (trimmedOpt providerRouteError)).

Definition routeActionLabel (route : ProviderRoute) (providerRouteActionLabel : option string)
    (copy : AiRouteCopy) : string :=
  orElse (trimmedOpt providerRouteActionLabel)
    (if ro_routePrepared route then art_refresh copy else art_prepare copy).

(** ** Properties and state *)

(** The callbacks that are given. *)
Record NavigatorCallbacks := mkCallbacks {
  cb_scope : bool; cb_query : bool; cb_select : bool; cb_create : bool;
  cb_archive : bool; cb_delete : bool; cb_rename : bool; cb_restore : bool
}.

Record NavigatorProps := mkNavigatorProps {
  np_activeConversation : option AgentConversationSummary;
  np_activeConversationID : string;
  np_conversationCounts : AgentConversationListCounts;
  np_conversationScope : option AgentConversationListScope;
  np_conversationSearchQuery : option string;
  np_conversations : list AgentConversationSummary;
  np_isConversationBusy : bool;
  np_locale : AppLocale;
  np_callbacks : NavigatorCallbacks
}.

Record Navigator := mkNavigator {
  nv_isConversationMenuOpen : bool;
  nv_isRenamingConversation : bool;
  nv_isDeleteConversationConfirmOpen : bool;
  nv_pendingDeleteConversationID : string;
  nv_localConversationSearchQuery : string;
  nv_localConversationScope : AgentConversationListScope;
  nv_renameDraft : string;
  nv_optimisticConversationTitle : string;
  nv_highlightedConversationID : string
}.

Definition mountedNavigator : Navigator := mkNavigator false false false "" "" ScopeRecent "" "" "".

Definition setMenuOpen (b : bool) (s : Navigator) : Navigator :=
  mkNavigator b (nv_isRenamingConversation s) (nv_isDeleteConversationConfirmOpen s)
    (nv_pendingDeleteConversationID s) (nv_localConversationSearchQuery s) (nv_localConversationScope s)
    (nv_renameDraft s) (nv_optimisticConversationTitle s) (nv_highlightedConversationID s).
Definition setRenaming (b : bool) (s : Navigator) : Navigator :=
  mkNavigator (nv_isConversationMenuOpen s) b (nv_isDeleteConversationConfirmOpen s)
    (nv_pendingDeleteConversationID s) (nv_localConversationSearchQuery s) (nv_localConversationScope s)
    (nv_renameDraft s) (nv_optimisticConversationTitle s) (nv_highlightedConversationID s).
Definition setConfirm (b : bool) (pending : string) (s : Navigator) : Navigator :=
  mkNavigator (nv_isConversationMenuOpen s) (nv_isRenamingConversation s) b pending
    (nv_localConversationSearchQuery s) (nv_localConversationScope s) (nv_renameDraft s)
    (nv_optimisticConversationTitle s) (nv_highlightedConversationID s).
Definition setLocalFilter (query : string) (scope : AgentConversationListScope) (s : Navigator) : Navigator :=
  mkNavigator (nv_isConversationMenuOpen s) (nv_isRenamingConversation s) (nv_isDeleteConversationConfirmOpen s)
    (nv_pendingDeleteConversationID s) query scope (nv_renameDraft s)
    (nv_optimisticConversationTitle s) (nv_highlightedConversationID s).
Definition setTitles (draft optimistic : string) (s : Navigator) : Navigator :=
  mkNavigator (nv_isConversationMenuOpen s) (nv_isRenamingConversation s) (nv_isDeleteConversationConfirmOpen s)
    (nv_pendingDeleteConversationID s) (nv_localConversationSearchQuery s) (nv_localConversationScope s)
    draft optimistic (nv_highlightedConversationID s).
Definition setHighlight (id : string) (s : Navigator) : Navigator :=
  mkNavigator (nv_isConversationMenuOpen s) (nv_isRenamingConversation s) (nv_isDeleteConversationConfirmOpen s)
    (nv_pendingDeleteConversationID s) (nv_localConversationSearchQuery s) (nv_localConversationScope s)
    (nv_renameDraft s) (nv_optimisticConversationTitle s) id.

Section Navigator.
Variables (lowerCase : string -> string) (formatDate : string -> option string).

(** ** What is rendered *)

Section Rendered.
Variables (p : NavigatorProps) (s : Navigator).

Definition copyOf : AiConversationCopy := conversationCopy (np_locale p).

Definition isConversationSearchControlled : bool :=
  bool_decide (is_Some (np_conversationSearchQuery p)) && cb_query (np_callbacks p).
Definition isConversationScopeControlled : bool :=
  bool_decide (is_Some (np_conversationScope p)) && cb_scope (np_callbacks p).

Definition conversationSearchQuery : string :=
  if isConversationSearchControlled then nullish (np_conversationSearchQuery p) ""
  else nv_localConversationSearchQuery s.
Definition conversationScope : AgentConversationListScope :=
  if isConversationScopeControlled then nullish (np_conversationScope p) ScopeRecent
  else nv_localConversationScope s.

Definition selectedConversationID : string :=
  orElse (np_activeConversationID p) (nullish (sm_id <$> head (np_conversations p)) "").

Definition withID (id : string) (conversation : AgentConversationSummary) : bool :=
  bool_decide (sm_id conversation = id).

Definition activeConversation : option AgentConversationSummary :=
  match np_activeConversation p with
  | Some conversation => Some conversation
  | None => find (withID selectedConversationID) (np_conversations p)
  end.

Definition activeConversationTitle : string :=
  match activeConversation with
  | Some conversation => formatConversationTitle conversation copyOf
  | None => acv_loadingConversations copyOf
  end.

Definition displayedConversationTitle : string :=
  trimOr (nv_optimisticConversationTitle s) activeConversationTitle.

Definition formatConversationUpdatedAt (value : string) : string :=
  nullish (formatDate value) (acv_unknownActivity copyOf).

Definition activeConversationMeta : string :=
  match activeConversation with
  | Some c =>
      if isArchivedConversation c
      then formatConversationCount c copyOf +:+ " · " +:+ acv_archivedAtPrefix copyOf +:+ " " +:+
           formatConversationUpdatedAt (nullish (sm_archived_at c) (sm_updated_at c))
      else formatConversationCount c copyOf +:+ " · " +:+ formatConversationUpdatedAt (sm_updated_at c)
  | None => acv_recentThreadList copyOf
  end.

Definition activeConversationBadgeLabel : string :=
  match activeConversation with
  | Some c => if isArchivedConversation c then acv_archivedBadge copyOf else acv_openBadge copyOf
  | None => ""
  end.

Definition conversationOptionAriaLabel (c : AgentConversationSummary) (titleCounts : gmap string nat) : string :=
  let title := formatConversationTitle c copyOf in
  if nullish (titleCounts !! title) 0 <=? 1 then acv_openConversationAriaLabel copyOf title
  else acv_openConversationDetailAriaLabel copyOf title (formatConversationCount c copyOf)
         (formatConversationUpdatedAt (nullish (sm_archived_at c) (sm_updated_at c))).

Definition hasActive : bool := bool_decide (is_Some activeConversation).
Definition activeArchived : bool :=
  match activeConversation with Some c => isArchivedConversation c | None => false end.
Definition canRenameConversation : bool := hasActive && cb_rename (np_callbacks p).
Definition canArchiveConversation : bool := hasActive && cb_archive (np_callbacks p) && negb activeArchived.
Definition canRestoreConversation : bool := hasActive && cb_restore (np_callbacks p) && activeArchived.
Definition canDeleteConversation : bool := hasActive && cb_delete (np_callbacks p).

Definition normalizedConversationSearchQuery : string := lowerCase (trimText conversationSearchQuery).

Definition filteredConversations : list AgentConversationSummary :=
  if isConversationSearchControlled then np_conversations p
  else if bool_decide (normalizedConversationSearchQuery = "") then np_conversations p
  else filterb (fun c => strIncludes normalizedConversationSearchQuery
                           (lowerCase (formatConversationTitle c copyOf))) (np_conversations p).
Definition filteredRecentConversations : list AgentConversationSummary :=
  filterb (fun c => negb (isArchivedConversation c)) filteredConversations.
Definition filteredArchivedConversations : list AgentConversationSummary :=
  filterb isArchivedConversation filteredConversations.

Definition effectiveConversationCounts : AgentConversationListCounts :=
  if isConversationSearchControlled || isConversationScopeControlled then np_conversationCounts p
  else mkCounts (Z.of_nat (length filteredRecentConversations)) (Z.of_nat (length filteredArchivedConversations))
         (Z.of_nat (length filteredConversations)).

Definition visibleConversations : list AgentConversationSummary :=
  match conversationScope with
  | ScopeRecent => filteredRecentConversations
  | ScopeArchived => filteredArchivedConversations
  | ScopeAll => filteredConversations
  end.

Definition orderedConversationOptions : list AgentConversationSummary :=
  match conversationScope with ScopeArchived => [] | _ => filteredRecentConversations end ++
  match conversationScope with ScopeRecent => [] | _ => filteredArchivedConversations end.

(** [-1] is [None]. *)
Definition highlightedConversationIndex : option nat :=
  if truthy (nv_highlightedConversationID s)
  then findIndex (withID (nv_highlightedConversationID s)) orderedConversationOptions else None.

Definition pendingDeleteConversation : option AgentConversationSummary :=
  match find (withID (nv_pendingDeleteConversationID s)) (np_conversations p) with
  | Some c => Some c
  | None => activeConversation
  end.

End Rendered.

(** ** Effects *)

(** The dependencies of the first effect. *)
Definition menuDeps (p : NavigatorProps) (s : Navigator) : option string * option string * bool :=
  (sm_id <$> activeConversation p, sm_title <$> activeConversation p, nv_isConversationMenuOpen s).

Definition menuEffect (p : NavigatorProps) (s : Navigator) : Navigator :=
  if nv_isConversationMenuOpen s
  then setTitles (nullish (sm_title <$> activeConversation p) "") (nv_optimisticConversationTitle s) s
  else setHighlight "" (setConfirm false "" (setRenaming false s)).

Definition optimisticTitleEffect (p : NavigatorProps) (s : Navigator) : Navigator :=
  let optimistic := trimText (nv_optimisticConversationTitle s) in
  if negb (truthy optimistic) then s
  else
    match activeConversation p with
    | Some c =>
        if bool_decide (formatConversationTitle c (copyOf p) = optimistic)
        then setTitles (nv_renameDraft s) "" s else s
    | None => setTitles (nv_renameDraft s) "" s
    end.

Definition highlightEffect (p : NavigatorProps) (s : Navigator) : Navigator :=
  if negb (nv_isConversationMenuOpen s) then s
  else
    match orderedConversationOptions p s with
    | [] => setHighlight "" s
    | first :: _ =>
        if some (withID (nv_highlightedConversationID s)) (orderedConversationOptions p s) then s
        else setHighlight (sm_id first) s
    end.

(** The effects after a rendering; the first one runs when its dependencies
    are not those of the last rendering. *)
Definition settleNavigator (before : option string * option string * bool) (p : NavigatorProps)
    (s : Navigator) : Navigator :=
  highlightEffect p (optimisticTitleEffect p
    (if bool_decide (before = menuDeps p s) then s else menuEffect p s)).

(** ** Handlers *)

(** What the component calls. *)
Inductive NavigatorOutput :=
  | ConversationSelected (id : string)
  | ConversationCreated
  | ConversationRenamed (id title : string)
  | ConversationDeleted (id : string)
  | ConversationArchived (id : string)
  | ConversationRestored (id : string)
  | ScopeChanged (scope : AgentConversationListScope)
  | QueryChanged (query : string).

Section Handlers.
Variables (p : NavigatorProps) (s : Navigator).

(** [Math.max(0, Math.min(index, length - 1))] for a list that is not empty *)
Definition boundedIndex (index : Z) (options : list AgentConversationSummary) : nat :=
  Z.to_nat (Z.max 0 (Z.min index (Z.of_nat (length options) - 1))).

(** [highlightConversationOption], and [focusConversationButton] without the focus. *)
Definition highlightConversationOption (index : Z) (s' : Navigator) : Navigator :=
  match orderedConversationOptions p s !! boundedIndex index (orderedConversationOptions p s) with
  | Some c => setHighlight (sm_id c) s'
  | None => s'
  end.

Definition selectConversationFromNavigator (id : string) : Navigator * list NavigatorOutput :=
  if np_isConversationBusy p then (s, [])
  else (setMenuOpen false s, if cb_select (np_callbacks p) then [ConversationSelected id] else []).

Definition selectHighlightedConversation : Navigator * list NavigatorOutput :=
  if truthy (nv_highlightedConversationID s)
  then selectConversationFromNavigator (nv_highlightedConversationID s) else (s, []).

Definition lastIndex : Z := Z.of_nat (length (orderedConversationOptions p s)) - 1.

Definition handleConversationTriggerKeyDown (key : string) : Navigator :=
  match np_conversations p with
  | [] => s
  | _ =>
      if bool_decide (key = "ArrowDown") then highlightConversationOption 0 (setMenuOpen true s)
      else if bool_decide (key = "ArrowUp") then highlightConversationOption lastIndex (setMenuOpen true s)
      else s
  end.

Definition handleConversationSearchKeyDown (key : string) : Navigator * list NavigatorOutput :=
  match orderedConversationOptions p s with
  | [] => (s, [])
  | _ =>
      let index := Z.of_nat <$> highlightedConversationIndex p s in
      if bool_decide (key = "ArrowDown") then
        (highlightConversationOption (match index with Some i => i + 1 | None => 0 end) s, [])
      else if bool_decide (key = "ArrowUp") then
        (highlightConversationOption (match index with Some i => i - 1 | None => lastIndex end) s, [])
      else if bool_decide (key = "Home") then (highlightConversationOption 0 s, [])
      else if bool_decide (key = "End") then (highlightConversationOption lastIndex s, [])
      else if bool_decide (key = "Enter") then selectHighlightedConversation
      else (s, [])
  end.

(** The keys of the option at [index] of the ordered options, [None] for -1. *)
Definition handleConversationOptionKeyDown (index : option nat) (key : string)
    : Navigator * list NavigatorOutput :=
  let i := match index with Some i => Z.of_nat i | None => -1 end%Z in
  match orderedConversationOptions p s with
  | [] => (s, [])
  | _ =>
      if bool_decide (key = "Enter") || bool_decide (key = " ") then
        match truthyOpt (sm_id <$> (index ≫= fun i => orderedConversationOptions p s !! i)) with
        | Some id => selectConversationFromNavigator id
        | None => (s, [])
        end
      else if bool_decide (key = "ArrowDown") then (highlightConversationOption (i + 1) s, [])
      else if bool_decide (key = "ArrowUp") then (highlightConversationOption (i - 1) s, [])
      else if bool_decide (key = "Home") then (highlightConversationOption 0 s, [])
      else if bool_decide (key = "End") then (highlightConversationOption lastIndex s, [])
      else (s, [])
  end.

Definition handleRenameConversation : Navigator * list NavigatorOutput :=
  let nextTitle := trimText (nv_renameDraft s) in
  match activeConversation p with
  | Some c =>
      if negb (cb_rename (np_callbacks p)) || bool_decide (nextTitle = "") then (s, [])
      else (setMenuOpen false (setRenaming false (setTitles (nv_renameDraft s) nextTitle s)),
            [ConversationRenamed (sm_id c) nextTitle])
  | None => (s, [])
  end.

(** [id?.trim() || activeConversation?.id || ''] *)
Definition targetConversationID (id : string) : string :=
  orElse (trimText id) (nullish (sm_id <$> activeConversation p) "").

Definition handleDeleteConversation : Navigator * list NavigatorOutput :=
  let target := targetConversationID (nv_pendingDeleteConversationID s) in
  if negb (truthy target) || negb (cb_delete (np_callbacks p)) then (s, [])
  else (setMenuOpen false (setConfirm false "" s), [ConversationDeleted target]).

Definition handleArchiveConversation (id : string) : Navigator * list NavigatorOutput :=
  let target := targetConversationID id in
  if negb (truthy target) || negb (cb_archive (np_callbacks p)) then (s, [])
  else (setMenuOpen false (setRenaming false (setConfirm false "" s)), [ConversationArchived target]).

Definition handleRestoreConversation (id : string) : Navigator * list NavigatorOutput :=
  let target := targetConversationID id in
  if negb (truthy target) || negb (cb_restore (np_callbacks p)) then (s, [])
  else (setMenuOpen false (setRenaming false (setConfirm false "" s)), [ConversationRestored target]).

Definition openDeleteConversationConfirm (id : string) : Navigator :=
  setConfirm true id (setRenaming false s).

End Handlers.

(** ** Events *)

Inductive NavigatorEvent :=
  | PropsChanged (p : NavigatorProps)
  | TriggerClick
  | TriggerKey (key : string)
  | OutsidePointerDown
  | WindowEscape
  | RenameClick
  | ArchiveOrRestoreClick
  | DeleteClick
  | CreateClick
  | ScopeClick (scope : AgentConversationListScope)
  | QueryInput (query : string)
  | SearchKey (key : string)
  | CancelDelete
  | ConfirmDelete
  | RenameInput (draft : string)
  | RenameKey (key : string)
  | CancelRename
  | SaveRename
  | OptionFocus (index : nat)
  | OptionKey (index : nat) (key : string)
  | OptionClick (index : nat)
  | RowArchiveOrRestore (index : nat)
  | RowDelete (index : nat).

(** [isRenamingConversation && activeConversation] *)
Definition renamePanelShown (p : NavigatorProps) (s : Navigator) : bool :=
  nv_isRenamingConversation s && hasActive p.

(** The prompts of the menu: the confirmation of a deletion and the rename. *)
Definition promptHandler (p : NavigatorProps) (s : Navigator) (ev : NavigatorEvent)
    : Navigator * list NavigatorOutput :=
  let busy := np_isConversationBusy p in
  let title := nullish (sm_title <$> activeConversation p) "" in
  match ev with
  | CancelDelete => if busy then (s, []) else (setConfirm false (nv_pendingDeleteConversationID s) s, [])
  | ConfirmDelete =>
      if busy || negb (nv_isDeleteConversationConfirmOpen s) ||
         negb (bool_decide (is_Some (pendingDeleteConversation p s)))
      then (s, []) else handleDeleteConversation p s
  | RenameInput draft =>
      if busy || negb (renamePanelShown p s) then (s, [])
      else (setTitles draft (nv_optimisticConversationTitle s) s, [])
  | RenameKey key =>
      if busy || negb (renamePanelShown p s) then (s, [])
      else if bool_decide (key = "Enter") then handleRenameConversation p s
      else if bool_decide (key = "Escape")
      then (setTitles title (nv_optimisticConversationTitle s) (setRenaming false s), [])
      else (s, [])
  | CancelRename =>
      if busy || negb (renamePanelShown p s) then (s, [])
      else (setTitles title (nv_optimisticConversationTitle s) (setRenaming false s), [])
  | SaveRename =>
      if busy || negb (renamePanelShown p s) then (s, []) else handleRenameConversation p s
  | _ => (s, [])
  end.

(** The rows of the menu; an event acts on the option at an index of the
    ordered options. *)
Definition optionHandler (p : NavigatorProps) (s : Navigator) (ev : NavigatorEvent)
    : Navigator * list NavigatorOutput :=
  let busy := np_isConversationBusy p in
  let onOption index f := match orderedConversationOptions p s !! index with Some c => f c | None => (s, []) end in
  match ev with
  | OptionFocus index => onOption index (fun c => if busy then (s, []) else (setHighlight (sm_id c) s, []))
  | OptionKey index key =>
      onOption index (fun c => if busy then (s, []) else handleConversationOptionKeyDown p s
        (findIndex (withID (sm_id c)) (orderedConversationOptions p s)) key)
  | OptionClick index =>
      onOption index (fun c => if busy then (s, []) else selectConversationFromNavigator p s (sm_id c))
  | RowArchiveOrRestore index =>
      onOption index (fun c =>
        if busy then (s, [])
        else if isArchivedConversation c then handleRestoreConversation p s (sm_id c)
        else handleArchiveConversation p s (sm_id c))
  | RowDelete index =>
      onOption index (fun c =>
        if busy || negb (cb_delete (np_callbacks p)) then (s, [])
        else (openDeleteConversationConfirm s (sm_id c), []))
  | _ => (s, [])
  end.

(** What the controls inside of the menu do. *)
Definition menuHandler (p : NavigatorProps) (s : Navigator) (ev : NavigatorEvent)
    : Navigator * list NavigatorOutput :=
  let busy := np_isConversationBusy p in
  match ev with
  | OutsidePointerDown | WindowEscape => (setMenuOpen false s, [])
  | RenameClick =>
      if busy || negb (canRenameConversation p) then (s, [])
      else (setRenaming true (setConfirm false (nv_pendingDeleteConversationID s) s), [])
  | ArchiveOrRestoreClick =>
      if busy || (negb (canArchiveConversation p) && negb (canRestoreConversation p)) then (s, [])
      else if canRestoreConversation p then handleRestoreConversation p s ""
      else handleArchiveConversation p s ""
  | DeleteClick =>
      if busy || negb (canDeleteConversation p) then (s, [])
      else match activeConversation p with
           | Some c => (openDeleteConversationConfirm s (sm_id c), [])
           | None => (s, [])
           end
  | CreateClick =>
      if busy || negb (cb_create (np_callbacks p)) then (s, []) else (setMenuOpen false s, [ConversationCreated])
  | ScopeClick scope =>
      if isConversationScopeControlled p then (s, [ScopeChanged scope])
      else (setLocalFilter (nv_localConversationSearchQuery s) scope s, [])
  | QueryInput query =>
      if busy || bool_decide (np_conversations p = []) then (s, [])
      else if isConversationSearchControlled p then (s, [QueryChanged query])
      else (setLocalFilter query (nv_localConversationScope s) s, [])
  | SearchKey key =>
      if busy || bool_decide (np_conversations p = []) then (s, []) else handleConversationSearchKeyDown p s key
  | CancelDelete | ConfirmDelete | RenameInput _ | RenameKey _ | CancelRename | SaveRename =>
      promptHandler p s ev
  | OptionFocus _ | OptionKey _ _ | OptionClick _ | RowArchiveOrRestore _ | RowDelete _ => optionHandler p s ev
  | PropsChanged _ | TriggerClick | TriggerKey _ => (s, [])
  end.

(** The controls outside of the menu, and those inside while it is open. *)
Definition navigatorHandler (p : NavigatorProps) (s : Navigator) (ev : NavigatorEvent)
    : Navigator * list NavigatorOutput :=
  match ev with
  | PropsChanged _ => (s, [])
  | TriggerClick =>
      (if np_isConversationBusy p then s else setMenuOpen (negb (nv_isConversationMenuOpen s)) s, [])
  | TriggerKey key => (if np_isConversationBusy p then s else handleConversationTriggerKeyDown p s key, [])
  | _ => if nv_isConversationMenuOpen s then menuHandler p s ev else (s, [])
  end.

Record Navigating := mkNavigating { ng_props : NavigatorProps; ng_state : Navigator }.

Definition navigatorStep (n : Navigating) (ev : NavigatorEvent) : Navigating * list NavigatorOutput :=
  let p := match ev with PropsChanged p => p | _ => ng_props n end in
  let '(s, out) := navigatorHandler (ng_props n) (ng_state n) ev in
  (mkNavigating p (settleNavigator (menuDeps (ng_props n) (ng_state n)) p s), out).

(** The component mounts closed; its effects find nothing to do. *)
Definition mountNavigator (p : NavigatorProps) : Navigating := mkNavigating p mountedNavigator.

Definition runNavigator (n : Navigating) (evs : list NavigatorEvent) : Navigating :=
  foldl (fun n ev => fst (navigatorStep n ev)) n evs.

(** ** Specification *)

(** A closed menu holds nothing of the last one; renaming and deleting are not
    asked at once; the highlighted option is one of those shown. *)
Definition closed_clean (s : Navigator) : Prop :=
  nv_isRenamingConversation s = false /\ nv_isDeleteConversationConfirmOpen s = false /\
  nv_pendingDeleteConversationID s = "" /\ nv_highlightedConversationID s = "".

Definition navigator_ok (n : Navigating) : Prop :=
  let s := ng_state n in
  let options := orderedConversationOptions (ng_props n) s in
  (nv_isConversationMenuOpen s = false -> closed_clean s) /\
  (nv_isRenamingConversation s = true -> nv_isDeleteConversationConfirmOpen s = false) /\
  (nv_isConversationMenuOpen s = true ->
   if options is [] then nv_highlightedConversationID s = ""
   else nv_highlightedConversationID s ∈ sm_id <$> options).

(** The keys of the search input that move the highlight, and where they move it
    in a list of [n] options. *)
Inductive NavigatorKey := KeyDown | KeyUp | KeyHome | KeyEnd.

Definition keyName (k : NavigatorKey) : string :=
  match k with KeyDown => "ArrowDown" | KeyUp => "ArrowUp" | KeyHome => "Home" | KeyEnd => "End" end.

Definition walk (n i : nat) (k : NavigatorKey) : nat :=
  match k with
  | KeyDown => Nat.min (i + 1) (n - 1)
  | KeyUp => i - 1
  | KeyHome => 0
  | KeyEnd => n - 1
  end.

(** The menu is open and the option at [i] of the shown options [l] is highlighted. *)
Definition highlights (n : Navigating) (l : list AgentConversationSummary) (i : nat) : Prop :=
  nv_isConversationMenuOpen (ng_state n) = true /\
  orderedConversationOptions (ng_props n) (ng_state n) = l /\
  exists c, l !! i = Some c /\ nv_highlightedConversationID (ng_state n) = sm_id c.

(** The events that ask for a deletion. *)
Definition asks_deletion (ev : NavigatorEvent) : bool :=
  match ev with DeleteClick | RowDelete _ => true | _ => false end.

(** ** Lemmas *)

Lemma settle_keeps before p s :
  let s' := settleNavigator before p s in
  nv_isConversationMenuOpen s' = nv_isConversationMenuOpen s /\
  orderedConversationOptions p s' = orderedConversationOptions p s /\
  (nv_isConversationMenuOpen s = true ->
   nv_isRenamingConversation s' = nv_isRenamingConversation s /\
   nv_isDeleteConversationConfirmOpen s' = nv_isDeleteConversationConfirmOpen s /\
   nv_pendingDeleteConversationID s' = nv_pendingDeleteConversationID s).
Proof.
  unfold settleNavigator, highlightEffect, optimisticTitleEffect, menuEffect.
  destruct (bool_decide _), (nv_isConversationMenuOpen s) eqn:Eo; cbn;
    repeat (case_match; cbn); rewrite ?Eo; try done; try congruence.
Qed.

Lemma highlight_shown p s :
  some (withID (nv_highlightedConversationID s)) (orderedConversationOptions p s) = true <->
  nv_highlightedConversationID s ∈ sm_id <$> orderedConversationOptions p s.
Proof.
  rewrite some_true, list_elem_of_fmap. unfold withID. split; intros (c & H1 & H2).
  - exists c. by apply bool_decide_eq_true in H2.
  - exists c. split; [exact H2|]. by apply bool_decide_eq_true_2.
Qed.

(** The effects before the last one change neither the options nor, in an open
    menu, the highlight. *)
Lemma effects_before before p s :
  let s1 := optimisticTitleEffect p (if bool_decide (before = menuDeps p s) then s else menuEffect p s) in
  nv_isConversationMenuOpen s1 = nv_isConversationMenuOpen s /\
  orderedConversationOptions p s1 = orderedConversationOptions p s /\
  (nv_isConversationMenuOpen s = true -> nv_highlightedConversationID s1 = nv_highlightedConversationID s).
Proof.
  unfold optimisticTitleEffect, menuEffect.
  destruct (bool_decide _), (nv_isConversationMenuOpen s) eqn:Eo; cbn;
    repeat (case_match; cbn); rewrite ?Eo; try done; try congruence.
Qed.

Lemma settle_highlight before p s :
  nv_isConversationMenuOpen s = true ->
  let s' := settleNavigator before p s in
  (if orderedConversationOptions p s is [] then nv_highlightedConversationID s' = ""
   else nv_highlightedConversationID s' ∈ sm_id <$> orderedConversationOptions p s) /\
  (nv_highlightedConversationID s ∈ sm_id <$> orderedConversationOptions p s ->
   nv_highlightedConversationID s' = nv_highlightedConversationID s).
Proof.
  intros Ho. destruct (effects_before before p s) as (E1 & E2 & E3). specialize (E3 Ho).
  unfold settleNavigator, highlightEffect. rewrite E1, Ho. cbn [negb].
  set (s1 := optimisticTitleEffect _ _) in *. rewrite E2.
  destruct (orderedConversationOptions p s) as [|first l] eqn:El.
  - split; [done|]. intros H. by apply elem_of_nil in H.
  - destruct (some _ _) eqn:Es.
    + rewrite <- E2 in Es. apply highlight_shown in Es. rewrite E2 in Es. by split.
    + split; [cbn; left|]. intros Hin. exfalso. rewrite <- E3, <- E2 in Hin. apply highlight_shown in Hin.
      rewrite E2 in Hin. congruence.
Qed.

Lemma settle_navigator_ok before p s :
  (nv_isRenamingConversation s = true -> nv_isDeleteConversationConfirmOpen s = false) ->
  (nv_isConversationMenuOpen s = false -> closed_clean s \/ before <> menuDeps p s) ->
  navigator_ok (mkNavigating p (settleNavigator before p s)).
Proof.
  intros Hr Hc. destruct (settle_keeps before p s) as (E1 & E2 & E3).
  unfold navigator_ok. cbn [ng_props ng_state]. rewrite E1, E2.
  destruct (nv_isConversationMenuOpen s) eqn:Eo.
  - destruct (E3 eq_refl) as (-> & -> & _). split_and!; [done|done|].
    intros _. by apply settle_highlight.
  - assert (closed_clean (settleNavigator before p s)) as Hclean.
    { unfold settleNavigator, highlightEffect. destruct (effects_before before p s) as (-> & _). rewrite Eo. cbn [negb].
      assert (closed_clean (if bool_decide (before = menuDeps p s) then s else menuEffect p s)) as H.
      { case_bool_decide as Ed; [by destruct (Hc eq_refl)|]. unfold menuEffect. by rewrite Eo. }
      unfold optimisticTitleEffect. by repeat case_match. }
    split_and!; [done| |done]. by destruct Hclean as (-> & _).
Qed.

(** A rename and a deletion are not asked at once. *)
Definition not_both (s : Navigator) : Prop :=
  nv_isRenamingConversation s = true -> nv_isDeleteConversationConfirmOpen s = false.

Lemma highlight_not_both p s i s' : not_both s' -> not_both (highlightConversationOption p s i s').
Proof. unfold highlightConversationOption. by case_match. Qed.

Lemma select_not_both p s id : not_both s -> not_both (fst (selectConversationFromNavigator p s id)).
Proof. unfold selectConversationFromNavigator. by case_match. Qed.

Lemma search_not_both p s key : not_both s -> not_both (fst (handleConversationSearchKeyDown p s key)).
Proof.
  intros H. unfold handleConversationSearchKeyDown, selectHighlightedConversation.
  repeat (case_match; cbn [fst]); auto using highlight_not_both, select_not_both.
Qed.

Lemma option_not_both p s i key : not_both s -> not_both (fst (handleConversationOptionKeyDown p s i key)).
Proof.
  intros H. unfold handleConversationOptionKeyDown.
  repeat (case_match; cbn [fst]); auto using highlight_not_both, select_not_both.
Qed.

Lemma menu_not_both p s ev : not_both s -> not_both (fst (menuHandler p s ev)).
Proof.
  intros H. destruct ev; cbn [menuHandler promptHandler optionHandler]; try done;
    unfold handleRestoreConversation, handleArchiveConversation, handleDeleteConversation, handleRenameConversation;
    repeat (case_match; cbn [fst]); auto using search_not_both, option_not_both, select_not_both; by intros ?.
Qed.

Lemma trigger_not_both p s key : not_both s -> not_both (handleConversationTriggerKeyDown p s key).
Proof.
  intros H. unfold handleConversationTriggerKeyDown.
  repeat case_match; auto; by apply highlight_not_both.
Qed.

(** A handler that leaves the menu closed closed it or did nothing. *)
Lemma handler_closes p s ev :
  nv_isConversationMenuOpen (fst (navigatorHandler p s ev)) = false ->
  nv_isConversationMenuOpen s = true \/ fst (navigatorHandler p s ev) = s.
Proof.
  destruct (nv_isConversationMenuOpen s) eqn:Eo; [by left|]. right. revert H.
  destruct ev; cbn [navigatorHandler]; rewrite ?Eo; cbn [fst negb]; try done.
  - by case_match.
  - unfold handleConversationTriggerKeyDown, highlightConversationOption. by repeat case_match.
Qed.

Lemma navigator_ok_step n ev : navigator_ok n -> navigator_ok (fst (navigatorStep n ev)).
Proof.
  destruct n as [p s]. intros (Hclosed & Hboth & _). cbn [ng_props ng_state] in *.
  unfold navigatorStep. cbn [ng_props ng_state].
  assert (not_both (fst (navigatorHandler p s ev))) as Hb.
  { destruct ev; cbn [navigatorHandler fst]; try done;
      try (case_match; [by apply menu_not_both|done]); case_match; auto using trigger_not_both. }
  pose proof (handler_closes p s ev) as Hc.
  destruct (navigatorHandler p s ev) as [s' out]. cbn [fst] in *. apply settle_navigator_ok; [exact Hb|].
  intros Ho. destruct (Hc Ho) as [Hs| ->].
  - right. unfold menuDeps. rewrite Hs, Ho. congruence.
  - left. by apply Hclosed.
Qed.

Lemma navigator_ok_run n evs : navigator_ok n -> navigator_ok (runNavigator n evs).
Proof.
  revert n. induction evs as [|ev evs IH]; intros n Hok; [done|]. by apply IH, navigator_ok_step.
Qed.

Lemma mount_navigator_ok p : navigator_ok (mountNavigator p).
Proof. by split_and!. Qed.

(** ** The options *)

Lemma filter_partition (l : list AgentConversationSummary) f :
  filterb (fun c => negb (f c)) l ++ filterb f l ≡ₚ l.
Proof.
  unfold filterb. induction l as [|c l IH]; cbn; [done|]. destruct (f c); cbn; [|by rewrite IH].
  by rewrite <- Permutation_middle, IH.
Qed.

Lemma options_sublist p s : exists l, orderedConversationOptions p s ⊆+ l /\ l `sublist_of` np_conversations p.
Proof.
  exists (filteredConversations p s). split.
  - unfold orderedConversationOptions.
    rewrite <- (filter_partition (filteredConversations p s) isArchivedConversation) at 1.
    destruct (conversationScope p s); rewrite ?app_nil_r.
    + by apply submseteq_inserts_r.
    + by apply submseteq_inserts_l.
    + done.
  - unfold filteredConversations. repeat case_match; try done. apply filterb_sublist.
Qed.

Lemma options_ids_NoDup p s :
  NoDup (sm_id <$> np_conversations p) -> NoDup (sm_id <$> orderedConversationOptions p s).
Proof.
  intros H. destruct (options_sublist p s) as (l & Hl & Hs).
  apply submseteq_Permutation in Hl as [k Hk].
  assert (NoDup (sm_id <$> l)) as Hnd by (eapply sublist_NoDup; [exact H|by apply fmap_sublist]).
  rewrite Hk, fmap_app in Hnd. by apply NoDup_app in Hnd as (? & _ & _).
Qed.

Lemma option_listed p s c : c ∈ orderedConversationOptions p s -> c ∈ np_conversations p.
Proof.
  destruct (options_sublist p s) as (l & Hl & Hs). intros Hc.
  eapply sublist_subseteq; [exact Hs|]. by eapply elem_of_submseteq.
Qed.

Lemma findIndex_unique (l : list AgentConversationSummary) i c :
  NoDup (sm_id <$> l) -> l !! i = Some c -> findIndex (withID (sm_id c)) l = Some i.
Proof.
  intros Hnd Hi. destruct (findIndex (withID (sm_id c)) l) as [j|] eqn:E.
  - apply findIndex_Some in E as (c' & Hj & Hw & _). apply bool_decide_eq_true in Hw. f_equal.
    eapply (NoDup_lookup (sm_id <$> l)); [exact Hnd| |]; rewrite list_lookup_fmap, ?Hj, ?Hi; cbn; [by rewrite Hw|done].
  - apply findIndex_None with (x := c) in E; [|by eapply list_elem_of_lookup_2].
    unfold withID in E. by rewrite bool_decide_eq_true_2 in E.
Qed.

(** Moving the highlight inside of the list. *)
Lemma highlight_at p s l i j c :
  orderedConversationOptions p s = l -> l !! j = Some c -> boundedIndex i l = j ->
  highlightConversationOption p s i s = setHighlight (sm_id c) s.
Proof. intros El Hj Hi. unfold highlightConversationOption. by rewrite El, Hi, Hj. Qed.

Lemma walk_lt n i k : i < n -> walk n i k < n.
Proof. intros H. destruct k; cbn; lia. Qed.

(** One key of the search input. *)
Lemma search_key_walks n l i k :
  np_isConversationBusy (ng_props n) = false -> NoDup (sm_id <$> np_conversations (ng_props n)) ->
  Forall (fun c => sm_id c <> "") (np_conversations (ng_props n)) -> highlights n l i ->
  let n' := fst (navigatorStep n (SearchKey (keyName k))) in
  ng_props n' = ng_props n /\ highlights n' l (walk (length l) i k).
Proof.
  destruct n as [p s]. intros Hbusy Hnd Hne (Ho & El & c & Hi & Hh). cbn [ng_props ng_state] in *.
  pose proof (options_ids_NoDup p s Hnd) as Hndo. rewrite El in Hndo.
  assert (c ∈ np_conversations p) as Hc.
  { apply (option_listed p s). rewrite El. by eapply list_elem_of_lookup_2. }
  assert (np_conversations p <> []) as Hp by (intros E; rewrite E in Hc; by apply elem_of_nil in Hc).
  pose proof (lookup_lt_Some _ _ _ Hi) as Hlt. rewrite Forall_forall in Hne.
  assert (highlightedConversationIndex p s = Some i) as Hix.
  { unfold highlightedConversationIndex. rewrite Hh, El.
    rewrite (proj2 (truthy_true (sm_id c)) (Hne c Hc)). by apply findIndex_unique. }
  destruct (lookup_lt_is_Some_2 l _ (walk_lt (length l) i k Hlt)) as [c' Hc'].
  assert (handleConversationSearchKeyDown p s (keyName k) = (setHighlight (sm_id c') s, [])) as Hstep.
  { unfold handleConversationSearchKeyDown, lastIndex. rewrite Hix, El.
    destruct l as [|x l0] eqn:El0; [done|]. rewrite <- El0 in *. clear El0.
    destruct k; cbn [keyName] in *; repeat (rewrite bool_decide_eq_false_2 by done);
      rewrite bool_decide_eq_true_2 by done; cbn [fmap option_fmap option_map];
      f_equal; eapply highlight_at; try done; unfold boundedIndex; cbn [walk]; lia. }
  unfold navigatorStep. cbn [ng_props ng_state navigatorHandler]. rewrite Ho. cbn [menuHandler promptHandler optionHandler].
  rewrite Hbusy, bool_decide_eq_false_2 by done. cbn [orb]. rewrite Hstep. cbn [fst ng_props]. split; [done|].
  destruct (settle_keeps (menuDeps p s) p (setHighlight (sm_id c') s)) as (E1 & E2 & _).
  unfold highlights. cbn [ng_props ng_state]. rewrite E1, E2. split; [done|]. split; [exact El|].
  exists c'. split; [exact Hc'|]. apply (settle_highlight (menuDeps p s) p (setHighlight (sm_id c') s)); [done|].
  cbn. change (orderedConversationOptions p (setHighlight (sm_id c') s)) with (orderedConversationOptions p s).
  rewrite El. apply list_elem_of_fmap. exists c'. split; [done|]. by eapply list_elem_of_lookup_2.
Qed.

Lemma search_enter_selects n l i c :
  np_isConversationBusy (ng_props n) = false -> Forall (fun c => sm_id c <> "") (np_conversations (ng_props n)) ->
  highlights n l i -> l !! i = Some c -> cb_select (np_callbacks (ng_props n)) = true ->
  snd (navigatorStep n (SearchKey "Enter")) = [ConversationSelected (sm_id c)] /\
  nv_isConversationMenuOpen (ng_state (fst (navigatorStep n (SearchKey "Enter")))) = false.
Proof.
  destruct n as [p s]. intros Hbusy Hne (Ho & El & c' & Hi' & Hh) Hi Hcb. cbn [ng_props ng_state] in *.
  subst l. assert (c' = c) as -> by congruence.
  assert (c ∈ np_conversations p) as Hc by (apply (option_listed p s); by eapply list_elem_of_lookup_2).
  assert (np_conversations p <> []) as Hp by (intros E; rewrite E in Hc; by apply elem_of_nil in Hc).
  rewrite Forall_forall in Hne.
  unfold navigatorStep. cbn [ng_props ng_state navigatorHandler]. rewrite Ho. cbn [menuHandler promptHandler optionHandler].
  rewrite Hbusy, bool_decide_eq_false_2 by done. cbn [orb].
  assert (handleConversationSearchKeyDown p s "Enter" =
    (setMenuOpen false s, [ConversationSelected (sm_id c)])) as ->.
  { unfold handleConversationSearchKeyDown.
    destruct (orderedConversationOptions p s) as [|x l0] eqn:El; [done|].
    repeat (rewrite bool_decide_eq_false_2 by done). rewrite bool_decide_eq_true_2 by done.
    unfold selectHighlightedConversation. rewrite Hh, (proj2 (truthy_true (sm_id c)) (Hne c Hc)).
    unfold selectConversationFromNavigator. by rewrite Hbusy, Hcb. }
  split; [done|]. cbn [fst ng_state]. by destruct (settle_keeps (menuDeps p s) p (setMenuOpen false s)) as (-> & _).
Qed.

(** While nobody asks for another deletion, an open confirmation is for the
    conversation it was opened for. *)
Definition confirms (id : string) (n : Navigating) : Prop :=
  nv_isDeleteConversationConfirmOpen (ng_state n) = true -> nv_pendingDeleteConversationID (ng_state n) = id.

Definition keeps_confirm (s s' : Navigator) : Prop :=
  nv_isDeleteConversationConfirmOpen s' = true ->
  nv_isDeleteConversationConfirmOpen s = true /\ nv_pendingDeleteConversationID s' = nv_pendingDeleteConversationID s.

Lemma highlight_keeps p s0 i s s' : keeps_confirm s s' -> keeps_confirm s (highlightConversationOption p s0 i s').
Proof. unfold highlightConversationOption. by case_match. Qed.

Lemma keeps_refl s : keeps_confirm s s.
Proof. by split. Qed.

Lemma select_keeps p s id : keeps_confirm s (fst (selectConversationFromNavigator p s id)).
Proof. unfold selectConversationFromNavigator. by case_match. Qed.

Lemma search_keeps p s key : keeps_confirm s (fst (handleConversationSearchKeyDown p s key)).
Proof.
  unfold handleConversationSearchKeyDown, selectHighlightedConversation.
  repeat (case_match; cbn [fst]); auto using highlight_keeps, select_keeps, keeps_refl.
Qed.

Lemma option_keeps p s i key : keeps_confirm s (fst (handleConversationOptionKeyDown p s i key)).
Proof.
  unfold handleConversationOptionKeyDown.
  repeat (case_match; cbn [fst]); auto using highlight_keeps, select_keeps, keeps_refl.
Qed.

Lemma handler_keeps_confirm p s ev :
  asks_deletion ev = false -> keeps_confirm s (fst (navigatorHandler p s ev)).
Proof.
  intros Ha. destruct ev; try discriminate Ha; cbn [navigatorHandler fst]; try (case_match; [|by apply keeps_refl]);
    cbn [menuHandler promptHandler optionHandler];
    unfold handleRestoreConversation, handleArchiveConversation, handleDeleteConversation, handleRenameConversation,
      handleConversationTriggerKeyDown;
    repeat (case_match; cbn [fst]); auto using highlight_keeps, search_keeps, option_keeps, select_keeps, keeps_refl;
    solve [intros Hk; cbn in Hk; discriminate Hk | intros Hk; by split
          | apply highlight_keeps; intros Hk; by split].
Qed.

Lemma settle_keeps_confirm before p s : keeps_confirm s (settleNavigator before p s).
Proof.
  unfold settleNavigator, highlightEffect, optimisticTitleEffect, menuEffect.
  repeat (case_match; cbn); solve [intros Hk; cbn in Hk; discriminate Hk | intros Hk; by split].
Qed.

Lemma confirms_run id n evs :
  Forall (fun ev => asks_deletion ev = false) evs -> confirms id n -> confirms id (runNavigator n evs).
Proof.
  intros Hall. revert n. induction Hall as [|ev evs Ha _ IH]; intros n Hc; [done|]. apply IH.
  destruct n as [p s]. pose proof (handler_keeps_confirm p s ev Ha) as Hh.
  unfold navigatorStep. cbn [ng_props ng_state]. destruct (navigatorHandler p s ev) as [s' out]. cbn [fst] in *.
  intros Ho. cbn [ng_state] in *.
  destruct (settle_keeps_confirm _ _ _ Ho) as [Ho1 ->]. destruct (Hh Ho1) as [Ho2 ->]. by apply Hc.
Qed.

(** ** Properties *)

(** Whatever the user does and however the conversations change, after the
    effects a closed menu holds no rename, no deletion and no highlight, a
    rename and a deletion are never asked at once, and in an open menu the
    highlighted option is one of the options shown. *)
Theorem navigator_always_ok p evs : navigator_ok (runNavigator (mountNavigator p) evs).
Proof. apply navigator_ok_run, mount_navigator_ok. Qed.

(** In the search input the keys walk the shown options without leaving
    the list (down and up by one and no further than the ends, Home and End to
    the ends), and Enter selects the conversation they reached and closes the
    menu. *)
Theorem search_keys_select n l i keys :
  np_isConversationBusy (ng_props n) = false -> NoDup (sm_id <$> np_conversations (ng_props n)) ->
  Forall (fun c => sm_id c <> "") (np_conversations (ng_props n)) ->
  cb_select (np_callbacks (ng_props n)) = true -> highlights n l i ->
  exists c, l !! foldl (walk (length l)) i keys = Some c /\
    let '(n', out) := navigatorStep (runNavigator n ((fun k => SearchKey (keyName k)) <$> keys)) (SearchKey "Enter") in
    out = [ConversationSelected (sm_id c)] /\ nv_isConversationMenuOpen (ng_state n') = false.
Proof.
  revert n i. induction keys as [|k keys IH]; intros n i Hbusy Hnd Hne Hcb Hat.
  - pose proof Hat as (_ & _ & c & Hi & _). exists c. split; [exact Hi|].
    pose proof (search_enter_selects n l i c Hbusy Hne Hat Hi Hcb) as [H1 H2].
    change (runNavigator n _) with n. by destruct (navigatorStep n (SearchKey "Enter")).
  - destruct (search_key_walks n l i k Hbusy Hnd Hne Hat) as [Ep Hat'].
    apply (IH (fst (navigatorStep n (SearchKey (keyName k)))) (walk (length l) i k)); by rewrite ?Ep.
Qed.

(** C28: Between the click on the deletion of a conversation's row and its
    confirmation anything may happen (the conversations change, another scope
    or search, keys, focus): if no other deletion is asked, the confirmation
    deletes that conversation or nothing. *)
Theorem confirmation_deletes_the_row n index c evs :
  trimText (sm_id c) = sm_id c -> sm_id c <> "" ->
  orderedConversationOptions (ng_props n) (ng_state n) !! index = Some c ->
  nv_isConversationMenuOpen (ng_state n) = true -> np_isConversationBusy (ng_props n) = false ->
  cb_delete (np_callbacks (ng_props n)) = true ->
  Forall (fun ev => asks_deletion ev = false) evs ->
  forall out, out ∈ snd (navigatorStep (runNavigator (fst (navigatorStep n (RowDelete index))) evs) ConfirmDelete) ->
  out = ConversationDeleted (sm_id c).
Proof.
  destruct n as [p s]. cbn [ng_props ng_state]. intros Htrim Hne Hc Ho Hbusy Hcb Hall out.
  assert (confirms (sm_id c) (runNavigator (fst (navigatorStep (mkNavigating p s) (RowDelete index))) evs)) as Hconf.
  { apply confirms_run; [exact Hall|]. unfold navigatorStep.
    cbn [ng_props ng_state navigatorHandler]. rewrite Ho. cbn [menuHandler promptHandler optionHandler]. rewrite Hc, Hbusy, Hcb. cbn [orb negb].
    intros Hk. cbn [fst ng_state] in *. by destruct (settle_keeps_confirm _ _ _ Hk) as [_ ->]. }
  destruct (runNavigator _ evs) as [p' s']. unfold navigatorStep. cbn [ng_props ng_state navigatorHandler].
  destruct (nv_isConversationMenuOpen s'); [|intros H; by apply elem_of_nil in H]. cbn [menuHandler promptHandler optionHandler].
  destruct (np_isConversationBusy p'); [intros H; by apply elem_of_nil in H|].
  destruct (nv_isDeleteConversationConfirmOpen s') eqn:Ec; [|intros H; by apply elem_of_nil in H].
  specialize (Hconf Ec). cbn [ng_state] in Hconf. cbn [orb negb].
  destruct (bool_decide (is_Some (pendingDeleteConversation p' s'))); [|intros H; by apply elem_of_nil in H].
  unfold handleDeleteConversation, targetConversationID.
  rewrite Hconf, Htrim. unfold orElse. rewrite (proj2 (truthy_true (sm_id c)) Hne), ?(proj2 (truthy_true (sm_id c)) Hne).
  cbn [negb orb]. destruct (cb_delete (np_callbacks p')); cbn; [|intros H; by apply elem_of_nil in H].
  by intros ->%list_elem_of_singleton.
Qed.

End Navigator.

(** ** Witnesses and examples *)

Definition thread (id title : string) (archived : bool) : AgentConversationSummary :=
  mkSummary (if archived then Some "2026-01-02T00:00:00Z" else None) id title "" "" 1.

Definition threads : list AgentConversationSummary :=
  [thread "a" "Alpha" false; thread "b" "Beta" false; thread "c" "Gamma" true].

Definition navigator_props (active : string) (l : list AgentConversationSummary) : NavigatorProps :=
  mkNavigatorProps None active (mkCounts 0 0 0) None None l false LocaleEn
    (mkCallbacks true true true true true true true true).

Definition opened : Navigating :=
  runNavigator lowerText (mountNavigator (navigator_props "a" threads)) [TriggerClick; ScopeClick ScopeAll].

Lemma opened_highlights : highlights lowerText opened threads 0.
Proof. split_and!; [reflexivity..|]. exists (thread "a" "Alpha" false). split; reflexivity. Qed.

Lemma search_keys_select_witness :
  snd (navigatorStep lowerText (runNavigator lowerText opened
    ((fun k => SearchKey (keyName k)) <$> [KeyDown; KeyDown; KeyDown; KeyUp])) (SearchKey "Enter")) =
  [ConversationSelected "b"].
Proof.
  destruct (search_keys_select lowerText opened threads 0 [KeyDown; KeyDown; KeyDown; KeyUp]) as (c & Hc & E).
  - reflexivity.
  - apply (bool_decide_unpack _). vm_compute. exact I.
  - apply (bool_decide_unpack _). vm_compute. exact I.
  - reflexivity.
  - exact opened_highlights.
  - vm_compute in Hc. injection Hc as <-.
    destruct (navigatorStep lowerText (runNavigator lowerText opened _) (SearchKey "Enter")) as [n' out].
    exact (proj1 E).
Defined.

Lemma confirmation_deletes_the_row_witness :
  let out := snd (navigatorStep lowerText (runNavigator lowerText (fst (navigatorStep lowerText opened (RowDelete 1)))
    [ScopeClick ScopeArchived; SearchKey "ArrowDown"]) ConfirmDelete) in
  length out = 1 /\ nullish (head out) ConversationCreated = ConversationDeleted "b".
Proof.
  split; [vm_compute; reflexivity|].
  apply (confirmation_deletes_the_row lowerText opened 1 (thread "b" "Beta" false)
    [ScopeClick ScopeArchived; SearchKey "ArrowDown"] eq_refl ltac:(discriminate) eq_refl eq_refl eq_refl eq_refl
    ltac:(repeat constructor)).
  vm_compute. left.
Defined.

(** When the conversation leaves the list while its deletion is to be confirmed
    (another page of a search, say), the prompt names the active conversation
    and the confirmation deletes the other one. *)
Example delete_prompt_names_another :
  let n := runNavigator lowerText (fst (navigatorStep lowerText opened (RowDelete 1)))
             [PropsChanged (navigator_props "a" [thread "a" "Alpha" false])] in
  sm_title <$> pendingDeleteConversation (ng_props n) (ng_state n) = Some "Alpha" /\
  snd (navigatorStep lowerText n ConfirmDelete) = [ConversationDeleted "b"].
Proof. vm_compute. split; reflexivity. Qed.

(** After a rename that does not take (a failed request), the new title is
    shown for whatever conversation is selected next. *)
Example stale_title_shown :
  let n := runNavigator lowerText opened
             [RenameClick; RenameInput "Renamed"; SaveRename; PropsChanged (navigator_props "b" threads)] in
  (sm_title <$> activeConversation (ng_props n)) = Some "Beta" /\
  displayedConversationTitle (ng_props n) (ng_state n) = "Renamed".
Proof. vm_compute. split; reflexivity. Qed.

(** ** What the header shows *)

Section View.
Variables (lowerCase : string -> string) (formatDate : string -> option string).

(** A button by the text on it or its label, with the event of its click. *)
Record NavigatorButton := mkNavigatorButton { nb_label : string; nb_disabled : bool; nb_event : NavigatorEvent }.

Record ConversationRow := mkConversationRow {
  cw_id : string;
  cw_isActive : bool;
  cw_isHighlighted : bool;
  cw_title : string;
  cw_meta : string;
  cw_option : NavigatorButton;
  cw_actions : list NavigatorButton
}.
Record NavigatorPrompt := mkPrompt { nq_texts : list string; nq_draft : option string; nq_buttons : list NavigatorButton }.
Record NavigatorMenu := mkNavigatorMenu {
  nm_summary : string;
  nm_actions : list NavigatorButton;
  nm_current : option (string * string * string);
  nm_scopes : list (bool * NavigatorButton);
  nm_activeDescendant : option string;
  nm_searchDisabled : bool;
  nm_query : string;
  nm_delete : option NavigatorPrompt;
  nm_rename : option NavigatorPrompt;
  nm_empty : option string;
  nm_sections : list (string * list ConversationRow)
}.
Record NavigatorView := mkNavigatorView {
  vn_label : string;
  vn_title : string;
  vn_meta : string;
  vn_trigger : NavigatorButton;
  vn_menu : option NavigatorMenu
}.

Section Shown.
Variables (p : NavigatorProps) (s : Navigator).
Notation copy := (copyOf p).
Notation busy := (np_isConversationBusy p).

Definition conversationRow (index : nat) (conversation : AgentConversationSummary) : ConversationRow :=
  let title := formatConversationTitle conversation copy in
  let titleCounts := buildConversationTitleCounts (orderedConversationOptions lowerCase p s) copy in
  let archived := isArchivedConversation conversation in
  let updatedAt value := formatConversationUpdatedAt formatDate p value in {|
    cw_id := sm_id conversation;
    cw_isActive := bool_decide (sm_id conversation = selectedConversationID p);
    cw_isHighlighted := bool_decide (sm_id conversation = nv_highlightedConversationID s);
    cw_title := title;
    cw_meta := formatConversationCount conversation copy +:+ " · " +:+
      (if archived then acv_archivedAtPrefix copy +:+ " " +:+ updatedAt (nullish (sm_archived_at conversation) (sm_updated_at conversation))
       else updatedAt (sm_updated_at conversation));
    cw_option := mkNavigatorButton (conversationOptionAriaLabel formatDate p conversation titleCounts) busy (OptionClick index);
    cw_actions :=
      [(if archived
        then mkNavigatorButton (acv_restoreRowAriaLabel copy title) (busy || negb (cb_restore (np_callbacks p))) (RowArchiveOrRestore index)
        else mkNavigatorButton (acv_archiveRowAriaLabel copy title) (busy || negb (cb_archive (np_callbacks p))) (RowArchiveOrRestore index));
       mkNavigatorButton (acv_deleteRowAriaLabel copy title) (busy || negb (cb_delete (np_callbacks p))) (RowDelete index)]
  |}.

(** A section is shown for the rows of it; those of the archived one follow. *)
Definition conversationSection (archived : bool) (offset : nat) (l : list AgentConversationSummary) :
    list (string * list ConversationRow) :=
  match l with
  | [] => []
  | _ :: _ => [(conversationSectionTitle (conversationScope p s) archived copy,
                imap (fun i c => conversationRow (offset + i) c) l)]
  end.
Definition conversationSections : list (string * list ConversationRow) :=
  let scope := conversationScope p s in
  let recent := match scope with ScopeArchived => [] | _ => filteredRecentConversations lowerCase p s end in
  let archived := match scope with ScopeRecent => [] | _ => filteredArchivedConversations lowerCase p s end in
  conversationSection false 0 recent ++ conversationSection true (length recent) archived.

Definition deletePrompt : option NavigatorPrompt :=
  match pendingDeleteConversation p s with
  | Some c =>
      if nv_isDeleteConversationConfirmOpen s then
        Some (mkPrompt [acv_deleteConversationTitle copy; formatConversationTitle c copy; acv_deleteConversationDescription copy] None
          [mkNavigatorButton (acv_cancel copy) busy CancelDelete; mkNavigatorButton (acv_delete copy) busy ConfirmDelete])
      else None
  | None => None
  end.
Definition renamePrompt : option NavigatorPrompt :=
  if renamePanelShown p s then
    Some (mkPrompt [acv_renameActiveConversationTitle copy] (Some (nv_renameDraft s))
      [mkNavigatorButton (acv_cancel copy) busy CancelRename;
       mkNavigatorButton (acv_save copy) (busy || bool_decide (trimText (nv_renameDraft s) = "")) SaveRename])
  else None.

#[local] Instance listScope_eq_dec : EqDecision AgentConversationListScope.
Proof. solve_decision. Defined.

(** The counts of the scopes are not negative. *)
Definition scopeButton (scope : AgentConversationListScope) : bool * NavigatorButton :=
  let counts := effectiveConversationCounts lowerCase p s in
  let count := match scope with ScopeRecent => cn_recent counts | ScopeArchived => cn_archived counts | ScopeAll => cn_all counts end in
  (bool_decide (conversationScope p s = scope),
   mkNavigatorButton (conversationScopeLabel scope (Z.to_nat count) copy) false (ScopeClick scope)).

Definition navigatorMenu : NavigatorMenu := {|
  nm_summary := acv_threadCount copy (length (np_conversations p)) +:+
    (if bool_decide (trimText (conversationSearchQuery p s) = "") then ""
     else " · " +:+ acv_shownCount copy (length (filteredConversations lowerCase p s)));
  nm_actions :=
    [mkNavigatorButton (acv_rename copy) (busy || negb (canRenameConversation p)) RenameClick;
     mkNavigatorButton (if canRestoreConversation p then acv_restore copy else acv_archive copy)
       (busy || (negb (canArchiveConversation p) && negb (canRestoreConversation p))) ArchiveOrRestoreClick;
     mkNavigatorButton (acv_delete copy) (busy || negb (canDeleteConversation p)) DeleteClick;
     mkNavigatorButton (acv_new copy) (busy || negb (cb_create (np_callbacks p))) CreateClick];
  nm_current :=
    if hasActive p then Some (activeConversationBadgeLabel p, displayedConversationTitle p s, activeConversationMeta formatDate p) else None;
  nm_scopes := scopeButton <$> [ScopeRecent; ScopeArchived; ScopeAll];
  nm_activeDescendant := (fun id => "ai-panel-header-conversation-option-" +:+ id) <$> truthyOpt (Some (nv_highlightedConversationID s));
  nm_searchDisabled := busy || bool_decide (np_conversations p = []);
  nm_query := conversationSearchQuery p s;
  nm_delete := deletePrompt;
  nm_rename := renamePrompt;
  nm_empty := match visibleConversations lowerCase p s with [] => Some (acv_noMatches copy) | _ :: _ => None end;
  nm_sections := conversationSections
|}.

Definition navigatorView : NavigatorView := {|
  vn_label := acv_conversationLabel copy;
  vn_title := displayedConversationTitle p s;
  vn_meta := activeConversationMeta formatDate p;
  vn_trigger := mkNavigatorButton (acv_conversationMenuAriaLabel copy) busy TriggerClick;
  vn_menu := if nv_isConversationMenuOpen s then Some navigatorMenu else None
|}.

(** All buttons of the view. *)
Definition promptButtons (prompt : option NavigatorPrompt) : list NavigatorButton :=
  match prompt with Some q => nq_buttons q | None => [] end.
Definition navigatorRows : list ConversationRow := mjoin (snd <$> conversationSections).
Definition navigatorButtons : list NavigatorButton :=
  vn_trigger navigatorView ::
  match vn_menu navigatorView with
  | Some menu =>
      nm_actions menu ++ (snd <$> nm_scopes menu) ++ promptButtons (nm_delete menu) ++ promptButtons (nm_rename menu) ++
      mjoin ((fun row => cw_option row :: cw_actions row) <$> navigatorRows)
  | None => []
  end.

End Shown.

(** The rows shown are those the keys walk, in their order. *)
Lemma section_rows p s archived offset l :
  mjoin (snd <$> conversationSection p s archived offset l) = imap (fun i c => conversationRow p s (offset + i) c) l.
Proof. destruct l as [|c l]; [done|]. apply app_nil_r. Qed.
Lemma section_ids p s archived offset l :
  cw_id <$> mjoin (snd <$> conversationSection p s archived offset l) = sm_id <$> l.
Proof.
  rewrite section_rows, fmap_imap. rewrite <- (imap_const sm_id l). by apply imap_ext.
Qed.
Lemma rows_are_the_options p s :
  cw_id <$> navigatorRows p s = sm_id <$> orderedConversationOptions lowerCase p s.
Proof.
  unfold navigatorRows, conversationSections, orderedConversationOptions.
  by rewrite fmap_app, join_app, !fmap_app, !section_ids.
Qed.

Lemma row_acts_on_its_option p s row :
  row ∈ navigatorRows p s ->
  exists i c, orderedConversationOptions lowerCase p s !! i = Some c /\ row = conversationRow p s i c.
Proof.
  unfold navigatorRows, conversationSections, orderedConversationOptions. rewrite fmap_app, join_app, !section_rows.
  intros [(i & c & -> & Hi)%elem_of_lookup_imap_1|(i & c & -> & Hi)%elem_of_lookup_imap_1]%elem_of_app.
  - exists i, c. split; [by apply lookup_app_l_Some|done].
  - eexists _, c. split; [|reflexivity]. rewrite lookup_app_r by lia. by rewrite Nat.add_sub_swap, Nat.sub_diag by lia.
Qed.

(** A disabled button and its handler agree: the event of a button that is
    shown disabled changes nothing and calls nothing. *)
Lemma disabled_row_refuses p s row b :
  row ∈ navigatorRows p s -> b ∈ cw_option row :: cw_actions row -> nb_disabled b = true ->
  optionHandler lowerCase p s (nb_event b) = (s, []).
Proof.
  intros (i & c & Hi & ->)%row_acts_on_its_option Hb Hd. cbn in Hb.
  repeat (apply elem_of_cons in Hb as [->|Hb]); [| | |by apply not_elem_of_nil in Hb].
  - cbn in *. by rewrite Hi, Hd.
  - destruct (isArchivedConversation c) eqn:Ea; cbn in *; rewrite Hi, Ea;
      unfold handleRestoreConversation, handleArchiveConversation;
      destruct (np_isConversationBusy p); [done| |done|]; cbn in Hd; by rewrite Hd, orb_true_r.
  - cbn in *. by rewrite Hi, Hd.
Qed.
Lemma disabled_button_refuses p s b :
  b ∈ navigatorButtons p s -> nb_disabled b = true -> navigatorHandler lowerCase p s (nb_event b) = (s, []).
Proof.
  unfold navigatorButtons. intros [->|Hb]%elem_of_cons Hd; [cbn in *; by rewrite Hd|].
  cbn [navigatorView vn_menu] in Hb.
  destruct (nv_isConversationMenuOpen s) eqn:Eo; [|by apply not_elem_of_nil in Hb].
  rewrite !elem_of_app in Hb. destruct Hb as [Hb|[Hb|[Hb|[Hb|Hb]]]].
  - cbn in Hb. repeat (apply elem_of_cons in Hb as [->|Hb]); [..|by apply not_elem_of_nil in Hb];
      cbn in *; rewrite Eo, Hd; done.
  - cbn in Hb. repeat (apply elem_of_cons in Hb as [->|Hb]); [..|by apply not_elem_of_nil in Hb]; discriminate Hd.
  - cbn [navigatorMenu nm_delete] in Hb. unfold deletePrompt in Hb.
    destruct (pendingDeleteConversation p s); [destruct (nv_isDeleteConversationConfirmOpen s)|];
      [|by apply not_elem_of_nil in Hb..].
    cbn in Hb. repeat (apply elem_of_cons in Hb as [->|Hb]); [..|by apply not_elem_of_nil in Hb];
      cbn in *; by rewrite Eo, Hd.
  - cbn [navigatorMenu nm_rename] in Hb. unfold renamePrompt in Hb.
    destruct (renamePanelShown p s) eqn:Er; [|by apply not_elem_of_nil in Hb].
    cbn in Hb. repeat (apply elem_of_cons in Hb as [->|Hb]); [..|by apply not_elem_of_nil in Hb]; cbn in *; rewrite Eo, Er.
    + by rewrite Hd.
    + destruct (np_isConversationBusy p); [done|]. cbn in Hd |- *. unfold handleRenameConversation.
      destruct (activeConversation p); [|done]. by rewrite Hd, orb_true_r.
  - apply list_elem_of_join in Hb as (l & Hb & (row & -> & Hrow)%list_elem_of_fmap).
    pose proof (disabled_row_refuses p s row b Hrow Hb Hd) as E.
    apply row_acts_on_its_option in Hrow as (i & c & _ & ->). cbn in Hb.
    assert (exists j, nb_event b = OptionClick j \/ nb_event b = RowArchiveOrRestore j \/ nb_event b = RowDelete j) as (j & Hj).
    { exists i. repeat (apply elem_of_cons in Hb as [->|Hb]); [..|by apply not_elem_of_nil in Hb];
        cbn; destruct (isArchivedConversation c); auto. }
    destruct Hj as [Hj|[Hj|Hj]]; rewrite Hj in *; cbn [navigatorHandler menuHandler]; by rewrite Eo.
Qed.

End View.

(** The route of the provider ([ai-panel-header-route-cluster]) *)
Record RouteCluster := mkRouteCluster {
  rx_title : string; rx_titleHint : string; rx_meta : string; rx_metaHint : string;
  rx_actionAria : string; rx_action : string; rx_disabled : bool
}.
Definition routeCluster (route : option ProviderRoute) (providerRouteError providerRouteActionLabel : option string)
    (isProviderRouteBusy hasAction : bool) (copy : AiRouteCopy) : option RouteCluster :=
  let message := activeProviderRouteMessage route providerRouteError in
  match route with
  | Some r =>
      let meta := formatProviderRouteMeta r copy in
      Some (mkRouteCluster (ro_displayName r +:+ " · " +:+ formatProviderRouteStateLabel r copy)
        (orElse message (ro_displayName r)) (orElse message (orElse meta (art_noTelemetry copy))) (orElse message meta)
        (orElse (trimmedOpt providerRouteActionLabel) (art_routeActionAriaLabel copy))
        (routeActionLabel r providerRouteActionLabel copy) (isProviderRouteBusy || negb hasAction))
  | None => None
  end.

Example rows_of_the_scopes :
  let rows := navigatorRows lowerText Some (ng_props opened) (ng_state opened) in
  (cw_id <$> rows) = ["a"; "b"; "c"] /\ (cw_isActive <$> rows) = [true; false; false] /\
  (cw_meta <$> rows) = ["1 msg · "; "1 msg · "; "1 msg · Archived 2026-01-02T00:00:00Z"].
Proof. vm_compute. split_and!; reflexivity. Qed.
