(* ===== verification/TerminalWidget.v ===== *)
(** * The terminal widget

    [frontend/src/widgets/terminal/terminal-widget.tsx]: the latest command of
    a terminal with its refreshes, running it again and having the agent explain
    it, the search in the output, the browser of the grouped sessions, and the
    buttons of the header, which the dock shows in its own header when the panel
    is alone ([terminal-dockview-header-controls.ts],
    [terminal-dockview-tab-widget.tsx]).

    The view of the session is the one of [TerminalSession]; its callbacks and
    the emulator of [TerminalSurface] are outputs here.  As in [FilesPanel] the
    effects of a change are one step with it. *)
From Stdlib Require Import Ascii String.
From stdpp Require Import gmap strings.
From S2P Require Import Prelude JsString Text RuntimePath Effects Http TerminalSession TerminalApi SharedModel SettingsForms Rely WidgetTexts TerminalFeed.
Local Open Scope string_scope.
Local Open Scope list_scope.
Local Open Scope nat_scope.
Local Open Scope js_scope.
Local Open Scope prog_scope.

#[export] Instance connection_kind_eq : EqDecision TerminalDisplayConnectionKind.
Proof. solve_decision. Defined.
#[export] Instance session_state_eq : EqDecision TerminalDisplaySessionState.
Proof. solve_decision. Defined.

(** ** State *)

Record TerminalSearchResult := mkSearchResult { sr_resultCount : Z; sr_resultIndex : Z }.
Inductive RendererMode := RendererDefault | RendererWebgl.

(** The last four fields are the view of the last rendering, the delay of the
    refresh that waits, and the two stores of the shell that the widget uses. *)
Record TerminalWidgetState := mkTerminalWidget {
  tw_isExplainAndFixPending : bool;
  tw_isExplainLatestCommandPending : bool;
  tw_isLatestCommandLoading : bool;
  tw_isRerunLatestCommandPending : bool;
  tw_isSessionBrowserOpen : bool;
  tw_isLatestCommandStripOpen : bool;
  tw_latestCommand : option TerminalLatestCommand;
  tw_latestCommandError : option string;
  tw_isSearchOpen : bool;
  tw_rendererMode : RendererMode;
  tw_sessionFilterQuery : string;
  tw_searchQuery : string;
  tw_searchResult : option TerminalSearchResult;
  tw_session : TerminalSessionView;
  tw_refreshTimer : option Z;
  tw_handoffs : Handoffs;
  tw_isAiSidebarOpen : bool
}.

Inductive TerminalWidgetRequest : Set -> Type :=
  | FetchLatestCommand (widgetId : string) : TerminalWidgetRequest TerminalLatestCommand
  | FetchDiagnostics (widgetId : string) : TerminalWidgetRequest TerminalDiagnostics
  | SendInput (widgetId text : string) (appendNewline : bool) : TerminalWidgetRequest TerminalInputResult.
Notation Terminal := (ProgX ApiError TerminalWidgetState TerminalWidgetRequest).

Definition setExplainPending (b : bool) (s : TerminalWidgetState) : TerminalWidgetState :=
  mkTerminalWidget b (tw_isExplainLatestCommandPending s) (tw_isLatestCommandLoading s) (tw_isRerunLatestCommandPending s)
    (tw_isSessionBrowserOpen s) (tw_isLatestCommandStripOpen s) (tw_latestCommand s) (tw_latestCommandError s)
    (tw_isSearchOpen s) (tw_rendererMode s) (tw_sessionFilterQuery s) (tw_searchQuery s) (tw_searchResult s) (tw_session s)
    (tw_refreshTimer s) (tw_handoffs s) (tw_isAiSidebarOpen s).
Definition setExplainCommandPending (b : bool) (s : TerminalWidgetState) : TerminalWidgetState :=
  mkTerminalWidget (tw_isExplainAndFixPending s) b (tw_isLatestCommandLoading s) (tw_isRerunLatestCommandPending s)
    (tw_isSessionBrowserOpen s) (tw_isLatestCommandStripOpen s) (tw_latestCommand s) (tw_latestCommandError s)
    (tw_isSearchOpen s) (tw_rendererMode s) (tw_sessionFilterQuery s) (tw_searchQuery s) (tw_searchResult s) (tw_session s)
    (tw_refreshTimer s) (tw_handoffs s) (tw_isAiSidebarOpen s).
Definition setRerunPending (b : bool) (s : TerminalWidgetState) : TerminalWidgetState :=
  mkTerminalWidget (tw_isExplainAndFixPending s) (tw_isExplainLatestCommandPending s) (tw_isLatestCommandLoading s) b
    (tw_isSessionBrowserOpen s) (tw_isLatestCommandStripOpen s) (tw_latestCommand s) (tw_latestCommandError s)
    (tw_isSearchOpen s) (tw_rendererMode s) (tw_sessionFilterQuery s) (tw_searchQuery s) (tw_searchResult s) (tw_session s)
    (tw_refreshTimer s) (tw_handoffs s) (tw_isAiSidebarOpen s).
Definition setBrowser (open : bool) (filter : string) (s : TerminalWidgetState) : TerminalWidgetState :=
  mkTerminalWidget (tw_isExplainAndFixPending s) (tw_isExplainLatestCommandPending s) (tw_isLatestCommandLoading s)
    (tw_isRerunLatestCommandPending s) open (tw_isLatestCommandStripOpen s) (tw_latestCommand s) (tw_latestCommandError s)
    (tw_isSearchOpen s) (tw_rendererMode s) filter (tw_searchQuery s) (tw_searchResult s) (tw_session s)
    (tw_refreshTimer s) (tw_handoffs s) (tw_isAiSidebarOpen s).
Definition setSearch (open : bool) (query : string) (result : option TerminalSearchResult) (s : TerminalWidgetState)
    : TerminalWidgetState :=
  mkTerminalWidget (tw_isExplainAndFixPending s) (tw_isExplainLatestCommandPending s) (tw_isLatestCommandLoading s)
    (tw_isRerunLatestCommandPending s) (tw_isSessionBrowserOpen s) (tw_isLatestCommandStripOpen s) (tw_latestCommand s)
    (tw_latestCommandError s) open (tw_rendererMode s) (tw_sessionFilterQuery s) query result (tw_session s)
    (tw_refreshTimer s) (tw_handoffs s) (tw_isAiSidebarOpen s).
Definition setRendererMode (mode : RendererMode) (s : TerminalWidgetState) : TerminalWidgetState :=
  mkTerminalWidget (tw_isExplainAndFixPending s) (tw_isExplainLatestCommandPending s) (tw_isLatestCommandLoading s)
    (tw_isRerunLatestCommandPending s) (tw_isSessionBrowserOpen s) (tw_isLatestCommandStripOpen s) (tw_latestCommand s)
    (tw_latestCommandError s) (tw_isSearchOpen s) mode (tw_sessionFilterQuery s) (tw_searchQuery s) (tw_searchResult s)
    (tw_session s) (tw_refreshTimer s) (tw_handoffs s) (tw_isAiSidebarOpen s).
Definition setSessionView (view : TerminalSessionView) (timer : option Z) (s : TerminalWidgetState) : TerminalWidgetState :=
  mkTerminalWidget (tw_isExplainAndFixPending s) (tw_isExplainLatestCommandPending s) (tw_isLatestCommandLoading s)
    (tw_isRerunLatestCommandPending s) (tw_isSessionBrowserOpen s) (tw_isLatestCommandStripOpen s) (tw_latestCommand s)
    (tw_latestCommandError s) (tw_isSearchOpen s) (tw_rendererMode s) (tw_sessionFilterQuery s) (tw_searchQuery s)
    (tw_searchResult s) view timer (tw_handoffs s) (tw_isAiSidebarOpen s).
Definition handOff (request : AiPromptHandoffRequest) (s : TerminalWidgetState) : TerminalWidgetState :=
  mkTerminalWidget (tw_isExplainAndFixPending s) (tw_isExplainLatestCommandPending s) (tw_isLatestCommandLoading s)
    (tw_isRerunLatestCommandPending s) (tw_isSessionBrowserOpen s) (tw_isLatestCommandStripOpen s) (tw_latestCommand s)
    (tw_latestCommandError s) (tw_isSearchOpen s) (tw_rendererMode s) (tw_sessionFilterQuery s) (tw_searchQuery s)
    (tw_searchResult s) (tw_session s) (tw_refreshTimer s) (onHandoffEvent (tw_handoffs s) (QueueAiPromptHandoff request))
    (onSidebarEvent (tw_isAiSidebarOpen s) OpenAiSidebar).

Definition hasLatestCommandPreview (s : TerminalWidgetState) : bool :=
  bool_decide (is_Some (tw_latestCommand s)) || tw_isLatestCommandLoading s || bool_decide (is_Some (tw_latestCommandError s)).

Definition setStripOpen (open : bool) (s : TerminalWidgetState) : TerminalWidgetState :=
  mkTerminalWidget (tw_isExplainAndFixPending s) (tw_isExplainLatestCommandPending s) (tw_isLatestCommandLoading s)
    (tw_isRerunLatestCommandPending s) (tw_isSessionBrowserOpen s) open (tw_latestCommand s)
    (tw_latestCommandError s) (tw_isSearchOpen s) (tw_rendererMode s) (tw_sessionFilterQuery s) (tw_searchQuery s)
    (tw_searchResult s) (tw_session s) (tw_refreshTimer s) (tw_handoffs s) (tw_isAiSidebarOpen s).
(** The effect that closes the strip when there is nothing to show. *)
Definition stripEffect (s : TerminalWidgetState) : TerminalWidgetState :=
  if hasLatestCommandPreview s then s else setStripOpen false s.
(** [setLatestCommand], [setLatestCommandError] and [setIsLatestCommandLoading]
    with the effect. *)
Definition setLatest (command : option TerminalLatestCommand) (error : option string) (loading : bool)
    (s : TerminalWidgetState) : TerminalWidgetState :=
  stripEffect
    (mkTerminalWidget (tw_isExplainAndFixPending s) (tw_isExplainLatestCommandPending s) loading
      (tw_isRerunLatestCommandPending s) (tw_isSessionBrowserOpen s) (tw_isLatestCommandStripOpen s) command error
      (tw_isSearchOpen s) (tw_rendererMode s) (tw_sessionFilterQuery s) (tw_searchQuery s) (tw_searchResult s) (tw_session s)
      (tw_refreshTimer s) (tw_handoffs s) (tw_isAiSidebarOpen s)).
Definition setLatestCommand (command : option TerminalLatestCommand) (s : TerminalWidgetState) : TerminalWidgetState :=
  setLatest command (tw_latestCommandError s) (tw_isLatestCommandLoading s) s.
Definition setLatestCommandError (error : option string) (s : TerminalWidgetState) : TerminalWidgetState :=
  setLatest (tw_latestCommand s) error (tw_isLatestCommandLoading s) s.
Definition setLatestCommandLoading (loading : bool) (s : TerminalWidgetState) : TerminalWidgetState :=
  setLatest (tw_latestCommand s) (tw_latestCommandError s) loading s.

(** ** The refresh *)

Definition latestOutputSeq (view : TerminalSessionView) : Z := (ck_seq <$> lastOf (vw_outputChunks view)) ?? 0%Z.
Definition refreshDelay (view : TerminalSessionView) : Z := if 0 <? vw_commandInputVersion view then 40 else 180.

(** Another view of the session is rendered: the effect starts its timer anew
    when one of its dependencies changed. *)
Definition onSessionView (view : TerminalSessionView) (s : TerminalWidgetState) : TerminalWidgetState :=
  let shown := tw_session s in
  setSessionView view
    (if bool_decide (latestOutputSeq view = latestOutputSeq shown /\
                     vw_commandInputVersion view = vw_commandInputVersion shown /\
                     vw_sessionKey view = vw_sessionKey shown)
     then tw_refreshTimer s else Some (refreshDelay view)) s.

Definition mountedTerminal (view : TerminalSessionView) (handoffs : Handoffs) (isAiSidebarOpen : bool) : TerminalWidgetState :=
  mkTerminalWidget false false false false false false None None false RendererDefault "" "" None view
    (Some (refreshDelay view)) handoffs isAiSidebarOpen.

(** [error instanceof Error && error.message.trim() ? error.message : text] *)
Definition errorText (text : string) (error : ApiError) : string := toTerminalErrorMessage (errorMessage error) text.

Definition isCommandNotFound (error : ApiError) : bool :=
  match error with
  | APIError name _ code _ => bool_decide (name = "TerminalAPIError") && bool_decide (code = "terminal_command_not_found")
  | _ => false
  end.

Definition newline : string := String lineFeed "".
(** [`label:\n\`\`\`kind\ntext\n\`\`\``] *)
Definition fenced (label kind text : string) : string :=
  label +:+ ":" +:+ newline +:+ "```" +:+ kind +:+ newline +:+ text +:+ newline +:+ "```".
(** [text?.trim() ?? ''] *)
Definition trimmedOr (text : option string) : string := (trimText <$> text) ?? "".

Definition showSessionState (state : TerminalDisplaySessionState) : string :=
  match state with
  | SessionRunning => "running" | SessionIdle => "idle" | SessionStarting => "starting" | SessionExited => "exited"
  | SessionFailed => "failed" | SessionDisconnected => "disconnected"
  end.

(** The properties of the widget, and [String.prototype.toLowerCase] on any
    script. *)
Section Widget.
Variables (runtimeWidgetId title : string) (locale : AppLocale) (lowerCase : string -> string).
Let copy := terminalWidgetCopy locale.

Definition refreshLatestCommand : Terminal unit :=
  update (setLatestCommandLoading true) ;;;
  finally
    (tryCatch
       (latestCommandResult <- await (FetchLatestCommand runtimeWidgetId) ;;
        update (setLatestCommand (Some latestCommandResult)) ;;;
        update (setLatestCommandError None))
       (fun error =>
          if isCommandNotFound error then update (setLatestCommand None) ;;; update (setLatestCommandError None)
          else
            update (setLatestCommand None) ;;;
            update (setLatestCommandError (Some (errorText (wcy_latestCommandLoadError copy) error)))))
    (update (setLatestCommandLoading false)).

(** The refresh timer fires. *)
Definition refreshTimerFires : Terminal unit :=
  s <- get ;;
  match tw_refreshTimer s with
  | Some _ => update (setSessionView (tw_session s) None) ;;; refreshLatestCommand
  | None => Ret tt
  end.

(** ** Prompts for the agent *)

(** The sections that both prompts begin with. *)
Definition promptHead (intro : string) (view : TerminalSessionView) : list string :=
  [intro; wcy_responseLanguageInstruction copy; "Terminal: " +:+ title;
   "Connection: " +:+ (if decide (vw_connectionKind view = DisplaySsh) then "SSH" else "Local");
   "Shell: " +:+ vw_shellLabel view].

Definition explainAndFixSections (view : TerminalSessionView) (diagnostics : TerminalDiagnostics) : list string :=
  let diagnosticsIssueSummary := trimmedOr (dg_issue_summary diagnostics) in
  let diagnosticsStatusDetail := trimmedOr (dg_status_detail diagnostics) in
  let diagnosticsOutputExcerpt := trimmedOr (dg_output_excerpt diagnostics) in
  promptHead (wcy_explainAndFixPromptIntro copy) view ++
  (if truthy diagnosticsIssueSummary then ["Current issue: " +:+ diagnosticsIssueSummary] else []) ++
  (if truthy diagnosticsStatusDetail && negb (bool_decide (diagnosticsStatusDetail = diagnosticsIssueSummary))
   then ["Runtime status: " +:+ diagnosticsStatusDetail] else []) ++
  (if truthy diagnosticsOutputExcerpt then [fenced "Recent terminal output" "text" diagnosticsOutputExcerpt] else []) ++
  [wcy_terminalCommandApprovalInstruction copy].

Definition explainLatestCommandSections (view : TerminalSessionView) (latestCommand : TerminalLatestCommand) : list string :=
  promptHead (wcy_explainLatestCommandPromptIntro copy) view ++ [fenced "Command" "sh" (lc_command latestCommand)] ++
  (match truthyOpt (trimText <$> lc_status_detail latestCommand) with
   | Some detail => ["Runtime status: " +:+ detail] | None => [] end) ++
  (match truthyOpt (trimText <$> lc_output_excerpt latestCommand) with
   | Some excerpt => [fenced "Observed output" "text" excerpt] | None => [] end) ++
  (match truthyOpt (trimText <$> lc_explain_summary latestCommand) with
   | Some summary => ["Previous explain summary: " +:+ summary] | None => [] end) ++
  [wcy_terminalCommandApprovalInstruction copy].

Definition handoffOf (promptSections : list string) : AiPromptHandoffRequest :=
  mkHandoffRequest (Some [runtimeWidgetId]) (join (newline +:+ newline) promptSections) (Some true).

Definition handleExplainAndFix : Terminal unit :=
  shown <- get ;;
  update (setExplainPending true) ;;;
  finally
    (diagnostics <- await (FetchDiagnostics runtimeWidgetId) ;;
     update (handOff (handoffOf (explainAndFixSections (tw_session shown) diagnostics))))
    (update (setExplainPending false)).

Definition handleExplainLatestCommand : Terminal unit :=
  shown <- get ;;
  match tw_latestCommand shown with
  | None => Ret tt
  | Some latestCommand =>
      update (setExplainCommandPending true) ;;;
      finally
        (update (handOff (handoffOf (explainLatestCommandSections (tw_session shown) latestCommand))))
        (update (setExplainCommandPending false))
  end.

Definition handleRerunLatestCommand : Terminal unit :=
  shown <- get ;;
  match tw_latestCommand shown with
  | None => Ret tt
  | Some latestCommand =>
      update (setRerunPending true) ;;;
      update (setLatestCommandError None) ;;;
      finally
        (tryCatch
           (await (SendInput runtimeWidgetId (lc_command latestCommand) true) ;;;
            refreshLatestCommand)
           (fun error => update (setLatestCommandError (Some (errorText (wcy_rerunLatestCommandError copy) error)))))
        (update (setRerunPending false))
  end.

Inductive terminal_call : Terminal unit -> Prop :=
  | timer_call : terminal_call refreshTimerFires
  | explain_call : terminal_call handleExplainAndFix
  | explain_command_call : terminal_call handleExplainLatestCommand
  | rerun_call : terminal_call handleRerunLatestCommand.

(** ** What is shown *)

Definition terminalIssueSummary (view : TerminalSessionView) : string :=
  match truthyOpt (trimText <$> vw_error view) with
  | Some error => error
  | None =>
      if decide (vw_sessionState view = SessionRunning) then ""
      else truthyOpt (trimText <$> vw_statusDetail view) ?? showSessionState (vw_sessionState view)
  end.
(** [statusDetail?.trim() !== ''] holds of a missing detail too. *)
Definition canExplainAndFix (view : TerminalSessionView) : bool :=
  truthy (terminalIssueSummary view) || (0 <? length (vw_outputChunks view)) ||
  negb (bool_decide (trimText <$> vw_statusDetail view = Some "")).

Definition isRestartDisabled (view : TerminalSessionView) : bool :=
  vw_isLoading view || vw_isInterrupting view || vw_isRestarting view.
(** [isCreateSessionDisabled] and [isSessionMutationDisabled] *)
Definition isSessionMutationDisabled (view : TerminalSessionView) : bool :=
  vw_isLoading view || vw_isCreatingSession view || vw_isInterrupting view || vw_isRestarting view.
Definition isInterruptDisabled (view : TerminalSessionView) : bool :=
  vw_isLoading view || vw_isCreatingSession view || vw_isInterrupting view || vw_isRestarting view || negb (vw_canInterrupt view).
Definition canRecoverTerminal (view : TerminalSessionView) : bool :=
  vw_isRecoveringStream view || bool_decide (is_Some (vw_error view)) ||
  bool_decide (vw_sessionState view ∈ [SessionDisconnected; SessionFailed; SessionExited]).
Definition isRecoverDisabled (view : TerminalSessionView) : bool :=
  negb (canRecoverTerminal view) || isSessionMutationDisabled view.
Definition recoverButtonLabel (view : TerminalSessionView) : string :=
  if vw_isRecoveringStream view then wcy_reconnectStream copy
  else if bool_decide (vw_connectionKind view = DisplaySsh) &&
          bool_decide (mbind rt_remote_launch_mode (vw_runtimeState view) = Some "tmux") &&
          negb (bool_decide (vw_sessionState view = SessionRunning))
  then wcy_resumeSession copy
  else if bool_decide (vw_connectionKind view = DisplaySsh) && negb (bool_decide (vw_sessionState view = SessionRunning))
  then wcy_reconnectShell copy
  else wcy_restartShell copy.
Definition recoverTitle (view : TerminalSessionView) : string :=
  if vw_isRecoveringStream view then wcy_recoverStreamTitle copy
  else if decide (vw_connectionKind view = DisplaySsh) then wcy_recoverSSHTitle copy else wcy_recoverLocalTitle copy.
Definition isExplainAndFixDisabled (s : TerminalWidgetState) : bool :=
  negb (canExplainAndFix (tw_session s)) || tw_isExplainAndFixPending s.
Definition isLatestCommandActionDisabled (s : TerminalWidgetState) : bool :=
  negb (bool_decide (is_Some (tw_latestCommand s))) || isRestartDisabled (tw_session s).

(** [TerminalSessionTab] *)
Record TerminalSessionTab := mkSessionTab {
  tt_cwd : string;
  tt_isActive : bool;
  tt_sessionId : string;
  tt_sessionState : TerminalDisplaySessionState;
  tt_shellLabel : string
}.
Definition tabOf (session : TerminalSessionListEntry) : TerminalSessionTab :=
  mkSessionTab (en_cwd session) (en_isActive session) (en_sessionId session) (en_sessionState session) (en_shellLabel session).
Definition groupedSessions (s : TerminalWidgetState) : list TerminalSessionListEntry := vw_sessions (tw_session s).
Definition visibleSessionTabs (s : TerminalWidgetState) : list TerminalSessionTab :=
  let view := tw_session s in
  match groupedSessions s with
  | [] => [mkSessionTab (vw_cwd view) true (vw_activeSessionId view ?? runtimeWidgetId) (vw_sessionState view) (vw_shellLabel view)]
  | sessions => tabOf <$> sessions
  end.
Definition isSessionCloseDisabled (s : TerminalWidgetState) : bool :=
  (length (visibleSessionTabs s) <=? 1) || isSessionMutationDisabled (tw_session s).

(** What the filter of the browser looks at. *)
Definition sessionFields (index : nat) (session : TerminalSessionListEntry) : list string :=
  ["session " +:+ showNat (index + 1); en_cwd session; en_shellLabel session; showSessionState (en_sessionState session);
   en_connectionName session ?? ""; en_remoteSessionName session ?? ""; en_remoteLaunchMode session ?? ""].
Definition visibleGroupedSessions (s : TerminalWidgetState) : list TerminalSessionListEntry :=
  let filter := lowerCase (trimText (tw_sessionFilterQuery s)) in
  if negb (truthy filter) then groupedSessions s
  else snd <$> filterb (fun '(index, session) => some (fun field => strIncludes filter (lowerCase field)) (sessionFields index session))
                 (imap pair (groupedSessions s)).

(** The label of a card, and the label of its button for screen readers. *)
Definition cardLabel (s : TerminalWidgetState) (session : TerminalSessionListEntry) : string :=
  wcy_sessionLabel copy
    (match findIndex (fun item => bool_decide (en_sessionId item = en_sessionId session)) (groupedSessions s) with
     | Some index => index + 1 | None => 0 end).
Definition cardFocusAria (index : nat) : string := wcy_focusSessionFromBrowserAria copy (index + 1) title.

(** The strip with the latest command, when it is open. *)
Inductive StripBody :=
  | StripCommand (status source command : string) (excerpt explain : option string)
  | StripText (text : string).
Definition commandStrip (s : TerminalWidgetState) : option StripBody :=
  if hasLatestCommandPreview s && tw_isLatestCommandStripOpen s then Some
    (match tw_latestCommand s with
     | Some latestCommand =>
         StripCommand (lc_status latestCommand)
           (match truthyOpt (lc_execution_block_id latestCommand) with
            | Some _ => wcy_aiLinked copy | None => wcy_terminalSource copy end)
           (lc_command latestCommand) (truthyOpt (trimText <$> lc_output_excerpt latestCommand))
           (wcy_lastExplain copy <$> truthyOpt (trimText <$> lc_explain_summary latestCommand))
     | None => StripText (truthyOpt (tw_latestCommandError s) ?? wcy_noCommandObserved copy)
     end)
  else None.

(** ** Controls *)

(** A key press with its modifiers. *)
Record ToolKey := mkToolKey {
  tk_key : string; tk_ctrl : bool; tk_meta : bool; tk_shift : bool; tk_alt : bool; tk_isComposing : bool
}.

Inductive TerminalControl :=
  | ClickCreateSession | ClickRecover | ClickBrowseSessions | ClickLatestCommand | ClickExplainAndFix | ClickInterrupt
  | ClickRestart
  | ClickExplainCommand | ClickRerun
  | TabFocus (sessionId : string) | TabClose (sessionId : string)
  | FilterSessions (value : string) | CardFocus (sessionId : string) | CardClose (sessionId : string)
  | ToolCopy | ToolPaste | ToolToggleSearch | ToolClear | ToolJumpToLatest
  | SearchInput (value : string) | SearchInputKey (k : ToolKey) | ToolFindPrevious | ToolFindNext | ToolCloseSearch
  | SurfaceRequestsSearch | SurfaceSearchResults (result : TerminalSearchResult) | SurfaceRenderer (mode : RendererMode)
  | SurfaceInput (data : string).      (* what the emulator passes on, typed or pasted *)

Inductive WidgetCall := CallExplainAndFix | CallExplainCommand | CallRerun.
Definition widgetCall (c : WidgetCall) : Terminal unit :=
  match c with
  | CallExplainAndFix => handleExplainAndFix
  | CallExplainCommand => handleExplainLatestCommand
  | CallRerun => handleRerunLatestCommand
  end.

(** The callbacks of the session, the methods of the surface, and the calls of
    the widget. *)
Inductive TerminalOutput :=
  | CreateSession | RecoverSession | InterruptSession | RestartSession
  | FocusSession (sessionId : string) | CloseSession (sessionId : string)
  | CopySelection | PasteFromClipboard | ClearViewport | JumpToLatest
  | FindNext (query : string) | FindPrevious (query : string) | ClearSearch | FocusTerminal
  | SendInputChunk (data : string)
  | StartCall (c : WidgetCall).

(** [handleSearchNext] and [handleSearchPrevious]; [found] is the answer of the
    surface to the query. *)
Definition handleSearch (find : string -> TerminalOutput) (found : string -> bool) (s : TerminalWidgetState)
    : TerminalWidgetState * list TerminalOutput :=
  let searchQuery := tw_searchQuery s in
  if negb (truthy (trimText searchQuery)) then (setSearch (tw_isSearchOpen s) searchQuery None s, [])
  else
    (if found searchQuery then s
     else setSearch (tw_isSearchOpen s) searchQuery (Some (mkSearchResult 0 (-1))) s, [find searchQuery]).
Definition handleSearchQueryChange (value : string) (s : TerminalWidgetState) : TerminalWidgetState * list TerminalOutput :=
  (setSearch (tw_isSearchOpen s) value None s, if truthy (trimText value) then [] else [ClearSearch]).
Definition handleCloseSearch (s : TerminalWidgetState) : TerminalWidgetState * list TerminalOutput :=
  (setSearch false (tw_searchQuery s) None s, [ClearSearch; FocusTerminal]).
Definition handleToggleSearch (s : TerminalWidgetState) : TerminalWidgetState :=
  setSearch (negb (tw_isSearchOpen s)) (tw_searchQuery s) (tw_searchResult s) s.

(** [handleSearchInputKeyDown] of the toolbar *)
Definition isPreviousHotkey (k : ToolKey) : bool :=
  let isModifierPressed := tk_ctrl k || tk_meta k in
  bool_decide (tk_key k = "Enter") && tk_shift k && negb (tk_alt k) && negb isModifierPressed ||
  bool_decide (tk_key k = "F3") && tk_shift k && negb (tk_alt k) && negb isModifierPressed ||
  bool_decide (toLowerCase (tk_key k) = "g") && tk_shift k && isModifierPressed && negb (tk_alt k).
Definition isNextHotkey (k : ToolKey) : bool :=
  let isModifierPressed := tk_ctrl k || tk_meta k in
  bool_decide (tk_key k = "Enter") && negb (tk_shift k) && negb (tk_alt k) && negb isModifierPressed ||
  bool_decide (tk_key k = "F3") && negb (tk_shift k) && negb (tk_alt k) && negb isModifierPressed ||
  bool_decide (toLowerCase (tk_key k) = "g") && negb (tk_shift k) && isModifierPressed && negb (tk_alt k).
Definition handleSearchInputKeyDown (k : ToolKey) (found : string -> bool) (s : TerminalWidgetState)
    : TerminalWidgetState * list TerminalOutput :=
  if tk_isComposing k then (s, [])
  else if bool_decide (tk_key k = "Escape") then handleCloseSearch s
  else if isPreviousHotkey k then handleSearch FindPrevious found s
  else if isNextHotkey k then handleSearch FindNext found s
  else (s, []).

(** [searchStatusText] of the toolbar *)
Definition searchStatusText (toolbar : TerminalToolbarCopy) (query : string) (result : option TerminalSearchResult) : string :=
  if negb (truthy (trimText query)) then tcy_typeQuery toolbar
  else match result with
       | None => tcy_searchShortcutHint toolbar
       | Some r =>
           if (sr_resultCount r <=? 0)%Z then tcy_noMatches toolbar
           else showZ (Z.max (sr_resultIndex r + 1) 1) +:+ "/" +:+ showZ (sr_resultCount r)
       end.

Definition terminalControl (c : TerminalControl) (found : string -> bool) (s : TerminalWidgetState)
    : TerminalWidgetState * list TerminalOutput :=
  match c with
  | ClickCreateSession => (s, [CreateSession])
  | ClickRecover => (s, [RecoverSession])
  | ClickBrowseSessions =>
      (setBrowser (negb (tw_isSessionBrowserOpen s))
         (if tw_isSessionBrowserOpen s then "" else tw_sessionFilterQuery s) s, [])
  | ClickLatestCommand => (setStripOpen (negb (tw_isLatestCommandStripOpen s)) s, [])
  | ClickExplainAndFix => (s, [StartCall CallExplainAndFix])
  | ClickInterrupt => (s, [InterruptSession])
  | ClickRestart => (s, [RestartSession])
  | ClickExplainCommand => (s, [StartCall CallExplainCommand])
  | ClickRerun => (s, [StartCall CallRerun])
  | TabFocus id | CardFocus id => (s, [FocusSession id])
  | TabClose id | CardClose id => (s, [CloseSession id])
  | FilterSessions value => (setBrowser (tw_isSessionBrowserOpen s) value s, [])
  | ToolCopy => (s, [CopySelection])
  | ToolPaste => (s, [PasteFromClipboard])
  | ToolToggleSearch => (handleToggleSearch s, [])
  | ToolClear => (s, [ClearViewport])
  | ToolJumpToLatest => (s, [JumpToLatest])
  | SearchInput value => handleSearchQueryChange value s
  | SearchInputKey k => handleSearchInputKeyDown k found s
  | ToolFindPrevious => handleSearch FindPrevious found s
  | ToolFindNext => handleSearch FindNext found s
  | ToolCloseSearch => handleCloseSearch s
  | SurfaceRequestsSearch => (setSearch true (tw_searchQuery s) (tw_searchResult s) s, [])
  | SurfaceSearchResults result => (setSearch (tw_isSearchOpen s) (tw_searchQuery s) (Some result) s, [])
  | SurfaceRenderer mode => (setRendererMode mode s, [])
  | SurfaceInput data => (s, if vw_canSendInput (tw_session s) then [SendInputChunk data] else [])
  end.

(** ** The header *)

Record HeaderButton := mkHeaderButton {
  hb_ariaLabel : string;
  hb_disabled : bool;
  hb_label : option string;
  hb_title : string;
  hb_onClick : TerminalControl
}.
(** The functions of [toolbar] are its controls. *)
Record TerminalDockviewHeaderControls := mkHeaderControls {
  hc_createSession : HeaderButton;
  hc_explain : HeaderButton;
  hc_interrupt : HeaderButton;
  hc_recover : option HeaderButton;
  hc_restart : HeaderButton;
  hc_isSearchOpen : bool;
  hc_searchQuery : string;
  hc_searchResult : option TerminalSearchResult
}.

Definition headerControls (s : TerminalWidgetState) : TerminalDockviewHeaderControls :=
  let view := tw_session s in
  mkHeaderControls
    (mkHeaderButton (wcy_createSessionAria copy title) (isSessionMutationDisabled view)
       (Some (if vw_isCreatingSession view then wcy_creatingSession copy else wcy_newSession copy))
       (wcy_createSessionTitle copy) ClickCreateSession)
    (mkHeaderButton (wcy_explainAndFixAria copy title) (isExplainAndFixDisabled s)
       (Some (if tw_isExplainAndFixPending s then wcy_explainAndFixLoading copy else wcy_explainAndFix copy))
       (if canExplainAndFix view then wcy_explainAndFixTitle copy else wcy_explainAndFixUnavailableTitle copy)
       ClickExplainAndFix)
    (mkHeaderButton (wcy_interruptAria copy title) (isInterruptDisabled view) None
       (if vw_isInterrupting view then wcy_interruptingTitle copy else wcy_interruptTitle copy) ClickInterrupt)
    (if canRecoverTerminal view
     then Some (mkHeaderButton (wcy_recoverSessionAria copy title) (isRecoverDisabled view) (Some (recoverButtonLabel view))
                  (recoverTitle view) ClickRecover)
     else None)
    (mkHeaderButton (wcy_restartAria copy title) (isRestartDisabled view) None
       (if vw_isRestarting view then wcy_restartingTitle copy else wcy_restartTitle copy) ClickRestart)
    (tw_isSearchOpen s) (tw_searchQuery s) (tw_searchResult s).

(** [setTerminalDockviewHeaderControls] and [clearTerminalDockviewHeaderControls]
    as the effect of the widget calls them. *)
Definition headerControlsEffect (preferDockviewHeaderChrome : bool) (hostId : string) (s : TerminalWidgetState)
    (controllerStore : gmap string TerminalDockviewHeaderControls) : gmap string TerminalDockviewHeaderControls :=
  if preferDockviewHeaderChrome then <[hostId := headerControls s]> controllerStore else delete hostId controllerStore.

(** The controls of the search are shown while it is open. *)
Definition searchOffers (isSearchOpen : bool) (query : string) (c : TerminalControl) : bool :=
  match c with
  | ToolCopy | ToolPaste | ToolToggleSearch | ToolClear | ToolJumpToLatest => true
  | SearchInput _ | SearchInputKey _ | ToolCloseSearch => isSearchOpen
  | ToolFindPrevious | ToolFindNext => isSearchOpen && truthy (trimText query)
  | _ => false
  end.
Definition headerButtons (h : TerminalDockviewHeaderControls) : list HeaderButton :=
  [hc_createSession h; hc_explain h; hc_interrupt h] ++ option_list (hc_recover h) ++ [hc_restart h].
(** The header of a single tab of the dock. *)
Definition dockOffers (isSingleTab : bool) (controls : option TerminalDockviewHeaderControls) (c : TerminalControl) : Prop :=
  match controls with
  | Some h =>
      isSingleTab = true /\
      ((exists b, b ∈ headerButtons h /\ hb_disabled b = false /\ hb_onClick b = c) \/
       searchOffers (hc_isSearchOpen h) (hc_searchQuery h) c = true)
  | None => False
  end.
(** The header and the toolbar of the widget. *)
Definition headerOffers (s : TerminalWidgetState) (c : TerminalControl) : bool :=
  let view := tw_session s in
  match c with
  | ClickCreateSession => negb (isSessionMutationDisabled view)
  | ClickRecover => canRecoverTerminal view && negb (isRecoverDisabled view)
  | ClickBrowseSessions => 1 <? length (groupedSessions s)
  | ClickLatestCommand => hasLatestCommandPreview s
  | ClickExplainAndFix => negb (isExplainAndFixDisabled s)
  | ClickInterrupt => negb (isInterruptDisabled view)
  | ClickRestart => negb (isRestartDisabled view)
  | _ => searchOffers (tw_isSearchOpen s) (tw_searchQuery s) c
  end.
(** The rest of the widget: the strip, the rail, the browser and the surface. *)
Definition bodyOffers (s : TerminalWidgetState) (c : TerminalControl) : bool :=
  let view := tw_session s in
  let tabs := visibleSessionTabs s in
  let browsing := (1 <? length (groupedSessions s)) && tw_isSessionBrowserOpen s in
  match c with
  | ClickExplainCommand =>
      hasLatestCommandPreview s && tw_isLatestCommandStripOpen s &&
      negb (isLatestCommandActionDisabled s || tw_isExplainLatestCommandPending s)
  | ClickRerun =>
      hasLatestCommandPreview s && tw_isLatestCommandStripOpen s &&
      negb (isLatestCommandActionDisabled s || tw_isRerunLatestCommandPending s)
  | TabFocus id =>
      (1 <? length tabs) &&
      some (fun t => bool_decide (tt_sessionId t = id) && negb (tt_isActive t || vw_isLoading view || vw_isRestarting view)) tabs
  | TabClose id =>
      (1 <? length tabs) && some (fun t => bool_decide (tt_sessionId t = id)) tabs && negb (isSessionCloseDisabled s)
  | FilterSessions _ => browsing
  | CardFocus id =>
      browsing && some (fun e => bool_decide (en_sessionId e = id) && negb (en_isActive e)) (visibleGroupedSessions s) &&
      negb (isSessionMutationDisabled view)
  | CardClose id =>
      browsing && some (fun e => bool_decide (en_sessionId e = id)) (visibleGroupedSessions s) &&
      negb ((length (groupedSessions s) <=? 1) || isSessionMutationDisabled view)
  | SurfaceRequestsSearch | SurfaceSearchResults _ | SurfaceRenderer _ | SurfaceInput _ => true
  | _ => false
  end.
(** What the user can do in a widget, whose header is its own or the dock's. *)
Definition terminalOffers (preferDockviewHeaderChrome isSingleTab : bool) (s : TerminalWidgetState) (c : TerminalControl) : Prop :=
  bodyOffers s c = true \/
  (if preferDockviewHeaderChrome then dockOffers isSingleTab (Some (headerControls s)) c else headerOffers s c = true).

(** The title of a tab of the dock. *)
Definition formatCompactTerminalPrimaryText (cwd fallbackTitle : string) : string :=
  let trimmedCwd := trimText cwd in
  if negb (truthy trimmedCwd) then fallbackTitle
  else if bool_decide (trimmedCwd = "~") then trimmedCwd
  else
    let normalizedSegments := filterb truthy (splitOn slash trimmedCwd) in
    match lastOf normalizedSegments with
    | None => trimmedCwd
    | Some lastSegment => if startsWith "~/" trimmedCwd then "~/" +:+ lastSegment else lastSegment
    end.

(** ** The widget as a system *)

(** A control that was used, or another view of the session. *)
Inductive terminal_event (s : TerminalWidgetState) : TerminalWidgetState -> Prop :=
  | control_used c found : terminal_event s (fst (terminalControl c found s))
  | session_rendered view : terminal_event s (onSessionView view s).
Definition any_answer (s : TerminalWidgetState) (A : Set) (r : TerminalWidgetRequest A) (a : A + ApiError) : Prop := True.
Notation terminal_step := (sys_step terminal_call any_answer terminal_event).

(** * Lemmas *)

(** ** The flags *)

Definition pendingFlags (s : TerminalWidgetState) : list bool :=
  [tw_isExplainAndFixPending s; tw_isExplainLatestCommandPending s; tw_isLatestCommandLoading s; tw_isRerunLatestCommandPending s].
Definition flag_down (i : nat) (s : TerminalWidgetState) : Prop := pendingFlags s !! i = Some false.

Lemma pending_setLatest command error loading s :
  pendingFlags (setLatest command error loading s) = <[2 := loading]> (pendingFlags s).
Proof. unfold setLatest, stripEffect. by case_match. Qed.
Lemma pending_setLatestCommand command s : pendingFlags (setLatestCommand command s) = pendingFlags s.
Proof. unfold setLatestCommand. by rewrite pending_setLatest. Qed.
Lemma pending_setLatestCommandError error s : pendingFlags (setLatestCommandError error s) = pendingFlags s.
Proof. unfold setLatestCommandError. by rewrite pending_setLatest. Qed.
Lemma pending_setLatestCommandLoading b s : pendingFlags (setLatestCommandLoading b s) = <[2 := b]> (pendingFlags s).
Proof. apply pending_setLatest. Qed.
Lemma pending_setExplainPending b s : pendingFlags (setExplainPending b s) = <[0 := b]> (pendingFlags s).
Proof. done. Qed.
Lemma pending_setExplainCommandPending b s : pendingFlags (setExplainCommandPending b s) = <[1 := b]> (pendingFlags s).
Proof. done. Qed.
Lemma pending_setRerunPending b s : pendingFlags (setRerunPending b s) = <[3 := b]> (pendingFlags s).
Proof. done. Qed.
Lemma pending_handOff request s : pendingFlags (handOff request s) = pendingFlags s.
Proof. done. Qed.
Lemma pending_setSessionView view timer s : pendingFlags (setSessionView view timer s) = pendingFlags s.
Proof. done. Qed.
Hint Rewrite pending_setLatestCommand pending_setLatestCommandError pending_setLatestCommandLoading pending_setExplainPending
  pending_setExplainCommandPending pending_setRerunPending pending_handOff pending_setSessionView : pending.

Lemma pending_length s : length (pendingFlags s) = 4.
Proof. done. Qed.

(** Reduces a call to its updates and requests, and reads the flags behind them. *)
Ltac steps := cbn [tidy lowers bind finally tryCatch await update get].
Ltac flags :=
  steps;
  repeat (match goal with
    | |- forall a : _ + _, _ => intros [?|?]
    | |- forall s : TerminalWidgetState, _ => intros ?
    | |- context [match tw_refreshTimer ?s with _ => _ end] => destruct (tw_refreshTimer s)
    | |- context [match tw_latestCommand ?s with _ => _ end] => destruct (tw_latestCommand s) as [?|] eqn:?
    | |- context [if isCommandNotFound ?e then _ else _] => destruct (isCommandNotFound e)
    end; steps);
  unfold flag_down; autorewrite with pending;
  repeat match goal with |- context [pendingFlags ?s] => destruct (pendingFlags s) as [|? [|? [|? [|? []]]]] eqn:?; try done end.

(** A call that raises a flag lowers it on every way on; the others leave it. *)
Ltac tidied := left; split; [flags|].

Lemma refresh_tidy s o i : (flag_down i o -> flag_down i s) -> i < 4 -> tidy (flag_down i) refreshLatestCommand o s.
Proof.
  intros Ho Hi. unfold refreshLatestCommand. destruct (decide (i = 2)) as [-> |Hi2]; steps; [right; flags|].
  destruct i as [|[|[|[|i]]]]; [| |lia| |lia]; (left; split; [|flags]); intros H%Ho; revert H; flags.
Qed.

Lemma calls_tidy p s i : terminal_call p -> i < 4 -> tidy (flag_down i) p s s.
Proof.
  intros Hp Hi. destruct Hp.
  - unfold refreshTimerFires. steps. destruct (tw_refreshTimer s); [|done]. by apply refresh_tidy.
  - unfold handleExplainAndFix. destruct (decide (i = 0)) as [-> |Hi0]; steps; [right; flags|].
    destruct i as [|[|[|[|i]]]]; [lia| | | |lia]; left; (split; flags).
  - unfold handleExplainLatestCommand. steps. destruct (tw_latestCommand s); [|done].
    destruct i as [|[|[|[|i]]]]; [| | | |lia]; flags.
  - unfold handleRerunLatestCommand. steps. destruct (tw_latestCommand s) as [c|]; [|done].
    destruct (decide (i = 3)) as [-> |Hi3]; steps; [right; unfold refreshLatestCommand; flags|].
    destruct i as [|[|[|[|i]]]]; [| | |lia|lia]; unfold refreshLatestCommand; left; (split; [flags|]);
      (intros [x|e] s'; steps; [|solve [flags]]).
    + left. split; flags.
    + left. split; flags.
    + right. flags.
Qed.

Lemma event_flags s s' i : terminal_event s s' -> flag_down i s -> flag_down i s'.
Proof.
  unfold flag_down. intros He Hd. destruct He as [c found|view]; [|done].
  destruct c; try done; cbn; unfold handleSearchInputKeyDown, handleSearch; repeat (case_match; try done).
Qed.

Lemma flags_down s : (forall i, i < 4 -> flag_down i s) -> pendingFlags s = [false; false; false; false].
Proof.
  unfold flag_down. intros H. apply list_eq. intros i. destruct (decide (i < 4)).
  - rewrite H by done. by destruct i as [|[|[|[|i]]]]; [| | | |lia].
  - by rewrite !lookup_ge_None_2 by (cbn; lia).
Qed.

(** Whatever was clicked and in whatever order the requests were answered or
    refused, when no request of the widget is in flight nothing is shown as
    loading, explaining or running. *)
Theorem nothing_pending_at_rest view handoffs isAiSidebarOpen m :
  rtc terminal_step (mkSystem (mountedTerminal view handoffs isAiSidebarOpen) []) m -> sys_calls m = [] ->
  pendingFlags (sys_state m) = [false; false; false; false].
Proof.
  intros Hr Hm. apply flags_down. intros i Hi.
  eapply (down_at_rest (flag_down i)); [| | |exact Hr|done].
  - intros p s Hp. left. by apply calls_tidy.
  - intros s s' He. by apply event_flags.
  - unfold flag_down. by destruct i as [|[|[|[|i]]]]; [| | | |lia].
Qed.

(** ** Inputs *)

(** The call asks about this widget only, and sends nothing to its terminal. *)
Definition only_asks {R} (p : Terminal R) : Prop :=
  forall s, wp (fun _ _ _ _ => tt)
    (fun _ _ A r => match r with SendInput _ _ _ => False | FetchLatestCommand w | FetchDiagnostics w => w = runtimeWidgetId end)
    p tt s (fun _ _ _ => True).

Lemma asks_bind {R R'} (p : Terminal R) (k : R -> Terminal R') : only_asks p -> (forall r, only_asks (k r)) -> only_asks (bind p k).
Proof. intros Hp Hk s. apply wp_bind. eapply wp_weaken; [|apply Hp]. intros [x|e] [] b _; [apply Hk|done]. Qed.
Lemma asks_try {R} (p : Terminal R) h : only_asks p -> (forall e, only_asks (h e)) -> only_asks (tryCatch p h).
Proof. intros Hp Hk s. apply wp_try. eapply wp_weaken; [|apply Hp]. intros [x|e] [] b _; [done|apply Hk]. Qed.
Lemma asks_finally {R} (p : Terminal R) q : only_asks p -> only_asks q -> only_asks (finally p q).
Proof.
  intros Hp Hq s. apply wp_finally. eapply wp_weaken; [|apply Hp]. intros r [] b _.
  eapply wp_weaken; [|apply Hq]. by intros [x|e].
Qed.
Lemma asks_update f : only_asks (update f).
Proof. done. Qed.
Lemma asks_await {A : Set} (r : TerminalWidgetRequest A) :
  (match r with SendInput _ _ _ => False | FetchLatestCommand w | FetchDiagnostics w => w = runtimeWidgetId end) ->
  only_asks (await r).
Proof. intros Hr s. by apply wp_await. Qed.

Lemma refresh_asks : only_asks refreshLatestCommand.
Proof.
  apply asks_bind; [done|]. intros _. apply asks_finally; [|done]. apply asks_try.
  - apply asks_bind; [by apply asks_await|]. done.
  - intros e. by destruct (isCommandNotFound e).
Qed.
Lemma calls_ask p : terminal_call p -> p = handleRerunLatestCommand \/ only_asks p.
Proof.
  intros Hp. destruct Hp; [right|right|right|by left].
  - apply asks_bind; [done|]. intros s. destruct (tw_refreshTimer s); [|done]. apply asks_bind; [done|]. intros _. apply refresh_asks.
  - apply asks_bind; [done|]. intros s. apply asks_bind; [done|]. intros _. apply asks_finally; [|done].
    apply asks_bind; [by apply asks_await|done].
  - apply asks_bind; [done|]. intros s. by destruct (tw_latestCommand s).
Qed.

(** What a control sends to the terminal itself: the text of the surface, as it
    is, while the session takes input; and only one control runs a command again. *)
Lemma control_sends c found s :
  (forall data, SendInputChunk data ∈ snd (terminalControl c found s) <->
     c = SurfaceInput data /\ vw_canSendInput (tw_session s) = true) /\
  (StartCall CallRerun ∈ snd (terminalControl c found s) -> c = ClickRerun).
Proof.
  assert (forallb (fun o => match o with SendInputChunk _ | StartCall CallRerun => false | _ => true end)
    (snd (terminalControl c found s)) = true -> (forall data, c <> SurfaceInput data) ->
    (forall data, SendInputChunk data ∈ snd (terminalControl c found s) <->
       c = SurfaceInput data /\ vw_canSendInput (tw_session s) = true) /\
    (StartCall CallRerun ∈ snd (terminalControl c found s) -> c = ClickRerun)) as Hno.
  { intros Hl Hc. rewrite forallb_forall in Hl. split.
    - intros data. split; [|intros [E _]; by destruct (Hc data)]. intros Hin. by specialize (Hl _ (proj1 (list_elem_of_In _ _) Hin)).
    - intros Hin. by specialize (Hl _ (proj1 (list_elem_of_In _ _) Hin)). }
  destruct c; try (by apply Hno).
  all: try (apply Hno; [cbn; unfold handleSearchQueryChange, handleSearchInputKeyDown, handleSearch, handleCloseSearch;
    repeat (case_match; try reflexivity)|done]; fail).
  - split; [|done]. intros data. split; [|by intros [E _]]. intros Hin. cbn in Hin. by apply list_elem_of_singleton in Hin.
  - cbn [terminalControl snd]. split.
    + intros data'. destruct (vw_canSendInput (tw_session s)); split.
      * intros Hin%list_elem_of_singleton. by injection Hin as ->.
      * intros [E _]. injection E as ->. by left.
      * by intros ?%not_elem_of_nil.
      * by intros [_ E].
    + destruct (vw_canSendInput (tw_session s)); [by intros ?%list_elem_of_singleton|by intros ?%not_elem_of_nil].
Qed.

(** C29: When the strip offers to run a command again, it shows a command, and the
    click sends that command with a line end to the terminal of the widget,
    once; afterwards the call only asks, and the other calls of the widget only
    ask.  No other control starts that call, and the controls themselves send
    only what the surface passes on, typed or pasted: unchanged, and while the
    session takes input. *)
Theorem rerun_sends_what_is_shown s :
  bodyOffers s ClickRerun = true ->
  exists status source command excerpt explain k,
    commandStrip s = Some (StripCommand status source command excerpt explain) /\
    snd (run (widgetCall CallRerun) s) = Waiting (SendInput runtimeWidgetId command true) k /\
    (forall a, only_asks (k a)) /\
    (forall p, terminal_call p -> p = widgetCall CallRerun \/ only_asks p) /\
    forall c found s',
      (forall data, SendInputChunk data ∈ snd (terminalControl c found s') <->
         c = SurfaceInput data /\ vw_canSendInput (tw_session s') = true) /\
      (StartCall CallRerun ∈ snd (terminalControl c found s') -> c = ClickRerun).
Proof.
  cbn [bodyOffers]. intros H. bool_prop. unfold isLatestCommandActionDisabled in *. bool_prop.
  unfold commandStrip. match goal with H : hasLatestCommandPreview s = true |- _ => rewrite H end.
  match goal with H : tw_isLatestCommandStripOpen s = true |- _ => rewrite H end. cbn [andb].
  destruct (tw_latestCommand s) as [c|] eqn:Ec; [|by destruct (bool_decide_reflect (is_Some (@None TerminalLatestCommand))) as [[? ?]|]].
  do 6 eexists. split; [done|]. split.
  { cbn [widgetCall]. unfold handleRerunLatestCommand. cbn [run bind get]. rewrite Ec. cbn [run bind finally tryCatch await update snd]. done. }
  split; [|split; [apply calls_ask|intros c' found s'; apply control_sends]]. intros a. apply asks_finally; [|done]. apply asks_try; [|done].
  apply asks_bind; [by destruct a|]. intros _. apply refresh_asks.
Qed.

(** ** The header of the dock *)

(** A panel that is alone has its header in the tab of the dock.  It offers
    what the header of the widget would, but for the browser of the sessions
    and the latest command. *)
Theorem dock_header_offers_the_same s c :
  dockOffers true (Some (headerControls s)) c <->
  headerOffers s c = true /\ c <> ClickBrowseSessions /\ c <> ClickLatestCommand.
Proof.
  set (view := tw_session s). split.
  - intros [_ [(b & Hb & Hd & <-)|Hs]].
    + unfold headerButtons in Hb. cbn in Hb. fold view in Hb.
      repeat (apply elem_of_cons in Hb as [-> |Hb]; [cbn in *; fold view; by rewrite ?Hd|]).
      destruct (canRecoverTerminal view) eqn:Er; cbn in Hb.
      * apply elem_of_cons in Hb as [-> |Hb]; [cbn in *; fold view; by rewrite Er, Hd|].
        apply list_elem_of_singleton in Hb as ->. cbn in *. fold view. by rewrite Hd.
      * apply list_elem_of_singleton in Hb as ->. cbn in *. fold view. by rewrite Hd.
    + destruct c; try done; by repeat split.
  - intros (Hh & Hb & Hl). split; [done|].
    destruct c; try done; try (by right); left; cbn in Hh; fold view in Hh; bool_prop.
    + exists (hc_createSession (headerControls s)). split; [by left|done].
    + exists (mkHeaderButton (wcy_recoverSessionAria copy title) (isRecoverDisabled view) (Some (recoverButtonLabel view)) (recoverTitle view) ClickRecover).
      split; [|done]. unfold headerButtons. cbn. fold view. rewrite H. cbn. set_solver.
    + exists (hc_explain (headerControls s)). split; [unfold headerButtons; set_solver|done].
    + exists (hc_interrupt (headerControls s)). split; [unfold headerButtons; set_solver|done].
    + exists (hc_restart (headerControls s)). split; [unfold headerButtons; set_solver|done].
Qed.

(** In a panel that is alone nothing opens the strip of the latest command. *)
Lemma alone_strip_stays_closed s c found :
  terminalOffers true true s c -> tw_isLatestCommandStripOpen s = false ->
  tw_isLatestCommandStripOpen (fst (terminalControl c found s)) = false.
Proof.
  intros Ho Hs. destruct c; try done; cbn; try (unfold handleSearchInputKeyDown, handleSearch; repeat (case_match; try done)).
  exfalso. destruct Ho as [Ho|[_ [(b & Hb & _ & Hc)|Ho]]]; [done| |done].
  unfold headerButtons in Hb. cbn in Hb. destruct (canRecoverTerminal (tw_session s)); cbn in Hb;
    repeat (apply elem_of_cons in Hb as [-> |Hb]; [done|]); by apply not_elem_of_nil in Hb.
Qed.

(** ** The browser of the sessions *)

(** The filter keeps the sessions one of whose fields holds its text. *)
Lemma visible_sessions s session :
  session ∈ visibleGroupedSessions s <->
  exists index, groupedSessions s !! index = Some session /\
    (lowerCase (trimText (tw_sessionFilterQuery s)) = "" \/
     exists field, field ∈ sessionFields index session /\
       strIncludes (lowerCase (trimText (tw_sessionFilterQuery s))) (lowerCase field) = true).
Proof.
  unfold visibleGroupedSessions. set (filter := lowerCase _). destruct (truthy filter) eqn:Et; cbn [negb].
  - rewrite list_elem_of_fmap. split.
    + intros ([index x] & -> & Hx). apply elem_of_filterb in Hx as [Hx Hf].
      apply elem_of_lookup_imap in Hx as (i & y & [= -> ->] & Hy). exists i. split; [done|]. right.
      apply some_true in Hf as (field & Hin & Hi). by exists field.
    + intros (index & Hl & [He|(field & Hin & Hi)]); [by rewrite He in Et|]. exists (index, session). split; [done|].
      apply elem_of_filterb. split; [by apply elem_of_lookup_imap_2 with (f := pair)|]. apply some_true. by exists field.
  - apply truthy_false in Et. rewrite list_elem_of_lookup. naive_solver.
Qed.

(** ** Prompts for the agent *)

(** An answered request hands one prompt over, for the context of this
    terminal and to be submitted at once, and opens the sidebar; the last
    section asks for an approval of commands.  A request that fails shows
    nothing. *)
Lemma explain_hands_over s :
  exists k, snd (run handleExplainAndFix s) = Waiting (FetchDiagnostics runtimeWidgetId) k /\
  forall s',
    (forall diagnostics, run (k (inl diagnostics)) s' =
      (setExplainPending false (handOff (handoffOf (explainAndFixSections (tw_session s) diagnostics)) s'), Ended (inl tt))) /\
    (forall error, run (k (inr error)) s' = (setExplainPending false s', Ended (inr error))).
Proof. by eexists. Qed.

Lemma sections_end_with_approval view diagnostics command :
  lastOf (explainAndFixSections view diagnostics) = Some (wcy_terminalCommandApprovalInstruction copy) /\
  lastOf (explainLatestCommandSections view command) = Some (wcy_terminalCommandApprovalInstruction copy).
Proof. split; unfold explainAndFixSections, explainLatestCommandSections, lastOf; by rewrite ?app_assoc, last_snoc. Qed.

(** The error of a rerun is stored, but the strip shows the command that was
    to be run, and not the error. *)
Lemma rerun_failure_not_shown s c :
  tw_latestCommand s = Some c ->
  exists k, snd (run handleRerunLatestCommand s) = Waiting (SendInput runtimeWidgetId (lc_command c) true) k /\
  forall s' error, tw_latestCommand s' = Some c ->
    commandStrip (fst (run (k (inr error)) s')) = commandStrip s' /\
    tw_latestCommandError (fst (run (k (inr error)) s')) =
      Some (errorText (wcy_rerunLatestCommandError copy) error).
Proof.
  intros Hc. unfold handleRerunLatestCommand. cbn [run bind get]. rewrite Hc. cbn [run bind finally tryCatch await update snd].
  eexists. split; [done|]. intros s' error Hs'. cbn [run bind finally tryCatch await update fst snd].
  unfold setLatestCommandError, setLatest, stripEffect, commandStrip, hasLatestCommandPreview.
  cbn. rewrite Hs'. by cbn.
Qed.

End Widget.

(** * Witnesses *)

Section Witness.
Definition idle_view (version : nat) (sessions : list TerminalSessionListEntry) : TerminalSessionView :=
  mkView "term-1" "s-1:t0" version (Some "s-1") "/repo" "zsh" DisplayLocal SessionRunning sessions true false
    false false false false false false false None None [] None [].
Definition command_named (command : string) : TerminalLatestCommand :=
  mkLatestCommand "term-1" "s-1" command 1 "t1" None "completed" None (Some 0%Z) None None None None.
Definition mounted : TerminalWidgetState := mountedTerminal (idle_view 0 []) initialHandoffs false.
Definition showing (command : string) : TerminalWidgetState :=
  setStripOpen true (setLatestCommand (Some (command_named command)) mounted).

Lemma nothing_pending_at_rest_witness :
  exists m : SystemX ApiError TerminalWidgetState TerminalWidgetRequest,
    tw_latestCommand (sys_state m) = Some (command_named "make") /\
    pendingFlags (sys_state m) = [false; false; false; false].
Proof.
  pose (m0 := mkSystem mounted [] : SystemX ApiError TerminalWidgetState TerminalWidgetRequest).
  pose (m1 := proceed (refreshTimerFires "term-1" LocaleEn) m0).
  assert (exists k, sys_calls m1 = [Waiting (FetchLatestCommand "term-1") k] /\
    let m2 := proceed (k (inl (command_named "make"))) (mkSystem (sys_state m1) []) in
    sys_calls m2 = [] /\ tw_latestCommand (sys_state m2) = Some (command_named "make")) as (k & Hk & Hm)
    by (eexists; split; [reflexivity|split; reflexivity]).
  set (m2 := proceed _ _) in Hm.
  exists m2. split; [apply Hm|].
  apply (nothing_pending_at_rest "term-1" "Shell" LocaleEn (idle_view 0 []) initialHandoffs false m2); [|apply Hm].
  eapply rtc_l; [apply (sys_start _ _ _ m0), timer_call|]. eapply rtc_l; [|apply rtc_refl].
  pose proof (sys_answer (terminal_call "term-1" "Shell" LocaleEn) any_answer terminal_event m1 0 TerminalLatestCommand
    (FetchLatestCommand "term-1") k (inl (command_named "make"))) as Hs.
  rewrite Hk in Hs. exact (Hs eq_refl I).
Defined.

Lemma rerun_sends_what_is_shown_witness :
  exists k, snd (run (widgetCall "term-1" "Shell" LocaleEn CallRerun) (showing "make")) = Waiting (SendInput "term-1" "make" true) k.
Proof.
  destruct (rerun_sends_what_is_shown "term-1" "Shell" LocaleEn toLowerCase (showing "make") eq_refl)
    as (status & source & command & excerpt & explain & k & Hstrip & Hrun & _).
  exists k. rewrite Hrun. injection Hstrip as _ _ <- _ _. reflexivity.
Defined.
End Witness.

(** An answer that comes late replaces a newer one, and while it is awaited
    nothing is shown as loading. *)
Example late_refresh_replaces_newer :
  let '(s1, c1) := run (refreshLatestCommand "term-1" LocaleEn) mounted in
  let '(s2, c2) := run (refreshLatestCommand "term-1" LocaleEn) s1 in
  exists k1 k2,
    c1 = Waiting (FetchLatestCommand "term-1") k1 /\ c2 = Waiting (FetchLatestCommand "term-1") k2 /\
    let s3 := fst (run (k2 (inl (command_named "new"))) s2) in
    tw_isLatestCommandLoading s3 = false /\ tw_latestCommand s3 = Some (command_named "new") /\
    tw_latestCommand (fst (run (k1 (inl (command_named "old"))) s3)) = Some (command_named "old").
Proof. cbn. do 2 eexists. by repeat split. Qed.

(** A running terminal without output, error or status can be explained: an
    absent status is not the empty one. *)
Example nothing_to_explain_is_explained :
  canExplainAndFix (idle_view 0 []) = true.
Proof. reflexivity. Qed.

Definition entry (id : string) (active : bool) : TerminalSessionListEntry :=
  mkEntry id "zsh" DisplayLocal None None None SessionRunning None ("/" +:+ id) active
    (mkRuntime "term-1" id "zsh" None None None None None None None 1 "running" "t0" None None true false None).

(** The browser numbers its cards by session; the buttons of a filtered browser
    are numbered by their place, and the filter knows the English numbers only. *)
Example filtered_cards_are_numbered_twice :
  let s := setBrowser true "beta" (mountedTerminal (idle_view 0 [entry "alpha" true; entry "beta" false]) initialHandoffs false) in
  visibleGroupedSessions toLowerCase s = [entry "beta" false] /\
  cardLabel LocaleEn s (entry "beta" false) = "Session 2" /\
  cardFocusAria "Shell" LocaleEn 0 = "Focus terminal session 1 from browser for Shell" /\
  cardLabel LocaleEs s (entry "beta" false) = "Sesión 2" /\
  visibleGroupedSessions toLowerCase (setBrowser true "sesión 2" s) = [] /\
  visibleGroupedSessions toLowerCase (setBrowser true "session 2" s) = [entry "beta" false].
Proof. by repeat split. Qed.

Example compact_titles :
  formatCompactTerminalPrimaryText "~/code/rune/" "Shell" = "~/rune" /\
  formatCompactTerminalPrimaryText "/" "Shell" = "/" /\ formatCompactTerminalPrimaryText " " "Shell" = "Shell".
Proof. by repeat split. Qed.

(** * The header of a terminal

    [frontend/src/shared/ui/components/terminal-status-header.tsx], the title,
    the state and the menu of shells, as [terminal-widget.tsx] mounts it over a
    session ([TerminalSession], [TerminalFeed]). *)
Local Open Scope string_scope.
Local Open Scope list_scope.
Local Open Scope Z_scope.
Local Open Scope js_scope.

(** ** Properties *)

Record TerminalStatusHeaderProps := mkHeader {
  hd_title : string;
  hd_cwd : string;
  hd_shellLabel : string;
  hd_connectionKind : TerminalDisplayConnectionKind;
  hd_sessionState : TerminalDisplaySessionState;
  hd_activeShell : option string;
  hd_compact : bool;
  hd_minimalMeta : bool;               (* [compactMetaMode === 'minimal'] *)
  hd_hasActions : bool;                (* there is an [actionSlot] *)
  hd_isShellMenuDisabled : bool;
  hd_isShellMenuLoading : bool;
  hd_isShellSwitching : bool;
  hd_selects : bool;                   (* there is an [onSelectShell] *)
  hd_primaryText : option string;
  hd_secondaryText : option string;
  hd_shellOptions : list TerminalShellOption;
  hd_showMeta : bool
}.

(** What [terminal-widget.tsx] gives it. *)
Definition widgetHeader (title : string) (view : TerminalSessionView) : TerminalStatusHeaderProps := {|
  hd_title := title;
  hd_cwd := vw_cwd view;
  hd_shellLabel := vw_shellLabel view;
  hd_connectionKind := vw_connectionKind view;
  hd_sessionState := vw_sessionState view;
  hd_activeShell := rt_shell <$> vw_runtimeState view;
  hd_compact := false;
  hd_minimalMeta := false;
  hd_hasActions := true;
  hd_isShellMenuDisabled := negb (bool_decide (vw_connectionKind view = DisplayLocal));
  hd_isShellMenuLoading := vw_isLoadingShells view;
  hd_isShellSwitching := vw_isSwitchingShell view;
  hd_selects := true;
  hd_primaryText := Some (vw_cwd view);
  hd_secondaryText := if truthy (trimText (vw_cwd view)) then Some title else None;
  hd_shellOptions := vw_shellOptions view;
  hd_showMeta := true
|}.

(** ** Texts *)

Definition getConnectionMeta (connectionKind : TerminalDisplayConnectionKind) : string :=
  match connectionKind with DisplaySsh => "SSH" | DisplayLocal => "Local" end.
(** The label, the colour and whether the icon turns. *)
Definition getSessionMeta (sessionState : TerminalDisplaySessionState) : string * string * bool :=
  match sessionState with
  | SessionStarting => ("Starting", "var(--runa-terminal-status-idle, var(--color-accent-cold-tea))", true)
  | SessionIdle => ("Idle", "var(--runa-terminal-status-idle, var(--color-accent-cold-tea))", false)
  | SessionExited => ("Exited", "var(--runa-terminal-status-muted, var(--color-text-muted))", false)
  | SessionFailed => ("Failed", "var(--color-danger-text)", false)
  | SessionDisconnected => ("Disconnected", "var(--runa-terminal-status-muted, var(--color-text-muted))", false)
  | SessionRunning => ("Running", "var(--runa-terminal-status-running, var(--color-accent-emerald-strong))", false)
  end.

Section Header.
Variable p : TerminalStatusHeaderProps.

Definition displayText : string := hd_primaryText p ?? (if hd_compact p then hd_cwd p else hd_title p).
Definition titleTooltip : string := if hd_compact p && truthy (trimText (hd_cwd p)) then hd_cwd p else displayText.
(** The second line, where it is rendered. *)
Definition secondaryLine : option string :=
  if hd_compact p then None
  else match hd_secondaryText p with Some text => if truthy (trimText text) then Some text else None | None => None end.
Definition canUseShellMenu : bool := bool_decide (hd_connectionKind p = DisplayLocal) && hd_selects p.
Definition isShellTriggerDisabled : bool := hd_isShellMenuDisabled p || hd_isShellSwitching p.
(** The shell is shown, as the button of the menu or as a label. *)
Definition showsShell : bool := hd_showMeta p && negb (hd_compact p && hd_minimalMeta p).
(** The labels of the meta group, and where the actions are: with it or on their own. *)
Definition metaLabels : list string :=
  if hd_showMeta p
  then [getConnectionMeta (hd_connectionKind p); (getSessionMeta (hd_sessionState p)).1.1] ++ (if showsShell then [hd_shellLabel p] else [])
  else [].
Definition actionsInGroup : bool := hd_compact p && hd_hasActions p.
Definition actionsAlone : bool := hd_hasActions p && negb (hd_compact p).

(** ** The menu of shells *)

Definition shellMenuGap : Z := 6.
Definition shellMenuViewportMargin : Z := 8.

(** What the document answers: the right and the bottom edge of the button, the
    viewport, and the height of the menu, which is 0 before it is mounted. *)
Record HeaderLayout := mkLayout {
  ly_trigger : option (Z * Z);
  ly_viewportWidth : Z;
  ly_viewportHeight : Z;
  ly_menuHeight : Z
}.
Record ShellMenuPosition := mkPosition { mp_right : Z; mp_top : Z }.

Definition shellMenuPosition (l : HeaderLayout) (right bottom : Z) : ShellMenuPosition :=
  let availableTop :=
    if 0 <? ly_menuHeight l then ly_viewportHeight l - shellMenuViewportMargin - ly_menuHeight l else bottom + shellMenuGap in
  mkPosition (Z.max shellMenuViewportMargin (ly_viewportWidth l - right))
    (Z.max shellMenuViewportMargin (Z.min (bottom + shellMenuGap) availableTop)).

Record HeaderState := mkHeaderState { hs_isShellMenuOpen : bool; hs_shellMenuPosition : option ShellMenuPosition }.
Definition initialHeader : HeaderState := mkHeaderState false None.

Definition updateShellMenuPosition (l : HeaderLayout) (s : HeaderState) : HeaderState :=
  match ly_trigger l with
  | None => s
  | Some (r, b) => mkHeaderState (hs_isShellMenuOpen s) (Some (shellMenuPosition l r b))
  end.
(** The effect after the menu was opened or closed. *)
Definition positionEffect (l : HeaderLayout) (s : HeaderState) : HeaderState :=
  if hs_isShellMenuOpen s then updateShellMenuPosition l s else mkHeaderState false None.

Inductive HeaderCall := OnOpenShellMenu | OnSelectShell (shellPath : string).

(** The click measures before the menu is mounted ([before]), the effect after it ([l]). *)
Definition handleShellTriggerClick (before l : HeaderLayout) (s : HeaderState) : HeaderState * list HeaderCall :=
  if isShellTriggerDisabled then (s, [])
  else if hs_isShellMenuOpen s then (positionEffect l (mkHeaderState false (hs_shellMenuPosition s)), [])
  else (positionEffect l (updateShellMenuPosition before (mkHeaderState true (hs_shellMenuPosition s))), [OnOpenShellMenu]).
Definition handleShellSelect (shellPath : string) (l : HeaderLayout) (s : HeaderState) : HeaderState * list HeaderCall :=
  (positionEffect l (mkHeaderState false (hs_shellMenuPosition s)), [OnSelectShell shellPath]).

Definition closeMenu (l : HeaderLayout) (s : HeaderState) : HeaderState :=
  if hs_isShellMenuOpen s then positionEffect l (mkHeaderState false (hs_shellMenuPosition s)) else s.

Inductive HeaderEvent :=
  | TriggerClick (before : HeaderLayout)
  | ShellClick (shellPath : string)
  | PressOutside | HeaderKey (key : string)
  | Moved                               (* a scroll or a resize *).

(** The buttons that are there, and enabled. *)
Definition statusOffers (s : HeaderState) (e : HeaderEvent) : bool :=
  match e with
  | TriggerClick _ => showsShell && canUseShellMenu && negb isShellTriggerDisabled
  | ShellClick path =>
      showsShell && canUseShellMenu && hs_isShellMenuOpen s && negb (hd_isShellSwitching p) &&
      bool_decide (path ∈ sh_path <$> hd_shellOptions p)
  | _ => true
  end.

Definition headerStep (l : HeaderLayout) (e : HeaderEvent) (s : HeaderState) : HeaderState * list HeaderCall :=
  if statusOffers s e then
    match e with
    | TriggerClick before => handleShellTriggerClick before l s
    | ShellClick path => handleShellSelect path l s
    | PressOutside => (closeMenu l s, [])
    | HeaderKey key => (if decide (key = "Escape") then closeMenu l s else s, [])
    | Moved => (if hs_isShellMenuOpen s then updateShellMenuPosition l s else s, [])
    end
  else (s, []).
End Header.

(** ** The menu stays in the viewport *)

(** A menu that fits with its margins is wholly inside them, and the menu is
    never above or to the right of its margins. *)
Lemma menu_stays_in_view l right bottom :
  let position := shellMenuPosition l right bottom in
  shellMenuViewportMargin <= mp_top position /\ shellMenuViewportMargin <= mp_right position /\
  (0 < ly_menuHeight l -> ly_menuHeight l + 2 * shellMenuViewportMargin <= ly_viewportHeight l ->
     mp_top position + ly_menuHeight l <= ly_viewportHeight l - shellMenuViewportMargin).
Proof.
  unfold shellMenuPosition, shellMenuViewportMargin, shellMenuGap. cbn [mp_top mp_right].
  split; [lia|]. split; [lia|]. intros H1 H2. rewrite (proj2 (Z.ltb_lt _ _) H1). lia.
Qed.

(** ** The menu and the session *)

(** The callbacks that [terminal-widget.tsx] passes. *)
Definition headerCall (widgetId : string) (call : HeaderCall) : TermCall :=
  match call with OnOpenShellMenu => CLoadShells widgetId | OnSelectShell path => CSwitchShell widgetId path end.

(** Events of the header of a terminal, each with the view of the session and the layout then. *)
Fixpoint runHeader (title : string) (s : HeaderState) (es : list (TerminalSessionView * HeaderLayout * HeaderEvent))
    : HeaderState * list (TerminalSessionView * HeaderCall) :=
  match es with
  | [] => (s, [])
  | (view, l, e) :: es =>
      let '(s1, calls) := headerStep (widgetHeader title view) l e s in
      let '(s2, rest) := runHeader title s1 es in (s2, ((fun call => (view, call)) <$> calls) ++ rest)
  end.

Definition opensMenu (c : TerminalSessionView * HeaderCall) : bool := match snd c with OnOpenShellMenu => true | _ => false end.
Definition selectsShell (c : TerminalSessionView * HeaderCall) : bool := negb (opensMenu c).

(** A call is made for a local terminal that is not switching its shell, and a
    shell that is selected is one of its options. *)
Definition callFits (c : TerminalSessionView * HeaderCall) : Prop :=
  vw_connectionKind (fst c) = DisplayLocal /\ vw_isSwitchingShell (fst c) = false /\
  match snd c with OnSelectShell path => path ∈ sh_path <$> vw_shellOptions (fst c) | OnOpenShellMenu => True end.

Lemma effect_open l s : hs_isShellMenuOpen (positionEffect l s) = hs_isShellMenuOpen s.
Proof. unfold positionEffect, updateShellMenuPosition. destruct s as [[] q]; [by destruct (ly_trigger l) as [[]|]|done]. Qed.
Lemma update_open l s : hs_isShellMenuOpen (updateShellMenuPosition l s) = hs_isShellMenuOpen s.
Proof. unfold updateShellMenuPosition. by destruct (ly_trigger l) as [[]|]. Qed.
Lemma close_closed l s : hs_isShellMenuOpen (closeMenu l s) = false.
Proof. unfold closeMenu. destruct (hs_isShellMenuOpen s) eqn:E; [by rewrite effect_open|done]. Qed.

Definition tally (b : bool) : nat := if b then 1%nat else 0%nat.

Lemma header_step title view l e s :
  let '(s', calls) := headerStep (widgetHeader title view) l e s in
  Forall callFits ((fun call => (view, call)) <$> calls) /\
  (occurrences selectsShell ((fun call => (view, call)) <$> calls) + tally (hs_isShellMenuOpen s') <=
   occurrences opensMenu ((fun call => (view, call)) <$> calls) + tally (hs_isShellMenuOpen s))%nat.
Proof.
  unfold headerStep. destruct (statusOffers _ _ _) eqn:Ho; [|by split; [constructor|cbn; lia]].
  destruct e as [before|path| |key|]; cbn [statusOffers] in Ho.
  - bool_prop. unfold handleShellTriggerClick.
    assert (isShellTriggerDisabled (widgetHeader title view) = false) as Hd by done. rewrite Hd.
    unfold isShellTriggerDisabled in Hd. cbn in Hd. bool_prop.
    destruct (hs_isShellMenuOpen s) eqn:E.
    + rewrite effect_open. split; [constructor|cbn; lia].
    + rewrite effect_open, update_open. split; [|cbn; lia]. constructor; [|constructor]. by split_and!.
  - unfold canUseShellMenu in Ho. bool_prop. unfold handleShellSelect. rewrite effect_open.
    match goal with H : hs_isShellMenuOpen s = true |- _ => rewrite H end. split; [|cbn; lia].
    constructor; [|constructor]. by split_and!.
  - rewrite close_closed. split; [constructor|cbn; lia].
  - split; [constructor|]. case_decide; [rewrite close_closed; cbn; lia|cbn; lia].
  - split; [constructor|]. destruct (hs_isShellMenuOpen s) eqn:E; [rewrite update_open, E; cbn; lia|rewrite E; cbn; lia].
Qed.

(** Whatever happens to the session and to the menu: the header loads shells
    and switches them for a local terminal only that is not switching already, it
    switches to one of the shells that are shown, and at most once for each
    time that the menu was opened, which loads the shells. *)
Theorem header_switches_a_shown_shell title es :
  let calls := snd (runHeader title initialHeader es) in
  Forall callFits calls /\ (occurrences selectsShell calls <= occurrences opensMenu calls)%nat.
Proof.
  enough (forall s, Forall callFits (snd (runHeader title s es)) /\
    (occurrences selectsShell (snd (runHeader title s es)) <= occurrences opensMenu (snd (runHeader title s es)) + tally (hs_isShellMenuOpen s))%nat)
    as Hgo by (destruct (Hgo initialHeader) as [H1 H2]; split; [exact H1|cbn in H2; lia]).
  induction es as [|[[view l] e] es IH]; intros s; [by split; [constructor|cbn; lia]|]. cbn [runHeader].
  pose proof (header_step title view l e s) as Hstep. destruct (headerStep _ _ _ _) as [s1 calls]. destruct Hstep as [Hf Hc].
  specialize (IH s1). destruct (runHeader title s1 es) as [s2 rest]. cbn [snd] in *. destruct IH as [If Ic].
  split; [by apply Forall_app|]. unfold occurrences, filterb in *. rewrite !List.filter_app, !length_app. lia.
Qed.
