(* ===== verification/AppSidebar.v ===== *)
(** * The sidebar of the agent and the window

    [frontend/src/app/app-ai-sidebar.tsx]: the sidebar that holds the agent
    panel, its width and its resizing, and how the prompts that other widgets
    hand over ([SharedModel]) become drafts of the panel and are submitted.  The
    panel is the state of [AgentState]; opening and closing run the effect of
    [useAgentPanel] for [enabled], up to its first request, and a submission is
    [Approval.submitDraftOf] up to its own.  The hook's other effects ask for the
    history, the conversations and the widgets; their answers, and all else that
    the panel does, are events.  Then the handlers of
    [frontend/src/app/App.tsx] for the window.

    An event is one change of state with the renderings and effects that follow. *)
From Stdlib Require Import Ascii String.
From stdpp Require Import strings.
From S2P Require Import Prelude JsString Text RuntimePath Http Sse Conversation Interaction MessageView AgentContext Providers Effects AgentState Execution Conversations PanelRuntime Approval SettingsApi SharedModel WidgetTexts.
Local Open Scope string_scope.
Local Open Scope list_scope.
Local Open Scope nat_scope.
Local Open Scope js_scope.
Local Open Scope prog_scope.

Definition AI_PANEL_COLLAPSED_WIDTH : Z := 136.
Definition AI_PANEL_MIN_WIDTH : Z := 320.
Definition AI_PANEL_RESIZE_HANDLE_WIDTH : Z := 6.
Definition WORKSPACE_MIN_WIDTH : Z := 420.

(** [Math.round(window.innerWidth * 0.3)] without the rounding of doubles. *)
Definition getDefaultAiPanelWidth (innerWidth : option Z) : Z :=
  match innerWidth with None => 450 | Some w => (3 * w + 5) / 10 end.
(** [clientWidth] is that of the content area, when it is mounted. *)
Definition clampAiPanelWidth (requestedWidth : Z) (clientWidth : option Z) : Z :=
  match clientWidth with
  | None => Z.max AI_PANEL_MIN_WIDTH requestedWidth
  | Some w =>
      let maxWidth := Z.max AI_PANEL_MIN_WIDTH (w - WORKSPACE_MIN_WIDTH - AI_PANEL_RESIZE_HANDLE_WIDTH) in
      Z.min (Z.max requestedWidth AI_PANEL_MIN_WIDTH) maxWidth
  end.

(** [sd_isOpen] and [sd_handoffs] are stores of the shell, [sd_panel] is the
    agent panel and [sd_contentWidth] the width of the content area. *)
Record Sidebar := mkSidebar {
  sd_isOpen : bool;
  sd_handoffs : Handoffs;
  sd_panel : AgentState;
  sd_pendingAutoSubmitRequestID : option nat;
  sd_contentWidth : option Z;
  sd_aiPanelWidth : Z;
  sd_isAiPanelExpanded : bool;
  sd_isAiPanelResizing : bool;
  sd_aiResizeStart : option (Z * Z);
  sd_chatMode : ChatMode
}.

Definition on_panel (f : AgentState -> AgentState) (s : Sidebar) : Sidebar :=
  mkSidebar (sd_isOpen s) (sd_handoffs s) (f (sd_panel s)) (sd_pendingAutoSubmitRequestID s) (sd_contentWidth s)
    (sd_aiPanelWidth s) (sd_isAiPanelExpanded s) (sd_isAiPanelResizing s) (sd_aiResizeStart s) (sd_chatMode s).
Definition on_handoffs (e : HandoffEvent) (s : Sidebar) : Sidebar :=
  mkSidebar (sd_isOpen s) (onHandoffEvent (sd_handoffs s) e) (sd_panel s) (sd_pendingAutoSubmitRequestID s)
    (sd_contentWidth s) (sd_aiPanelWidth s) (sd_isAiPanelExpanded s) (sd_isAiPanelResizing s) (sd_aiResizeStart s)
    (sd_chatMode s).
Definition setPendingAutoSubmit (requestID : option nat) (s : Sidebar) : Sidebar :=
  mkSidebar (sd_isOpen s) (sd_handoffs s) (sd_panel s) requestID (sd_contentWidth s) (sd_aiPanelWidth s)
    (sd_isAiPanelExpanded s) (sd_isAiPanelResizing s) (sd_aiResizeStart s) (sd_chatMode s).
Definition setContentWidth (clientWidth : option Z) (s : Sidebar) : Sidebar :=
  mkSidebar (sd_isOpen s) (sd_handoffs s) (sd_panel s) (sd_pendingAutoSubmitRequestID s) clientWidth (sd_aiPanelWidth s)
    (sd_isAiPanelExpanded s) (sd_isAiPanelResizing s) (sd_aiResizeStart s) (sd_chatMode s).
Definition setAiPanelWidth (width : Z) (s : Sidebar) : Sidebar :=
  mkSidebar (sd_isOpen s) (sd_handoffs s) (sd_panel s) (sd_pendingAutoSubmitRequestID s) (sd_contentWidth s) width
    (sd_isAiPanelExpanded s) (sd_isAiPanelResizing s) (sd_aiResizeStart s) (sd_chatMode s).
Definition setResizing (resizing : bool) (start : option (Z * Z)) (s : Sidebar) : Sidebar :=
  mkSidebar (sd_isOpen s) (sd_handoffs s) (sd_panel s) (sd_pendingAutoSubmitRequestID s) (sd_contentWidth s)
    (sd_aiPanelWidth s) (sd_isAiPanelExpanded s) resizing start (sd_chatMode s).
Definition setExpanded (expanded : bool) (s : Sidebar) : Sidebar :=
  mkSidebar (sd_isOpen s) (sd_handoffs s) (sd_panel s) (sd_pendingAutoSubmitRequestID s) (sd_contentWidth s)
    (sd_aiPanelWidth s) expanded (sd_isAiPanelResizing s) (sd_aiResizeStart s) (sd_chatMode s).
Definition setOpen (open : bool) (s : Sidebar) : Sidebar :=
  mkSidebar open (sd_handoffs s) (sd_panel s) (sd_pendingAutoSubmitRequestID s) (sd_contentWidth s)
    (sd_aiPanelWidth s) (sd_isAiPanelExpanded s) (sd_isAiPanelResizing s) (sd_aiResizeStart s) (sd_chatMode s).
Definition setChatMode (mode : ChatMode) (s : Sidebar) : Sidebar :=
  mkSidebar (sd_isOpen s) (sd_handoffs s) (sd_panel s) (sd_pendingAutoSubmitRequestID s) (sd_contentWidth s)
    (sd_aiPanelWidth s) (sd_isAiPanelExpanded s) (sd_isAiPanelResizing s) (sd_aiResizeStart s) mode.

Definition clampWidth (s : Sidebar) : Sidebar := setAiPanelWidth (clampAiPanelWidth (sd_aiPanelWidth s) (sd_contentWidth s)) s.

Definition mountedSidebar (isOpen : bool) (handoffs : Handoffs) (panel : AgentState) (innerWidth clientWidth : option Z) : Sidebar :=
  mkSidebar isOpen handoffs panel None clientWidth (getDefaultAiPanelWidth innerWidth) false false None ModeChat.

(** ** The width *)

(** The effects that follow the opening and the closing. *)
Definition openEffect (s : Sidebar) : Sidebar :=
  let s := setResizing false None s in
  if sd_isOpen s then clampWidth s else setExpanded false s.

Definition handleWindowResize (s : Sidebar) : Sidebar := if sd_isOpen s then clampWidth s else s.

(** [handlePointerMove] and [handlePointerUp], which listen while the expanded
    panel is resized. *)
Definition handlePointerMove (clientX : Z) (s : Sidebar) : Sidebar :=
  if sd_isAiPanelExpanded s && sd_isAiPanelResizing s then
    match sd_aiResizeStart s with
    | Some (startWidth, startX) => setAiPanelWidth (clampAiPanelWidth (startWidth + (clientX - startX))%Z (sd_contentWidth s)) s
    | None => s
    end
  else s.
Definition handlePointerUp (s : Sidebar) : Sidebar :=
  if sd_isAiPanelExpanded s && sd_isAiPanelResizing s then setResizing false None s else s.
(** The sash is rendered in an open and expanded sidebar. *)
Definition sashDown (clientX : Z) (s : Sidebar) : Sidebar :=
  if sd_isOpen s && sd_isAiPanelExpanded s then setResizing true (Some (sd_aiPanelWidth s, clientX)) s else s.
Definition handleToggleAiPanel (s : Sidebar) : Sidebar :=
  if sd_isOpen s then setExpanded (negb (sd_isAiPanelExpanded s)) (setResizing false None s) else s.

(** [aiShellWidth] *)
Definition aiShellWidth (s : Sidebar) : Z :=
  (if sd_isAiPanelExpanded s then sd_aiPanelWidth s else AI_PANEL_COLLAPSED_WIDTH) +
  (if sd_isAiPanelExpanded s then AI_PANEL_RESIZE_HANDLE_WIDTH else 0).

(** ** The labels of the collapsed sidebar *)

Definition orText (texts : list (option string)) (fallback : string) : string :=
  foldr (fun text rest => truthyOpt (trimText <$> text) ?? rest) fallback texts.
Definition providerLabel (locale : AppLocale) (gateway : option AgentProviderGatewayProvider) : string :=
  orText [gp_display_name <$> gateway] (acl_noRoute (collapsedCopy locale)).
Definition routeLabel (locale : AppLocale) (error : option string) (gateway : option AgentProviderGatewayProvider) : string :=
  orText [error; gateway ≫= gp_route_prepare_state; gateway ≫= gp_route_status_state] (acl_unchecked (collapsedCopy locale)).
Definition collapsedConversationTitle (locale : AppLocale) (conversation : option AgentConversationSummary) : string :=
  orText [sm_title <$> conversation] (acl_newConversation (collapsedCopy locale)).
Definition conversationCountLabel (locale : AppLocale) (conversation : option AgentConversationSummary) : string :=
  let activeConversationCount := (sm_message_count <$> conversation) ?? 0 in
  if 0 <? activeConversationCount then showNat activeConversationCount +:+ " msgs" else acl_noMessagesYet (collapsedCopy locale).

(** The busy flags of the header. *)
Definition isConversationBusy (panel : AgentState) : bool :=
  cv_isConversationPending (as_conversation panel) || sb_isSubmitting (as_submit panel) ||
  negb (bool_decide (fl_pending (as_flow panel) = None)).
Definition isProviderRouteBusy (panel : AgentState) : bool :=
  pr_isGatewayPending (as_provider panel) || pr_isRoutePreparing (as_provider panel) || pr_isRouteProbing (as_provider panel).

(** ** Prompts that are handed over *)

Inductive SidebarOutput :=
  | SetContextWidgets (widgetIDs : list string)
  | DraftSet (prompt : string)
  | DraftSubmitted.

Section Sidebar.
Context `{DateHost} `{Locale}.
Variables (clock : nat -> Z) (isoNow : nat -> string) (env : PanelEnv).

(** [useAgentPanel(AI_SHELL_PANEL_HOST_ID, isOpen, ...)] *)
Definition sidebarEnv (isOpen : bool) : PanelEnv :=
  mkEnv "ai-shell-panel" isOpen (en_activeWidgetHostId env) (en_terminalPanelBindings env) true.

(** The effect of the hook for [enabled], when it was [previous] in the rendering
    before: a panel that is enabled is reset and asks for its contents, one that
    is no longer is left by the cleanup. *)
Definition startedPanel (panel : AgentState) : AgentState := fst (run (startPanel (sidebarEnv true)) panel).
Definition leftPanel (panel : AgentState) : AgentState := fst (run resetAgentPanelRuntime panel).
Definition panelEffect (previous : option bool) (s : Sidebar) : Sidebar :=
  match sd_isOpen s, previous with
  | true, Some true => s
  | true, _ => on_panel startedPanel s
  | false, Some true => on_panel leftPanel s
  | false, _ => s
  end.

(** [setSelectedContextWidgetIDs], before its request is answered. *)
Definition selectContext (widgetIDs : list string) (panel : AgentState) : AgentState :=
  if 0 <? length widgetIDs then fst (run (updateSelectedContextWidgetIDs widgetIDs) panel) else panel.

(** The effect that takes a queued prompt over. *)
Definition handoffEffect (s : Sidebar) : Sidebar * list SidebarOutput :=
  match sd_isOpen s, hf_queued (sd_handoffs s) with
  | true, Some queued =>
      let request := ah_request queued in
      let contextIDs := ah_context_widget_ids request ?? [] in
      (on_handoffs (ConsumeAiPromptHandoff (ah_request_id queued))
         (setPendingAutoSubmit (if ah_submit request ?? false then Some (ah_request_id queued) else None)
            (on_panel (fun panel => setDraft (ah_prompt request) (selectContext contextIDs panel)) s)),
       (if 0 <? length contextIDs then [SetContextWidgets contextIDs] else []) ++ [DraftSet (ah_prompt request)])
  | _, _ => (s, [])
  end.

Definition draftOf (s : Sidebar) : string := sb_draft (as_submit (sd_panel s)).
Definition canAutoSubmit (s : Sidebar) : bool :=
  bool_decide (is_Some (sd_pendingAutoSubmitRequestID s)) && sd_isOpen s && truthy (trimText (draftOf s)) &&
  negb (isConversationBusy (sd_panel s)).
(** The effect that submits the draft: its guards and the callback are those of
    the rendering. *)
Definition autoSubmitEffect (rendered s : Sidebar) : Sidebar * list SidebarOutput :=
  if canAutoSubmit rendered
  then (on_panel (fun panel => fst (run (submitDraftOf clock isoNow (sidebarEnv (sd_isOpen rendered)) (sd_panel rendered)) panel))
          (setPendingAutoSubmit None s),
        [DraftSubmitted])
  else (s, []).

(** The effects of one rendering, those of the hook first, and the renderings
    until they do nothing.  [previous] is [isOpen] of the rendering before. *)
Definition sidebarEffects (previous : option bool) (s : Sidebar) : Sidebar * list SidebarOutput :=
  let s0 := panelEffect previous s in
  let s0 := if bool_decide (previous = Some (sd_isOpen s)) then s0 else openEffect s0 in
  let '(s1, taken) := handoffEffect s0 in
  let '(s2, submitted) := autoSubmitEffect s s1 in
  (s2, taken ++ submitted).
Definition settleSidebar (previous : option bool) (s : Sidebar) : Sidebar * list SidebarOutput :=
  let '(s1, out1) := sidebarEffects previous s in
  let '(s2, out2) := sidebarEffects (Some (sd_isOpen s)) s1 in
  (s2, out1 ++ out2).

(** The panel changes by its own callbacks, which include typing. *)
Inductive SidebarChange :=
  | SidebarToggled (e : SidebarEvent)
  | HandoffChanged (e : HandoffEvent)
  | PanelChanged (panel : AgentState)
  | ContentChanged (clientWidth : option Z)
  | WindowResized
  | PanelToggled
  | SashDown (clientX : Z) | PointerMoved (clientX : Z) | PointerUp
  | ModeChanged (mode : ChatMode).

Definition sidebarChange (c : SidebarChange) (s : Sidebar) : Sidebar :=
  match c with
  | SidebarToggled e => setOpen (onSidebarEvent (sd_isOpen s) e) s
  | HandoffChanged e => on_handoffs e s
  | PanelChanged panel => on_panel (fun _ => panel) s
  | ContentChanged clientWidth => setContentWidth clientWidth s
  | WindowResized => handleWindowResize s
  | PanelToggled => handleToggleAiPanel s
  | SashDown clientX => sashDown clientX s
  | PointerMoved clientX => handlePointerMove clientX s
  | PointerUp => handlePointerUp s
  | ModeChanged mode => setChatMode mode s
  end.
Definition sidebarStep (s : Sidebar) (c : SidebarChange) : Sidebar * list SidebarOutput :=
  settleSidebar (Some (sd_isOpen s)) (sidebarChange c s).
(** A run, with what every step put out. *)
Fixpoint runSidebar (s : Sidebar) (cs : list SidebarChange) : Sidebar * list (list SidebarOutput) :=
  match cs with
  | [] => (s, [])
  | c :: cs =>
      let '(s1, out) := sidebarStep s c in
      let '(s2, outs) := runSidebar s1 cs in
      (s2, out :: outs)
  end.
Definition mountSidebar (s : Sidebar) : Sidebar * list SidebarOutput := settleSidebar None s.
End Sidebar.

(** ** The window *)

Section Window.
Context `{RuntimeHost}.

(** [confirmed] is the answer of [window.confirm]. *)
Definition handleCloseWindow (confirmed : bool) : Web unit :=
  tryCatch
    (watcher_mode <- requestRuntimeSettings ;;
     initial <- requestRuntimeShutdown (Some false) ;;
     if negb (sh_can_close initial) && bool_decide (watcher_mode = "ephemeral") then
       if negb confirmed then Ret tt
       else
         forced <- requestRuntimeShutdown (Some true) ;;
         if negb (sh_can_close forced) then Ret tt else closeRuntimeWindow
     else closeRuntimeWindow)
    (fun _ => closeRuntimeWindow).
Definition handleMinimizeWindow : Web unit := tryCatch minimizeRuntimeWindow (fun _ => Ret tt).
Definition handleToggleFullscreen : Web unit := tryCatch toggleRuntimeFullscreen (fun _ => Ret tt).
End Window.

(** * Lemmas *)

Section SidebarLemmas.
Context `{DateHost} `{Locale}.
Variables (clock : nat -> Z) (isoNow : nat -> string) (env : PanelEnv).
Notation step := (sidebarStep clock isoNow env).
Notation effects := (sidebarEffects clock isoNow env).
Notation settle := (settleSidebar clock isoNow env).

(** ** Submissions *)

(** What [submitDraftOf] asks for. *)
Definition acceptsDraft (e : PanelEnv) (panel : AgentState) : Prop :=
  en_enabled e = true /\ isConversationBusy panel = false /\ truthy (trimText (sb_draft (as_submit panel))) = true.

(** An accepted draft becomes the last message of the user and the draft is
    empty, before the call waits for anything. *)
Lemma draft_submitted e panel :
  acceptsDraft e panel ->
  let panel' := fst (run (submitDraftOf clock isoNow e panel) panel) in
  sb_draft (as_submit panel') = "" /\ as_context panel' = as_context panel /\
  exists message, cm_content message = trimText (sb_draft (as_submit panel)) /\
    sb_messages (as_submit panel') = Some (appendAgentConversationMessage (sb_messages (as_submit panel) ?? []) message).
Proof.
  intros (He & Hb & Ht). unfold isConversationBusy in Hb. bool_prop.
  unfold submitDraftOf. cbn [run bind get].
  match goal with H : sb_isSubmitting _ = false |- _ => rewrite H end.
  match goal with H : cv_isConversationPending _ = false |- _ => rewrite H end.
  match goal with H : fl_pending _ = None |- _ => rewrite (bool_decide_eq_true_2 _ H) end.
  rewrite He, Ht. cbn [negb orb run bind update].
  unfold withKeys. cbn [run bind get].
  match goal with |- context [let '(_, _) := ?x in _] => destruct x as [[[[intent tools] flow] messages] keys] end.
  cbn [run bind update].
  repeat (case_match; cbn [run bind update await fst snd];
          try (split; [reflexivity|split; [reflexivity|eexists; split; [|reflexivity]; reflexivity]])).
Qed.

(** An automatic submission is one that the panel accepts. *)
Lemma auto_submit_accepted s : canAutoSubmit s = true -> acceptsDraft (sidebarEnv env (sd_isOpen s)) (sd_panel s).
Proof. unfold canAutoSubmit. intros H1. bool_prop. by repeat split. Qed.

Lemma auto_submit_empties s :
  canAutoSubmit s = true -> draftOf (fst (autoSubmitEffect clock isoNow env s s)) = "".
Proof.
  intros Hs. unfold autoSubmitEffect, draftOf. rewrite Hs. cbn.
  destruct (draft_submitted _ _ (auto_submit_accepted s Hs)) as [Hd _]. exact Hd.
Qed.

Lemma empty_draft_waits s : draftOf s = "" -> canAutoSubmit s = false.
Proof. unfold canAutoSubmit. intros ->. cbn. by rewrite andb_false_r. Qed.
Lemma nothing_pending_waits s : sd_pendingAutoSubmitRequestID s = None -> canAutoSubmit s = false.
Proof. unfold canAutoSubmit. by intros ->. Qed.

(** The first stretch of the effect that starts the panel. *)
Lemma started_panel panel :
  let panel' := startedPanel env panel in
  isConversationBusy panel' = false /\ sb_messages (as_submit panel') = None /\ sb_draft (as_submit panel') = "".
Proof. done. Qed.

(** What the effects of the hook and of the opening leave of the sidebar. *)
Definition entered (previous : option bool) (s : Sidebar) : Sidebar :=
  let s0 := panelEffect env previous s in if bool_decide (previous = Some (sd_isOpen s)) then s0 else openEffect s0.
Lemma entered_same s : entered (Some (sd_isOpen s)) s = s.
Proof. unfold entered, panelEffect. rewrite bool_decide_eq_true_2 by done. by destruct (sd_isOpen s). Qed.
Lemma entered_frame previous s :
  let s' := entered previous s in
  sd_isOpen s' = sd_isOpen s /\ sd_handoffs s' = sd_handoffs s /\
  sd_pendingAutoSubmitRequestID s' = sd_pendingAutoSubmitRequestID s /\ sd_contentWidth s' = sd_contentWidth s /\
  sd_panel s' = sd_panel (panelEffect env previous s).
Proof.
  unfold entered, panelEffect, openEffect. destruct (sd_isOpen s) eqn:E, previous as [[]|]; cbn; try done.
  all: try (destruct (bool_decide _)); cbn; rewrite ?E; cbn; by rewrite ?E.
Qed.
Lemma effects_entered previous s :
  effects previous s =
  let '(s1, taken) := handoffEffect (entered previous s) in
  let '(s2, submitted) := autoSubmitEffect clock isoNow env s s1 in
  (s2, taken ++ submitted).
Proof. done. Qed.

(** ** Settled sidebars *)

(** No effect of the sidebar has anything to do. *)
Definition settled (s : Sidebar) : Prop :=
  (sd_isOpen s = true -> hf_queued (sd_handoffs s) = None) /\ canAutoSubmit s = false.

Lemma settled_effects s : settled s -> effects (Some (sd_isOpen s)) s = (s, []).
Proof.
  intros [Hq Hc]. rewrite effects_entered, entered_same. unfold handoffEffect, autoSubmitEffect. rewrite Hc.
  destruct (sd_isOpen s); [|done]. by rewrite Hq.
Qed.
Lemma settled_settle s : settled s -> settle (Some (sd_isOpen s)) s = (s, []).
Proof. intros Hs. unfold settleSidebar. by rewrite !settled_effects. Qed.

Lemma handoff_taken s s1 out :
  handoffEffect s = (s1, out) ->
  sd_isOpen s1 = sd_isOpen s /\ sd_contentWidth s1 = sd_contentWidth s /\ sd_aiPanelWidth s1 = sd_aiPanelWidth s /\
  (sd_isOpen s = true -> hf_queued (sd_handoffs s1) = None).
Proof.
  unfold handoffEffect. destruct (sd_isOpen s) eqn:Eo; [|intros [= <- _]; by rewrite Eo].
  destruct (hf_queued (sd_handoffs s)) as [queued|] eqn:Eq; intros [= <- _]; cbn; [|by rewrite Eo].
  split_and!; try done. rewrite Eq. by rewrite decide_True.
Qed.
Lemma auto_submit_frame r s s1 out :
  autoSubmitEffect clock isoNow env r s = (s1, out) ->
  sd_isOpen s1 = sd_isOpen s /\ sd_contentWidth s1 = sd_contentWidth s /\ sd_aiPanelWidth s1 = sd_aiPanelWidth s /\
  sd_handoffs s1 = sd_handoffs s.
Proof. unfold autoSubmitEffect. by case_match; intros [= <- _]. Qed.
Lemma effects_frame previous s s1 out :
  effects previous s = (s1, out) ->
  sd_isOpen s1 = sd_isOpen s /\ sd_contentWidth s1 = sd_contentWidth s /\
  sd_aiPanelWidth s1 = sd_aiPanelWidth (entered previous s) /\
  (sd_isOpen s = true -> hf_queued (sd_handoffs s1) = None).
Proof.
  rewrite effects_entered. destruct (handoffEffect _) as [s2 o2] eqn:E1. destruct (autoSubmitEffect _ _ _ _ _) as [s3 o3] eqn:E2.
  intros [= <- _]. destruct (handoff_taken _ _ _ E1) as (H1 & H2 & H3 & H4), (auto_submit_frame _ _ _ _ E2) as (H5 & H6 & H7 & H8).
  destruct (entered_frame previous s) as (H9 & _ & _ & H10 & _).
  by rewrite H5, H6, H7, H8, H1, H2, H3, H9, H10 in *.
Qed.

(** Two renderings are enough: the first takes a prompt over and the second
    submits it. *)
Lemma settle_sidebar_settled previous s : settled (fst (settle previous s)).
Proof.
  unfold settleSidebar. destruct (effects previous s) as [s2 o2] eqn:E1.
  destruct (effects_frame _ _ _ _ E1) as (Ho & _ & _ & Hq). rewrite <- Ho, effects_entered, entered_same.
  assert (handoffEffect s2 = (s2, [])) as ->.
  { unfold handoffEffect. rewrite Ho. destruct (sd_isOpen s) eqn:Eo; [|done]. by rewrite Hq. }
  destruct (autoSubmitEffect clock isoNow env s2 s2) as [s3 o3] eqn:E3.
  destruct (auto_submit_frame _ _ _ _ E3) as (Ho3 & _ & _ & Hh3). cbn. split.
  - by rewrite Ho3, Hh3, Ho.
  - destruct (canAutoSubmit s2) eqn:Ec.
    + apply empty_draft_waits. rewrite <- (auto_submit_empties s2 Ec). by rewrite E3.
    + unfold autoSubmitEffect in E3. rewrite Ec in E3. by injection E3 as <- _.
Qed.

(** ** Handed over once *)

Definition asks_submit (c : SidebarChange) : bool :=
  match c with HandoffChanged (QueueAiPromptHandoff r) => ah_submit r ?? false | _ => false end.
Definition is_submission (o : SidebarOutput) : bool := match o with DraftSubmitted => true | _ => false end.
Definition submissions (out : list SidebarOutput) : nat := length (filterb is_submission out).
(** The submissions that can still follow from what was queued. *)
Definition owed (s : Sidebar) : nat :=
  (if sd_pendingAutoSubmitRequestID s then 1 else 0) +
  match hf_queued (sd_handoffs s) with Some q => if ah_submit (ah_request q) ?? false then 1 else 0 | None => 0 end.

Lemma submissions_app l k : submissions (l ++ k) = submissions l + submissions k.
Proof. unfold submissions, filterb. by rewrite List.filter_app, length_app. Qed.

Lemma handoff_owed s s1 out :
  handoffEffect s = (s1, out) ->
  submissions out = 0 /\ owed s1 <= owed s /\
  (sd_isOpen s = true -> forall id, sd_pendingAutoSubmitRequestID s = Some id -> S (owed (setPendingAutoSubmit None s1)) <= owed s).
Proof.
  unfold handoffEffect. destruct (sd_isOpen s); [|by intros [= <- <-]].
  destruct (hf_queued (sd_handoffs s)) as [q|] eqn:Eq; intros [= <- <-].
  - split; [rewrite submissions_app; by destruct (0 <? length _)|]. unfold owed. cbn. rewrite Eq. cbn.
    rewrite decide_True by done. split; [destruct (ah_submit (ah_request q) ?? false); cbn; lia|].
    intros _ id ->. lia.
  - split; [done|]. split; [done|]. intros _ id Hid. unfold owed. cbn. rewrite Hid, Eq. lia.
Qed.
Lemma effects_owed previous s s' out : effects previous s = (s', out) -> submissions out + owed s' <= owed s.
Proof.
  rewrite effects_entered. destruct (entered_frame previous s) as (Ho & Hh & Hp & _).
  assert (owed (entered previous s) = owed s) as He by (unfold owed; by rewrite Hp, Hh).
  destruct (handoffEffect (entered previous s)) as [s1 o1] eqn:E1. destruct (handoff_owed _ _ _ E1) as (Hs1 & Hle & Hlt).
  rewrite He in *. rewrite Ho, Hp in Hlt. unfold autoSubmitEffect. destruct (canAutoSubmit s) eqn:Ec; intros [= <- <-].
  - unfold canAutoSubmit in Ec. bool_prop. match goal with H : is_Some _ |- _ => destruct H as [id Hid] end.
    rewrite submissions_app, Hs1. change (owed (on_panel _ ?x)) with (owed x).
    assert (sd_isOpen s = true) as Hopen by done. pose proof (Hlt Hopen id Hid). change (submissions [DraftSubmitted]) with 1. lia.
  - rewrite app_nil_r. lia.
Qed.

Lemma change_owed s c : owed (sidebarChange c s) <= owed s + (if asks_submit c then 1 else 0).
Proof.
  destruct c as [e|[r|id|]|panel|w| | |x|x| |m]; cbn [sidebarChange asks_submit].
  - unfold owed. cbn. lia.
  - unfold owed. cbn. destruct (ah_submit r) as [[]|]; cbn; lia.
  - unfold owed. cbn. destruct (hf_queued _) as [q|]; [|lia]. destruct (decide _); lia.
  - unfold owed. cbn. lia.
  - unfold owed. cbn. lia.
  - unfold owed. cbn. lia.
  - unfold handleWindowResize. case_match; unfold owed; cbn; lia.
  - unfold handleToggleAiPanel. case_match; unfold owed; cbn; lia.
  - unfold sashDown. case_match; unfold owed; cbn; lia.
  - unfold handlePointerMove. repeat case_match; unfold owed; cbn; lia.
  - unfold handlePointerUp. case_match; unfold owed; cbn; lia.
  - unfold owed. cbn. lia.
Qed.

Lemma settle_owed previous s s' out : settle previous s = (s', out) -> submissions out + owed s' <= owed s.
Proof.
  unfold settleSidebar. destruct (effects previous s) as [s1 o1] eqn:E1. destruct (effects _ s1) as [s2 o2] eqn:E2. intros [= <- <-].
  pose proof (effects_owed _ _ _ _ E1). pose proof (effects_owed _ _ _ _ E2). rewrite submissions_app. lia.
Qed.

(** The sidebar submits a draft on its own at most once for each prompt that
    was handed over to be submitted, whatever happens in between. *)
Theorem auto_submits_are_handed_over s cs :
  submissions (mjoin (snd (runSidebar clock isoNow env s cs))) <= owed s + length (filterb asks_submit cs).
Proof.
  revert s. induction cs as [|c cs IH]; intros s; cbn [runSidebar]; [cbn; lia|].
  destruct (step s c) as [s1 out] eqn:Es. specialize (IH s1).
  destruct (runSidebar clock isoNow env s1 cs) as [s2 outs]. cbn [snd] in *.
  apply settle_owed in Es. pose proof (change_owed s c). change (mjoin (out :: outs)) with (out ++ mjoin outs).
  rewrite submissions_app.
  unfold filterb in *. cbn [List.filter]. destruct (asks_submit c); cbn [length]. all: lia.
Qed.

(** ** Handed over to be submitted *)

(** The context of a request, as [queueAiPromptHandoff] keeps it. *)
Definition handedContext (r : AiPromptHandoffRequest) : list string :=
  filterb (fun widgetID => truthy (trimText widgetID)) (ah_context_widget_ids r ?? []).
(** The outputs for a prompt that is handed over to an idle panel. *)
Definition handedOver (r : AiPromptHandoffRequest) : list SidebarOutput :=
  (if 0 <? length (handedContext r) then [SetContextWidgets (handedContext r)] else []) ++
  [DraftSet (ah_prompt r); DraftSubmitted].
(** A panel whose messages were [before]: the prompt is its last message, the
    draft is empty and the context that was handed over, if any, is selected. *)
Definition promptSubmitted (r : AiPromptHandoffRequest) (before : list AgentConversationMessage) (panel : AgentState) : Prop :=
  (exists message, cm_content message = trimText (ah_prompt r) /\
     sb_messages (as_submit panel) = Some (appendAgentConversationMessage before message)) /\
  sb_draft (as_submit panel) = "" /\
  (handedContext r = [] \/
   cw_stored (as_context panel) = deduplicateWidgetIDs (handedContext r) /\ cw_enabled (as_context panel) = true).

Lemma contexts_default r :
  (filterb (fun widgetID => truthy (trimText widgetID)) <$> ah_context_widget_ids r) ?? [] = handedContext r.
Proof. unfold handedContext. by destruct (ah_context_widget_ids r). Qed.

Lemma select_context ids panel :
  selectContext ids panel = if 0 <? length ids then withSelection (deduplicateWidgetIDs ids) true true 0 panel else panel.
Proof.
  unfold selectContext, updateSelectedContextWidgetIDs, persistInBackground, persistConversationContextPreferences.
  case_match; [|done]. cbn. by destruct (truthy _) eqn:E; cbn; rewrite ?E.
Qed.
Lemma select_context_frame ids panel :
  isConversationBusy (selectContext ids panel) = isConversationBusy panel /\
  as_submit (selectContext ids panel) = as_submit panel /\
  (ids = [] \/ cw_stored (as_context (selectContext ids panel)) = deduplicateWidgetIDs ids /\
                cw_enabled (as_context (selectContext ids panel)) = true).
Proof. rewrite select_context. destruct ids; cbn; [by repeat split; left|by repeat split; right]. Qed.

(** An open sidebar with a queued prompt. *)
Lemma queued_submitted previous s r id :
  sd_isOpen s = true -> sd_pendingAutoSubmitRequestID s = None ->
  isConversationBusy (sd_panel (panelEffect env previous s)) = false ->
  ah_submit r = Some true -> truthy (trimText (ah_prompt r)) = true ->
  hf_queued (sd_handoffs s) =
    Some (mkHandoff (mkHandoffRequest (filterb (fun widgetID => truthy (trimText widgetID)) <$> ah_context_widget_ids r)
      (ah_prompt r) (ah_submit r)) id) ->
  exists s', settle previous s = (s', handedOver r) /\ sd_isOpen s' = true /\ owed s' = 0 /\
    promptSubmitted r (sb_messages (as_submit (sd_panel (panelEffect env previous s))) ?? []) (sd_panel s').
Proof.
  intros Ho Hp Hb Hr Ht Hq. unfold settleSidebar. rewrite effects_entered.
  destruct (entered_frame previous s) as (Ho1 & Hh1 & Hp1 & _ & Hpanel).
  unfold handoffEffect at 1. rewrite Ho1, Ho, Hh1, Hq. cbn [ah_request ah_request_id ah_context_widget_ids ah_prompt ah_submit].
  rewrite Hr, contexts_default. unfold autoSubmitEffect at 1. rewrite nothing_pending_waits by done.
  set (s1 := on_handoffs _ _). destruct (select_context_frame (handedContext r) (sd_panel (entered previous s))) as (Hf1 & Hf2 & Hf3).
  assert (sd_isOpen s1 = true) as Ho2 by (unfold s1; cbn; by rewrite Ho1).
  assert (canAutoSubmit s1 = true) as Hc1.
  { unfold canAutoSubmit. change (draftOf s1) with (ah_prompt r).
    change (isConversationBusy (sd_panel s1)) with (isConversationBusy (selectContext (handedContext r) (sd_panel (entered previous s)))).
    by rewrite Ht, Ho2, Hf1, Hpanel, Hb. }
  rewrite effects_entered, <- Ho2, entered_same, Ho2.
  assert (handoffEffect s1 = (s1, [])) as ->.
  { unfold handoffEffect. rewrite Ho2. unfold s1. cbn. rewrite Hh1, Hq. cbn. by rewrite decide_True. }
  unfold autoSubmitEffect. rewrite Hc1.
  destruct (draft_submitted _ _ (auto_submit_accepted s1 Hc1)) as (Hd & Hx & message & Hm & Hms).
  eexists. split; [unfold handedOver; by rewrite app_nil_r, app_nil_l, <- app_assoc|]. split; [exact Ho2|].
  split; [unfold owed, s1; cbn; rewrite Hh1, Hq; cbn; by rewrite decide_True|].
  split; [exists message; split; [exact Hm|]|split; [exact Hd|]].
  - etransitivity; [exact Hms|]. unfold s1. cbn. by rewrite Hf2, Hpanel.
  - destruct Hf3 as [Hf3|Hf3]; [by left|right].
    change (as_context (selectContext _ _)) with (as_context (sd_panel s1)) in Hf3. rewrite <- Hx in Hf3. exact Hf3.
Qed.

(** C30: A prompt that another widget hands over to be submitted, with the
    sidebar opened after it, is submitted by the panel, when no older prompt
    waits to be submitted and an open panel is idle: the context that was handed
    over is selected, the prompt becomes the last message of the user and
    nothing of it stays behind.  A sidebar that was open keeps its messages; one
    that was closed starts the panel anew, so the prompt is its only message,
    whatever the panel was doing before.  Queued prompts that were not yet taken
    are replaced.  This is the state before any request is answered. *)
Theorem handed_over_prompt_is_submitted s r :
  settled s -> sd_pendingAutoSubmitRequestID s = None ->
  (sd_isOpen s = true -> isConversationBusy (sd_panel s) = false) ->
  ah_submit r = Some true -> truthy (trimText (ah_prompt r)) = true ->
  exists s' outs,
    runSidebar clock isoNow env s [HandoffChanged (QueueAiPromptHandoff r); SidebarToggled OpenAiSidebar] = (s', outs) /\
    mjoin outs = handedOver r /\ owed s' = 0 /\
    promptSubmitted r (if sd_isOpen s then sb_messages (as_submit (sd_panel s)) ?? [] else []) (sd_panel s').
Proof.
  intros Hs Hp Hb Hr Ht. set (queue := HandoffChanged (QueueAiPromptHandoff r)). cbn [runSidebar].
  unfold sidebarStep at 1. destruct (sd_isOpen s) eqn:Eo.
  - destruct (queued_submitted (Some true) (sidebarChange queue s) r (hf_sequence (sd_handoffs s) + 1))
      as (s' & Hs' & Ho' & Hw & Hm); [done|done|unfold panelEffect; cbn; rewrite Eo; by apply Hb|done..|].
    exists s', [handedOver r; []]. rewrite Hs'.
    assert (step s' (SidebarToggled OpenAiSidebar) = (s', [])) as ->.
    { unfold sidebarStep. assert (sidebarChange (SidebarToggled OpenAiSidebar) s' = s') as ->
        by (destruct s'; cbn in *; by rewrite Ho').
      apply settled_settle. pose proof (settle_sidebar_settled (Some true) (sidebarChange queue s)) as Hst. by rewrite Hs' in Hst. }
    split; [done|]. split; [apply app_nil_r|]. split; [done|]. revert Hm. unfold panelEffect. cbn. by rewrite Eo.
  - assert (settle (Some false) (sidebarChange queue s) = (sidebarChange queue s, [])) as ->.
    { rewrite <- Eo. apply (settled_settle (sidebarChange queue s)). split; [cbn; by rewrite Eo|]. by apply nothing_pending_waits. }
    unfold sidebarStep. change (sd_isOpen (sidebarChange queue s)) with (sd_isOpen s). rewrite Eo.
    set (s1 := sidebarChange queue s).
    destruct (queued_submitted (Some false) (sidebarChange (SidebarToggled OpenAiSidebar) s1) r (hf_sequence (sd_handoffs s) + 1))
      as (s' & Hs' & Ho' & Hw & Hm); [done..|].
    exists s', [[]; handedOver r]. rewrite Hs'. split; [done|]. split; [apply app_nil_r|]. split; [done|].
    exact Hm.
Qed.

(** ** The width *)

(** The panel has its least width and leaves the workspace its own, if there is
    room for both. *)
Definition fits (s : Sidebar) : Prop :=
  (AI_PANEL_MIN_WIDTH <= sd_aiPanelWidth s)%Z /\
  forall w, sd_contentWidth s = Some w ->
    (sd_aiPanelWidth s <= Z.max AI_PANEL_MIN_WIDTH (w - WORKSPACE_MIN_WIDTH - AI_PANEL_RESIZE_HANDLE_WIDTH))%Z.

Lemma clamp_fits w s : fits (setAiPanelWidth (clampAiPanelWidth w (sd_contentWidth s)) s).
Proof.
  unfold fits, clampAiPanelWidth. cbn. destruct (sd_contentWidth s) as [c|].
  - split; [lia|]. intros c' [= <-]. lia.
  - split; [lia|done].
Qed.

Lemma settle_width previous s : let s' := fst (settle previous s) in
  sd_aiPanelWidth s' = sd_aiPanelWidth (entered previous s) /\ sd_contentWidth s' = sd_contentWidth s /\ sd_isOpen s' = sd_isOpen s.
Proof.
  unfold settleSidebar. destruct (effects previous s) as [s1 o1] eqn:E1. destruct (effects _ s1) as [s2 o2] eqn:E2. cbn.
  destruct (effects_frame _ _ _ _ E1) as (H1 & H2 & H3 & _). rewrite <- H1 in E2.
  destruct (effects_frame _ _ _ _ E2) as (H4 & H5 & H6 & _). rewrite entered_same in H6.
  by rewrite H4, H5, H6, H1, H2, H3.
Qed.

(** Only another width of the content, before the window says so, makes an open
    sidebar too wide. *)
Lemma open_sidebar_fits s c :
  (forall w, c <> ContentChanged w) -> (sd_isOpen s = true -> fits s) ->
  let s' := fst (step s c) in sd_isOpen s' = true -> fits s'.
Proof.
  intros Hc Hs s' Ho. unfold s', sidebarStep in *.
  destruct (settle_width (Some (sd_isOpen s)) (sidebarChange c s)) as (H1 & H2 & H3).
  unfold fits. rewrite H1, H2. rewrite H3 in Ho. clear H1 H2 H3. set (t := sidebarChange c s) in *.
  assert ((sd_isOpen s = true -> fits t) -> fits (setAiPanelWidth (sd_aiPanelWidth (entered (Some (sd_isOpen s)) t)) t)) as Hin.
  { intros Ht. unfold entered, panelEffect, openEffect. rewrite Ho. destruct (sd_isOpen s) eqn:Eo.
    - rewrite bool_decide_eq_true_2 by done. by apply Ht.
    - rewrite bool_decide_eq_false_2 by done. cbn. rewrite Ho. exact (clamp_fits (sd_aiPanelWidth t) t). }
  apply Hin. intros Eo. specialize (Hs Eo). clear Hin Ho. unfold t. destruct c as [e|e|panel|w| | |x|x| |m]; cbn; try exact Hs.
  - by edestruct Hc.
  - unfold handleWindowResize. rewrite Eo. apply clamp_fits.
  - unfold handleToggleAiPanel. by rewrite Eo.
  - unfold sashDown. by destruct (_ && _).
  - unfold handlePointerMove. destruct (_ && _); [|done]. destruct (sd_aiResizeStart s) as [[a b]|]; [|done]. apply clamp_fits.
  - unfold handlePointerUp. by destruct (_ && _).
Qed.
Lemma resize_fits s : sd_isOpen s = true -> fits (fst (step s WindowResized)).
Proof.
  intros Ho. assert (sidebarChange WindowResized s = clampWidth s) as E by (cbn; unfold handleWindowResize; by rewrite Ho).
  unfold sidebarStep. rewrite E. destruct (settle_width (Some (sd_isOpen s)) (clampWidth s)) as (H1 & H2 & _).
  pose proof (entered_same (clampWidth s) : entered (Some (sd_isOpen s)) (clampWidth s) = _) as H3. rewrite H3 in H1.
  unfold fits. rewrite H1, H2. apply clamp_fits.
Qed.
End SidebarLemmas.

(** ** The window *)

(** In the desktop shell the tasks of an ephemeral core are only ended after
    the user agreed, and a user who does not agree keeps the window. *)
Lemma close_asks_before_force `{RuntimeHost} confirmed s :
  isTauri = true ->
  exists k1, run (handleCloseWindow confirmed) s = (s, Waiting (Invoke string "runtime_settings" None) k1) /\
  forall mode, exists k2,
    run (k1 (inl mode)) s =
      (s, Waiting (Invoke RuntimeShutdownPayload "request_shutdown" (Some (jobject [("force", jbool false)]))) k2) /\
    forall tasks watcher,
      (exists k3, snd (run (k2 (inl (mkShutdown true tasks watcher))) s) = Waiting (Invoke unit "close_window" None) k3) /\
      (mode = "ephemeral" ->
       let asked := snd (run (k2 (inl (mkShutdown false tasks watcher))) s) in
       if confirmed
       then exists k3, asked = Waiting (Invoke RuntimeShutdownPayload "request_shutdown" (Some (jobject [("force", jbool true)]))) k3
       else asked = Ended (inl tt)).
Proof.
  intros Ht. unfold handleCloseWindow, requestRuntimeSettings, requestRuntimeShutdown, closeRuntimeWindow, invokeWindow. rewrite Ht.
  cbn. eexists. split; [reflexivity|]. intros mode. cbn. eexists. split; [reflexivity|]. intros tasks watcher. cbn.
  split; [by eexists|]. intros ->. cbn. destruct confirmed; [by eexists|done].
Qed.

(** * Witnesses *)

Section Witness.
#[local] Instance no_dates : DateHost := {| dateParse _ := None |}.
Notation step := (sidebarStep (fun _ => 0%Z) (fun _ => "") (mkEnv "" true "" [] false)).
Notation run_sidebar := (runSidebar (fun _ => 0%Z) (fun _ => "") (mkEnv "" true "" [] false)).

(** A panel without messages, draft and calls. *)
Definition quietPanel : AgentState :=
  mkAgentState (mkFlowState None [] 0 0)
    (mkSubmitState false false false None None 0 false false None None 0 "" [])
    (mkConversationState "" [] defaultConversationListCounts None false false 0 0 "" ScopeRecent)
    (mkContextState [] [] true false 0 "" false [] None)
    (mkProviderState None "" [] "" None None false false false [] 0 None false None []).
Definition askedBefore : AgentConversationMessage :=
  createOptimisticUserConversationMessage "ai-shell-panel" 0 "An older prompt" [] "".
(** A sidebar that was closed with a message. *)
Definition closedSidebar : Sidebar :=
  mountedSidebar false initialHandoffs (setMessages (fun _ => Some [askedBefore]) quietPanel) (Some 1440%Z) (Some 1200%Z).
Definition openSidebar : Sidebar := openEffect (setOpen true closedSidebar).
Definition explainRequest : AiPromptHandoffRequest := mkHandoffRequest (Some ["term-1"]) "Explain this" (Some true).
Definition explainSteps : list SidebarChange :=
  [HandoffChanged (QueueAiPromptHandoff explainRequest); SidebarToggled OpenAiSidebar].

Lemma handed_over_prompt_is_submitted_witness :
  (exists s' outs, run_sidebar openSidebar explainSteps = (s', outs) /\
     mjoin outs = [SetContextWidgets ["term-1"]; DraftSet "Explain this"; DraftSubmitted] /\ owed s' = 0 /\
     promptSubmitted explainRequest [askedBefore] (sd_panel s')) /\
  (exists s' outs, run_sidebar closedSidebar explainSteps = (s', outs) /\
     mjoin outs = [SetContextWidgets ["term-1"]; DraftSet "Explain this"; DraftSubmitted] /\ owed s' = 0 /\
     promptSubmitted explainRequest [] (sd_panel s')).
Proof.
  split.
  - exact (handed_over_prompt_is_submitted (fun _ => 0%Z) (fun _ => "") (mkEnv "" true "" [] false) openSidebar explainRequest
      (conj (fun _ => eq_refl) eq_refl) eq_refl (fun _ => eq_refl) eq_refl eq_refl).
  - exact (handed_over_prompt_is_submitted (fun _ => 0%Z) (fun _ => "") (mkEnv "" true "" [] false) closedSidebar explainRequest
      (conj (fun H => match Bool.diff_false_true H with end) eq_refl) eq_refl (fun _ => eq_refl) eq_refl eq_refl).
Defined.

Definition busyPanel : AgentState :=
  on_submit (fun s => mkSubmitState true true true None None 1 true true None None 1 "" []) quietPanel.
Definition contents (panel : AgentState) : list string := cm_content <$> (sb_messages (as_submit panel) ?? []).

(** A prompt that is handed over while the panel is busy waits as a flag, and
    what is submitted in the end is the draft of that moment: here the first
    letter that the user typed after clearing it. *)
Example first_letter_is_submitted :
  let s := fst (step openSidebar (PanelChanged busyPanel)) in
  let '(s1, out1) := step s (HandoffChanged (QueueAiPromptHandoff explainRequest)) in
  let '(s2, out2) := step s1 (PanelChanged (setDraft "" (sd_panel s1))) in
  let '(s3, out3) := step s2 (PanelChanged quietPanel) in
  let '(s4, out4) := step s3 (PanelChanged (setDraft "h" quietPanel)) in
  out1 = [SetContextWidgets ["term-1"]; DraftSet "Explain this"] /\ out2 = [] /\ out3 = [] /\ out4 = [DraftSubmitted] /\
  contents (sd_panel s4) = ["h"].
Proof. by vm_compute. Qed.

(** A sidebar that is closed while the prompt waits and opened again loses the
    prompt with the reset of the panel, but not the flag. *)
Example reopened_sidebar_loses_the_prompt :
  let s := fst (run_sidebar openSidebar [PanelChanged busyPanel; HandoffChanged (QueueAiPromptHandoff explainRequest);
    SidebarToggled CloseAiSidebar; SidebarToggled OpenAiSidebar]) in
  let '(s1, out1) := step s (PanelChanged (setDraft "h" (sd_panel s))) in
  draftOf s = "" /\ owed s = 1 /\ out1 = [DraftSubmitted] /\ contents (sd_panel s1) = ["h"].
Proof. by vm_compute. Qed.

(** The default width, and a window that is too small for both. *)
Example widths :
  sd_aiPanelWidth closedSidebar = 432%Z /\ aiShellWidth closedSidebar = 136%Z /\
  clampAiPanelWidth 432 (Some 600%Z) = 320%Z /\ clampAiPanelWidth 9000 (Some 1200%Z) = 774%Z.
Proof. by vm_compute. Qed.
End Witness.
