(* ===== verification/Composer.v ===== *)
(** * The composer of the agent panel

    [frontend/src/widgets/ai/ai-composer-widget.tsx] and the select of the
    widgets in its menu,
    [frontend/src/shared/ui/components/searchable-multi-select.tsx].  The
    composer is controlled: its properties are a record, its own state is which
    menu is open and what is searched there, and an event of the user gives the
    next state and the callbacks that are called. *)
From Stdlib Require Import Ascii String.
From stdpp Require Import strings.
From S2P Require Import Prelude JsString Text RuntimePath Conversation Interaction MessageView AgentContext SettingsApi WidgetTexts.
Local Open Scope string_scope.
Local Open Scope list_scope.
Local Open Scope nat_scope.
Local Open Scope js_scope.

(** ** The select of the widgets *)

Module MultiSelect.

(** [value?.toLowerCase().includes(normalizedQuery)] of a label, a title or a meta. *)
Definition mentions (normalizedQuery : string) (text : option string) : bool :=
  match text with Some t => strIncludes normalizedQuery (lowerText t) | None => false end.

Definition filteredOptions (options : list AiContextWidgetOption) (query : string) : list AiContextWidgetOption :=
  let normalizedQuery := lowerText (trimText query) in
  if decide (normalizedQuery = "") then options
  else filterb (fun o => some (mentions normalizedQuery) [Some (co_label o); co_title o; co_meta o]) options.

Record OptionGroup := mkGroup {
  og_id : string;
  og_title : option string;
  og_options : list AiContextWidgetOption
}.
Definition group_has_id (x : string) (g : OptionGroup) : bool := bool_decide (og_id g = x).

Definition ungrouped : string := "__ungrouped__".
Definition groupIdOf (option : AiContextWidgetOption) : string := trimmedTextOr (co_group option) ungrouped.
Definition groupTitleOf (o : AiContextWidgetOption) : option string :=
  if decide (groupIdOf o = ungrouped) then None else trimText <$> co_group o.

(** One turn of the loop; [groupIndex] is the position of an id in [orderedGroups]. *)
Definition pushOption (orderedGroups : list OptionGroup) (option : AiContextWidgetOption) : list OptionGroup :=
  let groupId := groupIdOf option in
  match findIndex (group_has_id groupId) orderedGroups with
  | None => orderedGroups ++ [mkGroup groupId (groupTitleOf option) [option]]
  | Some existingIndex =>
      alter (fun g => mkGroup (og_id g) (og_title g) (og_options g ++ [option])) existingIndex orderedGroups
  end.
Definition groupedOptions (options : list AiContextWidgetOption) : list OptionGroup := foldl pushOption [] options.

Definition toggleOption (value : list string) (nextValue : string) : list string :=
  if includes nextValue value then filterb (fun currentValue => negb (bool_decide (currentValue = nextValue))) value
  else value ++ [nextValue].

(** What is shown of an option: its text, its meta, whether it is selected. *)
Record OptionRow := mkOptionRow { or_value : string; or_text : string; or_meta : option string; or_isSelected : bool }.
Definition optionRow (value : list string) (option : AiContextWidgetOption) : OptionRow :=
  mkOptionRow (co_value option) (co_title option ?? co_label option) (truthyOpt (co_meta option))
    (includes (co_value option) value).
Definition optionAction (row : OptionRow) : string := if or_isSelected row then "Selected" else "Add".
(** The groups with their titles, or the text of an empty list. *)
Definition shownGroups (options : list AiContextWidgetOption) (query : string) (value : list string)
    : list (option string * list OptionRow) + string :=
  match groupedOptions (filteredOptions options query) with
  | [] => inr "No matching options"
  | groups => inl ((fun g => (truthyOpt (og_title g), optionRow value <$> og_options g)) <$> groups)
  end.
End MultiSelect.

(** ** The composer *)

Record ComposerProps := mkComposerProps {
  cz_availableModels : list string;
  cz_availableProviders : list (string * string);
  cz_availableProfiles : list AiAgentSelectionOption;
  cz_availableRoles : list AiAgentSelectionOption;
  cz_availableModes : list AiAgentSelectionOption;
  cz_attachments : list AgentAttachmentReference;
  cz_recentAttachments : list AgentAttachmentReference;
  cz_selectedProviderID : option string;
  cz_selectedModel : option string;
  cz_selectedProfileID : option string;
  cz_selectedRoleID : option string;
  cz_selectedModeID : option string;
  cz_contextWidgetOptions : list AiContextWidgetOption;
  cz_activeContextWidgetID : option string;
  cz_activeContextWidgetOption : option AiContextWidgetOption;
  cz_selectedContextWidgetIDs : list string;
  cz_isWidgetContextEnabled : bool;
  cz_contextWidgetLoadError : option string;
  cz_missingContextWidgetCount : Z;
  cz_disabled : bool;
  cz_isSubmitting : bool;
  cz_isAttachmentLibraryPending : bool;
  cz_submitDisabled : bool;
  cz_cancels : bool;                            (* onCancelSubmit is given *)
  cz_submitMode : AgentComposerSubmitMode;
  cz_locale : AppLocale
}.

Section View.
Variable p : ComposerProps.
Let copy : AiComposerCopy := composerCopy (cz_locale p).

(** The selected value when it is available, or the first one. *)
Definition chosenValue (available : list string) (selected : option string) : string :=
  match truthyOpt selected with
  | Some x => if includes x available then x else head available ?? ""
  | None => head available ?? ""
  end.
Definition modelValue : string := chosenValue (cz_availableModels p) (cz_selectedModel p).
Definition providerValue : string := chosenValue (fst <$> cz_availableProviders p) (cz_selectedProviderID p).
Definition profileValue : string := chosenValue (ao_value <$> cz_availableProfiles p) (cz_selectedProfileID p).
Definition roleValue : string := chosenValue (ao_value <$> cz_availableRoles p) (cz_selectedRoleID p).
Definition modeValue : string := chosenValue (ao_value <$> cz_availableModes p) (cz_selectedModeID p).
Definition localizedModes : list AiAgentSelectionOption :=
  (fun mode => localizeAiAgentModeOption mode (cz_locale p)) <$> cz_availableModes p.

(** The titles of the selects. *)
Definition labelOfValue (options : list (string * string)) (x : string) : string :=
  (snd <$> find (fun o => bool_decide (fst o = x)) options) ?? x.
Definition valueAndLabel (o : AiAgentSelectionOption) : string * string := (ao_value o, ao_label o).
Definition selectedProviderLabel : string := labelOfValue (cz_availableProviders p) providerValue.
Definition selectedProfileLabel : string := labelOfValue (valueAndLabel <$> cz_availableProfiles p) profileValue.
Definition selectedRoleLabel : string := labelOfValue (valueAndLabel <$> cz_availableRoles p) roleValue.
Definition selectedModeLabel : string := labelOfValue (valueAndLabel <$> localizedModes) modeValue.
Definition tuneSummary : string :=
  join middle_dot (filterb (fun segment => negb (bool_decide (trimText segment = ""))) [profileValue; roleValue; modeValue]).
Definition tuneTitle : string := truthyOpt (Some tuneSummary) ?? acm_tuneFallback copy.

Definition selectedContextCount : nat := length (cz_selectedContextWidgetIDs p).
Definition optionOf (widgetID : string) : option AiContextWidgetOption :=
  find (fun option => bool_decide (co_value option = widgetID)) (cz_contextWidgetOptions p).
Definition selectedContextOptions : list AiContextWidgetOption := mapFilter optionOf (cz_selectedContextWidgetIDs p).
Definition optionTitle (option : AiContextWidgetOption) : string := co_title option ?? co_label option.

Definition contextSummaryPrimary : string :=
  if negb (cz_isWidgetContextEnabled p) then acm_contextOff copy
  else match selectedContextCount with
       | 0 => (cz_activeContextWidgetOption p ≫= co_title) ?? acm_contextWidgets copy
       | 1 => (head selectedContextOptions ≫= co_title) ?? acm_widgetCount copy 1
       | n => acm_widgetCount copy n
       end.
Definition contextSummarySecondary : string :=
  if negb (cz_isWidgetContextEnabled p) then acm_excludedFromRequest copy
  else match selectedContextCount with
       | 0 => (cz_activeContextWidgetOption p ≫= co_meta) ?? acm_useCurrentWidgetHint copy
       | 1 => (head selectedContextOptions ≫= co_meta) ?? acm_selectedForRequest copy
       | n => join ", " (optionTitle <$> take 2 selectedContextOptions) +:+
              (if 2 <? n then " +" +:+ showNat (n - 2) else "")
       end.
Definition isCurrentContextWidgetSelected : bool :=
  match cz_activeContextWidgetID p with
  | Some x => includes x (cz_selectedContextWidgetIDs p)
  | None => false
  end.
Definition showCurrentContextStrip : option AiContextWidgetOption :=
  if cz_isWidgetContextEnabled p && (selectedContextCount =? 0) then cz_activeContextWidgetOption p else None.
Definition areAllWidgetsSelected : bool :=
  let allContextWidgetIDs := co_value <$> cz_contextWidgetOptions p in
  (0 <? length (cz_contextWidgetOptions p)) &&
  forallb (fun widgetID => includes widgetID (cz_selectedContextWidgetIDs p)) allContextWidgetIDs &&
  (length (cz_selectedContextWidgetIDs p) =? length (cz_contextWidgetOptions p)).

(** The strip of the context: the chips with the id that each removes, and the
    text of the current widget. *)
Definition contextStrip : option (list (string * string) * option string) :=
  match selectedContextOptions, showCurrentContextStrip with
  | [], None => None
  | chips, current =>
      if cz_isWidgetContextEnabled p
      then Some ((fun option => (co_value option, optionTitle option)) <$> chips,
                 (fun option => acm_currentPrefix copy +:+ " " +:+ optionTitle option) <$> current)
      else None
  end.
(** The texts at the head of the menu, and of the badge. *)
Definition contextMenuMeta : string :=
  if 0 <? selectedContextCount then acm_selectedCount copy selectedContextCount else acm_noWidgetsSelected copy.
Definition currentContextText : string :=
  ((cz_activeContextWidgetOption p ≫= co_title) ?? acm_noActiveWidget copy) +:+
  match truthyOpt (cz_activeContextWidgetOption p ≫= co_meta) with Some meta => middle_dot +:+ meta | None => "" end.
Definition contextBadgeText : string :=
  if cz_isWidgetContextEnabled p then acm_contextBadge copy selectedContextCount else acm_contextBadgeOff copy.
Definition recentAttachmentsLabel : string :=
  if cz_isAttachmentLibraryPending p then acm_recentAttachmentsLoading copy else acm_recentAttachments copy.
(** The notice of missing widgets, which is shown once: in the menu or above it. *)
Definition missingNotice : option string :=
  if (0 <? cz_missingContextWidgetCount p)%Z
  then Some (acm_missingSavedWidgets copy (Z.to_nat (cz_missingContextWidgetCount p))) else None.
End View.

(** ** The menus and the callbacks *)

(** Which menu is open, and the search of the select that the menu of the
    context mounts. *)
Record ComposerState := mkComposer { cm_isContextMenuOpen : bool; cm_isTuneMenuOpen : bool; cm_query : string }.
Definition initialComposer : ComposerState := mkComposer false false "".

Inductive ComposerCall :=
  | OnSubmit | OnCancelSubmit
  | OnValueChange (value : string)
  | OnProviderChange (value : string) | OnModelChange (value : string)
  | OnProfileChange (value : string) | OnRoleChange (value : string) | OnModeChange (value : string)
  | OnContextOptionsOpen
  | OnContextUseCurrentWidget | OnContextOnlyUseCurrentWidget | OnContextUseAllWidgets | OnContextUseDefault
  | OnRepairMissingContextWidgets
  | OnSelectedContextWidgetIDsChange (widgetIDs : list string)
  | OnWidgetContextEnabledChange (value : bool)
  | OnRemoveAttachment (attachmentID : string)
  | OnReuseRecentAttachment (attachment : AgentAttachmentReference)
  | OnDeleteStoredAttachment (attachmentID : string).
#[global] Instance composer_call_eq : EqDecision ComposerCall.
Proof. solve_decision. Defined.

Definition handleRemoveContextWidget (p : ComposerProps) (widgetID : string) : list ComposerCall :=
  [OnSelectedContextWidgetIDsChange
     (filterb (fun selectedWidgetID => negb (bool_decide (selectedWidgetID = widgetID))) (cz_selectedContextWidgetIDs p))].

(** A closed menu unmounts its select. *)
Definition closeMenus (c : ComposerState) : ComposerState := initialComposer.
Definition handleToggleContextMenu (c : ComposerState) : ComposerState * list ComposerCall :=
  let nextValue := negb (cm_isContextMenuOpen c) in
  if nextValue then (mkComposer true false "", [OnContextOptionsOpen])
  else (mkComposer false (cm_isTuneMenuOpen c) "", []).
Definition handleToggleTuneMenu (c : ComposerState) : ComposerState * list ComposerCall :=
  let nextValue := negb (cm_isTuneMenuOpen c) in
  if nextValue then (mkComposer false true "", []) else (mkComposer (cm_isContextMenuOpen c) false (cm_query c), []).

(** What the refs of the menus contain: the menu of the context without its
    button, and the tune menu with its button. *)
Inductive Place := InContextMenu | InTuneMenu | Elsewhere.
#[global] Instance place_eq : EqDecision Place.
Proof. solve_decision. Defined.

(** The listeners of the effect, which are there while a menu is open. *)
Definition menuOpen (c : ComposerState) : bool := cm_isContextMenuOpen c || cm_isTuneMenuOpen c.
Definition handlePointerDown (place : Place) (c : ComposerState) : ComposerState :=
  if negb (menuOpen c) then c
  else
    let isInsideContextMenu := bool_decide (place = InContextMenu) in
    let isInsideTuneMenu := bool_decide (place = InTuneMenu) in
    if negb isInsideContextMenu && negb isInsideTuneMenu then closeMenus c else c.
Definition handleKeyDown (key : string) (c : ComposerState) : ComposerState :=
  if negb (menuOpen c) then c else if decide (key = "Escape") then closeMenus c else c.

Record ComposerKey := mkComposerKey {
  ck_key : string;
  ck_shiftKey : bool;
  ck_ctrlKey : bool;
  ck_metaKey : bool;
  ck_altKey : bool;
  ck_isComposing : bool
}.

(** The key of a mode that sends, which is also the key whose default is prevented. *)
Definition sendsKey (submitMode : AgentComposerSubmitMode) (k : ComposerKey) : bool :=
  match submitMode with
  | EnterSends =>
      bool_decide (ck_key k = "Enter") && negb (ck_shiftKey k) && negb (ck_ctrlKey k) && negb (ck_metaKey k) && negb (ck_altKey k)
  | ModEnterSends => bool_decide (ck_key k = "Enter") && (ck_ctrlKey k || ck_metaKey k) && negb (ck_altKey k)
  end.
Definition handleTextAreaKeyDown (p : ComposerProps) (k : ComposerKey) : bool * list ComposerCall :=
  if cz_disabled p || ck_isComposing k then (false, [])
  else if sendsKey (cz_submitMode p) k then (true, if cz_submitDisabled p then [] else [OnSubmit])
  else (false, []).

(** The controls, with what the user gives them. *)
Inductive ComposerControl :=
  | ProviderSelect (value : string) | ModelSelect (value : string)
  | ProfileSelect (value : string) | RoleSelect (value : string) | ModeSelect (value : string)
  | TuneTrigger | ContextTrigger
  | ContextChip (widgetID : string)
  | AttachmentChip (attachmentID : string)
  | ReuseAttachment (attachment : AgentAttachmentReference)
  | DeleteAttachment (attachmentID : string)
  | RepairInline | RepairInMenu
  | UseCurrent | OnlyCurrent | AllWidgets | UseDefault
  | ContextSwitch (value : bool)
  | SearchWidgets (query : string)
  | WidgetOption (value : string)
  | DraftText (value : string)
  | CancelButton | SendButton.

Section Machine.
Variable p : ComposerProps.

(** Where a control is. *)
Definition placeOf (control : ComposerControl) : Place :=
  match control with
  | ProfileSelect _ | RoleSelect _ | ModeSelect _ | TuneTrigger => InTuneMenu
  | RepairInMenu | UseCurrent | OnlyCurrent | AllWidgets | UseDefault | ContextSwitch _ | SearchWidgets _
  | WidgetOption _ => InContextMenu
  | _ => Elsewhere
  end.

Definition someItems {A} (l : list A) : bool := 0 <? length l.
Definition contextOption : bool := bool_decide (is_Some (cz_activeContextWidgetOption p)).
Definition shownOptions (c : ComposerState) : list AiContextWidgetOption :=
  mjoin (MultiSelect.og_options <$> MultiSelect.groupedOptions (MultiSelect.filteredOptions (cz_contextWidgetOptions p) (cm_query c))).
(** The button of the response is the cancel button or the send button. *)
Definition showsCancel : bool := cz_isSubmitting p && cz_cancels p.

(** The control is rendered and not disabled. *)
Definition offers (c : ComposerState) (control : ComposerControl) : bool :=
  let enabled := negb (cz_disabled p) in
  let inContext := cm_isContextMenuOpen c in
  let missing := (0 <? cz_missingContextWidgetCount p)%Z in
  match control with
  | ProviderSelect x => enabled && includes x (fst <$> cz_availableProviders p)
  | ModelSelect x => enabled && includes x (cz_availableModels p)
  | ProfileSelect x => enabled && cm_isTuneMenuOpen c && includes x (ao_value <$> cz_availableProfiles p)
  | RoleSelect x => enabled && cm_isTuneMenuOpen c && includes x (ao_value <$> cz_availableRoles p)
  | ModeSelect x => enabled && cm_isTuneMenuOpen c && includes x (ao_value <$> cz_availableModes p)
  | TuneTrigger =>
      enabled && (someItems (cz_availableProfiles p) || someItems (cz_availableRoles p) || someItems (cz_availableModes p))
  | ContextTrigger => enabled
  | ContextChip x =>
      match contextStrip p with Some (chips, _) => includes x (fst <$> chips) | None => false end
  | AttachmentChip x => enabled && includes x (at_id <$> cz_attachments p)
  | ReuseAttachment a => includes a (cz_recentAttachments p)
  | DeleteAttachment x => includes x (at_id <$> cz_recentAttachments p)
  | RepairInline => enabled && missing && negb inContext
  | RepairInMenu => enabled && missing && inContext
  | UseCurrent => inContext && enabled && contextOption && negb (isCurrentContextWidgetSelected p)
  | OnlyCurrent => inContext && enabled && contextOption
  | AllWidgets => inContext && enabled && someItems (cz_contextWidgetOptions p) && negb (areAllWidgetsSelected p)
  | UseDefault => inContext && enabled && (cz_isWidgetContextEnabled p || someItems (cz_selectedContextWidgetIDs p))
  | ContextSwitch value => inContext && enabled && negb (bool_decide (value = cz_isWidgetContextEnabled p))
  | SearchWidgets _ => inContext
  | WidgetOption x => inContext && includes x (co_value <$> shownOptions c)
  | DraftText _ => enabled
  | CancelButton => showsCancel
  | SendButton => negb showsCancel && negb (cz_submitDisabled p)
  end.

(** What the handler of the control does. *)
Definition useControl (control : ComposerControl) (c : ComposerState) : ComposerState * list ComposerCall :=
  match control with
  | ProviderSelect x => (c, [OnProviderChange x])
  | ModelSelect x => (c, [OnModelChange x])
  | ProfileSelect x => (c, [OnProfileChange x])
  | RoleSelect x => (c, [OnRoleChange x])
  | ModeSelect x => (c, [OnModeChange x])
  | TuneTrigger => handleToggleTuneMenu c
  | ContextTrigger => handleToggleContextMenu c
  | ContextChip x => (c, handleRemoveContextWidget p x)
  | AttachmentChip x => (c, [OnRemoveAttachment x])
  | ReuseAttachment a => (c, [OnReuseRecentAttachment a])
  | DeleteAttachment x => (c, [OnDeleteStoredAttachment x])
  | RepairInline | RepairInMenu => (c, [OnRepairMissingContextWidgets])
  | UseCurrent => (c, [OnContextUseCurrentWidget])
  | OnlyCurrent => (c, [OnContextOnlyUseCurrentWidget])
  | AllWidgets => (c, [OnContextUseAllWidgets])
  | UseDefault => (c, [OnContextUseDefault])
  | ContextSwitch value => (c, [OnWidgetContextEnabledChange value])
  | SearchWidgets query => (mkComposer (cm_isContextMenuOpen c) (cm_isTuneMenuOpen c) query, [])
  | WidgetOption x => (c, [OnSelectedContextWidgetIDsChange (MultiSelect.toggleOption (cz_selectedContextWidgetIDs p) x)])
  | DraftText value => (c, [OnValueChange value])
  | CancelButton => (c, [OnCancelSubmit])
  | SendButton => (c, [OnSubmit])
  end.

(** A press of a control is a pointer down where it is, and its handler when
    the control is still offered after that; by the keyboard, and for a text
    that is typed, there is no pointer. *)
Inductive ComposerEvent :=
  | Pressed (control : ComposerControl)
  | Activated (control : ComposerControl)
  | PressedOutside
  | TextAreaKey (k : ComposerKey)
  | WindowKey (key : string).

Definition composerStep (c : ComposerState) (e : ComposerEvent) : ComposerState * list ComposerCall :=
  match e with
  | Pressed control =>
      let c := if offers c control then handlePointerDown (placeOf control) c else c in
      if offers c control then useControl control c else (c, [])
  | Activated control => if offers c control then useControl control c else (c, [])
  | PressedOutside => (handlePointerDown Elsewhere c, [])
  | TextAreaKey k => (handleKeyDown (ck_key k) c, if cz_disabled p then [] else snd (handleTextAreaKeyDown p k))
  | WindowKey key => (handleKeyDown key c, [])
  end.
End Machine.

(** A run in which the properties may change at every event. *)
Fixpoint runComposer (c : ComposerState) (es : list (ComposerProps * ComposerEvent)) : ComposerState * list ComposerCall :=
  match es with
  | [] => (c, [])
  | (p, e) :: es =>
      let '(c1, calls) := composerStep p c e in
      let '(c2, more) := runComposer c1 es in
      (c2, calls ++ more)
  end.

(** * Lemmas *)

Lemma dedupe_from_snoc `{EqDecision A} (seen l : list A) (x : A) :
  dedupe_from seen (l ++ [x]) = dedupe_from seen l ++ (if decide (x ∈ seen \/ x ∈ l) then [] else [x]).
Proof.
  revert seen. induction l as [|y l IH]; intros seen; cbn [dedupe_from app].
  - destruct (includes x seen) eqn:E; [apply includes_true in E|apply includes_false in E]; case_decide; set_solver.
  - destruct (includes y seen) eqn:E; [apply includes_true in E|apply includes_false in E]; rewrite IH.
    + destruct (decide (x ∈ seen \/ x ∈ l)), (decide (x ∈ seen \/ x ∈ y :: l)); set_solver.
    + cbn. do 2 f_equal. destruct (decide (x ∈ y :: seen \/ x ∈ l)), (decide (x ∈ seen \/ x ∈ y :: l)); set_solver.
Qed.

Section GroupLemmas.
Import MultiSelect.

(** The groups by their definition: the ids in the order of their first
    options, each with its options in their order. *)
Definition groupOf (l : list AiContextWidgetOption) (x : string) : OptionGroup :=
  mkGroup x (if decide (x = ungrouped) then None else Some x) (filterb (fun o => bool_decide (groupIdOf o = x)) l).
Definition groupsOf (l : list AiContextWidgetOption) : list OptionGroup := groupOf l <$> dedupe (groupIdOf <$> l).

Lemma group_title o : groupTitleOf o = if decide (groupIdOf o = ungrouped) then None else Some (groupIdOf o).
Proof.
  unfold groupTitleOf. case_decide as Hd; [done|]. revert Hd. unfold groupIdOf, trimmedTextOr.
  destruct (co_group o) as [g|]; [|by intros []]. cbn [fmap option_fmap option_map].
  destruct (truthyOpt (Some (trimText g))) as [y|] eqn:E; [|by intros []].
  apply truthyOpt_Some in E. by destruct E as [[= ->] _].
Qed.

Lemma group_index l x :
  match findIndex (group_has_id x) (groupsOf l) with
  | Some i => dedupe (groupIdOf <$> l) !! i = Some x
  | None => x ∉ groupIdOf <$> l
  end.
Proof.
  destruct (findIndex _ _) as [i|] eqn:E.
  - apply findIndex_Some in E. destruct E as (g & Hg & Hx & _). unfold groupsOf in Hg. rewrite list_lookup_fmap in Hg.
    destruct (dedupe (groupIdOf <$> l) !! i) as [y|] eqn:Ey; [|done]. cbn in Hg. injection Hg as <-.
    apply bool_decide_eq_true in Hx. cbn in Hx. congruence.
  - rewrite findIndex_None in E. intros Hx. apply elem_of_dedupe in Hx.
    specialize (E (groupOf l x)). unfold group_has_id in E. cbn in E. rewrite bool_decide_true in E; [|done].
    enough (true = false) by done. apply E. unfold groupsOf. apply list_elem_of_fmap. by exists x.
Qed.

Lemma group_snoc l o x :
  groupOf (l ++ [o]) x =
  if decide (groupIdOf o = x)
  then mkGroup (og_id (groupOf l x)) (og_title (groupOf l x)) (og_options (groupOf l x) ++ [o]) else groupOf l x.
Proof.
  unfold groupOf. unfold filterb. rewrite List.filter_app. cbn. destruct (decide (groupIdOf o = x)) as [Hx|Hx].
  - by rewrite bool_decide_eq_true_2.
  - by rewrite bool_decide_eq_false_2, app_nil_r.
Qed.

Lemma push_groups l o : pushOption (groupsOf l) o = groupsOf (l ++ [o]).
Proof.
  unfold pushOption. pose proof (group_index l (groupIdOf o)) as Hi.
  destruct (findIndex _ _) as [i|].
  - unfold groupsOf, dedupe. rewrite (fmap_app groupIdOf), list_fmap_singleton, dedupe_from_snoc, decide_True, app_nil_r
      by (right; rewrite <- elem_of_dedupe; by eapply list_elem_of_lookup_2).
    fold (dedupe (groupIdOf <$> l)). apply list_eq. intros j. rewrite (list_lookup_fmap (groupOf (l ++ [o]))).
    destruct (decide (i = j)) as [<-|Hj].
    + rewrite list_lookup_alter_eq, list_lookup_fmap, Hi. cbn [fmap option_fmap option_map].
      by rewrite group_snoc, decide_True.
    + rewrite list_lookup_alter_ne, list_lookup_fmap by done.
      destruct (dedupe (groupIdOf <$> l) !! j) as [y|] eqn:Ey; [|done]. cbn. rewrite group_snoc, decide_False; [done|].
      intros <-. apply Hj. exact (NoDup_lookup _ _ _ _ (dedupe_from_NoDup [] (groupIdOf <$> l)) Hi Ey).
  - unfold groupsOf, dedupe. rewrite (fmap_app groupIdOf), list_fmap_singleton, dedupe_from_snoc, decide_False by set_solver.
    fold (dedupe (groupIdOf <$> l)). rewrite fmap_app. f_equal.
    + apply list_fmap_ext. intros j y Hy. rewrite group_snoc, decide_False; [done|].
      intros <-. apply Hi. rewrite <- elem_of_dedupe. by eapply list_elem_of_lookup_2.
    + cbn. rewrite group_snoc, decide_True by done. rewrite group_title. f_equal. f_equal; cbn.
      rewrite filterb_none; [done|]. intros o' Ho'. apply bool_decide_eq_false. intros Hx. apply Hi. rewrite <- Hx.
      by apply list_elem_of_fmap_2.
Qed.
Lemma grouped_is_groups l : groupedOptions l = groupsOf l.
Proof.
  unfold groupedOptions. induction l as [|o l IH] using rev_ind; [done|].
  by rewrite foldl_app, IH, <- push_groups.
Qed.

Lemma push_permutes l o :
  mjoin (og_options <$> pushOption l o) ≡ₚ mjoin (og_options <$> l) ++ [o].
Proof.
  unfold pushOption. destruct (findIndex _ _) as [i|] eqn:E.
  - apply findIndex_lt in E. revert i E. induction l as [|g l IH]; intros i Hi; [cbn in Hi; lia|].
    destruct i as [|i]; cbn.
    + rewrite <- !app_assoc. apply Permutation_app_head, Permutation_app_comm.
    + rewrite <- app_assoc. apply Permutation_app_head, IH. cbn in Hi. lia.
  - rewrite fmap_app, join_app. done.
Qed.

(** The select groups the options that it found by their group: a group for
    every group id, in the order in which the ids come first, with exactly the
    options of that id in their order.  No option is lost or shown twice. *)
Theorem options_grouped options query :
  groupedOptions (filteredOptions options query) = groupsOf (filteredOptions options query) /\
  mjoin (og_options <$> groupedOptions (filteredOptions options query)) ≡ₚ filteredOptions options query.
Proof.
  split; [apply grouped_is_groups|].
  generalize (filteredOptions options query) as l. intros l.
  unfold groupedOptions. induction l as [|o l IH] using rev_ind; [done|].
  rewrite foldl_app. cbn [foldl]. by rewrite push_permutes, IH.
Qed.

(** A toggle selects what was not selected and the other way round, and keeps the rest. *)
Lemma elem_of_toggle value x y :
  y ∈ toggleOption value x <-> (if decide (y = x) then x ∉ value else y ∈ value).
Proof.
  unfold toggleOption. destruct (includes x value) eqn:E; [apply includes_true in E|apply includes_false in E].
  - rewrite elem_of_filterb. case_decide as Hd; [subst|].
    + rewrite bool_decide_eq_true_2 by done. naive_solver.
    + rewrite bool_decide_eq_false_2 by done. naive_solver.
  - rewrite elem_of_app, list_elem_of_singleton. case_decide; naive_solver.
Qed.
Lemma toggle_NoDup value x : NoDup value -> NoDup (toggleOption value x).
Proof.
  intros Hv. unfold toggleOption. destruct (includes x value) eqn:E; [by apply NoDup_filterb|].
  apply includes_false in E. apply NoDup_app. split; [done|]. split; [|apply NoDup_singleton]. set_solver.
Qed.
(** Adding and removing again gives the selection back. *)
Lemma toggle_twice value x : x ∉ value -> toggleOption (toggleOption value x) x = value.
Proof.
  intros Hx. unfold toggleOption. rewrite (proj2 (includes_false x value)) by done.
  rewrite (proj2 (includes_true x (value ++ [x]))) by set_solver.
  unfold filterb. rewrite List.filter_app. cbn. rewrite bool_decide_eq_true_2, app_nil_r by done.
  apply filterb_all. intros y Hy. rewrite bool_decide_eq_false_2; [done|]. by intros ->.
Qed.
End GroupLemmas.

(** ** The menus *)

(** One menu at most is open, and a search is in an open menu. *)
Definition menus_ok (c : ComposerState) : Prop :=
  (cm_isContextMenuOpen c && cm_isTuneMenuOpen c = false) /\
  (cm_isContextMenuOpen c = false -> cm_query c = "").

Lemma closed_ok c : menus_ok (closeMenus c).
Proof. done. Qed.
Lemma context_toggle_ok c : menus_ok c -> menus_ok (fst (handleToggleContextMenu c)).
Proof. destruct c as [[] [] q]; intros [? ?]; unfold menus_ok; cbn in *; naive_solver. Qed.
Lemma tune_toggle_ok c : menus_ok c -> menus_ok (fst (handleToggleTuneMenu c)).
Proof. destruct c as [[] [] q]; intros [? ?]; unfold menus_ok; cbn in *; naive_solver. Qed.
Lemma pointer_ok place c : menus_ok c -> menus_ok (handlePointerDown place c).
Proof. unfold handlePointerDown. intros Hc. by repeat case_match; try apply closed_ok. Qed.
Lemma key_ok key c : menus_ok c -> menus_ok (handleKeyDown key c).
Proof. unfold handleKeyDown. intros Hc. by repeat case_match; try apply closed_ok. Qed.
Lemma use_ok p control c : offers p c control = true -> menus_ok c -> menus_ok (fst (useControl p control c)).
Proof.
  intros Ho Hc. destruct control; try exact Hc; [by apply tune_toggle_ok|by apply context_toggle_ok|].
  cbn in Ho. destruct Hc as [Hc _]. split; cbn; [done|]. by rewrite Ho.
Qed.
Create HintDb composer.
#[export] Hint Resolve closed_ok context_toggle_ok tune_toggle_ok pointer_ok key_ok use_ok : composer.

Lemma composer_step_ok p c e : menus_ok c -> menus_ok (fst (composerStep p c e)).
Proof. intros Hc. destruct e as [control|control| |k|key]; cbn; repeat case_match; eauto with composer. Qed.

(** Whatever happens and however the properties change meanwhile, one menu at
    most is open, and a menu that is closed keeps no search. *)
Theorem menus_exclusive es : menus_ok (fst (runComposer initialComposer es)).
Proof.
  enough (forall c, menus_ok c -> menus_ok (fst (runComposer c es))) as Hgo by by apply Hgo.
  induction es as [|[p e] es IH]; intros c Hc; [done|]. cbn.
  pose proof (composer_step_ok p c e Hc) as H1. destruct (composerStep p c e) as [c1 calls]. specialize (IH c1 H1).
  by destruct (runComposer c1 es).
Qed.

(** The button of the menu of the context is outside of what its ref contains:
    a press of it closes the menu and opens it again. *)
Lemma context_trigger_reopens p c :
  cm_isContextMenuOpen c = true -> cz_disabled p = false ->
  composerStep p c (Pressed ContextTrigger) = (mkComposer true false "", [OnContextOptionsOpen]).
Proof. intros Hc Hd. destruct c as [[] [] q]; try done; cbn; by rewrite Hd. Qed.
(** The button of the tune menu closes it. *)
Lemma tune_trigger_closes p c :
  cm_isTuneMenuOpen c = true -> offers p c TuneTrigger = true ->
  cm_isTuneMenuOpen (fst (composerStep p c (Pressed TuneTrigger))) = false.
Proof.
  intros Hc Ho. unfold composerStep. rewrite Ho.
  assert (handlePointerDown (placeOf TuneTrigger) c = c) as ->.
  { unfold handlePointerDown, menuOpen. by rewrite Hc, orb_true_r. }
  rewrite Ho. cbn. unfold handleToggleTuneMenu. by rewrite Hc.
Qed.

(** ** The values that are shown *)

Lemma chosen_available available selected :
  available <> [] -> chosenValue available selected ∈ available.
Proof.
  intros Ha. unfold chosenValue. assert (head available ?? "" ∈ available) as Hh by (destruct available; [done|left]).
  destruct (truthyOpt selected) as [x|]; [|done]. destruct (includes x available) eqn:E; [by apply includes_true|done].
Qed.

(** ** Submissions *)

(** A submission is asked for by a key of the mode in an enabled text, or by
    the button, and only when submitting is not disabled. *)
Lemma submit_called p c e :
  OnSubmit ∈ snd (composerStep p c e) -> cz_submitDisabled p = false.
Proof.
  assert (forall control c, OnSubmit ∈ snd (if offers p c control then useControl p control c else (c, [])) ->
    cz_submitDisabled p = false) as Hu.
  { intros control c' Hs. destruct (offers p c' control) eqn:Ho; [|by apply elem_of_nil in Hs].
    destruct control; cbn in Hs;
      repeat (unfold handleToggleTuneMenu, handleToggleContextMenu, handleRemoveContextWidget in Hs; case_match; cbn in Hs);
      try solve [set_solver].
    cbn in Ho. by bool_prop. }
  destruct e as [control|control| |k|key]; cbn [composerStep].
  - apply Hu.
  - apply Hu.
  - set_solver.
  - cbn. unfold handleTextAreaKeyDown. repeat (case_match; cbn); set_solver.
  - set_solver.
Qed.
