(* ===== verification/AiPanelView.v ===== *)
(** * The view of the agent panel

    [frontend/src/widgets/ai/ai-panel-widget.tsx]: how the widget of the panel
    gives its state to the composer ([Composer]) and the callbacks of the
    composer to the panel ([AgentPanel]), which messages are grouped, and the
    scrolling of the messages.  The two attachments callbacks and the model of
    [use-agent-panel.ts] that only the composer calls are here too. *)
From Stdlib Require Import Ascii String.
From stdpp Require Import strings.
From S2P Require Import Prelude JsString Text RuntimePath Http Sse Conversation Interaction MessageView AgentContext Providers Effects AgentState Execution Conversations PanelRuntime Approval AgentPanel SettingsApi SharedModel WidgetTexts AppSidebar Composer.
Local Open Scope string_scope.
Local Open Scope list_scope.
Local Open Scope nat_scope.
Local Open Scope js_scope.
Local Open Scope prog_scope.

(** ** The composer of the panel *)

Definition selectionOption (item : string * string * string) : AiAgentSelectionOption :=
  mkSelectionOption (fst (fst item)) (snd (fst item)) (Some (snd item)).
Definition selectionOptions (items : option (list AgentSelectionItem)) : list AiAgentSelectionOption :=
  match items with Some items => selectionOption <$> agentSelectionOptionsFromItems items | None => [] end.

(** [activeContextWidgetID] and [activeContextWidgetOption] of the hook. *)
Definition activeContextWidgetID (selection : ContextSelection) : string :=
  resolveCurrentContextWidgetID selection (cs_contextWidgetOptions selection) None.
Definition activeContextWidgetOption (selection : ContextSelection) : option AiContextWidgetOption :=
  let active := activeContextWidgetID selection in
  if negb (truthy active) then None
  else find (fun option => bool_decide (co_value option = active)) (cs_contextWidgetOptions selection).

(** The properties of a composer that a panel drives. *)
Definition panelComposerProps (env : PanelEnv) (panel : AgentState) (isAttachmentLibraryPending : bool)
    (submitMode : AgentComposerSubmitMode) (locale : AppLocale) : ComposerProps :=
  let provider := as_provider panel in
  let catalog := pr_agentCatalog provider in
  let selection := selectionOf env panel in
  let disabled := isConversationBusy panel in
  {| cz_availableModels := pr_availableModels provider;
     cz_availableProviders := providerOptionsFromCatalog (pr_catalog provider);
     cz_availableProfiles := selectionOptions (ac_profiles <$> catalog);
     cz_availableRoles := selectionOptions (ac_roles <$> catalog);
     cz_availableModes := selectionOptions (ac_modes <$> catalog);
     cz_attachments := sb_attachments (as_submit panel);
     cz_recentAttachments := pr_recentAttachments provider;
     cz_selectedProviderID := Some (pr_selectedProviderID provider);
     cz_selectedModel := Some (pr_selectedModel provider);
     cz_selectedProfileID := Some ((ac_profileID <$> catalog) ?? "");
     cz_selectedRoleID := Some ((ac_roleID <$> catalog) ?? "");
     cz_selectedModeID := Some ((ac_modeID <$> catalog) ?? "");
     cz_contextWidgetOptions := cs_contextWidgetOptions selection;
     cz_activeContextWidgetID := Some (activeContextWidgetID selection);
     cz_activeContextWidgetOption := activeContextWidgetOption selection;
     cz_selectedContextWidgetIDs := effectiveContextWidgetIDs selection;
     cz_isWidgetContextEnabled := cs_isWidgetContextEnabled selection;
     cz_contextWidgetLoadError := cw_loadError (as_context panel);
     cz_missingContextWidgetCount := resolvedMissingContextWidgetCount selection;
     cz_disabled := disabled;
     cz_isSubmitting := sb_isSubmitting (as_submit panel) && sb_isResponseCancellable (as_submit panel);
     cz_isAttachmentLibraryPending := isAttachmentLibraryPending;
     cz_submitDisabled := disabled || bool_decide (trimText (sb_draft (as_submit panel)) = "");
     cz_cancels := true;
     cz_submitMode := submitMode;
     cz_locale := locale |}.

(** Those of a panel that shows a given state: the defaults, and nothing can be submitted. *)
Definition stateComposerProps (submitMode : AgentComposerSubmitMode) (locale : AppLocale) : ComposerProps :=
  {| cz_availableModels := []; cz_availableProviders := []; cz_availableProfiles := []; cz_availableRoles := [];
     cz_availableModes := []; cz_attachments := []; cz_recentAttachments := [];
     cz_selectedProviderID := None; cz_selectedModel := None; cz_selectedProfileID := None; cz_selectedRoleID := None;
     cz_selectedModeID := None; cz_contextWidgetOptions := []; cz_activeContextWidgetID := None;
     cz_activeContextWidgetOption := None; cz_selectedContextWidgetIDs := []; cz_isWidgetContextEnabled := true;
     cz_contextWidgetLoadError := None; cz_missingContextWidgetCount := 0; cz_disabled := false;
     cz_isSubmitting := false; cz_isAttachmentLibraryPending := false; cz_submitDisabled := true; cz_cancels := false;
     cz_submitMode := submitMode; cz_locale := locale |}.

(** ** The callbacks of the composer *)

Definition setSelectedModel (model : string) : AgentState -> AgentState :=
  on_provider (fun p => mkProviderState (pr_catalog p) (pr_selectedProviderID p) (pr_availableModels p) model
    (pr_gateway p) (pr_gatewayError p) (pr_isGatewayPending p) (pr_isRoutePreparing p) (pr_isRouteProbing p)
    (pr_history p) (pr_historyTotal p) (pr_historyError p) (pr_isHistoryPending p) (pr_agentCatalog p)
    (pr_recentAttachments p)).
Definition removeQueuedAttachment (attachmentID : string) (s : AgentState) : AgentState :=
  setAttachments (filterb (fun a => negb (bool_decide (at_id a = attachmentID))) (sb_attachments (as_submit s))) s.
(** The state when the deletion is answered; after a failure nothing changes. *)
Definition deleteStoredAttachmentReference (attachmentID : string) (answer : unit + JsError) (s : AgentState) : AgentState :=
  match answer with
  | inl _ =>
      setRecentAttachments (filterb (fun a => negb (bool_decide (at_id a = attachmentID))) (pr_recentAttachments (as_provider s))) s
  | inr _ => s
  end.

(** What the widget of the panel gives the composer for each callback.  A
    cancellation is [Streaming.cancelActiveSubmission], on the runs of the panel. *)
Inductive PanelReaction :=
  | Handles (h : Handler)
  | SetsModel (model : string)
  | RemovesQueued (attachmentID : string)
  | DeletesStored (attachmentID : string)
  | CancelsSubmission.

Definition reactionTo (call : ComposerCall) : PanelReaction :=
  match call with
  | OnSubmit => Handles HSubmit
  | OnCancelSubmit => CancelsSubmission
  | OnValueChange value => Handles (HSetDraft value)
  | OnProviderChange value => Handles (HSelectProvider value)
  | OnModelChange value => SetsModel value
  | OnProfileChange value => Handles (HSelectAgent SelectionProfile value)
  | OnRoleChange value => Handles (HSelectAgent SelectionRole value)
  | OnModeChange value => Handles (HSelectAgent SelectionMode value)
  | OnContextOptionsOpen => Handles HContextOpen
  | OnContextUseCurrentWidget => Handles (HUseCurrentWidget true)
  | OnContextOnlyUseCurrentWidget => Handles (HUseCurrentWidget false)
  | OnContextUseAllWidgets => Handles HUseAllWidgets
  | OnContextUseDefault => Handles HResetWidgets
  | OnRepairMissingContextWidgets => Handles HRepairWidgets
  | OnSelectedContextWidgetIDsChange ids => Handles (HSelectWidgets ids)
  | OnWidgetContextEnabledChange value => Handles (HEnableWidgets value)
  | OnRemoveAttachment x => RemovesQueued x
  | OnReuseRecentAttachment a => Handles (HQueueAttachment a)
  | OnDeleteStoredAttachment x => DeletesStored x
  end.

Section Reactions.
Context `{DateHost} `{Locale}.
Variables (clock auditNow : nat -> Z) (isoNow : nat -> string) (env : PanelEnv).

(** The panel after a callback, up to the first request that it awaits. *)
Definition react (call : ComposerCall) (panel : AgentState) : AgentState :=
  match reactionTo call with
  | Handles h => fst (run (handlerProg clock auditNow isoNow env h) panel)
  | SetsModel model => setSelectedModel model panel
  | RemovesQueued x => removeQueuedAttachment x panel
  | DeletesStored _ | CancelsSubmission => panel
  end.
Definition reactAll (calls : list ComposerCall) (panel : AgentState) : AgentState := foldl (fun s call => react call s) panel calls.
End Reactions.

(** ** The messages *)

(** A question of the user that the answer follows. *)
Definition isGroupedWithNext (messages : list ChatMessageView) (index : nat) : bool :=
  match messages !! index, messages !! (index + 1) with
  | Some (ViewChat m), Some (ViewChat next) =>
      bool_decide (ct_role m = ChatUser) && bool_decide (ct_role next = ChatAssistant)
  | _, _ => false
  end.

Definition AI_MESSAGE_LATEST_SCROLL_THRESHOLD : Z := 48.

(** The element with the messages, and what the widget remembers of it. *)
Record Viewport := mkViewport { vp_scrollHeight : Z; vp_clientHeight : Z; vp_scrollTop : Z }.
Record AiMessageViewportMetrics := mkMetrics {
  vm_initialized : bool;
  vm_isNearLatest : bool;
  vm_scrollHeight : Z;
  vm_scrollTop : Z
}.
Definition initialMetrics : AiMessageViewportMetrics := mkMetrics false true 0 0.
Definition maxScrollTop (v : Viewport) : Z := Z.max 0 (vp_scrollHeight v - vp_clientHeight v).

Definition readAiMessageViewportMetrics (v : Viewport) : AiMessageViewportMetrics :=
  let distanceToLatest := (maxScrollTop v - vp_scrollTop v)%Z in
  mkMetrics true (distanceToLatest <=? AI_MESSAGE_LATEST_SCROLL_THRESHOLD)%Z (vp_scrollHeight v) (vp_scrollTop v).

Definition scrollTo (top : Z) (v : Viewport) : Viewport := mkViewport (vp_scrollHeight v) (vp_clientHeight v) top.

(** The effect that follows a change of the messages. *)
Definition layoutEffect (previousMetrics : AiMessageViewportMetrics) (v : Viewport) : Viewport * AiMessageViewportMetrics :=
  let v' := scrollTo (if vm_isNearLatest previousMetrics then maxScrollTop v
                      else Z.min (vm_scrollTop previousMetrics) (maxScrollTop v)) v in
  (v', readAiMessageViewportMetrics v').

(** The user scrolls within the range of the element; the messages change its
    height, and the element keeps its position within the new range until the
    effect; its own height changes without an event of the code. *)
Inductive ViewportEvent :=
  | Scrolled (top : Z)
  | MessagesChanged (scrollHeight : Z)
  | ViewportResized (clientHeight : Z).

Definition within (v : Viewport) : Viewport := scrollTo (Z.max 0 (Z.min (vp_scrollTop v) (maxScrollTop v))) v.
Definition viewportStep (s : Viewport * AiMessageViewportMetrics) (e : ViewportEvent) : Viewport * AiMessageViewportMetrics :=
  let '(v, metrics) := s in
  match e with
  | Scrolled top => let v' := within (scrollTo top v) in (v', readAiMessageViewportMetrics v')
  | MessagesChanged scrollHeight => layoutEffect metrics (within (mkViewport scrollHeight (vp_clientHeight v) (vp_scrollTop v)))
  | ViewportResized clientHeight => (within (mkViewport (vp_scrollHeight v) clientHeight (vp_scrollTop v)), metrics)
  end.
(** The ref is set when the element is mounted, before the first effect. *)
Definition mountViewport (v : Viewport) : Viewport * AiMessageViewportMetrics := layoutEffect (readAiMessageViewportMetrics v) v.

(** * Lemmas *)

(** ** Selections of widgets *)

(** What [deduplicateWidgetIDs] makes: trimmed ids, none twice. *)
Definition normal_ids (ids : list string) : Prop := NoDup ids /\ forall x, x ∈ ids -> trimText x = x /\ x <> "".

Lemma add_normal ids x : normal_ids ids -> normal_ids (addWidgetID ids x).
Proof.
  intros [Hn Ht]. unfold addWidgetID. destruct (negb (truthy (trimText x)) || includes (trimText x) ids) eqn:E; [done|].
  bool_prop. apply truthy_true in H. apply includes_false in H0. split.
  - apply NoDup_app. split; [done|]. split; [|apply NoDup_singleton]. set_solver.
  - intros y [Hy|Hy]%elem_of_app; [by apply Ht|]. apply list_elem_of_singleton in Hy as ->.
    split; [apply trim_idempotent|done].
Qed.
Lemma deduplicate_normal ids : normal_ids (deduplicateWidgetIDs ids).
Proof.
  unfold deduplicateWidgetIDs. assert (normal_ids []) as Hn by (split; [constructor|intros ? ?%elem_of_nil; done]).
  revert Hn. generalize (@nil string). induction ids as [|x ids IH]; intros acc Hn; [done|]. by apply IH, add_normal.
Qed.
Lemma deduplicate_id ids : normal_ids ids -> deduplicateWidgetIDs ids = ids.
Proof.
  unfold deduplicateWidgetIDs. intros Hn. change ids with ([] ++ ids) in Hn.
  enough (forall acc, normal_ids (acc ++ ids) -> foldl addWidgetID acc ids = acc ++ ids) as Hgo by by apply (Hgo []).
  clear Hn. induction ids as [|x ids IH]; intros acc Hn; cbn; [by rewrite app_nil_r|].
  assert (addWidgetID acc x = acc ++ [x]) as ->.
  { destruct Hn as [Hd Ht]. destruct (Ht x) as [Hx Hne]; [set_solver|]. unfold addWidgetID. rewrite Hx.
    rewrite (proj2 (truthy_true x) Hne). cbn [negb orb].
    rewrite (proj2 (includes_false x acc)); [done|]. apply NoDup_app in Hd. set_solver. }
  rewrite IH; by rewrite <- app_assoc.
Qed.
Lemma filterb_normal p ids : normal_ids ids -> normal_ids (filterb p ids).
Proof. intros [Hn Ht]. split; [by apply NoDup_filterb|]. intros x [Hx _]%elem_of_filterb. by apply Ht. Qed.
Lemma effective_normal selection : normal_ids (effectiveContextWidgetIDs selection).
Proof.
  unfold effectiveContextWidgetIDs, filteredSelection, filterContextWidgetSelection, deriveFallbackContextWidgetIDs.
  case_match eqn:E; [apply deduplicate_normal|]. rewrite <- E.
  destruct (cs_contextWidgetOptions selection); [|apply filterb_normal]; apply deduplicate_normal.
Qed.
Lemma filtered_id options ids :
  normal_ids ids -> (forall x, x ∈ ids -> x ∈ co_value <$> options) -> filteredSelection options ids = ids.
Proof.
  intros Hn Ho. unfold filteredSelection, filterContextWidgetSelection. destruct options as [|o options]; [by apply deduplicate_id|].
  rewrite deduplicate_id by done. apply filterb_all. intros x Hx. apply includes_true. by apply Ho.
Qed.

Section ReactionLemmas.
Context `{DateHost} `{Locale}.
Variables (clock auditNow : nat -> Z) (isoNow : nat -> string) (env : PanelEnv).
Notation react := (react clock auditNow isoNow env).
Notation reactAll := (reactAll clock auditNow isoNow env).

(** The state of a choice of widgets, before anything is answered. *)
Lemma react_select ids panel :
  react (OnSelectedContextWidgetIDsChange ids) panel = withSelection (deduplicateWidgetIDs ids) true true 0 panel.
Proof.
  unfold AiPanelView.react. cbn [reactionTo handlerProg]. unfold updateSelectedContextWidgetIDs, persistInBackground.
  unfold persistConversationContextPreferences. cbn. destruct (truthy _) eqn:E; cbn; [|done]. by rewrite E.
Qed.

(** The effective ids of the panel. *)
Definition effectiveIDs (panel : AgentState) : list string := effectiveContextWidgetIDs (selectionOf env panel).
Definition without (x : string) (ids : list string) : list string := filterb (fun y => negb (bool_decide (y = x))) ids.

(** Every chip that is selected is shown: the options of the selected widgets are loaded. *)
Definition all_shown (panel : AgentState) : Prop :=
  forall x, x ∈ effectiveIDs panel -> x ∈ co_value <$> cw_options (as_context panel).

Lemma chip_selected panel pending mode locale c x :
  offers (panelComposerProps env panel pending mode locale) c (ContextChip x) = true -> x ∈ effectiveIDs panel.
Proof.
  cbn [offers]. destruct (contextStrip _) as [[chips current]|] eqn:E; [|done]. intros Hx%includes_true.
  assert (chips = (fun option => (co_value option, optionTitle option)) <$>
            selectedContextOptions (panelComposerProps env panel pending mode locale)) as Hc.
  { unfold contextStrip in E. repeat case_match; by simplify_eq. }
  rewrite Hc in Hx. apply list_elem_of_fmap in Hx as ([y title] & -> & Hy).
  apply list_elem_of_fmap in Hy as (o & [= -> ->] & Ho). cbn. unfold selectedContextOptions, mapFilter in Ho.
  apply list_elem_of_omap in Ho as (z & Hz & Hf). unfold optionOf in Hf. apply find_Some in Hf as [_ Hf]. bool_prop. by subst.
Qed.

(** A press of the chip of a widget takes it out of the request and keeps the
    others in their order; when it was the only one, the request has what the
    workspace falls back to. *)
Theorem chip_leaves_the_request panel pending mode locale c x :
  all_shown panel ->
  offers (panelComposerProps env panel pending mode locale) c (ContextChip x) = true ->
  let panel' := reactAll (snd (composerStep (panelComposerProps env panel pending mode locale) c (Pressed (ContextChip x)))) panel in
  x ∈ effectiveIDs panel /\
  effectiveIDs panel' =
    match without x (effectiveIDs panel) with
    | [] => deriveFallbackContextWidgetIDs (selectionOf env panel) None
    | rest => rest
    end /\
  cw_enabled (as_context panel') = true.
Proof.
  intros Hs Ho panel'. unfold panel'. clear panel'.
  assert (x ∈ effectiveIDs panel) as Hx by by eapply chip_selected.
  split; [done|]. unfold composerStep. rewrite Ho.
  assert (offers (panelComposerProps env panel pending mode locale) (handlePointerDown Elsewhere c) (ContextChip x) = true) as Ho' by exact Ho.
  cbn [placeOf]. rewrite Ho'. cbn [useControl snd handleRemoveContextWidget AiPanelView.reactAll foldl].
  rewrite react_select.
  assert (normal_ids (without x (effectiveIDs panel))) as Hn by apply filterb_normal, effective_normal.
  change (filterb _ (cz_selectedContextWidgetIDs _)) with (without x (effectiveIDs panel)).
  rewrite deduplicate_id by done. split; [|done].
  unfold effectiveIDs at 1, effectiveContextWidgetIDs. cbn [selectionOf cs_contextWidgetOptions cs_storedContextWidgetIDs].
  change (cw_options (as_context (withSelection _ _ _ _ _))) with (cw_options (as_context panel)).
  change (cw_stored (as_context (withSelection ?ids _ _ _ _))) with ids.
  rewrite filtered_id; [done|done|]. intros y [Hy _]%elem_of_filterb. by apply Hs.
Qed.
(** C33: The composer asks for a submission only of a draft that the panel accepts,
    and a key of its mode asks for one exactly then.  The submission empties the
    draft and makes it the last message of the user before anything is awaited. *)
Theorem composer_submits_accepted panel pending mode locale c e k :
  en_enabled env = true -> sendsKey mode k = true -> ck_isComposing k = false ->
  let props := panelComposerProps env panel pending mode locale in
  (OnSubmit ∈ snd (composerStep props c e) -> acceptsDraft env panel) /\
  (acceptsDraft env panel <-> snd (composerStep props c (TextAreaKey k)) = [OnSubmit]) /\
  (acceptsDraft env panel ->
     let panel' := reactAll (snd (composerStep props c (TextAreaKey k))) panel in
     sb_draft (as_submit panel') = "" /\
     exists message, cm_content message = trimText (sb_draft (as_submit panel)) /\
       sb_messages (as_submit panel') = Some (appendAgentConversationMessage (sb_messages (as_submit panel) ?? []) message)).
Proof.
  intros He Hk Hc props.
  assert (cz_submitDisabled props = false <-> acceptsDraft env panel) as Hd.
  { unfold acceptsDraft, truthy. cbn [props panelComposerProps cz_submitDisabled]. rewrite orb_false_iff, negb_true_iff. tauto. }
  assert (acceptsDraft env panel <-> snd (composerStep props c (TextAreaKey k)) = [OnSubmit]) as Hkey.
  { cbn [composerStep snd]. unfold handleTextAreaKeyDown. rewrite Hc.
    change (cz_submitMode props) with mode. rewrite Hk, orb_false_r. split.
    - intros Ha. pose proof (proj2 Hd Ha) as Hs. rewrite Hs.
      assert (cz_disabled props = false) as -> by (cbn in Hs |- *; by apply orb_false_iff in Hs as [? _]). done.
    - intros Ho. apply Hd. by destruct (cz_disabled props), (cz_submitDisabled props). }
  split; [intros Hs; by apply Hd, (submit_called _ _ _ Hs)|]. split; [done|].
  intros Ha panel'. unfold panel'. rewrite (proj1 Hkey Ha). cbn [AiPanelView.reactAll foldl].
  by destruct (draft_submitted clock isoNow env panel Ha) as (Hd' & _ & Hm).
Qed.
End ReactionLemmas.

(** ** The position of the messages *)

Section Viewports.

Definition runViewport (s : Viewport * AiMessageViewportMetrics) (es : list ViewportEvent) := foldl viewportStep s es.
Definition atLatest (v : Viewport) : Prop := vp_scrollTop v = maxScrollTop v.
(** The user does not scroll. *)
Definition hands_off (e : ViewportEvent) : bool := match e with Scrolled _ => false | _ => true end.
(** A change of the messages that does not make them shorter than [h]. *)
Definition grows (h : Z) (e : ViewportEvent) : bool := match e with MessagesChanged h' => (h <=? h')%Z | _ => false end.

Lemma layout_latest metrics v : vm_isNearLatest metrics = true ->
  atLatest (fst (layoutEffect metrics v)) /\ vm_isNearLatest (snd (layoutEffect metrics v)) = true.
Proof.
  intros Hm. unfold layoutEffect, atLatest. rewrite Hm. split; [done|]. cbn. apply Z.leb_le.
  unfold maxScrollTop, AI_MESSAGE_LATEST_SCROLL_THRESHOLD. cbn. lia.
Qed.
Lemma hands_off_near es s :
  forallb hands_off es = true -> vm_isNearLatest (snd s) = true -> vm_isNearLatest (snd (runViewport s es)) = true.
Proof.
  unfold runViewport. revert s. induction es as [|e es IH]; intros [v m] He Hm; [done|]. cbn in He. bool_prop. cbn [foldl].
  apply IH; [done|]. destruct e as [|h|h]; [done| |done]. by apply layout_latest.
Qed.

(** What the code remembers is what it read last. *)
Definition remembered (s : Viewport * AiMessageViewportMetrics) : Prop :=
  snd s = readAiMessageViewportMetrics (fst s) /\ (0 <= vp_scrollTop (fst s) <= maxScrollTop (fst s))%Z.
Lemma step_remembered s e : (match e with ViewportResized _ => False | _ => True end) -> remembered s -> remembered (viewportStep s e).
Proof.
  intros He [Hm Hr]. destruct s as [v m]. cbn in Hm, Hr. destruct e as [top|h|]; [| |done].
  - split; [done|]. cbn. unfold maxScrollTop. cbn. lia.
  - cbn. unfold layoutEffect. split; [done|]. cbn. rewrite Hm. cbn. unfold maxScrollTop in *. cbn. case_match; lia.
Qed.

(** A reader at [top], above the latest messages of an element with [height]. *)
Definition reading (top height : Z) (s : Viewport * AiMessageViewportMetrics) : Prop :=
  remembered s /\ vp_scrollTop (fst s) = top /\ (height <= vp_scrollHeight (fst s))%Z /\
  (AI_MESSAGE_LATEST_SCROLL_THRESHOLD < Z.max 0 (height - vp_clientHeight (fst s)) - top)%Z.
Lemma growth_keeps_reading top height s e : grows height e = true -> reading top height s -> reading top height (viewportStep s e).
Proof.
  intros He (Hs & Ht & Hh & Hd). destruct e as [|h|]; [done| |done]. cbn in He. apply Z.leb_le in He.
  split; [by apply step_remembered|]. destruct s as [v m], Hs as [Hm Hr]. cbn in *. subst m.
  unfold layoutEffect, readAiMessageViewportMetrics, maxScrollTop, AI_MESSAGE_LATEST_SCROLL_THRESHOLD in *. cbn.
  rewrite (proj2 (Z.leb_gt _ _)) by lia. lia.
Qed.

(** The panel follows its messages for a user who is near the latest one,
    through any changes and resizes, until the user scrolls away; and it does
    not move the messages under a user who reads above, however they grow. *)
Theorem viewport_follows_or_stays s es h :
  remembered s ->
  (vm_isNearLatest (snd s) = true -> forallb hands_off es = true ->
     atLatest (fst (runViewport s (es ++ [MessagesChanged h])))) /\
  (vm_isNearLatest (snd s) = false -> forallb (grows (vp_scrollHeight (fst s))) es = true ->
     vp_scrollTop (fst (runViewport s es)) = vp_scrollTop (fst s)).
Proof.
  intros Hs. split.
  - intros Hn He. unfold runViewport. rewrite foldl_app. cbn [foldl].
    pose proof (hands_off_near es s He Hn) as Hnear. unfold runViewport in Hnear.
    destruct (foldl viewportStep s es) as [v m]. by apply layout_latest.
  - intros Hn He.
    assert (reading (vp_scrollTop (fst s)) (vp_scrollHeight (fst s)) s) as Hr.
    { split; [done|]. split; [done|]. split; [lia|]. destruct Hs as [Hm _]. rewrite Hm in Hn. cbn in Hn.
      apply Z.leb_gt in Hn. exact Hn. }
    revert Hr He. generalize (vp_scrollTop (fst s)), (vp_scrollHeight (fst s)). intros top height Hr He. clear Hs Hn.
    unfold runViewport. revert s Hr. induction es as [|e es IH]; intros s Hr; [apply Hr|].
    cbn in He. bool_prop. cbn [foldl]. apply IH; [done|]. by apply growth_keeps_reading.
Qed.

(** The metrics of the mount are read before its effect: a panel that is
    mounted with a long conversation starts at its first message. *)
Example mounted_at_the_top :
  vp_scrollTop (fst (mountViewport (mkViewport 960 332 0))) = 0%Z /\
  vp_scrollTop (fst (layoutEffect initialMetrics (mkViewport 960 332 0))) = 628%Z.
Proof. by vm_compute. Qed.
End Viewports.

(** * Witnesses *)

Section Witness.
#[local] Instance no_dates : DateHost := {| dateParse _ := None |}.
Notation panel_env := (mkEnv "ai-shell-panel" true "term-1" [] true).
Notation react_all := (reactAll (fun _ => 0%Z) (fun _ => 0%Z) (fun _ => "") panel_env).

Definition widgetOptions : list AiContextWidgetOption :=
  mapContextWidgetOptions
    [mkWidget "term-1" "terminal" (Some "Shell") None None; mkWidget "files-1" "commander" (Some "Files") None None].
(** A panel with both widgets in its request and a draft. *)
Definition chosenPanel : AgentState :=
  on_context (fun c => mkContextState widgetOptions ["files-1"; "term-1"] true true 0 "term-1" true [] None)
    (setDraft "hello" quietPanel).

Definition enterKey : ComposerKey := mkComposerKey "Enter" false false false false false.

Lemma composer_submits_accepted_witness :
  acceptsDraft panel_env chosenPanel /\
  sb_draft (as_submit (react_all (snd (composerStep (panelComposerProps panel_env chosenPanel false EnterSends LocaleEn)
    initialComposer (TextAreaKey enterKey))) chosenPanel)) = "".
Proof.
  assert (acceptsDraft panel_env chosenPanel) as Ha by done. split; [exact Ha|].
  exact (proj1 (proj2 (proj2 (composer_submits_accepted (fun _ => 0%Z) (fun _ => 0%Z) (fun _ => "") panel_env chosenPanel false
    EnterSends LocaleEn initialComposer PressedOutside enterKey eq_refl eq_refl eq_refl)) Ha)).
Defined.

Lemma chip_leaves_the_request_witness :
  effectiveIDs panel_env chosenPanel = ["files-1"; "term-1"] /\
  effectiveIDs panel_env (react_all (snd (composerStep (panelComposerProps panel_env chosenPanel false EnterSends LocaleEn)
    initialComposer (Pressed (ContextChip "files-1")))) chosenPanel) = ["term-1"].
Proof.
  split; [reflexivity|].
  assert (all_shown panel_env chosenPanel) as Hs.
  { intros x [->|[->|Hx%elem_of_nil]%elem_of_cons]%elem_of_cons; [by right; left|by left|done]. }
  exact (proj1 (proj2 (chip_leaves_the_request (fun _ => 0%Z) (fun _ => 0%Z) (fun _ => "") panel_env chosenPanel false
    EnterSends LocaleEn initialComposer "files-1" Hs eq_refl))).
Defined.

(** The last chip cannot be removed when it is the widget that the workspace
    falls back to: its button changes nothing that is shown. *)
Example last_chip_stays :
  let panel := react_all [OnSelectedContextWidgetIDsChange ["term-1"]] chosenPanel in
  let removed := react_all (snd (composerStep (panelComposerProps panel_env panel false EnterSends LocaleEn)
    initialComposer (Pressed (ContextChip "term-1")))) panel in
  effectiveIDs panel_env panel = ["term-1"] /\ effectiveIDs panel_env removed = ["term-1"] /\
  cw_stored (as_context removed) = [].
Proof. by vm_compute. Qed.

Lemma viewport_follows_or_stays_witness :
  let s := (mkViewport 960 332 628, readAiMessageViewportMetrics (mkViewport 960 332 628)) in
  remembered s /\ atLatest (fst (runViewport s [ViewportResized 300; MessagesChanged 1400])).
Proof.
  assert (remembered (mkViewport 960 332 628, readAiMessageViewportMetrics (mkViewport 960 332 628))) as Hs
    by (split; [reflexivity|vm_compute; by split]).
  split; [exact Hs|]. exact (proj1 (viewport_follows_or_stays _ [ViewportResized 300] 1400 Hs) eq_refl eq_refl).
Defined.
End Witness.
