(* ===== verification/Theme.v ===== *)
(** * The theme of the application

    [frontend/src/features/theme/model/theme-provider.tsx]: the preference that
    is stored in the browser, the theme of the system, and what the document is
    told.  The browser is a record of what its functions answer; a function
    that throws, or is not there, answers nothing. *)
From Stdlib Require Import Ascii String.
From stdpp Require Import strings gmap.
From S2P Require Import Prelude JsString Text.
Local Open Scope string_scope.
Local Open Scope list_scope.
Local Open Scope js_scope.

Inductive AppThemePreference := ThemeSystem | ThemeLight | ThemeDark.
Inductive AppResolvedTheme := ResolvedLight | ResolvedDark.
#[global] Instance theme_preference_eq : EqDecision AppThemePreference.
Proof. solve_decision. Defined.
#[global] Instance resolved_theme_eq : EqDecision AppResolvedTheme.
Proof. solve_decision. Defined.

Definition showThemePreference (p : AppThemePreference) : string :=
  match p with ThemeSystem => "system" | ThemeLight => "light" | ThemeDark => "dark" end.
Definition showResolvedTheme (t : AppResolvedTheme) : string :=
  match t with ResolvedLight => "light" | ResolvedDark => "dark" end.

Definition THEME_STORAGE_KEY : string := "rterm.app-theme".

(** The browser: [bw_window] is [typeof window !== 'undefined'] (and the
    document with it), [bw_storage] the local storage unless it is blocked,
    [bw_writable] whether it takes writes, [bw_media] whether the system prefers
    a light theme, where the browser can tell. *)
Record Browser := mkBrowser {
  bw_window : bool;
  bw_storage : option (gmap string string);
  bw_writable : bool;
  bw_media : option bool
}.

(** The attributes that the document's root is given. *)
Record DocumentTheme := mkDocumentTheme { dt_runaTheme : string; dt_runaResolvedTheme : string; dt_colorScheme : string }.
#[global] Instance document_theme_eq : EqDecision DocumentTheme.
Proof. solve_decision. Defined.

Definition normalizeThemePreference (value : string) : AppThemePreference :=
  if decide (value = "light") then ThemeLight
  else if decide (value = "dark") then ThemeDark
  else if decide (value = "system") then ThemeSystem
  else ThemeSystem.

Definition getStoredThemePreference (b : Browser) : AppThemePreference :=
  if negb (bw_window b) then ThemeDark
  else
    match bw_storage b with
    | None => ThemeDark
    | Some items => normalizeThemePreference ((items !! THEME_STORAGE_KEY) ?? "dark")
    end.

Definition persistThemePreference (preference : AppThemePreference) (b : Browser) : Browser :=
  if negb (bw_window b) || negb (bw_writable b) then b
  else mkBrowser (bw_window b) (<[THEME_STORAGE_KEY := showThemePreference preference]> <$> bw_storage b) (bw_writable b) (bw_media b).

Definition themeOf (matches : bool) : AppResolvedTheme := if matches then ResolvedLight else ResolvedDark.
Definition getSystemTheme (b : Browser) : AppResolvedTheme :=
  if negb (bw_window b) then ResolvedDark
  else match bw_media b with None => ResolvedDark | Some matches => themeOf matches end.

Definition resolveTheme (preference : AppThemePreference) (systemTheme : AppResolvedTheme) : AppResolvedTheme :=
  match preference with ThemeSystem => systemTheme | ThemeLight => ResolvedLight | ThemeDark => ResolvedDark end.

Definition applyDocumentTheme (preference : AppThemePreference) (resolvedTheme : AppResolvedTheme) : DocumentTheme :=
  mkDocumentTheme (showThemePreference preference) (showResolvedTheme resolvedTheme) (showResolvedTheme resolvedTheme).

(** ** The provider *)

Record ThemeState := mkTheme { th_preference : AppThemePreference; th_systemTheme : AppResolvedTheme }.
Definition resolvedTheme (s : ThemeState) : AppResolvedTheme := resolveTheme (th_preference s) (th_systemTheme s).

(** The provider with the browser and the document that it works on. *)
Record ThemedPage := mkPage { pg_browser : Browser; pg_theme : ThemeState; pg_document : option DocumentTheme }.

(** The effect that tells the document; it runs after every change of the
    preference or of the resolved theme. *)
Definition documentEffect (p : ThemedPage) : ThemedPage :=
  if bw_window (pg_browser p) then
    mkPage (pg_browser p) (pg_theme p) (Some (applyDocumentTheme (th_preference (pg_theme p)) (resolvedTheme (pg_theme p))))
  else p.

(** The first rendering with its effects. *)
Definition mountTheme (b : Browser) : ThemedPage :=
  documentEffect (mkPage b (mkTheme (getStoredThemePreference b) (getSystemTheme b)) None).

Definition handleThemeChange (matches : bool) (s : ThemeState) : ThemeState := mkTheme (th_preference s) (themeOf matches).
Definition setThemePreference (nextPreference : string) (p : ThemedPage) : ThemedPage :=
  let normalizedPreference := normalizeThemePreference nextPreference in
  mkPage (persistThemePreference normalizedPreference (pg_browser p))
    (mkTheme normalizedPreference (th_systemTheme (pg_theme p))) (pg_document p).

(** The system changes its mind, the user chooses, or the page is loaded anew. *)
Inductive ThemeEvent := SystemThemeChanged (matches : bool) | ThemeChosen (value : string) | PageReloaded.

Definition setMedia (matches : bool) (b : Browser) : Browser :=
  mkBrowser (bw_window b) (bw_storage b) (bw_writable b) (Some matches).

(** The listener is there where the browser can tell what the system prefers. *)
Definition themeStep (e : ThemeEvent) (p : ThemedPage) : ThemedPage :=
  match e with
  | SystemThemeChanged matches =>
      match bw_media (pg_browser p) with
      | None => p
      | Some _ =>
          let b := setMedia matches (pg_browser p) in
          if bw_window b then documentEffect (mkPage b (handleThemeChange matches (pg_theme p)) (pg_document p))
          else mkPage b (pg_theme p) (pg_document p)
      end
  | ThemeChosen value => documentEffect (setThemePreference value p)
  | PageReloaded => mountTheme (pg_browser p)
  end.

Definition runTheme (events : list ThemeEvent) (p : ThemedPage) : ThemedPage := foldl (fun p e => themeStep e p) p events.

(** * Lemmas *)

Lemma normalize_shown p : normalizeThemePreference (showThemePreference p) = p.
Proof. by destruct p. Qed.

(** In a window, what the document says is what the provider holds, and what the
    provider takes for the theme of the system is what the system says. *)
Definition page_ok (p : ThemedPage) : Prop :=
  bw_window (pg_browser p) = true /\
  pg_document p = Some (applyDocumentTheme (th_preference (pg_theme p)) (resolvedTheme (pg_theme p))) /\
  th_systemTheme (pg_theme p) = getSystemTheme (pg_browser p).

Lemma document_ok p :
  bw_window (pg_browser p) = true -> th_systemTheme (pg_theme p) = getSystemTheme (pg_browser p) -> page_ok (documentEffect p).
Proof. intros Hw H. unfold documentEffect. rewrite Hw. by repeat split. Qed.

Lemma persist_window preference b : bw_window (persistThemePreference preference b) = bw_window b.
Proof. unfold persistThemePreference. by destruct (_ || _). Qed.
Lemma persist_system preference b : getSystemTheme (persistThemePreference preference b) = getSystemTheme b.
Proof. unfold persistThemePreference. by destruct (_ || _). Qed.

Lemma theme_mount_ok b : bw_window b = true -> page_ok (mountTheme b).
Proof. intros H. by apply document_ok. Qed.

Lemma theme_step_ok e p : page_ok p -> page_ok (themeStep e p).
Proof.
  intros (H1 & H2 & H3). destruct e as [matches|value|]; cbn [themeStep].
  - destruct (bw_media (pg_browser p)); [|done]. cbn. rewrite H1.
    apply document_ok; [done|]. unfold getSystemTheme. cbn. by rewrite H1.
  - apply document_ok; cbn; [by rewrite persist_window|by rewrite persist_system].
  - by apply theme_mount_ok.
Qed.

Lemma theme_run_ok events p : page_ok p -> page_ok (runTheme events p).
Proof. revert p. induction events as [|e events IH]; intros p H; [done|]. apply IH. by apply theme_step_ok. Qed.

(** The last choice among the events that follow, or the one before. *)
Definition lastChoice (preference : AppThemePreference) (events : list ThemeEvent) : AppThemePreference :=
  foldl (fun c e => match e with ThemeChosen value => normalizeThemePreference value | _ => c end) preference events.

(** The storage holds the preference of the provider. *)
Definition remembers (p : ThemedPage) : Prop :=
  bw_writable (pg_browser p) = true /\ (exists items, bw_storage (pg_browser p) = Some items) /\
  getStoredThemePreference (pg_browser p) = th_preference (pg_theme p).

Lemma document_keeps p : pg_browser (documentEffect p) = pg_browser p /\ pg_theme (documentEffect p) = pg_theme p.
Proof. unfold documentEffect. by destruct (bw_window _). Qed.

Lemma remembers_step e p :
  page_ok p -> remembers p ->
  remembers (themeStep e p) /\ th_preference (pg_theme (themeStep e p)) = lastChoice (th_preference (pg_theme p)) [e].
Proof.
  intros (Hw & _) (H1 & (items & H2) & H3). unfold remembers. destruct e as [matches|value|]; cbn [themeStep lastChoice foldl].
  - destruct (bw_media (pg_browser p)); [|by eauto]. cbn [setMedia bw_window]. rewrite Hw.
    rewrite !(proj1 (document_keeps _)), !(proj2 (document_keeps _)). cbn. split_and!; [done|by eauto|exact H3|done].
  - rewrite !(proj1 (document_keeps _)), !(proj2 (document_keeps _)). cbn. unfold persistThemePreference. rewrite Hw, H1. cbn.
    rewrite H2. cbn. split_and!; [done|by eauto| |done]. unfold getStoredThemePreference. cbn.
    rewrite lookup_insert_eq. apply normalize_shown.
  - unfold mountTheme. rewrite !(proj1 (document_keeps _)), !(proj2 (document_keeps _)). cbn. split_and!; [done|by eauto|done|done].
Qed.

(** Whatever the user chooses, however the system changes and however often the
    page is loaded anew: the document always shows the last theme that was
    chosen, or before any choice the stored one, resolved by what the system says
    at that time, where the storage works. *)
Theorem chosen_theme_is_shown events b items :
  bw_window b = true -> bw_writable b = true -> bw_storage b = Some items ->
  let p := runTheme events (mountTheme b) in
  let preference := lastChoice (getStoredThemePreference b) events in
  pg_document p = Some (applyDocumentTheme preference (resolveTheme preference (getSystemTheme (pg_browser p)))).
Proof.
  intros Hw Hwr Hst p preference. pose proof (theme_mount_ok b Hw) as Hok.
  assert (remembers (mountTheme b)) as Hr.
  { unfold remembers, mountTheme. rewrite !(proj1 (document_keeps _)), !(proj2 (document_keeps _)). by eauto. }
  assert (getStoredThemePreference b = th_preference (pg_theme (mountTheme b))) as Hp.
  { unfold mountTheme. by rewrite (proj2 (document_keeps _)). }
  assert (th_preference (pg_theme p) = preference) as Hc.
  { subst p preference. rewrite Hp. clear Hp Hw Hwr Hst. revert Hok Hr. generalize (mountTheme b).
    induction events as [|e events IH]; intros q Hok Hr; [done|]. destruct (remembers_step e q Hok Hr) as [Hr' Hq].
    change (runTheme (e :: events) q) with (runTheme events (themeStep e q)).
    rewrite (IH (themeStep e q)) by (done || by apply theme_step_ok). by rewrite Hq. }
  destruct (theme_run_ok events _ Hok) as (_ & Hd & Hs). fold p in Hd, Hs. rewrite Hd. unfold resolvedTheme. by rewrite Hc, Hs.
Qed.

Lemma chosen_theme_is_shown_witness :
  pg_document (runTheme [ThemeChosen "system"; SystemThemeChanged true; PageReloaded] (mountTheme (mkBrowser true (Some ∅) true (Some false))))
  = Some (mkDocumentTheme "system" "light" "light").
Proof.
  refine (chosen_theme_is_shown [ThemeChosen "system"; SystemThemeChanged true; PageReloaded]
    (mkBrowser true (Some ∅) true (Some false)) ∅ eq_refl eq_refl eq_refl).
Defined.

(** A blocked storage keeps nothing: after a new load the theme is the dark one. *)
Lemma blocked_storage_forgets value media :
  th_preference (pg_theme (runTheme [ThemeChosen value; PageReloaded] (mountTheme (mkBrowser true None false media)))) = ThemeDark.
Proof. reflexivity. Qed.
