(* ===== verification/SettingsSections.v ===== *)
(** * The sections of the settings that change preferences

    [frontend/src/widgets/settings/terminal-settings-section.tsx],
    [ai-composer-settings-section.tsx] and [runtime-settings-section.tsx], with
    the radio group of [shared/ui/components/radio-group.tsx].  A section is the
    list of its rows for the preferences that are shown; a row has its texts and
    its controls, each with the call that it makes and whether it is enabled. *)
From Stdlib Require Import Ascii String QArith Qround Qminmax.
From stdpp Require Import strings gmap.
From S2P Require Import Prelude JsString Text Number RuntimePath Effects AgentState Http SettingsApi Rely Preferences Theme SettingsTexts.
Local Open Scope string_scope.
Local Open Scope list_scope.
Local Open Scope Z_scope.
Local Open Scope js_scope.
Local Open Scope prog_scope.

(** ** Rows and controls *)

Record Control (C : Type) := mkControl { ct_label : string; ct_enabled : bool; ct_call : C }.
Arguments mkControl {C} ct_label ct_enabled ct_call.
Arguments ct_label {C} c.
Arguments ct_enabled {C} c.
Arguments ct_call {C} c.
Record SettingRow (C : Type) := mkSettingRow {
  sw_title : string;
  sw_description : string;
  sw_badge : option string;
  sw_controls : list (Control C)
}.
Arguments mkSettingRow {C} sw_title sw_description sw_badge sw_controls.
Arguments sw_title {C} s.
Arguments sw_description {C} s.
Arguments sw_badge {C} s.
Arguments sw_controls {C} s.

(** [RadioGroup]; a radio that is checked does not change. *)
Record RadioGroupOption (V : Type) := mkRadioOption { ro_value : V; ro_label : string; ro_description : option string }.
Arguments mkRadioOption {V} ro_value ro_label ro_description.
Arguments ro_value {V} r.
Arguments ro_label {V} r.
Arguments ro_description {V} r.
Definition radioGroup {V C} `{EqDecision V} (disabled : bool) (options : list (RadioGroupOption V)) (value : V) (onChange : V -> C)
    : list (Control C) :=
  (fun choice =>
     let checked := bool_decide (ro_value choice = value) in
     mkControl (ro_label choice) (negb disabled && negb checked) (onChange (ro_value choice))) <$> options.
(** A native select changes to another one of its options. *)
Definition select {V C} `{EqDecision V} (disabled : bool) (options : list (V * string)) (value : V) (onChange : V -> C)
    : list (Control C) :=
  (fun choice =>
     mkControl (snd choice) (negb disabled && negb (bool_decide (fst choice = value))) (onChange (fst choice))) <$> options.

(** The controls of all rows. *)
Definition controlsOf {C} (rows : list (SettingRow C)) : list (Control C) := concat (sw_controls <$> rows).

(** ** The terminal *)

Section TerminalSection.
Variable copy : TerminalSettingsCopy.
Variable s : TerminalPreferencesState.

Definition terminalBusy : bool := tp_isLoading s || tp_isSaving s.
Definition canDecreaseFontSize : bool := MIN_TERMINAL_FONT_SIZE <? tp_fontSize s.
Definition canIncreaseFontSize : bool := tp_fontSize s <? MAX_TERMINAL_FONT_SIZE.
Definition canDecreaseLineHeight : bool := negb (Qle_bool (tp_lineHeight s) MIN_TERMINAL_LINE_HEIGHT).
Definition canIncreaseLineHeight : bool := negb (Qle_bool MAX_TERMINAL_LINE_HEIGHT (tp_lineHeight s)).
Definition canDecreaseScrollback : bool := MIN_TERMINAL_SCROLLBACK <? tp_scrollback s.
Definition canIncreaseScrollback : bool := tp_scrollback s <? MAX_TERMINAL_SCROLLBACK.
Definition isAtTerminalDefaults : bool :=
  (tp_fontSize s =? DEFAULT_TERMINAL_FONT_SIZE) && Qeq_bool (tp_lineHeight s) DEFAULT_TERMINAL_LINE_HEIGHT &&
  bool_decide (tp_themeMode s = DEFAULT_TERMINAL_THEME_MODE) && (tp_scrollback s =? DEFAULT_TERMINAL_SCROLLBACK) &&
  bool_decide (tp_cursorStyle s = DEFAULT_TERMINAL_CURSOR_STYLE) &&
  bool_decide (tp_cursorBlink s = DEFAULT_TERMINAL_CURSOR_BLINK).

(** A button that is disabled while the preferences are loaded or saved, or
    unless [can]. *)
Definition terminalButton (label : string) (can : bool) (call : TerminalPreferencesCall) : Control TerminalPreferencesCall :=
  mkControl label (negb terminalBusy && can) call.
Definition shownValue (value : string) : option string := Some (if tp_isLoading s then tsy_loading copy else value).

Definition resetRow : SettingRow TerminalPreferencesCall :=
  mkSettingRow (tsy_resetTitle copy) (tsy_resetDescription copy) None
    [terminalButton (tsy_resetAllDefaultsAria copy) (negb isAtTerminalDefaults) ResetAllDefaults].
Definition currentFontRow : SettingRow TerminalPreferencesCall :=
  mkSettingRow (tsy_currentFontTitle copy) (tsy_currentFontDescription copy) (shownValue (showZ (tp_fontSize s) +:+ "px")) [].
Definition fontSizeRow : SettingRow TerminalPreferencesCall :=
  mkSettingRow (tsy_adjustSizeTitle copy)
    (tsy_adjustSizeDescription copy MIN_TERMINAL_FONT_SIZE MAX_TERMINAL_FONT_SIZE DEFAULT_TERMINAL_FONT_SIZE) None
    [terminalButton (tsy_decreaseFontSizeAria copy) canDecreaseFontSize DecreaseFontSize;
     terminalButton (tsy_resetFontSizeAria copy) (negb (tp_fontSize s =? DEFAULT_TERMINAL_FONT_SIZE)) ResetFontSize;
     terminalButton (tsy_increaseFontSizeAria copy) canIncreaseFontSize IncreaseFontSize].
Definition themeModeRow : SettingRow TerminalPreferencesCall :=
  mkSettingRow (tsy_themeModeTitle copy) (tsy_themeModeDescription copy) None
    (select terminalBusy [(ThemeAdaptive, tsy_themeModeAdaptive copy); (ThemeContrast, tsy_themeModeContrast copy)]
       (tp_themeMode s) UpdateThemeMode ++
     [terminalButton (tsy_resetThemeModeAria copy) (negb (bool_decide (tp_themeMode s = DEFAULT_TERMINAL_THEME_MODE))) ResetThemeMode]).
Definition currentScrollbackRow : SettingRow TerminalPreferencesCall :=
  mkSettingRow (tsy_currentScrollbackTitle copy) (tsy_currentScrollbackDescription copy)
    (shownValue (showZ (tp_scrollback s) +:+ " lines")) [].
Definition scrollbackRow : SettingRow TerminalPreferencesCall :=
  mkSettingRow (tsy_adjustScrollbackTitle copy)
    (tsy_adjustScrollbackDescription copy MIN_TERMINAL_SCROLLBACK MAX_TERMINAL_SCROLLBACK DEFAULT_TERMINAL_SCROLLBACK) None
    [terminalButton (tsy_decreaseScrollbackAria copy) canDecreaseScrollback DecreaseScrollback;
     terminalButton (tsy_resetScrollbackAria copy) (negb (tp_scrollback s =? DEFAULT_TERMINAL_SCROLLBACK)) ResetScrollback;
     terminalButton (tsy_increaseScrollbackAria copy) canIncreaseScrollback IncreaseScrollback].
Definition cursorStyleRow : SettingRow TerminalPreferencesCall :=
  mkSettingRow (tsy_cursorStyleTitle copy) (tsy_cursorStyleDescription copy) None
    (select terminalBusy
       [(CursorBlock, tsy_cursorStyleBlock copy); (CursorBar, tsy_cursorStyleBar copy);
        (CursorUnderline, tsy_cursorStyleUnderline copy)] (tp_cursorStyle s) UpdateCursorStyle ++
     [terminalButton (tsy_resetCursorStyleAria copy) (negb (bool_decide (tp_cursorStyle s = DEFAULT_TERMINAL_CURSOR_STYLE)))
        ResetCursorStyle]).
(** The badge is the text beside the box. *)
Definition cursorBlinkRow : SettingRow TerminalPreferencesCall :=
  mkSettingRow (tsy_cursorBlinkTitle copy) (tsy_cursorBlinkDescription copy)
    (Some (if tp_cursorBlink s then tsy_cursorBlinkEnabled copy else tsy_cursorBlinkDisabled copy))
    [terminalButton (tsy_enableCursorBlinkAria copy) true (UpdateCursorBlink (negb (tp_cursorBlink s)));
     terminalButton (tsy_resetCursorBlinkAria copy) (negb (bool_decide (tp_cursorBlink s = DEFAULT_TERMINAL_CURSOR_BLINK)))
       ResetCursorBlink].
Definition currentLineHeightRow : SettingRow TerminalPreferencesCall :=
  mkSettingRow (tsy_currentLineHeightTitle copy) (tsy_currentLineHeightDescription copy)
    (shownValue (toFixed2 (tp_lineHeight s) +:+ "x")) [].
Definition lineHeightRow : SettingRow TerminalPreferencesCall :=
  mkSettingRow (tsy_adjustLineHeightTitle copy)
    (tsy_adjustLineHeightDescription copy MIN_TERMINAL_LINE_HEIGHT MAX_TERMINAL_LINE_HEIGHT DEFAULT_TERMINAL_LINE_HEIGHT) None
    [terminalButton (tsy_decreaseLineHeightAria copy) canDecreaseLineHeight DecreaseLineHeight;
     terminalButton (tsy_resetLineHeightAria copy) (negb (Qeq_bool (tp_lineHeight s) DEFAULT_TERMINAL_LINE_HEIGHT)) ResetLineHeight;
     terminalButton (tsy_increaseLineHeightAria copy) canIncreaseLineHeight IncreaseLineHeight].

Definition terminalRows : list (SettingRow TerminalPreferencesCall) :=
  [resetRow; currentFontRow; fontSizeRow; themeModeRow; currentScrollbackRow; scrollbackRow; cursorStyleRow;
   cursorBlinkRow; currentLineHeightRow; lineHeightRow].
(** The text under the rows. *)
Definition terminalFooter : string := tp_errorMessage s ?? tsy_defaultStateDescription copy.

End TerminalSection.

(** The [n]th control of the section is used. *)
Definition useTerminalControl (copy : TerminalSettingsCopy) (n : nat) : TerminalPrefs unit :=
  shown <- get ;;
  match controlsOf (terminalRows copy shown) !! n with
  | Some control => if ct_enabled control then useTerminalPreferences shown (ct_call control) else Ret tt
  | None => Ret tt
  end.

(** * Lemmas *)

(** ** The line height in hundredths *)

Lemma clamp_height_comp p q : (p == q)%Q -> clampTerminalLineHeight (Finite p) = clampTerminalLineHeight (Finite q).
Proof.
  intros H. unfold clampTerminalLineHeight. cbn [finite]. f_equal. unfold roundQ. apply Qfloor_comp. by rewrite H.
Qed.

Lemma clamp_height_any m : clampTerminalLineHeight (Finite (m # 100)) = (Z.min 160 (Z.max 105 m) # 100)%Q.
Proof.
  unfold clampTerminalLineHeight. cbn [finite]. f_equal.
  rewrite <- (roundQ_hundredths (Z.min 160 (Z.max 105 m))). unfold roundQ. apply Qfloor_comp.
  unfold MIN_TERMINAL_LINE_HEIGHT, MAX_TERMINAL_LINE_HEIGHT.
  assert (Qmax (105 # 100) (m # 100) == (Z.max 105 m # 100))%Q as ->.
  { destruct (Z.max_spec 105 m) as [[H ->]|[H ->]];
      [rewrite Q.max_r by (unfold Qle; cbn; lia)|rewrite Q.max_l by (unfold Qle; cbn; lia)]; reflexivity. }
  assert (Qmin (160 # 100) (Z.max 105 m # 100) == (Z.min 160 (Z.max 105 m) # 100))%Q as ->; [|reflexivity].
  destruct (Z.min_spec 160 (Z.max 105 m)) as [[H ->]|[H ->]];
    [rewrite Q.min_l by (unfold Qle; cbn; lia)|rewrite Q.min_r by (unfold Qle; cbn; lia)]; reflexivity.
Qed.

Lemma clamp_height_step n d :
  clampTerminalLineHeight (Finite ((n # 100) + (d # 100))) = (Z.min 160 (Z.max 105 (n + d)) # 100)%Q.
Proof.
  rewrite <- clamp_height_any. apply clamp_height_comp. unfold Qeq, Qplus. cbn. lia.
Qed.

(** ** What a control of the terminal asks for *)

#[local] Arguments clampTerminalLineHeight : simpl never.

(** The settings with the one field of a call moved as its control says. *)
Definition moved (c : TerminalPreferencesCall) (now asked : TerminalSettings) : Prop :=
  let '(mkTerminalSettings font height theme scrollback cursor blink) := now in
  match c with
  | IncreaseFontSize => asked = mkTerminalSettings (font + 1) height theme scrollback cursor blink
  | DecreaseFontSize => asked = mkTerminalSettings (font - 1) height theme scrollback cursor blink
  | ResetFontSize => asked = mkTerminalSettings 13 height theme scrollback cursor blink
  | IncreaseLineHeight => exists n, height = (n # 100)%Q /\
      asked = mkTerminalSettings font (Z.min 160 (n + 5) # 100) theme scrollback cursor blink
  | DecreaseLineHeight => exists n, height = (n # 100)%Q /\
      asked = mkTerminalSettings font (Z.max 105 (n - 5) # 100) theme scrollback cursor blink
  | ResetLineHeight => asked = mkTerminalSettings font (125 # 100) theme scrollback cursor blink
  | IncreaseScrollback => asked = mkTerminalSettings font height theme (Z.min 20000 (scrollback + 1000)) cursor blink
  | DecreaseScrollback => asked = mkTerminalSettings font height theme (Z.max 1000 (scrollback - 1000)) cursor blink
  | ResetScrollback => asked = mkTerminalSettings font height theme 5000 cursor blink
  | UpdateThemeMode mode => asked = mkTerminalSettings font height mode scrollback cursor blink
  | ResetThemeMode => asked = mkTerminalSettings font height ThemeAdaptive scrollback cursor blink
  | UpdateCursorStyle style => asked = mkTerminalSettings font height theme scrollback style blink
  | ResetCursorStyle => asked = mkTerminalSettings font height theme scrollback CursorBlock blink
  | UpdateCursorBlink value => asked = mkTerminalSettings font height theme scrollback cursor value
  | ResetCursorBlink => asked = mkTerminalSettings font height theme scrollback cursor true
  | ResetAllDefaults => asked = mkTerminalSettings 13 (125 # 100) ThemeAdaptive 5000 CursorBlock true
  | UpdateFontSize _ | UpdateLineHeight _ | UpdateScrollback _ | RefreshTerminal => False
  end.

(** A control that is enabled finds the preferences at rest, and its call moves
    them. *)
Lemma terminal_control_moves copy s control :
  shown_in_range s -> control ∈ controlsOf (terminalRows copy s) -> ct_enabled control = true ->
  terminalBusy s = false /\
  exists asked, asksFor s (ct_call control) (settingsOf s) = Some asked /\ asked <> settingsOf s /\
    moved (ct_call control) (settingsOf s) asked.
Proof.
  intros (H1 & (n & H2 & H3) & H4) Hin.
  destruct s as [blink style err font height scrollback theme loading saving promise]. cbn in H1, H2, H4. subst height.
  unfold MIN_TERMINAL_FONT_SIZE, MAX_TERMINAL_FONT_SIZE, MIN_TERMINAL_SCROLLBACK, MAX_TERMINAL_SCROLLBACK in *.
  apply list_elem_of_In in Hin. cbn in Hin. unfold terminalButton, terminalBusy in *. cbn in Hin |- *.
  repeat (destruct Hin as [<-|Hin]; [|]); try done; cbn; intros [Hb Hc]%andb_true_iff; apply negb_true_iff in Hb;
    (split; [exact Hb|]); unfold settingsOf; cbn -[Z.min Z.max clampTerminalLineHeight].
  all: unfold canDecreaseFontSize, canIncreaseFontSize, canDecreaseScrollback, canIncreaseScrollback, canDecreaseLineHeight,
    canIncreaseLineHeight, isAtTerminalDefaults, MIN_TERMINAL_FONT_SIZE, MAX_TERMINAL_FONT_SIZE, DEFAULT_TERMINAL_FONT_SIZE,
    MIN_TERMINAL_SCROLLBACK, MAX_TERMINAL_SCROLLBACK, DEFAULT_TERMINAL_SCROLLBACK in Hc; cbn in Hc.
  all: change ((n # 100) - (5 # 100))%Q with ((n # 100) + (-5 # 100))%Q; rewrite ?clamp_height_step.
  all: eexists; (split; [reflexivity|]); (split; [intros E; injection E; intros; subst|]).
  all: try reflexivity.
  all: try (vm_compute in Hc; discriminate).
  all: rewrite ?Z.ltb_lt, ?negb_true_iff, ?Z.eqb_neq, ?bool_decide_eq_false in Hc.
  all: try lia.
  all: try (f_equal; lia).
  all: try (by destruct blink).
  all: try (exists n; split; [reflexivity|]; do 2 f_equal; lia).
  all: unfold Qle_bool in Hc; cbn in Hc; lia.
Qed.

(** ** One change at a time *)

Definition terminalChange (A : Set) (r : TerminalPreferencesRequest A) : bool :=
  match r with UpdateTerminalSettings _ => true | RequestTerminalSettings => false end.

(** The section and what mounts beside it: controls are used, and the settings
    are loaded whenever a component subscribes. *)
Inductive terminal_section_call (copy : TerminalSettingsCopy) : TerminalPrefs unit -> Prop :=
  | uses_control n : terminal_section_call copy (useTerminalControl copy n)
  | subscribes : terminal_section_call copy ensureTerminalPreferencesLoaded.
Definition terminal_section_step (copy : TerminalSettingsCopy) :=
  sys_step (terminal_section_call copy) settingsAnswer (fun _ _ => False).

Lemma persist_changing next s : changing tp_isSaving terminalChange (persistTerminalSettings next) true s.
Proof. cbn. split; [done|]. intros [x|e] s'; cbn; done. Qed.

Lemma call_changing shown c s :
  c <> RefreshTerminal -> changing tp_isSaving terminalChange (useTerminalPreferences shown c) true s.
Proof. intros Hc. destruct c; try done; apply persist_changing. Qed.

Lemma load_quiet s : quiet tp_isSaving terminalChange ensureTerminalPreferencesLoaded (tp_isSaving s) s.
Proof.
  unfold quiet, ensureTerminalPreferencesLoaded. cbn. destruct (tp_loadPromise s); cbn; [done|].
  split; [by split|]. intros [x|e] s'; cbn; done.
Qed.

Lemma control_not_refresh copy s control :
  control ∈ controlsOf (terminalRows copy s) -> ct_call control <> RefreshTerminal.
Proof.
  intros Hin. apply list_elem_of_In in Hin. cbn in Hin. repeat (destruct Hin as [<-|Hin]; [cbn; discriminate|]). done.
Qed.

Lemma enabled_at_rest copy s control :
  control ∈ controlsOf (terminalRows copy s) -> ct_enabled control = true -> terminalBusy s = false.
Proof.
  intros Hin. apply list_elem_of_In in Hin. cbn in Hin.
  repeat (destruct Hin as [<-|Hin]; [cbn; by intros [?%negb_true_iff _]%andb_true_iff|]). done.
Qed.

Lemma section_call_guarded copy p s :
  terminal_section_call copy p ->
  quiet tp_isSaving terminalChange p (tp_isSaving s) s \/
  (tp_isSaving s = false /\ changing tp_isSaving terminalChange p true s).
Proof.
  intros [n|]; [|left; apply load_quiet]. unfold useTerminalControl, quiet, changing. cbn -[controlsOf terminalRows].
  destruct (controlsOf (terminalRows copy s) !! n) as [control|] eqn:Hn; [|left; by cbn].
  apply list_elem_of_lookup_2 in Hn. destruct (ct_enabled control) eqn:He; [|left; by cbn]. right. split.
  - pose proof (enabled_at_rest copy s control Hn He) as Hb. unfold terminalBusy in Hb. by apply orb_false_iff in Hb as [_ Hb].
  - apply call_changing. by eapply control_not_refresh.
Qed.

(** The section's calls are callbacks of the hook. *)
Lemma section_reaches_preferences copy m :
  rtc (terminal_section_step copy) (mkSystem terminalPreferencesState []) m ->
  rtc preferences_step (mkSystem terminalPreferencesState []) m.
Proof.
  intros Hr. refine (rtc_ind_r (fun m => rtc preferences_step (mkSystem terminalPreferencesState []) m) _ _ _ _ Hr); [done|].
  intros m1 m2 _ Hstep IH. destruct Hstep as [p Hp|i A r k a Hi Ha|s []].
  - destruct Hp as [n|].
    + unfold proceed, useTerminalControl. cbn [get bind run].
      destruct (controlsOf (terminalRows copy (sys_state m1)) !! n) as [control|]; [|by destruct m1].
      destruct (ct_enabled control); [|by destruct m1].
      eapply rtc_r; [exact IH|]. apply sys_start. by exists (sys_state m1), (ct_call control).
    + eapply rtc_r; [exact IH|]. apply sys_start. by exists (sys_state m1), RefreshTerminal.
  - eapply rtc_r; [exact IH|]. by eapply sys_answer.
Qed.

(** C32: Whatever was changed and loaded before and however the requests were
    answered: when a control of the section is enabled no other change is in
    flight, and using it sends the preferences that are shown with one field
    moved, by a step within its range or to the value that the control names, or
    else, for the button that resets all, the six defaults.  None is sent in vain,
    and none but that button undoes an earlier change of another field. *)
Theorem terminal_changes_are_serial copy m control :
  rtc (terminal_section_step copy) (mkSystem terminalPreferencesState []) m ->
  let s := sys_state m in
  control ∈ controlsOf (terminalRows copy s) -> ct_enabled control = true ->
  changes terminalChange m = [] /\
  exists asked k,
    run (useTerminalPreferences s (ct_call control)) s =
      (setTerminalStatus (fun _ => None) id (fun _ => true) id s, Waiting (UpdateTerminalSettings asked) k) /\
    asked <> settingsOf s /\ moved (ct_call control) (settingsOf s) asked.
Proof.
  intros Hr s Hin He.
  destruct (terminal_preferences_in_range m (section_reaches_preferences copy m Hr)) as [Hs _].
  destruct (terminal_control_moves copy s control Hs Hin He) as (Hb & asked & Ha & Hne & Hm). split.
  - destruct (system_serial tp_isSaving terminalChange _ settingsAnswer (section_call_guarded copy) _ _ Hr) as (_ & _ & Hl).
    unfold terminalBusy in Hb. apply orb_false_iff in Hb as [_ Hb]. fold s in Hl.
    destruct (Rely.changes terminalChange m); [done|]. rewrite Hl in Hb; done.
  - destruct (call_asks s (ct_call control) s asked Hs Hs Ha) as (next & <- & Hrun). rewrite Hrun.
    eexists _, _. split; [reflexivity|]. by split.
Qed.

Lemma terminal_changes_are_serial_witness :
  exists m control,
    rtc (terminal_section_step terminalSettingsCopy_en) (mkSystem terminalPreferencesState []) m /\
    ct_label control = "Increase terminal font size" /\ changes terminalChange m = [] /\
    exists asked k, run (useTerminalPreferences (sys_state m) (ct_call control)) (sys_state m) =
      (setTerminalStatus (fun _ => None) id (fun _ => true) id (sys_state m), Waiting (UpdateTerminalSettings asked) k).
Proof.
  pose (m1 := proceed ensureTerminalPreferencesLoaded (mkSystem terminalPreferencesState [])).
  assert (exists m2, terminal_section_step terminalSettingsCopy_en m1 m2 /\
    exists control, controlsOf (terminalRows terminalSettingsCopy_en (sys_state m2)) !! 3%nat = Some control /\
      ct_enabled control = true /\ ct_label control = "Increase terminal font size") as (m2 & H2 & control & Hc & He & Hl).
  { eexists. split.
    - eapply (sys_answer _ _ _ m1 0%nat TerminalSettings RequestTerminalSettings _
        (inl (normalizeTerminalSettings None))); [reflexivity|by exists None].
    - eexists. split; [reflexivity|]. by split. }
  assert (rtc (terminal_section_step terminalSettingsCopy_en) (mkSystem terminalPreferencesState []) m2) as Hr.
  { eapply rtc_l; [|by apply rtc_once]. apply sys_start. by right. }
  exists m2, control. split; [exact Hr|]. split; [exact Hl|].
  destruct (terminal_changes_are_serial terminalSettingsCopy_en m2 control Hr (list_elem_of_lookup_2 _ _ _ Hc) He)
    as (H1 & asked & k & H3 & _).
  split; [exact H1|]. by exists asked, k.
Defined.
