(* ===== verification/RuntimeSection.v ===== *)
(** * The general settings and those of the composer

    [frontend/src/widgets/settings/runtime-settings-section.tsx] and
    [ai-composer-settings-section.tsx]: their rows and controls over the states
    of the language, the theme, the debug mode, the watcher and the title of the
    window, and what each control calls. *)
From Stdlib Require Import Ascii String QArith.
From stdpp Require Import strings gmap.
From S2P Require Import Prelude JsString Text Number RuntimePath Effects AgentState Http SettingsApi Rely Preferences Theme SettingsTexts SettingsSections.
Local Open Scope string_scope.
Local Open Scope list_scope.
Local Open Scope Z_scope.
Local Open Scope js_scope.
Local Open Scope prog_scope.

#[global] Instance window_title_mode_eq : EqDecision WindowTitleMode.
Proof. solve_decision. Defined.

(** ** The composer's section *)

Definition composerBusy (s : AiComposerPreferencesState) : bool := ap_isLoading s || ap_isSaving s.

Definition currentModeRow (copy : AiComposerSettingsCopy) (s : AiComposerPreferencesState) : SettingRow AgentComposerSubmitMode :=
  mkSettingRow (acy_currentMode copy)
    (if decide (ap_submitMode s = EnterSends) then acy_enterSendsLabel copy +:+ "; " +:+ acy_enterSendsDescription copy
     else acy_modEnterSendsDescription copy +:+ " " +:+ acy_modEnterSendsLabel copy +:+ ".")
    (Some (if ap_isLoading s then acy_loading copy else if ap_isSaving s then acy_saving copy else acy_runtime copy)) [].
Definition submitModeRow (copy : AiComposerSettingsCopy) (s : AiComposerPreferencesState) : SettingRow AgentComposerSubmitMode :=
  mkSettingRow (acy_optionLabel copy) (acy_storedPreference copy) None
    (radioGroup (composerBusy s)
       [mkRadioOption EnterSends (acy_enterSendsLabel copy) (Some (acy_enterSendsDescription copy));
        mkRadioOption ModEnterSends (acy_modEnterSendsLabel copy) (Some (acy_modEnterSendsDescription copy))]
       (ap_submitMode s) id).
Definition composerRows (copy : AiComposerSettingsCopy) (s : AiComposerPreferencesState)
    : list (SettingRow AgentComposerSubmitMode) := [currentModeRow copy s; submitModeRow copy s].
Definition useComposerControl (copy : AiComposerSettingsCopy) (n : nat) : ComposerPrefs unit :=
  shown <- get ;;
  match controlsOf (composerRows copy shown) !! n with
  | Some control => if ct_enabled control then setAiComposerSubmitMode (ct_call control) else Ret tt
  | None => Ret tt
  end.

(** ** The general section *)

Definition localeOptionLabels (locale : AppLocale) : string :=
  match locale with
  | LocaleEn => "English"
  | LocaleRu => "Русский"
  | LocaleZhCN => "中文（简体）"
  | LocaleEs => "Español"
  end.
Definition watcherModeLabel (mode : RuntimeWatcherMode) (copy : RuntimeSettingsCopy) : string :=
  match mode with WatcherPersistent => rty_watcherModeLabelPersistent copy | WatcherEphemeral => rty_watcherModeLabelEphemeral copy end.
Definition shutdownBehaviorText (mode : RuntimeWatcherMode) (copy : RuntimeSettingsCopy) : string :=
  match mode with
  | WatcherPersistent => rty_watcherModeShutdownPersistent copy
  | WatcherEphemeral => rty_watcherModeShutdownEphemeral copy
  end.

(** What the section shows: the states of its hooks, and the title that is
    typed. *)
Record RuntimeSectionState := mkRuntimeSection {
  xr_composer : AiComposerPreferencesState;
  xr_runtime : RuntimeSettingsState;
  xr_canPersistWatcherMode : bool;
  xr_locale : LocaleState;
  xr_title : WindowTitleSettingsState;
  xr_theme : ThemeState;
  xr_customTitleDraft : string
}.

Inductive RuntimeSectionCall :=
  | CallRefreshLocale
  | CallSetLocale (locale : AppLocale)
  | CallSetTheme (preference : AppThemePreference)
  | CallSetDebugMode (enabled : bool)
  | CallRefreshRuntime
  | CallSetWatcher (mode : RuntimeWatcherMode)
  | CallRefreshTitle
  | CallSetTitleMode (mode : WindowTitleMode)
  | CallTypeTitle (value : string)
  | CallSaveTitle
  | CallResetTitle.

Section RuntimeRows.
Variable copy : RuntimeSettingsCopy.
Variable x : RuntimeSectionState.
Notation Row := (SettingRow RuntimeSectionCall).

Definition localeBusy : bool := lo_isLoading (xr_locale x) || lo_isSaving (xr_locale x).
Definition runtimeBusy : bool := rs_isLoading (xr_runtime x) || rs_isSaving (xr_runtime x).
Definition titleBusy : bool := ut_isLoading (xr_title x) || ut_isSaving (xr_title x).
Definition windowTitleMode : WindowTitleMode := wt_mode (ut_view (xr_title x)).
Definition refreshButton (loading busy : bool) (call : RuntimeSectionCall) : Control RuntimeSectionCall :=
  mkControl (if loading then rty_loading copy else rty_refresh copy) (negb busy) call.

Definition languageOptions : list (RadioGroupOption AppLocale) :=
  (fun supportedLocale => mkRadioOption supportedLocale (localeOptionLabels supportedLocale) None) <$>
  lo_supportedLocales (xr_locale x).
Definition currentLanguageRow : Row :=
  mkSettingRow (rty_currentLanguage copy) (rty_generalLanguageDescription copy)
    (Some (localeOptionLabels (lo_locale (xr_locale x))))
    [refreshButton (lo_isLoading (xr_locale x)) localeBusy CallRefreshLocale].
Definition languageRow : Row :=
  mkSettingRow (rty_shellLanguage copy) (rty_languageChangesHint copy) (lo_errorMessage (xr_locale x))
    (radioGroup localeBusy languageOptions (lo_locale (xr_locale x)) CallSetLocale).

Definition themeOptions : list (RadioGroupOption AppThemePreference) :=
  [mkRadioOption ThemeSystem (rty_themeSystemLabel copy) (Some (rty_themeSystemDescription copy));
   mkRadioOption ThemeLight (rty_themeLightLabel copy) (Some (rty_themeLightDescription copy));
   mkRadioOption ThemeDark (rty_themeDarkLabel copy) (Some (rty_themeDarkDescription copy))].
Definition themeRow : Row :=
  mkSettingRow (rty_shellTheme copy) (rty_themeChangesHint copy)
    (Some (if decide (resolvedTheme (xr_theme x) = ResolvedLight) then rty_themeResolvedLight copy else rty_themeResolvedDark copy))
    (radioGroup false themeOptions (th_preference (xr_theme x)) CallSetTheme).

Definition debugModeRow : Row :=
  mkSettingRow (rty_debugModeCurrentState copy) (rty_debugModeHint copy)
    (Some (if ap_isLoading (xr_composer x) then rty_loading copy
           else if ap_debugModeEnabled (xr_composer x) then rty_debugModeStatusEnabled copy
           else rty_debugModeStatusDisabled copy))
    (radioGroup (composerBusy (xr_composer x))
       [mkRadioOption false (rty_debugModeOptionDisabledLabel copy) (Some (rty_debugModeHint copy));
        mkRadioOption true (rty_debugModeOptionEnabledLabel copy) (Some (rty_debugModeHint copy))]
       (ap_debugModeEnabled (xr_composer x)) CallSetDebugMode).

Definition lifecycleRow : Row :=
  mkSettingRow (rty_currentMode copy) (shutdownBehaviorText (rs_watcherMode (xr_runtime x)) copy)
    (Some (watcherModeLabel (rs_watcherMode (xr_runtime x)) copy))
    [refreshButton (rs_isLoading (xr_runtime x)) runtimeBusy CallRefreshRuntime].
Definition watcherRow : Row :=
  mkSettingRow (rty_watcherModeRadioLabel copy)
    (if xr_canPersistWatcherMode x then rty_watcherModeHintDesktop copy else rty_watcherModeHintBrowser copy)
    (rs_errorMessage (xr_runtime x))
    (radioGroup (runtimeBusy || negb (xr_canPersistWatcherMode x))
       [mkRadioOption WatcherEphemeral (rty_watcherModeOptionEphemeralLabel copy) (Some (rty_watcherModeOptionEphemeralDescription copy));
        mkRadioOption WatcherPersistent (rty_watcherModeOptionPersistentLabel copy) (Some (rty_watcherModeOptionPersistentDescription copy))]
       (rs_watcherMode (xr_runtime x)) CallSetWatcher).

Definition currentRuleRow : Row :=
  mkSettingRow (rty_currentRule copy)
    (if decide (windowTitleMode = TitleCustom) then rty_windowTitleCustomDescription copy else rty_windowTitleAutoDescription copy)
    (Some (showTitleMode windowTitleMode))
    [refreshButton (ut_isLoading (xr_title x)) titleBusy CallRefreshTitle].
Definition titleModeRow : Row :=
  mkSettingRow (rty_windowTitleMode copy) "" (ut_errorMessage (xr_title x))
    (radioGroup titleBusy
       [mkRadioOption TitleAuto "Auto title" (Some (rty_windowTitleAutoOptionDescription copy));
        mkRadioOption TitleCustom "Custom title" (Some (rty_windowTitleCustomOptionDescription copy))]
       windowTitleMode CallSetTitleMode).
(** The field, with [value] typed into it, and the buttons. *)
Definition titleDisabled : bool := titleBusy || negb (bool_decide (windowTitleMode = TitleCustom)).
Definition customTitleRow (value : string) : Row :=
  mkSettingRow (rty_customTitleTextboxLabel copy)
    (rty_autoPreview copy +:+ ": " +:+
     (if truthy (wt_auto_title (ut_view (xr_title x))) then wt_auto_title (ut_view (xr_title x)) else "RunaTerminal")) None
    [mkControl (rty_customTitleTextboxLabel copy) (negb titleDisabled) (CallTypeTitle value);
     mkControl (rty_saveCustomTitle copy) (negb titleDisabled) CallSaveTitle;
     mkControl (rty_resetToAuto copy) (negb (titleBusy || bool_decide (windowTitleMode = TitleAuto))) CallResetTitle].

Definition transportRow : Row :=
  mkSettingRow (rty_transport copy)
    (if xr_canPersistWatcherMode x then rty_watcherModeTransportDesktop copy else rty_splitBrowserLoop copy)
    (Some (if xr_canPersistWatcherMode x then rty_desktopBadge copy else rty_browserBadge copy)) [].
Definition unknownPath : string := if rs_isLoading (xr_runtime x) then rty_loading copy else rty_unavailable copy.
Definition repositoryRootRow : Row :=
  mkSettingRow (rty_repositoryRoot copy) ((cx_repoRoot <$> rs_runtimeContext (xr_runtime x)) ?? unknownPath) None [].
Definition homeDirectoryRow : Row :=
  mkSettingRow (rty_homeDirectory copy) (truthyOpt (cx_homeDir <$> rs_runtimeContext (xr_runtime x)) ?? unknownPath) None [].
Definition shellTransportRow : Row :=
  mkSettingRow (rty_currentShellTransport copy) (shutdownBehaviorText (rs_watcherMode (xr_runtime x)) copy) None [].

Definition runtimeRows (value : string) : list Row :=
  [currentLanguageRow; languageRow; themeRow; debugModeRow; lifecycleRow; watcherRow; currentRuleRow; titleModeRow;
   customTitleRow value; transportRow; repositoryRootRow; homeDirectoryRow; shellTransportRow].

End RuntimeRows.

(** What a control does: a call of one of the hooks, or a change at once. *)
Inductive RuntimeSectionRun :=
  | RunLocale (p : LocalePrefs unit)
  | RunComposer (p : ComposerPrefs unit)
  | RunWatcher (p : RuntimePrefs unit)
  | RunTitle (p : TitlePrefs unit)
  | RunTheme (f : ThemedPage -> ThemedPage)
  | RunDraft (draft : string).

(** [i] is the section's use of the hook of the title. *)
Definition runtimeControl (i : nat) (x : RuntimeSectionState) (call : RuntimeSectionCall) : RuntimeSectionRun :=
  match call with
  | CallRefreshLocale => RunLocale refreshLocale
  | CallSetLocale locale => RunLocale (setLocale (lo_locale (xr_locale x)) locale)
  | CallSetTheme preference => RunTheme (fun p => documentEffect (setThemePreference (showThemePreference preference) p))
  | CallSetDebugMode enabled => RunComposer (setAiDebugModeEnabled enabled)
  | CallRefreshRuntime => RunWatcher refreshRuntimeSettings
  | CallSetWatcher mode => RunWatcher (updateWatcherMode (xr_canPersistWatcherMode x) (rs_watcherMode (xr_runtime x)) mode)
  | CallRefreshTitle => RunTitle (refreshWindowTitle i)
  | CallSetTitleMode mode => RunTitle (updateTitleSettings i None (Some mode))
  | CallTypeTitle value => RunDraft value
  | CallSaveTitle => RunTitle (updateTitleSettings i (Some (xr_customTitleDraft x)) (Some TitleCustom))
  | CallResetTitle => RunTitle (updateTitleSettings i None (Some TitleAuto))
  end.

(** The effect that fills the field when the custom title changes. *)
Definition customTitleEffect (before after : string) (draft : string) : string :=
  if decide (before = after) then draft else after.

(** ** The section over one of its stores *)

Section Uses.
Variable copy : RuntimeSettingsCopy.
Variable rest : RuntimeSectionState.    (* what the other hooks show *)
Variable value : string.

Definition withLocale (s : LocaleState) : RuntimeSectionState :=
  mkRuntimeSection (xr_composer rest) (xr_runtime rest) (xr_canPersistWatcherMode rest) s (xr_title rest) (xr_theme rest)
    (xr_customTitleDraft rest).
Definition withComposer (s : AiComposerPreferencesState) : RuntimeSectionState :=
  mkRuntimeSection s (xr_runtime rest) (xr_canPersistWatcherMode rest) (xr_locale rest) (xr_title rest) (xr_theme rest)
    (xr_customTitleDraft rest).

(** The [n]th control is used, as far as the language or the agent is concerned. *)
Definition useLocaleControl (n : nat) : LocalePrefs unit :=
  shown <- get ;;
  match controlsOf (runtimeRows copy (withLocale shown) value) !! n with
  | Some control =>
      if ct_enabled control then
        match runtimeControl 0 (withLocale shown) (ct_call control) with RunLocale p => p | _ => Ret tt end
      else Ret tt
  | None => Ret tt
  end.
Definition useDebugControl (n : nat) : ComposerPrefs unit :=
  shown <- get ;;
  match controlsOf (runtimeRows copy (withComposer shown) value) !! n with
  | Some control =>
      if ct_enabled control then
        match runtimeControl 0 (withComposer shown) (ct_call control) with RunComposer p => p | _ => Ret tt end
      else Ret tt
  | None => Ret tt
  end.

End Uses.

(** * Lemmas *)

Lemma radio_enabled {V C} `{EqDecision V} disabled (options : list (RadioGroupOption V)) value (onChange : V -> C) control :
  control ∈ radioGroup disabled options value onChange ->
  exists v, ct_call control = onChange v /\ v ∈ (ro_value <$> options) /\
    (ct_enabled control = true -> disabled = false /\ v <> value).
Proof.
  unfold radioGroup. intros (choice & -> & Hin)%list_elem_of_fmap. exists (ro_value choice). cbn.
  split; [done|]. split; [by apply list_elem_of_fmap_2|].
  intros [H1%negb_true_iff H2%negb_true_iff%bool_decide_eq_false]%andb_true_iff. done.
Qed.

(** The row of each control. *)
Lemma language_control copy x value control locale :
  control ∈ controlsOf (runtimeRows copy x value) -> ct_call control = CallSetLocale locale -> ct_enabled control = true ->
  localeBusy x = false /\ locale <> lo_locale (xr_locale x) /\ locale ∈ lo_supportedLocales (xr_locale x).
Proof.
  unfold controlsOf. intros Hin Hc He. apply list_elem_of_In in Hin.
  assert (control ∈ radioGroup (localeBusy x) (languageOptions x) (lo_locale (xr_locale x)) CallSetLocale) as Hr.
  { cbn [runtimeRows fmap list_fmap concat sw_controls currentLanguageRow languageRow] in Hin.
    apply in_app_or in Hin as [[<-|[]]|Hin]; [done|]. apply in_app_or in Hin as [Hin|Hin]; [by apply list_elem_of_In|].
    exfalso. cbn in Hin. repeat (destruct Hin as [<-|Hin]; [done|]). done. }
  destruct (radio_enabled _ _ _ _ _ Hr) as (v & Hv & Hin' & Hv'). rewrite Hc in Hv. injection Hv as <-.
  destruct (Hv' He) as [H1 H2]. split; [done|]. split; [done|].
  unfold languageOptions in Hin'. rewrite <- list_fmap_compose in Hin'.
  apply list_elem_of_fmap in Hin' as (l & -> & Hl). exact Hl.
Qed.

Lemma debug_control copy x value control enabled :
  control ∈ controlsOf (runtimeRows copy x value) -> ct_call control = CallSetDebugMode enabled -> ct_enabled control = true ->
  composerBusy (xr_composer x) = false /\ enabled = negb (ap_debugModeEnabled (xr_composer x)).
Proof.
  unfold controlsOf. intros Hin Hc He. apply list_elem_of_In in Hin.
  cbn [runtimeRows fmap list_fmap concat sw_controls currentLanguageRow languageRow] in Hin.
  apply in_app_or in Hin as [[<-|[]]|Hin]; [done|]. apply in_app_or in Hin as [Hin|Hin].
  { apply list_elem_of_In, radio_enabled in Hin as (v & Hv & _). by rewrite Hc in Hv. }
  cbn in Hin. repeat (destruct Hin as [<-|Hin]; [try done|]); [..|done]; cbn in Hc, He; injection Hc as <-;
    apply andb_true_iff in He as [H1%negb_true_iff H2%negb_true_iff%bool_decide_eq_false];
    (split; [done|]); by destruct (ap_debugModeEnabled (xr_composer x)).
Qed.

Lemma submit_control copy s control :
  control ∈ controlsOf (composerRows copy s) -> ct_enabled control = true ->
  composerBusy s = false /\ ct_call control <> ap_submitMode s.
Proof.
  intros Hin He. apply list_elem_of_In in Hin. cbn in Hin.
  repeat (destruct Hin as [<-|Hin]; [cbn in He |- *;
    by apply andb_true_iff in He as [H1%negb_true_iff H2%negb_true_iff%bool_decide_eq_false]|]). done.
Qed.

(** ** One change at a time *)

Definition localeChange (A : Set) (r : LocaleRequest A) : bool :=
  match r with UpdateLocaleSettings _ => true | RequestLocaleSettings => false end.
Definition composerChange (A : Set) (r : ComposerRequest A) : bool :=
  match r with UpdateAgentSettings _ => true | RequestAgentSettings => false end.

(** The section in use, and the loading of the language when the application
    starts; the general section and that of the composer share the settings of
    the agent. *)
Inductive locale_call (copy : RuntimeSettingsCopy) : LocalePrefs unit -> Prop :=
  | locale_control rest value n : locale_call copy (useLocaleControl copy rest value n)
  | locale_mounted : locale_call copy refreshLocale.
Inductive agent_settings_call (locale : AppLocale) : ComposerPrefs unit -> Prop :=
  | debug_used rest value n : agent_settings_call locale (useDebugControl (runtimeSettingsCopy locale) rest value n)
  | submit_mode_used n : agent_settings_call locale (useComposerControl (aiComposerSettingsCopy locale) n)
  | agent_settings_subscribed : agent_settings_call locale ensureAiComposerPreferencesLoaded.
Definition locale_step (copy : RuntimeSettingsCopy) := sys_step (locale_call copy) (fun _ _ _ _ => True) (fun _ _ => False).
Definition agent_settings_step (locale : AppLocale) :=
  sys_step (agent_settings_call locale) (fun _ _ _ _ => True) (fun _ _ => False).

Lemma refresh_locale_quiet s : quiet lo_isSaving localeChange refreshLocale (lo_isSaving s) s.
Proof. unfold quiet. cbn. split; [by split|]. intros [x|e] s'; cbn; done. Qed.

Lemma set_locale_changing l s :
  l <> lo_locale s -> changing lo_isSaving localeChange (setLocale (lo_locale s) l) true s.
Proof.
  intros H. unfold changing, setLocale. rewrite bool_decide_eq_false_2 by done. cbn. split; [done|].
  intros [x|e] s'; cbn; done.
Qed.

Lemma locale_call_guarded copy p s :
  locale_call copy p ->
  quiet lo_isSaving localeChange p (lo_isSaving s) s \/
  (lo_isSaving s = false /\ changing lo_isSaving localeChange p true s).
Proof.
  intros [rest value n|]; [|left; apply refresh_locale_quiet].
  unfold useLocaleControl, quiet, changing. cbn -[controlsOf runtimeRows runtimeControl].
  destruct (controlsOf _ !! n) as [control|] eqn:Hn; [|left; by cbn].
  apply list_elem_of_lookup_2 in Hn. destruct (ct_enabled control) eqn:He; [|left; by cbn].
  destruct (ct_call control) as [|l| | | | | | | | |] eqn:Hc; try (left; by cbn).
  - left. apply refresh_locale_quiet.
  - right. destruct (language_control copy _ value control l Hn Hc He) as (Hb & Hl & _).
    apply orb_false_iff in Hb as [_ Hb]. split; [exact Hb|]. by apply (set_locale_changing l s).
Qed.

Lemma persist_composer_changing f s : changing ap_isSaving composerChange (persistComposer f) true s.
Proof. unfold changing. cbn. split; [done|]. intros [x|e] s'; cbn; done. Qed.

Lemma composer_load_quiet s : quiet ap_isSaving composerChange ensureAiComposerPreferencesLoaded (ap_isSaving s) s.
Proof.
  unfold quiet, ensureAiComposerPreferencesLoaded. cbn. destruct (ap_loadPromise s); cbn; [done|].
  split; [by split|]. intros [x|e] s'; cbn; done.
Qed.

Lemma agent_settings_guarded locale p s :
  agent_settings_call locale p ->
  quiet ap_isSaving composerChange p (ap_isSaving s) s \/
  (ap_isSaving s = false /\ changing ap_isSaving composerChange p true s).
Proof.
  intros [rest value n|n|]; [| |left; apply composer_load_quiet].
  - unfold useDebugControl, quiet, changing. cbn -[controlsOf runtimeRows runtimeControl].
    destruct (controlsOf _ !! n) as [control|] eqn:Hn; [|left; by cbn].
    apply list_elem_of_lookup_2 in Hn. destruct (ct_enabled control) eqn:He; [|left; by cbn].
    destruct (ct_call control) as [| | |enabled| | | | | | |] eqn:Hc; try (left; by cbn).
    right. destruct (debug_control _ _ value control enabled Hn Hc He) as [Hb _].
    apply orb_false_iff in Hb as [_ Hb]. split; [exact Hb|]. apply persist_composer_changing.
  - unfold useComposerControl, quiet, changing. cbn -[controlsOf composerRows setAiComposerSubmitMode].
    destruct (controlsOf _ !! n) as [control|] eqn:Hn; [|left; by cbn].
    apply list_elem_of_lookup_2 in Hn. destruct (ct_enabled control) eqn:He; [|left; by cbn].
    right. destruct (submit_control _ s control Hn He) as [Hb _].
    apply orb_false_iff in Hb as [_ Hb]. split; [exact Hb|]. apply persist_composer_changing.
Qed.

(** When a language can be chosen no other choice is in flight; choosing one of
    the supported languages shows it at once and sends it, and a failure goes
    back to the language before, whatever was loaded in between. *)
Theorem language_choices_are_serial copy rest value m control l :
  rtc (locale_step copy) (mkSystem initialLocale []) m ->
  let s := sys_state m in
  control ∈ controlsOf (runtimeRows copy (withLocale rest s) value) ->
  ct_call control = CallSetLocale l -> ct_enabled control = true ->
  changes localeChange m = [] /\ l ∈ lo_supportedLocales s /\
  exists k,
    run (setLocale (lo_locale s) l) s =
      (mkLocaleState l (lo_supportedLocales s) (lo_isLoading s) true None, Waiting (UpdateLocaleSettings l) k) /\
    forall e s', lo_locale (fst (run (k (inr e)) s')) = lo_locale s.
Proof.
  intros Hr s Hin Hc He. destruct (language_control copy _ value control l Hin Hc He) as (Hb & Hl & Hs). split; [|split].
  - destruct (system_serial lo_isSaving localeChange _ _ (locale_call_guarded copy) _ _ Hr) as (_ & _ & Hlocked).
    apply orb_false_iff in Hb as [_ Hb]. cbn in Hb. fold s in Hlocked.
    destruct (changes localeChange m); [done|]. rewrite Hlocked in Hb; done.
  - exact Hs.
  - destruct (proj2 (locale_change_exact (lo_locale s) l s) Hl) as (k & Hk & _ & Hf). exists k. split; [exact Hk|].
    intros e s'. by rewrite Hf.
Qed.

(** The submit mode and the debug mode are saved together, from two sections:
    a change that a control makes sends the other one as it is stored in the
    preferences, and no other change is in flight then, so neither is undone. *)
Theorem agent_settings_are_serial locale m :
  rtc (agent_settings_step locale) (mkSystem aiComposerPreferencesState []) m ->
  let s := sys_state m in
  (forall control, control ∈ controlsOf (composerRows (aiComposerSettingsCopy locale) s) -> ct_enabled control = true ->
     changes composerChange m = [] /\
     exists k, snd (run (setAiComposerSubmitMode (ct_call control)) s) =
       Waiting (UpdateAgentSettings (mkAgentSettings (ct_call control) (ap_debugModeEnabled s))) k) /\
  (forall rest value control enabled,
     control ∈ controlsOf (runtimeRows (runtimeSettingsCopy locale) (withComposer rest s) value) ->
     ct_call control = CallSetDebugMode enabled -> ct_enabled control = true ->
     changes composerChange m = [] /\
     exists k, snd (run (setAiDebugModeEnabled enabled) s) =
       Waiting (UpdateAgentSettings (mkAgentSettings (ap_submitMode s) (negb (ap_debugModeEnabled s)))) k).
Proof.
  intros Hr s. assert (composerBusy s = false -> changes composerChange m = []) as Hidle.
  { intros Hb. destruct (system_serial ap_isSaving composerChange _ _ (agent_settings_guarded locale) _ _ Hr) as (_ & _ & Hl).
    apply orb_false_iff in Hb as [_ Hb]. fold s in Hl. destruct (changes composerChange m); [done|]. rewrite Hl in Hb; done. }
  split.
  - intros control Hin He. destruct (submit_control _ s control Hin He) as [Hb _]. split; [by apply Hidle|].
    eexists. cbn. by destruct (ct_call control).
  - intros rest value control enabled Hin Hc He.
    destruct (debug_control _ _ value control enabled Hin Hc He) as [Hb ->]. split; [by apply Hidle|]. by eexists.
Qed.
