(* ===== verification/SettingsShell.v ===== *)
(** * The shell of the settings

    [frontend/src/widgets/settings/settings-shell-widget.tsx]: the navigation
    between the sections, and the sections of models and limits over the state
    of the providers ([ProviderSettings]).  Each mounted section has a use of
    the hook of its own. *)
From Stdlib Require Import Ascii String QArith.
From stdpp Require Import strings.
From S2P Require Import Prelude JsString Text Number RuntimePath Providers Effects AgentState Http ProviderApi ProviderSettings SettingsTexts.
Local Open Scope string_scope.
Local Open Scope list_scope.
Local Open Scope Z_scope.
Local Open Scope js_scope.

(** ** Navigation *)

Module Shell.

Record ShellState := mkShell { sh_activeSectionID : SettingsSectionID; sh_isAiExpanded : bool }.
Definition initialShell : ShellState := mkShell SectionAiApps true.

Definition isAiSectionActive (s : ShellState) : bool := startsWith "ai-" (showSection (sh_activeSectionID s)).

(** The effect that runs after the active section changed. *)
Definition expandEffect (before s : ShellState) : ShellState :=
  if decide (sh_activeSectionID before = sh_activeSectionID s) then s
  else if isAiSectionActive s then mkShell (sh_activeSectionID s) true else s.

Definition setActiveSectionID (id : SettingsSectionID) (s : ShellState) : ShellState := mkShell id (sh_isAiExpanded s).
Definition handleToggleAiSection (s : ShellState) : ShellState :=
  let next := negb (sh_isAiExpanded s) in
  mkShell (if next && negb (isAiSectionActive s) then SectionAiApps else sh_activeSectionID s) next.

Inductive ShellClick := ClickSection (id : SettingsSectionID) | ClickAi.
(** The buttons of the sidebar; those of the nested sections only while the
    group is expanded. *)
Definition nestedSections : list SettingsSectionID := [SectionAiApps; SectionAiModels; SectionAiComposer; SectionAiLimits].
Definition shellOffers (s : ShellState) (c : ShellClick) : bool :=
  match c with
  | ClickAi => true
  | ClickSection id => negb (bool_decide (id ∈ nestedSections)) || sh_isAiExpanded s
  end.
Definition shellStep (s : ShellState) (c : ShellClick) : ShellState :=
  expandEffect s (match c with ClickSection id => setActiveSectionID id s | ClickAi => handleToggleAiSection s end).

(** Clicks on buttons that are not there do nothing. *)
Definition shellClick (s : ShellState) (c : ShellClick) : ShellState := if shellOffers s c then shellStep s c else s.
Definition runShell (s : ShellState) (l : list ShellClick) : ShellState := foldl shellClick s l.

(** The texts above the section. *)
Definition activeMeta (locale : AppLocale) (s : ShellState) : SettingsSectionMeta :=
  ssc_sections (settingsShellCopy locale) (sh_activeSectionID s).

(** What [renderSection] mounts. *)
Inductive MountedSection :=
  | GeneralSection | AIAppsSection | AiModelsSection | AiComposerSection | AiLimitsSection
  | TerminalSection | RemoteSection | MCPSection | PluginsSection | CommanderSection.
Definition renderSection (id : SettingsSectionID) : MountedSection :=
  match id with
  | SectionGeneral => GeneralSection
  | SectionAiApps => AIAppsSection
  | SectionAiModels => AiModelsSection
  | SectionAiComposer => AiComposerSection
  | SectionAiLimits => AiLimitsSection
  | SectionTerminal => TerminalSection
  | SectionRemote => RemoteSection
  | SectionMcp => MCPSection
  | SectionPlugins => PluginsSection
  | SectionCommander => CommanderSection
  end.

End Shell.

(** ** The routes of the providers *)

Definition providerKindLabels (kind : string) : option string :=
  if decide (kind = "codex") then Some "Codex CLI"
  else if decide (kind = "claude") then Some "Claude Code CLI"
  else if decide (kind = "openai-compatible") then Some "OpenAI-compatible HTTP"
  else None.

(** The loop with the models that it has [seen]. *)
Fixpoint uniqueModelIDsFrom (seen models : list string) : list string :=
  match models with
  | [] => []
  | rawModel :: rest =>
      let model := trimText rawModel in
      if negb (truthy model) || includes model seen then uniqueModelIDsFrom seen rest
      else model :: uniqueModelIDsFrom (model :: seen) rest
  end.
Definition uniqueModelIDs (models : list string) : list string := uniqueModelIDsFrom [] models.

Module Direct.

Definition directProviderDefaultModel (provider : option AgentProviderView) : string :=
  match provider with
  | None => ""
  | Some provider =>
      let model (settings : option ProviderKindSettings) := (trimText <$> mbind pk_model settings) ?? "" in
      if decide (pv_kind provider = "codex") then model (pv_codex provider)
      else if decide (pv_kind provider = "claude") then model (pv_claude provider)
      else if decide (pv_kind provider = "openai-compatible") then model (pv_openai_compatible provider)
      else ""
  end.
Definition directProviderChatModels (provider : option AgentProviderView) : list string :=
  match provider with
  | None => []
  | Some provider =>
      let models (settings : option ProviderKindSettings) := mbind pk_chat_models settings ?? [] in
      if decide (pv_kind provider = "codex") then models (pv_codex provider)
      else if decide (pv_kind provider = "claude") then models (pv_claude provider)
      else if decide (pv_kind provider = "openai-compatible") then models (pv_openai_compatible provider)
      else []
  end.

End Direct.

Definition findGatewayProvider (providerID : string) (gatewayProviders : option (list AgentProviderGatewayProvider))
    : option AgentProviderGatewayProvider :=
  gatewayProviders ≫= find (fun provider => bool_decide (gp_provider_id provider = providerID)).

Definition formatProviderRouteState (state : option string) (copy : SettingsShellCopy) : string :=
  let states := ssc_providerRouteStates copy in
  if decide (state = Some "ready") then srs_ready states
  else if decide (state = Some "auth-required") then srs_authRequired states
  else if decide (state = Some "disabled") then srs_disabled states
  else if decide (state = Some "unchecked") then srs_unchecked states
  else if decide (state = Some "unreachable") then srs_unreachable states
  else if decide (state = Some "model-unavailable") then srs_modelUnavailable states
  else srs_needsAttention states.

Definition describeProviderConnection (provider : AgentProviderView) (gatewayProvider : option AgentProviderGatewayProvider)
    (copy : SettingsShellCopy) : string :=
  let models := ssc_aiModels copy in
  let byKind :=
    if decide (pv_kind provider = "codex") then sam_routeNotProbedCodex models
    else if decide (pv_kind provider = "claude") then sam_routeNotProbedClaude models
    else if decide (pv_kind provider = "openai-compatible") then
      (gatewayProvider ≫= gp_base_url) ?? ((pv_openai_compatible provider ≫= pk_endpoint) ?? sam_routeNotConfigured models)
    else sam_routeUnknown models in
  match gatewayProvider ≫= gp_route_status_message with
  | Some message => if truthy (trimText message) then message else byKind
  | None => byKind
  end.

Definition describeProviderLimitState (provider : AgentProviderView) (gatewayProvider : option AgentProviderGatewayProvider)
    (copy : SettingsShellCopy) : string :=
  let limits := ssc_aiLimits copy in
  let state := gatewayProvider ≫= gp_route_status_state in
  if negb (pv_enabled provider) then sal_routeDisabled limits
  else if pv_active provider then sal_routeActive limits
  else if decide (state = Some "ready") then sal_routeReady limits
  else if decide (state = Some "auth-required") then sal_routeAuthRequired limits
  else if decide (state = Some "unchecked") then sal_routeUnchecked limits
  else if decide (pv_kind provider = "openai-compatible") then
    (if pv_enabled provider then sal_routeConfiguredHttp limits else sal_routeDisabledHttp limits)
  else sal_routeUnknown limits.

(** ** The section of models *)

Section ModelsSection.
Variable copy : SettingsShellCopy.
Variable s : SettingsState.

Definition directProviders : list AgentProviderView := (pc_providers <$> sl_catalog (st_selection s)) ?? [].
(** The hook's own. *)
Definition selectedProvider : option AgentProviderView :=
  sl_catalog (st_selection s) ≫= fun catalog => truthyOpt (sl_selectedProviderID (st_selection s)) ≫= findProvider catalog.
Definition isSelected (provider : AgentProviderView) : bool :=
  bool_decide (Some (pv_id provider) = sl_selectedProviderID (st_selection s)).

(** The effect that selects a provider when none of the catalog is. *)
Definition selectFirstEffect : option SettingsCall :=
  match directProviders with
  | [] => None
  | first :: _ => if existsb isSelected directProviders then None else Some (SelectProvider (pv_id first))
  end.

Definition activeProvider : option AgentProviderView :=
  match selectedProvider with
  | Some provider => Some provider
  | None =>
      match find isSelected directProviders with
      | Some provider => Some provider
      | None => head directProviders
      end
  end.
Definition configuredModel : string := Direct.directProviderDefaultModel activeProvider.
Definition selectedChatModels : list string := Direct.directProviderChatModels activeProvider.
Definition visibleModels : list string :=
  uniqueModelIDs (configuredModel :: selectedChatModels ++ mo_available (st_models s)).

Definition gatewayOf (provider : AgentProviderView) : option AgentProviderGatewayProvider :=
  findGatewayProvider (pv_id provider) (gw_providers <$> ga_gateway (st_gateway s)).
Definition providerTitle (provider : AgentProviderView) : option string :=
  if truthy (pv_display_name provider) then Some (pv_display_name provider) else providerKindLabels (pv_kind provider).

Record ProviderCard := mkProviderCard {
  kr_isActive : bool;
  kr_title : option string;
  kr_kind : option string;
  kr_connection : string;
  kr_onClick : SettingsCall
}.
Definition providerCard (provider : AgentProviderView) : ProviderCard :=
  mkProviderCard (bool_decide (Some (pv_id provider) = (pv_id <$> activeProvider))) (providerTitle provider)
    (providerKindLabels (pv_kind provider)) (describeProviderConnection provider (gatewayOf provider) copy)
    (SelectProvider (pv_id provider)).

(** A row of the list of models; [mr_onChange] is what its box does. *)
Record ModelRow := mkModelRow {
  mr_model : string;
  mr_isDefaultModel : bool;
  mr_isEnabledInChat : bool;
  mr_description : string;
  mr_badge : option string;
  mr_disabled : bool;
  mr_onChange : bool -> option SettingsCall
}.
Definition nextChatModels (model : string) (checked : bool) : list string :=
  if checked then uniqueModelIDs (selectedChatModels ++ [model])
  else filterb (fun entry => negb (bool_decide (entry = model))) selectedChatModels.
Definition modelRow (model : string) : ModelRow :=
  let isDefaultModel := bool_decide (model = configuredModel) in
  mkModelRow model isDefaultModel (includes model selectedChatModels || isDefaultModel)
    (if isDefaultModel then sam_defaultModelDescription (ssc_aiModels copy) else sam_enabledModelDescription (ssc_aiModels copy))
    (if isDefaultModel then Some (sam_defaultBadge (ssc_aiModels copy)) else None)
    (bz_isSaving (st_busy s) || mo_isLoading (st_models s) || isDefaultModel)
    (fun checked => (fun provider => UpdateChatModels provider (nextChatModels model checked)) <$> activeProvider).

(** What the section shows. *)
Inductive ModelsView :=
  | ModelsLoading (text : string)
  | ModelsEmpty (text : string)
  | ModelsShown (cards : list ProviderCard) (title : option string) (state : string) (refresh : string) (refreshDisabled : bool)
      (count : string) (messages : list string) (rows : list ModelRow).
Definition modelsMessages : list string :=
  let error := truthyOpt (bz_errorMessage (st_busy s)) in
  let modelError := truthyOpt (mo_errorMessage (st_models s)) in
  option_list error ++ option_list modelError ++ option_list (truthyOpt (bz_statusMessage (st_busy s))) ++
  (match error, modelError, visibleModels with
   | None, None, [] => [sam_noDiscoveredModels (ssc_aiModels copy)]
   | _, _, _ => []
   end).
Definition modelsView : ModelsView :=
  let models := ssc_aiModels copy in
  if bz_isLoading (st_busy s) then ModelsLoading (sam_loadingProviders models)
  else
    match directProviders, activeProvider with
    | [], _ | _, None => ModelsEmpty (sam_noProviders models)
    | _, Some provider =>
        ModelsShown (providerCard <$> directProviders) (providerTitle provider)
          (if pv_active provider then sam_providerActive models else sam_providerAvailable models)
          (if mo_isLoading (st_models s) then sam_loadingShort models else sam_refreshModels models)
          (mo_isLoading (st_models s))
          (sam_countModels models (Z.of_nat (length (mo_available (st_models s)))))
          modelsMessages (modelRow <$> visibleModels)
    end.

(** ** The section of limits *)

Record LimitRow := mkLimitRow { lr_title : option string; lr_state : string; lr_badge : string }.
Definition limitRow `{Locale} (provider : AgentProviderView) : LimitRow :=
  mkLimitRow (providerTitle provider) (describeProviderLimitState provider (gatewayOf provider) copy)
    (if pv_active provider then sal_activeBadge (ssc_aiLimits copy)
     else toLocaleLowerCase (formatProviderRouteState (gatewayOf provider ≫= gp_route_status_state) copy)).
Definition limitsView `{Locale} : string + list LimitRow :=
  if bz_isLoading (st_busy s) then inl (sal_loading (ssc_aiLimits copy))
  else
    match directProviders with
    | [] => inl (sal_noProviders (ssc_aiLimits copy))
    | providers => inr (limitRow <$> providers)
    end.

End ModelsSection.

(** * Lemmas *)

(** Every section can be shown with at most two clicks on buttons that are
    there, from wherever the shell is. *)
Theorem shell_reaches (s : Shell.ShellState) (id : SettingsSectionID) :
  exists l, (length l <= 2)%nat /\ Shell.sh_activeSectionID (Shell.runShell s l) = id.
Proof.
  destruct s as [active [|]].
  - exists [Shell.ClickSection id]. split; [cbn; lia|]. by destruct id, active.
  - destruct (decide (id ∈ Shell.nestedSections)) as [Hn|Hn].
    + exists [Shell.ClickAi; Shell.ClickSection id]. split; [cbn; lia|]. by destruct id, active.
    + exists [Shell.ClickSection id]. split; [cbn; lia|]. destruct id, active; try done; exfalso; apply Hn; cbn; set_solver.
Qed.

(** ** Unique models *)

(** The loop of the section is the helper of the hook. *)
Lemma unique_from seen models :
  uniqueModelIDsFrom seen models = dedupe_from seen (filterb truthy (trimText <$> models)).
Proof.
  revert seen. induction models as [|m models IH]; intros seen; [done|].
  cbn [uniqueModelIDsFrom fmap list_fmap]. unfold filterb in *. cbn [List.filter].
  destruct (truthy (trimText m)); cbn [negb orb]; [|apply IH]. cbn [dedupe_from].
  destruct (includes (trimText m) seen); by rewrite IH.
Qed.
Lemma unique_models_agree models : uniqueModelIDs models = uniqueModels models.
Proof. apply unique_from. Qed.

Lemma elem_of_unique x models : x ∈ uniqueModels models <-> truthy x = true /\ exists m, m ∈ models /\ x = trimText m.
Proof.
  unfold uniqueModels. rewrite elem_of_dedupe, elem_of_filterb, list_elem_of_fmap. firstorder.
Qed.

(** Models as the backend keeps them. *)
Definition cleanModel (m : string) : Prop := trimmedText m /\ m <> "".

Lemma clean_unique m : cleanModel m -> truthy m = true /\ trimText m = m.
Proof. intros [H1 H2]. split; [by apply truthy_ne|by apply trimText_id]. Qed.

Lemma visible_clean s m : m ∈ visibleModels s -> cleanModel m.
Proof.
  unfold visibleModels. rewrite unique_models_agree, elem_of_unique. intros (Ht & x & _ & ->).
  split; [apply trim_trimmed|]. intros E. by rewrite E in Ht.
Qed.

Lemma elem_of_clean x models : Forall cleanModel models -> x ∈ uniqueModels models <-> x ∈ models.
Proof.
  intros Hm. rewrite elem_of_unique. rewrite Forall_forall in Hm. split.
  - intros (_ & m & Hin & ->). by rewrite (proj2 (clean_unique m (Hm m Hin))).
  - intros Hin. destruct (clean_unique x (Hm x Hin)) as [H1 H2]. split; [done|]. by exists x.
Qed.

(** What the hook sends for the box of a model. *)
Lemma next_models s m checked x :
  Forall cleanModel (selectedChatModels s) -> cleanModel m ->
  x ∈ uniqueModels (nextChatModels s m checked) <->
  if checked then x ∈ selectedChatModels s \/ x = m else x ∈ selectedChatModels s /\ x <> m.
Proof.
  intros Hs Hm. unfold nextChatModels. destruct checked.
  - assert (Forall cleanModel (selectedChatModels s ++ [m])) as Hs' by (apply Forall_app; split; [done|by constructor]).
    rewrite unique_models_agree. rewrite elem_of_clean.
    + rewrite elem_of_clean by done. set_solver.
    + apply Forall_forall. intros y Hy. rewrite elem_of_clean in Hy by done. by apply (proj1 (Forall_forall _ _) Hs').
  - rewrite elem_of_clean.
    + rewrite elem_of_filterb. rewrite negb_true_iff, bool_decide_eq_false. done.
    + apply Forall_forall. intros y [Hy _]%elem_of_filterb. by apply (proj1 (Forall_forall _ _) Hs).
Qed.

(** Whether a provider offers a model in the chat. *)
Definition enabledIn (provider : AgentProviderView) (m : string) : bool :=
  includes m (Direct.directProviderChatModels (Some provider)) ||
  bool_decide (m = Direct.directProviderDefaultModel (Some provider)).

Definition supportedKind (kind : string) : Prop := kind = "codex" \/ kind = "claude" \/ kind = "openai-compatible".

(** The models that a payload gives to the kind, and nothing else of it. *)
Definition sentModels (kind : string) (payload : UpdateAgentProviderPayload) (models : list string) : Prop :=
  let own k := if decide (kind = k) then Some (mkKindInput None None (Some models)) else None in
  payload = mkUpdateProvider None None None None (own "codex") (own "claude") (own "openai-compatible").

Lemma chat_payload provider models :
  supportedKind (pv_kind provider) ->
  exists payload, buildChatModelsUpdatePayload provider models = inl payload /\ sentModels (pv_kind provider) payload models.
Proof.
  unfold buildChatModelsUpdatePayload, sentModels. intros [-> |[-> | ->]]; eexists; (split; [reflexivity|]); reflexivity.
Qed.

(** Changing the box of a model sends one update of the provider that is shown,
    with chat models of its kind only; once the provider has those, the model is
    offered in the chat where it was not, or no longer where it was, and every
    other model as before. *)
Theorem chat_model_toggled copy s provider m call :
  let row := modelRow copy s m in
  activeProvider s = Some provider -> supportedKind (pv_kind provider) -> Forall cleanModel (selectedChatModels s) ->
  m ∈ visibleModels s -> mr_disabled row = false ->
  mr_onChange row (negb (mr_isEnabledInChat row)) = Some call ->
  exists payload models k,
    run (settingsProg call) s = (startSaving s, Waiting (UpdateProviderRequest (pv_id provider) payload) k) /\
    sentModels (pv_kind provider) payload models /\
    forall provider', Direct.directProviderChatModels (Some provider') = models ->
      Direct.directProviderDefaultModel (Some provider') = configuredModel s ->
      forall m', enabledIn provider' m' = if decide (m' = m) then negb (mr_isEnabledInChat row) else enabledIn provider m'.
Proof.
  intros row Hp Hk Hclean Hm Hd Hcall.
  assert (m <> configuredModel s) as Hne.
  { apply orb_false_iff in Hd as [_ Hd]. by apply bool_decide_eq_false in Hd. }
  set (checked := negb (mr_isEnabledInChat row)) in *.
  change (mr_onChange row checked)
    with ((fun provider => UpdateChatModels provider (nextChatModels s m checked)) <$> activeProvider s) in Hcall.
  rewrite Hp in Hcall. injection Hcall as <-.
  destruct (chat_payload provider (uniqueModels (nextChatModels s m checked)) Hk) as (payload & Hb & Hs).
  exists payload, (uniqueModels (nextChatModels s m checked)). eexists. split; [|split; [exact Hs|]].
  - cbn [settingsProg]. unfold updateProviderChatModels, saving.
    cbn -[buildChatModelsUpdatePayload uniqueModels nextChatModels reloadGateway]. rewrite Hb. reflexivity.
  - intros provider' Hc' Hd' m'. unfold enabledIn. rewrite Hc', Hd'.
    assert (Direct.directProviderDefaultModel (Some provider) = configuredModel s) as ->
      by (unfold configuredModel; by rewrite Hp).
    assert (Direct.directProviderChatModels (Some provider) = selectedChatModels s) as ->
      by (unfold selectedChatModels; by rewrite Hp).
    pose proof (next_models s m checked m' Hclean (visible_clean s m Hm)) as Hn.
    assert (mr_isEnabledInChat row = includes m (selectedChatModels s)) as Hrow.
    { cbn. by rewrite (bool_decide_eq_false_2 (m = configuredModel s)), orb_false_r. }
    case_decide as He.
    + subst m'. rewrite (bool_decide_eq_false_2 (m = configuredModel s)), orb_false_r by done.
      subst checked. rewrite Hrow in *. destruct (includes m (selectedChatModels s)); cbn [negb] in *.
      * apply includes_false. rewrite Hn. by intros [_ ?].
      * apply includes_true. rewrite Hn. by right.
    + f_equal. destruct (includes m' (selectedChatModels s)) eqn:E.
      * apply includes_true in E. apply includes_true. rewrite Hn. destruct checked; [by left|by split].
      * apply includes_false in E. apply includes_false. rewrite Hn. destruct checked; [by intros [?|?]|by intros [? _]].
Qed.

Definition shownProvider : AgentProviderView :=
  mkProviderView "p1" "codex" "Codex" true true (mkAccess "ann" None None) (mkActor "ann" None) (mkActor "ann" None)
    (mkRoutePolicy None None) (Some (mkKindSettings (Some "codex") (Some "gpt-5.4") (Some ["gpt-5.4"; "gpt-mini"]))) None None "" "".
Definition shownSettings : SettingsState :=
  setAvailableModels ["gpt-5.4"; "gpt-mini"; "o9"] (setLoading false (on_selection (fun _ =>
    mkSelectionState (Some (mkProviderCatalog (mkActor "ann" None) [shownProvider] "p1" ["codex"])) (Some "p1")
      (Some (createProviderDraftFromView shownProvider))) initialSettings)).

Lemma chat_model_toggled_witness :
  exists payload models k,
    run (settingsProg (UpdateChatModels shownProvider ["gpt-5.4"; "gpt-mini"; "o9"])) shownSettings =
      (startSaving shownSettings, Waiting (UpdateProviderRequest "p1" payload) k) /\
    sentModels "codex" payload models.
Proof.
  destruct (chat_model_toggled (settingsShellCopy LocaleEn) shownSettings shownProvider "o9"
    (UpdateChatModels shownProvider ["gpt-5.4"; "gpt-mini"; "o9"])) as (payload & models & k & H1 & H2 & _).
  - reflexivity.
  - by left.
  - repeat constructor; vm_compute; done.
  - vm_compute. set_solver.
  - reflexivity.
  - reflexivity.
  - by exists payload, models, k.
Defined.
