(* ===== verification/ProviderView.v ===== *)
(** * The form of the providers

    [frontend/src/widgets/settings/agent-provider-settings-widget.tsx] over the
    state of [ProviderSettings]: the cards of the providers, the fields of the
    draft, the signals of the gateway, the history of runs with the diagnostics
    of one, and every control with its call of the hook.  The text of a point in
    time ([new Date(value)] and [toLocaleString]) is a parameter, which answers
    nothing for what is no date. *)
From Stdlib Require Import Ascii String QArith.
From stdpp Require Import strings.
From S2P Require Import Prelude JsString Text Number RuntimePath Providers Effects AgentState Http ProviderApi ProviderSettings SettingsTexts SettingsSections SettingsShell.
Local Open Scope string_scope.
Local Open Scope list_scope.
Local Open Scope Z_scope.
Local Open Scope js_scope.

#[global] Instance recovery_kind_eq : EqDecision RecoveryKind.
Proof. solve_decision. Defined.

(** ** Texts *)

Definition kindLabels (kind : string) : string :=
  if decide (kind = "codex") then "Codex CLI"
  else if decide (kind = "claude") then "Claude Code CLI"
  else if decide (kind = "openai-compatible") then "OpenAI-compatible HTTP"
  else "".
Definition defaultSupportedKinds : list string := ["codex"; "claude"; "openai-compatible"].

Definition formatCLIStatus (state : option string) (copy : AgentProviderSettingsWidgetCopy) : string :=
  let statuses := pvc_statuses copy in
  if decide (state = Some "ready") then pst_routeReady statuses
  else if decide (state = Some "auth-required") then pst_loginRequired statuses
  else if decide (state = Some "disabled") then pst_disabled statuses
  else if decide (state = Some "unchecked") then pst_unchecked statuses
  else if decide (state = Some "unreachable") then pst_unreachable statuses
  else if decide (state = Some "model-unavailable") then pst_modelUnavailable statuses
  else pst_needsAttention statuses.

Definition formatGatewayStatus (status : option string) (copy : AgentProviderSettingsWidgetCopy) : string :=
  let statuses := pvc_statuses copy in
  if decide (status = Some "succeeded") then pst_healthy statuses
  else if decide (status = Some "failed") then pst_failing statuses
  else if decide (status = Some "cancelled") then pst_cancelled statuses
  else pst_noRuns statuses.

(** [durationMS / 1000] as a double, for at least a second: the mantissa of 53
    bits and the scale [2^s] that it is divided by; halves go to the even one. *)
Definition secondsDouble (durationMS : Z) : Z * Z :=
  let s := 52 - Z.log2 (durationMS / 1000) in
  let n := durationMS * 2 ^ s in
  let q := n / 1000 in
  let r := n mod 1000 in
  let up := (500 <? r) || ((r =? 500) && Z.odd q) in
  ((if up then q + 1 else q), 2 ^ s).
(** [toFixed] of it; of two texts as close, the larger. *)
Definition secondsFixed (digits : Z) (durationMS : Z) : string :=
  let '(mantissa, scale) := secondsDouble durationMS in
  let n := (2 * mantissa * 10 ^ digits + scale) / (2 * scale) in
  if digits =? 0 then showZ n else showZ (n / 10) +:+ "." +:+ showZ (n mod 10).
Definition formatDuration (durationMS : option Z) : string :=
  match durationMS with
  | None => "n/a"
  | Some ms =>
      if ms <=? 0 then "n/a"
      else if 1000 <=? ms then secondsFixed (if 10000 <=? ms then 0 else 1) ms +:+ "s"
      else showZ ms +:+ "ms"
  end.

Definition routeStatusForProvider (providerID : option string) (gateway : option (list AgentProviderGatewayProvider))
    : option AgentProviderGatewayProvider :=
  match truthyOpt providerID, gateway with
  | Some id, Some ((_ :: _) as providers) => find (fun provider => bool_decide (gp_provider_id provider = id)) providers
  | _, _ => None
  end.

(** The text [value || other]. *)
Definition orText (value : option string) (other : string) : string := truthyOpt value ?? other.

(** ** What the fields put into the draft *)

Definition withDisplayName (value : string) (d : AgentProviderDraft) : AgentProviderDraft :=
  mkDraft (pd_mode d) (pd_id d) (pd_kind d) value (pd_enabled d) (pd_ownerUsername d) (pd_visibility d) (pd_allowedUsers d)
    (pd_prewarmPolicy d) (pd_warmTTLSeconds d) (pd_codex d) (pd_claude d) (pd_openAICompatible d).
Definition withEnabled (checked : bool) (d : AgentProviderDraft) : AgentProviderDraft :=
  mkDraft (pd_mode d) (pd_id d) (pd_kind d) (pd_displayName d) checked (pd_ownerUsername d) (pd_visibility d) (pd_allowedUsers d)
    (pd_prewarmPolicy d) (pd_warmTTLSeconds d) (pd_codex d) (pd_claude d) (pd_openAICompatible d).
Definition withOwnerUsername (value : string) (d : AgentProviderDraft) : AgentProviderDraft :=
  mkDraft (pd_mode d) (pd_id d) (pd_kind d) (pd_displayName d) (pd_enabled d) value (pd_visibility d) (pd_allowedUsers d)
    (pd_prewarmPolicy d) (pd_warmTTLSeconds d) (pd_codex d) (pd_claude d) (pd_openAICompatible d).
Definition withVisibility (value : string) (d : AgentProviderDraft) : AgentProviderDraft :=
  mkDraft (pd_mode d) (pd_id d) (pd_kind d) (pd_displayName d) (pd_enabled d) (pd_ownerUsername d) value (pd_allowedUsers d)
    (pd_prewarmPolicy d) (pd_warmTTLSeconds d) (pd_codex d) (pd_claude d) (pd_openAICompatible d).
Definition withAllowedUsers (value : string) (d : AgentProviderDraft) : AgentProviderDraft :=
  mkDraft (pd_mode d) (pd_id d) (pd_kind d) (pd_displayName d) (pd_enabled d) (pd_ownerUsername d) (pd_visibility d) value
    (pd_prewarmPolicy d) (pd_warmTTLSeconds d) (pd_codex d) (pd_claude d) (pd_openAICompatible d).
Definition withPrewarmPolicy (value : AgentProviderPrewarmPolicy) (d : AgentProviderDraft) : AgentProviderDraft :=
  mkDraft (pd_mode d) (pd_id d) (pd_kind d) (pd_displayName d) (pd_enabled d) (pd_ownerUsername d) (pd_visibility d)
    (pd_allowedUsers d) value (pd_warmTTLSeconds d) (pd_codex d) (pd_claude d) (pd_openAICompatible d).

(** [Math.max(0, Number.parseInt(value || '0', 10) || 0)]: the digits that the
    text begins with, after spaces and a sign.  Beyond [2^53] the model is
    exact where the number is rounded. *)
Fixpoint digitPrefix (s : string) : string :=
  match s with
  | String a s' => if is_digit a then String a (digitPrefix s') else ""
  | EmptyString => ""
  end.
Fixpoint digitsValue (acc : Z) (s : string) : Z :=
  match s with
  | EmptyString => acc
  | String a s' => digitsValue (acc * 10 + Z.of_nat (code a - 48)) s'
  end.
Definition parseNatural (value : string) : Z :=
  match trimText value with
  | String a rest =>
      if decide (a = "-"%char) then 0
      else digitsValue 0 (digitPrefix (if decide (a = "+"%char) then rest else String a rest))
  | EmptyString => 0
  end.
Definition withWarmTTLSeconds (value : string) (d : AgentProviderDraft) : AgentProviderDraft :=
  mkDraft (pd_mode d) (pd_id d) (pd_kind d) (pd_displayName d) (pd_enabled d) (pd_ownerUsername d) (pd_visibility d)
    (pd_allowedUsers d) (pd_prewarmPolicy d) (ofZ (parseNatural value)) (pd_codex d) (pd_claude d) (pd_openAICompatible d).
(** [String(draft.warmTTLSeconds)], which is whole. *)
Definition showTTL (n : Number) : string :=
  match n with
  | Finite q => showZ (truncQ q)
  | Infinite true => "Infinity"
  | Infinite false => "-Infinity"
  | NotANumber => "NaN"
  end.

(** The settings of one kind. *)
Definition withCodex (f : KindDraft -> KindDraft) (d : AgentProviderDraft) : AgentProviderDraft :=
  mkDraft (pd_mode d) (pd_id d) (pd_kind d) (pd_displayName d) (pd_enabled d) (pd_ownerUsername d) (pd_visibility d)
    (pd_allowedUsers d) (pd_prewarmPolicy d) (pd_warmTTLSeconds d) (f (pd_codex d)) (pd_claude d) (pd_openAICompatible d).
Definition withClaude (f : KindDraft -> KindDraft) (d : AgentProviderDraft) : AgentProviderDraft :=
  mkDraft (pd_mode d) (pd_id d) (pd_kind d) (pd_displayName d) (pd_enabled d) (pd_ownerUsername d) (pd_visibility d)
    (pd_allowedUsers d) (pd_prewarmPolicy d) (pd_warmTTLSeconds d) (pd_codex d) (f (pd_claude d)) (pd_openAICompatible d).
Definition withOpenAICompatible (f : KindDraft -> KindDraft) (d : AgentProviderDraft) : AgentProviderDraft :=
  mkDraft (pd_mode d) (pd_id d) (pd_kind d) (pd_displayName d) (pd_enabled d) (pd_ownerUsername d) (pd_visibility d)
    (pd_allowedUsers d) (pd_prewarmPolicy d) (pd_warmTTLSeconds d) (pd_codex d) (pd_claude d) (f (pd_openAICompatible d)).
Definition withEndpoint (value : string) (k : KindDraft) : KindDraft := mkKindDraft value (kd_model k).

(** ** Fields *)

(** A text field, or a select with its options; [ff_onChange] is the call for
    what is typed or chosen. *)
Record FormField := mkField {
  ff_label : string;
  ff_value : string;
  ff_placeholder : option string;
  ff_hint : option string;
  ff_options : option (list (string * string));
  ff_onChange : string -> SettingsCall
}.
Definition textField (label value : string) (placeholder hint : option string) (edit : string -> AgentProviderDraft -> AgentProviderDraft)
    : FormField :=
  mkField label value placeholder hint None (fun typed => EditDraft (edit typed)).

(** [ModelSelectField]: the options are the value and the models, each once. *)
Definition modelOptions (value : string) (models : list string) : list string :=
  dedupe (filterb truthy (trimText value :: (trimText <$> models))).
Definition ModelSelectField (copy : AgentProviderSettingsWidgetCopy) (label value : string) (models : list string)
    (hint : string) (errorMessage : option string) (edit : string -> AgentProviderDraft -> AgentProviderDraft) : FormField :=
  let choices := modelOptions value models in
  mkField label value None (Some (orText errorMessage hint))
    (Some (match choices with [] => [("", pvc_noModelsLoaded copy)] | _ => (fun model => (model, model)) <$> choices end))
    (fun model => EditDraft (edit model)).

(** ** The widget *)

Section ProviderView.
Context `{Locale}.
Variable formatTimestamp : string -> option string.
Variable copy : AgentProviderSettingsWidgetCopy.
Variable s : SettingsState.

Definition formatRunTimestamp (value : option string) : string :=
  match truthyOpt value with
  | None => pvc_unknown copy
  | Some value => formatTimestamp value ?? pvc_unknown copy
  end.

Definition shownCatalog : option AgentProviderCatalog := sl_catalog (st_selection s).
Definition shownGateway : option (list AgentProviderGatewayProvider) := gw_providers <$> ga_gateway (st_gateway s).
Definition supportedKinds : list string :=
  filterb (fun kind => bool_decide (kind = "codex") || bool_decide (kind = "claude") || bool_decide (kind = "openai-compatible"))
    ((pc_supported_kinds <$> shownCatalog) ?? defaultSupportedKinds).
Definition selectedGatewayProvider : option AgentProviderGatewayProvider :=
  routeStatusForProvider (sl_selectedProviderID (st_selection s)) shownGateway.
Definition selectedGatewayRecoveryAction : option AgentProviderGatewayRecoveryAction :=
  getProviderGatewayRecoveryAction selectedGatewayProvider.

(** The toolbar and the cards. *)
Definition toolbarControls : list (Control SettingsCall) :=
  (fun kind => mkControl (pvc_addProvider copy (kindLabels kind)) true (StartCreateProvider kind)) <$> supportedKinds.

Record ProviderListCard := mkListCard {
  pl_isSelected : bool;
  pl_title : string;
  pl_state : string;
  pl_kind : string;
  pl_route : option string;
  pl_stats : option string;
  pl_onClick : SettingsCall
}.
Definition cardRoute (provider : AgentProviderView) : option string :=
  let route := routeStatusForProvider (Some (pv_id provider)) shownGateway in
  let model (settings : option ProviderKindSettings) := (settings ≫= pk_model) ?? "" in
  if decide (pv_kind provider = "codex") then
    Some (model (pv_codex provider) +:+ " · " +:+ formatCLIStatus (route ≫= gp_route_status_state) copy)
  else if decide (pv_kind provider = "claude") then
    Some (model (pv_claude provider) +:+ " · " +:+ formatCLIStatus (route ≫= gp_route_status_state) copy)
  else if decide (pv_kind provider = "openai-compatible") then
    Some (model (pv_openai_compatible provider) +:+ " · " +:+
          ((route ≫= gp_base_url) ?? ((pv_openai_compatible provider ≫= pk_endpoint) ?? "")))
  else None.
Definition cardStats (provider : AgentProviderView) : option string :=
  match shownGateway ≫= find (fun entry => bool_decide (gp_provider_id entry = pv_id provider)) with
  | None => None
  | Some entry =>
      if gp_total_runs entry =? 0 then None
      else Some (formatGatewayStatus (gp_last_status entry) copy +:+ " · " +:+
                 pvc_routeStats copy (gp_succeeded_runs entry) (gp_total_runs entry)
                   (formatDuration (Some (gp_average_duration_ms entry))))
  end.
Definition listCard (provider : AgentProviderView) : ProviderListCard :=
  mkListCard (bool_decide (Some (pv_id provider) = sl_selectedProviderID (st_selection s)))
    (orText (Some (pv_display_name provider)) (kindLabels (pv_kind provider)))
    (if pv_active provider then pvc_active copy else if pv_enabled provider then pvc_ready copy else pvc_disabled copy)
    (kindLabels (pv_kind provider)) (cardRoute provider) (cardStats provider) (SelectProvider (pv_id provider)).
Definition listCards : list ProviderListCard := listCard <$> directProviders s.
Definition cardControls : list (Control SettingsCall) :=
  (fun card => mkControl (pl_title card) true (pl_onClick card)) <$> listCards.

(** What is shown instead of the editor, without a draft. *)
Definition noDraftText : string := bz_errorMessage (st_busy s) ?? pvc_chooseProvider copy.

(** *** The editor of a draft *)

Section Editor.
Variable draft : AgentProviderDraft.

Definition isNew : bool := bool_decide (pd_mode draft = DraftNew).
Definition editorTitle : string :=
  if isNew then pvc_createProvider copy else orText (Some (pd_displayName draft)) (kindLabels (pd_kind draft)).
Definition editorKind : string :=
  pvc_kind copy (kindLabels (pd_kind draft)) ((pv_active <$> selectedProvider s) ?? false).
Definition currentActor : option string := (fun c => ac_username (pc_current_actor c)) <$> shownCatalog.

Definition profileFields : list FormField :=
  [textField (pvc_displayName copy) (pd_displayName draft) (Some (pvc_displayNamePlaceholder copy)) None withDisplayName;
   textField (pvc_ownerUsername copy) (pd_ownerUsername draft) (Some (orText currentActor "owner")) (Some (pvc_ownerHint copy))
     withOwnerUsername;
   mkField (pvc_providerVisibility copy) (pd_visibility draft) None
     (Some (pvc_currentActor copy (orText currentActor (pvc_unknown copy))))
     (Some [("private", pvc_private copy); ("shared", pvc_shared copy)]) (fun value => EditDraft (withVisibility value));
   textField (pvc_allowedUsers copy) (pd_allowedUsers draft) (Some "alice, bob") (Some (pvc_allowedUsersHint copy)) withAllowedUsers].
Definition enabledControl : Control SettingsCall :=
  mkControl (pvc_providerStatus copy) true (EditDraft (withEnabled (negb (pd_enabled draft)))).
Definition createdUpdatedText : option string :=
  (fun provider => pvc_createdUpdated copy (orText (Some (ac_username (pv_created_by provider))) (pvc_unknown copy))
                     (orText (Some (ac_username (pv_updated_by provider))) (pvc_unknown copy))) <$> selectedProvider s.

Definition gatewaySignals : list (string * string) :=
  let gp := selectedGatewayProvider in
  [(pvc_currentStatus copy, formatCLIStatus (gp ≫= gp_route_status_state) copy);
   (pvc_averageLatency copy, formatDuration (gp_average_duration_ms <$> gp));
   (pvc_firstResponse copy, formatDuration (gp_last_first_response_latency_ms <$> gp));
   (pvc_routeChecked copy, formatRunTimestamp (gp ≫= gp_route_checked_at));
   (pvc_probeLatency copy, formatDuration (gp_route_latency_ms <$> gp));
   (pvc_warmPolicy copy,
      orText (gp ≫= gp_route_prewarm_policy) (showPrewarmPolicy (pd_prewarmPolicy draft)) +:+ " · " +:+ pvc_ttl copy +:+ " " +:+
      (match gp_route_warm_ttl_seconds <$> gp with
       | Some ttl => if ttl =? 0 then showTTL (pd_warmTTLSeconds draft) else showZ ttl
       | None => showTTL (pd_warmTTLSeconds draft)
       end) +:+ "s")].
Definition gatewayMessages : list string :=
  let gp := selectedGatewayProvider in
  option_list (pvc_gatewayTelemetryUnavailable copy <$> truthyOpt (ga_errorMessage (st_gateway s))) ++
  option_list ((fun message =>
    let code := formatProviderGatewayErrorCode (gp ≫= gp_last_error_code) in
    pvc_lastError copy +:+ (if truthy code then " (" +:+ code +:+ ")" else "") +:+ ": " +:+ message) <$>
    truthyOpt (gp ≫= gp_last_error_message)) ++
  option_list (pvc_routeStatusMessage copy <$> truthyOpt (gp ≫= gp_route_prepare_message)) ++
  option_list ((fun value => pvc_warmWindowEnds copy (formatRunTimestamp (Some value))) <$>
    truthyOpt (gp ≫= gp_route_prepare_expires_at)) ++
  option_list (pvc_routeStatusMessage copy <$> truthyOpt (gp ≫= gp_route_status_message)).

Definition isSaving : bool := bz_isSaving (st_busy s).
Definition isProbing : bool := bz_isProbing (st_busy s).
Definition isPreparing : bool := bz_isPreparing (st_busy s).
Definition gatewayControls : list (Control SettingsCall) :=
  [mkControl (if isProbing then pvc_probing copy else pvc_probeProviderRoute copy) (negb (isSaving || isProbing || isNew))
     ProbeSelected] ++
  (match selectedGatewayRecoveryAction with
   | Some action =>
       if decide (rv_kind action = RecoverPrepare) then
         [mkControl (if isPreparing then pvc_preparing copy else pvc_recoveryActionLabel copy (rv_label action))
            (negb (isSaving || isPreparing || isNew)) PrewarmSelected]
       else []
   | None => []
   end) ++
  [mkControl (pvc_clearRouteState copy) (negb (isSaving || isPreparing || isNew)) ClearSelectedRoute].
Definition suggestedRecoveryText : option string :=
  match selectedGatewayRecoveryAction with
  | Some action =>
      if decide (rv_kind action = RecoverProbe) then
        if decide (rv_label action = "Probe route") then None
        else Some (pvc_suggestedRecovery copy (pvc_recoveryActionLabel copy (rv_label action)))
      else None
  | None => None
  end.

Definition policyFields : list FormField :=
  [mkField (pvc_prewarmPolicy copy) (showPrewarmPolicy (pd_prewarmPolicy draft)) None None
     (Some [("manual", pvc_manualOnly copy); ("on_activate", pvc_prepareOnActivate copy); ("on_startup", pvc_prepareOnAppStart copy)])
     (fun value => EditDraft (withPrewarmPolicy (parsePrewarmPolicy (Some value))));
   textField (pvc_warmTtl copy) (showTTL (pd_warmTTLSeconds draft)) None (Some (pvc_warmTtlHint copy)) withWarmTTLSeconds].

(** The fields and the texts of the draft's kind. *)
Definition modelField (hint : string) (k : KindDraft) (edit : (KindDraft -> KindDraft) -> AgentProviderDraft -> AgentProviderDraft)
    : FormField :=
  ModelSelectField copy (pvc_model copy) (kd_model k) (mo_available (st_models s)) hint (mo_errorMessage (st_models s))
    (fun value => edit (withModel value)).
Definition kindFields : list FormField :=
  if decide (pd_kind draft = "codex") then
    [textField (pvc_command copy) (kd_endpoint (pd_codex draft)) (Some "codex") (Some (pvc_commandHint copy "codex"))
       (fun value => withCodex (withEndpoint value));
     modelField (pvc_modelCodexHint copy) (pd_codex draft) withCodex]
  else if decide (pd_kind draft = "claude") then
    [textField (pvc_command copy) (kd_endpoint (pd_claude draft)) (Some "claude") (Some (pvc_commandHint copy "claude"))
       (fun value => withClaude (withEndpoint value));
     modelField (pvc_modelClaudeHint copy) (pd_claude draft) withClaude]
  else if decide (pd_kind draft = "openai-compatible") then
    [textField (pvc_baseUrl copy) (kd_endpoint (pd_openAICompatible draft)) (Some "http://127.0.0.1:8317") (Some (pvc_baseUrlHint copy))
       (fun value => withOpenAICompatible (withEndpoint value));
     modelField (pvc_modelHttpHint copy) (pd_openAICompatible draft) withOpenAICompatible]
  else [].
Definition refreshModelsControls : list (Control SettingsCall) :=
  match kindFields with
  | [] => []
  | _ => [mkControl (if mo_isLoading (st_models s) then pvc_loadingModels copy else pvc_refresh copy)
            (negb (mo_isLoading (st_models s))) (RefreshModels None)]
  end.
Definition kindTexts : list (string * string) :=
  let gp := selectedGatewayProvider in
  let cli := [(pvc_status copy, match truthyOpt (gp ≫= gp_route_status_message) with
                                | Some message => pvc_routeStatusMessage copy message
                                | None => pvc_probeProviderRoute copy
                                end);
              (pvc_resolvedBinary copy, orText (gp ≫= gp_resolved_binary) (pvc_unknownUntilProbed copy))] in
  if decide (pd_kind draft = "codex") then cli
  else if decide (pd_kind draft = "claude") then cli
  else if decide (pd_kind draft = "openai-compatible") then
    let http := selectedProvider s ≫= pv_openai_compatible in
    [(pvc_connection copy, (gp ≫= gp_base_url) ?? ((http ≫= pk_endpoint) ?? pvc_probeProviderRoute copy));
     (pvc_chatVisibility copy,
        match (http ≫= pk_chat_models) ?? [] with
        | [] => pvc_noDiscoveredModelsEnabled copy
        | models => pvc_chatEnabledModels copy (Z.of_nat (length models))
        end)]
  else [].

(** The history: its filters, the runs and the diagnostics of one of them. *)
Definition showHistoryFilter (status : ProviderHistoryStatusFilter) : string := showHistoryStatus status ?? "all".
Definition parseHistoryFilter (value : string) : ProviderHistoryStatusFilter :=
  if decide (value = "failed") then StatusFailed
  else if decide (value = "succeeded") then StatusSucceeded
  else if decide (value = "cancelled") then StatusCancelled
  else StatusAll.
Definition historyFields : list FormField :=
  let h := st_history s in
  let statuses := pvc_statuses copy in
  [mkField (pvc_historySearch copy) (hi_query h) (Some (pvc_historySearchPlaceholder copy)) (Some (pvc_historySearchHint copy)) None
     (fun query => SetHistoryFilters query (hi_status h) (hi_scope h) (hi_limit h));
   mkField (pvc_statusFilter copy) (showHistoryFilter (hi_status h)) None None
     (Some [("all", pst_all statuses); ("failed", pst_failedOnly statuses); ("succeeded", pst_succeededOnly statuses);
            ("cancelled", pst_cancelledOnly statuses)])
     (fun value => SetHistoryFilters (hi_query h) (parseHistoryFilter value) (hi_scope h) (hi_limit h));
   mkField (pvc_providerScope copy) (if decide (hi_scope h = ScopeSelected) then "selected" else "all") None None
     (Some [("selected", pvc_selectedProvider copy); ("all", pvc_allProviders copy)])
     (fun value => SetHistoryFilters (hi_query h) (hi_status h) (if decide (value = "selected") then ScopeSelected else ScopeEvery)
                     (hi_limit h));
   mkField (pvc_historyWindow copy) (showZ (hi_limit h)) None
     (Some (pvc_showingRuns copy (Z.of_nat (length (hi_runs h))) (hi_total h) (hi_offset h)))
     (Some ((fun limit => (showZ limit, pvc_runs copy limit)) <$> providerGatewayHistoryPageOptions))
     (fun value => SetHistoryFilters (hi_query h) (hi_status h) (hi_scope h) (parseNatural value))].
Definition historyControls : list (Control SettingsCall) :=
  let h := st_history s in
  if hi_hasMore h then
    [mkControl (if hi_isLoading h then pvc_loadingModels copy else pvc_loadMoreHistory copy) (negb (hi_isLoading h)) LoadMoreHistory]
  else [].

Record RunCard := mkRunCard { rc_id : string; rc_title : string; rc_text : string; rc_error : option string }.
Definition runTitle (run : AgentProviderGatewayRun) : string :=
  orText (Some (gr_provider_display_name run)) (gr_provider_id run).
Definition runCard (run : AgentProviderGatewayRun) : RunCard :=
  mkRunCard (gr_id run) (runTitle run +:+ " · " +:+ formatGatewayStatus (Some (gr_status run)) copy)
    (gr_request_mode run +:+ " · " +:+ orText (gr_model run) (pvc_defaultModel copy) +:+ " · " +:+
     formatDuration (Some (gr_duration_ms run)) +:+ " · " +:+ toLocaleLowerCase (pvc_firstResponse copy) +:+ " " +:+
     formatDuration (Some (gr_first_response_latency_ms run)) +:+ " · " +:+ formatRunTimestamp (Some (gr_completed_at run)))
    (truthyOpt (gr_error_message run)).
Definition historyErrorText : option string :=
  pvc_providerActivityUnavailable copy <$> truthyOpt (hi_errorMessage (st_history s)).
Definition historyList : string + list RunCard :=
  let h := st_history s in
  if hi_isLoading h then inl (pvc_loadingProviderActivity copy)
  else match hi_runs h with [] => inl (pvc_noProviderActivity copy) | runs => inr (runCard <$> runs) end.

Definition selectedHistoryRun (selectedHistoryRunID : string) : option AgentProviderGatewayRun :=
  if truthy selectedHistoryRunID
  then find (fun run => bool_decide (gr_id run = selectedHistoryRunID)) (hi_runs (st_history s))
  else None.
Definition runDiagnostics (run : AgentProviderGatewayRun) : list (string * string) :=
  [(pvc_provider copy, runTitle run);
   (pvc_status copy, formatGatewayStatus (Some (gr_status run)) copy);
   (pvc_errorClass copy, orText (Some (formatProviderGatewayErrorCode (gr_error_code run))) (pvc_unknown copy));
   (pvc_conversation copy, orText (gr_conversation_id run) (pvc_unknown copy));
   (pvc_requestMode copy, gr_request_mode run);
   (pvc_actor copy, orText (gr_actor_username run) (pvc_unknown copy));
   (pvc_model copy, orText (gr_model run) (pvc_defaultModel copy));
   (pvc_resolvedRoute copy, truthyOpt (gr_resolved_binary run) ?? orText (gr_base_url run) (pvc_unknown copy));
   (pvc_firstResponse copy, formatDuration (Some (gr_first_response_latency_ms run)));
   (pvc_routeState copy,
      orText (gr_route_status_state run) "unchecked" +:+ " · " +:+ orText (gr_route_prepare_state run) "unprepared");
   (pvc_totalDuration copy, formatDuration (Some (gr_duration_ms run)));
   (pvc_started copy, formatRunTimestamp (Some (gr_started_at run)));
   (pvc_completed copy, formatRunTimestamp (Some (gr_completed_at run)))].
Definition runMessages (run : AgentProviderGatewayRun) : list string :=
  option_list (truthyOpt (gr_error_message run)) ++
  option_list (pvc_routeStatusMessage copy <$> truthyOpt (gr_route_status_message run)) ++
  option_list (pvc_routeStatusMessage copy <$> truthyOpt (gr_route_prepare_message run)).

(** The bar under the editor. *)
Definition barMessage : option string :=
  match truthyOpt (bz_errorMessage (st_busy s)) with
  | Some message => Some message
  | None =>
      match truthyOpt (bz_statusMessage (st_busy s)) with
      | Some message => Some message
      | None => if bz_isLoading (st_busy s) then Some (pvc_loading copy) else None
      end
  end.
Definition isActiveSelected : bool := (pv_active <$> selectedProvider s) ?? false.
Definition barControls : list (Control SettingsCall) :=
  [mkControl (pvc_reset copy) (negb isSaving) ResetDraft] ++
  (if isNew then []
   else [mkControl (pvc_activate copy) (negb (isSaving || isActiveSelected)) ActivateSelected;
         mkControl (pvc_delete copy) (negb (isSaving || isActiveSelected)) RemoveSelected]) ++
  [mkControl (if isSaving then pvc_saving copy else if isNew then pvc_createProvider copy else pvc_saveChanges copy)
     (negb isSaving) SaveDraft].

Definition editorControls : list (Control SettingsCall) :=
  [enabledControl] ++ gatewayControls ++ refreshModelsControls ++ historyControls ++ barControls.
Definition editorFields : list FormField := profileFields ++ policyFields ++ kindFields ++ historyFields.

End Editor.

Definition shownDraft : option AgentProviderDraft := sl_draft (st_selection s).
Definition viewControls : list (Control SettingsCall) :=
  toolbarControls ++ cardControls ++ (match shownDraft with Some draft => editorControls draft | None => [] end).
Definition viewFields : list FormField := match shownDraft with Some draft => editorFields draft | None => [] end.

(** What the user can make the widget do. *)
Inductive view_offers : SettingsCall -> Prop :=
  | offers_control control (Hin : control ∈ viewControls) (He : ct_enabled control = true) : view_offers (ct_call control)
  | offers_field field value (Hin : field ∈ viewFields)
      (Hv : match ff_options field with Some choices => value ∈ fst <$> choices | None => True end) :
      view_offers (ff_onChange field value).

End ProviderView.

(** * Lemmas *)

(** ** Fields *)

Lemma model_options_cover value models :
  NoDup (modelOptions value models) /\
  forall m, m ∈ modelOptions value models <-> truthy m = true /\ (m = trimText value \/ exists x, x ∈ models /\ m = trimText x).
Proof.
  unfold modelOptions. split; [apply dedupe_from_NoDup|]. intros m.
  rewrite elem_of_dedupe, elem_of_filterb, elem_of_cons, list_elem_of_fmap. firstorder.
Qed.

Lemma digits_value_natural acc s : 0 <= acc -> 0 <= digitsValue acc s.
Proof. revert acc. induction s as [|a s IH]; intros acc H; cbn; [done|]. apply IH. lia. Qed.
Lemma parse_natural_nonneg value : 0 <= parseNatural value.
Proof.
  unfold parseNatural. destruct (trimText value); [done|]. destruct (decide _); [done|]. by apply digits_value_natural.
Qed.

Example warm_ttl_texts :
  parseNatural " 120 s" = 120 /\ parseNatural "-5" = 0 /\ parseNatural "" = 0 /\ parseNatural "+7" = 7 /\ parseNatural "abc" = 0.
Proof. by vm_compute. Qed.
Example duration_texts :
  formatDuration (Some 999) = "999ms" /\ formatDuration (Some 1250) = "1.3s" /\ formatDuration (Some 1450) = "1.4s" /\
  formatDuration (Some 10500) = "11s" /\ formatDuration (Some 0) = "n/a" /\ formatDuration None = "n/a".
Proof. by vm_compute. Qed.

(** ** What is offered *)

Section Offers.
Variable copy : AgentProviderSettingsWidgetCopy.
Variable s : SettingsState.

(** The edits of the fields leave the provider and its kind alone. *)
Definition fieldCall (c : SettingsCall) : Prop :=
  form_edit c /\ match c with EditDraft _ | SetHistoryFilters _ _ _ _ => True | _ => False end.

Lemma profile_field draft field value :
  field ∈ editorFields copy s draft -> fieldCall (ff_onChange field value).
Proof.
  unfold editorFields. rewrite !elem_of_app. intros [H1|[H1|[H1|H1]]]; apply list_elem_of_In in H1.
  - cbn in H1. repeat (destruct H1 as [<-|H1]; [by split; cbn|]). done.
  - cbn in H1. repeat (destruct H1 as [<-|H1]; [by split; cbn|]). done.
  - unfold kindFields in H1. repeat case_decide; cbn in H1; repeat (destruct H1 as [<-|H1]; [by split; cbn|]); done.
  - cbn in H1. repeat (destruct H1 as [<-|H1]; [by split; cbn|]). done.
Qed.

(** What a control that is enabled says of the state. *)
Definition existingDraft : Prop := exists draft, sl_draft (st_selection s) = Some draft /\ pd_mode draft = DraftExisting.
Definition controlGuard (c : SettingsCall) : Prop :=
  match c with
  | StartCreateProvider _ | SelectProvider _ | LoadMoreHistory | RefreshModels _ => True
  | ResetDraft | SaveDraft => bz_isSaving (st_busy s) = false
  | ProbeSelected | PrewarmSelected | ClearSelectedRoute => bz_isSaving (st_busy s) = false /\ existingDraft
  | ActivateSelected | RemoveSelected => bz_isSaving (st_busy s) = false /\ existingDraft /\ isActiveSelected s = false
  | EditDraft f => form_edit (EditDraft f)
  | _ => False
  end.

Lemma is_new_false draft : isNew draft = false -> pd_mode draft = DraftExisting.
Proof. unfold isNew. intros Hn%bool_decide_eq_false. by destruct (pd_mode draft). Qed.

Lemma gateway_control_guard draft control :
  sl_draft (st_selection s) = Some draft -> control ∈ gatewayControls copy s draft -> ct_enabled control = true ->
  controlGuard (ct_call control).
Proof.
  intros Hd Hin He. apply list_elem_of_In in Hin. unfold gatewayControls in Hin.
  assert (forall b, negb (isSaving s || b || isNew draft) = true -> bz_isSaving (st_busy s) = false /\ existingDraft) as Hg.
  { intros b [[Hs _]%orb_false_iff Hn]%negb_true_iff%orb_false_iff. split; [done|]. exists draft.
    split; [done|by apply is_new_false]. }
  apply in_app_or in Hin as [[<-|[]]|Hin]; [by eapply Hg|]. apply in_app_or in Hin as [Hin|[<-|[]]]; [|by eapply Hg].
  destruct (selectedGatewayRecoveryAction s) as [action|]; [|done]. destruct (decide _); [|done].
  destruct Hin as [<-|[]]. by eapply Hg.
Qed.

Lemma bar_control_guard draft control :
  sl_draft (st_selection s) = Some draft -> control ∈ barControls copy s draft -> ct_enabled control = true ->
  controlGuard (ct_call control).
Proof.
  intros Hd Hin He. apply list_elem_of_In in Hin. unfold barControls in Hin.
  apply in_app_or in Hin as [[<-|[]]|Hin]; [by apply negb_true_iff in He|].
  apply in_app_or in Hin as [Hin|[<-|[]]]; [|by apply negb_true_iff in He].
  destruct (isNew draft) eqn:Hn; [done|].
  assert (negb (isSaving s || isActiveSelected s) = true ->
    bz_isSaving (st_busy s) = false /\ existingDraft /\ isActiveSelected s = false) as Hg.
  { intros [Hs Ha]%negb_true_iff%orb_false_iff. split; [done|]. split; [|done]. exists draft.
    split; [done|by apply is_new_false]. }
  destruct Hin as [<-|[<-|[]]]; by apply Hg.
Qed.

Lemma offered_guard c : view_offers copy s c -> fieldCall c \/ controlGuard c.
Proof.
  intros [control Hin He|field value Hin Hv].
  - right. unfold viewControls in Hin. rewrite !elem_of_app in Hin. destruct Hin as [Hin|[Hin|Hin]].
    + unfold toolbarControls in Hin. by apply list_elem_of_fmap in Hin as (kind & -> & _).
    + unfold cardControls, listCards in Hin. apply list_elem_of_fmap in Hin as (card & -> & Hcard).
      by apply list_elem_of_fmap in Hcard as (provider & -> & _).
    + unfold shownDraft in Hin. destruct (sl_draft (st_selection s)) as [draft|] eqn:Hd; [|by apply not_elem_of_nil in Hin].
      unfold editorControls in Hin. rewrite !elem_of_app in Hin. destruct Hin as [Hin|[Hin|[Hin|[Hin|Hin]]]].
      * apply list_elem_of_singleton in Hin as ->. done.
      * by eapply gateway_control_guard.
      * unfold refreshModelsControls in Hin. destruct (kindFields copy s draft); [by apply not_elem_of_nil in Hin|].
        by apply list_elem_of_singleton in Hin as ->.
      * unfold historyControls in Hin. destruct (hi_hasMore _); [|by apply not_elem_of_nil in Hin].
        by apply list_elem_of_singleton in Hin as ->.
      * by eapply bar_control_guard.
  - left. unfold viewFields, shownDraft in Hin. destruct (sl_draft _) as [draft|]; [|by apply not_elem_of_nil in Hin].
    by eapply profile_field.
Qed.

End Offers.

(** ** What the widget does to a provider *)

(** The provider that a request acts on. *)
Definition actsOn (A : Set) (r : ProviderSettingsRequest A) : option string :=
  match r with
  | UpdateProviderRequest id _ | SetActiveRequest id | DeleteRequest id | ProbeRequest id | PrewarmRequest id
  | ClearRouteRequest id => Some id
  | _ => None
  end.
(** Whether it takes the place of the active provider or deletes one. *)
Definition needsInactive (A : Set) (r : ProviderSettingsRequest A) : bool :=
  match r with SetActiveRequest _ | DeleteRequest _ => true | _ => false end.

(** The provider [p] is selected, and the form that is shown edits it. *)
Definition formOf (s : SettingsState) (id : string) (p : AgentProviderView) : Prop :=
  exists catalog draft,
    sl_selectedProviderID (st_selection s) = Some id /\ sl_catalog (st_selection s) = Some catalog /\
    findProvider catalog id = Some p /\ sl_draft (st_selection s) = Some draft /\
    pd_mode draft = DraftExisting /\ pd_id draft = Some id.

Lemma coherent_form s id : coherent s -> sl_selectedProviderID (st_selection s) = Some id -> exists p, formOf s id p.
Proof.
  unfold coherent. intros Hs Hid. rewrite Hid in Hs. destruct Hs as (c & p & d & H1 & H2 & H3 & H4 & H5 & _).
  exists p, c, d. by split_and!.
Qed.

Lemma form_inactive s id p : formOf s id p -> id <> "" -> isActiveSelected s = false -> pv_active p = false.
Proof.
  intros (c & d & H1 & H2 & H3 & _) Hid. unfold isActiveSelected, selectedProvider. rewrite H1, H2. cbn.
  unfold truthyOpt. rewrite truthy_ne by done. cbn. by rewrite H3.
Qed.

Lemma existing_selected s : coherent s -> existingDraft s -> exists id, sl_selectedProviderID (st_selection s) = Some id.
Proof.
  intros Hs (d & Hd & Hm). unfold coherent in Hs. destruct (sl_selectedProviderID _) as [id|]; [by exists id|].
  destruct (Hs d Hd). congruence.
Qed.

(** The provider that the first request of a callback acts on. *)
Definition firstActsOn (p : Settings unit) (s : SettingsState) (Q : string -> bool -> Prop) : Prop :=
  match snd (run p s) with
  | @Waiting _ _ _ _ A r _ => forall id, actsOn A r = Some id -> Q id (needsInactive A r)
  | Ended _ => True
  end.

Lemma with_selected_acts body s (Q : string -> bool -> Prop) :
  (forall id, id <> "" -> sl_selectedProviderID (st_selection s) = Some id -> firstActsOn (body s id) s Q) ->
  firstActsOn (withSelected body) s Q.
Proof.
  intros HQ. unfold firstActsOn, withSelected, get. cbn [bind run].
  destruct (truthyOpt (sl_selectedProviderID (st_selection s))) as [id|] eqn:E; [|exact I].
  apply truthyOpt_Some in E as [E1 E2]. by apply HQ.
Qed.

Lemma save_acts s :
  bz_isSaving (st_busy s) = false -> coherent s ->
  firstActsOn saveDraft s (fun id inactive =>
    sl_selectedProviderID (st_selection s) = Some id /\ bz_isSaving (st_busy s) = false /\
    (inactive = true -> id <> "" /\ isActiveSelected s = false)).
Proof.
  intros Hb Hs. pose proof (save_concerns s Hs) as Hsave. unfold firstActsOn, saveDraft, get in *. cbn [bind run] in *.
  destruct (sl_draft (st_selection s)) as [d|]; [|done]. unfold saving, update in *. cbn [bind run] in *.
  destruct (decide _); [by destruct (buildCreateProviderPayload d)|].
  destruct (buildUpdateProviderPayload d) as [payload|message]; [|done]. cbn in Hsave |- *. intros id [= <-].
  destruct Hsave as (catalog & provider & H1 & _). by split_and!.
Qed.

(** Every call of the widget acts on the selected provider. *)
Lemma first_acts s c :
  fieldCall c \/ controlGuard s c -> coherent s ->
  firstActsOn (settingsProg c) s (fun id inactive =>
    sl_selectedProviderID (st_selection s) = Some id /\ bz_isSaving (st_busy s) = false /\
    (inactive = true -> id <> "" /\ isActiveSelected s = false)).
Proof.
  intros [[_ Hc]|Hc] Hs; [by destruct c|].
  destruct c; try done; cbn [settingsProg]; cbn [controlGuard] in Hc.
  - unfold firstActsOn, selectProvider, get. cbn [bind run].
    by destruct (sl_catalog (st_selection s) ≫= (fun catalog => findProvider catalog providerID)).
  - unfold firstActsOn, resetDraft, get. cbn [bind run]. destruct (sl_draft _); [|done].
    destruct (decide _); [done|].
    match goal with |- context [match ?x with Some _ => update _ | None => _ end] => by destruct x end.
  - by apply save_acts.
  - destruct Hc as (Hb & _ & Ha). apply with_selected_acts. intros id Hne Hid id' [= <-]. by split_and!.
  - destruct Hc as (Hb & _ & Ha). pose proof (remove_concerns s Hs) as Hrem. unfold firstActsOn.
    unfold removeSelectedProvider, get in *. cbn [bind run] in *. destruct (sl_draft _) as [d|]; [|done].
    destruct (decide _); [|done]. destruct (truthyOpt (pd_id d)) as [id|] eqn:E; [|done].
    apply truthyOpt_Some in E as [_ Hne]. intros id' [= <-]. cbn in Hrem. by split_and!.
  - destruct Hc as (Hb & _). apply with_selected_acts. intros id Hne Hid id' [= <-]. by split_and!.
  - destruct Hc as (Hb & _). apply with_selected_acts. intros id Hne Hid id' [= <-]. by split_and!.
  - destruct Hc as (Hb & _). apply with_selected_acts. intros id Hne Hid id' [= <-]. by split_and!.
  - unfold firstActsOn, loadMoreHistory, get. cbn [bind run]. by destruct (_ || _).
  - unfold firstActsOn, get. cbn [bind run]. unfold refreshAvailableModels. by destruct (match draftOverride with Some _ => _ | None => _ end).
Qed.

(** C31: In every reachable state of the hook, whatever was clicked and answered
    before: what a control that is enabled, or a field, makes the widget ask of
    a provider concerns the provider whose form is shown, while nothing is being
    saved; the provider that is active is never activated again or deleted. *)
Theorem widget_acts_on_its_form copy m c :
  rtc settings_step (mkSystem initialSettings []) m -> view_offers copy (sys_state m) c ->
  match snd (run (settingsProg c) (sys_state m)) with
  | @Waiting _ _ _ _ A r _ => forall id, actsOn A r = Some id ->
      bz_isSaving (st_busy (sys_state m)) = false /\
      exists p, formOf (sys_state m) id p /\ (needsInactive A r = true -> pv_active p = false)
  | Ended _ => True
  end.
Proof.
  intros Hr Ho. assert (coherent (sys_state m)) as Hs.
  { eapply (system_invariant coherent); [| | |exact Hr]; [|by intros|by intros d].
    intros p (c' & Hc & ->). by apply settings_coherently. }
  pose proof (first_acts _ c (offered_guard copy _ c Ho) Hs) as Hf. unfold firstActsOn in Hf.
  destruct (snd (run (settingsProg c) (sys_state m))) as [|A r k]; [done|]. intros id Ha.
  destruct (Hf id Ha) as (Hid & Hb & Hi). split; [done|].
  destruct (coherent_form _ id Hs Hid) as [p Hp]. exists p. split; [done|].
  intros Hn. destruct (Hi Hn) as [Hne Hact]. by eapply form_inactive.
Qed.

Lemma widget_acts_on_its_form_witness :
  exists m,
    rtc settings_step (mkSystem initialSettings []) m /\ view_offers (agentProviderSettingsWidgetCopy LocaleEn) (sys_state m) ProbeSelected /\
    bz_isSaving (st_busy (sys_state m)) = false /\ exists p, formOf (sys_state m) "p2" p.
Proof.
  pose (m1 := proceed (settingsProg (ReloadCatalog None)) (mkSystem initialSettings [])).
  assert (exists m2, settings_step m1 m2 /\
    view_offers (agentProviderSettingsWidgetCopy LocaleEn) (sys_state m2) ProbeSelected /\
    exists k s', run (settingsProg ProbeSelected) (sys_state m2) = (s', Waiting (ProbeRequest "p2") k))
    as (m2 & H2 & Ho & k & s' & Hrun).
  { eexists. split; [|split].
    - eapply (sys_answer _ _ _ m1 0%nat AgentProviderCatalog FetchCatalog _ (inl sampleCatalog)); [reflexivity|exact I].
    - refine (offers_control _ _ (mkControl "Probe provider route" true ProbeSelected) _ eq_refl).
      vm_compute. set_solver.
    - eexists _, _. reflexivity. }
  assert (rtc settings_step (mkSystem initialSettings []) m2) as Hr.
  { eapply rtc_l; [|by apply rtc_once]. apply sys_start. by exists (ReloadCatalog None). }
  exists m2. split; [exact Hr|]. split; [exact Ho|].
  pose proof (widget_acts_on_its_form _ m2 ProbeSelected Hr Ho) as Hw. rewrite Hrun in Hw. cbn [snd] in Hw.
  destruct (Hw "p2" eq_refl) as (Hb & p & Hp & _). split; [exact Hb|by exists p].
Defined.
