(* ===== verification/ShellBars.v ===== *)
(** * The bar of workspaces

    [frontend/src/widgets/shell/shell-topbar-widget.tsx], the bar with the
    window's buttons and the tabs of the workspaces, each with a menu, over the
    workspaces of [App.tsx] ([Workspaces]). *)
From Stdlib Require Import Ascii String.
From stdpp Require Import strings relations.
From S2P Require Import Prelude JsString Text RuntimePath Dockview Workspaces SettingsTexts Effects Http FilesApi Panels.
Local Open Scope string_scope.
Local Open Scope list_scope.
Local Open Scope Z_scope.
Local Open Scope js_scope.

(** ** The component *)

Record ShellWorkspaceTab := mkShellTab { sw_id : Z; sw_title : string }.

Record TopbarState := mkTopbar {
  tb_openWorkspaceMenuId : option Z;
  tb_renamingWorkspaceId : option Z;
  tb_renameDraft : string
}.
Definition initialTopbar : TopbarState := mkTopbar None None "".

(** The callbacks of the properties. *)
Inductive TopbarCall :=
  | OnClose | OnMinimize | OnToggleFullscreen | OnToggleAi
  | OnSelectWorkspace (id : Z) | OnAddWorkspace | OnRenameWorkspace (id : Z) (title : string) | OnDeleteWorkspace (id : Z).

Definition closeWorkspaceMenu (s : TopbarState) : TopbarState := mkTopbar None None (tb_renameDraft s).
Definition setRenamingWorkspaceId (id : option Z) (s : TopbarState) : TopbarState :=
  mkTopbar (tb_openWorkspaceMenuId s) id (tb_renameDraft s).
Definition setRenameDraft (draft : string) (s : TopbarState) : TopbarState :=
  mkTopbar (tb_openWorkspaceMenuId s) (tb_renamingWorkspaceId s) draft.

Definition handleToggleWorkspaceMenu (workspaceId : Z) (workspaceTitle : string) (s : TopbarState) : TopbarState :=
  let nextWorkspaceId := if decide (tb_openWorkspaceMenuId s = Some workspaceId) then None else Some workspaceId in
  mkTopbar nextWorkspaceId None (if decide (nextWorkspaceId = Some workspaceId) then workspaceTitle else "").
Definition handleStartRenameWorkspace (workspaceId : Z) (workspaceTitle : string) : TopbarState :=
  mkTopbar (Some workspaceId) (Some workspaceId) workspaceTitle.
Definition handleSubmitWorkspaceRename (workspaceId : Z) (s : TopbarState) : TopbarState * list TopbarCall :=
  (closeWorkspaceMenu s, [OnRenameWorkspace workspaceId (tb_renameDraft s)]).
Definition canDeleteWorkspace (workspaceTabs : list ShellWorkspaceTab) : bool := 1 <? Z.of_nat (length workspaceTabs).
Definition handleDeleteWorkspace (workspaceTabs : list ShellWorkspaceTab) (workspaceId : Z) (s : TopbarState)
    : TopbarState * list TopbarCall :=
  if negb (canDeleteWorkspace workspaceTabs) then (s, []) else (closeWorkspaceMenu s, [OnDeleteWorkspace workspaceId]).

(** The listeners of the window.  A press is in the part of the tab [wrap] that
    has the menu and its trigger, or elsewhere; the ref is of the open menu. *)
Definition handlePointerDown (wrap : option Z) (s : TopbarState) : TopbarState :=
  match tb_openWorkspaceMenuId s with
  | Some id => if decide (wrap = Some id) then s else closeWorkspaceMenu s
  | None => closeWorkspaceMenu s
  end.
Definition handleKey (key : string) (s : TopbarState) : TopbarState :=
  if decide (key = "Escape") then closeWorkspaceMenu s else s.
(** A key in the name's input, which the window's listener gets as well. *)
Definition handleInputKey (key : string) (s : TopbarState) : TopbarState :=
  handleKey key (if decide (key = "Escape") then setRenamingWorkspaceId None s else s).

Inductive TopbarEvent :=
  | TopPress (wrap : option Z) | TopKey (key : string) | TopInputKey (key : string)
  | TopCall (call : TopbarCall)
  | TopTrigger (tab : ShellWorkspaceTab) | TopStartRename (tab : ShellWorkspaceTab)
  | TopDraft (draft : string) | TopCancelRename | TopSubmitRename (id : Z) | TopDelete (id : Z).

(** The controls that are there, and enabled. *)
Definition topbarOffers (tabs : list ShellWorkspaceTab) (s : TopbarState) (e : TopbarEvent) : bool :=
  let menuOf id := bool_decide (id ∈ sw_id <$> tabs) && bool_decide (tb_openWorkspaceMenuId s = Some id) in
  let renaming id := bool_decide (tb_renamingWorkspaceId s = Some id) in
  let inForm := if tb_renamingWorkspaceId s is Some id then menuOf id else false in
  match e with
  | TopPress _ | TopKey _ => true
  | TopCall (OnSelectWorkspace id) => bool_decide (id ∈ sw_id <$> tabs)
  | TopCall (OnRenameWorkspace _ _) | TopCall (OnDeleteWorkspace _) => false
  | TopCall _ => true
  | TopTrigger tab => existsb (fun t => bool_decide (sw_id t = sw_id tab) && bool_decide (sw_title t = sw_title tab)) tabs
  | TopStartRename tab =>
      existsb (fun t => bool_decide (sw_id t = sw_id tab) && bool_decide (sw_title t = sw_title tab)) tabs &&
      menuOf (sw_id tab) && negb (renaming (sw_id tab))
  | TopInputKey _ | TopDraft _ | TopCancelRename => inForm
  | TopSubmitRename id => menuOf id && renaming id
  | TopDelete id => menuOf id && negb (renaming id) && canDeleteWorkspace tabs
  end.

Definition onTopbarEvent (tabs : list ShellWorkspaceTab) (e : TopbarEvent) (s : TopbarState) : TopbarState * list TopbarCall :=
  match e with
  | TopPress wrap => (handlePointerDown wrap s, [])
  | TopKey key => (handleKey key s, [])
  | TopInputKey key => (handleInputKey key s, [])
  | TopCall call => (s, [call])
  | TopTrigger tab => (handleToggleWorkspaceMenu (sw_id tab) (sw_title tab) s, [])
  | TopStartRename tab => (handleStartRenameWorkspace (sw_id tab) (sw_title tab), [])
  | TopDraft draft => (setRenameDraft draft s, [])
  | TopCancelRename => (setRenamingWorkspaceId None s, [])
  | TopSubmitRename id => handleSubmitWorkspaceRename id s
  | TopDelete id => handleDeleteWorkspace tabs id s
  end.

(** What a tab and its menu show. *)
Record TabView := mkTabView {
  vw_selected : bool; vw_title : string; vw_actionsLabel : string; vw_menuOpen : bool;
  vw_form : option string; vw_menu : option (string * string * bool)
}.
Definition tabView (locale : AppLocale) (activeWorkspaceId : Z) (tabs : list ShellWorkspaceTab) (s : TopbarState)
    (tab : ShellWorkspaceTab) : TabView :=
  let copy := shellTopbarWidgetCopy locale in
  let isWorkspaceMenuOpen := bool_decide (tb_openWorkspaceMenuId s = Some (sw_id tab)) in
  let isWorkspaceRenaming := bool_decide (tb_renamingWorkspaceId s = Some (sw_id tab)) in
  mkTabView (bool_decide (activeWorkspaceId = sw_id tab)) (sw_title tab) (tbc_workspaceActions copy (sw_title tab))
    isWorkspaceMenuOpen
    (if isWorkspaceMenuOpen && isWorkspaceRenaming then Some (tb_renameDraft s) else None)
    (if isWorkspaceMenuOpen && negb isWorkspaceRenaming then Some (tbc_rename copy, tbc_delete copy, canDeleteWorkspace tabs)
     else None).

(** ** The bar over the workspaces *)

Section Shell.
Context `{D : Dockview}.

Record ShellWithBar := mkShellBar { shb_workspaces : WorkspaceState; shb_bar : TopbarState }.

(** What the callbacks of [App.tsx] do to the workspaces. *)
Definition applyTopbarCall (w : WorkspaceState) (call : TopbarCall) : WorkspaceState :=
  match call with
  | OnSelectWorkspace id => selectDockviewWorkspace id w
  | OnAddWorkspace => addDockviewWorkspace w
  | OnRenameWorkspace id title => fst (renameDockviewWorkspace id title w)
  | OnDeleteWorkspace id => fst (deleteDockviewWorkspace id w)
  | OnClose | OnMinimize | OnToggleFullscreen | OnToggleAi => w
  end.

Definition shellTabs (w : WorkspaceState) : list ShellWorkspaceTab :=
  (fun tab => mkShellTab (wt_id tab) (wt_title tab)) <$> wz_workspaceTabs w.

Definition shellBarEvent (e : TopbarEvent) (m : ShellWithBar) : ShellWithBar :=
  let '(s, calls) := onTopbarEvent (shellTabs (shb_workspaces m)) e (shb_bar m) in
  mkShellBar (foldl applyTopbarCall (shb_workspaces m) calls) s.

(** Events of the bar, and what else happens to the workspaces, which only the
    bar deletes. *)
Inductive shell_bar_step (m : ShellWithBar) : ShellWithBar -> Prop :=
  | BarEvent e (He : topbarOffers (shellTabs (shb_workspaces m)) (shb_bar m) e = true) :
      shell_bar_step m (shellBarEvent e m)
  | WorkspacesChange w (Hw : workspace_step (shb_workspaces m) w)
      (Hids : wt_id <$> wz_workspaceTabs (shb_workspaces m) ⊆ wt_id <$> wz_workspaceTabs w) :
      shell_bar_step m (mkShellBar w (shb_bar m)).

(** The open menu is of a workspace, and the name that is edited of the open menu. *)
Definition bar_ok (ids : list Z) (s : TopbarState) : Prop :=
  (forall id, tb_openWorkspaceMenuId s = Some id -> id ∈ ids) /\
  (forall id, tb_renamingWorkspaceId s = Some id -> tb_openWorkspaceMenuId s = Some id).
Definition menu_ok (m : ShellWithBar) : Prop := bar_ok (wt_id <$> wz_workspaceTabs (shb_workspaces m)) (shb_bar m).
Definition shown_ok (m : ShellWithBar) : Prop :=
  workspaces_ok (shb_workspaces m) /\ is_Some (wz_dockviewApi (shb_workspaces m)) /\ menu_ok m.
Definition menu_closed (m : ShellWithBar) : Prop :=
  tb_openWorkspaceMenuId (shb_bar m) = None /\ tb_renamingWorkspaceId (shb_bar m) = None.

(** ** The ids of the workspaces *)

Definition tab_ids (w : WorkspaceState) : list Z := wt_id <$> wz_workspaceTabs w.

Lemma persist_ids w :
  tab_ids (persistCurrentWorkspaceSnapshot w) = tab_ids w /\
  wz_activeWorkspaceId (persistCurrentWorkspaceSnapshot w) = wz_activeWorkspaceId w.
Proof.
  unfold tab_ids, persistCurrentWorkspaceSnapshot. destruct (wz_dockviewApi w); [|done].
  split; [apply write_ids|done].
Qed.
Lemma restore_ids id w :
  tab_ids (restoreWorkspaceSnapshot id w) = tab_ids w /\
  wz_activeWorkspaceId (restoreWorkspaceSnapshot id w) = wz_activeWorkspaceId w.
Proof. unfold restoreWorkspaceSnapshot. by destruct (wz_dockviewApi w). Qed.

Lemma select_ids id w :
  tab_ids (selectDockviewWorkspace id w) = tab_ids w /\ wz_activeWorkspaceId (selectDockviewWorkspace id w) = id.
Proof.
  unfold selectDockviewWorkspace. case_decide as E; [done|].
  destruct (restore_ids id (activateWorkspace id (persistCurrentWorkspaceSnapshot w))) as [-> ->].
  split; [apply persist_ids|done].
Qed.

Lemma add_ids w :
  exists id, id ∉ tab_ids w /\ tab_ids (addDockviewWorkspace w) = tab_ids w ++ [id] /\
    wz_activeWorkspaceId (addDockviewWorkspace w) = id.
Proof.
  exists (wt_id (createDockviewWorkspaceTab (wz_workspaceTabs w))). split; [apply next_id_fresh|].
  unfold addDockviewWorkspace. cbv zeta. rewrite (proj1 (restore_ids _ _)), (proj2 (restore_ids _ _)).
  split; [|done]. unfold tab_ids. cbn [wz_workspaceTabs activateWorkspace updateWorkspaceTabs]. rewrite fmap_app.
  f_equal. apply persist_ids.
Qed.

Lemma rename_ids id title w :
  let w' := fst (renameDockviewWorkspace id title w) in
  tab_ids w' = tab_ids w /\ wz_activeWorkspaceId w' = wz_activeWorkspaceId w /\ wz_dockviewApi w' = wz_dockviewApi w.
Proof.
  cbv zeta. destruct (rename_tabs id title w) as (H1 & H2 & H3). split; [|done]. unfold tab_ids.
  destruct (truthy _); rewrite H3; [|done]. rewrite <- list_fmap_compose. apply list_fmap_ext. intros _ v _. cbn. by case_decide.
Qed.

(** The workspace goes, and one of the others is active. *)
Lemma delete_ids id w :
  workspaces_ok w -> id ∈ tab_ids w -> 1 < Z.of_nat (length (wz_workspaceTabs w)) ->
  let w' := fst (deleteDockviewWorkspace id w) in
  tab_ids w' = filterb (fun i => negb (bool_decide (i = id))) (tab_ids w) /\ wz_activeWorkspaceId w' ∈ tab_ids w' /\
  (wz_activeWorkspaceId w <> id -> wz_activeWorkspaceId w' = wz_activeWorkspaceId w).
Proof.
  intros Hok Hid Hlen. cbv zeta. unfold deleteDockviewWorkspace. rewrite (proj2 (Z.leb_gt _ _) Hlen). cbv zeta.
  destruct (findIndex _ _) as [i|] eqn:Ei.
  2:{ apply list_elem_of_fmap in Hid as (v & -> & Hv). exfalso.
      pose proof (proj1 (findIndex_None _ _) Ei v Hv) as En. cbn in En. by rewrite bool_decide_eq_true_2 in En. }
  pose proof (next_nonempty w id Hok Hlen) as Hne. pose proof (next_ids w id) as Hn. pose proof (filter_ids id (wz_workspaceTabs w)) as Hf.
  set (nextTabs := filterb (fun v => negb (bool_decide (wt_id v = id))) (wz_workspaceTabs w)) in *.
  destruct (bool_decide (wz_activeWorkspaceId w = id)) eqn:E; cbn [negb].
  - apply bool_decide_eq_true in E. destruct (fallback_some nextTabs i Hne) as [v Hv]. rewrite Hv. cbn [fst].
    rewrite (proj1 (restore_ids _ _)), (proj2 (restore_ids _ _)). unfold tab_ids.
    cbn [wz_workspaceTabs activateWorkspace updateWorkspaceTabs wz_activeWorkspaceId].
    split; [exact Hf|]. split; [|by intros []]. apply list_elem_of_fmap_2. by eapply fallback_in.
  - apply bool_decide_eq_false in E. cbn [fst]. unfold tab_ids.
    cbn [wz_workspaceTabs updateWorkspaceTabs wz_activeWorkspaceId]. rewrite (proj2 (persist_ids w)).
    split; [exact Hf|]. split; [|done]. apply Hn. split; [apply Hok|done].
Qed.

Lemma shell_tab_ids w : sw_id <$> shellTabs w = tab_ids w.
Proof. unfold shellTabs, tab_ids. by rewrite <- list_fmap_compose. Qed.

(** ** What the bar does *)

Context `{!DockviewLaws D}.

(** Every callback that a control sends is a step of the workspaces. *)
Lemma call_keeps_ok w call :
  match call with OnSelectWorkspace id => id ∈ tab_ids w | _ => True end ->
  workspaces_ok w /\ is_Some (wz_dockviewApi w) ->
  workspaces_ok (applyTopbarCall w call) /\ is_Some (wz_dockviewApi (applyTopbarCall w call)).
Proof.
  intros Hid [Hok [api Hapi]].
  assert (forall w', workspace_step w w' -> workspaces_ok w' /\ is_Some (wz_dockviewApi w')) as Hstep.
  { intros w' Hw. destruct (workspace_step_refines w w' Hw api Hapi Hok) as (api' & H1 & H2 & _). split; [done|by eexists]. }
  destruct call; cbn [applyTopbarCall]; try (by split; [|eexists]); apply Hstep.
  - by exists (SelectWorkspace id).
  - by exists AddWorkspace.
  - by exists (RenameWorkspace id title).
  - by exists (DeleteWorkspace id).
Qed.

Definition acts (e : TopbarEvent) (m m' : ShellWithBar) : Prop :=
  let w := shb_workspaces m in
  let w' := shb_workspaces m' in
  match e with
  | TopCall (OnSelectWorkspace id) => tab_ids w' = tab_ids w /\ wz_activeWorkspaceId w' = id
  | TopCall OnAddWorkspace =>
      exists id, id ∉ tab_ids w /\ tab_ids w' = tab_ids w ++ [id] /\ wz_activeWorkspaceId w' = id
  | TopSubmitRename id =>
      tb_openWorkspaceMenuId (shb_bar m) = Some id /\ menu_closed m' /\ wz_dockviewApi w' = wz_dockviewApi w /\
      wz_activeWorkspaceId w' = wz_activeWorkspaceId w /\
      wz_workspaceTabs w' = (fun v =>
        if decide (wt_id v = id /\ truthy (trimText (tb_renameDraft (shb_bar m))) = true)
        then mkTab (wt_id v) (trimText (tb_renameDraft (shb_bar m))) (wt_snapshot v) else v) <$> wz_workspaceTabs w
  | TopDelete id =>
      tb_openWorkspaceMenuId (shb_bar m) = Some id /\ menu_closed m' /\
      tab_ids w' = filterb (fun i => negb (bool_decide (i = id))) (tab_ids w) /\
      wz_activeWorkspaceId w' ∈ tab_ids w' /\
      (wz_activeWorkspaceId w <> id -> wz_activeWorkspaceId w' = wz_activeWorkspaceId w)
  | _ => w' = w
  end.

(** A saved name. *)
Lemma renamed_tabs id title w :
  wz_workspaceTabs (fst (renameDockviewWorkspace id title w)) =
  (fun v => if decide (wt_id v = id /\ truthy (trimText title) = true) then mkTab (wt_id v) (trimText title) (wt_snapshot v) else v)
    <$> wz_workspaceTabs w.
Proof.
  unfold renameDockviewWorkspace. destruct (truthy (trimText title)); cbn [fst wz_workspaceTabs updateWorkspaceTabs].
  - apply list_fmap_ext. intros _ v _. destruct (decide (wt_id v = id)) as [E|E].
    + rewrite bool_decide_eq_false_2 by (intros Hn; by apply Hn). cbn [orb]. rewrite decide_True by done.
      destruct (bool_decide (wt_title v = trimText title)) eqn:E2; [|done]. apply bool_decide_eq_true in E2 as <-. by destruct v.
    + rewrite bool_decide_eq_true_2 by done. cbn [orb]. rewrite decide_False; [done|by intros [? ?]].
  - rewrite <- (list_fmap_id (wz_workspaceTabs w)) at 1. apply list_fmap_ext. intros _ v _. rewrite decide_False; [done|by intros [? ?]].
Qed.

Lemma menu_elem id (s : TopbarState) w :
  bool_decide (id ∈ sw_id <$> shellTabs w) && bool_decide (tb_openWorkspaceMenuId s = Some id) = true ->
  id ∈ tab_ids w /\ tb_openWorkspaceMenuId s = Some id.
Proof.
  intros [H1%bool_decide_eq_true H2%bool_decide_eq_true]%andb_true_iff. by rewrite shell_tab_ids in H1.
Qed.

Lemma tab_elem tab w :
  existsb (fun t => bool_decide (sw_id t = sw_id tab) && bool_decide (sw_title t = sw_title tab)) (shellTabs w) = true ->
  sw_id tab ∈ tab_ids w.
Proof.
  intros (t & Ht & [<-%bool_decide_eq_true _]%andb_true_iff)%existsb_exists. rewrite <- shell_tab_ids.
  apply list_elem_of_fmap_2. by apply list_elem_of_In.
Qed.

Lemma event_acts e m :
  shown_ok m -> topbarOffers (shellTabs (shb_workspaces m)) (shb_bar m) e = true -> acts e m (shellBarEvent e m).
Proof.
  intros (Hok & _ & _) He. destruct e; try reflexivity; unfold shellBarEvent; cbn [onTopbarEvent].
  - destruct call; try reflexivity; try done; cbn [foldl applyTopbarCall acts shb_workspaces].
    + apply select_ids.
    + apply add_ids.
  - apply andb_true_iff in He as [[Hid Hopen]%menu_elem _].
    cbn [handleSubmitWorkspaceRename foldl applyTopbarCall acts shb_workspaces shb_bar].
    destruct (rename_ids id (tb_renameDraft (shb_bar m)) (shb_workspaces m)) as (_ & H2 & H3).
    split; [done|]. split; [done|]. split; [done|]. split; [done|]. apply renamed_tabs.
  - apply andb_true_iff in He as [[[Hid Hopen]%menu_elem _]%andb_true_iff Hcan].
    unfold handleDeleteWorkspace. rewrite Hcan. cbn [negb foldl applyTopbarCall acts shb_workspaces shb_bar].
    split; [done|]. split; [done|]. apply delete_ids; [done|done|].
    unfold canDeleteWorkspace, shellTabs in Hcan. rewrite length_fmap in Hcan. by apply Z.ltb_lt.
Qed.

(** ** The menu *)

Lemma bar_closed ids s : bar_ok ids (closeWorkspaceMenu s).
Proof. by split. Qed.
Lemma bar_mono ids ids' s : ids ⊆ ids' -> bar_ok ids s -> bar_ok ids' s.
Proof. intros Hs [H1 H2]. split; [intros id Hid; by apply Hs, H1|done]. Qed.
Lemma bar_not_renaming ids s : bar_ok ids s -> bar_ok ids (setRenamingWorkspaceId None s).
Proof. intros [H1 _]. by split. Qed.
Lemma bar_key ids key s : bar_ok ids s -> bar_ok ids (handleKey key s).
Proof. intros H. unfold handleKey. case_decide; [apply bar_closed|done]. Qed.
Lemma bar_input_key ids key s : bar_ok ids s -> bar_ok ids (handleInputKey key s).
Proof. intros H. apply bar_key. case_decide; [by apply bar_not_renaming|done]. Qed.
Lemma bar_press ids wrap s : bar_ok ids s -> bar_ok ids (handlePointerDown wrap s).
Proof.
  intros H. unfold handlePointerDown. destruct (tb_openWorkspaceMenuId s); [case_decide; [done|]|]; apply bar_closed.
Qed.
#[local] Hint Resolve bar_closed bar_not_renaming bar_key bar_input_key bar_press : topbar.

Lemma event_menu e m :
  shown_ok m -> topbarOffers (shellTabs (shb_workspaces m)) (shb_bar m) e = true -> menu_ok (shellBarEvent e m).
Proof.
  intros Hm He. pose proof (event_acts e m Hm He) as Hacts. destruct Hm as (_ & _ & Hok).
  unfold menu_ok, shellBarEvent in *.
  destruct e as [wrap|key|key|call|tab|tab|draft| |id|id]; cbn [onTopbarEvent handleSubmitWorkspaceRename foldl shb_workspaces shb_bar]; eauto with topbar.
  - destruct call; try exact Hok; try done.
    + refine (bar_mono _ _ _ _ Hok). destruct Hacts as [Hids _]. intros x Hx.
      unfold shellBarEvent in Hids. cbn in Hids. unfold tab_ids in Hids. cbn. by rewrite Hids.
    + refine (bar_mono _ _ _ _ Hok). destruct Hacts as (id & _ & Hids & _). intros x Hx.
      unfold shellBarEvent in Hids. cbn in Hids. unfold tab_ids in Hids. cbn. rewrite Hids. apply elem_of_app. by left.
  - apply tab_elem in He. unfold handleToggleWorkspaceMenu. split; cbn; [|done].
    intros id. case_decide; [done|]. by intros [= <-].
  - apply andb_true_iff in He as [[He%tab_elem _]%andb_true_iff _]. split; cbn; by intros id [= <-].
  - unfold handleDeleteWorkspace. destruct (negb _); cbn [foldl shb_workspaces shb_bar]; [done|apply bar_closed].
Qed.

Lemma event_ok e m :
  shown_ok m -> topbarOffers (shellTabs (shb_workspaces m)) (shb_bar m) e = true -> shown_ok (shellBarEvent e m).
Proof.
  intros Hm He. pose proof (event_menu e m Hm He) as Hmenu. destruct Hm as (Hw & Hd & _).
  enough (workspaces_ok (shb_workspaces (shellBarEvent e m)) /\ is_Some (wz_dockviewApi (shb_workspaces (shellBarEvent e m))))
    as [? ?] by done.
  unfold shellBarEvent. destruct e as [| | |call| | | | |id|id]; cbn [onTopbarEvent foldl shb_workspaces]; try done.
  - apply call_keeps_ok; [|done]. destruct call; try done. rewrite <- shell_tab_ids. exact (proj1 (bool_decide_eq_true _) He).
  - by apply call_keeps_ok.
  - unfold handleDeleteWorkspace. destruct (negb _); [done|]. by apply call_keeps_ok.
Qed.

Lemma bar_step_ok m m' : shell_bar_step m m' -> shown_ok m -> shown_ok m'.
Proof.
  intros [e He|w Hw Hids] Hm; [by apply event_ok|]. destruct Hm as (Hok & [api Hapi] & Hmenu).
  destruct (workspace_step_refines _ w Hw api Hapi Hok) as (api' & H1 & H2 & _).
  split; [done|]. split; [by eexists|]. by refine (bar_mono _ _ _ _ Hmenu).
Qed.

(** C35: However the workspaces change, the menu that is open is of a workspace
    that is there, and a name is edited in the open menu only.  Saving a name
    gives it, trimmed, to the workspace of the open menu and to no other, unless it
    is blank; deleting takes away the workspace of the open menu alone and shows
    the same workspace as before or, when that is gone, one of the others; both close the menu.
    Choosing a tab shows it, adding shows a new one, and nothing else that the
    bar offers changes the workspaces. *)
Theorem topbar_acts_on_its_menu w m e :
  workspaces_ok w -> is_Some (wz_dockviewApi w) -> rtc shell_bar_step (mkShellBar w initialTopbar) m ->
  topbarOffers (shellTabs (shb_workspaces m)) (shb_bar m) e = true ->
  menu_ok m /\ acts e m (shellBarEvent e m) /\ shown_ok (shellBarEvent e m).
Proof.
  intros Hok Hapi Hr He. assert (shown_ok m) as Hm.
  { refine (rtc_ind_r shown_ok _ _ _ _ Hr); [by split|]. intros m1 m2 _ Hs. by apply bar_step_ok. }
  split; [apply Hm|]. split; [by apply event_acts|by apply event_ok].
Qed.
End Shell.

(** Two workspaces: the user opens the menu of the second, edits its name and saves it. *)
Definition barShell : @ShellWithBar listDockview :=
  mkShellBar (handleDockviewReady emptyDock false None (mountedWorkspaces None)) initialTopbar.
Definition runShellBar (m : @ShellWithBar listDockview) (l : list TopbarEvent) : @ShellWithBar listDockview :=
  foldl (fun m e => shellBarEvent e m) m l.

Definition renamesSecond : list TopbarEvent :=
  [TopPress (Some 2); TopTrigger (mkShellTab 2 "Workspace-2"); TopStartRename (mkShellTab 2 "Workspace-2"); TopDraft " logs "].

Lemma topbar_acts_on_its_menu_witness :
  let m := runShellBar barShell renamesSecond in
  tb_openWorkspaceMenuId (shb_bar m) = Some 2 /\
  wt_title <$> wz_workspaceTabs (shb_workspaces (shellBarEvent (TopSubmitRename 2) m)) = ["Workspace-1"; "logs"].
Proof.
  intros m. assert (workspaces_ok (shb_workspaces barShell)) as Hok.
  { split; [apply (bool_decide_unpack _); by vm_compute|].
    split; [right; left|]. constructor; [by intros j|]. constructor; [|done].
    intros j Hj. exists (seedDockviewWorkspaceBootstrap emptyDock None). vm_compute in Hj |- *. congruence. }
  assert (rtc (shell_bar_step (D := listDockview)) barShell m) as Hr.
  { unfold m, renamesSecond, runShellBar. cbn [foldl].
    repeat (eapply rtc_r; [|by apply BarEvent; vm_compute]). apply rtc_refl. }
  destruct (topbar_acts_on_its_menu (DockviewLaws0 := listDockview_laws) _ m (TopSubmitRename 2) Hok
    ltac:(by eexists) Hr ltac:(by vm_compute)) as (_ & (Hopen & _ & _ & _ & Htabs) & _).
  split; [exact Hopen|]. rewrite Htabs. vm_compute. reflexivity.
Defined.

(* Escape in the input of the name, which there leaves the editing alone as the
   cancel button does, closes the menu too: the window's listener gets the key as well. *)
Example escape_closes_the_menu :
  let m := runShellBar barShell renamesSecond in
  let cancelled := shellBarEvent TopCancelRename m in
  let escaped := shellBarEvent (TopInputKey "Escape") m in
  tb_openWorkspaceMenuId (shb_bar cancelled) = Some 2 /\ tb_renamingWorkspaceId (shb_bar cancelled) = None /\
  tb_openWorkspaceMenuId (shb_bar escaped) = None.
Proof. by vm_compute. Qed.

(* The last workspace has a menu whose delete button is disabled. *)
Example last_workspace_stays :
  let m := runShellBar barShell [TopTrigger (mkShellTab 1 "Workspace-1"); TopDelete 1; TopTrigger (mkShellTab 2 "Workspace-2")] in
  tab_ids (shb_workspaces m) = [2] /\
  topbarOffers (shellTabs (shb_workspaces m)) (shb_bar m) (TopDelete 2) = false /\
  tabView LocaleEn 2 (shellTabs (shb_workspaces m)) (shb_bar m) (mkShellTab 2 "Workspace-2") =
    mkTabView true "Workspace-2" "Workspace actions for Workspace-2" true None (Some ("Rename", "Delete", false)).
Proof. by vm_compute. Qed.

(** * The action rail

    [frontend/src/widgets/shell/right-action-rail-widget.tsx] with
    [useWorkspaceWidgetCatalog] of [features/workspace/model/widget-catalog.ts]:
    the menu that creates widgets in the dock, what it says of the kinds that it
    cannot create, and the settings. *)
Local Open Scope string_scope.
Local Open Scope list_scope.
Local Open Scope nat_scope.
Local Open Scope js_scope.
Local Open Scope prog_scope.

(** ** The catalog of kinds *)

Inductive WorkspaceWidgetCatalogStatus := CatalogLoading | CatalogReady | CatalogError.
Record WorkspaceWidgetCatalogState := mkCatalogState {
  cg_entries : list WorkspaceWidgetKindCatalogEntry;
  cg_status : WorkspaceWidgetCatalogStatus;
  cg_errorMessage : option string
}.
Definition initialCatalog : WorkspaceWidgetCatalogState := mkCatalogState [] CatalogLoading None.

(** The answer of the catalog's request; [message] is of an [Error]. *)
Definition onCatalogAnswer (aborted : bool) (answer : list WorkspaceWidgetKindCatalogEntry + option string)
    (s : WorkspaceWidgetCatalogState) : WorkspaceWidgetCatalogState :=
  if aborted then s
  else
    match answer with
    | inl entries => mkCatalogState entries CatalogReady None
    | inr message => mkCatalogState [] CatalogError (Some (message ?? "Workspace widget catalog unavailable"))
    end.

Definition getUnavailableWidgetReason (kind : string) (widgetCatalog : WorkspaceWidgetCatalogState)
    (copy : RightActionRailWidgetCopy) : string :=
  match cg_status widgetCatalog with
  | CatalogLoading => rac_loadingCatalog copy
  | CatalogError => cg_errorMessage widgetCatalog ?? rac_catalogUnavailable copy
  | CatalogReady =>
      match getWorkspaceWidgetKindEntry (Some (cg_entries widgetCatalog)) kind with
      | None => rac_notReportedByBackend copy
      | Some entry =>
          match wk_status entry with
          | KindPlanned => rac_planned copy
          | KindFrontendLocal => rac_frontendLocal copy
          | KindAvailable =>
              if wk_supports_path entry && negb (wk_can_create entry) then rac_needsFilePath copy else rac_unavailable copy
          end
      end
  end.

(** ** The menu *)

(** The kinds of the menu, in its order (the list of sessions is between the
    files and the commander), and whether the rail can create them. *)
Inductive RailKind := RailTerminal | RailFiles | RailCommander | RailPreview | RailEditor | RailWeb.
Definition railKinds : list RailKind := [RailTerminal; RailFiles; RailCommander; RailPreview; RailEditor; RailWeb].
Definition showRailKind (k : RailKind) : string :=
  match k with
  | RailTerminal => "terminal" | RailFiles => "files" | RailCommander => "commander"
  | RailPreview => "preview" | RailEditor => "editor" | RailWeb => "web"
  end.
Definition canCreate (widgetCatalog : WorkspaceWidgetCatalogState) (k : RailKind) : bool :=
  match k with
  | RailTerminal | RailFiles => isWorkspaceWidgetKindCreatable (Some (cg_entries widgetCatalog)) (showRailKind k)
  | RailCommander | RailPreview | RailEditor | RailWeb => false
  end.

Record RailItem := mkRailItem { ri_label : string; ri_title : string; ri_disabled : bool; ri_reason : option string }.
Definition railItem (locale : AppLocale) (widgetCatalog : WorkspaceWidgetCatalogState) (k : RailKind) : option RailItem :=
  let copy := rightActionRailWidgetCopy locale in
  entry ← getWorkspaceWidgetKindEntry (Some (cg_entries widgetCatalog)) (showRailKind k);
  let reason := getUnavailableWidgetReason (showRailKind k) widgetCatalog copy in
  Some (if canCreate widgetCatalog k
        then mkRailItem (rac_createWidget copy (wk_label entry)) (wk_label entry) false None
        else mkRailItem (rac_unavailableWidget copy (wk_label entry) reason) (wk_label entry) true (Some reason)).
Definition railMenu (locale : AppLocale) (widgetCatalog : WorkspaceWidgetCatalogState) : list RailItem :=
  omap (railItem locale widgetCatalog) railKinds.

(** ** Creating widgets *)

Record RailState `{D : Dockview} := mkRail { rl_dock : option Dock; rl_isUtilityMenuOpen : bool }.
Arguments mkRail {D}.

(** [createTerminalTab] answers the id of the tab and of its widget, the context
    the root of the repository, and the directory the id of the widget. *)
Inductive RailRequest : Set -> Type :=
  | RailCreateTerminalTab (title : string) : RailRequest (string * string)
  | RailRuntimeContext : RailRequest string
  | RailOpenDirectory (path targetWidgetId : string) : RailRequest string.

Section Rail.
Context `{D : Dockview}.

(** Whether [addPanel] throws. *)
Variable refused : AddPanelOptions -> Dock -> bool.

Notation Rail := (ProgX JsError RailState RailRequest).

Definition setIsUtilityMenuOpen (b : bool) (s : RailState) : RailState := mkRail (rl_dock s) b.
Definition handleToggleUtilityMenu (s : RailState) : RailState := setIsUtilityMenuOpen (negb (rl_isUtilityMenuOpen s)) s.
(** While the menu is open: a press outside of it and its button, and a key. *)
Definition railPointerDown (inside : bool) (s : RailState) : RailState :=
  if rl_isUtilityMenuOpen s && negb inside then setIsUtilityMenuOpen false s else s.
Definition railKey (key : string) (s : RailState) : RailState :=
  if rl_isUtilityMenuOpen s && bool_decide (key = "Escape") then setIsUtilityMenuOpen false s else s.

Definition activePanel (d : Dock) : option DockPanel := dock_active d ≫= getPanel d.
Definition getPanelPosition (dockviewApi : option Dock) : option (DockDirection * option string) :=
  match truthyOpt (dp_id <$> (dockviewApi ≫= activePanel)) with
  | None => None
  | Some referencePanel => Some (DirectionRight, Some referencePanel)
  end.

Definition getBackendTargetWidgetId (dockviewApi : option Dock) : option string :=
  match dockviewApi ≫= activePanel with
  | None => None
  | Some panel =>
      if isTerminalPanel (dp_id panel) (dp_params panel)
      then Some (tr_widgetId (resolveTerminalPanelParams (dp_id panel) (dp_params panel)))
      else pp_widgetId <$> resolveFilesPanelParams (dp_params panel)
  end.

(** [dockviewApi.addPanel] and closing the menu. *)
Definition addPanel (options : AddPanelOptions) : Rail unit :=
  s <- get ;;
  match rl_dock s with
  | None => Ret tt
  | Some d =>
      if refused options d then Throw (Some "panel")
      else update (fun s => mkRail (Some (dock_add options d)) (rl_isUtilityMenuOpen s))
  end.

Definition terminalPanelOptions (nextPanelId : string) (runtimeTerminal : string * string)
    (position : option (DockDirection * option string)) : AddPanelOptions :=
  let title := tr_title (createTerminalPanelParams PresetWorkspace (Some nextPanelId) None) in
  mkAddPanel nextPanelId
    (match trailingIndex nextPanelId with Some index => title +:+ " " +:+ index | None => title end) "terminal-tab"
    (Some (terminalParamsJson (createTerminalPanelParams PresetWorkspace (Some (snd runtimeTerminal)) (Some (fst runtimeTerminal)))))
    position.

(** The id of the panel is chosen at the click, before the terminal is there. *)
Definition handleCreateTerminalWidget (widgetCatalog : WorkspaceWidgetCatalogState) : Rail unit :=
  if isWorkspaceWidgetKindCreatable (Some (cg_entries widgetCatalog)) "terminal" then
    s <- get ;;
    match rl_dock s with
    | None => Ret tt
    | Some dockviewApi =>
        let nextPanelId := createNextTerminalPanelId dockviewApi PresetWorkspace in
        created <- tryCatch
          (runtimeTerminal <- await (RailCreateTerminalTab
              (tr_title (createTerminalPanelParams PresetWorkspace (Some nextPanelId) None))) ;;
           s <- get ;;
           addPanel (terminalPanelOptions nextPanelId runtimeTerminal (getPanelPosition (rl_dock s))) ;;;
           Ret true)
          (fun _ => Ret false) ;;
        if created : bool then update (setIsUtilityMenuOpen false) else Ret tt
    end
  else Ret tt.

Definition filesPanelOptions (path widgetId : string) (position : option (DockDirection * option string)) : AddPanelOptions :=
  let title := getPathTitle "Files" path in
  mkAddPanel widgetId title "" (Some (pathParamsJson "files" (createFilesPanelParams None path (Some title) widgetId))) position.

Definition handleCreateFilesWidget (widgetCatalog : WorkspaceWidgetCatalogState) : Rail unit :=
  if isWorkspaceWidgetKindCreatable (Some (cg_entries widgetCatalog)) "files" then
    s <- get ;;
    match rl_dock s, truthyOpt (getBackendTargetWidgetId (rl_dock s)) with
    | Some _, Some targetWidgetId =>
        created <- tryCatch
          (path <- await RailRuntimeContext ;;
           widgetId <- await (RailOpenDirectory path targetWidgetId) ;;
           s <- get ;;
           addPanel (filesPanelOptions path widgetId (getPanelPosition (rl_dock s))) ;;;
           Ret true)
          (fun _ => Ret false) ;;
        if created : bool then update (setIsUtilityMenuOpen false) else Ret tt
    | _, _ => Ret tt
    end
  else Ret tt.

Definition handleCreateWorkspace (onAddWorkspace : RailState -> RailState) (s : RailState) : RailState :=
  setIsUtilityMenuOpen false (onAddWorkspace s).

(** ** What the menu creates *)

Context `{!DockviewLaws D}.
Hypothesis refused_fresh : forall o d, dd_id o ∉ panel_ids d -> refused o d = false.

Lemma add_panel_run o d s (k : unit -> Rail unit) :
  rl_dock s = Some d -> dd_id o ∉ panel_ids d ->
  run (bind (addPanel o) k) s = run (k tt) (mkRail (Some (dock_add o d)) (rl_isUtilityMenuOpen s)).
Proof. intros Hd Hn. unfold addPanel, get. cbn [bind run]. rewrite Hd, refused_fresh by done. reflexivity. Qed.

(** A new terminal: the click asks for it alone; when it is there, and the id
    that was chosen still free, the dock has one panel more, which shows it, and the menu
    closes; when it cannot be created, nothing changes. *)
Lemma terminal_widget_created widgetCatalog d s :
  canCreate widgetCatalog RailTerminal = true -> rl_dock s = Some d ->
  exists k, run (handleCreateTerminalWidget widgetCatalog) s = (s, Waiting (RailCreateTerminalTab "Workspace shell") k) /\
    (forall e s', run (k (inr e)) s' = (s', Ended (inl tt))) /\
    forall tabId widgetId s' d', rl_dock s' = Some d' -> createNextTerminalPanelId d PresetWorkspace ∉ panel_ids d' ->
      exists s2 d2 panel, run (k (inl (tabId, widgetId))) s' = (s2, Ended (inl tt)) /\ rl_dock s2 = Some d2 /\
        rl_isUtilityMenuOpen s2 = false /\ dock_panels d2 ≡ₚ panel :: dock_panels d' /\ showsWidget widgetId panel = true.
Proof.
  intros Hc Hd. unfold handleCreateTerminalWidget. cbn [canCreate showRailKind] in Hc. rewrite Hc.
  unfold get. cbn [bind run]. rewrite Hd. cbn [bind run tryCatch await]. eexists. split; [reflexivity|].
  split; [by intros e s'|]. intros tabId widgetId s' d' Hd' Hfree.
  cbn [bind run tryCatch]. unfold addPanel, get. cbn [bind run tryCatch]. rewrite Hd'. rewrite refused_fresh by exact Hfree.
  cbn [bind run tryCatch update]. eexists _, _, _. split; [reflexivity|]. split; [reflexivity|]. split; [reflexivity|].
  split; [by apply panels_add|]. unfold showsWidget, resolveTerminalPanelParams. cbn [dp_id dp_params terminalPanelOptions dd_id dd_params].
  rewrite params_is_terminal, terminal_params_read. cbn. by apply bool_decide_eq_true_2.
Qed.

(** A click while the catalog does not list the kind as available, or there is
    no dock, or for the files nothing to put them beside, asks for nothing. *)
Lemma create_refused widgetCatalog s :
  (canCreate widgetCatalog RailTerminal = false \/ rl_dock s = None -> run (handleCreateTerminalWidget widgetCatalog) s = (s, Ended (inl tt))) /\
  (canCreate widgetCatalog RailFiles = false \/ truthyOpt (getBackendTargetWidgetId (rl_dock s)) = None ->
     run (handleCreateFilesWidget widgetCatalog) s = (s, Ended (inl tt))).
Proof.
  unfold handleCreateTerminalWidget, handleCreateFilesWidget. cbn [canCreate showRailKind]. split; intros [E|E].
  - by rewrite E.
  - destruct (isWorkspaceWidgetKindCreatable _ _); [|done]. unfold get. cbn [bind run]. by rewrite E.
  - by rewrite E.
  - destruct (isWorkspaceWidgetKindCreatable _ _); [|done]. unfold get. cbn [bind run]. rewrite E. by destruct (rl_dock s).
Qed.

(** The directory is opened beside the widget of the active panel. *)
Lemma files_widget_created widgetCatalog d target s :
  canCreate widgetCatalog RailFiles = true -> rl_dock s = Some d -> truthyOpt (getBackendTargetWidgetId (Some d)) = Some target ->
  exists k, run (handleCreateFilesWidget widgetCatalog) s = (s, Waiting RailRuntimeContext k) /\
    (forall e s', run (k (inr e)) s' = (s', Ended (inl tt))) /\
    forall path s', exists k2, run (k (inl path)) s' = (s', Waiting (RailOpenDirectory path target) k2) /\
      (forall e s', run (k2 (inr e)) s' = (s', Ended (inl tt))) /\
      forall widgetId s' d', rl_dock s' = Some d' -> widgetId ∉ panel_ids d' ->
        exists s2 d2 panel, run (k2 (inl widgetId)) s' = (s2, Ended (inl tt)) /\ rl_dock s2 = Some d2 /\
          rl_isUtilityMenuOpen s2 = false /\ dock_panels d2 ≡ₚ panel :: dock_panels d' /\ dp_id panel = widgetId /\
          resolveFilesPanelParams (dp_params panel) = Some (mkPathParams None path (getPathTitle "Files" path) widgetId).
Proof.
  intros Hc Hd Ht. unfold handleCreateFilesWidget. cbn [canCreate showRailKind] in Hc. rewrite Hc.
  unfold get. cbn [bind run]. rewrite Hd, Ht. cbn [bind run tryCatch await]. eexists. split; [reflexivity|].
  split; [by intros e s'|]. intros path s'. cbn [bind run tryCatch]. eexists. split; [reflexivity|].
  split; [by intros e s2|]. intros widgetId s2 d' Hd' Hfree.
  cbn [bind run tryCatch]. unfold addPanel, get. cbn [bind run tryCatch]. rewrite Hd'. rewrite refused_fresh by exact Hfree.
  cbn [bind run tryCatch update]. eexists _, _, _. split; [reflexivity|]. split; [reflexivity|]. split; [reflexivity|].
  split; [by apply panels_add|]. split; [done|]. apply path_params_read.
Qed.
End Rail.

(** ** What the menu says *)

Lemma catalog_answered aborted answer s :
  cg_entries s = [] \/ cg_status s = CatalogReady ->
  cg_entries (onCatalogAnswer aborted answer s) = [] \/ cg_status (onCatalogAnswer aborted answer s) = CatalogReady.
Proof. destruct aborted, answer; cbn; auto. Qed.
Lemma catalog_entries answers :
  let widgetCatalog := foldl (fun s a => onCatalogAnswer (fst a) (snd a) s) initialCatalog answers in
  cg_entries widgetCatalog = [] \/ cg_status widgetCatalog = CatalogReady.
Proof.
  cbv zeta. assert (cg_entries initialCatalog = [] \/ cg_status initialCatalog = CatalogReady) as H0 by by left.
  revert H0. generalize initialCatalog. induction answers as [|a answers IH]; intros c H0; [done|].
  cbn [foldl]. by apply IH, catalog_answered.
Qed.

(** A kind is listed only with an entry, so only when the catalog was read: of
    the reasons for a disabled item the ones for a catalog that is loading,
    failed or does not have the kind are never shown. *)
Lemma reasons_of_entries locale answers k item :
  let widgetCatalog := foldl (fun s a => onCatalogAnswer (fst a) (snd a) s) initialCatalog answers in
  railItem locale widgetCatalog k = Some item ->
  cg_status widgetCatalog = CatalogReady /\
  ri_reason item ∈ [None; Some (rac_planned (rightActionRailWidgetCopy locale)); Some (rac_frontendLocal (rightActionRailWidgetCopy locale));
    Some (rac_needsFilePath (rightActionRailWidgetCopy locale)); Some (rac_unavailable (rightActionRailWidgetCopy locale))].
Proof.
  cbv zeta. set (widgetCatalog := foldl _ _ _). intros Hitem.
  pose proof (catalog_entries answers) as Hcat. fold widgetCatalog in Hcat.
  unfold railItem in Hitem. destruct Hcat as [Hcat|Hcat]; [by rewrite Hcat in Hitem|]. split; [exact Hcat|].
  revert Hitem. unfold getUnavailableWidgetReason. rewrite Hcat.
  destruct (getWorkspaceWidgetKindEntry _ _) as [entry|]; [|done]. cbn [mbind option_bind].
  destruct (canCreate widgetCatalog k); intros [= <-]; cbn [ri_reason]; [by left|].
  destruct (wk_status entry); [destruct (wk_supports_path entry && negb (wk_can_create entry))| |]; set_solver.
Qed.

(** ** Examples *)

Definition railEntry (kind label : string) (status : WorkspaceWidgetKindStatus) (can supportsPath : bool) : WorkspaceWidgetKindCatalogEntry :=
  mkKindEntry kind label "" status true can false supportsPath label None None.
Definition railCatalog : WorkspaceWidgetCatalogState :=
  onCatalogAnswer false (inl [railEntry "terminal" "Terminal" KindAvailable true false; railEntry "web" "Web" KindPlanned false false;
    railEntry "preview" "Preview" KindAvailable false true]) initialCatalog.

Example menu_of_the_rail :
  railMenu LocaleEn railCatalog =
    [mkRailItem "Create Terminal widget" "Terminal" false None;
     mkRailItem (rac_unavailableWidget rightActionRailWidgetCopy_en "Preview" (rac_needsFilePath rightActionRailWidgetCopy_en)) "Preview" true
       (Some (rac_needsFilePath rightActionRailWidgetCopy_en));
     mkRailItem (rac_unavailableWidget rightActionRailWidgetCopy_en "Web" (rac_planned rightActionRailWidgetCopy_en)) "Web" true
       (Some (rac_planned rightActionRailWidgetCopy_en))] /\
  railMenu LocaleEn initialCatalog = [].
Proof. by vm_compute. Qed.

(** A dock that refuses an id that it has. *)
Definition refusesTaken (o : AddPanelOptions) (d : @Dock listDockview) : bool := bool_decide (dd_id o ∈ panel_ids d).

(* Two clicks before the first answer choose the same id: the second terminal is
   created by the backend and gets no panel, and the menu stays open. *)
Example second_terminal_without_panel :
  let d0 : @Dock listDockview := ([], None) in
  let click := handleCreateTerminalWidget refusesTaken railCatalog in
  let s0 := mkRail (D := listDockview) (Some d0) true in
  match run click s0 with
  | (s1, @Waiting _ _ _ _ A (RailCreateTerminalTab _) k1) =>
      match run click s1 with
      | (s2, @Waiting _ _ _ _ B (RailCreateTerminalTab _) k2) =>
          let s3 := fst (run (k1 (inl ("tab-1", "term-1"))) s2) in
          let s4 := fst (run (k2 (inl ("tab-2", "term-2"))) (handleToggleUtilityMenu s3)) in
          (panel_ids <$> rl_dock s3) = Some ["terminal"] /\ s4 = handleToggleUtilityMenu s3
      | _ => False
      end
  | _ => False
  end.
Proof. by vm_compute. Qed.
