(* ===== verification/MessageBlocks.v ===== *)
(** * The messages of the agent panel and their buttons

    [frontend/src/widgets/ai/ai-chat-message-widget.tsx] with the blocks that it
    mounts ([chat-text-message-widget.tsx], [plan-], [approval-], [audit-] and
    [questionnaire-message-block.tsx]), and what their buttons ask of the panel. *)
From Stdlib Require Import Ascii String.
From stdpp Require Import strings relations.
From S2P Require Import Prelude JsString Text Sse Conversation Interaction MessageView AgentContext Effects AgentState Execution Approval AgentPanel WidgetTexts.
Local Open Scope string_scope.
Local Open Scope list_scope.
Local Open Scope nat_scope.
Local Open Scope js_scope.

(** ** Texts ([chat-text-message-widget.tsx]) *)

(** [filter(Boolean)] of texts that may be absent *)
Definition presentTexts (l : list (option string)) : list string := mapFilter truthyOpt l.

Definition metaLine (message : ChatTextMessage) : string :=
  match ct_role message with
  | ChatUser => ""
  | ChatAssistant =>
      let meta := ct_meta message in
      join middle_dot (presentTexts
        [match meta ≫= mm_model with Some model => Some model | None => meta ≫= mm_provider end; meta ≫= mm_status])
  end.

Record Detail := mkDetail { de_id : string; de_label : string; de_value : string }.
Definition detailsOf (meta : option MessageMeta) : list Detail :=
  match meta with
  | None => []
  | Some meta =>
      let line prefix value := (fun text => prefix +:+ text) <$> truthyOpt value in
      let metadataLines := presentTexts
        [line "Provider: " (mm_provider meta); line "Model: " (mm_model meta); line "Status: " (mm_status meta)] in
      mapFilter id
        [mkDetail "prompt" "Prompt" <$> truthyOpt (mm_prompt meta);
         mkDetail "reasoning" "Reasoning" <$> truthyOpt (mm_reasoning meta);
         mkDetail "summary" "Summary" <$> truthyOpt (mm_summary meta);
         if 0 <? length metadataLines then Some (mkDetail "metadata" "Metadata" (join (String LF "") metadataLines)) else None]
  end.

Definition hasDetails (message : ChatTextMessage) : bool :=
  match ct_role message with ChatUser => false | ChatAssistant => 0 <? length (detailsOf (ct_meta message)) end.
Definition isDetailsVisible (mode : ChatMode) (message : ChatTextMessage) (isDetailsOpen : bool) : bool :=
  hasDetails message && (match mode with ModeDebug => true | _ => false end || isDetailsOpen).
(** The button; in the mode for debugging there is none. *)
Definition detailsToggle (mode : ChatMode) (message : ChatTextMessage) (isDetailsOpen : bool) : option string :=
  if hasDetails message && (match mode with ModeDebug => false | _ => true end)
  then Some (if isDetailsVisible mode message isDetailsOpen then "Hide details" else "Show details") else None.

Record TextBlock := mkTextBlock {
  tx_content : string;
  tx_attachments : list string;
  tx_metaLine : option string;
  tx_toggle : option string;
  tx_details : option (string * list Detail)
}.
Definition ChatTextMessageWidget (mode : ChatMode) (message : ChatTextMessage) (isDetailsOpen : bool) : TextBlock :=
  let details := detailsOf (ct_meta message) in
  mkTextBlock (ct_content message) ((fun a => "Use attachment " +:+ at_name a) <$> (ct_attachments message ?? []))
    (truthyOpt (Some (metaLine message))) (detailsToggle mode message isDetailsOpen)
    (if isDetailsVisible mode message isDetailsOpen
     then Some (showNat (length details) +:+ " " +:+ (if length details =? 1 then "field" else "fields"), details)
     else None).

(** ** The other blocks *)

(** [date.toISOString()], where [date] is a time in milliseconds that a date can have. *)
Definition isoYear (y : Z) : string :=
  if ((0 <=? y) && (y <=? 9999))%Z then padZeros 4 (showZ y)
  else (if (y <? 0)%Z then "-" else "+") +:+ padZeros 6 (showZ (Z.abs y)).
Definition isoTime (t : Z) : string :=
  let two z := padZeros 2 (showZ z) in
  let ms := (t mod 86400000)%Z in
  two (ms / 3600000)%Z +:+ ":" +:+ two (ms / 60000 mod 60)%Z +:+ ":" +:+ two (ms / 1000 mod 60)%Z.
Definition toISOString (t : Z) : string :=
  let two z := padZeros 2 (showZ z) in
  let day := (t / 86400000)%Z in
  let '(month, date) := monthAndDate day in
  isoYear (yearFromDay day) +:+ "-" +:+ two month +:+ "-" +:+ two date +:+ "T" +:+ isoTime t +:+ "." +:+
    padZeros 3 (showZ (t mod 1000)%Z) +:+ "Z".
(** The largest time of a date. *)
Definition MAX_DATE : Z := 8640000000000000%Z.

Definition formatAuditTimestamp (timestamp : option Z) : string :=
  match timestamp with
  | None => ""
  | Some t => if (Z.abs t <=? MAX_DATE)%Z then strTake 8 (strDrop 11 (toISOString t)) else ""
  end.

Definition showAuditStatus (status : AuditEntryStatus) : string :=
  match status with AuditPending => "pending" | AuditRunning => "running" | AuditDone => "done" | AuditError => "error" end.
(** A row: the status, the tool and the time unless it is empty. *)
Definition AuditMessageBlock (message : AuditMessage) : list (string * string * option string) :=
  (fun entry => (showAuditStatus (ae_status entry), ae_tool entry, truthyOpt (Some (formatAuditTimestamp (ae_timestamp entry)))))
    <$> au_entries message.

(** The steps and the tools with their descriptions. *)
Definition PlanMessageBlock (message : PlanMessage) : list string * list (string * option string) :=
  (imap (fun index step => showNat (index + 1) +:+ ". " +:+ step) (pm_steps message),
   (fun tool => ("- " +:+ pt_name tool, truthyOpt (pt_description tool))) <$> pm_tools message).

Definition statusLabel (message : ApprovalMessage) : string :=
  match am_status message with
  | ApprovalApproved => "Execution approved."
  | ApprovalCancelled => "Execution cancelled."
  | ApprovalPending => "Approval required before execution."
  end.
Definition approvalPending (message : ApprovalMessage) : bool := bool_decide (am_status message = ApprovalPending).
(** The texts, and the buttons if any. *)
Definition ApprovalMessageBlock (message : ApprovalMessage) : string * string * list string :=
  (statusLabel message, "Plan " +:+ am_planId message, if approvalPending message then ["Approve"; "Cancel"] else []).

Definition questionPending (message : QuestionnaireMessage) : bool := bool_decide (qm_status message = QuestionPending).
Record QuestionBlock := mkQuestionBlock {
  qb_question : string;
  qb_answer : option string;
  qb_options : list string;
  qb_custom : option (string * bool)      (* the input's text, and whether its button is disabled *)
}.
Definition QuestionnaireMessageBlock (message : QuestionnaireMessage) (customValue : string) : QuestionBlock :=
  let isPending := questionPending message in
  mkQuestionBlock (qm_question message) ((fun answer => "Answer: " +:+ answer) <$> truthyOpt (qm_answer message))
    (if isPending then fst <$> qm_options message else [])
    (if isPending && qm_allowCustom message then Some (customValue, bool_decide (trimText customValue = "")) else None).

(** ** Buttons *)

Inductive BlockControl :=
  | ReuseAttachment (attachment : AgentAttachmentReference) | DetailsToggle
  | Approve | Cancel
  | AnswerOption (value : string) | CustomInput (value : string) | CustomSubmit.

(** The state of a block. *)
Record BlockState := mkBlock { bk_isDetailsOpen : bool; bk_customValue : string }.
(** At the mount, and when the mode changes. *)
Definition modeEffect (mode : ChatMode) (s : BlockState) : BlockState :=
  mkBlock (match mode with ModeChat => false | _ => true end) (bk_customValue s).
Definition mountBlock (mode : ChatMode) : BlockState := modeEffect mode (mkBlock false "").

(** The controls of the block that [AiChatMessageWidget] mounts for the message, which are enabled. *)
Definition blockOffers (mode : ChatMode) (message : ChatMessageView) (s : BlockState) (control : BlockControl) : bool :=
  match message, control with
  | ViewChat m, ReuseAttachment a => bool_decide (a ∈ ct_attachments m ?? [])
  | ViewChat m, DetailsToggle => if detailsToggle mode m (bk_isDetailsOpen s) then true else false
  | ViewApproval m, Approve | ViewApproval m, Cancel => approvalPending m
  | ViewQuestionnaire m, AnswerOption value => questionPending m && bool_decide (value ∈ snd <$> qm_options m)
  | ViewQuestionnaire m, CustomInput _ => questionPending m && qm_allowCustom m
  | ViewQuestionnaire m, CustomSubmit => questionPending m && qm_allowCustom m && negb (bool_decide (trimText (bk_customValue s) = ""))
  | _, _ => false
  end.

(** A use of a control, with the callbacks of the panel that it calls. *)
Definition blockStep (message : ChatMessageView) (control : BlockControl) (s : BlockState) : BlockState * list Handler :=
  match message, control with
  | _, ReuseAttachment a => (s, [HQueueAttachment a])
  | _, DetailsToggle => (mkBlock (negb (bk_isDetailsOpen s)) (bk_customValue s), [])
  | ViewApproval m, Approve => (s, [HApprove m])
  | ViewApproval m, Cancel => (s, [HCancelPlan m])
  | ViewQuestionnaire m, AnswerOption value => (s, [HAnswer m value])
  | ViewQuestionnaire _, CustomInput value => (mkBlock (bk_isDetailsOpen s) value, [])
  | ViewQuestionnaire m, CustomSubmit =>
      let answer := trimText (bk_customValue s) in
      if truthy answer then (mkBlock (bk_isDetailsOpen s) "", [HAnswer m answer]) else (s, [])
  | _, _ => (s, [])
  end.

(** What [AiChatMessageWidget] mounts for a message. *)
Inductive MountedBlock :=
  | MountedText (block : TextBlock)
  | MountedPlan (block : list string * list (string * option string))
  | MountedApproval (block : string * string * list string)
  | MountedAudit (block : list (string * string * option string))
  | MountedQuestionnaire (block : QuestionBlock).
Definition AiChatMessageWidget (mode : ChatMode) (message : ChatMessageView) (s : BlockState) : MountedBlock :=
  match message with
  | ViewChat m => MountedText (ChatTextMessageWidget mode m (bk_isDetailsOpen s))
  | ViewPlan m => MountedPlan (PlanMessageBlock m)
  | ViewApproval m => MountedApproval (ApprovalMessageBlock m)
  | ViewAudit m => MountedAudit (AuditMessageBlock m)
  | ViewQuestionnaire m => MountedQuestionnaire (QuestionnaireMessageBlock m (bk_customValue s))
  end.

(** ** The blocks and the panel *)

Section Panel.
Context `{DateHost} `{Locale}.
Variables (clock auditNow : nat -> Z) (isoNow : nat -> string) (env : PanelEnv).

Notation prog := (handlerProg clock auditNow isoNow env).

(** The messages that the panel shows. *)
Definition shownMessages (panel : AgentState) (provider : option AgentConversationProvider) : list ChatMessageView :=
  ps_messages (panelState (fl_interaction (as_flow panel)) (sb_loadError (as_submit panel)) (sb_messages (as_submit panel))
    provider (sb_submitError (as_submit panel))).

(** The flow is the one that the message asks about. *)
Definition asksAbout (f : PendingInteractionFlow) (message : ChatMessageView) : bool :=
  match message with
  | ViewApproval a => bool_decide (pf_flowID f = am_planId a)
  | ViewQuestionnaire q => bool_decide (pf_questionnaireMessageID f = Some (qm_id q))
  | _ => false
  end.

(** What an approval asks for first. *)
Definition startsApproved (f : PendingInteractionFlow) (A : Set) (r : AgentRequest A) : Prop :=
  match pf_runApproval f with
  | Some ra => match r with ExecuteTool _ _ (SafetyConfirm x) => x = ra_approvalID ra | _ => False end
  | None =>
      if executesInTerminal f then match r with ResolveRuntimeContext => True | _ => False end
      else match r with RunBackendPrompt prompt _ => prompt = pf_prompt f | _ => False end
  end.

(** A press of a button that answers, in the state [panel], up to the first await. *)
Definition actsOnFlow (f : PendingInteractionFlow) (panel : AgentState) (h : Handler) : Prop :=
  let '(panel', rest) := run (prog h) panel in
  match h with
  | HApprove _ => match rest with @Waiting _ _ _ _ A r _ => startsApproved f A r | Ended _ => False end
  | HCancelPlan _ => fl_pending (as_flow panel') = None /\ rest = Ended (inl tt)
  | HAnswer q answer =>
      match rest with
      | @Waiting _ _ _ _ A r _ =>
          fl_pending (as_flow panel') = None /\ match r with RunBackendPrompt prompt _ => prompt = pf_prompt f | _ => False end
      | Ended _ =>
          exists f', fl_pending (as_flow panel') = Some f' /\ pf_flowID f' = pf_flowID f /\ pf_prompt f' = pf_prompt f /\
            pf_questionnaireMessageID f' = None /\ answerable f' (fl_interaction (as_flow panel'))
      end
  | _ => False
  end.

Lemma approve_answers f panel a :
  fl_pending (as_flow panel) = Some f -> pf_flowID f = am_planId a -> actsOnFlow f panel (HApprove a).
Proof.
  intros Hf Hid. unfold actsOnFlow, handlerProg, approvePendingPlan, withKeys, get. cbn [bind run].
  rewrite Hf, bool_decide_eq_true_2 by done. cbn [negb bind run].
  destruct (updateApprovalMessageStatus _ _ _ _) as [approved keys]. cbn [bind run update].
  destruct (createAuditMessage _ _ _ _ _) as [audit keys']. cbn [bind run update showApproved].
  unfold startsApproved. destruct (pf_runApproval f) as [ra|]; [reflexivity|].
  destruct (executesInTerminal f); [exact I|]. reflexivity.
Qed.

Lemma cancel_answers f panel a :
  fl_pending (as_flow panel) = Some f -> pf_flowID f = am_planId a -> actsOnFlow f panel (HCancelPlan a).
Proof.
  intros Hf Hid. unfold actsOnFlow, handlerProg, cancelPendingPlan, withKeys, get. cbn [bind run].
  rewrite Hf, bool_decide_eq_true_2 by done. cbn [negb bind run].
  destruct (find _ _) as [[| | | |]|]; cbn [bind run update get withKeys]; by split.
Qed.

Lemma answer_answers f panel q answer :
  fl_pending (as_flow panel) = Some f -> pf_questionnaireMessageID f = Some (qm_id q) -> actsOnFlow f panel (HAnswer q answer).
Proof.
  intros Hf Hid. unfold actsOnFlow, handlerProg, answerQuestionnaire, withKeys, get. cbn [bind run].
  rewrite Hf, bool_decide_eq_true_2 by done. cbn [negb bind run].
  destruct (updateQuestionnaireMessageAnswer _ _ _ _) as [answered keys]. cbn [bind run update].
  destruct (classifyMessageIntent _ _ _) as [intent tools]. destruct (decide (intent = IntentChat)).
  - cbn. by split.
  - cbn [bind run update get]. destruct (createPlanMessage _ _ _ _ _ _) as [plan keys2]. cbn [bind run update get].
    destruct (createApprovalMessage _ _ _ _) as [approval keys3] eqn:Ea. cbn [bind run update get].
    eexists. split; [reflexivity|]. split; [done|]. split; [done|]. split; [done|].
    assert (am_planId approval = pf_flowID f /\ am_status approval = ApprovalPending) as [Hp Hs].
    { unfold createApprovalMessage in Ea. destruct (nextLocalSortKey _ _). by injection Ea as <- _. }
    exists (ViewApproval approval). split; [|by split_and!].
    cbn. rewrite sortMessages_perm. apply elem_of_app. right. right. right. by left.
Qed.

(** A button of a block whose message is not of the pending flow does nothing. *)
Lemma stale_block_does_nothing message control s h panel :
  h ∈ snd (blockStep message control s) -> match h with HQueueAttachment _ => False | _ => True end ->
  match fl_pending (as_flow panel) with Some f => asksAbout f message = false | None => True end ->
  run (prog h) panel = (panel, Ended (inl tt)).
Proof.
  intros Hh Hq Hf.
  assert (exists h', h = h' /\
    match h' with
    | HApprove a | HCancelPlan a => message = ViewApproval a
    | HAnswer q _ => message = ViewQuestionnaire q
    | _ => False
    end) as (h' & <- & Hm).
  { destruct message, control; cbn in Hh; try (destruct (truthy _); cbn in Hh);
      try (by apply not_elem_of_nil in Hh); apply list_elem_of_singleton in Hh as ->; try done; by eexists. }
  destruct h; try done; subst message; unfold handlerProg, approvePendingPlan, cancelPendingPlan, answerQuestionnaire, get;
    cbn [bind run]; destruct (fl_pending (as_flow panel)); try reflexivity; cbn [asksAbout] in Hf; by rewrite Hf.
Qed.

Lemma interaction_shown panel provider message :
  message ∈ fl_interaction (as_flow panel) -> message ∈ shownMessages panel provider.
Proof. intros Hm. unfold shownMessages, panelState. cbn [ps_messages with_ps_messages]. rewrite sortMessages_perm. apply elem_of_app. by left. Qed.

(** The buttons of the message are there, call the panel and act on the flow. *)
Definition hasButtons (mode : ChatMode) (s : BlockState) (f : PendingInteractionFlow) (panel : AgentState)
    (message : ChatMessageView) : Prop :=
  match message with
  | ViewApproval a =>
      blockOffers mode message s Approve = true /\ blockOffers mode message s Cancel = true /\
      snd (blockStep message Approve s) = [HApprove a] /\ actsOnFlow f panel (HApprove a) /\
      snd (blockStep message Cancel s) = [HCancelPlan a] /\ actsOnFlow f panel (HCancelPlan a)
  | ViewQuestionnaire q =>
      (forall value, value ∈ snd <$> qm_options q ->
         blockOffers mode message s (AnswerOption value) = true /\
         snd (blockStep message (AnswerOption value) s) = [HAnswer q value] /\ actsOnFlow f panel (HAnswer q value)) /\
      (forall text, trimText text <> "" ->
         let s' := fst (blockStep message (CustomInput text) s) in
         blockOffers mode message s (CustomInput text) = true /\ blockOffers mode message s' CustomSubmit = true /\
         snd (blockStep message CustomSubmit s') = [HAnswer q (trimText text)] /\
         actsOnFlow f panel (HAnswer q (trimText text)))
  | _ => False
  end.

(** C8: Whenever a flow is pending and no approval is being executed, the panel
    shows a message where it can be answered, with buttons that do: an approval
    has both its buttons, the one starts what the flow is for and the other ends
    the flow at once; a questionnaire has a button for each of its options
    and takes any text that is not blank, and the answer, trimmed, sends
    the prompt of the flow or asks for its approval in a message of its own. *)
Theorem pending_flow_has_its_buttons m f provider mode s
    (Hr : reachable clock auditNow isoNow m) (Hf : fl_pending (as_flow (mc_state m)) = Some f)
    (Hcalls : forall c, c ∈ mc_calls m -> ~ executing c) :
  exists message, message ∈ shownMessages (mc_state m) provider /\ asksAbout f message = true /\
    hasButtons mode s f (mc_state m) message.
Proof.
  apply reachable_ok in Hr as Hm. destruct (mo_shown m Hm) as [Hs|(c & Hc & He)]; [|by destruct (Hcalls c Hc)].
  destruct (Hs f Hf) as (message & Hin & Ho). exists message. split; [by apply interaction_shown|].
  destruct message as [| |a| |q]; try done; cbn [offers] in Ho; cbn [asksAbout hasButtons].
  - destruct Ho as (Hid & Hp & _). split; [by apply bool_decide_eq_true_2|]. cbn.
    assert (approvalPending a = true) as Ha by by apply bool_decide_eq_true_2. rewrite Ha.
    split_and!; try done; [by apply approve_answers|by apply cancel_answers].
  - destruct Ho as (Hid & Hp & Hcustom). split; [by apply bool_decide_eq_true_2|].
    assert (questionPending q = true) as Hq by by apply bool_decide_eq_true_2. split.
    + intros value Hv. cbn. rewrite Hq, bool_decide_eq_true_2 by done. split_and!; try done. by apply answer_answers.
    + intros text Ht. assert (truthy (trimText text) = true) as Htt by (unfold truthy; by rewrite bool_decide_eq_false_2).
      unfold blockOffers, blockStep. cbn [fst snd bk_customValue bk_isDetailsOpen]. rewrite Hq, Hcustom, Htt, bool_decide_eq_false_2 by done. split_and!; try done. by apply answer_answers.
Qed.
End Panel.

(** ** Examples *)

#[local] Existing Instance no_dates.

Definition askedPrompt : string := "deploy the release".
Definition askedPanel : AgentState := mc_state (submitted askedPrompt).

Lemma pending_flow_has_its_buttons_witness :
  exists f message, fl_pending (as_flow askedPanel) = Some f /\ message ∈ shownMessages askedPanel None /\
    asksAbout f message = true /\
    hasButtons ticks ticks undated one_terminal ModeChat (mountBlock ModeChat) f askedPanel message.
Proof.
  assert (exists f, fl_pending (as_flow askedPanel) = Some f) as (f & Hf) by (eexists; vm_compute; reflexivity).
  assert (forall c, c ∈ mc_calls (submitted askedPrompt) -> ~ executing c) as Hcalls
    by (intros c Hc; exfalso; vm_compute in Hc; by inversion Hc).
  destruct (pending_flow_has_its_buttons ticks ticks undated one_terminal (submitted askedPrompt) f None ModeChat
    (mountBlock ModeChat) (submitted_reachable _) Hf Hcalls) as (message & H1 & H2 & H3).
  exists f, message. by split_and!.
Defined.

(* The questionnaire of the prompt, with its options, and the blank and the
   typed text in its input. *)
Example question_of_a_release :
  match mapFilter (fun m => match m with ViewQuestionnaire q => Some q | _ => None end) (shownMessages askedPanel None) with
  | [q] =>
      QuestionnaireMessageBlock q " " =
        mkQuestionBlock "Choose environment:" None (fst <$> ENVIRONMENT_OPTIONS) (Some (" ", true)) /\
      blockStep (ViewQuestionnaire q) CustomSubmit (mkBlock false " staging ") = (mkBlock false "", [HAnswer q "staging"])
  | _ => False
  end.
Proof. by vm_compute. Qed.

Example audit_rows :
  AuditMessageBlock (mkAuditMessage "a" [mkAudit "execute_terminal" AuditDone (Some 1767225661000%Z); mkAudit "read" AuditPending None;
    mkAudit "old" AuditError (Some 8640000000000001%Z)] None) =
  [("done", "execute_terminal", Some "00:01:01"); ("pending", "read", None); ("error", "old", None)] /\
  toISOString 1767225661000%Z = "2026-01-01T00:01:01.000Z".
Proof. by vm_compute. Qed.

(* In the chat the details are closed, a click opens them; for debugging they
   are open without a button. *)
Example details_of_an_answer :
  let message := mkChatText "m" ChatAssistant "Done." None (Some (mkMeta (Some "codex") None (Some "completed") None (Some "list") None)) None in
  let s := mountBlock ModeChat in
  tx_metaLine (ChatTextMessageWidget ModeChat message (bk_isDetailsOpen s)) = Some ("codex" +:+ middle_dot +:+ "completed") /\
  tx_toggle (ChatTextMessageWidget ModeChat message (bk_isDetailsOpen s)) = Some "Show details" /\
  tx_details (ChatTextMessageWidget ModeChat message (bk_isDetailsOpen s)) = None /\
  tx_details (ChatTextMessageWidget ModeChat message (bk_isDetailsOpen (fst (blockStep (ViewChat message) DetailsToggle s)))) =
    Some ("2 fields", [mkDetail "prompt" "Prompt" "list"; mkDetail "metadata" "Metadata" ("Provider: codex" +:+ String LF "Status: completed")]) /\
  tx_toggle (ChatTextMessageWidget ModeDebug message (bk_isDetailsOpen (mountBlock ModeDebug))) = None.
Proof. by vm_compute. Qed.
