(* ===== verification/DomId.v ===== *)
(** * Identities of elements

    [frontend/src/shared/ui/dom-id.tsx]: the keys that name the nodes of the
    document by their scope, the scopes of the components, and the tagging of
    the elements below a root, where new elements get numbers of their own.
    An element is a record of the attributes that the code reads and sets. *)
From Stdlib Require Import Ascii String.
From stdpp Require Import strings.
From S2P Require Import Prelude JsString Text.
Local Open Scope string_scope.
Local Open Scope list_scope.
Local Open Scope Z_scope.
Local Open Scope js_scope.

(** ** Parts of keys *)

(** [[a-z0-9]] *)
Definition slugUnit (a : ascii) : bool :=
  let c := nat_of_ascii a in ((97 <=? c) && (c <=? 122) || (48 <=? c) && (c <=? 57))%nat.
Definition dash : ascii := "-"%char.

(** [replace(/[^a-z0-9]+/g, '-')]; [inRun] after a unit that is replaced. *)
Fixpoint dashed (inRun : bool) (s : string) : string :=
  match s with
  | EmptyString => ""
  | String a s =>
      if slugUnit a then String a (dashed false s)
      else if inRun then dashed true s else String dash (dashed true s)
  end.
(** [replace(/^-+|-+$/g, '')] *)
Fixpoint dropDashes (s : string) : string :=
  match s with String a s' => if bool_decide (a = dash) then dropDashes s' else s | EmptyString => "" end.
Fixpoint dropLastDashes (s : string) : string :=
  match s with
  | EmptyString => ""
  | String a s' =>
      let rest := dropLastDashes s' in
      if bool_decide (a = dash) && negb (truthy rest) then "" else String a rest
  end.

Definition slugifyRunaPart (value : option string) : string :=
  match truthyOpt value with
  | None => "node"
  | Some value =>
      let normalizedValue := dropLastDashes (dropDashes (dashed false (lowerText (trimText value)))) in
      if truthy normalizedValue then normalizedValue else "node"
  end.

(** ** Scopes and keys *)

Record RunaDomScope := mkScope { sc_component : string; sc_layout : string; sc_widget : string }.
Definition defaultScope : RunaDomScope := mkScope "node" "shell" "global".
Inductive RunaDomMetadataMode := MetadataMinimal | MetadataVerbose.
Record RunaDomContextValue := mkContext { cx_metadata : RunaDomMetadataMode; cx_scope : RunaDomScope }.
Definition defaultContextValue : RunaDomContextValue := mkContext MetadataMinimal defaultScope.

Record RunaDomQuery := mkQuery { qu_component : option string; qu_layout : option string; qu_widget : option string }.
Definition buildRunaNodeKey (query : RunaDomQuery) : string :=
  join "-"
    [slugifyRunaPart (Some (qu_layout query ?? sc_layout defaultScope));
     slugifyRunaPart (Some (qu_widget query ?? sc_widget defaultScope));
     slugifyRunaPart (Some (qu_component query ?? sc_component defaultScope))].
Definition dquote : string := String (ascii_of_nat 34) "".
Definition buildRunaNodeSelector (query : RunaDomQuery) : string :=
  "[data-runa-node=" +:+ dquote +:+ buildRunaNodeKey query +:+ dquote +:+ "]".
Definition scopeQuery (component : string) (scope : RunaDomScope) : RunaDomQuery :=
  mkQuery (Some component) (Some (sc_layout scope)) (Some (sc_widget scope)).

(** The context below a provider. *)
Record RunaDomScopeProviderProps := mkProvider {
  pr_component : option string; pr_layout : option string; pr_metadata : option RunaDomMetadataMode; pr_widget : option string
}.
Definition RunaDomScopeProvider (p : RunaDomScopeProviderProps) (parent : RunaDomContextValue) : RunaDomContextValue :=
  mkContext (pr_metadata p ?? cx_metadata parent)
    (mkScope (slugifyRunaPart (Some (pr_component p ?? sc_component (cx_scope parent))))
       (slugifyRunaPart (Some (pr_layout p ?? sc_layout (cx_scope parent))))
       (slugifyRunaPart (Some (pr_widget p ?? sc_widget (cx_scope parent))))).

(** ** Identities of primitives *)

(** [replace(/[^a-zA-Z0-9]/g, '').toLowerCase()], and its last six units *)
Fixpoint alphanumeric (s : string) : string :=
  match s with
  | EmptyString => ""
  | String a s => if slugUnit (lower_unit a) then String (lower_unit a) (alphanumeric s) else alphanumeric s
  end.
Definition lastUnits (n : nat) (s : string) : string := strDrop (String.length s - n) s.
Definition shortUidFromReactId (value : string) : string :=
  lastUnits 6 (let s := alphanumeric value in if truthy s then s else "node").

Record RunaDomIdentity := mkIdentity { ri_id : string; ri_node : string; ri_scope : RunaDomScope }.
Definition useRunaDomIdentity (componentName : string) (explicitId : option string) (reactId : string) (scope : RunaDomScope)
    : RunaDomIdentity :=
  let component := slugifyRunaPart (Some componentName) in
  let node := buildRunaNodeKey (scopeQuery component scope) in
  mkIdentity (explicitId ?? (node +:+ "-" +:+ shortUidFromReactId reactId)) node
    (mkScope component (sc_layout scope) (sc_widget scope)).
(** The attributes, by their names. *)
Definition buildRunaDomAttributes (identity : RunaDomIdentity) (metadata : RunaDomMetadataMode) : list (string * string) :=
  let scope := ri_scope identity in
  match metadata with
  | MetadataVerbose =>
      [("id", ri_id identity); ("data-runa-component", sc_component scope); ("data-runa-layout", sc_layout scope);
       ("data-runa-node", ri_node identity); ("data-runa-widget", sc_widget scope)]
  | MetadataMinimal => [("id", ri_id identity); ("data-runa-node", ri_node identity)]
  end.

(** ** Tagging *)

(** The attributes of an element: [el_dataset] holds the entries of the dataset
    besides the five that have fields. *)
Record Element := mkElement {
  el_tagName : string;
  el_id : string;
  el_autoUid : option string;
  el_node : option string;
  el_component : option string;
  el_layout : option string;
  el_widget : option string;
  el_dataset : list (string * string);
  el_ariaLabel : option string;
  el_name : option string;
  el_role : option string;
  el_classes : list string
}.

(** A digit of a number in base 36, [n.toString(36)], and the number's text of four digits. *)
Definition digit36 (d : Z) : ascii := ascii_of_nat (Z.to_nat (if d <? 10 then 48 + d else 87 + d)).
Fixpoint base36 (fuel : nat) (n : Z) (acc : string) : string :=
  match fuel with
  | O => acc
  | S fuel =>
      let acc := String (digit36 (n mod 36)) acc in
      if n <? 36 then acc else base36 fuel (n / 36) acc
  end.
(** There are fewer digits than bits. *)
Definition toString36 (n : Z) : string := base36 (S (Z.to_nat (Z.log2 n))) n "".
Definition autoUid (n : Z) : string := lastUnits 4 (padZeros 4 (toString36 n)).

Definition inferComponentFromDataset (element : Element) : option string :=
  match filterb (fun e => startsWith "runa" (fst e) && truthy (snd e)) (el_dataset element) with
  | [] => None
  | (datasetKey, _) :: _ => truthyOpt (Some (strDrop 4 datasetKey))
  end.

Definition inferComponentName (element : Element) (fallbackComponent : string) : string :=
  truthyOpt (el_component element) ??
  (inferComponentFromDataset element ??
   (truthyOpt (el_ariaLabel element) ??
    (truthyOpt (el_name element) ??
     (truthyOpt (el_role element) ??
      match el_classes element with
      | [] => if truthy fallbackComponent then fallbackComponent else lowerText (el_tagName element)
      | classes => join "-" classes
      end)))).

(** The counter of the module, with the element. *)
Definition applyRunaElementIdentity (scope : RunaDomScope) (metadata : RunaDomMetadataMode) (explicitComponent : option string)
    (counter : Z) (element : Element) : Z * Element :=
  let component := slugifyRunaPart (Some (explicitComponent ?? inferComponentName element (sc_component scope))) in
  let node := buildRunaNodeKey (scopeQuery component scope) in
  let '(counter1, shortUid) :=
    match el_autoUid element with Some uid => (counter, uid) | None => (counter + 1, autoUid (counter + 1)) end in
  let verbose x := match metadata with MetadataVerbose => Some x | MetadataMinimal => None end in
  (counter1,
   mkElement (el_tagName element) (if truthy (el_id element) then el_id element else node +:+ "-" +:+ shortUid)
     (Some shortUid) (Some node) (verbose component) (verbose (sc_layout scope)) (verbose (sc_widget scope))
     (el_dataset element) (el_ariaLabel element) (el_name element) (el_role element) (el_classes element)).

(** The elements of a document, and the counter.  [positions] are the root and
    the elements below it, in the order of the document. *)
Record Page := mkPage { pg_counter : Z; pg_elements : list Element }.
Definition tagAt (scope : RunaDomScope) (metadata : RunaDomMetadataMode) (explicitComponent : option string)
    (p : Page) (position : nat) : Page :=
  match pg_elements p !! position with
  | None => p
  | Some element =>
      let '(counter, element') := applyRunaElementIdentity scope metadata explicitComponent (pg_counter p) element in
      mkPage counter (<[position := element']> (pg_elements p))
  end.
Definition tagRunaSubtree (scope : RunaDomScope) (metadata : RunaDomMetadataMode) (rootComponent : option string)
    (positions : list nat) (p : Page) : Page :=
  match positions with
  | [] => p
  | root :: below => foldl (tagAt scope metadata None) (tagAt scope metadata rootComponent p root) below
  end.

(** [findRunaNodes] in the whole document *)
Definition findRunaNodes (query : RunaDomQuery) (p : Page) : list Element :=
  filterb (fun e => bool_decide (el_node e = Some (buildRunaNodeKey query))) (pg_elements p).

(** * Lemmas *)

(** ** Parts *)

(** A part of a key: letters and digits with single dashes between them. *)
Fixpoint slugFrom (afterDash : bool) (s : string) : bool :=
  match s with
  | EmptyString => negb afterDash
  | String a s => if slugUnit a then slugFrom false s else bool_decide (a = dash) && negb afterDash && slugFrom true s
  end.
Definition isSlug (s : string) : bool := slugFrom true s.

Lemma slug_unit_dash a : slugUnit a = true -> a <> dash.
Proof. intros Ha ->. done. Qed.

(** Single dashes only, wherever the text ends. *)
Fixpoint singleFrom (afterDash : bool) (s : string) : bool :=
  match s with
  | EmptyString => true
  | String a s => if slugUnit a then singleFrom false s else bool_decide (a = dash) && negb afterDash && singleFrom true s
  end.
Lemma dashed_single r s : singleFrom r (dashed r s) = true.
Proof.
  revert r. induction s as [|a s IH]; intros r; [done|]. cbn [dashed]. destruct (slugUnit a) eqn:Ha.
  - cbn [singleFrom]. by rewrite Ha.
  - destruct r; [apply IH|]. exact (IH true).
Qed.
Lemma drop_dashes_single s : singleFrom false s = true -> singleFrom true (dropDashes s) = true.
Proof.
  assert (forall s, singleFrom true s = true -> dropDashes s = s) as Hid.
  { intros [|a s']; [done|]. cbn. case_bool_decide as E; [subst a; done|done]. }
  destruct s as [|a s]; [done|]. cbn [singleFrom dropDashes]. destruct (slugUnit a) eqn:Ha.
  - intros Hs. rewrite bool_decide_eq_false_2 by by apply slug_unit_dash. cbn [singleFrom]. by rewrite Ha.
  - intros [[E _]%andb_true_iff Hs]%andb_true_iff. rewrite E, Hid by done. exact Hs.
Qed.
Lemma drop_last_slug b s : singleFrom b s = true -> dropLastDashes s = "" \/ slugFrom b (dropLastDashes s) = true.
Proof.
  revert b. induction s as [|a s IH]; intros b; [by left|]. cbn [singleFrom dropLastDashes]. destruct (slugUnit a) eqn:Ha.
  - intros Hs. right. rewrite bool_decide_eq_false_2 by by apply slug_unit_dash. cbn [slugFrom andb]. rewrite Ha.
    destruct (IH false Hs) as [->|H]; done.
  - intros [[E Hb]%andb_true_iff Hs]%andb_true_iff. rewrite E. cbn [andb].
    destruct (truthy (dropLastDashes s)) eqn:Et; cbn [negb]; [|by left]. right. cbn [slugFrom]. rewrite Ha, E, Hb. cbn [andb].
    destruct (IH true Hs) as [H|H]; [by rewrite H in Et|done].
Qed.

Lemma slugify_is_slug value : isSlug (slugifyRunaPart value) = true.
Proof.
  unfold slugifyRunaPart. destruct (truthyOpt value); [|done]. cbv zeta.
  destruct (truthy (dropLastDashes _)) eqn:E; [|done].
  destruct (drop_last_slug true (dropDashes (dashed false (lowerText (trimText s))))) as [H|H]; [|by rewrite H in E|exact H].
  apply drop_dashes_single, dashed_single.
Qed.

Definition slugText (a : ascii) : bool := slugUnit a || bool_decide (a = dash).
Lemma slug_all b s : slugFrom b s = true -> str_all slugText s = true.
Proof.
  revert b. induction s as [|a s IH]; intros b; [done|]. cbn [slugFrom str_all]. unfold slugText at 1. destruct (slugUnit a).
  - intros Hs. exact (IH _ Hs).
  - intros [[-> _]%andb_true_iff Hs]%andb_true_iff. exact (IH _ Hs).
Qed.
Lemma spaces_not_slug : forallb (fun w => negb (str_all slugText w)) spaces = true.
Proof. by vm_compute. Qed.
Lemma slug_trimmed s : str_all slugText s = true -> trimText s = s.
Proof.
  intros Hs. apply trimText_id. pose proof spaces_not_slug as Hw. rewrite forallb_forall in Hw.
  assert (forall w, w ∈ spaces -> str_all slugText w = false) as Hno
    by (intros w Hin; apply list_elem_of_In in Hin; apply Hw, negb_true_iff in Hin; exact Hin).
  split.
  - destruct (leadingSpace s) as [w|] eqn:E; [|done]. apply leading_space_spec in E as [Hin [t ->]%startsWith_spec].
    rewrite str_all_append, (Hno w Hin) in Hs. done.
  - destruct (trailingSpace s) as [w|] eqn:E; [|done]. apply trailing_space_spec in E as [Hin [t ->]%endsWith_spec].
    rewrite str_all_append, (Hno w Hin), andb_false_r in Hs. done.
Qed.
Lemma slug_text_unit a : slugText a = true -> is_ascii a = true /\ lower_unit a = a.
Proof.
  unfold slugText, slugUnit, is_ascii, lower_unit, code. intros [H|H]%orb_true_iff.
  - destruct a as [[] [] [] [] [] [] [] []]; vm_compute in H |- *; done.
  - apply bool_decide_eq_true in H as ->. done.
Qed.
Lemma slug_lower s : str_all slugText s = true -> lowerText s = s.
Proof.
  intros Hs. rewrite lowerText_ascii.
  - unfold toLowerCase. induction s as [|a s IH]; [done|]. cbn [str_all] in Hs. apply andb_true_iff in Hs as [Ha Hs].
    cbn [str_map]. by rewrite (proj2 (slug_text_unit a Ha)), IH.
  - induction s as [|a s IH]; [done|]. cbn [str_all] in *. apply andb_true_iff in Hs as [Ha Hs].
    by rewrite (proj1 (slug_text_unit a Ha)), IH.
Qed.
Lemma slug_dashed b s : slugFrom b s = true -> dashed b s = s.
Proof.
  revert b. induction s as [|a s IH]; intros b; [done|]. cbn [slugFrom dashed]. destruct (slugUnit a).
  - intros Hs. by rewrite IH.
  - intros [[E Hb]%andb_true_iff Hs]%andb_true_iff. apply bool_decide_eq_true in E as ->. destruct b; [done|]. by rewrite IH.
Qed.
Lemma slug_drop_last b s : slugFrom b s = true -> dropLastDashes s = s.
Proof.
  revert b. induction s as [|a s IH]; intros b; [done|]. cbn [slugFrom dropLastDashes]. destruct (slugUnit a) eqn:Ha.
  - intros Hs. rewrite bool_decide_eq_false_2 by by apply slug_unit_dash. cbn [andb]. by rewrite (IH false).
  - intros [[E Hb]%andb_true_iff Hs]%andb_true_iff. rewrite (IH true), E by done. destruct s; [done|]. done.
Qed.

(** Naming a part again gives the same part. *)
Lemma slugify_slug s : isSlug s = true -> slugifyRunaPart (Some s) = s.
Proof.
  unfold isSlug. intros Hs. pose proof (slug_all _ _ Hs) as Hall. unfold slugifyRunaPart.
  destruct s as [|a s]; [done|]. assert (truthyOpt (Some (String a s)) = Some (String a s)) as -> by by apply truthyOpt_Some.
  cbv zeta. rewrite slug_trimmed, slug_lower by done.
  assert (slugUnit a = true) as Ha by (cbn [slugFrom] in Hs; destruct (slugUnit a); [done|]; by rewrite andb_false_r in Hs).
  assert (dashed false (String a s) = String a s) as ->
    by (pose proof (slug_dashed true _ Hs) as Hd; cbn [dashed] in Hd |- *; by rewrite Ha in Hd |- *).
  assert (dropDashes (String a s) = String a s) as ->
    by (cbn [dropDashes]; by rewrite bool_decide_eq_false_2 by by apply slug_unit_dash).
  by rewrite (slug_drop_last true).
Qed.
Lemma slugify_twice value : slugifyRunaPart (Some (slugifyRunaPart value)) = slugifyRunaPart value.
Proof. apply slugify_slug, slugify_is_slug. Qed.

(** ** The numbers of elements *)

(** The number of texts of four digits. *)
Definition AUTO_UIDS : Z := 1679616.

Lemma digit36_inj x y : 0 <= x < 36 -> 0 <= y < 36 -> digit36 x = digit36 y -> x = y.
Proof.
  intros Hx Hy H. unfold digit36 in H. apply (f_equal nat_of_ascii) in H.
  rewrite !nat_ascii_embedding in H by (destruct (x <? 10) eqn:E1, (y <? 10) eqn:E2; lia).
  destruct (x <? 10) eqn:E1, (y <? 10) eqn:E2; lia.
Qed.

Lemma base36_step fuel n acc :
  base36 (S fuel) n acc =
    if n <? 36 then String (digit36 (n mod 36)) acc else base36 fuel (n / 36) (String (digit36 (n mod 36)) acc).
Proof. done. Qed.

Definition fourDigits (n : Z) : string :=
  String (digit36 (n / 36 / 36 / 36)) (String (digit36 (n / 36 / 36 mod 36)) (String (digit36 (n / 36 mod 36))
    (String (digit36 (n mod 36)) ""))).

Lemma autoUid_digits n : 0 <= n < AUTO_UIDS -> autoUid n = fourDigits n.
Proof.
  unfold AUTO_UIDS. intros Hn. unfold autoUid, toString36, fourDigits.
  destruct (n <? 36) eqn:E1.
  { apply Z.ltb_lt in E1. rewrite base36_step, (proj2 (Z.ltb_lt _ _) E1).
    rewrite (Z.div_small n 36) by lia. change (0 / 36) with 0. change (0 mod 36) with 0. change (0 / 36) with 0. done. }
  apply Z.ltb_ge in E1.
  assert (exists fuel, Z.to_nat (Z.log2 n) = S (S (S fuel))) as [fuel ->].
  { assert (5 <= Z.log2 n) as Hl by (change 5 with (Z.log2 36); by apply Z.log2_le_mono).
    exists (Z.to_nat (Z.log2 n) - 3)%nat. lia. }
  rewrite base36_step, (proj2 (Z.ltb_ge _ _) E1), base36_step. destruct (n / 36 <? 36) eqn:E2.
  { apply Z.ltb_lt in E2. pose proof (Z.div_pos n 36). rewrite (Z.div_small (n / 36) 36), (Z.mod_small (n / 36) 36) by lia. done. }
  apply Z.ltb_ge in E2. rewrite base36_step. destruct (n / 36 / 36 <? 36) eqn:E3.
  { apply Z.ltb_lt in E3. pose proof (Z.div_pos (n / 36) 36). rewrite (Z.div_small (n / 36 / 36) 36), (Z.mod_small (n / 36 / 36) 36) by lia. done. }
  apply Z.ltb_ge in E3. rewrite base36_step.
  assert (n / 36 / 36 / 36 < 36) as E4 by (rewrite !Z.div_div by lia; apply Z.div_lt_upper_bound; lia).
  pose proof (Z.div_pos (n / 36 / 36) 36). rewrite (proj2 (Z.ltb_lt _ _) E4), (Z.mod_small (n / 36 / 36 / 36) 36) by lia. done.
Qed.

Lemma autoUid_inj m n : 0 <= m < AUTO_UIDS -> 0 <= n < AUTO_UIDS -> autoUid m = autoUid n -> m = n.
Proof.
  intros Hm Hn. rewrite !autoUid_digits by done. unfold fourDigits, AUTO_UIDS in *. intros [= H3 H2 H1 H0].
  apply digit36_inj in H0; [|apply Z.mod_pos_bound; lia..]. apply digit36_inj in H1; [|apply Z.mod_pos_bound; lia..].
  apply digit36_inj in H2; [|apply Z.mod_pos_bound; lia..].
  assert (forall x, 0 <= x < 1679616 -> 0 <= x / 36 / 36 / 36 < 36) as Hb.
  { intros x Hx. rewrite !Z.div_div by lia. split; [apply Z.div_pos; lia|apply Z.div_lt_upper_bound; lia]. }
  apply digit36_inj in H3; [|by apply Hb..].
  pose proof (Z.div_mod m 36). pose proof (Z.div_mod n 36). pose proof (Z.div_mod (m / 36) 36). pose proof (Z.div_mod (n / 36) 36).
  pose proof (Z.div_mod (m / 36 / 36) 36). pose proof (Z.div_mod (n / 36 / 36) 36). lia.
Qed.

(** ** Documents *)

(** A part of the document is tagged, elements without a number come, and
    elements go or move. *)
Inductive PageEvent :=
  | Tagged (scope : RunaDomScope) (metadata : RunaDomMetadataMode) (rootComponent : option string) (positions : list nat)
  | Added (elements : list Element)
  | Arranged (elements : list Element).
Definition pageStep (p : Page) (e : PageEvent) : Page :=
  match e with
  | Tagged scope metadata rootComponent positions => tagRunaSubtree scope metadata rootComponent positions p
  | Added elements => mkPage (pg_counter p) (pg_elements p ++ elements)
  | Arranged elements => mkPage (pg_counter p) elements
  end.
Definition pageEvent (p : Page) (e : PageEvent) : Prop :=
  match e with
  | Tagged _ _ _ _ => True
  | Added elements => Forall (fun x => el_autoUid x = None) elements
  | Arranged elements => elements ⊆+ pg_elements p
  end.
Inductive page_step (p : Page) : Page -> Prop :=
  | PageStep e (He : pageEvent p e) : page_step p (pageStep p e).

Definition uids (p : Page) : list string := mapFilter el_autoUid (pg_elements p).
Definition numbered (p : Page) : Prop :=
  0 <= pg_counter p /\
  (pg_counter p < AUTO_UIDS ->
     NoDup (uids p) /\ forall uid, uid ∈ uids p -> exists k, 1 <= k <= pg_counter p /\ uid = autoUid k).

Lemma omap_submseteq {A B} (f : A -> option B) l l' : l ⊆+ l' -> mapFilter f l ⊆+ mapFilter f l'.
Proof.
  intros [k ->]%submseteq_Permutation. unfold mapFilter. rewrite omap_app. by apply submseteq_inserts_r.
Qed.
Lemma replaced_none {A B} (f : A -> option B) l i x y u :
  l !! i = Some x -> f x = None -> f y = Some u -> mapFilter f (<[i := y]> l) ≡ₚ u :: mapFilter f l.
Proof.
  intros Hi Hx Hy. unfold mapFilter. rewrite insert_take_drop by by apply lookup_lt_Some in Hi.
  rewrite <- (take_drop_middle l i x Hi) at 3. rewrite !omap_app. cbn [omap list_omap]. rewrite Hx, Hy. cbn.
  by rewrite Permutation_middle.
Qed.
Lemma replaced_same {A B} (f : A -> option B) l i x y :
  l !! i = Some x -> f x = f y -> mapFilter f (<[i := y]> l) = mapFilter f l.
Proof.
  intros Hi Hx. unfold mapFilter. rewrite insert_take_drop by by apply lookup_lt_Some in Hi.
  rewrite <- (take_drop_middle l i x Hi) at 3. rewrite !omap_app. cbn [omap list_omap]. by rewrite Hx.
Qed.

(** What the tagging of an element gives it. *)
Lemma apply_identity scope metadata explicit counter element :
  let '(counter', element') := applyRunaElementIdentity scope metadata explicit counter element in
  (exists uid, el_autoUid element' = Some uid /\
     ((el_autoUid element = Some uid /\ counter' = counter) \/
      (el_autoUid element = None /\ counter' = counter + 1 /\ uid = autoUid (counter + 1)))) /\
  el_id element' <> "" /\ (el_id element <> "" -> el_id element' = el_id element) /\
  exists component, isSlug component = true /\ el_node element' = Some (buildRunaNodeKey (scopeQuery component scope)).
Proof.
  unfold applyRunaElementIdentity. cbv zeta.
  set (component := slugifyRunaPart _). set (node := buildRunaNodeKey _).
  assert (forall uid, (if truthy (el_id element) then el_id element else node +:+ "-" +:+ uid) <> "" /\
    (el_id element <> "" -> (if truthy (el_id element) then el_id element else node +:+ "-" +:+ uid) = el_id element)) as Hid.
  { intros uid. destruct (truthy (el_id element)) eqn:E; unfold truthy in E.
    - split; [|done]. intros H. by rewrite H in E.
    - split; [by destruct node|]. intros H. by rewrite bool_decide_eq_false_2 in E. }
  destruct (el_autoUid element) as [uid|]; cbn [el_autoUid el_id el_node].
  - split; [exists uid; split; [done|by left]|]. split; [apply Hid|]. split; [apply Hid|]. exists component. split; [apply slugify_is_slug|done].
  - split; [eexists; split; [done|by right]|]. split; [apply Hid|]. split; [apply Hid|]. exists component. split; [apply slugify_is_slug|done].
Qed.

Lemma tag_numbered scope metadata explicit p position :
  numbered p -> numbered (tagAt scope metadata explicit p position) /\ pg_counter p <= pg_counter (tagAt scope metadata explicit p position).
Proof.
  intros [H0 H1]. unfold tagAt. destruct (pg_elements p !! position) as [element|] eqn:Hi; [|split; [by split|lia]].
  pose proof (apply_identity scope metadata explicit (pg_counter p) element) as Ha.
  destruct (applyRunaElementIdentity _ _ _ _ _) as [counter' element']. destruct Ha as ((uid & Hu & Hcase) & _).
  unfold numbered, uids. cbn [pg_counter pg_elements]. destruct Hcase as [[He ->]|(He & -> & ->)].
  - rewrite (replaced_same _ _ _ _ _ Hi) by by rewrite He, Hu. split; [|lia]. by split.
  - split; [|lia]. split; [lia|]. intros Hc. destruct H1 as [Hnd Huid]; [lia|].
    rewrite (replaced_none _ _ _ _ _ _ Hi He Hu). split.
    + apply NoDup_cons. split; [|done]. intros (k & Hk & Heq)%Huid. apply autoUid_inj in Heq; unfold AUTO_UIDS in *; lia.
    + intros uid. rewrite (replaced_none _ _ _ _ _ _ Hi He Hu). intros [->|Hin]%elem_of_cons; [exists (pg_counter p + 1); split; [lia|done]|].
      destruct (Huid _ Hin) as (k & Hk & ->). exists k. split; [lia|done].
Qed.
Lemma tags_numbered scope metadata positions p :
  numbered p -> numbered (foldl (tagAt scope metadata None) p positions) /\ pg_counter p <= pg_counter (foldl (tagAt scope metadata None) p positions).
Proof.
  revert p. induction positions as [|i l IH]; intros p Hp; cbn [foldl]; [split; [done|lia]|].
  destruct (tag_numbered scope metadata None p i Hp) as [H1 H2]. destruct (IH _ H1) as [H3 H4]. split; [done|lia].
Qed.
Lemma subtree_numbered scope metadata rootComponent positions p :
  numbered p -> numbered (tagRunaSubtree scope metadata rootComponent positions p).
Proof.
  intros Hp. destruct positions as [|root below]; [done|]. apply tags_numbered. by apply tag_numbered.
Qed.

Lemma step_numbered p p' : page_step p p' -> numbered p -> numbered p'.
Proof.
  intros [e He] Hp. destruct e as [scope metadata rootComponent positions|elements|elements]; cbn [pageStep pageEvent] in *.
  - by apply subtree_numbered.
  - destruct Hp as [H0 H1]. split; [done|]. cbn [pg_counter]. intros Hc. destruct (H1 Hc) as [Hnd Huid]. unfold uids in *. cbn [pg_elements].
    assert (mapFilter el_autoUid (pg_elements p ++ elements) = mapFilter el_autoUid (pg_elements p)) as ->; [|done].
    unfold mapFilter. rewrite omap_app. clear -He. induction He as [|x l Hx _ IH]; [by rewrite app_nil_r|].
    cbn [omap list_omap]. by rewrite Hx.
  - destruct Hp as [H0 H1]. split; [done|]. cbn [pg_counter]. intros Hc. destruct (H1 Hc) as [Hnd Huid]. unfold uids in *. cbn [pg_elements].
    pose proof (omap_submseteq el_autoUid _ _ He) as Hsub. split.
    + apply submseteq_Permutation in Hsub as [k Hk]. rewrite Hk in Hnd. by apply NoDup_app in Hnd as [? _].
    + intros uid Hin. apply Huid. by eapply elem_of_submseteq.
Qed.

(** A tagged element keeps its tags while others are tagged, or gets new ones. *)
Definition tagged (scope : RunaDomScope) (e : Element) : Prop :=
  is_Some (el_autoUid e) /\ el_id e <> "" /\
  exists component, isSlug component = true /\ el_node e = Some (buildRunaNodeKey (scopeQuery component scope)).

Lemma tag_tags scope metadata explicit p i j e :
  pg_elements (tagAt scope metadata explicit p i) !! j = Some e ->
  (j = i \/ forall e', pg_elements p !! j = Some e' -> tagged scope e') -> tagged scope e.
Proof.
  unfold tagAt. destruct (pg_elements p !! i) as [element|] eqn:Hi.
  - pose proof (apply_identity scope metadata explicit (pg_counter p) element) as Ha.
    destruct (applyRunaElementIdentity _ _ _ _ _) as [counter' element']. destruct Ha as ((uid & Hu & _) & Hid & _ & Hn).
    cbn [pg_elements]. destruct (decide (j = i)) as [->|Hne].
    + rewrite list_lookup_insert_eq by by apply lookup_lt_Some in Hi. intros [= <-] _. split; [by eexists|]. by split.
    + rewrite list_lookup_insert_ne by done. intros Hj [|H]; [done|by apply H].
  - intros Hj [->|H]; [congruence|by apply H].
Qed.
Lemma tags_tag scope metadata positions p j e :
  pg_elements (foldl (tagAt scope metadata None) p positions) !! j = Some e ->
  (j ∈ positions \/ forall e', pg_elements p !! j = Some e' -> tagged scope e') -> tagged scope e.
Proof.
  revert p. induction positions as [|i l IH]; intros p; cbn [foldl].
  - intros Hj [[]%not_elem_of_nil|H]. by apply H.
  - intros Hj H. apply (IH _ Hj). destruct H as [[->|Hin]%elem_of_cons|H].
    + right. intros e' He'. eapply tag_tags; [exact He'|by left].
    + by left.
    + right. intros e' He'. eapply tag_tags; [exact He'|by right].
Qed.

(** C34: In a document that is built by adding elements, moving and removing them and
    tagging parts of it, however long: after the tagging of a part every
    element of it has a number, an id and the key of the scope with a part of its own,
    and all numbers of the document differ, unless more than [AUTO_UIDS] - 1
    elements were numbered. *)
Theorem tagged_elements_differ p scope metadata rootComponent positions :
  rtc page_step (mkPage 0 []) p ->
  let p' := tagRunaSubtree scope metadata rootComponent positions p in
  (forall j e, j ∈ positions -> pg_elements p' !! j = Some e -> tagged scope e) /\
  (pg_counter p' < AUTO_UIDS -> NoDup (uids p')).
Proof.
  intros Hr p'. assert (numbered p) as Hp.
  { refine (rtc_ind_r numbered _ _ _ _ Hr); [|intros p1 p2 _ Hs; by apply step_numbered].
    split; [done|]. intros _. split; [constructor|]. by intros uid ?%not_elem_of_nil. }
  split.
  - intros j e Hin Hj. unfold p', tagRunaSubtree in Hj. destruct positions as [|root below]; [by apply not_elem_of_nil in Hin|].
    eapply tags_tag; [exact Hj|]. apply elem_of_cons in Hin as [->|Hin]; [|by left].
    right. intros e' He'. eapply tag_tags; [exact He'|by left].
  - intros Hc. by apply (subtree_numbered scope metadata rootComponent positions p Hp).
Qed.

(** ** Examples *)

Definition plainElement (tagName : string) : Element := mkElement tagName "" None None None None None [] None None None [].
Definition workspaceScope : RunaDomScope := mkScope "app" "shell" "workspace".

Lemma tagged_elements_differ_witness :
  let p := tagRunaSubtree workspaceScope MetadataMinimal (Some "app-root") [0; 1; 2]%nat (mkPage 0 [plainElement "DIV"; plainElement "SPAN"; plainElement "P"]) in
  uids p = ["0001"; "0002"; "0003"] /\ NoDup (uids p).
Proof.
  intros p. split; [by vm_compute|].
  apply (tagged_elements_differ (mkPage 0 [plainElement "DIV"; plainElement "SPAN"; plainElement "P"])); [|by vm_compute].
  apply rtc_once. apply (PageStep (mkPage 0 []) (Added _)). repeat constructor.
Defined.

(* The numbers start again after [AUTO_UIDS] elements. *)
Example numbers_wrap : autoUid (AUTO_UIDS + 1) = autoUid 1.
Proof. by vm_compute. Qed.

(* A box of a panel below the tagged root of the application: its key, which is
   made of its name in the scope of the panel, is replaced by one that is made of
   its label in the scope of the application, and it is no longer found by its name. *)
Example tagging_replaces_the_key :
  let scope := cx_scope (RunaDomScopeProvider (mkProvider (Some "panel") None None (Some "tool")) defaultContextValue) in
  let identity := useRunaDomIdentity "primary-box" None ":r1:" scope in
  let box := mkElement "DIV" (ri_id identity) None (Some (ri_node identity)) None None None [] (Some "Close window") None None [] in
  let p := mkPage 0 [box] in
  let query := mkQuery (Some "primary-box") None (Some "tool") in
  findRunaNodes query p = [box] /\
  findRunaNodes query (tagRunaSubtree workspaceScope MetadataMinimal None [0%nat] p) = [] /\
  (el_node <$> pg_elements (tagRunaSubtree workspaceScope MetadataMinimal None [0%nat] p)) = [Some "shell-workspace-close-window"].
Proof. by vm_compute. Qed.

Example slugs :
  (slugifyRunaPart ∘ Some <$> ["  AI Chat (Main)  "; "--"; "Терминал"; "modalAnchor"; "a__b"]) =
  ["ai-chat-main"; "node"; "node"; "modalanchor"; "a-b"].
Proof. by vm_compute. Qed.
