(* ===== verification/PanelHost.v ===== *)
(** * Panels and what they show

    [frontend/src/widgets/panel/dockview-panel-widget.tsx], what a panel of the
    dock shows and registers; its modals, [modal-host-widget.tsx],
    [panel-modal-actions-widget.tsx] and [shared/ui/components/dialog-popup.tsx];
    and the tabs of panels, [terminal-dockview-tab-widget.tsx],
    [commander-dockview-tab-widget.tsx] and
    [terminal-dockview-header-actions-widget.tsx]. *)
From Stdlib Require Import Ascii String.
From stdpp Require Import gmap strings.
From S2P Require Import Prelude JsString Text Number Effects Http TerminalApi SharedModel FilesPanel Dockview Panels.
Local Open Scope string_scope.
Local Open Scope list_scope.
Local Open Scope nat_scope.
Local Open Scope js_scope.

(** ** The content of a panel *)

Definition isCommanderDemoPanel (panelId : string) : bool := bool_decide (panelId = "tool") || startsWith "tool-" panelId.

Definition terminalModel (p : DockPanel) : option TerminalPanelParams :=
  if startsWith "terminal" (dp_id p) then Some (resolveTerminalPanelParams (dp_id p) (dp_params p)) else None.

Inductive PanelContent :=
  | TerminalContent (hostId runtimeWidgetId title : string) (preferDockviewHeaderChrome : bool)
  | FilesContent (params : PathPanelParams)
  | PreviewContent (params : PathPanelParams)
  | CommanderContent
  | PlainContent (label : string).

(** [panelCount]: the panels of the group, as they were when last synchronised. *)
Definition panelContent (panelCount : nat) (p : DockPanel) : PanelContent :=
  match terminalModel p with
  | Some model => TerminalContent (dp_id p) (tr_widgetId model) (tr_title model) (panelCount =? 1)
  | None =>
      match resolveFilesPanelParams (dp_params p) with
      | Some params => FilesContent params
      | None =>
          match resolvePreviewPanelParams (dp_params p) with
          | Some params => PreviewContent params
          | None => if isCommanderDemoPanel (dp_id p) then CommanderContent else PlainContent ("PANEL: " +:+ dp_id p)
          end
      end
  end.

(** The host of modals and the overlay of a busy widget are rendered. *)
Definition hasHosts (p : DockPanel) : bool := negb (isCommanderDemoPanel (dp_id p)).

(** The attribute of the group's element for its style. *)
Definition widgetFocusState (activeWidgetHostId : option string) (p : DockPanel) : option string :=
  match activeWidgetHostId with
  | None => None
  | Some active => Some (if decide (active = dp_id p) then "active" else "inactive")
  end.

(** The panels that a files panel opens: the panel, its title, and the panel in whose group it is put. *)
Definition openedPanel (filesPanelId : string) (output : FilesOutput) : option (DockPanel * string * string) :=
  match output with
  | OnOpenPreview connectionId path title widgetId =>
      Some (mkPanel widgetId (Some (pathParamsJson "preview" (createPreviewPanelParams connectionId path (Some title) widgetId))),
        title, filesPanelId)
  | OnOpenTerminal tabId title widgetId =>
      Some (mkPanel widgetId (Some (terminalParamsJson (createTerminalPanelParams PresetWorkspace (Some widgetId) (Some tabId)))),
        title, filesPanelId)
  | _ => None
  end.

(** ** Modals over a panel *)

Definition hostModals (hostId : string) (s : Modals) : list ModalDescriptor :=
  filterb (fun modal => bool_decide (mo_hostId (md_payload modal) = hostId)) (ml_modals s).

Inductive SettingsContent := SettingsShellWidget | AgentProvidersModalContent.
Definition renderModalSettingsContent (modal : ModalDescriptor) : SettingsContent :=
  match mo_contentKey (md_payload modal) with
  | Some ContentAgentProviders => AgentProvidersModalContent
  | Some ContentSettingsShell | None => SettingsShellWidget
  end.

(** A dialog: its title and description where they are shown, its content, and
    the names of its buttons. [confirms]: there is an [onConfirm]. *)
Record Dialog := mkDialog {
  dg_title : option string;
  dg_description : option string;
  dg_content : option SettingsContent;
  dg_close : string;
  dg_actions : list string
}.
Definition DialogPopup (title description : string) (variant : ModalVariant) (content : option SettingsContent)
    (confirmLabel dismissLabel : string) (confirms : bool) : Dialog :=
  let isSettingsVariant := match variant with ModalSettings => true | ModalDefault => false end in
  let shouldRenderActions := confirms || negb isSettingsVariant in
  mkDialog (if isSettingsVariant then None else Some title) (if isSettingsVariant then None else Some description) content
    ("Close " +:+ title)
    (if shouldRenderActions
     then (if confirms then [confirmLabel] else []) ++ (if isSettingsVariant then [] else [dismissLabel]) else []).

(** A modal as its host shows it. *)
Definition modalDialog (modal : ModalDescriptor) : Dialog :=
  let p := md_payload modal in
  let variant := mo_variant p ?? ModalDefault in
  let isSettings := match variant with ModalSettings => true | ModalDefault => false end in
  DialogPopup (mo_title p) (mo_description p) variant (if isSettings then Some (renderModalSettingsContent modal) else None)
    "Acknowledge" (if isSettings then "Close" else "Dismiss") false.

Inductive ModalControl := Backdrop | DismissModal (id : string).
Definition ModalHostWidget (hostId : string) (s : Modals) (c : ModalControl) : option ModalEvent :=
  match c with
  | Backdrop => match hostModals hostId s with [] => None | _ :: _ => Some (CloseHostModals hostId) end
  | DismissModal id =>
      if existsb (fun modal => bool_decide (md_id modal = id)) (hostModals hostId s) then Some (CloseModal id) else None
  end.

(** The buttons of a panel with nothing to show: their names, and the modal. *)
Definition busyButton (blockedWidgetHostIds : list string) (hostId : string) : string * string :=
  if includes hostId blockedWidgetHostIds then ("Release busy state for " +:+ hostId, "Release busy state")
  else ("Block busy state for " +:+ hostId, "Block widget").
Definition widgetModal (hostId : string) : OpenModalPayload :=
  mkModalPayload hostId (hostId +:+ " modal")
    ("This modal is mounted over widget " +:+ hostId +:+ " instead of the global body layer.") None None.

(** ** The panels that are mounted *)

(** The panels, the registry of terminals, the modals and the focused widget. *)
Record PanelHosts := mkHosts {
  ho_panels : list DockPanel;
  ho_bindings : TerminalPanelBindings;
  ho_modals : Modals;
  ho_active : option string
}.
Definition noHosts : PanelHosts := mkHosts [] [] initialModals None.

Definition bindingOf (p : DockPanel) : option TerminalPanelBinding :=
  (fun model => mkBinding (dp_id p) (tr_preset model) (tr_runtimeTabId model) (tr_widgetId model)) <$> terminalModel p.

(** The effect of a panel registers its terminal, and its cleanup removes it. *)
Definition registerEffect (p : DockPanel) (bindings : TerminalPanelBindings) : TerminalPanelBindings :=
  match bindingOf p with Some binding => onBindingEvent bindings (RegisterTerminalPanelBinding binding) | None => bindings end.
Definition unregisterEffect (p : DockPanel) (bindings : TerminalPanelBindings) : TerminalPanelBindings :=
  match bindingOf p with Some _ => onBindingEvent bindings (UnregisterTerminalPanelBinding (dp_id p)) | None => bindings end.

(** The dependency of the effect is the same at the next rendering: the panel has
    no model, or the model is the object of its parameters, which it keeps. *)
Definition sameModel (p : DockPanel) (changed : option (option Json)) : bool :=
  match terminalModel p, changed with
  | None, _ => true
  | Some _, None => bool_decide (is_Some (isTerminalPanelParams (dp_params p)))
  | Some _, Some _ => false
  end.

Definition panelAt (hostId : string) (panels : list DockPanel) : option DockPanel :=
  find (fun p => bool_decide (dp_id p = hostId)) panels.

Inductive HostEvent :=
  | MountPanel (p : DockPanel)
  | RenderPanel (hostId : string) (changed : option (option Json))   (* with new parameters *)
  | UnmountPanel (hostId : string)
  | PressPanel (hostId : string)
  | OpenModalButton (hostId : string)
  | ModalClick (hostId : string) (control : ModalControl)
  | OpenBody (title description : string) (variant : option ModalVariant) (contentKey : option ModalContentKey).

Definition closeModals (event : option ModalEvent) (s : Modals) : Modals :=
  match event with Some e => onModalEvent s e | None => s end.

Definition hostStep (s : PanelHosts) (e : HostEvent) : PanelHosts :=
  match e with
  | MountPanel p =>
      mkHosts (ho_panels s ++ [p]) (registerEffect p (ho_bindings s)) (ho_modals s) (ho_active s)
  | RenderPanel hostId changed =>
      match panelAt hostId (ho_panels s) with
      | Some p =>
          let p' := mkPanel hostId (changed ?? dp_params p) in
          mkHosts ((fun q => if decide (dp_id q = hostId) then p' else q) <$> ho_panels s)
            (if sameModel p changed then ho_bindings s else registerEffect p' (unregisterEffect p (ho_bindings s)))
            (ho_modals s) (ho_active s)
      | None => s
      end
  | UnmountPanel hostId =>
      match panelAt hostId (ho_panels s) with
      | Some p =>
          mkHosts (filterb (fun q => negb (bool_decide (dp_id q = hostId))) (ho_panels s))
            (unregisterEffect p (ho_bindings s))
            (if hasHosts p then onModalEvent (ho_modals s) (CloseHostModals hostId) else ho_modals s) (ho_active s)
      | None => s
      end
  | PressPanel hostId =>
      match panelAt hostId (ho_panels s) with
      | Some p => mkHosts (ho_panels s) (ho_bindings s) (ho_modals s) (onFocusEvent (ho_active s) (SetActiveWidgetHostId hostId))
      | None => s
      end
  | OpenModalButton hostId =>
      match panelContent 1 <$> panelAt hostId (ho_panels s) with
      | Some (PlainContent _) =>
          mkHosts (ho_panels s) (ho_bindings s) (onModalEvent (ho_modals s) (OpenWidgetModal (widgetModal hostId))) (ho_active s)
      | _ => s
      end
  | ModalClick hostId control =>
      if bool_decide (hostId = BODY_MODAL_HOST_ID) || default false (hasHosts <$> panelAt hostId (ho_panels s)) then
        mkHosts (ho_panels s) (ho_bindings s) (closeModals (ModalHostWidget hostId (ho_modals s) control) (ho_modals s)) (ho_active s)
      else s
  | OpenBody title description variant contentKey =>
      mkHosts (ho_panels s) (ho_bindings s) (onModalEvent (ho_modals s) (OpenBodyModal title description variant contentKey)) (ho_active s)
  end.

(** The dock mounts each panel once. *)
Definition hostMay (s : PanelHosts) (e : HostEvent) : Prop :=
  match e with MountPanel p => dp_id p ∉ dp_id <$> ho_panels s | _ => True end.
Definition host_step (s s' : PanelHosts) : Prop := exists e, hostMay s e /\ s' = hostStep s e.

(** ** Tabs *)

(** A group of the dock, as a tab reads it. *)
Record DockGroup := mkGroup { gr_activePanel : option string; gr_panels : list string }.

(** [tb_group]: the group whose changes the tab subscribed to when it was mounted. *)
Record TabState := mkTab { tb_isActiveTab : bool; tb_panelCount : nat; tb_group : string }.

(** [here]: the group of the panel now. *)
Definition syncActiveTab (panelId : string) (here : DockGroup) (s : TabState) : TabState :=
  mkTab (bool_decide (gr_activePanel here = Some panelId)) (length (gr_panels here)) (tb_group s).
Definition mountTab (panelId groupId : string) (here : DockGroup) : TabState :=
  syncActiveTab panelId here (mkTab (bool_decide (gr_activePanel here = Some panelId)) (length (gr_panels here)) groupId).

Inductive TabEvent :=
  | ActivePanelChanged (groupId : string)      (* in that group *)
  | GroupChanged                               (* the panel was moved *)
  | OtherChange.
Definition tabStep (panelId : string) (here : DockGroup) (s : TabState) (e : TabEvent) : TabState :=
  match e with
  | ActivePanelChanged groupId => if decide (groupId = tb_group s) then syncActiveTab panelId here s else s
  | GroupChanged => syncActiveTab panelId here s
  | OtherChange => s
  end.

Definition isSingleTab (s : TabState) : bool := tb_panelCount s =? 1.
(** The close button is rendered. *)
Definition closeButton (s : TabState) : bool := 1 <? tb_panelCount s.

(** The header that the tab of a terminal renders: the full one with the controls of the widget, or the compact one. *)
Inductive TabHeader := FullHeader (primaryText : string) | CompactHeader (primaryText : string) (closes showMeta : bool).
Definition terminalTabHeader (hasControls : bool) (displayId compactText : string) (s : TabState) : TabHeader :=
  if isSingleTab s && hasControls then FullHeader displayId
  else CompactHeader compactText (closeButton s) (tb_isActiveTab s).

(** * Lemmas *)

(** ** The registry *)

Definition registered (bindings : TerminalPanelBindings) (panels : list DockPanel) : Prop :=
  NoDup bindings.*1 /\ forall hostId, bindingAt bindings hostId = panelAt hostId panels ≫= bindingOf.

Lemma bindingAt_none bindings hostId : bindingAt bindings hostId = None <-> hostId ∉ bindings.*1.
Proof.
  unfold bindingAt. rewrite fmap_None, find_None. split.
  - intros H (b & -> & Hb)%list_elem_of_fmap. specialize (H b Hb). by apply bool_decide_eq_false in H.
  - intros H b Hb. apply bool_decide_eq_false. intros <-. apply H. by apply list_elem_of_fmap_2.
Qed.

Lemma bindingAt_app l l' hostId :
  bindingAt (l ++ l') hostId = match bindingAt l hostId with Some b => Some b | None => bindingAt l' hostId end.
Proof.
  unfold bindingAt. induction l as [|[k b] l IH]; [done|]. cbn [app find fst].
  destruct (bool_decide (k = hostId)); [done|exact IH].
Qed.

Lemma register_at bindings binding hostId :
  bindingAt (onBindingEvent bindings (RegisterTerminalPanelBinding binding)) hostId =
    if decide (tb_hostId binding = hostId) then Some binding else bindingAt bindings hostId.
Proof.
  cbn [onBindingEvent]. destruct (bindingAt bindings (tb_hostId binding)) as [b0|] eqn:E.
  - induction bindings as [|[k b] bindings IH]; [done|]. unfold bindingAt in *. cbn [find fst fmap list_fmap] in *.
    destruct (bool_decide (k = tb_hostId binding)) eqn:Ek; bool_prop.
    + subst k. rewrite decide_True by done. cbn [fst]. case_decide as Eh.
      * by rewrite bool_decide_eq_true_2.
      * rewrite bool_decide_eq_false_2 by done. clear IH E. induction bindings as [|[k' b'] bindings IH]; [done|].
        cbn [find fst fmap list_fmap]. destruct (decide (k' = tb_hostId binding)) as [->|]; cbn [fst].
        -- rewrite bool_decide_eq_false_2 by done. exact IH.
        -- destruct (bool_decide (k' = hostId)); [done|exact IH].
    + rewrite decide_False by done. cbn [fst]. destruct (bool_decide (k = hostId)) eqn:Eh; bool_prop.
      * subst k. by rewrite decide_False by done.
      * apply IH. exact E.
  - rewrite bindingAt_app. unfold bindingAt at 2. cbn [find fst]. case_decide as Eh.
    + subst hostId. rewrite E. by rewrite bool_decide_eq_true_2.
    + rewrite bool_decide_eq_false_2 by done. by destruct (bindingAt bindings hostId).
Qed.

Lemma register_keys bindings binding :
  NoDup bindings.*1 -> NoDup (onBindingEvent bindings (RegisterTerminalPanelBinding binding)).*1.
Proof.
  intros Hd. cbn [onBindingEvent]. destruct (bindingAt bindings (tb_hostId binding)) as [b0|] eqn:E.
  - enough (((fun b => if decide (b.1 = tb_hostId binding) then (tb_hostId binding, binding) else b) <$> bindings).*1 = bindings.*1)
      as -> by done.
    rewrite <- list_fmap_compose. apply list_fmap_ext. intros _ b _. cbn. by destruct (decide (b.1 = tb_hostId binding)) as [->|].
  - rewrite fmap_app. apply NoDup_app. split; [done|]. apply bindingAt_none in E.
    split; [|apply NoDup_singleton]. by intros k Hk ->%list_elem_of_singleton.
Qed.

Lemma unregister_at bindings hostId hostId' :
  bindingAt (onBindingEvent bindings (UnregisterTerminalPanelBinding hostId)) hostId' =
    if decide (hostId = hostId') then None else bindingAt bindings hostId'.
Proof.
  cbn [onBindingEvent]. unfold bindingAt, filterb. induction bindings as [|[k b] bindings IH]; [by case_decide|].
  cbn [List.filter find fst]. destruct (bool_decide (k = hostId)) eqn:Ek; bool_prop; cbn [negb].
  - subst k. rewrite IH. case_decide; [done|]. by rewrite bool_decide_eq_false_2.
  - cbn [find fst]. destruct (bool_decide (k = hostId')) eqn:Eh; [|exact IH]. bool_prop. subst k. by rewrite decide_False.
Qed.

Lemma unregister_keys bindings hostId :
  NoDup bindings.*1 -> NoDup (onBindingEvent bindings (UnregisterTerminalPanelBinding hostId)).*1.
Proof. intros Hd. eapply sublist_NoDup; [exact Hd|]. apply fmap_sublist, filterb_sublist. Qed.

(** A panel's binding is under its id. *)
Lemma binding_host p b : bindingOf p = Some b -> tb_hostId b = dp_id p.
Proof. unfold bindingOf. by intros (model & _ & ->)%fmap_Some. Qed.

Lemma registerEffect_at p bindings hostId :
  bindingAt (registerEffect p bindings) hostId =
    if decide (dp_id p = hostId) then match bindingOf p with Some b => Some b | None => bindingAt bindings hostId end
    else bindingAt bindings hostId.
Proof.
  unfold registerEffect. destruct (bindingOf p) as [b|] eqn:E; [|by case_decide].
  rewrite register_at. by rewrite (binding_host _ _ E).
Qed.
Lemma unregisterEffect_at p bindings hostId :
  bindingAt (unregisterEffect p bindings) hostId =
    if decide (dp_id p = hostId) then match bindingOf p with Some _ => None | None => bindingAt bindings hostId end
    else bindingAt bindings hostId.
Proof. unfold unregisterEffect. destruct (bindingOf p) as [b|] eqn:E; [|by case_decide]. apply unregister_at. Qed.

Lemma effects_keys p bindings :
  NoDup bindings.*1 -> NoDup (registerEffect p bindings).*1 /\ NoDup (unregisterEffect p bindings).*1.
Proof.
  intros Hd. unfold registerEffect, unregisterEffect. destruct (bindingOf p); [|done].
  split; [by apply register_keys|by apply unregister_keys].
Qed.

(** ** The mounted panels *)

Definition hosted (s : PanelHosts) (hostId : string) : Prop :=
  hostId = BODY_MODAL_HOST_ID \/ exists p, p ∈ ho_panels s /\ dp_id p = hostId /\ hasHosts p = true.

Record hosts_ok (s : PanelHosts) : Prop := {
  hk_distinct : NoDup (dp_id <$> ho_panels s);
  hk_keys : NoDup (ho_bindings s).*1;
  hk_bindings : forall hostId, bindingAt (ho_bindings s) hostId = panelAt hostId (ho_panels s) ≫= bindingOf;
  hk_modals : exists es, ho_modals s = foldl onModalEvent initialModals es;
  hk_hosted : Forall (fun modal => hosted s (mo_hostId (md_payload modal))) (ml_modals (ho_modals s))
}.

Lemma panelAt_some hostId panels p : panelAt hostId panels = Some p -> p ∈ panels /\ dp_id p = hostId.
Proof. intros [Hp He]%find_Some. by bool_prop. Qed.
Lemma panelAt_app hostId panels p :
  panelAt hostId (panels ++ [p]) =
    match panelAt hostId panels with Some q => Some q | None => if decide (dp_id p = hostId) then Some p else None end.
Proof.
  unfold panelAt. induction panels as [|q panels IH]; cbn [app find].
  - case_decide; [by rewrite bool_decide_eq_true_2|by rewrite bool_decide_eq_false_2].
  - by destruct (bool_decide (dp_id q = hostId)).
Qed.
Lemma panelAt_fresh hostId panels : hostId ∉ dp_id <$> panels -> panelAt hostId panels = None.
Proof.
  intros H. apply find_None. intros p Hp. apply bool_decide_eq_false. intros <-. apply H. by apply list_elem_of_fmap_2.
Qed.
Lemma panelAt_change hostId panels p p' k :
  panelAt hostId panels = Some p -> dp_id p' = hostId ->
  panelAt k ((fun q => if decide (dp_id q = hostId) then p' else q) <$> panels) =
    if decide (hostId = k) then Some p' else panelAt k panels.
Proof.
  intros Hp Hid. unfold panelAt in *. induction panels as [|q panels IH]; [done|]. cbn [find fmap list_fmap] in *.
  destruct (bool_decide (dp_id q = hostId)) eqn:E; bool_prop.
  - rewrite decide_True by done. rewrite Hid, E. case_decide; [by rewrite bool_decide_eq_true_2|].
    rewrite bool_decide_eq_false_2 by done. clear Hp IH E. induction panels as [|r panels IH]; [done|].
    cbn [find fmap list_fmap]. destruct (decide (dp_id r = hostId)) as [Er|Er].
    + rewrite Hid, Er, bool_decide_eq_false_2 by done. exact IH.
    + destruct (bool_decide (dp_id r = k)); [done|exact IH].
  - rewrite decide_False by done. destruct (bool_decide (dp_id q = k)) eqn:Ek; [|by apply IH].
    bool_prop. subst k. by rewrite decide_False.
Qed.
Lemma panelAt_removed hostId panels k :
  panelAt k (filterb (fun q => negb (bool_decide (dp_id q = hostId))) panels) =
    if decide (hostId = k) then None else panelAt k panels.
Proof.
  unfold panelAt, filterb. induction panels as [|q panels IH]; [by case_decide|]. cbn [List.filter find].
  destruct (bool_decide (dp_id q = hostId)) eqn:E; bool_prop; cbn [negb].
  - rewrite IH. case_decide; [done|]. by rewrite bool_decide_eq_false_2 by congruence.
  - cbn [find]. destruct (bool_decide (dp_id q = k)) eqn:Ek; [|exact IH]. bool_prop. subst k. by rewrite decide_False.
Qed.

Lemma same_binding p changed :
  sameModel p changed = true -> bindingOf (mkPanel (dp_id p) (changed ?? dp_params p)) = bindingOf p.
Proof.
  unfold sameModel, bindingOf, terminalModel. cbn [dp_id dp_params]. destruct (startsWith "terminal" (dp_id p)); [|done].
  destruct changed; [done|]. by destruct p.
Qed.
Lemma binding_by_id p p' : dp_id p = dp_id p' -> is_Some (bindingOf p) <-> is_Some (bindingOf p').
Proof.
  intros E. unfold bindingOf, terminalModel. rewrite E, !fmap_is_Some. by destruct (startsWith "terminal" (dp_id p')).
Qed.

Lemma hosted_by s s' hostId :
  (forall p, p ∈ ho_panels s -> hasHosts p = true -> dp_id p = hostId -> exists p', p' ∈ ho_panels s' /\ dp_id p' = dp_id p) ->
  hosted s hostId -> hosted s' hostId.
Proof.
  intros H [->|(p & Hp & He & Hh)]; [by left|right]. destruct (H p Hp Hh He) as (p' & Hp' & E).
  exists p'. split_and!; [done|congruence|]. unfold hasHosts in *. by rewrite E.
Qed.

Lemma plain_has_hosts p count label : panelContent count p = PlainContent label -> hasHosts p = true.
Proof.
  unfold panelContent, hasHosts. destruct (terminalModel p); [done|]. destruct (resolveFilesPanelParams _); [done|].
  destruct (resolvePreviewPanelParams _); [done|]. by destruct (isCommanderDemoPanel (dp_id p)).
Qed.

(** What an event of a modal's host leaves: some of the modals. *)
Lemma click_modals hostId s control modal :
  modal ∈ ml_modals (closeModals (ModalHostWidget hostId s control) s) -> modal ∈ ml_modals s.
Proof.
  destruct control as [|id]; cbn [ModalHostWidget].
  - destruct (hostModals hostId s); cbn [closeModals onModalEvent ml_modals]; [done|]. by intros [? _]%elem_of_filterb.
  - destruct (existsb _ _); cbn [closeModals onModalEvent ml_modals]; [|done]. by intros [? _]%elem_of_filterb.
Qed.
Lemma click_reaches hostId s control es :
  s = foldl onModalEvent initialModals es ->
  exists es', closeModals (ModalHostWidget hostId s control) s = foldl onModalEvent initialModals es'.
Proof.
  intros Hs. destruct (ModalHostWidget hostId s control) as [e|]; cbn [closeModals]; [|by exists es].
  exists (es ++ [e]). by rewrite foldl_app, <- Hs.
Qed.

Lemma mount_hosts s p : hosts_ok s -> dp_id p ∉ dp_id <$> ho_panels s -> hosts_ok (hostStep s (MountPanel p)).
Proof.
  intros [H1 H2 H3 H4 H5] Hf. split; cbn [hostStep ho_panels ho_bindings ho_modals].
  - rewrite fmap_app. apply NoDup_app. split; [done|]. split; [|apply NoDup_singleton].
    by intros k Hk ->%list_elem_of_singleton.
  - by apply effects_keys.
  - intros k. rewrite registerEffect_at, panelAt_app. case_decide as E.
    + subst k. rewrite H3, panelAt_fresh by done. cbn [mbind option_bind]. by destruct (bindingOf p).
    + rewrite H3. by destruct (panelAt k (ho_panels s)).
  - done.
  - eapply Forall_impl; [exact H5|]. intros modal. apply hosted_by. intros q Hq _ _. exists q. split; [|done].
    cbn. apply elem_of_app. by left.
Qed.

Lemma render_hosts s hostId changed : hosts_ok s -> hosts_ok (hostStep s (RenderPanel hostId changed)).
Proof.
  intros Hs. pose proof Hs as [H1 H2 H3 H4 H5]. cbn [hostStep]. destruct (panelAt hostId (ho_panels s)) as [p|] eqn:E; [|done].
  pose proof (panelAt_some _ _ _ E) as [Hp Hid]. split; cbn [ho_panels ho_bindings ho_modals].
  - rewrite <- list_fmap_compose. erewrite list_fmap_ext; [exact H1|]. intros _ q _. cbn. by case_decide.
  - destruct (sameModel p changed); [done|]. by apply effects_keys, effects_keys.
  - intros k. rewrite (panelAt_change hostId _ p) by done. destruct (sameModel p changed) eqn:Es.
    + rewrite H3. case_decide as Ek; [|done]. subst k. rewrite E. cbn [mbind option_bind].
      apply same_binding in Es. by rewrite Hid in Es.
    + rewrite registerEffect_at, unregisterEffect_at. cbn [dp_id]. rewrite Hid. case_decide as Ek; [|by rewrite H3].
      subst k. cbn [mbind option_bind]. rewrite H3, E. cbn [mbind option_bind].
      pose proof (binding_by_id p (mkPanel hostId (changed ?? dp_params p)) Hid) as Hb.
      destruct (bindingOf (mkPanel hostId _)) as [b|]; [done|]. destruct (bindingOf p) as [b|]; [|done].
      by destruct (proj1 Hb ltac:(by eexists)).
  - done.
  - eapply Forall_impl; [exact H5|]. intros modal. apply hosted_by. intros q Hq _ _. cbn [ho_panels].
    eexists. split; [by apply list_elem_of_fmap_2|]. cbn. by case_decide.
Qed.

Lemma unmount_hosts s hostId : hosts_ok s -> hosts_ok (hostStep s (UnmountPanel hostId)).
Proof.
  intros Hs. pose proof Hs as [H1 H2 H3 H4 H5]. cbn [hostStep]. destruct (panelAt hostId (ho_panels s)) as [p|] eqn:E; [|done].
  pose proof (panelAt_some _ _ _ E) as [Hp Hid]. split; cbn [ho_panels ho_bindings ho_modals].
  - eapply sublist_NoDup; [exact H1|]. apply fmap_sublist, filterb_sublist.
  - by apply effects_keys.
  - intros k. rewrite unregisterEffect_at, panelAt_removed, Hid. case_decide as Ek; [|by rewrite H3]. subst k.
    rewrite H3, E. cbn [mbind option_bind]. by destruct (bindingOf p).
  - destruct H4 as [es Hes]. destruct (hasHosts p); [|by exists es]. exists (es ++ [CloseHostModals hostId]).
    by rewrite foldl_app, <- Hes.
  - apply Forall_forall. intros modal Hm.
    assert (modal ∈ ml_modals (ho_modals s) /\ (hasHosts p = true -> mo_hostId (md_payload modal) <> hostId)) as [Hin Hne].
    { destruct (hasHosts p); cbn [onModalEvent ml_modals] in Hm; [|done]. apply elem_of_filterb in Hm as [? ?]. by bool_prop. }
    destruct (proj1 (Forall_forall _ _) H5 modal Hin) as [Hb|(q & Hq & He & Hh)]; [by left|right].
    exists q. split_and!; [|done|done]. cbn [ho_panels]. apply elem_of_filterb. split; [done|].
    apply negb_true_iff, bool_decide_eq_false. intros Eq. apply Hne; [|congruence].
    unfold hasHosts in *. by rewrite Hid, <- Eq.
Qed.

Lemma other_hosts s bindings active modals' :
  hosts_ok s -> bindings = ho_bindings s -> (exists es, modals' = foldl onModalEvent initialModals es) ->
  Forall (fun modal => hosted s (mo_hostId (md_payload modal))) (ml_modals modals') ->
  hosts_ok (mkHosts (ho_panels s) bindings modals' active).
Proof. intros [H1 H2 H3 H4 H5] -> Hes Hf. by split. Qed.

Lemma host_step_ok s s' : host_step s s' -> hosts_ok s -> hosts_ok s'.
Proof.
  intros (e & Hmay & ->) Hs. pose proof Hs as [H1 H2 H3 [es Hes] H5]. destruct e as [p|h changed|h|h|h|h control|title description variant key].
  - by apply mount_hosts.
  - by apply render_hosts.
  - by apply unmount_hosts.
  - cbn [hostStep]. destruct (panelAt h (ho_panels s)); [|done]. apply other_hosts; [done|done|by exists es|done].
  - cbn [hostStep]. destruct (panelAt h (ho_panels s)) as [p|] eqn:E; cbn [fmap option_fmap option_map]; [|done].
    destruct (panelContent 1 p) as [| | | |label] eqn:Ec; try done. apply other_hosts; [done|done| |].
    + exists (es ++ [OpenWidgetModal (widgetModal h)]). by rewrite foldl_app, <- Hes.
    + cbn [onModalEvent createModal ml_modals]. apply Forall_app. split; [done|]. constructor; [|constructor].
      right. exists p. pose proof (panelAt_some _ _ _ E) as [Hp Hid]. split_and!; [done|done|by eapply plain_has_hosts].
  - cbn [hostStep]. destruct (_ || _); [|done]. apply other_hosts; [done|done|by eapply click_reaches|].
    apply Forall_forall. intros modal Hm%click_modals. by apply (proj1 (Forall_forall _ _) H5).
  - cbn [hostStep]. apply other_hosts; [done|done| |].
    + exists (es ++ [OpenBodyModal title description variant key]). by rewrite foldl_app, <- Hes.
    + cbn [onModalEvent createModal ml_modals]. apply Forall_app. split; [done|]. constructor; [|constructor]. by left.
Qed.

Lemma hosts_reached s : rtc host_step noHosts s -> hosts_ok s.
Proof.
  intros Hr. refine (rtc_ind_r hosts_ok _ _ _ _ Hr); [|intros s1 s2 _ Hs; by apply host_step_ok].
  split; try by constructor. by exists [].
Qed.

(** C36: Whatever is mounted, rendered, pressed and closed in the dock: the registry
    has the terminal of each mounted terminal panel, as the panel shows it, and no
    other; and every open modal is of the body or of a panel that is mounted
    and shows its modals, where closing it leaves the other ones. *)
Theorem hosts_follow_panels s :
  rtc host_step noHosts s ->
  (forall hostId, bindingAt (ho_bindings s) hostId = panelAt hostId (ho_panels s) ≫= bindingOf) /\
  (forall modal, modal ∈ ml_modals (ho_modals s) ->
     let hostId := mo_hostId (md_payload modal) in
     hosted s hostId /\ modal ∈ hostModals hostId (ho_modals s) /\
     ml_modals (ho_modals (hostStep s (ModalClick hostId (DismissModal (md_id modal))))) =
       filterb (fun other => negb (bool_decide (md_id other = md_id modal))) (ml_modals (ho_modals s))) /\
  NoDup (md_id <$> ml_modals (ho_modals s)).
Proof.
  intros Hr. apply hosts_reached in Hr as [H1 H2 H3 [es Hes] H5]. split; [done|].
  split; [|rewrite Hes; apply modals_events].
  intros modal Hm hostId. pose proof (proj1 (Forall_forall _ _) H5 modal Hm) as Hh.
  assert (modal ∈ hostModals hostId (ho_modals s)) as Hin.
  { unfold hostModals. apply elem_of_filterb. split; [done|]. by apply bool_decide_eq_true_2. }
  split_and!; [done|done|]. cbn [hostStep].
  assert (bool_decide (hostId = BODY_MODAL_HOST_ID) || default false (hasHosts <$> panelAt hostId (ho_panels s)) = true) as ->.
  { apply orb_true_iff. destruct Hh as [Hb|(p & Hp & He & Hp2)]; [left; by apply bool_decide_eq_true_2|right].
    destruct (panelAt hostId (ho_panels s)) as [q|] eqn:E.
    - cbn. apply panelAt_some in E as [_ E]. unfold hasHosts in *. by replace (dp_id q) with (dp_id p) by (by rewrite E).
    - unfold panelAt in E. rewrite find_None in E. specialize (E p Hp). by bool_prop. }
  cbn [ho_modals ModalHostWidget].
  assert (existsb (fun other => bool_decide (md_id other = md_id modal)) (hostModals hostId (ho_modals s)) = true) as ->.
  { apply existsb_exists. exists modal. split; [by apply list_elem_of_In|]. by apply bool_decide_eq_true_2. }
  done.
Qed.

(** ** The panels that are opened *)

Lemma next_id_terminal `{Dockview} d preset : startsWith "terminal" (createNextTerminalPanelId d preset) = true.
Proof.
  apply startsWith_spec. unfold createNextTerminalPanelId. cbv zeta. destruct preset; cbn [getTerminalPanelIdSeed].
  - destruct (getPanel d "terminal-header"); [|by exists "-header"].
    set (index := showNat _). by exists ("-header-" +:+ index).
  - destruct (getPanel d "terminal"); [|by exists ""]. set (index := showNat _). by exists ("-" +:+ index).
Qed.

(** The terminals that the agent, the remote profiles and the action rail add to
    the dock are shown as such, and registered with their widget. *)
Lemma added_terminal_is_shown `{Dockview} d preset params count :
  let p := mkPanel (createNextTerminalPanelId d preset) (Some (terminalParamsJson params)) in
  panelContent count p = TerminalContent (dp_id p) (tr_widgetId params) (tr_title params) (count =? 1) /\
  bindingOf p = Some (mkBinding (dp_id p) (tr_preset params) (tr_runtimeTabId params) (tr_widgetId params)).
Proof.
  intros p. unfold panelContent, bindingOf, terminalModel, p. cbn [dp_id dp_params]. rewrite next_id_terminal.
  unfold resolveTerminalPanelParams. by rewrite terminal_params_read.
Qed.

(** The sole panel of a group shows its controls in the header of the dock, and has no close button of its own. *)
Lemma single_tab_has_no_close s displayId compactText closes showMeta :
  isSingleTab s = true -> terminalTabHeader false displayId compactText s = CompactHeader compactText closes showMeta ->
  closes = false.
Proof.
  unfold isSingleTab, terminalTabHeader, closeButton. rewrite andb_false_r. intros Hs%Nat.eqb_eq [= <- _]. rewrite Hs. done.
Qed.

(** ** Examples *)

Definition shellPanel : DockPanel :=
  mkPanel "terminal-2" (Some (terminalParamsJson (createTerminalPanelParams PresetWorkspace (Some "term_1") (Some "tab_1")))).
Definition restoredPanel : DockPanel := mkPanel "terminal-header" None.

Lemma host_reaches s e : hostMay s e -> rtc host_step noHosts s -> rtc host_step noHosts (hostStep s e).
Proof. intros Hm Hr. eapply rtc_r; [exact Hr|]. by exists e. Qed.

Lemma hosts_follow_panels_witness :
  let events := [MountPanel restoredPanel; MountPanel shellPanel; MountPanel (mkPanel "notes" None);
    RenderPanel "terminal-header" None; OpenModalButton "notes"; UnmountPanel "terminal-2"] in
  let s := foldl hostStep noHosts events in
  rtc host_step noHosts s /\ dp_id <$> ho_panels s = ["terminal-header"; "notes"] /\
  tb_runtimeWidgetId <$> bindingAt (ho_bindings s) "terminal-header" = Some "term-main" /\
  bindingAt (ho_bindings s) "terminal-2" = None.
Proof.
  intros events s.
  assert (rtc host_step noHosts s) as Hr.
  { unfold s, events. cbn [foldl]. do 3 (apply host_reaches; [exact I|]).
    do 3 (apply host_reaches; [vm_compute; set_solver|]). exact (rtc_refl _ _). }
  split; [exact Hr|]. split; [reflexivity|]. destruct (hosts_follow_panels s Hr) as [Hb _].
  rewrite !Hb. by split.
Defined.

(* A terminal that the files panel opens is a panel with the id of its widget,
   which the backend begins with [term_]: the panel shows its id instead of the
   terminal and does not register it, and yet it is the panel of the terminal for the code that looks for one to activate. *)
Example files_terminal_is_plain :
  let opened := openedPanel "files_1" (OnOpenTerminal "tab_1" "logs" "term_0a1b") in
  fst ∘ fst <$> opened = Some (mkPanel "term_0a1b"
    (Some (terminalParamsJson (createTerminalPanelParams PresetWorkspace (Some "term_0a1b") (Some "tab_1"))))) /\
  panelContent 1 ∘ fst ∘ fst <$> opened = Some (PlainContent "PANEL: term_0a1b") /\
  bindingOf ∘ fst ∘ fst <$> opened = Some None /\
  showsWidget "term_0a1b" ∘ fst ∘ fst <$> opened = Some true.
Proof. by vm_compute. Qed.

(* A panel without parameters of its own gets a new model with every rendering,
   and registers itself again behind the others: the terminal that is found when no panel of one has the focus changes
   with the renderings. *)
Example rendering_moves_the_binding :
  let mounted := foldl hostStep noHosts [MountPanel (mkPanel "terminal-3" None); MountPanel shellPanel] in
  let found s := tb_hostId <$> resolveTerminalPanelBinding (ho_bindings s) None in
  found mounted = Some "terminal-3" /\ found (hostStep mounted (RenderPanel "terminal-3" None)) = Some "terminal-2".
Proof. by vm_compute. Qed.

(* The dialogs of the modals have no button to confirm, whatever their label. *)
Example no_confirmation :
  dg_actions (modalDialog (mkModal "modal-1" (widgetModal "notes"))) = ["Dismiss"] /\
  dg_actions (modalDialog (mkModal "modal-2" (mkModalPayload "body" "Settings" "" (Some ModalSettings) (Some ContentSettingsShell)))) = [].
Proof. by split. Qed.

(* A tab stays subscribed to the group in which it was mounted: after it was
   moved it does not notice that another panel of its new group becomes active. *)
Example moved_tab_is_stale :
  let mounted := mountTab "a" "g1" (mkGroup (Some "a") ["a"]) in
  let moved := tabStep "a" (mkGroup (Some "a") ["b"; "a"]) mounted GroupChanged in
  let later := tabStep "a" (mkGroup (Some "b") ["b"; "a"]) moved (ActivePanelChanged "g2") in
  tb_isActiveTab moved = true /\ tb_isActiveTab later = true.
Proof. by vm_compute. Qed.

(** ** The list of terminal sessions ([terminal-session-navigator-widget.tsx]) *)

Section Navigator.
Context `{D : Dockview}.

(** An entry of the list, with the names of its buttons, and whether they are disabled. *)
Record SessionCard := mkCard {
  sc_key : string;
  sc_primary : string;
  sc_badge : string;
  sc_scope : string;
  sc_meta : list string;
  sc_detail : option string;
  sc_open : string;
  sc_recover : option string;
  sc_disabled : bool
}.
Definition focusActionKey (entry : TerminalSessionCatalogEntry) : string :=
  "focus:" +:+ te_widget_id entry +:+ ":" +:+ te_session_id entry.
Definition recoverActionKey (entry : TerminalSessionCatalogEntry) : string :=
  "recover:" +:+ te_widget_id entry +:+ ":" +:+ te_session_id entry.
Definition sessionCard (pendingActionKey : option string) (entry : TerminalSessionCatalogEntry) : SessionCard :=
  let recoveryLabel := resolveRecoveryLabel entry in {|
    sc_key := te_widget_id entry +:+ ":" +:+ te_session_id entry;
    sc_primary := formatTerminalSessionPrimaryText entry;
    sc_badge := if te_is_active_session entry then "active" else te_status entry;
    sc_scope := formatTerminalSessionScope entry;
    sc_meta := [if decide (te_connection_kind entry = Some "ssh") then "SSH" else "Local"; truthyOpt (Some (te_shell entry)) ?? "shell"] ++
      (match truthyOpt (te_connection_name entry) with Some name => [name] | None => [] end) ++
      (match truthyOpt (te_remote_session_name entry) with Some name => ["tmux:" +:+ name] | None => [] end) ++
      (if te_is_active_widget entry then ["focused widget"] else []);
    sc_detail := truthyOpt (te_status_detail entry);
    sc_open := if decide (pendingActionKey = Some (focusActionKey entry)) then "Opening…" else "Open";
    sc_recover :=
      if truthy recoveryLabel then
        Some (if decide (pendingActionKey = Some (recoverActionKey entry)) then "Recovering…" else recoveryLabel)
      else None;
    sc_disabled := bool_decide (is_Some pendingActionKey)
  |}.

Record SessionList := mkSessionList {
  sl_refresh : string * bool;
  sl_error : option string;
  sl_cards : list SessionCard;
  sl_empty : option string
}.
Definition TerminalSessionNavigatorWidget (s : PanelsState) : SessionList :=
  let visible := visibleEntries (ps_entries s) (ps_filterQuery s) in {|
    sl_refresh := (if ps_isLoading s then "Refreshing…" else "Refresh", ps_isLoading s || bool_decide (is_Some (ps_pendingActionKey s)));
    sl_error := truthyOpt (ps_errorMessage s);
    sl_cards := sessionCard (ps_pendingActionKey s) <$> visible;
    sl_empty := match visible with [] => Some "No terminal sessions match the current filter." | _ :: _ => None end
  |}.

Inductive SessionControl := RefreshButton | FilterInput (query : string) | OpenButton (index : nat) | RecoverButton (index : nat).

(** The call of an enabled control; the dock is there or not yet. *)
Definition navigatorCall (hasApi : bool) (s : PanelsState) (c : SessionControl) : option PanelsCall :=
  let view := TerminalSessionNavigatorWidget s in
  let entry i := visibleEntries (ps_entries s) (ps_filterQuery s) !! i in
  let free := bool_decide (ps_pendingActionKey s = None) in
  match c with
  | RefreshButton => if snd (sl_refresh view) then None else Some RefreshSessions
  | FilterInput query => Some (FilterSessions query)
  | OpenButton i => if free then FocusSession hasApi <$> entry i else None
  | RecoverButton i =>
      if free && default false ((fun card => bool_decide (is_Some (sc_recover card))) <$> sl_cards view !! i)
      then RecoverSession hasApi <$> entry i else None
  end.

(** While an action is pending only the filter does something, and a session
    that is running or starting cannot be recovered. *)
Lemma navigator_guarded hasApi s c call :
  navigatorCall hasApi s c = Some call ->
  match call with
  | FilterSessions _ => True
  | RefreshSessions => ps_pendingActionKey s = None /\ ps_isLoading s = false
  | FocusSession _ entry => ps_pendingActionKey s = None /\ entry ∈ visibleEntries (ps_entries s) (ps_filterQuery s)
  | RecoverSession _ entry =>
      ps_pendingActionKey s = None /\ entry ∈ visibleEntries (ps_entries s) (ps_filterQuery s) /\
      te_status entry <> "running" /\ te_status entry <> "starting"
  | _ => False
  end.
Proof.
  unfold navigatorCall. destruct c as [|query|i|i].
  - cbn [sl_refresh snd TerminalSessionNavigatorWidget]. destruct (_ || _) eqn:E; [done|]. intros [= <-].
    bool_prop. split; [|done]. match goal with H : ~ is_Some _ |- _ => by apply eq_None_not_Some in H end.
  - by intros [= <-].
  - destruct (bool_decide _) eqn:E; [|done]. bool_prop. intros (entry & Hi & ->)%fmap_Some.
    split; [done|]. by eapply list_elem_of_lookup_2.
  - destruct (_ && _) eqn:E; [|done]. bool_prop. intros (entry & Hi & ->)%fmap_Some.
    split; [done|]. split; [by eapply list_elem_of_lookup_2|].
    match goal with H : default false _ = true |- _ => rename H into Hc end.
    cbn [sl_cards TerminalSessionNavigatorWidget] in Hc. rewrite list_lookup_fmap, Hi in Hc. cbn in Hc.
    destruct (truthy (resolveRecoveryLabel entry)) eqn:Et; [|done]. unfold resolveRecoveryLabel in Et.
    destruct (bool_decide (te_status entry = "running")) eqn:E1; [done|].
    destruct (bool_decide (te_status entry = "starting")) eqn:E2; [done|]. by bool_prop.
Qed.

End Navigator.

(* Recovering a session that is not the active one of its widget restarts the
   widget, which restarts the active session: the request does not name the session. *)
Example recover_names_no_session `{Dockview} s entry :
  exists s' k, run (handleRecover true entry) s = (s', Waiting (RestartTerminal (te_widget_id entry)) k).
Proof. do 2 eexists. reflexivity. Qed.
